(* ===== verification/_CoqProject ===== *)
-Q . S2P
Prelude.v
Registers.v
Predictor.v
RunControl.v
Reachable.v
ReadBack.v
Buffers.v
Invariants.v
InvariantsSound.v
Transport.v
RiscvDm.v
RiscvDmSound.v
NativeTrigger.v
Session.v
Sequences.v
Expectation.v
SequencesSound.v
Coverage.v
CoverageSound.v
DutConfig.v
DutConfigSound.v
ResetValues.v
ResetValuesSound.v
ResetCtrl.v
ResetCtrlSound.v
Closures.v
AccessSequences.v
SbaSequence.v
HartArray.v
HartArraySound.v
Text.v
UvmTransport.v
StepSequences.v
DebugEntry.v
TriggerSequence.v
CommandSequences.v
DtmSequences.v
DmCorners.v
Programs.v
UvmSound.v
StepSound.v
Tap.v
OpenOcd.v
OpenOcdSound.v
Terminates.v
Shell.v
ShellSound.v
Cli.v
CliSound.v
CrossCheck.v
CrossCheckSound.v
AbstractCmd.v
Regex.v
Reports.v
Floats.v
CovRules.v
CovExclude.v
CovExcludeSound.v
Reconcile.v
Regression.v
RegressionSound.v
FcovCrosscheck.v
Disasm.v
CovSummary.v
Vcd.v
