(* ===== verification/Prelude.v ===== *)
(** * pydebug: a verification of the RISC-V debug verification package

    The package ([src/src/pydebug]) drives the Debug Module of a RISC-V system
    over its DMI registers, predicts with a golden-reference model what each
    access should return, checks every access against architectural invariants
    and counts what the stream of accesses has covered.  The scripts around it
    ([src/mk]) run regressions and judge what simulations reported.  This library
    models both as executable definitions, and proves the properties they are
    trusted for.

    ** The parts and how they interact

    A debugger program (a test sequence, a session) calls the command library;
    the command library reads and writes DMI words through a transport; a
    wrapper shows each access to observers, among them the coverage model; a
    transport backed by the golden-reference model answers with its predictions;
    the invariant checker compares the model's snapshots around each access.

    - [Prelude]: Python results ([result], [exn]), record update, lists and bit
      lemmas every file shares, the hint databases and tactics.
    - [Registers]: [model/registers.py]: [Field], [Register], every register
      table, hartsel and buffer address helpers, lookups.
    - [Predictor]: [model/predictor.py], class [DMPredictor] and its data;
      [RunControl] proves what a dmcontrol write does to each hart, [Reachable]
      the states of the model and their well-formedness, [ReadBack] the predicted
      dmcontrol, dmstatus and halt summaries, [Buffers] the data and program
      buffers, the abstract commands and System Bus Access.
    - [Invariants]: [model/invariants.py], every rule and [check_all];
      [InvariantsSound]: the checker run on the model itself.
    - [Transport]: [api/transport.py] as the class [DebugTransport], the promises
      [ModelAnswered] of a transport whose answers are the model's and
      [ModelBacked] of one that also holds the model, the programs [prog] over a
      transport with their interpreter [run], [model/mock_transport.py] ([Mock])
      and [api/observer.py] ([Observing]).
    - [UvmTransport]: [api/uvm_transport.py] over a [Bridge], the socket and the
      simulator behind it, and the class [JtagTransport] of what a transport may
      offer beyond the DMI; [UvmSound]: which readings it trusts, and that on a
      faithful bridge it is backed by the model.  [Tap]: the TAP controller and
      the clocks the JTAG driver of the testbench makes of what it sends.
    - [OpenOcd]: [api/openocd_transport.py] over a [TclServer]; [OpenOcdSound]: the
      framing and the numbers of its responses, and that it agrees with the
      simulator transport.
    - [RiscvDm]: [api/riscv_dm.py], the word encoders, the accessors and every
      method of [RISCVDebug]; [RiscvDmSound] proves them over any [ModelBacked]
      transport.
    - [NativeTrigger]: [model/native_trigger.py], with its theorems.
    - [Session]: [api/session.py], batch and interactive runs, with its theorems.
    - [Sequences]: [sequences/hart_control.py], [dm_activation], [hart_selection],
      [halt], [run_control] and [halt_on_reset]; [Expectation] is the program
      logic the proofs about sequences use, and [SequencesSound] shows that the
      sessions pass on the model.
    - [ResetValues], [ResetCtrl]: [reset_values_sequence.py] and
      [reset_ctrl_sequence.py]; [ResetValuesSound], [ResetCtrlSound]: their
      sessions on the model.
    - [Closures]: step closures that share variables, loop or catch exceptions;
      [Text]: the output of the tools the sequences read.  Over them
      [AccessSequences], [SbaSequence], [HartArray], [StepSequences],
      [DebugEntry], [TriggerSequence], [CommandSequences], [DtmSequences] and
      [DmCorners] model the other files of [sequences/], every step and builder.
      [HartArraySound] proves the verdict of the hart-array session on the model.
    - [Programs]: what a program over a transport never does whatever the device
      answers, as rules per construct; with it [StepSound] proves that the
      stepping sequences never halt the hart themselves, and [Terminates] that
      every step of every sequence ends.
    - [Coverage]: [model/coverage.py], the bins and the sampler;
      [CoverageSound]: every bin the sampler hits is declared, reports account
      for every bin, and what the model's own streams can reach.
    - [DutConfig]: [model/dut_config.py] and the declarations under
      [dut_configs/]; [DutConfigSound]: which declarations are accepted.
    - [Shell]: [api/interactive_shell.py]; [ShellSound]: which line ends it, and
      that no wrong input or failing target does.  [Cli]: [cli.py], from the
      configuration to the exit status; [CliSound]: what that status means and
      what the simulator is told.
    - [CrossCheck]: [mk/model_crosscheck.py], the SystemVerilog model's recorded
      predictions against [DMPredictor]; [CrossCheckSound]: it reports exactly
      the reads on which the two differ.
    - [AbstractCmd]: [mk/dm_abstract_cmd_bits.py], the constant bits of generated
      programs, by enumeration of samples that is proved to miss no program.
    - [Regex]: Python's regular expressions, a matcher against a relation;
      [Floats]: doubles of quotients and literals; [Reports]: text formatting and
      sorting by the first rule that applies.  With them: [CovRules] and
      [CovExclude], [mk/dm_cov_exclude.py], with [CovExcludeSound];
      [FcovCrosscheck], [mk/fcov_crosscheck.py]; [CovSummary],
      [mk/dm_cov_summary.py]; [Reconcile], [mk/reconcile.py]; [Regression],
      [mk/run_regression.py], with [RegressionSound]; [Disasm],
      [mk/trace_disasm.py]; [Vcd], [tools/vcd_analyze.py].

    ** How code is represented

    A Python integer is a [Z]; a register is masked exactly where the source
    masks it.  A class is a record, and a method that assigns [self] a function
    from the old record to the new one, in the order of the assignments; code
    that may raise returns [result], and keeps the state reached before the
    exception where later code can see it.  The command library and the
    sequences are programs of type [prog]: reads, writes, the clock, sleeping and
    the tracked hartsel are its constructors, and [run] interprets a program on a
    transport.  [predicted] interprets the same program on the model alone, and
    [run_predicted] is the refinement that lets a theorem about the model speak of
    every transport backed by it: [Mock], [Observing] around any such transport,
    and the simulator transport on a faithful bridge; [run_answered] does so for
    transports that answer as the model without holding it.  A session's step is
    a function on the world the steps share.  Text is ASCII wherever it is read;
    the non-ASCII marks of a report are the bytes of their UTF-8 encoding.
    Sockets, processes, files, module imports, clocks and tools are parameters:
    classes, or arguments of the definitions that use them.

    ** What the theorems show

    - Types and invariants: every reachable state of the model is well formed
      ([reachable_wf]), havereset is sticky, a halted hart stays halted until a
      resume or a reset.
    - Functional behaviour: what haltreq, resumereq and the resets do to each
      hart; what dmstatus reports; what [halt] and [resume] of the command library
      reach, whatever the timeout; the verdict of a batch session; that the
      modelled sequences pass on the model.
    - Round trips and refinement: register tables encode and decode, dmcontrol
      words carry their arguments and read back, registers written through
      abstract commands and words written over the system bus read back as an
      abstract store says, bursts included.
    - Equivalence: observers that do not raise change nothing for any program; the
      simulator and OpenOCD transports agree; each cross-check finds exactly the
      differences there are.
    - Termination and bounds: polling ends on any transport and reads no more
      often than its timeout allows, every step of every sequence ends
      ([sequences_end]), connecting ends ([connect_transport_ends]); [predict] is
      total and returns 32-bit words.
    - Errors: the checker and the sampler never raise; which declarations are
      accepted; a reading with unknown bits is refused; the shell survives its
      user; and the behaviours where the code does not do what it means to, each
      stated as a theorem about the code as it is.
    - Verdicts: what an exit status means, for a run of a scenario
      ([exit_status_verdict]), the reconciliation ([reconciled]) and the
      cross-checks ([crosscheck_exact], [fcov_agrees]); that the regression reads
      back the verdict the session printed ([verdict_read_back]); that nothing
      uncovered is excluded without a rule that applies or lost
      ([exclusions_justified]); that a disassembled trace stays in step
      ([disasm_aligned]) and a waveform dump is read back ([dump_read_back]).

    ** Fuel, time and bounds

    Times are integers of microseconds, and a [Clock] says when a sleep wakes:
    never before it is due.  The polling loops take a fuel, [poll_fuel timeout]:
    a round that goes on sleeps at least the poll interval before the deadline,
    so [timeout / POLL_INTERVAL + 2] rounds suffice, and the fuel never runs out
    ([poll_terminates], [poll_halted_fuel], and [sequences_end] for the loops of
    the sequences).  The dwell of [PrivIrq] has a fuel of 4 rounds.  The wait of [run_elf] is bounded
    in simulated time only, and ends if that time advances at every read.  The
    loop that reads an OpenOCD response has the number of chunks as its fuel, the
    waits of the command line [wait_fuel], a star of a pattern the rest of the
    text, and the parser of patterns three times their length.

    ** Not modelled

    - [bridge_utils.py], [c_bridge], and what is behind the transports: sockets,
      the simulator, the OpenOCD server and process.
    - Of [cli.py], the argument parser, the sources and init subcommands and the
      log format; what a session prints under the simulator is recorded as the
      lines given to the sink, not sent through the transport.
    - Of [mk], the argument parsers, the reading of YAML (a library does it), the
      launching and killing of processes, the mean of coverage percentages (how
      Python rounds a sum depends on its version), and the shell scripts.
    - [simulation] and [paper]: benchmarks over sockets and document generation.
    - The SystemVerilog testbench but for the TAP, the JTAG driver and the trace
      lines of the reference model; the RTL and the [tests].
    - Log messages, the floating-point percentages of the coverage model's own
      report, and the prose that only documents a bin, an exclusion or a
      violation.
*)

From stdpp Require Export base numbers list gmap strings pretty.
From Stdlib Require Export ZArith Lia.

#[export] Set Default Goal Selector "!".
#[global] Open Scope Z_scope.
Local Open Scope string_scope.
Local Open Scope Z_scope.

#[global] Arguments Z.testbit : simpl never.
#[global] Arguments Z.land : simpl never.
#[global] Arguments Z.lor : simpl never.
#[global] Arguments Z.shiftl : simpl never.
#[global] Arguments Z.shiftr : simpl never.
#[global] Arguments Z.lnot : simpl never.

(** * Python exceptions and the result of code that may raise *)

(** The exception classes the modelled code raises, with the message or key. *)
Inductive exn :=
  | KeyError (key : string)
  | ValueError (msg : string)
  | IndexError (msg : string)
  | AttributeError (attr : string)
  | DebugError (msg : string)
  | TransportError (msg : string)
  | KeyboardInterrupt (msg : string)
  | TypeError (msg : string)
  | FileNotFoundError (msg : string)
  | RuntimeError (msg : string)
  | OSError (msg : string)
  (** The evaluation of the model ran out of the fuel it was given; no Python
      execution corresponds to it, and the termination theorems exclude it. *)
  | OutOfFuel.

#[export] Instance exn_eq_dec : EqDecision exn.
Proof. solve_decision. Defined.

Inductive result (A : Type) :=
  | Ok (a : A)
  | Raise (e : exn).
Arguments Ok {A} a.
Arguments Raise {A} e.

Definition rbind {A B} (m : result A) (k : A -> result B) : result B :=
  match m with Ok a => k a | Raise e => Raise e end.

Definition rmap {A B} (f : A -> B) (m : result A) : result B :=
  match m with Ok a => Ok (f a) | Raise e => Raise e end.

Definition is_ok {A} (m : result A) : bool :=
  match m with Ok _ => true | Raise _ => false end.

Lemma Ok_inj {A} (a b : A) : Ok a = Ok b -> a = b.
Proof. congruence. Qed.

(** The value of a result, with a default where the code raised. *)
Definition value_or {A} (d : A) (m : result A) : A :=
  match m with Ok a => a | Raise _ => d end.

Declare Scope py_scope.
Delimit Scope py_scope with py.

Notation "'try' x '<-' m ';;' k" := (rbind m (fun x => k))
  (at level 100, x name, m at next level, right associativity) : py_scope.

#[global] Open Scope py_scope.

(** * Functional record update *)

(** [Settable R] holds a copy of the identity of [R] written field by field;
    the setter of a field is read off it by abstracting that field. *)
Class Settable (R : Type) := eta_of : R -> R.

Class Setter {R T : Type} (proj : R -> T) := update_field : (T -> T) -> R -> R.

Ltac derive_setter proj :=
  match type of proj with
  | ?R -> ?T =>
      let e := eval hnf in (_ : Settable R) in
      lazymatch eval pattern proj in e with
      | ?g _ => exact (fun (f : T -> T) (r : R) => g (fun x => f (proj x)) r)
      end
  end.

#[export] Hint Extern 1 (@Setter ?R ?T ?proj) => derive_setter proj : typeclass_instances.

Definition setf {R T} (proj : R -> T) {s : Setter proj} (v : T) (r : R) : R :=
  update_field (fun _ => v) r.

Notation "r <| p := v |>" := (setf p v r)
  (at level 1, left associativity, p at level 200, v at level 200,
   format "r  <| p  :=  v |>") : py_scope.

(** * Python dictionaries with string keys, in insertion order *)

(** [d[k]]: a missing key raises [KeyError]. *)
Fixpoint getitem {A} (d : list (string * A)) (k : string) : result A :=
  match d with
  | [] => Raise (KeyError k)
  | (k', v) :: d' => if String.eqb k k' then Ok v else getitem d' k
  end.

(** [d.get(k, dflt)]. *)
Definition dict_get {A} (d : list (string * A)) (k : string) (dflt : A) : A :=
  value_or dflt (getitem d k).

(** [bool(n)] and [int(b)] of Python. *)
Definition truthy (n : Z) : bool := negb (n =? 0).
Definition to_int (b : bool) : Z := Z.b2z b.

(** [a << n] of Python: a negative shift count raises [ValueError]. *)
Definition py_shl (a n : Z) : result Z :=
  if n <? 0 then Raise (ValueError "negative shift count") else Ok (Z.shiftl a n).

(** The [n] low hexadecimal digits of [n], most significant first. *)
Fixpoint hex_digits (n : nat) (v : Z) (acc : string) : string :=
  match n with
  | O => acc
  | S n' =>
      let d := Z.to_nat (v mod 16) in
      let c := default (Ascii.ascii_of_nat 63) (String.get d "0123456789abcdef") in
      hex_digits n' (v / 16) (String c acc)
  end.

(** [f"0x{v:0<w>x}"] of Python: at least [w] characters, zero-padded. *)
Definition py_hex (w : nat) (v : Z) : string :=
  let digits := S (Z.to_nat (Z.log2 (Z.abs v) / 4)) in
  if v <? 0 then "0x-" +:+ hex_digits (Nat.max (w - 1) digits) (- v) ""
  else "0x" +:+ hex_digits (Nat.max w digits) v "".

(** [range(n)], as integers. *)
Definition py_range (n : Z) : list Z := seqZ 0 n.

(** Python's [all] and [any] over a list of booleans. *)
Definition py_all (l : list bool) : bool := forallb id l.
Definition py_any (l : list bool) : bool := existsb id l.

(** [for x in l: acc = f(acc, x)], stopping at the first exception. *)
Fixpoint fold_ok {A S} (f : S -> A -> result S) (s : S) (l : list A) : result S :=
  match l with
  | [] => Ok s
  | x :: l' => rbind (f s x) (fun s' => fold_ok f s' l')
  end.

(** * Automation *)

(** Case analysis on every integer comparison of the goal, dropping the
    impossible branches. *)
Ltac zcases :=
  repeat match goal with
  | |- context [?a <=? ?b] => destruct (Z.leb_spec a b); try lia
  | |- context [?a <? ?b] => destruct (Z.ltb_spec a b); try lia
  | |- context [?a =? ?b] => destruct (Z.eqb_spec a b); try lia
  end; cbn [andb orb negb].

(** Turn the boolean tests among the hypotheses into propositions. *)
Ltac zhyps :=
  repeat match goal with
  | H : (_ && _) = true |- _ => apply andb_true_iff in H; destruct H
  | H : negb _ = true |- _ => apply negb_true_iff in H
  | H : negb _ = false |- _ => apply negb_false_iff in H
  | H : (_ || _) = false |- _ => apply orb_false_iff in H; destruct H
  | H : (_ <=? _) = true |- _ => apply Z.leb_le in H
  | H : (_ <=? _) = false |- _ => apply Z.leb_gt in H
  | H : (_ <? _) = true |- _ => apply Z.ltb_lt in H
  | H : (_ <? _) = false |- _ => apply Z.ltb_ge in H
  | H : (_ =? _) = true |- _ => apply Z.eqb_eq in H
  | H : (_ =? _) = false |- _ => apply Z.eqb_neq in H
  end.

(** Membership in a list written out. *)
Ltac in_list :=
  apply list_elem_of_In; cbn; repeat first [left; reflexivity | right].

(** ** Boolean goals by evaluation over every assignment *)

Definition all_bool (P : bool -> bool) : bool := P true && P false.

Lemma all_bool_spec (P : bool -> bool) : all_bool P = true -> forall b, P b = true.
Proof. unfold all_bool. intros [Ht Hf]%andb_true_iff [|]; done. Qed.

Lemma eqb_implb (a b g : bool) :
  (if Bool.eqb a b then g else true) = true -> a = b -> g = true.
Proof. intros Hi ->. by rewrite Bool.eqb_reflx in Hi. Qed.

(** Prove a boolean equation from boolean equations by evaluating it for every
    value of the boolean variables; tests of single bits count as variables. *)
Ltac bool_solve :=
  intros;
  repeat match goal with
  | H : ?b = true |- _ => is_var b; subst b
  | H : ?b = false |- _ => is_var b; subst b
  | H : Z.testbit _ _ = _ |- _ => rewrite ?H in *; clear H
  end;
  apply Bool.eqb_prop;
  repeat match goal with H : @eq bool _ _ |- _ => revert H; apply eqb_implb end;
  repeat match goal with |- context [Z.testbit ?v ?i] => generalize (Z.testbit v i); intros ? end;
  repeat match goal with b : bool |- _ => revert b; apply all_bool_spec end;
  vm_compute; reflexivity.

(** * Bits *)

Lemma truthy_spec n : truthy n = true <-> n <> 0.
Proof. unfold truthy. rewrite negb_true_iff, Z.eqb_neq. done. Qed.

Lemma truthy_to_int b : truthy (to_int b) = b.
Proof. by destruct b. Qed.

Lemma to_int_bound b : 0 <= to_int b < 2.
Proof. destruct b; simpl; lia. Qed.

Lemma ones_shiftl n : 0 <= n -> Z.shiftl 1 n - 1 = Z.ones n.
Proof. intros. rewrite Z.ones_equiv, Z.shiftl_1_l. lia. Qed.

Lemma testbit_ones n i :
  0 <= n -> 0 <= i -> Z.testbit (Z.ones n) i = (i <? n).
Proof.
  intros Hn Hi. destruct (Z.ltb_spec i n).
  - apply Z.ones_spec_low. lia.
  - apply Z.ones_spec_high. lia.
Qed.

(** A word whose bits at and above [n] are clear is below [2^n], and back. *)
Lemma bits_bounded n w :
  0 <= n -> (forall i, n <= i -> Z.testbit w i = false) -> 0 <= w < 2 ^ n.
Proof.
  intros Hn Hb.
  assert (w = w mod 2 ^ n) as Heq.
  { apply Z.bits_inj'. intros i Hi. rewrite <-Z.land_ones by lia.
    rewrite Z.land_spec, testbit_ones by lia.
    destruct (Z.ltb_spec i n).
    - by rewrite andb_true_r.
    - rewrite (Hb i) by lia. done. }
  rewrite Heq. apply Z.mod_pos_bound. lia.
Qed.

Lemma bounded_bits n w i : 0 <= w < 2 ^ n -> n <= i -> Z.testbit w i = false.
Proof.
  intros Hw Hi. destruct (Z.eq_dec w 0) as [-> |Hz]; [apply Z.bits_0 |].
  apply Z.bits_above_log2; [lia |].
  apply Z.lt_le_trans with n; [| lia].
  apply Z.log2_lt_pow2; lia.
Qed.

Lemma lor_bounded n a b :
  0 <= n -> 0 <= a < 2 ^ n -> 0 <= b < 2 ^ n -> 0 <= Z.lor a b < 2 ^ n.
Proof.
  intros Hn Ha Hb. apply bits_bounded; [done |]. intros i Hi.
  rewrite Z.lor_spec, (bounded_bits n a), (bounded_bits n b) by done. done.
Qed.

Lemma land_bounded n a b : 0 <= n -> 0 <= b < 2 ^ n -> 0 <= Z.land a b < 2 ^ n.
Proof.
  intros Hn Hb. apply bits_bounded; [done |]. intros i Hi.
  rewrite Z.land_spec, (bounded_bits n b) by done. by rewrite andb_false_r.
Qed.

Lemma land_bounded_l n a b : 0 <= n -> 0 <= a < 2 ^ n -> 0 <= Z.land a b < 2 ^ n.
Proof. intros. rewrite Z.land_comm. by apply land_bounded. Qed.

Lemma shiftl_bounded n a w k :
  0 <= w < 2 ^ a -> 0 <= k -> 0 <= a -> a + k <= n -> 0 <= Z.shiftl w k < 2 ^ n.
Proof.
  intros Hw Hk Ha Hn. apply bits_bounded; [lia|]. intros i Hi.
  rewrite Z.shiftl_spec by lia. destruct (Z.ltb_spec i k).
  - by apply Z.testbit_neg_r; lia.
  - apply (bounded_bits a); lia.
Qed.

(** The bits of a word accumulated by [lor]ing in one bit per item. *)
Lemma testbit_fold_lor {A} (c : A -> bool) (g : A -> Z) l w i :
  0 <= i -> (forall x, x ∈ l -> 0 <= g x) ->
  Z.testbit (fold_left (fun w x => if c x then Z.lor w (Z.shiftl 1 (g x)) else w) l w) i =
  Z.testbit w i || existsb (fun x => c x && (g x =? i)) l.
Proof.
  intros Hi. revert w. induction l as [|x l IH]; intros w Hg; cbn [fold_left existsb].
  { by rewrite orb_false_r. }
  rewrite IH by (intros y Hy; apply Hg; by right).
  assert (Z.testbit (if c x then Z.lor w (Z.shiftl 1 (g x)) else w) i =
          Z.testbit w i || (c x && (g x =? i))) as ->.
  { destruct (c x); [|by rewrite orb_false_r]. cbn [andb]. rewrite Z.lor_spec. f_equal.
    rewrite Z.shiftl_1_l. rewrite Z.pow2_bits_eqb; [done|]. apply Hg. by left. }
  by rewrite orb_assoc.
Qed.

(** * Lists updated in place *)

(** [for i in idx: f(l[i])] where [f] mutates the object at index [i]. *)
Definition alter_all {A} (f : A -> A) (idx : list nat) (l : list A) : list A :=
  fold_left (fun l i => alter f i l) idx l.

Lemma length_alter_all {A} (f : A -> A) idx l :
  length (alter_all f idx l) = length l.
Proof.
  unfold alter_all. revert l. induction idx as [|i idx IH]; intros l; [done |].
  cbn [fold_left]. by rewrite IH, length_alter.
Qed.
