(* ===== verification/Registers.v ===== *)
(** Spec-traced register and field definitions: [model/registers.py].

    [Field] and [Register] are the two frozen dataclasses with their methods;
    the tables are the module's constants, field for field.  A register word
    is an unbounded integer, as in Python; what is known of its width is
    proved, not assumed.  Each definition names the source lines it translates. *)

From S2P Require Import Prelude.

Local Open Scope string_scope.
Local Open Scope Z_scope.

(** registers.py:45-50 (ACCESS_R .. ACCESS_WARZ) *)
Inductive Access :=
  ACCESS_R | ACCESS_RW | ACCESS_W1 | ACCESS_W1C | ACCESS_WARL | ACCESS_WARZ.

#[export] Instance Access_eq_dec : EqDecision Access.
Proof. solve_decision. Defined.

(** registers.py:55-55 (ACCESS_READS_ZERO) *)
Definition ACCESS_READS_ZERO : list Access := [ACCESS_W1; ACCESS_WARZ].

Module Field.

(** registers.py:58-69 (Field attributes) *)
Record t := mk {
  name : string;
  lsb : Z;
  width : Z;
  access : Access;
  spec : string;
  reset : option Z
}.

(** registers.py:71-73 (Field.msb) *)
Definition msb (f : t) : Z := lsb f + width f - 1.

(** registers.py:75-78 (Field.value_mask) *)
Definition value_mask (f : t) : Z := Z.shiftl 1 (width f) - 1.

(** registers.py:80-83 (Field.mask) *)
Definition mask (f : t) : Z := Z.shiftl (value_mask f) (lsb f).

(** registers.py:85-87 (Field.reads_zero) *)
Definition reads_zero (f : t) : bool := bool_decide (access f ∈ ACCESS_READS_ZERO).

(** registers.py:89-91 (Field.extract) *)
Definition extract (f : t) (word : Z) : Z :=
  Z.land (Z.shiftr word (lsb f)) (value_mask f).

(** registers.py:93-95 (Field.insert) *)
Definition insert (f : t) (word value : Z) : Z :=
  Z.lor (Z.land word (Z.lnot (mask f)))
        (Z.shiftl (Z.land value (value_mask f)) (lsb f)).

End Field.

Module Register.

(** registers.py:102-109 (Register attributes) *)
Record t := mk {
  name : string;
  address : Z;
  spec : string;
  fields : list Field.t
}.

(** registers.py:111-115 (Register.field) *)
Definition field (r : t) (n : string) : result Field.t :=
  match find (fun f => String.eqb (Field.name f) n) (fields r) with
  | Some f => Ok f
  | None => Raise (KeyError (name r +:+ " has no field '" +:+ n +:+ "'"))
  end.

(** registers.py:117-118 (Register.has_field) *)
Definition has_field (r : t) (n : string) : bool :=
  existsb (fun f => String.eqb (Field.name f) n) (fields r).

(** registers.py:120-122 (Register.decode) *)
Definition decode (r : t) (word : Z) : list (string * Z) :=
  map (fun f => (Field.name f, Field.extract f word)) (fields r).

(** registers.py:124-129 (Register.encode) *)
Definition encode (r : t) (values : list (string * Z)) : result Z :=
  fold_ok (fun word '(n, value) =>
             rbind (field r n) (fun f => Ok (Field.insert f word value)))
          0 values.

End Register.

(** registers.py:142-162 (DMCONTROL) *)
Definition DMCONTROL : Register.t :=
  Register.mk "dmcontrol" 0x10 "#3.14.2"
    [
     Field.mk "haltreq" 31 1 ACCESS_WARZ "#3.14.2 haltreq" None;
     Field.mk "resumereq" 30 1 ACCESS_W1 "#3.14.2 resumereq" None;
     Field.mk "hartreset" 29 1 ACCESS_WARL "#3.14.2 hartreset" (Some 0);
     Field.mk "ackhavereset" 28 1 ACCESS_W1 "#3.14.2 ackhavereset" None;
     Field.mk "ackunavail" 27 1 ACCESS_W1 "#3.14.2 ackunavail" None;
     Field.mk "hasel" 26 1 ACCESS_WARL "#3.14.2 hasel" (Some 0);
     Field.mk "hartsello" 16 10 ACCESS_WARL "#3.14.2 hartsello" (Some 0);
     Field.mk "hartselhi" 6 10 ACCESS_WARL "#3.14.2 hartselhi" (Some 0);
     Field.mk "setkeepalive" 5 1 ACCESS_W1 "#3.14.2 setkeepalive" None;
     Field.mk "clrkeepalive" 4 1 ACCESS_W1 "#3.14.2 clrkeepalive" None;
     Field.mk "setresethaltreq" 3 1 ACCESS_W1 "#3.14.2 setresethaltreq" None;
     Field.mk "clrresethaltreq" 2 1 ACCESS_W1 "#3.14.2 clrresethaltreq" None;
     Field.mk "ndmreset" 1 1 ACCESS_RW "#3.14.2 ndmreset" (Some 0);
     Field.mk "dmactive" 0 1 ACCESS_RW "#3.14.2 dmactive" (Some 0)].

(** registers.py:169-175 (DMCONTROL_MUTEX_BITS) *)
Definition DMCONTROL_MUTEX_BITS : list string :=
  ["resumereq"; "hartreset"; "ackhavereset"; "setresethaltreq"; "clrresethaltreq"].

(** registers.py:185-211 (DMSTATUS) *)
Definition DMSTATUS : Register.t :=
  Register.mk "dmstatus" 0x11 "#3.14.1"
    [
     Field.mk "ndmresetpending" 24 1 ACCESS_R "#3.14.1 ndmresetpending" None;
     Field.mk "stickyunavail" 23 1 ACCESS_R "#3.14.1 stickyunavail" None;
     Field.mk "impebreak" 22 1 ACCESS_R "#3.14.1 impebreak" None;
     Field.mk "allhavereset" 19 1 ACCESS_R "#3.14.1 allhavereset" None;
     Field.mk "anyhavereset" 18 1 ACCESS_R "#3.14.1 anyhavereset" None;
     Field.mk "allresumeack" 17 1 ACCESS_R "#3.14.1 allresumeack" None;
     Field.mk "anyresumeack" 16 1 ACCESS_R "#3.14.1 anyresumeack" None;
     Field.mk "allnonexistent" 15 1 ACCESS_R "#3.14.1 allnonexistent" None;
     Field.mk "anynonexistent" 14 1 ACCESS_R "#3.14.1 anynonexistent" None;
     Field.mk "allunavail" 13 1 ACCESS_R "#3.14.1 allunavail" None;
     Field.mk "anyunavail" 12 1 ACCESS_R "#3.14.1 anyunavail" None;
     Field.mk "allrunning" 11 1 ACCESS_R "#3.14.1 allrunning" None;
     Field.mk "anyrunning" 10 1 ACCESS_R "#3.14.1 anyrunning" None;
     Field.mk "allhalted" 9 1 ACCESS_R "#3.14.1 allhalted" None;
     Field.mk "anyhalted" 8 1 ACCESS_R "#3.14.1 anyhalted" None;
     Field.mk "authenticated" 7 1 ACCESS_R "#3.14.1 authenticated" None;
     Field.mk "authbusy" 6 1 ACCESS_R "#3.14.1 authbusy" None;
     Field.mk "hasresethaltreq" 5 1 ACCESS_R "#3.14.1 hasresethaltreq" None;
     Field.mk "confstrptrvalid" 4 1 ACCESS_R "#3.14.1 confstrptrvalid" None;
     Field.mk "version" 0 4 ACCESS_R "#3.14.1 version" (Some 3)].

(** registers.py:214-218 (DMSTATUS_VERSION_NONE .. DMSTATUS_VERSION_CUSTOM) *)
Definition DMSTATUS_VERSION_NONE : Z := 0.
Definition DMSTATUS_VERSION_0_11 : Z := 1.
Definition DMSTATUS_VERSION_0_13 : Z := 2.
Definition DMSTATUS_VERSION_1_0 : Z := 3.
Definition DMSTATUS_VERSION_CUSTOM : Z := 15.

(** registers.py:222-229 (DMSTATUS_ALL_ANY_PAIRS) *)
Definition DMSTATUS_ALL_ANY_PAIRS : list (string * string) :=
  [("allhavereset", "anyhavereset");
   ("allresumeack", "anyresumeack");
   ("allnonexistent", "anynonexistent");
   ("allunavail", "anyunavail");
   ("allrunning", "anyrunning");
   ("allhalted", "anyhalted")].

(** registers.py:236-236 (HARTSEL_MAX_WIDTH) *)
Definition HARTSEL_MAX_WIDTH : Z := 20.

(** [DMCONTROL.field("hartselhi")] and [DMCONTROL.field("hartsello")], looked up
    in the table; [dmcontrol_hartsel_fields] proves that neither lookup raises. *)
Definition field_of (r : Register.t) (n : string) : Field.t :=
  value_or (Field.mk n 0 0 ACCESS_R "none" None) (Register.field r n).

(** registers.py:154-154 (hartselhi) *)
Definition hartselhi_field : Field.t := field_of DMCONTROL "hartselhi".

(** registers.py:153-153 (hartsello) *)
Definition hartsello_field : Field.t := field_of DMCONTROL "hartsello".

(** registers.py:239-243 (hartsel_of) *)
Definition hartsel_of (dmcontrol_word : Z) : Z :=
  let hi := Field.extract hartselhi_field dmcontrol_word in
  let lo := Field.extract hartsello_field dmcontrol_word in
  Z.lor (Z.shiftl hi 10) lo.

(** registers.py:246-249 (with_hartsel) *)
Definition with_hartsel (dmcontrol_word hartsel : Z) : Z :=
  let word := Field.insert hartsello_field dmcontrol_word (Z.land hartsel 0x3FF) in
  Field.insert hartselhi_field word (Z.land (Z.shiftr hartsel 10) 0x3FF).

(** registers.py:273-283 (HARTINFO) *)
Definition HARTINFO : Register.t :=
  Register.mk "hartinfo" 0x12 "#3.14.11"
    [
     Field.mk "nscratch" 20 4 ACCESS_R "#3.14.11 nscratch" None;
     Field.mk "dataaccess" 16 1 ACCESS_R "#3.14.11 dataaccess" None;
     Field.mk "datasize" 12 4 ACCESS_R "#3.14.11 datasize" None;
     Field.mk "dataaddr" 0 12 ACCESS_R "#3.14.11 dataaddr" None].

(** registers.py:294-299 (HAWINDOWSEL) *)
Definition HAWINDOWSEL : Register.t :=
  Register.mk "hawindowsel" 0x14 "#3.14.4"
    [
     Field.mk "hawindowsel" 0 15 ACCESS_WARL "#3.14.4 hawindowsel" (Some 0)].

(** registers.py:301-306 (HAWINDOW) *)
Definition HAWINDOW : Register.t :=
  Register.mk "hawindow" 0x15 "#3.14.5"
    [
     Field.mk "maskdata" 0 32 ACCESS_WARL "#3.14.5 maskdata" (Some 0)].

(** registers.py:309-309 (HARTS_PER_HAWINDOW) *)
Definition HARTS_PER_HAWINDOW : Z := 32.

(** registers.py:312-314 (hawindow_of) *)
Definition hawindow_of (hart : Z) : Z * Z :=
  (hart / HARTS_PER_HAWINDOW, hart mod HARTS_PER_HAWINDOW).

(** registers.py:324-335 (ABSTRACTCS) *)
Definition ABSTRACTCS : Register.t :=
  Register.mk "abstractcs" 0x16 "#3.14.6"
    [
     Field.mk "progbufsize" 24 5 ACCESS_R "#3.14.6 progbufsize" None;
     Field.mk "busy" 12 1 ACCESS_R "#3.14.6 busy" (Some 0);
     Field.mk "relaxedpriv" 11 1 ACCESS_WARL "#3.14.6 relaxedpriv" None;
     Field.mk "cmderr" 8 3 ACCESS_W1C "#3.14.6 cmderr" (Some 0);
     Field.mk "datacount" 0 4 ACCESS_R "#3.14.6 datacount" None].

(** registers.py:339-348 (CMDERR_NONE .. CMDERR_CLEAR) *)
Definition CMDERR_NONE : Z := 0.
Definition CMDERR_BUSY : Z := 1.
Definition CMDERR_NOT_SUPPORTED : Z := 2.
Definition CMDERR_EXCEPTION : Z := 3.
Definition CMDERR_HALT_RESUME : Z := 4.
Definition CMDERR_BUS : Z := 5.
Definition CMDERR_OTHER : Z := 7.
Definition CMDERR_CLEAR : Z := 7.

(** registers.py:357-365 (COMMAND) *)
Definition COMMAND : Register.t :=
  Register.mk "command" 0x17 "#3.14.7"
    [
     Field.mk "cmdtype" 24 8 ACCESS_WARL "#3.14.7 cmdtype" None;
     Field.mk "control" 0 24 ACCESS_WARL "#3.14.7 control" None].

(** registers.py:368-370 (CMDTYPE_ACCESS_REGISTER .. CMDTYPE_ACCESS_MEMORY) *)
Definition CMDTYPE_ACCESS_REGISTER : Z := 0.
Definition CMDTYPE_QUICK_ACCESS : Z := 1.
Definition CMDTYPE_ACCESS_MEMORY : Z := 2.

(** registers.py:376-388 (ACCESS_REGISTER) *)
Definition ACCESS_REGISTER : Register.t :=
  Register.mk "command.access_register" 0x17 "#3.14.7.1"
    [
     Field.mk "aarsize" 20 3 ACCESS_WARL "#3.14.7.1 aarsize" None;
     Field.mk "aarpostincrement" 19 1 ACCESS_WARL "#3.14.7.1 aarpostincrement" None;
     Field.mk "postexec" 18 1 ACCESS_WARL "#3.14.7.1 postexec" None;
     Field.mk "transfer" 17 1 ACCESS_WARL "#3.14.7.1 transfer" None;
     Field.mk "write" 16 1 ACCESS_WARL "#3.14.7.1 write" None;
     Field.mk "regno" 0 16 ACCESS_WARL "#3.14.7.1 regno" None].

(** registers.py:392-403 (ACCESS_MEMORY) *)
Definition ACCESS_MEMORY : Register.t :=
  Register.mk "command.access_memory" 0x17 "#3.14.7.3"
    [
     Field.mk "aamvirtual" 23 1 ACCESS_WARL "#3.14.7.3 aamvirtual" None;
     Field.mk "aamsize" 20 3 ACCESS_WARL "#3.14.7.3 aamsize" None;
     Field.mk "aampostincrement" 19 1 ACCESS_WARL "#3.14.7.3 aampostincrement" None;
     Field.mk "write" 16 1 ACCESS_WARL "#3.14.7.3 write" None;
     Field.mk "target_specific" 14 2 ACCESS_WARL "#3.14.7.3 target-specific" None].

(** registers.py:406-413 (AASIZE_32 .. REGNO_FPR_BASE) *)
Definition AASIZE_32 : Z := 2.
Definition AASIZE_64 : Z := 3.
Definition AASIZE_128 : Z := 4.
Definition REGNO_CSR_BASE : Z := 0x0000.
Definition REGNO_GPR_BASE : Z := 0x1000.
Definition REGNO_FPR_BASE : Z := 0x1020.

(** registers.py:416-418 (regno_of_gpr) *)
Definition regno_of_gpr (index : Z) : Z := REGNO_GPR_BASE + index.

(** registers.py:421-423 (regno_of_csr) *)
Definition regno_of_csr (number : Z) : Z := REGNO_CSR_BASE + number.

(** registers.py:433-441 (ABSTRACTAUTO) *)
Definition ABSTRACTAUTO : Register.t :=
  Register.mk "abstractauto" 0x18 "#3.14.8"
    [
     Field.mk "autoexecprogbuf" 16 16 ACCESS_WARL "#3.14.8 autoexecprogbuf" (Some 0);
     Field.mk "autoexecdata" 0 12 ACCESS_WARL "#3.14.8 autoexecdata" (Some 0)].

(** registers.py:454-465 (DMCS2) *)
Definition DMCS2 : Register.t :=
  Register.mk "dmcs2" 0x32 "#3.14.3"
    [
     Field.mk "grouptype" 11 1 ACCESS_WARL "#3.14.3 grouptype" (Some 0);
     Field.mk "dmexttrigger" 7 4 ACCESS_WARL "#3.14.3 dmexttrigger" (Some 0);
     Field.mk "group" 2 5 ACCESS_WARL "#3.14.3 group" (Some 0);
     Field.mk "hgwrite" 1 1 ACCESS_W1 "#3.14.3 hgwrite" None;
     Field.mk "hgselect" 0 1 ACCESS_WARL "#3.14.3 hgselect" (Some 0)].

(** registers.py:468-472 (GROUPTYPE_HALT .. GROUP_NONE) *)
Definition GROUPTYPE_HALT : Z := 0.
Definition GROUPTYPE_RESUME : Z := 1.
Definition GROUP_NONE : Z := 0.

(** registers.py:482-483 (HALTSUM0) *)
Definition HALTSUM0 : Register.t :=
  Register.mk "haltsum0" 0x40 "#3.14.10"
    [
     Field.mk "haltsum0" 0 32 ACCESS_R "#3.14.10 haltsum0" None].

(** registers.py:484-485 (HALTSUM1) *)
Definition HALTSUM1 : Register.t :=
  Register.mk "haltsum1" 0x13 "#3.14.10"
    [
     Field.mk "haltsum1" 0 32 ACCESS_R "#3.14.10 haltsum1" None].

(** registers.py:486-487 (HALTSUM2) *)
Definition HALTSUM2 : Register.t :=
  Register.mk "haltsum2" 0x34 "#3.14.10"
    [
     Field.mk "haltsum2" 0 32 ACCESS_R "#3.14.10 haltsum2" None].

(** registers.py:488-489 (HALTSUM3) *)
Definition HALTSUM3 : Register.t :=
  Register.mk "haltsum3" 0x35 "#3.14.10"
    [
     Field.mk "haltsum3" 0 32 ACCESS_R "#3.14.10 haltsum3" None].

(** registers.py:492-492 (HALTSUM_LEVELS) *)
Definition HALTSUM_LEVELS : list Register.t := [HALTSUM0; HALTSUM1; HALTSUM2; HALTSUM3].

(** registers.py:495-497 (haltsum_bit) *)
Definition haltsum_bit (hart level : Z) : Z :=
  if truthy level then Z.land (Z.shiftr hart (5 * level)) 0x1F
  else Z.land hart 0x1F.

(** registers.py:506-510 (DATA0 .. CONFSTRPTR0) *)
Definition DATA0 : Z := 0x04.
Definition DATA11 : Z := 0x0F.
Definition PROGBUF0 : Z := 0x20.
Definition PROGBUF15 : Z := 0x2F.
Definition NEXTDM : Z := 0x1D.
Definition AUTHDATA : Z := 0x30.
Definition CONFSTRPTR0 : Z := 0x19.

(** registers.py:513-517 (data_address) *)
Definition data_address (index : Z) : result Z :=
  if negb ((0 <=? index) && (index <=? DATA11 - DATA0))
  then Raise (ValueError ("data" +:+ pretty index +:+ " does not exist (data0-data11 only)"))
  else Ok (DATA0 + index).

(** registers.py:520-524 (progbuf_address) *)
Definition progbuf_address (index : Z) : result Z :=
  if negb ((0 <=? index) && (index <=? PROGBUF15 - PROGBUF0))
  then Raise (ValueError ("progbuf" +:+ pretty index +:+ " does not exist (progbuf0-progbuf15 only)"))
  else Ok (PROGBUF0 + index).

(** registers.py:542-563 (DCSR) *)
Definition DCSR : Register.t :=
  Register.mk "dcsr" 0x7b0 "Sdext 4.9.1"
    [
     Field.mk "debugver" 28 4 ACCESS_R "Sdext 4.9.1 debugver" (Some 4);
     Field.mk "ebreakvs" 17 1 ACCESS_WARL "Sdext 4.9.1 ebreakvs" (Some 0);
     Field.mk "ebreakvu" 16 1 ACCESS_WARL "Sdext 4.9.1 ebreakvu" (Some 0);
     Field.mk "ebreakm" 15 1 ACCESS_RW "Sdext 4.9.1 ebreakm" (Some 0);
     Field.mk "ebreaks" 13 1 ACCESS_WARL "Sdext 4.9.1 ebreaks" (Some 0);
     Field.mk "ebreaku" 12 1 ACCESS_WARL "Sdext 4.9.1 ebreaku" (Some 0);
     Field.mk "stepie" 11 1 ACCESS_WARL "Sdext 4.9.1 stepie" (Some 0);
     Field.mk "stopcount" 10 1 ACCESS_WARL "Sdext 4.9.1 stopcount" None;
     Field.mk "stoptime" 9 1 ACCESS_WARL "Sdext 4.9.1 stoptime" None;
     Field.mk "cause" 6 3 ACCESS_R "Sdext 4.9.1 cause" None;
     Field.mk "v" 5 1 ACCESS_WARL "Sdext 4.9.1 v" (Some 0);
     Field.mk "mprven" 4 1 ACCESS_WARL "Sdext 4.9.1 mprven" None;
     Field.mk "nmip" 3 1 ACCESS_R "Sdext 4.9.1 nmip" None;
     Field.mk "step" 2 1 ACCESS_RW "Sdext 4.9.1 step" (Some 0);
     Field.mk "prv" 0 2 ACCESS_WARL "Sdext 4.9.1 prv" None].

(** registers.py:566-570 (DCSR_CAUSE_EBREAK .. DCSR_CAUSE_RESETHALTREQ) *)
Definition DCSR_CAUSE_EBREAK : Z := 1.
Definition DCSR_CAUSE_TRIGGER : Z := 2.
Definition DCSR_CAUSE_HALTREQ : Z := 3.
Definition DCSR_CAUSE_STEP : Z := 4.
Definition DCSR_CAUSE_RESETHALTREQ : Z := 5.

(** registers.py:575-575 (DPC) *)
Definition DPC : Register.t :=
  Register.mk "dpc" 0x7b1 "Sdext 4.9.2"
    [].

(** registers.py:576-576 (DSCRATCH0) *)
Definition DSCRATCH0 : Register.t :=
  Register.mk "dscratch0" 0x7b2 "Sdext 4.9.3"
    [].

(** registers.py:577-577 (DSCRATCH1) *)
Definition DSCRATCH1 : Register.t :=
  Register.mk "dscratch1" 0x7b3 "Sdext 4.9.3"
    [].

(** registers.py:582-582 (TSELECT) *)
Definition TSELECT : Register.t :=
  Register.mk "tselect" 0x7a0 "Sdtrig 5.7.1"
    [].

(** registers.py:587-587 (TDATA1_TYPE_LSB_RV32, TDATA1_TYPE_LSB_RV64) *)
Definition TDATA1_TYPE_LSB_RV32 : Z := 28.
Definition TDATA1_TYPE_LSB_RV64 : Z := 60.

(** registers.py:590-602 (TRIGGER_TYPE_NONE .. TRIGGER_ACTION_DEBUG_MODE) *)
Definition TRIGGER_TYPE_NONE : Z := 0.
Definition TRIGGER_TYPE_MCONTROL : Z := 2.
Definition TRIGGER_TYPE_ICOUNT : Z := 3.
Definition TRIGGER_TYPE_ITRIGGER : Z := 4.
Definition TRIGGER_TYPE_ETRIGGER : Z := 5.
Definition TRIGGER_TYPE_MCONTROL6 : Z := 6.
Definition TRIGGER_TYPE_TMEXTTRIGGER : Z := 7.
Definition TRIGGER_TYPE_DISABLED : Z := 15.
Definition TRIGGER_ACTION_BREAKPOINT : Z := 0.
Definition TRIGGER_ACTION_DEBUG_MODE : Z := 1.

(** registers.py:605-628 (MCONTROL6) *)
Definition MCONTROL6 : Register.t :=
  Register.mk "mcontrol6" 0x7a1 "Sdtrig 5.7.12"
    [
     Field.mk "uncertain" 26 1 ACCESS_WARL "Sdtrig 5.7.12 uncertain" (Some 0);
     Field.mk "hit1" 25 1 ACCESS_WARL "Sdtrig 5.7.12 hit1" (Some 0);
     Field.mk "vs" 24 1 ACCESS_WARL "Sdtrig 5.7.12 vs" (Some 0);
     Field.mk "vu" 23 1 ACCESS_WARL "Sdtrig 5.7.12 vu" (Some 0);
     Field.mk "hit0" 22 1 ACCESS_WARL "Sdtrig 5.7.12 hit0" (Some 0);
     Field.mk "select" 21 1 ACCESS_WARL "Sdtrig 5.7.12 select" (Some 0);
     Field.mk "size" 16 3 ACCESS_WARL "Sdtrig 5.7.12 size" (Some 0);
     Field.mk "action" 12 4 ACCESS_WARL "Sdtrig 5.7.12 action" (Some 0);
     Field.mk "chain" 11 1 ACCESS_WARL "Sdtrig 5.7.12 chain" (Some 0);
     Field.mk "match" 7 4 ACCESS_WARL "Sdtrig 5.7.12 match" (Some 0);
     Field.mk "m" 6 1 ACCESS_WARL "Sdtrig 5.7.12 m" (Some 0);
     Field.mk "uncertainen" 5 1 ACCESS_WARL "Sdtrig 5.7.12 uncertainen" (Some 0);
     Field.mk "s" 4 1 ACCESS_WARL "Sdtrig 5.7.12 s" (Some 0);
     Field.mk "u" 3 1 ACCESS_WARL "Sdtrig 5.7.12 u" (Some 0);
     Field.mk "execute" 2 1 ACCESS_WARL "Sdtrig 5.7.12 execute" (Some 0);
     Field.mk "store" 1 1 ACCESS_WARL "Sdtrig 5.7.12 store" (Some 0);
     Field.mk "load" 0 1 ACCESS_WARL "Sdtrig 5.7.12 load" (Some 0)].

(** registers.py:632-647 (ICOUNT) *)
Definition ICOUNT : Register.t :=
  Register.mk "icount" 0x7a1 "Sdtrig 5.7.13"
    [
     Field.mk "vs" 26 1 ACCESS_WARL "Sdtrig 5.7.13 vs" (Some 0);
     Field.mk "vu" 25 1 ACCESS_WARL "Sdtrig 5.7.13 vu" (Some 0);
     Field.mk "hit" 24 1 ACCESS_WARL "Sdtrig 5.7.13 hit" (Some 0);
     Field.mk "count" 10 14 ACCESS_WARL "Sdtrig 5.7.13 count" (Some 1);
     Field.mk "m" 9 1 ACCESS_WARL "Sdtrig 5.7.13 m" (Some 0);
     Field.mk "pending" 8 1 ACCESS_RW "Sdtrig 5.7.13 pending" (Some 0);
     Field.mk "s" 7 1 ACCESS_WARL "Sdtrig 5.7.13 s" (Some 0);
     Field.mk "u" 6 1 ACCESS_WARL "Sdtrig 5.7.13 u" (Some 0);
     Field.mk "action" 0 6 ACCESS_WARL "Sdtrig 5.7.13 action" (Some 0)].

(** registers.py:652-666 (ITRIGGER) *)
Definition ITRIGGER : Register.t :=
  Register.mk "itrigger" 0x7a1 "Sdtrig 5.7.14"
    [
     Field.mk "hit" 24 1 ACCESS_WARL "Sdtrig 5.7.14 hit" (Some 0);
     Field.mk "vs" 12 1 ACCESS_WARL "Sdtrig 5.7.14 vs" (Some 0);
     Field.mk "vu" 11 1 ACCESS_WARL "Sdtrig 5.7.14 vu" (Some 0);
     Field.mk "nmi" 10 1 ACCESS_WARL "Sdtrig 5.7.14 nmi" (Some 0);
     Field.mk "m" 9 1 ACCESS_WARL "Sdtrig 5.7.14 m" (Some 0);
     Field.mk "s" 7 1 ACCESS_WARL "Sdtrig 5.7.14 s" (Some 0);
     Field.mk "u" 6 1 ACCESS_WARL "Sdtrig 5.7.14 u" (Some 0);
     Field.mk "action" 0 6 ACCESS_WARL "Sdtrig 5.7.14 action" (Some 0)].

(** registers.py:668-681 (ETRIGGER) *)
Definition ETRIGGER : Register.t :=
  Register.mk "etrigger" 0x7a1 "Sdtrig 5.7.15"
    [
     Field.mk "hit" 24 1 ACCESS_WARL "Sdtrig 5.7.15 hit" (Some 0);
     Field.mk "vs" 12 1 ACCESS_WARL "Sdtrig 5.7.15 vs" (Some 0);
     Field.mk "vu" 11 1 ACCESS_WARL "Sdtrig 5.7.15 vu" (Some 0);
     Field.mk "m" 9 1 ACCESS_WARL "Sdtrig 5.7.15 m" (Some 0);
     Field.mk "s" 7 1 ACCESS_WARL "Sdtrig 5.7.15 s" (Some 0);
     Field.mk "u" 6 1 ACCESS_WARL "Sdtrig 5.7.15 u" (Some 0);
     Field.mk "action" 0 6 ACCESS_WARL "Sdtrig 5.7.15 action" (Some 0)].

(** registers.py:687-687 (TDATA2) *)
Definition TDATA2 : Register.t :=
  Register.mk "tdata2" 0x7a2 "Sdtrig 5.7.3"
    [].

(** registers.py:688-688 (TDATA3) *)
Definition TDATA3 : Register.t :=
  Register.mk "tdata3" 0x7a3 "Sdtrig 5.7.4"
    [].

(** registers.py:692-698 (TINFO) *)
Definition TINFO : Register.t :=
  Register.mk "tinfo" 0x7a4 "Sdtrig 5.7.6"
    [
     Field.mk "version" 24 8 ACCESS_R "Sdtrig 5.7.6 version" None;
     Field.mk "info" 0 16 ACCESS_R "Sdtrig 5.7.6 info" None].

(** registers.py:702-705 (CSR_REGISTERS) *)
Definition CSR_REGISTERS : gmap Z Register.t :=
  list_to_map (map (fun r => (Register.address r, r))
    [DCSR; DPC; DSCRATCH0; DSCRATCH1; TSELECT; TDATA2; TDATA3; TINFO]).

(** registers.py:708-713 (TDATA1_LAYOUTS) *)
Definition TDATA1_LAYOUTS : gmap Z Register.t :=
  list_to_map
    [(TRIGGER_TYPE_MCONTROL6, MCONTROL6); (TRIGGER_TYPE_ICOUNT, ICOUNT);
     (TRIGGER_TYPE_ITRIGGER, ITRIGGER); (TRIGGER_TYPE_ETRIGGER, ETRIGGER)].

(** registers.py:716-719 (tdata1_type) *)
Definition tdata1_type (word xlen : Z) : Z :=
  let lsb := if xlen =? 64 then TDATA1_TYPE_LSB_RV64 else TDATA1_TYPE_LSB_RV32 in
  Z.land (Z.shiftr word lsb) 0xF.

(** registers.py:722-725 (tdata1_dmode) *)
Definition tdata1_dmode (word xlen : Z) : Z :=
  let lsb := if xlen =? 64 then TDATA1_TYPE_LSB_RV64 else TDATA1_TYPE_LSB_RV32 in
  Z.land (Z.shiftr word (lsb - 1)) 1.

(** registers.py:732-738 (REGISTERS) *)
Definition REGISTERS : gmap Z Register.t :=
  list_to_map (map (fun r => (Register.address r, r))
    [DMCONTROL; DMSTATUS; HARTINFO; HALTSUM1; HAWINDOWSEL; HAWINDOW; ABSTRACTCS;
     COMMAND; ABSTRACTAUTO; DMCS2; HALTSUM2; HALTSUM3; HALTSUM0]).

(** registers.py:741-743 (register_at) *)
Definition register_at (address : Z) : option Register.t := REGISTERS !! address.

(** * Field slices *)

Lemma testbit_value_mask f i :
  0 <= Field.width f -> 0 <= i -> Z.testbit (Field.value_mask f) i = (i <? Field.width f).
Proof.
  intros Hw Hi. unfold Field.value_mask. rewrite ones_shiftl by done. by apply testbit_ones.
Qed.

Lemma testbit_extract f w i :
  0 <= Field.width f -> 0 <= i ->
  Z.testbit (Field.extract f w) i = (i <? Field.width f) && Z.testbit w (i + Field.lsb f).
Proof.
  intros Hw Hi. unfold Field.extract.
  rewrite Z.land_spec, testbit_value_mask, Z.shiftr_spec by done. apply andb_comm.
Qed.

(** Whether bit [i] of the register word belongs to the field. *)
Definition in_field (f : Field.t) (i : Z) : bool :=
  (Field.lsb f <=? i) && (i <? Field.lsb f + Field.width f).

Lemma testbit_insert f w v i :
  0 <= Field.lsb f -> 0 <= Field.width f -> 0 <= i ->
  Z.testbit (Field.insert f w v) i =
  if in_field f i then Z.testbit v (i - Field.lsb f) else Z.testbit w i.
Proof.
  intros Hl Hw Hi. unfold Field.insert, Field.mask, in_field.
  rewrite Z.lor_spec, Z.land_spec, Z.lnot_spec, !Z.shiftl_spec by done.
  destruct (Z.leb_spec (Field.lsb f) i) as [Hli|Hli]; simpl.
  - rewrite Z.land_spec, testbit_value_mask by lia.
    zcases; rewrite ?andb_false_r, ?andb_true_r, ?orb_false_r; done.
  - rewrite !(Z.testbit_neg_r _ (i - Field.lsb f)) by lia.
    by rewrite andb_true_r, orb_false_r.
Qed.

(** A field that lies inside a 32-bit word. *)
Definition field_wf (f : Field.t) : bool :=
  (0 <=? Field.lsb f) && (1 <=? Field.width f) && (Field.lsb f + Field.width f <=? 32).

Definition disjoint_fields (f g : Field.t) : bool :=
  (Field.lsb f + Field.width f <=? Field.lsb g) || (Field.lsb g + Field.width g <=? Field.lsb f).

Fixpoint fields_wf (l : list Field.t) : bool :=
  match l with
  | [] => true
  | f :: l' =>
      field_wf f && forallb (disjoint_fields f) l'
      && forallb (fun g => negb (String.eqb (Field.name f) (Field.name g))) l'
      && fields_wf l'
  end.

Definition register_wf (r : Register.t) : bool := fields_wf (Register.fields r).

Lemma field_wf_spec f : field_wf f = true <-> 0 <= Field.lsb f /\ 1 <= Field.width f /\ Field.lsb f + Field.width f <= 32.
Proof. unfold field_wf. rewrite !andb_true_iff, !Z.leb_le. tauto. Qed.

Lemma extract_insert_same f w v :
  0 <= Field.lsb f -> 0 <= Field.width f ->
  Field.extract f (Field.insert f w v) = Z.land v (Field.value_mask f).
Proof.
  intros Hl Hw. apply Z.bits_inj'. intros i Hi.
  rewrite testbit_extract, testbit_insert, Z.land_spec, testbit_value_mask by lia.
  unfold in_field. zcases; rewrite ?andb_true_r, ?andb_false_r; try done.
  f_equal. lia.
Qed.

Lemma extract_insert_disjoint f g w v :
  0 <= Field.lsb f -> 0 <= Field.width f -> 0 <= Field.lsb g -> 0 <= Field.width g ->
  disjoint_fields f g = true ->
  Field.extract g (Field.insert f w v) = Field.extract g w.
Proof.
  intros Hlf Hwf Hlg Hwg Hd. apply Z.bits_inj'. intros i Hi.
  rewrite !testbit_extract, testbit_insert by lia.
  destruct (Z.ltb_spec i (Field.width g)) as [Hb|]; [|done]. simpl.
  assert (in_field f (i + Field.lsb g) = false) as ->; [|done].
  unfold disjoint_fields in Hd. rewrite orb_true_iff, !Z.leb_le in Hd.
  unfold in_field. apply andb_false_iff. rewrite Z.leb_gt, Z.ltb_ge. lia.
Qed.

Lemma extract_bounded f w :
  0 <= Field.width f -> 0 <= Field.extract f w < 2 ^ Field.width f.
Proof.
  intros Hw. apply bits_bounded; [done|]. intros i Hi.
  rewrite testbit_extract by lia. by zcases.
Qed.

Lemma insert_bounded n f w v :
  0 <= Field.lsb f -> 0 <= Field.width f -> Field.lsb f + Field.width f <= n ->
  0 <= w < 2 ^ n -> 0 <= Field.insert f w v < 2 ^ n.
Proof.
  intros Hl Hw Hn Hb. apply bits_bounded; [lia|]. intros i Hi.
  rewrite testbit_insert by lia. unfold in_field.
  zcases; rewrite ?andb_false_r; by apply bounded_bits with n.
Qed.

(** A one-bit field carries exactly one bit of the word. *)
Lemma extract_bit f w :
  0 <= Field.lsb f -> Field.width f = 1 ->
  Field.extract f w = Z.b2z (Z.testbit w (Field.lsb f)).
Proof.
  intros Hl Hw. apply Z.bits_inj'. intros i Hi.
  rewrite testbit_extract, Hw by lia. destruct (Z.eq_dec i 0) as [->|].
  - rewrite Z.add_0_l, Z.b2z_bit0. done.
  - zcases. symmetry. apply bounded_bits with 1; [|lia].
    destruct (Z.testbit w (Field.lsb f)); simpl; lia.
Qed.

(** ** Looking fields up by name *)

Lemma field_names_differ (f g : Field.t) l :
  fields_wf (f :: l) = true -> g ∈ l ->
  Field.name f <> Field.name g /\ disjoint_fields f g = true.
Proof.
  cbn [fields_wf]. rewrite !andb_true_iff, !forallb_forall. intros [[[_ Hd] Hn] _] Hin.
  apply list_elem_of_In in Hin. split; [|by apply Hd].
  apply Hn, negb_true_iff, String.eqb_neq in Hin. done.
Qed.

Lemma fields_wf_in l f : fields_wf l = true -> f ∈ l -> field_wf f = true.
Proof.
  induction l as [|g l IH]; cbn [fields_wf]; [by rewrite elem_of_nil|].
  rewrite !andb_true_iff. intros [[[Hg _] _] Hl] [->|Hin]%elem_of_cons; auto.
Qed.

Lemma field_lookup r f :
  register_wf r = true -> f ∈ Register.fields r -> Register.field r (Field.name f) = Ok f.
Proof.
  unfold register_wf, Register.field. generalize (Register.fields r) as l. intros l Hwf Hin.
  assert (find (fun g => String.eqb (Field.name g) (Field.name f)) l = Some f) as ->; [|done].
  induction l as [|g l IH]; [by apply elem_of_nil in Hin|].
  pose proof Hwf as Hwf'. cbn [fields_wf] in Hwf'. rewrite !andb_true_iff in Hwf'.
  destruct Hwf' as [_ Hl]. simpl. apply elem_of_cons in Hin as [->|Hin].
  - by rewrite String.eqb_refl.
  - destruct (field_names_differ g f l Hwf Hin) as [Hne _].
    apply String.eqb_neq in Hne. rewrite Hne. auto.
Qed.

Lemma field_found r n f :
  Register.field r n = Ok f -> f ∈ Register.fields r /\ Field.name f = n.
Proof.
  unfold Register.field. destruct (find _ _) as [g|] eqn:E; [|done].
  intros [= ->]. apply find_some in E as [Hin Heq].
  apply String.eqb_eq in Heq. by rewrite <-list_elem_of_In in Hin.
Qed.

Lemma fields_disjoint r f g :
  register_wf r = true -> f ∈ Register.fields r -> g ∈ Register.fields r ->
  Field.name f <> Field.name g -> disjoint_fields f g = true.
Proof.
  unfold register_wf. generalize (Register.fields r) as l. intros l.
  induction l as [|h l IH]; intros Hwf Hf Hg Hne; [by apply elem_of_nil in Hf|].
  pose proof Hwf as Hwf'. cbn [fields_wf] in Hwf'. rewrite !andb_true_iff in Hwf'.
  destruct Hwf' as [_ Hl].
  apply elem_of_cons in Hf as [->|Hf]; apply elem_of_cons in Hg as [->|Hg]; [done| | |auto].
  - by apply (field_names_differ h g l).
  - destruct (field_names_differ h f l Hwf Hf) as [_ Hd].
    unfold disjoint_fields in *. by rewrite orb_comm.
Qed.

Lemma getitem_decode r f w :
  register_wf r = true -> f ∈ Register.fields r ->
  getitem (Register.decode r w) (Field.name f) = Ok (Field.extract f w).
Proof.
  unfold register_wf, Register.decode. generalize (Register.fields r) as l.
  intros l. induction l as [|g l IH]; intros Hwf Hin; [by apply elem_of_nil in Hin|].
  pose proof Hwf as Hwf'. cbn [fields_wf] in Hwf'. rewrite !andb_true_iff in Hwf'.
  destruct Hwf' as [_ Hl]. simpl. apply elem_of_cons in Hin as [->|Hin].
  - by rewrite String.eqb_refl.
  - destruct (field_names_differ g f l Hwf Hin) as [Hne _].
    assert (String.eqb (Field.name f) (Field.name g) = false) as ->
      by (apply String.eqb_neq; congruence). auto.
Qed.

(** ** Encoding *)

Definition encode_from (r : Register.t) (w : Z) (vs : list (string * Z)) : result Z :=
  fold_ok (fun word '(n, value) =>
             rbind (Register.field r n) (fun f => Ok (Field.insert f word value)))
          w vs.

Lemma dict_get_cons_ne {A} (n m : string) (v d : A) l :
  n <> m -> dict_get ((n, v) :: l) m d = dict_get l m d.
Proof.
  intros Hne. unfold dict_get. simpl.
  assert (String.eqb m n = false) as -> by (apply String.eqb_neq; congruence). done.
Qed.

Lemma dict_get_not_in {A} (l : list (string * A)) m d :
  m ∉ map fst l -> dict_get l m d = d.
Proof.
  induction l as [|[n v] l IH]; intros Hni; [done|].
  cbn in Hni. rewrite not_elem_of_cons in Hni. destruct Hni.
  rewrite dict_get_cons_ne by congruence. auto.
Qed.

Lemma encode_from_spec r vs w0 w :
  register_wf r = true -> NoDup (map fst vs) -> 0 <= w0 < 2 ^ 32 ->
  encode_from r w0 vs = Ok w ->
  0 <= w < 2 ^ 32 /\
  forall f, f ∈ Register.fields r ->
    Field.extract f w =
    if bool_decide (Field.name f ∈ map fst vs)
    then Z.land (dict_get vs (Field.name f) 0) (Field.value_mask f)
    else Field.extract f w0.
Proof.
  intros Hwf. revert w0. induction vs as [|[n v] vs IH]; intros w0 Hnd Hw0 He.
  - injection He as <-. split; [done|]. intros f Hf.
    rewrite bool_decide_eq_false_2; [done|]. apply not_elem_of_nil.
  - cbn in Hnd. apply NoDup_cons in Hnd as [Hni Hnd].
    unfold encode_from in He. cbn [fold_ok] in He.
    destruct (Register.field r n) as [g|] eqn:Hg; [|done]. cbn [rbind] in He.
    apply field_found in Hg as [Hgin <-].
    pose proof (fields_wf_in _ g Hwf Hgin) as Hgw. apply field_wf_spec in Hgw.
    destruct (IH (Field.insert g w0 v)) as [Hb Hext]; [done| |done|].
    { apply insert_bounded; lia. }
    split; [done|]. intros f Hf. rewrite (Hext f Hf). cbn [map fst].
    pose proof (fields_wf_in _ f Hwf Hf) as Hfw. apply field_wf_spec in Hfw.
    destruct (decide (Field.name f = Field.name g)) as [Heq|Hne].
    + assert (f = g) as ->.
      { pose proof (field_lookup r f Hwf Hf). pose proof (field_lookup r g Hwf Hgin).
        congruence. }
      rewrite bool_decide_eq_false_2 by done.
      rewrite bool_decide_eq_true_2 by (apply elem_of_cons; by left).
      rewrite extract_insert_same by lia. unfold dict_get. simpl.
      by rewrite String.eqb_refl.
    + rewrite dict_get_cons_ne by congruence.
      rewrite extract_insert_disjoint; [|lia..|by apply (fields_disjoint r)].
      assert (Field.name f ∈ Field.name g :: map fst vs <-> Field.name f ∈ map fst vs) as Hiff
        by (rewrite elem_of_cons; split; [intros [?|?]; done | by right]).
      by rewrite (bool_decide_ext _ _ Hiff).
Qed.

Lemma extract_0 f : Field.extract f 0 = 0.
Proof. unfold Field.extract. by rewrite Z.shiftr_0_l, Z.land_0_l. Qed.

(** C40: For every register table with in-range, pairwise disjoint, distinctly
    named fields, a word built by [encode] fits in 32 bits and decodes to
    exactly the values given, truncated to their fields, every other field
    being 0. *)
Theorem encode_decode_roundtrip r vs w :
  register_wf r = true -> NoDup (map fst vs) -> Register.encode r vs = Ok w ->
  0 <= w < 2 ^ 32 /\
  Register.decode r w =
  map (fun f => (Field.name f,
                 Z.land (dict_get vs (Field.name f) 0) (Field.value_mask f)))
      (Register.fields r).
Proof.
  intros Hwf Hnd He.
  destruct (encode_from_spec r vs 0 w) as [Hb Hext]; [done..|lia|done|].
  split; [done|]. unfold Register.decode. apply map_ext_in. intros f Hf.
  apply list_elem_of_In in Hf. rewrite (Hext f Hf). f_equal. case_bool_decide as Hin; [done|].
  by rewrite dict_get_not_in, extract_0, Z.land_0_l.
Qed.

Lemma encode_ok r vs :
  is_ok (Register.encode r vs) = forallb (fun '(n, _) => Register.has_field r n) vs.
Proof.
  unfold Register.encode. generalize 0 as w. induction vs as [|[n v] vs IH]; intros w; [done|].
  cbn [fold_ok forallb].
  assert (Register.has_field r n = is_ok (Register.field r n)) as ->.
  { unfold Register.has_field, Register.field. induction (Register.fields r) as [|f l IHl]; [done|].
    simpl. destruct (String.eqb _ _); simpl; [done|]. exact IHl. }
  destruct (Register.field r n); simpl; [apply IH|done].
Qed.

(** Every table of the module is well formed. *)
Definition ALL_TABLES : list Register.t :=
  [DMCONTROL; DMSTATUS; HARTINFO; HAWINDOWSEL; HAWINDOW; ABSTRACTCS; COMMAND;
   ACCESS_REGISTER; ACCESS_MEMORY; ABSTRACTAUTO; DMCS2; HALTSUM0; HALTSUM1;
   HALTSUM2; HALTSUM3; DCSR; DPC; DSCRATCH0; DSCRATCH1; TSELECT; MCONTROL6;
   ICOUNT; ITRIGGER; ETRIGGER; TDATA2; TDATA3; TINFO].

Theorem tables_wf : forallb register_wf ALL_TABLES = true.
Proof. vm_compute. reflexivity. Qed.

Lemma land_0x3FF h : Z.land h 0x3FF = h mod 2 ^ 10.
Proof. change 0x3FF with (Z.ones 10). by rewrite Z.land_ones by lia. Qed.

Lemma testbit_land_0x3FF h i : 0 <= i -> Z.testbit (Z.land h 0x3FF) i = Z.testbit h i && (i <? 10).
Proof. intros Hi. change 0x3FF with (Z.ones 10). by rewrite Z.land_spec, testbit_ones by lia. Qed.

Lemma dmcontrol_hartsel_fields :
  Register.field DMCONTROL "hartselhi" = Ok hartselhi_field /\
  Register.field DMCONTROL "hartsello" = Ok hartsello_field.
Proof. split; reflexivity. Qed.

(** The positions of the two halves of hartsel, once the table is read. *)
Ltac hartsel_fields :=
  change (Field.lsb hartselhi_field) with 6 in *;
  change (Field.width hartselhi_field) with 10 in *;
  change (Field.lsb hartsello_field) with 16 in *;
  change (Field.width hartsello_field) with 10 in *.

Lemma testbit_hartsel_of w i :
  0 <= i ->
  Z.testbit (hartsel_of w) i =
  if i <? 10 then Z.testbit w (i + 16) else (i <? 20) && Z.testbit w (i - 4).
Proof.
  intros Hi. unfold hartsel_of. rewrite Z.lor_spec, Z.shiftl_spec by done.
  rewrite (testbit_extract hartsello_field) by (cbn; lia).  hartsel_fields. destruct (Z.ltb_spec i 10).
  - rewrite Z.testbit_neg_r by lia. done.
  - rewrite testbit_extract by (cbn; lia). hartsel_fields.
    replace (i - 10 + 6) with (i - 4) by lia. rewrite andb_false_l, orb_false_r.
    f_equal. by zcases.
Qed.

Lemma hartsel_of_bounded w : 0 <= hartsel_of w < 2 ^ 20.
Proof.
  apply bits_bounded; [done|]. intros i Hi. rewrite testbit_hartsel_of by lia.
  destruct (Z.ltb_spec i 10); [lia|]. by destruct (Z.ltb_spec i 20); [lia|].
Qed.

Lemma testbit_with_hartsel w h i :
  0 <= i ->
  Z.testbit (with_hartsel w h) i =
  if (6 <=? i) && (i <? 16) then Z.testbit h (i + 4)
  else if (16 <=? i) && (i <? 26) then Z.testbit h (i - 16)
  else Z.testbit w i.
Proof.
  intros Hi. unfold with_hartsel. rewrite !testbit_insert by (cbn; lia).
  unfold in_field.
  hartsel_fields. change (6 + 10) with 16. change (16 + 10) with 26.
  destruct ((6 <=? i) && (i <? 16)) eqn:Hhi; zhyps.
  - rewrite testbit_land_0x3FF, Z.shiftr_spec by lia.
    replace (i - 6 + 10) with (i + 4) by lia. zcases. by rewrite andb_true_r.
  - destruct ((16 <=? i) && (i <? 26)) eqn:Hlo; zhyps; [|done].
    rewrite testbit_land_0x3FF by lia. zcases. by rewrite andb_true_r.
Qed.

Lemma hartsel_of_with_hartsel w h : hartsel_of (with_hartsel w h) = h mod 2 ^ HARTSEL_MAX_WIDTH.
Proof.
  unfold HARTSEL_MAX_WIDTH. rewrite <-Z.land_ones by lia. apply Z.bits_inj'. intros i Hi.
  rewrite testbit_hartsel_of, Z.land_spec, testbit_ones by lia.
  destruct (Z.ltb_spec i 10); [|destruct (Z.ltb_spec i 20)].
  - rewrite testbit_with_hartsel by lia. zcases. rewrite andb_true_r. f_equal. lia.
  - rewrite testbit_with_hartsel by lia. zcases. rewrite andb_true_r. f_equal. lia.
  - by rewrite andb_false_r.
Qed.

Lemma dmcontrol_field_wf f :
  f ∈ Register.fields DMCONTROL -> 0 <= Field.lsb f /\ 1 <= Field.width f /\ Field.lsb f + Field.width f <= 32.
Proof. intros Hf. apply field_wf_spec, (fields_wf_in (Register.fields DMCONTROL)); done. Qed.

Lemma extract_with_hartsel w h f :
  f ∈ Register.fields DMCONTROL ->
  Field.name f <> "hartsello" -> Field.name f <> "hartselhi" ->
  Field.extract f (with_hartsel w h) = Field.extract f w.
Proof.
  intros Hf Hlo Hhi. unfold with_hartsel.
  destruct dmcontrol_hartsel_fields as [Hfhi Hflo].
  apply field_found in Hfhi as [Hfhi Hnhi], Hflo as [Hflo Hnlo].
  assert (register_wf DMCONTROL = true) as Hwf by done.
  pose proof (dmcontrol_field_wf _ Hf). pose proof (dmcontrol_field_wf _ Hfhi).
  pose proof (dmcontrol_field_wf _ Hflo).
  rewrite !extract_insert_disjoint; try lia; try done;
    apply (fields_disjoint DMCONTROL); congruence.
Qed.

(** Words with the same hartsel agree on its two halves. *)
Lemma hartsel_halves w v :
  hartsel_of w = hartsel_of v ->
  Field.extract hartsello_field w = Field.extract hartsello_field v /\
  Field.extract hartselhi_field w = Field.extract hartselhi_field v.
Proof.
  intros He.
  assert (forall i, 0 <= i < 20 -> Z.testbit (hartsel_of w) i = Z.testbit (hartsel_of v) i) as Hb
    by by rewrite He.
  split; apply Z.bits_inj'; intros i Hi; rewrite !testbit_extract by (cbn; lia); hartsel_fields;
    (destruct (Z.ltb_spec i 10); [cbn [andb]|done]).
  - specialize (Hb i). rewrite !testbit_hartsel_of in Hb by lia.
    destruct (Z.ltb_spec i 10); [|lia]. apply Hb. lia.
  - specialize (Hb (i + 10)). rewrite !testbit_hartsel_of in Hb by lia.
    destruct (Z.ltb_spec (i + 10) 10); [lia|]. destruct (Z.ltb_spec (i + 10) 20); [|lia].
    replace (i + 10 - 4) with (i + 6) in Hb by lia. apply Hb. lia.
Qed.

Lemma with_hartsel_bounded w h : 0 <= w < 2 ^ 32 -> 0 <= with_hartsel w h < 2 ^ 32.
Proof.
  intros Hw. unfold with_hartsel.
  apply insert_bounded; [cbn; lia..|]. apply insert_bounded; [cbn; lia..|done].
Qed.

(** Splitting a hart index over the two 10-bit fields and assembling it
    back gives the index modulo [2^20], and leaves every other dmcontrol bit. *)
Theorem hartsel_roundtrip w h :
  hartsel_of (with_hartsel w h) = h mod 2 ^ HARTSEL_MAX_WIDTH /\
  (forall f, f ∈ Register.fields DMCONTROL ->
     Field.name f <> "hartsello" -> Field.name f <> "hartselhi" ->
     Field.extract f (with_hartsel w h) = Field.extract f w).
Proof. split; [apply hartsel_of_with_hartsel|auto using extract_with_hartsel]. Qed.

(** [data_address] and [progbuf_address] return the register's address
    exactly for the indices that exist and raise ValueError for every other
    index. *)
Theorem buffer_addresses i :
  (0 <= i <= 11 -> data_address i = Ok (DATA0 + i)) /\
  (~ 0 <= i <= 11 -> exists m, data_address i = Raise (ValueError m)) /\
  (0 <= i <= 15 -> progbuf_address i = Ok (PROGBUF0 + i)) /\
  (~ 0 <= i <= 15 -> exists m, progbuf_address i = Raise (ValueError m)).
Proof.
  unfold data_address, progbuf_address.
  change (DATA11 - DATA0) with 11. change (PROGBUF15 - PROGBUF0) with 15.
  repeat split; intros H; zcases; eauto.
Qed.

(** The hart array window and bit index of a hart name exactly that hart. *)
Theorem hawindow_of_roundtrip hart :
  let '(sel, bit) := hawindow_of hart in
  HARTS_PER_HAWINDOW * sel + bit = hart /\ 0 <= bit < HARTS_PER_HAWINDOW.
Proof.
  cbn. unfold HARTS_PER_HAWINDOW. split.
  - symmetry. apply Z.div_mod. lia.
  - apply Z.mod_pos_bound. lia.
Qed.

(** A hart's bit in haltsum[level] lies inside the word, and level [n] groups
    harts by [32^n]. *)
Theorem haltsum_bit_spec hart level :
  0 <= level -> haltsum_bit hart level = hart / 32 ^ level mod 32.
Proof.
  intros Hl. unfold haltsum_bit. change 0x1F with (Z.ones 5).
  rewrite !Z.land_ones by lia. destruct (truthy level) eqn:Ht.
  - rewrite Z.shiftr_div_pow2 by lia. rewrite Z.pow_mul_r by lia. done.
  - unfold truthy in Ht. zhyps. subst. by rewrite Z.pow_0_r, Z.div_1_r.
Qed.

(** ** Witnesses *)

Lemma encode_decode_roundtrip_witness :
  0 <= 0x88000003 < 2 ^ 32 /\
  Register.decode DMCONTROL 0x88000003 =
  map (fun f => (Field.name f,
        Z.land (dict_get [("dmactive", 1); ("haltreq", 1); ("ndmreset", 3); ("ackunavail", 1)]
                  (Field.name f) 0) (Field.value_mask f)))
      (Register.fields DMCONTROL).
Proof.
  apply (encode_decode_roundtrip DMCONTROL
           [("dmactive", 1); ("haltreq", 1); ("ndmreset", 3); ("ackunavail", 1)] 0x88000003);
    [vm_compute; reflexivity|apply (bool_decide_unpack _); vm_compute; exact I|vm_compute; reflexivity].
Defined.
