(* ===== verification/Predictor.v ===== *)
(** The golden-reference model of the Debug Module: [model/predictor.py].

    [HartState], [DeclaredConfig] and [DMPredictor] are the source's classes; a
    method that mutates [self] is a function from the old object to the new
    one, in the order of the source's assignments.  Hart objects are only ever
    reached through [self.harts], so mutating one is updating that list.
    Dictionaries are [gmap]s; the 12- and 16-element lists are lists.  A DMI
    address or value is an unbounded integer and [on_write] masks it, as the
    source does. *)

From S2P Require Import Prelude Registers.

Local Open Scope string_scope.
Local Open Scope Z_scope.

(** predictor.py:50-69 (ADDR_DATA0 .. ADDR_SBDATA3) *)
Definition ADDR_DATA0 : Z := 0x04.
Definition ADDR_DATA11 : Z := 0x0F.
Definition ADDR_HARTINFO : Z := 0x12.
Definition ADDR_HAWINDOWSEL : Z := 0x14.
Definition ADDR_ABSTRACTCS : Z := 0x16.
Definition ADDR_COMMAND : Z := 0x17.
Definition ADDR_ABSTRACTAUTO : Z := 0x18.
Definition ADDR_NEXTDM : Z := 0x1D.
Definition ADDR_PROGBUF0 : Z := 0x20.
Definition ADDR_PROGBUF15 : Z := 0x2F.
Definition ADDR_SBCS : Z := 0x38.
Definition ADDR_SBADDRESS0 : Z := 0x39.
Definition ADDR_SBDATA0 : Z := 0x3C.
Definition ADDR_HALTSUM0 : Z := 0x40.
Definition ADDR_HALTSUM1 : Z := 0x13.
Definition ADDR_HALTSUM2 : Z := 0x34.
Definition ADDR_HALTSUM3 : Z := 0x35.
Definition ADDR_HAWINDOW : Z := 0x15.
Definition ADDR_AUTHDATA : Z := 0x30.
Definition ADDR_DMCS2 : Z := 0x32.
Definition ADDR_SBADDRESS1 : Z := 0x3A.
Definition ADDR_SBADDRESS2 : Z := 0x3B.
Definition ADDR_SBADDRESS3 : Z := 0x37.
Definition ADDR_SBDATA1 : Z := 0x3D.
Definition ADDR_SBDATA2 : Z := 0x3E.
Definition ADDR_SBDATA3 : Z := 0x3F.

(** predictor.py:72-76 (GPR_X0_REGNO .. MASK32) *)
Definition GPR_X0_REGNO : Z := 0x1000.
Definition DCSR_REGNO : Z := 0x07B0.
Definition DCSR_STEP_BIT : Z := 2.
Definition MASK32 : Z := 0xFFFFFFFF.

(** predictor.py:79-83 (_reads_back_as_written) *)
Definition _reads_back_as_written (regno : Z) : bool :=
  negb ((0x07A0 <=? regno) && (regno <=? 0x07AF)).

Module DeclaredConfig.

(** predictor.py:86-128 (DeclaredConfig) *)
Record t := mk {
  sba_enable : bool;
  abstractauto_enable : bool;
  hartarray_enable : bool;
  authentication_enable : bool;
  haltgroups_enable : bool;
  progbuf_readable : bool;
  haltsum_groups_present : bool;
  num_harts : Z;
  version : Z;
  authenticated : bool;
  impebreak : bool;
  hasresethaltreq : bool;
  stickyunavail : bool;
  havereset_poweron : bool;
  supports_hartreset : bool;
  supports_hasel : bool;
  resumeack_reset : bool;
  progbufsize : Z;
  datacount : Z;
  relaxedpriv_reset : bool;
  nscratch : Z;
  dataaccess : bool;
  datasize : Z;
  dataaddr : Z;
  sbversion : Z;
  sbasize : Z;
  sbaccess_reset : Z;
  sbaccess_writable : bool;
  sbaccess128 : bool;
  sbaccess64 : bool;
  sbaccess32 : bool;
  sbaccess16 : bool;
  sbaccess8 : bool;
  nextdm : Z
}.

(** predictor.py:95-128 (DeclaredConfig defaults) *)
Definition default : t := {|
  sba_enable := false; abstractauto_enable := false; hartarray_enable := false;
  authentication_enable := false; haltgroups_enable := false;
  progbuf_readable := false; haltsum_groups_present := false;
  num_harts := 1; version := DMSTATUS_VERSION_0_13; authenticated := false;
  impebreak := false; hasresethaltreq := false; stickyunavail := false;
  havereset_poweron := false; supports_hartreset := false; supports_hasel := false;
  resumeack_reset := false; progbufsize := 0; datacount := 0;
  relaxedpriv_reset := false; nscratch := 0; dataaccess := false; datasize := 0;
  dataaddr := 0; sbversion := 0; sbasize := 0; sbaccess_reset := 0;
  sbaccess_writable := false; sbaccess128 := false; sbaccess64 := false;
  sbaccess32 := false; sbaccess16 := false; sbaccess8 := false; nextdm := 0
|}.

#[global] Instance settable : Settable t := fun c =>
  mk (sba_enable c) (abstractauto_enable c) (hartarray_enable c)
     (authentication_enable c) (haltgroups_enable c) (progbuf_readable c)
     (haltsum_groups_present c) (num_harts c) (version c) (authenticated c)
     (impebreak c) (hasresethaltreq c) (stickyunavail c) (havereset_poweron c)
     (supports_hartreset c) (supports_hasel c) (resumeack_reset c) (progbufsize c)
     (datacount c) (relaxedpriv_reset c) (nscratch c) (dataaccess c) (datasize c)
     (dataaddr c) (sbversion c) (sbasize c) (sbaccess_reset c) (sbaccess_writable c)
     (sbaccess128 c) (sbaccess64 c) (sbaccess32 c) (sbaccess16 c) (sbaccess8 c)
     (nextdm c).

End DeclaredConfig.

Module HartState.

(** predictor.py:131-160 (HartState attributes) *)
Record t := mk {
  halt_request : bool;
  resume_ack : bool;
  reset_haltreq : bool;
  hart_reset : bool;
  halted : bool;
  running : bool;
  havereset : bool;
  available : bool;
  unavail_sticky : bool;
  nonexistent : bool
}.

#[global] Instance settable : Settable t := fun h =>
  mk (halt_request h) (resume_ack h) (reset_haltreq h) (hart_reset h) (halted h)
     (running h) (havereset h) (available h) (unavail_sticky h) (nonexistent h).

(** predictor.py:143-160 (HartState defaults) *)
Definition default : t := {|
  halt_request := false; resume_ack := false; reset_haltreq := false;
  hart_reset := false; halted := false; running := true; havereset := false;
  available := true; unavail_sticky := false; nonexistent := false
|}.

(** predictor.py:162-170 (HartState.unavail) *)
Definition unavail (h : t) : bool := negb (available h) || unavail_sticky h.

End HartState.

(** The per-hart dictionary of a snapshot. *)
Module HartSnap.

(** predictor.py:1038-1049 (snapshot, per-hart dict) *)
Record t := mk {
  halted : bool;
  running : bool;
  havereset : bool;
  resume_ack : bool;
  halt_request : bool;
  reset_haltreq : bool;
  unavail : bool;
  nonexistent : bool
}.

End HartSnap.

Module Snapshot.

(** predictor.py:1033-1051 (snapshot, dict) *)
Record t := mk {
  dmactive : bool;
  ndmreset : bool;
  hartsel : Z;
  hasel : bool;
  harts : list HartSnap.t
}.

End Snapshot.

(** The keyword arguments of [DMPredictor.__init__], with their defaults. *)
Module Kwargs.

(** predictor.py:182-194 (DMPredictor.__init__ parameters) *)
Record t := mk {
  num_harts : Z;
  version : Z;
  authenticated : bool;
  impebreak : bool;
  hasresethaltreq : bool;
  supports_hartreset : bool;
  supports_hasel : bool;
  resumeack_reset : bool;
  stickyunavail : bool;
  havereset_poweron : bool
}.

#[global] Instance settable : Settable t := fun k =>
  mk (num_harts k) (version k) (authenticated k) (impebreak k) (hasresethaltreq k)
     (supports_hartreset k) (supports_hasel k) (resumeack_reset k)
     (stickyunavail k) (havereset_poweron k).

(** predictor.py:184-193 (DMPredictor.__init__ defaults) *)
Definition default : t := {|
  num_harts := 1; version := DMSTATUS_VERSION_0_13; authenticated := true;
  impebreak := false; hasresethaltreq := true; supports_hartreset := true;
  supports_hasel := false; resumeack_reset := false; stickyunavail := false;
  havereset_poweron := false
|}.

End Kwargs.

Module DMPredictor.

(** predictor.py:227-288 (DMPredictor attributes) *)
Record t := mk {
  num_harts : Z;
  version : Z;
  authenticated : bool;
  impebreak : bool;
  hasresethaltreq : bool;
  supports_hartreset : bool;
  supports_hasel : bool;
  resumeack_reset : bool;
  stickyunavail : bool;
  havereset_poweron : bool;
  harts : list HartState.t;
  cfg : DeclaredConfig.t;
  cfg_valid : bool;
  abstractauto : Z;
  hawindowsel : Z;
  authdata : Z;
  sbreadonaddr : bool;
  sbaccess : Z;
  sbautoincrement : bool;
  sbreadondata : bool;
  relaxedpriv : bool;
  shadow_regs : gmap Z Z;
  staged_data0 : Z;
  data0_pending_valid : bool;
  data0_pending_value : Z;
  shadow_mem : gmap Z Z;
  sbaddress0 : Z;
  sbcs_read_on_addr_armed : bool;
  sbdata0_pending_valid : bool;
  sbdata0_pending_value : Z;
  data_q : list Z;
  data_known : list bool;
  staged_data1 : Z;
  shadow_hi : gmap Z Z;
  progbuf_q : list Z;
  last_command : Z;
  sbaddress1 : Z;
  sbdata1 : Z;
  sbdata1_known : bool;
  hawindow : gmap Z Z;
  observed_cmdbusy : bool;
  dmactive : bool;
  ndmreset : bool;
  hartsel : Z;
  hasel : bool;
  _hartreset_level : bool
}.

#[global] Instance settable : Settable t := fun p =>
  mk (num_harts p) (version p) (authenticated p) (impebreak p)
     (hasresethaltreq p) (supports_hartreset p) (supports_hasel p)
     (resumeack_reset p) (stickyunavail p) (havereset_poweron p) (harts p)
     (cfg p) (cfg_valid p) (abstractauto p) (hawindowsel p) (authdata p)
     (sbreadonaddr p) (sbaccess p) (sbautoincrement p) (sbreadondata p)
     (relaxedpriv p) (shadow_regs p) (staged_data0 p) (data0_pending_valid
     p) (data0_pending_value p) (shadow_mem p) (sbaddress0 p)
     (sbcs_read_on_addr_armed p) (sbdata0_pending_valid p)
     (sbdata0_pending_value p) (data_q p) (data_known p) (staged_data1 p)
     (shadow_hi p) (progbuf_q p) (last_command p) (sbaddress1 p) (sbdata1
     p) (sbdata1_known p) (hawindow p) (observed_cmdbusy p) (dmactive p)
     (ndmreset p) (hartsel p) (hasel p) (_hartreset_level p).

(** ** Reset *)

(** predictor.py:316-343 (_reset_declared_regs) *)
Definition _reset_declared_regs (p : t) : t :=
  p <| abstractauto := 0 |>
    <| hawindowsel := 0 |>
    <| authdata := 0 |>
    <| sbreadonaddr := false |>
    <| sbaccess := DeclaredConfig.sbaccess_reset (cfg p) |>
    <| sbautoincrement := false |>
    <| sbreadondata := false |>
    <| relaxedpriv := DeclaredConfig.relaxedpriv_reset (cfg p) |>
    <| staged_data0 := 0 |>
    <| staged_data1 := 0 |>
    <| data0_pending_valid := true |>
    <| data0_pending_value := 0 |>
    <| data_q := replicate 12 0 |>
    <| data_known := replicate 12 true |>
    <| progbuf_q := replicate 16 0 |>
    <| last_command := 0 |>
    <| sbaddress0 := 0 |>
    <| sbaddress1 := 0 |>
    <| sbdata0_pending_valid := true |>
    <| sbdata0_pending_value := 0 |>
    <| sbdata1 := 0 |>
    <| sbdata1_known := true |>
    <| hawindow := ∅ |>.

(** predictor.py:366-382 (reset_dm, one hart) *)
Definition reset_hart (p : t) (power_on : bool) (prev : list HartState.t) (i : nat)
    : HartState.t :=
  let h := HartState.default
             <| HartState.halt_request := false |>
             <| HartState.resume_ack := resumeack_reset p |>
             <| HartState.reset_haltreq := false |>
             <| HartState.hart_reset := false |> in
  if power_on then
    h <| HartState.halted := false |>
      <| HartState.running := true |>
      <| HartState.havereset := havereset_poweron p |>
  else
    h <| HartState.halted :=
           match prev !! i with Some q => HartState.halted q | None => false end |>
      <| HartState.running :=
           match prev !! i with Some q => HartState.running q | None => true end |>
      <| HartState.havereset :=
           match prev !! i with Some q => HartState.havereset q | None => false end |>.

(** predictor.py:345-382 (reset_dm) *)
Definition reset_dm (power_on : bool) (p : t) : t :=
  let prev := harts p in
  let p := _reset_declared_regs p in
  let p := p <| dmactive := false |>
             <| ndmreset := false |>
             <| hartsel := 0 |>
             <| hasel := false |>
             <| _hartreset_level := false |> in
  p <| harts := map (reset_hart p power_on prev)
                    (seq 0 (Z.to_nat (Z.max (num_harts p) 1))) |>.

(** predictor.py:182-290 (__init__) *)
Definition init (k : Kwargs.t) : t :=
  reset_dm true
    {| num_harts := Kwargs.num_harts k;
       version := Kwargs.version k;
       authenticated := Kwargs.authenticated k;
       impebreak := Kwargs.impebreak k;
       hasresethaltreq := Kwargs.hasresethaltreq k;
       supports_hartreset := Kwargs.supports_hartreset k;
       supports_hasel := Kwargs.supports_hasel k;
       resumeack_reset := Kwargs.resumeack_reset k;
       stickyunavail := Kwargs.stickyunavail k;
       havereset_poweron := Kwargs.havereset_poweron k;
       harts := [];
       cfg := DeclaredConfig.default;
       cfg_valid := false;
       abstractauto := 0; hawindowsel := 0; authdata := 0;
       sbreadonaddr := false; sbaccess := 0; sbautoincrement := false;
       sbreadondata := false; relaxedpriv := false;
       shadow_regs := ∅; staged_data0 := 0;
       data0_pending_valid := false; data0_pending_value := 0;
       shadow_mem := ∅; sbaddress0 := 0; sbcs_read_on_addr_armed := false;
       sbdata0_pending_valid := false; sbdata0_pending_value := 0;
       data_q := replicate 12 0; data_known := replicate 12 true;
       staged_data1 := 0; shadow_hi := ∅; progbuf_q := replicate 16 0;
       last_command := 0; sbaddress1 := 0; sbdata1 := 0; sbdata1_known := true;
       hawindow := ∅; observed_cmdbusy := false;
       dmactive := false; ndmreset := false; hartsel := 0; hasel := false;
       _hartreset_level := false |}.

(** predictor.py:294-312 (set_config) *)
Definition set_config (c : DeclaredConfig.t) (p : t) : t :=
  reset_dm true
    (p <| cfg := c |>
       <| cfg_valid := true |>
       <| num_harts := DeclaredConfig.num_harts c |>
       <| version := DeclaredConfig.version c |>
       <| authenticated := DeclaredConfig.authenticated c |>
       <| impebreak := DeclaredConfig.impebreak c |>
       <| hasresethaltreq := DeclaredConfig.hasresethaltreq c |>
       <| supports_hartreset := DeclaredConfig.supports_hartreset c |>
       <| supports_hasel := DeclaredConfig.supports_hasel c |>
       <| resumeack_reset := DeclaredConfig.resumeack_reset c |>
       <| stickyunavail := DeclaredConfig.stickyunavail c |>
       <| havereset_poweron := DeclaredConfig.havereset_poweron c |>).

(** ** Hart selection *)

(** predictor.py:386-393 (selected_indices) *)
Definition selected_indices (p : t) : list Z := [hartsel p].

(** predictor.py:397-399 (_selected, the index guard) *)
Definition in_range (p : t) (i : Z) : bool :=
  (0 <=? i) && (i <? Z.of_nat (length (harts p))).

(** The list positions of the selected harts that exist. *)
Definition selected_positions (p : t) : list nat :=
  map Z.to_nat (filter (fun i => in_range p i = true) (selected_indices p)).

(** predictor.py:395-400 (_selected) *)
Definition _selected (p : t) : list HartState.t :=
  omap (fun i => harts p !! i) (selected_positions p).

(** [for h in self._selected(): f(h)] where [f] mutates [h]. *)
Definition for_selected (f : HartState.t -> HartState.t) (p : t) : t :=
  p <| harts := alter_all f (selected_positions p) (harts p) |>.

(** [for h in self.harts: f(h)] where [f] mutates [h]. *)
Definition for_harts (f : HartState.t -> HartState.t) (p : t) : t :=
  p <| harts := map f (harts p) |>.

(** predictor.py:402-403 (_is_nonexistent) *)
Definition _is_nonexistent (p : t) (index : Z) : bool := num_harts p <=? index.

(** predictor.py:407-414 (set_observed_cmdbusy) *)
Definition set_observed_cmdbusy (busy : bool) (p : t) : t :=
  p <| observed_cmdbusy := busy |>.

(** predictor.py:416-420 (_guarded_while_busy) *)
Definition _guarded_while_busy (addr : Z) : bool :=
  existsb (Z.eqb addr) [ADDR_COMMAND; ADDR_ABSTRACTCS; ADDR_ABSTRACTAUTO]
  || ((ADDR_DATA0 <=? addr) && (addr <=? ADDR_DATA11))
  || ((ADDR_PROGBUF0 <=? addr) && (addr <=? ADDR_PROGBUF15)).

(** ** Abstract commands *)

(** predictor.py:462-464 (_is_data) *)
Definition _is_data (addr : Z) : bool := (ADDR_DATA0 <=? addr) && (addr <=? ADDR_DATA11).

(** predictor.py:466-468 (_is_progbuf) *)
Definition _is_progbuf (addr : Z) : bool :=
  (ADDR_PROGBUF0 <=? addr) && (addr <=? ADDR_PROGBUF15).

(** predictor.py:470-477 (_autoexec_armed) *)
Definition _autoexec_armed (p : t) (addr : Z) : bool :=
  if negb (DeclaredConfig.abstractauto_enable (cfg p)) || observed_cmdbusy p then false
  else if _is_data addr
  then truthy (Z.land (Z.shiftr (abstractauto p) (addr - ADDR_DATA0)) 1)
  else truthy (Z.land (Z.shiftr (abstractauto p) (16 + addr - ADDR_PROGBUF0)) 1).

(** predictor.py:529-540 (_execute_command, the upper half of a 64-bit access) *)
Definition _execute_upper (write : bool) (regno aarsize : Z) (p : t) : t :=
  if aarsize =? 3 then
    if write then p <| shadow_hi := <[regno := staged_data1 p]> (shadow_hi p) |>
    else if regno =? GPR_X0_REGNO then
      p <| data_q := <[1%nat := 0]> (data_q p) |>
        <| data_known := <[1%nat := true]> (data_known p) |>
    else match shadow_hi p !! regno with
         | Some v =>
             if _reads_back_as_written regno then
               p <| data_q := <[1%nat := v]> (data_q p) |>
                 <| data_known := <[1%nat := true]> (data_known p) |>
             else p <| data_known := <[1%nat := false]> (data_known p) |>
         | None => p <| data_known := <[1%nat := false]> (data_known p) |>
         end
  else if write then p <| shadow_hi := delete regno (shadow_hi p) |>
  else p.

(** predictor.py:541-550 (_execute_command, the lower word) *)
Definition _execute_lower (write : bool) (regno : Z) (p : t) : t :=
  if write then p <| shadow_regs := <[regno := staged_data0 p]> (shadow_regs p) |>
  else if regno =? GPR_X0_REGNO then
    p <| data0_pending_valid := true |> <| data0_pending_value := 0 |>
  else match shadow_regs p !! regno with
       | Some v =>
           if _reads_back_as_written regno then
             p <| data0_pending_valid := true |> <| data0_pending_value := v |>
           else p <| data0_pending_valid := false |>
       | None => p <| data0_pending_valid := false |>
       end.

(** predictor.py:521-554 (_execute_command) *)
Definition _execute_command (value : Z) (p : t) : t :=
  let postexec := Z.land (Z.shiftr value 18) 1 in
  let transfer := Z.land (Z.shiftr value 17) 1 in
  let write := Z.land (Z.shiftr value 16) 1 in
  let regno := Z.land value 0xFFFF in
  let aarsize := Z.land (Z.shiftr value 20) 0x7 in
  if truthy (Z.land (Z.shiftr value 24) 0xFF) || (3 <? aarsize) then p
  else
    let p := if truthy transfer
             then _execute_lower (truthy write) regno
                    (_execute_upper (truthy write) regno aarsize p)
             else p in
    if truthy postexec then p <| shadow_regs := ∅ |> <| shadow_hi := ∅ |> else p.

(** predictor.py:517-519 (_write_command) *)
Definition _write_command (value : Z) (p : t) : t :=
  _execute_command value (p <| last_command := value |>).

(** predictor.py:479-497 (_write_buffer, the store; None when the word does not exist) *)
Definition _store_buffer (addr value : Z) (p : t) : option t :=
  if _is_data addr then
    let i := addr - ADDR_DATA0 in
    if DeclaredConfig.datacount (cfg p) <=? i then None
    else if i =? 0 then
      Some (p <| staged_data0 := value |>
              <| data0_pending_valid := true |>
              <| data0_pending_value := value |>)
    else
      let p := p <| data_q := <[Z.to_nat i := value]> (data_q p) |>
                 <| data_known := <[Z.to_nat i := true]> (data_known p) |> in
      Some (if i =? 1 then p <| staged_data1 := value |> else p)
  else
    let i := addr - ADDR_PROGBUF0 in
    if DeclaredConfig.progbufsize (cfg p) <=? i then None
    else Some (p <| progbuf_q := <[Z.to_nat i := value]> (progbuf_q p) |>).

(** predictor.py:479-499 (_write_buffer) *)
Definition _write_buffer (addr value : Z) (p : t) : t :=
  match _store_buffer addr value p with
  | None => p
  | Some p =>
      if _autoexec_armed p addr then _execute_command (last_command p) p else p
  end.

(** predictor.py:501-505 (_hawindow_implemented) *)
Definition _hawindow_implemented (p : t) (sel : Z) : Z :=
  let lo := 32 * sel in
  let hi := Z.min (num_harts p) (32 * (sel + 1)) in
  fold_left (fun m h => Z.lor m (Z.shiftl 1 (h - 32 * sel))) (seqZ lo (hi - lo)) 0.

(** ** System Bus Access *)

(** predictor.py:558-564 (_write_sbcs) *)
Definition _write_sbcs (value : Z) (p : t) : t :=
  let p := p <| sbcs_read_on_addr_armed := truthy (Z.land (Z.shiftr value 20) 1) |>
             <| sbreadonaddr := truthy (Z.land (Z.shiftr value 20) 1) |> in
  let p := if DeclaredConfig.sbaccess_writable (cfg p)
           then p <| sbaccess := Z.land (Z.shiftr value 17) 0x7 |> else p in
  p <| sbautoincrement := truthy (Z.land (Z.shiftr value 16) 1) |>
    <| sbreadondata := truthy (Z.land (Z.shiftr value 15) 1) |>.

(** [1 << self.sbaccess] raises ValueError for a negative width; [sbaccess] is a
    3-bit field of sbcs or the declared reset value, and is taken to be
    non-negative here.
    predictor.py:566-572 (_sba_autoincrement) *)
Definition _sba_autoincrement (p : t) : t :=
  if negb (sbautoincrement p) then p
  else
    let a := Z.lor (Z.shiftl (sbaddress1 p) 32) (sbaddress0 p) + Z.shiftl 1 (sbaccess p) in
    let p := p <| sbaddress0 := Z.land a MASK32 |> in
    if 32 <? DeclaredConfig.sbasize (cfg p)
    then p <| sbaddress1 := Z.land (Z.shiftr a 32) MASK32 |> else p.

(** predictor.py:574-580 (_sba_arm_read) *)
Definition _sba_arm_read (address : Z) (p : t) : t :=
  let p := p <| sbdata1_known := false |> in
  match shadow_mem p !! address with
  | Some v => p <| sbdata0_pending_valid := true |> <| sbdata0_pending_value := v |>
  | None => p <| sbdata0_pending_valid := false |>
  end.

(** predictor.py:582-586 (_write_sbaddress0) *)
Definition _write_sbaddress0 (value : Z) (p : t) : t :=
  let p := p <| sbaddress0 := value |> in
  if sbcs_read_on_addr_armed p then _sba_autoincrement (_sba_arm_read value p) else p.

(** predictor.py:588-590 (_write_sbdata0) *)
Definition _write_sbdata0 (value : Z) (p : t) : t :=
  _sba_autoincrement (p <| shadow_mem := <[sbaddress0 p := value]> (shadow_mem p) |>).

(** predictor.py:597-600 (_sbdata0_read_effects) *)
Definition _sbdata0_read_effects (p : t) : t :=
  if sbreadondata p then _sba_autoincrement (_sba_arm_read (sbaddress0 p) p) else p.

(** predictor.py:592-595 (observe_sbdata0_read) *)
Definition observe_sbdata0_read (p : t) : t := _sbdata0_read_effects p.

(** predictor.py:507-515 (observe_read) *)
Definition observe_read (addr : Z) (p : t) : t :=
  let p := if addr =? ADDR_SBDATA0 then _sbdata0_read_effects p else p in
  if (_is_data addr && (addr - ADDR_DATA0 <? DeclaredConfig.datacount (cfg p)))
     || (_is_progbuf addr && (addr - ADDR_PROGBUF0 <? DeclaredConfig.progbufsize (cfg p)))
  then if _autoexec_armed p addr then _execute_command (last_command p) p else p
  else p.

(** ** Run control *)

(** predictor.py:770-788 (_release_from_reset) *)
Definition _release_from_reset (h : HartState.t) : HartState.t :=
  if HartState.nonexistent h then h
  else
    let h := h <| HartState.havereset := true |> in
    if HartState.reset_haltreq h || HartState.halt_request h
    then h <| HartState.halted := true |> <| HartState.running := false |>
    else h <| HartState.halted := false |> <| HartState.running := true |>.

(** predictor.py:721-744 (_apply_ndmreset, one hart while asserting) *)
Definition hart_under_ndmreset (resumeack_reset : bool) (h : HartState.t) : HartState.t :=
  h <| HartState.halted := false |>
    <| HartState.running :=
         negb (HartState.unavail_sticky h || negb (HartState.available h)) |>
    <| HartState.havereset := true |>
    <| HartState.resume_ack := resumeack_reset |>.

(** predictor.py:717-748 (_apply_ndmreset) *)
Definition _apply_ndmreset (asserted : bool) (p : t) : t :=
  if asserted && negb (ndmreset p) then
    for_harts (hart_under_ndmreset (resumeack_reset p)) (p <| ndmreset := true |>)
  else if negb asserted && ndmreset p then
    for_harts _release_from_reset (p <| ndmreset := false |>)
  else p.

(** predictor.py:754-763 (_apply_hartreset, one hart while asserting) *)
Definition hart_under_hartreset (resumeack_reset : bool) (h : HartState.t) : HartState.t :=
  h <| HartState.hart_reset := true |>
    <| HartState.halted := false |>
    <| HartState.running := false |>
    <| HartState.resume_ack := resumeack_reset |>.

(** predictor.py:750-768 (_apply_hartreset) *)
Definition _apply_hartreset (asserted : bool) (p : t) : t :=
  if asserted && negb (_hartreset_level p) then
    for_selected (hart_under_hartreset (resumeack_reset p)) (p <| _hartreset_level := true |>)
  else if negb asserted && _hartreset_level p then
    for_selected (fun h => _release_from_reset (h <| HartState.hart_reset := false |>))
      (p <| _hartreset_level := false |>)
  else p.

(** predictor.py:790-798 (_settle_reset_state, one hart) *)
Definition settle_hart (ndmreset : bool) (h : HartState.t) : HartState.t :=
  if ndmreset || (HartState.hart_reset h && negb (HartState.nonexistent h))
  then h <| HartState.halted := false |>
         <| HartState.running :=
              negb (HartState.unavail_sticky h || negb (HartState.available h)) |>
  else h.

(** predictor.py:790-798 (_settle_reset_state) *)
Definition _settle_reset_state (p : t) : t := for_harts (settle_hart (ndmreset p)) p.

(** The loop body mutates both the hart and the two shadows of [self], so the
    loop threads the whole predictor.
    predictor.py:701-715 (_apply_resumereq, one selected hart) *)
Definition resume_one (p : t) (i : nat) : t :=
  match harts p !! i with
  | None => p
  | Some h =>
      if HartState.nonexistent h || HartState.unavail h then p
      else
        let h := h <| HartState.resume_ack := false |> in
        if HartState.halted h then
          let step_armed :=
            truthy (Z.land (Z.shiftr (default 0 (shadow_regs p !! DCSR_REGNO))
                                     DCSR_STEP_BIT) 1) in
          let h := h <| HartState.halted := step_armed |>
                     <| HartState.running := negb step_armed |>
                     <| HartState.resume_ack := true |> in
          p <| harts := <[i := h]> (harts p) |>
            <| shadow_regs := ∅ |>
            <| shadow_hi := ∅ |>
        else p <| harts := <[i := h]> (harts p) |>
  end.

(** predictor.py:682-715 (_apply_resumereq) *)
Definition _apply_resumereq (p : t) : t := fold_left resume_one (selected_positions p) p.

(** predictor.py:666-674 (_write_dmcontrol, halting one selected hart) *)
Definition halt_one (h : HartState.t) : HartState.t :=
  if HartState.nonexistent h || HartState.unavail h then h
  else if HartState.running h && negb (HartState.halted h)
  then h <| HartState.halted := true |> <| HartState.running := false |>
  else h.

(** predictor.py:617-622 (_write_dmcontrol, selection) *)
Definition dmcontrol_select (value : Z) (p : t) : t :=
  let f := Register.decode DMCONTROL value in
  let p := p <| dmactive := true |>
             <| hartsel := hartsel_of value |> in
  let p := p <| hasel := if supports_hasel p then truthy (dict_get f "hasel" 0) else false |> in
  p <| harts := imap (fun i h => h <| HartState.nonexistent := _is_nonexistent p (Z.of_nat i) |>)
                     (harts p) |>.

(** predictor.py:632-657 (_write_dmcontrol, halt-on-reset requests and acknowledgements) *)
Definition dmcontrol_acks (value : Z) (p : t) : t :=
  let f := Register.decode DMCONTROL value in
  let p :=
    if hasresethaltreq p then
      let p := if truthy (dict_get f "setresethaltreq" 0)
                  && negb (truthy (dict_get f "clrresethaltreq" 0))
               then for_selected (fun h => h <| HartState.reset_haltreq := true |>) p else p in
      if truthy (dict_get f "clrresethaltreq" 0)
      then for_selected (fun h => h <| HartState.reset_haltreq := false |>) p else p
    else p in
  let p := if truthy (dict_get f "ackhavereset" 0)
           then for_selected (fun h => h <| HartState.havereset := false |>) p else p in
  if truthy (dict_get f "ackunavail" 0)
  then for_selected (fun h => if HartState.available h
                              then h <| HartState.unavail_sticky := false |> else h) p
  else p.

(** predictor.py:659-678 (_write_dmcontrol, halt and resume requests) *)
Definition dmcontrol_run (value : Z) (p : t) : t :=
  let f := Register.decode DMCONTROL value in
  let haltreq := truthy (dict_get f "haltreq" 0) in
  let p := for_selected (fun h => h <| HartState.halt_request := haltreq |>) p in
  let p := if haltreq then for_selected halt_one p else p in
  if truthy (dict_get f "resumereq" 0) && negb haltreq then _apply_resumereq p else p.

(** predictor.py:602-680 (_write_dmcontrol) *)
Definition _write_dmcontrol (value : Z) (p : t) : t :=
  let f := Register.decode DMCONTROL value in
  if negb (truthy (dict_get f "dmactive" 0)) then reset_dm false p
  else
    let p := dmcontrol_select value p in
    let p := _apply_ndmreset (truthy (dict_get f "ndmreset" 0)) p in
    let hartreset := truthy (dict_get f "hartreset" 0) && supports_hartreset p in
    let p := _apply_hartreset hartreset p in
    let p := dmcontrol_acks value p in
    let p := dmcontrol_run value p in
    _settle_reset_state p.

(** predictor.py:422-457 (on_write) *)
Definition on_write (addr value : Z) (p : t) : t :=
  let value := Z.land value MASK32 in
  if observed_cmdbusy p && _guarded_while_busy addr then p
  else if _is_data addr || _is_progbuf addr then _write_buffer addr value p
  else if addr =? Register.address DMCONTROL then _write_dmcontrol value p
  else if addr =? ADDR_SBADDRESS1 then p <| sbaddress1 := value |>
  else if addr =? ADDR_SBDATA1 then p <| sbdata1 := value |> <| sbdata1_known := true |>
  else if addr =? ADDR_HAWINDOW then
    if DeclaredConfig.hartarray_enable (cfg p)
    then p <| hawindow := <[hawindowsel p := Z.land value (_hawindow_implemented p (hawindowsel p))]>
                            (hawindow p) |>
    else p
  else if addr =? ADDR_COMMAND then _write_command value p
  else if addr =? ADDR_SBCS then _write_sbcs value p
  else if addr =? ADDR_SBADDRESS0 then _write_sbaddress0 value p
  else if addr =? ADDR_SBDATA0 then _write_sbdata0 value p
  else if addr =? ADDR_ABSTRACTAUTO then p <| abstractauto := value |>
  else if addr =? ADDR_HAWINDOWSEL then p <| hawindowsel := Z.land value 0x7FFF |>
  else if addr =? ADDR_ABSTRACTCS then
    if DMSTATUS_VERSION_1_0 <=? version p
    then p <| relaxedpriv := truthy (Z.land (Z.shiftr value 11) 1) |>
    else p
  else p.

(** ** Read prediction *)

(** predictor.py:841-842 (_sba_wider_than_32) *)
Definition _sba_wider_than_32 (p : t) : bool :=
  DeclaredConfig.sba_enable (cfg p)
  && (DeclaredConfig.sbaccess64 (cfg p) || DeclaredConfig.sbaccess128 (cfg p)).

(** predictor.py:802-839 (has_model) *)
Definition has_model (p : t) (addr : Z) : bool :=
  let c := cfg p in
  if existsb (Z.eqb addr) [Register.address DMCONTROL; Register.address DMSTATUS] then true
  else if negb (cfg_valid p) then false
  else if negb (dmactive p) then false
  else if addr =? ADDR_DATA0 then data0_pending_valid p
  else if _is_data addr && (addr - ADDR_DATA0 <? DeclaredConfig.datacount c)
  then default false (data_known p !! Z.to_nat (addr - ADDR_DATA0))
  else if addr =? ADDR_SBDATA0
  then negb (DeclaredConfig.sba_enable c) || sbdata0_pending_valid p
  else if addr =? ADDR_SBDATA1 then negb (_sba_wider_than_32 p) || sbdata1_known p
  else if existsb (Z.eqb addr) [ADDR_SBDATA2; ADDR_SBDATA3]
  then negb (DeclaredConfig.sba_enable c && DeclaredConfig.sbaccess128 c)
  else if addr =? ADDR_SBADDRESS2
  then negb (DeclaredConfig.sba_enable c && (64 <? DeclaredConfig.sbasize c))
  else if addr =? ADDR_SBADDRESS3
  then negb (DeclaredConfig.sba_enable c && (96 <? DeclaredConfig.sbasize c))
  else if addr =? ADDR_AUTHDATA then negb (DeclaredConfig.authentication_enable c)
  else if addr =? ADDR_DMCS2 then negb (DeclaredConfig.haltgroups_enable c)
  else true.

(** [h < len(self.harts) and self.harts[h].halted]. *)
Definition hart_is_halted (p : t) (h : Z) : bool :=
  match harts p !! Z.to_nat h with Some q => HartState.halted q | None => false end.

(** predictor.py:850-855 (_expect_haltsum, whether hart h contributes its bit) *)
Definition in_haltsum (p : t) (n h : Z) : bool :=
  hart_is_halted p h
  && negb ((n <? 3) && negb (Z.shiftr h (5 * n + 5) =? Z.shiftr (hartsel p) (5 * n + 5))).

(** predictor.py:844-856 (_expect_haltsum) *)
Definition _expect_haltsum (p : t) (n : Z) : Z :=
  if negb (DeclaredConfig.haltsum_groups_present (cfg p)) then 0
  else
    let lo := 5 * n in
    fold_left (fun word h =>
                 if in_haltsum p n h
                 then Z.lor word (Z.shiftl 1 (Z.land (Z.shiftr h lo) 31)) else word)
              (py_range (Z.min (num_harts p) (Z.of_nat (length (harts p))))) 0.

(** predictor.py:888-893 (predict, haltsum0) *)
Definition expect_haltsum0 (p : t) : Z :=
  fold_left (fun word i => if hart_is_halted p i then Z.lor word (Z.shiftl 1 i) else word)
            (py_range (Z.min (Z.min (num_harts p) 32) (Z.of_nat (length (harts p))))) 0.

(** predictor.py:964-969 (_expect_dmstatus, all_any) *)
Definition all_any (pred : HartState.t -> bool) (sel : list HartState.t) : Z * Z :=
  let vals := map pred sel in
  (to_int (negb (Nat.eqb (length vals) 0) && py_all vals), to_int (py_any vals)).

(** predictor.py:977-1010 (_expect_dmstatus, the keyword arguments) *)
Definition dmstatus_values (p : t) : list (string * Z) :=
  let sel := _selected p in
  let nonexistent := map (_is_nonexistent p) (selected_indices p) in
  let halted := all_any HartState.halted sel in
  let running := all_any HartState.running sel in
  let havereset := all_any HartState.havereset sel in
  let resumeack := all_any HartState.resume_ack sel in
  let unavail := all_any HartState.unavail sel in
  [("ndmresetpending",
      if DMSTATUS_VERSION_1_0 <=? version p then to_int (ndmreset p) else 0);
   ("stickyunavail", to_int (stickyunavail p));
   ("impebreak", to_int (impebreak p));
   ("allhavereset", fst havereset);
   ("anyhavereset", snd havereset);
   ("allresumeack", fst resumeack);
   ("anyresumeack", snd resumeack);
   ("allnonexistent", to_int (negb (Nat.eqb (length nonexistent) 0) && py_all nonexistent));
   ("anynonexistent", to_int (py_any nonexistent));
   ("allunavail", fst unavail);
   ("anyunavail", snd unavail);
   ("allrunning", fst running);
   ("anyrunning", snd running);
   ("allhalted", fst halted);
   ("anyhalted", snd halted);
   ("authenticated", to_int (authenticated p));
   ("authbusy", 0);
   ("hasresethaltreq", to_int (hasresethaltreq p));
   ("confstrptrvalid", 0);
   ("version", version p)].

(** predictor.py:959-1010 (_expect_dmstatus) *)
Definition _expect_dmstatus (p : t) : result Z :=
  Register.encode DMSTATUS (dmstatus_values p).

(** predictor.py:1021-1026 (_expect_dmcontrol, the keyword arguments) *)
Definition dmcontrol_values (p : t) : list (string * Z) :=
  [("dmactive", to_int (dmactive p));
   ("ndmreset", to_int (ndmreset p));
   ("hasel", to_int (hasel p));
   ("hartreset", to_int (_hartreset_level p && supports_hartreset p))].

(** predictor.py:1012-1027 (_expect_dmcontrol) *)
Definition _expect_dmcontrol (p : t) : result Z :=
  rmap (fun word => with_hartsel word (hartsel p))
       (Register.encode DMCONTROL (dmcontrol_values p)).

(** predictor.py:874-876 (predict, hartinfo) *)
Definition expect_hartinfo (c : DeclaredConfig.t) : Z :=
  Z.lor (Z.lor (Z.lor (Z.shiftl (Z.land (DeclaredConfig.nscratch c) 0xF) 20)
                      (Z.shiftl (to_int (DeclaredConfig.dataaccess c)) 16))
               (Z.shiftl (Z.land (DeclaredConfig.datasize c) 0xF) 12))
        (Z.land (DeclaredConfig.dataaddr c) 0xFFF).

(** predictor.py:877-879 (predict, abstractcs) *)
Definition expect_abstractcs (p : t) : Z :=
  Z.lor (Z.lor (Z.shiftl (Z.land (DeclaredConfig.progbufsize (cfg p)) 0x1F) 24)
               (Z.shiftl (to_int (relaxedpriv p)) 11))
        (Z.land (DeclaredConfig.datacount (cfg p)) 0xF).

(** predictor.py:882-887 (predict, abstractauto) *)
Definition expect_abstractauto (p : t) : result Z :=
  let c := cfg p in
  if negb (DeclaredConfig.abstractauto_enable c) then Ok 0
  else
    try pbit <- py_shl 1 (DeclaredConfig.progbufsize c);;
    try dbit <- py_shl 1 (DeclaredConfig.datacount c);;
    let progbuf := Z.land (Z.shiftr (abstractauto p) 16) (pbit - 1) in
    let data := Z.land (Z.land (abstractauto p) 0xFFF) (dbit - 1) in
    Ok (Z.land (Z.lor (Z.shiftl progbuf 16) data) MASK32).

(** predictor.py:906-913 (predict, sbcs) *)
Definition expect_sbcs (p : t) : Z :=
  let c := cfg p in
  if negb (DeclaredConfig.sba_enable c) then 0
  else
    fold_left Z.lor
      [Z.shiftl (to_int (sbreadonaddr p)) 20;
       Z.shiftl (Z.land (sbaccess p) 0x7) 17;
       Z.shiftl (to_int (sbautoincrement p)) 16;
       Z.shiftl (to_int (sbreadondata p)) 15;
       Z.shiftl (Z.land (DeclaredConfig.sbasize c) 0x7F) 5;
       Z.shiftl (to_int (DeclaredConfig.sbaccess128 c)) 4;
       Z.shiftl (to_int (DeclaredConfig.sbaccess64 c)) 3;
       Z.shiftl (to_int (DeclaredConfig.sbaccess32 c)) 2;
       Z.shiftl (to_int (DeclaredConfig.sbaccess16 c)) 1;
       to_int (DeclaredConfig.sbaccess8 c)]
      (Z.shiftl (Z.land (DeclaredConfig.sbversion c) 0x7) 29).

(** predictor.py:858-925 (predict) *)
Definition predict (p : t) (addr : Z) : result Z :=
  let c := cfg p in
  if _is_data addr then
    let i := addr - ADDR_DATA0 in
    if DeclaredConfig.datacount c <=? i then Ok 0
    else if i =? 0 then Ok (data0_pending_value p)
    else Ok (default 0 (data_q p !! Z.to_nat i))
  else if _is_progbuf addr then
    let i := addr - ADDR_PROGBUF0 in
    if (i <? DeclaredConfig.progbufsize c) && DeclaredConfig.progbuf_readable c
    then Ok (default 0 (progbuf_q p !! Z.to_nat i)) else Ok 0
  else if addr =? Register.address DMCONTROL then _expect_dmcontrol p
  else if addr =? Register.address DMSTATUS then _expect_dmstatus p
  else if addr =? ADDR_HARTINFO then Ok (expect_hartinfo c)
  else if addr =? ADDR_ABSTRACTCS then Ok (expect_abstractcs p)
  else if addr =? ADDR_COMMAND then Ok 0
  else if addr =? ADDR_ABSTRACTAUTO then expect_abstractauto p
  else if addr =? ADDR_HALTSUM0 then Ok (expect_haltsum0 p)
  else if addr =? ADDR_HALTSUM1 then Ok (_expect_haltsum p 1)
  else if addr =? ADDR_HALTSUM2 then Ok (_expect_haltsum p 2)
  else if addr =? ADDR_HALTSUM3 then Ok (_expect_haltsum p 3)
  else if addr =? ADDR_HAWINDOWSEL
  then Ok (if DeclaredConfig.hartarray_enable c then Z.land (hawindowsel p) 0x7FFF else 0)
  else if addr =? ADDR_HAWINDOW
  then Ok (if DeclaredConfig.hartarray_enable c
           then default 0 (hawindow p !! hawindowsel p) else 0)
  else if addr =? ADDR_NEXTDM then Ok (Z.land (DeclaredConfig.nextdm c) MASK32)
  else if addr =? ADDR_SBCS then Ok (expect_sbcs p)
  else if addr =? ADDR_SBADDRESS0
  then Ok (if DeclaredConfig.sba_enable c then sbaddress0 p else 0)
  else if addr =? ADDR_SBADDRESS1
  then Ok (if DeclaredConfig.sba_enable c && (32 <? DeclaredConfig.sbasize c)
           then sbaddress1 p else 0)
  else if addr =? ADDR_SBDATA0
  then Ok (if DeclaredConfig.sba_enable c then sbdata0_pending_value p else 0)
  else if addr =? ADDR_SBDATA1 then Ok (if _sba_wider_than_32 p then sbdata1 p else 0)
  else Ok 0.

(** predictor.py:927-936 (predict_mask) *)
Definition predict_mask (addr : Z) : Z :=
  if addr =? ADDR_ABSTRACTCS then 0xFFFFE8FF
  else if addr =? ADDR_SBCS then 0xFF9F8FFF
  else MASK32.

(** predictor.py:938-946 (expect) *)
Definition expect (p : t) (addr : Z) : result Z :=
  if negb (has_model p addr)
  then Raise (KeyError ("predictor does not model DMI address " +:+ py_hex 2 addr))
  else predict p addr.

(** predictor.py:948-957 (sync_observed_hart_signals) *)
Definition sync_observed_hart_signals (dmstatus_word : Z) (p : t) : t :=
  if in_range p (hartsel p) then
    p <| harts :=
      alter (fun h =>
               h <| HartState.halted := truthy (Z.land (Z.shiftr dmstatus_word 9) 1) |>
                 <| HartState.running := truthy (Z.land (Z.shiftr dmstatus_word 11) 1) |>
                 <| HartState.resume_ack := truthy (Z.land (Z.shiftr dmstatus_word 17) 1) |>)
            (Z.to_nat (hartsel p)) (harts p) |>
  else p.

(** predictor.py:1038-1049 (snapshot, one hart) *)
Definition snapshot_hart (h : HartState.t) : HartSnap.t := {|
  HartSnap.halted := HartState.halted h;
  HartSnap.running := HartState.running h;
  HartSnap.havereset := HartState.havereset h;
  HartSnap.resume_ack := HartState.resume_ack h;
  HartSnap.halt_request := HartState.halt_request h;
  HartSnap.reset_haltreq := HartState.reset_haltreq h;
  HartSnap.unavail := HartState.unavail h;
  HartSnap.nonexistent := HartState.nonexistent h
|}.

(** predictor.py:1031-1051 (snapshot) *)
Definition snapshot (p : t) : Snapshot.t := {|
  Snapshot.dmactive := dmactive p;
  Snapshot.ndmreset := ndmreset p;
  Snapshot.hartsel := hartsel p;
  Snapshot.hasel := hasel p;
  Snapshot.harts := map snapshot_hart (harts p)
|}.

End DMPredictor.
