(* ===== verification/RunControl.v ===== *)
(** Run control of the golden-reference model: what a dmcontrol write does to
    each hart ([DMPredictor._write_dmcontrol] of [model/predictor.py]).

    The method loops over hart objects several times; [hart_after] composes the
    same updates for one hart, and [write_dmcontrol_hart] proves that the loops
    compute it at every index.  The theorems about halting, resuming, resets and
    acknowledgements are then case analyses on one hart. *)

From S2P Require Import Prelude Registers Predictor.
Import DMPredictor.

Local Open Scope string_scope.
Local Open Scope Z_scope.

(** One hart under each stage of a dmcontrol write, from the bits of the word:
    31 haltreq, 30 resumereq, 29 hartreset, 28 ackhavereset, 27 ackunavail,
    3 setresethaltreq, 2 clrresethaltreq, 1 ndmreset, 0 dmactive. *)
Definition ndmreset_hart (was now rst : bool) (h : HartState.t) : HartState.t :=
  if now && negb was then hart_under_ndmreset rst h
  else if negb now && was then _release_from_reset h else h.

Definition hartreset_hart (was now rst : bool) (h : HartState.t) : HartState.t :=
  if now && negb was then hart_under_hartreset rst h
  else if negb now && was then _release_from_reset (h <| HartState.hart_reset := false |>)
  else h.

Definition acks_hart (hasresethaltreq : bool) (v : Z) (h : HartState.t) : HartState.t :=
  let h := if hasresethaltreq then
             if Z.testbit v 2 then h <| HartState.reset_haltreq := false |>
             else if Z.testbit v 3 then h <| HartState.reset_haltreq := true |> else h
           else h in
  let h := if Z.testbit v 28 then h <| HartState.havereset := false |> else h in
  if Z.testbit v 27 && HartState.available h
  then h <| HartState.unavail_sticky := false |> else h.

(** A hart that is sent a resume request: dcsr.step re-halts it at once. *)
Definition resume_hart (step_armed : bool) (h : HartState.t) : HartState.t :=
  if HartState.nonexistent h || HartState.unavail h then h
  else if HartState.halted h
  then h <| HartState.halted := step_armed |>
         <| HartState.running := negb step_armed |>
         <| HartState.resume_ack := true |>
  else h <| HartState.resume_ack := false |>.

Definition run_hart (step_armed : bool) (v : Z) (h : HartState.t) : HartState.t :=
  let h := h <| HartState.halt_request := Z.testbit v 31 |> in
  if Z.testbit v 31 then halt_one h
  else if Z.testbit v 30 then resume_hart step_armed h else h.

(** dcsr.step as the abstract-command shadow last saw it. *)
Definition step_armed (p : t) : bool :=
  Z.testbit (default 0 (shadow_regs p !! DCSR_REGNO)) DCSR_STEP_BIT.

(** The state of hart [i] after a dmcontrol write of [v] with dmactive set;
    [sel] tells whether the write selects it. *)
Definition hart_after (p : t) (v : Z) (i : nat) (sel : bool) (h : HartState.t) : HartState.t :=
  let ndm := Z.testbit v 1 in
  let hartrst := Z.testbit v 29 && supports_hartreset p in
  let h := h <| HartState.nonexistent := _is_nonexistent p (Z.of_nat i) |> in
  let h := ndmreset_hart (ndmreset p) ndm (resumeack_reset p) h in
  let h := if sel then
             run_hart (step_armed p) v
               (acks_hart (hasresethaltreq p) v
                  (hartreset_hart (_hartreset_level p) hartrst (resumeack_reset p) h))
           else h in
  settle_hart ndm h.

(** ** The flags of a dmcontrol word *)

Lemma decode_flag r v n f :
  register_wf r = true -> Register.field r n = Ok f -> Field.width f = 1 ->
  truthy (dict_get (Register.decode r v) n 0) = Z.testbit v (Field.lsb f).
Proof.
  intros Hwf Hf Hw. apply field_found in Hf as [Hin <-].
  pose proof (fields_wf_in _ f Hwf Hin) as Hfw. apply field_wf_spec in Hfw.
  unfold dict_get. rewrite getitem_decode by done. cbn [value_or].
  rewrite extract_bit by lia. apply truthy_to_int.
Qed.

(** The name of a one-bit dmcontrol field and its position. *)
Definition dmcontrol_flag (n : string) : Z := Field.lsb (field_of DMCONTROL n).

Lemma dmcontrol_flag_spec v n :
  match Register.field DMCONTROL n with Ok f => Field.width f =? 1 | Raise _ => false end = true ->
  truthy (dict_get (Register.decode DMCONTROL v) n 0) = Z.testbit v (dmcontrol_flag n).
Proof.
  unfold dmcontrol_flag, field_of. destruct (Register.field DMCONTROL n) as [f|] eqn:E; [|done].
  intros Hw. zhyps. by apply decode_flag.
Qed.

(** Replace every flag test on a decoded dmcontrol word by the bit it reads. *)
Ltac dmcontrol_flags :=
  repeat match goal with
  | |- context [truthy (dict_get (Register.decode DMCONTROL ?v) ?n 0)] =>
      rewrite (dmcontrol_flag_spec v n eq_refl);
      let b := eval vm_compute in (dmcontrol_flag n) in change (dmcontrol_flag n) with b
  end.

Lemma truthy_bit v i : 0 <= i -> truthy (Z.land (Z.shiftr v i) 1) = Z.testbit v i.
Proof.
  intros Hi. change 1 with (Z.ones 1). rewrite Z.land_ones by lia.
  change (2 ^ 1) with 2. rewrite <-Z.bit0_mod, Z.shiftr_spec, Z.add_0_l by lia.
  apply truthy_to_int.
Qed.

(** ** The loops over harts *)

Lemma selected_positions_eq p :
  selected_positions p = if in_range p (hartsel p) then [Z.to_nat (hartsel p)] else [].
Proof.
  unfold selected_positions, selected_indices. unfold filter; cbn [list_filter].
  destruct (in_range p (hartsel p)); by case_decide.
Qed.

Lemma in_range_spec p i :
  0 <= i -> in_range p i = bool_decide (is_Some (harts p !! Z.to_nat i)).
Proof.
  intros Hi. unfold in_range. rewrite (proj2 (Z.leb_le 0 i)) by done. cbn [andb].
  apply Bool.eq_iff_eq_true. rewrite Z.ltb_lt, bool_decide_eq_true, lookup_lt_is_Some. lia.
Qed.

Arguments selected_positions : simpl never.
Arguments _apply_resumereq : simpl never.

Lemma lookup_for_harts f p i : harts (for_harts f p) !! i = f <$> harts p !! i.
Proof. apply list_lookup_fmap. Qed.

(** Whether the predictor's hartsel selects list position [i]. *)
Definition selects (p : t) (i : nat) : bool := Z.of_nat i =? hartsel p.

Lemma lookup_for_selected f p i :
  harts (for_selected f p) !! i = (if selects p i then f else id) <$> harts p !! i.
Proof.
  unfold for_selected, selects. cbn. rewrite selected_positions_eq.
  destruct (in_range p (hartsel p)) eqn:Hr; cbn.
  - unfold in_range in Hr. zhyps. destruct (Z.eqb_spec (Z.of_nat i) (hartsel p)) as [He|].
    + rewrite <-He, Nat2Z.id. apply list_lookup_alter_eq.
    + rewrite list_lookup_alter_ne by lia. by rewrite option_fmap_id.
  - destruct (Z.eqb_spec (Z.of_nat i) (hartsel p)) as [He|]; [|by rewrite option_fmap_id].
    unfold in_range in Hr. apply andb_false_iff in Hr. rewrite Z.leb_gt, Z.ltb_ge in Hr.
    rewrite lookup_ge_None_2 by lia. done.
Qed.

Lemma lookup_apply_resumereq p i :
  harts (_apply_resumereq p) !! i =
  (if selects p i then resume_hart (step_armed p) else id) <$> harts p !! i.
Proof.
  unfold _apply_resumereq, selects. rewrite selected_positions_eq.
  destruct (in_range p (hartsel p)) eqn:Hr; cbn [fold_left].
  - unfold in_range in Hr. zhyps. unfold resume_one.
    destruct (lookup_lt_is_Some_2 (harts p) (Z.to_nat (hartsel p))) as [h Hh]; [lia|].
    rewrite Hh. unfold resume_hart, step_armed. rewrite truthy_bit by done.
    set (b := Z.testbit _ _).
    destruct (Z.eqb_spec (Z.of_nat i) (hartsel p)) as [He|].
    + assert (Z.to_nat (hartsel p) = i) as Hi by lia. rewrite Hi in *. rewrite Hh. cbn.
      destruct (HartState.nonexistent h || HartState.unavail h); [done|].
      destruct (HartState.halted h); cbn; rewrite list_lookup_insert_eq;
        done || by eapply lookup_lt_Some.
    + rewrite option_fmap_id. destruct (_ || _); [done|].
      destruct (HartState.halted _); cbn; apply list_lookup_insert_ne; lia.
  - destruct (Z.eqb_spec (Z.of_nat i) (hartsel p)) as [He|]; [|by rewrite option_fmap_id].
    unfold in_range in Hr. apply andb_false_iff in Hr. rewrite Z.leb_gt, Z.ltb_ge in Hr.
    rewrite lookup_ge_None_2 by lia. done.
Qed.

Lemma selects_for_selected f p i : selects (for_selected f p) i = selects p i.
Proof. done. Qed.

(** ** The stages of a dmcontrol write, at one index *)

Lemma fmap_if {A} (c : bool) (f g : A -> A) (o : option A) :
  (if c then f else g) <$> o = if c then f <$> o else g <$> o.
Proof. by destruct c. Qed.

Lemma fmap_if_id {A} (c : bool) (f : A -> A) (o : option A) :
  (if c then f else id) <$> o = if c then f <$> o else o.
Proof. destruct c; [done|]. apply option_fmap_id. Qed.

Lemma lookup_dmcontrol_select v p i :
  harts (dmcontrol_select v p) !! i =
  (fun h => h <| HartState.nonexistent := _is_nonexistent p (Z.of_nat i) |>) <$> harts p !! i.
Proof. unfold dmcontrol_select. cbn. rewrite list_lookup_imap. done. Qed.

Lemma lookup_apply_ndmreset a p i :
  harts (_apply_ndmreset a p) !! i =
  ndmreset_hart (ndmreset p) a (resumeack_reset p) <$> harts p !! i.
Proof.
  unfold _apply_ndmreset, ndmreset_hart.
  destruct a, (ndmreset p); cbn; by rewrite ?list_lookup_fmap, ?option_fmap_id.
Qed.

Lemma lookup_apply_hartreset a p i :
  harts (_apply_hartreset a p) !! i =
  (if selects p i then hartreset_hart (_hartreset_level p) a (resumeack_reset p) else id)
    <$> harts p !! i.
Proof.
  unfold _apply_hartreset, hartreset_hart. rewrite fmap_if_id.
  destruct a, (_hartreset_level p); cbn [andb negb];
    rewrite ?lookup_for_selected, ?option_fmap_id, ?fmap_if_id;
    by destruct (selects p i) eqn:Hs; unfold selects in *; cbn; rewrite ?Hs.
Qed.

Lemma lookup_dmcontrol_acks v p i :
  harts (dmcontrol_acks v p) !! i =
  (if selects p i then acks_hart (hasresethaltreq p) v else id) <$> harts p !! i.
Proof.
  unfold dmcontrol_acks. dmcontrol_flags. unfold acks_hart.
  destruct (hasresethaltreq p), (Z.testbit v 3), (Z.testbit v 2), (Z.testbit v 28),
    (Z.testbit v 27); cbn [andb negb];
    rewrite ?lookup_for_selected, ?selects_for_selected;
    destruct (selects p i), (harts p !! i); try done.
Qed.

Lemma lookup_dmcontrol_run v p i :
  harts (dmcontrol_run v p) !! i =
  (if selects p i then run_hart (step_armed p) v else id) <$> harts p !! i.
Proof.
  unfold dmcontrol_run. dmcontrol_flags. unfold run_hart.
  destruct (Z.testbit v 31), (Z.testbit v 30); cbn [andb negb];
    rewrite ?lookup_apply_resumereq, ?lookup_for_selected, ?selects_for_selected;
    change (step_armed (for_selected ?f p)) with (step_armed p);
    destruct (selects p i), (harts p !! i); try done.
Qed.

(** [p] with everything a dmcontrol write may change erased: two predictors with
    the same erasure have the same configuration, buffers, shadow memory and
    every other register. *)
Definition erase_run (p : t) : t :=
  p <| harts := [] |> <| dmactive := false |> <| ndmreset := false |> <| hartsel := 0 |>
    <| hasel := false |> <| _hartreset_level := false |>
    <| shadow_regs := ∅ |> <| shadow_hi := ∅ |>.

Lemma erase_for_selected f p : erase_run (for_selected f p) = erase_run p.
Proof. done. Qed.

(** [q] differs from [p] only in its harts' states and the hart shadows. *)
Definition same_control (p q : t) : Prop :=
  dmactive q = dmactive p /\ ndmreset q = ndmreset p /\ hartsel q = hartsel p /\
  hasel q = hasel p /\ _hartreset_level q = _hartreset_level p /\
  length (harts q) = length (harts p) /\ erase_run q = erase_run p.

#[global] Instance same_control_preorder : PreOrder same_control.
Proof. split; [done|]. unfold same_control. intros p q r ? ?. intuition congruence. Qed.

Lemma same_for_selected f p : same_control p (for_selected f p).
Proof. repeat split. apply length_alter_all. Qed.

Lemma same_for_harts f p : same_control p (for_harts f p).
Proof. repeat split. apply length_map. Qed.

Lemma same_if (c : bool) p q : same_control p q -> same_control p (if c then q else p).
Proof. by destruct c. Qed.

Create HintDb same_control.
#[export] Hint Resolve same_for_selected same_for_harts same_if : same_control.

Lemma same_resume_one p i : same_control p (resume_one p i).
Proof.
  unfold resume_one. destruct (harts p !! i) as [h|]; [|done].
  destruct (_ || _); [done|]. destruct (HartState.halted _); repeat split; cbn;
    by rewrite length_insert.
Qed.

Lemma same_apply_resumereq p : same_control p (_apply_resumereq p).
Proof.
  unfold _apply_resumereq. rewrite selected_positions_eq.
  destruct (in_range _ _); [apply same_resume_one|done].
Qed.

Lemma same_dmcontrol_acks v p : same_control p (dmcontrol_acks v p).
Proof.
  unfold dmcontrol_acks. dmcontrol_flags. repeat case_match; cbn in *;
    repeat (etransitivity; [|apply same_for_selected]); done.
Qed.

Lemma same_dmcontrol_run v p : same_control p (dmcontrol_run v p).
Proof.
  unfold dmcontrol_run. dmcontrol_flags. destruct (Z.testbit v 31), (Z.testbit v 30); cbn [andb negb];
    try (etransitivity; [|apply same_apply_resumereq]);
    repeat (etransitivity; [|apply same_for_selected]); done.
Qed.

Lemma same_apply_ndmreset a p : same_control (p <| ndmreset := a |>) (_apply_ndmreset a p).
Proof.
  unfold _apply_ndmreset, for_harts. destruct a, (ndmreset p) eqn:E; repeat split;
    cbn; rewrite ?length_map; auto.
Qed.

Lemma same_apply_hartreset a p :
  same_control (p <| _hartreset_level := a |>) (_apply_hartreset a p).
Proof.
  unfold _apply_hartreset, for_selected. destruct a, (_hartreset_level p) eqn:E; repeat split;
    cbn; rewrite ?length_alter_all; auto.
Qed.

(** Everything but the harts that a dmcontrol write with dmactive set decides. *)
Lemma write_dmcontrol_frame v p :
  Z.testbit v 0 = true ->
  let q := _write_dmcontrol v p in
  dmactive q = true /\ ndmreset q = Z.testbit v 1 /\ hartsel q = hartsel_of v /\
  hasel q = supports_hasel p && Z.testbit v 26 /\
  _hartreset_level q = Z.testbit v 29 && supports_hartreset p /\
  length (harts q) = length (harts p) /\ erase_run q = erase_run p.
Proof.
  intros Hact. unfold _write_dmcontrol. dmcontrol_flags. rewrite Hact. cbn [negb].
  set (p1 := dmcontrol_select v p). set (p2 := _apply_ndmreset _ p1).
  set (p3 := _apply_hartreset _ p2).
  assert (same_control p3 (_settle_reset_state (dmcontrol_run v (dmcontrol_acks v p3)))) as Hs.
  { etransitivity; [|apply same_for_harts]. etransitivity; [|apply same_dmcontrol_run].
    apply same_dmcontrol_acks. }
  pose proof (same_apply_ndmreset (Z.testbit v 1) p1) as Hn. fold p2 in Hn.
  set (a := Z.testbit v 29 && supports_hartreset p2) in *.
  pose proof (same_apply_hartreset a p2) as Hh. fold p3 in Hh.
  destruct Hs as (Ha & Hb & Hc & Hd & He & Hf & Hg), Hn as (Na & Nb & Nc & Nd & Ne & Nf & Ng),
    Hh as (Ra & Rb & Rc & Rd & Re & Rf & Rg).
  rewrite Ha, Hb, Hc, Hd, He, Hf, Hg, Ra, Rb, Rc, Rd, Re, Rf, Rg.
  assert (supports_hartreset p2 = supports_hartreset p) as Hsup.
  { change (supports_hartreset (erase_run p2) = supports_hartreset p). by rewrite Ng. }
  cbn -[p1 p2 erase_run]. rewrite Na, Nb, Nc, Nd, Nf.
  change (erase_run (p2 <| _hartreset_level := a |>)) with (erase_run p2). rewrite Ng.
  unfold a, p1, dmcontrol_select. dmcontrol_flags. rewrite Hsup. cbn.
  rewrite length_imap. by destruct (supports_hasel p).
Qed.

(** What the stages before the run-control requests leave alone. *)
Lemma apply_ndmreset_keeps a p :
  selects (_apply_ndmreset a p) = selects p /\ shadow_regs (_apply_ndmreset a p) = shadow_regs p /\
  ndmreset (_apply_ndmreset a p) = a /\ erase_run (_apply_ndmreset a p) = erase_run p /\
  _hartreset_level (_apply_ndmreset a p) = _hartreset_level p.
Proof. unfold _apply_ndmreset. by destruct a, (ndmreset p) eqn:E. Qed.

Lemma apply_hartreset_keeps a p :
  selects (_apply_hartreset a p) = selects p /\ shadow_regs (_apply_hartreset a p) = shadow_regs p /\
  ndmreset (_apply_hartreset a p) = ndmreset p /\ erase_run (_apply_hartreset a p) = erase_run p.
Proof. unfold _apply_hartreset. by destruct a, (_hartreset_level p). Qed.

Lemma dmcontrol_acks_keeps v p :
  selects (dmcontrol_acks v p) = selects p /\ shadow_regs (dmcontrol_acks v p) = shadow_regs p.
Proof.
  unfold dmcontrol_acks. dmcontrol_flags.
  by destruct (hasresethaltreq p), (Z.testbit v 3), (Z.testbit v 2), (Z.testbit v 28),
    (Z.testbit v 27).
Qed.

Lemma erase_run_config p q :
  erase_run p = erase_run q ->
  resumeack_reset p = resumeack_reset q /\ hasresethaltreq p = hasresethaltreq q /\
  supports_hartreset p = supports_hartreset q.
Proof.
  intros He. split_and!.
  - exact (f_equal resumeack_reset He).
  - exact (f_equal hasresethaltreq He).
  - exact (f_equal supports_hartreset He).
Qed.

(** The predictor when the halt and resume requests of a dmcontrol write are
    acted upon. *)
Definition before_run (v : Z) (p : t) : t :=
  let p := _apply_ndmreset (Z.testbit v 1) (dmcontrol_select v p) in
  dmcontrol_acks v (_apply_hartreset (Z.testbit v 29 && supports_hartreset p) p).

Lemma write_dmcontrol_eq v p :
  Z.testbit v 0 = true ->
  _write_dmcontrol v p = _settle_reset_state (dmcontrol_run v (before_run v p)).
Proof.
  intros Hact. unfold _write_dmcontrol, before_run. dmcontrol_flags. by rewrite Hact.
Qed.

Definition hart_before_run (p : t) (v : Z) (i : nat) (sel : bool) (h : HartState.t) : HartState.t :=
  let hartrst := Z.testbit v 29 && supports_hartreset p in
  let h := h <| HartState.nonexistent := _is_nonexistent p (Z.of_nat i) |> in
  let h := ndmreset_hart (ndmreset p) (Z.testbit v 1) (resumeack_reset p) h in
  if sel then acks_hart (hasresethaltreq p) v
                (hartreset_hart (_hartreset_level p) hartrst (resumeack_reset p) h)
  else h.

Lemma before_run_spec v p :
  let q := before_run v p in
  (forall i, harts q !! i =
     hart_before_run p v i (Z.of_nat i =? hartsel_of v) <$> harts p !! i) /\
  hartsel q = hartsel_of v /\ ndmreset q = Z.testbit v 1 /\ shadow_regs q = shadow_regs p.
Proof.
  unfold before_run. set (p1 := dmcontrol_select v p). set (p2 := _apply_ndmreset _ p1).
  set (a := Z.testbit v 29 && supports_hartreset p2).
  set (p3 := _apply_hartreset a p2).
  pose proof (apply_ndmreset_keeps (Z.testbit v 1) p1) as N. fold p2 in N.
  pose proof (apply_hartreset_keeps a p2) as R. fold p3 in R.
  destruct (dmcontrol_acks_keeps v p3) as (As & Ah).
  destruct (same_dmcontrol_acks v p3) as (_ & An & Asel & _).
  destruct N as (Ns & Nh & Nn & Ne & Nl), R as (Rs & Rh & Rn & Re).
  assert (erase_run p1 = erase_run p) as Se.
  { unfold p1, dmcontrol_select. dmcontrol_flags. cbn. by destruct (supports_hasel p). }
  destruct (erase_run_config p3 p) as (_ & Ch & _); [congruence|].
  destruct (erase_run_config p2 p) as (Cr & _ & Cs); [congruence|].
  destruct (erase_run_config p1 p Se) as (C1 & _).
  cbn zeta. rewrite An, Asel, Ah, Rh, Nh, Rn, Nn. split_and!; try done.
  2:{ destruct (same_apply_hartreset a p2) as (_ & _ & E3 & _).
      destruct (same_apply_ndmreset (Z.testbit v 1) p1) as (_ & _ & E2 & _).
      exact (eq_trans E3 E2). }
  intros i.
  pose proof (lookup_apply_hartreset a p2 i) as L3. fold p3 in L3.
  pose proof (lookup_apply_ndmreset (Z.testbit v 1) p1 i) as L2. fold p2 in L2.
  pose proof (lookup_dmcontrol_select v p i) as L1. fold p1 in L1.
  rewrite lookup_dmcontrol_acks, L3, L2, L1, Rs, Ns, Ch, Cr, C1, Nl.
  unfold a. rewrite Cs. unfold hart_before_run.
  change (selects p1 i) with (Z.of_nat i =? hartsel_of v).
  change (ndmreset p1) with (ndmreset p). change (_hartreset_level p1) with (_hartreset_level p).
  destruct (Z.of_nat i =? hartsel_of v), (harts p !! i); done.
Qed.

Lemma before_run_shadow_hi v p : shadow_hi (before_run v p) = shadow_hi p.
Proof.
  assert (forall q, shadow_hi (dmcontrol_acks v q) = shadow_hi q) as H1.
  { intros q. unfold dmcontrol_acks. dmcontrol_flags.
    by destruct (hasresethaltreq q), (Z.testbit v 3), (Z.testbit v 2), (Z.testbit v 28),
      (Z.testbit v 27). }
  assert (forall a q, shadow_hi (_apply_hartreset a q) = shadow_hi q) as H2.
  { intros a q. unfold _apply_hartreset. by destruct a, (_hartreset_level q). }
  assert (forall a q, shadow_hi (_apply_ndmreset a q) = shadow_hi q) as H3.
  { intros a q. unfold _apply_ndmreset. by destruct a, (ndmreset q). }
  unfold before_run. by rewrite H1, H2, H3.
Qed.

(** At every index, a dmcontrol write with dmactive set computes [hart_after]. *)
Lemma write_dmcontrol_hart v p i :
  Z.testbit v 0 = true ->
  harts (_write_dmcontrol v p) !! i =
  hart_after p v i (Z.of_nat i =? hartsel_of v) <$> harts p !! i.
Proof.
  intros Hact. rewrite write_dmcontrol_eq by done.
  destruct (before_run_spec v p) as (Hb & Hs & Hn & Hsh).
  destruct (same_dmcontrol_run v (before_run v p)) as (_ & Un & _).
  unfold _settle_reset_state. rewrite lookup_for_harts, lookup_dmcontrol_run, Hb, Un, Hn.
  assert (step_armed (before_run v p) = step_armed p) as ->.
  { unfold step_armed. by rewrite Hsh. }
  unfold selects. rewrite Hs. unfold hart_before_run, hart_after.
  destruct (Z.of_nat i =? hartsel_of v), (harts p !! i); done.
Qed.

(** A resume request that reaches a halted hart forgets what was last written
    to the hart's registers. *)
Lemma resume_clears_shadow v p i h :
  Z.testbit v 0 = true -> Z.testbit v 31 = false -> Z.testbit v 30 = true ->
  hartsel_of v = Z.of_nat i -> harts (before_run v p) !! i = Some h ->
  HartState.nonexistent h || HartState.unavail h = false -> HartState.halted h = true ->
  shadow_regs (_write_dmcontrol v p) = ∅ /\ shadow_hi (_write_dmcontrol v p) = ∅.
Proof.
  intros Hact H31 H30 Hsel Hh Hu Hhalt. rewrite write_dmcontrol_eq by done.
  destruct (before_run_spec v p) as (_ & Hs & _).
  set (q := before_run v p) in *. unfold dmcontrol_run. dmcontrol_flags. rewrite H31, H30. cbn [andb negb].
  set (r := for_selected _ q). change (shadow_regs (_settle_reset_state ?x)) with (shadow_regs x).
  change (shadow_hi (_settle_reset_state ?x)) with (shadow_hi x).
  assert (harts r !! i = Some (h <| HartState.halt_request := false |>)) as Hr.
  { unfold r. rewrite lookup_for_selected, Hh. unfold selects. by rewrite Hs, Hsel, Z.eqb_refl. }
  unfold _apply_resumereq. rewrite selected_positions_eq.
  change (hartsel r) with (hartsel q). rewrite Hs, Hsel, in_range_spec, Nat2Z.id, bool_decide_eq_true_2
    by first [lia | eauto].
  cbn [fold_left]. unfold resume_one. rewrite Hr.
  change (HartState.nonexistent _ || _) with (HartState.nonexistent h || HartState.unavail h).
  rewrite Hu. change (HartState.halted (_ <| HartState.resume_ack := _ |>)) with (HartState.halted h).
  rewrite Hhalt. done.
Qed.

(** ** The same at the level of a DMI write, whose value is masked to 32 bits *)

Lemma testbit_mask32 v i : 0 <= i < 32 -> Z.testbit (Z.land v MASK32) i = Z.testbit v i.
Proof.
  intros Hi. change MASK32 with (Z.ones 32). rewrite Z.land_spec, testbit_ones by lia.
  zcases. apply andb_true_r.
Qed.

Lemma hartsel_of_mask32 v : hartsel_of (Z.land v MASK32) = hartsel_of v.
Proof.
  apply Z.bits_inj'. intros i Hi. rewrite !testbit_hartsel_of by done.
  destruct (Z.ltb_spec i 10); [by rewrite testbit_mask32 by lia|].
  destruct (Z.ltb_spec i 20); [|done]. by rewrite testbit_mask32 by lia.
Qed.

Lemma on_write_dmcontrol v p :
  on_write (Register.address DMCONTROL) v p = _write_dmcontrol (Z.land v MASK32) p.
Proof.
  unfold on_write. change (_guarded_while_busy (Register.address DMCONTROL)) with false.
  by rewrite andb_false_r.
Qed.

Lemma hart_after_mask32 v p i sel h :
  hart_after p (Z.land v MASK32) i sel h = hart_after p v i sel h.
Proof.
  unfold hart_after, run_hart, acks_hart. by rewrite !testbit_mask32 by lia.
Qed.

Lemma dmcontrol_hart v p i :
  Z.testbit v 0 = true ->
  harts (on_write (Register.address DMCONTROL) v p) !! i =
  hart_after p v i (Z.of_nat i =? hartsel_of v) <$> harts p !! i.
Proof.
  intros Ha. rewrite on_write_dmcontrol, write_dmcontrol_hart by by rewrite testbit_mask32.
  rewrite hartsel_of_mask32. destruct (harts p !! i); [|done]. cbn.
  by rewrite hart_after_mask32.
Qed.

(** What a dmcontrol write with dmactive set decides apart from the harts. *)
Lemma dmcontrol_frame v p :
  Z.testbit v 0 = true ->
  let q := on_write (Register.address DMCONTROL) v p in
  dmactive q = true /\ ndmreset q = Z.testbit v 1 /\ hartsel q = hartsel_of v /\
  hasel q = supports_hasel p && Z.testbit v 26 /\
  _hartreset_level q = Z.testbit v 29 && supports_hartreset p /\
  length (harts q) = length (harts p) /\ erase_run q = erase_run p.
Proof.
  intros Ha. rewrite on_write_dmcontrol.
  pose proof (write_dmcontrol_frame (Z.land v MASK32) p) as H.
  rewrite hartsel_of_mask32, !testbit_mask32 in H by lia. auto.
Qed.

(** ** A hart is never both halted and running *)

Definition hart_wf (h : HartState.t) : bool := negb (HartState.halted h && HartState.running h).

(** Prove a boolean fact of one hart under a stage by evaluation on its flags. *)
Ltac hart_solve :=
  intros; unfold hart_wf, ndmreset_hart, hartreset_hart, acks_hart, run_hart in *;
  repeat match goal with h : HartState.t |- _ => destruct h end; bool_solve.

Lemma wf_ndmreset_hart a b c h : hart_wf h = true -> hart_wf (ndmreset_hart a b c h) = true.
Proof. hart_solve. Qed.
Lemma wf_hartreset_hart a b c h : hart_wf h = true -> hart_wf (hartreset_hart a b c h) = true.
Proof. hart_solve. Qed.
Lemma wf_acks_hart a v h : hart_wf h = true -> hart_wf (acks_hart a v h) = true.
Proof. hart_solve. Qed.
Lemma wf_run_hart a v h : hart_wf h = true -> hart_wf (run_hart a v h) = true.
Proof. hart_solve. Qed.
Lemma wf_settle_hart a h : hart_wf h = true -> hart_wf (settle_hart a h) = true.
Proof. hart_solve. Qed.

Lemma wf_hart_after p v i sel h : hart_wf h = true -> hart_wf (hart_after p v i sel h) = true.
Proof.
  intros H. unfold hart_after. apply wf_settle_hart.
  destruct sel; [apply wf_run_hart, wf_acks_hart, wf_hartreset_hart|];
    by apply wf_ndmreset_hart.
Qed.

(** ** Halting, resuming, acknowledging *)

(** No reset is in progress at [h], started or ended by the write of [v]. *)
Definition no_reset (p : t) (v : Z) (h : HartState.t) : Prop :=
  ndmreset p = false /\ Z.testbit v 1 = false /\ _hartreset_level p = false /\
  (Z.testbit v 29 && supports_hartreset p) = false /\ HartState.hart_reset h = false.

(** Hart [i] exists and is available. *)
Definition usable (p : t) (i : nat) (h : HartState.t) : Prop :=
  Z.of_nat i < num_harts p /\ HartState.unavail h = false.

Lemma reset_run_hart a v h : HartState.hart_reset (run_hart a v h) = HartState.hart_reset h.
Proof. unfold run_hart, halt_one, resume_hart. by repeat case_match. Qed.

Lemma reset_acks_hart a v h : HartState.hart_reset (acks_hart a v h) = HartState.hart_reset h.
Proof. unfold acks_hart. by repeat case_match. Qed.

Lemma hart_after_no_reset p v i sel h :
  no_reset p v h ->
  hart_after p v i sel h =
  let h := h <| HartState.nonexistent := _is_nonexistent p (Z.of_nat i) |> in
  if sel then run_hart (step_armed p) v (acks_hart (hasresethaltreq p) v h) else h.
Proof.
  intros (Hn & Hb & Hl & Hr & Hh). unfold hart_after.
  rewrite Hn, Hb, Hl, Hr. cbn [ndmreset_hart hartreset_hart andb negb].
  assert (forall h, HartState.hart_reset h = false -> settle_hart false h = h) as Hs.
  { intros h' E. unfold settle_hart. by rewrite E. }
  destruct sel; apply Hs; [|done].
  by rewrite reset_run_hart, reset_acks_hart.
Qed.

(** What acknowledging and halt-on-reset requests leave alone. *)
Lemma acks_hart_keeps a v h :
  let g := acks_hart a v h in
  HartState.halted g = HartState.halted h /\ HartState.running g = HartState.running h /\
  HartState.resume_ack g = HartState.resume_ack h /\
  HartState.halt_request g = HartState.halt_request h /\
  HartState.hart_reset g = HartState.hart_reset h /\
  HartState.available g = HartState.available h /\
  HartState.nonexistent g = HartState.nonexistent h.
Proof. unfold acks_hart. by repeat case_match. Qed.

Lemma acks_hart_unavail a v h :
  HartState.unavail h = false -> HartState.unavail (acks_hart a v h) = false.
Proof.
  unfold acks_hart, HartState.unavail. rewrite !orb_false_iff. intros [??].
  repeat case_match; done.
Qed.

(** A hart that reports exactly one of halted and running. *)
Definition settled (h : HartState.t) : Prop := HartState.running h = negb (HartState.halted h).

Section selected_hart.
Context (p : t) (v : Z) (i : nat) (h : HartState.t).
Context (Hact : Z.testbit v 0 = true) (Hsel : hartsel_of v = Z.of_nat i).
Context (Hh : harts p !! i = Some h) (Huse : usable p i h) (Hnr : no_reset p v h).
Context (Hst : settled h).

(** The selected hart when the write's requests reach it. *)
Lemma selected_hart :
  exists g, harts (before_run (Z.land v MASK32) p) !! i = Some g /\
    harts (on_write (Register.address DMCONTROL) v p) !! i =
      Some (run_hart (step_armed p) v g) /\
    HartState.nonexistent g = false /\ HartState.unavail g = false /\
    HartState.halted g = HartState.halted h /\ HartState.running g = negb (HartState.halted h) /\
    HartState.resume_ack g = HartState.resume_ack h.
Proof.
  destruct Huse as [Hex Hav].
  destruct (before_run_spec (Z.land v MASK32) p) as (Hb & _).
  rewrite Hb, dmcontrol_hart, Hh, hartsel_of_mask32, Hsel, Z.eqb_refl by done. cbn.
  eexists. split; [done|]. rewrite hart_after_no_reset by done. cbn zeta iota.
  destruct Hnr as (Hn & Hb1 & Hl & Hr & _). unfold hart_before_run.
  rewrite !testbit_mask32, Hn, Hb1, Hl, Hr by lia.
  cbn [ndmreset_hart hartreset_hart andb negb].
  assert (forall g, acks_hart (hasresethaltreq p) (Z.land v MASK32) g =
                    acks_hart (hasresethaltreq p) v g) as ->.
  { intros g. unfold acks_hart. by rewrite !testbit_mask32 by lia. }
  split; [done|].
  match goal with |- context [acks_hart ?a v ?g] =>
    pose proof (acks_hart_keeps a v g) as (-> & -> & -> & _ & _ & _ & ->);
    pose proof (acks_hart_unavail a v g Hav) as ->
  end. cbn. unfold settled in Hst. split_and!; try done. by apply Z.leb_gt.
Qed.

Lemma unselected_hart j g :
  j <> i -> harts p !! j = Some g -> HartState.hart_reset g = false ->
  harts (on_write (Register.address DMCONTROL) v p) !! j =
  Some (g <| HartState.nonexistent := _is_nonexistent p (Z.of_nat j) |>).
Proof.
  intros Hne Hg Hgr. rewrite dmcontrol_hart, Hg, Hsel by done. cbn.
  assert ((Z.of_nat j =? Z.of_nat i) = false) as -> by (apply Z.eqb_neq; lia).
  rewrite hart_after_no_reset; [done|]. unfold no_reset in *. intuition.
Qed.

(** Writing haltreq halts the selected hart if it exists and is
    available, and leaves every other hart as it was. *)
Theorem haltreq_halts :
  Z.testbit v 31 = true ->
  let q := on_write (Register.address DMCONTROL) v p in
  (exists h', harts q !! i = Some h' /\ HartState.halted h' = true /\
     HartState.running h' = false /\ HartState.halt_request h' = true /\
     HartState.resume_ack h' = HartState.resume_ack h) /\
  (forall j g, j <> i -> harts p !! j = Some g -> HartState.hart_reset g = false ->
     harts q !! j = Some (g <| HartState.nonexistent := _is_nonexistent p (Z.of_nat j) |>)).
Proof using Type*.
  intros Hhalt. split; [|exact unselected_hart].
  destruct selected_hart as (g & _ & -> & Hne & Hav & Hgh & Hgr & Hga).
  eexists. split; [done|]. unfold run_hart, halt_one, HartState.unavail in *. rewrite Hhalt.
  cbn. rewrite Hne, Hav. cbn. rewrite Hgh, Hgr.
  destruct (HartState.halted h) eqn:E; cbn; rewrite ?Hgh, ?Hgr; done.
Qed.

(** Without haltreq, resumereq resumes a halted selected hart and sets its
    resume ack, except that a hart whose dcsr.step was last written 1 is back
    in the halted state; a running hart only has its resume ack cleared. *)
Theorem resumereq_resumes :
  Z.testbit v 31 = false -> Z.testbit v 30 = true ->
  let q := on_write (Register.address DMCONTROL) v p in
  exists h', harts q !! i = Some h' /\ HartState.halt_request h' = false /\
    HartState.running h' = negb (HartState.halted h') /\
    (if HartState.halted h
     then HartState.halted h' = step_armed p /\ HartState.resume_ack h' = true /\
          shadow_regs q = ∅ /\ shadow_hi q = ∅
     else HartState.halted h' = false /\ HartState.resume_ack h' = false).
Proof using Type*.
  intros H31 H30. cbn zeta.
  destruct selected_hart as (g & Hg & -> & Hne & Hav & Hgh & Hgr & Hga).
  eexists. split; [done|]. unfold run_hart, resume_hart, HartState.unavail in *.
  rewrite H31, H30. cbn. rewrite Hne, Hav. cbn. rewrite Hgh.
  destruct (HartState.halted h) eqn:E; cbn; rewrite ?Hgh, ?Hgr; [|done].
  rewrite on_write_dmcontrol. split_and!; try done;
    apply (resume_clears_shadow _ _ i g); try done;
    try (rewrite testbit_mask32; done); try (rewrite hartsel_of_mask32; done);
    unfold HartState.unavail; by rewrite Hne, Hav.
Qed.

(** A write with haltreq set ignores resumereq, and one with neither bit
    set leaves the selected hart in its state and clears its halt request. *)
Theorem no_resume_without_request :
  Z.testbit v 31 = true \/ Z.testbit v 30 = false ->
  exists h', harts (on_write (Register.address DMCONTROL) v p) !! i = Some h' /\
    HartState.halted h' = HartState.halted h || Z.testbit v 31 /\
    HartState.halt_request h' = Z.testbit v 31 /\
    HartState.resume_ack h' = HartState.resume_ack h.
Proof using Type*.
  intros Hreq. destruct selected_hart as (g & _ & -> & Hne & Hav & Hgh & Hgr & Hga).
  eexists. split; [done|]. unfold run_hart, halt_one, HartState.unavail in *.
  destruct (Z.testbit v 31).
  - cbn. rewrite Hne, Hav. cbn. rewrite Hgh, Hgr.
    destruct (HartState.halted h); cbn; rewrite ?Hgh; done.
  - destruct Hreq as [? | ->]; [done|]. cbn. by rewrite Hgh, orb_false_r.
Qed.
End selected_hart.

(** ** Resets *)

Lemma havereset_ndmreset_hart a b c h :
  HartState.havereset h = true -> HartState.havereset (ndmreset_hart a b c h) = true.
Proof. hart_solve. Qed.
Lemma havereset_hartreset_hart a b c h :
  HartState.havereset h = true -> HartState.havereset (hartreset_hart a b c h) = true.
Proof. hart_solve. Qed.
Lemma havereset_acks_hart a v h :
  HartState.havereset (acks_hart a v h) = HartState.havereset h && negb (Z.testbit v 28).
Proof. unfold acks_hart. destruct (HartState.havereset h) eqn:E; repeat (case_match; cbn); by rewrite ?E. Qed.
Lemma havereset_run_hart a v h : HartState.havereset (run_hart a v h) = HartState.havereset h.
Proof. unfold run_hart, halt_one, resume_hart. by repeat case_match. Qed.
Lemma havereset_settle_hart a h : HartState.havereset (settle_hart a h) = HartState.havereset h.
Proof. unfold settle_hart. by case_match. Qed.

Lemma havereset_hart_after p v i sel h :
  HartState.havereset h = true ->
  HartState.havereset (hart_after p v i sel h) = negb (sel && Z.testbit v 28).
Proof.
  intros H. unfold hart_after. rewrite havereset_settle_hart. destruct sel.
  - rewrite havereset_run_hart, havereset_acks_hart, havereset_hartreset_hart; [done|].
    by apply havereset_ndmreset_hart.
  - by apply havereset_ndmreset_hart.
Qed.

Lemma dmcontrol_dmactive_0 v p :
  Z.testbit v 0 = false -> on_write (Register.address DMCONTROL) v p = reset_dm false p.
Proof.
  intros Ha. rewrite on_write_dmcontrol. unfold _write_dmcontrol. dmcontrol_flags.
  by rewrite testbit_mask32, Ha by lia.
Qed.

Lemma lookup_reset_dm b p i h :
  length (harts p) = Z.to_nat (Z.max (num_harts p) 1) -> harts p !! i = Some h ->
  harts (reset_dm b p) !! i = Some (reset_hart p b (harts p) i).
Proof.
  intros Hlen Hh. apply lookup_lt_Some in Hh.
  unfold reset_dm. cbn -[reset_hart].
  rewrite list_lookup_fmap, lookup_seq_lt by lia. done.
Qed.

(** C35: havereset is sticky: over any dmcontrol write, a hart that has reset
    keeps saying so exactly until a write that selects it with ackhavereset
    set (and dmactive set). *)
Theorem havereset_sticky p v i h :
  length (harts p) = Z.to_nat (Z.max (num_harts p) 1) ->
  harts p !! i = Some h -> HartState.havereset h = true ->
  exists h', harts (on_write (Register.address DMCONTROL) v p) !! i = Some h' /\
    HartState.havereset h' =
    negb (Z.testbit v 0 && (Z.of_nat i =? hartsel_of v) && Z.testbit v 28).
Proof.
  intros Hlen Hh Hr. destruct (Z.testbit v 0) eqn:Ha.
  - rewrite dmcontrol_hart, Hh by done. eexists. split; [done|].
    by rewrite havereset_hart_after.
  - rewrite dmcontrol_dmactive_0 by done. erewrite lookup_reset_dm by done.
    eexists. split; [done|]. unfold reset_hart. by rewrite Hh.
Qed.

(** While ndmreset is asserted, no hart reads halted, and a hart reads
    running exactly when it is not unavailable; asserting it makes every hart
    report havereset unless the same write acknowledges it. *)
Theorem ndmreset_holds_harts p v i h :
  Z.testbit v 0 = true -> Z.testbit v 1 = true -> harts p !! i = Some h ->
  exists h', harts (on_write (Register.address DMCONTROL) v p) !! i = Some h' /\
    HartState.halted h' = false /\ HartState.running h' = negb (HartState.unavail h') /\
    (ndmreset p = false ->
     HartState.havereset h' = negb ((Z.of_nat i =? hartsel_of v) && Z.testbit v 28)).
Proof.
  intros Ha Hn Hh. rewrite dmcontrol_hart, Hh by done. eexists. split; [done|].
  set (sel := Z.of_nat i =? hartsel_of v). split_and!.
  - unfold hart_after. by rewrite Hn.
  - unfold hart_after. rewrite Hn. unfold settle_hart. cbn. unfold HartState.unavail. cbn.
    by rewrite orb_comm.
  - intros Hp. unfold hart_after. rewrite havereset_settle_hart, Hp, Hn.
    cbn [ndmreset_hart andb negb]. destruct sel; [|done].
    rewrite havereset_run_hart, havereset_acks_hart, havereset_hartreset_hart; done.
Qed.

(** When ndmreset is released, every existing hart that the write makes no
    other request of comes out halted exactly if its halt-on-reset or its halt
    request bit is set, running otherwise, and reports havereset. *)
Theorem ndmreset_release p v i h :
  Z.testbit v 0 = true -> Z.testbit v 1 = false -> ndmreset p = true ->
  harts p !! i = Some h -> Z.of_nat i < num_harts p ->
  Z.of_nat i <> hartsel_of v -> HartState.hart_reset h = false ->
  exists h', harts (on_write (Register.address DMCONTROL) v p) !! i = Some h' /\
    HartState.halted h' = HartState.reset_haltreq h || HartState.halt_request h /\
    HartState.running h' = negb (HartState.halted h') /\ HartState.havereset h' = true /\
    HartState.reset_haltreq h' = HartState.reset_haltreq h.
Proof.
  intros Ha Hb Hn Hh Hex Hsel Hr. rewrite dmcontrol_hart, Hh by done. eexists. split; [done|].
  apply Z.eqb_neq in Hsel. rewrite Hsel. unfold hart_after. rewrite Hn, Hb.
  assert (_is_nonexistent p (Z.of_nat i) = false) as -> by by apply Z.leb_gt.
  destruct h; cbn in Hr; subst. unfold ndmreset_hart, _release_from_reset, settle_hart. cbn.
  destruct reset_haltreq, halt_request; done.
Qed.

(** A dmcontrol write with dmactive clear resets the DM and drops every
    other bit of the write: the four DM-tracked bits of each hart take their
    reset values while its halted, running and havereset signals survive, the
    hart shadow survives, and the buffers, selection and resets are cleared. *)
Theorem dm_reset p v i h :
  length (harts p) = Z.to_nat (Z.max (num_harts p) 1) ->
  Z.testbit v 0 = false -> harts p !! i = Some h ->
  let q := on_write (Register.address DMCONTROL) v p in
  (exists h', harts q !! i = Some h' /\
     HartState.halted h' = HartState.halted h /\
     HartState.running h' = HartState.running h /\
     HartState.havereset h' = HartState.havereset h /\
     HartState.halt_request h' = false /\ HartState.reset_haltreq h' = false /\
     HartState.hart_reset h' = false /\ HartState.resume_ack h' = resumeack_reset p) /\
  length (harts q) = length (harts p) /\
  dmactive q = false /\ ndmreset q = false /\ hartsel q = 0 /\ hasel q = false /\
  _hartreset_level q = false /\ abstractauto q = 0 /\
  data_q q = replicate 12 0 /\ progbuf_q q = replicate 16 0 /\
  shadow_regs q = shadow_regs p /\ shadow_mem q = shadow_mem p.
Proof.
  intros Hlen Ha Hh. cbn zeta. rewrite dmcontrol_dmactive_0 by done. split.
  - erewrite lookup_reset_dm by done.
    eexists. split; [done|]. unfold reset_hart. by rewrite Hh.
  - unfold reset_dm. split; [|done].
    cbn -[reset_hart]. by rewrite length_map, length_seq.
Qed.

(** Nothing but a resume request to it or a reset takes a hart out of the
    halted state. *)
Theorem halted_preserved p v i h :
  Z.testbit v 0 = true -> harts p !! i = Some h -> HartState.halted h = true ->
  no_reset p v h ->
  (hartsel_of v = Z.of_nat i -> Z.testbit v 30 = true -> Z.testbit v 31 = true) ->
  exists h', harts (on_write (Register.address DMCONTROL) v p) !! i = Some h' /\
    HartState.halted h' = true.
Proof.
  intros Ha Hh Hhalt Hnr Hreq. rewrite dmcontrol_hart, Hh by done. eexists. split; [done|].
  rewrite hart_after_no_reset by done. cbn zeta.
  destruct (Z.eqb_spec (Z.of_nat i) (hartsel_of v)) as [He|]; [|done].
  match goal with |- context [acks_hart ?a v ?g] =>
    pose proof (acks_hart_keeps a v g) as (Hk & _) end.
  cbn in Hk. rewrite Hhalt in Hk. unfold run_hart, halt_one, resume_hart.
  destruct (Z.testbit v 31) eqn:H31.
  - destruct (_ || _); [done|]. cbn. rewrite Hk, andb_false_r. done.
  - destruct (Z.testbit v 30) eqn:H30; [|done].
    specialize (Hreq (eq_sym He)). intuition congruence.
Qed.

(** ** hartreset and a changed selection *)

Lemma reset_ndmreset_hart a b c h :
  HartState.hart_reset (ndmreset_hart a b c h) = HartState.hart_reset h.
Proof.
  unfold ndmreset_hart, _release_from_reset, hart_under_ndmreset. by repeat case_match.
Qed.

Lemma reset_settle_hart a h : HartState.hart_reset (settle_hart a h) = HartState.hart_reset h.
Proof. unfold settle_hart. by case_match. Qed.

(** Only a write that selects the hart changes whether hartreset holds it. *)
Lemma reset_hart_after p v i sel h :
  sel = false \/ (_hartreset_level p = false /\ Z.testbit v 29 = false) ->
  HartState.hart_reset (hart_after p v i sel h) = HartState.hart_reset h.
Proof.
  intros Hq. unfold hart_after. rewrite reset_settle_hart. destruct sel.
  - destruct Hq as [? | [-> ->]]; [done|].
    rewrite reset_run_hart, reset_acks_hart. cbn [hartreset_hart andb negb].
    by rewrite reset_ndmreset_hart.
  - by rewrite reset_ndmreset_hart.
Qed.

(** Releasing hartreset acts on the harts selected by the releasing write.
    A hart held in reset that this write does not select stays in reset, and no
    later write that leaves hartreset clear takes it out; the newly selected
    hart, which was never reset, is treated as coming out of reset instead: it
    loses its halted state and reports havereset. *)
Theorem hartreset_release_moves p v i j h g :
  Z.testbit v 0 = true -> Z.testbit v 1 = false -> Z.testbit v 29 = false ->
  Z.testbit v 28 = false -> Z.testbit v 31 = false -> Z.testbit v 30 = false ->
  ndmreset p = false -> _hartreset_level p = true ->
  i <> j -> hartsel_of v = Z.of_nat j ->
  harts p !! i = Some h -> HartState.hart_reset h = true -> 
  harts p !! j = Some g -> Z.of_nat j < num_harts p ->
  HartState.reset_haltreq g = false -> HartState.halt_request g = false ->
  let q := on_write (Register.address DMCONTROL) v p in
  _hartreset_level q = false /\
  (exists h', harts q !! i = Some h' /\ HartState.hart_reset h' = true) /\
  (exists g', harts q !! j = Some g' /\ HartState.halted g' = false /\
              HartState.havereset g' = true) /\
  (forall v', Z.testbit v' 0 = true -> Z.testbit v' 29 = false ->
   exists h'', harts (on_write (Register.address DMCONTROL) v' q) !! i = Some h'' /\
               HartState.hart_reset h'' = true).
Proof.
  intros Ha Hn H29 H28 H31 H30 Hp Hl Hne Hsel Hh Hr Hg Hex Hrh Hhr. cbn zeta.
  pose proof (dmcontrol_frame v p Ha) as D. cbn zeta in D.
  destruct D as (_ & _ & _ & _ & Dl & _).
  assert ((Z.of_nat i =? hartsel_of v) = false) as Hi by (apply Z.eqb_neq; lia).
  assert (HartState.hart_reset (hart_after p v i false h) = true) as Hra
    by by rewrite reset_hart_after by by left.
  split; [by rewrite Dl, H29|]. split; [|split].
  - rewrite dmcontrol_hart, Hh, Hi by done. eauto.
  - rewrite dmcontrol_hart, Hg, Hsel, Z.eqb_refl by done. eexists. split; [done|].
    unfold hart_after. rewrite Hp, Hn, Hl, H29. cbn [ndmreset_hart hartreset_hart andb negb].
    assert (_is_nonexistent p (Z.of_nat j) = false) as -> by by apply Z.leb_gt.
    rewrite havereset_settle_hart, havereset_run_hart, havereset_acks_hart, H28.
    unfold _release_from_reset. cbn. rewrite Hrh, Hhr. cbn. split; [|done].
    unfold settle_hart. rewrite reset_run_hart, reset_acks_hart. cbn.
    unfold run_hart. rewrite H31, H30. cbn. by apply acks_hart_keeps.
  - intros v' Ha' H29'. rewrite dmcontrol_hart, dmcontrol_hart, Hh, Hi by done.
    eexists. split; [done|]. rewrite reset_hart_after; [done|].
    right. by rewrite Dl, H29.
Qed.

(** ** Witnesses *)

(** A freshly powered-up predictor, one that has halted its hart, and one that
    holds ndmreset over a hart with a halt-on-reset request. *)
Definition p_up : t := init Kwargs.default.
Definition p_halted : t := on_write (Register.address DMCONTROL) 0x80000001 p_up.
Definition p_ndmreset : t :=
  on_write (Register.address DMCONTROL) 0x00010003
    (on_write (Register.address DMCONTROL) 0x00000009
       (init (Kwargs.default <| Kwargs.num_harts := 2 |>))).
(** Two harts, hart 1 halted and hart 0 held by hartreset. *)
Definition p_hartreset : t :=
  on_write (Register.address DMCONTROL) 0x20000001
    (on_write (Register.address DMCONTROL) 0x00010001
       (on_write (Register.address DMCONTROL) 0x80010001
          (init (Kwargs.default <| Kwargs.num_harts := 2 |>)))).

Definition hart_at (p : t) (i : nat) : HartState.t := default HartState.default (harts p !! i).

Lemma haltreq_halts_witness :
  let p := p_up in let v := 0x80000001 in let i := 0%nat in let h := hart_at p_up 0 in
  let q := on_write (Register.address DMCONTROL) v p in
  (exists h', harts q !! i = Some h' /\ HartState.halted h' = true /\
     HartState.running h' = false /\ HartState.halt_request h' = true /\
     HartState.resume_ack h' = HartState.resume_ack h) /\
  (forall j g, j <> i -> harts p !! j = Some g -> HartState.hart_reset g = false ->
     harts q !! j = Some (g <| HartState.nonexistent := _is_nonexistent p (Z.of_nat j) |>)).
Proof.
  intros p v i h. apply (haltreq_halts p v i h); vm_compute; repeat split.
Defined.

Lemma resumereq_resumes_witness :
  let p := p_halted in let v := 0x40000001 in let i := 0%nat in let h := hart_at p_halted 0 in
  let q := on_write (Register.address DMCONTROL) v p in
  exists h', harts q !! i = Some h' /\ HartState.halt_request h' = false /\
    HartState.running h' = negb (HartState.halted h') /\
    (if HartState.halted h
     then HartState.halted h' = step_armed p /\ HartState.resume_ack h' = true /\
          shadow_regs q = ∅ /\ shadow_hi q = ∅
     else HartState.halted h' = false /\ HartState.resume_ack h' = false).
Proof.
  intros p v i h. apply (resumereq_resumes p v i h); vm_compute; repeat split.
Defined.

Lemma no_resume_without_request_witness :
  let p := p_halted in let v := 0xC0000001 in let i := 0%nat in let h := hart_at p_halted 0 in
  exists h', harts (on_write (Register.address DMCONTROL) v p) !! i = Some h' /\
    HartState.halted h' = HartState.halted h || Z.testbit v 31 /\
    HartState.halt_request h' = Z.testbit v 31 /\
    HartState.resume_ack h' = HartState.resume_ack h.
Proof.
  intros p v i h. apply (no_resume_without_request p v i h); try left;
    vm_compute; repeat split.
Defined.

Lemma havereset_sticky_witness :
  let p := p_ndmreset in let v := 0x10010003 in let i := 0%nat in
  exists h', harts (on_write (Register.address DMCONTROL) v p) !! i = Some h' /\
    HartState.havereset h' =
    negb (Z.testbit v 0 && (Z.of_nat i =? hartsel_of v) && Z.testbit v 28).
Proof.
  intros p v i. apply (havereset_sticky p v i (hart_at p_ndmreset 0)); vm_compute; reflexivity.
Defined.

Lemma ndmreset_holds_harts_witness :
  let p := p_up in let v := 0x00000003 in let i := 0%nat in
  exists h', harts (on_write (Register.address DMCONTROL) v p) !! i = Some h' /\
    HartState.halted h' = false /\ HartState.running h' = negb (HartState.unavail h') /\
    (ndmreset p = false ->
     HartState.havereset h' = negb ((Z.of_nat i =? hartsel_of v) && Z.testbit v 28)).
Proof.
  intros p v i. apply (ndmreset_holds_harts p v i (hart_at p_up 0)); vm_compute; reflexivity.
Defined.

Lemma ndmreset_release_witness :
  let p := p_ndmreset in let v := 0x00010001 in let i := 0%nat in let h := hart_at p_ndmreset 0 in
  exists h', harts (on_write (Register.address DMCONTROL) v p) !! i = Some h' /\
    HartState.halted h' = HartState.reset_haltreq h || HartState.halt_request h /\
    HartState.running h' = negb (HartState.halted h') /\ HartState.havereset h' = true /\
    HartState.reset_haltreq h' = HartState.reset_haltreq h.
Proof.
  intros p v i h. apply (ndmreset_release p v i h);
    vm_compute; first [reflexivity | discriminate].
Defined.

Lemma dm_reset_witness :
  let p := p_halted in let v := 0 in let i := 0%nat in let h := hart_at p_halted 0 in
  exists h', harts (on_write (Register.address DMCONTROL) v p) !! i = Some h' /\
    HartState.halted h' = HartState.halted h /\
    HartState.running h' = HartState.running h /\
    HartState.havereset h' = HartState.havereset h /\
    HartState.halt_request h' = false /\ HartState.reset_haltreq h' = false /\
    HartState.hart_reset h' = false /\ HartState.resume_ack h' = resumeack_reset p.
Proof.
  intros p v i h. apply (dm_reset p v i h); vm_compute; reflexivity.
Defined.

Lemma halted_preserved_witness :
  let p := p_halted in let v := 0x18000001 in let i := 0%nat in
  exists h', harts (on_write (Register.address DMCONTROL) v p) !! i = Some h' /\
    HartState.halted h' = true.
Proof.
  intros p v i. apply (halted_preserved p v i (hart_at p_halted 0));
    [reflexivity|vm_compute; reflexivity|vm_compute; reflexivity|vm_compute; repeat split|].
  intros _ H. vm_compute in H. discriminate H.
Defined.

Lemma hartreset_release_moves_witness :
  let p := p_hartreset in let v := 0x00010001 in let i := 0%nat in let j := 1%nat in
  let q := on_write (Register.address DMCONTROL) v p in
  _hartreset_level q = false /\
  (exists h', harts q !! i = Some h' /\ HartState.hart_reset h' = true) /\
  (exists g', harts q !! j = Some g' /\ HartState.halted g' = false /\
              HartState.havereset g' = true) /\
  (forall v', Z.testbit v' 0 = true -> Z.testbit v' 29 = false ->
   exists h'', harts (on_write (Register.address DMCONTROL) v' q) !! i = Some h'' /\
               HartState.hart_reset h'' = true).
Proof.
  intros p v i j.
  apply (hartreset_release_moves p v i j (hart_at p_hartreset 0) (hart_at p_hartreset 1));
    vm_compute; first [reflexivity | discriminate].
Defined.
