(* ===== verification/Reachable.v ===== *)
(** The predictor as a state machine: the events that reach it (DMI writes and
    reads, the busy flag and the dmstatus words the checker feeds it, a declared
    configuration), the states they can reach, and the well-formedness
    invariant every reachable state satisfies. *)

From S2P Require Import Prelude Registers Predictor RunControl.
Import DMPredictor.

Local Open Scope string_scope.
Local Open Scope Z_scope.

(** One call of a mutating method of [DMPredictor] by a checker. *)
Inductive event :=
  | Write (addr value : Z)
  | Read (addr : Z)
  | CmdBusy (busy : bool)
  | Observed (dmstatus_word : Z)
  | Config (c : DeclaredConfig.t).

Definition step (p : t) (e : event) : t :=
  match e with
  | Write addr value => on_write addr value p
  | Read addr => observe_read addr p
  | CmdBusy busy => set_observed_cmdbusy busy p
  | Observed w => sync_observed_hart_signals w p
  | Config c => set_config c p
  end.

(** No real dmstatus word says that the one selected hart is both halted and
    running. *)
Definition legal (e : event) : Prop :=
  match e with
  | Observed w => Z.testbit w 9 && Z.testbit w 11 = false
  | _ => True
  end.

Inductive reachable : t -> Prop :=
  | reachable_init k : reachable (init k)
  | reachable_step p e : reachable p -> legal e -> reachable (step p e).

(** ** The invariant *)

Definition word (x : Z) : Prop := 0 <= x < 2 ^ 32.

Definition words (m : gmap Z Z) : Prop := map_Forall (fun _ v => word v) m.

(** The registers that only DMI writes and declared values feed. *)
Record regs_wf (p : t) : Prop := {
  wf_abstractauto : word (abstractauto p);
  wf_hawindowsel : word (hawindowsel p);
  wf_staged_data0 : word (staged_data0 p);
  wf_staged_data1 : word (staged_data1 p);
  wf_data0 : word (data0_pending_value p);
  wf_sbaddress0 : word (sbaddress0 p);
  wf_sbaddress1 : word (sbaddress1 p);
  wf_sbdata0 : word (sbdata0_pending_value p);
  wf_sbdata1 : word (sbdata1 p);
  wf_data_q : Forall word (data_q p);
  wf_progbuf_q : Forall word (progbuf_q p);
  wf_len_data : length (data_q p) = 12%nat;
  wf_len_known : length (data_known p) = 12%nat;
  wf_len_progbuf : length (progbuf_q p) = 16%nat;
  wf_shadow_mem : words (shadow_mem p);
  wf_hawindow : words (hawindow p)
}.

Definition shadow_wf (p : t) : Prop := words (shadow_regs p) /\ words (shadow_hi p).

Record control_wf (p : t) : Prop := {
  wf_harts : Forall (fun h => hart_wf h = true) (harts p);
  wf_len_harts : length (harts p) = Z.to_nat (Z.max (num_harts p) 1);
  wf_hartsel : 0 <= hartsel p < 2 ^ 20;
  wf_hasel : implb (hasel p) (supports_hasel p) = true
}.

Record wf (p : t) : Prop := {
  wf_regs : regs_wf p;
  wf_shadow : shadow_wf p;
  wf_control : control_wf p
}.

(** ** Words *)

Lemma word_0 : word 0.
Proof. unfold word. lia. Qed.

Lemma word_mask v : word (Z.land v MASK32).
Proof. apply (land_bounded 32); unfold MASK32; lia. Qed.

Lemma word_land v w : word v -> word (Z.land v w).
Proof. intros H. apply (land_bounded_l 32); [lia|exact H]. Qed.

Lemma words_empty : words ∅.
Proof. apply map_Forall_empty. Qed.

Lemma words_insert m k v : words m -> word v -> words (<[k := v]> m).
Proof. intros Hm Hv. by apply map_Forall_insert_2. Qed.

Lemma words_delete m k : words m -> words (delete k m).
Proof. apply map_Forall_delete. Qed.

Lemma words_lookup m k v : words m -> m !! k = Some v -> word v.
Proof. intros Hm Hk. exact (Hm k v Hk). Qed.

Lemma Forall_word_insert l i v : Forall word l -> word v -> Forall word (<[i := v]> l).
Proof. intros. by apply Forall_insert. Qed.

Lemma Forall_word_0 n : Forall word (replicate n 0).
Proof. apply Forall_replicate, word_0. Qed.

Create HintDb wf.
#[export] Hint Resolve word_0 word_mask word_land words_empty words_insert words_delete
  words_lookup Forall_word_insert Forall_word_0 : wf.
#[export] Hint Resolve wf_abstractauto wf_hawindowsel wf_staged_data0 wf_staged_data1
  wf_data0 wf_sbaddress0 wf_sbaddress1 wf_sbdata0 wf_sbdata1 wf_data_q wf_progbuf_q
  wf_len_data wf_len_known wf_len_progbuf wf_shadow_mem wf_hawindow : wf.
#[export] Hint Extern 1 (length _ = _) =>
  progress rewrite ?length_insert, ?length_replicate : wf.

(** Re-establish [regs_wf] of an updated predictor. *)
Ltac regs_auto := constructor; cbn; eauto 6 with wf.

(** ** The buffers, the abstract commands and the system bus *)

Lemma regs_wf_execute_upper w r a p : regs_wf p -> shadow_wf p -> regs_wf (_execute_upper w r a p).
Proof. intros H [Hr Hh]. unfold _execute_upper. repeat case_match; try done; regs_auto. Qed.

Lemma shadow_wf_execute_upper w r a p :
  regs_wf p -> shadow_wf p -> shadow_wf (_execute_upper w r a p).
Proof. intros H [Hr Hh]. unfold _execute_upper. repeat case_match; split; cbn; eauto with wf. Qed.

Lemma regs_wf_execute_lower w r p : regs_wf p -> shadow_wf p -> regs_wf (_execute_lower w r p).
Proof. intros H [Hr Hh]. unfold _execute_lower. repeat case_match; try done; regs_auto. Qed.

Lemma shadow_wf_execute_lower w r p :
  regs_wf p -> shadow_wf p -> shadow_wf (_execute_lower w r p).
Proof. intros H [Hr Hh]. unfold _execute_lower. repeat case_match; split; cbn; eauto with wf. Qed.

#[export] Hint Resolve regs_wf_execute_upper shadow_wf_execute_upper
  regs_wf_execute_lower shadow_wf_execute_lower : wf.

Lemma wf_execute_command v p :
  regs_wf p -> shadow_wf p ->
  regs_wf (_execute_command v p) /\ shadow_wf (_execute_command v p).
Proof.
  intros H Hs. unfold _execute_command. destruct (_ || _); [by split|].
  set (q := if truthy _ then _ else p).
  assert (regs_wf q /\ shadow_wf q) as [Hq Hqs].
  { unfold q. case_match; [|by split]. split; eauto 6 with wf. }
  clearbody q. destruct (truthy _); [|by split]. split; [regs_auto|]. split; cbn; eauto with wf.
Qed.

(** Nothing but dmcontrol writes touches run control. *)
Definition control (p : t) := (harts p, num_harts p, hartsel p, hasel p, supports_hasel p, dmactive p,
                               ndmreset p, _hartreset_level p, version p).

Lemma control_wf_eq p q : control q = control p -> control_wf p -> control_wf q.
Proof. intros [=] []. constructor; congruence. Qed.

Lemma control_execute_command v p : control (_execute_command v p) = control p.
Proof.
  unfold _execute_command, _execute_lower, _execute_upper. by repeat case_match.
Qed.

Lemma control_write_buffer a v p : control (_write_buffer a v p) = control p.
Proof.
  unfold _write_buffer, _store_buffer. repeat case_match; try done; simplify_eq;
    by rewrite ?control_execute_command.
Qed.

Lemma wf_store_buffer a v p q :
  word v -> regs_wf p -> shadow_wf p -> _store_buffer a v p = Some q ->
  regs_wf q /\ shadow_wf q.
Proof.
  intros Hv H [Hr Hh]. unfold _store_buffer. intros Hq. repeat case_match; simplify_eq;
    (split; [regs_auto|by split]).
Qed.

Lemma wf_write_buffer a v p :
  word v -> regs_wf p -> shadow_wf p ->
  regs_wf (_write_buffer a v p) /\ shadow_wf (_write_buffer a v p).
Proof.
  intros Hv H Hs. unfold _write_buffer. destruct (_store_buffer a v p) as [q|] eqn:E; [|by split].
  apply wf_store_buffer in E as [Hq Hqs]; [|done..].
  destruct (_autoexec_armed q a); [|by split]. by apply wf_execute_command.
Qed.

(** ** The system bus *)

Lemma wf_sba_autoincrement p :
  regs_wf p -> regs_wf (_sba_autoincrement p).
Proof. intros H. unfold _sba_autoincrement. repeat case_match; try done; regs_auto. Qed.

Lemma wf_sba_arm_read a p : regs_wf p -> regs_wf (_sba_arm_read a p).
Proof. intros H. unfold _sba_arm_read. repeat case_match; regs_auto. Qed.

#[export] Hint Resolve wf_sba_autoincrement wf_sba_arm_read : wf.

Definition shadows (p : t) := (shadow_regs p, shadow_hi p).

Lemma shadow_wf_eq p q : shadows q = shadows p -> shadow_wf p -> shadow_wf q.
Proof. intros [=]. unfold shadow_wf. congruence. Qed.

(** Every system-bus operation leaves run control and the hart shadow alone. *)
Lemma sba_keeps p :
  (control (_sba_autoincrement p) = control p /\ shadows (_sba_autoincrement p) = shadows p) /\
  (forall a, control (_sba_arm_read a p) = control p /\ shadows (_sba_arm_read a p) = shadows p).
Proof.
  unfold _sba_autoincrement, _sba_arm_read. split; [|intros a]; by repeat case_match.
Qed.

Lemma sba_autoincrement_keeps p :
  control (_sba_autoincrement p) = control p /\ shadows (_sba_autoincrement p) = shadows p.
Proof. apply sba_keeps. Qed.
Lemma sba_arm_read_keeps a p :
  control (_sba_arm_read a p) = control p /\ shadows (_sba_arm_read a p) = shadows p.
Proof. apply (sba_keeps p). Qed.

(** Rewrite away the system-bus operations under [control] and [shadows]. *)
Ltac sba_frame :=
  repeat match goal with
  | |- context [control (_sba_autoincrement ?q)] =>
      rewrite (proj1 (sba_autoincrement_keeps q))
  | |- context [shadows (_sba_autoincrement ?q)] =>
      rewrite (proj2 (sba_autoincrement_keeps q))
  | |- context [control (_sba_arm_read ?a ?q)] => rewrite (proj1 (sba_arm_read_keeps a q))
  | |- context [shadows (_sba_arm_read ?a ?q)] => rewrite (proj2 (sba_arm_read_keeps a q))
  end.

Lemma wf_write_sbcs v p : regs_wf p -> regs_wf (_write_sbcs v p).
Proof. intros H. unfold _write_sbcs. case_match; regs_auto. Qed.

Lemma wf_write_sbaddress0 v p : word v -> regs_wf p -> regs_wf (_write_sbaddress0 v p).
Proof.
  intros Hv H. unfold _write_sbaddress0.
  assert (regs_wf (p <| sbaddress0 := v |>)) as Hq by regs_auto.
  case_match; eauto with wf.
Qed.

Lemma wf_write_sbdata0 v p : word v -> regs_wf p -> regs_wf (_write_sbdata0 v p).
Proof. intros Hv H. apply wf_sba_autoincrement. regs_auto. Qed.

Lemma wf_sbdata0_read p : regs_wf p -> regs_wf (_sbdata0_read_effects p).
Proof. intros H. unfold _sbdata0_read_effects. case_match; eauto with wf. Qed.

Lemma sba_writes_keep v p :
  (control (_write_sbcs v p) = control p /\ shadows (_write_sbcs v p) = shadows p) /\
  (control (_write_sbaddress0 v p) = control p /\ shadows (_write_sbaddress0 v p) = shadows p) /\
  (control (_write_sbdata0 v p) = control p /\ shadows (_write_sbdata0 v p) = shadows p) /\
  (control (_sbdata0_read_effects p) = control p /\ shadows (_sbdata0_read_effects p) = shadows p).
Proof.
  split_and!; unfold _write_sbcs, _write_sbaddress0, _write_sbdata0, _sbdata0_read_effects;
    repeat case_match; sba_frame; done.
Qed.

(** ** Run control *)

Lemma regs_wf_erase p q : erase_run p = erase_run q -> regs_wf q -> regs_wf p.
Proof.
  intros He H. assert (regs_wf (erase_run q)) as Hq by (constructor; apply H).
  rewrite <-He in Hq. constructor; apply Hq.
Qed.

(** A dmcontrol write with dmactive set keeps the hart shadow or forgets it. *)
Lemma shadow_wf_write_dmcontrol v p :
  Z.testbit v 0 = true -> shadow_wf p -> shadow_wf (_write_dmcontrol v p).
Proof.
  intros Ha Hs. rewrite write_dmcontrol_eq by done.
  assert (shadow_wf (before_run v p)) as Hb.
  { apply (shadow_wf_eq p); [|done]. unfold shadows.
    destruct (before_run_spec v p) as (_ & _ & _ & ->). by rewrite before_run_shadow_hi. }
  generalize dependent (before_run v p). intros q Hq.
  unfold dmcontrol_run. dmcontrol_flags.
  assert (forall r, shadow_wf r -> shadow_wf (_apply_resumereq r)) as Hr.
  { intros r Hr. unfold _apply_resumereq. rewrite selected_positions_eq.
    destruct (in_range _ _); [|done]. cbn [fold_left]. unfold resume_one.
    repeat case_match; try done; split; cbn; eauto with wf. }
  assert (forall r, shadow_wf r -> shadow_wf (_settle_reset_state r)) as Hset by done.
  assert (forall f r, shadow_wf r -> shadow_wf (for_selected f r)) as Hsel by done.
  destruct (Z.testbit v 31), (Z.testbit v 30); cbn [andb negb]; apply Hset; auto.
Qed.

Lemma Forall_harts p q (P : HartState.t -> Prop) (f : nat -> HartState.t -> HartState.t) :
  (forall i, harts q !! i = f i <$> harts p !! i) -> (forall i h, P h -> P (f i h)) ->
  Forall P (harts p) -> Forall P (harts q).
Proof.
  intros Hl Hf Hp. apply Forall_lookup. intros i h Hi. rewrite Hl in Hi.
  apply fmap_Some in Hi as (g & Hg & ->). apply Hf. by eapply Forall_lookup_1.
Qed.

Lemma reset_dm_harts b p :
  harts (reset_dm b p) =
  map (reset_hart (_reset_declared_regs p <| dmactive := false |> <| ndmreset := false |>
                     <| hartsel := 0 |> <| hasel := false |> <| _hartreset_level := false |>)
         b (harts p))
      (seq 0 (Z.to_nat (Z.max (num_harts p) 1))).
Proof. reflexivity. Qed.

Lemma reset_dm_control b p :
  num_harts (reset_dm b p) = num_harts p /\ hartsel (reset_dm b p) = 0 /\
  hasel (reset_dm b p) = false /\ supports_hasel (reset_dm b p) = supports_hasel p.
Proof. repeat split; reflexivity. Qed.

Lemma hart_wf_reset_hart q b l i :
  Forall (fun h => hart_wf h = true) l -> hart_wf (reset_hart q b l i) = true.
Proof.
  intros Hl. unfold reset_hart, hart_wf. destruct b; [done|]. cbn.
  destruct (l !! i) as [h|] eqn:E; [|done]. exact (Forall_lookup_1 _ _ _ _ Hl E).
Qed.

Lemma control_wf_reset_dm b p :
  Forall (fun h => hart_wf h = true) (harts p) -> control_wf (reset_dm b p).
Proof.
  intros Hp. destruct (reset_dm_control b p) as (Hn & Hs & Ha & _). constructor.
  - rewrite reset_dm_harts. apply Forall_fmap, Forall_true. intros i.
    by apply hart_wf_reset_hart.
  - by rewrite Hn, reset_dm_harts, length_map, length_seq.
  - rewrite Hs. lia.
  - by rewrite Ha.
Qed.

Lemma regs_wf_reset_dm b p : words (shadow_mem p) -> regs_wf (reset_dm b p).
Proof.
  intros H. constructor;
    first [exact word_0 | exact (Forall_word_0 12) | exact (Forall_word_0 16)
          | exact words_empty | exact H | reflexivity].
Qed.

Lemma wf_reset_dm b p : words (shadow_mem p) -> shadow_wf p ->
  Forall (fun h => hart_wf h = true) (harts p) -> wf (reset_dm b p).
Proof.
  intros H Hs Hh. constructor; [by apply regs_wf_reset_dm|exact Hs|by apply control_wf_reset_dm].
Qed.

Lemma wf_write_dmcontrol v p : wf p -> wf (_write_dmcontrol v p).
Proof.
  intros [Hr Hs Hc]. destruct (Z.testbit v 0) eqn:Ha.
  - pose proof (write_dmcontrol_frame v p Ha) as D. cbn zeta in D.
    destruct D as (_ & _ & Dsel & Dhasel & _ & Dlen & De). constructor.
    + by apply (regs_wf_erase _ p).
    + by apply shadow_wf_write_dmcontrol.
    + assert (num_harts (_write_dmcontrol v p) = num_harts p) as Dn
        by exact (f_equal num_harts De).
      assert (supports_hasel (_write_dmcontrol v p) = supports_hasel p) as Ds
        by exact (f_equal supports_hasel De).
      constructor.
      * apply (Forall_harts p _ _ (fun i => hart_after p v i (Z.of_nat i =? hartsel_of v)));
          [by intros; apply write_dmcontrol_hart|intros; by apply wf_hart_after|apply Hc].
      * rewrite Dlen, Dn. apply Hc.
      * rewrite Dsel. apply hartsel_of_bounded.
      * rewrite Dhasel, Ds. by destruct (supports_hasel p), (Z.testbit v 26).
  - unfold _write_dmcontrol. dmcontrol_flags. rewrite Ha. apply wf_reset_dm;
      [apply Hr|apply Hs|apply Hc].
Qed.

(** ** Every event *)

(** A register update that leaves run control and the hart shadow alone. *)
Lemma wf_same_control p q :
  wf p -> regs_wf q -> control q = control p -> shadows q = shadows p -> wf q.
Proof.
  intros [Hr Hs Hc] Hq Hcq Hsq. constructor; [done|by apply (shadow_wf_eq p)|by apply (control_wf_eq p)].
Qed.

Lemma wf_on_write a v p : wf p -> wf (on_write a v p).
Proof.
  intros H. pose proof H as [Hr Hs Hc]. unfold on_write.
  pose proof (word_mask v) as Hv. set (w := Z.land v MASK32) in *. clearbody w.
  destruct (sba_writes_keep w p) as (K1 & K2 & K3 & _).
  destruct (observed_cmdbusy p && _guarded_while_busy a); [done|].
  destruct (_is_data a || _is_progbuf a).
  { destruct (wf_write_buffer a w p) as [Hq Hqs]; [done..|].
    constructor; [done..|]. apply (control_wf_eq p); [apply control_write_buffer|done]. }
  destruct (a =? Register.address DMCONTROL); [by apply wf_write_dmcontrol|].
  repeat match goal with
  | |- wf (if ?a =? ADDR_COMMAND then _ else _) => destruct (a =? ADDR_COMMAND)
  | |- wf (if ?b then _ else _) => destruct b
  end; try exact H.
  all: lazymatch goal with
       | |- wf (setf _ _ _) =>
           apply (wf_same_control p); [exact H|regs_auto|reflexivity|reflexivity]
       | _ => idtac
       end.
  - destruct (wf_execute_command w (p <| last_command := w |>)) as [Hq Hqs].
    { constructor; apply Hr. }
    { exact Hs. }
    constructor; [done..|]. apply (control_wf_eq p); [|done].
    exact (control_execute_command w (p <| last_command := w |>)).
  - apply (wf_same_control p); [done|by apply wf_write_sbcs|apply K1..].
  - apply (wf_same_control p); [done|by apply wf_write_sbaddress0|apply K2..].
  - apply (wf_same_control p); [done|by apply wf_write_sbdata0|apply K3..].
Qed.

Lemma control_on_write a v p :
  a <> Register.address DMCONTROL -> control (on_write a v p) = control p.
Proof.
  intros Hne. apply Z.eqb_neq in Hne. unfold on_write. rewrite Hne.
  set (w := Z.land v MASK32). clearbody w.
  destruct (sba_writes_keep w p) as ((K1 & _) & (K2 & _) & (K3 & _) & _).
  repeat match goal with
  | |- control (if ?b then _ else _) = _ => destruct b
  end; try reflexivity; try assumption.
  - apply control_write_buffer.
  - unfold _write_command. by rewrite control_execute_command.
Qed.

Lemma wf_observe_read a p : wf p -> wf (observe_read a p).
Proof.
  intros H. unfold observe_read.
  set (q := if a =? ADDR_SBDATA0 then _ else p).
  assert (wf q) as Hq.
  { unfold q. destruct (a =? ADDR_SBDATA0); [|done]. pose proof H as [Hr _ _].
    destruct (sba_writes_keep 0 p) as (_ & _ & _ & K1 & K2).
    apply (wf_same_control p); [done|by apply wf_sbdata0_read|done..]. }
  clearbody q. destruct (_ || _); [|done]. destruct (_autoexec_armed q a); [|done].
  destruct Hq as [Hr Hs Hc]. destruct (wf_execute_command (last_command q) q) as [Hq Hqs]; [done..|].
  constructor; [done..|]. apply (control_wf_eq q); [apply control_execute_command|done].
Qed.

Lemma wf_sync w p : Z.testbit w 9 && Z.testbit w 11 = false -> wf p ->
  wf (sync_observed_hart_signals w p).
Proof.
  intros Hw H. unfold sync_observed_hart_signals. destruct (in_range p (hartsel p)); [|done].
  destruct H as [Hr Hs Hc]. constructor; [constructor; apply Hr|exact Hs|].
  constructor; cbn; [|rewrite length_alter; apply Hc|apply Hc|apply Hc].
  apply Forall_alter; [apply Hc|]. intros h _ _. rewrite !truthy_bit by lia.
  unfold hart_wf. cbn. by rewrite Hw.
Qed.

Lemma wf_init k : wf (init k).
Proof. apply wf_reset_dm; [apply words_empty|split; apply words_empty|constructor]. Qed.

Lemma wf_set_config c p : wf p -> wf (set_config c p).
Proof. intros [Hr Hs Hc]. apply wf_reset_dm; [apply Hr|exact Hs|apply Hc]. Qed.

Lemma wf_step p e : legal e -> wf p -> wf (step p e).
Proof.
  intros He H. destruct e; cbn in *.
  - by apply wf_on_write.
  - by apply wf_observe_read.
  - destruct H as [Hr Hs Hc]. constructor; [constructor; apply Hr|done|constructor; apply Hc].
  - by apply wf_sync.
  - by apply wf_set_config.
Qed.


(** ** Witnesses *)

