(* ===== verification/ReadBack.v ===== *)
(** What the golden-reference model predicts for a DMI read: dmcontrol and
    dmstatus ([_expect_dmcontrol], [_expect_dmstatus]), the halt summaries, and
    the totality and width of [predict] ([model/predictor.py]). *)

From S2P Require Import Prelude Registers Predictor RunControl Reachable.
Import DMPredictor.

Local Open Scope string_scope.
Local Open Scope Z_scope.

(** ** Encoding a register whose values are all fields of it *)

(** A word encoded from values that are fields of the register decodes to them. *)
Lemma encode_total r vs :
  register_wf r = true -> NoDup (map fst vs) ->
  forallb (fun '(n, _) => Register.has_field r n) vs = true ->
  exists w, Register.encode r vs = Ok w /\ 0 <= w < 2 ^ 32 /\
    (forall f, f ∈ Register.fields r ->
       Field.extract f w = Z.land (dict_get vs (Field.name f) 0) (Field.value_mask f)).
Proof.
  intros Hwf Hnd Hf. rewrite <-encode_ok in Hf.
  destruct (Register.encode r vs) as [w|] eqn:E; [|done]. exists w. split; [done|].
  destruct (encode_from_spec r vs 0 w) as [Hb Hext]; [done..|lia|done|]. split; [done|].
  intros f Hin. rewrite (Hext f Hin). case_bool_decide as Hn; [done|].
  by rewrite dict_get_not_in, extract_0, Z.land_0_l.
Qed.

Lemma NoDup_dec_true {A} `{EqDecision A} (l : list A) : bool_decide (NoDup l) = true -> NoDup l.
Proof. apply bool_decide_eq_true. Qed.

Lemma land_bit b : Z.land (to_int b) 1 = to_int b.
Proof. by destruct b. Qed.

(** ** dmcontrol *)

Lemma expect_dmcontrol_spec p :
  0 <= hartsel p < 2 ^ 20 ->
  exists w, _expect_dmcontrol p = Ok w /\ 0 <= w < 2 ^ 32 /\ hartsel_of w = hartsel p /\
    (forall f, f ∈ Register.fields DMCONTROL ->
       Field.name f <> "hartsello" -> Field.name f <> "hartselhi" ->
       Field.extract f w =
       Z.land (dict_get (dmcontrol_values p) (Field.name f) 0) (Field.value_mask f)).
Proof.
  intros Hs. unfold _expect_dmcontrol.
  destruct (encode_total DMCONTROL (dmcontrol_values p)) as (w & -> & Hw & Hext);
    [done|by apply NoDup_dec_true|done|].
  cbn [rmap]. eexists. split; [done|]. split; [by apply with_hartsel_bounded|].
  rewrite hartsel_of_with_hartsel. split; [by apply Z.mod_small|].
  intros f Hf Hlo Hhi. rewrite extract_with_hartsel by done. by apply Hext.
Qed.

(** A dmcontrol read after a dmcontrol write returns a 32-bit word in which
    exactly the readable fields the implementation has come back as written:
    every W1 and WARZ field reads 0, hasel and hartreset read 0 when not
    implemented, and after a write with dmactive clear everything reads 0. *)
Theorem dmcontrol_readback p v :
  let q := on_write (Register.address DMCONTROL) v p in
  let bit i := to_int (Z.testbit v 0 && Z.testbit v i) in
  exists w, predict q (Register.address DMCONTROL) = Ok w /\ 0 <= w < 2 ^ 32 /\
    Register.decode DMCONTROL w =
    [("haltreq", 0); ("resumereq", 0);
     ("hartreset", if supports_hartreset p then bit 29 else 0);
     ("ackhavereset", 0); ("ackunavail", 0);
     ("hasel", if supports_hasel p then bit 26 else 0);
     ("hartsello", if Z.testbit v 0 then Field.extract hartsello_field v else 0);
     ("hartselhi", if Z.testbit v 0 then Field.extract hartselhi_field v else 0);
     ("setkeepalive", 0); ("clrkeepalive", 0); ("setresethaltreq", 0); ("clrresethaltreq", 0);
     ("ndmreset", bit 1); ("dmactive", to_int (Z.testbit v 0))].
Proof.
  cbn zeta. change (predict ?q (Register.address DMCONTROL)) with (_expect_dmcontrol q).
  set (q := on_write _ v p).
  assert (0 <= hartsel q < 2 ^ 20 /\ 
          dmcontrol_values q =
            [("dmactive", to_int (Z.testbit v 0));
             ("ndmreset", to_int (Z.testbit v 0 && Z.testbit v 1));
             ("hasel", to_int (Z.testbit v 0 && (supports_hasel p && Z.testbit v 26)));
             ("hartreset", to_int (Z.testbit v 0 && (Z.testbit v 29 && supports_hartreset p)))] /\
          hartsel q = if Z.testbit v 0 then hartsel_of v else 0) as (Hb & Hv & Hs).
  { unfold dmcontrol_values. destruct (Z.testbit v 0) eqn:Ha.
    - pose proof (dmcontrol_frame v p Ha) as D. cbn zeta in D. fold q in D.
      destruct D as (-> & -> & -> & -> & -> & _ & He).
      split; [apply hartsel_of_bounded|]. split; [|done].
      destruct (erase_run_config q p He) as (_ & _ & ->).
      by destruct (Z.testbit v 29), (supports_hartreset p).
    - unfold q. rewrite on_write_dmcontrol. unfold _write_dmcontrol. dmcontrol_flags.
      rewrite testbit_mask32, Ha by lia. done. }
  destruct (expect_dmcontrol_spec q Hb) as (w & -> & Hw & Hws & Hext).
  exists w. split; [done|]. split; [done|]. rewrite Hv in Hext.
  assert (Field.extract hartsello_field w =
            (if Z.testbit v 0 then Field.extract hartsello_field v else 0) /\
          Field.extract hartselhi_field w =
            (if Z.testbit v 0 then Field.extract hartselhi_field v else 0)) as [Hlo Hhi].
  { destruct (Z.testbit v 0).
    - apply hartsel_halves. congruence.
    - apply (hartsel_halves w 0). by rewrite Hws, Hs. }
  unfold Register.decode. cbn [DMCONTROL Register.fields map].
  change (Field.mk "hartsello" _ _ _ _ _) with hartsello_field.
  change (Field.mk "hartselhi" _ _ _ _ _) with hartselhi_field. rewrite Hlo, Hhi.
  rewrite !Hext by first [done | in_list].
  destruct (Z.testbit v 0), (Z.testbit v 1), (Z.testbit v 26), (Z.testbit v 29),
    (supports_hartreset p), (supports_hasel p); reflexivity.
Qed.

(** ** dmstatus *)

Lemma expect_dmstatus_spec p :
  exists w, _expect_dmstatus p = Ok w /\ 0 <= w < 2 ^ 32 /\
    (forall f, f ∈ Register.fields DMSTATUS ->
       Field.extract f w =
       Z.land (dict_get (dmstatus_values p) (Field.name f) 0) (Field.value_mask f)).
Proof.
  apply encode_total; [done|by apply NoDup_dec_true|done].
Qed.

Lemma selected_eq p :
  0 <= hartsel p ->
  _selected p = match harts p !! Z.to_nat (hartsel p) with Some h => [h] | None => [] end.
Proof.
  intros Hs. unfold _selected. rewrite selected_positions_eq, in_range_spec by done.
  destruct (harts p !! Z.to_nat (hartsel p)) as [h|] eqn:E.
  - rewrite bool_decide_eq_true_2 by eauto. cbn. by rewrite E.
  - by rewrite bool_decide_eq_false_2 by by intros [? ?].
Qed.

(** What dmstatus says of the selected hart, field by field; [None] when
    hartsel names no hart object. *)
Definition dmstatus_of (p : t) (h : option HartState.t) : list (string * Z) :=
  let hart f := to_int (from_option f false h) in
  let nonexistent := to_int (num_harts p <=? hartsel p) in
  [("ndmresetpending", to_int ((DMSTATUS_VERSION_1_0 <=? version p) && ndmreset p));
   ("stickyunavail", to_int (stickyunavail p));
   ("impebreak", to_int (impebreak p));
   ("allhavereset", hart HartState.havereset); ("anyhavereset", hart HartState.havereset);
   ("allresumeack", hart HartState.resume_ack); ("anyresumeack", hart HartState.resume_ack);
   ("allnonexistent", nonexistent); ("anynonexistent", nonexistent);
   ("allunavail", hart HartState.unavail); ("anyunavail", hart HartState.unavail);
   ("allrunning", hart HartState.running); ("anyrunning", hart HartState.running);
   ("allhalted", hart HartState.halted); ("anyhalted", hart HartState.halted);
   ("authenticated", to_int (authenticated p)); ("authbusy", 0);
   ("hasresethaltreq", to_int (hasresethaltreq p)); ("confstrptrvalid", 0);
   ("version", version p mod 16)].

Lemma dmstatus_decode p :
  0 <= hartsel p ->
  exists w, _expect_dmstatus p = Ok w /\ 0 <= w < 2 ^ 32 /\
    Register.decode DMSTATUS w = dmstatus_of p (harts p !! Z.to_nat (hartsel p)).
Proof.
  intros Hs. destruct (expect_dmstatus_spec p) as (w & -> & Hw & Hext).
  exists w. split; [done|]. split; [done|].
  unfold Register.decode. cbn [DMSTATUS Register.fields map].
  rewrite !Hext by in_list.
  unfold dmstatus_values, dmstatus_of, dict_get, Field.value_mask. rewrite selected_eq by done.
  cbn -[to_int Z.leb Z.modulo Z.sub].
  change (Z.shiftl 1 1 - 1) with 1. change (Z.shiftl 1 4 - 1) with (Z.ones 4).
  rewrite Z.land_ones by lia.
  assert (forall b c, Z.land (if b : bool then to_int c else 0) 1 = to_int (b && c)) as ->
    by (intros [] []; done).
  unfold all_any, py_all, py_any, _is_nonexistent.
  destruct (harts p !! Z.to_nat (hartsel p)); cbn -[to_int Z.leb Z.modulo];
    rewrite ?andb_true_r, ?orb_false_r, ?land_bit; done.
Qed.

(** A dmstatus read returns a 32-bit word whose every field is decided by
    the selected hart and the declared implementation: the any* and all* bits
    are the selected hart's signals, 0 when hartsel names no hart object, and
    ndmresetpending exists from version 1.0 on only. *)
Theorem dmstatus_reports p :
  0 <= hartsel p ->
  exists w, predict p (Register.address DMSTATUS) = Ok w /\ 0 <= w < 2 ^ 32 /\
    Register.decode DMSTATUS w = dmstatus_of p (harts p !! Z.to_nat (hartsel p)).
Proof. exact (dmstatus_decode p). Qed.

(** ** The halt summaries *)

Lemma hart_is_halted_spec p i :
  0 <= i ->
  hart_is_halted p i = true <->
  exists h, harts p !! Z.to_nat i = Some h /\ HartState.halted h = true.
Proof.
  intros Hi. unfold hart_is_halted. destruct (harts p !! Z.to_nat i) as [h|]; split;
    intros Hh; [eauto | by destruct Hh as (? & [= ->] & ?) | done | by destruct Hh as (? & ? & ?)].
Qed.

Lemma elem_of_py_range i n : i ∈ py_range n <-> 0 <= i < n.
Proof. unfold py_range. rewrite elem_of_seqZ. lia. Qed.

Lemma existsb_py_range f n :
  existsb f (py_range n) = true <-> exists i, 0 <= i < n /\ f i = true.
Proof.
  rewrite existsb_exists. setoid_rewrite <-list_elem_of_In.
  setoid_rewrite elem_of_py_range. done.
Qed.

Lemma expect_haltsum0_bit p i :
  0 <= i ->
  Z.testbit (expect_haltsum0 p) i = (i <? Z.min (num_harts p) 32) && hart_is_halted p i.
Proof.
  intros Hi. unfold expect_haltsum0. rewrite testbit_fold_lor; [|done|].
  2:{ intros x Hx. apply elem_of_py_range in Hx. lia. }
  rewrite Z.bits_0. cbn [orb]. apply Bool.eq_iff_eq_true. rewrite existsb_py_range.
  rewrite andb_true_iff, Z.ltb_lt. split.
  - intros (j & Hj & [Hh Heq]%andb_true_iff). zhyps. subst. split; [lia|done].
  - intros [Hlt Hh]. exists i. rewrite Hh, Z.eqb_refl. split; [|done].
    apply hart_is_halted_spec in Hh as (h & Hl & _); [|done]. apply lookup_lt_Some in Hl. lia.
Qed.

Lemma in_haltsum_spec p n k :
  0 <= n -> 0 <= k ->
  in_haltsum p n k = true <->
  hart_is_halted p k = true /\
  (n < 3 -> k / 32 ^ (n + 1) = hartsel p / 32 ^ (n + 1)).
Proof.
  intros Hn Hk. unfold in_haltsum. rewrite !Z.shiftr_div_pow2 by lia.
  replace (5 * n + 5) with (5 * (n + 1)) by lia. rewrite Z.pow_mul_r by lia.
  change (2 ^ 5) with 32. rewrite andb_true_iff, negb_true_iff.
  split; (intros [H1 H2]; split; [done|]).
  - intros Hlt. apply Z.ltb_lt in Hlt. rewrite Hlt in H2. cbn in H2. by zhyps.
  - destruct (Z.ltb_spec n 3) as [Hlt|]; [|done]. cbn. rewrite (H2 Hlt), Z.eqb_refl. done.
Qed.

(** The halt summaries say which harts are halted: bit [i] of haltsum0 is
    the halted signal of hart [i], for the first 32 harts that exist; bit [j] of
    haltsum[n] is set exactly when a hart in the [j]-th block of [32^n] harts
    is halted, within the block of [32^(n+1)] harts that hartsel points into. *)
Theorem haltsum_bits p :
  wf p -> 1 <= num_harts p ->
  (forall i, 0 <= i ->
     Z.testbit (expect_haltsum0 p) i = true <->
     i < 32 /\ i < num_harts p /\
     exists h, harts p !! Z.to_nat i = Some h /\ HartState.halted h = true) /\
  (forall n j, 1 <= n <= 3 -> 0 <= j ->
     Z.testbit (_expect_haltsum p n) j = true <->
     DeclaredConfig.haltsum_groups_present (cfg p) = true /\
     exists k h, 0 <= k < num_harts p /\ harts p !! Z.to_nat k = Some h /\
       HartState.halted h = true /\ k / 32 ^ n mod 32 = j /\
       (n < 3 -> k / 32 ^ (n + 1) = hartsel p / 32 ^ (n + 1))).
Proof.
  intros [_ _ Hc] Hone. pose proof (wf_len_harts p Hc) as Hlen.
  split; [intros i Hi|intros n j Hn Hj].
  - rewrite expect_haltsum0_bit, andb_true_iff, Z.ltb_lt, hart_is_halted_spec by done.
    rewrite Z.min_glb_lt_iff. tauto.
  - unfold _expect_haltsum. destruct (DeclaredConfig.haltsum_groups_present (cfg p)); cbn [negb].
    2:{ rewrite Z.bits_0. split; [done|]. by intros [? _]. }
    assert (Hbit : forall k, Z.land (Z.shiftr k (5 * n)) 31 = k / 32 ^ n mod 32).
    { intros k. change 31 with (Z.ones 5). rewrite Z.land_ones, Z.shiftr_div_pow2 by lia.
      by rewrite Z.pow_mul_r by lia. }
    rewrite testbit_fold_lor, Z.bits_0; [|done|].
    2:{ intros x _. rewrite Hbit. by apply Z.mod_pos_bound. }
    cbn [orb]. rewrite existsb_py_range. replace (Z.min _ _) with (num_harts p) by lia. split.
    + intros (k & Hk & [Hin Heq]%andb_true_iff). zhyps. rewrite Hbit in Heq.
      apply in_haltsum_spec in Hin as [Hh Hg]; [|lia..].
      apply hart_is_halted_spec in Hh as (h & Hl & Hh); [|lia]. split; [done|].
      exists k, h. auto.
    + intros (_ & k & h & Hk & Hl & Hh & Heq & Hg). exists k. split; [done|].
      rewrite Hbit, Heq, Z.eqb_refl, andb_true_r. apply in_haltsum_spec; [lia..|].
      split; [|done]. apply hart_is_halted_spec; [lia|]. eauto.
Qed.

(** ** [predict] is total and 32 bits wide *)

(** The declared sizes a shift count is made of. *)
Definition sizes_ok (p : t) : Prop :=
  0 <= DeclaredConfig.progbufsize (cfg p) /\ 0 <= DeclaredConfig.datacount (cfg p).

Lemma word_of_bits w : (forall i, 32 <= i -> Z.testbit w i = false) -> word w.
Proof. intros Hb. apply bits_bounded; [lia|done]. Qed.

Lemma word_lor a b : word a -> word b -> word (Z.lor a b).
Proof. intros. apply (lor_bounded 32); [lia|done..]. Qed.

(** A masked value shifted to its place in the word. *)
Lemma word_piece x m k :
  0 <= k -> 0 <= m -> k + m <= 32 -> word (Z.shiftl (Z.land x (Z.ones m)) k).
Proof.
  intros. apply (shiftl_bounded 32 m); try lia.
  rewrite Z.land_ones by lia. apply Z.mod_pos_bound. lia.
Qed.

Lemma word_flag b k : 0 <= k -> k + 1 <= 32 -> word (Z.shiftl (to_int b) k).
Proof. intros. apply (shiftl_bounded 32 1); try lia. apply to_int_bound. Qed.

Lemma word_fold_lor l w : word w -> Forall word l -> word (fold_left Z.lor l w).
Proof.
  intros Hw Hl. revert w Hw. induction Hl; intros w Hw; cbn; [done|].
  apply IHHl. by apply word_lor.
Qed.

Lemma word_default l i : Forall word l -> word (default 0 (l !! i)).
Proof.
  intros Hl. destruct (l !! i) as [x|] eqn:E; [|apply word_0]. exact (Forall_lookup_1 _ _ _ _ Hl E).
Qed.

Lemma word_default_map (m : gmap Z Z) k : words m -> word (default 0 (m !! k)).
Proof. intros Hm. destruct (m !! k) as [x|] eqn:E; [|apply word_0]. exact (Hm k x E). Qed.

#[export] Hint Resolve word_lor word_default word_default_map : wf.

Lemma word_hartinfo c : word (expect_hartinfo c).
Proof.
  unfold expect_hartinfo. repeat apply word_lor.
  - apply (word_piece _ 4); lia.
  - apply word_flag; lia.
  - apply (word_piece _ 4); lia.
  - apply (word_piece _ 12 0); lia.
Qed.

Lemma word_abstractcs p : word (expect_abstractcs p).
Proof.
  unfold expect_abstractcs. repeat apply word_lor.
  - apply (word_piece _ 5); lia.
  - apply word_flag; lia.
  - apply (word_piece _ 4 0); lia.
Qed.

Lemma word_sbcs p : word (expect_sbcs p).
Proof.
  unfold expect_sbcs. destruct (negb _); [apply word_0|]. apply word_fold_lor.
  - apply (word_piece _ 3); lia.
  - repeat constructor; first [apply (word_piece _ 3); lia | apply (word_piece _ 7); lia
      | apply word_flag; lia | apply (word_flag _ 0); lia].
Qed.

Lemma word_haltsum0 p : word (expect_haltsum0 p).
Proof.
  apply word_of_bits. intros i Hi. rewrite expect_haltsum0_bit by lia.
  by destruct (Z.ltb_spec i (Z.min (num_harts p) 32)); [lia|].
Qed.

Lemma word_haltsum p n : word (_expect_haltsum p n).
Proof.
  unfold _expect_haltsum. destruct (negb _); [apply word_0|]. apply word_of_bits. intros i Hi.
  assert (Hb : forall x, 0 <= Z.land (Z.shiftr x (5 * n)) 31 < 32).
  { intros x. change 31 with (Z.ones 5). rewrite Z.land_ones by lia. by apply Z.mod_pos_bound. }
  rewrite testbit_fold_lor, Z.bits_0; [|lia|intros x _; apply Hb].
  apply not_true_iff_false. intros (x & _ & [_ Hx]%andb_true_iff)%existsb_exists. zhyps.
  specialize (Hb x). lia.
Qed.

Lemma expect_abstractauto_ok p :
  sizes_ok p -> exists w, expect_abstractauto p = Ok w /\ word w.
Proof.
  intros [Hp Hd]. unfold expect_abstractauto, py_shl.
  destruct (negb _); [eauto using word_0|].
  destruct (Z.ltb_spec (DeclaredConfig.progbufsize (cfg p)) 0); [lia|].
  destruct (Z.ltb_spec (DeclaredConfig.datacount (cfg p)) 0); [lia|].
  cbn. eauto using word_mask.
Qed.

(** C23: In every well-formed state with declared buffer sizes that are not
    negative, [predict] returns a 32-bit word for every address whatsoever. *)
Theorem predict_total p addr :
  wf p -> sizes_ok p -> exists w, predict p addr = Ok w /\ 0 <= w < 2 ^ 32.
Proof.
  intros [Hr _ Hc] Hsz. change (exists w, predict p addr = Ok w /\ word w). unfold predict.
  destruct (expect_dmcontrol_spec p) as (wc & Ec & Hwc & _); [apply Hc|].
  destruct (expect_dmstatus_spec p) as (ws & Es & Hws & _).
  destruct (expect_abstractauto_ok p Hsz) as (wa & Ea & Hwa).
  repeat match goal with
  | |- exists w, (if ?b then _ else _) = _ /\ _ => destruct b
  end; eauto; eexists; (split; [reflexivity|]); try case_match;
  eauto using word_0, word_hartinfo, word_abstractcs, word_sbcs, word_haltsum0, word_haltsum,
    word_mask with wf.
Qed.

(** ** Declared capabilities *)

Lemma cfg_execute_command v p : cfg (_execute_command v p) = cfg p.
Proof. unfold _execute_command, _execute_lower, _execute_upper. by repeat case_match. Qed.

Lemma cfg_sba_autoincrement p : cfg (_sba_autoincrement p) = cfg p.
Proof. unfold _sba_autoincrement. by repeat case_match. Qed.

Lemma cfg_sba_arm_read a p : cfg (_sba_arm_read a p) = cfg p.
Proof. unfold _sba_arm_read. by repeat case_match. Qed.

Lemma cfg_write_dmcontrol v p : cfg (_write_dmcontrol v p) = cfg p.
Proof.
  destruct (Z.testbit v 0) eqn:Ha.
  - pose proof (write_dmcontrol_frame v p Ha) as D. cbn zeta in D.
    destruct D as (_ & _ & _ & _ & _ & _ & De). exact (f_equal cfg De).
  - unfold _write_dmcontrol. dmcontrol_flags. by rewrite Ha.
Qed.

(** A write changes no declared capability. *)
Lemma cfg_on_write a v p : cfg (on_write a v p) = cfg p.
Proof.
  unfold on_write. set (w := Z.land v MASK32). clearbody w.
  repeat match goal with |- cfg (if ?b then _ else _) = _ => destruct b end; try reflexivity.
  - unfold _write_buffer, _store_buffer. repeat case_match; simplify_eq;
      by rewrite ?cfg_execute_command.
  - apply cfg_write_dmcontrol.
  - unfold _write_command. by rewrite cfg_execute_command.
  - unfold _write_sbcs. by repeat case_match.
  - unfold _write_sbaddress0. repeat case_match; by rewrite ?cfg_sba_autoincrement, ?cfg_sba_arm_read.
  - unfold _write_sbdata0. by rewrite cfg_sba_autoincrement.
Qed.

(** ** Witnesses *)

Lemma dmstatus_reports_witness :
  let p := p_halted in
  exists w, predict p (Register.address DMSTATUS) = Ok w /\ 0 <= w < 2 ^ 32 /\
    Register.decode DMSTATUS w = dmstatus_of p (harts p !! Z.to_nat (hartsel p)).
Proof. intros p. apply (dmstatus_reports p). vm_compute. discriminate. Defined.

(** 64 harts, of which hart 33 is halted and selected. *)
Definition p_many : t :=
  on_write (Register.address DMCONTROL) 0x80210001
    (set_config (DeclaredConfig.default
                   <| DeclaredConfig.num_harts := 64 |>
                   <| DeclaredConfig.haltsum_groups_present := true |>)
                (init Kwargs.default)).

Lemma wf_p_many : wf p_many.
Proof. apply wf_on_write, wf_set_config, wf_init. Qed.

Lemma haltsum_bits_witness :
  let p := p_many in
  ((forall i, 0 <= i ->
     Z.testbit (expect_haltsum0 p) i = true <->
     i < 32 /\ i < num_harts p /\
     exists h, harts p !! Z.to_nat i = Some h /\ HartState.halted h = true) /\
   (forall n j, 1 <= n <= 3 -> 0 <= j ->
     Z.testbit (_expect_haltsum p n) j = true <->
     DeclaredConfig.haltsum_groups_present (cfg p) = true /\
     exists k h, 0 <= k < num_harts p /\ harts p !! Z.to_nat k = Some h /\
       HartState.halted h = true /\ k / 32 ^ n mod 32 = j /\
       (n < 3 -> k / 32 ^ (n + 1) = hartsel p / 32 ^ (n + 1)))) /\
  _expect_haltsum p 1 = 2.
Proof.
  intros p. split; [|vm_compute; reflexivity].
  apply (haltsum_bits p); [exact wf_p_many|vm_compute; discriminate].
Defined.

Lemma predict_total_witness :
  exists w, predict p_many ADDR_SBCS = Ok w /\ 0 <= w < 2 ^ 32.
Proof.
  apply (predict_total p_many ADDR_SBCS); [exact wf_p_many|].
  split; vm_compute; discriminate.
Defined.
