(* ===== verification/Buffers.v ===== *)
(** The data and program buffers, abstract commands and System Bus Access of
    the golden-reference model: values written over DMI are the values the
    model predicts back ([model/predictor.py]). *)

From S2P Require Import Prelude Registers Predictor RunControl Reachable.
Import DMPredictor.

Local Open Scope string_scope.
Local Open Scope Z_scope.

(** ** The busy guard *)

(** While a command is in flight, a write to command, abstractcs,
    abstractauto, a data word or a program-buffer word changes nothing, and a
    read of an armed word does not re-run the command; dmcontrol is never
    refused. *)
Theorem busy_drops_guarded p :
  observed_cmdbusy p = true ->
  (forall addr v, _guarded_while_busy addr = true -> on_write addr v p = p) /\
  (forall addr, addr <> ADDR_SBDATA0 -> observe_read addr p = p) /\
  (forall v, on_write (Register.address DMCONTROL) v p = _write_dmcontrol (Z.land v MASK32) p).
Proof.
  intros Hb. split_and!.
  - intros addr v Hg. unfold on_write. by rewrite Hb, Hg.
  - intros addr Hne. unfold observe_read, _autoexec_armed.
    apply Z.eqb_neq in Hne. rewrite Hne, Hb, orb_true_r. by case_match.
  - intros v. apply on_write_dmcontrol.
Qed.

(** ** Buffers *)

Definition data_addr (i : Z) : Z := ADDR_DATA0 + i.
Definition progbuf_addr (i : Z) : Z := ADDR_PROGBUF0 + i.

(** No access re-runs the last command. *)
Definition not_armed (p : t) : Prop := forall addr, _autoexec_armed p addr = false.

Lemma abstractauto_off p :
  DeclaredConfig.abstractauto_enable (cfg p) = false -> not_armed p.
Proof. intros He addr. unfold _autoexec_armed. by rewrite He. Qed.

Lemma is_data_addr i : 0 <= i < 12 -> _is_data (data_addr i) = true.
Proof. intros Hi. unfold _is_data, data_addr, ADDR_DATA0, ADDR_DATA11. zcases. Qed.

Lemma is_progbuf_addr i :
  0 <= i < 16 -> _is_progbuf (progbuf_addr i) = true /\ _is_data (progbuf_addr i) = false.
Proof.
  intros Hi. unfold _is_progbuf, _is_data, progbuf_addr, ADDR_PROGBUF0, ADDR_PROGBUF15, ADDR_DATA0, ADDR_DATA11.
  split; zcases.
Qed.

Lemma data_offset i : data_addr i - ADDR_DATA0 = i.
Proof. unfold data_addr. lia. Qed.
Lemma progbuf_offset i : progbuf_addr i - ADDR_PROGBUF0 = i.
Proof. unfold progbuf_addr. lia. Qed.

Lemma has_model_data p i :
  0 <= i < 12 -> cfg_valid p = true -> dmactive p = true ->
  has_model p (data_addr i) =
  if i =? 0 then data0_pending_valid p
  else if i <? DeclaredConfig.datacount (cfg p) then default false (data_known p !! Z.to_nat i)
  else true.
Proof.
  intros Hi Hv Ha. unfold has_model. rewrite Hv, Ha. cbn [negb].
  assert (existsb (Z.eqb (data_addr i)) [Register.address DMCONTROL; Register.address DMSTATUS] = false)
    as ->.
  { unfold data_addr, ADDR_DATA0. cbn. zcases. }
  assert ((data_addr i =? ADDR_DATA0) = (i =? 0)) as ->.
  { unfold data_addr. zcases; done. }
  destruct (i =? 0); [done|]. rewrite is_data_addr, data_offset by done. cbn [andb].
  destruct (i <? _); [done|].
  unfold data_addr, ADDR_DATA0, ADDR_SBDATA0, ADDR_SBDATA1, ADDR_SBDATA2, ADDR_SBDATA3,
    ADDR_SBADDRESS2, ADDR_SBADDRESS3, ADDR_AUTHDATA, ADDR_DMCS2. cbn [existsb]. by zcases.
Qed.

Lemma predict_data p i :
  0 <= i < 12 ->
  predict p (data_addr i) =
  Ok (if DeclaredConfig.datacount (cfg p) <=? i then 0
      else if i =? 0 then data0_pending_value p else default 0 (data_q p !! Z.to_nat i)).
Proof.
  intros Hi. unfold predict. rewrite is_data_addr, data_offset by done.
  destruct (_ <=? i); [done|]. by destruct (i =? 0).
Qed.

Lemma predict_progbuf p i :
  0 <= i < 16 ->
  predict p (progbuf_addr i) =
  Ok (if (i <? DeclaredConfig.progbufsize (cfg p)) && DeclaredConfig.progbuf_readable (cfg p)
      then default 0 (progbuf_q p !! Z.to_nat i) else 0).
Proof.
  intros Hi. unfold predict. destruct (is_progbuf_addr i Hi) as [-> ->].
  rewrite progbuf_offset. by case_match.
Qed.

Section buffers.
Context (p : t) (Hwf : wf p) (Hbusy : observed_cmdbusy p = false) (Harm : not_armed p).

Lemma write_data i v :
  0 <= i < 12 -> i < DeclaredConfig.datacount (cfg p) ->
  exists q, on_write (data_addr i) v p = q /\
    cfg q = cfg p /\ progbuf_q q = progbuf_q p /\
    (if i =? 0 then data0_pending_value q = Z.land v MASK32 /\ data_q q = data_q p /\
                    data0_pending_valid q = true /\ staged_data0 q = Z.land v MASK32
     else data0_pending_value q = data0_pending_value p /\
          data_q q = <[Z.to_nat i := Z.land v MASK32]> (data_q p) /\
          data_known q = <[Z.to_nat i := true]> (data_known p)).
Proof using Hbusy Harm.
  intros Hi Hc. eexists. split; [done|]. unfold on_write.
  rewrite Hbusy, is_data_addr by done. cbn [andb orb].
  unfold _write_buffer, _store_buffer. rewrite is_data_addr, data_offset by done.
  destruct (Z.leb_spec (DeclaredConfig.datacount (cfg p)) i); [lia|].
  destruct (i =? 0) eqn:E0; [|destruct (i =? 1)];
    match goal with |- context [_autoexec_armed ?r ?a] =>
      change (_autoexec_armed r a) with (_autoexec_armed p a) end;
    rewrite Harm; done.
Qed.

Lemma write_progbuf i v :
  0 <= i < 16 -> i < DeclaredConfig.progbufsize (cfg p) ->
  on_write (progbuf_addr i) v p =
  p <| progbuf_q := <[Z.to_nat i := Z.land v MASK32]> (progbuf_q p) |>.
Proof using Hbusy Harm.
  intros Hi Hc. unfold on_write. destruct (is_progbuf_addr i Hi) as [Hp Hd].
  rewrite Hbusy, Hp, Hd. cbn [andb orb].
  unfold _write_buffer, _store_buffer. rewrite Hd, progbuf_offset.
  destruct (Z.leb_spec (DeclaredConfig.progbufsize (cfg p)) i); [lia|].
  match goal with |- context [_autoexec_armed ?r ?a] =>
    change (_autoexec_armed r a) with (_autoexec_armed p a) end.
  by rewrite Harm.
Qed.

(** A data word reads back the low 32 bits last written to it, a
    program-buffer word does too when the buffer is readable and reads 0
    otherwise, a word the implementation does not have reads 0 and is not
    stored, and no other word of the buffer changes. *)
Theorem buffer_readback v :
  (forall i j, 0 <= i < 12 -> 0 <= j < 12 ->
     predict (on_write (data_addr i) v p) (data_addr j) =
     if j =? i then Ok (if i <? DeclaredConfig.datacount (cfg p) then v mod 2 ^ 32 else 0)
     else predict p (data_addr j)) /\
  (forall i j, 0 <= i < 16 -> 0 <= j < 16 ->
     predict (on_write (progbuf_addr i) v p) (progbuf_addr j) =
     if j =? i then
       Ok (if (i <? DeclaredConfig.progbufsize (cfg p)) && DeclaredConfig.progbuf_readable (cfg p)
           then v mod 2 ^ 32 else 0)
     else predict p (progbuf_addr j)).
Proof using Type*.
  assert (Hm : Z.land v MASK32 = v mod 2 ^ 32) by (apply (Z.land_ones v 32); lia).
  split; intros i j Hi Hj.
  - rewrite !predict_data by done.
    destruct (Z.ltb_spec i (DeclaredConfig.datacount (cfg p))) as [Hc|Hc].
    + destruct (write_data i v Hi Hc) as (q & -> & -> & _ & Hq).
      destruct (Z.eqb_spec i 0) as [-> |Hi0].
      * destruct Hq as (-> & -> & _). destruct (Z.eqb_spec j 0) as [-> |]; [|done].
        rewrite Hm. zcases. done.
      * destruct Hq as (-> & -> & _). destruct (Z.eqb_spec j i) as [-> |Hne].
        { rewrite list_lookup_insert_eq by (rewrite wf_len_data by apply Hwf; lia).
          rewrite Hm. zcases. done. }
        rewrite list_lookup_insert_ne by lia. done.
    + assert (on_write (data_addr i) v p = p) as ->.
      { unfold on_write. rewrite Hbusy, is_data_addr by done. cbn [andb orb].
        unfold _write_buffer, _store_buffer. rewrite is_data_addr, data_offset by done. by zcases. }
      destruct (Z.eqb_spec j i) as [-> |]; [|done]. by zcases.
  - rewrite !predict_progbuf by done.
    destruct (Z.ltb_spec i (DeclaredConfig.progbufsize (cfg p))) as [Hc|Hc]; cbn [andb].
    + rewrite write_progbuf by done. cbn.
      destruct (Z.eqb_spec j i) as [-> |Hne].
      { rewrite list_lookup_insert_eq by (rewrite wf_len_progbuf by apply Hwf; lia).
        rewrite Hm. by zcases. }
      by rewrite list_lookup_insert_ne by lia.
    + assert (on_write (progbuf_addr i) v p = p) as ->.
      { unfold on_write. destruct (is_progbuf_addr i Hi) as [Hp Hd].
        rewrite Hbusy, Hp, Hd. cbn [andb orb].
        unfold _write_buffer, _store_buffer. rewrite Hd, progbuf_offset. by zcases. }
      destruct (Z.eqb_spec j i) as [-> |]; [|done]. by zcases.
Qed.
End buffers.

(** ** Abstract commands *)

(** An Access Register command word with transfer set and postexec clear. *)
Definition access_register (aarsize : Z) (write : bool) (regno : Z) : Z :=
  value_or 0
    (Register.encode ACCESS_REGISTER
       [("aarsize", aarsize); ("transfer", 1); ("write", to_int write); ("regno", regno)]).

(** What [_execute_command] reads off such a word. *)
Lemma access_register_decode aarsize write regno :
  0 <= regno < 2 ^ 16 -> 0 <= aarsize < 8 ->
  let w := access_register aarsize write regno in
  Z.land w MASK32 = w /\ Z.land w 0xFFFF = regno /\
  Z.land (Z.shiftr w 16) 1 = to_int write /\
  Z.land (Z.shiftr w 17) 1 = 1 /\ Z.land (Z.shiftr w 18) 1 = 0 /\
  Z.land (Z.shiftr w 20) 7 = aarsize /\ Z.land (Z.shiftr w 24) 0xFF = 0.
Proof.
  intros Hr Ha w.
  assert (0 <= w < 2 ^ 24) as Hw
    by (unfold w, access_register; cbn; repeat (apply insert_bounded; [cbn; lia..|]); lia).
  destruct (encode_from_spec ACCESS_REGISTER
    [("aarsize", aarsize); ("transfer", 1); ("write", to_int write); ("regno", regno)] 0 w)
    as [_ Hext]; [done|by apply (bool_decide_unpack _)|lia|done|].
  assert (forall f n, Register.field ACCESS_REGISTER n = Ok f -> f ∈ Register.fields ACCESS_REGISTER)
    as Hin by (intros f n [Hf _]%field_found; exact Hf).
  pose proof (Hext _ (Hin _ "regno" eq_refl)) as E1.
  pose proof (Hext _ (Hin _ "write" eq_refl)) as E2.
  pose proof (Hext _ (Hin _ "transfer" eq_refl)) as E3.
  pose proof (Hext _ (Hin _ "postexec" eq_refl)) as E4.
  pose proof (Hext _ (Hin _ "aarsize" eq_refl)) as E5.
  unfold Field.extract in *.
  change (Z.land (Z.shiftr w 0) 0xFFFF = Z.land regno (Z.ones 16)) in E1.
  change (Z.land (Z.shiftr w 16) 1 = Z.land (to_int write) 1) in E2.
  change (Z.land (Z.shiftr w 17) 1 = 1) in E3.
  change (Z.land (Z.shiftr w 18) 1 = 0) in E4.
  change (Z.land (Z.shiftr w 20) 7 = Z.land aarsize (Z.ones 3)) in E5.
  rewrite Z.shiftr_0_r, Z.land_ones, Z.mod_small in E1 by lia.
  rewrite Z.land_ones, Z.mod_small in E5 by lia.
  assert (Z.land (to_int write) 1 = to_int write) as Ew by by destruct write.
  change MASK32 with (Z.ones 32). rewrite Z.land_ones, Z.mod_small by lia.
  rewrite (Z.shiftr_div_pow2 w 24), Z.div_small by lia. split_and!; first [reflexivity | congruence].
Qed.

(** One register access of a debugger, as the DMI writes it is made of. *)
Inductive regop :=
  | WriteReg (regno value : Z)
  | ReadReg (regno : Z).

Definition regop_ok (op : regop) : Prop :=
  match op with WriteReg r _ | ReadReg r => 0 <= r < 2 ^ 16 end.

Definition exec_regop (p : t) (op : regop) : t :=
  match op with
  | WriteReg r v =>
      on_write ADDR_COMMAND (access_register AASIZE_32 true r) (on_write ADDR_DATA0 v p)
  | ReadReg r => on_write ADDR_COMMAND (access_register AASIZE_32 false r) p
  end.

(** The abstract register file: the last value written to each register; x0 is
    hardwired to 0 and the trigger CSRs legalise what is written to them. *)
Definition abs_exec (m : gmap Z Z) (op : regop) : gmap Z Z :=
  match op with
  | WriteReg r v => <[r := v mod 2 ^ 32]> m
  | ReadReg _ => m
  end.

Definition abs_read (m : gmap Z Z) (r : Z) : option Z :=
  if r =? GPR_X0_REGNO then Some 0
  else if _reads_back_as_written r then m !! r else None.

(** The model can take register accesses: a declared implementation with a data
    word, an active DM, no command in flight and no automatic re-execution. *)
Definition ready (p : t) : Prop :=
  observed_cmdbusy p = false /\ cfg_valid p = true /\ dmactive p = true /\
  0 < DeclaredConfig.datacount (cfg p) /\
  DeclaredConfig.abstractauto_enable (cfg p) = false.

Lemma write_command_eq w p :
  observed_cmdbusy p = false -> Z.land w MASK32 = w ->
  on_write ADDR_COMMAND w p = _execute_command w (p <| last_command := w |>).
Proof. intros Hb Hw. unfold on_write. by rewrite Hb, Hw. Qed.

Lemma write_command_transfer wr r p :
  observed_cmdbusy p = false -> 0 <= r < 2 ^ 16 ->
  on_write ADDR_COMMAND (access_register AASIZE_32 wr r) p =
  _execute_lower wr r
    (_execute_upper wr r AASIZE_32
       (p <| last_command := access_register AASIZE_32 wr r |>)).
Proof.
  intros Hb Hr.
  destruct (access_register_decode AASIZE_32 wr r Hr) as (Hm & D1 & D2 & D3 & D4 & D5 & D6);
    [unfold AASIZE_32; lia|].
  rewrite write_command_eq by done. unfold _execute_command.
  rewrite D1, D2, D3, D4, D5, D6. by destruct wr.
Qed.

Lemma write_data0_ready v p :
  ready p ->
  on_write ADDR_DATA0 v p =
  p <| staged_data0 := Z.land v MASK32 |>
    <| data0_pending_valid := true |>
    <| data0_pending_value := Z.land v MASK32 |>.
Proof.
  intros (Hb & _ & _ & Hd & Ha). unfold on_write. rewrite Hb.
  change (_is_data ADDR_DATA0) with true. cbn [andb orb].
  unfold _write_buffer, _store_buffer. change (_is_data ADDR_DATA0) with true.
  change (ADDR_DATA0 - ADDR_DATA0) with 0.
  destruct (Z.leb_spec (DeclaredConfig.datacount (cfg p)) 0); [lia|].
  change (0 =? 0) with true. cbn iota. rewrite (abstractauto_off _); [done|exact Ha].
Qed.

Lemma exec_regop_refines p m op :
  ready p -> regop_ok op -> shadow_regs p = m ->
  let q := exec_regop p op in
  ready q /\ shadow_regs q = abs_exec m op /\
  match op with
  | WriteReg _ _ => True
  | ReadReg r =>
      has_model q ADDR_DATA0 = bool_decide (is_Some (abs_read m r)) /\
      (forall v, abs_read m r = Some v -> predict q ADDR_DATA0 = Ok v)
  end.
Proof.
  intros Hr Hok Hm. pose proof Hr as (Hb & Hcv & Hda & Hdc & Hauto).
  assert (Hd0 : forall q : t, 0 < DeclaredConfig.datacount (cfg q) ->
    predict q ADDR_DATA0 = Ok (data0_pending_value q)).
  { intros q Hq. change ADDR_DATA0 with (data_addr 0). rewrite predict_data by lia. by zcases. }
  assert (Hm0 : forall q : t, ready q -> has_model q ADDR_DATA0 = data0_pending_valid q).
  { intros q (_ & Hv & Ha & _). change ADDR_DATA0 with (data_addr 0).
    by rewrite has_model_data by (done || lia). }
  destruct op as [r v|r]; cbn [exec_regop abs_exec regop_ok] in *.
  - rewrite write_data0_ready, write_command_transfer by done. split; [exact Hr|].
    split; [|done]. rewrite <-(Z.land_ones v 32) by lia. by rewrite <-Hm.
  - rewrite write_command_transfer by done.
    change (_execute_upper false r AASIZE_32 ?q) with q.
    set (p' := p <| last_command := _ |>). change (shadow_regs p) with (shadow_regs p') in Hm.
    assert (Hr' : ready p') by exact Hr. clearbody p'. clear p Hr Hb Hcv Hda Hdc Hauto.
    pose proof Hr' as (_ & _ & _ & Hdc & _). unfold _execute_lower, abs_read. rewrite Hm.
    destruct (r =? GPR_X0_REGNO); [|destruct (m !! r) as [w|]; [destruct (_reads_back_as_written r)|]];
      (split; [exact Hr'|]); (split; [exact Hm|]);
      (split; [rewrite Hm0 by exact Hr'|intros v' Hv; rewrite Hd0 by exact Hdc]);
      try done; try (by injection Hv as <-).
    all: by destruct (_reads_back_as_written r).
Qed.

Lemma exec_regops_refine ops p m :
  ready p -> Forall regop_ok ops -> shadow_regs p = m ->
  ready (fold_left exec_regop ops p) /\
  shadow_regs (fold_left exec_regop ops p) = fold_left abs_exec ops m.
Proof.
  revert p m. induction ops as [|op ops IH]; intros p m Hr Hok Hm; [done|].
  apply Forall_cons in Hok as [Hop Hok]. cbn [fold_left].
  destruct (exec_regop_refines p m op Hr Hop Hm) as (Hr' & Hm' & _). by apply IH.
Qed.

(** C17: Register accesses refine an abstract register file. After any sequence
    of reads and writes of registers by abstract command, reading register [r]
    makes data0 predictable exactly when the file holds a value for [r], and
    the prediction is that value: the last one written, or 0 for x0. *)
Theorem register_file_refinement ops p r :
  ready p -> shadow_regs p = ∅ -> Forall regop_ok ops -> 0 <= r < 2 ^ 16 ->
  let m := fold_left abs_exec ops ∅ in
  let q := exec_regop (fold_left exec_regop ops p) (ReadReg r) in
  has_model q ADDR_DATA0 = bool_decide (is_Some (abs_read m r)) /\
  (forall v, abs_read m r = Some v -> expect q ADDR_DATA0 = Ok v) /\
  (abs_read m r = None -> exists e, expect q ADDR_DATA0 = Raise e).
Proof.
  intros Hr Hm Hok Hrn m q.
  destruct (exec_regops_refine ops p ∅ Hr Hok Hm) as [Hr' Hm'].
  destruct (exec_regop_refines _ m (ReadReg r) Hr' Hrn Hm') as (_ & _ & Hmod & Hpred).
  fold q in Hmod, Hpred. unfold expect. rewrite Hmod. split; [done|]. split.
  - intros v Hv. rewrite Hv. cbn. by apply Hpred.
  - intros ->. cbn. eauto.
Qed.

(** ** System Bus Access *)

Lemma lor_shiftl_add hi lo : 0 <= lo < 2 ^ 32 -> Z.lor (Z.shiftl hi 32) lo = hi * 2 ^ 32 + lo.
Proof.
  intros Hlo. rewrite <-Z.shiftl_mul_pow2 by lia.
  rewrite <-(Z.lxor_lor (Z.shiftl hi 32) lo).
  - rewrite Z.add_nocarry_lxor; [done|].
    apply Z.bits_inj'. intros i Hi. rewrite Z.land_spec, Z.shiftl_spec, Z.bits_0 by done.
    destruct (Z.ltb_spec i 32); [by rewrite Z.testbit_neg_r by lia|].
    rewrite (bounded_bits 32 lo) by lia. apply andb_false_r.
  - apply Z.bits_inj'. intros i Hi. rewrite Z.land_spec, Z.shiftl_spec, Z.bits_0 by done.
    destruct (Z.ltb_spec i 32); [by rewrite Z.testbit_neg_r by lia|].
    rewrite (bounded_bits 32 lo) by lia. apply andb_false_r.
Qed.

(** The 64-bit bus address the two address registers hold. *)
Definition sbaddress (p : t) : Z := sbaddress1 p * 2 ^ 32 + sbaddress0 p.

(** Auto-increment advances the bus address by the access width: modulo
    [2^64], carrying from sbaddress0 into sbaddress1, when the implementation
    has more than 32 address bits, and modulo [2^32] in sbaddress0 alone
    otherwise; it does nothing when sbautoincrement is clear. *)
Theorem sba_autoincrement_carry p :
  wf p -> 0 <= sbaccess p ->
  let q := _sba_autoincrement p in
  if negb (sbautoincrement p) then q = p
  else if 32 <? DeclaredConfig.sbasize (cfg p)
  then sbaddress q = (sbaddress p + 2 ^ sbaccess p) mod 2 ^ 64
  else sbaddress0 q = (sbaddress0 p + 2 ^ sbaccess p) mod 2 ^ 32 /\ sbaddress1 q = sbaddress1 p.
Proof.
  intros [Hr _ _] Hacc. cbn zeta. unfold _sba_autoincrement.
  destruct (sbautoincrement p); cbn [negb]; [|done].
  rewrite lor_shiftl_add by apply (wf_sbaddress0 p Hr). fold (sbaddress p).
  rewrite Z.shiftl_1_l. set (s := sbaddress p + 2 ^ sbaccess p).
  assert (Hmask : forall x, Z.land x MASK32 = x mod 2 ^ 32)
    by (intros x; apply (Z.land_ones x 32); lia).
  change (DeclaredConfig.sbasize (cfg (p <| sbaddress0 := _ |>))) with (DeclaredConfig.sbasize (cfg p)).
  destruct (32 <? DeclaredConfig.sbasize (cfg p)); rewrite !Hmask.
  - unfold sbaddress at 1. cbn -[Z.pow Z.mul Z.add Z.modulo]. rewrite Z.shiftr_div_pow2 by lia.
    change (2 ^ 64) with (2 ^ 32 * 2 ^ 32). rewrite Z.rem_mul_r by lia. lia.
  - cbn -[Z.pow Z.mul Z.add Z.modulo]. split; [|done]. unfold s, sbaddress.
    rewrite <-Z.add_assoc, Z.add_comm, Z.mod_add by lia. done.
Qed.

(** One word written to, or expected from and read off, sbdata0. *)
Definition sb_write (p : t) (w : Z) : t := on_write ADDR_SBDATA0 w p.

Fixpoint sb_read (n : nat) (p : t) : list (result Z) :=
  match n with
  | O => []
  | S n => expect p ADDR_SBDATA0 :: sb_read n (observe_read ADDR_SBDATA0 p)
  end.

(** A bus access of 32-bit words with auto-increment, on a declared, active DM. *)
Definition sba_ready (p : t) : Prop :=
  cfg_valid p = true /\ dmactive p = true /\ DeclaredConfig.sba_enable (cfg p) = true /\
  sbautoincrement p = true /\ sbaccess p = 2 /\ 0 <= sbaddress0 p < 2 ^ 32.

(** What a bus access leaves of the predictor once addresses, data and shadow
    memory are put aside. *)
Definition erase_sba (p : t) : t :=
  p <| sbaddress0 := 0 |> <| sbaddress1 := 0 |> <| shadow_mem := ∅ |>
    <| sbdata0_pending_valid := false |> <| sbdata0_pending_value := 0 |>
    <| sbdata1_known := false |>.

Lemma sba_autoincrement_word p :
  sba_ready p ->
  sbaddress0 (_sba_autoincrement p) = (sbaddress0 p + 4) mod 2 ^ 32 /\
  erase_sba (_sba_autoincrement p) = erase_sba p /\
  shadow_mem (_sba_autoincrement p) = shadow_mem p /\
  sbdata0_pending_valid (_sba_autoincrement p) = sbdata0_pending_valid p /\
  sbdata0_pending_value (_sba_autoincrement p) = sbdata0_pending_value p.
Proof.
  intros (_ & _ & _ & Hinc & Hacc & Ha). unfold _sba_autoincrement. rewrite Hinc, Hacc.
  cbn [negb]. rewrite lor_shiftl_add by done. change (Z.shiftl 1 2) with 4.
  split; [|by case_match].
  assert (Z.land (sbaddress1 p * 2 ^ 32 + sbaddress0 p + 4) MASK32 = (sbaddress0 p + 4) mod 2 ^ 32) as <-.
  { rewrite (Z.land_ones _ 32) by lia.
    rewrite <-Z.add_assoc, Z.add_comm, Z.mod_add by lia. done. }
  by case_match.
Qed.

Lemma sba_ready_erase p q :
  erase_sba p = erase_sba q -> 0 <= sbaddress0 q < 2 ^ 32 -> sba_ready p -> sba_ready q.
Proof.
  intros He Ha (H1 & H2 & H3 & H4 & H5 & _).
  assert (cfg_valid q = cfg_valid p) as E1 by exact (f_equal cfg_valid (eq_sym He)).
  assert (dmactive q = dmactive p) as E2 by exact (f_equal dmactive (eq_sym He)).
  assert (cfg q = cfg p) as E3 by exact (f_equal cfg (eq_sym He)).
  assert (sbautoincrement q = sbautoincrement p) as E4
    by exact (f_equal sbautoincrement (eq_sym He)).
  assert (sbaccess q = sbaccess p) as E5 by exact (f_equal sbaccess (eq_sym He)).
  unfold sba_ready. rewrite E1, E2, E3, E4, E5. done.
Qed.

Lemma sb_write_spec p w :
  sba_ready p ->
  let q := sb_write p w in
  sba_ready q /\ sbaddress0 q = (sbaddress0 p + 4) mod 2 ^ 32 /\
  erase_sba q = erase_sba p /\
  shadow_mem q = <[sbaddress0 p := w mod 2 ^ 32]> (shadow_mem p).
Proof.
  intros Hp. unfold sb_write, on_write.
  change (_guarded_while_busy ADDR_SBDATA0) with false. rewrite andb_false_r.
  change (_is_data ADDR_SBDATA0 || _is_progbuf ADDR_SBDATA0) with false. cbn iota.
  change (ADDR_SBDATA0 =? Register.address DMCONTROL) with false.
  change (ADDR_SBDATA0 =? ADDR_SBADDRESS1) with false.
  change (ADDR_SBDATA0 =? ADDR_SBDATA1) with false.
  change (ADDR_SBDATA0 =? ADDR_HAWINDOW) with false.
  change (ADDR_SBDATA0 =? ADDR_COMMAND) with false.
  change (ADDR_SBDATA0 =? ADDR_SBCS) with false.
  change (ADDR_SBDATA0 =? ADDR_SBADDRESS0) with false.
  change (ADDR_SBDATA0 =? ADDR_SBDATA0) with true. cbn iota zeta. unfold _write_sbdata0.
  assert (Z.land w MASK32 = w mod 2 ^ 32) as -> by (apply (Z.land_ones w 32); lia).
  set (p' := p <| shadow_mem := _ |>).
  assert (Hp' : sba_ready p') by exact Hp.
  destruct (sba_autoincrement_word p' Hp') as (Ha & He & Hs & _).
  split; [|rewrite Ha, He, Hs; done].
  apply (sba_ready_erase p'); [done| |done]. rewrite Ha. by apply Z.mod_pos_bound.
Qed.

Lemma sb_writes_spec ws p :
  sba_ready p -> sbaddress0 p + 4 * Z.of_nat (length ws) <= 2 ^ 32 ->
  let q := fold_left sb_write ws p in
  sba_ready q /\ erase_sba q = erase_sba p /\
  (forall i w, ws !! i = Some w ->
     shadow_mem q !! (sbaddress0 p + 4 * Z.of_nat i) = Some (w mod 2 ^ 32)) /\
  (forall a, a < sbaddress0 p -> shadow_mem q !! a = shadow_mem p !! a).
Proof.
  revert p. induction ws as [|w ws IH]; intros p Hp Hb; cbn [fold_left].
  { split_and!; try done. }
  destruct (sb_write_spec p w Hp) as (Hq & Ha & He & Hm). cbn [length] in Hb.
  assert (Hlo : 0 <= sbaddress0 p) by apply Hp.
  destruct ws as [|w2 ws'].
  { cbn [fold_left]. split_and!; [done|done| |].
    - intros [|i] x Hx; [|done]. injection Hx as <-. rewrite Hm, Z.add_0_r.
      by rewrite lookup_insert_eq.
    - intros a Hlt. rewrite Hm, lookup_insert_ne by lia. done. }
  set (ws := w2 :: ws') in *.
  assert (1 <= Z.of_nat (length ws)) by (unfold ws; cbn [length]; lia).
  rewrite Z.mod_small in Ha by lia.
  destruct (IH (sb_write p w) Hq) as (Hr & Her & Hmem & Hfr); [lia|].
  split_and!; [done|congruence| |].
  - intros [|i] x Hx.
    + injection Hx as <-. rewrite Hfr by lia. rewrite Hm, Z.add_0_r. by rewrite lookup_insert_eq.
    + specialize (Hmem i x Hx). rewrite Ha in Hmem.
      replace (sbaddress0 p + 4 * Z.of_nat (S i)) with (sbaddress0 p + 4 + 4 * Z.of_nat i) by lia.
      done.
  - intros a Hlt. rewrite Hfr by lia. rewrite Hm, lookup_insert_ne by lia. done.
Qed.

(** A read of sbdata0 returns what is pending, and starts the next bus read. *)
Lemma expect_sbdata0 p :
  cfg_valid p = true -> dmactive p = true -> DeclaredConfig.sba_enable (cfg p) = true ->
  sbdata0_pending_valid p = true -> expect p ADDR_SBDATA0 = Ok (sbdata0_pending_value p).
Proof.
  intros Hv Ha Hs Hp. unfold expect, has_model, predict.
  rewrite Hv, Ha, Hs, Hp. reflexivity.
Qed.

Lemma observe_sbdata0 p :
  sba_ready p -> sbreadondata p = true ->
  let q := observe_read ADDR_SBDATA0 p in
  sba_ready q /\ sbaddress0 q = (sbaddress0 p + 4) mod 2 ^ 32 /\
  sbreadondata q = true /\ shadow_mem q = shadow_mem p /\
  (forall v, shadow_mem p !! sbaddress0 p = Some v ->
     sbdata0_pending_valid q = true /\ sbdata0_pending_value q = v).
Proof.
  intros Hp Hrd. unfold observe_read. change (ADDR_SBDATA0 =? ADDR_SBDATA0) with true. cbn iota.
  change (_is_data ADDR_SBDATA0) with false. change (_is_progbuf ADDR_SBDATA0) with false.
  cbn [andb orb]. unfold _sbdata0_read_effects. rewrite Hrd.
  set (r := _sba_arm_read (sbaddress0 p) p).
  assert (Hr : sba_ready r /\ sbaddress0 r = sbaddress0 p /\ sbreadondata r = true /\
               shadow_mem r = shadow_mem p).
  { unfold r, _sba_arm_read. by destruct (shadow_mem _ !! _). }
  destruct Hr as (Hr & Ea & Er & Em).
  destruct (sba_autoincrement_word r Hr) as (Ha & He & Hm & Hv & Hval).
  cbn zeta. rewrite Hv, Hval, Hm, Ha, Ea, Em. split_and!; try done.
  - apply (sba_ready_erase r); [done| |done]. rewrite Ha. by apply Z.mod_pos_bound.
  - rewrite <-Er. exact (f_equal sbreadondata He).
  - intros v Hmem. unfold r, _sba_arm_read.
    change (shadow_mem (p <| sbdata1_known := false |>)) with (shadow_mem p). by rewrite Hmem.
Qed.

Lemma sb_read_spec n p :
  sba_ready p -> sbreadondata p = true -> sbdata0_pending_valid p = true ->
  sbaddress0 p + 4 * Z.of_nat n <= 2 ^ 32 ->
  (forall i, (i < n)%nat -> is_Some (shadow_mem p !! (sbaddress0 p + 4 * Z.of_nat i))) ->
  sb_read (S n) p =
  Ok (sbdata0_pending_value p) ::
  map (fun i => Ok (default 0 (shadow_mem p !! (sbaddress0 p + 4 * Z.of_nat i)))) (seq 0 n).
Proof.
  revert p. induction n as [|n IH]; intros p Hp Hrd Hv Hb Hmem.
  all: pose proof Hp as (Hcv & Hda & Hen & _ & _ & Hlo).
  { cbn [sb_read seq map]. by rewrite expect_sbdata0. }
  remember (S n) as n1 eqn:En. cbn [sb_read]. rewrite expect_sbdata0 by done. f_equal. subst n1.
  destruct (observe_sbdata0 p Hp Hrd) as (Hq & Ha & Hrd' & Hm & Hval).
  destruct (Hmem 0%nat) as [v0 Hv0]; [lia|]. rewrite Z.add_0_r in Hv0.
  destruct (Hval v0 Hv0) as [Hv' Hval']. 
  destruct n as [|n'].
  { cbn [sb_read seq map]. destruct Hq as (? & ? & ? & _). rewrite expect_sbdata0 by done.
    by rewrite Hval', Z.add_0_r, Hv0. }
  rewrite Z.mod_small in Ha by lia.
  rewrite IH; [|done..|rewrite Ha; lia|].
  2:{ intros i Hi. rewrite Hm, Ha. specialize (Hmem (S i)).
      replace (sbaddress0 p + 4 + 4 * Z.of_nat i) with (sbaddress0 p + 4 * Z.of_nat (S i)) by lia.
      apply Hmem. lia. }
  rewrite Hval', Hm, Ha. rewrite <-(cons_seq (S n') 0). cbn [map]. rewrite Z.add_0_r, Hv0. f_equal.
  rewrite <-(seq_shift (S n') 0), map_map. apply map_ext. intros i. do 3 f_equal. lia.
Qed.

(** sbreadonaddr, 32-bit accesses, sbautoincrement, sbreadondata. *)
Definition SBCS_STREAM : Z := 0x158000.

(** Set sbcs up for a read burst and start it at [a]. *)
Definition sb_start_read (a : Z) (p : t) : t :=
  on_write ADDR_SBADDRESS0 a (on_write ADDR_SBCS SBCS_STREAM p).

Lemma sb_start_read_spec a p v :
  sba_ready p -> 0 <= a < 2 ^ 32 -> shadow_mem p !! a = Some v ->
  let q := sb_start_read a p in
  sba_ready q /\ sbaddress0 q = (a + 4) mod 2 ^ 32 /\ sbreadondata q = true /\
  sbdata0_pending_valid q = true /\ sbdata0_pending_value q = v /\ shadow_mem q = shadow_mem p.
Proof.
  intros Hp Ha Hv. unfold sb_start_read.
  set (p1 := on_write ADDR_SBCS SBCS_STREAM p).
  assert (Hp1 : sba_ready p1 /\ shadow_mem p1 = shadow_mem p /\
                sbcs_read_on_addr_armed p1 = true /\ sbreadondata p1 = true).
  { assert (p1 = _write_sbcs SBCS_STREAM p) as ->.
    { unfold p1, on_write. change (_guarded_while_busy ADDR_SBCS) with false.
      rewrite andb_false_r. reflexivity. }
    destruct Hp as (? & ? & ? & ? & ? & ?). unfold sba_ready, _write_sbcs.
    change (DeclaredConfig.sbaccess_writable (cfg (setf _ _ _)))
      with (DeclaredConfig.sbaccess_writable (cfg p)).
    by destruct (DeclaredConfig.sbaccess_writable (cfg p)). }
  destruct Hp1 as (Hp1 & Hm1 & Harm & Hrd). clearbody p1.
  assert (on_write ADDR_SBADDRESS0 a p1 = _write_sbaddress0 a p1) as ->.
  { unfold on_write. change (_guarded_while_busy ADDR_SBADDRESS0) with false. rewrite andb_false_r.
    assert (Z.land a MASK32 = a) as ->
      by (change MASK32 with (Z.ones 32); rewrite Z.land_ones by lia; by apply Z.mod_small).
    reflexivity. }
  unfold _write_sbaddress0.
  change (sbcs_read_on_addr_armed (p1 <| sbaddress0 := a |>)) with (sbcs_read_on_addr_armed p1).
  rewrite Harm. set (r := _sba_arm_read a _).
  assert (Hr : sba_ready r /\ sbaddress0 r = a /\ sbreadondata r = true /\
     shadow_mem r = shadow_mem p /\ sbdata0_pending_valid r = true /\ sbdata0_pending_value r = v).
  { unfold r, _sba_arm_read.
    change (shadow_mem (p1 <| sbaddress0 := a |> <| sbdata1_known := false |>)) with (shadow_mem p1).
    rewrite Hm1, Hv. destruct Hp1 as (? & ? & ? & ? & ? & ?). repeat split; done || apply Ha. }
  clearbody r. destruct Hr as (Hr & Ea & Er & Em & Ev & Eval).
  destruct (sba_autoincrement_word r Hr) as (Ha' & He & Hm & Hva & Hvl).
  cbn zeta. rewrite Hva, Hvl, Hm, Ha', Ea. split_and!; try done.
  - apply (sba_ready_erase r); [done| |done]. rewrite Ha'. by apply Z.mod_pos_bound.
  - rewrite <-Er. exact (f_equal sbreadondata He).
Qed.

(** C18: A burst of words written through sbdata0 with auto-increment reads back,
    word for word and in order, through a read burst started at the same bus
    address, for every burst that does not run off the end of the address space. *)
Theorem sba_burst_roundtrip p ws :
  sba_ready p -> sbaddress0 p + 4 * Z.of_nat (length ws) <= 2 ^ 32 -> ws <> [] ->
  sb_read (length ws) (sb_start_read (sbaddress0 p) (fold_left sb_write ws p)) =
  map (fun w => Ok (w mod 2 ^ 32)) ws.
Proof.
  intros Hp Hb Hne. set (a := sbaddress0 p) in *.
  assert (Ha : 0 <= a < 2 ^ 32) by apply Hp.
  destruct (sb_writes_spec ws p Hp Hb) as (Hq & _ & Hmem & _). fold a in Hmem.
  set (q := fold_left sb_write ws p) in *. clearbody q.
  destruct ws as [|w ws]; [done|]. cbn [length] in *.
  destruct (sb_start_read_spec a q (w mod 2 ^ 32) Hq Ha) as (Hr & Hra & Hrd & Hv & Hval & Hm).
  { rewrite <-(Hmem 0%nat w eq_refl). f_equal. lia. }
  set (r := sb_start_read a q) in *. clearbody r.
  assert (Hws : forall i x, ws !! i = Some x ->
    shadow_mem r !! (sbaddress0 r + 4 * Z.of_nat i) = Some (x mod 2 ^ 32)).
  { intros i x Hx. pose proof (lookup_lt_Some _ _ _ Hx). rewrite Hm, Hra, Z.mod_small by lia.
    rewrite <-(Hmem (S i) x Hx). f_equal. lia. }
  rewrite sb_read_spec; [|done..| |].
  - rewrite Hval. cbn [map]. f_equal. apply list_eq. intros i. rewrite !list_lookup_fmap.
    destruct (ws !! i) as [x|] eqn:Hx.
    + rewrite lookup_seq_lt by by eapply lookup_lt_Some. cbn. by rewrite (Hws i x Hx).
    + rewrite lookup_seq_ge by by apply lookup_ge_None_1. done.
  - rewrite Hra. destruct ws; [cbn; pose proof (Z.mod_pos_bound (a + 4) (2 ^ 32)); lia|].
    cbn [length] in *. rewrite Z.mod_small by lia. lia.
  - intros i Hi. destruct (lookup_lt_is_Some_2 ws i Hi) as [x Hx]. rewrite (Hws i x Hx). eauto.
Qed.

(** The bus shadow is keyed by sbaddress0 alone: after a write at one 64-bit
    bus address, a read at an address that differs only in sbaddress1 is
    predicted to return the value written, although this traffic never wrote
    there. *)
Theorem sba_shadow_ignores_upper_address p w a1 :
  sba_ready p ->
  let q := on_write ADDR_SBADDRESS1 a1 (sb_write p w) in
  let r := sb_start_read (sbaddress0 p) q in
  sbaddress1 q = a1 mod 2 ^ 32 /\ expect r ADDR_SBDATA0 = Ok (w mod 2 ^ 32).
Proof.
  intros Hp. cbn zeta. destruct (sb_write_spec p w Hp) as (Hq & _ & _ & Hm).
  set (q := sb_write p w) in *. clearbody q.
  assert (on_write ADDR_SBADDRESS1 a1 q = q <| sbaddress1 := a1 mod 2 ^ 32 |>) as ->.
  { unfold on_write. change (_guarded_while_busy ADDR_SBADDRESS1) with false. rewrite andb_false_r.
    assert (Z.land a1 MASK32 = a1 mod 2 ^ 32) as -> by (apply (Z.land_ones a1 32); lia). done. }
  split; [done|].
  destruct (sb_start_read_spec (sbaddress0 p) (q <| sbaddress1 := a1 mod 2 ^ 32 |>) (w mod 2 ^ 32))
    as ((? & ? & ? & _) & _ & _ & Hv & Hval & _); [exact Hq|apply Hp| |].
  - change (shadow_mem (q <| sbaddress1 := a1 mod 2 ^ 32 |>)) with (shadow_mem q). rewrite Hm.
    apply lookup_insert_eq.
  - rewrite expect_sbdata0 by done. by rewrite Hval.
Qed.

(** ** Witnesses *)

(** A DM with data words, a readable program buffer and a 64-bit system bus. *)
Definition cfg_demo : DeclaredConfig.t :=
  DeclaredConfig.default
    <| DeclaredConfig.datacount := 2 |> <| DeclaredConfig.progbufsize := 8 |>
    <| DeclaredConfig.progbuf_readable := true |> <| DeclaredConfig.sba_enable := true |>
    <| DeclaredConfig.sbasize := 64 |> <| DeclaredConfig.sbaccess32 := true |>
    <| DeclaredConfig.sbaccess_reset := 2 |>.

Definition p_demo : t :=
  on_write (Register.address DMCONTROL) 1 (set_config cfg_demo (init Kwargs.default)).
Definition p_busy : t := set_observed_cmdbusy true p_demo.
Definition p_bus : t :=
  on_write ADDR_SBADDRESS0 0x80000000 (on_write ADDR_SBCS 0x50000 p_demo).

Lemma wf_p_demo : wf p_demo.
Proof. apply wf_on_write, wf_set_config, wf_init. Qed.

Lemma sba_ready_p_bus : sba_ready p_bus.
Proof. vm_compute. repeat split; discriminate. Qed.

Lemma busy_drops_guarded_witness :
  let p := p_busy in
  (forall addr v, _guarded_while_busy addr = true -> on_write addr v p = p) /\
  (forall addr, addr <> ADDR_SBDATA0 -> observe_read addr p = p) /\
  (forall v, on_write (Register.address DMCONTROL) v p = _write_dmcontrol (Z.land v MASK32) p).
Proof. intros p. apply (busy_drops_guarded p). vm_compute. reflexivity. Defined.

Lemma buffer_readback_witness :
  predict (on_write (data_addr 1) 0x112345678 p_demo) (data_addr 1) = Ok 0x12345678.
Proof.
  assert (H := buffer_readback p_demo wf_p_demo eq_refl (abstractauto_off p_demo eq_refl) 0x112345678).
  destruct H as [H _]. rewrite (H 1 1) by lia. vm_compute. reflexivity.
Defined.

Lemma register_file_refinement_witness :
  let ops := [WriteReg 0x1008 0xAB; ReadReg 0x1009; WriteReg 0x1009 0xCD] in
  let m := fold_left abs_exec ops ∅ in
  let q := exec_regop (fold_left exec_regop ops p_demo) (ReadReg 0x1008) in
  (has_model q ADDR_DATA0 = bool_decide (is_Some (abs_read m 0x1008)) /\
   (forall v, abs_read m 0x1008 = Some v -> expect q ADDR_DATA0 = Ok v) /\
   (abs_read m 0x1008 = None -> exists e, expect q ADDR_DATA0 = Raise e)) /\
  abs_read m 0x1008 = Some 0xAB.
Proof.
  intros ops. split; [|vm_compute; reflexivity].
  apply (register_file_refinement ops p_demo 0x1008).
  - vm_compute. repeat split.
  - vm_compute. reflexivity.
  - repeat constructor; vm_compute; (reflexivity || discriminate).
  - split; vm_compute; (reflexivity || discriminate).
Defined.

Lemma sba_autoincrement_carry_witness :
  sbaddress (_sba_autoincrement (on_write ADDR_SBADDRESS0 0xFFFFFFFC p_bus)) = 0x100000000.
Proof.
  assert (H := sba_autoincrement_carry (on_write ADDR_SBADDRESS0 0xFFFFFFFC p_bus)).
  assert (Hwf : wf (on_write ADDR_SBADDRESS0 0xFFFFFFFC p_bus))
    by (do 3 apply wf_on_write; apply wf_p_demo).
  specialize (H Hwf). cbn zeta in H. vm_compute in H. vm_compute. apply H. discriminate.
Defined.

Lemma sba_burst_roundtrip_witness :
  let ws := [0x11; 0x22; 0x33] in
  sb_read (length ws) (sb_start_read (sbaddress0 p_bus) (fold_left sb_write ws p_bus)) =
  map (fun w => Ok (w mod 2 ^ 32)) ws.
Proof.
  intros ws. apply (sba_burst_roundtrip p_bus ws); [exact sba_ready_p_bus|vm_compute; discriminate|discriminate].
Defined.

Lemma sba_shadow_ignores_upper_address_witness :
  let q := on_write ADDR_SBADDRESS1 1 (sb_write p_bus 0x55) in
  let r := sb_start_read (sbaddress0 p_bus) q in
  sbaddress1 q = 1 mod 2 ^ 32 /\ expect r ADDR_SBDATA0 = Ok (0x55 mod 2 ^ 32).
Proof. apply (sba_shadow_ignores_upper_address p_bus 0x55 1). exact sba_ready_p_bus. Defined.
