(* ===== verification/Invariants.v ===== *)
(** The architectural invariants of run control: [model/invariants.py].

    Each [_inv_*] function of the source appends to the list [out]; here it
    returns the violations it appends, and [check_all] concatenates them in the
    source's order.  The per-hart dictionaries of a snapshot are [HartSnap.t],
    and [prev_state] may be [None], as in the source.  The one call that could
    raise, [predictor.expect], keeps its result type; [check_all_never_raises]
    (in [InvariantsSound]) shows it does not. *)

From S2P Require Import Prelude Registers Predictor.

Local Open Scope string_scope.
Local Open Scope list_scope.
Local Open Scope Z_scope.

(** The values a report carries in [observed] and [expected]. *)
#[warnings="-register-all"]
Inductive pyval :=
  | PNone
  | PBool (b : bool)
  | PInt (n : Z)
  | PStr (s : string)
  | PList (l : list string)
  | PDict (d : list (string * pyval)).

Module Violation.

(** invariants.py:91-112 (Violation attributes) *)
Record t := mk {
  rule : string;
  message : string;
  tc_ids : list string;
  spec : string;
  observed : pyval;
  expected : pyval;
  hart : option Z;
  stimulus_legality : bool
}.

End Violation.

(** ** Helpers over snapshots *)

(** invariants.py:134-146 (_hart) *)
Definition _hart (state : option Snapshot.t) (index : Z) : option HartSnap.t :=
  match state with
  | None => None
  | Some s =>
      if (0 <=? index) && (index <? Z.of_nat (length (Snapshot.harts s)))
      then Snapshot.harts s !! Z.to_nat index else None
  end.

(** invariants.py:149-159 (_in_reset) *)
Definition _in_reset (h : HartSnap.t) : bool :=
  negb (HartSnap.halted h) && negb (HartSnap.running h).

(** invariants.py:162-176 (_is_reset_write) *)
Definition _is_reset_write (fields : list (string * Z)) (p : DMPredictor.t) : bool :=
  truthy (dict_get fields "ndmreset" 0) || DMPredictor.ndmreset p
  || truthy (dict_get fields "hartreset" 0) || DMPredictor._hartreset_level p.

(** [observed={"halted": ..., "running": ...}] *)
Definition run_state (halted running : bool) : pyval :=
  PDict [("halted", PBool halted); ("running", PBool running)].

(** [for i, h in enumerate(l): ...], collecting what each iteration appends. *)
Definition each {A B} (l : list A) (f : Z -> A -> list B) : list B :=
  concat (imap (fun i x => f (Z.of_nat i) x) l).

(** ** The invariants *)

(** invariants.py:186-212 (_inv_halted_running_mutex) *)
Definition _inv_halted_running_mutex (p : DMPredictor.t) : list Violation.t :=
  each (Snapshot.harts (DMPredictor.snapshot p)) (fun i h =>
    if HartSnap.halted h && HartSnap.running h then
      [Violation.mk "INV-HALT-RUN-MUTEX"
         "hart reports halted and running simultaneously"
         ["TC-RC-001"; "TC-RC-002"; "TC-RC-003"; "TC-RC-004"; "TC-RC-005"; "TC-RST-001";
          "TC-RST-002"; "TC-RST-003"; "TC-HOR-002"; "TC-HOR-003"; "TC-HOR-004"]
         "#3.5 Run Control" (run_state true true)
         (PStr "at most one of halted/running asserted") (Some i) false]
    else []).

(** invariants.py:215-287 (_check_dmstatus_word) *)
Definition _check_dmstatus_word (word : Z) (p : DMPredictor.t) (source : string)
    : list Violation.t :=
  let f := Register.decode DMSTATUS word in
  (if negb (Nat.eqb (length (DMPredictor.selected_indices p)) 0) then
     concat (map (fun '(all_name, any_name) =>
       if truthy (dict_get f all_name 0) && negb (truthy (dict_get f any_name 0)) then
         [Violation.mk "INV-ALL-IMPLIES-ANY"
            (all_name +:+ "=1 but " +:+ any_name +:+ "=0 (" +:+ source +:+ ")")
            ["TC-RC-001"; "TC-RC-003"; "TC-RST-003"; "TC-RST-004"]
            ("#3.14.1 " +:+ all_name +:+ "/" +:+ any_name)
            (PDict [(all_name, PInt 1); (any_name, PInt 0)])
            (PStr (all_name +:+ "=1 implies " +:+ any_name +:+ "=1")) None false]
       else []) DMSTATUS_ALL_ANY_PAIRS)
   else [])
  ++
  (if DMPredictor.dmactive p && negb (DMPredictor.ndmreset p) then
     if dict_get f "version" 0 =? DMSTATUS_VERSION_NONE then
       [Violation.mk "INV-VERSION-NONZERO"
          ("dmstatus.version=0 while dmactive=1 and ndmreset=0 (" +:+ source +:+ ")")
          ["TC-RST-001"; "TC-RST-005"; "TC-HOR-001"]
          "#3.14.1 version / #3.13 Version Detection" (PInt 0) (PStr "non-zero") None false]
     else []
   else [])
  ++
  (if (DMSTATUS_VERSION_1_0 <=? DMPredictor.version p) && DMPredictor.ndmreset p
      && negb (truthy (dict_get f "ndmresetpending" 0))
   then
     [Violation.mk "INV-NDMRESETPENDING"
        ("ndmreset asserted but dmstatus.ndmresetpending=0 (" +:+ source +:+ ")")
        ["TC-RST-001"; "TC-RST-005"] "#3.14.1 ndmresetpending / #3.2 Reset"
        (PInt 0) (PInt 1) None false]
   else []).

(** The access names of registers.py, as a report prints them. *)
Definition access_name (a : Access) : string :=
  match a with
  | ACCESS_R => "R" | ACCESS_RW => "R/W" | ACCESS_W1 => "W1"
  | ACCESS_W1C => "W1C" | ACCESS_WARL => "WARL" | ACCESS_WARZ => "WARZ"
  end.

(** invariants.py:290-318 (_inv_dmcontrol_reads_zero) *)
Definition _inv_dmcontrol_reads_zero (readback : Z) : list Violation.t :=
  concat (map (fun fld =>
    if negb (bool_decide (Field.access fld ∈ ACCESS_READS_ZERO)) then []
    else
      let value := Field.extract fld readback in
      if negb (value =? 0) then
        [Violation.mk "INV-DMCONTROL-READS-ZERO"
           ("dmcontrol." +:+ Field.name fld +:+ " (" +:+ access_name (Field.access fld)
              +:+ ") read back non-zero")
           ["TC-RC-001"; "TC-RC-002"; "TC-RC-005"; "TC-RST-004"; "TC-HOR-002";
            "TC-HOR-003"; "TC-HOR-005"]
           (Field.spec fld) (PInt value) (PInt 0) None false]
      else []) (Register.fields DMCONTROL)).

(** invariants.py:321-346 (_inv_mutex_bits) *)
Definition _inv_mutex_bits (fields : list (string * Z)) : list Violation.t :=
  let asserted := List.filter (fun name => truthy (dict_get fields name 0)) DMCONTROL_MUTEX_BITS in
  if Nat.ltb 1 (length asserted) then
    [Violation.mk "INV-STIM-DMCONTROL-MUTEX"
       "more than one mutually-exclusive dmcontrol bit written 1 in one access"
       ["TC-HOR-005"] "#3.14.2 dmcontrol" (PList asserted)
       (PStr ("at most one of " +:+ String.concat ", " DMCONTROL_MUTEX_BITS)) None true]
  else [].

(** invariants.py:349-378 (_inv_dmi_access_during_ndmreset) *)
Definition _inv_dmi_access_during_ndmreset (addr : Z) (p : DMPredictor.t) : list Violation.t :=
  if negb (DMPredictor.ndmreset p) then []
  else if existsb (Z.eqb addr) [Register.address DMCONTROL; Register.address DMSTATUS] then []
  else
    [Violation.mk "INV-STIM-DMI-DURING-NDMRESET"
       ("DMI access to " +:+ py_hex 2 addr +:+ " while ndmreset asserted; behaviour is UNSPECIFIED")
       ["TC-RST-005"] "#3.2 Reset" (PStr (py_hex 2 addr))
       (PStr "dmcontrol read/write or dmstatus (ndmresetpending) read only") None true].

(** The harts a transition rule looks at: selected, present in both states, and
    existing and available before. *)
Definition for_selected_pairs (prev : option Snapshot.t) (p : DMPredictor.t)
    (f : Z -> HartSnap.t -> HartSnap.t -> list Violation.t) : list Violation.t :=
  let post := DMPredictor.snapshot p in
  concat (map (fun i =>
    match _hart prev i, _hart (Some post) i with
    | Some was, Some now =>
        if HartSnap.nonexistent was || HartSnap.unavail was then [] else f i was now
    | _, _ => []
    end) (DMPredictor.selected_indices p)).

(** invariants.py:381-411 (_inv_resumereq_ignored_when_haltreq) *)
Definition _inv_resumereq_ignored_when_haltreq (prev : option Snapshot.t)
    (fields : list (string * Z)) (p : DMPredictor.t) : list Violation.t :=
  if negb (truthy (dict_get fields "haltreq" 0) && truthy (dict_get fields "resumereq" 0)) then []
  else if negb (truthy (dict_get fields "dmactive" 0)) || _is_reset_write fields p then []
  else for_selected_pairs prev p (fun i was now =>
    if HartSnap.halted was && negb (HartSnap.halted now) then
      [Violation.mk "INV-RESUMEREQ-IGNORED-WHEN-HALTREQ"
         "halted hart resumed on a write with both haltreq=1 and resumereq=1"
         ["TC-RC-005"] "#3.14.2 resumereq"
         (run_state (HartSnap.halted now) (HartSnap.running now)) (run_state true false)
         (Some i) false]
    else []).

(** invariants.py:414-459 (_inv_halted_ignores_haltreq) *)
Definition _inv_halted_ignores_haltreq (prev : option Snapshot.t)
    (fields : list (string * Z)) (p : DMPredictor.t) : list Violation.t :=
  if negb (truthy (dict_get fields "haltreq" 0)) || negb (truthy (dict_get fields "dmactive" 0))
  then []
  else if _is_reset_write fields p then []
  else for_selected_pairs prev p (fun i was now =>
    if negb (HartSnap.halted was) then []
    else
      (if negb (HartSnap.halted now) || HartSnap.running now then
         [Violation.mk "INV-HALTED-IGNORES-HALTREQ"
            "already-halted hart changed run state on a haltreq=1 write"
            ["TC-RC-002"] "#3.5 Run Control"
            (run_state (HartSnap.halted now) (HartSnap.running now)) (run_state true false)
            (Some i) false]
       else [])
      ++
      (if negb (Bool.eqb (HartSnap.resume_ack now) (HartSnap.resume_ack was)) then
         [Violation.mk "INV-HALTED-IGNORES-HALTREQ"
            "already-halted hart's resume ack changed on a haltreq=1 write"
            ["TC-RC-002"] "#3.5 Run Control"
            (PBool (HartSnap.resume_ack now)) (PBool (HartSnap.resume_ack was)) (Some i) false]
       else [])).

(** invariants.py:462-554 (_inv_resumereq) *)
Definition _inv_resumereq (prev : option Snapshot.t)
    (fields : list (string * Z)) (p : DMPredictor.t) : list Violation.t :=
  if negb (truthy (dict_get fields "resumereq" 0)) || negb (truthy (dict_get fields "dmactive" 0))
  then []
  else if truthy (dict_get fields "haltreq" 0) then []
  else if _is_reset_write fields p then []
  else for_selected_pairs prev p (fun i was now =>
    if HartSnap.halted was then
      if HartSnap.halted now || negb (HartSnap.running now) then
        [Violation.mk "INV-RESUMEREQ-RESUMES-HALTED"
           "selected halted hart did not resume on resumereq=1"
           ["TC-RC-003"] "#3.5 Run Control"
           (run_state (HartSnap.halted now) (HartSnap.running now)) (run_state false true)
           (Some i) false]
      else if negb (HartSnap.resume_ack now) then
        [Violation.mk "INV-RESUMEREQ-RESUMES-HALTED"
           "hart resumed but resume ack was not set"
           ["TC-RC-003"] "#3.5 Run Control" (PBool false) (PBool true) (Some i) false]
      else []
    else if HartSnap.running was then
      (if HartSnap.halted now || negb (HartSnap.running now) then
         [Violation.mk "INV-RUNNING-IGNORES-RESUMEREQ"
            "running hart changed run state on resumereq=1"
            ["TC-RC-004"] "#3.5 Run Control"
            (run_state (HartSnap.halted now) (HartSnap.running now)) (run_state false true)
            (Some i) false]
       else [])
      ++
      (if HartSnap.resume_ack now then
         [Violation.mk "INV-RESUMEREQ-CLEARS-ACK"
            ("resume ack still set on a running hart after resumereq=1; "
             +:+ "#3.5 clears ack for every selected hart and only halted "
             +:+ "harts re-set it")
            ["TC-RC-004"] "#3.5 Run Control" (PBool true) (PBool false) (Some i) false]
       else [])
    else []).

(** invariants.py:557-625 (_inv_havereset_sticky) *)
Definition _inv_havereset_sticky (prev : option Snapshot.t) (op : string) (addr : Z)
    (fields : option (list (string * Z))) (p : DMPredictor.t) : list Violation.t :=
  let post := DMPredictor.snapshot p in
  let write_fields :=
    if String.eqb op "write" && (addr =? Register.address DMCONTROL) then fields else None in
  let flag n := match write_fields with
                | Some f => truthy (dict_get f n 0)
                | None => false
                end in
  if match write_fields with Some _ => negb (flag "dmactive") | None => false end then []
  else
    let acked := if flag "ackhavereset" then DMPredictor.selected_indices p else [] in
    each (Snapshot.harts post) (fun i now =>
      match _hart prev i with
      | None => []
      | Some was =>
          if HartSnap.havereset was && negb (HartSnap.havereset now)
             && negb (existsb (Z.eqb i) acked)
          then
            [Violation.mk "INV-HAVERESET-STICKY"
               "havereset cleared without an ackhavereset naming this hart"
               ["TC-RST-003"; "TC-RST-004"] "#3.2 Reset / #3.14.2 ackhavereset"
               (PBool false) (PBool true) (Some i) false]
          else []
      end)
    ++
    concat (map (fun i =>
      match _hart (Some post) i with
      | Some now =>
          if HartSnap.havereset now then
            [Violation.mk "INV-ACKHAVERESET-CLEARS"
               "ackhavereset=1 did not clear havereset for a selected hart"
               ["TC-RST-004"] "#3.14.2 ackhavereset" (PBool true) (PBool false) (Some i) false]
          else []
      | None => []
      end) acked).

(** invariants.py:650-707 (_inv_reset_release, one hart) *)
Definition reset_release_of (i : Z) (was now : HartSnap.t) : list Violation.t :=
  if HartSnap.nonexistent now then []
  else if negb (_in_reset was && negb (_in_reset now)) then []
  else
    let wants_halt := HartSnap.reset_haltreq was || HartSnap.reset_haltreq now
                      || HartSnap.halt_request now in
    (if negb (HartSnap.havereset now) then
       [Violation.mk "INV-HAVERESET-SET-ON-RESET"
          "hart came out of reset without havereset being set"
          ["TC-RST-001"; "TC-RST-002"; "TC-RST-003"] "#3.2 Reset"
          (PBool false) (PBool true) (Some i) false]
     else [])
    ++
    (if wants_halt && negb (HartSnap.halted now) then
       [Violation.mk "INV-HALT-ON-RESET"
          ("hart released from reset with halt-on-reset (or haltreq) set "
           +:+ "but did not enter Debug Mode")
          ["TC-HOR-002"; "TC-HOR-004"] "#3.5 Run Control / #3.2 Reset"
          (run_state (HartSnap.halted now) (HartSnap.running now)) (run_state true false)
          (Some i) false]
     else [])
    ++
    (if negb wants_halt && HartSnap.halted now then
       [Violation.mk "INV-NO-HALT-WITHOUT-REQUEST"
          "hart halted out of reset with no halt-on-reset or halt request set"
          ["TC-HOR-003"] "#3.5 Run Control / #3.2 Reset"
          (PDict [("halted", PBool true)]) (PDict [("halted", PBool false)]) (Some i) false]
     else []).

(** invariants.py:628-707 (_inv_reset_release) *)
Definition _inv_reset_release (prev : option Snapshot.t)
    (fields : list (string * Z)) (p : DMPredictor.t) : list Violation.t :=
  if negb (truthy (dict_get fields "dmactive" 0)) then []
  else each (Snapshot.harts (DMPredictor.snapshot p)) (fun i now =>
    match _hart prev i with
    | None => []
    | Some was => reset_release_of i was now
    end).

(** invariants.py:710-747 (_inv_resethaltreq_per_hart) *)
Definition _inv_resethaltreq_per_hart (prev : option Snapshot.t)
    (fields : list (string * Z)) (p : DMPredictor.t) : list Violation.t :=
  if negb (truthy (dict_get fields "dmactive" 0)) then []
  else if negb (truthy (dict_get fields "setresethaltreq" 0)
                || truthy (dict_get fields "clrresethaltreq" 0)) then []
  else each (Snapshot.harts (DMPredictor.snapshot p)) (fun i now =>
    match _hart prev i with
    | None => []
    | Some was =>
        if existsb (Z.eqb i) (DMPredictor.selected_indices p) then []
        else if negb (Bool.eqb (HartSnap.reset_haltreq now) (HartSnap.reset_haltreq was)) then
          [Violation.mk "INV-RESETHALTREQ-PER-HART"
             "set/clrresethaltreq changed the halt-on-reset bit of an unselected hart"
             ["TC-HOR-004"] "#3.5 Run Control / #3.14.2 setresethaltreq"
             (PBool (HartSnap.reset_haltreq now)) (PBool (HartSnap.reset_haltreq was))
             (Some i) false]
        else []
    end).

(** [for x in l: ...] whose body may raise, collecting what it appends. *)
Fixpoint each_ok {A B} (f : A -> result (list B)) (l : list A) : result (list B) :=
  match l with
  | [] => Ok []
  | x :: l' => try a <- f x ;; try b <- each_ok f l' ;; Ok (a ++ b)
  end.

(** invariants.py:750-798 (_inv_dm_reset_state) *)
Definition _inv_dm_reset_state (fields : list (string * Z)) (p : DMPredictor.t)
    : result (list Violation.t) :=
  if truthy (dict_get fields "dmactive" 0) then Ok []
  else
    try regs <- each_ok (fun fld =>
      match Field.reset fld with
      | None => Ok []
      | Some reset =>
          if String.eqb (Field.name fld) "dmactive" || Field.reads_zero fld then Ok []
          else
            try word <- DMPredictor.expect p (Register.address DMCONTROL) ;;
            let actual := Field.extract fld word in
            Ok (if negb (actual =? reset) then
                  [Violation.mk "INV-DM-RESET-STATE"
                     ("dmcontrol." +:+ Field.name fld +:+ " not at its reset value after dmactive=0")
                     ["TC-RST-005"; "TC-HOR-003"] ("#3.14.2 dmactive / " +:+ Field.spec fld)
                     (PInt actual) (PInt reset) None false]
                else [])
      end) (Register.fields DMCONTROL) ;;
    let bits := each (Snapshot.harts (DMPredictor.snapshot p)) (fun i h =>
      concat (map (fun '(bit, value) =>
        if value : bool then
          [Violation.mk "INV-DM-RESET-STATE"
             ("per-hart " +:+ bit +:+ " not cleared by DM reset (dmactive=0)")
             ["TC-RST-005"; "TC-HOR-003"] "#3.5 Run Control / #3.14.2 dmactive"
             (PBool true) (PBool false) (Some i) false]
        else [])
        [("halt_request", HartSnap.halt_request h);
         ("reset_haltreq", HartSnap.reset_haltreq h)])) in
    Ok (regs ++ bits).

(** invariants.py:804-869 (check_all) *)
Definition check_all (prev_state : option Snapshot.t) (op : string) (addr : Z)
    (data readback : option Z) (p : DMPredictor.t) : result (list Violation.t) :=
  let legality := _inv_dmi_access_during_ndmreset addr p in
  let fields :=
    match data with
    | Some d => if String.eqb op "write" && (addr =? Register.address DMCONTROL)
                then Some (Register.decode DMCONTROL d) else None
    | None => None
    end in
  let mutex := _inv_halted_running_mutex p in
  try status <-
    match readback with
    | Some word =>
        if String.eqb op "read" && (addr =? Register.address DMSTATUS)
        then Ok (_check_dmstatus_word word p "dmstatus read-back")
        else rmap (fun w => _check_dmstatus_word w p "predicted")
                  (DMPredictor.expect p (Register.address DMSTATUS))
    | None => rmap (fun w => _check_dmstatus_word w p "predicted")
                   (DMPredictor.expect p (Register.address DMSTATUS))
    end ;;
  let reads_zero :=
    match readback with
    | Some word => if String.eqb op "read" && (addr =? Register.address DMCONTROL)
                   then _inv_dmcontrol_reads_zero word else []
    | None => []
    end in
  let sticky := _inv_havereset_sticky prev_state op addr fields p in
  match fields with
  | None => Ok (legality ++ mutex ++ status ++ reads_zero ++ sticky)
  | Some f =>
      try dm_reset <- _inv_dm_reset_state f p ;;
      Ok (legality ++ mutex ++ status ++ reads_zero ++ sticky
          ++ _inv_mutex_bits f ++ dm_reset
          ++ _inv_resumereq_ignored_when_haltreq prev_state f p
          ++ _inv_halted_ignores_haltreq prev_state f p
          ++ _inv_resumereq prev_state f p
          ++ _inv_reset_release prev_state f p
          ++ _inv_resethaltreq_per_hart prev_state f p)
  end.
