(* ===== verification/InvariantsSound.v ===== *)
(** What the invariant checker reports ([model/invariants.py]) when it is driven
    by the golden-reference model itself ([model/predictor.py]). *)

From S2P Require Import Prelude Registers Predictor RunControl Reachable ReadBack Invariants.
Import DMPredictor.

Local Open Scope string_scope.
Local Open Scope list_scope.
Local Open Scope Z_scope.

(** ** Collecting loops *)

Lemma each_nil {A B} (l : list A) (f : Z -> A -> list B) :
  (forall i x, l !! i = Some x -> f (Z.of_nat i) x = []) -> each l f = [].
Proof.
  unfold each. intros Hf. assert (forall (g : nat -> A -> list B),
    (forall i x, l !! i = Some x -> g i x = []) -> concat (imap g l) = []) as H.
  { clear Hf. induction l as [|x l IH]; intros g Hg; [done|]. rewrite imap_cons. cbn.
    rewrite (Hg 0%nat x eq_refl), IH; [done|]. intros i y Hy. exact (Hg (S i) y Hy). }
  apply H. intros i x Hx. by apply Hf.
Qed.

Lemma concat_map_nil {A B} (f : A -> list B) l :
  (forall x, x ∈ l -> f x = []) -> concat (map f l) = [].
Proof.
  induction l as [|x l IH]; intros Hf; [done|]. cbn. rewrite Hf by by left.
  apply IH. intros y Hy. apply Hf. by right.
Qed.

Lemma each_ok_total {A B} (f : A -> result (list B)) l :
  (forall x, x ∈ l -> exists vs, f x = Ok vs) -> exists vs, each_ok f l = Ok vs.
Proof.
  induction l as [|x l IH]; intros Hf; [by eexists|]. cbn.
  destruct (Hf x) as [vs ->]; [by left|]. cbn.
  destruct IH as [us ->]; [intros y Hy; apply Hf; by right|]. by eexists.
Qed.

Lemma each_ok_nil {A B} (f : A -> result (list B)) l :
  (forall x, x ∈ l -> f x = Ok []) -> each_ok f l = Ok [].
Proof.
  induction l as [|x l IH]; intros Hf; [done|]. cbn. rewrite Hf by by left. cbn.
  rewrite IH; [done|]. intros y Hy. apply Hf. by right.
Qed.

(** ** The checker never raises *)

Lemma expect_dmstatus_ok p :
  exists w, expect p (Register.address DMSTATUS) = Ok w /\ _expect_dmstatus p = Ok w.
Proof.
  destruct (expect_dmstatus_spec p) as (w & Hw & _). exists w. split; [|done].
  unfold expect. change (has_model p (Register.address DMSTATUS)) with true. exact Hw.
Qed.

Lemma expect_dmcontrol_ok p :
  0 <= hartsel p < 2 ^ 20 ->
  exists w, expect p (Register.address DMCONTROL) = Ok w /\ _expect_dmcontrol p = Ok w.
Proof.
  intros Hs. destruct (expect_dmcontrol_spec p Hs) as (w & Hw & _). exists w. split; [|done].
  unfold expect. change (has_model p (Register.address DMCONTROL)) with true. exact Hw.
Qed.

Lemma dm_reset_state_ok fields p :
  0 <= hartsel p < 2 ^ 20 -> exists vs, _inv_dm_reset_state fields p = Ok vs.
Proof.
  intros Hs. unfold _inv_dm_reset_state. destruct (truthy _); [by eexists|].
  destruct (expect_dmcontrol_ok p Hs) as (w & Hw & _).
  match goal with |- context [each_ok ?f ?l] => destruct (each_ok_total f l) as [vs ->] end;
    [|by eexists].
  intros fld _. rewrite Hw. cbn [rbind]. repeat case_match; by eexists.
Qed.

Lemma check_all_total prev op addr data readback p :
  wf p -> exists vs, check_all prev op addr data readback p = Ok vs.
Proof.
  intros [_ _ Hc]. unfold check_all. destruct (expect_dmstatus_ok p) as (w & -> & _).
  set (fields := match data with Some _ => _ | None => None end).
  match goal with |- exists vs, rbind ?m _ = _ =>
    assert (exists st, m = Ok st) as [st ->] by (repeat case_match; by eexists) end.
  cbn [rbind]. destruct fields as [f|]; [|by eexists].
  destruct (dm_reset_state_ok f p) as [vs ->]; [apply Hc|]. by eexists.
Qed.


(** ** Stimulus legality *)

Lemma decode_dmcontrol_has n f v :
  Register.field DMCONTROL n = Ok f ->
  dict_get (Register.decode DMCONTROL v) n 0 = Field.extract f v.
Proof.
  intros [Hin <-]%field_found. unfold dict_get. by rewrite getitem_decode.
Qed.

(** The number of mutually exclusive action bits a dmcontrol word sets. *)
Definition action_bits (v : Z) : nat :=
  length (List.filter (Z.testbit v) [30; 29; 28; 3; 2]).

(** The mutual-exclusion rule of dmcontrol fires, once and as a
    stimulus-legality report naming the offending bits, exactly on words that
    set two or more of resumereq, hartreset, ackhavereset, setresethaltreq and
    clrresethaltreq. *)
Theorem mutex_rule_exact v :
  if Nat.leb (action_bits v) 1 then _inv_mutex_bits (Register.decode DMCONTROL v) = []
  else
    exists viol, _inv_mutex_bits (Register.decode DMCONTROL v) = [viol] /\
      Violation.rule viol = "INV-STIM-DMCONTROL-MUTEX" /\
      Violation.stimulus_legality viol = true /\
      exists names, Violation.observed viol = PList names /\ length names = action_bits v.
Proof.
  unfold _inv_mutex_bits, action_bits. cbn [DMCONTROL_MUTEX_BITS List.filter]. dmcontrol_flags.
  destruct (Z.testbit v 30), (Z.testbit v 29), (Z.testbit v 28), (Z.testbit v 3), (Z.testbit v 2);
    cbn [length Nat.leb]; first [reflexivity |
      eexists; (split; [reflexivity|]); repeat split; by eexists].
Qed.

(** ** Reports about single words *)

(** The value dmstatus reports for a field, when the word is the model's own. *)
Lemma dmstatus_word p w :
  0 <= hartsel p -> _expect_dmstatus p = Ok w ->
  Register.decode DMSTATUS w = dmstatus_of p (harts p !! Z.to_nat (hartsel p)).
Proof.
  intros Hs Hw. destruct (dmstatus_decode p Hs) as (w' & Hw' & _ & Hd). congruence.
Qed.

Lemma dmstatus_word_silent p w source :
  0 <= hartsel p -> version p mod 16 <> 0 -> _expect_dmstatus p = Ok w ->
  _check_dmstatus_word w p source = [].
Proof.
  intros Hs Hv Hw. unfold _check_dmstatus_word. rewrite (dmstatus_word p w Hs Hw).
  unfold dmstatus_of. cbn -[to_int Z.leb Z.modulo].
  set (o := harts p !! Z.to_nat (hartsel p)). clearbody o.
  unfold DMSTATUS_VERSION_NONE. cbn -[to_int Z.leb Z.modulo]. unfold dict_get.
  cbn -[to_int Z.leb Z.modulo Z.eqb].
  rewrite !truthy_to_int, !andb_negb_r. cbn [app].
  apply Z.eqb_neq in Hv. rewrite Hv.
  destruct (DMSTATUS_VERSION_1_0 <=? version p), (ndmreset p), (dmactive p); done.
Qed.

Lemma mutex_silent p : wf p -> _inv_halted_running_mutex p = [].
Proof.
  intros [_ _ Hc]. apply each_nil. intros i h Hh. cbn in Hh.
  rewrite list_lookup_fmap in Hh. apply fmap_Some in Hh as (g & Hg & ->). cbn.
  pose proof (Forall_lookup_1 _ _ _ _ (wf_harts p Hc) Hg) as Hw. cbn in Hw.
  apply negb_true_iff in Hw. by rewrite Hw.
Qed.

(** The read-zero rule reports exactly the write-only fields of a dmcontrol
    read-back that are not 0. *)
Theorem reads_zero_exact word :
  map Violation.spec (_inv_dmcontrol_reads_zero word) =
  map Field.spec (List.filter (fun f => Field.reads_zero f && negb (Field.extract f word =? 0))
                              (Register.fields DMCONTROL)).
Proof.
  unfold _inv_dmcontrol_reads_zero, Field.reads_zero. generalize (Register.fields DMCONTROL) as l.
  induction l as [|f l IH]; [done|]. cbn [map concat List.filter].
  rewrite map_app, IH. case_bool_decide; cbn [negb andb]; [|done].
  by destruct (negb (Field.extract f word =? 0)).
Qed.

Lemma dmcontrol_word_silent p w :
  0 <= hartsel p < 2 ^ 20 -> _expect_dmcontrol p = Ok w -> _inv_dmcontrol_reads_zero w = [].
Proof.
  intros Hs Hw. destruct (expect_dmcontrol_spec p Hs) as (w' & Hw' & _ & _ & Hext).
  assert (w' = w) as -> by congruence. apply concat_map_nil. intros f Hf.
  case_bool_decide as Hz; cbn [negb]; [|done].
  assert (Field.extract f w = 0) as ->; [|done].
  assert (Field.name f <> "hartsello" /\ Field.name f <> "hartselhi" /\
          dict_get (dmcontrol_values p) (Field.name f) 0 = 0) as (H1 & H2 & H3).
  { cbn [DMCONTROL Register.fields] in Hf.
    repeat (apply elem_of_cons in Hf as [-> | Hf];
      [first [done | exfalso; revert Hz; apply (bool_decide_unpack (not _)); exact I]|]).
    by apply elem_of_nil in Hf. }
  by rewrite Hext, H3.
Qed.

(** ** Reports about dmcontrol writes the model itself has taken *)

Lemma hart_snapshot p i :
  0 <= i -> _hart (Some (snapshot p)) i = snapshot_hart <$> harts p !! Z.to_nat i.
Proof.
  intros Hi. unfold _hart. cbn. rewrite length_map, list_lookup_fmap.
  destruct (Z.leb_spec 0 i); [|lia]. destruct (Z.ltb_spec i (Z.of_nat (length (harts p)))); [done|].
  cbn. by rewrite lookup_ge_None_2 by lia.
Qed.

Lemma snapshot_lookup p i now :
  Snapshot.harts (snapshot p) !! i = Some now ->
  exists h, harts p !! i = Some h /\ now = snapshot_hart h.
Proof. cbn. rewrite list_lookup_fmap. intros (h & Hh & ->)%fmap_Some. eauto. Qed.

Lemma for_selected_pairs_nil prev p f :
  0 <= hartsel p ->
  (forall was now, _hart prev (hartsel p) = Some was ->
     snapshot_hart <$> harts p !! Z.to_nat (hartsel p) = Some now ->
     HartSnap.nonexistent was || HartSnap.unavail was = false ->
     f (hartsel p) was now = []) ->
  for_selected_pairs prev p f = [].
Proof.
  intros Hs Hf. unfold for_selected_pairs, selected_indices. cbn [map concat].
  rewrite hart_snapshot by done. rewrite app_nil_r.
  destruct (_hart prev (hartsel p)) as [was|] eqn:Ew; [|done].
  destruct (snapshot_hart <$> _) as [now|] eqn:En; [|done].
  destruct (_ || _) eqn:Eu; [done|]. by apply Hf.
Qed.

(** The conditions under which the rules hold of the model: harts report one of
    halted and running, single-step is not armed, and the write neither ends a
    reset nor acts on a hart that an earlier hartreset left held. *)
Record calm (p : t) (v : Z) : Prop := {
  calm_settled : Forall settled (harts p);
  calm_step : step_armed p = false;
  calm_ndmreset : ndmreset p = true -> Z.testbit v 1 = true;
  calm_hartreset : _hartreset_level p = true -> Z.testbit v 29 = true;
  calm_held : _hartreset_level p = false ->
              Forall (fun h => HartState.hart_reset h = false) (harts p)
}.

Section write.
Context (p : t) (v : Z) (Hwf : wf p) (Hone : 1 <= num_harts p).
Context (Hcalm : calm p v).

Let q := on_write (Register.address DMCONTROL) v p.
Let fields := Register.decode DMCONTROL v.

Lemma write_lookup i h' :
  Z.testbit v 0 = true -> harts q !! i = Some h' ->
  exists h, harts p !! i = Some h /\
    h' = hart_after p v i (Z.of_nat i =? hartsel_of v) h.
Proof.
  intros Ha Hh'. unfold q in Hh'. rewrite dmcontrol_hart in Hh' by done.
  apply fmap_Some in Hh' as (h & Hh & ->). eauto.
Qed.

Lemma write_hartsel : Z.testbit v 0 = true -> hartsel q = hartsel_of v.
Proof. intros Ha. by pose proof (dmcontrol_frame v p Ha) as (_ & _ & Hs & _). Qed.

Lemma sticky_silent :
  _inv_havereset_sticky (Some (snapshot p)) "write" (Register.address DMCONTROL)
    (Some fields) q = [].
Proof using Hwf.
  unfold _inv_havereset_sticky. change (String.eqb "write" "write" && _) with true. cbn iota.
  unfold fields. dmcontrol_flags. destruct (Z.testbit v 0) eqn:Ha; [|done]. cbn [negb].
  assert (Hs : hartsel q = hartsel_of v) by by apply write_hartsel.
  pose proof (hartsel_of_bounded v) as Hsb.
  assert (selected_indices q = [hartsel_of v]) as -> by by unfold selected_indices; rewrite Hs.
  rewrite each_nil; [cbn [app]|].
  - destruct (Z.testbit v 28) eqn:H28; [|done]. cbn [map concat].
    rewrite hart_snapshot, app_nil_r by lia.
    destruct (harts q !! Z.to_nat (hartsel_of v)) as [h'|] eqn:Hh'; [|done].
    destruct (write_lookup _ _ Ha Hh') as (h & Hh & ->). cbn.
    rewrite Z2Nat.id, Z.eqb_refl by lia. unfold hart_after.
    by rewrite havereset_settle_hart, havereset_run_hart, havereset_acks_hart, H28, andb_false_r.
  - intros i now Hnow. apply snapshot_lookup in Hnow as (h' & Hh' & ->).
    destruct (write_lookup _ _ Ha Hh') as (h & Hh & ->).
    rewrite hart_snapshot, Nat2Z.id, Hh by lia. cbn.
    destruct (HartState.havereset h) eqn:Er; [|done].
    rewrite havereset_hart_after by done.
    destruct (Z.testbit v 28); cbn [existsb]; destruct (Z.of_nat i =? hartsel_of v); done.
Qed.

Lemma release_silent : _inv_reset_release (Some (snapshot p)) fields q = [].
Proof using Hcalm.
  unfold _inv_reset_release. destruct (negb _); [done|]. apply each_nil.
  intros i now Hnow. rewrite hart_snapshot, Nat2Z.id by lia.
  destruct (harts p !! i) as [h|] eqn:Hh; [|done]. cbn.
  pose proof (Forall_lookup_1 _ _ _ _ (calm_settled p v Hcalm) Hh) as Hset.
  unfold reset_release_of, _in_reset. cbn. unfold settled in Hset. rewrite Hset.
  by destruct (HartSnap.nonexistent now), (HartState.halted h).
Qed.

Lemma per_hart_silent : _inv_resethaltreq_per_hart (Some (snapshot p)) fields q = [].
Proof.
  unfold _inv_resethaltreq_per_hart, fields. dmcontrol_flags.
  destruct (Z.testbit v 0) eqn:Ha; [|done]. cbn [negb]. destruct (negb _); [done|].
  apply each_nil. intros i now Hnow. apply snapshot_lookup in Hnow as (h' & Hh' & ->).
  destruct (write_lookup _ _ Ha Hh') as (h & Hh & ->).
  rewrite hart_snapshot, Nat2Z.id, Hh by lia. cbn. rewrite write_hartsel by done.
  destruct (Z.of_nat i =? hartsel_of v); [done|]. cbn [orb].
  assert (HartState.reset_haltreq (hart_after p v i false h) = HartState.reset_haltreq h) as ->.
  { unfold hart_after, settle_hart, ndmreset_hart, _release_from_reset. by repeat case_match. }
  by rewrite Bool.eqb_reflx.
Qed.

(** When the run-control rules apply, the selected hart is under no reset. *)
Lemma reset_write_flags :
  Z.testbit v 0 = true -> _is_reset_write fields q = false ->
  ndmreset p = false /\ Z.testbit v 1 = false /\ _hartreset_level p = false /\
  Z.testbit v 29 = false.
Proof using Hcalm.
  intros Ha. unfold _is_reset_write, fields. dmcontrol_flags.
  destruct (Z.testbit v 1) eqn:H1, (Z.testbit v 29) eqn:H29; cbn [orb];
    try (rewrite ?orb_true_r; done).
  intros _. split_and!; try done; apply not_true_iff_false; intros Hx.
  - apply (calm_ndmreset p v Hcalm) in Hx. congruence.
  - apply (calm_hartreset p v Hcalm) in Hx. congruence.
Qed.

(** What a transition rule sees: the state of the selected hart before and
    after the write's halt and resume requests. *)
Lemma selected_pair was now :
  Z.testbit v 0 = true -> _is_reset_write fields q = false ->
  _hart (Some (snapshot p)) (hartsel q) = Some was ->
  snapshot_hart <$> harts q !! Z.to_nat (hartsel q) = Some now ->
  HartSnap.nonexistent was || HartSnap.unavail was = false ->
  exists g, now = snapshot_hart (run_hart false v g) /\
    HartState.nonexistent g = false /\ HartState.unavail g = false /\
    HartState.halted g = HartSnap.halted was /\
    HartState.running g = negb (HartSnap.halted was) /\
    HartSnap.running was = negb (HartSnap.halted was) /\
    HartState.resume_ack g = HartSnap.resume_ack was.
Proof using Hwf Hone Hcalm.
  intros Ha Hrw. rewrite write_hartsel by done. pose proof (hartsel_of_bounded v) as Hsb.
  rewrite hart_snapshot by lia. set (i := Z.to_nat (hartsel_of v)).
  assert (Hi : hartsel_of v = Z.of_nat i) by lia.
  intros (h & Hh & ->)%fmap_Some Hnow [_ Hun]%orb_false_iff.
  destruct (reset_write_flags Ha Hrw) as (Hn & H1 & Hl & H29).
  destruct Hwf as [_ _ Hc].
  assert (Hset : settled h) by exact (Forall_lookup_1 _ _ _ _ (calm_settled p v Hcalm) Hh).
  assert (Hnr : no_reset p v h).
  { unfold no_reset. rewrite H29. split_and!; try done.
    exact (Forall_lookup_1 _ _ _ _ (calm_held p v Hcalm Hl) Hh). }
  assert (Huse : usable p i h).
  { split; [|done]. apply lookup_lt_Some in Hh. rewrite (wf_len_harts p Hc) in Hh. lia. }
  destruct (selected_hart p v i h Ha Hi Hh Huse Hnr Hset) as (g & _ & Hg & Hgs).
  change (harts q !! i = Some (run_hart (step_armed p) v g)) in Hg. rewrite Hg in Hnow.
  rewrite (calm_step p v Hcalm) in Hnow. exists g. injection Hnow as <-.
  split; [done|]. unfold settled in Hset. cbn. intuition.
Qed.

Lemma hartsel_q : Z.testbit v 0 = true -> 0 <= hartsel q.
Proof. intros Ha. rewrite write_hartsel by done. apply hartsel_of_bounded. Qed.

Lemma ignored_when_haltreq_silent :
  _inv_resumereq_ignored_when_haltreq (Some (snapshot p)) fields q = [].
Proof using Hwf Hone Hcalm.
  unfold _inv_resumereq_ignored_when_haltreq.
  destruct (negb (_ && _)) eqn:E1; [done|]. destruct (_ || _) eqn:E2; [done|].
  revert E1 E2. unfold fields at 1 2 3. dmcontrol_flags. intros E1 [E2 E3]%orb_false_iff. zhyps.
  apply for_selected_pairs_nil; [by apply hartsel_q|]. intros was now Hw Hnow Hu.
  destruct (selected_pair was now) as (g & -> & G1 & G2 & G3 & G4 & G5 & G6); [done..|].
  unfold run_hart, halt_one, HartState.unavail in *. rewrite H. cbn. rewrite G1, G2. cbn.
  rewrite G3, G4. destruct (HartSnap.halted was); cbn; by rewrite ?G3.
Qed.

Lemma ignores_haltreq_silent :
  _inv_halted_ignores_haltreq (Some (snapshot p)) fields q = [].
Proof using Hwf Hone Hcalm.
  unfold _inv_halted_ignores_haltreq.
  destruct (negb _ || _) eqn:E1; [done|]. destruct (_is_reset_write _ _) eqn:E2; [done|].
  revert E1. unfold fields. dmcontrol_flags. intros [E1 E3]%orb_false_iff. zhyps.
  apply for_selected_pairs_nil; [by apply hartsel_q|]. intros was now Hw Hnow Hu.
  destruct (selected_pair was now) as (g & -> & G1 & G2 & G3 & G4 & G5 & G6); [done..|].
  unfold run_hart, halt_one, HartState.unavail in *. rewrite E1. cbn. rewrite G1, G2. cbn.
  rewrite G3, G4. destruct (HartSnap.halted was); cbn; [|done]. by rewrite G3, G4, G6, Bool.eqb_reflx.
Qed.

Lemma resumereq_silent : _inv_resumereq (Some (snapshot p)) fields q = [].
Proof using Hwf Hone Hcalm.
  unfold _inv_resumereq.
  destruct (negb _ || _) eqn:E1; [done|].
  destruct (truthy (dict_get fields "haltreq" 0)) eqn:E4; [done|].
  destruct (_is_reset_write _ _) eqn:E2; [done|].
  revert E1 E4. unfold fields. dmcontrol_flags. intros [E1 E3]%orb_false_iff E4. zhyps.
  apply for_selected_pairs_nil; [by apply hartsel_q|]. intros was now Hw Hnow Hu.
  destruct (selected_pair was now) as (g & -> & G1 & G2 & G3 & G4 & G5 & G6); [done..|].
  unfold run_hart, resume_hart, HartState.unavail in *. rewrite E1, E4. cbn. rewrite G1, G2. cbn.
  rewrite G3, G5. destruct (HartSnap.halted was); cbn; by rewrite ?G3, ?G4.
Qed.

Lemma dm_reset_silent : _inv_dm_reset_state fields q = Ok [].
Proof.
  unfold _inv_dm_reset_state, fields. dmcontrol_flags. destruct (Z.testbit v 0) eqn:Ha; [done|].
  assert (Hq : q = reset_dm false p) by by apply dmcontrol_dmactive_0.
  destruct (reset_dm_control false p) as (_ & Hs & Hh & _). rewrite <-Hq in Hs, Hh.
  destruct (expect_dmcontrol_ok q) as (w & Hw & Hw'); [by rewrite Hs|].
  destruct (expect_dmcontrol_spec q) as (w' & Hx & _ & Hhs & Hext); [by rewrite Hs|].
  assert (w' = w) as -> by congruence.
  assert (dmcontrol_values q =
    [("dmactive", 0); ("ndmreset", 0); ("hasel", 0); ("hartreset", 0)]) as Hv by by rewrite Hq.
  rewrite Hv in Hext. rewrite each_ok_nil.
  - cbn [rbind]. rewrite each_nil; [done|]. intros i now Hnow.
    apply snapshot_lookup in Hnow as (h & Hh' & ->). rewrite Hq, reset_dm_harts in Hh'.
    apply list_lookup_fmap_Some in Hh' as (j & -> & _). done.
  - intros f Hf. destruct (Field.reset f) as [r|] eqn:Er; [|done].
    destruct (_ || _) eqn:Ez; [done|]. rewrite Hw. cbn [rbind].
    assert (Field.extract f w = r) as ->; [|by rewrite Z.eqb_refl].
    assert (r = 0) as ->.
    { cbn [DMCONTROL Register.fields] in Hf.
      repeat (apply elem_of_cons in Hf as [-> | Hf]; [cbn in Er; congruence|]).
      by apply elem_of_nil in Hf. }
    destruct (hartsel_halves w 0) as [Hlo Hhi]; [by rewrite Hhs, Hs|].
    clear Hv Hx Hw Hw' Er. cbn [DMCONTROL Register.fields] in Hf.
    repeat (apply elem_of_cons in Hf as [-> | Hf];
      [first [exact Hlo | exact Hhi | rewrite Hext; [reflexivity|in_list|done|done]]|]).
    by apply elem_of_nil in Hf.
Qed.
End write.

(** C10: The checker agrees with the model it is checked against: over every
    dmcontrol write the model takes from a calm state, [check_all] reports
    nothing but a stimulus that breaks dmcontrol's mutual-exclusion rule. *)
Theorem write_reports_only_stimulus p v :
  wf p -> 1 <= num_harts p -> version p mod 16 <> 0 -> calm p v ->
  check_all (Some (snapshot p)) "write" (Register.address DMCONTROL) (Some v) None
    (on_write (Register.address DMCONTROL) v p)
  = Ok (_inv_mutex_bits (Register.decode DMCONTROL v)).
Proof.
  intros Hwf Hone Hver Hcalm. set (q := on_write _ v p).
  assert (Hq : wf q) by by apply wf_on_write.
  assert (Hv : version q = version p).
  { destruct (Z.testbit v 0) eqn:Ha.
    - pose proof (dmcontrol_frame v p Ha) as (_ & _ & _ & _ & _ & _ & He).
      exact (f_equal version He).
    - unfold q. by rewrite dmcontrol_dmactive_0. }
  pose proof Hq as [_ _ Hc]. pose proof (wf_hartsel q Hc) as Hs.
  unfold check_all. change (String.eqb "write" "write" && _) with true. cbn iota.
  destruct (expect_dmstatus_ok q) as (w & -> & Hw). cbn [rmap rbind].
  rewrite (dmstatus_word_silent q w) by (done || congruence || lia).
  rewrite mutex_silent, sticky_silent by done. unfold q. rewrite dm_reset_silent. cbn [rbind].
  rewrite ignored_when_haltreq_silent, ignores_haltreq_silent, resumereq_silent,
    release_silent, per_hart_silent by done.
  rewrite !app_nil_r. unfold _inv_dmi_access_during_ndmreset. by destruct (negb _).
Qed.

Lemma sticky_same prev op addr p q :
  String.eqb op "write" && (addr =? Register.address DMCONTROL) = false ->
  harts q = harts p -> prev = Some (snapshot p) ->
  _inv_havereset_sticky prev op addr None q = [].
Proof.
  intros Hop Hh ->. unfold _inv_havereset_sticky. rewrite Hop. cbn [map concat]. rewrite app_nil_r.
  apply each_nil. intros i now Hnow. apply snapshot_lookup in Hnow as (h & Hl & ->).
  rewrite hart_snapshot, Nat2Z.id by lia. rewrite Hh in Hl. rewrite Hl. cbn.
  by destruct (HartState.havereset h).
Qed.

(** Over every other access the model takes, the checker reports nothing but
    an access that #3.2 does not allow while ndmreset is asserted; reads are
    checked against the model's own prediction. *)
Theorem access_reports_only_stimulus p addr :
  wf p -> version p mod 16 <> 0 ->
  (forall v, addr <> Register.address DMCONTROL ->
     check_all (Some (snapshot p)) "write" addr (Some v) None (on_write addr v p)
     = Ok (_inv_dmi_access_during_ndmreset addr p)) /\
  (forall w, predict p addr = Ok w ->
     check_all (Some (snapshot p)) "read" addr None (Some w) p
     = Ok (_inv_dmi_access_during_ndmreset addr p)).
Proof.
  intros Hwf Hver. pose proof Hwf as [_ _ Hc]. pose proof (wf_hartsel p Hc) as Hs.
  split.
  - intros v Hne. pose proof (control_on_write addr v p Hne) as [=].
    pose proof (wf_on_write addr v p Hwf) as Hq.
    set (q := on_write addr v p) in *. unfold check_all.
    apply Z.eqb_neq in Hne. rewrite Hne, andb_false_r.
    destruct (expect_dmstatus_ok q) as (w & -> & Hw). cbn [rmap rbind].
    rewrite (dmstatus_word_silent q w) by (done || congruence || lia).
    rewrite mutex_silent by done. rewrite (sticky_same _ _ _ p) by by rewrite ?Hne, ?andb_false_r.
    rewrite !app_nil_r. unfold _inv_dmi_access_during_ndmreset. by replace (ndmreset q) with (ndmreset p).
  - intros w Hw. unfold check_all. change (String.eqb "read" "read") with true. cbn [andb].
    rewrite mutex_silent by done. rewrite (sticky_same _ _ _ p) by done.
    destruct (Z.eqb_spec addr (Register.address DMSTATUS)) as [-> |Hst].
    + cbn [rbind]. rewrite dmstatus_word_silent by (done || lia).
      by rewrite !app_nil_r.
    + destruct (expect_dmstatus_ok p) as (w' & -> & Hw'). cbn [rmap rbind].
      rewrite (dmstatus_word_silent p w') by (done || lia).
      destruct (Z.eqb_spec addr (Register.address DMCONTROL)) as [-> |].
      * rewrite (dmcontrol_word_silent p) by done. by rewrite !app_nil_r.
      * by rewrite !app_nil_r.
Qed.

(** ** Where the checker and the model part *)

Lemma is_reset_write_false p v :
  Z.testbit v 0 = true -> Z.testbit v 1 = false -> Z.testbit v 29 = false ->
  _is_reset_write (Register.decode DMCONTROL v) (on_write (Register.address DMCONTROL) v p) = false.
Proof.
  intros Ha H1 H29. unfold _is_reset_write. dmcontrol_flags.
  pose proof (dmcontrol_frame v p Ha) as (_ & -> & _ & _ & -> & _). by rewrite H1, H29.
Qed.

(** A hart that single-steps is reported as broken. Resuming a halted,
    available hart whose dcsr.step was last written 1 - which the model
    predicts to re-halt - always draws the DUT report INV-RESUMEREQ-RESUMES-HALTED. *)
Theorem single_step_reported p v i h :
  wf p -> Z.testbit v 0 = true -> Z.testbit v 29 = false ->
  Z.testbit v 31 = false -> Z.testbit v 30 = true ->
  hartsel_of v = Z.of_nat i -> harts p !! i = Some h -> usable p i h -> no_reset p v h ->
  HartState.nonexistent h = false -> HartState.halted h = true -> step_armed p = true ->
  exists vs viol,
    check_all (Some (snapshot p)) "write" (Register.address DMCONTROL) (Some v) None
      (on_write (Register.address DMCONTROL) v p) = Ok vs /\
    viol ∈ vs /\ Violation.rule viol = "INV-RESUMEREQ-RESUMES-HALTED" /\
    Violation.hart viol = Some (Z.of_nat i) /\ Violation.stimulus_legality viol = false.
Proof.
  intros Hwf Ha H29 H31 H30 Hsel Hh Huse Hnr Hne Hhalt Hstep.
  pose proof Hwf as [_ _ Hc].
  assert (Hset : settled h).
  { pose proof (Forall_lookup_1 _ _ _ _ (wf_harts p Hc) Hh) as Hw. cbn in Hw. unfold hart_wf in Hw.
    rewrite Hhalt in Hw. unfold settled. rewrite Hhalt. by destruct (HartState.running h). }
  destruct (selected_hart p v i h Ha Hsel Hh Huse Hnr Hset) as (g & _ & Hg & G1 & G2 & G3 & G4 & _).
  set (q := on_write _ v p) in *.
  assert (Hq : wf q) by by apply wf_on_write.
  assert (Hs : hartsel q = Z.of_nat i) by (rewrite <-Hsel; by apply (write_hartsel p v)).
  assert (Hrw : _is_reset_write (Register.decode DMCONTROL v) q = false)
    by (apply is_reset_write_false; [done|apply Hnr|done]).
  assert (Hr : exists viol, _inv_resumereq (Some (snapshot p)) (Register.decode DMCONTROL v) q = [viol] /\
    Violation.rule viol = "INV-RESUMEREQ-RESUMES-HALTED" /\
    Violation.hart viol = Some (Z.of_nat i) /\ Violation.stimulus_legality viol = false).
  { unfold _inv_resumereq. dmcontrol_flags. rewrite H30, Ha, H31, Hrw. cbn [negb orb].
    unfold for_selected_pairs, selected_indices. cbn [map concat].
    rewrite Hs, !hart_snapshot, Nat2Z.id, Hh, Hg by lia. cbn [fmap option_fmap option_map].
    cbn [HartSnap.nonexistent HartSnap.unavail snapshot_hart].
    destruct Huse as [_ Hu]. rewrite Hne, Hu. cbn [orb]. cbn [HartSnap.halted snapshot_hart].
    rewrite Hhalt. unfold run_hart, resume_hart, HartState.unavail in *.
    rewrite H31, H30. cbn. rewrite G1, G2. cbn. rewrite G3, Hhalt. cbn. rewrite Hstep. cbn.
    by eexists. }
  destruct Hr as (viol & Hr & Hviol).
  destruct (check_all_total (Some (snapshot p)) "write" (Register.address DMCONTROL) (Some v) None q Hq)
    as [vs Hvs].
  exists vs, viol. split; [done|]. split; [|exact Hviol].
  unfold check_all in Hvs. change (String.eqb "write" "write" && _) with true in Hvs. cbn iota in Hvs.
  rewrite Hr in Hvs.
  destruct (rmap _ _) as [st|]; [cbn [rbind] in Hvs|done].
  destruct (_inv_dm_reset_state _ _) as [dr|]; [cbn [rbind] in Hvs|done].
  apply Ok_inj in Hvs as <-.
  rewrite !elem_of_app, list_elem_of_singleton. tauto.
Qed.

(** A legal sequence: arm halt-on-reset, assert ndmreset, then release it with a
    resume request in the same write. *)
Definition release_script : list event :=
  [Write (Register.address DMCONTROL) 0x00000001; Write (Register.address DMCONTROL) 0x00000009;
   Write (Register.address DMCONTROL) 0x00000003].

(** A write that deasserts ndmreset is not recognised as a reset write, so a
    hart that halts on that reset and is resumed by the same write is reported
    as having kept a resume ack it was never entitled to, though every write of
    the sequence obeys the mutual-exclusion rule. *)
Theorem release_with_resume_reported :
  let p := fold_left step release_script (init Kwargs.default) in
  let v := 0x40000001 in
  rmap (map Violation.rule)
    (check_all (Some (snapshot p)) "write" (Register.address DMCONTROL) (Some v) None
       (on_write (Register.address DMCONTROL) v p))
  = Ok ["INV-RESUMEREQ-CLEARS-ACK"] /\
  Forall (fun e => match e with Write _ w => (action_bits w <= 1)%nat | _ => False end)
         (release_script ++ [Write (Register.address DMCONTROL) v]).
Proof. split; [vm_compute; reflexivity|]. repeat constructor. Qed.

(** No stage of a dmcontrol write makes an available hart unavailable. *)
Lemma hart_after_settles p v i sel h :
  HartState.unavail h = false ->
  exists g, hart_after p v i sel h = settle_hart (Z.testbit v 1) g /\ HartState.unavail g = false.
Proof.
  intros Hu. unfold hart_after. eexists. split; [reflexivity|].
  assert (Hn : forall a b c g, HartState.unavail (ndmreset_hart a b c g) = HartState.unavail g).
  { intros. unfold ndmreset_hart, _release_from_reset, hart_under_ndmreset. by repeat case_match. }
  assert (Hh : forall a b c g, HartState.unavail (hartreset_hart a b c g) = HartState.unavail g).
  { intros. unfold hartreset_hart, _release_from_reset, hart_under_hartreset. by repeat case_match. }
  assert (Hr : forall s g, HartState.unavail (run_hart s v g) = HartState.unavail g).
  { intros. unfold run_hart, halt_one, resume_hart. by repeat case_match. }
  destruct sel; [rewrite Hr; apply acks_hart_unavail; rewrite Hh|]; by rewrite Hn.
Qed.

(** The reset-release rules cannot report on an ndmreset. Once the model has
    taken a write that asserts ndmreset with every hart available, no state
    whatsoever of the harts after the release draws a report from
    [_inv_reset_release], because each hart read running during the reset. *)
Theorem ndmreset_release_unchecked p v fields q :
  Z.testbit v 0 = true -> Z.testbit v 1 = true ->
  Forall (fun h => HartState.unavail h = false) (harts p) ->
  _inv_reset_release (Some (snapshot (on_write (Register.address DMCONTROL) v p))) fields q = [].
Proof.
  intros Ha H1 Hav. unfold _inv_reset_release. destruct (negb _); [done|].
  apply each_nil. intros i now _. rewrite hart_snapshot, Nat2Z.id by lia.
  rewrite dmcontrol_hart by done. destruct (harts p !! i) as [h|] eqn:Hh; [|done]. cbn.
  pose proof (Forall_lookup_1 _ _ _ _ Hav Hh) as Hu. cbn in Hu.
  destruct (hart_after_settles p v i (Z.of_nat i =? hartsel_of v) h Hu) as (g & -> & Hg).
  assert (HartState.running (settle_hart (Z.testbit v 1) g) = true) as Hrun.
  { rewrite H1. unfold HartState.unavail in Hg. cbn. by rewrite orb_comm, Hg. }
  unfold reset_release_of, _in_reset. cbn. rewrite Hrun, andb_false_r. by case_match.
Qed.

(** ** Witnesses *)

Lemma wf_p_halted : wf p_halted.
Proof. apply wf_on_write, wf_init. Qed.

Lemma calm_p_halted v : calm p_halted v.
Proof.
  constructor; vm_compute; try done; repeat constructor.
Qed.

(** The hart's dcsr.step was last written 1, and the hart is halted. *)
Definition p_step : t := p_halted <| shadow_regs := {[ DCSR_REGNO := 4 ]} |>.

Lemma wf_with_shadow p m : wf p -> words m -> wf (p <| shadow_regs := m |>).
Proof.
  intros [Hr [Hs1 Hs2] Hc] Hm.
  constructor; [constructor; apply Hr|by split|constructor; apply Hc].
Qed.

Lemma wf_p_step : wf p_step.
Proof.
  apply wf_with_shadow; [apply wf_p_halted|]. apply map_Forall_singleton.
  vm_compute. split; [discriminate|reflexivity].
Qed.


Lemma write_reports_only_stimulus_witness :
  check_all (Some (snapshot p_halted)) "write" (Register.address DMCONTROL) (Some 0x40000001) None
    (on_write (Register.address DMCONTROL) 0x40000001 p_halted)
  = Ok (_inv_mutex_bits (Register.decode DMCONTROL 0x40000001)).
Proof.
  apply (write_reports_only_stimulus p_halted 0x40000001 wf_p_halted);
    [vm_compute; discriminate|vm_compute; discriminate|apply calm_p_halted].
Defined.

Lemma access_reports_only_stimulus_witness :
  check_all (Some (snapshot p_halted)) "write" ADDR_DATA0 (Some 5) None (on_write ADDR_DATA0 5 p_halted)
  = Ok (_inv_dmi_access_during_ndmreset ADDR_DATA0 p_halted).
Proof.
  apply (access_reports_only_stimulus p_halted ADDR_DATA0 wf_p_halted); vm_compute; discriminate.
Defined.

Lemma single_step_reported_witness :
  exists vs viol,
    check_all (Some (snapshot p_step)) "write" (Register.address DMCONTROL) (Some 0x40000001) None
      (on_write (Register.address DMCONTROL) 0x40000001 p_step) = Ok vs /\
    viol ∈ vs /\ Violation.rule viol = "INV-RESUMEREQ-RESUMES-HALTED" /\
    Violation.hart viol = Some (Z.of_nat 0) /\ Violation.stimulus_legality viol = false.
Proof.
  apply (single_step_reported p_step 0x40000001 0 (hart_at p_step 0) wf_p_step);
    vm_compute; repeat split.
Defined.

Lemma ndmreset_release_unchecked_witness :
  _inv_reset_release (Some (snapshot (on_write (Register.address DMCONTROL) 3 p_up)))
    (Register.decode DMCONTROL 1) p_halted = [].
Proof.
  apply (ndmreset_release_unchecked p_up 3 (Register.decode DMCONTROL 1) p_halted);
    [reflexivity|reflexivity|]. vm_compute. repeat constructor.
Defined.
