(* ===== verification/Transport.v ===== *)
(** The transport boundary: [api/transport.py], [api/observer.py] and
    [model/mock_transport.py].

    [DebugTransport] is the interface every backend implements; a method is a
    function from the transport's state to its new state and a result, so that
    an exception keeps what happened before it.  [ModelAnswered] is what a
    transport promises whose answers are the golden-reference model's, and
    [ModelBacked] what one promises that also holds that model; the mock implements it, and [ObservingTransport] keeps it for any delegate. *)

From S2P Require Import Prelude Registers Predictor.

Local Open Scope string_scope.
Local Open Scope list_scope.
Local Open Scope Z_scope.

(** ** The interface *)

(** transport.py:21-75 (DebugTransport interface) *)
Class DebugTransport (T : Type) := {
  t_connect : T -> T * result unit;
  t_disconnect : T -> T * result unit;
  t_read : Z -> T -> T * result Z;
  t_write : Z -> Z -> T -> T * result unit;
  t_reset : T -> T * result unit;
  t_connected : T -> bool;
  (** [getattr(t, "predictor", None)], which the sequences ask for. *)
  t_predictor : T -> option DMPredictor.t
}.

(** What a client may rely on when the golden-reference model answers, as long
    as the transport is [live]: a modelled read returns the model's prediction
    and does not change the model, a write is absorbed by the model, neither
    raises, and the transport stays live. *)
Class ModelAnswered (T : Type) `{DebugTransport T} := {
  model : T -> DMPredictor.t;
  live : T -> Prop;
  live_read addr t : live t -> live (fst (t_read addr t));
  live_write addr v t : live t -> live (fst (t_write addr v t));
  model_read addr t : live t -> model (fst (t_read addr t)) = model t;
  read_expected addr t v :
    live t -> DMPredictor.expect (model t) addr = Ok v -> snd (t_read addr t) = Ok v;
  model_write addr v t :
    live t -> model (fst (t_write addr v t)) = DMPredictor.on_write addr v (model t);
  write_ok addr v t : live t -> snd (t_write addr v t) = Ok tt
}.

(** The model is also what a client finds when it asks for it. *)
Class ModelBacked (T : Type) `{DebugTransport T} := {
  backed_answered :: ModelAnswered T;
  predictor_model t : live t -> t_predictor t = Some (model t)
}.

(** ** Programs over a transport *)

(** The clock of the host in microseconds: [time.sleep] suspends for at least
    the time it is given. *)
Class Clock := {
  sleep_until : Z -> Z -> Z;
  sleep_law now d : now + d <= sleep_until now d
}.

(** A client of a transport with attributes [S] of its own: its reads and writes,
    its accesses to [self], to the transport's predictor, to
    [time.monotonic] and [time.sleep], each next step
    depending on what the earlier ones returned. *)
Inductive prog (S A : Type) :=
  | Ret (a : A)
  | Throw (e : exn)
  | Rd (addr : Z) (k : Z -> prog S A)
  | Wr (addr v : Z) (k : prog S A)
  | Get (k : S -> prog S A)
  | Put (s : S) (k : prog S A)
  | Predictor (k : option DMPredictor.t -> prog S A)
  | Now (k : Z -> prog S A)
  | Sleep (d : Z) (k : prog S A).
Arguments Ret {S A} a.
Arguments Throw {S A} e.
Arguments Rd {S A} addr k.
Arguments Wr {S A} addr v k.
Arguments Get {S A} k.
Arguments Put {S A} s k.
Arguments Predictor {S A} k.
Arguments Now {S A} k.
Arguments Sleep {S A} d k.

Fixpoint bind {S A B} (c : prog S A) (f : A -> prog S B) : prog S B :=
  match c with
  | Ret a => f a
  | Throw e => Throw e
  | Rd addr k => Rd addr (fun v => bind (k v) f)
  | Wr addr v k => Wr addr v (bind k f)
  | Get k => Get (fun s => bind (k s) f)
  | Put s k => Put s (bind k f)
  | Predictor k => Predictor (fun p => bind (k p) f)
  | Now k => Now (fun n => bind (k n) f)
  | Sleep d k => Sleep d (bind k f)
  end.

Declare Scope prog_scope.
Delimit Scope prog_scope with prog.
Notation "'do' x '<-' m ';;' k" := (bind m (fun x => k))
  (at level 100, x name, m at next level, right associativity) : prog_scope.
Notation "m ';;;' k" := (bind m (fun _ => k))
  (at level 100, right associativity) : prog_scope.

Definition rd {S} (addr : Z) : prog S Z := Rd addr Ret.
Definition wr {S} (addr v : Z) : prog S unit := Wr addr v (Ret tt).
Definition predictor_of {S} : prog S (option DMPredictor.t) := Predictor Ret.
Definition monotonic {S} : prog S Z := Now Ret.
Definition get {S} : prog S S := Get Ret.
Definition put {S} (s : S) : prog S unit := Put s (Ret tt).

(** One completed DMI operation: its name, address, written data and readback. *)
Definition dmi_op : Type := string * Z * option Z * option Z.

(** What a program runs in: the transport, the client's attributes, the clock,
    and the history of the operations completed so far. *)
Record world (T S : Type) := mk_world {
  dev : T;
  self : S;
  clock : Z;
  history : list dmi_op
}.
Arguments mk_world {T S} dev self clock history.
Arguments dev {T S} w.
Arguments self {T S} w.
Arguments clock {T S} w.
Arguments history {T S} w.

#[export] Instance world_settable T S : Settable (world T S) := fun w =>
  mk_world (dev w) (self w) (clock w) (history w).

(** Run a program; an exception ends it, with the effects it has had so far. *)
Fixpoint run {T S A} `{DebugTransport T} `{Clock} (c : prog S A) (w : world T S)
    : world T S * result A :=
  match c with
  | Ret a => (w, Ok a)
  | Throw e => (w, Raise e)
  | Rd addr k =>
      match t_read addr (dev w) with
      | (t, Ok v) =>
          run (k v) (w <| dev := t |> <| history := history w ++ [("read", addr, None, Some v)] |>)
      | (t, Raise e) => (w <| dev := t |>, Raise e)
      end
  | Wr addr v k =>
      match t_write addr v (dev w) with
      | (t, Ok _) =>
          run k (w <| dev := t |> <| history := history w ++ [("write", addr, Some v, None)] |>)
      | (t, Raise e) => (w <| dev := t |>, Raise e)
      end
  | Get k => run (k (self w)) w
  | Put s k => run k (w <| self := s |>)
  | Predictor k => run (k (t_predictor (dev w))) w
  | Now k => run (k (clock w)) w
  | Sleep d k => run k (w <| clock := sleep_until (clock w) d |>)
  end.

Lemma run_bind {T S A B} `{DebugTransport T} `{Clock} (c : prog S A) (f : A -> prog S B)
    (w : world T S) :
  run (bind c f) w =
  match run c w with (w', Ok a) => run (f a) w' | (w', Raise e) => (w', Raise e) end.
Proof.
  revert w. induction c as [a|e|addr k IH|addr v k IH|k IH|s k IH|k IH|k IH|d k IH]; intros w; cbn;
    try done.
  - destruct (t_read addr (dev w)) as [t [v|e]]; [apply IH | done].
  - destruct (t_write addr v (dev w)) as [t [u|e]]; [apply IH | done].
Qed.

(** ** What the golden-reference model predicts of a program *)

(** Run a program against the model alone: a read returns what [expect] predicts,
    a write is what [on_write] does. [None] when it reads a register the model
    has no claim on. *)
Fixpoint predicted {S A} `{Clock} (c : prog S A) (m : DMPredictor.t) (s : S) (now : Z)
    : option (DMPredictor.t * S * Z * result A) :=
  match c with
  | Ret a => Some (m, s, now, Ok a)
  | Throw e => Some (m, s, now, Raise e)
  | Rd addr k =>
      match DMPredictor.expect m addr with
      | Ok v => predicted (k v) m s now
      | Raise _ => None
      end
  | Wr addr v k => predicted k (DMPredictor.on_write addr v m) s now
  | Get k => predicted (k s) m s now
  | Put s k => predicted k m s now
  | Predictor k => predicted (k (Some m)) m s now
  | Now k => predicted (k now) m s now
  | Sleep d k => predicted k m s (sleep_until now d)
  end.

Lemma predicted_bind {S A B} `{Clock} (c : prog S A) (f : A -> prog S B) m s now :
  predicted (bind c f) m s now =
  match predicted c m s now with
  | Some (m, s, now, Ok a) => predicted (f a) m s now
  | Some (m, s, now, Raise e) => Some (m, s, now, Raise e)
  | None => None
  end.
Proof.
  revert m s now. induction c as [a|e|addr k IH|addr v k IH|k IH|s' k IH|k IH|k IH|d k IH];
    intros m s now; cbn; try done.
  destruct (DMPredictor.expect m addr) as [v|e]; [apply IH | done].
Qed.

(** Every write the program can make is allowed by [W], and it asks for the
    transport's model only if [Pr]. *)
Fixpoint uses {S A} (W : Z -> Z -> Prop) (Pr : Prop) (c : prog S A) : Prop :=
  match c with
  | Ret _ | Throw _ => True
  | Rd _ k => forall v, uses W Pr (k v)
  | Wr addr v k => W addr v /\ uses W Pr k
  | Put _ k | Sleep _ k => uses W Pr k
  | Get k => forall s, uses W Pr (k s)
  | Now k => forall n, uses W Pr (k n)
  | Predictor k => Pr /\ forall p, uses W Pr (k p)
  end.

Definition predictor_free {S A} (c : prog S A) : Prop := uses (fun _ _ => True) False c.

(** On a transport the model answers for, a program whose reads the model predicts
    does what the prediction says, as long as it is shown no other model. *)
Lemma run_answered {T} `{ModelAnswered T} `{Clock} {S A} (c : prog S A) (w : world T S) m s now r :
  predictor_free c \/ (forall t, live t -> t_predictor t = Some (model t)) ->
  live (dev w) -> predicted c (model (dev w)) (self w) (clock w) = Some (m, s, now, r) ->
  let (w', r') := run c w in
  live (dev w') /\ model (dev w') = m /\ self w' = s /\ clock w' = now /\ r' = r.
Proof.
  unfold predictor_free. revert w.
  induction c as [a|e|addr k IH|addr v k IH|k IH|s' k IH|k IH|k IH|d k IH];
    intros w Hc Hl Hp; cbn in Hc, Hp |- *; simplify_eq; try done.
  - destruct (DMPredictor.expect (model (dev w)) addr) as [v|e] eqn:He; [|done].
    pose proof (read_expected addr _ v Hl He) as Hr. pose proof (live_read addr _ Hl) as Hl'.
    pose proof (model_read addr _ Hl) as Hm.
    destruct (t_read addr (dev w)) as [t x]. cbn in Hr, Hl', Hm. subst x.
    apply IH; cbn; [destruct Hc; auto | done | by rewrite Hm].
  - pose proof (write_ok addr v _ Hl) as Hr. pose proof (live_write addr v _ Hl) as Hl'.
    pose proof (model_write addr v _ Hl) as Hm.
    destruct (t_write addr v (dev w)) as [t x]. cbn in Hr, Hl', Hm. subst x.
    apply IH; cbn; [destruct Hc as [[_ Hc]|Hc]; auto | done | by rewrite Hm].
  - apply IH; [destruct Hc; auto | done | done].
  - by apply IH.
  - destruct Hc as [[[] _]|Hc]. rewrite Hc by done. apply IH; auto.
  - apply IH; [destruct Hc; auto | done | done].
  - by apply IH.
Qed.

(** On a transport backed by the model, a program whose reads the model predicts
    does what the prediction says. *)
Lemma run_predicted {T} `{ModelBacked T} `{Clock} {S A} (c : prog S A) (w : world T S) m s now r :
  live (dev w) -> predicted c (model (dev w)) (self w) (clock w) = Some (m, s, now, r) ->
  let (w', r') := run c w in
  live (dev w') /\ model (dev w') = m /\ self w' = s /\ clock w' = now /\ r' = r.
Proof. apply run_answered. right. apply predictor_model. Qed.

(** ** The mock *)

(** The DMI addresses of riscv_dm.py. *)
Module DMI.

(** api/riscv_dm.py:32-46 (DMI) *)
Definition DATA0 : Z := 0x04.
Definition DATA1 : Z := 0x05.
Definition DMCONTROL : Z := 0x10.
Definition DMSTATUS : Z := 0x11.
Definition HARTINFO : Z := 0x12.
Definition ABSTRACTCS : Z := 0x16.
Definition COMMAND : Z := 0x17.
Definition PROGBUF0 : Z := 0x20.
Definition PROGBUF15 : Z := 0x2F.
Definition DMCS2 : Z := 0x32.
Definition SBCS : Z := 0x38.
Definition SBADDRESS0 : Z := 0x39.
Definition SBDATA0 : Z := 0x3C.
Definition HALTSUM0 : Z := 0x40.

End DMI.

Module Mock.

(** mock_transport.py:50-53 (ModelBackedMockTransport attributes) *)
Record t := mk {
  predictor : DMPredictor.t;
  regfile : gmap Z Z;
  log : list (string * Z * option Z);
  _connected : bool
}.

#[global] Instance settable : Settable t := fun m =>
  mk (predictor m) (regfile m) (log m) (_connected m).

(** mock_transport.py:42-53 (__init__) *)
Definition init (p : DMPredictor.t) : t := mk p ∅ [] false.

(** mock_transport.py:57-58 (connect) *)
Definition connect (m : t) : t := m <| _connected := true |>.

(** mock_transport.py:60-61 (disconnect) *)
Definition disconnect (m : t) : t := m <| _connected := false |>.

(** mock_transport.py:65-68 (write) *)
Definition write (addr data : Z) (m : t) : t :=
  m <| log := log m ++ [("write", addr, Some data)] |>
    <| regfile := <[addr := data]> (regfile m) |>
    <| predictor := DMPredictor.on_write addr data (predictor m) |>.

(** mock_transport.py:85-102 (_canned) *)
Definition _canned (m : t) (addr : Z) : Z :=
  if addr =? DMI.ABSTRACTCS then 0x01000000
  else if addr =? DMI.DATA0 then default 0xDEADBEEF (regfile m !! DMI.DATA0)
  else if addr =? DMI.SBCS then 0x20040000
  else if addr =? DMI.SBDATA0 then default 0xCAFE0000 (regfile m !! DMI.SBDATA0)
  else default 0 (regfile m !! addr).

(** mock_transport.py:70-81 (read) *)
Definition read (addr : Z) (m : t) : t * result Z :=
  let value :=
    if DMPredictor.has_model (predictor m) addr
    then DMPredictor.expect (predictor m) addr
    else Ok (_canned m addr) in
  match value with
  | Ok v => (m <| log := log m ++ [("read", addr, Some v)] |>, Ok v)
  | Raise e => (m, Raise e)
  end.

(** mock_transport.py:106-108 (ops) *)
Definition ops (m : t) : list (string * Z) := map (fun '(op, addr, _) => (op, addr)) (log m).

(** mock_transport.py:110-112 (writes_to) *)
Definition writes_to (addr : Z) (m : t) : list (option Z) :=
  map (fun '(_, _, data) => data)
    (List.filter (fun '(op, a, _) => String.eqb op "write" && (a =? addr)) (log m)).

End Mock.

#[export] Instance mock_transport : DebugTransport Mock.t := {|
  t_connect := fun m => (Mock.connect m, Ok tt);
  t_disconnect := fun m => (Mock.disconnect m, Ok tt);
  t_read := Mock.read;
  t_write := fun addr v m => (Mock.write addr v m, Ok tt);
  t_reset := fun m => (m, Ok tt);
  t_connected := Mock._connected;
  t_predictor := fun m => Some (Mock.predictor m)
|}.

(** ** The observer *)

Section observer.
Context {T : Type} `{DebugTransport T} {O : Type}.

(** A callback: its effect on the state the observers share, and whether it
    raised.  Python compares callbacks by identity, here a number.
    observer.py:40-41 (Observer) *)
Record Observer := mk_observer {
  identity : nat;
  callback : string -> Z -> option Z -> option Z -> O -> O * result unit
}.

(** observer.py:54-57 (ObservingTransport attributes) *)
Record Observing := mk_observing {
  _delegate : T;
  _observers : list Observer;
  connected_flag : bool;
  seen : O
}.

#[global] Instance observing_settable : Settable Observing := fun t =>
  mk_observing (_delegate t) (_observers t) (connected_flag t) (seen t).

(** observer.py:61-64 (add_observer) *)
Definition add_observer (o : Observer) (t : Observing) : Observing :=
  t <| _observers := _observers t ++ [o] |>.

(** [l.remove(x)]: the first occurrence; [ValueError] when there is none. *)
Fixpoint list_remove (o : Observer) (l : list Observer) : result (list Observer) :=
  match l with
  | [] => Raise (ValueError "list.remove(x): x not in list")
  | x :: l =>
      if Nat.eqb (identity x) (identity o) then Ok l
      else rmap (fun l => x :: l) (list_remove o l)
  end.

(** observer.py:66-67 (remove_observer) *)
Definition remove_observer (o : Observer) (t : Observing) : Observing * result unit :=
  match list_remove o (_observers t) with
  | Ok l => (t <| _observers := l |>, Ok tt)
  | Raise e => (t, Raise e)
  end.

(** [for observer in l: observer(...)]: an exception ends the loop and keeps the
    effects the callbacks have had. *)
Fixpoint notify_each (l : list Observer) (op : string) (addr : Z) (data readback : option Z) (s : O)
    : O * result unit :=
  match l with
  | [] => (s, Ok tt)
  | o :: l =>
      match callback o op addr data readback s with
      | (s, Ok _) => notify_each l op addr data readback s
      | (s, Raise e) => (s, Raise e)
      end
  end.

(** observer.py:73-75 (_notify) *)
Definition _notify (op : string) (addr : Z) (data readback : option Z) (t : Observing)
    : Observing * result unit :=
  let (s, r) := notify_each (_observers t) op addr data readback (seen t) in
  (t <| seen := s |>, r).

(** observer.py:79-81 (connect) *)
Definition observing_connect (t : Observing) : Observing * result unit :=
  match t_connect (_delegate t) with
  | (d, Ok _) => (t <| _delegate := d |> <| connected_flag := true |>, Ok tt)
  | (d, Raise e) => (t <| _delegate := d |>, Raise e)
  end.

(** observer.py:83-85 (disconnect) *)
Definition observing_disconnect (t : Observing) : Observing * result unit :=
  match t_disconnect (_delegate t) with
  | (d, Ok _) => (t <| _delegate := d |> <| connected_flag := false |>, Ok tt)
  | (d, Raise e) => (t <| _delegate := d |>, Raise e)
  end.

(** observer.py:89-92 (read) *)
Definition observing_read (addr : Z) (t : Observing) : Observing * result Z :=
  match t_read addr (_delegate t) with
  | (d, Ok readback) =>
      match _notify "read" addr None (Some readback) (t <| _delegate := d |>) with
      | (t, Ok _) => (t, Ok readback)
      | (t, Raise e) => (t, Raise e)
      end
  | (d, Raise e) => (t <| _delegate := d |>, Raise e)
  end.

(** observer.py:94-96 (write) *)
Definition observing_write (addr data : Z) (t : Observing) : Observing * result unit :=
  match t_write addr data (_delegate t) with
  | (d, Ok _) => _notify "write" addr (Some data) None (t <| _delegate := d |>)
  | (d, Raise e) => (t <| _delegate := d |>, Raise e)
  end.

(** observer.py:98-99 (reset) *)
Definition observing_reset (t : Observing) : Observing * result unit :=
  let (d, r) := t_reset (_delegate t) in (t <| _delegate := d |>, r).

(** observer.py:130-134 (connected) *)
Definition observing_connected (t : Observing) : bool := t_connected (_delegate t).

(** observer.py:103-123 (__getattr__, of the predictor) *)
Definition observing_predictor (t : Observing) : option DMPredictor.t := t_predictor (_delegate t).

#[export] Instance observing_transport : DebugTransport Observing := {|
  t_connect := observing_connect;
  t_disconnect := observing_disconnect;
  t_read := observing_read;
  t_write := observing_write;
  t_reset := observing_reset;
  t_connected := observing_connected;
  t_predictor := observing_predictor
|}.

End observer.
Arguments Observer : clear implicits.
Arguments Observing : clear implicits.

(** ** The mock is backed by the model *)

Lemma mock_read_model addr m : Mock.predictor (fst (Mock.read addr m)) = Mock.predictor m.
Proof. unfold Mock.read. by destruct (if DMPredictor.has_model _ _ then _ else _). Qed.

Lemma mock_read_expected addr m v :
  DMPredictor.expect (Mock.predictor m) addr = Ok v -> snd (Mock.read addr m) = Ok v.
Proof.
  intros He. unfold Mock.read. pose proof He as Hh. unfold DMPredictor.expect in Hh.
  destruct (DMPredictor.has_model (Mock.predictor m) addr); [|done]. by rewrite He.
Qed.

Definition mock_model_answered : ModelAnswered Mock.t.
Proof.
  refine {| model := Mock.predictor; live := fun _ => True |}; try done.
  - intros addr t _. apply mock_read_model.
  - intros addr t v _. apply mock_read_expected.
Defined.

#[export] Instance mock_model_backed : ModelBacked Mock.t := {|
  backed_answered := mock_model_answered;
  predictor_model := fun t _ => eq_refl
|}.

(** ** A wrapped transport behaves as the transport it wraps *)

Section transparency.
Context {T : Type} `{DebugTransport T} {O : Type}.

(** An observer that never raises. *)
Definition quiet (o : Observer O) : Prop :=
  forall op addr data readback s, snd (callback o op addr data readback s) = Ok tt.

(** What one completed operation does to the state the observers share. *)
Definition observe_op (l : list (Observer O)) (s : O) (op : dmi_op) : O :=
  match op with (name, addr, data, readback) => fst (notify_each l name addr data readback s) end.

Lemma notify_quiet l op addr data readback s :
  Forall quiet l ->
  notify_each l op addr data readback s = (observe_op l s (op, addr, data, readback), Ok tt).
Proof.
  intros Hq. revert s. induction Hq as [|o l Ho Hl IH]; intros s; [done|]. cbn.
  pose proof (Ho op addr data readback s) as Hc.
  destruct (callback o op addr data readback s) as [s' r]. cbn in Hc. subst r. apply IH.
Qed.

Definition observing_model_answered `{!ModelAnswered T} : ModelAnswered (Observing T O).
Proof.
  refine {| model := fun t => model (_delegate t);
            live := fun t => live (_delegate t) /\ Forall quiet (_observers t) |};
    cbn; unfold observing_read, observing_write, _notify.
  - intros addr t [Hl Hq]. pose proof (live_read addr _ Hl) as Hl'.
    destruct (t_read addr (_delegate t)) as [d [v|e]]; cbn in *; [|done].
    by rewrite notify_quiet.
  - intros addr v t [Hl Hq]. pose proof (live_write addr v _ Hl) as Hl'.
    destruct (t_write addr v (_delegate t)) as [d [u|e]]; cbn in *; [|done].
    by rewrite notify_quiet.
  - intros addr t [Hl Hq]. pose proof (model_read addr _ Hl) as Hm.
    destruct (t_read addr (_delegate t)) as [d [v|e]]; cbn in *; [|done].
    by rewrite notify_quiet.
  - intros addr t v [Hl Hq] He. pose proof (read_expected addr _ v Hl He) as Hm.
    destruct (t_read addr (_delegate t)) as [d [u|e]]; cbn in *; [|done].
    by rewrite notify_quiet.
  - intros addr v t [Hl Hq]. pose proof (model_write addr v _ Hl) as Hm.
    destruct (t_write addr v (_delegate t)) as [d [u|e]]; cbn in *; [|done].
    by rewrite notify_quiet.
  - intros addr v t [Hl Hq]. pose proof (write_ok addr v _ Hl) as Hm.
    destruct (t_write addr v (_delegate t)) as [d [u|e]]; cbn in *; [|done].
    by rewrite notify_quiet.
Defined.

#[export] Instance observing_model_backed `{!ModelBacked T} : ModelBacked (Observing T O).
Proof.
  refine {| backed_answered := observing_model_answered |}.
  intros t [Hl Hq]. exact (predictor_model (_delegate t) Hl).
Defined.

(** The wrapped run [w] and the bare run [u] are in step, and the observers have
    been shown the whole history, in order, from their state [s0]. *)
Definition in_step {S} (l : list (Observer O)) (s0 : O)
    (w : world (Observing T O) S) (u : world T S) : Prop :=
  _delegate (dev w) = dev u /\ self w = self u /\ clock w = clock u /\ history w = history u /\
  _observers (dev w) = l /\ seen (dev w) = fold_left (observe_op l) (history w) s0.

Lemma observing_read_quiet addr t :
  Forall quiet (_observers t) ->
  observing_read addr t =
  match t_read addr (_delegate t) with
  | (d, Ok v) =>
      (t <| _delegate := d |>
         <| seen := observe_op (_observers t) (seen t) ("read", addr, None, Some v) |>, Ok v)
  | (d, Raise e) => (t <| _delegate := d |>, Raise e)
  end.
Proof.
  intros Hq. unfold observing_read, _notify.
  destruct (t_read addr (_delegate t)) as [d [v|e]]; [|done]. cbn. by rewrite notify_quiet.
Qed.

Lemma observing_write_quiet addr v t :
  Forall quiet (_observers t) ->
  observing_write addr v t =
  match t_write addr v (_delegate t) with
  | (d, Ok _) =>
      (t <| _delegate := d |>
         <| seen := observe_op (_observers t) (seen t) ("write", addr, Some v, None) |>, Ok tt)
  | (d, Raise e) => (t <| _delegate := d |>, Raise e)
  end.
Proof.
  intros Hq. unfold observing_write, _notify.
  destruct (t_write addr v (_delegate t)) as [d [u|e]]; [|done]. cbn. by rewrite notify_quiet.
Qed.

(** C11: Wrapping a transport in an [ObservingTransport] whose observers do not raise
    changes nothing for any program over it: the program returns or raises the
    same thing, the delegate, the client's attributes and the clock end in the
    same state, and the observers have been shown exactly the completed
    operations, each once, in order, reads with their readback. *)
Theorem observing_transparent `{Clock} {S A} (c : prog S A) l s0
    (w : world (Observing T O) S) (u : world T S) :
  Forall quiet l -> in_step l s0 w u ->
  in_step l s0 (fst (run c w)) (fst (run c u)) /\ snd (run c w) = snd (run c u).
Proof.
  intros Hq. revert w u.
  induction c as [a|e|addr k IH|addr v k IH|k IH|s k IH|k IH|k IH|d k IH];
    intros w u Hs; pose proof Hs as (Hd & Hself & Hclock & Hh & Hl & Hseen); cbn [run fst snd];
    try done.
  - cbn [t_read observing_transport]. rewrite observing_read_quiet, Hd by by rewrite Hl.
    destruct (t_read addr (dev u)) as [t [v|e]]; cbn [fst snd].
    + apply IH. repeat split; cbn; try done; [by rewrite Hh|].
      by rewrite fold_left_app, <-Hseen, Hl.
    + by repeat split.
  - cbn [t_write observing_transport]. rewrite observing_write_quiet, Hd by by rewrite Hl.
    destruct (t_write addr v (dev u)) as [t [v'|e]]; cbn [fst snd].
    + apply IH. repeat split; cbn; try done; [by rewrite Hh|].
      by rewrite fold_left_app, <-Hseen, Hl.
    + by repeat split.
  - rewrite Hself. by apply IH.
  - apply IH. by repeat split.
  - cbn [t_predictor observing_transport]. unfold observing_predictor. rewrite Hd. by apply IH.
  - rewrite Hclock. by apply IH.
  - apply IH. repeat split; try done. cbn. by rewrite Hclock.
Qed.

End transparency.
