(* ===== verification/RiscvDm.v ===== *)
(** The Debug Module command library: [api/riscv_dm.py].

    The word encoders and field accessors are pure functions; a method of
    [RISCVDebug] is a program ([Transport.prog]) whose only attribute is the
    tracked [_hartsel].  Times are integers of microseconds; log messages are
    not modelled.  The theorems hold over any transport backed by the
    golden-reference model ([Transport.ModelBacked]). *)

From S2P Require Import Prelude Registers Predictor RunControl Reachable ReadBack Buffers Transport.

Local Open Scope string_scope.
Local Open Scope list_scope.
Local Open Scope Z_scope.
Local Open Scope prog_scope.

(** ** dmcontrol and dmcs2 words *)

Module DmcontrolArgs.

(** api/riscv_dm.py:60-74 (dmcontrol parameters) *)
Record t := mk {
  dmactive : bool;
  hartreset : bool;
  resumereq : bool;
  haltreq : bool;
  ackhavereset : bool;
  hartsel : Z;
  ndmreset : bool;
  setresethaltreq : bool;
  clrresethaltreq : bool;
  ackunavail : bool;
  hasel : bool;
  setkeepalive : bool;
  clrkeepalive : bool
}.

#[global] Instance settable : Settable t := fun a =>
  mk (dmactive a) (hartreset a) (resumereq a) (haltreq a) (ackhavereset a) (hartsel a)
     (ndmreset a) (setresethaltreq a) (clrresethaltreq a) (ackunavail a) (hasel a)
     (setkeepalive a) (clrkeepalive a).

(** api/riscv_dm.py:60-74 (dmcontrol defaults) *)
Definition default : t :=
  mk false false false false false 0 false false false false false false false.

End DmcontrolArgs.

(** api/riscv_dm.py:60-102 (dmcontrol) *)
Definition dmcontrol (a : DmcontrolArgs.t) : Z :=
  fold_left Z.lor
    [Z.shiftl (to_int (DmcontrolArgs.ndmreset a)) 1;
     Z.shiftl (to_int (DmcontrolArgs.clrresethaltreq a)) 2;
     Z.shiftl (to_int (DmcontrolArgs.setresethaltreq a)) 3;
     Z.shiftl (to_int (DmcontrolArgs.clrkeepalive a)) 4;
     Z.shiftl (to_int (DmcontrolArgs.setkeepalive a)) 5;
     Z.shiftl (Z.land (Z.shiftr (DmcontrolArgs.hartsel a) 10) 0x3FF) 6;
     Z.shiftl (Z.land (DmcontrolArgs.hartsel a) 0x3FF) 16;
     Z.shiftl (to_int (DmcontrolArgs.hasel a)) 26;
     Z.shiftl (to_int (DmcontrolArgs.ackunavail a)) 27;
     Z.shiftl (to_int (DmcontrolArgs.ackhavereset a)) 28;
     Z.shiftl (to_int (DmcontrolArgs.hartreset a)) 29;
     Z.shiftl (to_int (DmcontrolArgs.resumereq a)) 30;
     Z.shiftl (to_int (DmcontrolArgs.haltreq a)) 31]
    (to_int (DmcontrolArgs.dmactive a)).

(** api/riscv_dm.py:105-109 (dmcontrol_hartsel) *)
Definition dmcontrol_hartsel (dmcontrol_word : Z) : Z :=
  let hi := Z.land (Z.shiftr dmcontrol_word 6) 0x3FF in
  let lo := Z.land (Z.shiftr dmcontrol_word 16) 0x3FF in
  Z.lor (Z.shiftl hi 10) lo.

(** [bool((word >> n) & 1)] of Python. *)
Definition bit_of (word n : Z) : bool := truthy (Z.land (Z.shiftr word n) 1).

(** api/riscv_dm.py:112-113 (dmcontrol_dmactive) *)
Definition dmcontrol_dmactive (word : Z) : bool := truthy (Z.land word 1).

(** api/riscv_dm.py:116-117 (dmcontrol_ndmreset) *)
Definition dmcontrol_ndmreset (word : Z) : bool := bit_of word 1.

(** api/riscv_dm.py:120-127 (dmcontrol_hartreset) *)
Definition dmcontrol_hartreset (word : Z) : bool := bit_of word 29.

(** api/riscv_dm.py:130-131 (dmcontrol_hasel) *)
Definition dmcontrol_hasel (word : Z) : bool := bit_of word 26.

(** api/riscv_dm.py:139-188 (dmstatus accessors) *)
Definition allhalted (dmstatus : Z) : bool := bit_of dmstatus 9.
Definition anyhalted (dmstatus : Z) : bool := bit_of dmstatus 8.
Definition allrunning (dmstatus : Z) : bool := bit_of dmstatus 11.
Definition anyrunning (dmstatus : Z) : bool := bit_of dmstatus 10.
Definition anyunavail (dmstatus : Z) : bool := bit_of dmstatus 12.
Definition allresumeack (dmstatus : Z) : bool := bit_of dmstatus 17.
Definition anyresumeack (dmstatus : Z) : bool := bit_of dmstatus 16.
Definition allhavereset (dmstatus : Z) : bool := bit_of dmstatus 19.
Definition anyhavereset (dmstatus : Z) : bool := bit_of dmstatus 18.
Definition allnonexistent (dmstatus : Z) : bool := bit_of dmstatus 15.
Definition anynonexistent (dmstatus : Z) : bool := bit_of dmstatus 14.
Definition hasresethaltreq (dmstatus : Z) : bool := bit_of dmstatus 5.
Definition ndmresetpending (dmstatus : Z) : bool := bit_of dmstatus 24.
Definition version (dmstatus : Z) : Z := Z.land dmstatus 0xF.

Module Dmcs2Args.

(** api/riscv_dm.py:204-210 (dmcs2 parameters) *)
Record t := mk {
  hgselect : bool;
  hgwrite : bool;
  group : Z;
  dmexttrigger : Z;
  grouptype : bool
}.

#[global] Instance settable : Settable t := fun a =>
  mk (hgselect a) (hgwrite a) (group a) (dmexttrigger a) (grouptype a).

(** api/riscv_dm.py:204-210 (dmcs2 defaults) *)
Definition default : t := mk false false 0 0 false.

End Dmcs2Args.

(** api/riscv_dm.py:204-217 (dmcs2) *)
Definition dmcs2 (a : Dmcs2Args.t) : Z :=
  fold_left Z.lor
    [Z.shiftl (to_int (Dmcs2Args.hgwrite a)) 1;
     Z.shiftl (Z.land (Dmcs2Args.group a) 0x1F) 2;
     Z.shiftl (Z.land (Dmcs2Args.dmexttrigger a) 0xF) 7;
     Z.shiftl (to_int (Dmcs2Args.grouptype a)) 11]
    (to_int (Dmcs2Args.hgselect a)).

(** api/riscv_dm.py:220-230 (dmcs2 accessors) *)
Definition dmcs2_hgselect (word : Z) : bool := truthy (Z.land word 1).
Definition dmcs2_group (word : Z) : Z := Z.land (Z.shiftr word 2) 0x1F.
Definition dmcs2_dmexttrigger (word : Z) : Z := Z.land (Z.shiftr word 7) 0xF.
Definition dmcs2_grouptype (word : Z) : bool := bit_of word 11.

(** ** The commands *)

Module RISCVDebug.

(** A method: a program whose attribute is [_hartsel]. *)
Definition M (A : Type) : Type := prog Z A.

(** api/riscv_dm.py:247-248 (POLL_INTERVAL, DEFAULT_TIMEOUT) *)
Definition POLL_INTERVAL : Z := 1000.
Definition DEFAULT_TIMEOUT : Z := 2000000.

(** api/riscv_dm.py:250-256 (__init__) *)
Definition _hartsel0 : Z := 0.

(** Decimal digits of a fraction of a second, without trailing zeros. *)
Fixpoint fraction (fuel : nat) (scale us : Z) : string :=
  match fuel with
  | O => ""
  | S fuel =>
      pretty (us / scale) +:+
      (if us mod scale =? 0 then "" else fraction fuel (scale / 10) (us mod scale))
  end.

(** [f"{timeout}"] of a float of at least 100 microseconds. *)
Definition seconds (us : Z) : string :=
  pretty (us / 1000000) +:+ "." +:+ fraction 6 100000 (us mod 1000000).

(** api/riscv_dm.py:740-744 (_poll_until, the message) *)
Definition timeout_message (msg : string) (register val timeout : Z) : string :=
  "Timeout (" +:+ seconds timeout +:+ "s) waiting for " +:+ msg +:+
  " (last read from reg " +:+ py_hex 2 register +:+ " = " +:+ py_hex 8 val +:+ ")".

(** api/riscv_dm.py:736-745 (_poll_until, the loop) *)
Fixpoint poll_loop (fuel : nat) (predicate : Z -> result bool) (register : Z) (msg : string)
    (timeout deadline : Z) : M unit :=
  match fuel with
  | O => Throw OutOfFuel
  | S fuel =>
      do val <- rd register;;
      match predicate val with
      | Raise e => Throw e
      | Ok true => Ret tt
      | Ok false =>
          Now (fun now =>
            if deadline <? now
            then Throw (DebugError (timeout_message msg register val timeout))
            else Sleep POLL_INTERVAL (poll_loop fuel predicate register msg timeout deadline))
      end
  end.

(** Every round but the last sleeps at least [POLL_INTERVAL] before the deadline. *)
Definition poll_fuel (timeout : Z) : nat := S (S (Z.to_nat (timeout / POLL_INTERVAL))).

(** api/riscv_dm.py:734-745 (_poll_until) *)
Definition _poll_until (predicate : Z -> result bool) (register : Z) (msg : string) (timeout : Z)
    : M unit :=
  Now (fun now =>
    poll_loop (poll_fuel timeout) predicate register msg timeout (now + timeout)).

(** api/riscv_dm.py:755-760 (_wait_abstractcs, check) *)
Definition check_abstractcs (v : Z) : result bool :=
  let busy := bit_of v 12 in
  let error := Z.land (Z.shiftr v 8) 0x7 in
  if truthy error then Raise (DebugError ("Abstract command error cmderr=" +:+ pretty error))
  else Ok (negb busy).

(** api/riscv_dm.py:747-761 (_wait_abstractcs) *)
Definition _wait_abstractcs (timeout : Z) : M unit :=
  _poll_until check_abstractcs DMI.ABSTRACTCS "abstractcs.busy=0" timeout.

(** api/riscv_dm.py:765-770 (_wait_sbus, check) *)
Definition check_sbcs (v : Z) : result bool :=
  let sbbusy := bit_of v 21 in
  let sberror := Z.land (Z.shiftr v 12) 0x7 in
  if truthy sberror then Raise (DebugError ("System bus error sberror=" +:+ pretty sberror))
  else Ok (negb sbbusy).

(** api/riscv_dm.py:763-771 (_wait_sbus) *)
Definition _wait_sbus (timeout : Z) : M unit :=
  _poll_until check_sbcs DMI.SBCS "sbcs.sbbusy=0" timeout.

(** Write dmcontrol with dmactive=1, the tracked hartsel, and the given fields. *)
Definition wr_dmcontrol (f : DmcontrolArgs.t -> DmcontrolArgs.t) : M unit :=
  do hartsel <- get;;
  wr DMI.DMCONTROL
     (dmcontrol (f (DmcontrolArgs.default <| DmcontrolArgs.dmactive := true |>
                                          <| DmcontrolArgs.hartsel := hartsel |>))).

(** api/riscv_dm.py:260-273 (activate) *)
Definition activate : M unit :=
  put 0;;;
  wr DMI.DMCONTROL (dmcontrol (DmcontrolArgs.default <| DmcontrolArgs.dmactive := true |>
                                                     <| DmcontrolArgs.ackhavereset := true |>));;;
  do status <- rd DMI.DMSTATUS;;
  if version status =? 0
  then Throw (DebugError "DM version=0 — Debug Module not present or not responding")
  else Ret tt.

(** api/riscv_dm.py:275-295 (deactivate) *)
Definition deactivate : M unit :=
  wr DMI.DMCONTROL (dmcontrol DmcontrolArgs.default);;;
  put 0.

(** api/riscv_dm.py:299-309 (select_hart) *)
Definition select_hart (hartsel : Z) : M unit :=
  put hartsel;;;
  wr DMI.DMCONTROL (dmcontrol (DmcontrolArgs.default <| DmcontrolArgs.dmactive := true |>
                                                     <| DmcontrolArgs.hartsel := hartsel |>)).

(** api/riscv_dm.py:313-332 (halt) *)
Definition halt (timeout : Z) : M unit :=
  wr_dmcontrol (fun a => a <| DmcontrolArgs.haltreq := true |>);;;
  _poll_until (fun s => Ok (allhalted s)) DMI.DMSTATUS "allhalted" timeout;;;
  wr_dmcontrol (fun a => a <| DmcontrolArgs.haltreq := false |>).

(** api/riscv_dm.py:336-354 (resume) *)
Definition resume (timeout : Z) : M unit :=
  wr_dmcontrol (fun a => a <| DmcontrolArgs.resumereq := true |>);;;
  _poll_until (fun s => Ok (allrunning s)) DMI.DMSTATUS "allrunning" timeout;;;
  wr_dmcontrol (fun a => a <| DmcontrolArgs.resumereq := false |>).

(** api/riscv_dm.py:356-375 (resume_no_wait) *)
Definition resume_no_wait : M unit :=
  wr_dmcontrol (fun a => a <| DmcontrolArgs.resumereq := true |>);;;
  wr_dmcontrol (fun a => a <| DmcontrolArgs.resumereq := false |>).

(** api/riscv_dm.py:379-392 (ndmreset) *)
Definition ndmreset (assert_reset : bool) : M unit :=
  wr_dmcontrol (fun a => a <| DmcontrolArgs.ndmreset := assert_reset |>).

(** api/riscv_dm.py:394-407 (hartreset) *)
Definition hartreset (assert_reset : bool) : M unit :=
  wr_dmcontrol (fun a => a <| DmcontrolArgs.hartreset := assert_reset |>).

(** api/riscv_dm.py:409-421 (ackhavereset) *)
Definition ackhavereset : M unit :=
  wr_dmcontrol (fun a => a <| DmcontrolArgs.ackhavereset := true |>).

(** api/riscv_dm.py:423-435 (ackunavail) *)
Definition ackunavail : M unit :=
  wr_dmcontrol (fun a => a <| DmcontrolArgs.ackunavail := true |>).

(** api/riscv_dm.py:439-451 (set_reset_haltreq) *)
Definition set_reset_haltreq : M unit :=
  wr_dmcontrol (fun a => a <| DmcontrolArgs.setresethaltreq := true |>).

(** api/riscv_dm.py:453-464 (clr_reset_haltreq) *)
Definition clr_reset_haltreq : M unit :=
  wr_dmcontrol (fun a => a <| DmcontrolArgs.clrresethaltreq := true |>).

(** The two fields with a tracked default are [None] when the caller leaves them
    out; the others are taken from [fields].
    api/riscv_dm.py:474-486 (write_dmcontrol) *)
Definition write_dmcontrol (dmactive : option bool) (hartsel : option Z)
    (fields : DmcontrolArgs.t) : M Z :=
  do tracked <- get;;
  let word := dmcontrol (fields <| DmcontrolArgs.dmactive := default true dmactive |>
                                <| DmcontrolArgs.hartsel := default tracked hartsel |>) in
  wr DMI.DMCONTROL word;;;
  Ret word.

(** api/riscv_dm.py:488-491 (read_dmstatus) *)
Definition read_dmstatus : M Z := rd DMI.DMSTATUS.

(** api/riscv_dm.py:493-495 (read_dmcontrol) *)
Definition read_dmcontrol : M Z := rd DMI.DMCONTROL.

(** api/riscv_dm.py:497-500 (read_hartinfo) *)
Definition read_hartinfo : M Z := rd DMI.HARTINFO.

(** api/riscv_dm.py:502-505 (read_haltsum0) *)
Definition read_haltsum0 : M Z := rd DMI.HALTSUM0.

(** api/riscv_dm.py:509-525 (read_gpr) *)
Definition read_gpr (regno : Z) : M Z :=
  let cmd := Z.lor (Z.lor (Z.lor (Z.shiftl 0 24) (Z.shiftl 2 20)) (Z.land regno 0xFFFF))
                   (Z.shiftl 1 17) in
  wr DMI.COMMAND cmd;;;
  _wait_abstractcs DEFAULT_TIMEOUT;;;
  rd DMI.DATA0.

(** api/riscv_dm.py:527-533 (write_gpr) *)
Definition write_gpr (regno value : Z) : M unit :=
  wr DMI.DATA0 value;;;
  let cmd := Z.lor (Z.lor (Z.lor (Z.lor (Z.shiftl 0 24) (Z.shiftl 2 20)) (Z.land regno 0xFFFF))
                          (Z.shiftl 1 17)) (Z.shiftl 1 16) in
  wr DMI.COMMAND cmd;;;
  _wait_abstractcs DEFAULT_TIMEOUT.

(** api/riscv_dm.py:535-548 (read_reg64) *)
Definition read_reg64 (regno : Z) : M Z :=
  let cmd := Z.lor (Z.lor (Z.shiftl 3 20) (Z.shiftl 1 17)) (Z.land regno 0xFFFF) in
  wr DMI.COMMAND cmd;;;
  _wait_abstractcs DEFAULT_TIMEOUT;;;
  do hi <- rd DMI.DATA1;;
  do lo <- rd DMI.DATA0;;
  Ret (Z.lor (Z.shiftl hi 32) lo).

(** api/riscv_dm.py:550-556 (write_reg64) *)
Definition write_reg64 (regno value : Z) : M unit :=
  wr DMI.DATA0 (Z.land value 0xFFFFFFFF);;;
  wr DMI.DATA1 (Z.land (Z.shiftr value 32) 0xFFFFFFFF);;;
  let cmd := Z.lor (Z.lor (Z.lor (Z.shiftl 3 20) (Z.shiftl 1 17)) (Z.shiftl 1 16))
                   (Z.land regno 0xFFFF) in
  wr DMI.COMMAND cmd;;;
  _wait_abstractcs DEFAULT_TIMEOUT.

(** api/riscv_dm.py:582-590 (read_abstractcs) *)
Definition read_abstractcs : M Z := rd DMI.ABSTRACTCS.

(** api/riscv_dm.py:558-564 (read_cmderr) *)
Definition read_cmderr : M Z :=
  do v <- read_abstractcs;; Ret (Z.land (Z.shiftr v 8) 0x7).

(** api/riscv_dm.py:566-580 (clear_cmderr) *)
Definition clear_cmderr : M unit := wr DMI.ABSTRACTCS (Z.shiftl 0x7 8).

(** api/riscv_dm.py:594-604 (write_progbuf) *)
Definition write_progbuf (index instruction : Z) : M unit :=
  wr (DMI.PROGBUF0 + index) instruction.

(** api/riscv_dm.py:606-610 (read_progbuf) *)
Definition read_progbuf (index : Z) : M Z := rd (DMI.PROGBUF0 + index).

(** api/riscv_dm.py:612-627 (execute_progbuf) *)
Definition execute_progbuf : M unit :=
  wr DMI.COMMAND (Z.lor (Z.shiftl 0 24) (Z.shiftl 1 18));;;
  _wait_abstractcs DEFAULT_TIMEOUT.

(** api/riscv_dm.py:631-632 (DCSR_REGNO) *)
Definition DCSR_REGNO : Z := 0x07B0.

(** api/riscv_dm.py:634-636 (read_dcsr) *)
Definition read_dcsr : M Z := read_gpr DCSR_REGNO.

(** api/riscv_dm.py:638-640 (write_dcsr) *)
Definition write_dcsr (value : Z) : M unit := write_gpr DCSR_REGNO value.

(** api/riscv_dm.py:642-656 (set_step) *)
Definition set_step (enable : bool) : M unit :=
  do dcsr <- read_dcsr;;
  write_dcsr (if enable then Z.lor dcsr (Z.shiftl 1 2)
              else Z.land dcsr (Z.lnot (Z.shiftl 1 2))).

(** api/riscv_dm.py:658-668 (get_dcsr_cause) *)
Definition get_dcsr_cause : M Z :=
  do v <- read_dcsr;; Ret (Z.land (Z.shiftr v 6) 0x7).

(** api/riscv_dm.py:672-683 (write_dmcs2) *)
Definition write_dmcs2 (fields : Dmcs2Args.t) : M Z :=
  let word := dmcs2 fields in
  wr DMI.DMCS2 word;;; Ret word.

(** api/riscv_dm.py:685-687 (read_dmcs2) *)
Definition read_dmcs2 : M Z := rd DMI.DMCS2.

(** api/riscv_dm.py:691-709 (read_mem32) *)
Definition read_mem32 (addr : Z) : M Z :=
  wr DMI.SBCS (Z.lor (Z.shiftl 1 20) (Z.shiftl 2 17));;;
  wr DMI.SBADDRESS0 addr;;;
  _wait_sbus DEFAULT_TIMEOUT;;;
  rd DMI.SBDATA0.

(** api/riscv_dm.py:711-718 (write_mem32) *)
Definition write_mem32 (addr data : Z) : M unit :=
  wr DMI.SBCS (Z.shiftl 2 17);;;
  wr DMI.SBADDRESS0 addr;;;
  wr DMI.SBDATA0 data;;;
  _wait_sbus DEFAULT_TIMEOUT.

(** api/riscv_dm.py:722-723 (is_halted) *)
Definition is_halted : M bool := do s <- rd DMI.DMSTATUS;; Ret (allhalted s).

(** api/riscv_dm.py:725-726 (is_running) *)
Definition is_running : M bool := do s <- rd DMI.DMSTATUS;; Ret (allrunning s).

(** api/riscv_dm.py:728-730 (get_pc) *)
Definition get_pc : M Z := read_gpr 0x07B1.

End RISCVDebug.

(** ** Words and fields *)

Lemma bit_of_testbit w n : 0 <= n -> bit_of w n = Z.testbit w n.
Proof.
  intros Hn. unfold bit_of. change 1 with (Z.ones 1) at 1. rewrite Z.land_ones by lia.
  rewrite Z.shiftr_div_pow2, <-Z.bit0_mod, Z.div_pow2_bits, Z.add_0_l by lia.
  by rewrite truthy_to_int.
Qed.

Lemma testbit_flag b k i : 0 <= k -> 0 <= i -> Z.testbit (Z.shiftl (to_int b) k) i = b && (i =? k).
Proof.
  intros Hk Hi. rewrite Z.shiftl_spec by done. destruct (Z.eqb_spec i k) as [->|].
  - rewrite Z.sub_diag. by destruct b.
  - rewrite andb_false_r. destruct (Z.ltb_spec i k); [apply Z.testbit_neg_r; lia|].
    apply (bounded_bits 1); [destruct b; simpl; lia | lia].
Qed.

Lemma testbit_flag0 b i : 0 <= i -> Z.testbit (to_int b) i = b && (i =? 0).
Proof. intros Hi. by rewrite <-(testbit_flag b 0 i), Z.shiftl_0_r by lia. Qed.

Lemma testbit_hartsel_half x k i :
  0 <= k -> 0 <= i ->
  Z.testbit (Z.shiftl (Z.land x 0x3FF) k) i = (k <=? i) && (i <? k + 10) && Z.testbit x (i - k).
Proof.
  intros Hk Hi. rewrite Z.shiftl_spec by done. destruct (Z.leb_spec k i).
  - rewrite testbit_land_0x3FF by lia. rewrite andb_comm. by zcases.
  - by apply Z.testbit_neg_r; lia.
Qed.

Lemma testbit_dmcontrol a i :
  0 <= i ->
  Z.testbit (dmcontrol a) i =
  DmcontrolArgs.dmactive a && (i =? 0) || DmcontrolArgs.ndmreset a && (i =? 1) ||
  DmcontrolArgs.clrresethaltreq a && (i =? 2) || DmcontrolArgs.setresethaltreq a && (i =? 3) ||
  DmcontrolArgs.clrkeepalive a && (i =? 4) || DmcontrolArgs.setkeepalive a && (i =? 5) ||
  (6 <=? i) && (i <? 16) && Z.testbit (DmcontrolArgs.hartsel a) (i + 4) ||
  (16 <=? i) && (i <? 26) && Z.testbit (DmcontrolArgs.hartsel a) (i - 16) ||
  DmcontrolArgs.hasel a && (i =? 26) || DmcontrolArgs.ackunavail a && (i =? 27) ||
  DmcontrolArgs.ackhavereset a && (i =? 28) || DmcontrolArgs.hartreset a && (i =? 29) ||
  DmcontrolArgs.resumereq a && (i =? 30) || DmcontrolArgs.haltreq a && (i =? 31).
Proof.
  intros Hi. unfold dmcontrol. cbn [fold_left]. rewrite !Z.lor_spec.
  rewrite !testbit_flag, !testbit_hartsel_half, testbit_flag0 by lia.
  change (6 + 10) with 16. change (16 + 10) with 26.
  destruct (Z.leb_spec 6 i); [|done].
  rewrite Z.shiftr_spec by lia. by replace (i - 6 + 10) with (i + 4) by lia.
Qed.

Lemma dmcontrol_bounded a : 0 <= dmcontrol a < 2 ^ 32.
Proof.
  apply bits_bounded; [done|]. intros i Hi. rewrite testbit_dmcontrol by lia.
  zcases; by rewrite ?andb_false_r.
Qed.

(** One bit of an encoded word, by evaluation at its position. *)
Ltac dmcontrol_bit :=
  rewrite testbit_dmcontrol by lia; cbn -[Z.testbit Z.add Z.sub];
  rewrite ?andb_false_r, ?andb_true_r, ?orb_false_r, ?orb_false_l; reflexivity.

Lemma dmcontrol_dmactive_bit a : Z.testbit (dmcontrol a) 0 = DmcontrolArgs.dmactive a.
Proof. dmcontrol_bit. Qed.
Lemma dmcontrol_ndmreset_bit a : Z.testbit (dmcontrol a) 1 = DmcontrolArgs.ndmreset a.
Proof. dmcontrol_bit. Qed.
Lemma dmcontrol_clrresethaltreq_bit a :
  Z.testbit (dmcontrol a) 2 = DmcontrolArgs.clrresethaltreq a.
Proof. dmcontrol_bit. Qed.
Lemma dmcontrol_setresethaltreq_bit a :
  Z.testbit (dmcontrol a) 3 = DmcontrolArgs.setresethaltreq a.
Proof. dmcontrol_bit. Qed.
Lemma dmcontrol_clrkeepalive_bit a : Z.testbit (dmcontrol a) 4 = DmcontrolArgs.clrkeepalive a.
Proof. dmcontrol_bit. Qed.
Lemma dmcontrol_setkeepalive_bit a : Z.testbit (dmcontrol a) 5 = DmcontrolArgs.setkeepalive a.
Proof. dmcontrol_bit. Qed.
Lemma dmcontrol_hasel_bit a : Z.testbit (dmcontrol a) 26 = DmcontrolArgs.hasel a.
Proof. dmcontrol_bit. Qed.
Lemma dmcontrol_ackunavail_bit a : Z.testbit (dmcontrol a) 27 = DmcontrolArgs.ackunavail a.
Proof. dmcontrol_bit. Qed.
Lemma dmcontrol_ackhavereset_bit a : Z.testbit (dmcontrol a) 28 = DmcontrolArgs.ackhavereset a.
Proof. dmcontrol_bit. Qed.
Lemma dmcontrol_hartreset_bit a : Z.testbit (dmcontrol a) 29 = DmcontrolArgs.hartreset a.
Proof. dmcontrol_bit. Qed.
Lemma dmcontrol_resumereq_bit a : Z.testbit (dmcontrol a) 30 = DmcontrolArgs.resumereq a.
Proof. dmcontrol_bit. Qed.
Lemma dmcontrol_haltreq_bit a : Z.testbit (dmcontrol a) 31 = DmcontrolArgs.haltreq a.
Proof. dmcontrol_bit. Qed.

Lemma hartsel_of_dmcontrol a : hartsel_of (dmcontrol a) = DmcontrolArgs.hartsel a mod 2 ^ 20.
Proof.
  rewrite <-Z.land_ones by lia. apply Z.bits_inj'. intros i Hi.
  rewrite testbit_hartsel_of, Z.land_spec, testbit_ones by lia.
  destruct (Z.ltb_spec i 10); [|destruct (Z.ltb_spec i 20); [|by rewrite andb_false_r]];
    rewrite testbit_dmcontrol by lia; zcases;
    rewrite ?andb_false_r, ?andb_true_r, ?orb_false_r; cbn [orb]; f_equal; lia.
Qed.

Lemma hartsel_accessor w : dmcontrol_hartsel w = hartsel_of w.
Proof. reflexivity. Qed.

Create Rewrite HintDb dmcontrol_bits.
#[export] Hint Rewrite dmcontrol_dmactive_bit dmcontrol_ndmreset_bit dmcontrol_clrresethaltreq_bit
  dmcontrol_setresethaltreq_bit dmcontrol_clrkeepalive_bit dmcontrol_setkeepalive_bit
  dmcontrol_hasel_bit dmcontrol_ackunavail_bit dmcontrol_ackhavereset_bit
  dmcontrol_hartreset_bit dmcontrol_resumereq_bit dmcontrol_haltreq_bit : dmcontrol_bits.
