(* ===== verification/RiscvDmSound.v ===== *)
(** What the command library guarantees over any transport backed by the
    golden-reference model ([api/riscv_dm.py] on [model/predictor.py]): encoders
    and accessors agree with the register tables, polling always ends, halt and
    resume reach the state they wait for, and register and memory accesses read
    back what was written. *)

From S2P Require Import Prelude Registers Predictor RunControl Reachable ReadBack Buffers.
From S2P Require Import Transport RiscvDm.
Import RISCVDebug.

Local Open Scope string_scope.
Local Open Scope list_scope.
Local Open Scope Z_scope.
Local Open Scope prog_scope.

(** ** Encoders and accessors *)

Lemma extract_hartsello a :
  Field.extract hartsello_field (dmcontrol a) = DmcontrolArgs.hartsel a mod 2 ^ 10.
Proof.
  apply Z.bits_inj'. intros i Hi. rewrite testbit_extract by (cbn; lia).
  hartsel_fields. rewrite <-Z.land_ones, Z.land_spec, testbit_ones by lia.
  destruct (Z.ltb_spec i 10); [|by rewrite andb_false_r]. cbn [andb].
  rewrite testbit_dmcontrol by lia. zcases.
  rewrite ?andb_false_r, ?andb_true_r, ?orb_false_r. cbn [orb]. f_equal. lia.
Qed.

Lemma extract_hartselhi a :
  Field.extract hartselhi_field (dmcontrol a) = DmcontrolArgs.hartsel a / 2 ^ 10 mod 2 ^ 10.
Proof.
  apply Z.bits_inj'. intros i Hi. rewrite testbit_extract by (cbn; lia).
  hartsel_fields. rewrite <-Z.land_ones, Z.land_spec, testbit_ones by lia.
  destruct (Z.ltb_spec i 10); [|by rewrite andb_false_r]. cbn [andb].
  rewrite testbit_dmcontrol, Z.div_pow2_bits by lia. zcases.
  rewrite ?andb_false_r, ?andb_true_r, ?orb_false_r. cbn [orb]. f_equal. lia.
Qed.

Lemma extract_flag n l a s r w :
  0 <= l -> Field.extract (Field.mk n l 1 a s r) w = to_int (Z.testbit w l).
Proof. intros Hl. by rewrite extract_bit. Qed.

(** A dmcontrol word, decoded: its one-bit fields are its bits. *)
Lemma decode_dmcontrol w :
  Register.decode DMCONTROL w =
  [("haltreq", to_int (Z.testbit w 31)); ("resumereq", to_int (Z.testbit w 30));
   ("hartreset", to_int (Z.testbit w 29)); ("ackhavereset", to_int (Z.testbit w 28));
   ("ackunavail", to_int (Z.testbit w 27)); ("hasel", to_int (Z.testbit w 26));
   ("hartsello", Field.extract hartsello_field w); ("hartselhi", Field.extract hartselhi_field w);
   ("setkeepalive", to_int (Z.testbit w 5)); ("clrkeepalive", to_int (Z.testbit w 4));
   ("setresethaltreq", to_int (Z.testbit w 3)); ("clrresethaltreq", to_int (Z.testbit w 2));
   ("ndmreset", to_int (Z.testbit w 1)); ("dmactive", to_int (Z.testbit w 0))].
Proof.
  unfold Register.decode. cbn [DMCONTROL Register.fields map Field.name].
  by rewrite !extract_flag by lia.
Qed.

(** [dmcontrol] encodes a 32-bit word that decodes, against the register table
    of the model, to exactly the arguments: every flag in its own bit, the hart
    index split over the two hartsel fields modulo [2^20]. *)
Theorem dmcontrol_encodes a :
  0 <= dmcontrol a < 2 ^ 32 /\
  dmcontrol_hartsel (dmcontrol a) = DmcontrolArgs.hartsel a mod 2 ^ 20 /\
  Register.decode DMCONTROL (dmcontrol a) =
  [("haltreq", to_int (DmcontrolArgs.haltreq a)); ("resumereq", to_int (DmcontrolArgs.resumereq a));
   ("hartreset", to_int (DmcontrolArgs.hartreset a));
   ("ackhavereset", to_int (DmcontrolArgs.ackhavereset a));
   ("ackunavail", to_int (DmcontrolArgs.ackunavail a)); ("hasel", to_int (DmcontrolArgs.hasel a));
   ("hartsello", DmcontrolArgs.hartsel a mod 2 ^ 10);
   ("hartselhi", DmcontrolArgs.hartsel a / 2 ^ 10 mod 2 ^ 10);
   ("setkeepalive", to_int (DmcontrolArgs.setkeepalive a));
   ("clrkeepalive", to_int (DmcontrolArgs.clrkeepalive a));
   ("setresethaltreq", to_int (DmcontrolArgs.setresethaltreq a));
   ("clrresethaltreq", to_int (DmcontrolArgs.clrresethaltreq a));
   ("ndmreset", to_int (DmcontrolArgs.ndmreset a));
   ("dmactive", to_int (DmcontrolArgs.dmactive a))].
Proof.
  split; [apply dmcontrol_bounded|]. split; [by rewrite hartsel_accessor, hartsel_of_dmcontrol|].
  rewrite decode_dmcontrol, extract_hartsello, extract_hartselhi.
  by autorewrite with dmcontrol_bits.
Qed.

(** The dmcontrol and dmstatus accessors read exactly the field of that name
    of the register tables the model is written against. *)
Theorem accessors_read_fields w :
  let dmc n := truthy (dict_get (Register.decode DMCONTROL w) n 0) in
  let dms n := truthy (dict_get (Register.decode DMSTATUS w) n 0) in
  (dmcontrol_dmactive w = dmc "dmactive" /\ dmcontrol_ndmreset w = dmc "ndmreset" /\
   dmcontrol_hartreset w = dmc "hartreset" /\ dmcontrol_hasel w = dmc "hasel") /\
  dmcontrol_hartsel w = hartsel_of w /\
  (allhalted w = dms "allhalted" /\ anyhalted w = dms "anyhalted" /\
   allrunning w = dms "allrunning" /\ anyrunning w = dms "anyrunning" /\
   anyunavail w = dms "anyunavail" /\
   allresumeack w = dms "allresumeack" /\ anyresumeack w = dms "anyresumeack" /\
   allhavereset w = dms "allhavereset" /\ anyhavereset w = dms "anyhavereset" /\
   allnonexistent w = dms "allnonexistent" /\ anynonexistent w = dms "anynonexistent" /\
   hasresethaltreq w = dms "hasresethaltreq" /\ ndmresetpending w = dms "ndmresetpending") /\
  version w = dict_get (Register.decode DMSTATUS w) "version" 0.
Proof. cbn zeta. split_and!; reflexivity. Qed.

(** ** Polling *)

Section polling.
Context {T : Type} `{DebugTransport T} `{Clock}.
Context (predicate : Z -> result bool) (register : Z) (msg : string) (timeout : Z).

(** How a poll that read [vs], all but the last of which the predicate refused,
    ends: the last value is accepted, the predicate or the transport raises, or
    the deadline has passed. *)
Inductive poll_ends (deadline now : Z) : list Z -> result unit -> Prop :=
  | poll_accepts vs v :
      predicate v = Ok true -> poll_ends deadline now (vs ++ [v]) (Ok tt)
  | poll_predicate_raises vs v e :
      predicate v = Raise e -> poll_ends deadline now (vs ++ [v]) (Raise e)
  | poll_times_out vs v :
      predicate v = Ok false -> deadline < now ->
      poll_ends deadline now (vs ++ [v])
        (Raise (DebugError (timeout_message msg register v timeout)))
  | poll_transport_raises vs (t : T) e :
      snd (t_read register t) = Raise e -> poll_ends deadline now vs (Raise e).

Definition read_ops (vs : list Z) : list dmi_op :=
  map (fun v => ("read", register, None, Some v)) vs.

Lemma poll_ends_cons deadline now v vs r :
  poll_ends deadline now vs r -> poll_ends deadline now (v :: vs) r.
Proof.
  intros He. destruct He as [vs v'|vs v' e|vs v'|vs t e]; rewrite ?app_comm_cons;
    by econstructor.
Qed.

Lemma poll_loop_ends fuel deadline (w : world T Z) :
  deadline - clock w < POLL_INTERVAL * (Z.of_nat fuel - 1) -> (1 <= fuel)%nat ->
  let (w', r) := run (poll_loop fuel predicate register msg timeout deadline) w in
  exists vs, history w' = history w ++ read_ops vs /\ (length vs <= fuel)%nat /\
    (forall v, v ∈ removelast vs -> predicate v = Ok false) /\
    self w' = self w /\ poll_ends deadline (clock w') vs r.
Proof.
  unfold POLL_INTERVAL. revert w.
  induction fuel as [|fuel IH]; intros w Hd Hf; [lia|]. cbn [poll_loop].
  rewrite run_bind. cbn [rd run].
  destruct (t_read register (dev w)) as [t [v|e]] eqn:Hr.
  2:{ exists []. cbn. rewrite app_nil_r. split_and!; try done; [lia|set_solver|].
      apply (poll_transport_raises _ _ [] (dev w)). by rewrite Hr. }
  cbn [rd run]. set (w1 := _ <| history := _ |>).
  assert (history w1 = history w ++ read_ops [v]) as Hh by done.
  destruct (predicate v) as [[|]|e] eqn:Hp; cbn [run].
  - exists [v]. split_and!; [done|cbn; lia|set_solver|done|]. by apply (poll_accepts _ _ []).
  - destruct (Z.ltb_spec deadline (clock w1)); cbn [run].
    { exists [v]. split_and!; [done|cbn; lia|set_solver|done|].
      by apply (poll_times_out _ _ []). }
    set (w2 := w1 <| clock := _ |>).
    assert (clock w + 1000 <= clock w2) as Hc by exact (sleep_law (clock w) 1000).
    assert (clock w1 = clock w) by done.
    specialize (IH w2). destruct (run _ w2) as [w' r].
    destruct IH as (vs & Hvs & Hlen & Hrej & Hself & He); [lia|lia|].
    exists (v :: vs). change (history w2) with (history w1) in Hvs. rewrite Hvs, Hh, <-app_assoc.
    split_and!; [done|cbn; lia| |done|by apply poll_ends_cons].
    intros x. destruct vs as [|y vs]; [set_solver|]. cbn [removelast].
    intros [->|Hx]%elem_of_cons; [done|by apply Hrej].
  - exists [v]. split_and!; [done|cbn; lia|set_solver|done|].
    by apply (poll_predicate_raises _ _ []).
Qed.

(** Polling always ends, on any transport: it reads only the polled register,
    at most once per poll interval of its timeout and twice more, every value
    but the last was refused, and it returns exactly when the last value was
    accepted, and raises the timeout error only past the deadline. *)
Theorem poll_terminates (w : world T Z) :
  let (w', r) := run (_poll_until predicate register msg timeout) w in
  exists vs, history w' = history w ++ read_ops vs /\
    Z.of_nat (length vs) <= Z.max 0 (timeout / POLL_INTERVAL) + 2 /\
    (forall v, v ∈ removelast vs -> predicate v = Ok false) /\
    self w' = self w /\ poll_ends (clock w + timeout) (clock w') vs r.
Proof.
  unfold _poll_until. cbn [run].
  pose proof (poll_loop_ends (poll_fuel timeout) (clock w + timeout) w) as Hl.
  destruct (run _ w) as [w' r].
  destruct Hl as (vs & Hh & Hlen & Hrej & Hself & He).
  - unfold poll_fuel. pose proof (Z.mod_pos_bound timeout POLL_INTERVAL eq_refl).
    pose proof (Z.div_mod timeout POLL_INTERVAL). unfold POLL_INTERVAL in *. lia.
  - unfold poll_fuel. lia.
  - exists vs. split_and!; try done. unfold poll_fuel in Hlen. lia.
Qed.

End polling.

Section predicted_polling.
Context `{Clock} (predicate : Z -> result bool) (register : Z) (msg : string) (timeout : Z).
Context (m : DMPredictor.t) (s now v : Z) (He : DMPredictor.expect m register = Ok v).

(** The model does not move between polls, so the first read decides. *)
Lemma predicted_poll_accepts :
  predicate v = Ok true ->
  predicted (_poll_until predicate register msg timeout) m s now = Some (m, s, now, Ok tt).
Proof using He. intros Hp. unfold _poll_until, poll_fuel. cbn. by rewrite He, Hp. Qed.

Lemma predicted_loop_never fuel deadline now' :
  predicate v = Ok false ->
  deadline - now' < POLL_INTERVAL * (Z.of_nat fuel - 1) -> (1 <= fuel)%nat ->
  exists late, deadline < late /\
    predicted (poll_loop fuel predicate register msg timeout deadline) m s now' =
    Some (m, s, late, Raise (DebugError (timeout_message msg register v timeout))).
Proof using He.
  unfold POLL_INTERVAL. intros Hp. revert now'.
  induction fuel as [|fuel IH]; intros now' Hd Hf; [lia|].
  cbn. rewrite He. cbn. rewrite Hp. cbn. destruct (Z.ltb_spec deadline now'); [by exists now'|].
  pose proof (sleep_law now' 1000). unfold POLL_INTERVAL.
  apply IH; lia.
Qed.

Lemma predicted_poll_never :
  predicate v = Ok false ->
  exists late, now + timeout < late /\
    predicted (_poll_until predicate register msg timeout) m s now =
    Some (m, s, late, Raise (DebugError (timeout_message msg register v timeout))).
Proof using He.
  intros Hp. unfold _poll_until. cbn [predicted]. apply predicted_loop_never; [done| |].
  - unfold poll_fuel. pose proof (Z.mod_pos_bound timeout POLL_INTERVAL eq_refl).
    pose proof (Z.div_mod timeout POLL_INTERVAL). unfold POLL_INTERVAL in *. lia.
  - unfold poll_fuel. lia.
Qed.

End predicted_polling.

(** ** Halting and resuming *)

(** Hart [i] exists, is available and settled, and no reset is in progress. *)
Record steady (p : DMPredictor.t) (i : nat) (h : HartState.t) : Prop := {
  steady_hart : DMPredictor.harts p !! i = Some h;
  steady_usable : usable p i h;
  steady_ndmreset : DMPredictor.ndmreset p = false;
  steady_hartreset : DMPredictor._hartreset_level p = false;
  steady_not_reset : HartState.hart_reset h = false;
  steady_settled : settled h
}.

(** The word [a] selects hart [i] with dmactive set and asks for no reset. *)
Definition selects_steadily (a : DmcontrolArgs.t) (i : nat) : Prop :=
  DmcontrolArgs.dmactive a = true /\ DmcontrolArgs.ndmreset a = false /\
  DmcontrolArgs.hartreset a = false /\ DmcontrolArgs.hartsel a mod 2 ^ 20 = Z.of_nat i.

Lemma run_hart_unavail b v h : HartState.unavail (run_hart b v h) = HartState.unavail h.
Proof. unfold run_hart, DMPredictor.halt_one, resume_hart. by repeat case_match. Qed.

Lemma run_hart_steady b v h :
  HartState.nonexistent h = false -> HartState.unavail h = false -> settled h ->
  let g := run_hart b v h in
  settled g /\ HartState.halt_request g = Z.testbit v 31 /\
  HartState.halted g =
    Z.testbit v 31 || (HartState.halted h && (b || negb (Z.testbit v 30))).
Proof.
  unfold run_hart, DMPredictor.halt_one, resume_hart, HartState.unavail, settled. intros Hn Hu Hs.
  destruct (Z.testbit v 31); cbn; rewrite ?Hn, ?Hu, ?Hs; cbn.
  - by destruct (HartState.halted h) eqn:E; cbn; rewrite ?E.
  - destruct (Z.testbit v 30); cbn; rewrite ?Hn, ?Hu, ?Hs; cbn.
    + by destruct (HartState.halted h) eqn:E; cbn; rewrite ?E, ?orb_false_r, ?negb_involutive.
    + by rewrite orb_true_r, andb_true_r.
Qed.

(** One dmcontrol write to a steady hart. *)
Lemma write_steady p i h v :
  steady p i h -> Z.testbit v 0 = true -> Z.testbit v 1 = false -> Z.testbit v 29 = false ->
  hartsel_of v = Z.of_nat i ->
  let q := DMPredictor.on_write DMI.DMCONTROL v p in
  exists g, steady q i g /\ DMPredictor.hartsel q = Z.of_nat i /\
    HartState.halt_request g = Z.testbit v 31 /\
    HartState.halted g =
      Z.testbit v 31 || (HartState.halted h && (step_armed p || negb (Z.testbit v 30))) /\
    (forall j f, j <> i -> DMPredictor.harts p !! j = Some f -> HartState.hart_reset f = false ->
       DMPredictor.harts q !! j =
       Some (f <| HartState.nonexistent := DMPredictor._is_nonexistent p (Z.of_nat j) |>)).
Proof.
  intros [Hh [Hex Hav] Hn Hl Hr Hs] Hact Hndm Hrst Hsel q.
  assert (forall f, HartState.hart_reset f = false -> no_reset p v f) as Hnr
    by (intros f Hf; unfold no_reset; by rewrite Hndm, Hrst).
  pose proof (dmcontrol_frame v p Hact) as D. cbn zeta in D.
  change (Register.address DMCONTROL) with DMI.DMCONTROL in D. fold q in D.
  destruct D as (_ & Dn & Dh & _ & Dl & _ & De). rewrite Hndm in Dn. rewrite Hrst in Dl.
  assert (DMPredictor.num_harts q = DMPredictor.num_harts p) as Dnum
    by exact (f_equal DMPredictor.num_harts De).
  set (h0 := h <| HartState.nonexistent := DMPredictor._is_nonexistent p (Z.of_nat i) |>).
  set (g := acks_hart (DMPredictor.hasresethaltreq p) v h0).
  pose proof (dmcontrol_hart v p) as Dw. change (Register.address DMCONTROL) with DMI.DMCONTROL in Dw.
  fold q in Dw.
  assert (DMPredictor.harts q !! i = Some (run_hart (step_armed p) v g)) as Hq
    by (rewrite Dw, Hh, Hsel, Z.eqb_refl by done; cbn [fmap option_fmap option_map];
        rewrite hart_after_no_reset by auto; reflexivity).
  destruct (acks_hart_keeps (DMPredictor.hasresethaltreq p) v h0)
    as (Gh & Gr & _ & _ & Gx & _ & Gn). fold g in Gh, Gr, Gx, Gn.
  pose proof (acks_hart_unavail (DMPredictor.hasresethaltreq p) v h0 Hav) as Gu.
  fold g in Gu. cbn in Gh, Gr, Gx.
  assert (HartState.nonexistent g = false) as Gn'
    by (rewrite Gn; unfold h0, DMPredictor._is_nonexistent; cbn; apply Z.leb_gt; lia).
  destruct (run_hart_steady (step_armed p) v g Gn' Gu) as (Rs & Rq & Rh);
    [unfold settled in *; congruence|]. rewrite Gh in Rh.
  eexists. split; [split; [exact Hq| |done|done| |done]|].
  - split; [by rewrite Dnum|by rewrite run_hart_unavail].
  - by rewrite reset_run_hart, Gx.
  - split_and!; [congruence|done|done|].
    intros j f Hj Hf Hfr. rewrite Dw, Hf, Hsel by done. cbn [fmap option_fmap option_map].
    assert ((Z.of_nat j =? Z.of_nat i) = false) as -> by (apply Z.eqb_neq; lia).
    rewrite hart_after_no_reset by auto. reflexivity.
Qed.

(** The same, through the encoder. *)
Lemma dmcontrol_steady p i h a :
  steady p i h -> selects_steadily a i ->
  let q := DMPredictor.on_write DMI.DMCONTROL (dmcontrol a) p in
  exists g, steady q i g /\ DMPredictor.hartsel q = Z.of_nat i /\
    HartState.halt_request g = DmcontrolArgs.haltreq a /\
    HartState.halted g =
      DmcontrolArgs.haltreq a ||
      (HartState.halted h && (step_armed p || negb (DmcontrolArgs.resumereq a))) /\
    (forall j f, j <> i -> DMPredictor.harts p !! j = Some f -> HartState.hart_reset f = false ->
       DMPredictor.harts q !! j =
       Some (f <| HartState.nonexistent := DMPredictor._is_nonexistent p (Z.of_nat j) |>)).
Proof.
  intros Hs (Aa & An & Ah & As).
  pose proof (write_steady p i h (dmcontrol a) Hs) as Hw.
  autorewrite with dmcontrol_bits in Hw. rewrite hartsel_of_dmcontrol in Hw. by apply Hw.
Qed.

Lemma halted_accessors w :
  allhalted w = truthy (dict_get (Register.decode DMSTATUS w) "allhalted" 0) /\
  allrunning w = truthy (dict_get (Register.decode DMSTATUS w) "allrunning" 0).
Proof. split; reflexivity. Qed.

(** The dmstatus word the model predicts shows the selected hart. *)
Lemma expect_dmstatus_shows p i h :
  DMPredictor.hartsel p = Z.of_nat i -> DMPredictor.harts p !! i = Some h ->
  exists w, DMPredictor.expect p DMI.DMSTATUS = Ok w /\
    allhalted w = HartState.halted h /\ allrunning w = HartState.running h.
Proof.
  intros Hsel Hh. destruct (dmstatus_decode p) as (w & He & _ & Hd); [lia|].
  rewrite Hsel, Nat2Z.id, Hh in Hd. exists w. split; [exact He|].
  destruct (halted_accessors w) as [-> ->]. rewrite Hd. cbn. by rewrite !truthy_to_int.
Qed.

(** What the tracked hartsel and a hook on the arguments make of a write. *)
Definition tracked (f : DmcontrolArgs.t -> DmcontrolArgs.t) (s : Z) : DmcontrolArgs.t :=
  f (DmcontrolArgs.default <| DmcontrolArgs.dmactive := true |> <| DmcontrolArgs.hartsel := s |>).

Lemma predicted_wr_dmcontrol `{Clock} f m s now :
  predicted (wr_dmcontrol f) m s now =
  Some (DMPredictor.on_write DMI.DMCONTROL (dmcontrol (tracked f s)) m, s, now, Ok tt).
Proof. reflexivity. Qed.

Section run_control.
Context {T : Type} `{ModelBacked T} `{Clock}.
Context (w : world T Z) (i : nat) (h : HartState.t) (timeout : Z).
Context (Hlive : live (dev w)) (Hsel : self w mod 2 ^ 20 = Z.of_nat i).
Context (Hh : steady (model (dev w)) i h).

(** The harts other than [i] keep their state; only the flag telling whether the
    index is declared is settled by a write. *)
Definition others_kept (p q : DMPredictor.t) : Prop :=
  forall j f, j <> i -> DMPredictor.harts p !! j = Some f -> HartState.hart_reset f = false ->
    exists b, DMPredictor.harts q !! j = Some (f <| HartState.nonexistent := b |>).

Lemma others_kept_trans p q r : others_kept p q -> others_kept q r -> others_kept p r.
Proof.
  intros Hpq Hqr j f Hj Hf Hr. destruct (Hpq j f Hj Hf Hr) as [b Hb].
  destruct (Hqr j _ Hj Hb Hr) as [c Hc]. exists c. exact Hc.
Qed.

(** C3: On a transport backed by the model, [halt()] of an existing, available hart
    outside reset returns without waiting, whatever its timeout: the hart is
    halted, no halt request is left pending, and the other harts are as before. *)
Theorem halt_halts :
  let (w', r) := run (halt timeout) w in
  r = Ok tt /\ clock w' = clock w /\ self w' = self w /\
  others_kept (model (dev w)) (model (dev w')) /\
  exists g, steady (model (dev w')) i g /\ HartState.halted g = true /\
    HartState.halt_request g = false.
Proof using Type*.
  set (p := model (dev w)).
  destruct (dmcontrol_steady p i h (tracked (fun a => a <| DmcontrolArgs.haltreq := true |>) (self w)))
    as (g & Hg & Gsel & _ & Gh & Go); [done|done|]. set (q := DMPredictor.on_write _ _ p) in *.
  destruct (dmcontrol_steady q i g (tracked (fun a => a <| DmcontrolArgs.haltreq := false |>) (self w)))
    as (f & Hf & _ & Fr & Fh & Fo); [done|done|]. set (q2 := DMPredictor.on_write _ _ q) in *.
  destruct (expect_dmstatus_shows q i g Gsel (steady_hart _ _ _ Hg)) as (v & Hv & Va & _).
  pose proof (run_predicted (halt timeout) w q2 (self w) (clock w) (Ok tt) Hlive) as Hrun.
  destruct (run (halt timeout) w) as [w' r]. destruct Hrun as (_ & -> & -> & -> & ->).
  { unfold halt. rewrite predicted_bind, predicted_wr_dmcontrol, predicted_bind. fold p q.
    rewrite (predicted_poll_accepts _ _ _ _ _ _ _ v Hv) by (rewrite Va, Gh; done).
    by rewrite predicted_wr_dmcontrol. }
  split_and!; [done..| |].
  - apply (others_kept_trans _ q); intros j x ???; eexists; [by apply Go|by apply Fo].
  - exists f. split_and!; [done| |exact Fr]. rewrite Fh, Gh. cbn. by rewrite orb_true_r.
Qed.

(** C4: [resume()] of such a hart returns and leaves it running, unless the hart is
    halted with dcsr.step set: then it is halted again at once, and [resume()]
    waits out its timeout and raises. *)
Theorem resume_resumes :
  let stepping := HartState.halted h && step_armed (model (dev w)) in
  let (w', r) := run (resume timeout) w in
  others_kept (model (dev w)) (model (dev w')) /\ self w' = self w /\
  (exists g, steady (model (dev w')) i g /\ HartState.halted g = stepping) /\
  (if stepping
   then (exists v, r = Raise (DebugError (timeout_message "allrunning" DMI.DMSTATUS v timeout))) /\
        clock w + timeout < clock w'
   else r = Ok tt /\ clock w' = clock w).
Proof using Type*.
  set (p := model (dev w)). cbn zeta.
  destruct (dmcontrol_steady p i h (tracked (fun a => a <| DmcontrolArgs.resumereq := true |>) (self w)))
    as (g & Hg & Gsel & _ & Gh & Go); [done|done|]. set (q := DMPredictor.on_write _ _ p) in *.
  cbn in Gh. rewrite orb_false_r in Gh.
  destruct (expect_dmstatus_shows q i g Gsel (steady_hart _ _ _ Hg)) as (v & Hv & _ & Vr).
  rewrite (steady_settled _ _ _ Hg), Gh in Vr.
  destruct (HartState.halted h && step_armed p) eqn:Hst.
  - destruct (predicted_poll_never (fun s => Ok (allrunning s)) DMI.DMSTATUS "allrunning" timeout
                q (self w) (clock w) v Hv) as (late & Hlate & Hp); [by rewrite Vr|].
    pose proof (run_predicted (resume timeout) w q (self w) late
      (Raise (DebugError (timeout_message "allrunning" DMI.DMSTATUS v timeout))) Hlive) as Hrun.
    destruct (run (resume timeout) w) as [w' r]. destruct Hrun as (_ & -> & -> & -> & ->).
    { unfold resume. rewrite predicted_bind, predicted_wr_dmcontrol, predicted_bind. fold p q.
      by rewrite Hp. }
    split_and!; [intros j x ???; eexists; by apply Go|done|by exists g|by exists v|done].
  - destruct (dmcontrol_steady q i g (tracked (fun a => a <| DmcontrolArgs.resumereq := false |>) (self w)))
      as (f & Hf & _ & _ & Fh & Fo); [done|done|]. set (q2 := DMPredictor.on_write _ _ q) in *.
    pose proof (run_predicted (resume timeout) w q2 (self w) (clock w) (Ok tt) Hlive) as Hrun.
    destruct (run (resume timeout) w) as [w' r]. destruct Hrun as (_ & -> & -> & -> & ->).
    { unfold resume. rewrite predicted_bind, predicted_wr_dmcontrol, predicted_bind. fold p q.
      rewrite (predicted_poll_accepts _ _ _ _ _ _ _ v Hv) by (by rewrite Vr).
      by rewrite predicted_wr_dmcontrol. }
    split_and!; [|done| |done..].
    + apply (others_kept_trans _ q); intros j x ???; eexists; [by apply Go|by apply Fo].
    + exists f. split; [done|]. by rewrite Fh, Gh.
Qed.

End run_control.

(** ** Register access *)

(** abstractcs as the model predicts it: idle and free of errors. *)
Lemma check_abstractcs_ok p :
  check_abstractcs (DMPredictor.expect_abstractcs p) = Ok true.
Proof.
  set (v := DMPredictor.expect_abstractcs p).
  assert (forall i, 8 <= i <= 12 -> i <> 11 -> Z.testbit v i = false) as Hb.
  { intros i Hi Hne. unfold v, DMPredictor.expect_abstractcs. rewrite !Z.lor_spec, testbit_flag by lia.
    rewrite Z.shiftl_spec, (Z.testbit_neg_r _ (i - 24)), Z.land_spec by lia.
    rewrite (bounded_bits 4 0xF i), andb_false_r by lia. zcases. all: by rewrite ?andb_false_r. }
  clearbody v. unfold check_abstractcs. rewrite bit_of_testbit, Hb by lia.
  assert (Z.land (Z.shiftr v 8) 7 = 0) as ->; [|done].
  apply Z.bits_inj'. intros i Hi. rewrite Z.land_spec, Z.shiftr_spec, Z.bits_0 by lia.
  destruct (Z.ltb_spec i 3); [by rewrite Hb by lia|].
  rewrite (bounded_bits 3 7 i) by lia. apply andb_false_r.
Qed.

Lemma expect_abstractcs_ok p :
  DMPredictor.cfg_valid p = true -> DMPredictor.dmactive p = true ->
  DMPredictor.expect p DMI.ABSTRACTCS = Ok (DMPredictor.expect_abstractcs p).
Proof. intros Hc Ha. unfold DMPredictor.expect, DMPredictor.has_model. by rewrite Hc, Ha. Qed.

Lemma predicted_wait_abstractcs `{Clock} timeout p s now :
  DMPredictor.cfg_valid p = true -> DMPredictor.dmactive p = true ->
  predicted (_wait_abstractcs timeout) p s now = Some (p, s, now, Ok tt).
Proof.
  intros Hc Ha. unfold _wait_abstractcs.
  apply (predicted_poll_accepts _ _ _ _ _ _ _ _ (expect_abstractcs_ok p Hc Ha)).
  apply check_abstractcs_ok.
Qed.

(** The command words are the Access Register encodings of the model's table. *)
Lemma command_word b regno :
  0 <= regno < 2 ^ 16 ->
  access_register AASIZE_32 b regno =
  Z.lor (Z.lor (Z.lor (Z.lor (Z.shiftl 0 24) (Z.shiftl 2 20)) (Z.land regno 0xFFFF))
               (Z.shiftl 1 17)) (Z.shiftl (to_int b) 16).
Proof.
  intros Hr. unfold access_register. cbn. apply Z.bits_inj'. intros i Hi.
  rewrite !testbit_insert by (cbn; lia).
  change (Z.shiftl 2 20) with (Z.shiftl (to_int true) 21).
  change (Z.shiftl 1 17) with (Z.shiftl (to_int true) 17). change (Z.shiftl 0 24) with 0.
  rewrite !Z.lor_spec, !testbit_flag, Z.bits_0 by lia.
  change 0xFFFF with (Z.ones 16). rewrite (Z.land_ones regno 16), (Z.mod_small regno) by lia.
  unfold in_field. cbn -[Z.testbit Z.add Z.sub]. 
  rewrite Z.sub_0_r. destruct (Z.ltb_spec i 16).
  { zcases. by rewrite andb_false_r, !orb_false_r. }
  rewrite (bounded_bits 16 regno i) by lia.
  destruct (Z.ltb_spec i 23).
  - assert (i = 16 \/ i = 17 \/ i = 18 \/ i = 19 \/ i = 20 \/ i = 21 \/ i = 22) as Hc by lia.
    destruct Hc as [->|[->|[->|[->|[->|[->| ->]]]]]]; by destruct b.
  - zcases. by rewrite andb_false_r.
Qed.

Section register_access.
Context `{Clock} (p : DMPredictor.t) (r : Z) (s now : Z) (Hp : ready p) (Hr : 0 <= r < 2 ^ 16).

Lemma predicted_write_gpr v :
  predicted (write_gpr r v) p s now = Some (exec_regop p (WriteReg r v), s, now, Ok tt).
Proof using Hp Hr.
  destruct (exec_regop_refines p _ (WriteReg r v) Hp Hr eq_refl) as ((_ & Hc & Ha & _) & _).
  unfold write_gpr. cbn [bind wr predicted]. change (Z.shiftl 1 16) with (Z.shiftl (to_int true) 16).
  rewrite <-command_word by done. by apply predicted_wait_abstractcs.
Qed.

Lemma predicted_read_gpr v :
  abs_read (DMPredictor.shadow_regs p) r = Some v ->
  predicted (read_gpr r) p s now = Some (exec_regop p (ReadReg r), s, now, Ok v).
Proof using Hp Hr.
  intros Hv.
  destruct (exec_regop_refines p _ (ReadReg r) Hp Hr eq_refl) as ((_ & Hc & Ha & _) & _ & Hm & He).
  unfold read_gpr. cbn [bind wr predicted]. rewrite <-(Z.lor_0_r (Z.lor _ (Z.shiftl 1 17))).
  change 0 with (Z.shiftl (to_int false) 16) at 2. rewrite <-command_word by done.
  rewrite predicted_bind, predicted_wait_abstractcs by done. cbn [rd predicted].
  change DMI.COMMAND with ADDR_COMMAND. change DMI.DATA0 with ADDR_DATA0.
  change (DMPredictor.on_write _ _ p) with (exec_regop p (ReadReg r)).
  unfold DMPredictor.expect. rewrite Hm, Hv, (He v Hv). reflexivity.
Qed.

End register_access.

(** A debugger's register writes, one after the other. *)
Fixpoint write_gprs (ws : list (Z * Z)) : M unit :=
  match ws with
  | [] => Ret tt
  | (r, v) :: ws => write_gpr r v;;; write_gprs ws
  end.

Definition write_op (rv : Z * Z) : regop := WriteReg (fst rv) (snd rv).

Lemma predicted_write_gprs `{Clock} ws p s now :
  ready p -> Forall (fun rv => 0 <= fst rv < 2 ^ 16) ws ->
  predicted (write_gprs ws) p s now =
  Some (fold_left exec_regop (map write_op ws) p, s, now, Ok tt).
Proof.
  revert p. induction ws as [|[r v] ws IH]; intros p Hp Hok; [done|].
  apply Forall_cons in Hok as [Hr Hok]. cbn [write_gprs]. rewrite predicted_bind.
  rewrite predicted_write_gpr by done. cbn [map fold_left write_op fst snd]. apply IH; [|done].
  by destruct (exec_regop_refines p _ (WriteReg r v) Hp Hr eq_refl).
Qed.

Section access.
Context {T : Type} `{ModelBacked T} `{Clock}.

(** C12: On a transport backed by the model, registers written through [write_gpr]
    read back through [read_gpr] as an abstract register file says: the value
    last written to the register, modulo [2^32], or 0 for x0; neither waits. *)
Theorem gpr_roundtrip (w : world T Z) ws r v :
  live (dev w) -> ready (model (dev w)) ->
  Forall (fun rv => 0 <= fst rv < 2 ^ 16) ws -> 0 <= r < 2 ^ 16 ->
  abs_read (fold_left abs_exec (map write_op ws) (DMPredictor.shadow_regs (model (dev w)))) r
    = Some v ->
  let (w', res) := run (write_gprs ws;;; read_gpr r) w in
  res = Ok v /\ clock w' = clock w /\ self w' = self w /\ live (dev w').
Proof.
  intros Hl Hp Hws Hr Hv. set (p := model (dev w)) in *.
  destruct (exec_regops_refine (map write_op ws) p (DMPredictor.shadow_regs p) Hp)
    as [Hq Hm]; [by apply Forall_map|done|].
  rewrite <-Hm in Hv.
  pose proof (run_predicted (write_gprs ws;;; read_gpr r) w
    (exec_regop (fold_left exec_regop (map write_op ws) p) (ReadReg r)) (self w) (clock w) (Ok v) Hl) as Hrun.
  destruct (run _ w) as [w' res]. destruct Hrun as (Hl' & _ & -> & -> & ->); [|done].
  rewrite predicted_bind, predicted_write_gprs by done. by apply predicted_read_gpr.
Qed.


(** [set_step] changes bit 2 of dcsr and nothing else: where dcsr is known to
    hold [v], it holds [v] with that bit set or cleared afterwards. *)
Theorem set_step_sets_step (w : world T Z) v enable :
  live (dev w) -> ready (model (dev w)) ->
  DMPredictor.shadow_regs (model (dev w)) !! RISCVDebug.DCSR_REGNO = Some v -> 0 <= v < 2 ^ 32 ->
  let (w', res) := run (set_step enable) w in
  res = Ok tt /\ clock w' = clock w /\
  exists v', DMPredictor.shadow_regs (model (dev w')) =
               <[RISCVDebug.DCSR_REGNO := v']> (DMPredictor.shadow_regs (model (dev w))) /\
    (forall i, 0 <= i -> Z.testbit v' i = if i =? 2 then enable else Z.testbit v i) /\
    step_armed (model (dev w')) = enable.
Proof.
  intros Hl Hp Hv Hb. set (p := model (dev w)) in *.
  assert (abs_read (DMPredictor.shadow_regs p) RISCVDebug.DCSR_REGNO = Some v) as Hrd by exact Hv.
  assert (0 <= RISCVDebug.DCSR_REGNO < 2 ^ 16) as Hn by (vm_compute; done).
  destruct (exec_regop_refines p _ (ReadReg RISCVDebug.DCSR_REGNO) Hp Hn eq_refl) as (Hq & Hsq & _).
  set (q := exec_regop p (ReadReg RISCVDebug.DCSR_REGNO)) in *.
  set (x := if enable then Z.lor v (Z.shiftl 1 2) else Z.land v (Z.lnot (Z.shiftl 1 2))).
  destruct (exec_regop_refines q _ (WriteReg RISCVDebug.DCSR_REGNO x) Hq Hn eq_refl) as (_ & Hsx & _).
  set (q' := exec_regop q (WriteReg RISCVDebug.DCSR_REGNO x)) in *.
  pose proof (run_predicted (set_step enable) w q' (self w) (clock w) (Ok tt) Hl) as Hrun.
  destruct (run _ w) as [w' res]. destruct Hrun as (_ & -> & _ & -> & ->).
  { unfold set_step, read_dcsr. rewrite predicted_bind, (predicted_read_gpr p _ _ _ Hp Hn v Hrd).
    unfold write_dcsr. by apply predicted_write_gpr. }
  assert (forall i, 0 <= i -> Z.testbit x i = if i =? 2 then enable else Z.testbit v i) as Hbit.
  { intros i Hi. unfold x. change (Z.shiftl 1 2) with (Z.shiftl (to_int true) 2). destruct enable.
    - rewrite Z.lor_spec, testbit_flag by lia. zcases; by rewrite ?orb_true_r, ?orb_false_r.
    - rewrite Z.land_spec, Z.lnot_spec, testbit_flag by lia.
      zcases; by rewrite ?andb_false_r, ?andb_true_r. }
  assert (x mod 2 ^ 32 = x) as Hx.
  { apply Z.mod_small, bits_bounded; [done|]. intros i Hi. rewrite Hbit by lia. zcases.
    by apply (bounded_bits 32). }
  cbn [abs_exec] in Hsx. rewrite Hx in Hsx. change (abs_exec ?m (ReadReg _)) with m in Hsq.
  split_and!; [done|done|]. exists x. rewrite Hsx, Hsq. split_and!; [done|done|].
  unfold step_armed. rewrite Hsx. change DCSR_REGNO with RISCVDebug.DCSR_REGNO.
  rewrite lookup_insert_eq. cbn. by rewrite Hbit.
Qed.

End access.

(** ** Memory access over the system bus *)

(** The declared system bus is there and the DM is active. *)
Definition sba_on (p : DMPredictor.t) : Prop :=
  DMPredictor.cfg_valid p = true /\ DMPredictor.dmactive p = true /\
  DeclaredConfig.sba_enable (DMPredictor.cfg p) = true.

(** A field of sbcs that only holds declared or written bits elsewhere. *)
Lemma testbit_piece x n k i :
  0 <= n -> 0 <= k -> 0 <= i -> i < k \/ k + n <= i ->
  Z.testbit (Z.shiftl (Z.land x (Z.ones n)) k) i = false.
Proof.
  intros Hn Hk Hi Hout. rewrite Z.shiftl_spec by done.
  destruct (Z.ltb_spec i k); [apply Z.testbit_neg_r; lia|].
  rewrite Z.land_spec, testbit_ones by lia. by zcases; rewrite ?andb_false_r.
Qed.

(** sbcs as the model predicts it: the bus is idle and free of errors. *)
Lemma check_sbcs_ok p : check_sbcs (DMPredictor.expect_sbcs p) = Ok true.
Proof.
  set (v := DMPredictor.expect_sbcs p).
  assert (forall i, 12 <= i <= 14 \/ i = 21 -> Z.testbit v i = false) as Hb.
  { intros i Hi. unfold v, DMPredictor.expect_sbcs.
    destruct (negb _); [apply Z.bits_0|]. cbn [fold_left].
    change 0x7 with (Z.ones 3). change 0x7F with (Z.ones 7).
    rewrite !Z.lor_spec, !testbit_piece, !testbit_flag, testbit_flag0 by lia.
    zcases; by rewrite ?andb_false_r. }
  clearbody v. unfold check_sbcs. rewrite bit_of_testbit, Hb by lia.
  assert (Z.land (Z.shiftr v 12) 7 = 0) as ->; [|done].
  apply Z.bits_inj'. intros i Hi. rewrite Z.land_spec, Z.shiftr_spec, Z.bits_0 by lia.
  destruct (Z.ltb_spec i 3); [by rewrite Hb by lia|].
  rewrite (bounded_bits 3 7 i) by lia. apply andb_false_r.
Qed.

Lemma predicted_wait_sbus `{Clock} timeout p s now :
  sba_on p -> predicted (_wait_sbus timeout) p s now = Some (p, s, now, Ok tt).
Proof.
  intros (Hc & Ha & _). unfold _wait_sbus.
  apply (predicted_poll_accepts _ _ _ _ _ _ _ (DMPredictor.expect_sbcs p));
    [|apply check_sbcs_ok].
  unfold DMPredictor.expect, DMPredictor.has_model. by rewrite Hc, Ha.
Qed.

Lemma on_write_sbcs v p :
  DMPredictor.on_write DMI.SBCS v p = DMPredictor._write_sbcs (Z.land v MASK32) p.
Proof.
  unfold DMPredictor.on_write. change (DMPredictor._guarded_while_busy DMI.SBCS) with false.
  by rewrite andb_false_r.
Qed.

Lemma on_write_sbaddress0 v p :
  DMPredictor.on_write DMI.SBADDRESS0 v p = DMPredictor._write_sbaddress0 (Z.land v MASK32) p.
Proof.
  unfold DMPredictor.on_write. change (DMPredictor._guarded_while_busy DMI.SBADDRESS0) with false.
  by rewrite andb_false_r.
Qed.

Lemma on_write_sbdata0 v p :
  DMPredictor.on_write DMI.SBDATA0 v p = DMPredictor._write_sbdata0 (Z.land v MASK32) p.
Proof.
  unfold DMPredictor.on_write. change (DMPredictor._guarded_while_busy DMI.SBDATA0) with false.
  by rewrite andb_false_r.
Qed.

(** One word written: the shadow memory holds it at its address. *)
Definition sba_store (p : DMPredictor.t) (a d : Z) : DMPredictor.t :=
  DMPredictor.on_write DMI.SBDATA0 d
    (DMPredictor.on_write DMI.SBADDRESS0 a (DMPredictor.on_write DMI.SBCS (Z.shiftl 2 17) p)).

Definition sba_load (p : DMPredictor.t) (a : Z) : DMPredictor.t :=
  DMPredictor.on_write DMI.SBADDRESS0 a
    (DMPredictor.on_write DMI.SBCS (Z.lor (Z.shiftl 1 20) (Z.shiftl 2 17)) p).

Lemma write_sbcs_modes p b :
  let q := DMPredictor._write_sbcs (if b : bool then 0x140000 else 0x40000) p in
  DMPredictor.sbautoincrement q = false /\ DMPredictor.sbcs_read_on_addr_armed q = b /\
  DMPredictor.shadow_mem q = DMPredictor.shadow_mem p /\ (sba_on p -> sba_on q).
Proof.
  unfold DMPredictor._write_sbcs, sba_on.
  destruct b, (DeclaredConfig.sbaccess_writable _); cbn; split_and!; done.
Qed.

(** The two registers once auto-increment is off. *)
Lemma store_plain q a d :
  DMPredictor.sbautoincrement q = false -> DMPredictor.sbcs_read_on_addr_armed q = false ->
  DMPredictor._write_sbdata0 d (DMPredictor._write_sbaddress0 a q) =
  q <| DMPredictor.sbaddress0 := a |>
    <| DMPredictor.shadow_mem := <[a := d]> (DMPredictor.shadow_mem q) |>.
Proof.
  intros Hi Hr. unfold DMPredictor._write_sbaddress0. cbn. rewrite Hr.
  unfold DMPredictor._write_sbdata0, DMPredictor._sba_autoincrement. cbn. by rewrite Hi.
Qed.

Lemma load_plain q a v :
  DMPredictor.sbautoincrement q = false -> DMPredictor.sbcs_read_on_addr_armed q = true ->
  DMPredictor.shadow_mem q !! a = Some v ->
  DMPredictor._write_sbaddress0 a q =
  q <| DMPredictor.sbaddress0 := a |> <| DMPredictor.sbdata1_known := false |>
    <| DMPredictor.sbdata0_pending_valid := true |>
    <| DMPredictor.sbdata0_pending_value := v |>.
Proof.
  intros Hi Hr Hv. unfold DMPredictor._write_sbaddress0. cbn. rewrite Hr.
  unfold DMPredictor._sba_arm_read. cbn. rewrite Hv.
  unfold DMPredictor._sba_autoincrement. cbn. by rewrite Hi.
Qed.

Lemma sba_store_spec p a d :
  sba_on p ->
  sba_on (sba_store p a d) /\
  DMPredictor.shadow_mem (sba_store p a d) =
    <[a mod 2 ^ 32 := d mod 2 ^ 32]> (DMPredictor.shadow_mem p).
Proof.
  intros Hp. unfold sba_store. rewrite on_write_sbcs, on_write_sbaddress0, on_write_sbdata0.
  change (Z.land (Z.shiftl 2 17) MASK32) with 0x40000. change MASK32 with (Z.ones 32).
  rewrite !Z.land_ones by lia.
  destruct (write_sbcs_modes p false) as (Hi & Hr & Hm & Hon). specialize (Hon Hp).
  revert Hi Hr Hm Hon. generalize (DMPredictor._write_sbcs 0x40000 p). intros q Hi Hr Hm Hon.
  rewrite store_plain by done. split; [exact Hon|]. cbn. by rewrite Hm.
Qed.

Lemma sba_load_spec p a v :
  sba_on p -> DMPredictor.shadow_mem p !! (a mod 2 ^ 32) = Some v ->
  sba_on (sba_load p a) /\ DMPredictor.shadow_mem (sba_load p a) = DMPredictor.shadow_mem p /\
  DMPredictor.expect (sba_load p a) DMI.SBDATA0 = Ok v.
Proof.
  intros Hp Hv. unfold sba_load. rewrite on_write_sbcs, on_write_sbaddress0.
  change (Z.land (Z.lor (Z.shiftl 1 20) (Z.shiftl 2 17)) MASK32) with 0x140000.
  change MASK32 with (Z.ones 32). rewrite Z.land_ones by lia.
  destruct (write_sbcs_modes p true) as (Hi & Hr & Hm & Hon). specialize (Hon Hp).
  revert Hi Hr Hm Hon. generalize (DMPredictor._write_sbcs 0x140000 p). intros q Hi Hr Hm Hon.
  rewrite (load_plain q _ v) by (try done; by rewrite Hm).
  split; [exact Hon|]. split; [exact Hm|]. destruct Hon as (? & ? & ?). by apply expect_sbdata0.
Qed.

Lemma predicted_write_mem32 `{Clock} p a d s now :
  sba_on p -> predicted (write_mem32 a d) p s now = Some (sba_store p a d, s, now, Ok tt).
Proof.
  intros Hp. unfold write_mem32. cbn [bind wr predicted].
  apply predicted_wait_sbus. by apply sba_store_spec.
Qed.

Lemma predicted_read_mem32 `{Clock} p a v s now :
  sba_on p -> DMPredictor.shadow_mem p !! (a mod 2 ^ 32) = Some v ->
  predicted (read_mem32 a) p s now = Some (sba_load p a, s, now, Ok v).
Proof.
  intros Hp Hv. destruct (sba_load_spec p a v Hp Hv) as (Hon & _ & He).
  unfold read_mem32. cbn [bind wr predicted].
  rewrite predicted_bind. change (DMPredictor.on_write _ a _) with (sba_load p a).
  rewrite predicted_wait_sbus by done. cbn. change DMI.SBDATA0 with ADDR_SBDATA0 in *. by rewrite He.
Qed.

(** A debugger's memory writes, and the memory they leave. *)
Fixpoint write_mems (ws : list (Z * Z)) : M unit :=
  match ws with
  | [] => Ret tt
  | (a, d) :: ws => write_mem32 a d;;; write_mems ws
  end.

Definition abs_store (m : gmap Z Z) (ws : list (Z * Z)) : gmap Z Z :=
  fold_left (fun m ad => <[fst ad mod 2 ^ 32 := snd ad mod 2 ^ 32]> m) ws m.

Lemma predicted_write_mems `{Clock} ws p s now :
  sba_on p ->
  exists q, predicted (write_mems ws) p s now = Some (q, s, now, Ok tt) /\ sba_on q /\
    DMPredictor.shadow_mem q = abs_store (DMPredictor.shadow_mem p) ws.
Proof.
  revert p. induction ws as [|[a d] ws IH]; intros p Hp; [by exists p|].
  cbn [write_mems]. rewrite predicted_bind, predicted_write_mem32 by done.
  destruct (sba_store_spec p a d Hp) as [Hon Hm].
  destruct (IH _ Hon) as (q & Hq & Hqon & Hqm). exists q. split_and!; [done|done|].
  by rewrite Hqm, Hm.
Qed.

(** C13: On a transport backed by the model with a declared system bus, words
    written through [write_mem32] read back through [read_mem32] as a memory of
    32-bit words addressed modulo [2^32] says, without waiting. *)
Theorem mem32_roundtrip {T} `{ModelBacked T} `{Clock} (w : world T Z) ws a v :
  live (dev w) -> sba_on (model (dev w)) ->
  abs_store (DMPredictor.shadow_mem (model (dev w))) ws !! (a mod 2 ^ 32) = Some v ->
  let (w', res) := run (write_mems ws;;; read_mem32 a) w in
  res = Ok v /\ clock w' = clock w /\ self w' = self w /\ live (dev w').
Proof.
  intros Hl Hp Hv.
  destruct (predicted_write_mems ws _ (self w) (clock w) Hp) as (q & Hq & Hon & Hm).
  rewrite <-Hm in Hv.
  pose proof (run_predicted (write_mems ws;;; read_mem32 a) w (sba_load q a) (self w) (clock w)
                (Ok v) Hl) as Hrun.
  destruct (run _ w) as [w' res]. destruct Hrun as (Hl' & _ & -> & -> & ->); [|done].
  rewrite predicted_bind, Hq. by apply predicted_read_mem32.
Qed.

(** ** Witnesses *)

(** A host clock whose sleeps are exact. *)
Definition exact_clock : Clock := {| sleep_until := Z.add; sleep_law := fun now d => Z.le_refl _ |}.

(** A command layer over the mock of a freshly powered-up model, of one whose
    hart has been halted, and of a configured one. *)
Definition on_mock (p : DMPredictor.t) : world Mock.t Z := mk_world (Mock.init p) 0 0 [].
Definition hart0 (p : DMPredictor.t) : HartState.t :=
  default HartState.default (DMPredictor.harts p !! 0%nat).

Lemma steady_p_up : steady p_up 0 (hart0 p_up).
Proof. split; vm_compute; repeat split. Qed.

Lemma steady_p_halted : steady p_halted 0 (hart0 p_halted).
Proof. split; vm_compute; repeat split. Qed.

Lemma halt_halts_witness :
  let w := on_mock p_up in
  let (w', r) := @run _ _ _ _ exact_clock (halt DEFAULT_TIMEOUT) w in
  r = Ok tt /\ clock w' = clock w /\ self w' = self w /\
  others_kept 0 (model (dev w)) (model (dev w')) /\
  exists g, steady (model (dev w')) 0 g /\ HartState.halted g = true /\
    HartState.halt_request g = false.
Proof.
  intros w. apply (@halt_halts _ _ _ exact_clock w 0 (hart0 p_up)); [done|done|exact steady_p_up].
Defined.

Lemma resume_resumes_witness :
  let w := on_mock p_halted in let timeout := 5000 in
  let stepping := HartState.halted (hart0 p_halted) && step_armed (model (dev w)) in
  let (w', r) := @run _ _ _ _ exact_clock (resume timeout) w in
  others_kept 0 (model (dev w)) (model (dev w')) /\ self w' = self w /\
  (exists g, steady (model (dev w')) 0 g /\ HartState.halted g = stepping) /\
  (if stepping
   then (exists v, r = Raise (DebugError (timeout_message "allrunning" DMI.DMSTATUS v timeout))) /\
        clock w + timeout < clock w'
   else r = Ok tt /\ clock w' = clock w).
Proof.
  intros w timeout.
  apply (@resume_resumes _ _ _ exact_clock w 0 (hart0 p_halted)); [done|done|exact steady_p_halted].
Defined.

Lemma gpr_roundtrip_witness :
  let w := on_mock p_demo in
  let (w', res) := @run _ _ _ _ exact_clock
    (write_gprs [(0x1008, 0xAB); (0x1009, 0x1000000CD)];;; read_gpr 0x1009) w in
  res = Ok 0xCD /\ clock w' = clock w /\ self w' = self w /\ live (dev w').
Proof.
  intros w. apply (@gpr_roundtrip _ _ _ exact_clock w).
  - done.
  - vm_compute. repeat split.
  - repeat constructor; vm_compute; (reflexivity || discriminate).
  - split; vm_compute; (reflexivity || discriminate).
  - vm_compute. reflexivity.
Defined.

Lemma mem32_roundtrip_witness :
  let w := on_mock p_demo in
  let (w', res) := @run _ _ _ _ exact_clock
    (write_mems [(0x80000000, 1); (0x80000004, 2); (0x80000000, 3)];;; read_mem32 0x80000000) w in
  res = Ok 3 /\ clock w' = clock w /\ self w' = self w /\ live (dev w').
Proof.
  intros w. apply (@mem32_roundtrip _ _ _ exact_clock w).
  - done.
  - vm_compute. repeat split.
  - vm_compute. reflexivity.
Defined.

(** The configured model after dcsr was last written 0x40000003. *)
Definition p_dcsr : DMPredictor.t := exec_regop p_demo (WriteReg 0x07B0 0x40000003).

Lemma set_step_sets_step_witness :
  let w := on_mock p_dcsr in
  let (w', res) := @run _ _ _ _ exact_clock (set_step true) w in
  res = Ok tt /\ clock w' = clock w /\
  exists v', DMPredictor.shadow_regs (model (dev w')) =
               <[RISCVDebug.DCSR_REGNO := v']> (DMPredictor.shadow_regs (model (dev w))) /\
    (forall i, 0 <= i -> Z.testbit v' i = if i =? 2 then true else Z.testbit 0x40000003 i) /\
    step_armed (model (dev w')) = true.
Proof.
  intros w. apply (@set_step_sets_step _ _ _ exact_clock w).
  - done.
  - vm_compute. repeat split.
  - vm_compute. reflexivity.
  - split; vm_compute; (reflexivity || discriminate).
Defined.

(** An observer that counts the operations it is shown. *)
Definition counter : Observer nat :=
  mk_observer 0 (fun _ _ _ _ n => (S n, Ok tt)).

Lemma observing_transparent_witness :
  let l := [counter] in
  let u := on_mock p_up in
  let w := mk_world (mk_observing (dev u) l false 0%nat) 0 0 [] in
  let c := halt DEFAULT_TIMEOUT in
  (in_step l 0%nat (fst (@run _ _ _ _ exact_clock c w)) (fst (@run _ _ _ _ exact_clock c u)) /\
   snd (@run _ _ _ _ exact_clock c w) = snd (@run _ _ _ _ exact_clock c u)) /\
  seen (dev (fst (@run _ _ _ _ exact_clock c w))) = 3%nat.
Proof.
  intros l u w c. split; [|vm_compute; reflexivity].
  apply (@observing_transparent _ _ _ exact_clock _ _ c l 0%nat w u).
  - repeat constructor.
  - repeat split.
Defined.
