(* ===== verification/NativeTrigger.v ===== *)
(** Native ([action=0]) triggers: [model/native_trigger.py].

    [NativeTriggerModel] threads the trigger and pending dictionaries; a trigger
    object is only reached through the dictionary, so decrementing its count is
    updating the entry.  [event] visits the triggers in index order and stops at
    the first that fires. *)

From stdpp Require Import sorting.
From S2P Require Import Prelude Registers.

Local Open Scope string_scope.
Local Open Scope list_scope.
Local Open Scope Z_scope.

(** native_trigger.py:55-57 (CAUSE_BREAKPOINT, PRV_U, PRV_S, PRV_M) *)
Definition CAUSE_BREAKPOINT : Z := 3.
Definition PRV_U : Z := 0.
Definition PRV_S : Z := 1.
Definition PRV_M : Z := 3.

(** native_trigger.py:60-65 (Reentrancy) *)
Inductive Reentrancy := MIE_GATE | TCONTROL | NONE.

(** native_trigger.py:68-76 (Event) *)
Inductive Event := EXECUTE | LOAD | STORE | RETIRE | EXCEPTION | INTERRUPT.

#[export] Instance Event_eq_dec : EqDecision Event.
Proof. solve_decision. Defined.

Module Trigger.

(** native_trigger.py:80-85 (Trigger attributes) *)
Record t := mk { tdata1 : Z; tdata2 : Z; xlen : Z }.

#[global] Instance settable : Settable t := fun t => mk (tdata1 t) (tdata2 t) (xlen t).

(** native_trigger.py:87-89 (Trigger.type) *)
Definition type (t : t) : Z := tdata1_type (tdata1 t) (xlen t).

(** native_trigger.py:93-95 (Trigger.fields, the layout) *)
Definition layout (ty : Z) : option Register.t :=
  if ty =? TRIGGER_TYPE_MCONTROL6 then Some MCONTROL6
  else if ty =? TRIGGER_TYPE_ICOUNT then Some ICOUNT
  else if ty =? TRIGGER_TYPE_ITRIGGER then Some ITRIGGER
  else if ty =? TRIGGER_TYPE_ETRIGGER then Some ETRIGGER else None.

(** native_trigger.py:91-96 (Trigger.fields) *)
Definition fields (t : t) : list (string * Z) :=
  match layout (type t) with Some l => Register.decode l (tdata1 t) | None => [] end.

(** native_trigger.py:100-100 (Trigger.enabled_in, the mode's field) *)
Definition mode_field (prv : Z) : result string :=
  if prv =? PRV_M then Ok "m" else if prv =? PRV_S then Ok "s" else if prv =? PRV_U then Ok "u"
  else Raise (KeyError (pretty prv)).

(** native_trigger.py:98-100 (Trigger.enabled_in) *)
Definition enabled_in (t : t) (prv : Z) : result bool :=
  try name <- mode_field prv;; Ok (truthy (dict_get (fields t) name 0)).

End Trigger.

Module Fire.

(** native_trigger.py:103-111 (Fire attributes) *)
Record t := mk { trigger : Z; cause : Z; epc : Z; tval : Z; why : string }.

End Fire.

Module NativeTriggerModel.

(** native_trigger.py:118-128 (NativeTriggerModel attributes) *)
Record t := mk {
  reentrancy : Reentrancy;
  triggers : gmap Z Trigger.t;
  pending : gmap Z bool
}.

#[global] Instance settable : Settable t := fun m =>
  mk (reentrancy m) (triggers m) (pending m).

(** The keyword arguments of an event.
    native_trigger.py:148-160 (event parameters) *)
Record args := mk_args {
  pc : Z; address : Z; cause : Z; handler : Z; next_pc : Z; mie : bool; mte : bool
}.

(** native_trigger.py:153-159 (event defaults) *)
Definition default_args : args := mk_args 0 0 0 0 0 true true.

#[global] Instance settable_args : Settable args := fun a =>
  mk_args (pc a) (address a) (cause a) (handler a) (next_pc a) (mie a) (mte a).

(** native_trigger.py:130-132 (configure) *)
Definition configure (index tdata1 tdata2 xlen : Z) (m : t) : t :=
  m <| triggers := <[index := Trigger.mk tdata1 tdata2 xlen]> (triggers m) |>
    <| pending := <[index := false]> (pending m) |>.

(** native_trigger.py:135-146 (_suppressed) *)
Definition _suppressed (m : t) (prv : Z) (mie mte : bool) : bool :=
  match reentrancy m with
  | MIE_GATE => (prv =? PRV_M) && negb mie
  | TCONTROL => negb mte
  | NONE => false
  end.

(** [d[index]] of a dictionary with integer keys. *)
Definition at_key {A} (d : gmap Z A) (index : Z) : result A :=
  match d !! index with Some v => Ok v | None => Raise (KeyError (pretty index)) end.

(** native_trigger.py:183-184 (_one, the match bit an event wants) *)
Definition wanted_match (kind : Event) : option string :=
  match kind with
  | EXECUTE => Some "execute" | LOAD => Some "load" | STORE => Some "store"
  | _ => None
  end.

(** native_trigger.py:182-193 (_one, mcontrol6) *)
Definition one_mcontrol6 (index : Z) (tr : Trigger.t) (kind : Event) (prv : Z) (a : args)
    : result (option Fire.t) :=
  match wanted_match kind with
  | None => Ok None
  | Some want =>
      if negb (truthy (dict_get (Trigger.fields tr) want 0)) then Ok None
      else
        try enabled <- Trigger.enabled_in tr prv;;
        if negb enabled then Ok None
        else
          let value := if decide (kind = EXECUTE) then pc a else address a in
          if negb (value =? Trigger.tdata2 tr) then Ok None
          else Ok (Some (Fire.mk index CAUSE_BREAKPOINT (pc a) value
                          ("mcontrol6 " +:+ want +:+ " match on " +:+ py_hex 1 value)))
  end.

(** native_trigger.py:203-204 (_one, the decremented word) *)
Definition with_count (tdata1 count : Z) : result Z :=
  try f <- Register.field ICOUNT "count";;
  Ok (Field.insert f (Z.land tdata1 (Z.lnot (Field.mask f))) count).

(** native_trigger.py:200-209 (_one, icount's decrement) *)
Definition icount_step (index : Z) (tr : Trigger.t) (m : t) : t * result unit :=
  let count := dict_get (Trigger.fields tr) "count" 0 in
  if 0 <? count then
    match with_count (Trigger.tdata1 tr) (count - 1) with
    | Raise e => (m, Raise e)
    | Ok w =>
        let m := m <| triggers := <[index := tr <| Trigger.tdata1 := w |>]> (triggers m) |> in
        (if count - 1 =? 0 then m <| pending := <[index := true]> (pending m) |> else m, Ok tt)
    end
  else (m, Ok tt).

(** native_trigger.py:195-216 (_one, icount) *)
Definition one_icount (index : Z) (tr : Trigger.t) (kind : Event) (prv : Z) (a : args) (m : t)
    : t * result (option Fire.t) :=
  if negb (bool_decide (kind = RETIRE)) then (m, Ok None)
  else
    match Trigger.enabled_in tr prv with
    | Raise e => (m, Raise e)
    | Ok false => (m, Ok None)
    | Ok true =>
        match icount_step index tr m with
        | (m, Raise e) => (m, Raise e)
        | (m, Ok _) =>
            match at_key (pending m) index with
            | Raise e => (m, Raise e)
            | Ok false => (m, Ok None)
            | Ok true =>
                (m <| pending := <[index := false]> (pending m) |>,
                 Ok (Some (Fire.mk index CAUSE_BREAKPOINT (next_pc a) 0 "icount reached 0")))
            end
        end
    end.

(** [(word >> n) & 1] of Python; a negative shift count raises. *)
Definition bit_at (word n : Z) : result bool :=
  if n <? 0 then Raise (ValueError "negative shift count")
  else Ok (truthy (Z.land (Z.shiftr word n) 1)).

(** native_trigger.py:218-229 (_one, itrigger and etrigger) *)
Definition one_trap (index : Z) (tr : Trigger.t) (kind : Event) (prv : Z) (a : args)
    : result (option Fire.t) :=
  let is_itrigger := Trigger.type tr =? TRIGGER_TYPE_ITRIGGER in
  let want := if is_itrigger then INTERRUPT else EXCEPTION in
  if negb (bool_decide (kind = want)) then Ok None
  else
    try enabled <- Trigger.enabled_in tr prv;;
    if negb enabled then Ok None
    else
      try matched <- bit_at (Trigger.tdata2 tr) (cause a);;
      if negb matched then Ok None
      else Ok (Some (Fire.mk index CAUSE_BREAKPOINT (handler a) 0
                      ((if is_itrigger then "itrigger" else "etrigger") +:+
                       " on cause " +:+ pretty (cause a)))).

(** native_trigger.py:176-230 (_one) *)
Definition _one (index : Z) (kind : Event) (prv : Z) (a : args) (m : t)
    : t * result (option Fire.t) :=
  match at_key (triggers m) index with
  | Raise e => (m, Raise e)
  | Ok tr =>
      let ty := Trigger.type tr in
      if negb (dict_get (Trigger.fields tr) "action" TRIGGER_ACTION_BREAKPOINT
               =? TRIGGER_ACTION_BREAKPOINT)
      then (m, Ok None)
      else if ty =? TRIGGER_TYPE_MCONTROL6 then (m, one_mcontrol6 index tr kind prv a)
      else if ty =? TRIGGER_TYPE_ICOUNT then one_icount index tr kind prv a m
      else if (ty =? TRIGGER_TYPE_ITRIGGER) || (ty =? TRIGGER_TYPE_ETRIGGER)
      then (m, one_trap index tr kind prv a)
      else (m, Ok None)
  end.

(** native_trigger.py:170-174 (event, the loop) *)
Fixpoint first_fire (indices : list Z) (kind : Event) (prv : Z) (a : args) (m : t)
    : t * result (option Fire.t) :=
  match indices with
  | [] => (m, Ok None)
  | index :: indices =>
      match _one index kind prv a m with
      | (m, Ok None) => first_fire indices kind prv a m
      | done => done
      end
  end.

(** [sorted(self.triggers)]. *)
Definition sorted_keys {A} (d : gmap Z A) : list Z := merge_sort Z.le (map fst (map_to_list d)).

(** native_trigger.py:148-174 (event) *)
Definition event (kind : Event) (prv : Z) (a : args) (m : t) : t * result (option Fire.t) :=
  if _suppressed m prv (mie a) (mte a) then (m, Ok None)
  else first_fire (sorted_keys (triggers m)) kind prv a m.

End NativeTriggerModel.

Import NativeTriggerModel.

(** ** The count field *)

Lemma testbit_with_count w c v i :
  with_count w c = Ok v -> 0 <= i ->
  Z.testbit v i = if (10 <=? i) && (i <? 24) then Z.testbit c (i - 10) else Z.testbit w i.
Proof.
  intros Hv Hi. cbn in Hv. apply Ok_inj in Hv. subst v.
  rewrite testbit_insert by (cbn; lia). unfold in_field. cbn [Field.lsb Field.width].
  change (10 + 14) with 24. destruct ((10 <=? i) && (i <? 24)) eqn:E; [done|].
  unfold Field.mask. rewrite Z.land_spec, Z.lnot_spec, Z.shiftl_spec by done. cbn [Field.lsb].
  assert (Z.testbit (Field.value_mask (Field.mk "count" 10 14 ACCESS_WARL "Sdtrig 5.7.13 count" (Some 1)))
            (i - 10) = false) as ->; [|apply andb_true_r].
  destruct (Z.ltb_spec i 10); [apply Z.testbit_neg_r; lia|].
  rewrite testbit_value_mask by (cbn; lia). cbn [Field.width]. revert E. by zcases.
Qed.

Lemma extract_same f w v :
  0 <= Field.width f ->
  (forall i, Field.lsb f <= i < Field.lsb f + Field.width f -> Z.testbit w i = Z.testbit v i) ->
  Field.extract f w = Field.extract f v.
Proof.
  intros Hw Hb. apply Z.bits_inj'. intros i Hi. rewrite !testbit_extract by done.
  destruct (Z.ltb_spec i (Field.width f)); [|done]. by rewrite Hb by lia.
Qed.

(** Fields of a decoded icount word away from count do not see the count. *)
Lemma icount_word w c v :
  0 <= c < 2 ^ 14 -> with_count w c = Ok v ->
  Register.decode ICOUNT v =
  map (fun '(n, x) => if String.eqb n "count" then (n, c) else (n, x)) (Register.decode ICOUNT w).
Proof.
  intros Hc Hv. unfold Register.decode. cbn [ICOUNT Register.fields map Field.name].
  assert (forall f, 0 <= Field.lsb f -> 0 <= Field.width f ->
            Field.lsb f + Field.width f <= 10 \/ 24 <= Field.lsb f ->
            Field.extract f v = Field.extract f w) as Hx.
  { intros f Hl Hw Hout. apply extract_same; [done|]. intros i Hi.
    rewrite (testbit_with_count w c v) by (done || lia). by zcases. }
  assert (Field.extract (Field.mk "count" 10 14 ACCESS_WARL "Sdtrig 5.7.13 count" (Some 1)) v = c)
    as Hcount.
  { apply Z.bits_inj'. intros i Hi. rewrite testbit_extract by (cbn; lia). cbn [Field.lsb Field.width].
    rewrite (testbit_with_count w c v) by (done || lia). destruct (Z.ltb_spec i 14).
    - zcases. cbn [andb]. f_equal. lia.
    - symmetry. by apply (bounded_bits 14). }
  cbn [String.eqb Ascii.eqb Bool.eqb].
  repeat (apply (f_equal2 cons); [first [exact (f_equal _ Hcount) | apply (f_equal (pair _)); apply Hx; cbn; lia]|]).
  reflexivity.
Qed.

Lemma with_count_ok w c : exists v, with_count w c = Ok v.
Proof. eexists. reflexivity. Qed.

Lemma with_count_type w c v xlen : with_count w c = Ok v -> tdata1_type v xlen = tdata1_type w xlen.
Proof.
  intros Hv. unfold tdata1_type. apply Z.bits_inj'. intros i Hi.
  rewrite !Z.land_spec, !Z.shiftr_spec by done.
  destruct (xlen =? 64); rewrite (testbit_with_count w c v) by (done || (vm_compute; lia) || (unfold TDATA1_TYPE_LSB_RV64, TDATA1_TYPE_LSB_RV32; lia));
    unfold TDATA1_TYPE_LSB_RV64, TDATA1_TYPE_LSB_RV32; by zcases.
Qed.

(** ** An icount trigger *)

(** Trigger [tr] is an action=0 icount trigger enabled in [prv] with count [n]. *)
Record counting (tr : Trigger.t) (prv n : Z) : Prop := {
  counting_type : Trigger.type tr = TRIGGER_TYPE_ICOUNT;
  counting_action : dict_get (Trigger.fields tr) "action" 0 = TRIGGER_ACTION_BREAKPOINT;
  counting_enabled : Trigger.enabled_in tr prv = Ok true;
  counting_count : dict_get (Trigger.fields tr) "count" 0 = n
}.

Lemma icount_fields tr :
  Trigger.type tr = TRIGGER_TYPE_ICOUNT -> Trigger.fields tr = Register.decode ICOUNT (Trigger.tdata1 tr).
Proof. intros Ht. unfold Trigger.fields. by rewrite Ht. Qed.

Lemma dict_get_set (c : Z) l k :
  k <> "count" ->
  dict_get (map (fun '(n, x) => if String.eqb n "count" then (n, c) else (n, x)) l) k 0 =
  dict_get l k 0.
Proof.
  intros Hk. unfold dict_get. induction l as [|[n x] l IH]; [done|]. cbn.
  destruct (String.eqb_spec n "count") as [->|]; cbn; [|by destruct (String.eqb k n)].
  destruct (String.eqb_spec k "count"); [done|exact IH].
Qed.

Lemma counting_bound tr prv n : counting tr prv n -> 0 <= n < 2 ^ 14.
Proof.
  intros [Ht _ _ <-]. rewrite icount_fields by done.
  apply (extract_bounded (Field.mk "count" 10 14 ACCESS_WARL "Sdtrig 5.7.13 count" (Some 1))).
  cbn. lia.
Qed.

Lemma counting_step tr prv n w :
  counting tr prv n -> 0 < n -> with_count (Trigger.tdata1 tr) (n - 1) = Ok w ->
  counting (tr <| Trigger.tdata1 := w |>) prv (n - 1).
Proof.
  intros Hc Hn Hw. pose proof (counting_bound _ _ _ Hc) as Hb. destruct Hc as [Ht Ha He Hcnt].
  assert (Trigger.type (tr <| Trigger.tdata1 := w |>) = TRIGGER_TYPE_ICOUNT) as Ht'
    by (unfold Trigger.type in *; cbn; by rewrite (with_count_type _ _ _ _ Hw)).
  assert (Trigger.fields (tr <| Trigger.tdata1 := w |>) =
    map (fun '(n', x) => if String.eqb n' "count" then (n', n - 1) else (n', x)) (Trigger.fields tr))
    as Hf.
  { rewrite !icount_fields by done. cbn [Trigger.tdata1]. apply (icount_word _ (n - 1)); [lia|done]. }
  split; [done| | |].
  - by rewrite Hf, dict_get_set.
  - unfold Trigger.enabled_in in *. rewrite Hf.
    destruct (Trigger.mode_field prv) as [name|] eqn:Hm; [|done]. cbn [rbind] in *.
    rewrite dict_get_set; [done|]. unfold Trigger.mode_field in Hm.
    by repeat case_match; simplify_eq.
  - rewrite Hf, icount_fields by done. reflexivity.
Qed.

(** [m] holds the one trigger [tr], not pending, at [index]. *)
Definition only (m : t) (index : Z) (tr : Trigger.t) : Prop :=
  triggers m = {[index := tr]} /\ pending m = {[index := false]}.

Lemma sorted_keys_singleton {A} (i : Z) (x : A) : sorted_keys {[i := x]} = [i].
Proof. unfold sorted_keys. by rewrite map_to_list_singleton. Qed.

Definition icount_fire (index pc : Z) : Fire.t :=
  Fire.mk index CAUSE_BREAKPOINT pc 0 "icount reached 0".

(** One retired instruction. *)
Lemma retire_one m index tr prv n a :
  only m index tr -> counting tr prv n -> _suppressed m prv (mie a) (mte a) = false ->
  exists m' tr',
    event RETIRE prv a m = (m', Ok (if n =? 1 then Some (icount_fire index (next_pc a)) else None)) /\
    only m' index tr' /\ counting tr' prv (Z.max 0 (n - 1)) /\ reentrancy m' = reentrancy m.
Proof.
  intros [Ht Hp] Hc Hs. pose proof (counting_bound _ _ _ Hc) as Hb.
  pose proof Hc as [Hty Ha He Hcnt].
  unfold event. rewrite Hs, Ht, sorted_keys_singleton. cbn [first_fire]. unfold _one, at_key.
  rewrite Ht, lookup_singleton_eq, Hty. unfold TRIGGER_ACTION_BREAKPOINT in *. rewrite Ha.
  cbn. unfold one_icount. cbn. rewrite He. unfold icount_step. rewrite Hcnt.
  destruct (Z.ltb_spec 0 n).
  - destruct (with_count_ok (Trigger.tdata1 tr) (n - 1)) as [w Hw]. rewrite Hw.
    pose proof (counting_step _ _ _ _ Hc ltac:(lia) Hw) as Hc'.
    assert ((n - 1 =? 0) = (n =? 1)) as -> by by zcases.
    destruct (Z.eqb_spec n 1) as [->|]; cbn; unfold at_key; cbn; rewrite Hp, ?Ht.
    + rewrite lookup_insert_eq. eexists _, _. split; [reflexivity|].
      split; [split; cbn|split; [exact Hc'|done]].
      * by rewrite ?Ht, insert_singleton_eq.
      * by rewrite insert_insert_eq, insert_singleton_eq.
    + rewrite lookup_singleton_eq. eexists _, _. split; [reflexivity|].
      split; [split; cbn; [by rewrite insert_singleton_eq|done]|].
      rewrite Z.max_r by lia. by split.
  - replace n with 0 in * by lia. cbn. unfold at_key. rewrite Hp, lookup_singleton_eq.
    exists m, tr. by repeat split.
Qed.

Definition before (pc : Z) (a : args) : args := a <| next_pc := pc |>.

(** Instructions retire one after the other, the next one at each [pc] of [pcs]. *)
Fixpoint retires (prv : Z) (a : args) (pcs : list Z) (m : t) : t * list (result (option Fire.t)) :=
  match pcs with
  | [] => (m, [])
  | pc :: pcs =>
      let (m, r) := event RETIRE prv (before pc a) m in
      let (m, rs) := retires prv a pcs m in
      (m, r :: rs)
  end.

Lemma retires_spec index prv a pcs m tr n :
  only m index tr -> counting tr prv n -> _suppressed m prv (mie a) (mte a) = false ->
  let (m', rs) := retires prv a pcs m in
  rs = imap (fun k pc => Ok (if Z.of_nat k + 1 =? n then Some (icount_fire index pc) else None)) pcs /\
  exists tr', only m' index tr' /\ counting tr' prv (Z.max 0 (n - Z.of_nat (length pcs))).
Proof.
  revert m tr n. induction pcs as [|pc pcs IH]; intros m tr n Ho Hc Hs; cbn [retires].
  { split; [done|]. exists tr. pose proof (counting_bound _ _ _ Hc). cbn.
    by rewrite Z.sub_0_r, Z.max_r by lia. }
  destruct (retire_one m index tr prv n (before pc a) Ho Hc Hs)
    as (m' & tr' & -> & Ho' & Hc' & Hr).
  assert (_suppressed m' prv (mie a) (mte a) = false) as Hs' by (unfold _suppressed in *; by rewrite Hr).
  specialize (IH m' tr' _ Ho' Hc' Hs'). destruct (retires prv a pcs m') as [m2 rs].
  destruct IH as (-> & tr2 & Ho2 & Hc2). cbn [imap length]. split.
  - f_equal; [cbn; f_equal; by zcases|]. apply imap_ext. intros k x _. unfold compose.
    pose proof (counting_bound _ _ _ Hc). do 2 f_equal. by zcases.
  - exists tr2. split; [done|]. pose proof (counting_bound _ _ _ Hc).
    assert (Z.max 0 (n - Z.of_nat (S (length pcs))) =
            Z.max 0 (Z.max 0 (n - 1) - Z.of_nat (length pcs))) as -> by lia. done.
Qed.

(** An action=0 icount trigger with count [n], alone on an unsuppressed hart,
    fires exactly once: at the [n]-th instruction retired in an enabled mode,
    with xepc the next instruction and xtval 0, and never again; its count is
    what is left, down to 0, where it stays. *)
Theorem icount_fires_once index prv a pcs m tr n :
  only m index tr -> counting tr prv n -> _suppressed m prv (mie a) (mte a) = false ->
  let (m', rs) := retires prv a pcs m in
  (forall k pc, pcs !! k = Some pc ->
     rs !! k = Some (Ok (if Z.of_nat k + 1 =? n then Some (icount_fire index pc) else None))) /\
  exists tr', only m' index tr' /\ counting tr' prv (Z.max 0 (n - Z.of_nat (length pcs))).
Proof.
  intros Ho Hc Hs. pose proof (retires_spec index prv a pcs m tr n Ho Hc Hs) as Hr.
  destruct (retires prv a pcs m) as [m' rs]. destruct Hr as [-> Hx]. split; [|exact Hx].
  intros k pc Hk. by rewrite list_lookup_imap, Hk.
Qed.

(** ** Which trigger fires *)

Lemma one_frame i kind prv a m :
  let m' := fst (_one i kind prv a m) in
  reentrancy m' = reentrancy m /\
  (forall j, j <> i -> triggers m' !! j = triggers m !! j /\ pending m' !! j = pending m !! j).
Proof.
  unfold _one, one_icount, icount_step.
  repeat case_match; simplify_eq; cbn; split; try done; intros j Hj; cbn;
    rewrite ?lookup_insert_ne by done; done.
Qed.

(** What trigger [i] does depends on its own entries only. *)
Lemma one_agree i kind prv a m1 m2 :
  triggers m1 !! i = triggers m2 !! i -> pending m1 !! i = pending m2 !! i ->
  snd (_one i kind prv a m1) = snd (_one i kind prv a m2).
Proof.
  intros Ht Hp. unfold _one, at_key. rewrite Ht. destruct (triggers m2 !! i) as [tr|]; [|done].
  do 2 (case_match; [done|]). case_match; [|by case_match].
  unfold one_icount, icount_step. case_match; [done|].
  destruct (Trigger.enabled_in tr prv) as [[]|]; [|done..].
  destruct (0 <? _); [destruct (with_count _ _); [destruct (_ =? 0)|done]|];
    unfold at_key; cbn; rewrite ?lookup_insert_eq, ?Hp; [done|..];
    by destruct (pending m2 !! i) as [[]|].
Qed.

(** What Sdtrig lets a native trigger report. *)
Definition legal_fire (tr : Trigger.t) (kind : Event) (prv : Z) (a : args) (f : Fire.t) : Prop :=
  dict_get (Trigger.fields tr) "action" 0 = TRIGGER_ACTION_BREAKPOINT /\
  Trigger.enabled_in tr prv = Ok true /\ Fire.cause f = CAUSE_BREAKPOINT /\
  ((Trigger.type tr = TRIGGER_TYPE_MCONTROL6 /\
    (exists want, wanted_match kind = Some want /\
       truthy (dict_get (Trigger.fields tr) want 0) = true) /\
    Fire.epc f = pc a /\ Fire.tval f = Trigger.tdata2 tr /\
    Trigger.tdata2 tr = if decide (kind = EXECUTE) then pc a else address a)
   \/ (Trigger.type tr = TRIGGER_TYPE_ICOUNT /\ kind = RETIRE /\
       Fire.epc f = next_pc a /\ Fire.tval f = 0)
   \/ ((Trigger.type tr = TRIGGER_TYPE_ITRIGGER /\ kind = INTERRUPT \/
        Trigger.type tr = TRIGGER_TYPE_ETRIGGER /\ kind = EXCEPTION) /\
       0 <= cause a /\ Z.testbit (Trigger.tdata2 tr) (cause a) = true /\
       Fire.epc f = handler a /\ Fire.tval f = 0)).

Lemma bit_at_true w n : bit_at w n = Ok true -> 0 <= n /\ Z.testbit w n = true.
Proof.
  unfold bit_at. destruct (Z.ltb_spec n 0); [done|]. intros Hb%Ok_inj. split; [done|].
  apply truthy_spec in Hb. change 1 with (Z.ones 1) in Hb. rewrite Z.land_ones in Hb by lia.
  rewrite Z.shiftr_div_pow2, <-Z.bit0_mod, Z.div_pow2_bits, Z.add_0_l in Hb by lia.
  by destruct (Z.testbit w n).
Qed.

Lemma mcontrol6_legal i tr kind prv a f :
  one_mcontrol6 i tr kind prv a = Ok (Some f) ->
  Fire.trigger f = i /\ Trigger.enabled_in tr prv = Ok true /\ Fire.cause f = CAUSE_BREAKPOINT /\
  (exists want, wanted_match kind = Some want /\
     truthy (dict_get (Trigger.fields tr) want 0) = true) /\
  Fire.epc f = pc a /\ Fire.tval f = Trigger.tdata2 tr /\
  Trigger.tdata2 tr = if decide (kind = EXECUTE) then pc a else address a.
Proof.
  unfold one_mcontrol6. destruct (wanted_match kind) as [want|]; [|done].
  destruct (truthy (dict_get _ want 0)) eqn:Hw; [|done]. cbn [negb].
  destruct (Trigger.enabled_in tr prv) as [[]|]; [|done..]. cbn [rbind negb].
  destruct (Z.eqb_spec (if decide (kind = EXECUTE) then pc a else address a) (Trigger.tdata2 tr))
    as [He|]; [|done].
  cbn [negb]. intros [= <-]. split_and!; try done. by exists want.
Qed.

Lemma icount_legal i tr kind prv a m f :
  snd (one_icount i tr kind prv a m) = Ok (Some f) ->
  kind = RETIRE /\ Trigger.enabled_in tr prv = Ok true /\ f = icount_fire i (next_pc a).
Proof.
  unfold one_icount. destruct (bool_decide_reflect (kind = RETIRE)); [|done]. cbn [negb].
  destruct (Trigger.enabled_in tr prv) as [[]|]; [|done..].
  destruct (icount_step i tr m) as [m' [|]]; [|done].
  destruct (at_key (pending m') i) as [[]|]; [|done..]. by intros [= <-].
Qed.

Lemma trap_legal i tr kind prv a f :
  Trigger.type tr = TRIGGER_TYPE_ITRIGGER \/ Trigger.type tr = TRIGGER_TYPE_ETRIGGER ->
  one_trap i tr kind prv a = Ok (Some f) ->
  Fire.trigger f = i /\ Trigger.enabled_in tr prv = Ok true /\ Fire.cause f = CAUSE_BREAKPOINT /\
  (Trigger.type tr = TRIGGER_TYPE_ITRIGGER /\ kind = INTERRUPT \/
   Trigger.type tr = TRIGGER_TYPE_ETRIGGER /\ kind = EXCEPTION) /\
  0 <= cause a /\ Z.testbit (Trigger.tdata2 tr) (cause a) = true /\
  Fire.epc f = handler a /\ Fire.tval f = 0.
Proof.
  intros Hty. unfold one_trap.
  destruct (bool_decide_reflect (kind = (if Trigger.type tr =? TRIGGER_TYPE_ITRIGGER
    then INTERRUPT else EXCEPTION))) as [Hk|]; [|done]. cbn [negb].
  destruct (Trigger.enabled_in tr prv) as [[]|]; [|done..]. cbn [rbind negb].
  destruct (bit_at (Trigger.tdata2 tr) (cause a)) as [[]|] eqn:Hb; [|done..]. cbn [rbind negb].
  apply bit_at_true in Hb as [Hc Hb]. intros [= <-]. split_and!; try done.
  destruct (Z.eqb_spec (Trigger.type tr) TRIGGER_TYPE_ITRIGGER); [by left|].
  destruct Hty; [done|by right].
Qed.

Lemma one_legal i kind prv a m f :
  snd (_one i kind prv a m) = Ok (Some f) ->
  exists tr, triggers m !! i = Some tr /\ Fire.trigger f = i /\ legal_fire tr kind prv a f.
Proof.
  unfold _one, at_key. destruct (triggers m !! i) as [tr|]; [|done].
  destruct (Z.eqb_spec (dict_get (Trigger.fields tr) "action" TRIGGER_ACTION_BREAKPOINT)
              TRIGGER_ACTION_BREAKPOINT) as [Hact|]; [|done]. cbn [negb].
  intros Hf. exists tr. split; [done|]. unfold legal_fire.
  destruct (Z.eqb_spec (Trigger.type tr) TRIGGER_TYPE_MCONTROL6).
  { apply mcontrol6_legal in Hf as (? & ? & ? & ? & ? & ? & ?). split_and!; try done. left. by split_and!. }
  destruct (Z.eqb_spec (Trigger.type tr) TRIGGER_TYPE_ICOUNT).
  { apply icount_legal in Hf as (? & ? & ->). split_and!; try done. right. left. by split_and!. }
  destruct (Z.eqb_spec (Trigger.type tr) TRIGGER_TYPE_ITRIGGER),
    (Z.eqb_spec (Trigger.type tr) TRIGGER_TYPE_ETRIGGER); cbn in Hf; try done;
    apply trap_legal in Hf as (? & ? & ? & ? & ? & ? & ? & ?); auto; split_and!; try done;
    right; right; by split_and!.
Qed.

Lemma first_fire_spec kind prv a f l m m' :
  NoDup l -> first_fire l kind prv a m = (m', Ok (Some f)) ->
  exists l1 l2 tr, l = l1 ++ Fire.trigger f :: l2 /\
    triggers m !! Fire.trigger f = Some tr /\ legal_fire tr kind prv a f /\
    (forall j, j ∈ l1 -> snd (_one j kind prv a m) = Ok None) /\
    (forall j, j ∈ l2 -> triggers m' !! j = triggers m !! j /\ pending m' !! j = pending m !! j).
Proof.
  revert m. induction l as [|i l IH]; intros m Hnd Hf; [done|].
  apply NoDup_cons in Hnd as [Hi Hnd]. cbn [first_fire] in Hf.
  pose proof (one_frame i kind prv a m) as [_ Hfr].
  pose proof (one_legal i kind prv a m) as Hleg.
  destruct (_one i kind prv a m) as [m1 [[g|]|e]] eqn:E; [| |done].
  - apply (f_equal fst) in Hf as H1. apply (f_equal snd) in Hf as H2. cbn in *. simplify_eq.
    destruct (Hleg f eq_refl) as (tr & Htr & <- & Hl). exists [], l, tr. split_and!; try done.
    + intros j Hj. by apply elem_of_nil in Hj.
    + intros j Hj. apply Hfr. by intros ->.
  - destruct (IH m1 Hnd Hf) as (l1 & l2 & tr & -> & Htr & Hl & H1 & H2). cbn in Hfr.
    exists (i :: l1), l2, tr. split; [done|].
    assert (forall j, j ∈ l1 ++ Fire.trigger f :: l2 ->
              triggers m1 !! j = triggers m !! j /\ pending m1 !! j = pending m !! j) as Hag.
    { intros j Hj. apply Hfr. by intros ->. }
    split_and!; [|done| |].
    + rewrite <-Htr. symmetry. apply Hag, elem_of_app. right. by left.
    + intros j [->|Hj]%elem_of_cons; [by rewrite E|]. rewrite <-(H1 j Hj).
      symmetry. apply one_agree; apply Hag, elem_of_app; by left.
    + intros j Hj. destruct (H2 j Hj) as [-> ->]. apply Hag, elem_of_app. right. by right.
Qed.

Lemma sorted_keys_elem {A} (d : gmap Z A) j : j ∈ sorted_keys d <-> is_Some (d !! j).
Proof.
  unfold sorted_keys. rewrite merge_sort_Permutation, list_elem_of_fmap. split.
  - intros ([k x] & -> & Hx%elem_of_map_to_list). by exists x.
  - intros [x Hx%elem_of_map_to_list]. by exists (j, x).
Qed.

Lemma sorted_keys_sorted {A} (d : gmap Z A) : NoDup (sorted_keys d) /\ StronglySorted Z.le (sorted_keys d).
Proof.
  unfold sorted_keys. split.
  - rewrite merge_sort_Permutation. apply NoDup_fst_map_to_list.
  - apply StronglySorted_merge_sort; apply _.
Qed.

Lemma sorted_split l1 l2 i j :
  StronglySorted Z.le (l1 ++ i :: l2) -> NoDup (l1 ++ i :: l2) -> j ∈ l1 ++ i :: l2 ->
  (j < i -> j ∈ l1) /\ (i < j -> j ∈ l2).
Proof.
  intros Hs Hnd Hj. apply StronglySorted_app in Hs as (Hlt & _ & Hs).
  apply StronglySorted_inv in Hs as [_ Hge]. rewrite Forall_forall in Hge.
  apply elem_of_app in Hj as [Hj|[->|Hj]%elem_of_cons].
  - specialize (Hlt j i Hj ltac:(by left)). split; [done|lia].
  - lia.
  - specialize (Hge j Hj). split; [lia|done].
Qed.


(** An event stops at the first trigger that fires: the triggers of higher
    index are left as they were, so an icount trigger among them does not count
    an instruction that did retire in its mode. *)
Theorem fire_starves_later kind prv a m m' f :
  event kind prv a m = (m', Ok (Some f)) ->
  forall j, Fire.trigger f < j -> is_Some (triggers m !! j) ->
    triggers m' !! j = triggers m !! j /\ pending m' !! j = pending m !! j.
Proof.
  unfold event. destruct (_suppressed _ _ _ _); [done|]. intros Hf j Hj Hd%sorted_keys_elem.
  destruct (sorted_keys_sorted (triggers m)) as [Hnd Hs].
  destruct (first_fire_spec kind prv a f _ m m' Hnd Hf) as (l1 & l2 & tr & El & _ & _ & _ & H2).
  apply H2. rewrite El in Hnd, Hs, Hd. by apply (sorted_split l1 l2 (Fire.trigger f) j).
Qed.

(** ** Witnesses *)

(** An icount trigger of count 3 enabled in M and U, and two of count 1. *)
Definition tdata1_icount (count : Z) : Z :=
  value_or 0 (Register.encode ICOUNT [("count", count); ("m", 1); ("u", 1)])
  + Z.shiftl TRIGGER_TYPE_ICOUNT TDATA1_TYPE_LSB_RV64.
Definition no_triggers : t := mk MIE_GATE ∅ ∅.
Definition m_icount : t := configure 0 (tdata1_icount 3) 0 64 no_triggers.
Definition m_two : t := configure 1 (tdata1_icount 1) 0 64 (configure 0 (tdata1_icount 1) 0 64 no_triggers).

Lemma icount_fires_once_witness :
  let pcs := [0x10; 0x14; 0x18; 0x1c] in
  let (m', rs) := retires PRV_U default_args pcs m_icount in
  (forall k pc, pcs !! k = Some pc ->
     rs !! k = Some (Ok (if Z.of_nat k + 1 =? 3 then Some (icount_fire 0 pc) else None))) /\
  exists tr', only m' 0 tr' /\ counting tr' PRV_U (Z.max 0 (3 - Z.of_nat (length pcs))).
Proof.
  intros pcs. apply (icount_fires_once 0 PRV_U default_args pcs m_icount
                       (Trigger.mk (tdata1_icount 3) 0 64) 3).
  - split; vm_compute; reflexivity.
  - split; vm_compute; reflexivity.
  - vm_compute. reflexivity.
Defined.


(** Both triggers should fire on the first instruction; the second still has
    its count of 1 afterwards. *)
Lemma fire_starves_later_witness :
  let a := before 0x40 default_args in
  let m' := fst (event RETIRE PRV_U a m_two) in
  triggers m' !! 1 = triggers m_two !! 1 /\ pending m' !! 1 = pending m_two !! 1.
Proof.
  intros a m'. apply (fire_starves_later RETIRE PRV_U a m_two m' (icount_fire 0 0x40)).
  - vm_compute. reflexivity.
  - reflexivity.
  - vm_compute. eauto.
Defined.
