(* ===== verification/Session.v ===== *)
(** Debug sessions: [api/session.py].

    A step is a function on the world the steps share (the transport and the
    command library) that also says how it ended.  The text a session prints goes
    through [_out], to standard output or, line by line, to the sink.  User input
    is a list, [None] standing for an end of file or an interrupt at the prompt. *)

From S2P Require Import Prelude.

Local Open Scope string_scope.
Local Open Scope list_scope.
Local Open Scope Z_scope.

(** The line feed, and a string of [n] copies of a character. *)
Definition newline : string := String (Ascii.ascii_of_nat 10) EmptyString.

Fixpoint rule (c : Ascii.ascii) (n : nat) : string :=
  match n with O => EmptyString | S n => String c (rule c n) end.

(** ** The output sink *)

(** The module's [_sink] and [_pending], and what has been written so far.
    session.py:51-52 (_sink, _pending) *)
Record Output := mk_output {
  to_sink : bool;
  _pending : string;
  sunk : list string;
  stdout : string
}.

#[export] Instance output_settable : Settable Output := fun o =>
  mk_output (to_sink o) (_pending o) (sunk o) (stdout o).

(** session.py:55-59 (set_output_sink) *)
Definition set_output_sink (on : bool) (o : Output) : Output :=
  o <| to_sink := on |> <| _pending := EmptyString |>.

(** [s.split("\n")]. *)
Fixpoint split_lines (s : string) : list string :=
  match s with
  | EmptyString => [EmptyString]
  | String c s =>
      if Ascii.eqb c (Ascii.ascii_of_nat 10) then EmptyString :: split_lines s
      else match split_lines s with
           | l :: ls => String c l :: ls
           | [] => [String c EmptyString]
           end
  end.

(** [s.endswith("\n")]. *)
Fixpoint ends_with_newline (s : string) : bool :=
  match s with
  | EmptyString => false
  | String c EmptyString => Ascii.eqb c (Ascii.ascii_of_nat 10)
  | String _ s => ends_with_newline s
  end.

(** session.py:62-72 (_out) *)
Definition _out (text ends : string) (o : Output) : Output :=
  if negb (to_sink o) then o <| stdout := stdout o +:+ (text +:+ ends) |>
  else
    let o := o <| _pending := _pending o +:+ text |> in
    if ends_with_newline ends
    then o <| sunk := sunk o ++ split_lines (_pending o) |> <| _pending := EmptyString |>
    else o.

(** [_out(text)], with the default line end. *)
Definition out_line (text : string) : Output -> Output := _out text newline.

(** ** Steps and their results *)

Module StepResult.

(** session.py:75-79 (StepResult attributes) *)
Record t := mk { ok : bool; msg : string; data : option Z }.

End StepResult.

(** How a step function ends: with nothing, a [StepResult], a dictionary with
    some of the three keys, another value (as [str] shows it), or an exception. *)
Inductive Ended :=
  | Returned_none
  | Returned_result (r : StepResult.t)
  | Returned_dict (ok : option bool) (msg : option string) (data : option Z)
  | Returned_value (str : string)
  | Raised (e : exn).

(** [str(exc)]: a [KeyError] shows the repr of its key. *)
Definition str_exn (e : exn) : string :=
  match e with
  | KeyError k => "'" +:+ k +:+ "'"
  | ValueError m | IndexError m | AttributeError m | DebugError m | TransportError m
  | KeyboardInterrupt m | TypeError m | FileNotFoundError m | RuntimeError m | OSError m => m
  | OutOfFuel => EmptyString
  end.

(** [except Exception] lets [KeyboardInterrupt] through. *)
Definition is_Exception (e : exn) : bool :=
  match e with KeyboardInterrupt _ => false | _ => true end.

(** session.py:185-203 (_invoke) *)
Definition _invoke (ended : Ended) : result StepResult.t :=
  match ended with
  | Raised e =>
      if is_Exception e then Ok (StepResult.mk false (str_exn e) None) else Raise e
  | Returned_none => Ok (StepResult.mk true EmptyString None)
  | Returned_result r => Ok r
  | Returned_dict ok msg data =>
      Ok (StepResult.mk (default true ok) (default EmptyString msg) data)
  | Returned_value str => Ok (StepResult.mk true str None)
  end.

(** session.py:36-36 (MODES) *)
Definition MODES : list string := ["interactive"; "batch"].

(** [f"{n:02d}"]. *)
Definition two_digits (n : Z) : string :=
  if (0 <=? n) && (n <? 10) then "0" +:+ pretty n else pretty n.

(** [s.strip().lower()] of an ASCII line. *)
Definition is_space (c : Ascii.ascii) : bool :=
  let n := Ascii.nat_of_ascii c in
  Nat.eqb n 32 || (Nat.leb 9 n && Nat.leb n 13) || (Nat.leb 28 n && Nat.leb n 31).

Fixpoint lstrip (s : string) : string :=
  match s with
  | String c s' => if is_space c then lstrip s' else s
  | EmptyString => EmptyString
  end.

Fixpoint rstrip (s : string) : string :=
  match s with
  | EmptyString => EmptyString
  | String c s =>
      match rstrip s with
      | EmptyString => if is_space c then EmptyString else String c EmptyString
      | s => String c s
      end
  end.

Definition lower_ascii (c : Ascii.ascii) : Ascii.ascii :=
  let n := Ascii.nat_of_ascii c in
  if Nat.leb 65 n && Nat.leb n 90 then Ascii.ascii_of_nat (n + 32) else c.

Fixpoint lower (s : string) : string :=
  match s with EmptyString => EmptyString | String c s => String (lower_ascii c) (lower s) end.

Definition strip_lower (s : string) : string := lower (rstrip (lstrip s)).

(** What the user's answer at the prompt asks for. *)
Inductive Choice := Execute | Skip | Quit | Help | Unknown.

(** session.py:153-172 (_run_step_interactive, the branches) *)
Definition choice_of (choice : string) : Choice :=
  if String.eqb choice "e" || String.eqb choice EmptyString then Execute
  else if String.eqb choice "s" then Skip
  else if String.eqb choice "q" then Quit
  else if String.eqb choice "?" then Help
  else Unknown.

(** session.py:148-151 (_run_step_interactive, reading the choice) *)
Definition read_choice (input : option string) : string :=
  match input with Some line => strip_lower line | None => "q" end.

Module DebugSession.

Section session.
Context {W : Type}.

(** A step function. *)
Definition step : Type := W -> W * Ended.

(** session.py:99-102 (DebugSession attributes) *)
Record t := mk {
  mode : string;
  stop_on_error : bool;
  _steps : list (string * step);
  _results : list StepResult.t
}.

#[global] Instance settable : Settable t := fun s =>
  mk (mode s) (stop_on_error s) (_steps s) (_results s).

(** What a session acts on: the steps' world, the output, and the input to come. *)
Record env := mk_env {
  world : W;
  output : Output;
  inputs : list (option string)
}.

#[global] Instance env_settable : Settable env := fun e =>
  mk_env (world e) (output e) (inputs e).

Definition say (text : string) (e : env) : env := e <| output := out_line text (output e) |>.

(** session.py:92-102 (__init__) *)
Definition init (mode : string) (stop_on_error : bool) : result t :=
  if bool_decide (mode ∈ MODES) then Ok (mk mode stop_on_error [] [])
  else Raise (ValueError ("mode must be one of ('interactive', 'batch'), got '" +:+ mode +:+ "'")).

(** session.py:106-115 (add_step) *)
Definition add_step (name : string) (fn : step) (s : t) : t :=
  s <| _steps := _steps s ++ [(name, fn)] |>.

(** [self._invoke(fn)] on the shared world. *)
Definition invoke (fn : step) (e : env) : env * result StepResult.t :=
  let (w, ended) := fn (world e) in (e <| world := w |>, _invoke ended).

(** session.py:205-207 (_print_result) *)
Definition _print_result (r : StepResult.t) : env -> env :=
  say ("  " +:+ (if StepResult.ok r then "OK" else "ERR") +:+ " " +:+ StepResult.msg r).

(** session.py:176-181 (_run_step_batch) *)
Definition _run_step_batch (idx : Z) (name : string) (fn : step) (e : env)
    : env * result StepResult.t :=
  let e := e <| output := _out ("  [" +:+ two_digits idx +:+ "] " +:+ name +:+ " ...") " "
                               (output e) |> in
  match invoke fn e with
  | (e, Ok r) =>
      let tag := if StepResult.ok r then "ok" else "FAIL" in
      (say ("[" +:+ tag +:+ "]  " +:+ StepResult.msg r) e, Ok r)
  | (e, Raise x) => (e, Raise x)
  end.

(** session.py:146-172 (_run_step_interactive, the loop) *)
Fixpoint prompt (ins : list (option string)) (fn : step) (e : env)
    : env * result StepResult.t :=
  let e := say "  [e] Execute   [s] Skip   [q] Quit   [?] Help" e in
  let quit e := (say "  -> Quit requested." e, Raise (KeyboardInterrupt "user quit")) in
  match ins with
  | [] => quit (e <| inputs := [] |>)
  | input :: ins =>
      let e := e <| inputs := ins |> in
      let choice := read_choice input in
      match choice_of choice with
      | Execute =>
          match invoke fn e with
          | (e, Ok r) => (_print_result r e, Ok r)
          | (e, Raise x) => (e, Raise x)
          end
      | Skip => (say "  -> Skipped." e, Ok (StepResult.mk true "(skipped by user)" None))
      | Quit => quit e
      | Help =>
          prompt ins fn
            (say "  q         - abort the session"
              (say "  s         - skip this step (mark ok, continue)"
                (say "  e / Enter - execute this step" e)))
      | Unknown => prompt ins fn (say ("  Unknown option: '" +:+ choice +:+ "'") e)
      end
  end.

Definition dashes : string := rule (Ascii.ascii_of_nat 45) 60.
Definition doubles : string := rule (Ascii.ascii_of_nat 61) 60.

(** session.py:141-172 (_run_step_interactive) *)
Definition _run_step_interactive (s : t) (idx : Z) (name : string) (fn : step) (e : env)
    : env * result StepResult.t :=
  let e := say (newline +:+ dashes) e in
  let e := say ("  Step " +:+ pretty idx +:+ "/" +:+ pretty (Z.of_nat (length (_steps s))) +:+
                ": " +:+ name) e in
  let e := say dashes e in
  prompt (inputs e) fn e.

(** session.py:209-213 (_print_header) *)
Definition _print_header (s : t) (e : env) : env :=
  let mode_str := if String.eqb (mode s) "interactive" then "INTERACTIVE" else "BATCH" in
  say doubles
    (say ("  Debug Session  [" +:+ mode_str +:+ "]  " +:+
          pretty (Z.of_nat (length (_steps s))) +:+ " step(s)")
      (say (newline +:+ doubles) e)).

(** session.py:232-236 (failed_count) *)
Definition failed_count (s : t) : nat :=
  length (List.filter (fun r => negb (StepResult.ok r)) (_results s)).

(** session.py:228-230 (all_passed) *)
Definition all_passed (s : t) : bool := forallb StepResult.ok (_results s).

(** session.py:224-226 (results) *)
Definition results (s : t) : list StepResult.t := _results s.

(** session.py:215-222 (_print_summary) *)
Definition _print_summary (s : t) (e : env) : env :=
  let total := Z.of_nat (length (_results s)) in
  let passed := Z.of_nat (length (List.filter StepResult.ok (_results s))) in
  let failed := total - passed in
  let e := say (newline +:+ doubles) e in
  let e := e <| output := _out ("  Session complete - " +:+ pretty passed +:+ "/" +:+ pretty total
                                +:+ " passed") EmptyString (output e) |> in
  let e := say (if truthy failed then "  (" +:+ pretty failed +:+ " failed)" else EmptyString) e in
  say (doubles +:+ newline) e.

(** session.py:130-130 (run, keeping a result) *)
Definition keep (r : StepResult.t) (s : t) : t := s <| _results := _results s ++ [r] |>.

(** session.py:124-134 (run, the loop) *)
Fixpoint run_steps (idx : Z) (steps : list (string * step)) (s : t) (e : env)
    : t * env * result unit :=
  match steps with
  | [] => (s, e, Ok tt)
  | (name, fn) :: steps =>
      let (e, r) := if String.eqb (mode s) "interactive"
                    then _run_step_interactive s idx name fn e
                    else _run_step_batch idx name fn e in
      match r with
      | Raise x => (s, e, Raise x)
      | Ok r =>
          let s := keep r s in
          if negb (StepResult.ok r) && stop_on_error s
          then (s, say (newline +:+ "  [ABORT] Step " +:+ pretty idx +:+
                        " failed - stopping session." +:+ newline) e, Ok tt)
          else run_steps (idx + 1) steps s e
      end
  end.

(** session.py:119-137 (run) *)
Definition run (s : t) (e : env) : t * env * result (list StepResult.t) :=
  let s := s <| _results := [] |> in
  let e := _print_header s e in
  match run_steps 1 (_steps s) s e with
  | (s, e, Raise x) => (s, e, Raise x)
  | (s, e, Ok _) => (s, _print_summary s e, Ok (_results s))
  end.

End session.
Arguments t : clear implicits.
Arguments env : clear implicits.
Arguments step : clear implicits.

End DebugSession.

Import DebugSession.

(** ** A run, with its printing put aside *)

Section runs.
Context {W : Type}.

(** The steps run in order on the world [w]; with [stop], up to the first that
    fails; an exception that is no [Exception] ends the run. *)
Fixpoint collect (stop : bool) (steps : list (string * step W)) (w : W)
    : W * list StepResult.t * result unit :=
  match steps with
  | [] => (w, [], Ok tt)
  | (_, fn) :: steps =>
      let (w, ended) := fn w in
      match _invoke ended with
      | Raise x => (w, [], Raise x)
      | Ok r =>
          if negb (StepResult.ok r) && stop then (w, [r], Ok tt)
          else let '(w, rs, x) := collect stop steps w in (w, r :: rs, x)
      end
  end.

(** Every step's result, all of them run in order whatever happens. *)
Fixpoint all_results (steps : list (string * step W)) (w : W) : list (result StepResult.t) :=
  match steps with
  | [] => []
  | (_, fn) :: steps => let (w, ended) := fn w in _invoke ended :: all_results steps w
  end.

Definition succeeded (r : result StepResult.t) : Prop :=
  exists v, r = Ok v /\ StepResult.ok v = true.

Lemma collect_verdict stop steps w :
  let '(_, rs, x) := collect stop steps w in
  x = Ok tt ->
  forallb StepResult.ok rs = true <-> Forall succeeded (all_results steps w).
Proof.
  revert w. induction steps as [|[n fn] steps IH]; intros w; cbn.
  { intros _. split; [constructor|done]. }
  destruct (fn w) as [w' ended]. destruct (_invoke ended) as [r|x] eqn:Ei; [|done].
  specialize (IH w'). destruct (StepResult.ok r) eqn:Er; cbn [negb andb].
  - destruct (collect stop steps w') as [[w2 rs] x]. intros ->.
    specialize (IH eq_refl). rewrite Forall_cons. cbn. rewrite Er. cbn. rewrite IH.
    split; [|by intros [_ ?]]. intros ?. split; [by exists r|done].
  - assert (~ Forall succeeded (Ok r :: all_results steps w')) as Hno.
    { intros [(v & Hv & Ho) _]%Forall_cons. apply Ok_inj in Hv. congruence. }
    destruct stop; [|destruct (collect false steps w') as [[w2 rs] x]];
      intros _; cbn; rewrite Er; cbn; (split; [done|intros Hf; by destruct Hno]).
Qed.

(** A stopped run fails at most once, in its last step. *)
Lemma collect_failures steps w :
  let '(_, rs, _) := collect true steps w in
  (length (List.filter (fun r => negb (StepResult.ok r)) rs) <= 1)%nat.
Proof.
  revert w. induction steps as [|[n fn] steps IH]; intros w; cbn; [lia|].
  destruct (fn w) as [w' ended]. destruct (_invoke ended) as [r|x]; [|cbn; lia].
  destruct (StepResult.ok r) eqn:Er; cbn [negb andb].
  - specialize (IH w'). destruct (collect true steps w') as [[w2 rs] x]. cbn. by rewrite Er.
  - cbn. rewrite Er. cbn. lia.
Qed.

Lemma world_say text (e : env W) : world (say text e) = world e /\ inputs (say text e) = inputs e.
Proof. done. Qed.

Lemma run_steps_batch idx steps (s : t W) e :
  mode s = "batch" ->
  let '(s', e', r) := run_steps idx steps s e in
  let '(w, rs, x) := collect (stop_on_error s) steps (world e) in
  world e' = w /\ inputs e' = inputs e /\ r = x /\ _results s' = _results s ++ rs /\
  _steps s' = _steps s.
Proof.
  revert idx s e. induction steps as [|[n fn] steps IH]; intros idx s e Hm; cbn.
  { by rewrite app_nil_r. }
  rewrite Hm. cbn [String.eqb]. unfold _run_step_batch, invoke. cbn.
  destruct (fn (world e)) as [w ended]. destruct (_invoke ended) as [r|x]; cbn.
  2:{ by rewrite app_nil_r. }
  destruct (negb (StepResult.ok r) && stop_on_error s); [done|].
  set (s1 := keep r s). set (e1 := say _ _).
  specialize (IH (idx + 1) s1 e1 Hm). change (stop_on_error s1) with (stop_on_error s) in IH.
  change (world e1) with w in IH.
  destruct (run_steps (idx + 1) steps s1 e1) as [[s' e'] r'].
  destruct (collect (stop_on_error s) steps w) as [[w2 rs] x].
  destruct IH as (? & ? & ? & Hr & ?). split_and!; try done. rewrite Hr. cbn. by rewrite <-app_assoc.
Qed.


(** A step that succeeds from the worlds of [P] and leaves one of [Q]; and steps
    that each succeed where the one before leaves the world. *)
Definition passes (P : W -> Prop) (fn : step W) (Q : W -> Prop) : Prop :=
  forall w, P w -> succeeded (_invoke (snd (fn w))) /\ Q (fst (fn w)).

Lemma passes_from (P P' Q : W -> Prop) fn :
  passes P fn Q -> (forall w, P' w -> P w) -> passes P' fn Q.
Proof. intros Hp Hi w Hw. apply Hp, Hi, Hw. Qed.

Inductive chain : (W -> Prop) -> list (string * step W) -> (W -> Prop) -> Prop :=
  | chain_nil P : chain P [] P
  | chain_cons P Q R n fn steps :
      passes P fn Q -> chain Q steps R -> chain P ((n, fn) :: steps) R.

Lemma chain_app P l1 Q l2 R : chain P l1 Q -> chain Q l2 R -> chain P (l1 ++ l2) R.
Proof. induction 1; intros H2; [done|]. econstructor; eauto. Qed.

Lemma chain_collect stop P steps Q w :
  chain P steps Q -> P w ->
  let '(w', rs, x) := collect stop steps w in
  x = Ok tt /\ length rs = length steps /\ forallb StepResult.ok rs = true /\ Q w'.
Proof.
  intros Hc. revert w. induction Hc as [P|P Q R n fn steps Hs Hc IH]; intros w Hp; [done|].
  cbn. destruct (Hs w Hp) as [(r & Hr & Hok) Hq]. destruct (fn w) as [w1 ended]. cbn in Hr, Hq.
  rewrite Hr, Hok. cbn [negb andb]. specialize (IH w1 Hq).
  destruct (collect stop steps w1) as [[w2 rs] x]. destruct IH as (-> & Hl & Ho & HR).
  cbn. rewrite Hl, Hok. done.
Qed.

(** A run that executes every step of the session, each with a passing result. *)
Definition passed (s : t W) (e : env W) : Prop :=
  let '(s', _, r) := run s e in
  all_passed s' = true /\ r = Ok (_results s') /\ length (_results s') = length (_steps s).

Lemma passed_all (s : t W) (e : env W) : passed s e -> all_passed (fst (fst (run s e))) = true.
Proof. unfold passed. destruct (run s e) as [[s' e'] r]. by intros [Ha _]. Qed.

(** Such a session passes in batch mode. *)
Lemma batch_passes (s : t W) (e : env W) P Q :
  mode s = "batch" -> chain P (_steps s) Q -> P (world e) ->
  passed s e /\ Q (world (snd (fst (run s e)))).
Proof.
  intros Hm Hc Hp. unfold passed, run. set (s0 := s <| _results := [] |>). set (e0 := _print_header s0 e).
  pose proof (run_steps_batch 1 (_steps s0) s0 e0 Hm) as Hr.
  change (_steps s0) with (_steps s) in *. change (world e0) with (world e) in Hr.
  pose proof (chain_collect (stop_on_error s0) P (_steps s) Q (world e) Hc Hp) as Hx.
  destruct (run_steps 1 (_steps s) s0 e0) as [[s' e'] r].
  destruct (collect (stop_on_error s0) (_steps s) (world e)) as [[w rs] x].
  destruct Hr as (Hw & _ & -> & Hrs & _). destruct Hx as (-> & Hl & Ho & HQ).
  cbn in Hrs. unfold all_passed. cbn. rewrite Hrs, Hl. split; [done|]. by rewrite Hw.
Qed.

(** A step that always fails where the ones before it leave the world. *)
Lemma chain_fails P steps Q n fn more w :
  chain P steps Q -> P w ->
  (forall w, Q w -> exists r, _invoke (snd (fn w)) = Ok r /\ StepResult.ok r = false) ->
  let '(_, rs, _) := collect false (steps ++ (n, fn) :: more) w in forallb StepResult.ok rs = false.
Proof.
  intros Hc Hp Hf. revert w Hp. induction Hc as [P|P Q R n' fn' steps Hs Hc IH]; intros w Hp; cbn.
  - destruct (Hf w Hp) as (r & Hr & Hok). destruct (fn w) as [w1 ended]. cbn in Hr. rewrite Hr, Hok.
    cbn. destruct (collect false more w1) as [[w2 rs] x]. cbn. by rewrite Hok.
  - destruct (Hs w Hp) as [(r & Hr & Hok) Hq]. destruct (fn' w) as [w1 ended]. cbn in Hr, Hq.
    rewrite Hr, Hok. cbn. specialize (IH Hf w1 Hq).
    destruct (collect false (steps ++ (n, fn) :: more) w1) as [[w2 rs] x]. cbn. by rewrite Hok.
Qed.

Lemma batch_fails (s : t W) (e : env W) P steps Q n fn more :
  mode s = "batch" -> stop_on_error s = false -> _steps s = steps ++ (n, fn) :: more ->
  chain P steps Q -> P (world e) ->
  (forall w, Q w -> exists r, _invoke (snd (fn w)) = Ok r /\ StepResult.ok r = false) ->
  all_passed (fst (fst (run s e))) = false.
Proof.
  intros Hm Hst Hl Hc Hp Hf. unfold run.
  set (s0 := s <| _results := [] |>). set (e0 := _print_header s0 e).
  pose proof (run_steps_batch 1 (_steps s0) s0 e0 Hm) as Hr.
  change (_steps s0) with (_steps s) in *. change (world e0) with (world e) in Hr.
  change (stop_on_error s0) with (stop_on_error s) in Hr. rewrite Hst, Hl in Hr.
  pose proof (chain_fails P steps Q n fn more (world e) Hc Hp Hf) as Hx. rewrite Hl.
  destruct (run_steps 1 _ s0 e0) as [[s' e'] r].
  destruct (collect false _ (world e)) as [[w rs] x]. destruct Hr as (_ & _ & -> & Hrs & _).
  cbn in Hrs. unfold all_passed. destruct x; cbn; by rewrite Hrs.
Qed.

(** The user's next decision, past the questions for help and the typing errors,
    and the input that is left; at the end of the input the session is quit. *)
Fixpoint next_choice (ins : list (option string)) : Choice * list (option string) :=
  match ins with
  | [] => (Quit, [])
  | input :: ins =>
      match choice_of (read_choice input) with
      | Help | Unknown => next_choice ins
      | c => (c, ins)
      end
  end.

Definition skipped : StepResult.t := StepResult.mk true "(skipped by user)" None.

(** An interactive run: each step is executed or skipped as the user decides. *)
Fixpoint collect_chosen (stop : bool) (steps : list (string * step W)) (w : W)
    (ins : list (option string))
    : W * list (option string) * list StepResult.t * result unit :=
  match steps with
  | [] => (w, ins, [], Ok tt)
  | (_, fn) :: steps =>
      match next_choice ins with
      | (Skip, ins) =>
          let '(w, ins, rs, x) := collect_chosen stop steps w ins in (w, ins, skipped :: rs, x)
      | (Execute, ins) =>
          let (w, ended) := fn w in
          match _invoke ended with
          | Raise x => (w, ins, [], Raise x)
          | Ok r =>
              if negb (StepResult.ok r) && stop then (w, ins, [r], Ok tt)
              else let '(w, ins, rs, x) := collect_chosen stop steps w ins in (w, ins, r :: rs, x)
          end
      | (_, ins) => (w, ins, [], Raise (KeyboardInterrupt "user quit"))
      end
  end.

Lemma prompt_decides ins (fn : step W) e :
  let (e', r) := prompt ins fn e in
  match next_choice ins with
  | (Skip, rest) => world e' = world e /\ inputs e' = rest /\ r = Ok skipped
  | (Execute, rest) =>
      world e' = fst (fn (world e)) /\ inputs e' = rest /\ r = _invoke (snd (fn (world e)))
  | (_, rest) =>
      world e' = world e /\ inputs e' = rest /\ r = Raise (KeyboardInterrupt "user quit")
  end.
Proof.
  revert e. induction ins as [|i ins IH]; intros e; cbn [prompt next_choice]; [done|].
  assert (forall e1, world e1 = world e ->
    let (e', r) := prompt ins fn e1 in
    match next_choice ins with
    | (Skip, rest) => world e' = world e /\ inputs e' = rest /\ r = Ok skipped
    | (Execute, rest) =>
        world e' = fst (fn (world e)) /\ inputs e' = rest /\ r = _invoke (snd (fn (world e)))
    | (_, rest) =>
        world e' = world e /\ inputs e' = rest /\ r = Raise (KeyboardInterrupt "user quit")
    end) as IH' by (intros e1 <-; apply IH).
  destruct (choice_of (read_choice i)); [|done|done|by apply IH'..].
  unfold invoke. cbn. destruct (fn (world e)) as [w ended]. cbn.
  by destruct (_invoke ended).
Qed.

Lemma run_steps_interactive idx steps (s : t W) e :
  mode s = "interactive" ->
  let '(s', e', r) := run_steps idx steps s e in
  let '(w, ins, rs, x) := collect_chosen (stop_on_error s) steps (world e) (inputs e) in
  world e' = w /\ inputs e' = ins /\ r = x /\ _results s' = _results s ++ rs.
Proof.
  revert idx s e. induction steps as [|[n fn] steps IH]; intros idx s e Hm; cbn [run_steps collect_chosen].
  { by rewrite app_nil_r. }
  rewrite Hm. cbn [String.eqb Ascii.eqb Bool.eqb]. unfold _run_step_interactive.
  set (e1 := say dashes _). change (inputs e1) with (inputs e).
  pose proof (prompt_decides (inputs e) fn e1) as Hp. change (world e1) with (world e) in Hp.
  destruct (prompt (inputs e) fn e1) as [e2 r]. clearbody e1. clear e1.
  assert (forall x,
    let '(s', e', y) := run_steps (idx + 1) steps (keep x s) e2 in
    let '(w, ins, rs, z) := collect_chosen (stop_on_error s) steps (world e2) (inputs e2) in
    world e' = w /\ inputs e' = ins /\ y = z /\ _results s' = _results s ++ x :: rs) as Hnext.
  { intros x. specialize (IH (idx + 1) (keep x s) e2 Hm).
    change (stop_on_error (keep x s)) with (stop_on_error s) in IH.
    destruct (run_steps (idx + 1) steps (keep x s) e2) as [[s' e'] y].
    destruct (collect_chosen (stop_on_error s) steps (world e2) (inputs e2)) as [[[w ins] rs] z].
    destruct IH as (? & ? & ? & Hr). split_and!; try done. rewrite Hr. cbn. by rewrite <-app_assoc. }
  destruct (next_choice (inputs e)) as [[] rest]; destruct Hp as (Hw & Hi & ->).
  - destruct (fn (world e)) as [w ended]. cbn in Hw |- *. destruct (_invoke ended) as [x|x].
    2:{ by rewrite app_nil_r. }
    destruct (negb (StepResult.ok x) && stop_on_error s); [done|].
    specialize (Hnext x). rewrite Hw, Hi in Hnext.
    destruct (run_steps (idx + 1) steps (keep _ s) e2) as [[s' e'] y].
    by destruct (collect_chosen (stop_on_error s) steps w rest) as [[[w' ins] rs] z].
  - specialize (Hnext skipped). rewrite Hw, Hi in Hnext. cbn [negb andb StepResult.ok skipped].
    destruct (run_steps (idx + 1) steps (keep _ s) e2) as [[s' e'] y].
    by destruct (collect_chosen (stop_on_error s) steps (world e) rest) as [[[w' ins] rs] z].
  - by rewrite app_nil_r.
  - by rewrite app_nil_r.
  - by rewrite app_nil_r.
Qed.

(** An interactive run follows the user's decisions: help and typing errors
    only ask again, an executed step acts as in batch mode, a skipped one is not
    run and counts as passed, and quitting (or the end of the input) raises
    KeyboardInterrupt with the results so far kept. *)
Theorem interactive_run (s : t W) (e : env W) :
  mode s = "interactive" ->
  let '(s', e', r) := run s e in
  let '(w, ins, rs, x) := collect_chosen (stop_on_error s) (_steps s) (world e) (inputs e) in
  world e' = w /\ inputs e' = ins /\ _results s' = rs /\ r = rmap (fun _ => rs) x.
Proof.
  intros Hm. unfold run. set (s0 := s <| _results := [] |>). set (e0 := _print_header s0 e).
  pose proof (run_steps_interactive 1 (_steps s0) s0 e0 Hm) as Hr.
  change (_steps s0) with (_steps s) in *. change (stop_on_error s0) with (stop_on_error s) in Hr.
  change (world e0) with (world e) in Hr. change (inputs e0) with (inputs e) in Hr.
  destruct (run_steps 1 (_steps s) s0 e0) as [[s' e'] r].
  destruct (collect_chosen _ _ _ _) as [[[w ins] rs] x]. destruct Hr as (? & ? & -> & Hrs).
  cbn in Hrs. destruct x; cbn; split_and!; try done. by rewrite Hrs.
Qed.

End runs.

(** ** The sink *)

Definition joined (lines : list string) : string :=
  fold_right (fun l acc => l +:+ newline +:+ acc) EmptyString lines.

Lemma app_assoc_string (a b c : string) : a +:+ (b +:+ c) = (a +:+ b) +:+ c.
Proof. induction a as [|x a IH]; [done|]. exact (f_equal (String x) IH). Qed.

Lemma app_empty_r (a : string) : a +:+ EmptyString = a.
Proof. induction a as [|x a IH]; [done|]. exact (f_equal (String x) IH). Qed.

Lemma split_lines_not_nil s : split_lines s <> [].
Proof.
  destruct s as [|c s]; [done|]. cbn. destruct (Ascii.eqb _ _); [done|].
  by destruct (split_lines s).
Qed.

Lemma joined_split s : joined (split_lines s) = s +:+ newline.
Proof.
  induction s as [|c s IH]; [done|]. cbn [split_lines].
  destruct (Ascii.eqb_spec c (Ascii.ascii_of_nat 10)) as [->|].
  - exact (f_equal (String _) IH).
  - pose proof (split_lines_not_nil s). destruct (split_lines s) as [|l ls]; [done|].
    exact (f_equal (String c) IH).
Qed.

Lemma joined_app l1 l2 : joined (l1 ++ l2) = joined l1 +:+ joined l2.
Proof.
  induction l1 as [|l l1 IH]; [done|].
  change (joined ((l :: l1) ++ l2)) with (l +:+ (newline +:+ joined (l1 ++ l2))).
  change (joined (l :: l1)) with (l +:+ (newline +:+ joined l1)).
  by rewrite IH, !app_assoc_string.
Qed.

(** The calls of [_out] in order, on either destination. *)
Definition outs (calls : list (string * string)) (o : Output) : Output :=
  fold_left (fun o '(text, ends) => _out text ends o) calls o.

(** The text a destination has been given: what was printed, or the lines sunk
    and the partial line still pending. *)
Definition text_of (o : Output) : string :=
  if to_sink o then joined (sunk o) +:+ _pending o else stdout o.

(** Redirecting the output loses nothing as long as every piece ends in a line
    feed or in nothing: the sink's lines, each ended by a line feed, and the
    pending text are what standard output would have shown. *)
Theorem sink_shows_stdout calls o o' :
  Forall (fun '(_, ends) => ends = newline \/ ends = EmptyString) calls ->
  to_sink o = true -> to_sink o' = false -> text_of o = text_of o' ->
  text_of (outs calls o) = text_of (outs calls o') /\
  (forall text, _pending (outs (calls ++ [(text, newline)]) o) = EmptyString).
Proof.
  intros Hc Ho Ho' He. split.
  - revert o o' Ho Ho' He. induction Hc as [|[text ends] calls Hx _ IH]; intros o o' Ho Ho' He; [done|].
    unfold outs in *. cbn [fold_left].
    apply IH; clear IH; unfold _out; rewrite ?Ho, ?Ho'; cbn [negb].
    + by destruct (ends_with_newline ends).
    + done.
    + unfold text_of in *. rewrite Ho, Ho' in He. destruct Hx as [-> | ->];
        [change (ends_with_newline newline) with true|change (ends_with_newline EmptyString) with false];
        cbn -[joined newline String.append]; rewrite ?Ho, ?Ho'; cbn -[joined newline String.append].
      * rewrite joined_app, joined_split, app_empty_r, <-He. by rewrite !app_assoc_string.
      * by rewrite app_empty_r, <-He, app_assoc_string.
  - intros text. unfold outs. rewrite fold_left_app. cbn [fold_left].
    assert (to_sink (fold_left (fun o '(text, ends) => _out text ends o) calls o) = true) as Hs.
    { clear -Ho. revert o Ho. induction calls as [|[t' e'] calls IH]; intros o Ho; [done|].
      cbn. apply IH. unfold _out. rewrite Ho. cbn. by destruct (ends_with_newline e'). }
    revert Hs. generalize (fold_left (fun o '(text, ends) => _out text ends o) calls o). intros r Hs.
    unfold _out. by rewrite Hs.
Qed.

(** A step line of batch mode is printed in two pieces, the first ended by a space:
    the sink drops that space, so its line differs from standard output's. *)
Lemma sink_drops_space a b o o' :
  to_sink o = true -> to_sink o' = false -> text_of o = text_of o' ->
  text_of (outs [(a, " "); (b, newline)] o) = text_of o +:+ a +:+ b +:+ newline /\
  text_of (outs [(a, " "); (b, newline)] o') = text_of o +:+ a +:+ " " +:+ b +:+ newline.
Proof.
  intros Ho Ho' He. unfold text_of in *. rewrite Ho, Ho' in *.
  unfold outs, _out. cbn -[joined newline String.append ends_with_newline].
  change (ends_with_newline newline) with true. change (ends_with_newline " ") with false.
  rewrite ?Ho, ?Ho'. cbn -[joined newline String.append ends_with_newline]. rewrite ?Ho, ?Ho'.
  cbn -[joined newline String.append ends_with_newline].
  rewrite ?Ho, ?Ho', joined_app, joined_split, app_empty_r, He, <-!He.
  by rewrite !app_assoc_string.
Qed.

(** ** Witnesses *)

(** Three steps on a counter; the second one raises. *)
Definition demo_steps : list (string * step nat) :=
  [("one", fun n => (S n, Returned_none));
   ("two", fun n => (S n, Raised (DebugError "no halt")));
   ("three", fun n => (S n, Returned_value "3"))].
Definition demo_env (ins : list (option string)) : env nat :=
  mk_env 0%nat (mk_output true EmptyString [] EmptyString) ins.


Lemma interactive_run_witness :
  let s := mk "interactive" true demo_steps [] in
  let e := demo_env [Some "?"; Some " E "; Some "s"; None] in
  (let '(s', e', r) := run s e in
   let '(w, ins, rs, x) := collect_chosen (stop_on_error s) (_steps s) (world e) (inputs e) in
   world e' = w /\ inputs e' = ins /\ _results s' = rs /\ r = rmap (fun _ => rs) x) /\
  snd (run s e) = Raise (KeyboardInterrupt "user quit").
Proof.
  intros s e. split; [|vm_compute; reflexivity]. apply (interactive_run s e). reflexivity.
Defined.

Lemma sink_shows_stdout_witness :
  let calls := [("a", newline); ("b", EmptyString); ("c", newline)] in
  let o := mk_output true EmptyString [] EmptyString in
  let o' := mk_output false EmptyString [] EmptyString in
  text_of (outs calls o) = text_of (outs calls o') /\
  (forall text, _pending (outs (calls ++ [(text, newline)]) o) = EmptyString).
Proof.
  intros calls o o'. apply (sink_shows_stdout calls o o').
  - repeat (apply Forall_cons_2; [first [by left | by right]|]). apply Forall_nil_2.
  - reflexivity.
  - reflexivity.
  - reflexivity.
Defined.

