(* ===== verification/Sequences.v ===== *)
(** Test sequences as sessions over the command library:
    [sequences/hart_control.py], [halt_sequence.py], [run_control_sequence.py],
    [halt_on_reset_sequence.py], [dm_activation_sequence.py] and
    [hart_selection_sequence.py].

    A step's closure is a [RISCVDebug] program run on the shared world; a closure
    that returns nothing, or a [StepResult], becomes the matching [Session] step.
    The sequences ask the transport for its golden model ([_predictor]). *)

From S2P Require Import Prelude Registers Predictor Transport RiscvDm Session.
Import RISCVDebug.

Local Open Scope string_scope.
Local Open Scope list_scope.
Local Open Scope Z_scope.
Local Open Scope prog_scope.

(** ** Text *)

(** [str(b)] and [int(b)] of a boolean. *)
Definition py_bool (b : bool) : string := if b then "True" else "False".

(** [f"{us * 1e-3:.3f}"] of a number of microseconds. *)
Definition millis (us : Z) : string :=
  let f := us mod 1000 in
  pretty (us / 1000) +:+ "." +:+
  (if f <? 10 then "00" else if f <? 100 then "0" else EmptyString) +:+ pretty f.

(** ** Steps *)

(** [any(c() for _ in range(n))]. *)
Fixpoint any_of (n : nat) (c : M bool) : M bool :=
  match n with
  | O => Ret false
  | S n => do b <- c;; if b then Ret true else any_of n c
  end.

Section steps.
Context {T : Type} `{DebugTransport T} `{Clock}.

(** The world of the sequences that keep no state of their own. *)
Definition W : Type := world T Z.

Definition none_step {S} (c : prog S unit) : DebugSession.step (world T S) := fun w =>
  let (w, r) := run c w in
  (w, match r with Ok _ => Returned_none | Raise e => Raised e end).

Definition result_step {S} (c : prog S StepResult.t) : DebugSession.step (world T S) := fun w =>
  let (w, r) := run c w in
  (w, match r with Ok r => Returned_result r | Raise e => Raised e end).

End steps.
Arguments W : clear implicits.

(** A result without data. *)
Definition report {S} (ok : bool) (msg : string) : prog S StepResult.t := Ret (StepResult.mk ok msg None).

(** The arguments of [write_dmcontrol] that are left out. *)
Definition fields0 : DmcontrolArgs.t := DmcontrolArgs.default.
Definition write_fields (f : DmcontrolArgs.t) : M Z := write_dmcontrol None None f.

(** ** Hart control *)

Module HartControl.

(** hart_control.py:24-31 (DCSR .. PMPADDR0) *)
Definition DCSR : Z := 0x07B0.
Definition DPC : Z := 0x07B1.
Definition MSTATUS : Z := 0x0300.
Definition MIE : Z := 0x0304.
Definition MCAUSE : Z := 0x0342.
Definition MEPC : Z := 0x0341.
Definition PMPCFG0 : Z := 0x03A0.
Definition PMPADDR0 : Z := 0x03B0.

(** hart_control.py:34-48 (DCSR_EBREAKM .. ABSTRACTCS_CMDERR_W1C) *)
Definition DCSR_EBREAKM : Z := Z.shiftl 1 15.
Definition DCSR_EBREAKS : Z := Z.shiftl 1 13.
Definition DCSR_EBREAKU : Z := Z.shiftl 1 12.
Definition DCSR_STEPIE : Z := Z.shiftl 1 11.
Definition DCSR_STEP : Z := Z.shiftl 1 2.
Definition DCSR_PRV_MASK : Z := 0x3.
Definition DCSR_CAUSE_LSB : Z := 6.
Definition PRV_U : Z := 0.
Definition PRV_S : Z := 1.
Definition PRV_M : Z := 3.
Definition CAUSE_EBREAK : Z := 1.
Definition CAUSE_TRIGGER : Z := 2.
Definition CAUSE_HALTREQ : Z := 3.
Definition CAUSE_STEP : Z := 4.
Definition MSTATUS_MIE : Z := Z.shiftl 1 3.
Definition MIE_MTIE : Z := Z.shiftl 1 7.
Definition ABSTRACTCS_CMDERR_W1C : Z := Z.shiftl 0x7 8.

(** hart_control.py:60-61 (cause_of) *)
Definition cause_of (dcsr : Z) : Z := Z.land (Z.shiftr dcsr DCSR_CAUSE_LSB) 0x7.

(** hart_control.py:64-65 (clear_cmderr) *)
Definition clear_cmderr : M unit := wr DMI.ABSTRACTCS ABSTRACTCS_CMDERR_W1C.

(** hart_control.py:68-79 (ensure_halted) *)
Definition ensure_halted (limit : Z) : M bool :=
  clear_cmderr;;;
  do halted <- is_halted;;
  if halted then Ret true
  else
    halt DEFAULT_TIMEOUT;;;
    any_of (Z.to_nat limit) is_halted.

(** hart_control.py:82-86 (open_pmp) *)
Definition open_pmp : M unit :=
  write_reg64 PMPADDR0 (Z.shiftl 1 54 - 1);;;
  write_reg64 PMPCFG0 0x1F.

(** hart_control.py:89-95 (modify_dcsr) *)
Definition modify_dcsr (set_bits clear_bits : Z) (prv : option Z) : M Z :=
  do dcsr <- read_gpr DCSR;;
  let dcsr := Z.land (Z.lor dcsr set_bits) (Z.lnot clear_bits) in
  let dcsr := match prv with
              | Some prv => Z.lor (Z.land dcsr (Z.lnot DCSR_PRV_MASK)) prv
              | None => dcsr
              end in
  write_gpr DCSR dcsr;;;
  Ret dcsr.

(** hart_control.py:98-101 (place) *)
Definition place (pc prv : Z) : M unit :=
  modify_dcsr 0 0 (Some prv);;;
  write_reg64 DPC pc.

(** hart_control.py:104-105 (wait_halted) *)
Definition wait_halted (limit : Z) : M bool := any_of (Z.to_nat limit) is_halted.

(** hart_control.py:108-111 (step_once) *)
Definition step_once (limit : Z) : M bool :=
  resume_no_wait;;;
  wait_halted limit.

(** hart_control.py:114-117 (run_until_halted) *)
Definition run_until_halted (limit : Z) : M bool :=
  resume_no_wait;;;
  wait_halted limit.

End HartControl.

(** ** DM activation *)

Module DmActivation.

(** dm_activation_sequence.py:27-27 (POLL_READS) *)
Definition POLL_READS : nat := 8.

(** dm_activation_sequence.py:30-32 (_poll) *)
Definition _poll (predicate : M bool) : M bool := any_of POLL_READS predicate.

(** dm_activation_sequence.py:51-68 (tc_dma_001) *)
Definition tc_dma_001 : M StepResult.t :=
  write_dmcontrol (Some false) None fields0;;;
  do readback <- read_dmcontrol;;
  let deactivated := negb (dmcontrol_dmactive readback) in
  do status <- read_dmstatus;;
  report deactivated
    ("TC-DMA-001: dmactive written 0, read back dmactive=" +:+
     py_bool (dmcontrol_dmactive readback) +:+ ", dmstatus.version=" +:+ pretty (version status) +:+
     " (may legitimately be 0 while inactive, #3.14.2)").

(** dm_activation_sequence.py:75-92 (tc_dma_002) *)
Definition tc_dma_002 : M StepResult.t :=
  write_dmcontrol (Some false) None fields0;;;
  do deactivated <- _poll (do w <- read_dmcontrol;; Ret (negb (dmcontrol_dmactive w)));;
  activate;;;
  do reactivated <- _poll (do w <- read_dmcontrol;; Ret (dmcontrol_dmactive w));;
  do status <- read_dmstatus;;
  let v := version status in
  report (deactivated && reactivated && negb (v =? 0))
    ("TC-DMA-002: 0->poll->1->poll round trip — deactivated=" +:+ py_bool deactivated +:+
     ", reactivated=" +:+ py_bool reactivated +:+ ", version after=" +:+ pretty v +:+
     " (DM functions normally again, #3.14.2)").

(** dm_activation_sequence.py:35-98 (build_dm_activation_sequence) *)
Definition build {T} `{DebugTransport T} `{Clock} (mode : string) : result (DebugSession.t (W T)) :=
  try session <- DebugSession.init mode false;;
  let session := DebugSession.add_step "Activate Debug Module (baseline)" (none_step activate) session in
  let session := DebugSession.add_step
    "TC-DMA-001: deactivate Debug Module (write dmcontrol.dmactive=0)"
    (result_step tc_dma_001) session in
  let session := DebugSession.add_step
    "TC-DMA-002: known-state reset sequence (write0/poll/write1/poll, spec #3.14.2)"
    (result_step tc_dma_002) session in
  Ok session.

End DmActivation.

(** ** Hart selection *)

Module HartSelection.

(** hart_selection_sequence.py:27-33 (HARTSEL_ALL_ONES, LIKELY_NONEXISTENT_HARTSEL) *)
Definition HARTSEL_ALL_ONES : Z := Z.shiftl 1 20 - 1.
Definition LIKELY_NONEXISTENT_HARTSEL : Z := HARTSEL_ALL_ONES - 1.

(** hart_selection_sequence.py:58-70 (tc_hs_001) *)
Definition tc_hs_001 : M StepResult.t :=
  write_dmcontrol None (Some HARTSEL_ALL_ONES) fields0;;;
  do word <- read_dmcontrol;;
  let readback := dmcontrol_hartsel word in
  write_dmcontrol None (Some 0) fields0;;;
  report true
    ("TC-HS-001: wrote hartsel=all-1s (" +:+ py_hex 5 HARTSEL_ALL_ONES +:+ "), read back " +:+
     py_hex 5 readback +:+ " — this DUT's implemented HARTSELLEN mask, per spec #3.14.2's own discovery method").

(** hart_selection_sequence.py:77-97 (tc_hs_002) *)
Definition tc_hs_002 : M StepResult.t :=
  write_dmcontrol None (Some LIKELY_NONEXISTENT_HARTSEL) fields0;;;
  do word <- read_dmstatus;;
  let observed_any := anynonexistent word in
  let observed_all := allnonexistent word in
  do p <- predictor_of;;
  let ok := match p with Some _ => observed_any && observed_all | None => true end in
  write_dmcontrol None (Some 0) fields0;;;
  report ok
    ("TC-HS-002: selected hartsel=" +:+ pretty LIKELY_NONEXISTENT_HARTSEL +:+
     " — dmstatus.anynonexistent=" +:+ py_bool observed_any +:+ " allnonexistent=" +:+
     py_bool observed_all +:+ " (#3.14.1)").

(** hart_selection_sequence.py:104-116 (tc_hs_003) *)
Definition tc_hs_003 : M StepResult.t :=
  write_fields (fields0 <| DmcontrolArgs.hasel := true |>);;;
  do word <- read_dmcontrol;;
  let supported := dmcontrol_hasel word in
  write_fields (fields0 <| DmcontrolArgs.hasel := false |>);;;
  report true
    ("TC-HS-003: wrote hasel=1, read back hasel=" +:+ py_bool supported +:+ " — " +:+
     (if supported then "hart array mask register present"
      else "not implemented (WARL-tied to 0)")).

(** hart_selection_sequence.py:42-122 (build_hart_selection_sequence) *)
Definition build {T} `{DebugTransport T} `{Clock} (mode : string) : result (DebugSession.t (W T)) :=
  try session <- DebugSession.init mode false;;
  let session := DebugSession.add_step "Activate Debug Module" (none_step activate) session in
  let session := DebugSession.add_step
    "TC-HS-001: HARTSELLEN discovery (write all-1s to hartsel, read back)"
    (result_step tc_hs_001) session in
  let session := DebugSession.add_step
    "TC-HS-002: nonexistent hart index selected (spec #3.14.1 anynonexistent)"
    (result_step tc_hs_002) session in
  let session := DebugSession.add_step
    "TC-HS-003: hasel discovery write (spec #3.14.2)" (result_step tc_hs_003) session in
  Ok session.

End HartSelection.

(** ** Halt and inspect *)

Module HaltSequence.

(** halt_sequence.py:58-63 (check_halted) *)
Definition check_halted : M StepResult.t :=
  do halted <- is_halted;;
  report halted ("dmstatus.allhalted = " +:+ py_bool halted).

(** halt_sequence.py:67-69 (read_pc) *)
Definition read_pc : M StepResult.t :=
  do pc <- get_pc;; report true ("PC = " +:+ py_hex 8 pc).

(** halt_sequence.py:73-75 (read_ra) *)
Definition read_ra : M StepResult.t :=
  do ra <- read_gpr 0x1001;; report true ("ra (x1) = " +:+ py_hex 8 ra).

(** halt_sequence.py:79-81 (read_sp) *)
Definition read_sp : M StepResult.t :=
  do sp <- read_gpr 0x1002;; report true ("sp (x2) = " +:+ py_hex 8 sp).

(** halt_sequence.py:85-87 (read_memory) *)
Definition read_memory (mem_addr : Z) : M StepResult.t :=
  do val <- read_mem32 mem_addr;;
  report true ("mem[" +:+ py_hex 8 mem_addr +:+ "] = " +:+ py_hex 8 val).

(** halt_sequence.py:95-101 (resume_core) *)
Definition resume_core : M StepResult.t :=
  resume DEFAULT_TIMEOUT;;;
  do running <- is_running;;
  report running ("dmstatus.allrunning = " +:+ py_bool running).

(** halt_sequence.py:27-107 (build_halt_sequence) *)
Definition build {T} `{DebugTransport T} `{Clock} (mode : string) (mem_addr : Z) (resume_after : bool)
    : result (DebugSession.t (W T)) :=
  try session <- DebugSession.init mode true;;
  let session := DebugSession.add_step "Activate Debug Module (write dmcontrol.dmactive=1)"
    (none_step activate) session in
  let session := DebugSession.add_step
    "Halt hart (write dmcontrol.haltreq=1, poll dmstatus.allhalted)"
    (none_step (halt DEFAULT_TIMEOUT)) session in
  let session := DebugSession.add_step "Verify hart is halted (read dmstatus)"
    (result_step check_halted) session in
  let session := DebugSession.add_step "Read PC (abstract command on DPC CSR 0x7B1)"
    (result_step read_pc) session in
  let session := DebugSession.add_step "Read ra / x1 (abstract GPR access regno=0x1001)"
    (result_step read_ra) session in
  let session := DebugSession.add_step "Read sp / x2 (abstract GPR access regno=0x1002)"
    (result_step read_sp) session in
  let session := DebugSession.add_step
    ("Read memory word at " +:+ py_hex 8 mem_addr +:+ " (system bus access)")
    (result_step (read_memory mem_addr)) session in
  let session := if resume_after then DebugSession.add_step
    "Resume hart (write dmcontrol.resumereq=1, poll dmstatus.allrunning)"
    (result_step resume_core) session else session in
  Ok session.

End HaltSequence.

(** ** Halt and resume *)

Module RunControlSequence.

(** run_control_sequence.py:36-36 (HALT_RESUME_RESPONSE_BOUND_S) *)
Definition HALT_RESUME_RESPONSE_BOUND : Z := 1000000.

(** [p.expect(DMI.DMSTATUS)] of the golden model. *)
Definition predicted_dmstatus (p : DMPredictor.t) : M Z :=
  match DMPredictor.expect p DMI.DMSTATUS with Ok v => Ret v | Raise e => Throw e end.

(** run_control_sequence.py:79-79 (the baseline step) *)
Definition baseline : M StepResult.t :=
  do w <- read_dmstatus;; report true ("pre-activation dmstatus=" +:+ py_hex 8 w).

(** run_control_sequence.py:93-105 (tc_rc_001) *)
Definition tc_rc_001 : M StepResult.t :=
  halt DEFAULT_TIMEOUT;;;
  do word <- read_dmstatus;;
  let observed := anyhalted word && allhalted word && negb (anyrunning word) in
  do p <- predictor_of;;
  do observed <- match p with
                 | Some p => do predicted <- predicted_dmstatus p;;
                             Ret (observed && (anyhalted predicted && allhalted predicted))
                 | None => Ret observed
                 end;;
  report observed
    ("TC-RC-001: dmstatus after haltreq — anyhalted=" +:+ py_bool (anyhalted word) +:+
     " allhalted=" +:+ py_bool (allhalted word) +:+ " anyrunning=" +:+ py_bool (anyrunning word)).

(** run_control_sequence.py:112-130 (tc_rc_002) *)
Definition tc_rc_002 : M StepResult.t :=
  do before <- read_dmstatus;;
  write_fields (fields0 <| DmcontrolArgs.haltreq := true |>);;;
  do after <- read_dmstatus;;
  let no_change := Bool.eqb (allhalted after) (allhalted before)
                   && Bool.eqb (anyhalted after) (anyhalted before)
                   && Bool.eqb (allresumeack after) (allresumeack before) in
  write_fields (fields0 <| DmcontrolArgs.haltreq := false |>);;;
  report (no_change && allhalted after)
    ("TC-RC-002: re-asserting haltreq on an already-halted hart left allhalted=" +:+
     py_bool (allhalted after) +:+ " unchanged, resume ack unchanged").

(** run_control_sequence.py:137-153 (tc_rc_003) *)
Definition tc_rc_003 : M StepResult.t :=
  resume DEFAULT_TIMEOUT;;;
  do word <- read_dmstatus;;
  let observed := anyrunning word && allrunning word && negb (anyhalted word)
                  && (allresumeack word && anyresumeack word) in
  do p <- predictor_of;;
  do observed <- match p with
                 | Some p => do predicted <- predicted_dmstatus p;;
                             Ret (observed && allrunning predicted && allresumeack predicted)
                 | None => Ret observed
                 end;;
  report observed
    ("TC-RC-003: dmstatus after resumereq — allrunning=" +:+ py_bool (allrunning word) +:+
     " allresumeack=" +:+ py_bool (allresumeack word) +:+ " anyhalted=" +:+ py_bool (anyhalted word)).

(** run_control_sequence.py:160-174 (tc_rc_004) *)
Definition tc_rc_004 : M StepResult.t :=
  write_fields (fields0 <| DmcontrolArgs.resumereq := true |>);;;
  do word <- read_dmstatus;;
  let observed := allrunning word && negb (anyhalted word) && negb (anyresumeack word) in
  write_fields (fields0 <| DmcontrolArgs.resumereq := false |>);;;
  report observed
    ("TC-RC-004: resumereq on a running hart — allrunning=" +:+ py_bool (allrunning word) +:+
     " (unchanged), anyresumeack=" +:+ py_bool (anyresumeack word) +:+
     " (cleared, per #3.5's resume-ack-cleared-for-every-selected-hart rule)").

(** run_control_sequence.py:181-198 (tc_rc_005) *)
Definition tc_rc_005 : M StepResult.t :=
  do before <- read_dmstatus;;
  let ack_before := anyresumeack before in
  write_fields (fields0 <| DmcontrolArgs.haltreq := true |> <| DmcontrolArgs.resumereq := true |>);;;
  do after <- read_dmstatus;;
  let observed := anyhalted after && negb (anyrunning after)
                  && Bool.eqb (anyresumeack after) ack_before in
  write_fields (fields0 <| DmcontrolArgs.haltreq := false |>);;;
  report observed
    ("TC-RC-005: haltreq=1,resumereq=1 in one write — anyhalted=" +:+ py_bool (anyhalted after) +:+
     " (haltreq wins), anyresumeack unchanged (" +:+ py_bool ack_before +:+ " -> " +:+
     py_bool (anyresumeack after) +:+ ")").

(** On a transport without a simulated clock ([sim_time_s]) the latencies are
    those of the host clock.
    run_control_sequence.py:211-227 (tc_rc_006) *)
Definition tc_rc_006 : M StepResult.t :=
  do t0 <- monotonic;;
  halt DEFAULT_TIMEOUT;;;
  do t1 <- monotonic;;
  let halt_latency := t1 - t0 in
  do t0 <- monotonic;;
  resume DEFAULT_TIMEOUT;;;
  do t1 <- monotonic;;
  let resume_latency := t1 - t0 in
  let ok := (halt_latency <? HALT_RESUME_RESPONSE_BOUND)
            && (resume_latency <? HALT_RESUME_RESPONSE_BOUND) in
  report ok
    ("TC-RC-006: wall-clock halt latency=" +:+ millis halt_latency +:+ "ms, resume latency=" +:+
     millis resume_latency +:+ "ms (spec bound: <1.0s, #3.5)").

(** run_control_sequence.py:234-274 (tc_rc_007) *)
Definition tc_rc_007 : M StepResult.t :=
  ndmreset true;;;
  read_dmstatus;;;
  write_fields (fields0 <| DmcontrolArgs.resumereq := true |> <| DmcontrolArgs.ndmreset := true |>);;;
  do word <- read_dmstatus;;
  let no_spurious_halt := negb (anyhalted word) && negb (anyresumeack word) in
  write_fields (fields0 <| DmcontrolArgs.resumereq := false |> <| DmcontrolArgs.ndmreset := true |>);;;
  ndmreset false;;;
  report no_spurious_halt
    ("TC-RC-007: resumereq written while in ndmreset — anyhalted=" +:+ py_bool (anyhalted word) +:+
     " anyresumeack=" +:+ py_bool (anyresumeack word) +:+
     " (expected both False: resumereq only affects a HALTED hart, #3.5; this hart was never halted while in reset, #3.2)").

(** run_control_sequence.py:49-280 (build_run_control_sequence) *)
Definition build {T} `{DebugTransport T} `{Clock} (mode : string) (hartsel : Z)
    : result (DebugSession.t (W T)) :=
  try session <- DebugSession.init mode false;;
  let add name fn session := DebugSession.add_step name fn session in
  let session := add
    "Read dmstatus before DM activation (dmactive=0 baseline, spec #3.13/#3.14.2)"
    (result_step baseline) session in
  let session := add "Activate Debug Module (write dmcontrol.dmactive=1)"
    (none_step activate) session in
  let session := if truthy hartsel
    then add ("Select hart " +:+ pretty hartsel +:+ " (write dmcontrol.hartsel)")
             (none_step (select_hart hartsel)) session
    else session in
  let session := add
    "TC-RC-001: halt request on a running hart (write dmcontrol.haltreq=1)"
    (result_step tc_rc_001) session in
  let session := add "TC-RC-002: haltreq ignored once already halted (spec #3.5)"
    (result_step tc_rc_002) session in
  let session := add
    "TC-RC-003: resume request on a halted hart (write dmcontrol.resumereq=1)"
    (result_step tc_rc_003) session in
  let session := add "TC-RC-004: resumereq ignored on a running hart (spec #3.5)"
    (result_step tc_rc_004) session in
  let session := add
    "TC-RC-005: resumereq ignored when haltreq set in the same write (spec #3.14.2)"
    (result_step tc_rc_005) session in
  let session := add "TC-RC-006: halt/resume response latency under spec's 1s bound (#3.5)"
    (result_step tc_rc_006) session in
  let session := add "TC-RC-007: resumereq while the hart is in reset (spec #3.2)"
    (result_step tc_rc_007) session in
  Ok session.

End RunControlSequence.

(** ** Halt on reset *)

Module HaltOnReset.

Section sequence.
Context {T : Type} `{DebugTransport T} `{Clock}.

(** The world with the closures' [state["has_resethaltreq"]].
    halt_on_reset_sequence.py:56-58 (state) *)
Definition GW : Type := world T Z * option bool.

Definition gated (c : option bool -> M StepResult.t) : DebugSession.step GW := fun '(w, gate) =>
  let (w, ended) := result_step (c gate) w in ((w, gate), ended).

Definition ungated_none (c : M unit) : DebugSession.step GW := fun '(w, gate) =>
  let (w, ended) := none_step c w in ((w, gate), ended).

(** [not state["has_resethaltreq"]]. *)
Definition unsupported (gate : option bool) : bool := negb (default false gate).

(** halt_on_reset_sequence.py:63-71 (tc_hor_001) *)
Definition tc_hor_001 : DebugSession.step GW := fun '(w, gate) =>
  match run read_dmstatus w with
  | (w, Raise e) => ((w, gate), Raised e)
  | (w, Ok word) =>
      let supported := hasresethaltreq word in
      ((w, Some supported),
       Returned_result (StepResult.mk true
         ("TC-HOR-001: dmstatus.hasresethaltreq=" +:+ pretty (to_int supported) +:+ " — " +:+
          (if supported then "halt-on-reset implemented"
           else "NOT implemented; TC-HOR-002..005 are N/A for this DUT (spec #3.5, Optional)"))
         None))
  end.

(** halt_on_reset_sequence.py:76-81 (_na) *)
Definition _na (tc_id : string) : M StepResult.t :=
  report true
    (tc_id +:+ ": N/A — dmstatus.hasresethaltreq=0 on this DUT (gated by TC-HOR-001, per spec #3.5's Optional halt-on-reset)").

(** halt_on_reset_sequence.py:84-118 (tc_hor_002) *)
Definition tc_hor_002 (gate : option bool) : M StepResult.t :=
  set_reset_haltreq;;;
  ndmreset true;;;
  read_dmstatus;;;
  ndmreset false;;;
  do word <- read_dmstatus;;
  if unsupported gate then
    report true "TC-HOR-002: wrote setresethaltreq=1 then cycled ndmreset — dmstatus.hasresethaltreq=0 on this DUT, so the functional check (did the hart actually halt) is N/A (gated by TC-HOR-001, spec #3.5 Optional); the write itself still happened, exercising the protocol path"
  else
    let ok := anyhalted word && allhalted word in
    do p <- predictor_of;;
    do ok <- match p with
             | Some p => do predicted <- RunControlSequence.predicted_dmstatus p;;
                         Ret (ok && allhalted predicted)
             | None => Ret ok
             end;;
    report ok
      ("TC-HOR-002: setresethaltreq + reset cycle — allhalted=" +:+ py_bool (allhalted word) +:+
       " (spec #3.5: hart enters Debug Mode immediately on reset deassertion, regardless of reset cause)").

(** halt_on_reset_sequence.py:124-144 (tc_hor_003) *)
Definition tc_hor_003 (gate : option bool) : M StepResult.t :=
  clr_reset_haltreq;;;
  ndmreset true;;;
  ndmreset false;;;
  do word <- read_dmstatus;;
  if unsupported gate then
    report true "TC-HOR-003: wrote clrresethaltreq=1 then cycled ndmreset — dmstatus.hasresethaltreq=0 on this DUT, so the functional check is N/A (gated by TC-HOR-001, spec #3.5 Optional); the write itself still happened"
  else
    report (negb (anyhalted word))
      ("TC-HOR-003: clrresethaltreq + reset cycle — anyhalted=" +:+ py_bool (anyhalted word) +:+
       " (expected False: the hart must run normally, not halt on reset)").

(** halt_on_reset_sequence.py:150-187 (tc_hor_004) *)
Definition tc_hor_004 (num_harts : Z) (gate : option bool) : M StepResult.t :=
  if unsupported gate then _na "TC-HOR-004"
  else if num_harts <? 2 then
    report true "TC-HOR-004: N/A — this DUT/config implements only 1 hart (num_harts param); per-hart independence needs >= 2 harts to be meaningful, per the testplan's own multi-hart framing"
  else
    let hart_a := 0 in
    let hart_b := num_harts - 1 in
    select_hart hart_a;;;
    set_reset_haltreq;;;
    select_hart hart_b;;;
    ndmreset true;;;
    ndmreset false;;;
    select_hart hart_a;;;
    do word_a <- read_dmstatus;;
    let a_halted := anyhalted word_a in
    select_hart hart_b;;;
    do word_b <- read_dmstatus;;
    let b_halted := anyhalted word_b in
    select_hart hart_a;;;
    clr_reset_haltreq;;;
    report (a_halted && negb b_halted)
      ("TC-HOR-004: hart " +:+ pretty hart_a +:+ " (setresethaltreq) halted=" +:+ py_bool a_halted +:+
       ", hart " +:+ pretty hart_b +:+ " (untouched) halted=" +:+ py_bool b_halted +:+
       " after a shared reset cycle").

(** halt_on_reset_sequence.py:193-215 (tc_hor_005) *)
Definition tc_hor_005 : M StepResult.t :=
  write_fields (fields0 <| DmcontrolArgs.resumereq := true |> <| DmcontrolArgs.hartreset := true |>);;;
  write_fields (fields0 <| DmcontrolArgs.resumereq := false |> <| DmcontrolArgs.hartreset := false |>);;;
  do readback <- read_dmcontrol;;
  do status <- read_dmstatus;;
  let alive := truthy (Z.land readback 1) in
  let responsive := negb (version status =? 0) in
  report (alive && responsive)
    ("TC-HOR-005: wrote resumereq=1,hartreset=1 simultaneously (illegal per #3.14.2) — DM state not corrupted (dmactive=" +:+
     py_bool alive +:+ ", dmstatus.version=" +:+ pretty (version status) +:+ ")").

(** halt_on_reset_sequence.py:36-221 (build_halt_on_reset_sequence) *)
Definition build (mode : string) (num_harts : Z) : result (DebugSession.t GW) :=
  try session <- DebugSession.init mode false;;
  let session := DebugSession.add_step "Activate Debug Module" (ungated_none activate) session in
  let session := DebugSession.add_step
    "TC-HOR-001: discover halt-on-reset support (dmstatus.hasresethaltreq)" tc_hor_001 session in
  let session := DebugSession.add_step
    "TC-HOR-002: setresethaltreq causes halt-on-reset (spec #3.5)" (gated tc_hor_002) session in
  let session := DebugSession.add_step
    "TC-HOR-003: clrresethaltreq clears the halt-on-reset request (spec #3.14.2)"
    (gated tc_hor_003) session in
  let session := DebugSession.add_step
    "TC-HOR-004: per-hart independence of set/clrresethaltreq (spec #3.14.2)"
    (gated (tc_hor_004 num_harts)) session in
  let session := DebugSession.add_step
    "TC-HOR-005: illegal simultaneous dmcontrol mutex-bit write (spec #3.14.2, negative)"
    (gated (fun _ => tc_hor_005)) session in
  Ok session.

End sequence.
Arguments GW : clear implicits.

End HaltOnReset.
