(* ===== verification/Expectation.v ===== *)
(** Reasoning about command-library programs on the golden-reference model.

    [expects c m s now Q] says that the model predicts a normal end of the program
    [c] from model [m], tracked hartsel [s] and host time [now], in a state where
    [Q] holds; on a transport backed by the model the program then does end that
    way ([expects_run]).  A [view] is what a dmcontrol sequence can tell of one
    hart; [sees] ties it to a predictor, and a write moves the view by
    [step_view], a function of the booleans of the view and of the word's fields. *)

From S2P Require Import Prelude Registers Predictor RunControl ReadBack Transport RiscvDm.
From S2P Require Import RiscvDmSound.
Import RISCVDebug.

Local Open Scope string_scope.
Local Open Scope list_scope.
Local Open Scope Z_scope.
Local Open Scope prog_scope.

(** ** Postconditions *)

Section expects.
Context `{Clock} {S : Type}.

Definition expects {A} (c : prog S A) (m : DMPredictor.t) (s : S) (now : Z)
    (Q : A -> DMPredictor.t -> S -> Z -> Prop) : Prop :=
  match predicted c m s now with
  | Some (m, s, now, Ok a) => Q a m s now
  | _ => False
  end.

Lemma expects_bind {A B} (c : prog S A) (f : A -> prog S B) m s now Q :
  expects c m s now (fun a m s now => expects (f a) m s now Q) ->
  expects (bind c f) m s now Q.
Proof.
  unfold expects. rewrite predicted_bind.
  by destruct (predicted c m s now) as [[[[m' s'] now'] [a|e]]|].
Qed.

Lemma expects_mono {A} (c : prog S A) m s now (Q R : A -> DMPredictor.t -> S -> Z -> Prop) :
  expects c m s now Q -> (forall a m s now, Q a m s now -> R a m s now) -> expects c m s now R.
Proof.
  unfold expects. destruct (predicted c m s now) as [[[[m' s'] now'] [a|e]]|]; auto.
Qed.

Lemma expects_ret {A} (a : A) m s now (Q : A -> DMPredictor.t -> S -> Z -> Prop) :
  Q a m s now -> expects (Ret a) m s now Q.
Proof. done. Qed.

Lemma expects_rd addr v m s now Q :
  DMPredictor.expect m addr = Ok v -> Q v m s now -> expects (rd addr) m s now Q.
Proof. intros He Hq. unfold expects. cbn. by rewrite He. Qed.

Lemma expects_run {T} `{ModelBacked T} {A} (c : prog S A) (w : world T S) Q :
  live (dev w) -> expects c (model (dev w)) (self w) (clock w) Q ->
  exists a, snd (run c w) = Ok a /\ live (dev (fst (run c w))) /\
    Q a (model (dev (fst (run c w)))) (self (fst (run c w))) (clock (fst (run c w))).
Proof.
  intros Hl He. unfold expects in He.
  destruct (predicted c _ _ _) as [[[[m s] now] [a|e]]|] eqn:Hp; [|done..].
  pose proof (run_predicted c w m s now (Ok a) Hl Hp) as Hr.
  destruct (run c w) as [w' r]. cbn [fst snd]. destruct Hr as (? & -> & -> & -> & ->). by exists a.
Qed.

End expects.

(** ** One hart, as the dmcontrol writes of a sequence see it *)

Record view := mk_view {
  hart : HartState.t;
  ndm : bool;
  lvl : bool
}.

(** The declared features that decide how a hart reacts, and what else a dmcontrol
    write leaves as it is: the version, whether a configuration was declared, and
    the busy flag. *)
Record features := mk_features {
  ack_in_reset : bool;
  has_rhr : bool;
  has_hartreset : bool;
  v1_0 : bool;
  has_cfg : bool;
  cmdbusy : bool
}.

Definition features_of (p : DMPredictor.t) : features :=
  mk_features (DMPredictor.resumeack_reset p) (DMPredictor.hasresethaltreq p)
    (DMPredictor.supports_hartreset p) (DMSTATUS_VERSION_1_0 <=? DMPredictor.version p)
    (DMPredictor.cfg_valid p) (DMPredictor.observed_cmdbusy p).

Definition acks_args (c : features) (a : DmcontrolArgs.t) (h : HartState.t) : HartState.t :=
  let h := if has_rhr c then
             if DmcontrolArgs.clrresethaltreq a then h <| HartState.reset_haltreq := false |>
             else if DmcontrolArgs.setresethaltreq a then h <| HartState.reset_haltreq := true |> else h
           else h in
  let h := if DmcontrolArgs.ackhavereset a then h <| HartState.havereset := false |> else h in
  if DmcontrolArgs.ackunavail a && HartState.available h
  then h <| HartState.unavail_sticky := false |> else h.

Definition run_args (a : DmcontrolArgs.t) (h : HartState.t) : HartState.t :=
  let h := h <| HartState.halt_request := DmcontrolArgs.haltreq a |> in
  if DmcontrolArgs.haltreq a then DMPredictor.halt_one h
  else if DmcontrolArgs.resumereq a then resume_hart false h else h.

Definition step_view (c : features) (a : DmcontrolArgs.t) (sel : bool) (V : view) : view :=
  let h := (hart V) <| HartState.nonexistent := false |> in
  let h := ndmreset_hart (ndm V) (DmcontrolArgs.ndmreset a) (ack_in_reset c) h in
  let rst := DmcontrolArgs.hartreset a && has_hartreset c in
  let h := if sel then
             run_args a (acks_args c a (hartreset_hart (lvl V) rst (ack_in_reset c) h))
           else h in
  mk_view (DMPredictor.settle_hart (DmcontrolArgs.ndmreset a) h) (DmcontrolArgs.ndmreset a) rst.

(** [p] shows the view [V] of hart [i], with the features [c]. *)
Record sees (p : DMPredictor.t) (c : features) (i : nat) (V : view) : Prop := {
  sees_hart : DMPredictor.harts p !! i = Some (hart V);
  sees_ndm : DMPredictor.ndmreset p = ndm V;
  sees_lvl : DMPredictor._hartreset_level p = lvl V;
  sees_exists : Z.of_nat i < DMPredictor.num_harts p;
  sees_step : step_armed p = false;
  sees_features : features_of p = c;
  sees_version : DMPredictor.version p mod 16 <> 0
}.

Lemma step_armed_stays v p :
  Z.testbit v 0 = true -> step_armed p = false ->
  step_armed (DMPredictor.on_write DMI.DMCONTROL v p) = false.
Proof.
  intros Ha Hs. change DMI.DMCONTROL with (Register.address DMCONTROL).
  rewrite on_write_dmcontrol, write_dmcontrol_eq by by rewrite testbit_mask32.
  destruct (before_run_spec (Z.land v MASK32) p) as (_ & _ & _ & Hsh).
  assert (step_armed (before_run (Z.land v MASK32) p) = false) as Hb
    by (unfold step_armed in *; by rewrite Hsh).
  generalize dependent (before_run (Z.land v MASK32) p). intros q _ Hq.
  assert (forall r, step_armed r = false -> step_armed (DMPredictor._apply_resumereq r) = false) as Hr.
  { intros r Hr. unfold DMPredictor._apply_resumereq. rewrite selected_positions_eq.
    destruct (DMPredictor.in_range _ _); [|done]. cbn [fold_left]. unfold DMPredictor.resume_one.
    by repeat case_match. }
  assert (forall r, step_armed r = false -> step_armed (DMPredictor._settle_reset_state r) = false)
    as Hset by done.
  assert (forall f r, step_armed r = false -> step_armed (DMPredictor.for_selected f r) = false)
    as Hsel by done.
  apply Hset. unfold DMPredictor.dmcontrol_run. dmcontrol_flags.
  repeat case_match; auto.
Qed.

Lemma hart_after_args p i h a sel :
  Z.of_nat i < DMPredictor.num_harts p -> step_armed p = false ->
  hart_after p (dmcontrol a) i sel h =
  hart (step_view (features_of p) a sel
          (mk_view h (DMPredictor.ndmreset p) (DMPredictor._hartreset_level p))).
Proof.
  intros Hi Hs. unfold hart_after, step_view, run_args, acks_args, run_hart, acks_hart.
  autorewrite with dmcontrol_bits. rewrite Hs.
  assert (DMPredictor._is_nonexistent p (Z.of_nat i) = false) as -> by (apply Z.leb_gt; lia).
  reflexivity.
Qed.

(** A dmcontrol write with dmactive set moves the view. *)
Lemma write_sees p c i V a :
  sees p c i V -> DmcontrolArgs.dmactive a = true ->
  let q := DMPredictor.on_write DMI.DMCONTROL (dmcontrol a) p in
  sees q c i (step_view c a (Z.of_nat i =? DmcontrolArgs.hartsel a mod 2 ^ 20) V) /\
  DMPredictor.hartsel q = DmcontrolArgs.hartsel a mod 2 ^ 20.
Proof.
  intros [Hh Hn Hl He Hs Hf Hv] Ha q.
  assert (Z.testbit (dmcontrol a) 0 = true) as Hact by by autorewrite with dmcontrol_bits.
  pose proof (dmcontrol_frame (dmcontrol a) p Hact) as D. cbn zeta in D.
  change (Register.address DMCONTROL) with DMI.DMCONTROL in D. fold q in D.
  destruct D as (_ & Dn & Dh & _ & Dl & _ & De). autorewrite with dmcontrol_bits in Dn, Dl.
  rewrite hartsel_of_dmcontrol in Dh. split; [|exact Dh].
  pose proof (dmcontrol_hart (dmcontrol a) p i Hact) as Dw.
  change (Register.address DMCONTROL) with DMI.DMCONTROL in Dw. fold q in Dw.
  rewrite Hh, hartsel_of_dmcontrol in Dw. cbn [fmap option_fmap option_map] in Dw.
  rewrite hart_after_args in Dw by done.
  assert (features_of q = features_of p) as Hfq.
  { exact (f_equal features_of De). }
  assert (DMPredictor.num_harts q = DMPredictor.num_harts p) as Hnum
    by exact (f_equal DMPredictor.num_harts De).
  assert (DMPredictor.version q = DMPredictor.version p) as Hver
    by exact (f_equal DMPredictor.version De).
  split; [|exact Dn| | | | |].
  - rewrite Dw, Hf, Hn, Hl. by destruct V.
  - rewrite Dl. cbn. by rewrite <-Hf.
  - by rewrite Hnum.
  - by apply step_armed_stays.
  - by rewrite Hfq.
  - by rewrite Hver.
Qed.

(** ** What a dmstatus read shows of the selected hart *)

Record shows (c : features) (h : HartState.t) (w : Z) : Prop := {
  show_allhalted : allhalted w = HartState.halted h;
  show_anyhalted : anyhalted w = HartState.halted h;
  show_allrunning : allrunning w = HartState.running h;
  show_anyrunning : anyrunning w = HartState.running h;
  show_allresumeack : allresumeack w = HartState.resume_ack h;
  show_anyresumeack : anyresumeack w = HartState.resume_ack h;
  show_allhavereset : allhavereset w = HartState.havereset h;
  show_anyhavereset : anyhavereset w = HartState.havereset h;
  show_rhr : hasresethaltreq w = has_rhr c;
  show_version : (version w =? 0) = false
}.

Lemma dmstatus_accessors w l :
  Register.decode DMSTATUS w = l ->
  let flag n := truthy (dict_get l n 0) in
  allhalted w = flag "allhalted" /\ anyhalted w = flag "anyhalted" /\
  allrunning w = flag "allrunning" /\ anyrunning w = flag "anyrunning" /\
  allresumeack w = flag "allresumeack" /\ anyresumeack w = flag "anyresumeack" /\
  allhavereset w = flag "allhavereset" /\ anyhavereset w = flag "anyhavereset" /\
  hasresethaltreq w = flag "hasresethaltreq" /\ version w = dict_get l "version" 0.
Proof. intros <-. cbn zeta. split_and!; reflexivity. Qed.

Lemma expect_shows p c i V :
  sees p c i V -> DMPredictor.hartsel p = Z.of_nat i ->
  exists w, DMPredictor.expect p DMI.DMSTATUS = Ok w /\ shows c (hart V) w.
Proof.
  intros [Hh _ _ _ _ <- Hv] Hs. destruct (dmstatus_decode p) as (w & He & _ & Hd); [lia|].
  rewrite Hs, Nat2Z.id, Hh in Hd. exists w. split; [exact He|].
  destruct (dmstatus_accessors w _ Hd) as (A1 & A2 & A3 & A4 & A5 & A6 & A7 & A8 & A9 & A10).
  cbn in *. rewrite truthy_to_int in *. split; try done. rewrite A10. by apply Z.eqb_neq.
Qed.

(** ndmresetpending is the level of ndmreset, from version 1.0 on. *)
Lemma expect_pending p c i V :
  sees p c i V -> DMPredictor.hartsel p = Z.of_nat i ->
  exists w, DMPredictor.expect p DMI.DMSTATUS = Ok w /\ shows c (hart V) w /\
    ndmresetpending w = v1_0 c && ndm V.
Proof.
  intros Hv Hs. destruct (expect_shows p c i V Hv Hs) as (w & He & Hw). exists w.
  split_and!; [done..|]. destruct (dmstatus_decode p) as (w' & He' & _ & Hd); [lia|].
  change (DMPredictor.expect p DMI.DMSTATUS) with (DMPredictor._expect_dmstatus p) in He.
  rewrite He' in He. apply Ok_inj in He as ->.
  assert (ndmresetpending w = truthy (dict_get (Register.decode DMSTATUS w) "ndmresetpending" 0))
    as -> by reflexivity.
  rewrite Hd. cbn. rewrite (sees_ndm _ _ _ _ Hv), <-(sees_features _ _ _ _ Hv). cbn.
  destruct (DMSTATUS_VERSION_1_0 <=? DMPredictor.version p); [|done]. apply truthy_to_int.
Qed.

(** ** What a dmcontrol write and read say of the DM itself *)

Lemma write_dm p a :
  let q := DMPredictor.on_write DMI.DMCONTROL (dmcontrol a) p in
  DMPredictor.dmactive q = DmcontrolArgs.dmactive a /\
  DMPredictor.hartsel q =
    (if DmcontrolArgs.dmactive a then DmcontrolArgs.hartsel a mod 2 ^ 20 else 0) /\
  DMPredictor.version q = DMPredictor.version p /\
  DMPredictor.num_harts q = DMPredictor.num_harts p.
Proof.
  cbn zeta. destruct (DmcontrolArgs.dmactive a) eqn:Ha.
  - assert (Z.testbit (dmcontrol a) 0 = true) as Hact by by autorewrite with dmcontrol_bits.
    pose proof (dmcontrol_frame (dmcontrol a) p Hact) as D. cbn zeta in D.
    change (Register.address DMCONTROL) with DMI.DMCONTROL in D.
    destruct D as (-> & _ & -> & _ & _ & _ & De). rewrite hartsel_of_dmcontrol.
    split_and!; [done|done| |];
      [exact (f_equal DMPredictor.version De)|exact (f_equal DMPredictor.num_harts De)].
  - change DMI.DMCONTROL with (Register.address DMCONTROL).
    by rewrite dmcontrol_dmactive_0 by by autorewrite with dmcontrol_bits.
Qed.

Lemma expect_dmactive p :
  0 <= DMPredictor.hartsel p < 2 ^ 20 ->
  exists w, DMPredictor.expect p DMI.DMCONTROL = Ok w /\
    dmcontrol_dmactive w = DMPredictor.dmactive p /\ truthy (Z.land w 1) = DMPredictor.dmactive p.
Proof.
  intros Hs. destruct (expect_dmcontrol_spec p Hs) as (w & He & _ & _ & Hx). exists w.
  split; [exact He|].
  specialize (Hx (field_of DMCONTROL "dmactive")). unfold dmcontrol_dmactive.
  change (Field.extract _ w) with (Z.land (Z.shiftr w 0) 1) in Hx. rewrite Z.shiftr_0_r in Hx.
  rewrite Hx by first [done | in_list]. cbn. by destruct (DMPredictor.dmactive p).
Qed.

Lemma expect_version p :
  0 <= DMPredictor.hartsel p ->
  exists w, DMPredictor.expect p DMI.DMSTATUS = Ok w /\
    version w = DMPredictor.version p mod 16 /\
    anynonexistent w = (DMPredictor.num_harts p <=? DMPredictor.hartsel p) /\
    allnonexistent w = (DMPredictor.num_harts p <=? DMPredictor.hartsel p).
Proof.
  intros Hs. destruct (dmstatus_decode p Hs) as (w & He & _ & Hd). exists w.
  split; [exact He|].
  assert (version w = dict_get (Register.decode DMSTATUS w) "version" 0 /\
    anynonexistent w = truthy (dict_get (Register.decode DMSTATUS w) "anynonexistent" 0) /\
    allnonexistent w = truthy (dict_get (Register.decode DMSTATUS w) "allnonexistent" 0))
    as (-> & -> & ->) by (split_and!; reflexivity).
  rewrite Hd. cbn. by rewrite truthy_to_int.
Qed.

(** The hartreset bit of a dmcontrol read is the level in force. *)
Lemma expect_hartreset p :
  0 <= DMPredictor.hartsel p < 2 ^ 20 ->
  exists w, DMPredictor.expect p DMI.DMCONTROL = Ok w /\
    truthy (Z.land w 1) = DMPredictor.dmactive p /\
    dmcontrol_hartreset w = DMPredictor._hartreset_level p && DMPredictor.supports_hartreset p.
Proof.
  intros Hs. destruct (expect_dmcontrol_spec p Hs) as (w & He & _ & _ & Hx). exists w.
  split; [exact He|]. split.
  - specialize (Hx (field_of DMCONTROL "dmactive")).
    change (Field.extract _ w) with (Z.land (Z.shiftr w 0) 1) in Hx. rewrite Z.shiftr_0_r in Hx.
    rewrite Hx by first [done | in_list]. cbn. by destruct (DMPredictor.dmactive p).
  - specialize (Hx (field_of DMCONTROL "hartreset")). unfold dmcontrol_hartreset, bit_of.
    change (Field.extract _ w) with (Z.land (Z.shiftr w 29) 1) in Hx.
    rewrite Hx by first [done | in_list]. cbn.
    by destruct (DMPredictor._hartreset_level p), (DMPredictor.supports_hartreset p).
Qed.

(** ** Every hart seen at once *)

(** The view of each of the first [n] harts. *)
Definition views : Type := nat -> view.

Definition step_views (c : features) (a : DmcontrolArgs.t) (V : views) : views := fun j =>
  step_view c a (Z.of_nat j =? DmcontrolArgs.hartsel a mod 2 ^ 20) (V j).

(** The position a tracked hartsel selects. *)
Definition at_hart (s : Z) : nat := Z.to_nat (s mod 2 ^ 20).

Section logic.
Context `{Clock} (c : features) (n : nat) (now : Z).

Definition viewed (p : DMPredictor.t) (V : views) : Prop :=
  forall j, (j < n)%nat -> sees p c j (V j).

(** The DM is active and the tracked hartsel, one of the [n], is the one in force. *)
Definition selected (p : DMPredictor.t) (V : views) (s : Z) : Prop :=
  viewed p V /\ DMPredictor.dmactive p = true /\ DMPredictor.hartsel p = s mod 2 ^ 20 /\
  (at_hart s < n)%nat.

Lemma selected_sees p V s :
  selected p V s ->
  sees p c (at_hart s) (V (at_hart s)) /\ DMPredictor.hartsel p = Z.of_nat (at_hart s).
Proof.
  intros (Hv & _ & Hs & Hn). split; [by apply Hv|]. unfold at_hart in *.
  pose proof (Z.mod_pos_bound s (2 ^ 20)). lia.
Qed.

Lemma write_views p V a :
  viewed p V -> DmcontrolArgs.dmactive a = true -> (at_hart (DmcontrolArgs.hartsel a) < n)%nat ->
  selected (DMPredictor.on_write DMI.DMCONTROL (dmcontrol a) p) (step_views c a V)
    (DmcontrolArgs.hartsel a).
Proof.
  intros Hv Ha Hn. destruct (write_dm p a) as (Da & Dh & _). rewrite Ha in Da, Dh.
  split_and!; try done. intros j Hj. apply write_sees; [by apply Hv|done].
Qed.

(** The weakest precondition of a program over the views, at the time [now]. *)
Definition vwp {A} (e : M A) (V : views) (s : Z) (Q : A -> views -> Z -> Prop) : Prop :=
  forall p, selected p V s ->
  expects e p s now (fun a p s t => t = now /\ exists V, selected p V s /\ Q a V s).

Lemma vwp_bind {A B} (e : M A) (k : A -> M B) V s Q :
  vwp e V s (fun a V s => vwp (k a) V s Q) -> vwp (bind e k) V s Q.
Proof.
  intros He p Hp. apply expects_bind. eapply expects_mono; [by apply He|].
  cbn. intros a m s' t (-> & V' & Hs & Hk). by apply Hk.
Qed.

Lemma vwp_mono {A} (e : M A) V s (Q R : A -> views -> Z -> Prop) :
  vwp e V s Q -> (forall a V s, Q a V s -> R a V s) -> vwp e V s R.
Proof.
  intros He HQ p Hp. eapply expects_mono; [by apply He|].
  cbn. intros a m s' t (-> & V' & Hs & Hq). split; [done|]. exists V'. auto.
Qed.

Lemma vwp_ret {A} (a : A) V s (Q : A -> views -> Z -> Prop) : Q a V s -> vwp (Ret a) V s Q.
Proof. intros Hq p Hp. split; [done|]. by exists V. Qed.

Lemma vwp_wr_dmcontrol f V s (Q : unit -> views -> Z -> Prop) :
  DmcontrolArgs.dmactive (tracked f s) = true -> DmcontrolArgs.hartsel (tracked f s) = s ->
  Q tt (step_views c (tracked f s) V) s -> vwp (wr_dmcontrol f) V s Q.
Proof.
  intros Ha Hh Hq p Hp. unfold expects. rewrite predicted_wr_dmcontrol. split; [done|].
  exists (step_views c (tracked f s) V). split; [|done].
  destruct Hp as (Hv & _ & _ & Hn). pose proof (write_views p V (tracked f s) Hv Ha) as Hw.
  rewrite Hh in Hw. by apply Hw.
Qed.

Lemma vwp_write_dmcontrol h a V s (Q : Z -> views -> Z -> Prop) :
  let b := a <| DmcontrolArgs.dmactive := true |> <| DmcontrolArgs.hartsel := default s h |> in
  default s h = s ->
  Q (dmcontrol b) (step_views c b V) s -> vwp (write_dmcontrol None h a) V s Q.
Proof.
  intros b Hs Hq p Hp. split; [done|]. exists (step_views c b V). split; [|exact Hq].
  destruct Hp as (Hv & _ & _ & Hn). pose proof (write_views p V b Hv eq_refl) as Hw.
  change (DmcontrolArgs.hartsel b) with (default s h) in Hw. rewrite Hs in Hw. by apply Hw.
Qed.

Lemma vwp_select_hart h V s (Q : unit -> views -> Z -> Prop) :
  let a := DmcontrolArgs.default <| DmcontrolArgs.dmactive := true |>
                                 <| DmcontrolArgs.hartsel := h |> in
  (at_hart h < n)%nat -> Q tt (step_views c a V) h -> vwp (select_hart h) V s Q.
Proof.
  intros a Hn Hq p (Hv & _). split; [done|]. exists (step_views c a V). split; [|exact Hq].
  by apply write_views.
Qed.

Lemma vwp_read_dmstatus V s (Q : Z -> views -> Z -> Prop) :
  (forall w, shows c (hart (V (at_hart s))) w -> Q w V s) -> vwp read_dmstatus V s Q.
Proof.
  intros Hq p Hp. destruct (selected_sees p V s Hp) as [Hs Hh].
  destruct (expect_shows _ _ _ _ Hs Hh) as (w & He & Hw).
  apply (expects_rd _ _ _ _ _ _ He). split; [done|]. exists V. auto.
Qed.

Lemma vwp_read_pending V s (Q : Z -> views -> Z -> Prop) :
  (forall w, shows c (hart (V (at_hart s))) w ->
     ndmresetpending w = v1_0 c && ndm (V (at_hart s)) -> Q w V s) -> vwp read_dmstatus V s Q.
Proof.
  intros Hq p Hp. destruct (selected_sees p V s Hp) as [Hs Hh].
  destruct (expect_pending _ _ _ _ Hs Hh) as (w & He & Hw & Hn).
  apply (expects_rd _ _ _ _ _ _ He). split; [done|]. exists V. auto.
Qed.

Lemma vwp_read_dmcontrol V s (Q : Z -> views -> Z -> Prop) :
  (forall w, truthy (Z.land w 1) = true ->
     dmcontrol_hartreset w = lvl (V (at_hart s)) && has_hartreset c -> Q w V s) ->
  vwp read_dmcontrol V s Q.
Proof.
  intros Hq p Hp. destruct (selected_sees p V s Hp) as [Hs _]. destruct Hp as (Hv & Ha & Hh & Hn).
  destruct (expect_hartreset p) as (w & He & Hw & Hr).
  { rewrite Hh. by apply Z.mod_pos_bound. }
  apply (expects_rd _ _ _ _ _ _ He). split; [done|]. exists V. split; [done|].
  apply Hq; [by rewrite Hw, Ha|]. rewrite Hr, (sees_lvl _ _ _ _ Hs). by rewrite <-(sees_features _ _ _ _ Hs).
Qed.

Lemma vwp_poll predicate msg timeout V s (Q : unit -> views -> Z -> Prop) :
  (forall w, shows c (hart (V (at_hart s))) w -> predicate w = Ok true) -> Q tt V s ->
  vwp (_poll_until predicate DMI.DMSTATUS msg timeout) V s Q.
Proof.
  intros Hw Hq p Hp. destruct (selected_sees p V s Hp) as [Hs Hh].
  destruct (expect_shows _ _ _ _ Hs Hh) as (w & He & Hsh). unfold expects.
  rewrite (predicted_poll_accepts _ _ _ _ _ _ _ w He) by by apply Hw.
  split; [done|]. by exists V.
Qed.

Lemma vwp_predictor {A} (k : option DMPredictor.t -> M A) V s Q :
  (forall p, selected p V s -> vwp (k (Some p)) V s Q) ->
  vwp (bind predictor_of k) V s Q.
Proof. intros Hk p Hp. apply (Hk p Hp p Hp). Qed.

Lemma vwp_monotonic V s (Q : Z -> views -> Z -> Prop) : Q now V s -> vwp monotonic V s Q.
Proof. intros Hq p Hp. split; [done|]. by exists V. Qed.

End logic.

(** Activation selects hart 0, whatever was selected before. *)
Definition activation : DmcontrolArgs.t :=
  DmcontrolArgs.default <| DmcontrolArgs.dmactive := true |> <| DmcontrolArgs.ackhavereset := true |>.

Lemma expects_activated `{Clock} c n p V s now :
  (0 < n)%nat -> viewed c n p V ->
  expects activate p s now (fun _ q s t =>
    t = now /\ s = 0 /\ q = DMPredictor.on_write DMI.DMCONTROL (dmcontrol activation) p /\
    selected c n q (step_views c activation V) s).
Proof.
  intros Hn Hv. pose proof (write_views c n p V activation Hv eq_refl Hn) as Hw.
  unfold activate. apply expects_bind. do 2 apply expects_bind.
  destruct (selected_sees _ _ _ _ _ Hw) as [Hs Hh].
  destruct (expect_shows _ _ _ _ Hs Hh) as (w & He & Hsh).
  apply (expects_rd _ _ _ _ _ _ He). by rewrite (show_version _ _ _ Hsh).
Qed.

Lemma expects_activate `{Clock} c n p V s now :
  (0 < n)%nat -> viewed c n p V ->
  expects activate p s now (fun _ p s t =>
    t = now /\ s = 0 /\ selected c n p (step_views c activation V) s).
Proof.
  intros Hn Hv. eapply expects_mono; [by apply expects_activated|].
  cbn. by intros _ q s' t (-> & -> & _ & Hs).
Qed.
