(* ===== verification/SequencesSound.v ===== *)
(** The test sequences pass on the golden-reference model: on any transport
    backed by it, a batch run of a [Sequences] session keeps a passing result
    for every step. *)

From S2P Require Import Prelude Registers Predictor RunControl Transport RiscvDm RiscvDmSound.
From S2P Require Import Session Sequences Expectation.
Import RISCVDebug.

Local Open Scope string_scope.
Local Open Scope list_scope.
Local Open Scope Z_scope.
Local Open Scope prog_scope.

(** ** Steps over views *)

Lemma step_views_at c a V j :
  Z.of_nat j = DmcontrolArgs.hartsel a mod 2 ^ 20 ->
  step_views c a V j = step_view c a true (V j).
Proof. intros Hj. unfold step_views. by rewrite Hj, Z.eqb_refl. Qed.

Lemma step_views_other c a V j :
  Z.of_nat j <> DmcontrolArgs.hartsel a mod 2 ^ 20 ->
  step_views c a V j = step_view c a false (V j).
Proof. intros Hj. unfold step_views. by apply Z.eqb_neq in Hj as ->. Qed.

Lemma at_hart_spec s : Z.of_nat (at_hart s) = s mod 2 ^ 20.
Proof. unfold at_hart. pose proof (Z.mod_pos_bound s (2 ^ 20)). lia. Qed.

Lemma selects_itself s : (Z.of_nat (at_hart s) =? s mod 2 ^ 20) = true.
Proof. rewrite at_hart_spec. apply Z.eqb_refl. Qed.

(** A hart outside reset that answers, halted or not. *)
Definition calm (halted : bool) (v : view) : Prop :=
  HartState.available (hart v) = true /\ HartState.unavail_sticky (hart v) = false /\
  HartState.hart_reset (hart v) = false /\ HartState.halted (hart v) = halted /\
  HartState.running (hart v) = negb halted /\ ndm v = false /\ lvl v = false.


Lemma calm_explicit b v :
  calm b v <-> exists hr ra rh hv nx,
    v = mk_view (HartState.mk hr ra rh false b (negb b) hv true false nx) false false.
Proof.
  split.
  - destruct v as [[hr ra rh rst hd rn hv av us nx] nd lv].
    intros (H1 & H2 & H3 & H4 & H5 & H6 & H7). cbn in *. subst. by exists hr, ra, rh, hv, nx.
  - intros (hr & ra & rh & hv & nx & ->). done.
Qed.

Lemma vwp_predicted_dmstatus `{Clock} c n now p V s (Q : Z -> views -> Z -> Prop) :
  selected c n p V s -> (forall w, shows c (hart (V (at_hart s))) w -> Q w V s) ->
  vwp c n now (RunControlSequence.predicted_dmstatus p) V s Q.
Proof.
  intros Hp Hq q Hq'. destruct (selected_sees c n p V s Hp) as [Hs Hh].
  destruct (expect_shows _ _ _ _ Hs Hh) as (w & He & Hw).
  unfold RunControlSequence.predicted_dmstatus. rewrite He. split; [done|]. exists V. auto.
Qed.

Ltac eval_view E :=
  match type of E with ?l = ?r => let r := eval lazy in r in change (l = r) in E end.

(** After a write, the explicit views of the harts in sight, under fresh names. *)
Ltac push_views :=
  match goal with
  | |- context [step_views ?c ?a ?V] =>
      repeat match goal with
      | HV : V ?k = _ |- _ =>
          let E := fresh "HV" in
          pose proof (eq_refl : step_views c a V k =
            step_view c a (Z.of_nat k =? DmcontrolArgs.hartsel a mod 2 ^ 20) (V k)) as E;
          rewrite HV in E; clear HV;
          match goal with
          | D : (Z.of_nat k =? ?s mod 2 ^ 20) = _ |- _ =>
              change (DmcontrolArgs.hartsel a) with s in E; rewrite D in E
          end;
          eval_view E
      end;
      let V' := fresh "V" in
      set (V' := step_views c a V) in *; clearbody V'
  end.

(** The word a dmstatus read returns, by the view of the selected hart. *)
Ltac read_shows :=
  let w := fresh "w" in
  intros w;
  match goal with
  | HV : ?V ?i = _, Hi : at_hart ?s = ?i |- shows _ (hart (?V (at_hart ?s))) _ -> _ =>
      rewrite Hi, HV; cbn [hart HartState.halted HartState.running HartState.resume_ack HartState.havereset];
      intros [??????????]
  end.

(** One step of symbolic execution. *)
Ltac vstep :=
  lazymatch goal with
  | |- vwp _ _ _ (bind predictor_of _) _ _ _ => apply vwp_predictor; intros
  | |- vwp _ _ _ (bind _ _) _ _ _ => apply vwp_bind
  | |- vwp _ _ _ (Ret _) _ _ _ => apply vwp_ret
  | |- vwp _ _ _ (wr_dmcontrol _) _ _ _ =>
      apply vwp_wr_dmcontrol; [reflexivity|reflexivity|push_views]
  | |- vwp _ _ _ (select_hart _) _ _ _ => apply vwp_select_hart; [lia|push_views]
  | |- vwp _ _ _ (write_fields _) _ _ _ =>
      apply vwp_write_dmcontrol; [reflexivity|push_views]
  | |- vwp _ _ _ read_dmstatus _ _ _ => apply vwp_read_dmstatus; read_shows
  | |- vwp _ _ _ read_dmcontrol _ _ _ => apply vwp_read_dmcontrol; intros
  | |- vwp _ _ _ (_poll_until _ _ _ _) _ _ _ =>
      apply vwp_poll; [read_shows; by f_equal|]
  | |- vwp _ _ _ monotonic _ _ _ => apply vwp_monotonic
  | Hp : selected _ _ ?p _ _ |- vwp _ _ _ (RunControlSequence.predicted_dmstatus ?p) _ _ _ =>
      apply vwp_predicted_dmstatus; [exact Hp|read_shows]
  | |- vwp _ _ _ (report _ _) _ _ _ => apply vwp_ret
  | |- vwp _ _ _ (if HaltOnReset.unsupported (Some ?b) then _ else _) _ _ _ =>
      change (HaltOnReset.unsupported (Some b)) with (negb b); cbn [negb]
  | |- vwp _ _ _ ?e _ _ _ => progress unfold halt, resume, ndmreset, set_reset_haltreq, clr_reset_haltreq
  end; cbv beta.

Section steps.
Context {T : Type} `{ModelBacked T} `{Clock} (c : features) (n : nat) (now : Z).

(** The worlds at the time [now] whose model shows [Phi] of the tracked hartsel
    and the views. *)
Definition on_views (Phi : Z -> views -> Prop) (w : W T) : Prop :=
  live (dev w) /\ clock w = now /\ exists V, selected c n (model (dev w)) V (self w) /\ Phi (self w) V.

(** The closure of a step, over the views. *)
Definition step_spec {A} (Phi : Z -> views -> Prop) (e : M A) (good : A -> Prop)
    (Psi : Z -> views -> Prop) : Prop :=
  forall V s, Phi s V -> vwp c n now e V s (fun a V s => good a /\ Psi s V).

Lemma result_step_passes Phi e Psi :
  step_spec Phi e (fun r => StepResult.ok r = true) Psi ->
  passes (on_views Phi) (result_step e) (on_views Psi).
Proof.
  intros He w (Hl & Hnow & V & Hs & HV).
  pose proof (He V (self w) HV _ Hs) as Hx. rewrite <-Hnow in Hx.
  destruct (expects_run e w _ Hl Hx)
    as (r & Hr & Hl' & Ht & V' & Hs' & Hok & HV').
  unfold result_step. destruct (Transport.run e w) as [w' x]. cbn in *. subst x.
  split; [by exists r|]. split; [done|]. split; [congruence|]. by exists V'.
Qed.

Lemma none_step_passes Phi e Psi :
  step_spec Phi e (fun _ => True) Psi -> passes (on_views Phi) (none_step e) (on_views Psi).
Proof.
  intros He w (Hl & Hnow & V & Hs & HV).
  pose proof (He V (self w) HV _ Hs) as Hx. rewrite <-Hnow in Hx.
  destruct (expects_run e w _ Hl Hx)
    as (r & Hr & Hl' & Ht & V' & Hs' & _ & HV').
  unfold none_step. destruct (Transport.run e w) as [w' x]. cbn in *. subst x.
  split; [eexists; split; reflexivity|]. split; [done|]. split; [congruence|]. by exists V'.
Qed.

End steps.

(** The selected hart is calm. *)
Definition here (i : nat) (halted : bool) (s : Z) (V : views) : Prop :=
  at_hart s = i /\ calm halted (V i).


(** The boolean verdict of a step, from what its reads showed. *)
Ltac verdict :=
  cbn [StepResult.ok];
  repeat match goal with E : _ = _ :> bool |- _ => rewrite E; clear E end;
  cbn [HartState.halted HartState.running HartState.resume_ack HartState.havereset has_rhr negb andb];
  rewrite ?Bool.eqb_reflx, ?Z.sub_diag; reflexivity.

(** The selected hart is calm in the views that are left. *)
Ltac still_calm :=
  split; [assumption|];
  match goal with HV : ?V ?i = _ |- calm _ (?V ?i) => eval_view HV; rewrite HV end;
  apply calm_explicit; repeat eexists.

Ltac run_views :=
  let Hi := fresh "Hi" in let HV := fresh "HV" in
  intros V s [Hi HV];
  pose proof (selects_itself s) as Hsel; rewrite Hi in Hsel;
  apply calm_explicit in HV as (hr & ra & rh & hv & nx & HV);
  match goal with c : features |- _ => destruct c as [? [] ? ? ? ?] end;
  repeat vstep.

Ltac run_step := run_views; (split; [verdict|still_calm]).

Section run_control.
Context `{Clock} (c : features) (n : nat) (now : Z) (i : nat).

Abbreviation step b e b' := (step_spec c n now (here i b) e (fun r => StepResult.ok r = true) (here i b')).

Lemma tc_rc_001_spec b : step b RunControlSequence.tc_rc_001 true.
Proof. unfold RunControlSequence.tc_rc_001. destruct b; run_step. Qed.

Lemma tc_rc_002_spec : step true RunControlSequence.tc_rc_002 true.
Proof. unfold RunControlSequence.tc_rc_002. run_step. Qed.

Lemma tc_rc_003_spec : step true RunControlSequence.tc_rc_003 false.
Proof. unfold RunControlSequence.tc_rc_003. run_step. Qed.

Lemma tc_rc_004_spec : step false RunControlSequence.tc_rc_004 false.
Proof. unfold RunControlSequence.tc_rc_004. run_step. Qed.

Lemma tc_rc_005_spec : step false RunControlSequence.tc_rc_005 true.
Proof. unfold RunControlSequence.tc_rc_005. run_step. Qed.

Lemma tc_rc_006_spec : step true RunControlSequence.tc_rc_006 false.
Proof. unfold RunControlSequence.tc_rc_006. run_step. Qed.

(** Out of reset a pending halt-on-reset request halts the hart. *)
Lemma tc_rc_007_spec :
  step_spec c n now (here i false) RunControlSequence.tc_rc_007 (fun r => StepResult.ok r = true)
    (fun s V => exists b, here i b s V).
Proof.
  unfold RunControlSequence.tc_rc_007. run_views; (split; [verdict|]).
  all: exists rh; destruct rh; still_calm.
Qed.

(** The steps before the test cases. *)
Lemma select_spec h b :
  at_hart h = i -> (i < n)%nat ->
  step_spec c n now (fun _ V => calm b (V i)) (select_hart h) (fun _ => True) (here i b).
Proof.
  intros Hi Hn V s HV. apply vwp_select_hart; [lia|]. split; [done|]. split; [done|].
  rewrite step_views_at by by rewrite <-Hi, at_hart_spec.
  apply calm_explicit in HV as (hr & ra & rh & hv & nx & ->).
  destruct c as [? [] ? ? ? ?], b; apply calm_explicit; repeat eexists.
Qed.

End run_control.

(** ** The halt-and-resume session *)

Section sessions.
Context {T : Type} `{ModelBacked T} `{Clock} (c : features) (n : nat) (now : Z).

(** A live transport whose model shows, of its first [n] harts, the views [V]. *)
Definition starts (V : views) (w : W T) : Prop :=
  live (dev w) /\ clock w = now /\ 0 <= DMPredictor.hartsel (model (dev w)) /\
  viewed c n (model (dev w)) V.

Lemma baseline_passes V :
  passes (starts V) (result_step RunControlSequence.baseline) (starts V).
Proof.
  intros w (Hl & Hnow & Hs & HV).
  destruct (expect_version _ Hs) as (v & He & _).
  destruct (expects_run RunControlSequence.baseline w
    (fun r p s t => StepResult.ok r = true /\ p = model (dev w) /\ t = clock w) Hl)
    as (r & Hr & Hl' & Hok & Hp & Ht).
  { apply expects_bind. by apply (expects_rd _ _ _ _ _ _ He). }
  unfold result_step. destruct (Transport.run _ w) as [w' x]. cbn in *. subst x.
  split; [by exists r|]. unfold starts. rewrite Hp. split_and!; try done. congruence.
Qed.

Lemma activate_passes V :
  (0 < n)%nat ->
  passes (starts V) (none_step activate)
    (on_views c n now (fun s V' => s = 0 /\ V' = step_views c activation V)).
Proof.
  intros Hn w (Hl & <- & Hs & HV).
  destruct (expects_run activate w _ Hl (expects_activate c n _ V (self w) (clock w) Hn HV))
    as (r & Hr & Hl' & Ht & Hself & Hsel).
  unfold none_step. destruct (Transport.run _ w) as [w' x]. cbn in *. subst x.
  split; [eexists; split; reflexivity|]. split; [done|]. split; [congruence|].
  by exists (step_views c activation V).
Qed.

Lemma calm_activation b V i : calm b (V i) -> calm b (step_views c activation V i).
Proof using.
  clear. intros HV. apply calm_explicit in HV as (hr & ra & rh & hv & nx & HV).
  unfold step_views. rewrite HV. apply calm_explicit.
  destruct c as [? [] ? ? ? ?], b, (Z.of_nat i =? _); repeat eexists.
Qed.

Lemma on_views_mono (Phi Psi : Z -> views -> Prop) (w : W T) :
  on_views c n now Phi w -> (forall s V, Phi s V -> Psi s V) -> on_views c n now Psi w.
Proof. intros (? & ? & V & ? & ?) Hi. split_and!; [done..|]. exists V. auto. Qed.

Ltac tc spec := eapply chain_cons; [eapply result_step_passes, spec|].

Ltac run_control_cases :=
  tc tc_rc_002_spec; tc tc_rc_003_spec; tc tc_rc_004_spec; tc tc_rc_005_spec; tc tc_rc_006_spec;
  tc tc_rc_007_spec; constructor.


End sessions.

(** ** The halt-on-reset session *)

(** A calm hart whose halt-on-reset request is [rq]. *)
Definition quiet (rq : bool) (v : view) : Prop :=
  exists hr ra b hv nx,
    v = mk_view (HartState.mk hr ra rq false b (negb b) hv true false nx) false false.

Lemma quiet_intro rq v :
  calm (HartState.halted (hart v)) v -> HartState.reset_haltreq (hart v) = rq -> quiet rq v.
Proof.
  intros HV Hr. apply calm_explicit in HV as (hr & ra & rh & hv & nx & HV).
  exists hr, ra, (HartState.halted (hart v)), hv, nx. by rewrite <-Hr, HV.
Qed.

Section halt_on_reset.
Context `{Clock} (c : features) (n : nat) (now : Z) (hart_b : Z) (j : nat).
Context (Hb0 : 0 <= hart_b) (Hb : at_hart hart_b = j) (Hj : j <> 0%nat).

(** Hart 0 is selected; it and hart [j] are calm. *)
Definition pair (rq : bool) (s : Z) (V : views) : Prop :=
  s = 0 /\ quiet rq (V 0%nat) /\ quiet false (V j).

Abbreviation passing := (fun r => StepResult.ok r = true).

Ltac pair_views :=
  intros V s (-> & (hr & ra & b & hv & nx & HV) & ([] & ra' & b' & hv' & nx' & HV'));
  pose proof (eq_refl : at_hart 0 = 0%nat) as Hi;
  pose proof (eq_refl : (Z.of_nat 0 =? 0 mod 2 ^ 20) = true) as D0;
  assert (D1 : (Z.of_nat j =? 0 mod 2 ^ 20) = false) by (apply Z.eqb_neq; change (0 mod 2 ^ 20) with 0; lia);
  pose proof (selects_itself hart_b) as D2; rewrite Hb in D2;
  assert (D3 : (Z.of_nat 0 =? hart_b mod 2 ^ 20) = false)
    by (apply Z.eqb_neq; rewrite <-at_hart_spec, Hb; lia).

Ltac still_pair :=
  split; [reflexivity|];
  repeat match goal with
  | |- _ /\ _ => split
  | HV : ?V ?i = _ |- quiet _ (?V ?i) => rewrite HV; apply quiet_intro; [split_and!|]; reflexivity
  end.

Lemma tc_hor_002_spec :
  step_spec c n now (pair false) (HaltOnReset.tc_hor_002 (Some (has_rhr c))) passing (pair (has_rhr c)).
Proof.
  unfold HaltOnReset.tc_hor_002. pair_views; destruct c as [? [] ? ? ? ?]; cbn [has_rhr].
  all: repeat vstep.
  all: (split; [verdict|still_pair]).
Qed.

Lemma tc_hor_003_spec :
  step_spec c n now (pair (has_rhr c)) (HaltOnReset.tc_hor_003 (Some (has_rhr c))) passing (pair false).
Proof.
  unfold HaltOnReset.tc_hor_003. pair_views; destruct c as [? [] ? ? ? ?]; cbn [has_rhr].
  all: repeat vstep.
  all: (split; [verdict|still_pair]).
Qed.

Lemma tc_hor_004_spec :
  (j < n)%nat ->
  step_spec c n now (pair false) (HaltOnReset.tc_hor_004 (hart_b + 1) (Some (has_rhr c))) passing
    (pair false).
Proof.
  intros Hjn. unfold HaltOnReset.tc_hor_004, HaltOnReset._na. rewrite Z.add_simpl_r.
  assert ((hart_b + 1 <? 2) = false) as ->.
  { apply Z.ltb_ge. assert (hart_b <> 0) by (intros ->; by rewrite <-Hb in Hj). lia. }
  pair_views; destruct c as [? [] ? ? ? ?]; cbn [has_rhr].
  all: repeat vstep.
  all: (split; [verdict|still_pair]).
Qed.

Lemma tc_hor_004_na num_harts :
  num_harts < 2 ->
  step_spec c n now (pair false) (HaltOnReset.tc_hor_004 num_harts (Some (has_rhr c))) passing
    (pair false).
Proof.
  intros Hn V s HV. unfold HaltOnReset.tc_hor_004, HaltOnReset._na.
  assert ((num_harts <? 2) = true) as -> by by apply Z.ltb_lt.
  destruct c as [? [] ? ? ? ?]; cbn [has_rhr]; by vstep; vstep.
Qed.

Lemma tc_hor_005_spec :
  step_spec c n now (pair false) HaltOnReset.tc_hor_005 passing (fun _ _ => True).
Proof.
  unfold HaltOnReset.tc_hor_005. pair_views; destruct c as [? [] [] ? ? ?]; cbn [has_rhr].
  all: repeat vstep.
  all: (split; [verdict|done]).
Qed.

End halt_on_reset.

Section halt_on_reset_session.
Context {T : Type} `{ModelBacked T} `{Clock} (c : features) (n : nat) (now : Z).

(** The closures' gate, and the views of the world. *)
Definition on_gated (gate : option bool) (Phi : Z -> views -> Prop) (wg : HaltOnReset.GW T) : Prop :=
  snd wg = gate /\ on_views c n now Phi (fst wg).

Lemma gated_passes gate Phi e Psi :
  step_spec c n now Phi (e gate) (fun r => StepResult.ok r = true) Psi ->
  passes (on_gated gate Phi) (HaltOnReset.gated e) (on_gated gate Psi).
Proof.
  intros He [w g] [Hg HV]. cbn in Hg. subst g. destruct (result_step_passes c n now Phi (e gate) Psi He w HV) as [Hs HV'].
  unfold HaltOnReset.gated. cbn in *. destruct (result_step (e gate) w). done.
Qed.

Lemma ungated_passes P Q gate (e : M unit) :
  passes P (none_step e) Q ->
  passes (fun wg => snd wg = gate /\ P (fst wg)) (HaltOnReset.ungated_none e)
    (fun wg : HaltOnReset.GW T => snd wg = gate /\ Q (fst wg)).
Proof.
  intros He [w g] [Hg HP]. cbn in Hg. subst g. destruct (He w HP) as [Hs HQ].
  unfold HaltOnReset.ungated_none. cbn in *. destruct (none_step e w). done.
Qed.

Lemma discover_passes gate Phi :
  passes (on_gated gate Phi) HaltOnReset.tc_hor_001 (on_gated (Some (has_rhr c)) Phi).
Proof.
  intros [w g] [_ (Hl & Hnow & V & Hs & HV)].
  assert (expects read_dmstatus (model (dev w)) (self w) (clock w) (fun a p s t => t = clock w /\
    exists V, selected c n p V s /\ hasresethaltreq a = has_rhr c /\ Phi s V)) as Hx.
  { eapply (vwp_read_dmstatus c n (clock w) V (self w)
      (fun a V s => hasresethaltreq a = has_rhr c /\ Phi s V)); [|done].
    intros v Hv. split; [apply Hv|done]. }
  destruct (expects_run _ w _ Hl Hx) as (v & Hr & Hl' & Ht & V' & Hs' & Hv & HV').
  unfold HaltOnReset.tc_hor_001. destruct (Transport.run read_dmstatus w) as [w' x]. cbn in *. subst x.
  split; [by eexists|]. cbn. rewrite Hv. split; [done|]. split; [done|]. split; [cbn; congruence|].
  by exists V'.
Qed.

Lemma quiet_activation rq V i : quiet rq (V i) -> quiet rq (step_views c activation V i).
Proof using.
  clear. intros (hr & ra & b & hv & nx & HV). unfold step_views. rewrite HV.
  apply quiet_intro; destruct c as [? [] ? ? ? ?], (Z.of_nat i =? _); by destruct b.
Qed.

Ltac hor spec := eapply chain_cons; [eapply gated_passes, spec|].


End halt_on_reset_session.

(** ** The activation and selection sessions *)

Section activation_session.
Context {T : Type} `{ModelBacked T} `{Clock}.

(** The world of a live transport whose model declares a version and a hart
    count; nothing else is asked of its state. *)
Definition answers (version num_harts : Z) (w : W T) : Prop :=
  live (dev w) /\ 0 <= DMPredictor.hartsel (model (dev w)) < 2 ^ 20 /\
  DMPredictor.version (model (dev w)) = version /\
  DMPredictor.num_harts (model (dev w)) = num_harts.

(** A closure that keeps that, whatever state of the DM it starts from. *)
Definition keeps_answering {A} (version num_harts : Z) (c : M A) (good : A -> Prop) : Prop :=
  forall p s now,
  0 <= DMPredictor.hartsel p < 2 ^ 20 -> DMPredictor.version p = version ->
  DMPredictor.num_harts p = num_harts ->
  expects c p s now (fun a q s t => good a /\ 0 <= DMPredictor.hartsel q < 2 ^ 20 /\
    DMPredictor.version q = version /\ DMPredictor.num_harts q = num_harts).

Lemma answering_result v k c :
  keeps_answering v k c (fun r => StepResult.ok r = true) ->
  passes (answers v k) (result_step c) (answers v k).
Proof.
  intros Hc w (Hl & Hs & Hv & Hk).
  destruct (expects_run c w _ Hl (Hc _ (self w) (clock w) Hs Hv Hk)) as (r & Hr & Hl' & Hok & Hx).
  unfold result_step. destruct (Transport.run c w) as [w' x]. cbn in *. subst x.
  split; [by exists r|]. by split.
Qed.

Lemma answering_none v k c :
  keeps_answering v k c (fun _ => True) -> passes (answers v k) (none_step c) (answers v k).
Proof.
  intros Hc w (Hl & Hs & Hv & Hk).
  destruct (expects_run c w _ Hl (Hc _ (self w) (clock w) Hs Hv Hk)) as (r & Hr & Hl' & Hok & Hx).
  unfold none_step. destruct (Transport.run c w) as [w' x]. cbn in *. subst x.
  split; [eexists; by split|]. by split.
Qed.

(** A dmcontrol write, and the reads after it. *)
Lemma expects_write a p s now (Q : unit -> DMPredictor.t -> Z -> Z -> Prop) :
  (forall q, DMPredictor.dmactive q = DmcontrolArgs.dmactive a ->
     DMPredictor.hartsel q =
       (if DmcontrolArgs.dmactive a then DmcontrolArgs.hartsel a mod 2 ^ 20 else 0) ->
     0 <= DMPredictor.hartsel q < 2 ^ 20 ->
     DMPredictor.version q = DMPredictor.version p ->
     DMPredictor.num_harts q = DMPredictor.num_harts p -> Q tt q s now) ->
  expects (wr DMI.DMCONTROL (dmcontrol a)) p s now Q.
Proof.
  intros Hq. destruct (write_dm p a) as (Ha & Hs & Hv & Hk).
  apply (Hq _ Ha Hs); try done. rewrite Hs.
  destruct (DmcontrolArgs.dmactive a); [by apply Z.mod_pos_bound|lia].
Qed.

Lemma expects_write_dmcontrol d h f p s now (Q : Z -> DMPredictor.t -> Z -> Z -> Prop) :
  let a := f <| DmcontrolArgs.dmactive := default true d |>
             <| DmcontrolArgs.hartsel := default s h |> in
  expects (wr DMI.DMCONTROL (dmcontrol a)) p s now (fun _ => Q (dmcontrol a)) ->
  expects (write_dmcontrol d h f) p s now Q.
Proof. intros a Hw. exact Hw. Qed.

Lemma expects_read_dmcontrol p s now (Q : Z -> DMPredictor.t -> Z -> Z -> Prop) :
  0 <= DMPredictor.hartsel p < 2 ^ 20 ->
  (forall w, dmcontrol_dmactive w = DMPredictor.dmactive p -> Q w p s now) ->
  expects read_dmcontrol p s now Q.
Proof.
  intros Hs Hq. destruct (expect_dmactive p Hs) as (w & He & Hw & _).
  apply (expects_rd _ _ _ _ _ _ He). auto.
Qed.

Lemma expects_read_dmstatus p s now (Q : Z -> DMPredictor.t -> Z -> Z -> Prop) :
  0 <= DMPredictor.hartsel p < 2 ^ 20 ->
  (forall w, version w = DMPredictor.version p mod 16 ->
     anynonexistent w = (DMPredictor.num_harts p <=? DMPredictor.hartsel p) ->
     allnonexistent w = (DMPredictor.num_harts p <=? DMPredictor.hartsel p) -> Q w p s now) ->
  expects read_dmstatus p s now Q.
Proof.
  intros [Hs _] Hq. destruct (expect_version p Hs) as (w & He & Hw & Hx & Hy).
  apply (expects_rd _ _ _ _ _ _ He). auto.
Qed.

Lemma expects_activates p s now (Q : unit -> DMPredictor.t -> Z -> Z -> Prop) :
  DMPredictor.version p mod 16 <> 0 ->
  (forall q, DMPredictor.dmactive q = true -> DMPredictor.hartsel q = 0 ->
     0 <= DMPredictor.hartsel q < 2 ^ 20 ->
     DMPredictor.version q = DMPredictor.version p ->
     DMPredictor.num_harts q = DMPredictor.num_harts p -> Q tt q 0 now) ->
  expects activate p s now Q.
Proof.
  intros Hv Hq. unfold activate. apply expects_bind. apply expects_bind.
  apply expects_write. intros q Ha Hs Hb Hvq Hk. apply expects_bind.
  apply expects_read_dmstatus; [done|]. intros w Hw _ _. rewrite Hw, Hvq.
  apply Z.eqb_neq in Hv as ->. by apply Hq.
Qed.

Lemma expects_predictor {A} (f : option DMPredictor.t -> M A) p s now Q :
  expects (f (Some p)) p s now Q -> expects (bind predictor_of f) p s now Q.
Proof. done. Qed.

Ltac astep :=
  lazymatch goal with
  | |- expects (bind predictor_of _) _ _ _ _ => apply expects_predictor
  | |- expects (bind _ _) _ _ _ _ => apply expects_bind
  | |- expects (write_dmcontrol _ _ _) _ _ _ _ => apply expects_write_dmcontrol, expects_write;
      let Ha := fresh in let Hh := fresh in intros ? Ha Hh ? ? ?; cbn in Ha, Hh
  | |- expects read_dmcontrol _ _ _ _ => apply expects_read_dmcontrol; [assumption|intros]
  | |- expects read_dmstatus _ _ _ _ => apply expects_read_dmstatus; [assumption|intros]
  | |- expects activate _ _ _ _ => apply expects_activates; [congruence|intros]
  | |- expects (report _ _) _ _ _ _ => apply expects_ret
  | |- expects (Ret _) _ _ _ _ => apply expects_ret
  end; cbv beta.

(** The verdict and what the closure leaves. *)
Ltac shown :=
  repeat match goal with E : ?x = _ :> bool |- context [?x] => rewrite E; clear E end;
  cbn [negb andb].
Ltac answered :=
  cbn [StepResult.ok]; shown; split_and!; first [reflexivity | congruence | lia].

Lemma tc_dma_001_spec v k :
  keeps_answering v k DmActivation.tc_dma_001 (fun r => StepResult.ok r = true).
Proof.
  intros p s now Hs Hv Hk. unfold DmActivation.tc_dma_001. repeat astep. answered.
Qed.

(** The first read of a poll decides. *)
Lemma expects_poll (c : M bool) p s now (Q : bool -> DMPredictor.t -> Z -> Z -> Prop) :
  expects c p s now (fun b q s now => b = true /\ Q true q s now) ->
  expects (DmActivation._poll c) p s now Q.
Proof.
  intros Hc. unfold DmActivation._poll. cbn [any_of DmActivation.POLL_READS].
  apply expects_bind. eapply expects_mono; [exact Hc|]. by intros b q t u [-> Hq].
Qed.

Lemma tc_dma_002_spec v k :
  v mod 16 <> 0 ->
  keeps_answering v k DmActivation.tc_dma_002 (fun r => StepResult.ok r = true).
Proof.
  intros Hv0 p s now Hs Hv Hk. unfold DmActivation.tc_dma_002. do 2 astep.
  astep. apply expects_poll. repeat astep. split; [by shown|]. repeat astep.
  apply expects_poll. repeat astep. split; [by shown|]. repeat astep.
  match goal with E : version ?w = _ mod 16 |- _ =>
    assert ((version w =? 0) = false) by (apply Z.eqb_neq; congruence) end.
  answered.
Qed.

Lemma activate_answers v k :
  v mod 16 <> 0 -> keeps_answering v k activate (fun _ => True).
Proof. intros Hv0 p s now Hs Hv Hk. astep. answered. Qed.

(** A batch run of the activation sequence passes from any state of the model
    that declares a version. *)
Theorem dm_activation_passes v k (session : DebugSession.t (W T)) (e : DebugSession.env (W T)) :
  DmActivation.build "batch" = Ok session -> v mod 16 <> 0 ->
  answers v k (DebugSession.world e) ->
  passed session e /\ answers v k (DebugSession.world (snd (fst (DebugSession.run session e)))).
Proof.
  intros Hb Hv Hw. apply Ok_inj in Hb as <-. apply (batch_passes _ _ (answers v k)); [done| |done].
  eapply chain_cons; [by apply answering_none, activate_answers|].
  eapply chain_cons; [by apply answering_result, tc_dma_001_spec|].
  eapply chain_cons; [by apply answering_result, tc_dma_002_spec|]. constructor.
Qed.

Lemma tc_hs_001_spec v k :
  keeps_answering v k HartSelection.tc_hs_001 (fun r => StepResult.ok r = true).
Proof.
  intros p s now Hs Hv Hk. unfold HartSelection.tc_hs_001. repeat astep. answered.
Qed.

Lemma tc_hs_002_spec v k :
  k <= HartSelection.LIKELY_NONEXISTENT_HARTSEL ->
  keeps_answering v k HartSelection.tc_hs_002 (fun r => StepResult.ok r = true).
Proof.
  intros Hn p s now Hs Hv Hk. unfold HartSelection.tc_hs_002. repeat astep.
  assert (forall r, DMPredictor.num_harts r = k ->
    DMPredictor.hartsel r = HartSelection.LIKELY_NONEXISTENT_HARTSEL mod 2 ^ 20 ->
    (DMPredictor.num_harts r <=? DMPredictor.hartsel r) = true) as Hne.
  { intros r -> ->. apply Z.leb_le. exact Hn. }
  match goal with E1 : anynonexistent ?w = _, E2 : allnonexistent ?w = _ |- _ =>
    rewrite Hne in E1, E2 by congruence end.
  answered.
Qed.

Lemma tc_hs_003_spec v k :
  keeps_answering v k HartSelection.tc_hs_003 (fun r => StepResult.ok r = true).
Proof.
  intros p s now Hs Hv Hk. unfold HartSelection.tc_hs_003, write_fields. repeat astep. answered.
Qed.

(** A batch run of the hart-selection sequence passes from any state of the
    model that declares a version and fewer than [2^20 - 1] harts. *)
Theorem hart_selection_passes v k (session : DebugSession.t (W T)) (e : DebugSession.env (W T)) :
  HartSelection.build "batch" = Ok session -> v mod 16 <> 0 ->
  k <= HartSelection.LIKELY_NONEXISTENT_HARTSEL ->
  answers v k (DebugSession.world e) ->
  passed session e /\ answers v k (DebugSession.world (snd (fst (DebugSession.run session e)))).
Proof.
  intros Hb Hv Hk Hw. apply Ok_inj in Hb as <-. apply (batch_passes _ _ (answers v k)); [done| |done].
  eapply chain_cons; [by apply answering_none, activate_answers|].
  eapply chain_cons; [by apply answering_result, tc_hs_001_spec|].
  eapply chain_cons; [by apply answering_result, tc_hs_002_spec|].
  eapply chain_cons; [by apply answering_result, tc_hs_003_spec|]. constructor.
Qed.

End activation_session.

(** ** Witnesses *)

(** Sessions on the mock of a configured model with two harts. *)
Definition p_two : DMPredictor.t :=
  DMPredictor.init (Kwargs.default <| Kwargs.num_harts := 2 |> <| Kwargs.hasresethaltreq := true |>).
Definition env_on (p : DMPredictor.t) : DebugSession.env (W Mock.t) :=
  DebugSession.mk_env (on_mock p) (mk_output false EmptyString [] EmptyString) [].
Definition gated_env_on (p : DMPredictor.t) : DebugSession.env (HaltOnReset.GW Mock.t) :=
  DebugSession.mk_env (on_mock p, None) (mk_output false EmptyString [] EmptyString) [].

(** The views a predictor shows. *)
Definition views_of (p : DMPredictor.t) : views := fun j =>
  mk_view (default HartState.default (DMPredictor.harts p !! j)) (DMPredictor.ndmreset p)
    (DMPredictor._hartreset_level p).

#[local] Existing Instance exact_clock.

Lemma viewed_two : viewed (features_of p_two) 2 p_two (views_of p_two).
Proof.
  intros j Hj. assert (j = 0 \/ j = 1)%nat as [-> | ->] by lia; split; vm_compute; done.
Qed.



Lemma dm_activation_passes_witness :
  exists session, DmActivation.build "batch" = Ok session /\
    passed session (env_on p_halted) /\
    answers 2 1 (DebugSession.world (snd (fst (DebugSession.run session (env_on p_halted))))).
Proof.
  eexists. split; [reflexivity|].
  apply (@dm_activation_passes _ _ _ exact_clock 2 1); [reflexivity|vm_compute; done|].
  split; [done|]. split; [vm_compute; done|]. split; reflexivity.
Defined.

Lemma hart_selection_passes_witness :
  exists session, HartSelection.build "batch" = Ok session /\
    passed session (env_on p_two) /\
    answers 2 2 (DebugSession.world (snd (fst (DebugSession.run session (env_on p_two))))).
Proof.
  eexists. split; [reflexivity|].
  apply (@hart_selection_passes _ _ _ exact_clock 2 2);
    [reflexivity|vm_compute; done|vm_compute; done|].
  split; [done|]. split; [vm_compute; done|]. split; reflexivity.
Defined.
