(* ===== verification/Coverage.v ===== *)
(** Functional coverage of the DMI stream: [model/coverage.py].

    A [Bin] keeps its group, name, spec citation and test case; the prose of
    [why] and of an exclusion's [reason] is not kept, nor is the float percentage
    of a report.  A step of the sampler is a function on the model's state that
    may raise, as [_hit] does on an undeclared bin. *)

From stdpp Require Import sorting.
From S2P Require Import Prelude Registers Transport.

Local Open Scope string_scope.
Local Open Scope list_scope.
Local Open Scope Z_scope.

(** ** Observed hart state *)

(** coverage.py:74-79 (ST_UNKNOWN .. ST_NONEXISTENT) *)
Definition ST_UNKNOWN : string := "unknown".
Definition ST_HALTED : string := "halted".
Definition ST_RUNNING : string := "running".
Definition ST_IN_RESET : string := "in_reset".
Definition ST_UNAVAIL : string := "unavailable".
Definition ST_NONEXISTENT : string := "nonexistent".

(** observer.py:43-44 (OP_READ, OP_WRITE) *)
Definition OP_READ : string := "read".
Definition OP_WRITE : string := "write".

(** ** Bins *)

Module Bin.

(** coverage.py:92-96 (Bin attributes) *)
Record t := mk {
  group : string;
  name : string;
  spec : string;
  tc : option string
}.

(** coverage.py:98-100 (Bin.key) *)
Definition key (b : t) : string := group b +:+ "." +:+ name b.

End Bin.

Module ExcludedBin.

(** coverage.py:111-113 (ExcludedBin attributes) *)
Record t := mk {
  group : string;
  name : string
}.

(** coverage.py:115-117 (ExcludedBin.key) *)
Definition key (e : t) : string := group e +:+ "." +:+ name e.

End ExcludedBin.

Module DebugCoverageModel.

(** coverage.py:170-197 (DebugCoverageModel attributes) *)
Record t := mk {
  num_harts : Z;
  hartsellen : Z;
  supports_hasel : bool;
  supports_stickyunavail : bool;
  _bins : gmap string Bin.t;
  _counts : gmap string Z;
  _excluded : gmap string ExcludedBin.t;
  _excluded_hits : gmap string Z;
  _state : string;
  _state_hartsel : option Z;
  _hartsel : Z;
  _havereset : option bool;
  _reset_haltreq : gmap Z bool;
  _ndmreset : bool;
  _staged_data0 : Z;
  _staged_data1 : Z
}.

#[global] Instance settable : Settable t := fun m =>
  mk (num_harts m) (hartsellen m) (supports_hasel m) (supports_stickyunavail m) (_bins m)
     (_counts m) (_excluded m) (_excluded_hits m) (_state m) (_state_hartsel m) (_hartsel m)
     (_havereset m) (_reset_haltreq m) (_ndmreset m) (_staged_data0 m) (_staged_data1 m).

(** coverage.py:203-206 (_add) *)
Definition _add (group name spec : string) (tc : option string) (m : t) : t :=
  let b := Bin.mk group name spec tc in
  m <| _bins := <[Bin.key b := b]> (_bins m) |>
    <| _counts := <[Bin.key b := 0]> (_counts m) |>.

(** coverage.py:208-211 (_exclude) *)
Definition _exclude (group name : string) (m : t) : t :=
  let e := ExcludedBin.mk group name in
  m <| _excluded := <[ExcludedBin.key e := e]> (_excluded m) |>
    <| _excluded_hits := <[ExcludedBin.key e := 0]> (_excluded_hits m) |>.

(** [for x in l: body(x)], for a body that only builds. *)
Definition build_each {A} (l : list A) (body : A -> t -> t) (m : t) : t :=
  fold_left (fun m x => body x m) l m.

(** ** The external-debug covergroups *)

(** coverage.py:239-241 (_DATA0 .. _HALTSUM0) *)
Definition _DATA0 : Z := 0x04.
Definition _DATA11 : Z := 0x0F.
Definition _HARTINFO : Z := 0x12.
Definition _ABSTRACTCS : Z := 0x16.
Definition _COMMAND : Z := 0x17.
Definition _PROGBUF0 : Z := 0x20.
Definition _PROGBUF15 : Z := 0x2F.
Definition _DMCS2 : Z := 0x32.
Definition _SBCS : Z := 0x38.
Definition _SBADDRESS0 : Z := 0x39.
Definition _SBDATA0 : Z := 0x3C.
Definition _HALTSUM0 : Z := 0x40.

(** coverage.py:244-244 (_REGNO_CSR_HI .. _REGNO_GPR_HI) *)
Definition _REGNO_CSR_HI : Z := 0x0FFF.
Definition _REGNO_GPR_LO : Z := 0x1000.
Definition _REGNO_GPR_HI : Z := 0x101F.

(** coverage.py:247-250 (_TRIGGER_CSRS, _TRIGGER_TYPES) *)
Definition _TRIGGER_CSRS : list (Z * string) :=
  [(0x07A0, "tselect"); (0x07A1, "tdata1"); (0x07A2, "tdata2"); (0x07A3, "tdata3");
   (0x07A4, "tinfo")].
Definition _TRIGGER_TYPES : list (Z * string) :=
  [(2, "mcontrol"); (3, "icount"); (4, "itrigger"); (5, "etrigger"); (6, "mcontrol6");
   (7, "tmexttrigger")].

(** [d.get(k)] of a dict with integer keys. *)
Definition zget (d : list (Z * string)) (k : Z) : option string :=
  option_map snd (List.find (fun '(k', _) => k' =? k) d).

(** coverage.py:252-299 (_build_external_debug_bins) *)
Definition _build_external_debug_bins (m : t) : t :=
  let add group bins spec := build_each bins (fun name => _add group name spec None) in
  let m := add "cg_command_write" ["cp_write.read"; "cp_write.write"] "#3.14.14" m in
  let m := add "cg_command_write" ["cp_regno_class.gpr"; "cp_regno_class.csr"] "#3.7.1.1" m in
  let m := add "cg_abstractcs_read" ["cp_busy.idle"; "cp_busy.busy"] "#3.14.6" m in
  let m := add "cg_abstractcs_read" ["cp_has_progbuf.present"; "cp_has_data.present"] "#3.14.6" m in
  let m := add "cg_progbuf" ["cp_written.written"; "cp_executed.executed"] "#3.14.15" m in
  let m := add "cg_sbcs" ["cp_readonaddr.off"; "cp_readonaddr.on"] "#3.14.20" m in
  let m := add "cg_sbcs" ["cp_sbbusy.idle"] "#3.14.20" m in
  let m := add "cg_sb_access" ["cp_access.addr_write"; "cp_access.data_write";
                               "cp_access.data_read"] "#3.10" m in
  let m := add "cg_dmcs2_write" ["cp_hgselect.halt_group"; "cp_hgselect.resume_group";
                                 "cp_grouptype.halt"; "cp_grouptype.ext_trigger";
                                 "cp_group.ungrouped"; "cp_group.grouped"] "#3.14.17" m in
  let m := add "cg_hartinfo_read" ["cp_dataaccess.observed"] "#3.14.3" m in
  let m := add "cg_haltsum0_read" ["cp_haltsum0.none_halted"; "cp_haltsum0.some_halted"]
               "#3.14.9" m in
  let m := add "cg_data0_access" ["cp_op.read"; "cp_op.write"] "#3.14.11" m in
  let m := add "cg_trigger" (map (fun '(_, n) => "cp_trigger_csr." +:+ n) _TRIGGER_CSRS)
               "Sdtrig Ch.5" m in
  let m := add "cg_trigger" (map (fun '(_, n) => "cp_trigger_type." +:+ n) _TRIGGER_TYPES)
               "Sdtrig Ch.5" m in
  build_each ["cg_abstract_cmd"; "cg_sba"; "cg_debug_entry"; "cg_step_external"; "cg_hart_mode"]
    (fun group => _exclude group "(whole covergroup)") m.

(** ** The run-control bins *)

(** coverage.py:301-316 (_build_dmi_access_bins) *)
Definition _build_dmi_access_bins (m : t) : t :=
  let g := "dmi_access" in
  let m := _add g "read:dmcontrol" "#3.14.2" (Some "TC-RST-002") m in
  let m := _add g "write:dmcontrol" "#3.14.2" (Some "TC-RC-001") m in
  let m := _add g "read:dmstatus" "#3.14.1" (Some "TC-RC-001") m in
  _exclude g "write:dmstatus" m.

(** coverage.py:327-340 (tc_for_one of _build_dmcontrol_field_bins) *)
Definition dmcontrol_tc_for_one : list (string * option string) :=
  [("haltreq", Some "TC-RC-001"); ("resumereq", Some "TC-RC-003");
   ("hartreset", Some "TC-RST-002"); ("ackhavereset", Some "TC-RST-004");
   ("ackunavail", None); ("hasel", None); ("setkeepalive", None); ("clrkeepalive", None);
   ("setresethaltreq", Some "TC-HOR-002"); ("clrresethaltreq", Some "TC-HOR-003");
   ("ndmreset", Some "TC-RST-001"); ("dmactive", Some "TC-RC-001")].

(** coverage.py:360-362 (tc_for_zero of _build_dmcontrol_field_bins) *)
Definition dmcontrol_tc_for_zero : list (string * option string) := [("dmactive", None)].

(** Every one-bit field of dmcontrol is a key of [tc_for_one].
    coverage.py:318-380 (_build_dmcontrol_field_bins) *)
Definition _build_dmcontrol_field_bins (m : t) : t :=
  build_each (Register.fields DMCONTROL) (fun f m =>
    if negb (Field.width f =? 1) then m
    else
      let g := "dmcontrol." +:+ Field.name f in
      let m := _add g "0" (Field.spec f)
                 (dict_get dmcontrol_tc_for_zero (Field.name f) (Some "TC-RC-001")) m in
      _add g "1" (Field.spec f) (dict_get dmcontrol_tc_for_one (Field.name f) None) m) m.

(** coverage.py:382-428 (_build_hartsel_bins) *)
Definition _build_hartsel_bins (m : t) : t :=
  let g := "dmcontrol.hartsel" in
  let m := _add g "zero" "#3.14.2 hartsel" (Some "TC-RC-001") m in
  let m := _add g "nonzero" "#3.14.2 hartsel" (Some "TC-HOR-004") m in
  let m := _add g "max_implemented" "#3.14.2 hartsel" (Some "TC-HOR-004") m in
  let m := _add g "nonexistent" "#3.14.1 anynonexistent" None m in
  let m := _add g "hartselhi_nonzero" "#3.14.2 hartselhi" None m in
  _add g "all_ones" "#3.14.2 hartsel" None m.

(** coverage.py:437-457 (tc_for_one of _build_dmstatus_field_bins) *)
Definition dmstatus_tc_for_one : list (string * option string) :=
  [("ndmresetpending", Some "TC-RST-001"); ("stickyunavail", None); ("impebreak", None);
   ("allhavereset", Some "TC-RST-003"); ("anyhavereset", Some "TC-RST-003");
   ("allresumeack", Some "TC-RC-003"); ("anyresumeack", Some "TC-RC-003");
   ("allnonexistent", Some "TC-HS-002"); ("anynonexistent", Some "TC-HS-002");
   ("allunavail", None); ("anyunavail", None);
   ("allrunning", Some "TC-RC-003"); ("anyrunning", Some "TC-RC-003");
   ("allhalted", Some "TC-RC-001"); ("anyhalted", Some "TC-RC-001");
   ("authenticated", Some "TC-RC-001"); ("authbusy", None);
   ("hasresethaltreq", Some "TC-HOR-001"); ("confstrptrvalid", None)].

(** coverage.py:458-469 (tc_for_zero of _build_dmstatus_field_bins) *)
Definition dmstatus_tc_for_zero : list (string * option string) :=
  [("allhavereset", Some "TC-RST-004"); ("anyhavereset", Some "TC-RST-004");
   ("allrunning", Some "TC-RC-001"); ("anyrunning", Some "TC-RC-001");
   ("allhalted", Some "TC-RC-003"); ("anyhalted", Some "TC-RC-003");
   ("allresumeack", Some "TC-RC-004"); ("anyresumeack", Some "TC-RC-004");
   ("hasresethaltreq", Some "TC-HOR-001"); ("ndmresetpending", Some "TC-RST-001")].

(** The keys of [out_of_slice], whose values are the reasons.
    coverage.py:475-499 (out_of_slice of _build_dmstatus_field_bins) *)
Definition out_of_slice : list (string * string) :=
  [("impebreak", "1"); ("authenticated", "0"); ("authbusy", "1"); ("confstrptrvalid", "1");
   ("allunavail", "1"); ("anyunavail", "1")].

(** coverage.py:430-551 (_build_dmstatus_field_bins) *)
Definition _build_dmstatus_field_bins (m : t) : t :=
  let m := build_each (Register.fields DMSTATUS) (fun f m =>
    if negb (Field.width f =? 1) then m
    else
      let g := "dmstatus." +:+ Field.name f in
      build_each ["0"; "1"] (fun val m =>
        if bool_decide ((Field.name f, val) ∈ out_of_slice) then _exclude g val m
        else if String.eqb (Field.name f) "stickyunavail" && String.eqb val "1"
                && negb (supports_stickyunavail m) then _exclude g "1" m
        else
          let tc := if String.eqb val "1" then dict_get dmstatus_tc_for_one (Field.name f) None
                    else dict_get dmstatus_tc_for_zero (Field.name f) (Some "TC-RC-001") in
          _add g val (Field.spec f) tc m) m) m in
  let g := "dmstatus.version" in
  let m := _exclude g "none" m in
  let m := _add g "v0_13" "#3.14.1 version" (Some "TC-RC-001") m in
  let m := _add g "v1_0" "#3.14.1 version" (Some "TC-RC-001") m in
  let m := _exclude g "v0_11" m in
  _exclude g "custom" m.

(** [s.removeprefix(p)]. *)
Definition removeprefix (p s : string) : string :=
  if String.prefix p s
  then String.substring (String.length p) (String.length s - String.length p) s else s.

(** coverage.py:573-580 (tc_by_pair of _build_all_any_bins) *)
Definition tc_by_pair : list (string * (option string * option string)) :=
  [("halted", (Some "TC-RC-003", Some "TC-RC-001"));
   ("running", (Some "TC-RC-001", Some "TC-RC-003"));
   ("havereset", (Some "TC-RST-004", Some "TC-RST-003"));
   ("resumeack", (Some "TC-RC-004", Some "TC-RC-003"));
   ("nonexistent", (Some "TC-RC-001", Some "TC-HS-002"));
   ("unavail", (Some "TC-RC-001", None))].

(** Every state of the pairs is a key of [tc_by_pair].
    coverage.py:553-633 (_build_all_any_bins) *)
Definition _build_all_any_bins (m : t) : t :=
  build_each DMSTATUS_ALL_ANY_PAIRS (fun '(all_name, _) m =>
    let state := removeprefix "all" all_name in
    let g := "dmstatus.all_any." +:+ state in
    let (tc_none, tc_all) := dict_get tc_by_pair state (None, None) in
    let m := _add g "all0_any0" "#3.14.1" tc_none m in
    let m := if String.eqb state "unavail" then _exclude g "all1_any1" m
             else _add g "all1_any1" "#3.14.1" tc_all m in
    let m := _exclude g "all0_any1" m in
    _exclude g "all1_any0" m) m.

(** coverage.py:635-812 (_build_cross_bins) *)
Definition _build_cross_bins (m : t) : t :=
  let g := "cross.haltreq_x_resumereq" in
  let m := _add g "h0_r0" "#3.14.2" (Some "TC-RC-001") m in
  let m := _add g "h1_r0" "#3.14.2" (Some "TC-RC-001") m in
  let m := _add g "h0_r1" "#3.14.2" (Some "TC-RC-003") m in
  let m := _add g "h1_r1" "#3.14.2 resumereq" (Some "TC-RC-005") m in
  let g := "cross.hart_state_transition" in
  let m := _add g "running_to_halted" "#3.5" (Some "TC-RC-001") m in
  let m := _add g "halted_to_running" "#3.5" (Some "TC-RC-003") m in
  let m := _add g "running_to_in_reset" "#3.2" (Some "TC-RST-001") m in
  let m := _exclude g "halted_to_in_reset" m in
  let m := _add g "in_reset_to_running" "#3.2" (Some "TC-RST-001") m in
  let m := _add g "in_reset_to_halted" "#3.5" (Some "TC-RST-001") m in
  let g := "cross.havereset_x_ackhavereset" in
  let m := _add g "ack_when_set" "#3.14.2 ackhavereset" (Some "TC-RST-004") m in
  let m := _add g "ack_when_clear" "#3.14.2 ackhavereset" (Some "TC-RC-001") m in
  let m := _add g "noack_when_set" "#3.2" (Some "TC-RST-003") m in
  let g := "cross.ndmreset_x_reset_haltreq" in
  let m := _add g "assert_rhr0" "#3.2" (Some "TC-RST-001") m in
  let m := _add g "assert_rhr1" "#3.5" (Some "TC-HOR-002") m in
  let m := _add g "deassert_rhr0" "#3.2" (Some "TC-HOR-003") m in
  let m := _add g "deassert_rhr1" "#3.5" (Some "TC-HOR-002") m in
  let g := "cross.resumereq_x_prior_state" in
  let m := _add g "resumereq_when_halted" "#3.5" (Some "TC-RC-003") m in
  let m := _add g "resumereq_when_running" "#3.5" (Some "TC-RC-004") m in
  let m := _add g "resumereq_when_in_reset" "#3.2" None m in
  let g := "cross.dmcontrol_mutex_bits" in
  let m := _add g "none" "#3.14.2" (Some "TC-RC-001") m in
  let m := _add g "one" "#3.14.2" (Some "TC-RC-003") m in
  _add g "multiple" "#3.14.2" (Some "TC-HOR-005") m.

(** coverage.py:217-224 (_build_bins) *)
Definition _build_bins (m : t) : t :=
  _build_external_debug_bins (_build_cross_bins (_build_all_any_bins
    (_build_dmstatus_field_bins (_build_hartsel_bins (_build_dmcontrol_field_bins
      (_build_dmi_access_bins m)))))).

(** coverage.py:145-199 (__init__) *)
Definition init (num_harts hartsellen : Z) (supports_hasel supports_stickyunavail : bool) : t :=
  _build_bins (mk num_harts hartsellen supports_hasel supports_stickyunavail ∅ ∅ ∅ ∅
                  ST_UNKNOWN None 0 None ∅ false 0 0).

(** ** Steps of the sampler *)

(** A step keeps what it did before it raised. *)
Definition step : Type := t -> t * result unit.

Definition skip : step := fun m => (m, Ok tt).
Definition upd (f : t -> t) : step := fun m => (f m, Ok tt).
Definition when (b : bool) (c : step) : step := if b then c else skip.

(** One step after the other, and a step per element of a list. *)
Definition seq_step (c d : step) : step := fun m =>
  match c m with (m, Ok _) => d m | (m, Raise e) => (m, Raise e) end.

Definition steps (cs : list step) : step := fold_right seq_step skip cs.
Definition each {A} (l : list A) (f : A -> step) : step := steps (map f l).

(** [coverage: no bin or exclusion declared for {key!r}]. *)
Definition undeclared (key : string) : exn :=
  KeyError ("coverage: no bin or exclusion declared for '" +:+ key +:+ "'").

(** coverage.py:1112-1127 (_hit) *)
Definition _hit (group name : string) : step := fun m =>
  let key := group +:+ "." +:+ name in
  match _counts m !! key with
  | Some n => (m <| _counts := <[key := n + 1]> (_counts m) |>, Ok tt)
  | None =>
      match _excluded_hits m !! key with
      | Some n => (m <| _excluded_hits := <[key := n + 1]> (_excluded_hits m) |>, Ok tt)
      | None => (m, Raise (undeclared key))
      end
  end.

(** A one-bit field hits the bin of its value. *)
Definition hit_fields (prefix : string) (r : Register.t) (f : list (string * Z)) : step :=
  each f (fun '(name, val) m =>
    match Register.field r name with
    | Raise e => (m, Raise e)
    | Ok field =>
        if negb (Field.width field =? 1) then skip m
        else _hit (prefix +:+ "." +:+ name) (pretty val) m
    end).

(** coverage.py:1078-1108 (_state_from_dmstatus) *)
Definition _state_from_dmstatus (f : list (string * Z)) (ndmreset : bool) : string :=
  if truthy (dict_get f "anynonexistent" 0) then ST_NONEXISTENT
  else if truthy (dict_get f "anyunavail" 0) then ST_UNAVAIL
  else if truthy (dict_get f "anyhalted" 0) then ST_HALTED
  else if truthy (dict_get f "anyrunning" 0) && ndmreset then ST_IN_RESET
  else if truthy (dict_get f "anyrunning" 0) then ST_RUNNING
  else ST_IN_RESET.

(** coverage.py:1041-1049 (_sample_dmstatus_read, the version bin) *)
Definition version_bin (v : Z) : option string :=
  zget [(DMSTATUS_VERSION_NONE, "none"); (DMSTATUS_VERSION_0_11, "v0_11");
        (DMSTATUS_VERSION_0_13, "v0_13"); (DMSTATUS_VERSION_1_0, "v1_0");
        (DMSTATUS_VERSION_CUSTOM, "custom")] v.

(** The states a transition is not sampled from or to. *)
Definition unsettled (state : string) : bool :=
  bool_decide (state ∈ [ST_UNKNOWN; ST_UNAVAIL; ST_NONEXISTENT]).

(** coverage.py:1058-1076 (_sample_dmstatus_read, the observed state) *)
Definition observe_state (f : list (string * Z)) : step := fun m =>
  let state := _state_from_dmstatus f (_ndmreset m) in
  let prev := _state m in
  let prev_hartsel := _state_hartsel m in
  let m := m <| _state := state |> <| _state_hartsel := Some (_hartsel m) |> in
  if negb (bool_decide (prev_hartsel = Some (_hartsel m))) then skip m
  else if unsettled prev || unsettled state then skip m
  else when (negb (String.eqb prev state))
         (_hit "cross.hart_state_transition" (prev +:+ "_to_" +:+ state)) m.

(** coverage.py:1031-1076 (_sample_dmstatus_read) *)
Definition _sample_dmstatus_read (word : Z) : step :=
  let f := Register.decode DMSTATUS word in
  steps
    [hit_fields "dmstatus" DMSTATUS f;
     match version_bin (dict_get f "version" 0) with
     | Some b => _hit "dmstatus.version" b
     | None => skip
     end;
     each DMSTATUS_ALL_ANY_PAIRS (fun '(all_name, any_name) =>
       _hit ("dmstatus.all_any." +:+ removeprefix "all" all_name)
            ("all" +:+ pretty (dict_get f all_name 0) +:+ "_any" +:+
             pretty (dict_get f any_name 0)));
     upd (fun m => m <| _havereset := Some (truthy (dict_get f "anyhavereset" 0)) |>);
     observe_state f].

(** coverage.py:937-950 (_sample_dmcontrol_write, hartsel) *)
Definition sample_hartsel (hartsel : Z) : step := fun m =>
  let g := "dmcontrol.hartsel" in
  steps
    [_hit g (if hartsel =? 0 then "zero" else "nonzero");
     when (hartsel =? num_harts m - 1) (_hit g "max_implemented");
     when (num_harts m <=? hartsel) (_hit g "nonexistent");
     when (0x3FF <? hartsel) (_hit g "hartselhi_nonzero");
     when (hartsel =? Z.shiftl 1 HARTSEL_MAX_WIDTH - 1) (_hit g "all_ones")] m.

(** coverage.py:976-982 (_sample_dmcontrol_write, resumereq x prior state) *)
Definition sample_resumereq (f : list (string * Z)) (selection_changed : bool) : step := fun m =>
  let g := "cross.resumereq_x_prior_state" in
  when (truthy (dict_get f "resumereq" 0) && negb selection_changed)
    (if String.eqb (_state m) ST_HALTED then _hit g "resumereq_when_halted"
     else if String.eqb (_state m) ST_RUNNING then _hit g "resumereq_when_running"
     else when (String.eqb (_state m) ST_IN_RESET) (_hit g "resumereq_when_in_reset")) m.

(** coverage.py:985-996 (_sample_dmcontrol_write, havereset x ackhavereset) *)
Definition sample_ackhavereset (f : list (string * Z)) (selection_changed : bool) : step := fun m =>
  let g := "cross.havereset_x_ackhavereset" in
  let ack := truthy (dict_get f "ackhavereset" 0) in
  match _havereset m with
  | Some havereset =>
      when (negb selection_changed)
        (steps
          [if ack then _hit g (if havereset then "ack_when_set" else "ack_when_clear")
           else when havereset (_hit g "noack_when_set");
           when ack (upd (fun m => m <| _havereset := Some false |>))]) m
  | None => skip m
  end.

(** coverage.py:1003-1006 (_sample_dmcontrol_write, the resethaltreq shadow) *)
Definition shadow_reset_haltreq (f : list (string * Z)) (hartsel : Z) (m : t) : t :=
  if truthy (dict_get f "clrresethaltreq" 0)
  then m <| _reset_haltreq := <[hartsel := false]> (_reset_haltreq m) |>
  else if truthy (dict_get f "setresethaltreq" 0)
  then m <| _reset_haltreq := <[hartsel := true]> (_reset_haltreq m) |>
  else m.

(** coverage.py:1007-1015 (_sample_dmcontrol_write, the DM reset) *)
Definition forget (m : t) : t :=
  m <| _reset_haltreq := ∅ |> <| _ndmreset := false |> <| _state := ST_UNKNOWN |>
    <| _havereset := None |>.

(** coverage.py:1023-1029 (_sample_dmcontrol_write, ndmreset x resethaltreq) *)
Definition sample_ndmreset (f : list (string * Z)) (hartsel : Z) : step := fun m =>
  let g := "cross.ndmreset_x_reset_haltreq" in
  let ndmreset := truthy (dict_get f "ndmreset" 0) in
  let rhr := to_int (default false (_reset_haltreq m !! hartsel)) in
  steps
    [if ndmreset && negb (_ndmreset m) then _hit g ("assert_rhr" +:+ pretty rhr)
     else when (negb ndmreset && _ndmreset m) (_hit g ("deassert_rhr" +:+ pretty rhr));
     upd (fun m => m <| _ndmreset := ndmreset |>)] m.

(** coverage.py:967-968 (_sample_dmcontrol_write, the selection) *)
Definition select (hartsel : Z) (rest : bool -> step) : step := fun m =>
  let selection_changed := negb (hartsel =? _hartsel m) in
  rest selection_changed (m <| _hartsel := hartsel |>).

(** coverage.py:927-1029 (_sample_dmcontrol_write) *)
Definition _sample_dmcontrol_write (word : Z) : step :=
  let f := Register.decode DMCONTROL word in
  let hartsel := hartsel_of word in
  let n_mutex := fold_left (fun n name => n + dict_get f name 0) DMCONTROL_MUTEX_BITS 0 in
  steps
    [hit_fields "dmcontrol" DMCONTROL f;
     sample_hartsel hartsel;
     _hit "cross.haltreq_x_resumereq"
       ("h" +:+ pretty (dict_get f "haltreq" 0) +:+ "_r" +:+ pretty (dict_get f "resumereq" 0));
     _hit "cross.dmcontrol_mutex_bits"
       (if n_mutex =? 0 then "none" else if n_mutex =? 1 then "one" else "multiple");
     select hartsel (fun selection_changed =>
       steps
         [sample_resumereq f selection_changed;
          sample_ackhavereset f selection_changed;
          upd (shadow_reset_haltreq f hartsel);
          if negb (truthy (dict_get f "dmactive" 0)) then upd forget
          else sample_ndmreset f hartsel])].

(** ** The external-debug covergroups *)

(** [(w >> n) & 1], as a condition. *)
Definition bit (w n : Z) : bool := truthy (Z.land (Z.shiftr w n) 1).

(** coverage.py:863-882 (_sample_external_debug, an abstract command) *)
Definition sample_command (w : Z) : step := fun m =>
  let transfer := bit w 17 in
  let write := bit w 16 in
  let regno := Z.land w 0xFFFF in
  let aarsize := Z.land (Z.shiftr w 20) 0x7 in
  steps
    [when transfer
       (steps
         [_hit "cg_command_write" ("cp_write." +:+ (if write then "write" else "read"));
          if regno <=? _REGNO_CSR_HI then _hit "cg_command_write" "cp_regno_class.csr"
          else when ((_REGNO_GPR_LO <=? regno) && (regno <=? _REGNO_GPR_HI))
                 (_hit "cg_command_write" "cp_regno_class.gpr");
          match zget _TRIGGER_CSRS regno with
          | None => skip
          | Some csr =>
              steps
                [_hit "cg_trigger" ("cp_trigger_csr." +:+ csr);
                 when ((regno =? 0x07A1) && write)
                   (let operand := if aarsize =? 3 then _staged_data1 m else _staged_data0 m in
                    match zget _TRIGGER_TYPES (Z.land (Z.shiftr operand 28) 0xF) with
                    | Some name => _hit "cg_trigger" ("cp_trigger_type." +:+ name)
                    | None => skip
                    end)]
          end]);
     when (bit w 18) (_hit "cg_progbuf" "cp_executed.executed")] m.

(** coverage.py:844-925 (_sample_external_debug) *)
Definition _sample_external_debug (op : string) (addr : Z) (data readback : option Z) : step :=
  let w := default 0 data in
  let r := default 0 readback in
  let rd := String.eqb op OP_READ in
  let wr := String.eqb op OP_WRITE in
  steps
    [if wr && (addr =? _DATA0) then upd (fun m => m <| _staged_data0 := w |>)
     else when (wr && (addr =? _DATA0 + 1)) (upd (fun m => m <| _staged_data1 := w |>));
     if (_DATA0 <=? addr) && (addr <=? _DATA11) && (rd || wr)
     then _hit "cg_data0_access" ("cp_op." +:+ (if wr then "write" else "read"))
     else if wr && (addr =? _COMMAND) then sample_command w
     else if rd && (addr =? _ABSTRACTCS) then
       steps
         [_hit "cg_abstractcs_read" ("cp_busy." +:+ (if bit r 12 then "busy" else "idle"));
          when (truthy (Z.land (Z.shiftr r 24) 0x1F))
            (_hit "cg_abstractcs_read" "cp_has_progbuf.present");
          when (truthy (Z.land (Z.shiftr r 0) 0xF))
            (_hit "cg_abstractcs_read" "cp_has_data.present")]
     else if wr && (_PROGBUF0 <=? addr) && (addr <=? _PROGBUF15)
     then _hit "cg_progbuf" "cp_written.written"
     else if addr =? _SBCS then
       let word := if wr then w else r in
       steps
         [_hit "cg_sbcs" ("cp_readonaddr." +:+ (if bit word 20 then "on" else "off"));
          when (rd && negb (bit r 21)) (_hit "cg_sbcs" "cp_sbbusy.idle")]
     else if (addr =? _SBADDRESS0) && wr then _hit "cg_sb_access" "cp_access.addr_write"
     else if (addr =? _SBDATA0) && (rd || wr)
     then _hit "cg_sb_access" ("cp_access.data_" +:+ (if wr then "write" else "read"))
     else if wr && (addr =? _DMCS2) then
       steps
         [_hit "cg_dmcs2_write"
            ("cp_hgselect." +:+ (if bit w 2 then "resume_group" else "halt_group"));
          _hit "cg_dmcs2_write" ("cp_grouptype." +:+ (if bit w 11 then "ext_trigger" else "halt"));
          _hit "cg_dmcs2_write"
            ("cp_group." +:+ (if truthy (Z.land (Z.shiftr w 2) 0x1F) then "grouped" else "ungrouped"))]
     else if rd && (addr =? _HARTINFO) then _hit "cg_hartinfo_read" "cp_dataaccess.observed"
     else when (rd && (addr =? _HALTSUM0))
            (_hit "cg_haltsum0_read"
               ("cp_haltsum0." +:+ (if truthy r then "some_halted" else "none_halted")))].

(** coverage.py:816-842 (sample) *)
Definition sample (op : string) (addr : Z) (data readback : option Z) : step :=
  let rd := String.eqb op OP_READ in
  let wr := String.eqb op OP_WRITE in
  if wr && (addr =? Register.address DMCONTROL) then
    steps [_hit "dmi_access" "write:dmcontrol"; _sample_dmcontrol_write (default 0 data)]
  else if rd && (addr =? Register.address DMCONTROL) then _hit "dmi_access" "read:dmcontrol"
  else if rd && (addr =? Register.address DMSTATUS) then
    steps [_hit "dmi_access" "read:dmstatus"; _sample_dmstatus_read (default 0 readback)]
  else if wr && (addr =? Register.address DMSTATUS) then _hit "dmi_access" "write:dmstatus"
  else _sample_external_debug op addr data readback.

(** ** Reports *)

(** [sorted(d.items())] of a dict with string keys. *)
Definition key_le {A} (a b : string * A) : Prop := String.leb (fst a) (fst b) = true.
#[global] Instance key_le_dec {A} : RelDecision (@key_le A).
Proof. intros a b. unfold key_le. apply _. Defined.
Definition sorted_items {A} (d : gmap string A) : list (string * A) :=
  merge_sort key_le (map_to_list d).

(** The entries with a positive count. *)
Definition positive (d : gmap string Z) : gmap string Z := filter (fun kv => 0 < snd kv) d.

(** coverage.py:1172-1174 (unhit_bins) *)
Definition unhit_bins (m : t) : list Bin.t :=
  map snd (List.filter (fun '(k, _) => default 0 (_counts m !! k) =? 0) (sorted_items (_bins m))).

Definition excluded_hits (m : t) : list string := map fst (sorted_items (positive (_excluded_hits m))).

(** coverage.py:1143-1170 (report, dict) *)
Record Report := mk_report {
  counts : list (string * Z);
  hit : list (string * Z);
  unhit : list Bin.t;
  excluded : list ExcludedBin.t;
  report_excluded_hits : list string;
  summary_bins : nat;
  summary_hit : nat;
  summary_unhit : nat;
  summary_excluded : nat
}.

(** coverage.py:1131-1170 (report) *)
Definition report (m : t) : Report :=
  let hit := sorted_items (positive (_counts m)) in
  let unhit := unhit_bins m in
  let excluded := map snd (sorted_items (_excluded m)) in
  mk_report (sorted_items (_counts m)) hit unhit excluded (excluded_hits m)
    (size (_bins m)) (length hit) (length unhit) (length excluded).

(** The two ways [assert_slice_complete] ends; the exception carries the un-hit
    bins and the excluded bins that were hit. *)
Inductive Slice :=
  | Returned (unhit : list Bin.t)
  | CoverageIncomplete (unhit : list Bin.t) (excluded_hits : list string).

(** coverage.py:1176-1189 (assert_slice_complete) *)
Definition assert_slice_complete (raise_on_incomplete : bool) (m : t) : Slice :=
  let unhit := unhit_bins m in
  let hits := excluded_hits m in
  if raise_on_incomplete && (negb (Nat.eqb (length unhit) 0) || negb (Nat.eqb (length hits) 0))
  then CoverageIncomplete unhit hits
  else Returned unhit.

End DebugCoverageModel.
