(* ===== verification/CoverageSound.v ===== *)
(** What the coverage model promises of any stream of DMI operations, and of the
    streams the golden-reference model can produce ([Coverage], [Predictor]). *)

From stdpp Require Import sorting.
From S2P Require Import Prelude Registers Predictor RunControl Reachable ReadBack Transport.
From S2P Require Import RiscvDm RiscvDmSound Coverage.
Import DebugCoverageModel.

Local Open Scope string_scope.
Local Open Scope list_scope.
Local Open Scope Z_scope.

(** ** Sampling never raises *)

(** Every key the constructor declares, as a bin or as an exclusion. *)
Definition declared_keys : list string :=
  let m := init 1 20 false false in
  map fst (map_to_list (_counts m)) ++ map fst (map_to_list (_excluded_hits m)).

Definition declared (k : string) : bool := existsb (String.eqb k) declared_keys.

Lemma declared_in k : declared k = true -> In k declared_keys.
Proof.
  unfold declared. generalize declared_keys. intros l Hk.
  apply existsb_exists in Hk as (k' & Hk' & Heq). apply String.eqb_eq in Heq as ->. exact Hk'.
Qed.
#[local] Opaque declared declared_keys.

(** The states the sampler can be in. *)
Definition states : list string :=
  [ST_UNKNOWN; ST_HALTED; ST_RUNNING; ST_IN_RESET; ST_UNAVAIL; ST_NONEXISTENT].

(** From [m] to [m'] the bins stay and no count goes down. *)
Record grows (m m' : t) : Prop := {
  grows_bins : _bins m' = _bins m;
  grows_excluded : _excluded m' = _excluded m;
  grows_counts k :
    match _counts m !! k with
    | Some n => exists n', _counts m' !! k = Some n' /\ n <= n'
    | None => _counts m' !! k = None
    end;
  grows_excluded_hits k :
    match _excluded_hits m !! k with
    | Some n => exists n', _excluded_hits m' !! k = Some n' /\ n <= n'
    | None => _excluded_hits m' !! k = None
    end
}.

#[export] Instance grows_preorder : PreOrder grows.
Proof.
  split.
  - intros m. split; try done; intros k; by case_match; eauto with lia.
  - intros m1 m2 m3 [B1 E1 C1 X1] [B2 E2 C2 X2]. split; try congruence; intros k.
    + specialize (C1 k). specialize (C2 k). destruct (_counts m1 !! k) as [n|].
      * destruct C1 as (n' & Hn & Hle). rewrite Hn in C2. destruct C2 as (n2 & Hn2 & Hle2).
        exists n2. split; [done|lia].
      * by rewrite C1 in C2.
    + specialize (X1 k). specialize (X2 k). destruct (_excluded_hits m1 !! k) as [n|].
      * destruct X1 as (n' & Hn & Hle). rewrite Hn in X2. destruct X2 as (n2 & Hn2 & Hle2).
        exists n2. split; [done|lia].
      * by rewrite X1 in X2.
Qed.

(** [m] has the declared bins and exclusions, and a state of the list. *)
Record covered (m : t) : Prop := {
  covered_keys k : declared k = true -> is_Some (_counts m !! k) \/ is_Some (_excluded_hits m !! k);
  covered_state : _state m ∈ states
}.

(** The exclusions of an all bit that differs from its any bit. *)
Definition split_keys : list string :=
  flat_map (fun '(all_name, _) =>
    let g := "dmstatus.all_any." +:+ removeprefix "all" all_name in
    [g +:+ "." +:+ "all0_any1"; g +:+ "." +:+ "all1_any0"]) DMSTATUS_ALL_ANY_PAIRS.

Definition is_split (k : string) : bool := existsb (String.eqb k) split_keys.

Section sampling.
(** [free] allows the hits of the split exclusions. *)
Context (free : bool).

Definition allowed (k : string) : bool := declared k && (negb (is_split k) || free).

(** [m'] is [m] after some hits, none of them of a split exclusion unless [free]. *)
Definition moves (m m' : t) : Prop :=
  grows m m' /\
  (free = false -> forall k, is_split k = true -> _excluded_hits m' !! k = _excluded_hits m !! k).

#[local] Instance moves_preorder : PreOrder moves.
Proof.
  split.
  - intros m. split; [done|]. done.
  - intros m1 m2 m3 [G1 S1] [G2 S2]. split; [by trans m2|]. intros Hf k Hk.
    by rewrite (S2 Hf k Hk), (S1 Hf k Hk).
Qed.

(** A step that cannot raise. *)
Definition safe (c : step) : Prop := forall m, covered m ->
  snd (c m) = Ok tt /\ moves m (fst (c m)) /\ _state (fst (c m)) ∈ states.

Lemma covered_grows m m' : covered m -> moves m m' -> _state m' ∈ states -> covered m'.
Proof.
  intros [Hk _] [Hg _] Hs. split; [|done]. intros k [[n Hn]|[n Hn]]%Hk.
  - left. pose proof (grows_counts _ _ Hg k) as H. rewrite Hn in H. destruct H as (? & -> & _). eauto.
  - right. pose proof (grows_excluded_hits _ _ Hg k) as H. rewrite Hn in H.
    destruct H as (? & -> & _). eauto.
Qed.

Lemma safe_covered c m : safe c -> covered m -> covered (fst (c m)).
Proof. intros Hc Hm. destruct (Hc m Hm) as (_ & Hg & Hs). by apply (covered_grows m). Qed.

Lemma safe_skip : safe skip.
Proof. intros m [_ Hs]. by split_and!. Qed.

Lemma safe_upd f : (forall m, moves m (f m)) -> (forall m, _state m ∈ states -> _state (f m) ∈ states) ->
  safe (upd f).
Proof. intros Hg Hs m [_ Hm]. split_and!; [done|apply Hg|by apply Hs]. Qed.

Lemma safe_when b c : safe c -> safe (when b c).
Proof. destruct b; [done|]. intros _. exact safe_skip. Qed.

Lemma safe_seq c d : safe c -> safe d -> safe (seq_step c d).
Proof.
  intros Hc Hd m Hm. unfold seq_step. destruct (Hc m Hm) as (Hr & Hg & Hs).
  pose proof (covered_grows _ _ Hm Hg Hs) as Hm'.
  destruct (c m) as [m' r]. cbn in *. subst r. destruct (Hd m' Hm') as (Hr & Hg' & Hs').
  split_and!; [done| |done]. by trans m'.
Qed.

Lemma safe_steps cs : Forall safe cs -> safe (steps cs).
Proof. induction 1; [exact safe_skip|]. by apply safe_seq. Qed.

Lemma safe_each {A} (l : list A) f : (forall x, x ∈ l -> safe (f x)) -> safe (each l f).
Proof.
  intros Hf. apply safe_steps, Forall_forall. intros c Hc.
  apply list_elem_of_In, in_map_iff in Hc as (x & <- & Hx). by apply Hf, list_elem_of_In.
Qed.

(** A step that looks at the model before it acts. *)
Lemma safe_ask (c : t -> step) : (forall m, _state m ∈ states -> safe (c m)) -> safe (fun m => c m m).
Proof. intros Hc m Hm. apply (Hc m); [apply Hm|done]. Qed.

Lemma safe_hit g n : allowed (g +:+ "." +:+ n) = true -> safe (_hit g n).
Proof.
  intros [Hd Hf]%andb_true_iff m Hm. destruct Hm as [Hk Hs]. specialize (Hk _ Hd). clear Hd.
  unfold _hit. set (key := g +:+ "." +:+ n) in *. clearbody key.
  destruct (_counts m !! key) as [x|] eqn:Hc.
  - split_and!; [done| |done]. split; [|done]. split; try done; intros k; cbn.
    + destruct (decide (k = key)) as [->|Hne].
      * rewrite Hc, lookup_insert_eq. eexists. split; [done|lia].
      * rewrite lookup_insert_ne by done. by case_match; eauto with lia.
    + by case_match; eauto with lia.
  - destruct Hk as [[? ?]|[x Hx]]; [done|]. rewrite Hx.
    split_and!; [done| |done]. split.
    + split; try done; intros k; cbn; [by case_match; eauto with lia|].
      destruct (decide (k = key)) as [->|Hne].
      * rewrite Hx, lookup_insert_eq. eexists. split; [done|lia].
      * rewrite lookup_insert_ne by done. by case_match; eauto with lia.
    + intros -> k Hsp. cbn. apply lookup_insert_ne. intros ->. by rewrite Hsp in Hf.
Qed.

(** Every declaration a step needs, by evaluation. *)
Ltac is_declared := apply safe_hit; vm_compute; reflexivity.

(** A one-bit field of the register has its two bins. *)
Definition declared_field (prefix : string) (r : Register.t) (f : Field.t) : bool :=
  match Register.field r (Field.name f) with
  | Ok g =>
      negb (Field.width g =? 1) ||
      ((Field.width f =? 1) && (0 <=? Field.lsb f) &&
       allowed ((prefix +:+ "." +:+ Field.name f) +:+ "." +:+ "0") &&
       allowed ((prefix +:+ "." +:+ Field.name f) +:+ "." +:+ "1"))
  | Raise _ => false
  end.

Lemma safe_hit_fields prefix r w :
  forallb (declared_field prefix r) (Register.fields r) = true ->
  safe (hit_fields prefix r (Register.decode r w)).
Proof.
  intros Hd. apply safe_each. intros x Hx.
  apply list_elem_of_In, in_map_iff in Hx as (f & <- & Hf).
  rewrite forallb_forall in Hd. specialize (Hd f Hf). unfold declared_field in Hd.
  destruct (Register.field r (Field.name f)) as [g|]; [|done].
  destruct (Field.width g =? 1); cbn [negb orb] in *; [|exact safe_skip].
  rewrite !andb_true_iff in Hd. destruct Hd as [[[Hw Hl] H0] H1]. zhyps.
  rewrite extract_bit by done. by destruct (Z.testbit w (Field.lsb f)); apply safe_hit.
Qed.

Lemma dmcontrol_fields_declared :
  forallb (declared_field "dmcontrol" DMCONTROL) (Register.fields DMCONTROL) = true.
Proof. vm_compute. reflexivity. Qed.

Lemma dmstatus_fields_declared :
  forallb (declared_field "dmstatus" DMSTATUS) (Register.fields DMSTATUS) = true.
Proof. vm_compute. reflexivity. Qed.

(** A name of one-bit fields only decodes to a bit. *)
Lemma dict_get_bit r w n :
  forallb (fun f => negb (String.eqb n (Field.name f)) ||
                    ((Field.width f =? 1) && (0 <=? Field.lsb f))) (Register.fields r) = true ->
  exists b, dict_get (Register.decode r w) n 0 = to_int b.
Proof.
  unfold Register.decode. generalize (Register.fields r) as l. clear r.
  induction l as [|f l IH]; intros Hl; [by exists false|].
  cbn [forallb map] in Hl. apply andb_true_iff in Hl as [Hf Hl]. unfold dict_get in *. cbn [map getitem].
  destruct (String.eqb n (Field.name f)); [|by apply IH].
  cbn [negb orb] in Hf. apply andb_true_iff in Hf as [Hw Hb]. zhyps.
  rewrite extract_bit by done. by eexists.
Qed.

Lemma state_from_dmstatus_in f b : _state_from_dmstatus f b ∈ states.
Proof. unfold _state_from_dmstatus, states. repeat case_match; set_solver. Qed.

(** Every transition between two settled states that differ is declared. *)
Lemma transitions_declared prev state :
  prev ∈ states -> state ∈ states -> unsettled prev || unsettled state = false ->
  String.eqb prev state = false ->
  allowed ("cross.hart_state_transition" +:+ "." +:+ (prev +:+ "_to_" +:+ state)) = true.
Proof.
  intros Hp Hs.
  assert (forallb (fun p => forallb (fun s => unsettled p || unsettled s || String.eqb p s ||
    allowed ("cross.hart_state_transition" +:+ "." +:+ (p +:+ "_to_" +:+ s))) states) states = true)
    as Hall by (vm_compute; reflexivity).
  rewrite forallb_forall in Hall. specialize (Hall prev). rewrite <-list_elem_of_In in Hall.
  specialize (Hall Hp). rewrite forallb_forall in Hall. specialize (Hall state).
  rewrite <-list_elem_of_In in Hall. specialize (Hall Hs). intros Hu He.
  by rewrite Hu, He in Hall.
Qed.

Lemma moves_same_bins m m' :
  _bins m' = _bins m -> _excluded m' = _excluded m -> _counts m' = _counts m ->
  _excluded_hits m' = _excluded_hits m -> moves m m'.
Proof.
  intros HB HE HC HX. split; [|intros _ k _; by rewrite HX]. split; try done; intros k; rewrite ?HC, ?HX; case_match; eauto with lia.
Qed.

Lemma safe_observe_state w : safe (observe_state (Register.decode DMSTATUS w)).
Proof.
  intros m Hm. set (f := Register.decode DMSTATUS w). unfold observe_state.
  pose proof (state_from_dmstatus_in f (_ndmreset m)) as Hs.
  pose proof (covered_state m Hm) as Hp. set (st := _state_from_dmstatus f (_ndmreset m)) in *.
  set (m1 := m <| _state := st |> <| _state_hartsel := Some (_hartsel m) |>).
  assert (moves m m1) as Hg by by apply moves_same_bins.
  assert (covered m1) as Hm1 by by apply (covered_grows m).
  destruct (negb _); [by split_and!|]. destruct (unsettled _ || unsettled _) eqn:Hu; [by split_and!|].
  destruct (String.eqb (_state m) st) eqn:He; cbn [negb when]; [by split_and!|].
  destruct (safe_hit _ _ (transitions_declared _ _ Hp Hs Hu He) m1 Hm1) as (? & ? & ?).
  split_and!; [done| |done]. by trans m1.
Qed.

(** Every all bit of the word equals its any bit. *)
Definition unsplit (w : Z) : bool :=
  let f := Register.decode DMSTATUS w in
  forallb (fun '(all, any) => dict_get f all 0 =? dict_get f any 0) DMSTATUS_ALL_ANY_PAIRS.

Lemma safe_sample_dmstatus_read w :
  free || unsplit w = true -> safe (_sample_dmstatus_read w).
Proof.
  intros Hw. apply safe_steps. repeat apply Forall_cons_2; [| | | | |apply Forall_nil_2].
  - apply safe_hit_fields, dmstatus_fields_declared.
  - unfold version_bin, zget, List.find. repeat case_match; simplify_eq/=;
      first [is_declared | exact safe_skip].
  - apply safe_each. intros [all any] Hin.
    assert (free = true \/ dict_get (Register.decode DMSTATUS w) all 0 =
                           dict_get (Register.decode DMSTATUS w) any 0) as Hu.
    { apply orb_true_iff in Hw as [Hw|Hw]; [by left|right]. unfold unsplit in Hw.
      rewrite forallb_forall in Hw. apply Z.eqb_eq.
      exact (Hw (all, any) (proj1 (list_elem_of_In _ _) Hin)). }
    assert (exists b c, dict_get (Register.decode DMSTATUS w) all 0 = to_int b /\
      dict_get (Register.decode DMSTATUS w) any 0 = to_int c) as (b & c & Eb & Ec).
    { repeat (apply elem_of_cons in Hin as [[= -> ->]|Hin];
        [edestruct (dict_get_bit DMSTATUS w) as [b Hb]; [|edestruct (dict_get_bit DMSTATUS w) as [c Hc];
           [|exists b, c; split; [exact Hb|exact Hc]]]; vm_compute; reflexivity|]).
      by apply elem_of_nil in Hin. }
    rewrite Eb, Ec in *. assert (free = true \/ b = c) as Hbc by (destruct Hu as [Hu|Hu]; [by left|right]; by destruct b, c).
    clear Hu. repeat (apply elem_of_cons in Hin as [[= -> ->]|Hin];
      [destruct Hbc as [Hf | ->];
         [apply safe_hit; unfold allowed; rewrite Hf, orb_true_r, andb_true_r;
            destruct b, c; vm_compute; reflexivity
         |destruct c; is_declared]|]).
    by apply elem_of_nil in Hin.
  - apply safe_upd; [|done]. intros m. by apply moves_same_bins.
  - apply safe_observe_state.
Qed.

(** Lists of steps, one by one. *)
Ltac each_step := apply safe_steps; repeat apply Forall_cons_2; [..|apply Forall_nil_2].
Ltac keeps_bins := apply safe_upd; [intros m'; by apply moves_same_bins|done].

Lemma safe_sample_hartsel h : safe (sample_hartsel h).
Proof.
  apply (safe_ask (fun m => steps _)). intros m _. each_step.
  - destruct (h =? 0); is_declared.
  - apply safe_when. is_declared.
  - apply safe_when. is_declared.
  - apply safe_when. is_declared.
  - apply safe_when. is_declared.
Qed.

Lemma safe_sample_resumereq f b : safe (sample_resumereq f b).
Proof.
  apply (safe_ask (fun m => when _ _)). intros m _. apply safe_when.
  repeat case_match; try apply safe_when; is_declared.
Qed.

Lemma safe_sample_ackhavereset f b : safe (sample_ackhavereset f b).
Proof.
  intros m Hm. unfold sample_ackhavereset.
  destruct (_havereset m) as [h|]; [|by apply safe_skip].
  match goal with |- context [when ?b ?c m] => apply (safe_when b c); [|exact Hm] end. each_step.
  - destruct (truthy _), h; first [is_declared | exact safe_skip].
  - apply safe_when. keeps_bins.
Qed.

Lemma safe_sample_ndmreset f h : safe (sample_ndmreset f h).
Proof.
  apply (safe_ask (fun m => steps _)). intros m _. each_step.
  - destruct (truthy _), (_ndmreset m), (default false _); first [is_declared | exact safe_skip].
  - keeps_bins.
Qed.

Lemma safe_sample_dmcontrol_write w : safe (_sample_dmcontrol_write w).
Proof.
  each_step.
  - apply safe_hit_fields, dmcontrol_fields_declared.
  - apply safe_sample_hartsel.
  - edestruct (dict_get_bit DMCONTROL w) as [b Hb]; [|rewrite Hb]; [vm_compute; reflexivity|].
    edestruct (dict_get_bit DMCONTROL w) as [c Hc]; [|rewrite Hc]; [vm_compute; reflexivity|].
    destruct b, c; is_declared.
  - repeat case_match; is_declared.
  - intros m Hm. unfold select. set (m1 := m <| _hartsel := _ |>).
    assert (moves m m1) as Hg by by apply moves_same_bins.
    assert (covered m1) as Hm1 by (apply (covered_grows m); [done..|apply Hm]).
    enough (safe (steps [sample_resumereq (Register.decode DMCONTROL w) (negb (hartsel_of w =? _hartsel m));
      sample_ackhavereset (Register.decode DMCONTROL w) (negb (hartsel_of w =? _hartsel m));
      upd (shadow_reset_haltreq (Register.decode DMCONTROL w) (hartsel_of w));
      if negb (truthy (dict_get (Register.decode DMCONTROL w) "dmactive" 0)) then upd forget
      else sample_ndmreset (Register.decode DMCONTROL w) (hartsel_of w)])) as Hs.
    { destruct (Hs m1 Hm1) as (? & ? & ?). split_and!; [done| |done]. by trans m1. }
    each_step.
    + apply safe_sample_resumereq.
    + apply safe_sample_ackhavereset.
    + apply safe_upd; intros m'; unfold shadow_reset_haltreq; repeat case_match; try done;
        by apply moves_same_bins.
    + case_match; [|apply safe_sample_ndmreset].
      apply safe_upd; [intros m'; by apply moves_same_bins|]. intros m' _. cbn. set_solver.
Qed.

(** A value of the dict has what all of them have. *)
Lemma zget_all (P : string -> bool) d k :
  forallb (fun kv => P (snd kv)) d = true -> forall v, zget d k = Some v -> P v = true.
Proof.
  intros Hd v Hv. unfold zget in Hv. destruct (List.find _ d) as [[k' x]|] eqn:Hf; [|done].
  cbn in Hv. simplify_eq. apply find_some in Hf as [Hf _].
  rewrite forallb_forall in Hd. exact (Hd _ Hf).
Qed.

Lemma safe_sample_command w : safe (sample_command w).
Proof.
  apply (safe_ask (fun m => steps _)). intros m _. each_step; apply safe_when; [|is_declared].
  each_step.
  - destruct (bit w 16); is_declared.
  - case_match; [is_declared|]. apply safe_when. is_declared.
  - destruct (zget _TRIGGER_CSRS _) as [csr|] eqn:Hc; [|exact safe_skip]. each_step.
    + apply safe_hit. revert csr Hc.
      apply (zget_all (fun n => allowed ("cg_trigger" +:+ "." +:+ ("cp_trigger_csr." +:+ n)))).
      vm_compute. reflexivity.
    + apply safe_when. destruct (zget _TRIGGER_TYPES _) as [n|] eqn:Ht; [|exact safe_skip].
      apply safe_hit. revert n Ht.
      apply (zget_all (fun n => allowed ("cg_trigger" +:+ "." +:+ ("cp_trigger_type." +:+ n)))).
      vm_compute. reflexivity.
Qed.

(** Branch by branch, down to the hits. *)
Ltac safely :=
  cbv zeta;
  lazymatch goal with
  | |- safe skip => exact safe_skip
  | |- safe (sample_command _) => apply safe_sample_command
  | |- safe (when _ _) => apply safe_when; safely
  | |- safe (steps _) => each_step; safely
  | |- safe (_hit _ _) => first [is_declared | case_match; safely]
  | |- _ => case_match; safely
  end.

Lemma safe_sample_external_debug op addr data readback :
  safe (_sample_external_debug op addr data readback).
Proof.
  each_step.
  - case_match; [keeps_bins|]. apply safe_when. keeps_bins.
  - safely.
Qed.

(** A dmstatus read that does not split an all bit from its any bit. *)
Definition unsplit_op (op : string) (addr : Z) (readback : option Z) : bool :=
  negb (String.eqb op OP_READ && (addr =? Register.address DMSTATUS)) || unsplit (default 0 readback).

Lemma safe_sample op addr data readback :
  free || unsplit_op op addr readback = true -> safe (sample op addr data readback).
Proof.
  intros Hu. unfold sample, unsplit_op in *. repeat case_match.
  - each_step; [is_declared|apply safe_sample_dmcontrol_write].
  - is_declared.
  - each_step; [is_declared|]. apply safe_sample_dmstatus_read. by destruct free.
  - is_declared.
  - apply safe_sample_external_debug.
Qed.

(** ** Traces *)

(** One completed operation, as the observers see it ([Transport.dmi_op]). *)
Definition sample_op (o : dmi_op) : step :=
  let '(op, addr, data, readback) := o in sample op addr data readback.

Definition samples (ops : list dmi_op) : step := each ops sample_op.

Lemma safe_samples ops :
  free = true \/ Forall (fun '(op, addr, _, readback) => unsplit_op op addr readback = true) ops ->
  safe (samples ops).
Proof.
  intros Hu. apply safe_each. intros [[[op addr] data] readback] Hin. apply safe_sample.
  destruct Hu as [-> |Hu]; [done|]. rewrite Forall_forall in Hu. specialize (Hu _ Hin). cbn in Hu.
  rewrite Hu. apply orb_true_r.
Qed.

End sampling.

(** What adding and excluding bins preserves, building all of them preserves. *)
Section building.
Context (R : t -> t -> Prop).
Context (R_add : forall g n s tc m m', R m m' -> R (_add g n s tc m) (_add g n s tc m')).
Context (R_exclude : forall g n m m', R m m' -> R (_exclude g n m) (_exclude g n m')).
Context (R_sticky : forall m m', R m m' -> supports_stickyunavail m = supports_stickyunavail m').

Lemma each_related {A} (l : list A) f m m' :
  (forall x m m', R m m' -> R (f x m) (f x m')) -> R m m' ->
  R (build_each l f m) (build_each l f m').
Proof using.
  intros Hf. unfold build_each. revert m m'. induction l as [|x l IH]; intros m m' Hm; [done|].
  cbn. apply IH. by apply Hf.
Qed.

Ltac related :=
  cbv zeta beta;
  lazymatch goal with
  | |- R (_add _ _ _ _ _) _ => apply R_add; related
  | |- R (_exclude _ _ _) _ => apply R_exclude; related
  | |- R (build_each _ _ _) _ => apply each_related; [intros x ? ? ?; try destruct x as [? ?]|]; related
  | |- R (if negb (Field.width ?f =? 1) then _ else _) _ => destruct (negb (Field.width f =? 1)); related
  | |- R (if _ && negb (supports_stickyunavail ?m) then _ else _) _ =>
      erewrite (R_sticky m) by eassumption; destruct (_ && negb _); related
  | |- R (if ?b then _ else _) _ => destruct b; related
  | |- R (let (_, _) := ?p in _) _ => destruct p; related
  | |- _ => try assumption
  end.

Lemma build_bins_related m m' : R m m' -> R (_build_bins m) (_build_bins m').
Proof using Type*.
  intros Hm. unfold _build_bins, _build_external_debug_bins, _build_cross_bins,
    _build_all_any_bins, _build_dmstatus_field_bins, _build_hartsel_bins,
    _build_dmcontrol_field_bins, _build_dmi_access_bins.
  related.
Qed.

End building.

(** The tables, the inferred state and the capability that shapes the tables. *)
Definition same_tables (m m' : t) : Prop :=
  _bins m = _bins m' /\ _counts m = _counts m' /\ _excluded m = _excluded m' /\
  _excluded_hits m = _excluded_hits m' /\ _state m = _state m' /\
  supports_stickyunavail m = supports_stickyunavail m'.

(** The tables of a constructed model depend on that capability only. *)
Lemma init_tables nh hl sh ss : same_tables (init nh hl sh ss) (init 1 20 false ss).
Proof.
  unfold init. apply (build_bins_related same_tables); [| | |by split_and!].
  - intros g n s tc m m' (HB & HC & HE & HX & HS & Hsu). unfold same_tables, _add. cbn.
    by rewrite HB, HC.
  - intros g n m m' (HB & HC & HE & HX & HS & Hsu). unfold same_tables, _exclude. cbn.
    by rewrite HE, HX.
  - intros m m' (_ & _ & _ & _ & _ & Hsu). exact Hsu.
Qed.

Lemma init_state nh hl sh ss : _state (init nh hl sh ss) = ST_UNKNOWN.
Proof.
  destruct (init_tables nh hl sh ss) as (_ & _ & _ & _ & -> & _).
  destruct ss; vm_compute; reflexivity.
Qed.

Lemma covered_init nh hl sh ss : covered (init nh hl sh ss).
Proof.
  destruct (init_tables nh hl sh ss) as (_ & HC & _ & HX & _). split.
  - rewrite HC, HX. intros k Hk%declared_in.
    assert (forallb (fun k => match _counts (init 1 20 false ss) !! k with Some _ => true | None =>
      match _excluded_hits (init 1 20 false ss) !! k with Some _ => true | None => false end end)
      declared_keys = true) as Hall by (destruct ss; vm_compute; reflexivity).
    rewrite forallb_forall in Hall. specialize (Hall k Hk).
    revert Hall. clear. generalize (_counts (init 1 20 false ss) !! k).
    generalize (_excluded_hits (init 1 20 false ss) !! k).
    intros [x|] [y|] Hall; [by left|by right|by left|done].
  - rewrite init_state. clear. constructor.
Qed.

(** Bins and counters go together, and no count is negative. *)
Record consistent (m : t) : Prop := {
  consistent_bins k : is_Some (_bins m !! k) <-> is_Some (_counts m !! k);
  consistent_excluded k : is_Some (_excluded m !! k) <-> is_Some (_excluded_hits m !! k);
  consistent_counts k n : _counts m !! k = Some n -> 0 <= n;
  consistent_excluded_hits k n : _excluded_hits m !! k = Some n -> 0 <= n
}.

Lemma consistent_grows m m' : consistent m -> grows m m' -> consistent m'.
Proof.
  intros [HB HE HC HX] [GB GE GC GX]. split.
  - intros k. rewrite GB, HB. specialize (GC k). destruct (_counts m !! k).
    + destruct GC as (? & -> & _). split; eauto.
    + by rewrite GC.
  - intros k. rewrite GE, HE. specialize (GX k). destruct (_excluded_hits m !! k).
    + destruct GX as (? & -> & _). split; eauto.
    + by rewrite GX.
  - intros k n Hn. specialize (GC k). specialize (HC k). destruct (_counts m !! k) as [x|].
    + destruct GC as (n' & Hn' & Hle). specialize (HC x eq_refl). simplify_eq. lia.
    + by rewrite GC in Hn.
  - intros k n Hn. specialize (GX k). specialize (HX k). destruct (_excluded_hits m !! k) as [x|].
    + destruct GX as (n' & Hn' & Hle). specialize (HX x eq_refl). simplify_eq. lia.
    + by rewrite GX in Hn.
Qed.

(** A new entry keeps a table and its counters together. *)
Lemma insert_together {A} (tbl : gmap string A) (cnt : gmap string Z) k b :
  (forall k, is_Some (tbl !! k) <-> is_Some (cnt !! k)) ->
  forall j, is_Some (<[k := b]> tbl !! j) <-> is_Some (<[k := 0]> cnt !! j).
Proof.
  intros Ht j. destruct (decide (j = k)) as [->|Hne].
  - rewrite !lookup_insert_eq. split; eauto.
  - by rewrite !lookup_insert_ne by done.
Qed.

Lemma insert_counts (cnt : gmap string Z) k :
  (forall k n, cnt !! k = Some n -> 0 <= n) -> forall j n, <[k := 0]> cnt !! j = Some n -> 0 <= n.
Proof.
  intros Hc j n. destruct (decide (j = k)) as [->|Hne].
  - rewrite lookup_insert_eq. intros [= <-]. lia.
  - rewrite lookup_insert_ne by done. apply Hc.
Qed.

Lemma consistent_init nh hl sh ss : consistent (init nh hl sh ss).
Proof.
  unfold init. match goal with |- consistent (_build_bins ?x) => set (m := x) end.
  assert (consistent m) as Hm.
  { split; cbn; intros k; [split; by intros [? ?]|split; by intros [? ?]|done|done]. }
  enough (consistent (_build_bins m) /\ _build_bins m = _build_bins m) by tauto.
  apply (build_bins_related (fun m m' => consistent m /\ m = m')); [| | |done].
  - intros g n s tc m1 ? [[HB HE HC HX] <-]. split; [|done]. split; cbn; try done.
    + by apply insert_together.
    + by apply insert_counts.
  - intros g n m1 ? [[HB HE HC HX] <-]. split; [|done]. split; cbn; try done.
    + by apply insert_together.
    + by apply insert_counts.
  - by intros m1 ? [_ <-].
Qed.

(** C20: Sampling any stream of operations, whatever their addresses and words, never
    raises: every bin the sampler hits is declared, for every configuration of
    the model.  It keeps the declared bins, and no count ever goes down. *)
Theorem sample_total nh hl sh ss ops :
  let m := init nh hl sh ss in
  snd (samples ops m) = Ok tt /\ grows m (fst (samples ops m)).
Proof. cbn zeta. destruct (safe_samples true ops (or_introl eq_refl) _ (covered_init nh hl sh ss)) as (? & [? _] & _). done. Qed.

(** ** Reports *)

Lemma length_filter_split {A} (p : A -> bool) l :
  length l = (length (List.filter p l) + length (List.filter (fun x => negb (p x)) l))%nat.
Proof. induction l as [|x l IH]; [done|]. cbn. destruct (p x); cbn; lia. Qed.

Lemma Permutation_List_filter {A} (p : A -> bool) l l' :
  l ≡ₚ l' -> List.filter p l ≡ₚ List.filter p l'.
Proof.
  induction 1 as [|x l l' _ IH|x y l|l1 l2 l3 _ IH1 _ IH2]; cbn; [done| | |by trans (List.filter p l2)].
  - destruct (p x); [by constructor|done].
  - destruct (p x), (p y); try done. constructor.
Qed.

Lemma sorted_items_Permutation {A} (d : gmap string A) : sorted_items d ≡ₚ map_to_list d.
Proof. apply merge_sort_Permutation. Qed.

Lemma elem_of_sorted_items {A} (d : gmap string A) k x : (k, x) ∈ sorted_items d <-> d !! k = Some x.
Proof. by rewrite sorted_items_Permutation, elem_of_map_to_list. Qed.

Lemma NoDup_sorted_keys {A} (d : gmap string A) : NoDup (map fst (sorted_items d)).
Proof.
  rewrite sorted_items_Permutation. exact (NoDup_fst_map_to_list d).
Qed.

(** The keys a bin report counts as hit or as un-hit. *)
Lemma lookup_positive (d : gmap string Z) k n : positive d !! k = Some n <-> d !! k = Some n /\ 0 < n.
Proof. unfold positive. by rewrite map_lookup_filter_Some. Qed.

Definition is_unhit (m : t) (kb : string * Bin.t) : bool := default 0 (_counts m !! fst kb) =? 0.

Lemma unhit_bins_eq m : unhit_bins m = map snd (List.filter (is_unhit m) (sorted_items (_bins m))).
Proof. unfold unhit_bins. f_equal. apply filter_ext. by intros [k b]. Qed.

Lemma hit_keys m k :
  consistent m ->
  k ∈ map fst (List.filter (fun kb => negb (is_unhit m kb)) (sorted_items (_bins m))) <->
  k ∈ map fst (sorted_items (positive (_counts m))).
Proof.
  intros [HB _ HC _]. rewrite !list_elem_of_In, !in_map_iff. split.
  - intros ([k' b] & <- & Hin). apply filter_In in Hin as [Hin Hu]. cbn.
    apply list_elem_of_In, elem_of_sorted_items in Hin.
    destruct (proj1 (HB k')) as [n Hn]; [eauto|]. exists (k', n). split; [done|].
    apply list_elem_of_In, elem_of_sorted_items, lookup_positive. split; [done|].
    unfold is_unhit in Hu. cbn in Hu. rewrite Hn in Hu. cbn in Hu. specialize (HC _ _ Hn). zhyps. lia.
  - intros ([k' n] & <- & Hin). apply list_elem_of_In, elem_of_sorted_items, lookup_positive in Hin
      as [Hn Hp]. destruct (proj2 (HB k')) as [b Hb]; [eauto|]. exists (k', b). split; [done|].
    apply filter_In. split; [by apply list_elem_of_In, elem_of_sorted_items|].
    unfold is_unhit. cbn. rewrite Hn. cbn. apply negb_true_iff, Z.eqb_neq. lia.
Qed.

Lemma report_adds_up m :
  consistent m -> summary_bins (report m) = (summary_hit (report m) + summary_unhit (report m))%nat.
Proof.
  intros Hm. unfold report. cbn. rewrite unhit_bins_eq, !length_map.
  assert (length (sorted_items (positive (_counts m))) =
    length (List.filter (fun kb => negb (is_unhit m kb)) (sorted_items (_bins m)))) as ->.
  { rewrite <-(length_map fst (sorted_items _)), <-(length_map fst (List.filter _ _)).
    apply Permutation_length, NoDup_Permutation.
    - apply NoDup_sorted_keys.
    - pose proof (NoDup_sorted_keys (_bins m)) as Hnd. revert Hnd.
      generalize (sorted_items (_bins m)). intros l. induction l as [|x l IH]; [done|].
      cbn. intros Hx. apply NoDup_cons in Hx as [Hx Hl]. specialize (IH Hl).
      destruct (negb (is_unhit m x)); [|done]. cbn. apply NoDup_cons. split; [|done].
      intros Hin. apply Hx. clear -Hin. apply list_elem_of_In, in_map_iff in Hin as (y & <- & Hy).
      apply filter_In in Hy as [Hy _]. apply list_elem_of_In, in_map_iff. by exists y.
    - intros k. symmetry. by apply hit_keys. }
  rewrite Nat.add_comm, <-length_filter_split.
  rewrite (Permutation_length (sorted_items_Permutation (_bins m))). by rewrite length_map_to_list.
Qed.

(** C21: A report accounts for every bin: after any stream of operations a bin is
    either among the hit ones, with its count, or among the un-hit ones, never
    both, and the totals add up; [assert_slice_complete] returns nothing exactly
    when every bin has been hit and no excluded one has, and otherwise raises with
    the un-hit bins and the excluded bins that were hit. *)
Theorem report_accounts nh hl sh ss ops :
  let m := fst (samples ops (init nh hl sh ss)) in
  let r := report m in
  summary_bins r = (summary_hit r + summary_unhit r)%nat /\
  (forall k b, _bins m !! k = Some b ->
     exists n, _counts m !! k = Some n /\
       ((k, n) ∈ hit r <-> 0 < n) /\ (n = 0 -> b ∈ unhit r)) /\
  (forall b, b ∈ unhit r -> exists k, _bins m !! k = Some b /\ _counts m !! k = Some 0) /\
  (forall k, k ∈ report_excluded_hits r <-> exists n, _excluded_hits m !! k = Some n /\ 0 < n) /\
  assert_slice_complete true m =
    (if Nat.eqb (summary_unhit r) 0 && Nat.eqb (length (report_excluded_hits r)) 0
     then Returned [] else CoverageIncomplete (unhit r) (report_excluded_hits r)) /\
  assert_slice_complete false m = Returned (unhit r).
Proof.
  cbn zeta. set (m := fst _).
  assert (consistent m) as Hm.
  { apply (consistent_grows (init nh hl sh ss)); [apply consistent_init|].
    by destruct (safe_samples true ops (or_introl eq_refl) _ (covered_init nh hl sh ss)) as (_ & [? _] & _). }
  clearbody m. split_and!.
  - by apply report_adds_up.
  - intros k b Hb. destruct (proj1 (consistent_bins _ Hm k)) as [n Hn]; [eauto|]. exists n.
    split; [done|]. cbn. split.
    + rewrite elem_of_sorted_items, lookup_positive, Hn. split; [by intros [_ ?]|by split].
    + intros ->. rewrite unhit_bins_eq. apply list_elem_of_In, in_map_iff. exists (k, b).
      split; [done|]. apply filter_In. split; [by apply list_elem_of_In, elem_of_sorted_items|].
      unfold is_unhit. cbn. by rewrite Hn.
  - intros b Hb. cbn in Hb. rewrite unhit_bins_eq in Hb.
    apply list_elem_of_In, in_map_iff in Hb as ([k b'] & <- & Hin). apply filter_In in Hin as [Hin Hu].
    apply list_elem_of_In, elem_of_sorted_items in Hin. exists k. split; [done|].
    destruct (proj1 (consistent_bins _ Hm k)) as [n Hn]; [eauto|].
    unfold is_unhit in Hu. cbn in Hu. rewrite Hn in Hu |- *. cbn in Hu. zhyps. by subst.
  - intros k. cbn. unfold excluded_hits. rewrite list_elem_of_In, in_map_iff. split.
    + intros ([k' n] & <- & Hin). apply list_elem_of_In, elem_of_sorted_items, lookup_positive in Hin.
      by exists n.
    + intros (n & Hn). exists (k, n). split; [done|].
      by apply list_elem_of_In, elem_of_sorted_items, lookup_positive.
  - unfold assert_slice_complete. cbn. destruct (unhit_bins m) as [|b l]; [|done].
    by destruct (excluded_hits m).
  - done.
Qed.

(** ** On the golden-reference model *)

(** A dmstatus word the model predicts has each all bit equal to its any bit. *)
Lemma unsplit_predicted p w :
  0 <= DMPredictor.hartsel p -> DMPredictor.expect p (Register.address DMSTATUS) = Ok w ->
  unsplit w = true.
Proof.
  intros Hs He. destruct (dmstatus_decode p Hs) as (w' & He' & _ & Hd).
  change (DMPredictor.expect p (Register.address DMSTATUS)) with (DMPredictor._expect_dmstatus p) in He.
  rewrite He' in He. apply Ok_inj in He as <-. unfold unsplit. rewrite Hd. cbn.
  by rewrite !Z.eqb_refl.
Qed.

Definition unsplit_dmi (o : dmi_op) : Prop :=
  let '(op, addr, _, readback) := o in unsplit_op op addr readback = true.

(** Whatever a program does, its history splits no dmstatus read. *)
Lemma history_unsplit {T S A} `{ModelBacked T} `{Clock} (c : prog S A) (w : world T S) :
  live (dev w) -> wf (model (dev w)) -> Forall unsplit_dmi (history w) ->
  Forall unsplit_dmi (history (fst (run c w))).
Proof.
  revert w. induction c as [a|e|addr k IH|addr v k IH|k IH|s k IH|k IH|k IH|d k IH];
    intros w Hl Hw Hh; cbn; try done; try (by apply IH).
  - pose proof (live_read addr _ Hl) as Hl'. pose proof (model_read addr _ Hl) as Hm.
    pose proof (read_expected addr (dev w)) as Hr.
    destruct (t_read addr (dev w)) as [t [v|e]] eqn:Ht; cbn in *; [|done].
    apply IH; cbn; [done|by rewrite Hm|]. apply Forall_app. split; [done|]. constructor; [|done].
    unfold unsplit_dmi, unsplit_op. cbn. destruct (addr =? _) eqn:Ha; [|done]. zhyps. subst addr. cbn.
    pose proof (wf_control _ Hw) as Hc.
    assert (0 <= DMPredictor.hartsel (model (dev w))) as Hs by apply Hc.
    destruct (dmstatus_decode _ Hs) as (w' & He & _).
    specialize (Hr w' Hl He). cbn in Hr. apply Ok_inj in Hr as ->.
    by apply (unsplit_predicted (model (dev w))).
  - pose proof (live_write addr v _ Hl) as Hl'. pose proof (model_write addr v _ Hl) as Hm.
    destruct (t_write addr v (dev w)) as [t [[]|e]]; cbn in *; [|done].
    apply IH; cbn; [done|rewrite Hm; by apply wf_on_write|].
    apply Forall_app. split; [done|]. constructor; [|done]. reflexivity.
Qed.

Lemma split_init nh hl sh ss k : is_split k = true -> _excluded_hits (init nh hl sh ss) !! k = Some 0.
Proof.
  destruct (init_tables nh hl sh ss) as (_ & _ & _ & -> & _). unfold is_split.
  intros Hk. apply existsb_exists in Hk as (k' & Hk' & Heq). apply String.eqb_eq in Heq as ->.
  assert (forallb (fun k => match _excluded_hits (init 1 20 false ss) !! k with
    Some n => n =? 0 | None => false end) split_keys = true) as Hall
    by (destruct ss; vm_compute; reflexivity).
  rewrite forallb_forall in Hall. specialize (Hall k' Hk'). revert Hall.
  generalize (_excluded_hits (init 1 20 false ss) !! k'). intros [x|] Hx; [|done].
  apply Z.eqb_eq in Hx. by subst.
Qed.

(** No debugger program, whatever it reads and writes, makes the model split a
    selection: over its whole history the exclusions of an all bit that differs
    from its any bit are never hit, for any configuration of the coverage model. *)
Theorem model_never_splits {T S A} `{ModelBacked T} `{Clock} (c : prog S A) (w : world T S)
    nh hl sh ss k :
  live (dev w) -> wf (model (dev w)) -> history w = [] -> is_split k = true ->
  _excluded_hits (fst (samples (history (fst (run c w))) (init nh hl sh ss))) !! k = Some 0.
Proof.
  intros Hl Hw Hh Hk.
  assert (Forall unsplit_dmi (history (fst (run c w)))) as Hu
    by (apply history_unsplit; [done..|by rewrite Hh]).
  destruct (safe_samples false _ (or_intror Hu) _ (covered_init nh hl sh ss)) as (_ & [_ Hs] & _).
  rewrite (Hs eq_refl k Hk). by apply split_init.
Qed.

(** ** Where the sampler departs from what it says it measures *)

Lemma sample_dmcs2 w :
  sample OP_WRITE _DMCS2 (Some w) None =
  steps
    [skip;
     steps
       [_hit "cg_dmcs2_write" ("cp_hgselect." +:+ (if bit w 2 then "resume_group" else "halt_group"));
        _hit "cg_dmcs2_write" ("cp_grouptype." +:+ (if bit w 11 then "ext_trigger" else "halt"));
        _hit "cg_dmcs2_write"
          ("cp_group." +:+ (if truthy (Z.land (Z.shiftr w 2) 0x1F) then "grouped" else "ungrouped"))]].
Proof. reflexivity. Qed.

(** The cp_hgselect bins of a dmcs2 write follow the lowest bit of the group
    number, whatever hgselect is: a write that selects group 1 counts as
    resume_group and any even group as halt_group. *)
Theorem hgselect_counts_group a nh hl sh ss :
  let m := fst (sample OP_WRITE _DMCS2 (Some (dmcs2 a)) None (init nh hl sh ss)) in
  let odd := Z.testbit (Dmcs2Args.group a) 0 in
  _counts m !! "cg_dmcs2_write.cp_hgselect.resume_group" = Some (to_int odd) /\
  _counts m !! "cg_dmcs2_write.cp_hgselect.halt_group" = Some (to_int (negb odd)).
Proof.
  cbn zeta.
  assert (bit (dmcs2 a) 2 = Z.testbit (Dmcs2Args.group a) 0) as Hb.
  { unfold bit. rewrite truthy_bit by lia. unfold dmcs2. cbn [fold_left].
    rewrite !Z.lor_spec, !testbit_flag, testbit_flag0 by lia. cbn [Z.eqb Pos.eqb].
    rewrite !Z.shiftl_spec, (Z.testbit_neg_r (Z.land _ 0xF)) by lia. cbn [Z.sub Z.add Z.opp Z.pos_sub].
    rewrite Z.land_spec. change (Z.testbit 0x1F 0) with true.
    by rewrite !andb_false_r, !andb_true_r, !orb_false_r. }
  rewrite <-Hb. clear Hb. generalize (dmcs2 a). intros w. rewrite sample_dmcs2.
  generalize (bit w 2) (bit w 11) (truthy (Z.land (Z.shiftr w 2) 0x1F)). intros x y z.
  split; destruct ss, x, y, z; vm_compute; reflexivity.
Qed.

(** Halt hart 0, select hart 1, which runs, and resume it without reading dmstatus. *)
Definition stale_resume : prog Z unit :=
  (RISCVDebug.activate;;; RISCVDebug.halt RISCVDebug.DEFAULT_TIMEOUT;;;
   RISCVDebug.select_hart 1;;; RISCVDebug.resume_no_wait)%prog.

Definition two_harts : DMPredictor.t := DMPredictor.init (Kwargs.default <| Kwargs.num_harts := 2 |>).

#[local] Existing Instance exact_clock.

(** The stream a program leaves on the mock, sampled. *)
Definition sampled (p : DMPredictor.t) (c : prog Z unit) : t :=
  fst (samples (history (fst (run c (on_mock p)))) (init (DMPredictor.num_harts p) 20 false false)).

(** A debugger that halts hart 0, selects hart 1, which runs, and resumes it
    without reading dmstatus again: the sampler counts a resume of a halted hart,
    its record of the state being that of hart 0, and none of a running hart,
    though the model's hart 1 is not halted after any of the steps. *)
Theorem stale_resume_miscounted :
  let m := sampled two_harts stale_resume in
  _counts m !! "cross.resumereq_x_prior_state.resumereq_when_halted" = Some 1 /\
  _counts m !! "cross.resumereq_x_prior_state.resumereq_when_running" = Some 0 /\
  forall c, c ∈ [Ret tt; RISCVDebug.activate; (RISCVDebug.activate;;; RISCVDebug.halt RISCVDebug.DEFAULT_TIMEOUT)%prog;
                 (RISCVDebug.activate;;; RISCVDebug.halt RISCVDebug.DEFAULT_TIMEOUT;;;
                  RISCVDebug.select_hart 1)%prog; stale_resume] ->
    HartState.halted <$> (DMPredictor.harts (Mock.predictor (dev (fst (run c (on_mock two_harts))))) !! 1%nat)
    = Some false.
Proof.
  cbn zeta. split; [vm_compute; reflexivity|]. split; [vm_compute; reflexivity|].
  intros c Hc. repeat (apply elem_of_cons in Hc as [->|Hc]; [vm_compute; reflexivity|]).
  by apply elem_of_nil in Hc.
Qed.

(** Asserting ndmreset on a halted hart of the model hits the transition that the
    coverage model excludes as unreachable: the model lets every hart leave debug
    mode when it is reset, so the slice can not be complete. *)
Lemma halted_reset_excluded :
  let m := sampled two_harts
    (RISCVDebug.activate;;; RISCVDebug.halt RISCVDebug.DEFAULT_TIMEOUT;;;
     RISCVDebug.ndmreset true;;; RISCVDebug.read_dmstatus;;; Ret tt)%prog in
  _excluded_hits m !! "cross.hart_state_transition.halted_to_in_reset" = Some 1 /\
  exists unhit, assert_slice_complete true m =
    CoverageIncomplete unhit ["cross.hart_state_transition.halted_to_in_reset"].
Proof. cbn zeta. split; [vm_compute; reflexivity|]. eexists. vm_compute. reflexivity. Qed.

Lemma model_never_splits_witness :
  let w := on_mock p_up in
  let c := RISCVDebug.halt RISCVDebug.DEFAULT_TIMEOUT in
  let k := "dmstatus.all_any.halted.all0_any1" in
  _excluded_hits (fst (samples (history (fst (run c w))) (init 1 20 false false))) !! k = Some 0.
Proof.
  intros w c k. apply (model_never_splits c w 1 20 false false k).
  - done.
  - apply wf_init.
  - reflexivity.
  - vm_compute. reflexivity.
Defined.
