(* ===== verification/DutConfig.v ===== *)
(** Declared device configurations: [model/dut_config.py] and [dut_configs/*.json].

    A declaration is the dictionary [json.loads] returns: its values are null,
    booleans, integers and strings, the only ones a declaration holds (no
    fraction, list or object is represented).  Reading a file is the parameter
    [read_json]: the parsed content of the file at a path, or nothing when there
    is no file there. *)

From Stdlib Require Import Ascii.
From S2P Require Import Prelude Registers Predictor.

Local Open Scope string_scope.
Local Open Scope list_scope.
Local Open Scope Z_scope.

(** ** Values of a declaration *)

Inductive json :=
  | JNull
  | JBool (b : bool)
  | JNum (n : Z)
  | JStr (s : string).

Definition Raw : Type := gmap string json.

(** [r[key]]. *)
Definition raw_get (r : Raw) (key : string) : result json :=
  match r !! key with Some v => Ok v | None => Raise (KeyError key) end.

(** [bool(v)]. *)
Definition py_bool_of (v : json) : bool :=
  match v with
  | JNull => false
  | JBool b => b
  | JNum n => truthy n
  | JStr s => negb (String.eqb s EmptyString)
  end.

(** [repr(v)], of strings without characters to escape, and [str(v)]. *)
Definition py_repr (v : json) : string :=
  match v with
  | JNull => "None"
  | JBool b => if b then "True" else "False"
  | JNum n => pretty n
  | JStr s => "'" +:+ s +:+ "'"
  end.

Definition py_str (v : json) : string := match v with JStr s => s | _ => py_repr v end.

(** The name of the type of a value. *)
Definition type_name (v : json) : string :=
  match v with JNull => "NoneType" | JBool _ => "bool" | JNum _ => "int" | JStr _ => "str" end.

(** ** [int] of a string, for ASCII strings *)

Module Int.

Definition space (c : Ascii.ascii) : bool :=
  let n := Ascii.nat_of_ascii c in
  ((9 <=? n) && (n <=? 13) || (28 <=? n) && (n <=? 32))%nat.

Fixpoint lstrip (l : list Ascii.ascii) : list Ascii.ascii :=
  match l with c :: l' => if space c then lstrip l' else l | [] => [] end.

Definition strip (l : list Ascii.ascii) : list Ascii.ascii := rev (lstrip (rev (lstrip l))).

(** The value of a digit or letter. *)
Definition digit_value (c : Ascii.ascii) : option Z :=
  let n := Z.of_nat (Ascii.nat_of_ascii c) in
  if (48 <=? n) && (n <=? 57) then Some (n - 48)
  else if (97 <=? n) && (n <=? 122) then Some (n - 87)
  else if (65 <=? n) && (n <=? 90) then Some (n - 55)
  else None.

(** Digits, each underscore between two of them; [prev]: a digit came before. *)
Fixpoint digits (base : Z) (l : list Ascii.ascii) (acc : Z) (prev : bool) : option Z :=
  match l with
  | [] => if prev then Some acc else None
  | c :: l =>
      if Ascii.eqb c "_"%char then (if prev then digits base l acc false else None)
      else match digit_value c with
           | Some d => if d <? base then digits base l (acc * base + d) true else None
           | None => None
           end
  end.

(** One underscore may follow a prefix. *)
Definition after_prefix (l : list Ascii.ascii) : list Ascii.ascii :=
  match l with "_"%char :: l' => l' | _ => l end.

(** An unsigned literal; base 0 reads the base off the prefix, and then a decimal
    literal other than zero has no leading zero. *)
Definition unsigned (base : Z) (l : list Ascii.ascii) : option Z :=
  match l with
  | "0"%char :: c :: l' =>
      let either (lo up : Ascii.ascii) := Ascii.eqb c lo || Ascii.eqb c up in
      if either "x"%char "X"%char && ((base =? 0) || (base =? 16))
      then digits 16 (after_prefix l') 0 false
      else if either "o"%char "O"%char && (base =? 0) then digits 8 (after_prefix l') 0 false
      else if either "b"%char "B"%char && (base =? 0) then digits 2 (after_prefix l') 0 false
      else if base =? 0 then
        match digits 10 l 0 false with Some 0 => Some 0 | _ => None end
      else digits base l 0 false
  | _ => digits (if base =? 0 then 10 else base) l 0 false
  end.

(** [int(s, base)] for the bases 0, 10 and 16. *)
Definition of_string (s : string) (base : Z) : result Z :=
  let parsed :=
    match strip (String.list_ascii_of_string s) with
    | "-"%char :: l => option_map Z.opp (unsigned base l)
    | "+"%char :: l => unsigned base l
    | l => unsigned base l
    end in
  match parsed with
  | Some n => Ok n
  | None => Raise (ValueError ("invalid literal for int() with base " +:+ pretty base +:+
                               ": '" +:+ s +:+ "'"))
  end.

(** [int(v)]. *)
Definition of_json (v : json) : result Z :=
  match v with
  | JBool b => Ok (to_int b)
  | JNum n => Ok n
  | JStr s => of_string s 10
  | JNull => Raise (TypeError ("int() argument must be a string, a bytes-like object " +:+
                               "or a real number, not 'NoneType'"))
  end.

(** [int(v, base)]. *)
Definition of_json_base (v : json) (base : Z) : result Z :=
  match v with
  | JStr s => of_string s base
  | _ => Raise (TypeError "int() can't convert non-string with explicit base")
  end.

End Int.

(** ** The loaded configuration *)

(** dut_config.py:34-37 (_VERSION_STRINGS) *)
Definition _VERSION_STRINGS : list (string * Z) :=
  [("0.13", DMSTATUS_VERSION_0_13); ("1.0", DMSTATUS_VERSION_1_0)].

(** The version a declared one stands for, if it is a known one. *)
Definition known_version (v : json) : option Z :=
  match v with
  | JStr s => option_map snd (List.find (fun kv => String.eqb s (fst kv)) _VERSION_STRINGS)
  | _ => None
  end.

Module DutConfig.

(** dut_config.py:45-57 (DutConfig attributes) *)
Record t := mk {
  dut : json;
  version : Z;
  authenticated : bool;
  impebreak : bool;
  hasresethaltreq : bool;
  supports_hartreset : bool;
  supports_hasel : bool;
  resumeack_reset : bool;
  stickyunavail : bool;
  havereset_poweron : bool;
  raw : Raw
}.

(** The number of harts is not declared: the other arguments of the constructor.
    dut_config.py:59-71 (predictor_kwargs) *)
Definition predictor_kwargs (num_harts : Z) (c : t) : Kwargs.t :=
  Kwargs.mk num_harts (version c) (authenticated c) (impebreak c) (hasresethaltreq c)
    (supports_hartreset c) (supports_hasel c) (resumeack_reset c) (stickyunavail c)
    (havereset_poweron c).

(** dut_config.py:83-85 (declared_config, num) *)
Definition num (r : Raw) (key : string) : result Z :=
  try v <- raw_get r key;;
  match v with JStr _ => Int.of_json_base v 0 | _ => Int.of_json v end.

(** dut_config.py:87-91 (declared_config, flags) *)
Definition flags : list string :=
  ["sba_enable"; "abstractauto_enable"; "hartarray_enable"; "authentication_enable";
   "haltgroups_enable"; "relaxedpriv_reset"; "progbuf_readable"; "haltsum_groups_present";
   "dataaccess"; "sbaccess_writable"; "sbaccess128"; "sbaccess64"; "sbaccess32";
   "sbaccess16"; "sbaccess8"].

(** dut_config.py:92-93 (declared_config, numbers) *)
Definition numbers : list string :=
  ["progbufsize"; "datacount"; "nscratch"; "datasize"; "dataaddr"; "sbversion"; "sbasize";
   "sbaccess_reset"; "nextdm"].

(** [{k: f(k) for k in keys}]. *)
Definition dict_of {A} (f : string -> result A) (keys : list string) : result (list (string * A)) :=
  fold_ok (fun d k => rmap (fun v => d ++ [(k, v)]) (f k)) [] keys.

(** Every argument of the constructor, in the order of its fields; a key of one of
    the two tuples is in the dictionary built from it.
    dut_config.py:94-99 (declared_config, the constructor call) *)
Definition construct (num_harts : Z) (c : t) (fs : list (string * bool))
    (ns : list (string * Z)) : DeclaredConfig.t :=
  let flag k := dict_get fs k false in
  let number k := dict_get ns k 0 in
  {| DeclaredConfig.sba_enable := flag "sba_enable";
     DeclaredConfig.abstractauto_enable := flag "abstractauto_enable";
     DeclaredConfig.hartarray_enable := flag "hartarray_enable";
     DeclaredConfig.authentication_enable := flag "authentication_enable";
     DeclaredConfig.haltgroups_enable := flag "haltgroups_enable";
     DeclaredConfig.progbuf_readable := flag "progbuf_readable";
     DeclaredConfig.haltsum_groups_present := flag "haltsum_groups_present";
     DeclaredConfig.num_harts := num_harts;
     DeclaredConfig.version := version c;
     DeclaredConfig.authenticated := authenticated c;
     DeclaredConfig.impebreak := impebreak c;
     DeclaredConfig.hasresethaltreq := hasresethaltreq c;
     DeclaredConfig.stickyunavail := stickyunavail c;
     DeclaredConfig.havereset_poweron := havereset_poweron c;
     DeclaredConfig.supports_hartreset := supports_hartreset c;
     DeclaredConfig.supports_hasel := supports_hasel c;
     DeclaredConfig.resumeack_reset := resumeack_reset c;
     DeclaredConfig.progbufsize := number "progbufsize";
     DeclaredConfig.datacount := number "datacount";
     DeclaredConfig.relaxedpriv_reset := flag "relaxedpriv_reset";
     DeclaredConfig.nscratch := number "nscratch";
     DeclaredConfig.dataaccess := flag "dataaccess";
     DeclaredConfig.datasize := number "datasize";
     DeclaredConfig.dataaddr := number "dataaddr";
     DeclaredConfig.sbversion := number "sbversion";
     DeclaredConfig.sbasize := number "sbasize";
     DeclaredConfig.sbaccess_reset := number "sbaccess_reset";
     DeclaredConfig.sbaccess_writable := flag "sbaccess_writable";
     DeclaredConfig.sbaccess128 := flag "sbaccess128";
     DeclaredConfig.sbaccess64 := flag "sbaccess64";
     DeclaredConfig.sbaccess32 := flag "sbaccess32";
     DeclaredConfig.sbaccess16 := flag "sbaccess16";
     DeclaredConfig.sbaccess8 := flag "sbaccess8";
     DeclaredConfig.nextdm := number "nextdm" |}.

(** dut_config.py:74-99 (declared_config) *)
Definition declared_config (num_harts : Z) (c : t) : result DeclaredConfig.t :=
  let r := raw c in
  try fs <- dict_of (fun k => rmap py_bool_of (raw_get r k)) flags;;
  try ns <- dict_of (num r) numbers;;
  Ok (construct num_harts c fs ns).

End DutConfig.

Section load.
(** [_CONFIG_DIR], and the parsed content of the JSON file at a path. *)
Context (_CONFIG_DIR : string) (read_json : string -> option (result Raw)).

(** [s.endswith(suffix)]. *)
Definition endswith (s suffix : string) : bool :=
  (String.length suffix <=? String.length s)%nat &&
  String.eqb suffix (String.substring (String.length s - String.length suffix)
                                      (String.length suffix) s).

(** [d / f]: an absolute [f] replaces [d]. *)
Definition path_join (d f : string) : string :=
  if String.prefix "/" f then f else d +:+ "/" +:+ f.

Definition config_path (name : string) : string :=
  if endswith name ".json" then name else path_join _CONFIG_DIR (name +:+ ".json").

(** [bool(raw[key])]. *)
Definition raw_flag (r : Raw) (key : string) : result bool := rmap py_bool_of (raw_get r key).

(** dut_config.py:102-134 (load_dut_config) *)
Definition load_dut_config (name : string) : result DutConfig.t :=
  let path := config_path name in
  match read_json path with
  | None => Raise (FileNotFoundError ("No DUT config declared at " +:+ path))
  | Some parsed =>
      try raw <- parsed;;
      try version_str <- raw_get raw "version";;
      match known_version version_str with
      | None =>
          Raise (ValueError (path +:+ ": unknown version " +:+ py_repr version_str +:+
                             " (expected one of ['0.13', '1.0'])"))
      | Some version =>
          try dut <- raw_get raw "dut";;
          try authenticated <- raw_flag raw "authenticated";;
          try impebreak <- raw_flag raw "impebreak";;
          try hasresethaltreq <- raw_flag raw "hasresethaltreq";;
          try supports_hartreset <- raw_flag raw "supports_hartreset";;
          try supports_hasel <- raw_flag raw "supports_hasel";;
          try resumeack_reset <- raw_flag raw "resumeack_reset";;
          try stickyunavail <- raw_flag raw "stickyunavail";;
          try havereset_poweron <- raw_flag raw "havereset_poweron";;
          Ok (DutConfig.mk dut version authenticated impebreak hasresethaltreq supports_hartreset
                supports_hasel resumeack_reset stickyunavail havereset_poweron raw)
      end
  end.

End load.

(** ** The shipped declarations, without their notes and their source line *)

(** dut_configs/cva6.json:1-41 (cva6) *)
Definition cva6_json : Raw :=
  list_to_map
    [("dut", JStr "cva6"); ("version", JStr "1.0"); ("authenticated", JBool true);
     ("impebreak", JBool false); ("hasresethaltreq", JBool false);
     ("supports_hartreset", JBool false); ("supports_hasel", JBool false);
     ("resumeack_reset", JBool false); ("stickyunavail", JBool true);
     ("havereset_poweron", JBool true); ("progbufsize", JNum 8); ("datacount", JNum 2);
     ("relaxedpriv_reset", JBool false); ("nscratch", JNum 2); ("dataaccess", JBool true);
     ("datasize", JNum 2); ("dataaddr", JStr "0x380"); ("nextdm", JStr "0x0");
     ("sbversion", JNum 1); ("sbasize", JNum 64); ("sbaccess_reset", JNum 3);
     ("sbaccess_writable", JBool false); ("sbaccess128", JBool false);
     ("sbaccess64", JBool true); ("sbaccess32", JBool false); ("sbaccess16", JBool false);
     ("sbaccess8", JBool false); ("sba_enable", JBool true);
     ("abstractauto_enable", JBool true); ("hartarray_enable", JBool false);
     ("authentication_enable", JBool false); ("haltgroups_enable", JBool false);
     ("progbuf_readable", JBool false); ("haltsum_groups_present", JBool true)].

(** dut_configs/ibex.json:1-41 (ibex) *)
Definition ibex_json : Raw :=
  list_to_map
    [("dut", JStr "ibex"); ("version", JStr "0.13"); ("authenticated", JBool true);
     ("impebreak", JBool false); ("hasresethaltreq", JBool false);
     ("supports_hartreset", JBool false); ("supports_hasel", JBool false);
     ("resumeack_reset", JBool false); ("stickyunavail", JBool false);
     ("havereset_poweron", JBool true); ("progbufsize", JNum 8); ("datacount", JNum 2);
     ("relaxedpriv_reset", JBool false); ("nscratch", JNum 2); ("dataaccess", JBool true);
     ("datasize", JNum 2); ("dataaddr", JStr "0x380"); ("nextdm", JStr "0x0");
     ("sbversion", JNum 1); ("sbasize", JNum 32); ("sbaccess_reset", JNum 2);
     ("sbaccess_writable", JBool true); ("sbaccess128", JBool false);
     ("sbaccess64", JBool false); ("sbaccess32", JBool true); ("sbaccess16", JBool true);
     ("sbaccess8", JBool true); ("sba_enable", JBool true); ("abstractauto_enable", JBool true);
     ("hartarray_enable", JBool false); ("authentication_enable", JBool false);
     ("haltgroups_enable", JBool false); ("progbuf_readable", JBool true);
     ("haltsum_groups_present", JBool true)].

(** dut_configs/multihart.json:1-42 (multihart) *)
Definition multihart_json : Raw :=
  list_to_map
    [("dut", JStr "multihart"); ("version", JStr "1.0"); ("authenticated", JBool true);
     ("impebreak", JBool false); ("hasresethaltreq", JBool false);
     ("supports_hartreset", JBool false); ("supports_hasel", JBool false);
     ("resumeack_reset", JBool false); ("stickyunavail", JBool true);
     ("havereset_poweron", JBool true); ("progbufsize", JNum 8); ("datacount", JNum 2);
     ("relaxedpriv_reset", JBool false); ("nscratch", JNum 2); ("dataaccess", JBool true);
     ("datasize", JNum 2); ("dataaddr", JStr "0x380"); ("nextdm", JStr "0x0");
     ("sbversion", JNum 1); ("sbasize", JNum 64); ("sbaccess_reset", JNum 3);
     ("sbaccess_writable", JBool false); ("sbaccess128", JBool false);
     ("sbaccess64", JBool true); ("sbaccess32", JBool false); ("sbaccess16", JBool false);
     ("sbaccess8", JBool false); ("sba_enable", JBool false);
     ("abstractauto_enable", JBool true); ("hartarray_enable", JBool true);
     ("authentication_enable", JBool false); ("haltgroups_enable", JBool true);
     ("progbuf_readable", JBool false); ("haltsum_groups_present", JBool true)].

(** The files of the configuration directory [d]. *)
Definition shipped (d path : string) : option (result Raw) :=
  let file name := path_join d (name +:+ ".json") in
  if String.eqb path (file "cva6") then Some (Ok cva6_json)
  else if String.eqb path (file "ibex") then Some (Ok ibex_json)
  else if String.eqb path (file "multihart") then Some (Ok multihart_json)
  else None.
