(* ===== verification/DutConfigSound.v ===== *)
(** What loading a declaration guarantees: which declarations are accepted, and
    that the two ways it reaches the model agree ([DutConfig], [Predictor]). *)

From S2P Require Import Prelude Registers Predictor DutConfig.

Local Open Scope string_scope.
Local Open Scope list_scope.
Local Open Scope Z_scope.

(** ** Dictionaries built key by key *)

Section dict_of.
Context {A : Type} (f : string -> result A).

Lemma dict_of_acc keys d :
  fold_ok (fun d k => rmap (fun v => d ++ [(k, v)]) (f k)) d keys =
  rmap (fun d' => d ++ d') (DutConfig.dict_of f keys).
Proof.
  unfold DutConfig.dict_of. revert d.
  induction keys as [|k keys IH]; intros d; cbn; [by rewrite app_nil_r|].
  destruct (f k) as [v|e]; [|done]. cbn. rewrite (IH (d ++ _)), (IH [(k, v)]).
  destruct (fold_ok _ [] keys); [|done]. cbn. by rewrite <-app_assoc.
Qed.

Lemma dict_of_cons k keys :
  DutConfig.dict_of f (k :: keys) =
  rbind (f k) (fun v => rmap (cons (k, v)) (DutConfig.dict_of f keys)).
Proof.
  unfold DutConfig.dict_of at 1. cbn. destruct (f k) as [v|e]; [|done]. cbn.
  by rewrite dict_of_acc.
Qed.

(** It is built when every key has a value, and then holds that value. *)
Lemma dict_of_ok keys :
  (exists d, DutConfig.dict_of f keys = Ok d) <-> Forall (fun k => exists v, f k = Ok v) keys.
Proof.
  induction keys as [|k keys IH]; [split; [constructor|by exists []]|].
  rewrite dict_of_cons, Forall_cons, <-IH. split.
  - intros [d Hd]. destruct (f k) as [v|e]; [|done]. cbn in Hd.
    destruct (DutConfig.dict_of f keys) as [d'|e]; [|done]. eauto.
  - intros [[v ->] [d ->]]. cbn. eauto.
Qed.

Lemma dict_of_lookup keys d k :
  DutConfig.dict_of f keys = Ok d -> k ∈ keys -> exists v, f k = Ok v /\ getitem d k = Ok v.
Proof.
  revert d. induction keys as [|k' keys IH]; intros d Hd Hk; [by apply elem_of_nil in Hk|].
  rewrite dict_of_cons in Hd. destruct (f k') as [v|e] eqn:Hf; [|done]. cbn in Hd.
  destruct (DutConfig.dict_of f keys) as [d'|e]; [|done]. cbn in Hd. apply Ok_inj in Hd as <-. cbn.
  destruct (String.eqb_spec k k') as [->|Hne]; [by exists v|].
  apply elem_of_cons in Hk as [->|Hk]; [done|]. by apply IH.
Qed.

(** The exception is that of the first key without a value. *)
Lemma dict_of_raises keys e :
  DutConfig.dict_of f keys = Raise e -> exists k, k ∈ keys /\ f k = Raise e.
Proof.
  induction keys as [|k keys IH]; [done|]. rewrite dict_of_cons. destruct (f k) as [v|e'] eqn:Hf.
  - cbn. destruct (DutConfig.dict_of f keys); [done|]. cbn. intros [= ->].
    destruct IH as (k' & Hk & He); [done|]. exists k'. split; [by right|done].
  - cbn. intros [= ->]. exists k. split; [by left|done].
Qed.

End dict_of.

(** ** What the model is told *)

(** The flag and the number a declaration gives a key. *)
Definition declares_flag (r : Raw) (k : string) (b : bool) : Prop :=
  exists v, r !! k = Some v /\ py_bool_of v = b.
Definition declares_number (r : Raw) (k : string) (n : Z) : Prop := DutConfig.num r k = Ok n.

Lemma raw_get_ok r k v : raw_get r k = Ok v <-> r !! k = Some v.
Proof. unfold raw_get. destruct (r !! k); split; congruence. Qed.

Lemma raw_flag_ok r k b : raw_flag r k = Ok b <-> declares_flag r k b.
Proof.
  unfold raw_flag, raw_get, declares_flag. destruct (r !! k) as [v|]; cbn.
  - split; [intros [= <-]; eauto|]. by intros (? & [= ->] & <-).
  - split; [done|]. by intros (? & ? & _).
Qed.

Section declared.
Context (n : Z) (c : DutConfig.t) (d : DeclaredConfig.t).
Context (Hd : DutConfig.declared_config n c = Ok d).

Lemma declared_dicts : exists fs ns,
  DutConfig.dict_of (raw_flag (DutConfig.raw c)) DutConfig.flags = Ok fs /\
  DutConfig.dict_of (DutConfig.num (DutConfig.raw c)) DutConfig.numbers = Ok ns /\
  d = DutConfig.construct n c fs ns.
Proof using Hd.
  pose proof Hd as Hx. clear Hd. unfold DutConfig.declared_config in Hx.
  change (fun k => rmap py_bool_of (raw_get (DutConfig.raw c) k))
    with (raw_flag (DutConfig.raw c)) in Hx.
  destruct (DutConfig.dict_of (raw_flag _) _) as [fs|]; [|done]. cbn [rbind] in Hx.
  destruct (DutConfig.dict_of (DutConfig.num _) _) as [ns|]; [|done]. cbn [rbind] in Hx.
  apply Ok_inj in Hx as <-. eauto.
Qed.

Lemma declared_flag k fs :
  DutConfig.dict_of (raw_flag (DutConfig.raw c)) DutConfig.flags = Ok fs ->
  k ∈ DutConfig.flags -> declares_flag (DutConfig.raw c) k (dict_get fs k false).
Proof using.
  intros Hf Hk. destruct (dict_of_lookup _ _ _ _ Hf Hk) as (v & Hv & Hg).
  apply raw_flag_ok. unfold dict_get. by rewrite Hg.
Qed.

Lemma declared_number k ns :
  DutConfig.dict_of (DutConfig.num (DutConfig.raw c)) DutConfig.numbers = Ok ns ->
  k ∈ DutConfig.numbers -> declares_number (DutConfig.raw c) k (dict_get ns k 0).
Proof using.
  intros Hf Hk. destruct (dict_of_lookup _ _ _ _ Hf Hk) as (v & Hv & Hg).
  unfold declares_number, dict_get. by rewrite Hg.
Qed.

End declared.

(** Every declared value but the model's keyword arguments, as the configuration
    holds it. *)
Record declared_by (r : Raw) (d : DeclaredConfig.t) : Prop := {
  by_sba_enable : declares_flag r "sba_enable" (DeclaredConfig.sba_enable d);
  by_abstractauto : declares_flag r "abstractauto_enable" (DeclaredConfig.abstractauto_enable d);
  by_hartarray : declares_flag r "hartarray_enable" (DeclaredConfig.hartarray_enable d);
  by_authentication :
    declares_flag r "authentication_enable" (DeclaredConfig.authentication_enable d);
  by_haltgroups : declares_flag r "haltgroups_enable" (DeclaredConfig.haltgroups_enable d);
  by_relaxedpriv : declares_flag r "relaxedpriv_reset" (DeclaredConfig.relaxedpriv_reset d);
  by_progbuf_readable : declares_flag r "progbuf_readable" (DeclaredConfig.progbuf_readable d);
  by_haltsum_groups :
    declares_flag r "haltsum_groups_present" (DeclaredConfig.haltsum_groups_present d);
  by_dataaccess : declares_flag r "dataaccess" (DeclaredConfig.dataaccess d);
  by_sbaccess_writable : declares_flag r "sbaccess_writable" (DeclaredConfig.sbaccess_writable d);
  by_sbaccess128 : declares_flag r "sbaccess128" (DeclaredConfig.sbaccess128 d);
  by_sbaccess64 : declares_flag r "sbaccess64" (DeclaredConfig.sbaccess64 d);
  by_sbaccess32 : declares_flag r "sbaccess32" (DeclaredConfig.sbaccess32 d);
  by_sbaccess16 : declares_flag r "sbaccess16" (DeclaredConfig.sbaccess16 d);
  by_sbaccess8 : declares_flag r "sbaccess8" (DeclaredConfig.sbaccess8 d);
  by_progbufsize : declares_number r "progbufsize" (DeclaredConfig.progbufsize d);
  by_datacount : declares_number r "datacount" (DeclaredConfig.datacount d);
  by_nscratch : declares_number r "nscratch" (DeclaredConfig.nscratch d);
  by_datasize : declares_number r "datasize" (DeclaredConfig.datasize d);
  by_dataaddr : declares_number r "dataaddr" (DeclaredConfig.dataaddr d);
  by_sbversion : declares_number r "sbversion" (DeclaredConfig.sbversion d);
  by_sbasize : declares_number r "sbasize" (DeclaredConfig.sbasize d);
  by_sbaccess : declares_number r "sbaccess_reset" (DeclaredConfig.sbaccess_reset d);
  by_nextdm : declares_number r "nextdm" (DeclaredConfig.nextdm d)
}.

Lemma declared_config_by n c d :
  DutConfig.declared_config n c = Ok d -> declared_by (DutConfig.raw c) d.
Proof.
  intros Hd. destruct (declared_dicts n c d Hd) as (fs & ns & Hf & Hn & ->).
  split; cbn; first [apply (declared_flag _ _ _ Hf) | apply (declared_number _ _ _ Hn)]; in_list.
Qed.

(** The keys [load_dut_config] reads itself. *)
Definition loaded_flags : list string :=
  ["authenticated"; "impebreak"; "hasresethaltreq"; "supports_hartreset"; "supports_hasel";
   "resumeack_reset"; "stickyunavail"; "havereset_poweron"].

Lemma rbind_assoc {A B C} (m : result A) (f : A -> result B) (g : B -> result C) :
  rbind (rbind m f) g = rbind m (fun a => rbind (f a) g).
Proof. by destruct m. Qed.

(** One key that is read for its truth value. *)
Lemma ok_flag {A} r k (f : bool -> result A) (P : Prop) :
  (forall b, is_ok (f b) = true <-> P) ->
  is_ok (rbind (raw_flag r k) f) = true <-> is_Some (r !! k) /\ P.
Proof.
  intros Hf. unfold raw_flag, raw_get. destruct (r !! k) as [v|]; cbn; [rewrite Hf|].
  - split; [by eauto|tauto].
  - split; [done|]. by intros [[? ?] _].
Qed.

Lemma Forall_is_Some (r : Raw) keys :
  Forall (fun k => exists b, raw_flag r k = Ok b) keys <-> Forall (fun k => is_Some (r !! k)) keys.
Proof.
  apply Forall_proper; [|done]. intros k. unfold raw_flag, raw_get. destruct (r !! k) as [v|]; cbn.
  - split; eauto.
  - split; [by intros [? ?]|by intros [? ?]].
Qed.

Lemma declared_config_ok n c :
  is_ok (DutConfig.declared_config n c) = true <->
  Forall (fun k => is_Some (DutConfig.raw c !! k)) DutConfig.flags /\
  Forall (fun k => exists m, DutConfig.num (DutConfig.raw c) k = Ok m) DutConfig.numbers.
Proof.
  rewrite <-Forall_is_Some, <-!dict_of_ok. unfold DutConfig.declared_config.
  change (fun k => rmap py_bool_of (raw_get (DutConfig.raw c) k)) with (raw_flag (DutConfig.raw c)).
  destruct (DutConfig.dict_of (raw_flag (DutConfig.raw c)) DutConfig.flags) as [fs|];
    [|split; [done|by intros [[? ?] _]]].
  destruct (DutConfig.dict_of (DutConfig.num (DutConfig.raw c)) DutConfig.numbers) as [ns|].
  - split; eauto.
  - split; [done|by intros [_ [? ?]]].
Qed.

Section loading.
Context (dir : string) (files : string -> option (result Raw)).

End loading.

(** The state of a hart after a power-on reset depends on two attributes only. *)
Lemma harts_power_on p :
  DMPredictor.harts (DMPredictor.reset_dm true p) =
  map (fun _ : nat => HartState.default
         <| HartState.resume_ack := DMPredictor.resumeack_reset p |>
         <| HartState.havereset := DMPredictor.havereset_poweron p |>)
      (seq 0 (Z.to_nat (Z.max (DMPredictor.num_harts p) 1))).
Proof. reflexivity. Qed.

(** The two ways a declaration reaches the model agree: constructing the model
    from the keyword arguments and then applying the whole declared configuration
    changes no attribute the constructor set, leaves every hart in its power-on
    state, and gives the model each declared flag and number. *)
Theorem declaration_agrees (dir name : string) (files : string -> option (result Raw)) n c d :
  load_dut_config dir files name = Ok c -> DutConfig.declared_config n c = Ok d ->
  let p := DMPredictor.init (DutConfig.predictor_kwargs n c) in
  let q := DMPredictor.set_config d p in
  DMPredictor.num_harts q = n /\
  DMPredictor.version q = DMPredictor.version p /\
  DMPredictor.authenticated q = DMPredictor.authenticated p /\
  DMPredictor.impebreak q = DMPredictor.impebreak p /\
  DMPredictor.hasresethaltreq q = DMPredictor.hasresethaltreq p /\
  DMPredictor.supports_hartreset q = DMPredictor.supports_hartreset p /\
  DMPredictor.supports_hasel q = DMPredictor.supports_hasel p /\
  DMPredictor.resumeack_reset q = DMPredictor.resumeack_reset p /\
  DMPredictor.stickyunavail q = DMPredictor.stickyunavail p /\
  DMPredictor.havereset_poweron q = DMPredictor.havereset_poweron p /\
  DMPredictor.harts q = DMPredictor.harts p /\
  DMPredictor.cfg q = d /\ DMPredictor.cfg_valid q = true /\
  declared_by (DutConfig.raw c) (DMPredictor.cfg q).
Proof.
  intros _ Hd. pose proof (declared_config_by n c d Hd) as Hby.
  destruct (declared_dicts n c d Hd) as (fs & ns & _ & _ & He). cbn zeta.
  assert (DeclaredConfig.num_harts d = n /\
    DeclaredConfig.version d = DutConfig.version c /\
    DeclaredConfig.authenticated d = DutConfig.authenticated c /\
    DeclaredConfig.impebreak d = DutConfig.impebreak c /\
    DeclaredConfig.hasresethaltreq d = DutConfig.hasresethaltreq c /\
    DeclaredConfig.supports_hartreset d = DutConfig.supports_hartreset c /\
    DeclaredConfig.supports_hasel d = DutConfig.supports_hasel c /\
    DeclaredConfig.resumeack_reset d = DutConfig.resumeack_reset c /\
    DeclaredConfig.stickyunavail d = DutConfig.stickyunavail c /\
    DeclaredConfig.havereset_poweron d = DutConfig.havereset_poweron c)
    as (E1 & E2 & E3 & E4 & E5 & E6 & E7 & E8 & E9 & E10) by (subst d; by split_and!).
  clear He Hd. split_and!; first [exact Hby | unfold DMPredictor.set_config, DMPredictor.init].
  all: rewrite ?harts_power_on; cbn -[seq Z.to_nat Z.max]; rewrite ?E1, ?E8, ?E10; congruence.
Qed.

Lemma declaration_agrees_witness :
  exists c d,
    load_dut_config "d" (shipped "d") "cva6" = Ok c /\ DutConfig.declared_config 2 c = Ok d /\
    let q := DMPredictor.set_config d (DMPredictor.init (DutConfig.predictor_kwargs 2 c)) in
    DMPredictor.num_harts q = 2 /\ declared_by (DutConfig.raw c) (DMPredictor.cfg q).
Proof.
  eexists _, _. split; [reflexivity|]. split; [vm_compute; reflexivity|].
  pose proof (declaration_agrees "d" "cva6" (shipped "d") 2 _ _ eq_refl ltac:(vm_compute; reflexivity)) as H.
  cbn zeta in *. split; apply H.
Defined.
