(* ===== verification/ResetValues.v ===== *)
(** The reset-values sequence: [sequences/reset_values_sequence.py].

    The JTAG register dtmcs is not a DMI register: a transport that can read it
    passes its accessor, the parameter [dtmcs]. *)

From S2P Require Import Prelude Registers Predictor Transport RiscvDm Session Sequences DutConfig.
Import RISCVDebug.

Local Open Scope string_scope.
Local Open Scope list_scope.
Local Open Scope Z_scope.
Local Open Scope prog_scope.

(** A value computed by the closure of a step. *)
Definition lift {A} (r : result A) : M A :=
  match r with Ok a => Ret a | Raise e => Throw e end.

(** [range(v)]. *)
Definition as_index (v : json) : result Z :=
  match v with
  | JBool b => Ok (to_int b)
  | JNum n => Ok n
  | _ => Raise (TypeError ("'" +:+ type_name v +:+ "' object cannot be interpreted as an integer"))
  end.

(** [n == v] of an integer and a declared value. *)
Definition json_is (v : json) (n : Z) : bool :=
  match v with JBool b => to_int b =? n | JNum m => m =? n | _ => false end.

(** A dictionary display, its values in the order they are evaluated. *)
Definition dict_lit (l : list (string * result json)) : result (gmap string json) :=
  fold_ok (fun d kv => rmap (fun v => <[fst kv := v]> d) (snd kv)) ∅ l.

Module ResetValues.

(** reset_values_sequence.py:56-71 (SBCS_FIELDS) *)
Definition SBCS_FIELDS : list (string * Z * Z) :=
  [("sbversion", 29, 3); ("sbbusyerror", 22, 1); ("sbbusy", 21, 1); ("sbreadonaddr", 20, 1);
   ("sbaccess", 17, 3); ("sbautoincrement", 16, 1); ("sbreadondata", 15, 1); ("sberror", 12, 3);
   ("sbasize", 5, 7); ("sbaccess128", 4, 1); ("sbaccess64", 3, 1); ("sbaccess32", 2, 1);
   ("sbaccess16", 1, 1); ("sbaccess8", 0, 1)].

(** reset_values_sequence.py:74-76 (DTMCS_FIELDS) *)
Definition DTMCS_FIELDS : list (string * Z * Z) :=
  [("dmihardreset", 17, 1); ("dmireset", 16, 1); ("idle", 12, 3); ("dmistat", 10, 2);
   ("abits", 4, 6); ("version", 0, 4)].

(** reset_values_sequence.py:79-79 (SBCS .. SBDATA3) *)
Definition SBCS : Z := 0x38.
Definition SBADDRESS0 : Z := 0x39.
Definition SBADDRESS3 : Z := 0x37.
Definition SBDATA0 : Z := 0x3C.
Definition SBDATA3 : Z := 0x3F.

(** [(word >> lsb) & ((1 << width) - 1)]. *)
Definition slice (word lsb width : Z) : Z := Z.land (Z.shiftr word lsb) (Z.shiftl 1 width - 1).

(** reset_values_sequence.py:82-96 (_diff) *)
Definition _diff (expected : gmap string json) (word : Z) (fields : list (string * Z * Z))
    : list string :=
  flat_map (fun '(name, lsb, width) =>
    match expected !! name with
    | None => []
    | Some v =>
        let got := slice word lsb width in
        if json_is v got then []
        else [name +:+ "=" +:+ pretty got +:+ " (expect " +:+ py_str v +:+ ")"]
    end) fields.

(** reset_values_sequence.py:99-100 (_register_fields) *)
Definition _register_fields (reg : Register.t) : list (string * Z * Z) :=
  map (fun f => (Field.name f, Field.lsb f, Field.width f)) (Register.fields reg).

Definition empty {A} (l : list A) : bool := match l with [] => true | _ => false end.

(** ["OK" if not bad else "MISMATCH: " + ", ".join(bad)], and its variant for a list
    of registers that should read zero. *)
Definition verdict (bad : list string) : string :=
  if empty bad then "OK" else "MISMATCH: " +:+ String.concat ", " bad.
Definition zero_verdict (bad : list string) (note : string) : string :=
  if empty bad then "all zero" else "non-zero: " +:+ String.concat ", " bad +:+ note.

(** reset_values_sequence.py:124-127 (dm_reset) *)
Definition dm_reset : M StepResult.t :=
  wr (Register.address DMCONTROL)
     (dmcontrol (DmcontrolArgs.default <| DmcontrolArgs.dmactive := false |>));;;
  wr (Register.address DMCONTROL)
     (dmcontrol (DmcontrolArgs.default <| DmcontrolArgs.dmactive := true |>));;;
  report true "DM reset: dmactive 0 -> 1, nothing else written".

(** The fields with a reset value, and 0 for those that always read 0.
    reset_values_sequence.py:133-137 (rst_030, expected) *)
Definition dmcontrol_expected : gmap string json :=
  let named f := String.eqb (Field.name f) "dmactive" in
  let base :=
    map (fun f => (Field.name f, JNum (if named f then 1 else default 0 (Field.reset f))))
        (List.filter (fun f => bool_decide (is_Some (Field.reset f)) || named f)
                     (Register.fields DMCONTROL)) in
  let zeros := map (fun f => (Field.name f, JNum 0))
                   (List.filter Field.reads_zero (Register.fields DMCONTROL)) in
  list_to_map zeros ∪ list_to_map base.

(** reset_values_sequence.py:131-142 (rst_030) *)
Definition rst_030 : M StepResult.t :=
  do word <- rd (Register.address DMCONTROL);;
  let bad := _diff dmcontrol_expected word (_register_fields DMCONTROL) in
  report (empty bad)
    ("RST-030-C: dmcontrol=" +:+ py_hex 8 word +:+ " after reset  " +:+ verdict bad).

Section steps.
(** [load_dut_config(dut).raw] *)
Context (cfg : Raw).

(** [int(cfg[key])]. *)
Definition int_of (key : string) : result json :=
  try v <- raw_get cfg key;; rmap JNum (Int.of_json v).

(** [int(cfg[key], 16)]. *)
Definition hex_of (key : string) : result json :=
  try v <- raw_get cfg key;; rmap JNum (Int.of_json_base v 16).

(** reset_values_sequence.py:148-149 (rst_032, expected) *)
Definition hartinfo_expected : result (gmap string json) :=
  dict_lit [("nscratch", raw_get cfg "nscratch"); ("dataaccess", int_of "dataaccess");
            ("datasize", raw_get cfg "datasize"); ("dataaddr", hex_of "dataaddr")].

(** reset_values_sequence.py:146-154 (rst_032) *)
Definition rst_032 : M StepResult.t :=
  do word <- rd (Register.address HARTINFO);;
  do expected <- lift hartinfo_expected;;
  let bad := _diff expected word (_register_fields HARTINFO) in
  report (empty bad)
    ("RST-032-C: hartinfo=" +:+ py_hex 8 word +:+ " vs declared presets  " +:+ verdict bad).

(** reset_values_sequence.py:160-163 (rst_033, expected) *)
Definition abstractcs_expected : result (gmap string json) :=
  dict_lit [("busy", Ok (JNum 0)); ("cmderr", Ok (JNum 0));
            ("progbufsize", raw_get cfg "progbufsize"); ("datacount", raw_get cfg "datacount");
            ("relaxedpriv", int_of "relaxedpriv_reset")].

(** reset_values_sequence.py:158-168 (rst_033) *)
Definition rst_033 : M StepResult.t :=
  do word <- rd (Register.address ABSTRACTCS);;
  do expected <- lift abstractcs_expected;;
  let bad := _diff expected word (_register_fields ABSTRACTCS) in
  report (empty bad)
    ("RST-033-C: abstractcs=" +:+ py_hex 8 word +:+ "  " +:+ verdict bad).

(** reset_values_sequence.py:172-177 (rst_034) *)
Definition rst_034 : M StepResult.t :=
  do word <- rd (Register.address COMMAND);;
  report (word =? 0)
    ("RST-034-C: command=" +:+ py_hex 8 word +:+ " (WARZ, reads 0)  " +:+
     (if word =? 0 then "OK" else "MISMATCH")).

(** reset_values_sequence.py:180-185 (rst_035) *)
Definition rst_035 : M StepResult.t :=
  do word <- rd (Register.address ABSTRACTAUTO);;
  report (word =? 0)
    ("RST-035-C: abstractauto=" +:+ py_hex 8 word +:+ "  " +:+
     (if word =? 0 then "OK" else "MISMATCH, expect 0")).

(** [[_reg(address(i)) for i in l]]. *)
Fixpoint read_each (address : Z -> result Z) (l : list Z) : M (list Z) :=
  match l with
  | [] => Ret []
  | i :: l =>
      do a <- lift (address i);;
      do v <- rd a;;
      do vs <- read_each address l;;
      Ret (v :: vs)
  end.

(** [[f"{name}{i}=0x{v:08x}" for i, v in enumerate(vals) if v != 0]]. *)
Definition nonzero (name : string) (vals : list Z) : list string :=
  concat (imap (fun i v =>
    if v =? 0 then [] else [name +:+ pretty (Z.of_nat i) +:+ "=" +:+ py_hex 8 v]) vals).

(** reset_values_sequence.py:192-198 (rst_036) *)
Definition rst_036 : M StepResult.t :=
  do count <- lift (try v <- raw_get cfg "datacount";; as_index v);;
  do vals <- read_each data_address (py_range count);;
  let bad := nonzero "data" vals in
  report (empty bad)
    ("RST-036-C: data0.." +:+ pretty (count - 1) +:+ " after reset  " +:+ zero_verdict bad EmptyString).

(** reset_values_sequence.py:201-207 (rst_037) *)
Definition rst_037 : M StepResult.t :=
  do count <- lift (try v <- raw_get cfg "progbufsize";; as_index v);;
  do vals <- read_each progbuf_address (py_range count);;
  let bad := nonzero "progbuf" vals in
  report (empty bad)
    ("RST-037-C: progbuf0.." +:+ pretty (count - 1) +:+ " after reset  " +:+
     zero_verdict bad EmptyString).

(** reset_values_sequence.py:213-221 (rst_038, expected) *)
Definition sbcs_expected : result (gmap string json) :=
  dict_lit [("sbversion", raw_get cfg "sbversion"); ("sbbusy", Ok (JNum 0));
            ("sbbusyerror", Ok (JNum 0)); ("sberror", Ok (JNum 0));
            ("sbreadonaddr", Ok (JNum 0)); ("sbreadondata", Ok (JNum 0));
            ("sbautoincrement", Ok (JNum 0)); ("sbasize", raw_get cfg "sbasize");
            ("sbaccess", raw_get cfg "sbaccess_reset"); ("sbaccess128", int_of "sbaccess128");
            ("sbaccess64", int_of "sbaccess64"); ("sbaccess32", int_of "sbaccess32");
            ("sbaccess16", int_of "sbaccess16"); ("sbaccess8", int_of "sbaccess8")].

(** reset_values_sequence.py:211-226 (rst_038) *)
Definition rst_038 : M StepResult.t :=
  do word <- rd SBCS;;
  do expected <- lift sbcs_expected;;
  let bad := _diff expected word SBCS_FIELDS in
  report (empty bad)
    ("RST-038-C: sbcs=" +:+ py_hex 8 word +:+ ", first SBA access after reset  " +:+ verdict bad).

(** The registers that do not read zero, by name.
    reset_values_sequence.py:231-237 (rst_039, the loop) *)
Fixpoint nonzero_of (regs : list (Z * string)) : M (list string) :=
  match regs with
  | [] => Ret []
  | (addr, name) :: regs =>
      do word <- rd addr;;
      do bad <- nonzero_of regs;;
      Ret ((if word =? 0 then [] else [name +:+ "=" +:+ py_hex 8 word]) ++ bad)
  end.

(** [[(base + i, f"{name}{i}") for i in range(n)]]. *)
Definition numbered (base : Z) (name : string) (n : Z) : list (Z * string) :=
  map (fun i => (base + i, name +:+ pretty i)) (py_range n).

(** reset_values_sequence.py:230-241 (rst_039) *)
Definition rst_039 : M StepResult.t :=
  do bad <- nonzero_of (numbered SBADDRESS0 "sbaddress" 3 ++ [(SBADDRESS3, "sbaddress3")] ++
                        numbered SBDATA0 "sbdata" 4);;
  report (empty bad)
    ("RST-039-C: sbaddress0..3 / sbdata0..3 after reset  " +:+ zero_verdict bad EmptyString).

(** reset_values_sequence.py:245-255 (rst_040) *)
Definition rst_040 : M StepResult.t :=
  do bad <- nonzero_of (imap (fun level reg =>
              (Register.address reg, "haltsum" +:+ pretty (Z.of_nat level))) HALTSUM_LEVELS);;
  report (empty bad)
    ("RST-040-C: haltsum0..3 with no hart halted  " +:+ zero_verdict bad " (see RTL-007)").

(** reset_values_sequence.py:259-276 (rst_042) *)
Definition rst_042 : M StepResult.t :=
  do word <- rd NEXTDM;;
  do declared <- lift (raw_get cfg "nextdm");;
  do next <- lift (Int.of_json_base declared 16);;
  let bad := if word =? next then []
             else ["nextdm=" +:+ py_hex 8 word +:+ " (expect " +:+ py_str declared +:+ ")"] in
  do confstrptr <- nonzero_of (numbered CONFSTRPTR0 "confstrptr" 4);;
  do word <- rd AUTHDATA;;
  do authdata <- (if word =? 0 then Ret []
                  else
                    do auth <- lift (raw_flag cfg "authentication_enable");;
                    Ret (if auth then []
                         else ["authdata=" +:+ py_hex 8 word +:+
                               " with authentication not implemented"]));;
  let bad := bad ++ confstrptr ++ authdata in
  report (empty bad)
    ("RST-042-C: nextdm / confstrptr0..3 / authdata  " +:+ verdict bad).

End steps.

Section session.
Context {T : Type} `{DebugTransport T} `{Clock}.
(** [dm.t.dtmcs], of a transport that has it. *)
Context (dtmcs : option (W T -> W T * result Z)).

(** [" ".join(f"{n}={(word >> l) & ((1 << w) - 1)}" for n, l, w in DTMCS_FIELDS)]. *)
Definition decoded (word : Z) : string :=
  String.concat " " (map (fun '(n, l, w) => n +:+ "=" +:+ pretty (slice word l w)) DTMCS_FIELDS).

(** reset_values_sequence.py:283-296 (rst_043) *)
Definition rst_043 : DebugSession.step (W T) := fun w =>
  match dtmcs with
  | None =>
      result_step (report true "RST-043-C: N/A -- this transport has no dtmcs access") w
  | Some read =>
      match read w with
      | (w, Raise e) => (w, Raised e)
      | (w, Ok word) =>
          let bad := _diff (list_to_map [("dmistat", JNum 0); ("dmireset", JNum 0);
                                         ("dmihardreset", JNum 0)]) word DTMCS_FIELDS in
          result_step (report (empty bad)
            ("RST-043-C: dtmcs=" +:+ py_hex 8 word +:+ " (" +:+ decoded word +:+ ")  " +:+
             verdict bad)) w
      end
  end.

(** reset_values_sequence.py:103-299 (build_reset_values_sequence) *)
Definition build (load : string -> result DutConfig.t) (mode dut : string)
    : result (DebugSession.t (W T)) :=
  try session <- DebugSession.init mode false;;
  try config <- load dut;;
  let cfg := DutConfig.raw config in
  let add name step session := DebugSession.add_step name step session in
  let session := add "Reset the Debug Module" (result_step dm_reset) session in
  let session := add "RST-030-C: dmcontrol reset value" (result_step rst_030) session in
  let session := add "RST-032-C: hartinfo presets" (result_step (rst_032 cfg)) session in
  let session := add "RST-033-C: abstractcs reset value" (result_step (rst_033 cfg)) session in
  let session := add "RST-034-C: command reads zero" (result_step rst_034) session in
  let session := add "RST-035-C: abstractauto reset value" (result_step rst_035) session in
  let session := add "RST-036-C: data registers after reset" (result_step (rst_036 cfg)) session in
  let session := add "RST-037-C: program buffer after reset" (result_step (rst_037 cfg)) session in
  let session := add "RST-038-C: sbcs reset value" (result_step (rst_038 cfg)) session in
  let session := add "RST-039-C: SBA address/data after reset" (result_step rst_039) session in
  let session := add "RST-040-C: halt summaries with nothing halted" (result_step rst_040) session in
  let session := add "RST-042-C: nextdm and confstrptr" (result_step (rst_042 cfg)) session in
  let session := add "RST-043-C: dtmcs reset value" rst_043 session in
  Ok session.

End session.

End ResetValues.
