(* ===== verification/ResetValuesSound.v ===== *)
(** The reset-values sequence on the golden-reference model: it passes on a model
    configured with the declaration it checks, when the declaration describes
    what the model predicts ([ResetValues], [DutConfig], [Predictor]). *)

From S2P Require Import Prelude Registers Predictor RunControl ReadBack Transport RiscvDm RiscvDmSound.
From S2P Require Import Session Sequences Expectation SequencesSound DutConfig DutConfigSound ResetValues.
Import RISCVDebug ResetValues.

Local Open Scope string_scope.
Local Open Scope list_scope.
Local Open Scope Z_scope.
Local Open Scope prog_scope.

(** ** Slices of packed words *)

Lemma slice_lor a b l k : slice (Z.lor a b) l k = Z.lor (slice a l k) (slice b l k).
Proof. unfold slice. by rewrite Z.shiftr_lor, Z.land_lor_distr_l. Qed.

Lemma slice_0 l k : slice 0 l k = 0.
Proof. unfold slice. by rewrite Z.shiftr_0_l, Z.land_0_l. Qed.

(** A piece of [m] bits at [s] is seen by its own slice and by no disjoint one. *)
Lemma slice_here a s k : 0 <= s -> 0 <= k -> 0 <= a < 2 ^ k -> slice (Z.shiftl a s) s k = a.
Proof.
  intros Hs Hk Ha. unfold slice.
  rewrite Z.shiftr_shiftl_l, Z.sub_diag, Z.shiftl_0_r, ones_shiftl, Z.land_ones by lia.
  by apply Z.mod_small.
Qed.

Lemma slice_apart a s m l k :
  0 <= a < 2 ^ m -> 0 <= m -> 0 <= s -> 0 <= l -> 0 <= k -> s + m <= l \/ l + k <= s ->
  slice (Z.shiftl a s) l k = 0.
Proof.
  intros Ha Hm Hs Hl Hk Hd. unfold slice. apply Z.bits_inj'. intros i Hi.
  rewrite Z.land_spec, Z.shiftr_spec, ones_shiftl, testbit_ones, Z.bits_0 by lia.
  rewrite Z.shiftl_spec by lia. destruct (Z.ltb_spec i k); [|apply andb_false_r].
  rewrite andb_true_r. destruct Hd as [Hd|Hd].
  - apply (bounded_bits m); lia.
  - apply Z.testbit_neg_r. lia.
Qed.

Lemma land_small v m k : 0 <= k -> m = Z.ones k -> 0 <= v < 2 ^ k -> Z.land v m = v.
Proof. intros Hk -> Hv. rewrite Z.land_ones by done. by apply Z.mod_small. Qed.

(** ** Comparisons *)

(** The declared value of a field agrees with the word. *)
Definition agrees (expected : gmap string json) (word : Z) (f : string * Z * Z) : Prop :=
  let '(name, lsb, width) := f in
  forall v, expected !! name = Some v -> json_is v (slice word lsb width) = true.

Lemma diff_nil expected word fields :
  Forall (agrees expected word) fields -> _diff expected word fields = [].
Proof.
  induction 1 as [|[[name lsb] width] fields Hf _ IH]; [done|].
  unfold _diff in *. cbn [flat_map]. rewrite IH, app_nil_r.
  destruct (expected !! name) as [v|] eqn:He; [|done]. by rewrite (Hf v He).
Qed.

Lemma dict_lit_cons l d k v :
  fold_ok (fun d kv => rmap (fun v => <[fst kv := v]> d) (snd kv)) d ((k, Ok v) :: l) =
  fold_ok (fun (d : gmap string json) kv => rmap (fun v => <[fst kv := v]> d) (snd kv)) (<[k := v]> d) l.
Proof. reflexivity. Qed.

(** ** The model after the DM reset *)

(** Every register the sequence reads is at its reset value. *)
Record fresh (c : DeclaredConfig.t) (p : DMPredictor.t) : Prop := {
  fresh_cfg : DMPredictor.cfg p = c;
  fresh_valid : DMPredictor.cfg_valid p = true;
  fresh_dmactive : DMPredictor.dmactive p = true;
  fresh_ndmreset : DMPredictor.ndmreset p = false;
  fresh_hartsel : DMPredictor.hartsel p = 0;
  fresh_hasel : DMPredictor.hasel p = false;
  fresh_level : DMPredictor._hartreset_level p = false;
  fresh_regs : exists q, erase_run p = erase_run (DMPredictor._reset_declared_regs q) /\ DMPredictor.cfg q = c;
  fresh_harts : forall h, h ∈ DMPredictor.harts p -> HartState.halted h = false
}.

Definition dm_off : DmcontrolArgs.t := DmcontrolArgs.default <| DmcontrolArgs.dmactive := false |>.
Definition dm_on : DmcontrolArgs.t := DmcontrolArgs.default <| DmcontrolArgs.dmactive := true |>.

(** The word that only sets dmactive halts no hart outside reset. *)
Lemma hart_after_quiet p i sel h :
  DMPredictor.ndmreset p = false -> DMPredictor._hartreset_level p = false ->
  HartState.halted h = false -> HartState.halted (hart_after p (dmcontrol dm_on) i sel h) = false.
Proof.
  intros Hn Hl Hh. unfold hart_after. rewrite Hn, Hl. change (dmcontrol dm_on) with 1.
  unfold run_hart, acks_hart.
  repeat match goal with |- context [Z.testbit 1 (Zpos ?k)] =>
    change (Z.testbit 1 (Zpos k)) with false end.
  generalize (DMPredictor._is_nonexistent p (Z.of_nat i)) (step_armed p)
    (DMPredictor.hasresethaltreq p). intros x y z.
  destruct h as [hr ra rh rst hd rn hv av us nx]. cbn in Hh. subst.
  by destruct sel, x, z, rst, av, us.
Qed.

Lemma erase_reset_dm p :
  erase_run (DMPredictor.reset_dm false p) = erase_run (DMPredictor._reset_declared_regs p).
Proof. reflexivity. Qed.

Lemma harts_set l p : DMPredictor.harts (p <| DMPredictor.harts := l |>) = l.
Proof. reflexivity. Qed.

Lemma harts_reset_dm b p : exists q,
  DMPredictor.harts (DMPredictor.reset_dm b p) =
  map (DMPredictor.reset_hart q b (DMPredictor.harts p))
      (seq 0 (Z.to_nat (Z.max (DMPredictor.num_harts q) 1))).
Proof. unfold DMPredictor.reset_dm. cbv zeta. rewrite harts_set. by eexists. Qed.

Lemma halted_reset_hart q l i :
  HartState.halted (DMPredictor.reset_hart q false l i) =
  match l !! i with Some h => HartState.halted h | None => false end.
Proof. reflexivity. Qed.

(** A DM reset halts no hart. *)
Lemma reset_dm_quiet p h :
  (forall h, h ∈ DMPredictor.harts p -> HartState.halted h = false) ->
  h ∈ DMPredictor.harts (DMPredictor.reset_dm false p) -> HartState.halted h = false.
Proof.
  intros Hh Hin. destruct (harts_reset_dm false p) as [q Hq]. rewrite Hq in Hin.
  apply list_elem_of_fmap in Hin as (j & -> & _). rewrite halted_reset_hart.
  destruct (DMPredictor.harts p !! j) as [h|] eqn:Hj; [|done].
  apply Hh. by apply list_elem_of_lookup_2 in Hj.
Qed.

(** Switching the DM off and on leaves it fresh, when no hart is halted. *)
Lemma reset_fresh c p :
  DMPredictor.cfg p = c -> DMPredictor.cfg_valid p = true ->
  (forall h, h ∈ DMPredictor.harts p -> HartState.halted h = false) ->
  fresh c (DMPredictor.on_write (Register.address DMCONTROL) (dmcontrol dm_on)
             (DMPredictor.on_write (Register.address DMCONTROL) (dmcontrol dm_off) p)).
Proof.
  intros Hc Hv Hh. rewrite (dmcontrol_dmactive_0 (dmcontrol dm_off)) by reflexivity.
  assert (Z.testbit (dmcontrol dm_on) 0 = true) as Hon by reflexivity.
  assert (DMPredictor.ndmreset (DMPredictor.reset_dm false p) = false /\
    DMPredictor._hartreset_level (DMPredictor.reset_dm false p) = false /\
    DMPredictor.supports_hasel (DMPredictor.reset_dm false p) = DMPredictor.supports_hasel p)
    as (N1 & N2 & N3) by done.
  pose proof (reset_dm_quiet p) as Hq. pose proof (erase_reset_dm p) as He.
  generalize dependent (DMPredictor.reset_dm false p). intros p0 N1 N2 N3 Hq He.
  pose proof (dmcontrol_frame (dmcontrol dm_on) p0 Hon) as D.
  pose proof (fun i => dmcontrol_hart (dmcontrol dm_on) p0 i Hon) as Hi.
  cbn zeta in D. generalize dependent (DMPredictor.on_write (Register.address DMCONTROL) (dmcontrol dm_on) p0).
  intros q (D1 & D2 & D3 & D4 & D5 & _ & De) Hi. rewrite He in De.
  split; try assumption.
  - rewrite <-Hc. exact (f_equal DMPredictor.cfg De).
  - rewrite <-Hv. exact (f_equal DMPredictor.cfg_valid De).
  - rewrite D4. apply andb_false_r.
  - exists p. by split.
  - intros h Hin. apply list_elem_of_lookup in Hin as [i Hl]. rewrite Hi in Hl.
    destruct (DMPredictor.harts p0 !! i) as [h0|] eqn:H0; [|done].
    cbn [fmap option_fmap option_map] in Hl. injection Hl as <-. apply hart_after_quiet; [done..|].
    apply (Hq h0 Hh). by apply list_elem_of_lookup_2 in H0.
Qed.

(** What the DM reset leaves in the registers that are read. *)
Lemma fresh_read c p : fresh c p ->
  DMPredictor.abstractauto p = 0 /\ DMPredictor.sbreadonaddr p = false /\
  DMPredictor.sbaccess p = DeclaredConfig.sbaccess_reset c /\
  DMPredictor.sbautoincrement p = false /\ DMPredictor.sbreadondata p = false /\
  DMPredictor.relaxedpriv p = DeclaredConfig.relaxedpriv_reset c /\
  DMPredictor.data0_pending_valid p = true /\ DMPredictor.data0_pending_value p = 0 /\
  DMPredictor.data_q p = replicate 12 0 /\ DMPredictor.data_known p = replicate 12 true /\
  DMPredictor.progbuf_q p = replicate 16 0 /\
  DMPredictor.sbaddress0 p = 0 /\ DMPredictor.sbaddress1 p = 0 /\
  DMPredictor.sbdata0_pending_valid p = true /\ DMPredictor.sbdata0_pending_value p = 0 /\
  DMPredictor.sbdata1 p = 0 /\ DMPredictor.sbdata1_known p = true.
Proof.
  intros [_ _ _ _ _ _ _ (q & He & <-) _].
  split_and!; match goal with |- ?f p = _ => exact (f_equal f He) end.
Qed.

(** ** Declarations that describe what the model predicts *)

(** An integer below [m], a boolean, and a literal below [m] that reads the same
    with and without its prefix deciding the base. *)
Definition small (r : Raw) (k : string) (m : Z) : bool :=
  match r !! k with Some (JNum n) => (0 <=? n) && (n <? m) | _ => false end.
Definition boolean (r : Raw) (k : string) : bool :=
  match r !! k with Some (JBool _) => true | _ => false end.
Definition literal (r : Raw) (k : string) (m : Z) : bool :=
  match r !! k with
  | Some (JStr s) =>
      match Int.of_string s 16, Int.of_string s 0 with
      | Ok a, Ok b => (a =? b) && (0 <=? a) && (a <? m)
      | _, _ => false
      end
  | _ => false
  end.
Definition flag_is (r : Raw) (k : string) (b : bool) : bool :=
  match r !! k with Some v => Bool.eqb (py_bool_of v) b | None => false end.

(** The presets fit their fields, System Bus Access is there with addresses and
    data of at most 64 bits, and authentication is not. *)
Definition well_declared (r : Raw) : bool :=
  small r "nscratch" (2 ^ 4) && small r "datasize" (2 ^ 4) && small r "progbufsize" 17 &&
  small r "datacount" 13 && small r "sbversion" (2 ^ 3) && small r "sbasize" 65 &&
  small r "sbaccess_reset" (2 ^ 3) && literal r "dataaddr" (2 ^ 12) && literal r "nextdm" (2 ^ 32) &&
  forallb (boolean r) ["dataaccess"; "relaxedpriv_reset"; "sbaccess128"; "sbaccess64"; "sbaccess32";
                       "sbaccess16"; "sbaccess8"] &&
  flag_is r "sba_enable" true && flag_is r "sbaccess128" false &&
  flag_is r "authentication_enable" false.

Lemma small_spec r k m n :
  small r k m = true -> declares_number r k n -> r !! k = Some (JNum n) /\ 0 <= n < m.
Proof.
  unfold small, declares_number, DutConfig.num, raw_get. destruct (r !! k) as [[| |x|]|]; try done.
  cbn. intros Hx Hn. apply Ok_inj in Hn as ->. zhyps. split; [done|lia].
Qed.

Lemma boolean_spec r k b : boolean r k = true -> declares_flag r k b -> r !! k = Some (JBool b).
Proof.
  unfold boolean, declares_flag. intros Hb (v & Hv & <-). rewrite Hv in *. by destruct v.
Qed.

Lemma literal_spec r k m n :
  literal r k m = true -> declares_number r k n ->
  exists s, r !! k = Some (JStr s) /\ Int.of_string s 16 = Ok n /\ 0 <= n < m.
Proof.
  unfold literal, declares_number, DutConfig.num, raw_get. destruct (r !! k) as [[| | |s]|]; try done.
  cbn [rbind Int.of_json_base]. intros Hx Hn. rewrite Hn in Hx. destruct (Int.of_string s 16) as [a|] eqn:Ha; [|done]. zhyps. subst.
  exists s. split_and!; [done|exact Ha|lia|lia].
Qed.

Lemma flag_is_spec r k b b' : flag_is r k b = true -> declares_flag r k b' -> b' = b.
Proof.
  unfold flag_is, declares_flag. intros Hb (v & Hv & <-). rewrite Hv in Hb. by apply Bool.eqb_prop.
Qed.

(** What a well-declared configuration says of each key. *)
Record described (r : Raw) (c : DeclaredConfig.t) : Prop := {
  nscratch_is : r !! "nscratch" = Some (JNum (DeclaredConfig.nscratch c)) /\
    0 <= DeclaredConfig.nscratch c < 2 ^ 4;
  datasize_is : r !! "datasize" = Some (JNum (DeclaredConfig.datasize c)) /\
    0 <= DeclaredConfig.datasize c < 2 ^ 4;
  progbufsize_is : r !! "progbufsize" = Some (JNum (DeclaredConfig.progbufsize c)) /\
    0 <= DeclaredConfig.progbufsize c < 17;
  datacount_is : r !! "datacount" = Some (JNum (DeclaredConfig.datacount c)) /\
    0 <= DeclaredConfig.datacount c < 13;
  sbversion_is : r !! "sbversion" = Some (JNum (DeclaredConfig.sbversion c)) /\
    0 <= DeclaredConfig.sbversion c < 2 ^ 3;
  sbasize_is : r !! "sbasize" = Some (JNum (DeclaredConfig.sbasize c)) /\
    0 <= DeclaredConfig.sbasize c < 65;
  sbaccess_is : r !! "sbaccess_reset" = Some (JNum (DeclaredConfig.sbaccess_reset c)) /\
    0 <= DeclaredConfig.sbaccess_reset c < 2 ^ 3;
  dataaddr_is : exists s, r !! "dataaddr" = Some (JStr s) /\
    Int.of_string s 16 = Ok (DeclaredConfig.dataaddr c) /\ 0 <= DeclaredConfig.dataaddr c < 2 ^ 12;
  nextdm_is : exists s, r !! "nextdm" = Some (JStr s) /\
    Int.of_string s 16 = Ok (DeclaredConfig.nextdm c) /\ 0 <= DeclaredConfig.nextdm c < 2 ^ 32;
  dataaccess_is : r !! "dataaccess" = Some (JBool (DeclaredConfig.dataaccess c));
  relaxedpriv_is : r !! "relaxedpriv_reset" = Some (JBool (DeclaredConfig.relaxedpriv_reset c));
  sbaccess128_is : r !! "sbaccess128" = Some (JBool (DeclaredConfig.sbaccess128 c));
  sbaccess64_is : r !! "sbaccess64" = Some (JBool (DeclaredConfig.sbaccess64 c));
  sbaccess32_is : r !! "sbaccess32" = Some (JBool (DeclaredConfig.sbaccess32 c));
  sbaccess16_is : r !! "sbaccess16" = Some (JBool (DeclaredConfig.sbaccess16 c));
  sbaccess8_is : r !! "sbaccess8" = Some (JBool (DeclaredConfig.sbaccess8 c));
  sba_is_on : DeclaredConfig.sba_enable c = true;
  no_sbaccess128 : DeclaredConfig.sbaccess128 c = false;
  no_authentication : DeclaredConfig.authentication_enable c = false
}.

Lemma well_declared_spec r c : well_declared r = true -> declared_by r c -> described r c.
Proof.
  unfold well_declared. cbn [forallb]. rewrite !andb_true_iff. intros Hw [].
  decompose [and] Hw. split;
    first [by apply small_spec | by apply literal_spec | by apply boolean_spec
          | by apply (flag_is_spec r "sba_enable") | by apply (flag_is_spec r "sbaccess128")
          | by apply (flag_is_spec r "authentication_enable")].
Qed.

(** ** The steps on the fresh model *)

(** A closure that leaves the fresh model as it is and passes. *)
Definition keeps_fresh `{Clock} (c : DeclaredConfig.t) (e : M StepResult.t) : Prop :=
  forall p s now, fresh c p ->
  expects e p s now (fun r q _ _ => fresh c q /\ StepResult.ok r = true).

Lemma expects_lift `{Clock} {A} (a : A) r p s now (Q : A -> DMPredictor.t -> Z -> Z -> Prop) :
  r = Ok a -> Q a p s now -> expects (lift r) p s now Q.
Proof. by intros ->. Qed.

Lemma expects_verdict `{Clock} c (bad : list string) msg p s now :
  fresh c p -> bad = [] ->
  expects (report (empty bad) msg : M _) p s now (fun r q _ _ => fresh c q /\ StepResult.ok r = true).
Proof. by intros Hp ->. Qed.

(** The model's answer at an address, the registers at their reset values. *)
Ltac read_fresh Hp :=
  let Hr := fresh in
  pose proof (fresh_read _ _ Hp) as Hr;
  destruct Hr as (?&?&?&?&?&?&?&?&?&?&?&?&?&?&?&?&?);
  unfold DMPredictor.expect, DMPredictor.has_model, DMPredictor.predict,
    DMPredictor._sba_wider_than_32;
  rewrite ?(fresh_cfg _ _ Hp), ?(fresh_valid _ _ Hp), ?(fresh_dmactive _ _ Hp);
  cbn -[DMPredictor._expect_dmcontrol DMPredictor.expect_hartinfo DMPredictor.expect_abstractcs
        DMPredictor.expect_abstractauto DMPredictor.expect_haltsum0 DMPredictor._expect_haltsum
        DMPredictor.expect_sbcs Z.land Z.ltb].

Section reads.
Context (r : Raw) (c : DeclaredConfig.t) (p : DMPredictor.t).
Context (Hr : described r c) (Hp : fresh c p).

Lemma read_dmcontrol_word :
  DMPredictor.expect p (Register.address DMCONTROL) = DMPredictor._expect_dmcontrol p.
Proof using Hp. by read_fresh Hp. Qed.

Lemma read_hartinfo :
  DMPredictor.expect p (Register.address HARTINFO) = Ok (DMPredictor.expect_hartinfo c).
Proof using Hp. by read_fresh Hp. Qed.

Lemma read_abstractcs :
  DMPredictor.expect p (Register.address ABSTRACTCS) = Ok (DMPredictor.expect_abstractcs p).
Proof using Hp. by read_fresh Hp. Qed.

Lemma read_command : DMPredictor.expect p (Register.address COMMAND) = Ok 0.
Proof using Hp. by read_fresh Hp. Qed.

Lemma read_abstractauto : DMPredictor.expect p (Register.address ABSTRACTAUTO) = Ok 0.
Proof using Hp Hr.
  read_fresh Hp. unfold DMPredictor.expect_abstractauto. rewrite (fresh_cfg _ _ Hp), H.
  destruct (negb _); [done|]. unfold py_shl.
  destruct (progbufsize_is _ _ Hr) as [_ ?], (datacount_is _ _ Hr) as [_ ?].
  destruct (Z.ltb_spec (DeclaredConfig.progbufsize c) 0); [lia|].
  destruct (Z.ltb_spec (DeclaredConfig.datacount c) 0); [lia|].
  cbn [rbind]. by rewrite ?Z.shiftr_0_l, ?Z.land_0_l.
Qed.

Lemma read_sbcs : DMPredictor.expect p SBCS = Ok (DMPredictor.expect_sbcs p).
Proof using Hp. by read_fresh Hp. Qed.

Lemma read_nextdm : DMPredictor.expect p NEXTDM = Ok (DeclaredConfig.nextdm c).
Proof using Hp Hr.
  read_fresh Hp. destruct (nextdm_is _ _ Hr) as (_ & _ & _ & Hn).
  by rewrite (land_small _ MASK32 32).
Qed.

(** The bus registers, the configuration string pointers and authdata. *)
Lemma read_zero addr :
  addr ∈ [0x19; 0x1A; 0x1B; 0x1C; 0x30; 0x37; 0x39; 0x3A; 0x3B; 0x3C; 0x3D; 0x3E; 0x3F] ->
  DMPredictor.expect p addr = Ok 0.
Proof using Hp Hr.
  intros Ha. pose proof (sbasize_is _ _ Hr) as [_ ?].
  repeat (apply elem_of_cons in Ha as [->|Ha]; [|]); [..|by apply elem_of_nil in Ha].
  all: read_fresh Hp;
    rewrite ?(sba_is_on _ _ Hr), ?(no_sbaccess128 _ _ Hr), ?(no_authentication _ _ Hr); cbn [andb orb negb];
    zcases; repeat (match goal with E : _ p = _ |- _ => rewrite E end; cbn [andb orb negb]);
    repeat case_match; first [done | lia].
Qed.

Lemma read_data i :
  0 <= i < DeclaredConfig.datacount c -> DMPredictor.expect p (DATA0 + i) = Ok 0.
Proof using Hp Hr.
  intros Hi. pose proof (datacount_is _ _ Hr) as [_ Hc].
  destruct (fresh_read _ _ Hp) as (_&_&_&_&_&_&Hv&H0&Hq&Hk&_).
  assert (DMPredictor._is_data (DATA0 + i) = true) as Hd
    by (unfold DMPredictor._is_data, ADDR_DATA0, ADDR_DATA11, DATA0; zcases).
  assert (existsb (Z.eqb (DATA0 + i)) [Register.address DMCONTROL; Register.address DMSTATUS] = false)
    as Hx by (cbn [existsb DMCONTROL DMSTATUS Register.address]; unfold DATA0; zcases).
  unfold DMPredictor.expect, DMPredictor.has_model, DMPredictor.predict.
  rewrite (fresh_cfg _ _ Hp), (fresh_valid _ _ Hp), (fresh_dmactive _ _ Hp), Hv, H0, Hq, Hk, Hd, Hx.
  replace (DATA0 + i - ADDR_DATA0) with i by (unfold DATA0, ADDR_DATA0; lia).
  cbn [negb andb]. destruct (Z.ltb_spec i (DeclaredConfig.datacount c)); [|lia].
  destruct (Z.leb_spec (DeclaredConfig.datacount c) i); [lia|].
  rewrite !lookup_replicate_2 by lia.
  by destruct (DATA0 + i =? ADDR_DATA0), (i =? 0).
Qed.

Lemma read_progbuf i : 0 <= i < 16 -> DMPredictor.expect p (PROGBUF0 + i) = Ok 0.
Proof using Hp.
  intros Hi. destruct (fresh_read _ _ Hp) as (_&_&_&_&_&_&_&_&_&_&Hq&_).
  assert (forall a, a < 32 \/ 48 <= a -> (PROGBUF0 + i =? a) = false) as Hne
    by (intros a Ha; unfold PROGBUF0; zcases).
  assert (DMPredictor._is_data (PROGBUF0 + i) = false) as Hd
    by (unfold DMPredictor._is_data, ADDR_DATA0, ADDR_DATA11, PROGBUF0; zcases).
  assert (DMPredictor._is_progbuf (PROGBUF0 + i) = true) as Hb
    by (unfold DMPredictor._is_progbuf, ADDR_PROGBUF0, ADDR_PROGBUF15, PROGBUF0; zcases).
  unfold DMPredictor.expect, DMPredictor.has_model, DMPredictor.predict.
  rewrite (fresh_cfg _ _ Hp), (fresh_valid _ _ Hp), (fresh_dmactive _ _ Hp), Hq, Hd, Hb.
  cbn [existsb]. rewrite !Hne by (vm_compute; intuition congruence). cbn [negb orb andb].
  replace (PROGBUF0 + i - ADDR_PROGBUF0) with i by (unfold PROGBUF0, ADDR_PROGBUF0; lia).
  rewrite lookup_replicate_2 by lia. by destruct (_ && _).
Qed.

(** No hart is halted, so no halt summary has a bit set. *)
Lemma not_halted h : DMPredictor.hart_is_halted p h = false.
Proof using Hp.
  unfold DMPredictor.hart_is_halted. destruct (DMPredictor.harts p !! Z.to_nat h) as [q|] eqn:Hq; [|done].
  apply (fresh_harts _ _ Hp). by apply list_elem_of_lookup_2 in Hq.
Qed.

Lemma no_bit {A} (f : A -> bool) (g : A -> Z) l :
  (forall x, f x = false) ->
  fold_left (fun w x => if f x then Z.lor w (g x) else w) l 0 = 0.
Proof using. intros Hf. induction l as [|x l IH]; [done|]. cbn. by rewrite Hf. Qed.

Lemma read_haltsum reg : reg ∈ HALTSUM_LEVELS -> DMPredictor.expect p (Register.address reg) = Ok 0.
Proof using Hp.
  intros Hreg.
  assert (DMPredictor.expect_haltsum0 p = 0) as H0 by (apply no_bit, not_halted).
  assert (forall n, DMPredictor._expect_haltsum p n = 0) as Hn.
  { intros n. unfold DMPredictor._expect_haltsum. destruct (negb _); [done|]. apply no_bit.
    intros h. unfold DMPredictor.in_haltsum. by rewrite not_halted. }
  repeat (apply elem_of_cons in Hreg as [->|Hreg]; [|]); [..|by apply elem_of_nil in Hreg].
  all: read_fresh Hp; by rewrite ?H0, ?Hn.
Qed.

End reads.

(** The slices of a word packed from bounded pieces. *)
Ltac slices :=
  rewrite !slice_lor;
  repeat match goal with
  | H : 0 <= ?a < 2 ^ ?m |- context [slice (Z.shiftl ?a ?s) ?l ?k] =>
      first [rewrite (slice_here a s k) by first [exact H | lia]
            |rewrite (slice_apart a s m l k H) by lia]
  end;
  rewrite ?Z.lor_0_r, ?Z.lor_0_l, ?Z.shiftl_0_r.

Lemma to_int_pow b : 0 <= to_int b < 2 ^ 1.
Proof. exact (to_int_bound b). Qed.

Lemma hartinfo_slices r c :
  described r c ->
  let w := DMPredictor.expect_hartinfo c in
  slice w 20 4 = DeclaredConfig.nscratch c /\ slice w 16 1 = to_int (DeclaredConfig.dataaccess c) /\
  slice w 12 4 = DeclaredConfig.datasize c /\ slice w 0 12 = DeclaredConfig.dataaddr c.
Proof.
  intros Hr. cbn zeta. destruct (nscratch_is _ _ Hr) as [_ H1], (datasize_is _ _ Hr) as [_ H2],
    (dataaddr_is _ _ Hr) as (_ & _ & _ & H3).
  pose proof (to_int_pow (DeclaredConfig.dataaccess c)).
  unfold DMPredictor.expect_hartinfo.
  rewrite (land_small _ 0xF 4), (land_small _ 0xF 4), (land_small _ 0xFFF 12) by done.
  rewrite <-(Z.shiftl_0_r (DeclaredConfig.dataaddr c)).
  split_and!; by slices.
Qed.

Lemma abstractcs_slices r c p :
  described r c -> fresh c p ->
  let w := DMPredictor.expect_abstractcs p in
  slice w 12 1 = 0 /\ slice w 8 3 = 0 /\ slice w 24 5 = DeclaredConfig.progbufsize c /\
  slice w 0 4 = DeclaredConfig.datacount c /\ slice w 11 1 = to_int (DeclaredConfig.relaxedpriv_reset c).
Proof.
  intros Hr Hp. cbn zeta. destruct (progbufsize_is _ _ Hr) as [_ H1], (datacount_is _ _ Hr) as [_ H2].
  destruct (fresh_read _ _ Hp) as (_&_&_&_&_&Hx&_).
  assert (0 <= DeclaredConfig.progbufsize c < 2 ^ 5) as B1 by lia.
  assert (0 <= DeclaredConfig.datacount c < 2 ^ 4) as B2 by lia. clear H1 H2.
  pose proof (to_int_pow (DeclaredConfig.relaxedpriv_reset c)).
  unfold DMPredictor.expect_abstractcs. rewrite (fresh_cfg _ _ Hp), Hx.
  rewrite (land_small _ 0x1F 5), (land_small _ 0xF 4) by done.
  rewrite <-(Z.shiftl_0_r (DeclaredConfig.datacount c)).
  split_and!; by slices.
Qed.

Lemma sbcs_slices r c p :
  described r c -> fresh c p ->
  let w := DMPredictor.expect_sbcs p in
  slice w 29 3 = DeclaredConfig.sbversion c /\ slice w 22 1 = 0 /\ slice w 21 1 = 0 /\
  slice w 20 1 = 0 /\ slice w 17 3 = DeclaredConfig.sbaccess_reset c /\ slice w 16 1 = 0 /\
  slice w 15 1 = 0 /\ slice w 12 3 = 0 /\ slice w 5 7 = DeclaredConfig.sbasize c /\
  slice w 4 1 = to_int (DeclaredConfig.sbaccess128 c) /\
  slice w 3 1 = to_int (DeclaredConfig.sbaccess64 c) /\
  slice w 2 1 = to_int (DeclaredConfig.sbaccess32 c) /\
  slice w 1 1 = to_int (DeclaredConfig.sbaccess16 c) /\
  slice w 0 1 = to_int (DeclaredConfig.sbaccess8 c).
Proof.
  intros Hr Hp. cbn zeta.
  destruct (sbversion_is _ _ Hr) as [_ H1], (sbaccess_is _ _ Hr) as [_ H2], (sbasize_is _ _ Hr) as [_ H3].
  destruct (fresh_read _ _ Hp) as (_&E1&E2&E3&E4&_).
  assert (0 <= DeclaredConfig.sbasize c < 2 ^ 7) as B3 by lia. clear H3.
  pose proof (to_int_pow (DeclaredConfig.sbaccess128 c)). pose proof (to_int_pow (DeclaredConfig.sbaccess64 c)).
  pose proof (to_int_pow (DeclaredConfig.sbaccess32 c)). pose proof (to_int_pow (DeclaredConfig.sbaccess16 c)).
  pose proof (to_int_pow (DeclaredConfig.sbaccess8 c)).
  unfold DMPredictor.expect_sbcs. rewrite (fresh_cfg _ _ Hp), (sba_is_on _ _ Hr), E1, E2, E3, E4.
  cbn [negb to_int Z.b2z fold_left]. rewrite !Z.shiftl_0_l, !Z.lor_0_r.
  rewrite (land_small _ 0x7 3), (land_small _ 0x7 3), (land_small _ 0x7F 7) by done.
  rewrite <-(Z.shiftl_0_r (to_int (DeclaredConfig.sbaccess8 c))).
  repeat match goal with |- _ /\ _ => split end; by slices.
Qed.

(** dmcontrol reads 1: what the sequence expects of each of its fields. *)
Definition dmcontrol_reset (f : Field.t) : Z :=
  if String.eqb (Field.name f) "dmactive" then 1 else 0.

Lemma dmcontrol_expected_ok f :
  f ∈ Register.fields DMCONTROL ->
  (forall v, dmcontrol_expected !! Field.name f = Some v -> json_is v (dmcontrol_reset f) = true).
Proof.
  intros Hf v Hv.
  assert (forallb (fun f => match dmcontrol_expected !! Field.name f with
    Some v => json_is v (dmcontrol_reset f) | None => true end) (Register.fields DMCONTROL) = true)
    as Hall by (vm_compute; reflexivity).
  rewrite forallb_forall in Hall. specialize (Hall f (proj1 (list_elem_of_In _ _) Hf)).
  by rewrite Hv in Hall.
Qed.

(** The two halves of hartsel are where their fields say. *)
Lemma declared_hartsel_halves f w :
  f ∈ Register.fields DMCONTROL -> Field.name f = "hartsello" \/ Field.name f = "hartselhi" ->
  hartsel_of w = 0 -> Field.extract f w = 0.
Proof.
  intros Hf Hn Hw. unfold hartsel_of in Hw. apply Z.lor_eq_0_iff in Hw as [Hhi Hlo].
  assert (Field.extract hartselhi_field w = 0) as Hhi'.
  { apply (f_equal (fun x => Z.shiftr x 10)) in Hhi.
    rewrite Z.shiftr_shiftl_l, Z.shiftr_0_l, Z.shiftl_0_r in Hhi by lia. exact Hhi. }
  assert (forallb (fun f =>
    let at_ g := (Field.lsb f =? Field.lsb g) && (Field.width f =? Field.width g) in
    (negb (String.eqb (Field.name f) "hartsello") || at_ hartsello_field) &&
    (negb (String.eqb (Field.name f) "hartselhi") || at_ hartselhi_field))
    (Register.fields DMCONTROL) = true) as Hall by (vm_compute; reflexivity).
  rewrite forallb_forall in Hall. specialize (Hall f (proj1 (list_elem_of_In _ _) Hf)).
  cbv zeta in Hall. apply andb_true_iff in Hall as [Ha Hb].
  assert (forall g, (Field.lsb f =? Field.lsb g) && (Field.width f =? Field.width g) = true ->
    Field.extract g w = 0 -> Field.extract f w = 0) as Hsame.
  { intros g Hg <-. zhyps. unfold Field.extract, Field.value_mask. congruence. }
  destruct Hn as [Hn|Hn]; rewrite Hn in Ha, Hb;
    [by apply (Hsame hartsello_field)|by apply (Hsame hartselhi_field)].
Qed.

Lemma dmcontrol_agrees c p :
  fresh c p -> exists w, DMPredictor._expect_dmcontrol p = Ok w /\
  Forall (agrees dmcontrol_expected w) (_register_fields DMCONTROL).
Proof.
  intros Hp. destruct (expect_dmcontrol_spec p) as (w & He & _ & Hs & Hx).
  { rewrite (fresh_hartsel _ _ Hp). lia. }
  rewrite (fresh_hartsel _ _ Hp) in Hs. exists w. split; [exact He|].
  assert (forall f, f ∈ Register.fields DMCONTROL -> Field.extract f w = dmcontrol_reset f) as Hf.
  { intros f Hf.
    destruct (decide (Field.name f = "hartsello")) as [Hn|Hlo];
      [|destruct (decide (Field.name f = "hartselhi")) as [Hn|Hhi]].
    1,2: unfold dmcontrol_reset; rewrite Hn; apply declared_hartsel_halves; auto.
    rewrite Hx by done. unfold DMPredictor.dmcontrol_values.
    rewrite (fresh_dmactive _ _ Hp), (fresh_ndmreset _ _ Hp), (fresh_hasel _ _ Hp), (fresh_level _ _ Hp).
    assert (forallb (fun f => Z.land (dict_get [("dmactive", 1); ("ndmreset", 0); ("hasel", 0);
      ("hartreset", 0)] (Field.name f) 0) (Field.value_mask f) =? dmcontrol_reset f)
      (Register.fields DMCONTROL) = true) as Hall by (vm_compute; reflexivity).
    rewrite forallb_forall in Hall. apply Z.eqb_eq, Hall. by apply list_elem_of_In. }
  apply Forall_forall. intros [[n l] k] Hin. apply list_elem_of_fmap in Hin as (f & [= -> -> ->] & Hin).
  intros v Hv. change (slice w (Field.lsb f) (Field.width f)) with (Field.extract f w).
  rewrite Hf by done. by apply dmcontrol_expected_ok.
Qed.

(** A dictionary whose values are all there. *)
Lemma dict_lit_ok l :
  dict_lit (map (fun kv => (fst kv, Ok (snd kv))) l) =
  Ok (fold_left (fun d kv => <[fst kv := snd kv]> d) l ∅).
Proof.
  unfold dict_lit. generalize (∅ : gmap string json).
  induction l as [|[k v] l IH]; intros d; [done|]. cbn. by apply IH.
Qed.

(** The expected value of a key, from the lookups that lead to it. *)
Ltac expects_value :=
  intros v Hv; cbn [Field.name Field.lsb Field.width] in *;
  repeat first [rewrite lookup_insert_eq in Hv | rewrite lookup_insert_ne in Hv by done];
  first [rewrite lookup_empty in Hv; done | injection Hv as <-]; cbn [json_is];
  repeat match goal with E : slice _ _ _ = _ |- _ => rewrite E; clear E end;
  apply Z.eqb_refl.

Section closures.
Context `{Clock} (r : Raw) (c : DeclaredConfig.t) (Hr : described r c).

Lemma rst_030_spec : keeps_fresh c rst_030.
Proof using.
  intros p s now Hp. destruct (dmcontrol_agrees c p Hp) as (w & He & Ha).
  apply expects_bind, (expects_rd _ w). { by rewrite (read_dmcontrol_word c). }
  apply expects_verdict; [done|]. by apply diff_nil.
Qed.

Lemma rst_032_spec : keeps_fresh c (rst_032 r).
Proof using Hr.
  intros p s now Hp. apply expects_bind, (expects_rd _ _ _ _ _ _ (read_hartinfo c p Hp)).
  destruct (hartinfo_slices r c Hr) as (E1 & E2 & E3 & E4).
  destruct (nscratch_is _ _ Hr) as [H1 _], (datasize_is _ _ Hr) as [H2 _],
    (dataaddr_is _ _ Hr) as (t & H3 & H4 & _).
  apply expects_bind. eapply expects_lift.
  { unfold hartinfo_expected, int_of, hex_of, raw_get.
    rewrite H1, H2, H3, (dataaccess_is _ _ Hr). cbn [rbind rmap Int.of_json Int.of_json_base].
    rewrite H4. cbn [rmap]. exact (dict_lit_ok [(_, _); (_, _); (_, _); (_, _)]). }
  apply expects_verdict; [done|]. apply diff_nil. cbn [fold_left fst snd].
  repeat apply Forall_cons_2; [..|apply Forall_nil_2]; expects_value.
Qed.

Lemma rst_033_spec : keeps_fresh c (rst_033 r).
Proof using Hr.
  intros p s now Hp. apply expects_bind, (expects_rd _ _ _ _ _ _ (read_abstractcs c p Hp)).
  destruct (abstractcs_slices r c p Hr Hp) as (E1 & E2 & E3 & E4 & E5).
  destruct (progbufsize_is _ _ Hr) as [H1 _], (datacount_is _ _ Hr) as [H2 _].
  apply expects_bind. eapply expects_lift.
  { unfold abstractcs_expected, int_of, raw_get. rewrite H1, H2, (relaxedpriv_is _ _ Hr).
    cbn [rbind rmap Int.of_json]. exact (dict_lit_ok [(_, _); (_, _); (_, _); (_, _); (_, _)]). }
  apply expects_verdict; [done|]. apply diff_nil. cbn [fold_left fst snd].
  repeat apply Forall_cons_2; [..|apply Forall_nil_2]; expects_value.
Qed.

Lemma rst_038_spec : keeps_fresh c (rst_038 r).
Proof using Hr.
  intros p s now Hp. apply expects_bind, (expects_rd _ _ _ _ _ _ (read_sbcs c p Hp)).
  destruct (sbcs_slices r c p Hr Hp) as (E1&E2&E3&E4&E5&E6&E7&E8&E9&E10&E11&E12&E13&E14).
  destruct (sbversion_is _ _ Hr) as [H1 _], (sbasize_is _ _ Hr) as [H2 _], (sbaccess_is _ _ Hr) as [H3 _].
  apply expects_bind. eapply expects_lift.
  { unfold sbcs_expected, int_of, raw_get.
    rewrite H1, H2, H3, (sbaccess128_is _ _ Hr), (sbaccess64_is _ _ Hr), (sbaccess32_is _ _ Hr),
      (sbaccess16_is _ _ Hr), (sbaccess8_is _ _ Hr).
    cbn [rbind rmap Int.of_json].
    exact (dict_lit_ok [(_, _); (_, _); (_, _); (_, _); (_, _); (_, _); (_, _); (_, _); (_, _); (_, _);
                        (_, _); (_, _); (_, _); (_, _)]). }
  apply expects_verdict; [done|]. apply diff_nil. cbn [fold_left fst snd].
  repeat apply Forall_cons_2; [..|apply Forall_nil_2]; expects_value.
Qed.

Lemma rst_034_spec : keeps_fresh c rst_034.
Proof using.
  intros p s now Hp. apply expects_bind, (expects_rd _ _ _ _ _ _ (read_command c p Hp)).
  by apply expects_ret.
Qed.

Lemma rst_035_spec : keeps_fresh c rst_035.
Proof using Hr.
  intros p s now Hp. apply expects_bind, (expects_rd _ _ _ _ _ _ (read_abstractauto r c p Hr Hp)).
  by apply expects_ret.
Qed.

(** Registers that all read zero. *)
Lemma expects_read_each address base l p s now (Q : list Z -> DMPredictor.t -> Z -> Z -> Prop) :
  (forall i, i ∈ l -> address i = Ok (base + i) /\ DMPredictor.expect p (base + i) = Ok 0) ->
  Q (replicate (length l) 0) p s now -> expects (read_each address l) p s now Q.
Proof using.
  revert Q. induction l as [|i l IH]; intros Q Hl Hq; [done|]. cbn [read_each length replicate].
  destruct (Hl i) as [Ha He]; [by left|].
  apply expects_bind, (expects_lift (base + i)); [done|]. apply expects_bind, (expects_rd _ 0); [done|].
  apply expects_bind, IH; [|done]. intros j Hj. apply Hl. by right.
Qed.

Lemma nonzero_zeros name n : nonzero name (replicate n 0) = [].
Proof using.
  unfold nonzero. apply concat_nil_Forall, Forall_lookup_2. intros i x Hx.
  rewrite list_lookup_imap in Hx. destruct (replicate n 0 !! i) as [y|] eqn:Hy; [|done].
  apply lookup_replicate in Hy as [-> _]. by injection Hx as <-.
Qed.

Lemma rst_036_spec : keeps_fresh c (rst_036 r).
Proof using Hr.
  intros p s now Hp. destruct (datacount_is _ _ Hr) as [H1 H2].
  apply expects_bind, (expects_lift (DeclaredConfig.datacount c)). { unfold raw_get. by rewrite H1. }
  apply expects_bind, (expects_read_each data_address DATA0).
  { intros i Hi. apply elem_of_seqZ in Hi. split.
    - unfold data_address, DATA11, DATA0. by zcases.
    - apply (read_data r c); [done..|lia]. }
  apply expects_verdict; [done|]. apply nonzero_zeros.
Qed.

Lemma rst_037_spec : keeps_fresh c (rst_037 r).
Proof using Hr.
  intros p s now Hp. destruct (progbufsize_is _ _ Hr) as [H1 H2].
  apply expects_bind, (expects_lift (DeclaredConfig.progbufsize c)). { unfold raw_get. by rewrite H1. }
  apply expects_bind, (expects_read_each progbuf_address PROGBUF0).
  { intros i Hi. apply elem_of_seqZ in Hi. split.
    - unfold progbuf_address, PROGBUF15, PROGBUF0. by zcases.
    - apply (read_progbuf c); [done..|lia]. }
  apply expects_verdict; [done|]. apply nonzero_zeros.
Qed.

Lemma expects_nonzero_of regs p s now (Q : list string -> DMPredictor.t -> Z -> Z -> Prop) :
  Forall (fun reg => DMPredictor.expect p (fst reg) = Ok 0) regs -> Q [] p s now ->
  expects (nonzero_of regs) p s now Q.
Proof using.
  intros Hl. revert Q. induction Hl as [|[a name] regs Ha _ IH]; intros Q Hq; [done|].
  cbn [nonzero_of]. apply expects_bind, (expects_rd _ 0); [done|]. by apply expects_bind, IH.
Qed.

Lemma rst_039_spec : keeps_fresh c rst_039.
Proof using Hr.
  intros p s now Hp. apply expects_bind, expects_nonzero_of; [|by apply expects_ret].
  repeat apply Forall_cons_2; [..|apply Forall_nil_2]; apply (read_zero r c); first [done | in_list].
Qed.

Lemma rst_040_spec : keeps_fresh c rst_040.
Proof using.
  intros p s now Hp. apply expects_bind, expects_nonzero_of; [|by apply expects_ret].
  repeat apply Forall_cons_2; [..|apply Forall_nil_2]; apply (read_haltsum c); first [done | in_list].
Qed.

Lemma rst_042_spec : keeps_fresh c (rst_042 r).
Proof using Hr.
  intros p s now Hp. destruct (nextdm_is _ _ Hr) as (t & H1 & H2 & _).
  apply expects_bind, (expects_rd _ _ _ _ _ _ (read_nextdm r c p Hr Hp)).
  apply expects_bind, (expects_lift (JStr t)). { unfold raw_get. by rewrite H1. }
  apply expects_bind, (expects_lift (DeclaredConfig.nextdm c)); [done|]. rewrite Z.eqb_refl.
  apply expects_bind, expects_nonzero_of.
  { repeat apply Forall_cons_2; [..|apply Forall_nil_2]; apply (read_zero r c); first [done | in_list]. }
  apply expects_bind, (expects_rd _ 0); [apply (read_zero r c); first [done | in_list]|].
  by apply expects_bind, expects_ret, expects_verdict.
Qed.

End closures.

(** ** The session *)

Section session.
Context {T : Type} `{ModelBacked T} `{Clock} (c : DeclaredConfig.t).

(** A live transport whose model has the configuration [c] and no halted hart. *)
Definition configured (w : W T) : Prop :=
  live (dev w) /\ DMPredictor.cfg (model (dev w)) = c /\ DMPredictor.cfg_valid (model (dev w)) = true /\
  forall h, h ∈ DMPredictor.harts (model (dev w)) -> HartState.halted h = false.

Definition freshly (w : W T) : Prop := live (dev w) /\ fresh c (model (dev w)).

Lemma dm_reset_passes : passes configured (result_step dm_reset) freshly.
Proof using.
  intros w (Hl & Hc & Hv & Hh).
  destruct (expects_run dm_reset w (fun r q _ _ => fresh c q /\ StepResult.ok r = true) Hl)
    as (r & Hr & Hl' & Hf & Hok).
  { pose proof (reset_fresh c (model (dev w)) Hc Hv Hh) as Hx. split; [exact Hx|done]. }
  unfold result_step. destruct (Transport.run _ w) as [w' x]. cbn in *. subst x.
  split; [by exists r|]. by split.
Qed.

Lemma fresh_passes e : keeps_fresh c e -> passes freshly (result_step e) freshly.
Proof using.
  intros He w [Hl Hf].
  destruct (expects_run e w _ Hl (He _ (self w) (clock w) Hf)) as (r & Hr & Hl' & Hf' & Hok).
  unfold result_step. destruct (Transport.run _ w) as [w' x]. cbn in *. subst x.
  split; [by exists r|]. by split.
Qed.

End session.


(** ** The shipped declarations *)

Definition load_shipped : string -> result DutConfig.t :=
  load_dut_config "dut_configs" (shipped "dut_configs").

(** The model a declaration of the repository configures, with two harts. *)
Definition shipped_model (name : string) : result DMPredictor.t :=
  try config <- load_shipped name;;
  try c <- DutConfig.declared_config 2 config;;
  Ok (DMPredictor.set_config c (DMPredictor.init (DutConfig.predictor_kwargs 2 config))).

#[local] Existing Instance exact_clock.

(** The verdicts of the session on the mock of a shipped model. *)
Definition verdicts (name : string) : result (list (bool * string)) :=
  try p <- shipped_model name;;
  try session <- ResetValues.build (T := Mock.t) None load_shipped "batch" name;;
  let '(s, _, _) := DebugSession.run session (env_on p) in
  Ok (map (fun r => (StepResult.ok r, StepResult.msg r)) (DebugSession._results s)).

(** The multihart declaration declares System Bus Access absent but keeps its
    presets, and the session does not look at sba_enable: run against the golden
    model of that same declaration it fails, in the sbcs step and nowhere else. *)
Theorem reset_values_rejects_multihart :
  well_declared multihart_json = false /\
  exists l1 l2, verdicts "multihart" =
    Ok (l1 ++ (false, "RST-038-C: sbcs=0x00000000, first SBA access after reset  MISMATCH: " +:+
                      "sbversion=0 (expect 1), sbaccess=0 (expect 3), sbasize=0 (expect 64), " +:+
                      "sbaccess64=0 (expect 1)") :: l2) /\
    forallb fst l1 = true /\ forallb fst l2 = true.
Proof.
  split; [vm_compute; reflexivity|].
  assert (exists l, verdicts "multihart" = Ok l /\ length l = 13%nat /\
    forallb fst (take 8 l) = true /\ forallb fst (drop 9 l) = true /\
    l !! 8%nat = Some (false, "RST-038-C: sbcs=0x00000000, first SBA access after reset  MISMATCH: " +:+
                      "sbversion=0 (expect 1), sbaccess=0 (expect 3), sbasize=0 (expect 64), " +:+
                      "sbaccess64=0 (expect 1)")) as (l & -> & _ & H1 & H2 & H3).
  { eexists. split; [vm_compute; reflexivity|]. repeat split; vm_compute; reflexivity. }
  exists (take 8 l), (drop 9 l). split; [|done]. by rewrite take_drop_middle.
Qed.

(** ** Witnesses *)

