(* ===== verification/ResetCtrl.v ===== *)
(** The reset-control sequence: [sequences/reset_ctrl_sequence.py].

    Its polling loop takes a fuel, [poll_fuel] of the source's own timeout: every
    round but the last sleeps at least the poll interval before the deadline. *)

From S2P Require Import Prelude Registers Predictor Transport RiscvDm Session Sequences.
Import RISCVDebug.

Local Open Scope string_scope.
Local Open Scope list_scope.
Local Open Scope Z_scope.
Local Open Scope prog_scope.

Module ResetCtrl.

(** reset_ctrl_sequence.py:64-65 (POLL_INTERVAL_S, POLL_TIMEOUT_S) *)
Definition POLL_INTERVAL : Z := 1000.
Definition POLL_TIMEOUT : Z := 2000000.

(** [bool(word & 1)]. *)
Definition bit0 (word : Z) : bool := truthy (Z.land word 1).

(** reset_ctrl_sequence.py:102-138 (tc_rst_001_assert) *)
Definition tc_rst_001_assert : M StepResult.t :=
  ndmreset true;;;
  do word <- read_dmstatus;;
  let mutex_ok := negb (anyhalted word && anyrunning word) in
  do p <- predictor_of;;
  do okn <- match p with
            | Some p =>
                if DMSTATUS_VERSION_1_0 <=? DMPredictor.version p then
                  do predicted <- RunControlSequence.predicted_dmstatus p;;
                  let model_pending := ndmresetpending predicted in
                  let dut_pending := ndmresetpending word in
                  let note :=
                    if Bool.eqb dut_pending model_pending then EmptyString
                    else " [divergence: DUT ndmresetpending=" +:+ pretty (to_int dut_pending) +:+
                         " vs model=" +:+ pretty (to_int model_pending) +:+
                         " — some v1.0-reporting dm_pkg forks still lack a routed " +:+
                         "ndmresetpending field, #3.14.1]" in
                  Ret (mutex_ok && model_pending && dut_pending, note)
                else Ret (mutex_ok, EmptyString)
            | None => Ret (mutex_ok, EmptyString)
            end;;
  report (fst okn)
    ("TC-RST-001: ndmreset asserted, dmstatus=" +:+ py_hex 8 word +:+ snd okn).

(** reset_ctrl_sequence.py:143-153 (tc_rst_001_deassert) *)
Definition tc_rst_001_deassert : M StepResult.t :=
  ndmreset false;;;
  do word <- read_dmstatus;;
  report (negb (anyhalted word))
    ("TC-RST-001: ndmreset deasserted, anyhalted=" +:+ py_bool (anyhalted word) +:+
     " (expected False — no halt request was raised)").

(** reset_ctrl_sequence.py:216-218 (tc_rst_001_haltreq_during_reset, the loop) *)
Fixpoint poll_halted (fuel : nat) (deadline : Z) (halted : bool) : M bool :=
  if halted then Ret true
  else
    match fuel with
    | O => Throw OutOfFuel
    | S fuel =>
        Now (fun now =>
          if now <? deadline
          then Sleep POLL_INTERVAL (do halted <- is_halted;; poll_halted fuel deadline halted)
          else Ret false)
    end.

(** reset_ctrl_sequence.py:174-231 (tc_rst_001_haltreq_during_reset) *)
Definition tc_rst_001_haltreq_during_reset : M StepResult.t :=
  ndmreset true;;;
  write_fields (fields0 <| DmcontrolArgs.haltreq := true |> <| DmcontrolArgs.ndmreset := true |>);;;
  do word <- read_dmstatus;;
  let still_in_reset := negb (anyhalted word) in
  write_fields (fields0 <| DmcontrolArgs.haltreq := true |> <| DmcontrolArgs.ndmreset := false |>);;;
  do now <- monotonic;;
  let deadline := now + POLL_TIMEOUT in
  do halted <- is_halted;;
  do halted_on_release <- poll_halted (poll_fuel POLL_TIMEOUT) deadline halted;;
  report (still_in_reset && halted_on_release)
    ("TC-RST-001 (cont'd): haltreq written while ndmreset asserted — still not halted mid-reset=" +:+
     py_bool still_in_reset +:+ ", halted on release=" +:+ py_bool halted_on_release +:+
     " (spec #3.5: a pending halt request takes effect the moment reset deasserts)").

(** reset_ctrl_sequence.py:238-268 (tc_rst_002) *)
Definition tc_rst_002 : M StepResult.t :=
  halt DEFAULT_TIMEOUT;;;
  hartreset true;;;
  do readback <- read_dmcontrol;;
  let supported := dmcontrol_hartreset readback in
  if negb supported then
    hartreset false;;;
    resume DEFAULT_TIMEOUT;;;
    report true
      ("TC-RST-002: dmcontrol.hartreset read back 0 after being written 1 — not implemented on " +:+
       "this DUT (WARL tied 0, spec #3.14.2 hartreset). N/A per the spec's own discovery " +:+
       "mechanism, not a failure (matches CVA6 dm_csrs.sv:511).")
  else
    read_dmstatus;;;
    hartreset false;;;
    do after <- read_dmstatus;;
    report (negb (anyhalted after))
      ("TC-RST-002: hartreset supported on this DUT — halted, reset-asserted, then released; " +:+
       "anyhalted after release=" +:+ py_bool (anyhalted after)).

(** [f"{cause}={'set' if v else ('N/A' if v is None else 'NOT SET')}"]. *)
Definition cause_text (r : string * option bool) : string :=
  fst r +:+ "=" +:+ match snd r with Some true => "set" | None => "N/A" | Some false => "NOT SET" end.

(** reset_ctrl_sequence.py:274-303 (tc_rst_003) *)
Definition tc_rst_003 : M StepResult.t :=
  ndmreset true;;;
  ndmreset false;;;
  do word <- read_dmstatus;;
  let ndm := ("ndmreset", Some (anyhavereset word && allhavereset word)) in
  ackhavereset;;;
  hartreset true;;;
  do readback <- read_dmcontrol;;
  do hart <- (if dmcontrol_hartreset readback then
                hartreset false;;;
                do word <- read_dmstatus;;
                ackhavereset;;;
                Ret ("hartreset", Some (anyhavereset word && allhavereset word))
              else
                hartreset false;;;
                Ret ("hartreset", None));;
  let results := [ndm; hart] in
  let ok := forallb (fun r => negb (bool_decide (snd r = Some false))) results in
  report ok
    ("TC-RST-003: havereset observed per reset cause — " +:+
     String.concat ", " (map cause_text results) +:+
     " (spec #3.2: 'must be set regardless of the cause of the reset')").

(** reset_ctrl_sequence.py:309-321 (tc_rst_004) *)
Definition tc_rst_004 : M StepResult.t :=
  ndmreset true;;;
  ndmreset false;;;
  do before <- read_dmstatus;;
  let was_set := anyhavereset before && allhavereset before in
  ackhavereset;;;
  do after <- read_dmstatus;;
  let cleared := negb (anyhavereset after) && negb (allhavereset after) in
  report (was_set && cleared)
    ("TC-RST-004: havereset was_set=" +:+ py_bool was_set +:+ " before ack, cleared=" +:+
     py_bool cleared +:+ " after ackhavereset (spec #3.14.2)").

(** [sub in s]. *)
Definition contains (sub s : string) : bool :=
  match String.index 0 sub s with Some _ => true | None => false end.

(** The verdict of the [try] around the register read; what [except Exception]
    does not catch goes through.
    reset_ctrl_sequence.py:347-354 (tc_rst_005, the try statement) *)
Definition survival (r : result Z) : result bool :=
  match r with
  | Ok _ => Ok true
  | Raise (DebugError m) => Ok (contains "cmderr=" m)
  | Raise e => if is_Exception e then Ok false else Raise e
  end.

(** reset_ctrl_sequence.py:355-363 (tc_rst_005, after the try statement) *)
Definition after_survival (survived : bool) : M StepResult.t :=
  ndmreset false;;;
  do post <- read_dmcontrol;;
  let dm_alive := bit0 post in
  report (survived && dm_alive)
    ("TC-RST-005: DMI access during ndmreset survived=" +:+ py_bool survived +:+
     ", DM alive afterward (dmactive=" +:+ py_bool dm_alive +:+
     ") — the specific read-back value is UNSPECIFIED per #3.2 and not checked").

(** The closure catches what the read raises, so it is a step on the world.
    reset_ctrl_sequence.py:327-363 (tc_rst_005) *)
Definition tc_rst_005 {T} `{DebugTransport T} `{Clock} : DebugSession.step (W T) := fun w =>
  match run (ndmreset true) w with
  | (w, Raise e) => (w, Raised e)
  | (w, Ok _) =>
      let (w, r) := run (read_gpr 0x1000) w in
      match survival r with
      | Ok survived => result_step (after_survival survived) w
      | Raise e => (w, Raised e)
      end
  end.

(** reset_ctrl_sequence.py:369-389 (tc_rst_006) *)
Definition tc_rst_006 : M StepResult.t :=
  ackhavereset;;;
  do before <- read_dmstatus;;
  let already_clear := negb (anyhavereset before) && negb (allhavereset before) in
  ackhavereset;;;
  do after <- read_dmstatus;;
  let still_clear := negb (anyhavereset after) && negb (allhavereset after) in
  report (already_clear && still_clear)
    ("TC-RST-006: ackhavereset written with havereset already clear (before=" +:+
     py_bool already_clear +:+ ", after=" +:+ py_bool still_clear +:+ ") — no-op, no error (#3.14.2)").

(** reset_ctrl_sequence.py:404-415 (tc_dhs_006_probe) *)
Definition tc_dhs_006_probe : M StepResult.t :=
  ackunavail;;;
  do readback <- read_dmcontrol;;
  let alive := bit0 readback in
  report alive
    ("TC-DHS-006 (write-only half): wrote dmcontrol.ackunavail=1 — DM alive afterward (dmactive=" +:+
     py_bool alive +:+ "). Full conditional-clear semantics (#3.14.2: clears only " +:+
     "currently-available harts) not checked here -- needs hart-availability transition modeling, " +:+
     "a later slice.").

(** reset_ctrl_sequence.py:430-442 (tc_ka_001) *)
Definition tc_ka_001 : M StepResult.t :=
  write_fields (fields0 <| DmcontrolArgs.setkeepalive := true |>);;;
  do after_set <- read_dmcontrol;;
  write_fields (fields0 <| DmcontrolArgs.clrkeepalive := true |>);;;
  do after_clr <- read_dmcontrol;;
  let alive := bit0 after_clr in
  report alive
    ("TC-KA-001: wrote setkeepalive=1 (readback=" +:+ py_hex 8 after_set +:+
     "), then clrkeepalive=1 (readback=" +:+ py_hex 8 after_clr +:+ ") — DM alive throughout (dmactive=" +:+
     py_bool alive +:+ "). keepalive cannot be read back (#3.14.2), so this is discovery-only, " +:+
     "same as resethaltreq.").

(** reset_ctrl_sequence.py:75-448 (build_reset_ctrl_sequence) *)
Definition build {T} `{DebugTransport T} `{Clock} (mode : string) (hartsel : Z)
    : result (DebugSession.t (W T)) :=
  try session <- DebugSession.init mode false;;
  let add name fn session := DebugSession.add_step name fn session in
  let session := add "Activate Debug Module" (none_step activate) session in
  let session := if truthy hartsel
    then add ("Select hart " +:+ pretty hartsel) (none_step (select_hart hartsel)) session
    else session in
  let session := add "TC-RST-001: assert dmcontrol.ndmreset=1 (spec #3.2)"
    (result_step tc_rst_001_assert) session in
  let session := add "TC-RST-001: deassert dmcontrol.ndmreset=0"
    (result_step tc_rst_001_deassert) session in
  let session := add
    "TC-RST-001 (cont'd): haltreq asserted while a hart is in ndmreset (spec #3.5)"
    (result_step tc_rst_001_haltreq_during_reset) session in
  let session := add "TC-RST-002: discover/exercise dmcontrol.hartreset (spec #3.14.2)"
    (result_step tc_rst_002) session in
  let session := add "TC-RST-003: havereset set regardless of reset cause (spec #3.2)"
    (result_step tc_rst_003) session in
  let session := add
    "TC-RST-004: ackhavereset clears the sticky havereset bit (spec #3.14.2)"
    (result_step tc_rst_004) session in
  let session := add
    "TC-RST-005: DMI access restrictions while ndmreset asserted (spec #3.2)" tc_rst_005 session in
  let session := add
    "TC-RST-006: ackhavereset is a no-op when havereset is already clear (spec #3.14.2)"
    (result_step tc_rst_006) session in
  let session := add
    "TC-DHS-006 (write-only half): ackunavail discovery probe (spec #3.14.2)"
    (result_step tc_dhs_006_probe) session in
  let session := add "TC-KA-001: setkeepalive/clrkeepalive discovery probe (spec #3.14.2)"
    (result_step tc_ka_001) session in
  Ok session.

End ResetCtrl.
