(* ===== verification/ResetCtrlSound.v ===== *)
(** The reset-control sequence passes on the golden-reference model, with or
    without hartreset, and from version 0.13 on ([ResetCtrl], [Predictor]). *)

From S2P Require Import Prelude Registers Predictor RunControl Buffers Transport RiscvDm RiscvDmSound.
From S2P Require Import Session Sequences Expectation SequencesSound ResetCtrl.
Import RISCVDebug ResetCtrl.

Local Open Scope string_scope.
Local Open Scope list_scope.
Local Open Scope Z_scope.
Local Open Scope prog_scope.

(** ** The selected hart between the steps *)

(** Outside reset, halted or not, without a halt-on-reset request. *)
Definition rest (i : nat) (b : bool) (s : Z) (V : views) : Prop :=
  at_hart s = i /\ exists hr ra hv nx,
    V i = mk_view (HartState.mk hr ra false false b (negb b) hv true false nx) false false.

(** Held in ndmreset, nothing requested of it. *)
Definition held (i : nat) (s : Z) (V : views) : Prop :=
  at_hart s = i /\ exists ra nx,
    V i = mk_view (HartState.mk false ra false false false true true true false nx) true false.

(** The first read after the release already shows the hart halted. *)
Lemma poll_halted_at_once `{Clock} c n now fuel deadline V s (Q : bool -> views -> Z -> Prop) :
  Q true V s -> vwp c n now (poll_halted fuel deadline true) V s Q.
Proof. intros Hq. destruct fuel; by apply vwp_ret. Qed.

(** A read of dmcontrol shows whether the hartreset level took. *)
Ltac read_control :=
  apply vwp_read_dmcontrol; let w := fresh "w" in let Hhr := fresh "Hhr" in
  intros w ? Hhr;
  match goal with HV : ?V ?i = _, Hi : at_hart ?s = ?i |- _ =>
    rewrite Hi, HV in Hhr; cbn [lvl has_hartreset andb] in Hhr end.

Ltac rstep :=
  lazymatch goal with
  | E : dmcontrol_hartreset ?w = _ |- context [dmcontrol_hartreset ?w] => rewrite E; cbn [negb]
  | |- vwp _ _ _ read_dmcontrol _ _ _ => read_control
  | |- vwp _ _ _ (rd DMI.DMSTATUS) _ _ _ => apply vwp_read_dmstatus; read_shows
  | E : allhalted ?w = _ |- vwp _ _ _ (poll_halted _ _ (allhalted ?w)) _ _ _ =>
      rewrite E; apply poll_halted_at_once
  | |- vwp _ _ _ (bind predictor_of _) _ _ _ => vstep
  | |- vwp _ _ _ ?e _ _ _ => first [progress unfold hartreset, ackhavereset, ackunavail, is_halted | vstep]
  end; cbv beta.

(** The views of the selected hart made explicit. *)
Ltac open_views :=
  let Hi := fresh "Hi" in let HV := fresh "HV" in
  intros V s HV; destruct HV as [Hi HV]; decompose [ex] HV; clear HV;
  pose proof (selects_itself s) as Hsel; rewrite Hi in Hsel;
  match goal with c : features |- _ => destruct c as [? [] [] ? ? ?] end.

(** The selected hart is where the step should leave it. *)
Ltac left_as P :=
  unfold P; split; [assumption|];
  match goal with HV : ?V ?i = _ |- context [?V ?i] => eval_view HV; rewrite HV end;
  repeat eexists.

Ltac step_done P := repeat rstep; split; [verdict|left_as P].

(** The version is a feature of the views. *)
Lemma selected_version c n p V s :
  selected c n p V s -> (DMSTATUS_VERSION_1_0 <=? DMPredictor.version p) = v1_0 c.
Proof.
  intros Hp. destruct (selected_sees c n p V s Hp) as [Hs _]. by rewrite <-(sees_features _ _ _ _ Hs).
Qed.

Lemma vwp_predicted_pending `{Clock} c n now p V s (Q : Z -> views -> Z -> Prop) :
  selected c n p V s ->
  (forall w, shows c (hart (V (at_hart s))) w ->
     ndmresetpending w = v1_0 c && ndm (V (at_hart s)) -> Q w V s) ->
  vwp c n now (RunControlSequence.predicted_dmstatus p) V s Q.
Proof.
  intros Hp Hq q Hq'. destruct (selected_sees c n p V s Hp) as [Hs Hh].
  destruct (expect_pending _ _ _ _ Hs Hh) as (w & He & Hw & Hn).
  unfold RunControlSequence.predicted_dmstatus. rewrite He. split; [done|]. exists V. auto.
Qed.

(** The word a dmstatus read returns, with ndmresetpending. *)
Ltac pending_shows :=
  let w := fresh "w" in let Hn := fresh "Hn" in
  intros w Hn;
  match goal with HV : ?V ?i = _, Hi : at_hart ?s = ?i |- _ =>
    rewrite Hi, HV in Hn |- *; cbn [hart ndm Expectation.v1_0 HartState.halted HartState.running
      HartState.resume_ack HartState.havereset andb] in Hn |- * end;
  destruct Hn as [??????????]; intros Hn.

Section steps.
Context `{Clock} (c : features) (n : nat) (now : Z) (i : nat).

Abbreviation step P e Q := (step_spec c n now P e (fun r => StepResult.ok r = true) Q).

Lemma tc_rst_001_deassert_spec : step (held i) tc_rst_001_deassert (rest i false).
Proof. unfold tc_rst_001_deassert. open_views; step_done rest. Qed.

Lemma tc_rst_002_spec : step (rest i true) tc_rst_002 (rest i false).
Proof. unfold tc_rst_002. open_views; step_done rest. Qed.

Lemma tc_rst_003_spec : step (rest i false) tc_rst_003 (rest i false).
Proof. unfold tc_rst_003. open_views; step_done rest. Qed.

Lemma tc_rst_004_spec : step (rest i false) tc_rst_004 (rest i false).
Proof. unfold tc_rst_004. open_views; step_done rest. Qed.

Lemma tc_rst_006_spec : step (rest i false) tc_rst_006 (rest i false).
Proof. unfold tc_rst_006. open_views; step_done rest. Qed.

Lemma tc_dhs_006_spec : step (rest i false) tc_dhs_006_probe (rest i false).
Proof. unfold tc_dhs_006_probe, bit0. open_views; step_done rest. Qed.

Lemma tc_ka_001_spec : step (rest i false) tc_ka_001 (rest i false).
Proof. unfold tc_ka_001, bit0. open_views; step_done rest. Qed.

Lemma tc_rst_001_haltreq_spec b : step (rest i b) tc_rst_001_haltreq_during_reset (rest i true).
Proof.
  unfold tc_rst_001_haltreq_during_reset. open_views; step_done rest.
Qed.

(** Asserting ndmreset: a DM of version 1.0 shows ndmresetpending, as predicted. *)
Lemma tc_rst_001_assert_spec b : step (rest i b) tc_rst_001_assert (held i).
Proof.
  unfold tc_rst_001_assert. open_views.
  all: do 2 rstep; unfold ndmreset; do 2 rstep.
  all: apply vwp_read_pending; pending_shows; rstep.
  all: match goal with Hp : selected _ _ ?p _ _ |- _ =>
         rewrite (selected_version _ _ _ _ _ Hp); cbn [Expectation.v1_0] end.
  all: match goal with |- vwp (mk_features _ _ _ ?b _ _) _ _ _ _ _ _ => destruct b end.
  all: do 2 rstep.
  all: lazymatch goal with
       | |- vwp _ _ _ (RunControlSequence.predicted_dmstatus _) _ _ _ =>
           apply vwp_predicted_pending; [assumption|pending_shows; do 2 rstep]
       | |- _ => rstep
       end.
  all: split; [verdict|left_as held].
Qed.

End steps.

(** ** Reading x0 while ndmreset is asserted *)

(** The command word of a read of x0. *)
Definition read_x0 : Z :=
  Z.lor (Z.lor (Z.lor (Z.shiftl 0 24) (Z.shiftl 2 20)) (Z.land 0x1000 0xFFFF)) (Z.shiftl 1 17).

Lemma on_write_read_x0 p :
  DMPredictor.observed_cmdbusy p = false ->
  DMPredictor.on_write DMI.COMMAND read_x0 p =
  p <| DMPredictor.last_command := read_x0 |> <| DMPredictor.data0_pending_valid := true |>
    <| DMPredictor.data0_pending_value := 0 |>.
Proof.
  intros Hb. change DMI.COMMAND with ADDR_COMMAND. rewrite write_command_eq by done. reflexivity.
Qed.

(** It moves no hart, so the views stay. *)
Lemma read_x0_selected c n p V s :
  selected c n p V s ->
  selected c n (p <| DMPredictor.last_command := read_x0 |>
                  <| DMPredictor.data0_pending_valid := true |>
                  <| DMPredictor.data0_pending_value := 0 |>) V s.
Proof.
  intros (Hv & Ha & Hs & Hn). split_and!; try assumption.
  intros j Hj. destruct (Hv j Hj). by split.
Qed.

Lemma expects_read_x0 `{Clock} c n p V s now :
  has_cfg c = true -> cmdbusy c = false -> selected c n p V s ->
  expects (read_gpr 0x1000) p s now (fun _ q s' t => t = now /\ s' = s /\ selected c n q V s).
Proof.
  intros Hc Hb Hp.
  assert (DMPredictor.cfg_valid p = true /\ DMPredictor.observed_cmdbusy p = false) as [Hc' Hb'].
  { destruct (selected_sees c n p V s Hp) as [Hs _].
    rewrite <-Hc, <-Hb, <-(sees_features _ _ _ _ Hs). by split. }
  pose proof (read_x0_selected c n p V s Hp) as Hq. unfold expects, read_gpr.
  cbn [bind wr predicted]. fold read_x0. rewrite (on_write_read_x0 p Hb').
  destruct Hq as (Hv & Ha & Hs & Hn). set (q := _ <| DMPredictor.data0_pending_value := 0 |>) in *.
  assert (DMPredictor.cfg_valid q = true /\ DMPredictor.data0_pending_valid q = true) as [Hcq Hdq]
    by by split.
  clearbody q. rewrite predicted_bind, predicted_wait_abstractcs by done. cbn [rd predicted].
  assert (exists v, DMPredictor.expect q DMI.DATA0 = Ok v) as [v ->].
  { unfold DMPredictor.expect, DMPredictor.has_model. rewrite Hcq, Ha, Hdq.
    unfold DMPredictor.predict. change (DMPredictor._is_data DMI.DATA0) with true.
    cbn -[Z.leb]. destruct (_ <=? _); by eexists. }
  done.
Qed.

Section survival.
Context {T : Type} `{ModelBacked T} `{Clock} (c : features) (n : nat) (now : Z) (i : nat).

Lemma step_spec_run {A} Phi (e : M A) good Psi (w : W T) :
  step_spec c n now Phi e good Psi -> on_views c n now Phi w ->
  exists a, snd (Transport.run e w) = Ok a /\ good a /\
    on_views c n now Psi (fst (Transport.run e w)).
Proof.
  intros He (Hl & Hnow & V & Hs & HV).
  pose proof (He V (self w) HV _ Hs) as Hx. rewrite <-Hnow in Hx.
  destruct (expects_run e w _ Hl Hx) as (a & Hr & Hl' & Ht & V' & Hs' & Hg & HV').
  exists a. split; [done|]. split; [done|]. split; [done|]. split; [congruence|]. by exists V'.
Qed.

Lemma assert_spec b : step_spec c n now (rest i b) (ndmreset true) (fun _ => True) (held i).
Proof. unfold ndmreset. open_views; repeat rstep; (split; [done|left_as held]). Qed.

Lemma read_x0_spec :
  has_cfg c = true -> cmdbusy c = false ->
  step_spec c n now (held i) (read_gpr 0x1000) (fun _ => True) (held i).
Proof.
  intros Hcfg Hbusy V s HV p Hp.
  eapply expects_mono; [by apply (expects_read_x0 c n p V s)|].
  cbn. intros _ q s' t (-> & -> & Hq). split; [done|]. by exists V.
Qed.

Lemma after_survival_spec :
  step_spec c n now (held i) (after_survival true) (fun r => StepResult.ok r = true) (rest i false).
Proof. unfold after_survival, bit0. open_views; step_done rest. Qed.

(** An access the model answers during reset survives, and leaves the DM alive. *)
Lemma tc_rst_005_passes :
  has_cfg c = true -> cmdbusy c = false ->
  passes (on_views c n now (rest i false)) (tc_rst_005 (T := T)) (on_views c n now (rest i false)).
Proof.
  intros Hcfg Hbusy w Hw. unfold tc_rst_005.
  destruct (step_spec_run _ _ _ _ w (assert_spec false) Hw) as (a & Ha & _ & Hw1).
  destruct (Transport.run (ndmreset true) w) as [w1 r1]. cbn in Ha, Hw1. subst r1.
  destruct (step_spec_run _ _ _ _ w1 (read_x0_spec Hcfg Hbusy) Hw1) as (v & Hv & _ & Hw2).
  destruct (Transport.run (read_gpr 0x1000) w1) as [w2 r2]. cbn in Hv, Hw2. subst r2.
  cbn [survival]. exact (result_step_passes c n now _ _ _ after_survival_spec w2 Hw2).
Qed.

End survival.

(** ** The session *)

Section session.
Context {T : Type} `{ModelBacked T} `{Clock} (c : features) (n : nat) (now : Z).

(** At rest, whether halted or not. *)
Definition at_rest (v : view) : Prop :=
  exists hr ra b hv nx,
    v = mk_view (HartState.mk hr ra false false b (negb b) hv true false nx) false false.

Lemma at_rest_activation V i : at_rest (V i) -> at_rest (step_views c activation V i).
Proof.
  clear. intros (hr & ra & b & hv & nx & HV). unfold step_views. rewrite HV.
  destruct c as [? [] ? ? ? ?], b, (Z.of_nat i =? _); repeat eexists.
Qed.

Lemma select_at_rest h i :
  at_hart h = i -> (i < n)%nat ->
  step_spec c n now (fun _ V => at_rest (V i)) (select_hart h) (fun _ => True)
    (fun s V => exists b, rest i b s V).
Proof.
  intros Hi Hn V s (hr & ra & b & hv & nx & HV). apply vwp_select_hart; [lia|]. split; [done|].
  exists b. split; [done|]. rewrite step_views_at by by rewrite <-Hi, at_hart_spec. rewrite HV.
  destruct c as [? [] ? ? ? ?], b; repeat eexists.
Qed.

Lemma assert_any_spec i :
  step_spec c n now (fun s V => exists b, rest i b s V) tc_rst_001_assert
    (fun r => StepResult.ok r = true) (held i).
Proof. intros V s [b HV]. by apply (tc_rst_001_assert_spec c n now i b). Qed.

Ltac rst spec := eapply chain_cons; [eapply result_step_passes, spec|].

Ltac reset_cases :=
  rst tc_rst_001_deassert_spec; rst tc_rst_001_haltreq_spec; rst tc_rst_002_spec;
  rst tc_rst_003_spec; rst tc_rst_004_spec;
  eapply chain_cons; [by apply tc_rst_005_passes|];
  rst tc_rst_006_spec; rst tc_dhs_006_spec; rst tc_ka_001_spec; constructor.


End session.

(** ** Termination of the polling loop *)

(** On any transport the loop ends: the fuel it is given is never used up, so it
    returns, or raises what a read raised. *)
Lemma poll_halted_ends {T} `{DebugTransport T} `{Clock} fuel deadline halted (w : W T) :
  (forall a t, snd (t_read a t) <> Raise OutOfFuel) ->
  deadline - clock w < 1000 * (Z.of_nat fuel - 1) -> (1 <= fuel)%nat ->
  snd (run (poll_halted fuel deadline halted) w) <> Raise OutOfFuel.
Proof.
  intros Ht. revert halted w. induction fuel as [|fuel IH]; intros halted w Hd Hf; [lia|].
  destruct halted; [done|]. cbn [poll_halted run].
  destruct (Z.ltb_spec (clock w) deadline); cbn [run]; [|done].
  set (w1 := w <| clock := _ |>).
  assert (clock w + 1000 <= clock w1) as Hc by exact (sleep_law (clock w) 1000).
  rewrite run_bind. cbn [is_halted bind rd run].
  pose proof (Ht DMI.DMSTATUS (dev w1)) as Hr.
  destruct (t_read DMI.DMSTATUS (dev w1)) as [t [v|e]]; cbn [run snd];
    [|intros [= ->]; by apply Hr].
  destruct fuel as [|fuel]; [lia|]. apply IH; [|lia].
  match goal with |- _ - clock ?w2 < _ => change (clock w2) with (clock w1) end. lia.
Qed.

(** The fuel the step gives it is enough. *)
Lemma poll_halted_fuel {T} `{DebugTransport T} `{Clock} halted (w : W T) :
  (forall a t, snd (t_read a t) <> Raise OutOfFuel) ->
  snd (run (poll_halted (poll_fuel POLL_TIMEOUT) (clock w + POLL_TIMEOUT) halted) w) <> Raise OutOfFuel.
Proof.
  intros Ht. apply poll_halted_ends; [done| |]; unfold poll_fuel.
  - change (POLL_TIMEOUT / RISCVDebug.POLL_INTERVAL) with 2000. unfold POLL_TIMEOUT. lia.
  - lia.
Qed.

(** ** Witness *)

(** The mock of a configured version 1.0 model with hartreset, hart 1 halted. *)
Definition p_reset : DMPredictor.t :=
  DMPredictor.on_write DMI.DMCONTROL (dmcontrol (DmcontrolArgs.default
      <| DmcontrolArgs.dmactive := true |> <| DmcontrolArgs.hartsel := 1 |>
      <| DmcontrolArgs.haltreq := true |>))
    (DMPredictor.set_config
       (DeclaredConfig.default <| DeclaredConfig.num_harts := 2 |>
          <| DeclaredConfig.version := DMSTATUS_VERSION_1_0 |>
          <| DeclaredConfig.supports_hartreset := true |>)
       (DMPredictor.init Kwargs.default)).

#[local] Existing Instance exact_clock.

