(* ===== verification/Closures.v ===== *)
(** Closures of the test sequences that share variables or catch exceptions.

    A sequence builder may keep a dictionary or a list its steps share: such a
    step is a program whose state pairs the tracked hartsel with the variables,
    and [lib] runs a command of the library in it.  A step with a [try] statement
    is an [act], a function on the world that may raise, as the transport's own
    exceptions are only seen when the program runs. *)

From S2P Require Import Prelude Registers Predictor Transport RiscvDm Session Sequences Expectation.
Import RISCVDebug.

Local Open Scope string_scope.
Local Open Scope list_scope.
Local Open Scope Z_scope.
Local Open Scope prog_scope.

(** ** Text *)

(** [f"{v:#0<w>x}"]: at least [w] characters, the prefix and the sign included. *)
Definition py_hex_alt (w : nat) (v : Z) : string :=
  let digits := S (Z.to_nat (Z.log2 (Z.abs v) / 4)) in
  if v <? 0 then "-0x" +:+ hex_digits (Nat.max (w - 3) digits) (- v) EmptyString
  else "0x" +:+ hex_digits (Nat.max (w - 2) digits) v EmptyString.

(** [hex(v)]. *)
Definition hex (v : Z) : string := py_hex_alt 0 v.

(** [f"{v:+d}"]. *)
Definition signed (v : Z) : string := (if v <? 0 then EmptyString else "+") +:+ pretty v.

(** [f"{v:03d}"] of an index. *)
Definition three_digits (v : Z) : string :=
  (if v <? 10 then "00" else if v <? 100 then "0" else EmptyString) +:+ pretty v.

(** [str] of a list whose items print as [l]. *)
Definition py_list (l : list string) : string := "[" +:+ String.concat ", " l +:+ "]".

(** ** Dictionaries from strings to numbers, in insertion order *)

Definition Dict : Type := list (string * Z).

(** [d[k] = v]: a key keeps its place. *)
Fixpoint dict_set (k : string) (v : Z) (d : Dict) : Dict :=
  match d with
  | [] => [(k, v)]
  | (k', v') :: d => if String.eqb k k' then (k, v) :: d else (k', v') :: dict_set k v d
  end.

(** [d[k]]. *)
Definition dict_lookup (k : string) (d : Dict) : result Z :=
  match List.find (fun '(k', _) => String.eqb k k') d with
  | Some (_, v) => Ok v
  | None => Raise (KeyError k)
  end.

(** A computation that may raise, in a program. *)
Definition of_result {S A} (r : result A) : prog S A :=
  match r with Ok a => Ret a | Raise e => Throw e end.

(** ** Programs with variables *)

Fixpoint lib {V A} (c : M A) : prog (Z * V) A :=
  match c with
  | Ret a => Ret a
  | Throw e => Throw e
  | Rd addr k => Rd addr (fun v => lib (k v))
  | Wr addr v k => Wr addr v (lib k)
  | Get k => Get (fun s => lib (k (fst s)))
  | Put s k => Get (fun s' => Put (s, snd s') (lib k))
  | Predictor k => Predictor (fun p => lib (k p))
  | Now k => Now (fun n => lib (k n))
  | Sleep d k => Sleep d (lib k)
  end.

Definition vars {V} : prog (Z * V) V := Get (fun s => Ret (snd s)).
Definition set_vars {V} (v : V) : prog (Z * V) unit := Get (fun s => Put (fst s, v) (Ret tt)).

(** [for x in l: f(x)], and the list of the results. *)
Fixpoint for_each {S A B} (f : A -> prog S B) (l : list A) : prog S (list B) :=
  match l with
  | [] => Ret []
  | x :: l =>
      do y <- f x;;
      do ys <- for_each f l;;
      Ret (y :: ys)
  end.

(** [word >> n], which raises on a negative count. *)
Definition py_shr {S} (word n : Z) : prog S Z :=
  if n <? 0 then Throw (ValueError "negative shift count") else Ret (Z.shiftr word n).

(** [v << n], which raises likewise. *)
Definition py_shl {S} (v n : Z) : prog S Z :=
  if n <? 0 then Throw (ValueError "negative shift count") else Ret (Z.shiftl v n).

(** [while time.monotonic() < deadline: v = read(register); if done(v): return; sleep]:
    the value that ended it, or nothing when the deadline passed.  Each round
    sleeps at least the poll interval before the deadline, so [poll_fuel] of the
    timeout is enough fuel.
    single_step_sequence.py:48-51 (_wait_halted, the loop) *)
Fixpoint poll_before {V} (fuel : nat) (done : Z -> bool) (register deadline : Z)
    : prog V (option Z) :=
  match fuel with
  | O => Throw OutOfFuel
  | S fuel =>
      Now (fun now =>
        if now <? deadline then
          do v <- rd register;;
          if done v then Ret (Some v)
          else Sleep POLL_INTERVAL (poll_before fuel done register deadline)
        else Ret None)
  end.

(** ** Steps that catch *)

Section acts.
Context {T S : Type} `{DebugTransport T} `{Clock}.

Definition act (A : Type) : Type := world T S -> world T S * result A.

Definition act_ret {A} (a : A) : act A := fun w => (w, Ok a).

Definition act_bind {A B} (c : act A) (f : A -> act B) : act B := fun w =>
  match c w with
  | (w, Ok a) => f a w
  | (w, Raise e) => (w, Raise e)
  end.

(** [try: c; except: h], where [h] says which exceptions it handles. *)
Definition catch {A} (c : act A) (h : exn -> option (act A)) : act A := fun w =>
  match c w with
  | (w, Ok a) => (w, Ok a)
  | (w, Raise e) => match h e with Some k => k w | None => (w, Raise e) end
  end.

(** [except Exception as e]. *)
Definition on_Exception {A} (h : exn -> act A) (e : exn) : option (act A) :=
  if is_Exception e then Some (h e) else None.

(** A program as a step that may catch. *)
Definition cmd {A} (c : prog S A) : act A := run c.

(** A method of the transport that it may not have. *)
Definition call {A} (name : string) (m : option (T -> T * result A)) : act A := fun w =>
  match m with
  | Some m => let (t, r) := m (dev w) in (w <| dev := t |>, r)
  | None => (w, Raise (AttributeError name))
  end.

(** [except Exception: pass]. *)
Definition quiet {A} (c : act A) (default : A) : act A :=
  catch c (on_Exception (fun _ => act_ret default)).

(** [for x in l: acc = f(acc, x)], where the body says whether to [break]. *)
Fixpoint act_loop {X A} (f : X -> A -> act (bool * A)) (l : list X) (a : A) : act A :=
  match l with
  | [] => act_ret a
  | x :: l => act_bind (f x a) (fun '(stop, a) => if stop : bool then act_ret a else act_loop f l a)
  end.

(** A closure that returns a result, or nothing. *)
Definition act_step (c : act StepResult.t) : DebugSession.step (world T S) := fun w =>
  let (w, r) := c w in
  (w, match r with Ok r => Returned_result r | Raise e => Raised e end).

End acts.
Arguments act : clear implicits.

Declare Scope act_scope.
Delimit Scope act_scope with act.
Bind Scope act_scope with act.
Notation "'do' x '<-' m ';;' k" := (act_bind m (fun x => k))
  (at level 100, x name, m at next level, right associativity) : act_scope.
Notation "m ';;;' k" := (act_bind m (fun _ => k))
  (at level 100, right associativity) : act_scope.

(** ** What lifting a command preserves *)

Section lifting.
Context `{Clock} {V : Type}.

Lemma predicted_lib {A} (c : M A) m s (v : V) now :
  predicted (lib c) m (s, v) now =
  match predicted c m s now with
  | Some (m, s, now, r) => Some (m, (s, v), now, r)
  | None => None
  end.
Proof.
  revert m s now. induction c as [a|e|addr k IH|addr x k IH|k IH|s' k IH|k IH|k IH|d k IH];
    intros m s now; cbn; try done.
  destruct (DMPredictor.expect m addr); [apply IH|done].
Qed.

Lemma expects_lib {A} (c : M A) m s (v : V) now Q :
  expects c m s now (fun a m s now => Q a m (s, v) now) -> expects (lib c) m (s, v) now Q.
Proof.
  unfold expects. rewrite predicted_lib. by destruct (predicted c m s now) as [[[[? ?] ?] [?|?]]|].
Qed.

(** A lifted command does to the world what the command does, and keeps the
    variables. *)
Lemma run_lib {T} `{DebugTransport T} {A} (c : M A) d s (v : V) t h :
  run (lib c) (mk_world (T := T) d (s, v) t h) =
  let (w, r) := run c (mk_world d s t h) in
  (mk_world (dev w) (self w, v) (clock w) (history w), r).
Proof.
  revert d s t h. induction c as [a|e|addr k IH|addr x k IH|k IH|s' k IH|k IH|k IH|n k IH];
    intros d s t h; cbn; try done; try apply IH.
  - destruct (t_read addr d) as [d' [y|e]]; [apply IH|done].
  - destruct (t_write addr x d) as [d' [y|e]]; [apply IH|done].
Qed.

Lemma expects_vars {A} (k : V -> prog (Z * V) A) m s v now Q :
  expects (k v) m (s, v) now Q -> expects (bind vars k) m (s, v) now Q.
Proof. done. Qed.

Lemma expects_set_vars {A} (k : prog (Z * V) A) m s v v' now Q :
  expects k m (s, v') now Q -> expects (set_vars v';;; k) m (s, v) now Q.
Proof. done. Qed.

End lifting.

Lemma expects_shr `{Clock} {S A} (w i : Z) (k : Z -> prog S A) p s now Q :
  0 <= i -> expects (k (Z.shiftr w i)) p s now Q -> expects (do x <- py_shr w i;; k x) p s now Q.
Proof. intros Hi Hk. unfold py_shr. by destruct (Z.ltb_spec i 0); [lia|]. Qed.

Lemma expects_shl `{Clock} {S A} (v i : Z) (k : Z -> prog S A) p s now Q :
  0 <= i -> expects (k (Z.shiftl v i)) p s now Q -> expects (do x <- py_shl v i;; k x) p s now Q.
Proof. intros Hi Hk. unfold py_shl. by destruct (Z.ltb_spec i 0); [lia|]. Qed.

(** A property kept by every round of a loop. *)
Lemma expects_for_each `{Clock} {S A B} (f : A -> prog S B) (I : nat -> list B -> DMPredictor.t -> S -> Z -> Prop)
    l l0 m s now n :
  I n l0 m s now ->
  (forall k x ys m s now, l !! k = Some x -> I (n + k)%nat ys m s now ->
     expects (f x) m s now (fun y m s now => I (Datatypes.S (n + k)) (ys ++ [y]) m s now)) ->
  expects (for_each f l) m s now (fun ys m s now => I (n + length l)%nat (l0 ++ ys) m s now).
Proof.
  revert l0 m s now n. induction l as [|x l IH]; intros l0 m s now n HI Hf; cbn [for_each length].
  - apply expects_ret. by rewrite Nat.add_0_r, app_nil_r.
  - apply expects_bind. eapply expects_mono; [apply (Hf 0%nat x l0); [done|by rewrite Nat.add_0_r]|].
    cbn. intros y m' s' t Hy. rewrite Nat.add_0_r in Hy. apply expects_bind.
    eapply expects_mono; [apply (IH (l0 ++ [y]) m' s' t (Datatypes.S n) Hy)|].
    + intros k x' ys m1 s1 t1 Hk HI1. replace (Datatypes.S n + k)%nat with (n + Datatypes.S k)%nat in * by lia.
      by apply Hf.
    + cbn. intros ys m1 s1 t1 HI1. apply expects_ret.
      replace (n + Datatypes.S (length l))%nat with (Datatypes.S n + length l)%nat by lia.
      by rewrite <-app_assoc in HI1.
Qed.
