(* ===== verification/AccessSequences.v ===== *)
(** The sequences that read status, registers and memory: [sequences/]
    [read_dmstatus_sequence.py], [mem_scan_sequence.py], [discovery_sequence.py],
    [report_halt_status_sequence.py], [gpr_write_sequence.py],
    [csr_access_sequence.py], [program_buffer_sequence.py],
    [sw_breakpoint_progbuf_sequence.py] and [external_trigger_sequence.py]. *)

From S2P Require Import Prelude Registers Predictor Transport RiscvDm Session Sequences Closures.
Import RISCVDebug.

Local Open Scope string_scope.
Local Open Scope list_scope.
Local Open Scope Z_scope.
Local Open Scope prog_scope.

(** [(word >> n) & mask]. *)
Definition slice_of (word n mask : Z) : Z := Z.land (Z.shiftr word n) mask.

Definition ok_or (ok : bool) (bad : string) : string := if ok then "OK" else bad.

Module ReadDmstatus.

(** read_dmstatus_sequence.py:20-22 (read_dmstatus) *)
Definition read_dmstatus : M StepResult.t :=
  do val <- rd DMI.DMSTATUS;;
  report true ("dmstatus = " +:+ py_hex_alt 10 val).

(** read_dmstatus_sequence.py:14-26 (build_read_dmstatus_sequence) *)
Definition build {T} `{DebugTransport T} `{Clock} (mode : string)
    : result (DebugSession.t (W T)) :=
  try session <- DebugSession.init mode false;;
  Ok (DebugSession.add_step "Read dmstatus" (result_step read_dmstatus) session).

End ReadDmstatus.

Module MemScan.

(** mem_scan_sequence.py:34-34 (exp) *)
Definition expectation (expected : option (list Z)) (i : nat) : option Z :=
  match expected with Some l => l !! i | None => None end.

(** mem_scan_sequence.py:36-46 (make_step) *)
Definition make_step (a : Z) (e : option Z) (idx : Z) : M StepResult.t :=
  do val <- read_mem32 a;;
  let line := "[" +:+ three_digits idx +:+ "] " +:+ py_hex_alt 10 a +:+ " = " +:+ py_hex_alt 10 val in
  match e with
  | None => report true line
  | Some e =>
      let ok := val =? e in
      report ok (line +:+ "  expected " +:+ py_hex_alt 10 e +:+ "  " +:+
                 (if ok then "✓" else "✗ MISMATCH"))
  end.

(** mem_scan_sequence.py:32-48 (build_mem_scan_sequence, the loop) *)
Definition scan_step {T} `{DebugTransport T} `{Clock} (base_addr : Z) (expected : option (list Z))
    (session : DebugSession.t (W T)) (i : nat) : DebugSession.t (W T) :=
  let addr := base_addr + Z.of_nat i * 4 in
  DebugSession.add_step ("Read mem[" +:+ py_hex_alt 10 addr +:+ "]")
    (result_step (make_step addr (expectation expected i) (Z.of_nat i))) session.

(** mem_scan_sequence.py:15-50 (build_mem_scan_sequence) *)
Definition build {T} `{DebugTransport T} `{Clock} (base_addr word_count : Z)
    (expected : option (list Z)) (mode : string) : result (DebugSession.t (W T)) :=
  try session <- DebugSession.init mode false;;
  let session := DebugSession.add_step "Activate DM" (none_step activate) session in
  let session := DebugSession.add_step "Halt hart" (none_step (halt DEFAULT_TIMEOUT)) session in
  Ok (fold_left (scan_step base_addr expected) (seq 0 (Z.to_nat word_count)) session).

End MemScan.

Module Discovery.

(** discovery_sequence.py:24-31 (_decode_hartinfo) *)
Definition _decode_hartinfo (hi : Z) : string :=
  let nscratch := slice_of hi 20 0xF in
  let dataaccess := slice_of hi 16 1 in
  let datasize := slice_of hi 12 0xF in
  let dataaddr := Z.land hi 0xFFF in
  "nscratch=" +:+ pretty nscratch +:+ " dataaccess=" +:+ pretty dataaccess +:+ " (" +:+
  (if truthy dataaccess then "memory" else "register") +:+ "-backed) datasize=" +:+
  pretty datasize +:+ " dataaddr=" +:+ py_hex 3 dataaddr.

(** discovery_sequence.py:51-59 (tc_dis_003) *)
Definition tc_dis_003 : M StepResult.t :=
  do first <- read_hartinfo;;
  do second <- read_hartinfo;;
  let ok := first =? second in
  report ok
    ("TC-DIS-003: hartinfo=" +:+ py_hex 8 first +:+ " (" +:+ _decode_hartinfo first +:+
     "); re-read " +:+ py_hex 8 second +:+ "  " +:+ (if ok then "stable OK" else "UNSTABLE")).

(** discovery_sequence.py:34-62 (build_discovery_sequence) *)
Definition build {T} `{DebugTransport T} `{Clock} (mode : string)
    : result (DebugSession.t (W T)) :=
  try session <- DebugSession.init mode false;;
  let session := DebugSession.add_step "Activate Debug Module" (none_step activate) session in
  Ok (DebugSession.add_step "TC-DIS-003: hartinfo discovery" (result_step tc_dis_003) session).

End Discovery.

Module ReportHaltStatus.

(** The two checks differ in the bit they expect.
    report_halt_status_sequence.py:40-48 (tc_dhs_001_running) *)
Definition tc_dhs_001_running (hart : Z) : M StepResult.t :=
  do summ <- read_haltsum0;;
  do shifted <- py_shr summ hart;;
  let bit := Z.land shifted 1 in
  let ok := bit =? 0 in
  report ok
    ("TC-DHS-001: haltsum0=" +:+ py_hex 8 summ +:+ " while running, hart" +:+ pretty hart +:+
     " bit=" +:+ pretty bit +:+ " (expect 0)  " +:+ ok_or ok "MISMATCH").

(** report_halt_status_sequence.py:54-62 (tc_dhs_001_halted) *)
Definition tc_dhs_001_halted (hart : Z) : M StepResult.t :=
  do summ <- read_haltsum0;;
  do shifted <- py_shr summ hart;;
  let bit := Z.land shifted 1 in
  let ok := bit =? 1 in
  report ok
    ("TC-DHS-001: haltsum0=" +:+ py_hex 8 summ +:+ " while halted, hart" +:+ pretty hart +:+
     " bit=" +:+ pretty bit +:+ " (expect 1)  " +:+ ok_or ok "MISMATCH").

(** report_halt_status_sequence.py:23-65 (build_report_halt_status_sequence) *)
Definition build {T} `{DebugTransport T} `{Clock} (mode : string) (hart : Z)
    : result (DebugSession.t (W T)) :=
  try session <- DebugSession.init mode false;;
  let add name fn session := DebugSession.add_step name fn session in
  let session := add "Activate Debug Module" (none_step activate) session in
  let session := add "TC-DHS-001: haltsum0 with hart running"
    (result_step (tc_dhs_001_running hart)) session in
  let session := add "Halt hart" (none_step (halt DEFAULT_TIMEOUT)) session in
  let session := add "TC-DHS-001: haltsum0 with hart halted"
    (result_step (tc_dhs_001_halted hart)) session in
  Ok session.

End ReportHaltStatus.

Module GprWrite.

(** gpr_write_sequence.py:19-19 (GPR_X0_REGNO) *)
Definition GPR_X0_REGNO : Z := 0x1000.

(** gpr_write_sequence.py:42-50 (tc_ac_002_roundtrip) *)
Definition tc_ac_002_roundtrip (regno pattern : Z) : M StepResult.t :=
  write_gpr regno pattern;;;
  do readback <- read_gpr regno;;
  let ok := readback =? pattern in
  report ok
    ("TC-AC-002: wrote regno=" +:+ py_hex 4 regno +:+ " <- " +:+ py_hex 8 pattern +:+
     ", read back " +:+ py_hex 8 readback +:+ "  " +:+ ok_or ok "MISMATCH").

(** gpr_write_sequence.py:57-67 (tc_ac_002_x0) *)
Definition tc_ac_002_x0 : M StepResult.t :=
  write_gpr GPR_X0_REGNO 0xFFFFFFFF;;;
  do readback <- read_gpr GPR_X0_REGNO;;
  let ok := readback =? 0 in
  report ok
    ("TC-AC-002 (x0): wrote 0xffffffff, read back " +:+ py_hex 8 readback +:+
     " (must be 0 regardless of what was written) " +:+ ok_or ok "FAIL").

(** gpr_write_sequence.py:23-70 (build_gpr_write_sequence) *)
Definition build {T} `{DebugTransport T} `{Clock} (mode : string) (regno pattern : Z)
    : result (DebugSession.t (W T)) :=
  try session <- DebugSession.init mode false;;
  let add name fn session := DebugSession.add_step name fn session in
  let session := add "Activate Debug Module" (none_step activate) session in
  let session := add "Halt hart" (none_step (halt DEFAULT_TIMEOUT)) session in
  let session := add ("TC-AC-002: write/read-back regno=" +:+ py_hex 4 regno)
    (result_step (tc_ac_002_roundtrip regno pattern)) session in
  let session := add "TC-AC-002: x0 always reads back 0" (result_step tc_ac_002_x0) session in
  Ok session.

End GprWrite.

Module CsrAccess.

(** csr_access_sequence.py:32-33 (DSCRATCH0_REGNO, DSCRATCH1_REGNO) *)
Definition DSCRATCH0_REGNO : Z := 0x07B2.
Definition DSCRATCH1_REGNO : Z := 0x07B3.

(** csr_access_sequence.py:36-36 (CMDERR_NOT_SUPPORTED) *)
Definition CMDERR_NOT_SUPPORTED : Z := 2.

(** csr_access_sequence.py:57-73 (tc_ac_005) *)
Definition tc_ac_005 (pattern0 : Z) : M StepResult.t :=
  write_gpr DSCRATCH0_REGNO pattern0;;;
  do abstractcs <- read_abstractcs;;
  let cmderr := slice_of abstractcs 8 0x7 in
  if cmderr =? CMDERR_NOT_SUPPORTED then
    report true
      ("TC-AC-005: dscratch0 access reports cmderr=2 (not supported) -- a legitimate pass " +:+
       "per spec #3.7.1.1's discovery-by-attempting discipline")
  else
    do readback <- read_gpr DSCRATCH0_REGNO;;
    let ok := readback =? pattern0 in
    report ok
      ("TC-AC-005: dscratch0 wrote " +:+ py_hex 8 pattern0 +:+ ", read back " +:+
       py_hex 8 readback +:+ "  " +:+ ok_or ok "MISMATCH").

(** csr_access_sequence.py:77-87 (tc_dcsr_003a) *)
Definition tc_dcsr_003a (pattern0 pattern1 : Z) : M StepResult.t :=
  write_gpr DSCRATCH0_REGNO pattern0;;;
  write_gpr DSCRATCH1_REGNO pattern1;;;
  do r0 <- read_gpr DSCRATCH0_REGNO;;
  do r1 <- read_gpr DSCRATCH1_REGNO;;
  let ok := (r0 =? pattern0) && (r1 =? pattern1) in
  report ok
    ("TC-DCSR-003: dscratch0/1 read back " +:+ py_hex 8 r0 +:+ "/" +:+ py_hex 8 r1 +:+
     " (wrote " +:+ py_hex 8 pattern0 +:+ "/" +:+ py_hex 8 pattern1 +:+ ")  " +:+
     ok_or ok "MISMATCH").

(** csr_access_sequence.py:99-121 (tc_dcsr_003b) *)
Definition tc_dcsr_003b (pattern0 pattern1 : Z) : M StepResult.t :=
  do hartinfo <- read_hartinfo;;
  let nscratch := slice_of hartinfo 20 0xF in
  write_gpr DSCRATCH0_REGNO pattern0;;;
  write_gpr DSCRATCH1_REGNO pattern1;;;
  resume DEFAULT_TIMEOUT;;;
  halt DEFAULT_TIMEOUT;;;
  do r0 <- read_gpr DSCRATCH0_REGNO;;
  do r1 <- read_gpr DSCRATCH1_REGNO;;
  do abstractcs <- read_abstractcs;;
  let cmderr := slice_of abstractcs 8 0x7 in
  let kept := (r0 =? pattern0) && (r1 =? pattern1) in
  let '(ok, verdict, note) :=
    if truthy nscratch then
      let ok := cmderr =? 0 in
      (ok, if ok then "still accessible after the DM used them"
           else "access failed, cmderr=" +:+ pretty cmderr,
       if kept then "kept the debugger's value anyway" else "clobbered, as declared")
    else
      let ok := kept && (cmderr =? 0) in
      (ok, if ok then "preserved" else "NOT preserved",
       "nscratch=0: the DM claims no scratch, so they must survive") in
  report ok
    ("TC-DCSR-003: hartinfo.nscratch=" +:+ pretty nscratch +:+
     "; after resume->halt dscratch0/1 read " +:+ py_hex 8 r0 +:+ "/" +:+ py_hex 8 r1 +:+
     "  " +:+ verdict +:+ " (" +:+ note +:+ ")").

(** csr_access_sequence.py:38-125 (build_csr_access_sequence) *)
Definition build {T} `{DebugTransport T} `{Clock} (mode : string) (pattern0 pattern1 : Z)
    : result (DebugSession.t (W T)) :=
  try session <- DebugSession.init mode false;;
  let add name fn session := DebugSession.add_step name fn session in
  let session := add "Activate Debug Module" (none_step activate) session in
  let session := add "Halt hart" (none_step (halt DEFAULT_TIMEOUT)) session in
  let session := add "TC-AC-005: dscratch0 write/read-back"
    (result_step (tc_ac_005 pattern0)) session in
  let session := add "TC-DCSR-003: dscratch0/1 hold their value while halted"
    (result_step (tc_dcsr_003a pattern0 pattern1)) session in
  let session := add "TC-DCSR-003: dscratch ownership across a resume"
    (result_step (tc_dcsr_003b pattern0 pattern1)) session in
  Ok session.

End CsrAccess.

Module ProgramBuffer.

(** program_buffer_sequence.py:24-28 (ADDI_X5_X5_1 .. X5_REGNO) *)
Definition ADDI_X5_X5_1 : Z := 0x00128293.
Definition EBREAK : Z := 0x00100073.
Definition X5_REGNO : Z := 0x1005.

(** [progbufsize_holder]: the size and impebreak, once discovered.
    program_buffer_sequence.py:57-57 (progbufsize_holder) *)
Definition holder : Type := option (Z * bool).

(** program_buffer_sequence.py:58-70 (tc_ac_013) *)
Definition tc_ac_013 : prog (Z * holder) StepResult.t :=
  do abstractcs <- lib read_abstractcs;;
  let progbufsize := slice_of abstractcs 24 0x1F in
  let impebreak := truthy (slice_of abstractcs 22 1) in
  set_vars (Some (progbufsize, impebreak));;;
  report true
    ("TC-AC-013: abstractcs.progbufsize=" +:+ pretty progbufsize +:+ ", impebreak=" +:+
     py_bool impebreak +:+ "  (gate for TC-PB-* below; " +:+
     "progbufsize=0 => Program Buffer not implemented, rest is N/A)").

(** The steps below do nothing on a buffer of fewer than two words.
    program_buffer_sequence.py:76-77 (tc_pb_001, the gate) *)
Definition gated (tc : string) (c : M StepResult.t) : prog (Z * holder) StepResult.t :=
  do h <- vars;;
  let size := match h with Some (size, _) => size | None => 0 end in
  if size <? 2 then report true (tc +:+ ": N/A -- progbufsize < 2") else lib c.

(** program_buffer_sequence.py:74-92 (tc_pb_001) *)
Definition tc_pb_001 (progbuf_readable : bool) : M StepResult.t :=
  write_progbuf 0 ADDI_X5_X5_1;;;
  write_progbuf 1 EBREAK;;;
  do r0 <- read_progbuf 0;;
  do r1 <- read_progbuf 1;;
  if progbuf_readable then
    let ok := (r0 =? ADDI_X5_X5_1) && (r1 =? EBREAK) in
    report ok
      ("TC-PB-001: progbuf0=" +:+ py_hex 8 r0 +:+ " (expect " +:+ py_hex 8 ADDI_X5_X5_1 +:+
       "), progbuf1=" +:+ py_hex 8 r1 +:+ " (expect " +:+ py_hex 8 EBREAK +:+ ")  " +:+
       ok_or ok "MISMATCH")
  else
    let ok := (r0 =? 0) && (r1 =? 0) in
    report ok
      ("TC-PB-001: progbuf0=" +:+ py_hex 8 r0 +:+ ", progbuf1=" +:+ py_hex 8 r1 +:+
       " (expect 0x00000000/0x00000000 -- write-only target, spec 1.0 #731)  " +:+
       ok_or ok "MISMATCH").

(** program_buffer_sequence.py:96-110 (tc_pb_002) *)
Definition tc_pb_002 (progbuf_readable : bool) : M StepResult.t :=
  do before <- read_progbuf 1;;
  write_progbuf 0 0xDEADBEEF;;;
  do after <- read_progbuf 1;;
  let ok := before =? after in
  report ok
    ("TC-PB-002: progbuf1 before/after writing progbuf0: " +:+ py_hex 8 before +:+ "/" +:+
     py_hex 8 after +:+ "  " +:+ (if ok then "OK -- unaffected" else "FAIL -- disturbed") +:+
     (if progbuf_readable then EmptyString
      else " (write-only target, spec 1.0 #731 -- both always read 0, not a meaningful " +:+
           "isolation check here)")).

(** program_buffer_sequence.py:114-127 (tc_pb_003) *)
Definition tc_pb_003 : M StepResult.t :=
  write_gpr X5_REGNO 0;;;
  write_progbuf 0 ADDI_X5_X5_1;;;
  write_progbuf 1 EBREAK;;;
  execute_progbuf;;;
  do x5 <- read_gpr X5_REGNO;;
  let ok := x5 =? 1 in
  report ok
    ("TC-PB-003: x5 after addi-x5-x5-1;ebreak via postexec = " +:+ py_hex 8 x5 +:+
     " (expect 0x00000001)  " +:+ ok_or ok "MISMATCH").

(** program_buffer_sequence.py:31-133 (build_program_buffer_sequence) *)
Definition build {T} `{DebugTransport T} `{Clock} (mode : string) (progbuf_readable : bool)
    : result (DebugSession.t (world T (Z * holder))) :=
  try session <- DebugSession.init mode false;;
  let add name fn session := DebugSession.add_step name fn session in
  let session := add "Activate Debug Module" (none_step (lib activate)) session in
  let session := add "Halt hart" (none_step (lib (halt DEFAULT_TIMEOUT))) session in
  let session := add "TC-AC-013: abstractcs discovery" (result_step tc_ac_013) session in
  let session := add "TC-PB-001: progbuf0/1 write/read-back"
    (result_step (gated "TC-PB-001" (tc_pb_001 progbuf_readable))) session in
  let session := add "TC-PB-002: progbuf1 unaffected by progbuf0 write"
    (result_step (gated "TC-PB-002" (tc_pb_002 progbuf_readable))) session in
  let session := add "TC-PB-003: execute addi x5,x5,1; ebreak via postexec"
    (result_step (gated "TC-PB-003" tc_pb_003)) session in
  Ok session.

End ProgramBuffer.

Module SwBreakpoint.

(** sw_breakpoint_progbuf_sequence.py:27-31 (EBREAK, DCSR_CAUSE_HALTREQ) *)
Definition EBREAK : Z := 0x00100073.
Definition DCSR_CAUSE_HALTREQ : Z := 3.

(** sw_breakpoint_progbuf_sequence.py:52-59 (halt_and_record_cause) *)
Definition halt_and_record_cause : M StepResult.t :=
  halt DEFAULT_TIMEOUT;;;
  do cause <- get_dcsr_cause;;
  report (cause =? DCSR_CAUSE_HALTREQ)
    ("Halted via haltreq, dcsr.cause=" +:+ pretty cause +:+ " (expect " +:+
     pretty DCSR_CAUSE_HALTREQ +:+ "=haltreq)").

(** sw_breakpoint_progbuf_sequence.py:63-83 (tc_pb_ebreak_on_halted) *)
Definition tc_pb_ebreak_on_halted : M StepResult.t :=
  do abstractcs <- read_abstractcs;;
  let progbufsize := slice_of abstractcs 24 0x1F in
  if progbufsize <? 1 then report true "N/A -- progbufsize < 1"
  else
    do cause_before <- get_dcsr_cause;;
    write_progbuf 0 EBREAK;;;
    execute_progbuf;;;
    do cause_after <- get_dcsr_cause;;
    do still_halted <- is_halted;;
    report still_halted
      ("ebreak via progbuf on already-halted hart: dcsr.cause " +:+ pretty cause_before +:+
       " -> " +:+ pretty cause_after +:+ " (" +:+
       (if cause_before =? cause_after then "unchanged" else "changed") +:+ "), still_halted=" +:+
       py_bool still_halted +:+ ". Reporting only -- see docstring: this is a " +:+
       "real observation about this DUT, not a predicted result.").

(** sw_breakpoint_progbuf_sequence.py:34-89 (build_sw_breakpoint_progbuf_sequence) *)
Definition build {T} `{DebugTransport T} `{Clock} (mode : string)
    : result (DebugSession.t (W T)) :=
  try session <- DebugSession.init mode false;;
  let add name fn session := DebugSession.add_step name fn session in
  let session := add "Activate Debug Module" (none_step activate) session in
  let session := add "Halt hart, record baseline dcsr.cause"
    (result_step halt_and_record_cause) session in
  let session := add "Execute lone ebreak via Program Buffer on already-halted hart"
    (result_step tc_pb_ebreak_on_halted) session in
  Ok session.

End SwBreakpoint.

Module ExternalTrigger.

(** external_trigger_sequence.py:47-63 (tc_hg_001) *)
Definition tc_hg_001 : M StepResult.t :=
  do written <- write_dmcs2 (Dmcs2Args.mk true false 0x5 0 false);;
  do readback <- read_dmcs2;;
  let hgselect_stuck := dmcs2_hgselect readback in
  let group_stuck := dmcs2_group readback in
  let implements_halt_groups := hgselect_stuck || negb (group_stuck =? 0) in
  report true
    ("TC-HG-001: wrote dmcs2=" +:+ py_hex 8 written +:+ " (hgselect=1, group=5), read back " +:+
     py_hex 8 readback +:+ " (hgselect=" +:+ py_bool hgselect_stuck +:+ ", group=" +:+
     pretty group_stuck +:+ ") -- " +:+
     (if implements_halt_groups then "implements" else "does NOT implement") +:+
     " halt groups on this DUT. Gate for TC-HG-002 onward " +:+
     "(multi-hart, out of scope for this single-hart pass).").

(** external_trigger_sequence.py:73-89 (tc_hg_001_sweep) *)
Definition tc_hg_001_sweep : M StepResult.t :=
  do written_a <- write_dmcs2 (Dmcs2Args.mk false false 0 0 false);;
  do readback_a <- read_dmcs2;;
  do written_b <- write_dmcs2 (Dmcs2Args.mk false false 0 0 true);;
  do readback_b <- read_dmcs2;;
  write_dmcs2 (Dmcs2Args.mk true false 0x5 0 false);;;
  report true
    ("TC-HG-001 (cont'd): wrote dmcs2=" +:+ py_hex 8 written_a +:+
     " (hgselect=0, group=0), read back " +:+ py_hex 8 readback_a +:+ "; wrote dmcs2=" +:+
     py_hex 8 written_b +:+ " (grouptype=1), read back " +:+ py_hex 8 readback_b +:+
     " -- same discovery-only reporting as TC-HG-001, rounding out the field combinations a " +:+
     "debugger probing this register would actually try").

(** external_trigger_sequence.py:32-95 (build_external_trigger_sequence) *)
Definition build {T} `{DebugTransport T} `{Clock} (mode : string)
    : result (DebugSession.t (W T)) :=
  try session <- DebugSession.init mode false;;
  let add name fn session := DebugSession.add_step name fn session in
  let session := add "Activate Debug Module" (none_step activate) session in
  let session := add "TC-HG-001: dmcs2 halt-group support discovery" (result_step tc_hg_001) session in
  let session := add "TC-HG-001 (cont'd): remaining dmcs2 field-combination discovery"
    (result_step tc_hg_001_sweep) session in
  Ok session.

End ExternalTrigger.
