(* ===== verification/SbaSequence.v ===== *)
(** The System Bus Access sequence: [sequences/sba_sequence.py]. *)

From S2P Require Import Prelude Registers Predictor Transport RiscvDm Session Sequences Closures.
From S2P Require Import AccessSequences.
Import RISCVDebug.

Local Open Scope string_scope.
Local Open Scope list_scope.
Local Open Scope Z_scope.
Local Open Scope prog_scope.

Module Sba.

(** sba_sequence.py:23-24 (SBADDRESS1, SBDATA1) *)
Definition SBADDRESS1 : Z := 0x3A.
Definition SBDATA1 : Z := 0x3D.

(** sba_sequence.py:27-33 (SB_BUSYERROR .. SB_ERROR_LSB) *)
Definition SB_BUSYERROR : Z := 22.
Definition SB_BUSY : Z := 21.
Definition SB_READONADDR : Z := 20.
Definition SB_ACCESS_LSB : Z := 17.
Definition SB_AUTOINCREMENT : Z := 16.
Definition SB_READONDATA : Z := 15.
Definition SB_ERROR_LSB : Z := 12.

(** sba_sequence.py:40-46 (_decode_sbcs) *)
Definition _decode_sbcs (sbcs : Z) : string :=
  let sbversion := slice_of sbcs 29 0x7 in
  let sbasize := slice_of sbcs 5 0x7F in
  let widths := map fst (List.filter (fun '(_, b) => truthy (slice_of sbcs b 1))
    [("8", 0); ("16", 1); ("32", 2); ("64", 3); ("128", 4)]) in
  "sbversion=" +:+ pretty sbversion +:+ " sbasize=" +:+ pretty sbasize +:+
  " sbaccess={" +:+ String.concat "," widths +:+ "}-bit".

(** sba_sequence.py:49-59 (_effective_stride) *)
Definition _effective_stride : M Z :=
  do sbcs <- rd DMI.SBCS;;
  Ret (Z.shiftl 1 (slice_of sbcs SB_ACCESS_LSB 0x7)).

(** sba_sequence.py:81-88 (tc_sba_001) *)
Definition tc_sba_001 : M StepResult.t :=
  do sbcs <- rd DMI.SBCS;;
  let ok := negb (sbcs =? 0) in
  report ok
    ("TC-SBA-001: sbcs=" +:+ py_hex 8 sbcs +:+ " (" +:+ _decode_sbcs sbcs +:+ ")  " +:+
     ok_or ok "no SBA on this DUT").

(** sba_sequence.py:92-100 (tc_sba_003_002) *)
Definition tc_sba_003_002 (addr pattern : Z) : M StepResult.t :=
  write_mem32 addr pattern;;;
  do readback <- read_mem32 addr;;
  let ok := readback =? pattern in
  report ok
    ("TC-SBA-002/003: wrote mem[" +:+ py_hex 8 addr +:+ "]<-" +:+ py_hex 8 pattern +:+
     ", read back " +:+ py_hex 8 readback +:+ "  " +:+ ok_or ok "MISMATCH").

(** The burst's words. *)
Definition burst (n : Z) : list Z := map (fun i => Z.lor 0xA5A50000 i) (py_range n).

(** sba_sequence.py:107-125 (tc_sba_004) *)
Definition tc_sba_004 (addr : Z) : M StepResult.t :=
  let words := burst 4 in
  wr DMI.SBCS (Z.lor (Z.shiftl 2 SB_ACCESS_LSB) (Z.shiftl 1 SB_AUTOINCREMENT));;;
  do stride <- _effective_stride;;
  wr DMI.SBADDRESS0 addr;;;
  for_each (fun w => wr DMI.SBDATA0 w;;; _wait_sbus DEFAULT_TIMEOUT) words;;;
  do end_addr <- rd DMI.SBADDRESS0;;
  let want_end := addr + stride * Z.of_nat (length words) in
  do got <- for_each (fun i => read_mem32 (addr + stride * i)) (py_range (Z.of_nat (length words)));;
  let same := bool_decide (got = words) in
  let ok := same && (end_addr =? want_end) in
  report ok
    ("TC-SBA-004: autoincrement wrote " +:+ pretty (Z.of_nat (length words)) +:+ " words at " +:+
     pretty stride +:+ "-byte stride, sbaddress0 " +:+ py_hex 8 addr +:+ "->" +:+
     py_hex 8 end_addr +:+ " (expected " +:+ py_hex 8 want_end +:+ "), data " +:+
     ok_or same "MISMATCH").

Definition quoted (v : Z) : string := "'" +:+ hex v +:+ "'".

(** sba_sequence.py:131-148 (tc_sba_005) *)
Definition tc_sba_005 (addr : Z) : M StepResult.t :=
  wr DMI.SBCS (Z.lor (Z.lor (Z.lor (Z.shiftl 2 SB_ACCESS_LSB) (Z.shiftl 1 SB_AUTOINCREMENT))
                            (Z.shiftl 1 SB_READONADDR)) (Z.shiftl 1 SB_READONDATA));;;
  wr DMI.SBADDRESS0 addr;;;
  _wait_sbus DEFAULT_TIMEOUT;;;
  do seen <- for_each (fun _ => do v <- rd DMI.SBDATA0;; _wait_sbus DEFAULT_TIMEOUT;;; Ret v)
                      (py_range 3);;
  wr DMI.SBCS (Z.shiftl 2 SB_ACCESS_LSB);;;
  let expect := burst 3 in
  let ok := bool_decide (seen = expect) in
  report ok
    ("TC-SBA-005: sbreadondata streamed " +:+ py_list (map quoted seen) +:+ " (expected " +:+
     py_list (map quoted expect) +:+ ")  " +:+ ok_or ok "MISMATCH").

(** sba_sequence.py:154-165 (tc_sba_006) *)
Definition tc_sba_006 : M StepResult.t :=
  wr SBADDRESS1 0;;;
  do hi_addr <- rd SBADDRESS1;;
  wr DMI.SBCS (Z.shiftl 2 SB_ACCESS_LSB);;;
  wr SBDATA1 0;;;
  do hi_data <- rd SBDATA1;;
  let ok := (hi_addr =? 0) && (hi_data =? 0) in
  report ok
    ("TC-SBA-006: sbaddress1=" +:+ py_hex 8 hi_addr +:+ " sbdata1=" +:+ py_hex 8 hi_data +:+
     " (both halves decode)  " +:+ ok_or ok "UNEXPECTED").

(** sba_sequence.py:171-187 (tc_sba_007) *)
Definition tc_sba_007 : M StepResult.t :=
  let bad := 0xF0000000 in
  wr DMI.SBCS (Z.lor (Z.shiftl 1 SB_READONADDR) (Z.shiftl 2 SB_ACCESS_LSB));;;
  wr DMI.SBADDRESS0 bad;;;
  _wait_sbus DEFAULT_TIMEOUT;;;
  do sbcs <- rd DMI.SBCS;;
  let err := slice_of sbcs SB_ERROR_LSB 0x7 in
  wr DMI.SBCS (Z.lor (Z.shiftl 0x7 SB_ERROR_LSB) (Z.shiftl 2 SB_ACCESS_LSB));;;
  do after <- rd DMI.SBCS;;
  let cleared := slice_of after SB_ERROR_LSB 0x7 in
  let ok := cleared =? 0 in
  report ok
    ("TC-SBA-007: access to " +:+ py_hex 8 bad +:+ " -> sberror=" +:+ pretty err +:+
     ", after W1C sberror=" +:+ pretty cleared +:+ "  " +:+ ok_or ok "sberror did not clear").

(** The last read is made only when the flag cleared.
    sba_sequence.py:195-215 (tc_sba_009) *)
Definition tc_sba_009 (addr : Z) : M StepResult.t :=
  wr DMI.SBCS (Z.lor (Z.shiftl 1 SB_READONADDR) (Z.shiftl 2 SB_ACCESS_LSB));;;
  wr DMI.SBADDRESS0 addr;;;
  rd DMI.SBDATA0;;;
  wr DMI.SBDATA0 0xDEADBEEF;;;
  _wait_sbus DEFAULT_TIMEOUT;;;
  do sbcs <- rd DMI.SBCS;;
  let busyerr := slice_of sbcs SB_BUSYERROR 1 in
  wr DMI.SBCS (Z.lor (Z.lor (Z.shiftl 1 SB_BUSYERROR) (Z.shiftl 0x7 SB_ERROR_LSB))
                     (Z.shiftl 2 SB_ACCESS_LSB));;;
  do after <- rd DMI.SBCS;;
  let ok := slice_of after SB_BUSYERROR 1 =? 0 in
  do usable <- (if ok then read_mem32 addr;;; Ret true else Ret false);;
  report usable
    ("TC-SBA-009: sbbusyerror observed=" +:+ pretty busyerr +:+ ", cleared=" +:+
     pretty (slice_of after SB_BUSYERROR 1) +:+ ", DM still usable  " +:+
     ok_or ok "sbbusyerror stuck").

(** sba_sequence.py:220-228 (tc_sba_010) *)
Definition tc_sba_010 (addr : Z) : M StepResult.t :=
  resume DEFAULT_TIMEOUT;;;
  do val <- read_mem32 addr;;
  halt DEFAULT_TIMEOUT;;;
  report true
    ("TC-SBA-010: read " +:+ py_hex 8 val +:+ " from " +:+ py_hex 8 addr +:+
     " with the hart running (SBA is hart-independent)  OK").

(** sbcs is read once per width.
    sba_sequence.py:241-242 (tc_sba_019, advertised) *)
Fixpoint advertised (l : list (Z * Z)) : M (list (Z * Z)) :=
  match l with
  | [] => Ret []
  | (w, bit) :: l =>
      do sbcs <- rd DMI.SBCS;;
      do ws <- advertised l;;
      Ret (if truthy (slice_of sbcs bit 1) then (w, bit) :: ws else ws)
  end.

(** sba_sequence.py:245-245 (tc_sba_019, code) *)
Definition code_of (width : Z) : Z :=
  if width =? 8 then 0 else if width =? 16 then 1 else if width =? 32 then 2 else 3.

(** sbcs with its sbaccess replaced by [code], and more bits set. *)
Definition with_access (sbcs code more : Z) : Z :=
  Z.lor (Z.lor (Z.land sbcs (Z.lnot (Z.shiftl 0x7 SB_ACCESS_LSB))) (Z.shiftl code SB_ACCESS_LSB)) more.

(** Whether the width was used; it is refused when sbaccess does not take it.
    sba_sequence.py:244-255 (tc_sba_019, the loop body) *)
Definition use_width (addr : Z) (w : Z * Z) : M (Z * bool) :=
  let width := fst w in
  let code := code_of width in
  do sbcs <- rd DMI.SBCS;;
  wr DMI.SBCS (with_access sbcs code (Z.shiftl 1 SB_READONADDR));;;
  do back <- rd DMI.SBCS;;
  if slice_of back SB_ACCESS_LSB 0x7 =? code then
    wr DMI.SBADDRESS0 addr;;;
    _wait_sbus DEFAULT_TIMEOUT;;;
    rd DMI.SBDATA0;;;
    Ret (width, true)
  else Ret (width, false).

Definition widths (l : list Z) : string := py_list (map pretty l).

(** sba_sequence.py:238-262 (tc_sba_019) *)
Definition tc_sba_019 (addr : Z) : M StepResult.t :=
  do adv <- advertised [(8, 0); (16, 1); (32, 2); (64, 3)];;
  do outcomes <- for_each (use_width addr) adv;;
  let used := map fst (List.filter snd outcomes) in
  let refused := map fst (List.filter (fun o => negb (snd o)) outcomes) in
  do sbcs <- rd DMI.SBCS;;
  wr DMI.SBCS (with_access sbcs 2 0);;;
  report true
    ("TC-SBA-019: sbcs advertises " +:+ widths (map fst adv) +:+ "-bit; accessed " +:+
     match used with [] => "none" | _ => widths used end +:+
     match refused with [] => EmptyString
     | _ => "; refused (hardwired sbaccess) " +:+ widths refused end).

(** sba_sequence.py:62-265 (build_sba_sequence) *)
Definition build {T} `{DebugTransport T} `{Clock} (mode : string) (addr pattern : Z)
    : result (DebugSession.t (W T)) :=
  try session <- DebugSession.init mode false;;
  let add name fn session := DebugSession.add_step name fn session in
  let session := add "Activate Debug Module" (none_step activate) session in
  let session := add "Halt hart" (none_step (halt DEFAULT_TIMEOUT)) session in
  let session := add "TC-SBA-001: sbcs discovery" (result_step tc_sba_001) session in
  let session := add "TC-SBA-002/003: SBA write + read-back round-trip"
    (result_step (tc_sba_003_002 addr pattern)) session in
  let session := add "TC-SBA-004: sbautoincrement burst" (result_step (tc_sba_004 addr)) session in
  let session := add "TC-SBA-005: sbreadondata streaming" (result_step (tc_sba_005 addr)) session in
  let session := add "TC-SBA-006: 64-bit address/data halves" (result_step tc_sba_006) session in
  let session := add "TC-SBA-007: sberror set and write-1-to-clear" (result_step tc_sba_007) session in
  let session := add "TC-SBA-009: sbbusyerror on a raced access"
    (result_step (tc_sba_009 addr)) session in
  let session := add "TC-SBA-010: SBA with the hart running" (result_step (tc_sba_010 addr)) session in
  let session := add "TC-SBA-019: each advertised access width"
    (result_step (tc_sba_019 addr)) session in
  Ok session.

End Sba.
