(* ===== verification/HartArray.v ===== *)
(** The hart-array sequence: [sequences/hart_array_sequence.py]. *)

From S2P Require Import Prelude Registers Predictor Transport RiscvDm Session Sequences Closures.
From S2P Require Import AccessSequences.
Import RISCVDebug.

Local Open Scope string_scope.
Local Open Scope list_scope.
Local Open Scope Z_scope.
Local Open Scope prog_scope.

Module HartArray.

(** hart_array_sequence.py:45-45 (HALTSUM0) *)
Definition HALTSUM0 : Z := 0x40.

(** It writes dmcontrol directly: the library's tracked hartsel stays as it was.
    hart_array_sequence.py:47-50 (_selected) *)
Definition _selected (hartsel : Z) (hasel : bool) (bits : DmcontrolArgs.t) : M unit :=
  wr DMI.DMCONTROL (dmcontrol (bits <| DmcontrolArgs.dmactive := true |>
    <| DmcontrolArgs.hartsel := hartsel |> <| DmcontrolArgs.hasel := hasel |>)).

Definition haltreq : DmcontrolArgs.t := fields0 <| DmcontrolArgs.haltreq := true |>.
Definition resumereq : DmcontrolArgs.t := fields0 <| DmcontrolArgs.resumereq := true |>.

(** hart_array_sequence.py:70-79 (tc_hs_007) *)
Definition tc_hs_007 (other : Z) : M StepResult.t :=
  _selected other false fields0;;;
  do word <- read_dmstatus;;
  let nonexistent := truthy (slice_of word 14 1) in
  report (negb nonexistent)
    ("TC-HS-007: hartsel=" +:+ pretty other +:+ " (the highest implemented index) -> dmstatus=" +:+
     py_hex 8 word +:+ ", anynonexistent=" +:+ pretty (to_int nonexistent) +:+
     " (expect 0: this hart exists)").

(** hart_array_sequence.py:86-96 (tc_halt_010_one) *)
Definition tc_halt_010_one (other : Z) : M StepResult.t :=
  _selected other false haltreq;;;
  _poll_until (fun s => Ok (allhalted s)) DMI.DMSTATUS "allhalted" DEFAULT_TIMEOUT;;;
  _selected other false fields0;;;
  do summ <- rd HALTSUM0;;
  do shifted <- py_shr summ other;;
  let ok := (Z.land shifted 1 =? 1) && (Z.land summ 1 =? 0) in
  report ok
    ("TC-HALT-010: halted hart " +:+ pretty other +:+ " alone -> haltsum0=" +:+ py_hex 8 summ +:+
     " (bit " +:+ pretty other +:+ " set, bit 0 clear)  " +:+ ok_or ok "MISMATCH").

(** [state["hasel"]] is the variable the steps share.
    hart_array_sequence.py:100-116 (tc_hs_003_mask) *)
Definition tc_hs_003_mask (other : Z) : prog (Z * bool) StepResult.t :=
  let '(window, bit) := hawindow_of 0 in
  lib (wr (Register.address HAWINDOWSEL) window);;;
  lib (wr (Register.address HAWINDOW) (Z.shiftl 1 bit));;;
  do read_sel <- lib (rd (Register.address HAWINDOWSEL));;
  do read_win <- lib (rd (Register.address HAWINDOW));;
  lib (_selected other true fields0);;;
  do readback <- lib read_dmcontrol;;
  set_vars (dmcontrol_hasel readback);;;
  do hasel <- vars;;
  report true
    ("TC-HS-003: hawindowsel=" +:+ pretty read_sel +:+ " hawindow=" +:+ py_hex 8 read_win +:+
     ", hasel reads back " +:+ pretty (to_int hasel) +:+ " -- " +:+
     (if hasel && truthy (Z.land read_win (Z.shiftl 1 bit))
      then "the mask is implemented, so hart 0 joins the selection"
      else "the hart array mask is NOT implemented on this DM; the selection stays a single hart")).

(** The steps that need the hart array mask.
    hart_array_sequence.py:122-123 (tc_hs_008, the gate) *)
Definition with_mask (tc : string) (c : M StepResult.t) : prog (Z * bool) StepResult.t :=
  do hasel <- vars;;
  if negb hasel then report true (tc +:+ ": N/A -- no hart array mask") else lib c.

(** hart_array_sequence.py:120-135 (tc_hs_008) *)
Definition tc_hs_008 (other : Z) : M StepResult.t :=
  do word <- read_dmstatus;;
  let some_not_all := anyhalted word && negb (allhalted word) in
  let running_too := anyrunning word in
  let ok := some_not_all && running_too in
  report ok
    ("TC-HS-008: hart " +:+ pretty other +:+ " halted, hart 0 running, both selected -> dmstatus=" +:+
     py_hex 8 word +:+ " anyhalted=" +:+ pretty (to_int (anyhalted word)) +:+ " allhalted=" +:+
     pretty (to_int (allhalted word)) +:+ " anyrunning=" +:+ pretty (to_int running_too) +:+
     " allrunning=" +:+ pretty (to_int (allrunning word)) +:+ "  " +:+
     (if ok then "OK -- the all/any pair distinguishes them"
      else "MISMATCH: the pair should differ with one hart in each state")).

(** hart_array_sequence.py:139-156 (tc_halt_010_all) *)
Definition tc_halt_010_all (num_harts other : Z) : M StepResult.t :=
  _selected other true haltreq;;;
  _poll_until (fun s => Ok (allhalted s)) DMI.DMSTATUS "allhalted" DEFAULT_TIMEOUT;;;
  _selected other true fields0;;;
  do word <- read_dmstatus;;
  do summ <- rd HALTSUM0;;
  do top <- py_shl 1 num_harts;;
  let want := top - 1 in
  let ok := allhalted word && anyhalted word && negb (anyrunning word) && (Z.land summ want =? want) in
  report ok
    ("TC-HALT-010: haltreq with both harts selected -> allhalted=" +:+
     pretty (to_int (allhalted word)) +:+ " anyrunning=" +:+ pretty (to_int (anyrunning word)) +:+
     ", haltsum0=" +:+ py_hex 8 summ +:+ " (expect the low " +:+ pretty num_harts +:+
     " bits set)  " +:+ ok_or ok "MISMATCH").

(** The last conjunct, which may raise, is only evaluated when the others hold.
    hart_array_sequence.py:160-177 (tc_res_010) *)
Definition tc_res_010 (num_harts other : Z) : M StepResult.t :=
  _selected other true resumereq;;;
  _poll_until (fun s => Ok (allrunning s)) DMI.DMSTATUS "allrunning" DEFAULT_TIMEOUT;;;
  _selected other true fields0;;;
  do word <- read_dmstatus;;
  do summ <- rd HALTSUM0;;
  do ok <- (if allrunning word && allresumeack word && anyresumeack word && negb (anyhalted word)
            then do top <- py_shl 1 num_harts;; Ret (Z.land summ (top - 1) =? 0)
            else Ret false);;
  report ok
    ("TC-RES-010: resumereq with both harts selected -> allrunning=" +:+
     pretty (to_int (allrunning word)) +:+ " allresumeack=" +:+
     pretty (to_int (allresumeack word)) +:+ " anyhalted=" +:+ pretty (to_int (anyhalted word)) +:+
     ", haltsum0=" +:+ py_hex 8 summ +:+ "  " +:+ ok_or ok "MISMATCH").

(** hart_array_sequence.py:188-192 (tc_halt_010_each, the loop body) *)
Definition halt_each (h : Z) : M unit :=
  _selected h false haltreq;;;
  _poll_until (fun s => Ok (allhalted s)) DMI.DMSTATUS ("hart " +:+ pretty h +:+ " allhalted")
    DEFAULT_TIMEOUT;;;
  _selected h false fields0.

(** hart_array_sequence.py:184-198 (tc_halt_010_each) *)
Definition tc_halt_010_each (num_harts : Z) : M StepResult.t :=
  for_each halt_each (py_range num_harts);;;
  do summ <- rd HALTSUM0;;
  do top <- py_shl 1 num_harts;;
  let want := top - 1 in
  let ok := Z.land summ want =? want in
  report ok
    ("TC-HALT-010: halted all " +:+ pretty num_harts +:+ " harts one at a time -> haltsum0=" +:+
     py_hex 8 summ +:+ " (expect the low " +:+ pretty num_harts +:+ " bits set)  " +:+
     ok_or ok "MISMATCH").

(** hart_array_sequence.py:208-213 (tc_res_010_each, the loop body) *)
Definition resume_each (h : Z) : M bool :=
  _selected h false resumereq;;;
  _poll_until (fun s => Ok (allrunning s)) DMI.DMSTATUS ("hart " +:+ pretty h +:+ " allrunning")
    DEFAULT_TIMEOUT;;;
  _selected h false fields0;;;
  do word <- read_dmstatus;;
  Ret (allresumeack word).

(** hart_array_sequence.py:203-218 (tc_res_010_each) *)
Definition tc_res_010_each (num_harts : Z) : M StepResult.t :=
  do acks <- for_each resume_each (py_range num_harts);;
  do summ <- rd HALTSUM0;;
  do ok <- (if py_all acks
            then do top <- py_shl 1 num_harts;; Ret (Z.land summ (top - 1) =? 0)
            else Ret false);;
  report ok
    ("TC-RES-010: resumed all " +:+ pretty num_harts +:+ " harts one at a time -> resume acks " +:+
     py_list (map (fun a => pretty (to_int a)) acks) +:+ ", haltsum0=" +:+ py_hex 8 summ +:+ "  " +:+
     ok_or ok "MISMATCH").

(** hart_array_sequence.py:225-234 (tc_hs_008_neither) *)
Definition tc_hs_008_neither : M StepResult.t :=
  _selected 0 false fields0;;;
  do word <- read_dmstatus;;
  let ok := negb (anyhalted word) && negb (allhalted word) in
  report ok
    ("TC-HS-008: with no selected hart halted, allhalted=" +:+ pretty (to_int (allhalted word)) +:+
     " anyhalted=" +:+ pretty (to_int (anyhalted word)) +:+ " (both expect 0)  " +:+
     ok_or ok "MISMATCH").

(** hart_array_sequence.py:53-238 (build_hart_array_sequence) *)
Definition build {T} `{DebugTransport T} `{Clock} (mode : string) (num_harts : Z)
    : result (DebugSession.t (world T (Z * bool))) :=
  try session <- DebugSession.init mode false;;
  let add name fn session := DebugSession.add_step name fn session in
  let other := num_harts - 1 in
  let session := add "Activate Debug Module" (none_step (lib activate)) session in
  let session := add ("TC-HS-007: select hart " +:+ pretty other +:+ ", the highest implemented")
    (result_step (lib (tc_hs_007 other))) session in
  let session := add ("TC-HALT-010: halt hart " +:+ pretty other +:+ " alone")
    (result_step (lib (tc_halt_010_one other))) session in
  let session := add "TC-HS-003: hart array mask discovery"
    (result_step (tc_hs_003_mask other)) session in
  let session := add "TC-HS-008: some selected harts halted, not all"
    (result_step (with_mask "TC-HS-008" (tc_hs_008 other))) session in
  let session := add "TC-HALT-010: halt every selected hart"
    (result_step (with_mask "TC-HALT-010" (tc_halt_010_all num_harts other))) session in
  let session := add "TC-RES-010: resume every selected hart"
    (result_step (with_mask "TC-RES-010" (tc_res_010 num_harts other))) session in
  let session := add "TC-HALT-010: halt every hart, one selection at a time"
    (result_step (lib (tc_halt_010_each num_harts))) session in
  let session := add "TC-RES-010: resume every hart, one selection at a time"
    (result_step (lib (tc_res_010_each num_harts))) session in
  let session := add "TC-HS-008: neither all nor any, with nothing halted"
    (result_step (lib tc_hs_008_neither)) session in
  Ok session.

End HartArray.
