(* ===== verification/HartArraySound.v ===== *)
(** The hart-array sequence on the golden-reference model: it passes on an array of
    up to 32 harts without a hart array mask, and fails when a mask is declared,
    which the model does not select with ([HartArray], [Predictor]). *)

From S2P Require Import Prelude Registers Predictor RunControl Reachable ReadBack Transport RiscvDm RiscvDmSound.
From S2P Require Import Session Sequences Expectation SequencesSound Closures HartArray.
Import RISCVDebug HartArray.

Local Open Scope string_scope.
Local Open Scope list_scope.
Local Open Scope Z_scope.
Local Open Scope prog_scope.

(** ** One hart under a plain request *)

(** A write with no reset in it, to another hart. *)
Lemma calm_unselected c a b v :
  calm b v -> DmcontrolArgs.ndmreset a = false -> DmcontrolArgs.hartreset a = false ->
  calm b (step_view c a false v).
Proof.
  intros (hr & ra & rh & hv & nx & ->)%calm_explicit Hn Hh. unfold step_view. rewrite Hn, Hh.
  apply calm_explicit. destruct b; repeat eexists.
Qed.

(** What a request makes of the selected hart. *)
Definition requested (a : DmcontrolArgs.t) (b : bool) : bool :=
  if DmcontrolArgs.haltreq a then true else if DmcontrolArgs.resumereq a then false else b.

(** The requests of the sequence. *)
Definition plain (a : DmcontrolArgs.t) : Prop := a = fields0 \/ a = haltreq \/ a = resumereq.

Definition selecting (h : nat) (hasel : bool) (bits : DmcontrolArgs.t) : DmcontrolArgs.t :=
  bits <| DmcontrolArgs.dmactive := true |> <| DmcontrolArgs.hartsel := Z.of_nat h |>
       <| DmcontrolArgs.hasel := hasel |>.

Lemma calm_selected c h x a b v :
  plain a -> calm b v ->
  let v' := step_view c (selecting h x a) true v in
  calm (requested a b) v' /\
  (a = resumereq -> b = true -> HartState.resume_ack (hart v') = true) /\
  (a = fields0 -> HartState.resume_ack (hart v') = HartState.resume_ack (hart v)).
Proof.
  intros Ha (hr & ra & rh & hv & nx & ->)%calm_explicit.
  destruct Ha as [->|[->| ->]], c as [? [] ? ? ? ?], b; (split; [apply calm_explicit; repeat eexists|]);
    (split; intros; done).
Qed.

Lemma land_1 w : Z.land w 1 = to_int (Z.testbit w 0).
Proof.
  change 1 with (Z.ones 1). rewrite Z.land_ones by lia. change (2 ^ 1) with 2.
  rewrite <-Z.bit0_mod. by destruct (Z.testbit w 0).
Qed.

Section array.
Context `{Clock} (c : features) (n : nat) (mask : bool) (Hn : Z.of_nat n <= 2 ^ 20).
Context (Hcfg : has_cfg c = true).

(** The DM is active, hart [h] is selected, and hart [j] of the first [n] is halted
    as [st j] says; with [ack], the selected hart has acknowledged a resume. *)
Definition at_array (ack : bool) (h : nat) (st : nat -> bool) (p : DMPredictor.t) : Prop :=
  DMPredictor.supports_hasel p = mask /\ (h < n)%nat /\
  exists V, selected c n p V (Z.of_nat h) /\ (forall j, (j < n)%nat -> calm (st j) (V j)) /\
    (ack = true -> HartState.resume_ack (hart (V h)) = true).

Lemma at_hart_nat h : (h < n)%nat -> at_hart (Z.of_nat h) = h.
Proof using Hn. intros Hh. unfold at_hart. rewrite Z.mod_small by lia. lia. Qed.

Lemma at_array_ext ack h st st' p :
  at_array ack h st p -> (forall j, (j < n)%nat -> st j = st' j) -> at_array ack h st' p.
Proof using.
  intros (Hm & Hh & V & Hs & HV & Hk) He. split; [done|]. split; [done|]. exists V. split; [done|].
  split; [|done]. intros j Hj. rewrite <-He by done. by apply HV.
Qed.

Lemma write_mask p a :
  DmcontrolArgs.dmactive a = true ->
  DMPredictor.supports_hasel (DMPredictor.on_write DMI.DMCONTROL (dmcontrol a) p) =
  DMPredictor.supports_hasel p.
Proof using.
  clear. intros Ha. assert (Z.testbit (dmcontrol a) 0 = true) as Hact by by autorewrite with dmcontrol_bits.
  pose proof (dmcontrol_frame (dmcontrol a) p Hact) as (_ & _ & _ & _ & _ & _ & De).
  exact (f_equal DMPredictor.supports_hasel De).
Qed.

Definition after (h : nat) (a : DmcontrolArgs.t) (st : nat -> bool) (j : nat) : bool :=
  if (j =? h)%nat then requested a (st j) else st j.

(** Whether the write leaves a resume ack at the selected hart. *)
Definition acks (a : DmcontrolArgs.t) (ack was same : bool) : bool :=
  if DmcontrolArgs.haltreq a then false
  else if DmcontrolArgs.resumereq a then was else ack && same.

Lemma at_array_write ack h0 h x a st p :
  plain a -> (h < n)%nat -> at_array ack h0 st p ->
  at_array (acks a ack (st h) (h0 =? h)%nat) h (after h a st)
    (DMPredictor.on_write DMI.DMCONTROL (dmcontrol (selecting h x a)) p).
Proof using Hn.
  intros Ha Hh (Hm & Hh0 & V & (Hv & Hd & Hsel & _) & HV & Hk).
  assert (DmcontrolArgs.dmactive (selecting h x a) = true) as Hact by done.
  assert (DmcontrolArgs.hartsel (selecting h x a) = Z.of_nat h) as Hs by done.
  split; [by rewrite write_mask|]. split; [done|]. exists (step_views c (selecting h x a) V).
  pose proof (write_views c n p V _ Hv Hact) as Hw. rewrite Hs, at_hart_nat in Hw by done.
  split; [by apply Hw|]. clear Hw.
  assert (forall j, Z.of_nat j = Z.of_nat h mod 2 ^ 20 <-> j = h) as Hmod.
  { intros j. rewrite Z.mod_small by lia. lia. }
  destruct (calm_selected c h x a (st h) (V h) Ha (HV h Hh)) as (Hc & Hr & Hf).
  assert (step_views c (selecting h x a) V h = step_view c (selecting h x a) true (V h)) as Ehere.
  { apply step_views_at. by rewrite Hs, Hmod. }
  split.
  - intros j Hj. unfold after. destruct (Nat.eqb_spec j h) as [->|Hne]; [by rewrite Ehere|].
    rewrite step_views_other by by rewrite Hs, Hmod. apply calm_unselected; [by apply HV|..];
      by destruct Ha as [->|[->| ->]].
  - rewrite Ehere. intros Hack.
    destruct Ha as [->|[->| ->]]; cbn -[Nat.eqb] in Hack; [|done|by apply Hr].
    apply andb_true_iff in Hack as [Hack Heq]. apply Nat.eqb_eq in Heq as ->.
    rewrite (Hf eq_refl). auto.
Qed.

Lemma at_array_weaken ack h st p : at_array ack h st p -> at_array false h st p.
Proof using. intros (Hm & Hh & V & Hs & HV & _). do 2 (split; [done|]). by exists V. Qed.

(** A write that leaves run control, the register shadow and the features alone. *)
Lemma at_array_keeps ack h st p q :
  Reachable.control q = Reachable.control p ->
  DMPredictor.shadow_regs q = DMPredictor.shadow_regs p -> features_of q = features_of p ->
  at_array ack h st p -> at_array ack h st q.
Proof using.
  intros Hc Hr Hf (Hm & Hh & V & (Hv & Hd & Hs & Hat) & HV). injection Hc as ?????????.
  split; [congruence|]. split; [done|]. exists V. split; [|done]. split_and!; [|congruence|congruence|done].
  intros j Hj. destruct (Hv j Hj). constructor; [congruence..| | |congruence|].
  - congruence.
  - unfold step_armed in *. by rewrite Hr.
  - congruence.
Qed.

(** Reading dmstatus and haltsum0. *)
Lemma read_status ack h st p :
  at_array ack h st p ->
  exists w, DMPredictor.expect p DMI.DMSTATUS = Ok w /\
    allhalted w = st h /\ anyhalted w = st h /\ allrunning w = negb (st h) /\
    anyrunning w = negb (st h) /\ (ack = true -> allresumeack w = true) /\ anynonexistent w = false.
Proof using Hn.
  intros (_ & Hh & V & Hs & HV & Hk). destruct (selected_sees _ _ _ _ _ Hs) as [Hse Hhs].
  rewrite at_hart_nat in Hse, Hhs by done.
  destruct (expect_shows _ _ _ _ Hse Hhs) as (w & He & Hw). exists w. split; [done|].
  destruct (HV h Hh) as (_ & _ & _ & Hha & Hru & _ & _). destruct Hw. rewrite Hha in *. rewrite Hru in *.
  split_and!; try done; [intros Hack; by rewrite <-(Hk Hack)|].
  destruct (expect_version p) as (w' & He' & _ & Hx & _); [lia|].
  rewrite He in He'. apply Ok_inj in He' as <-. rewrite Hx. apply Z.leb_gt. rewrite Hhs.
  apply (sees_exists _ _ _ _ Hse).
Qed.

Lemma read_haltsum0 ack h st p :
  at_array ack h st p ->
  DMPredictor.expect p HALTSUM0 = Ok (DMPredictor.expect_haltsum0 p) /\
  forall j, (j < n)%nat ->
    Z.testbit (DMPredictor.expect_haltsum0 p) (Z.of_nat j) = (j <? 32)%nat && st j.
Proof using Hn Hcfg.
  intros (_ & Hh & V & (Hv & Hd & Hs & _) & HV & _).
  pose proof (sees_features _ _ _ _ (Hv h Hh)) as Hf. split.
  - unfold DMPredictor.expect, DMPredictor.has_model. rewrite Hd.
    assert (DMPredictor.cfg_valid p = true) as -> by (rewrite <-Hcfg, <-Hf; done). done.
  - intros j Hj. rewrite expect_haltsum0_bit by lia. pose proof (Hv j Hj) as Hsj.
    pose proof (sees_exists _ _ _ _ Hsj). destruct (HV j Hj) as (_ & _ & _ & Hha & _).
    unfold DMPredictor.hart_is_halted. rewrite Nat2Z.id, (sees_hart _ _ _ _ Hsj), Hha.
    destruct (Nat.ltb_spec j 32); by zcases.
Qed.

(** ** The commands of the steps *)

Lemma expects_selected ack h0 h x a st p s now (Q : unit -> DMPredictor.t -> Z -> Z -> Prop) :
  plain a -> (h < n)%nat -> at_array ack h0 st p ->
  (forall q, at_array (acks a ack (st h) (h0 =? h)%nat) h (after h a st) q ->
     DMPredictor.hasel q = mask && x -> Q tt q s now) ->
  expects (_selected (Z.of_nat h) x a) p s now Q.
Proof using Hn.
  intros Ha Hh Hp Hk. apply Hk; [by apply (at_array_write _ _ _ x)|].
  change (_ <| DmcontrolArgs.hasel := x |>) with (selecting h x a).
  assert (Z.testbit (dmcontrol (selecting h x a)) 0 = true) as Hact by by autorewrite with dmcontrol_bits.
  pose proof (dmcontrol_frame _ p Hact) as (_ & _ & _ & He & _).
  change (Register.address DMCONTROL) with DMI.DMCONTROL in He. rewrite He.
  rewrite dmcontrol_hasel_bit. destruct Hp as [-> _]. reflexivity.
Qed.

Lemma expects_select {A} ack h0 h x a st p s now (k : M A) Q :
  plain a -> (h < n)%nat -> at_array ack h0 st p ->
  (forall q, at_array (acks a ack (st h) (h0 =? h)%nat) h (after h a st) q -> expects k q s now Q) ->
  expects (_selected (Z.of_nat h) x a;;; k) p s now Q.
Proof using Hn. intros Ha Hh Hp Hk. apply expects_bind. eapply expects_selected; eauto. Qed.

Lemma expects_status {A} ack h st p s now (k : Z -> M A) Q :
  at_array ack h st p ->
  (forall w, allhalted w = st h -> anyhalted w = st h -> allrunning w = negb (st h) ->
     anyrunning w = negb (st h) -> (ack = true -> allresumeack w = true) ->
     anynonexistent w = false -> expects (k w) p s now Q) ->
  expects (do w <- read_dmstatus;; k w) p s now Q.
Proof using Hn.
  intros Hp Hk. destruct (read_status _ _ _ _ Hp) as (w & He & Hw). apply expects_bind.
  apply (expects_rd _ _ _ _ _ _ He). destruct Hw as (?&?&?&?&?&?). by apply Hk.
Qed.

Lemma expects_wait {A} ack h st p s now f msg (k : M A) Q :
  at_array ack h st p ->
  (forall w, allhalted w = st h -> allrunning w = negb (st h) -> f w = true) ->
  expects k p s now Q ->
  expects (_poll_until (fun w => Ok (f w)) DMI.DMSTATUS msg DEFAULT_TIMEOUT;;; k) p s now Q.
Proof using Hn.
  intros Hp Hf Hk. destruct (read_status _ _ _ _ Hp) as (w & He & Hw1 & _ & Hw2 & _).
  apply expects_bind. unfold expects. rewrite (predicted_poll_accepts _ _ _ _ _ _ _ w He); [done|].
  by rewrite Hf.
Qed.

Lemma expects_summary {A} ack h st p s now (k : Z -> M A) Q :
  at_array ack h st p ->
  (forall w, (forall j, (j < n)%nat -> Z.testbit w (Z.of_nat j) = (j <? 32)%nat && st j) ->
     expects (k w) p s now Q) ->
  expects (do w <- rd HALTSUM0;; k w) p s now Q.
Proof using Hn Hcfg.
  intros Hp Hk. destruct (read_haltsum0 _ _ _ _ Hp) as [He Hw]. apply expects_bind.
  apply (expects_rd _ _ _ _ _ _ He). by apply Hk.
Qed.

(** The low [n] bits of a halt summary whose harts are all in one state. *)
Lemma low_bits w b :
  (forall j, (j < n)%nat -> Z.testbit w (Z.of_nat j) = b) ->
  Z.land w (Z.shiftl 1 (Z.of_nat n) - 1) = if b then Z.shiftl 1 (Z.of_nat n) - 1 else 0.
Proof using.
  clear Hn. intros Hw. rewrite ones_shiftl by lia. apply Z.bits_inj'. intros i Hi.
  rewrite Z.land_spec, testbit_ones by lia.
  destruct (Z.ltb_spec i (Z.of_nat n)).
  - rewrite <-(Z2Nat.id i), Hw by lia. rewrite Z2Nat.id by lia. destruct b; [|by rewrite Z.bits_0].
    rewrite testbit_ones by lia. by zcases.
  - rewrite andb_false_r. destruct b; [|by rewrite Z.bits_0]. rewrite testbit_ones by lia. by zcases.
Qed.

(** ** The steps *)

(** A program of the sequence: from a state of the array it ends in another, with a
    result as it should be. *)
Definition array_spec {A} (h : nat) (st : nat -> bool) (e : M A) (good : A -> Prop)
    (h' : nat) (st' : nat -> bool) : Prop :=
  forall p s now, at_array false h st p ->
  expects e p s now (fun r q s' t => good r /\ at_array false h' st' q).

Definition passing (r : StepResult.t) : Prop := StepResult.ok r = true.

Context (o : nat) (Ho : n = S o) (Hpos : (0 < o)%nat).

Definition running : nat -> bool := fun _ => false.
Definition only_last : nat -> bool := fun j => (j =? o)%nat.

Ltac leaves := eapply at_array_ext; [eapply at_array_weaken; eassumption|]; unfold after, requested, running, only_last;
  cbn; intros j Hj; repeat case_match; zhyps; subst; try done; try lia.

Lemma tc_hs_007_spec h st : array_spec h st (tc_hs_007 (Z.of_nat o)) passing o st.
Proof using All.
  intros p s now Hp. unfold tc_hs_007.
  eapply expects_select; [by left|lia|exact Hp|intros q Hq].
  eapply expects_status; [exact Hq|intros w _ _ _ _ _ Hne].
  split; [|leaves]. unfold passing. cbn [report StepResult.ok].
  change (truthy (AccessSequences.slice_of w 14 1)) with (anynonexistent w). by rewrite Hne.
Qed.

Lemma tc_halt_010_one_spec h : 
  array_spec h running (tc_halt_010_one (Z.of_nat o)) (fun r => StepResult.ok r = (o <? 32)%nat) o only_last.
Proof using All.
  intros p s now Hp. unfold tc_halt_010_one.
  eapply expects_select; [by right; left|lia|exact Hp|intros q Hq].
  eapply expects_wait; [exact Hq|intros w Hw _; rewrite Hw|].
  { unfold after. by rewrite Nat.eqb_refl. }
  eapply expects_select; [by left|lia|exact Hq|intros q' Hq'].
  eapply expects_summary; [exact Hq'|intros w Hw].
  apply expects_shr; [lia|]. split; [|leaves]. cbn [report StepResult.ok].
  rewrite !land_1, Z.shiftr_spec, Z.add_0_l, Hw by lia. change 0 with (Z.of_nat 0).
  rewrite Hw by lia. unfold after, requested, running. rewrite Nat.eqb_refl.
  destruct (Nat.eqb_spec 0 o); [lia|]. by destruct (o <? 32)%nat.
Qed.

(** Discovering the mask moves no hart. *)
Lemma write_window addr v ack h st p :
  addr = Register.address HAWINDOWSEL \/ addr = Register.address HAWINDOW ->
  at_array ack h st p -> at_array ack h st (DMPredictor.on_write addr v p).
Proof using.
  intros Ha. apply at_array_keeps; destruct Ha as [->| ->]; unfold DMPredictor.on_write;
    destruct (_ && _); cbn -[Z.land]; try done; by case_match.
Qed.

Lemma read_window addr ack h st p :
  addr = Register.address HAWINDOWSEL \/ addr = Register.address HAWINDOW ->
  at_array ack h st p -> exists v, DMPredictor.expect p addr = Ok v.
Proof using Hn Hcfg.
  intros Ha (_ & Hh & V & (Hv & Hd & _) & _). pose proof (sees_features _ _ _ _ (Hv h Hh)) as Hf.
  assert (DMPredictor.cfg_valid p = true) as Hc by (rewrite <-Hcfg, <-Hf; done).
  destruct Ha as [->| ->]; unfold DMPredictor.expect, DMPredictor.has_model; rewrite Hd, Hc; cbn; eauto.
Qed.

Lemma read_hasel ack h st p :
  at_array ack h st p ->
  exists w, DMPredictor.expect p DMI.DMCONTROL = Ok w /\ dmcontrol_hasel w = DMPredictor.hasel p.
Proof using Hn.
  intros (_ & Hh & V & (_ & _ & Hs & _) & _).
  destruct (expect_dmcontrol_spec p) as (w & He & _ & _ & Hx); [rewrite Hs; by apply Z.mod_pos_bound|].
  exists w. split; [exact He|]. specialize (Hx (field_of DMCONTROL "hasel")).
  unfold dmcontrol_hasel, bit_of. change (Field.extract _ w) with (Z.land (Z.shiftr w 26) 1) in Hx.
  rewrite Hx by first [done | in_list]. cbn.
  by destruct (DMPredictor.hasel p).
Qed.

Lemma tc_hs_003_mask_spec h st p s v now :
  at_array false h st p ->
  expects (tc_hs_003_mask (Z.of_nat o)) p (s, v) now (fun r q s' _ =>
    passing r /\ at_array false o st q /\ snd s' = mask).
Proof using All.
  intros Hp. unfold tc_hs_003_mask. cbn [hawindow_of].
  eapply (write_window _ (0 / HARTS_PER_HAWINDOW)) in Hp; [|by left].
  eapply (write_window _ (Z.shiftl 1 (0 mod HARTS_PER_HAWINDOW))) in Hp; [|by right].
  destruct (read_window _ _ _ _ _ (or_introl eq_refl) Hp) as (v1 & E1).
  destruct (read_window _ _ _ _ _ (or_intror eq_refl) Hp) as (v2 & E2).
  do 2 apply expects_bind, expects_lib, expects_ret. cbn beta.
  apply expects_bind, expects_lib, (expects_rd _ _ _ _ _ _ E1).
  apply expects_bind, expects_lib, (expects_rd _ _ _ _ _ _ E2).
  apply expects_bind, expects_lib.
  eapply expects_selected; [by left|lia|exact Hp|intros q Hq Hhas].
  destruct (read_hasel _ _ _ _ Hq) as (w & Ew & Hw).
  apply expects_bind, expects_lib, (expects_rd _ _ _ _ _ _ Ew).
  apply expects_set_vars, expects_vars. split; [done|]. split; [leaves|].
  cbn. by rewrite Hw, Hhas, andb_true_r.
Qed.

Lemma halt_each_spec h k st :
  (k < n)%nat ->
  array_spec h st (halt_each (Z.of_nat k)) (fun _ => True) k (after k haltreq st).
Proof using All.
  intros Hk p s now Hp. unfold halt_each.
  eapply expects_select; [by right; left|done|exact Hp|intros q Hq].
  eapply expects_wait; [exact Hq|intros w Hw _; rewrite Hw|].
  { unfold after. by rewrite Nat.eqb_refl. }
  eapply expects_selected; [by left|done|exact Hq|intros q' Hq' _]. split; [done|leaves].
Qed.

Lemma resume_each_spec h k st :
  (k < n)%nat -> st k = true ->
  array_spec h st (resume_each (Z.of_nat k)) (fun a => a = true) k (after k resumereq st).
Proof using All.
  intros Hk Hst p s now Hp. unfold resume_each.
  eapply expects_select; [by right; right|done|exact Hp|intros q Hq].
  eapply expects_wait; [exact Hq|intros w _ Hw; rewrite Hw|].
  { unfold after. by rewrite Nat.eqb_refl. }
  eapply expects_select; [by left|done|exact Hq|intros q' Hq'].
  eapply expects_status; [exact Hq'|intros w _ _ _ _ Hack _]. split; [|leaves].
  apply Hack. cbn. by rewrite Hst, Nat.eqb_refl.
Qed.

Context (H32 : (n <= 32)%nat).

(** A loop that requests [a] of hart after hart puts them all in the state [b]. *)
Lemma every_hart {A} (f : Z -> M A) (good : A -> Prop) a b h st0 p s now :
  (forall k, (k < n)%nat -> requested a (st0 k) = b) ->
  (forall h k st, (k < n)%nat -> st k = st0 k ->
     array_spec h st (f (Z.of_nat k)) good k (after k a st)) ->
  at_array false h st0 p ->
  expects (for_each f (py_range (Z.of_nat n))) p s now (fun ys q _ _ =>
    Forall good ys /\ exists h', at_array false h' (fun _ => b) q).
Proof using All.
  intros Hb Hf Hp.
  set (I := fun k ys q (_ : Z) (_ : Z) => Forall good ys /\ exists h st, at_array false h st q /\
    forall j, (j < n)%nat -> st j = if (j <? k)%nat then b else st0 j).
  eapply expects_mono.
  - apply (expects_for_each f I _ [] p s now 0); [split; [done|by exists h, st0]|].
    intros k x ys m s' t [-> Hk]%lookup_seqZ (Hys & h' & st & Hm & Hst). rewrite Z.add_0_l, Nat.add_0_l in *.
    assert (k < n)%nat as Hk' by lia.
    eapply expects_mono; [apply (Hf h' k st Hk'); [|exact Hm]|].
    { rewrite Hst by done. by rewrite Nat.ltb_irrefl. }
    cbn. intros y q s1 t1 [Hy Hq]. split; [by apply Forall_app; split; [|constructor]|].
    exists k, (after k a st). split; [done|]. intros j Hj. unfold after. rewrite Hst by done.
    destruct (Nat.eqb_spec j k) as [->|Hne].
    + rewrite Nat.ltb_irrefl. destruct (Nat.ltb_spec k (S k)); [by apply Hb|lia].
    + destruct (Nat.ltb_spec j k), (Nat.ltb_spec j (S k)); done || lia.
  - cbn. intros ys q s' t (Hys & h' & st & Hq & Hst). split; [done|]. exists h'.
    apply (at_array_ext _ _ _ _ _ Hq). intros j Hj. rewrite Hst by done.
    unfold py_range. rewrite length_seqZ. by destruct (Nat.ltb_spec j (Z.to_nat (Z.of_nat n))); [|lia].
Qed.

Lemma tc_halt_010_each_spec h st p s now :
  at_array false h st p ->
  expects (tc_halt_010_each (Z.of_nat n)) p s now (fun r q _ _ =>
    passing r /\ exists h', at_array false h' (fun _ => true) q).
Proof using All.
  intros Hp. unfold tc_halt_010_each. apply expects_bind.
  eapply expects_mono; [apply (every_hart halt_each (fun _ => True) haltreq true h st); [done| |done]|].
  { intros h' k st' Hk _. by apply halt_each_spec. }
  cbn beta. intros _ q s' t (_ & h' & Hq).
  eapply expects_summary; [exact Hq|intros w Hw]. apply expects_shl; [lia|].
  split; [|by exists h']. unfold passing. cbn [report StepResult.ok].
  rewrite (low_bits w true); [by rewrite Z.eqb_refl|]. intros j Hj. rewrite Hw by done.
  by destruct (Nat.ltb_spec j 32); [|lia].
Qed.

Lemma tc_res_010_each_spec h p s now :
  at_array false h (fun _ => true) p ->
  expects (tc_res_010_each (Z.of_nat n)) p s now (fun r q _ _ =>
    passing r /\ exists h', at_array false h' running q).
Proof using All.
  intros Hp. unfold tc_res_010_each. apply expects_bind.
  eapply expects_mono;
    [apply (every_hart resume_each (fun a => a = true) resumereq false h (fun _ => true)); [done| |done]|].
  { intros h' k st' Hk Hst. by apply resume_each_spec. }
  cbn beta. intros acks q s' t (Hacks & h' & Hq).
  assert (py_all acks = true) as Ha.
  { apply forallb_forall. intros a Hin. rewrite Forall_forall in Hacks. apply Hacks. by apply list_elem_of_In. }
  eapply expects_summary; [exact Hq|intros w Hw]. rewrite Ha.
  apply expects_bind, expects_shl; [lia|]. split; [|by exists h'].
  unfold passing. cbn [report StepResult.ok]. rewrite (low_bits w false); [by rewrite Z.eqb_refl|].
  intros j Hj. rewrite Hw by done. apply andb_false_r.
Qed.

Lemma tc_hs_008_neither_spec h : array_spec h running tc_hs_008_neither passing 0 running.
Proof using All.
  intros p s now Hp. unfold tc_hs_008_neither. change 0 with (Z.of_nat 0).
  eapply expects_select; [by left|lia|exact Hp|intros q Hq].
  eapply expects_status; [exact Hq|intros w Hall Hany _ _ _ _]. split; [|leaves].
  unfold passing. cbn [report StepResult.ok]. rewrite Hall, Hany. unfold after. by rewrite Nat.eqb_refl.
Qed.

End array.

(** ** The session *)

Section session.
Context {T : Type} `{ModelBacked T} `{Clock} (c : features) (n : nat) (mask : bool).
Context (Hn : Z.of_nat n <= 2 ^ 20) (Hcfg : has_cfg c = true) (o : nat) (Ho : n = S o) (Hpos : (0 < o)%nat).

(** The worlds whose model is in the states [P], the shared variable being [k]. *)
Definition on_array (P : DMPredictor.t -> Prop) (k : bool -> Prop) (w : world T (Z * bool)) : Prop :=
  live (dev w) /\ P (model (dev w)) /\ k (snd (self w)).

(** An array of running, calm harts, with or without a hart array mask. *)
Definition calm_array (p : DMPredictor.t) : Prop :=
  DMPredictor.supports_hasel p = mask /\
  exists V, viewed c n p V /\ forall j, (j < n)%nat -> calm false (V j).

Lemma array_step P k (e : prog (Z * bool) StepResult.t) Q (k' : bool -> Prop) :
  (forall p s v now, P p -> k v ->
     expects e p (s, v) now (fun r q s' _ => passing r /\ Q q /\ k' (snd s'))) ->
  passes (on_array P k) (result_step e) (on_array Q k').
Proof using.
  intros He w (Hl & Hp & Hk). destruct (self w) as [s v] eqn:Es. cbn in Hk.
  specialize (He (model (dev w)) s v (clock w) Hp Hk). rewrite <-Es in He.
  destruct (expects_run e w _ Hl He) as (r & Hr & Hl' & Hok & Hq & Hv).
  unfold result_step. destruct (Transport.run e w) as [w' x]. cbn in *. subst x.
  split; [by exists r|]. by split_and!.
Qed.

Lemma lib_step P k (e : M StepResult.t) Q :
  (forall p s now, P p -> expects e p s now (fun r q _ _ => passing r /\ Q q)) ->
  passes (on_array P k) (result_step (lib e)) (on_array Q k).
Proof using.
  intros He. apply array_step. intros p s v now Hp Hk. apply expects_lib.
  eapply expects_mono; [by apply He|]. cbn. by intros r q s' t [Hr Hq].
Qed.

Lemma activate_array k :
  passes (on_array calm_array k) (none_step (lib activate))
         (on_array (at_array c n mask false 0 (fun _ => false)) k).
Proof using Hpos Ho Hn.
  intros w (Hl & (Hm & V & Hv & HV) & Hk). destruct (self w) as [s v] eqn:Es. cbn in Hk.
  assert (expects (lib activate) (model (dev w)) (self w) (clock w) (fun _ q s' _ =>
    at_array c n mask false 0 (fun _ => false) q /\ snd s' = v)) as He.
  { rewrite Es. apply expects_lib. eapply expects_mono; [apply (expects_activated c n _ V); [lia|done]|].
    cbn beta. intros _ q s' t (_ & -> & Hq & Hs). split; [|done].
    split; [rewrite Hq, write_mask; done|]. split; [lia|]. exists (step_views c activation V).
    split; [exact Hs|]. split; [|done]. intros j Hj. by apply calm_activation, HV. }
  destruct (expects_run _ w _ Hl He) as (r & Hr & Hl' & Hq & Hv').
  unfold none_step. destruct (Transport.run _ w) as [w' x]. cbn in *. subst x.
  split; [eexists; split; reflexivity|]. split_and!; [done..|by rewrite Hv'].
Qed.

Lemma skipped_step P tc e :
  passes (on_array P (fun k => k = false)) (result_step (with_mask tc e)) (on_array P (fun k => k = false)).
Proof using. apply array_step. by intros p s v now Hp ->. Qed.

(** A step whose verdict fails from the states [P]. *)
Lemma failing_step P (k : bool -> Prop) (e : prog (Z * bool) StepResult.t) w :
  (forall p s v now, P p -> k v -> expects e p (s, v) now (fun r _ _ _ => StepResult.ok r = false)) ->
  on_array P k w -> exists r, _invoke (snd (result_step e w)) = Ok r /\ StepResult.ok r = false.
Proof using.
  intros He (Hl & Hp & Hk). destruct (self w) as [s v] eqn:Es. cbn in Hk.
  specialize (He (model (dev w)) s v (clock w) Hp Hk). rewrite <-Es in He.
  destruct (expects_run e w _ Hl He) as (r & Hr & _ & Hok). unfold result_step.
  destruct (Transport.run e w) as [w' x]. cbn in *. subst x. by exists r.
Qed.

(** The steps that halt no hart, and those up to the discovery of the mask. *)
Lemma selection_chain a b :
  chain (on_array calm_array (fun _ => True))
    [(a, none_step (lib activate)); (b, result_step (lib (tc_hs_007 (Z.of_nat o))))]
    (on_array (at_array c n mask false o (fun _ => false)) (fun _ => True)).
Proof using All.
  eapply chain_cons; [apply activate_array|].
  eapply chain_cons; [apply lib_step; intros p s now Hp; by eapply tc_hs_007_spec|]. constructor.
Qed.

Lemma discovery_chain a b m d :
  (n <= 32)%nat ->
  chain (on_array calm_array (fun _ => True))
    [(a, none_step (lib activate)); (b, result_step (lib (tc_hs_007 (Z.of_nat o))));
     (m, result_step (lib (tc_halt_010_one (Z.of_nat o))));
     (d, result_step (tc_hs_003_mask (Z.of_nat o)))]
    (on_array (at_array c n mask false o (only_last o)) (fun k => k = mask)).
Proof using All.
  intros H32. apply (chain_app _ [_; _] _ [_; _] _ (selection_chain a b)).
  eapply chain_cons.
  { apply lib_step. intros p s now Hp. eapply expects_mono; [by eapply tc_halt_010_one_spec|].
    cbn beta. intros r q s' t [Hr Hq]. split; [|exact Hq]. unfold passing. rewrite Hr.
    apply Nat.ltb_lt. lia. }
  eapply chain_cons; [apply (array_step _ _ _ (at_array c n mask false o (only_last o)) (fun k => k = mask));
    intros p s v now Hp _; by eapply tc_hs_003_mask_spec|].
  constructor.
Qed.

(** Without a mask the rest of the session passes. *)
Lemma single_chain d1 d2 d3 d4 d5 d6 f1 f2 f3 :
  (n <= 32)%nat ->
  chain (on_array (at_array c n mask false o (only_last o)) (fun k => k = false))
    [(d1, result_step (with_mask f1 (tc_hs_008 (Z.of_nat o))));
     (d2, result_step (with_mask f2 (tc_halt_010_all (Z.of_nat n) (Z.of_nat o))));
     (d3, result_step (with_mask f3 (tc_res_010 (Z.of_nat n) (Z.of_nat o))));
     (d4, result_step (lib (tc_halt_010_each (Z.of_nat n))));
     (d5, result_step (lib (tc_res_010_each (Z.of_nat n))));
     (d6, result_step (lib tc_hs_008_neither))]
    (on_array (at_array c n mask false 0 (fun _ => false)) (fun k => k = false)).
Proof using All.
  intros H32. do 3 (eapply chain_cons; [apply skipped_step|]).
  eapply chain_cons.
  { apply lib_step. intros q s now Hq. by eapply tc_halt_010_each_spec. }
  eapply chain_cons.
  { apply lib_step. intros q s now (h & Hq). by eapply tc_res_010_each_spec. }
  eapply chain_cons; [|constructor].
  apply lib_step. intros q s now (h & Hq). by eapply tc_hs_008_neither_spec.
Qed.

(** With a mask the selection still is the last hart, halted: the pair of bits that
    should differ does not. *)
Lemma tc_hs_008_fails tc w :
  on_array (at_array c n mask false o (only_last o)) (fun k => k = true) w ->
  exists r, _invoke (snd (result_step (with_mask tc (tc_hs_008 (Z.of_nat o))) w)) = Ok r /\
    StepResult.ok r = false.
Proof using Hn.
  apply failing_step. intros p s v now Hp ->. unfold with_mask. apply expects_vars. cbn [negb].
  apply expects_lib. unfold tc_hs_008.
  eapply expects_status; [done|exact Hp|intros x Hall Hany _ _ _ _].
  unfold expects. cbn [predicted report StepResult.ok]. by rewrite Hall, Hany, andb_negb_r.
Qed.

(** Past 32 harts the last one is in no bit of haltsum0. *)
Lemma tc_halt_010_one_fails w :
  (32 < n)%nat -> on_array (at_array c n mask false o (fun _ => false)) (fun _ => True) w ->
  exists r, _invoke (snd (result_step (lib (tc_halt_010_one (Z.of_nat o))) w)) = Ok r /\
    StepResult.ok r = false.
Proof using All.
  intros H32. apply failing_step. intros p s v now Hp _. apply expects_lib.
  eapply expects_mono; [by eapply tc_halt_010_one_spec|]. cbn beta. intros r q s' t [-> _].
  apply Nat.ltb_ge. lia.
Qed.

End session.

Section theorems.
Context {T : Type} `{ModelBacked T} `{Clock}.


End theorems.

(** ** A concrete array *)

#[local] Existing Instance exact_clock.

Definition p_array : DMPredictor.t :=
  DMPredictor.set_config (DeclaredConfig.default <| DeclaredConfig.num_harts := 2 |>
    <| DeclaredConfig.version := 3 |>)
    (DMPredictor.init (Kwargs.default <| Kwargs.num_harts := 2 |>)).

Definition array_env (p : DMPredictor.t) : DebugSession.env (world Mock.t (Z * bool)) :=
  DebugSession.mk_env (mk_world (Mock.init p) (0, false) 0 []) (mk_output false EmptyString [] EmptyString) [].

