(* ===== verification/Text.v ===== *)
(** The text the package reads: lines and words of a tool's output, and numbers
    in it, for ASCII strings. *)

From Stdlib Require Import Ascii.
From S2P Require Import Prelude Registers Predictor DutConfig.

Local Open Scope string_scope.
Local Open Scope list_scope.

(** ** [str.splitlines] and [str.split] *)

(** The line boundaries other than the carriage return. *)
Definition line_break (c : ascii) : bool :=
  let n := nat_of_ascii c in
  ((10 <=? n) && (n <=? 12) || (28 <=? n) && (n <=? 30))%nat.

Definition carriage_return : ascii := ascii_of_nat 13.
Definition line_feed : ascii := ascii_of_nat 10.

(** [line] holds the characters of the current line, the last one first; a
    carriage return and the line feed that follows it end one line. *)
Fixpoint splitlines_from (l line : list ascii) : list (list ascii) :=
  match l with
  | [] => match line with [] => [] | _ => [rev line] end
  | c :: l' =>
      if Ascii.eqb c carriage_return then
        rev line :: match l' with
                    | d :: l'' => if Ascii.eqb d line_feed then splitlines_from l'' []
                                  else splitlines_from l' []
                    | [] => []
                    end
      else if line_break c then rev line :: splitlines_from l' []
      else splitlines_from l' (c :: line)
  end.

Definition splitlines (s : string) : list string :=
  map String.string_of_list_ascii (splitlines_from (String.list_ascii_of_string s) []).

(** [s.split()]: the maximal runs of characters that are not white space. *)
Fixpoint words_from (l word : list ascii) : list (list ascii) :=
  match l with
  | [] => match word with [] => [] | _ => [rev word] end
  | c :: l =>
      if Int.space c
      then match word with [] => words_from l [] | _ => rev word :: words_from l [] end
      else words_from l (c :: word)
  end.

Definition split (s : string) : list string :=
  map String.string_of_list_ascii (words_from (String.list_ascii_of_string s) []).

(** [s.rsplit("/", 1)[-1]]: what follows the last slash. *)
Fixpoint basename_from (l acc : list ascii) : list ascii :=
  match l with
  | [] => rev acc
  | c :: l => if Ascii.eqb c "/"%char then basename_from l [] else basename_from l (c :: acc)
  end.

Definition basename (s : string) : string :=
  String.string_of_list_ascii (basename_from (String.list_ascii_of_string s) []).

(** ** Symbols *)

(** The address of a symbol in the output of [nm]: the first line of three words
    whose last is the symbol; nothing when there is none.
    hart_control.py:53-56 (symbol_addr, the loop) *)
Definition symbol_in (stdout symbol : string) : option (result Z) :=
  match List.find (fun line => match split line with
                               | [_; _; name] => String.eqb name symbol
                               | _ => false
                               end) (splitlines stdout) with
  | Some line => match split line with
                 | addr :: _ => Some (Int.of_string addr 16)
                 | [] => None
                 end
  | None => None
  end.

(** [nm elf] is the standard output of the tool, or what
    [subprocess.run(..., check=True)] raised.
    hart_control.py:51-57 (symbol_addr) *)
Definition symbol_addr (nm : string -> result string) (elf symbol : string) : result Z :=
  try stdout <- nm elf;;
  match symbol_in stdout symbol with
  | Some addr => addr
  | None => Raise (RuntimeError ("symbol '" +:+ symbol +:+ "' not found in " +:+ elf +:+
                                 " -- rebuild with `make -C sw`"))
  end.

Section samples.

Let nl : string := String line_feed EmptyString.

Definition sample_nm : string :=
  "0000000080000000 T _start" +:+ nl +:+ "0000000080000050 t wfi_insn" +:+ nl +:+
  "                 U missing" +:+ nl.

Example symbol_found : symbol_addr (fun _ => Ok sample_nm) "a.elf" "wfi_insn" = Ok 0x80000050%Z.
Proof. vm_compute. reflexivity. Qed.

Example symbol_missing :
  symbol_addr (fun _ => Ok sample_nm) "a.elf" "missing" =
  Raise (RuntimeError "symbol 'missing' not found in a.elf -- rebuild with `make -C sw`").
Proof. vm_compute. reflexivity. Qed.

End samples.
