(* ===== verification/UvmTransport.v ===== *)
(** The simulator transport: [api/uvm_transport.py], and what a transport may
    offer beyond [DebugTransport].

    The socket and the simulator behind it are the parameter [Bridge]: opening a
    connection, and sending one JSON object and reading the reply line, parsed.
    [FaithfulBridge] states the protocol of the module's docstring for a bridge
    whose simulator behaves as the golden-reference model; on such a bridge the
    transport is backed by the model ([uvm_model_backed]), so that the theorems
    about the command library and the sequences hold over the socket. *)

From S2P Require Import Prelude Registers Predictor Transport DutConfig Text.

Local Open Scope string_scope.
Local Open Scope list_scope.
Local Open Scope Z_scope.

(** ** Access beyond the DMI *)

(** The methods a transport may have besides the interface ([hasattr]): the
    DTM's dtmcs, raw DMI and JTAG scans, TMS walks and the simulated time, in
    nanoseconds. *)
Class JtagTransport (T : Type) := {
  dtmcs : option (Z -> T -> T * result Z);
  dmi_scan : option (Z -> Z -> Z -> T -> T * result Z);
  jtag_scan : option (Z -> Z -> Z -> bool -> T -> T * result Z);
  tms_walk : option (list Z -> T -> T * result unit);
  sim_time : option (T -> T * result Z)
}.

(** ** The other end of the socket *)

(** A reply line: none, one that could not be sent for or parsed, or an object. *)
Inductive Reply :=
  | Closed
  | Broken (error : string)
  | Answer (resp : Raw).

Class Bridge (P : Type) := {
  (** Connect; an [OSError]'s text when that fails. *)
  b_open : P -> P * option string;
  (** Send an object and read the reply. *)
  b_exchange : list (string * json) -> P -> P * Reply;
  b_close : P -> P
}.

(** A number of a JSON object, as Python compares and computes with it. *)
Definition number (v : json) : option Z :=
  match v with JNum n => Some n | JBool b => Some (to_int b) | _ => None end.

Definition not_a_number (v : json) : exn :=
  TypeError ("unsupported operand type: " +:+ type_name v).

(** [rsp.get("data", 0)], used as a number. *)
Definition data_of (r : Raw) : result Z :=
  match r !! "data" with
  | None => Ok 0
  | Some v => match number v with Some n => Ok n | None => Raise (not_a_number v) end
  end.

Section uvm.
Context {P : Type} `{Bridge P}.

(** uvm_transport.py:40-57 (UVMTransport attributes) *)
Record UVMTransport := mk_uvm {
  peer : P;
  uvm_connected : bool;
  _id_counter : Z;
  _failed_steps : option Z
}.

#[export] Instance uvm_settable : Settable UVMTransport := fun t =>
  mk_uvm (peer t) (uvm_connected t) (_id_counter t) (_failed_steps t).

(** uvm_transport.py:40-57 (__init__) *)
Definition uvm_init (p : P) : UVMTransport := mk_uvm p false 0 None.

(** uvm_transport.py:254-256 (_next_id) *)
Definition _next_id (t : UVMTransport) : UVMTransport := t <| _id_counter := _id_counter t + 1 |>.

(** [payload["id"] = tx_id] comes last; the payloads have no id of their own.
    uvm_transport.py:258-281 (_transact) *)
Definition _transact (payload : list (string * json)) (t : UVMTransport)
    : UVMTransport * result Raw :=
  if negb (uvm_connected t) then (t, Raise (TransportError "UVMTransport: not connected"))
  else
    let t := _next_id t in
    let tx_id := _id_counter t in
    let (p, reply) := b_exchange (payload ++ [("id", JNum tx_id)]) (peer t) in
    let t := t <| peer := p |> in
    (t, match reply with
        | Closed => Raise (TransportError "UVMTransport: socket closed by remote")
        | Broken e => Raise (TransportError ("UVMTransport transact: " +:+ e))
        | Answer resp =>
            if match resp !! "id" with
               | Some v => match number v with Some n => n =? tx_id | None => false end
               | None => false
               end
            then
              match resp !! "status" with
              | Some (JStr "ok") => Ok resp
              | _ => Raise (TransportError ("UVMTransport: remote error — " +:+
                            match resp !! "msg" with Some m => py_str m | None => "" end))
              end
            else Raise (TransportError ("UVMTransport: id mismatch — sent " +:+ pretty tx_id +:+
                        ", got " +:+
                        match resp !! "id" with Some v => py_str v | None => "None" end))
        end).

(** uvm_transport.py:61-78 (connect) *)
Definition uvm_connect (t : UVMTransport) : UVMTransport * result unit :=
  if uvm_connected t then (t, Ok tt)
  else match b_open (peer t) with
       | (p, None) => (t <| peer := p |> <| uvm_connected := true |>, Ok tt)
       | (p, Some e) =>
           (t <| peer := p |>, Raise (TransportError ("UVMTransport: cannot connect — " +:+ e)))
       end.

(** Whatever happens to the message is only logged.
    uvm_transport.py:109-121 (_send_shutdown) *)
Definition _send_shutdown (t : UVMTransport) : UVMTransport :=
  let t := _next_id t in
  let (p, _) := b_exchange [("id", JNum (_id_counter t)); ("op", JStr "shutdown");
                            ("data", JNum (default 0 (_failed_steps t)))] (peer t) in
  t <| peer := p |>.

(** uvm_transport.py:80-96 (disconnect) *)
Definition uvm_disconnect (t : UVMTransport) : UVMTransport * result unit :=
  if negb (uvm_connected t) then (t, Ok tt)
  else
    let t := _send_shutdown t in
    (t <| peer := b_close (peer t) |> <| uvm_connected := false |>, Ok tt).

(** uvm_transport.py:98-107 (set_session_result) *)
Definition set_session_result (failed_steps : Z) (t : UVMTransport) : UVMTransport :=
  t <| _failed_steps := Some failed_steps |>.

(** uvm_transport.py:145-152 (emit_log, the loop) *)
Fixpoint emit_chunks (verbosity : Z) (chunks : list string) (t : UVMTransport) : UVMTransport :=
  match chunks with
  | [] => t
  | chunk :: chunks =>
      match _transact [("op", JStr "log"); ("text", JStr chunk); ("data", JNum verbosity)] t with
      | (t, Ok _) => emit_chunks verbosity chunks t
      | (t, Raise _) => t
      end
  end.

(** uvm_transport.py:125-152 (emit_log) *)
Definition emit_log (text : string) (verbosity : Z) (t : UVMTransport) : UVMTransport :=
  if negb (uvm_connected t) then t
  else emit_chunks verbosity
         match splitlines text with [] => [EmptyString] | lines => lines end t.

(** uvm_transport.py:156-169 (read) *)
Definition uvm_read (addr : Z) (t : UVMTransport) : UVMTransport * result Z :=
  match _transact [("op", JStr "read"); ("addr", JNum addr)] t with
  | (t, Raise e) => (t, Raise e)
  | (t, Ok resp) =>
      (t, match resp !! "data" with
          | None => Raise (TransportError "UVMTransport read: no data in response")
          | Some v =>
              match number v with
              | None => Raise (not_a_number v)
              | Some val =>
                  let xmask := default (JNum 0) (resp !! "xmask") in
                  if py_bool_of xmask then
                    Raise (TransportError ("UVMTransport read addr=" +:+ py_hex 2 addr +:+
                      ": X/Z in bits " +:+ py_hex 8 (default 0 (number xmask)) +:+
                      " (2-state value " +:+ py_hex 8 val +:+ ")"))
                  else Ok val
              end
          end)
  end.

(** An operation whose reply is not looked at. *)
Definition just (payload : list (string * json)) (t : UVMTransport) : UVMTransport * result unit :=
  let (t, r) := _transact payload t in
  (t, match r with Ok _ => Ok tt | Raise e => Raise e end).

(** An operation whose reply holds a number. *)
Definition asking (payload : list (string * json)) (f : Z -> Z) (t : UVMTransport)
    : UVMTransport * result Z :=
  let (t, r) := _transact payload t in
  (t, try resp <- r;; try v <- data_of resp;; Ok (f v)).

(** uvm_transport.py:171-173 (write) *)
Definition uvm_write (addr data : Z) : UVMTransport -> UVMTransport * result unit :=
  just [("op", JStr "write"); ("addr", JNum addr); ("data", JNum data)].

(** uvm_transport.py:175-177 (reset) *)
Definition uvm_reset : UVMTransport -> UVMTransport * result unit := just [("op", JStr "reset")].

(** uvm_transport.py:179-192 (dtmcs) *)
Definition uvm_dtmcs (wdata : Z) : UVMTransport -> UVMTransport * result Z :=
  asking [("op", JStr "dtmcs"); ("data", JNum (Z.land wdata 0xFFFFFFFF))] id.

(** uvm_transport.py:195-195 (DMI_NOP, DMI_READ, DMI_WRITE) *)
Definition DMI_NOP : Z := 0.
Definition DMI_READ : Z := 1.
Definition DMI_WRITE : Z := 2.

(** uvm_transport.py:197-213 (dmi_scan) *)
Definition uvm_dmi_scan (op addr data : Z) : UVMTransport -> UVMTransport * result Z :=
  asking [("op", JStr "dmi_scan"); ("dmiop", JNum (Z.land op 0x3));
          ("addr", JNum (Z.land addr 0x7F)); ("data", JNum (Z.land data 0xFFFFFFFF))]
         (fun v => Z.land v 0x3).

(** uvm_transport.py:216-216 (IR_IDCODE, IR_BYPASS0, IR_BYPASS1) *)
Definition IR_IDCODE : Z := 0x01.
Definition IR_BYPASS0 : Z := 0x00.
Definition IR_BYPASS1 : Z := 0x1F.

(** uvm_transport.py:218-231 (jtag_scan) *)
Definition uvm_jtag_scan (ir dr_len data : Z) (pause : bool) (t : UVMTransport)
    : UVMTransport * result Z :=
  if negb ((1 <=? dr_len) && (dr_len <=? 32))
  then (t, Raise (ValueError ("jtag_scan: dr_len " +:+ pretty dr_len +:+ " outside 1..32")))
  else asking [("op", JStr "jtag_scan"); ("ir", JNum (Z.land ir 0x1F)); ("drlen", JNum dr_len);
               ("pause", JNum (to_int pause)); ("data", JNum (Z.land data 0xFFFFFFFF))]
              (fun v => Z.land v (Z.shiftl 1 dr_len - 1)) t.

(** The product with [1e-9] is left out: the time stays in nanoseconds.
    uvm_transport.py:233-239 (sim_time_s) *)
Definition sim_time_s : UVMTransport -> UVMTransport * result Z :=
  asking [("op", JStr "sim_time")] id.

(** [sum(int(b) << i for i, b in enumerate(tms))].
    uvm_transport.py:249-249 (tms_walk, bits) *)
Fixpoint tms_bits (i : Z) (tms : list Z) : Z :=
  match tms with [] => 0 | b :: tms => Z.shiftl b i + tms_bits (i + 1) tms end.

(** uvm_transport.py:241-250 (tms_walk) *)
Definition uvm_tms_walk (tms : list Z) (t : UVMTransport) : UVMTransport * result unit :=
  let n := Z.of_nat (length tms) in
  if negb ((1 <=? n) && (n <=? 32))
  then (t, Raise (ValueError ("tms_walk: " +:+ pretty n +:+ " bits, expected 1..32")))
  else just [("op", JStr "tms_walk"); ("addr", JNum n); ("data", JNum (tms_bits 0 tms))] t.

End uvm.
Arguments UVMTransport : clear implicits.

(** The transport has no golden model of its own: [predictor] says what the
    client finds under that attribute, nothing or the mirror a test attached. *)
Section instances.
Context {P : Type} `{Bridge P} (predictor : UVMTransport P -> option DMPredictor.t).

Definition uvm_transport : DebugTransport (UVMTransport P) := {|
  t_connect := uvm_connect;
  t_disconnect := uvm_disconnect;
  t_read := uvm_read;
  t_write := uvm_write;
  t_reset := uvm_reset;
  t_connected := uvm_connected;
  t_predictor := predictor
|}.

End instances.

#[export] Instance uvm_jtag {P} `{Bridge P} : JtagTransport (UVMTransport P) := {|
  dtmcs := Some uvm_dtmcs;
  dmi_scan := Some uvm_dmi_scan;
  jtag_scan := Some uvm_jtag_scan;
  tms_walk := Some uvm_tms_walk;
  sim_time := Some sim_time_s
|}.

#[export] Instance mock_jtag : JtagTransport Mock.t := {|
  dtmcs := None; dmi_scan := None; jtag_scan := None; tms_walk := None; sim_time := None
|}.

(** ** A faithful simulator *)

Definition read_message (id addr : Z) : list (string * json) :=
  [("op", JStr "read"); ("addr", JNum addr); ("id", JNum id)].
Definition write_message (id addr v : Z) : list (string * json) :=
  [("op", JStr "write"); ("addr", JNum addr); ("data", JNum v); ("id", JNum id)].

(** A reply to message [id] that reports success. *)
Definition acknowledges (id : Z) (resp : Raw) : Prop :=
  resp !! "id" = Some (JNum id) /\ resp !! "status" = Some (JStr "ok").

(** The protocol of the docstring, spoken by a simulator that behaves as the
    model [sim] says: while it is [up] it acknowledges each message, a read with
    the word the model predicts and without unknown bits. *)
Class FaithfulBridge (P : Type) `{Bridge P} := {
  sim : P -> DMPredictor.t;
  up : P -> Prop;
  up_read id addr p : up p -> up (fst (b_exchange (read_message id addr) p));
  up_write id addr v p : up p -> up (fst (b_exchange (write_message id addr v) p));
  sim_read id addr p : up p -> sim (fst (b_exchange (read_message id addr) p)) = sim p;
  sim_write id addr v p :
    up p -> sim (fst (b_exchange (write_message id addr v) p)) = DMPredictor.on_write addr v (sim p);
  reply_read id addr v p :
    up p -> DMPredictor.expect (sim p) addr = Ok v ->
    exists resp, snd (b_exchange (read_message id addr) p) = Answer resp /\
      acknowledges id resp /\ resp !! "data" = Some (JNum v) /\ resp !! "xmask" = None;
  reply_write id addr v p :
    up p -> exists resp, snd (b_exchange (write_message id addr v) p) = Answer resp /\
      acknowledges id resp
}.

Section transact.
Context {P : Type} `{Bridge P}.

(** What a transaction on a connected transport does: one message with a fresh
    identifier, whatever the reply. *)
Lemma transact_sends payload (t : UVMTransport P) :
  uvm_connected t = true ->
  fst (_transact payload t) =
  t <| _id_counter := _id_counter t + 1 |>
    <| peer := fst (b_exchange (payload ++ [("id", JNum (_id_counter t + 1))]) (peer t)) |>.
Proof. intros Hc. unfold _transact. rewrite Hc. cbn. by destruct (b_exchange _ _). Qed.

Lemma transact_acknowledged payload (t : UVMTransport P) resp :
  uvm_connected t = true ->
  snd (b_exchange (payload ++ [("id", JNum (_id_counter t + 1))]) (peer t)) = Answer resp ->
  acknowledges (_id_counter t + 1) resp ->
  snd (_transact payload t) = Ok resp.
Proof.
  intros Hc Hr [Hid Hst]. unfold _transact. rewrite Hc. cbn.
  destruct (b_exchange _ _) as [p r]. cbn in Hr. subst r. cbn. rewrite Hid, Hst. cbn.
  by rewrite Z.eqb_refl.
Qed.

(** A reply is only believed when it answers the message just sent and reports
    success. *)
Lemma transact_believes payload (t : UVMTransport P) resp :
  snd (_transact payload t) = Ok resp ->
  uvm_connected t = true /\
  snd (b_exchange (payload ++ [("id", JNum (_id_counter t + 1))]) (peer t)) = Answer resp /\
  (exists v, resp !! "id" = Some v /\ number v = Some (_id_counter t + 1)) /\
  resp !! "status" = Some (JStr "ok").
Proof.
  unfold _transact. destruct (uvm_connected t); cbn; [|done].
  destruct (b_exchange _ _) as [p [|e|r]]; cbn; [done..|].
  destruct (r !! "id") as [v|] eqn:Hid; [|done].
  destruct (number v) as [k|] eqn:Hk; [|done].
  destruct (Z.eqb_spec k (_id_counter t + 1)) as [->|]; [|done].
  destruct (r !! "status") as [[| | |s]|] eqn:Hs; try done.
  repeat (match goal with |- context [match ?x with _ => _ end] => destruct x end; try done).
  intros [= ->]. split_and!; [done|done|by exists v|done].
Qed.

End transact.

(** The transport over a faithful bridge promises what [ModelAnswered] says. *)
Definition uvm_model_answered {P} `{FaithfulBridge P} (pr : UVMTransport P -> option DMPredictor.t) :
  @ModelAnswered (UVMTransport P) (uvm_transport pr).
Proof.
  refine {| model := fun t : UVMTransport P => sim (peer t) : DMPredictor.t;
            live := fun t : UVMTransport P => uvm_connected t = true /\ up (peer t) |};
    cbn [t_read t_write uvm_transport]; unfold uvm_read, uvm_write, just.
  - intros addr t [Hc Hu].
    pose proof (transact_sends [("op", JStr "read"); ("addr", JNum addr)] t Hc) as Hs.
    destruct (_transact _ t) as [t' [r|e]]; cbn in Hs |- *; subst t'; cbn; split; try done;
      by apply up_read.
  - intros addr v t [Hc Hu].
    pose proof (transact_sends [("op", JStr "write"); ("addr", JNum addr); ("data", JNum v)] t Hc) as Hs.
    destruct (_transact _ t) as [t' r]; cbn in Hs |- *; subst t'; cbn. split; [done|].
    by apply up_write.
  - intros addr t [Hc Hu].
    pose proof (transact_sends [("op", JStr "read"); ("addr", JNum addr)] t Hc) as Hs.
    destruct (_transact _ t) as [t' [r|e]]; cbn in Hs |- *; subst t'; cbn; by apply sim_read.
  - intros addr t v [Hc Hu] He.
    destruct (reply_read (_id_counter t + 1) addr v (peer t) Hu He) as (resp & Hr & Ha & Hd & Hx).
    pose proof (transact_acknowledged [("op", JStr "read"); ("addr", JNum addr)] t resp Hc Hr Ha) as Hs.
    destruct (_transact _ t) as [t' r]; cbn in Hs; subst r; cbn. by rewrite Hd, Hx.
  - intros addr v t [Hc Hu].
    pose proof (transact_sends [("op", JStr "write"); ("addr", JNum addr); ("data", JNum v)] t Hc) as Hs.
    destruct (_transact _ t) as [t' r]; cbn in Hs |- *; subst t'; cbn. by apply sim_write.
  - intros addr v t [Hc Hu].
    destruct (reply_write (_id_counter t + 1) addr v (peer t) Hu) as (resp & Hr & Ha).
    pose proof (transact_acknowledged [("op", JStr "write"); ("addr", JNum addr); ("data", JNum v)]
                  t resp Hc Hr Ha) as Hs.
    destruct (_transact _ t) as [t' r]; cbn in Hs; by subst r.
Defined.
