(* ===== verification/StepSequences.v ===== *)
(** The sequences that single-step the hart: [sequences/single_step_sequence.py],
    [step_classes_sequence.py], [step_stall_sequence.py], [step_matrix_sequence.py]
    and [priv_irq_sequence.py].

    What the hart executes is not in the model: these definitions say which DMI
    accesses the steps make and how they judge the answers. *)

From stdpp Require Import sorting.
From S2P Require Import Prelude Registers Predictor Transport RiscvDm Session Sequences Closures.
From S2P Require Import AccessSequences DutConfig Text UvmTransport.
Import RISCVDebug.

Local Open Scope string_scope.
Local Open Scope list_scope.
Local Open Scope Z_scope.
Local Open Scope prog_scope.

(** [allhalted(status) and anyhalted(status)]. *)
Definition both_halted (status : Z) : bool := allhalted status && anyhalted status.

(** What [confirm_halted] and its like report. *)
Definition halted_text (status : Z) : string :=
  "dmstatus=" +:+ py_hex 8 status +:+ " allhalted=" +:+ pretty (to_int (allhalted status)) +:+
  " anyhalted=" +:+ pretty (to_int (anyhalted status)).

(** [f"{None:#010x}"] and [f"{None:+d}"]. *)
Definition format_None : exn :=
  TypeError "unsupported format string passed to NoneType.__format__".

Definition REGNO_DPC : Z := 0x07B1.

Module SingleStep.

(** single_step_sequence.py:29-32 (DCSR_CAUSE_STEP, DCSR_CAUSE_HALTREQ) *)
Definition DCSR_CAUSE_STEP : Z := 4.
Definition DCSR_CAUSE_HALTREQ : Z := 3.

(** single_step_sequence.py:35-35 (POLL_TIMEOUT_S) *)
Definition POLL_TIMEOUT : Z := 2000000.

(** single_step_sequence.py:38-54 (_wait_halted) *)
Definition _wait_halted (timeout : Z) : M (bool * Z) :=
  do now <- monotonic;;
  let deadline := now + timeout in
  do found <- poll_before (poll_fuel timeout) both_halted DMI.DMSTATUS deadline;;
  match found with
  | Some status => Ret (true, status)
  | None => do status <- rd DMI.DMSTATUS;; Ret (both_halted status, status)
  end.

(** The dict [causes].
    single_step_sequence.py:86-86 (causes) *)
Record causes := mk_causes {
  pc_before : option Z;
  halt : option Z;
  step : option Z
}.

#[export] Instance causes_settable : Settable causes := fun c =>
  mk_causes (pc_before c) (halt c) (step c).

(** single_step_sequence.py:74-80 (confirm_halted) *)
Definition confirm_halted : M StepResult.t :=
  do r <- _wait_halted POLL_TIMEOUT;;
  let '(halted, status) := r in
  report halted (halted_text status).

(** single_step_sequence.py:88-94 (cause_after_halt) *)
Definition cause_after_halt : prog (Z * causes) StepResult.t :=
  do pc <- lib get_pc;;
  do c <- vars;;
  set_vars (c <| pc_before := Some pc |>);;;
  do cause <- lib get_dcsr_cause;;
  do c <- vars;;
  set_vars (c <| halt := Some cause |>);;;
  report (cause =? DCSR_CAUSE_HALTREQ)
    ("dcsr.cause=" +:+ pretty cause +:+ " (expect " +:+ pretty DCSR_CAUSE_HALTREQ +:+ "=haltreq)").

(** [str] of a value that may be [None]. *)
Definition py_opt (v : option Z) : string := match v with Some v => pretty v | None => "None" end.

(** single_step_sequence.py:114-120 (wait_halted_after_step) *)
Definition wait_halted_after_step : M StepResult.t := confirm_halted.

(** single_step_sequence.py:123-138 (cause_after_step) *)
Definition cause_after_step : prog (Z * causes) StepResult.t :=
  do cause <- lib get_dcsr_cause;;
  do c <- vars;;
  set_vars (c <| step := Some cause |>);;;
  let note := if cause =? DCSR_CAUSE_HALTREQ
              then " -- still the halt request: the hart never stepped" else EmptyString in
  report (cause =? DCSR_CAUSE_STEP)
    ("dcsr.cause=" +:+ pretty cause +:+ " after step (expect " +:+ pretty DCSR_CAUSE_STEP +:+
     "=step; was " +:+ py_opt (halt c) +:+ " after halt request)" +:+ note).

(** [before] is formatted before [delta], and neither format takes [None].
    single_step_sequence.py:146-159 (read_pc_at_end) *)
Definition read_pc_at_end : prog (Z * causes) StepResult.t :=
  do pc <- lib get_pc;;
  do c <- vars;;
  match pc_before c with
  | None => Throw format_None
  | Some before =>
      let delta := pc - before in
      report true
        ("dpc before=" +:+ py_hex_alt 10 before +:+ " after=" +:+ py_hex_alt 10 pc +:+
         " delta=" +:+ signed delta +:+ " bytes -> " +:+
         (if truthy delta then "hart executed" else "hart did NOT execute"))
  end.

(** single_step_sequence.py:57-162 (build_single_step_sequence) *)
Definition build {T} `{DebugTransport T} `{Clock} (mode : string)
    : result (DebugSession.t (world T (Z * causes))) :=
  try session <- DebugSession.init mode false;;
  let add name fn session := DebugSession.add_step name fn session in
  let session := add "Activate Debug Module" (none_step (lib activate)) session in
  let session := add "Halt hart" (none_step (lib (RISCVDebug.halt DEFAULT_TIMEOUT))) session in
  let session := add "Confirm hart halted (dmstatus allhalted/anyhalted)"
    (result_step (lib confirm_halted)) session in
  let session := add "Read dcsr.cause after halt request" (result_step cause_after_halt) session in
  let session := add "Set dcsr.step=1" (none_step (lib (set_step true))) session in
  let session := add "Resume (resumereq) to let the step execute"
    (none_step (lib resume_no_wait)) session in
  let session := add "Wait for dmstatus allhalted and anyhalted"
    (result_step (lib wait_halted_after_step)) session in
  let session := add "Read dcsr.cause after single step" (result_step cause_after_step) session in
  let session := add "Read PC (dpc) at end of test" (result_step read_pc_at_end) session in
  Ok session.

End SingleStep.

Module StepClasses.

(** step_classes_sequence.py:32-41 (DCSR_CAUSE_STEP .. STEP_COUNT) *)
Definition DCSR_CAUSE_STEP : Z := 4.
Definition DCSR_CAUSE_HALTREQ : Z := 3.
Definition POLL_TIMEOUT : Z := 2000000.
Definition STEP_COUNT : Z := 60.

(** Unlike the one of single_step, a deadline passed is a failure whatever the
    last read says.
    step_classes_sequence.py:44-53 (_wait_halted) *)
Definition _wait_halted (timeout : Z) : M (bool * Z) :=
  do now <- monotonic;;
  let deadline := now + timeout in
  do found <- poll_before (poll_fuel timeout) both_halted DMI.DMSTATUS deadline;;
  match found with
  | Some status => Ret (true, status)
  | None => do status <- rd DMI.DMSTATUS;; Ret (false, status)
  end.

(** The dict [state]; [pc0] is [Some None] when it holds [None].
    step_classes_sequence.py:77-77 (state) *)
Record state := mk_state {
  pc0 : option (option Z);
  steps_done : option Z;
  failures : option (list string)
}.

#[export] Instance state_settable : Settable state := fun s =>
  mk_state (pc0 s) (steps_done s) (failures s).

(** step_classes_sequence.py:82-89 (confirm_halted) *)
Definition confirm_halted : prog (Z * state) StepResult.t :=
  do r <- lib (_wait_halted POLL_TIMEOUT);;
  let '(halted, status) := r in
  if halted : bool then
    do pc <- lib get_pc;;
    do s <- vars;;
    set_vars (s <| pc0 := Some (Some pc) |>);;;
    report true (halted_text status +:+ " dpc=" +:+ py_hex_alt 10 pc)
  else
    do s <- vars;;
    set_vars (s <| pc0 := Some None |>);;;
    report false ("dmstatus=" +:+ py_hex 8 status).

(** step_classes_sequence.py:92-95 (cause_after_halt) *)
Definition cause_after_halt : M StepResult.t :=
  do c <- get_dcsr_cause;;
  report (c =? DCSR_CAUSE_HALTREQ)
    ("dcsr.cause=" +:+ pretty c +:+ " (expect " +:+ pretty DCSR_CAUSE_HALTREQ +:+ "=haltreq)").

Section walk.
Context {T : Type} `{DebugTransport T} `{Clock}.
Local Open Scope act_scope.

(** [min(pcs)] and [max(pcs)] of a list that is not empty. *)
Definition py_min (x : Z) (l : list Z) : Z := fold_left Z.min l x.
Definition py_max (x : Z) (l : list Z) : Z := fold_left Z.max l x.

(** The cause of a step that re-halted: the failures so far, and whether to
    break.  Formatting [None] raises inside the [try].
    step_classes_sequence.py:133-138 (walk, the second try) *)
Definition judge (i : Z) (pc_before : option Z) (failures : list string)
    : act T (Z * state) (bool * list string) :=
  catch
    (do cause <- cmd (lib get_dcsr_cause);;
     if cause =? DCSR_CAUSE_STEP then act_ret (false, failures)
     else match pc_before with
          | Some pc =>
              act_ret (false, failures ++ ["step " +:+ pretty i +:+ " at " +:+ py_hex_alt 10 pc +:+
                ": dcsr.cause=" +:+ pretty cause +:+ ", expected " +:+ pretty DCSR_CAUSE_STEP])
          | None => fun w => (w, Raise format_None)
          end)
    (on_Exception (fun e =>
       act_ret (true, failures ++
         ["step " +:+ pretty i +:+ ": dcsr unreadable (" +:+ str_exn e +:+ ")"]))).

(** step_classes_sequence.py:113-142 (walk, the loop body) *)
Definition walk_one (i : Z) (acc : list string * list Z)
    : act T (Z * state) (bool * (list string * list Z)) :=
  let '(failures, pcs) := acc in
  do pc_before <- quiet (do pc <- cmd (lib get_pc);; act_ret (Some pc)) None;;
  cmd (lib resume_no_wait);;;
  do r <- cmd (lib (_wait_halted 500000));;
  let '(halted, status) := r in
  if negb halted then
    act_ret (true, (failures ++
      [match pc_before with
       | Some pc => "step " +:+ pretty i +:+ " at " +:+ py_hex_alt 10 pc +:+
                    ": hart did not re-halt (dmstatus=" +:+ py_hex 8 status +:+ ")"
       | None => "step " +:+ pretty i +:+ ": hart did not re-halt"
       end], pcs))
  else
    do j <- judge i pc_before failures;;
    let '(stop, failures) := j in
    if stop : bool then act_ret (true, (failures, pcs))
    else act_ret (false, (failures,
      match pc_before with Some pc => pcs ++ [pc] | None => pcs end)).

(** step_classes_sequence.py:101-152 (walk) *)
Definition walk (steps : Z) : act T (Z * state) StepResult.t :=
  do acc <- act_loop walk_one (py_range steps) ([], []);;
  let '(failures, pcs) := acc in
  do s <- cmd vars;;
  cmd (set_vars (s <| steps_done := Some (Z.of_nat (length pcs)) |>
                   <| StepClasses.failures := Some failures |>));;;
  let span := match pcs with
              | [] => "none"
              | p :: l => py_hex_alt 10 (py_min p l) +:+ ".." +:+ py_hex_alt 10 (py_max p l)
              end in
  cmd (report (match failures with [] => true | _ => false end)
    (pretty (Z.of_nat (length pcs)) +:+ "/" +:+ pretty STEP_COUNT +:+
     " steps completed, dpc span " +:+ span +:+
     match failures with
     | [] => EmptyString
     | _ => "; " +:+ pretty (Z.of_nat (length failures)) +:+ " failure(s): " +:+
            String.concat "; " (take 3 failures)
     end)).

End walk.

(** step_classes_sequence.py:156-168 (coverage_note) *)
Definition coverage_note (elf : string) : prog (Z * state) StepResult.t :=
  do s <- vars;;
  report true
    ("walked " +:+ elf +:+ ": stepped " +:+ pretty (default 0 (steps_done s)) +:+
     " instructions; classes binned by cg_step_external.cp_stepped_class from CVA6's " +:+
     "decode, not asserted here").

(** step_classes_sequence.py:173-175 (final_state) *)
Definition final_state : M StepResult.t :=
  do r <- _wait_halted POLL_TIMEOUT;;
  let '(halted, status) := r in
  report halted ("dmstatus=" +:+ py_hex 8 status +:+ " halted=" +:+ pretty (to_int halted)).

(** step_classes_sequence.py:56-178 (build_step_classes_sequence) *)
Definition build {T} `{DebugTransport T} `{Clock} (mode elf : string) (steps : Z)
    : result (DebugSession.t (world T (Z * state))) :=
  try session <- DebugSession.init mode false;;
  let add name fn session := DebugSession.add_step name fn session in
  let session := add "Activate Debug Module" (none_step (lib activate)) session in
  let session := add "Halt hart" (none_step (lib (halt DEFAULT_TIMEOUT))) session in
  let session := add "Confirm hart halted" (result_step confirm_halted) session in
  let session := add "Read dcsr.cause after halt" (result_step (lib cause_after_halt)) session in
  let session := add "Set dcsr.step=1" (none_step (lib (set_step true))) session in
  let session := add ("Step " +:+ pretty steps +:+ " instructions across all classes")
    (act_step (walk steps)) session in
  let session := add "Record what was covered" (result_step (coverage_note elf)) session in
  let session := add "Clear dcsr.step" (none_step (lib (set_step false))) session in
  let session := add "Confirm hart still responsive" (result_step (lib final_state)) session in
  Ok session.

End StepClasses.

Module StepStall.

(** step_stall_sequence.py:42-42 (DCSR_CAUSE_STEP) *)
Definition DCSR_CAUSE_STEP : Z := 4.

(** step_stall_sequence.py:46-53 (CAUSE_NAMES, _cause_name) *)
Definition _cause_name (cause : Z) : string :=
  match cause with
  | 1 => "ebreak" | 2 => "trigger" | 3 => "haltreq" | 4 => "step"
  | 5 => "resethaltreq" | 6 => "halt group" | 7 => "other"
  | _ => "reserved"
  end.

(** step_stall_sequence.py:57-67 (POLL_TIMEOUT_S .. MAX_STEPS_TO_FIND) *)
Definition POLL_TIMEOUT : Z := 2000000.
Definition DMSTATUS_SAMPLES : nat := 3.
Definition MAX_STEPS_TO_FIND : Z := 24.

(** step_stall_sequence.py:70-82 (_symbol_addr) *)
Definition _symbol_addr (nm : string -> result string) (elf symbol : string) : result Z :=
  try stdout <- nm elf;;
  match symbol_in stdout symbol with
  | Some addr => addr
  | None => Raise (RuntimeError ("symbol '" +:+ symbol +:+ "' not found in " +:+ elf +:+
                                 " -- rebuild it with `make -C sw`"))
  end.

(** step_stall_sequence.py:99-114 (_describe_dmstatus) *)
Definition _describe_dmstatus (status : Z) : string :=
  let state :=
    if allrunning status then "RUNNING -- hart is out of Debug Mode and has not returned"
    else if allhalted status then "HALTED -- hart is parked and answering the DM"
    else if anyunavail status then "UNAVAILABLE -- hart is not responding to the DM"
    else "mixed/unknown" in
  "dmstatus=" +:+ py_hex 8 status +:+ " allhalted=" +:+ pretty (to_int (allhalted status)) +:+
  " anyhalted=" +:+ pretty (to_int (anyhalted status)) +:+
  " allrunning=" +:+ pretty (to_int (allrunning status)) +:+
  " anyrunning=" +:+ pretty (to_int (anyrunning status)) +:+
  " anyunavail=" +:+ pretty (to_int (anyunavail status)) +:+ " -> " +:+ state.

(** step_stall_sequence.py:85-96 (_dmstatus_state) *)
Definition _dmstatus_state : M string :=
  do status <- rd DMI.DMSTATUS;; Ret (_describe_dmstatus status).

(** step_stall_sequence.py:117-127 (_wait_halted) *)
Definition _wait_halted (timeout : Z) : M (bool * Z) :=
  do now <- monotonic;;
  let deadline := now + timeout in
  do found <- poll_before (poll_fuel timeout) both_halted DMI.DMSTATUS deadline;;
  match found with
  | Some status => Ret (true, status)
  | None => do status <- rd DMI.DMSTATUS;; Ret (both_halted status, status)
  end.

(** [state] holds [wfi_addr] once it is resolved.
    step_stall_sequence.py:139-145 (resolve_symbol) *)
Definition resolve_symbol (nm : string -> result string) (elf symbol : string)
    : prog (Z * option Z) StepResult.t :=
  do addr <- of_result (_symbol_addr nm elf symbol);;
  set_vars (Some addr);;;
  report true (symbol +:+ " = " +:+ py_hex_alt 10 addr +:+ " (from " +:+ elf +:+
               "'s symbol table, not hardcoded)").

(** step_stall_sequence.py:151-157 (confirm_halted) *)
Definition confirm_halted : M StepResult.t :=
  do r <- _wait_halted POLL_TIMEOUT;;
  let '(halted, status) := r in
  report halted (halted_text status).

(** step_stall_sequence.py:164-177 (advance_to_wfi, the loop) *)
Fixpoint advance (target : Z) (l : list Z) : M (option StepResult.t) :=
  match l with
  | [] => Ret None
  | i :: l =>
      do pc <- get_pc;;
      if pc =? target then
        Ret (Some (StepResult.mk true
          ("dpc=" +:+ py_hex_alt 10 pc +:+ " is the wfi, after " +:+ pretty i +:+ " step(s)") None))
      else
        resume_no_wait;;;
        do r <- _wait_halted POLL_TIMEOUT;;
        let '(halted, status) := r in
        if negb halted then
          Ret (Some (StepResult.mk false
            ("hart did not re-halt after stepping a NON-stalling instruction at " +:+
             py_hex_alt 10 pc +:+ " (dmstatus=" +:+ py_hex 8 status +:+
             ") -- single-step is broken generally, not just for wfi") None))
        else advance target l
  end.

(** step_stall_sequence.py:162-182 (advance_to_wfi) *)
Definition advance_to_wfi : prog (Z * option Z) StepResult.t :=
  do s <- vars;;
  match s with
  | None => Throw (KeyError "wfi_addr")
  | Some target =>
      do found <- lib (advance target (py_range MAX_STEPS_TO_FIND));;
      match found with
      | Some r => Ret r
      | None =>
          do pc <- lib get_pc;;
          report false
            ("wfi at " +:+ py_hex_alt 10 target +:+ " not reached in " +:+ pretty MAX_STEPS_TO_FIND +:+
             " steps (last dpc=" +:+ py_hex_alt 10 pc +:+ ")")
      end
  end.

(** step_stall_sequence.py:200-208 (step_over_wfi, the samples) *)
Fixpoint sample (n : nat) (samples : list Z) : M (bool * list Z) :=
  match n with
  | O => Ret (false, samples)
  | S n =>
      do status <- rd DMI.DMSTATUS;;
      let samples := samples ++ [status] in
      if both_halted status then Ret (true, samples)
      else Sleep POLL_INTERVAL (sample n samples)
  end.

Section over.
Context {T : Type} `{DebugTransport T} `{Clock}.
Local Open Scope act_scope.

(** step_stall_sequence.py:225-248 (step_over_wfi, once the hart is parked) *)
Definition judge (pc_before last : Z) : act T (Z * option Z) StepResult.t :=
  do cause <- catch (do c <- cmd (lib get_dcsr_cause);; act_ret (inl c))
    (on_Exception (fun e => act_ret (inr
       (StepResult.mk false
          ("TC-SSTEP-002: hart re-halted after the wfi at " +:+ py_hex_alt 10 pc_before +:+
           " but dcsr.cause could not be read (" +:+ str_exn e +:+ "). " +:+
           _describe_dmstatus last) None))));;
  match cause with
  | inr r => act_ret r
  | inl cause =>
      if negb (cause =? DCSR_CAUSE_STEP) then
        do state <- cmd (lib _dmstatus_state);;
        cmd (report false
          ("TC-SSTEP-002: dcsr.cause is NOT correct -- got " +:+ pretty cause +:+ " (" +:+
           _cause_name cause +:+ "), expected " +:+ pretty DCSR_CAUSE_STEP +:+
           "=step. The hart is in Debug Mode for some other reason, so the wfi at " +:+
           py_hex_alt 10 pc_before +:+ " was not stepped. " +:+ state))
      else
        do pc_after <- cmd (lib get_pc);;
        cmd (report (negb (pc_after =? pc_before))
          ("TC-SSTEP-002: dcsr.cause=" +:+ pretty cause +:+ " (step), wfi at " +:+
           py_hex_alt 10 pc_before +:+ " -> dpc=" +:+ py_hex_alt 10 pc_after +:+ " (delta=" +:+
           signed (pc_after - pc_before) +:+ ")"))
  end.

(** step_stall_sequence.py:185-249 (step_over_wfi) *)
Definition step_over_wfi : act T (Z * option Z) StepResult.t :=
  do pc_before <- cmd (lib get_pc);;
  cmd (lib resume_no_wait);;;
  do r <- cmd (lib (sample DMSTATUS_SAMPLES []));;
  let '(halted, samples) := r in
  if negb halted then
    let trace := String.concat "; "
      (zip_with (fun i v => "#" +:+ pretty (i + 1) +:+ " " +:+ _describe_dmstatus v)
         (py_range (Z.of_nat (length samples))) samples) in
    cmd (report false
      ("TC-SSTEP-002: hart did not re-enter Debug Mode after stepping the wfi at " +:+
       py_hex_alt 10 pc_before +:+ " -- dmstatus read " +:+ pretty (Z.of_nat (length samples)) +:+
       " times, never halted. Sdext requires a stepped stalling instruction be treated as a nop; " +:+
       "with dcsr.stepie=0 and no haltreq the hart cannot be recovered. " +:+ trace))
  else judge pc_before (List.last samples 0).

End over.

(** step_stall_sequence.py:259-260 (the last step) *)
Definition read_at_end : M StepResult.t :=
  do state <- _dmstatus_state;; report true state.

(** step_stall_sequence.py:130-262 (build_step_stall_sequence) *)
Definition build {T} `{DebugTransport T} `{Clock} (nm : string -> result string)
    (mode elf symbol : string) : result (DebugSession.t (world T (Z * option Z))) :=
  try session <- DebugSession.init mode true;;
  let add name fn session := DebugSession.add_step name fn session in
  let session := add ("Resolve " +:+ symbol +:+ " from the ELF")
    (result_step (resolve_symbol nm elf symbol)) session in
  let session := add "Activate Debug Module" (none_step (lib activate)) session in
  let session := add "Halt hart" (none_step (lib (halt DEFAULT_TIMEOUT))) session in
  let session := add "Confirm hart halted" (result_step (lib confirm_halted)) session in
  let session := add "Set dcsr.step=1" (none_step (lib (set_step true))) session in
  let session := add "Step until dpc is the wfi" (result_step advance_to_wfi) session in
  let session := add "TC-SSTEP-002: single-step over wfi (spec: treated as a nop)"
    (act_step step_over_wfi) session in
  let session := add "Clear dcsr.step" (none_step (lib (set_step false))) session in
  let session := add "Read dmstatus at end of test" (result_step (lib read_at_end)) session in
  Ok session.

End StepStall.

Module PrivIrq.

(** priv_irq_sequence.py:34-46 (DCSR_CAUSE_STEP .. PRV_M) *)
Definition DCSR_CAUSE_STEP : Z := 4.
Definition DCSR_STEPIE : Z := Z.shiftl 1 11.
Definition DCSR_STEP : Z := Z.shiftl 1 2.
Definition DCSR_PRV_MASK : Z := 0x3.
Definition PRV_M : Z := 3.

(** [str(PRV_NAME.get(p, p))].
    priv_irq_sequence.py:45-45 (PRV_NAME) *)
Definition prv_name (p : Z) : string :=
  match p with 0 => "U" | 1 => "S" | 3 => "M" | _ => pretty p end.

(** priv_irq_sequence.py:59-67 (_wait_halted) *)
Definition _wait_halted (timeout : Z) : M (bool * Z) :=
  do now <- monotonic;;
  let deadline := now + timeout in
  do found <- poll_before (poll_fuel timeout) both_halted DMI.DMSTATUS deadline;;
  match found with
  | Some status => Ret (true, status)
  | None => do status <- rd DMI.DMSTATUS;; Ret (false, status)
  end.

(** [d[k] = d.get(k, 0) + 1]. *)
Definition count (k : Z) (d : gmap Z Z) : gmap Z Z := <[k := default 0 (d !! k) + 1]> d.

(** [sorted(d.items())]: the keys are distinct. *)
Definition item_le (a b : Z * Z) : Prop := fst a <= fst b.
#[export] Instance item_le_dec : RelDecision item_le := fun a b => Z_le_dec (fst a) (fst b).

Definition sorted_items (d : gmap Z Z) : list (Z * Z) := merge_sort item_le (map_to_list d).

(** [", ".join(f"{PRV_NAME.get(p, p)}={n}" ...)]. *)
Definition seen_text (d : gmap Z Z) : string :=
  String.concat ", " (map (fun '(p, n) => prv_name p +:+ "=" +:+ pretty n) (sorted_items d)).

Definition or_none (s : string) : string := if String.eqb s EmptyString then "none" else s.

(** The dict [state]: the privileges of each pass, by its label, and those caught. *)
Definition state : Type := gmap string (gmap Z Z).

(** priv_irq_sequence.py:87-89 (confirm) *)
Definition confirm : M StepResult.t :=
  do r <- _wait_halted 2000000;;
  let '(halted, status) := r in
  report halted ("dmstatus=" +:+ py_hex 8 status).

(** priv_irq_sequence.py:99-109 (set_stepie, run) *)
Definition set_stepie (enabled : bool) : M StepResult.t :=
  do d <- read_dcsr;;
  let new := if enabled then Z.lor (Z.lor d DCSR_STEP) DCSR_STEPIE
             else Z.land (Z.lor d DCSR_STEP) (Z.lnot DCSR_STEPIE) in
  write_dcsr new;;;
  do back <- read_dcsr;;
  let got := truthy (Z.land back DCSR_STEPIE) in
  report (Bool.eqb got enabled && truthy (Z.land back DCSR_STEP))
    ("dcsr=" +:+ py_hex 8 back +:+ " step=" +:+ pretty (to_int (truthy (Z.land back DCSR_STEP))) +:+
     " stepie=" +:+ pretty (to_int got) +:+ " (wanted stepie=" +:+ pretty (to_int enabled) +:+ ")").

(** What a pass has seen so far. *)
Record pass := mk_pass {
  privs : gmap Z Z;
  pcs : list Z;
  failures : list string
}.

Section walk.
Context {T : Type} `{DebugTransport T} `{Clock}.
Local Open Scope act_scope.

(** priv_irq_sequence.py:138-152 (walk, what a re-halted step shows) *)
Definition record_step (i d : Z) (p : pass) : act T (Z * state) (bool * pass) :=
  let cause := Z.land (Z.shiftr d 6) 0x7 in
  let prv := Z.land d DCSR_PRV_MASK in
  let p := mk_pass (count prv (privs p)) (pcs p) (failures p) in
  do p <- (if i mod 8 =? 0
           then quiet (do pc <- cmd (lib get_pc);;
                       act_ret (mk_pass (privs p) (pcs p ++ [pc]) (failures p))) p
           else act_ret p);;
  if negb (cause =? DCSR_CAUSE_STEP) then
    let fs := failures p ++ ["step " +:+ pretty i +:+ ": dcsr.cause=" +:+ pretty cause +:+
                             ", expected " +:+ pretty DCSR_CAUSE_STEP] in
    act_ret ((3 <? length fs)%nat, mk_pass (privs p) (pcs p) fs)
  else act_ret (false, p).

(** priv_irq_sequence.py:126-151 (walk, the loop body) *)
Definition walk_one (i : Z) (p : pass) : act T (Z * state) (bool * pass) :=
  cmd (lib resume_no_wait);;;
  do r <- cmd (lib (_wait_halted 500000));;
  let '(halted, status) := r in
  if negb halted then
    act_ret (true, mk_pass (privs p) (pcs p) (failures p ++
      ["step " +:+ pretty i +:+ ": hart did not re-halt (dmstatus=" +:+ py_hex 8 status +:+ ")"]))
  else
    do d <- catch (do d <- cmd (lib read_dcsr);; act_ret (inl d))
      (on_Exception (fun e => act_ret (inr
         ("step " +:+ pretty i +:+ ": dcsr unreadable (" +:+ str_exn e +:+ ")"))));;
    match d with
    | inr failure => act_ret (true, mk_pass (privs p) (pcs p) (failures p ++ [failure]))
    | inl d => record_step i d p
    end.

Definition distinct (l : list Z) : nat := length (remove_dups l).

(** priv_irq_sequence.py:154-177 (walk, the verdict) *)
Definition pass_verdict (label : string) (p : pass) : StepResult.t :=
  let seen := seen_text (privs p) in
  let span := match pcs p with
              | [] => "no dpc samples"
              | pc :: l => "dpc " +:+ hex (StepClasses.py_min pc l) +:+ ".." +:+
                           hex (StepClasses.py_max pc l) +:+ " over " +:+
                           pretty (Z.of_nat (distinct (pcs p))) +:+ " distinct"
              end in
  let keys := map fst (map_to_list (privs p)) in
  let stuck_in_M := match keys with [k] => k =? PRV_M | _ => false end &&
                    (1 <? distinct (pcs p))%nat in
  let note :=
    match failures p with
    | f :: _ => "; " +:+ pretty (Z.of_nat (length (failures p))) +:+ " failure(s): " +:+ f
    | [] =>
        if stuck_in_M then
          "; every step stayed in M while dpc walked through the S and U blocks -- RTL-011 (#159): " +:+
          "a stepped xRET reports the pre-return privilege and the resume puts it back, so the " +:+
          "privilege change is lost"
        else if (length keys <=? 1)%nat
        then "; only one privilege reached and dpc did not move"
        else EmptyString
    end in
  StepResult.mk (match failures p with [] => true | _ => false end && (1 <? length keys)%nat)
    (label +:+ ": privileges stepped in -- " +:+ or_none seen +:+ "; " +:+ span +:+ note) None.

(** priv_irq_sequence.py:113-179 (walk) *)
Definition walk (steps : Z) (label : string) : act T (Z * state) StepResult.t :=
  do p <- act_loop walk_one (py_range steps) (mk_pass ∅ [] []);;
  do s <- cmd vars;;
  cmd (set_vars (<[label := privs p]> s));;;
  act_ret (pass_verdict label p).

Context `{JtagTransport T}.

Definition the_tms_walk (tms : list Z) : act T (Z * state) unit :=
  call "tms_walk" (match tms_walk with Some f => Some (f tms) | None => None end).

(** [while ticks: chunk = min(ticks, 32); tms_walk([0] * chunk); ticks -= chunk], for
    the numbers of ticks of the sweep, all positive and below 98: four rounds.
    priv_irq_sequence.py:206-210 (catch_privileges, the dwell) *)
Fixpoint dwell (fuel : nat) (ticks : Z) : act T (Z * state) unit :=
  if ticks =? 0 then act_ret tt
  else match fuel with
       | O => fun w => (w, Raise OutOfFuel)
       | S fuel =>
           let chunk := Z.min ticks 32 in
           the_tms_walk (repeat 0 (Z.to_nat chunk));;;
           dwell fuel (ticks - chunk)
       end.

(** priv_irq_sequence.py:188-219 (catch_privileges, the loop body) *)
Definition catch_one (i : Z) (privs : gmap Z Z) : act T (Z * state) (bool * gmap Z Z) :=
  cmd (lib resume_no_wait);;;
  cmd (lib (rd DMI.DMSTATUS));;;
  dwell 4 (1 + (i * 13) mod 97);;;
  cmd (lib (halt DEFAULT_TIMEOUT));;;
  do r <- cmd (lib (_wait_halted 1000000));;
  if negb (fst r) then act_ret (false, privs)
  else quiet (do d <- cmd (lib read_dcsr);;
              act_ret (false, count (Z.land d DCSR_PRV_MASK) privs)) (false, privs).

(** priv_irq_sequence.py:186-230 (catch_privileges) *)
Definition catch_privileges : act T (Z * state) StepResult.t :=
  do privs <- act_loop catch_one (py_range 20) ∅;;
  do s <- cmd vars;;
  cmd (set_vars (<["caught" := privs]> s));;;
  let more := (1 <? length (map_to_list privs))%nat in
  cmd (report more
    ("halted into privileges: " +:+ or_none (seen_text privs) +:+
     (if more then EmptyString
      else "; only M reached -- either the program never leaves M or dcsr.prv does not record " +:+
           "the privilege. PRV_SEEN in the coverage report distinguishes the two"))).

End walk.

(** priv_irq_sequence.py:241-250 (summary) *)
Definition summary : prog (Z * state) StepResult.t :=
  do s <- vars;;
  let keys label := map fst (map_to_list (default ∅ (s !! label))) in
  let both := merge_sort Z.le (remove_dups (keys "stepie=0" ++ keys "stepie=1")) in
  let names := String.concat ", " (map prv_name both) in
  report (2 <=? length both)%nat
    ("privileges reached across both passes: " +:+ or_none names +:+
     ". Binned by cp_prv, cp_prv_at_step and the stepie cross").

(** priv_irq_sequence.py:70-254 (build_priv_irq_sequence) *)
Definition build {T} `{DebugTransport T} `{JtagTransport T} `{Clock} (mode : string) (steps : Z)
    : result (DebugSession.t (world T (Z * state))) :=
  try session <- DebugSession.init mode false;;
  let add name fn session := DebugSession.add_step name fn session in
  let session := add "Activate Debug Module" (none_step (lib activate)) session in
  let session := add "Halt hart" (none_step (lib (halt DEFAULT_TIMEOUT))) session in
  let session := add "Confirm hart halted" (result_step (lib confirm)) session in
  let session := add "Catch each privilege by halting a running hart"
    (act_step catch_privileges) session in
  let session := add "Set dcsr.step=1, stepie=0" (result_step (lib (set_stepie false))) session in
  let session := add ("Walk " +:+ pretty steps +:+ " steps with stepie=0")
    (act_step (walk steps "stepie=0")) session in
  let session := add "Set dcsr.step=1, stepie=1" (result_step (lib (set_stepie true))) session in
  let session := add ("Walk " +:+ pretty steps +:+ " steps with stepie=1")
    (act_step (walk steps "stepie=1")) session in
  let session := add "Record privileges covered" (result_step summary) session in
  let session := add "Clear dcsr.step" (none_step (lib (set_step false))) session in
  Ok session.

End PrivIrq.
