(* ===== verification/DebugEntry.v ===== *)
(** The sequences that put the hart where it must execute a known instruction:
    [sequences/debug_entry_sequence.py] and [step_matrix_sequence.py].

    Their steps share a dictionary of symbol addresses, a list in insertion order. *)

From S2P Require Import Prelude Registers Predictor Transport RiscvDm Session Sequences Closures.
From S2P Require Import AccessSequences DutConfig Text UvmTransport StepSequences.
Import RISCVDebug HartControl.

Local Open Scope string_scope.
Local Open Scope list_scope.
Local Open Scope Z_scope.
Local Open Scope prog_scope.

(** ** Dictionaries of addresses *)

Definition Addrs : Type := Dict.

(** [", ".join(f"{k}=0x{v:0<w>x}" for k, v in addrs.items())]. *)
Definition addrs_text (w : nat) (d : Addrs) : string :=
  String.concat ", " (map (fun '(k, v) => k +:+ "=" +:+ py_hex w v) d).

Definition prv_name (prv : Z) : result string :=
  if prv =? PRV_U then Ok "U" else if prv =? PRV_S then Ok "S" else if prv =? PRV_M then Ok "M"
  else Raise (KeyError (pretty prv)).

Definition hart_would_not_halt {S} : prog S StepResult.t := report false "hart would not halt".

Module DebugEntry.

(** debug_entry_sequence.py:39-41 (TSELECT, TDATA1, TDATA2) *)
Definition TSELECT : Z := 0x07A0.
Definition TDATA1 : Z := 0x07A1.
Definition TDATA2 : Z := 0x07A2.

(** debug_entry_sequence.py:45-49 (MC6_TYPE .. MC6_EXECUTE) *)
Definition MC6_TYPE : Z := Z.shiftl 6 60.
Definition MC6_DMODE : Z := Z.shiftl 1 59.
Definition MC6_ACTION_DBG : Z := Z.shiftl 1 12.
Definition MC6_M : Z := Z.shiftl 1 6.
Definition MC6_EXECUTE : Z := Z.shiftl 1 2.

(** debug_entry_sequence.py:52-52 (MCAUSE_BREAKPOINT) *)
Definition MCAUSE_BREAKPOINT : Z := 3.

(** debug_entry_sequence.py:55-55 (EBREAK_BIT) *)
Definition EBREAK_BIT (prv : Z) : Z :=
  if prv =? PRV_M then DCSR_EBREAKM else if prv =? PRV_S then DCSR_EBREAKS else DCSR_EBREAKU.

Definition EBREAKS : Z := Z.lor (Z.lor DCSR_EBREAKM DCSR_EBREAKS) DCSR_EBREAKU.

Definition name_of (prv : Z) : string := if prv =? PRV_U then "U" else if prv =? PRV_S then "S" else "M".
Definition name_lower (prv : Z) : string := if prv =? PRV_U then "u" else if prv =? PRV_S then "s" else "m".

(** [addrs[symbol]]. *)
Definition addr_of (symbol : string) : prog (Z * Addrs) Z :=
  do d <- vars;; of_result (dict_lookup symbol d).

(** The symbols, resolved one by one into the dictionary. *)
Fixpoint resolve (nm : string -> result string) (elf : string) (symbols : list string)
    : prog (Z * Addrs) unit :=
  match symbols with
  | [] => Ret tt
  | sym :: symbols =>
      do a <- of_result (symbol_addr nm elf sym);;
      do d <- vars;;
      set_vars (dict_set sym a d);;;
      resolve nm elf symbols
  end.

(** debug_entry_sequence.py:69-76 (setup) *)
Definition setup (nm : string -> result string) (elf : string) : prog (Z * Addrs) StepResult.t :=
  resolve nm elf ["cls_ebreak"; "ebreak_park"; "cls_trigger_target"; "trigger_lead"; "step_loop"];;;
  lib open_pmp;;;
  do d <- vars;;
  report true ("resolved " +:+ addrs_text 8 d +:+ "; PMP entry 0 opened for S/U").

(** The entry, the cause, dpc and the privilege at entry.
    debug_entry_sequence.py:79-89 (enter_via_ebreak) *)
Definition enter_via_ebreak (prv ebreak_bits : Z) : prog (Z * Addrs) (bool * Z * Z * Z) :=
  lib (modify_dcsr ebreak_bits (Z.land (Z.lor EBREAKS DCSR_STEP) (Z.lnot ebreak_bits)) None);;;
  do pc <- addr_of "cls_ebreak";;
  lib (place pc prv);;;
  do entered <- lib (run_until_halted 400);;
  (if negb entered then lib (ensure_halted 200) else Ret true);;;
  do dcsr <- lib (read_gpr DCSR);;
  do dpc <- lib (read_reg64 DPC);;
  Ret (entered, cause_of dcsr, dpc, Z.land dcsr 0x3).

(** The steps start by halting the hart. *)
Definition halted_first (c : prog (Z * Addrs) StepResult.t) : prog (Z * Addrs) StepResult.t :=
  do halted <- lib (ensure_halted 200);;
  if negb halted then hart_would_not_halt else c.

(** debug_entry_sequence.py:95-107 (tc_dcsr_012) *)
Definition tc_dcsr_012 : prog (Z * Addrs) StepResult.t := halted_first
  (lib (write_reg64 MCAUSE 0);;;
   do r <- enter_via_ebreak PRV_M 0;;
   let '(_, cause, _, _) := r in
   do mcause <- lib (read_reg64 MCAUSE);;
   do mepc <- lib (read_reg64 MEPC);;
   do at_ebreak <- addr_of "cls_ebreak";;
   let reached := (mcause =? MCAUSE_BREAKPOINT) && ((mepc =? at_ebreak) || (mepc =? at_ebreak + 4)) in
   let ok := negb (cause =? CAUSE_EBREAK) && reached in
   report ok
     ("TC-DCSR-012: ebreakm=0 -> dcsr.cause=" +:+ pretty cause +:+ " (not ebreak), mcause=" +:+
      pretty mcause +:+ " mepc=" +:+ py_hex 1 mepc +:+ " (breakpoint trap at the ebreak: " +:+
      py_bool reached +:+ ")  " +:+ ok_or ok "entered Debug Mode, or never reached the ebreak")).

(** debug_entry_sequence.py:111-125 (ebreak_entry) *)
Definition ebreak_entry (prv : Z) (tc : string) : prog (Z * Addrs) StepResult.t := halted_first
  (do r <- enter_via_ebreak prv (EBREAK_BIT prv);;
   let '(entered, cause, dpc, prv_seen) := r in
   do at_ebreak <- addr_of "cls_ebreak";;
   let ok := entered && (cause =? CAUSE_EBREAK) && (dpc =? at_ebreak) && (prv_seen =? prv) in
   report ok
     (tc +:+ ": ebreak" +:+ name_lower prv +:+ "=1 in " +:+ name_of prv +:+ " -> halted=" +:+
      py_bool entered +:+ " cause=" +:+ pretty cause +:+ " (expect " +:+ pretty CAUSE_EBREAK +:+
      ") dpc=" +:+ py_hex 1 dpc +:+ " (expect the ebreak, " +:+ py_hex 1 at_ebreak +:+
      ") dcsr.prv=" +:+ pretty prv_seen +:+ "  " +:+ ok_or ok "wrong entry")).

(** debug_entry_sequence.py:131-150 (haltreq_entry) *)
Definition haltreq_entry (prv : Z) : prog (Z * Addrs) StepResult.t := halted_first
  (lib (modify_dcsr 0 (Z.lor EBREAKS DCSR_STEP) None);;;
   do park <- addr_of "ebreak_park";;
   lib (place park prv);;;
   lib (resume DEFAULT_TIMEOUT);;;
   do running <- lib is_running;;
   lib (halt DEFAULT_TIMEOUT);;;
   do dcsr <- lib (read_gpr DCSR);;
   do dpc <- lib (read_reg64 DPC);;
   let ok := running && (cause_of dcsr =? CAUSE_HALTREQ) && (Z.land dcsr 0x3 =? prv) &&
             (dpc =? park) in
   report ok
     ("TC-DCSR-014: running in " +:+ name_of prv +:+ "=" +:+ py_bool running +:+
      ", halted -> cause=" +:+ pretty (cause_of dcsr) +:+ " (expect " +:+ pretty CAUSE_HALTREQ +:+
      ") prv=" +:+ pretty (Z.land dcsr 0x3) +:+ " dpc=" +:+ py_hex 1 dpc +:+
      " (expect the spin, " +:+ py_hex 1 park +:+ ")  " +:+ ok_or ok "wrong entry")).

(** debug_entry_sequence.py:155-175 (step_entry) *)
Definition step_entry (prv : Z) : prog (Z * Addrs) StepResult.t := halted_first
  (do loop <- addr_of "step_loop";;
   let start := loop + 4 in
   lib (modify_dcsr DCSR_STEP EBREAKS None);;;
   lib (place start prv);;;
   do entered <- lib (step_once 400);;
   do dcsr <- lib (read_gpr DCSR);;
   do dpc <- lib (read_reg64 DPC);;
   lib (modify_dcsr 0 DCSR_STEP None);;;
   let ok := entered && (cause_of dcsr =? CAUSE_STEP) && (Z.land dcsr 0x3 =? prv) &&
             (dpc =? start + 4) in
   report ok
     ("TC-DCSR-015: step in " +:+ name_of prv +:+ " -> halted=" +:+ py_bool entered +:+ " cause=" +:+
      pretty (cause_of dcsr) +:+ " (expect " +:+ pretty CAUSE_STEP +:+ ") prv=" +:+
      pretty (Z.land dcsr 0x3) +:+ " dpc=" +:+ py_hex 1 dpc +:+ " (expect " +:+
      py_hex 1 (start + 4) +:+ ")  " +:+ ok_or ok "wrong entry")).

(** The word that arms trigger 0. *)
Definition arm_word : Z :=
  Z.lor (Z.lor (Z.lor (Z.lor MC6_TYPE MC6_DMODE) MC6_ACTION_DBG) MC6_M) MC6_EXECUTE.

(** debug_entry_sequence.py:185-188 (tc_dcsr_011, inside the try) *)
Definition arm (target : Z) : M Z :=
  write_gpr TSELECT 0;;;
  write_reg64 TDATA2 target;;;
  write_reg64 TDATA1 arm_word;;;
  read_reg64 TDATA1.

(** debug_entry_sequence.py:195-222 (tc_dcsr_011, once the trigger is armed) *)
Definition run_into (target readback : Z) : prog (Z * Addrs) StepResult.t :=
  if negb (Z.shiftr readback 60 =? 6) then
    report true
      ("TC-DCSR-011: N/A -- trigger 0 did not accept an mcontrol6 execute trigger (tdata1=" +:+
       py_hex 16 readback +:+ ")")
  else
    lib (modify_dcsr 0 (Z.lor EBREAKS DCSR_STEP) None);;;
    do lead <- addr_of "trigger_lead";;
    lib (place lead PRV_M);;;
    do entered <- lib (run_until_halted 400);;
    (if negb entered then lib (ensure_halted 200) else Ret true);;;
    do dcsr <- lib (read_gpr DCSR);;
    let cause := cause_of dcsr in
    do dpc <- lib (read_reg64 DPC);;
    lib (write_reg64 TDATA1 0);;;
    let fired := entered && (dpc =? target) in
    let ok := fired && (cause =? CAUSE_TRIGGER) in
    let verdict :=
      if ok then "OK"
      else if fired then "trigger fired but dcsr.cause=" +:+ pretty cause +:+ ", not " +:+
                         pretty CAUSE_TRIGGER +:+ " -- RTL-012"
      else "trigger did not enter Debug Mode" in
    report ok
      ("TC-DCSR-011: execute trigger at " +:+ py_hex 1 target +:+ " -> self-halted=" +:+
       py_bool entered +:+ " dpc=" +:+ py_hex 1 dpc +:+ " cause=" +:+ pretty cause +:+
       " (expect " +:+ pretty CAUSE_TRIGGER +:+ ")  " +:+ verdict).

Section trigger.
Context {T : Type} `{DebugTransport T} `{Clock}.
Local Open Scope act_scope.

(** [except DebugError as e]. *)
Definition on_DebugError {S A} (h : exn -> act T S A) (e : exn) : option (act T S A) :=
  match e with DebugError _ => Some (h e) | _ => None end.

(** debug_entry_sequence.py:180-222 (tc_dcsr_011) *)
Definition tc_dcsr_011 : act T (Z * Addrs) StepResult.t :=
  do halted <- cmd (lib (ensure_halted 200));;
  if negb halted then cmd hart_would_not_halt
  else
    do target <- cmd (addr_of "cls_trigger_target");;
    do armed <- catch (do v <- cmd (lib (arm target));; act_ret (inl v))
      (on_DebugError (fun e => cmd
        (lib (ensure_halted 200);;;
         Ret (inr (StepResult.mk true
           ("TC-DCSR-011: N/A -- the trigger CSRs raise an exception (" +:+ str_exn e +:+
            "); this CVA6 build has Sdtrig=0, so no trigger can fire") None)))%prog));;
    match armed with
    | inr r => act_ret r
    | inl readback => cmd (run_into target readback)
    end.

End trigger.

(** debug_entry_sequence.py:226-232 (restore) *)
Definition restore : prog (Z * Addrs) StepResult.t := halted_first
  (lib (modify_dcsr 0 (Z.lor EBREAKS DCSR_STEP) (Some PRV_M));;;
   do park <- addr_of "ebreak_park";;
   lib (write_reg64 DPC park);;;
   report true "restored dcsr (M, no ebreak*/step), hart halted").

(** debug_entry_sequence.py:58-235 (build_debug_entry_sequence) *)
Definition build {T} `{DebugTransport T} `{Clock} (nm : string -> result string) (mode elf : string)
    : result (DebugSession.t (world T (Z * Addrs))) :=
  try session <- DebugSession.init mode false;;
  let add name fn session := DebugSession.add_step name fn session in
  let session := add "Activate Debug Module" (none_step (lib activate)) session in
  let session := add "Halt hart" (none_step (lib (halt DEFAULT_TIMEOUT))) session in
  let session := add "Resolve entry points, open PMP" (result_step (setup nm elf)) session in
  let session := add "TC-DCSR-012: ebreakm=0 does not enter Debug Mode"
    (result_step tc_dcsr_012) session in
  let session := add "TC-DCSR-010: ebreak enters Debug Mode from M"
    (result_step (ebreak_entry PRV_M "TC-DCSR-010")) session in
  let session := add "TC-DCSR-013: ebreak enters Debug Mode from S"
    (result_step (ebreak_entry PRV_S "TC-DCSR-013")) session in
  let session := add "TC-DCSR-013: ebreak enters Debug Mode from U"
    (result_step (ebreak_entry PRV_U "TC-DCSR-013")) session in
  let session := add "TC-DCSR-014: haltreq from S" (result_step (haltreq_entry PRV_S)) session in
  let session := add "TC-DCSR-014: haltreq from U" (result_step (haltreq_entry PRV_U)) session in
  let session := add "TC-DCSR-015: step from S" (result_step (step_entry PRV_S)) session in
  let session := add "TC-DCSR-015: step from U" (result_step (step_entry PRV_U)) session in
  let session := add "TC-DCSR-011: trigger enters Debug Mode (cause=2)"
    (act_step tc_dcsr_011) session in
  let session := add "Restore dcsr" (result_step restore) session in
  Ok session.

End DebugEntry.

Module StepMatrix.

(** step_matrix_sequence.py:54-56 (S0_REGNO, SEPC, PRV_NAME) *)
Definition S0_REGNO : Z := 0x1008.
Definition SEPC : Z := 0x0141.

(** step_matrix_sequence.py:61-65 (M_STEPS, LOW_STEPS, SYMBOLS) *)
Definition M_STEPS : Z := 40.
Definition LOW_STEPS : Z := 24.
Definition SYMBOLS : list string :=
  ["step_loop"; "cls_sret"; "sret_insn"; "scratch_area"; "trap_handler"; "handler_mret"; "handler_end"].

(** The dicts [addrs] and [deviations], with the lists of its two keys.
    step_matrix_sequence.py:74-76 (addrs, deviations) *)
Record vars_t := mk_vars {
  addrs : Addrs;
  trap : list string;
  xret : list string
}.

#[export] Instance vars_settable : Settable vars_t := fun v => mk_vars (addrs v) (trap v) (xret v).

(** [addrs[symbol]]. *)
Definition addr_of (symbol : string) : prog (Z * vars_t) Z :=
  do v <- vars;; of_result (dict_lookup symbol (addrs v)).

Fixpoint resolve (nm : string -> result string) (elf : string) (symbols : list string)
    : prog (Z * vars_t) unit :=
  match symbols with
  | [] => Ret tt
  | sym :: symbols =>
      do a <- of_result (symbol_addr nm elf sym);;
      do v <- vars;;
      set_vars (v <| addrs := dict_set sym a (addrs v) |>);;;
      resolve nm elf symbols
  end.

(** step_matrix_sequence.py:81-89 (setup) *)
Definition setup (nm : string -> result string) (elf : string) : prog (Z * vars_t) StepResult.t :=
  resolve nm elf SYMBOLS;;;
  lib open_pmp;;;
  do scratch <- addr_of "scratch_area";;
  lib (write_reg64 S0_REGNO scratch);;;
  do mstatus <- lib (read_reg64 MSTATUS);;
  lib (write_reg64 MSTATUS (Z.land mstatus (Z.lnot MSTATUS_MIE)));;;
  do v <- vars;;
  report true ("PMP opened, s0 -> scratch_area, mstatus.MIE=0 " +:+ addrs_text 1 (addrs v)).

(** The upper bound is only looked up when the lower one holds.
    step_matrix_sequence.py:92-93 (in_handler) *)
Definition in_handler (pc : Z) : prog (Z * vars_t) bool :=
  do lo <- addr_of "trap_handler";;
  if lo <=? pc then do hi <- addr_of "handler_end";; Ret (pc <? hi) else Ret false.

(** step_matrix_sequence.py:114-119 (run, what an xRET must do) *)
Definition expectation (pc prv : Z) : prog (Z * vars_t) (option (Z * Z)) :=
  do mret <- addr_of "handler_mret";;
  if pc =? mret then do to <- lib (read_reg64 MEPC);; Ret (Some (to, prv))
  else
    do sret <- addr_of "sret_insn";;
    if pc =? sret then do to <- lib (read_reg64 SEPC);; Ret (Some (to, PRV_S)) else Ret None.

(** [f"{PRV_NAME[prv]}{pc & 0xFFF:03x}"]. *)
Definition mark_of (prv pc : Z) : prog (Z * vars_t) string :=
  do name <- of_result (prv_name prv);;
  Ret (name +:+ hex_digits 3 (Z.land pc 0xFFF) EmptyString).

(** What the loop carries: pc, cur_prv, levels and trail. *)
Record walk_t := mk_walk {
  pc : Z;
  cur_prv : Z;
  levels : list string;
  trail : list string
}.

(** An xRET that did not land where it should: recorded, and put right.
    step_matrix_sequence.py:130-139 (run, the xRET) *)
Definition check_xret (label : string) (pc dpc new_prv want_pc want_prv : Z) (mark : string)
    : prog (Z * vars_t) (Z * Z * string) :=
  if (dpc =? want_pc) && (new_prv =? want_prv) then Ret (dpc, new_prv, mark)
  else
    do name <- of_result (prv_name new_prv);;
    do want_name <- of_result (prv_name want_prv);;
    do v <- vars;;
    set_vars (v <| xret := xret v ++
      [label +:+ ": xRET at " +:+ py_hex 1 pc +:+ " -> dpc=" +:+ py_hex 1 dpc +:+ " prv=" +:+ name +:+
       " (expect " +:+ py_hex 1 want_pc +:+ " " +:+ want_name +:+ ")"] |>);;;
    lib (place want_pc want_prv);;;
    do there <- mark_of want_prv want_pc;;
    Ret (want_pc, want_prv, mark +:+ ">" +:+ there).

(** A step that trapped: Debug Mode is entered at the handler's first instruction.
    step_matrix_sequence.py:140-148 (run, the trap) *)
Definition check_trap (label : string) (pc dpc : Z) (mark : string) : prog (Z * vars_t) string :=
  do trapped <- (do inside <- in_handler dpc;;
                 if inside then do before <- in_handler pc;; Ret (negb before) else Ret false);;
  if negb trapped then Ret mark
  else
    do mcause <- lib (read_reg64 MCAUSE);;
    let cause := Z.land mcause 0xFF in
    do entry <- addr_of "trap_handler";;
    (if dpc =? entry then Ret tt
     else do v <- vars;;
          set_vars (v <| trap := trap v ++
            [label +:+ ": trap (mcause=" +:+ pretty cause +:+ ") at " +:+ py_hex 1 pc +:+
             " -> dpc=" +:+ py_hex 1 dpc +:+ " (expect the handler entry " +:+ py_hex 1 entry +:+
             ")"] |>));;;
    Ret (mark +:+ "(c" +:+ pretty cause +:+ ")").

(** The [levels] set: a name is added once. *)
Definition add_level (name : string) (l : list string) : list string :=
  if List.existsb (String.eqb name) l then l else l ++ [name].

(** One step of the walk: [inl] ends the run.
    step_matrix_sequence.py:111-152 (run, the loop body) *)
Definition step_at (label : string) (prv n : Z) (w : walk_t)
    : prog (Z * vars_t) ((bool * string) + walk_t) :=
  do expect <- expectation (pc w) prv;;
  do halted <- lib (step_once 400);;
  if negb halted then
    Ret (inl (false, "step " +:+ pretty (n + 1) +:+ " did not re-halt; path " +:+
                     String.concat " " (trail w)))
  else
    do dcsr <- lib (read_gpr DCSR);;
    if negb (cause_of dcsr =? CAUSE_STEP) then
      Ret (inl (false, "step " +:+ pretty (n + 1) +:+ " halted with cause=" +:+ pretty (cause_of dcsr)))
    else
      let new_prv := Z.land dcsr 0x3 in
      do dpc <- lib (read_reg64 DPC);;
      do mark <- mark_of new_prv dpc;;
      do landed <- match expect with
                   | Some (want_pc, want_prv) =>
                       check_xret label (pc w) dpc new_prv want_pc want_prv mark
                   | None => do mark <- check_trap label (pc w) dpc mark;; Ret (dpc, new_prv, mark)
                   end;;
      let '(dpc, new_prv, mark) := landed in
      do level <- of_result (prv_name (cur_prv w));;
      Ret (inr (mk_walk dpc new_prv (add_level level (levels w)) (trail w ++ [mark]))).

Fixpoint walk (label : string) (prv : Z) (l : list Z) (w : walk_t)
    : prog (Z * vars_t) ((bool * string) + walk_t) :=
  match l with
  | [] => Ret (inr w)
  | n :: l =>
      do r <- step_at label prv n w;;
      match r with inl e => Ret (inl e) | inr w => walk label prv l w end
  end.

(** [sorted] of the level names. *)
Definition sorted_levels (l : list string) : list string :=
  List.filter (fun name => List.existsb (String.eqb name) l) ["M"; "S"; "U"].

(** step_matrix_sequence.py:95-154 (run) *)
Definition run (label : string) (start prv steps : Z) (stepie irq : bool)
    : prog (Z * vars_t) (bool * string) :=
  do halted <- lib (ensure_halted 200);;
  if negb halted then Ret (false, "hart would not halt")
  else
    lib (write_reg64 MIE (if irq then MIE_MTIE else 0));;;
    lib (modify_dcsr (Z.lor DCSR_STEP (if stepie then DCSR_STEPIE else 0))
                     (if stepie then 0 else DCSR_STEPIE) None);;;
    lib (place start prv);;;
    do r <- walk label prv (py_range steps) (mk_walk start prv [] []);;
    match r with
    | inl e => Ret e
    | inr w => Ret (true, pretty steps +:+ " steps, ran at " +:+
                          String.concat EmptyString (sorted_levels (levels w)) +:+ "; path " +:+
                          String.concat " " (trail w))
    end.

(** The step of a run, with its prefix. *)
Definition judged (prefix : string) (r : bool * string) : prog (Z * vars_t) StepResult.t :=
  let (ok, detail) := r in
  report ok (prefix +:+ ": " +:+ detail +:+ "  " +:+ ok_or ok "step broke").

(** step_matrix_sequence.py:156-165 (m_combo) *)
Definition m_combo (stepie irq : bool) : prog (Z * vars_t) StepResult.t :=
  let label := "M stepie=" +:+ pretty (to_int stepie) +:+ " irq=" +:+ pretty (to_int irq) in
  do start <- addr_of "step_loop";;
  do r <- run label start PRV_M M_STEPS stepie irq;;
  judged ("TC-SSTEP-M: stepie=" +:+ pretty (to_int stepie) +:+ " irq_pending=" +:+
          pretty (to_int irq)) r.

(** step_matrix_sequence.py:171-180 (low) *)
Definition low (prv : Z) : prog (Z * vars_t) StepResult.t :=
  do name <- of_result (prv_name prv);;
  do loop <- addr_of "step_loop";;
  do r <- run name (loop + 4) prv LOW_STEPS false false;;
  judged ("TC-SSTEP-" +:+ name) r.

(** step_matrix_sequence.py:184-188 (wfi_in_u) *)
Definition wfi_in_u : prog (Z * vars_t) StepResult.t :=
  do loop <- addr_of "step_loop";;
  do r <- run "U wfi" loop PRV_U 1 false false;;
  judged "TC-SSTEP-U-wfi" r.

(** step_matrix_sequence.py:191-194 (sret_in_s) *)
Definition sret_in_s : prog (Z * vars_t) StepResult.t :=
  do start <- addr_of "cls_sret";;
  do r <- run "S sret" start PRV_S 8 false false;;
  judged "TC-SSTEP-S-sret" r.

(** step_matrix_sequence.py:197-208 (spec_check) *)
Definition spec_check : prog (Z * vars_t) StepResult.t :=
  do v <- vars;;
  let line kind ref seen :=
    match seen with
    | [] => []
    | first :: _ => [pretty (Z.of_nat (length seen)) +:+ " " +:+ kind +:+ " step(s) off-spec [" +:+
                     ref +:+ "], first: " +:+ first]
    end in
  let lines := line "trap" "SSTEP-008, RTL-010 (openhwgroup/cva6#3429)" (trap v) ++
               line "xret" "SSTEP-009, RTL-011" (xret v) in
  let ok := match lines with [] => true | _ => false end in
  report ok
    (if ok then "TC-SSTEP-008/009: every trap and xRET step landed where Sdext requires"
     else "TC-SSTEP-008/009: " +:+ String.concat "; " lines).

(** step_matrix_sequence.py:211-216 (restore) *)
Definition restore : prog (Z * vars_t) StepResult.t :=
  do halted <- lib (ensure_halted 200);;
  if negb halted then hart_would_not_halt
  else
    lib (write_reg64 MIE 0);;;
    lib (modify_dcsr 0 (Z.lor DCSR_STEP DCSR_STEPIE) (Some PRV_M));;;
    report true "dcsr.step/stepie cleared, prv=M, mie=0".

(** step_matrix_sequence.py:68-219 (build_step_matrix_sequence) *)
Definition build {T} `{DebugTransport T} `{Clock} (nm : string -> result string) (mode elf : string)
    : result (DebugSession.t (world T (Z * vars_t))) :=
  try session <- DebugSession.init mode false;;
  let add name fn session := DebugSession.add_step name fn session in
  let session := add "Activate Debug Module" (none_step (lib activate)) session in
  let session := add "Halt hart" (none_step (lib (halt DEFAULT_TIMEOUT))) session in
  let session := add "Resolve symbols, open PMP, disable M interrupts"
    (result_step (setup nm elf)) session in
  let combo session '(stepie, irq) :=
    add ("Step in M, stepie=" +:+ pretty (to_int stepie) +:+ ", interrupt pending=" +:+
         pretty (to_int irq)) (result_step (m_combo stepie irq)) session in
  let session := fold_left combo [(false, false); (false, true); (true, false); (true, true)] session in
  let session := add "Step in S" (result_step (low PRV_S)) session in
  let session := add "Step in U" (result_step (low PRV_U)) session in
  let session := add "Step a wfi in U" (result_step wfi_in_u) session in
  let session := add "Step an sret in S" (result_step sret_in_s) session in
  let session := add "Check trap and xRET steps against Sdext" (result_step spec_check) session in
  let session := add "Restore" (result_step restore) session in
  Ok session.

End StepMatrix.
