(* ===== verification/TriggerSequence.v ===== *)
(** The Trigger Module sequence: [sequences/trigger_sequence.py].  Its steps go on
    after any exception, so they are all [act]s. *)

From S2P Require Import Prelude Registers Predictor Transport RiscvDm Session Sequences Closures.
From S2P Require Import AccessSequences.
Import RISCVDebug.

Local Open Scope string_scope.
Local Open Scope list_scope.
Local Open Scope Z_scope.

(** [type(e).__name__]. *)
Definition exn_name (e : exn) : string :=
  match e with
  | KeyError _ => "KeyError" | ValueError _ => "ValueError" | IndexError _ => "IndexError"
  | AttributeError _ => "AttributeError" | DebugError _ => "DebugError"
  | TransportError _ => "TransportError" | KeyboardInterrupt _ => "KeyboardInterrupt"
  | TypeError _ => "TypeError" | FileNotFoundError _ => "FileNotFoundError"
  | RuntimeError _ => "RuntimeError" | OSError _ => "OSError" | OutOfFuel => EmptyString
  end.

Module Trigger.

(** trigger_sequence.py:34-38 (CSR_TSELECT .. CSR_TINFO) *)
Definition CSR_TSELECT : Z := 0x07A0.
Definition CSR_TDATA1 : Z := 0x07A1.
Definition CSR_TDATA2 : Z := 0x07A2.
Definition CSR_TDATA3 : Z := 0x07A3.
Definition CSR_TINFO : Z := 0x07A4.

(** trigger_sequence.py:41-47 (TRIGGER_TYPES) *)
Definition TRIGGER_TYPES : list (string * Z) :=
  [("mcontrol", 2); ("icount", 3); ("itrigger", 4); ("etrigger", 5); ("mcontrol6", 6);
   ("tmexttrigger", 7)].

(** trigger_sequence.py:49-54 (TYPE_LSB_RV32 .. MC6_ENABLES) *)
Definition TYPE_LSB_RV32 : Z := 28.
Definition TYPE_LSB_RV64 : Z := 60.
Definition CSR_MISA : Z := 0x0301.
Definition MC6_ENABLES : Z := 0x5F.

(** The dict [width], which is one of two values: whether the hart is RV64.
    trigger_sequence.py:72-72 (width) *)
Definition lsb (rv64 : bool) : Z := if rv64 then TYPE_LSB_RV64 else TYPE_LSB_RV32.
Definition width_rd (rv64 : bool) (regno : Z) : M Z := if rv64 then read_reg64 regno else read_gpr regno.
Definition width_wr (rv64 : bool) (regno v : Z) : M unit :=
  if rv64 then write_reg64 regno v else write_gpr regno v.

Section steps.
Context {T : Type} `{DebugTransport T} `{Clock}.
Local Open Scope act_scope.

Definition A := act T (Z * bool).

(** A method that returns a number, and one that returns [None]. *)
Definition value (c : M Z) : A (option Z) := do v <- cmd (lib c);; act_ret (Some v).
Definition none (c : M unit) : A (option Z) := cmd (lib c);;; act_ret None.

(** [fn() or 0] is 0 for [None].
    trigger_sequence.py:190-202 (_try) *)
Definition _try (fn : A (option Z)) (default_ : option Z) : A (option Z) :=
  catch (do v <- fn;; act_ret (Some (default 0 v)))
    (on_Exception (fun _ => quiet (cmd (lib clear_cmderr)) tt;;; act_ret default_)).

(** [_try] with its default of 0. *)
Definition try_read (c : M Z) : A Z := do v <- _try (value c) (Some 0);; act_ret (default 0 v).
Definition try_write (c : M unit) : A unit := _try (none c) (Some 0);;; act_ret tt.

(** trigger_sequence.py:205-211 (_safe) *)
Definition _safe (fn : M unit) : A StepResult.t :=
  catch (cmd (lib fn);;; act_ret (StepResult.mk true "ok" None))
    (on_Exception (fun e => act_ret (StepResult.mk true
       ("(continued past: " +:+ exn_name e +:+ ": " +:+ str_exn e +:+ ")") None))).

(** trigger_sequence.py:74-86 (probe_xlen) *)
Definition probe_xlen : A StepResult.t :=
  do misa <- quiet (cmd (lib (read_reg64 CSR_MISA))) 0;;
  do xlen <- (if Z.shiftr misa 62 =? 2 then cmd (set_vars true);;; act_ret 64 else act_ret 32);;
  _safe (wr 0x16 (Z.shiftl 0x7 8));;;
  do rv64 <- cmd vars;;
  act_ret (StepResult.mk true
    ("hart XLEN=" +:+ pretty xlen +:+ ": tdata1.type at [" +:+ pretty (lsb rv64 + 3) +:+ ":" +:+
     pretty (lsb rv64) +:+ "]") None).

(** trigger_sequence.py:89-90 (the step that selects trigger 0) *)
Definition select_0 : A StepResult.t := _safe (write_gpr CSR_TSELECT 0).

(** trigger_sequence.py:93-100 (tc_trig_001) *)
Definition tc_trig_001 : A StepResult.t :=
  do tinfo <- try_read (read_gpr CSR_TINFO);;
  let supported := map fst (List.filter (fun '(_, ty) => truthy (slice_of tinfo ty 1)) TRIGGER_TYPES) in
  act_ret (StepResult.mk true
    ("TC-TRIG-001: tinfo=" +:+ py_hex 8 tinfo +:+ ", supported types: " +:+
     match supported with [] => "(none decoded)" | _ => String.concat ", " supported end) None).

(** trigger_sequence.py:104-112 (tc_trig_002) *)
Definition tc_trig_002 : A StepResult.t :=
  try_write (write_gpr CSR_TSELECT 0xFFFFFFFF);;;
  do readback <- try_read (read_gpr CSR_TSELECT);;
  try_write (write_gpr CSR_TSELECT 0);;;
  act_ret (StepResult.mk true
    ("TC-TRIG-002: wrote tselect=0xffffffff, read back " +:+ py_hex 8 readback +:+
     " (highest implemented trigger index)") None).

(** trigger_sequence.py:116-132 (tc_trig_004) *)
Definition tc_trig_004 : A StepResult.t :=
  try_write (write_gpr CSR_TDATA1 0);;;
  do before1 <- try_read (read_gpr CSR_TDATA1);;
  do before3 <- _try (value (read_gpr CSR_TDATA3)) None;;
  try_write (write_gpr CSR_TDATA2 0xDEADBEEF);;;
  do after1 <- try_read (read_gpr CSR_TDATA1);;
  do after3 <- _try (value (read_gpr CSR_TDATA3)) None;;
  let ok := (before1 =? after1) && bool_decide (before3 = after3) in
  let t3 := match before3, after3 with
            | None, None => "not implemented (access traps)"
            | _, _ => "before=" +:+ py_hex 8 (default 0 before3) +:+ " after=" +:+
                      py_hex 8 (default 0 after3)
            end in
  act_ret (StepResult.mk ok
    ("TC-TRIG-004: tdata1 before=" +:+ py_hex 8 before1 +:+ " after tdata2 write =" +:+
     py_hex 8 after1 +:+ "; tdata3 " +:+ t3 +:+ "  " +:+
     (if ok then "isolated OK" else "DISTURBED") +:+
     " (testplan TC-TRIG-004 scope: tdata1 AND tdata3 isolation)") None).

(** trigger_sequence.py:139-152 (make_type_step) *)
Definition make_type_step (name : string) (ty : Z) : A StepResult.t :=
  do rv64 <- cmd vars;;
  try_write (width_wr rv64 CSR_TDATA1 0);;;
  try_write (width_wr rv64 CSR_TDATA1 (Z.shiftl ty (lsb rv64)));;;
  do rb <- try_read (width_rd rv64 CSR_TDATA1);;
  let kept := slice_of rb (lsb rv64) 0xF =? ty in
  act_ret (StepResult.mk true
    ("TC-TRIG-005/012: configured tdata1.type=" +:+ pretty ty +:+ " (" +:+ name +:+
     "), read back type=" +:+ pretty (slice_of rb (lsb rv64) 0xF) +:+ " " +:+
     (if kept then "(kept)" else "(WARL-adjusted by DUT)")) None).

(** trigger_sequence.py:164-169 (tc_trig_006, inside the try) *)
Definition arm_and_disable (rv64 : bool) : M (Z * Z) := (
  write_gpr CSR_TSELECT 0;;;
  width_wr rv64 CSR_TDATA2 0x80000000;;;
  width_wr rv64 CSR_TDATA1 (Z.lor (Z.lor (Z.shiftl 6 (lsb rv64)) (Z.shiftl 1 6)) (Z.shiftl 1 2));;;
  do armed <- width_rd rv64 CSR_TDATA1;;
  width_wr rv64 CSR_TDATA1 0;;;
  do after <- width_rd rv64 CSR_TDATA1;;
  Ret (armed, after))%prog.

(** trigger_sequence.py:172-180 (tc_trig_006, the verdict) *)
Definition disabled (rv64 : bool) (armed after : Z) : StepResult.t :=
  if negb (slice_of armed (lsb rv64) 0xF =? 6) then
    StepResult.mk true
      ("TC-TRIG-006: N/A -- trigger 0 does not take mcontrol6 (tdata1=" +:+ py_hex 1 armed +:+ ")") None
  else
    let ty := slice_of after (lsb rv64) 0xF in
    let ok := ((ty =? 0) || (ty =? 15)) && (Z.land after MC6_ENABLES =? 0) in
    StepResult.mk ok
      ("TC-TRIG-006: armed tdata1=" +:+ py_hex 1 armed +:+ ", after writing 0 -> " +:+
       py_hex 1 after +:+ " (type=" +:+ pretty ty +:+ ")  " +:+
       (if ok then "disabled OK" else "trigger still armed -- RTL-013")) None.

(** trigger_sequence.py:161-180 (tc_trig_006) *)
Definition tc_trig_006 : A StepResult.t :=
  do rv64 <- cmd vars;;
  catch (do r <- cmd (lib (arm_and_disable rv64));;
         let (armed, after) := r in act_ret (disabled rv64 armed after))
    (on_Exception (fun e => act_ret (StepResult.mk true
       ("TC-TRIG-006: N/A -- trigger CSRs not accessible (" +:+ str_exn e +:+ ")") None))).

(** trigger_sequence.py:184-185 (the last step) *)
Definition disable : A StepResult.t := _safe (write_gpr CSR_TDATA1 0).

(** trigger_sequence.py:57-187 (build_trigger_sequence) *)
Definition build (mode : string) : result (DebugSession.t (world T (Z * bool))) :=
  try session <- DebugSession.init mode false;;
  let add name fn session := DebugSession.add_step name fn session in
  let session := add "Activate Debug Module" (none_step (lib activate)) session in
  let session := add "Halt hart" (none_step (lib (halt DEFAULT_TIMEOUT))) session in
  let session := add "Probe hart XLEN" (act_step probe_xlen) session in
  let session := add "Select trigger 0 (tselect=0)" (act_step select_0) session in
  let session := add "TC-TRIG-001: tinfo type enumeration" (act_step tc_trig_001) session in
  let session := add "TC-TRIG-002: tselect count discovery" (act_step tc_trig_002) session in
  let session := add "TC-TRIG-004: tdata write-isolation" (act_step tc_trig_004) session in
  let session := fold_left (fun session '(name, ty) =>
    add ("TC-TRIG config: tdata1.type=" +:+ name) (act_step (make_type_step name ty)) session)
    TRIGGER_TYPES session in
  let session := add "TC-TRIG-006: tdata1=0 disables a configured trigger"
    (act_step tc_trig_006) session in
  let session := add "Disable trigger (tdata1=0)" (act_step disable) session in
  Ok session.

End steps.

End Trigger.
