(* ===== verification/CommandSequences.v ===== *)
(** The sequences that provoke abstract-command errors:
    [sequences/cmderr_sequence.py], [cmd_busy_sequence.py] and
    [cmd_outcome_sequence.py]. *)

From stdpp Require Import sorting.
From S2P Require Import Prelude Registers Predictor Transport RiscvDm Session Sequences Closures.
From S2P Require Import AccessSequences.
Import RISCVDebug.

Local Open Scope string_scope.
Local Open Scope list_scope.
Local Open Scope Z_scope.
Local Open Scope prog_scope.

(** A loop over indices that writes a program-buffer word each. *)
Definition fill_progbuf (l : list Z) (word : Z) : M (list unit) :=
  for_each (fun i => write_progbuf i word) l.

Module Cmderr.

(** cmderr_sequence.py:32-34 (ABS_CMDERR_LSB, ABS_CMDERR_MASK, ABS_BUSY) *)
Definition ABS_CMDERR_LSB : Z := 8.
Definition ABS_CMDERR_MASK : Z := Z.shiftl 0x7 ABS_CMDERR_LSB.
Definition ABS_BUSY : Z := Z.shiftl 1 12.

(** cmderr_sequence.py:36-37 (CMDERR_NONE .. CMDERR_OTHER) *)
Definition CMDERR_NONE : Z := 0.
Definition CMDERR_BUSY : Z := 1.
Definition CMDERR_NOT_SUPPORTED : Z := 2.
Definition CMDERR_EXCEPTION : Z := 3.
Definition CMDERR_HALT_RESUME : Z := 4.

(** [CMDERR_NAME.get(err, '?')].
    cmderr_sequence.py:39-42 (CMDERR_NAME) *)
Definition cmderr_name (err : Z) : string :=
  match err with
  | 0 => "none" | 1 => "busy" | 2 => "not supported" | 3 => "exception"
  | 4 => "halt/resume" | 5 => "bus" | 7 => "other" | _ => "?"
  end.

(** cmderr_sequence.py:45-54 (CMD_REGNO_LSB .. REGNO_UNIMPLEMENTED) *)
Definition CMD_WRITE : Z := Z.shiftl 1 16.
Definition CMD_TRANSFER : Z := Z.shiftl 1 17.
Definition CMD_POSTEXEC : Z := Z.shiftl 1 18.
Definition CMD_AARSIZE_LSB : Z := 20.
Definition CMD_CMDTYPE_LSB : Z := 24.
Definition REGNO_GPR_S0 : Z := 0x1008.
Definition REGNO_UNIMPLEMENTED : Z := 0x0FFF.

(** The module's dict [WIDTH], which outlives a session, and the dict [seen].
    cmderr_sequence.py:63-63 (WIDTH) *)
Record vars_t := mk_vars {
  aarsize : Z;
  seen : Dict
}.

#[export] Instance vars_settable : Settable vars_t := fun v => mk_vars (aarsize v) (seen v).

(** Without [aarsize] it is [WIDTH]'s.
    cmderr_sequence.py:66-81 (_access_register) *)
Definition _access_register (regno : Z) (write : bool) (aarsize : option Z) (postexec : bool)
    (cmdtype width : Z) : Z :=
  let aarsize := default width aarsize in
  let w := Z.lor (Z.lor (Z.shiftl cmdtype CMD_CMDTYPE_LSB) (Z.shiftl aarsize CMD_AARSIZE_LSB))
                 (Z.land regno 0xFFFF) in
  let w := Z.lor w CMD_TRANSFER in
  let w := if write then Z.lor w CMD_WRITE else w in
  if postexec then Z.lor w CMD_POSTEXEC else w.

(** A read of s0, of the hart's own width. *)
Definition read_s0 : Z -> Z := _access_register REGNO_GPR_S0 false None false 0.

(** cmderr_sequence.py:95-96 (read_cmderr) *)
Definition read_cmderr : M Z :=
  do v <- rd DMI.ABSTRACTCS;; Ret (Z.shiftr (Z.land v ABS_CMDERR_MASK) ABS_CMDERR_LSB).

(** cmderr_sequence.py:98-100 (clear_cmderr) *)
Definition clear_cmderr : M unit := wr DMI.ABSTRACTCS ABS_CMDERR_MASK.

(** cmderr_sequence.py:102-108 (wait_not_busy) *)
Definition wait_not_busy : M bool :=
  let timeout := 1000000 in
  do now <- monotonic;;
  let deadline := now + timeout in
  do found <- poll_before (poll_fuel timeout) (fun v => negb (truthy (Z.land v ABS_BUSY)))
                DMI.ABSTRACTCS deadline;;
  Ret (match found with Some _ => true | None => false end).

(** [seen[name] = err]. *)
Definition see (name : string) (err : Z) : prog (Z * vars_t) unit :=
  do v <- vars;; set_vars (v <| seen := dict_set name err (seen v) |>).

(** [cmd_word] is a function of the width, constant for a word given as such.
    cmderr_sequence.py:110-134 (drive) *)
Definition drive (name : string) (cmd_word : Z -> Z) (expect : Z) (note : string)
    : prog (Z * vars_t) StepResult.t :=
  do v <- vars;;
  let word := cmd_word (aarsize v) in
  lib clear_cmderr;;;
  lib (wr DMI.COMMAND word);;;
  do completed <- lib wait_not_busy;;
  do err <- lib read_cmderr;;
  see name err;;;
  lib clear_cmderr;;;
  let ok := err =? expect in
  report ok
    ("command=" +:+ py_hex 8 word +:+ " -> cmderr=" +:+ pretty err +:+ " (" +:+ cmderr_name err +:+
     "), expected " +:+ pretty expect +:+ " (" +:+ cmderr_name expect +:+ ")" +:+
     (if completed then EmptyString else "; busy never cleared") +:+
     (if negb (String.eqb note EmptyString) && negb ok then ". " +:+ note else EmptyString)).

(** cmderr_sequence.py:145-156 (probe_width) *)
Definition probe_width : prog (Z * vars_t) StepResult.t :=
  do v <- vars;;
  lib clear_cmderr;;;
  lib (wr DMI.COMMAND (_access_register REGNO_GPR_S0 false (Some 3) false 0 (aarsize v)));;;
  lib wait_not_busy;;;
  do err <- lib read_cmderr;;
  let unsupported := err =? CMDERR_NOT_SUPPORTED in
  lib clear_cmderr;;;
  do v <- vars;;
  let width := if unsupported then 2 else 3 in
  set_vars (v <| aarsize := width |>);;;
  report true
    ("hart register width: " +:+ (if unsupported then "32" else "64") +:+ "-bit (aarsize=" +:+
     pretty width +:+ ") -- a 64-bit Access Register command " +:+
     (if unsupported then "is not supported here" else "completed")).

(** cmderr_sequence.py:171-174 (confirm_halted) *)
Definition confirm_halted : M StepResult.t :=
  do status <- rd DMI.DMSTATUS;;
  report (allhalted status && anyhalted status) ("dmstatus=" +:+ py_hex 8 status).

(** cmderr_sequence.py:222-269 (busy_case) *)
Definition busy_case : prog (Z * vars_t) StepResult.t :=
  do acs <- lib (rd DMI.ABSTRACTCS);;
  let progbufsize := slice_of acs 24 0x1F in
  let nops := Z.max 0 (Z.min progbufsize 8 - 1) in
  lib clear_cmderr;;;
  lib (fill_progbuf (py_range nops) 0x00000013);;;
  lib (wr (DMI.PROGBUF0 + nops) 0x00100073);;;
  do v <- vars;;
  lib (wr DMI.COMMAND (_access_register REGNO_GPR_S0 false None true 0 (aarsize v)));;;
  lib (wr DMI.COMMAND (read_s0 (aarsize v)));;;
  lib wait_not_busy;;;
  do err <- lib read_cmderr;;
  see "busy" err;;;
  lib clear_cmderr;;;
  let provoked := err =? CMDERR_BUSY in
  let missed := err =? CMDERR_NONE in
  report (provoked || missed)
    ("back-to-back commands -> cmderr=" +:+ pretty err +:+ " (" +:+ cmderr_name err +:+ ")" +:+
     (if provoked then ", the window was hit"
      else if missed then
        "; the DM completed the first command before the second write arrived -- not provoked on " +:+
        "this DUT, see cp_cmderr.busy for whether any scenario reached it"
      else ", expected " +:+ pretty CMDERR_BUSY +:+ " (busy) or 0 (not provoked)")).

(** cmderr_sequence.py:273-290 (sticky_case) *)
Definition sticky_case : prog (Z * vars_t) StepResult.t :=
  do v <- vars;;
  lib clear_cmderr;;;
  lib (wr DMI.COMMAND (_access_register REGNO_GPR_S0 false (Some 4) false 0 (aarsize v)));;;
  lib wait_not_busy;;;
  do after_fail <- lib read_cmderr;;
  lib (wr DMI.COMMAND (read_s0 (aarsize v)));;;
  lib wait_not_busy;;;
  do after_ok <- lib read_cmderr;;
  report (negb (after_fail =? CMDERR_NONE) && (after_ok =? after_fail))
    ("cmderr=" +:+ pretty after_fail +:+ " after the failing command, " +:+ pretty after_ok +:+
     " after a subsequent valid one -- must be unchanged (sticky, W1C only)").

(** cmderr_sequence.py:293-303 (recovery_case) *)
Definition recovery_case : prog (Z * vars_t) StepResult.t :=
  do v <- vars;;
  lib clear_cmderr;;;
  do before <- lib read_cmderr;;
  lib (wr DMI.COMMAND (read_s0 (aarsize v)));;;
  lib wait_not_busy;;;
  do after <- lib read_cmderr;;
  report ((before =? CMDERR_NONE) && (after =? CMDERR_NONE))
    ("after W1C clear: cmderr=" +:+ pretty before +:+ "; valid command then gives cmderr=" +:+
     pretty after +:+ " -- the DM is usable again").

(** cmderr_sequence.py:306-313 (summary) *)
Definition summary : prog (Z * vars_t) StepResult.t :=
  do v <- vars;;
  let got := merge_sort Z.le (remove_dups (map snd (seen v))) in
  report true
    ("cmderr encodings produced this run: " +:+
     String.concat ", " (map (fun v => pretty v +:+ "=" +:+ cmderr_name v) got) +:+
     ". Binned by cg_abstract_cmd.cp_cmderr").

(** cmderr_sequence.py:84-316 (build_cmderr_sequence) *)
Definition build {T} `{DebugTransport T} `{Clock} (mode : string)
    : result (DebugSession.t (world T (Z * vars_t))) :=
  try session <- DebugSession.init mode false;;
  let add name fn session := DebugSession.add_step name fn session in
  let typed cmdtype := _access_register REGNO_GPR_S0 false None false cmdtype in
  let session := add "Activate Debug Module" (none_step (lib activate)) session in
  let session := add "Halt hart (to probe the register width)"
    (none_step (lib (halt DEFAULT_TIMEOUT))) session in
  let session := add "Probe the hart's register width" (result_step probe_width) session in
  let session := add "Resume hart (for the halt/resume case)"
    (none_step (lib (resume DEFAULT_TIMEOUT))) session in
  let session := add "cmderr=4 (halt/resume): command while the hart is running"
    (result_step (drive "halt_resume" read_s0 CMDERR_HALT_RESUME
       "An abstract command requires a halted hart.")) session in
  let session := add "Halt hart" (none_step (lib (halt DEFAULT_TIMEOUT))) session in
  let session := add "Confirm hart halted" (result_step (lib confirm_halted)) session in
  let session := add "cmderr=0 (none): a valid GPR read"
    (result_step (drive "none" read_s0 CMDERR_NONE EmptyString)) session in
  let session := add "cmderr=2 (not supported): aarsize=128-bit"
    (result_step (drive "size128" (_access_register REGNO_GPR_S0 false (Some 4) false 0)
       CMDERR_NOT_SUPPORTED EmptyString)) session in
  let session := add "cmderr=2 (not supported): cmdtype=1 (Quick Access)"
    (result_step (drive "quick_access" (typed 1) CMDERR_NOT_SUPPORTED EmptyString)) session in
  let session := add "cmderr=2 (not supported): cmdtype=2 (Access Memory)"
    (result_step (drive "access_memory" (typed 2) CMDERR_NOT_SUPPORTED EmptyString)) session in
  let session := add "reserved cmdtype=3: rejected, DM still usable"
    (result_step (drive "reserved_cmdtype" (typed 3) CMDERR_NOT_SUPPORTED
       ("An undefined cmdtype may report 2 or another non-zero code; " +:+
        "what must not happen is silence or a hang."))) session in
  let session := add "cmderr=3 (exception): read an unimplemented CSR"
    (result_step (drive "bad_regno" (_access_register REGNO_UNIMPLEMENTED false None false 0)
       CMDERR_EXCEPTION "Spec permits 2 or 3 here; record which this DUT chooses.")) session in
  let session := add "cmderr=1 (busy): command issued while busy" (result_step busy_case) session in
  let session := add "cmderr is sticky across a successful command" (result_step sticky_case) session in
  let session := add "cmderr clears on W1C and the DM recovers" (result_step recovery_case) session in
  let session := add "Record which cmderr encodings were produced" (result_step summary) session in
  Ok session.

End Cmderr.

(** [(abstractcs >> 8) & 0x7] and [bool((abstractcs >> 12) & 1)], which the next two
    sequences define alike. *)
Definition cmderr_of (abstractcs : Z) : Z := slice_of abstractcs 8 0x7.
Definition busy_of (abstractcs : Z) : bool := truthy (slice_of abstractcs 12 1).

(** [for _ in range(limit): if not _busy(read(abstractcs)): return True]. *)
Fixpoint until_not_busy (limit : nat) : M bool :=
  match limit with
  | O => Ret false
  | S limit =>
      do acs <- rd DMI.ABSTRACTCS;;
      if negb (busy_of acs) then Ret true else until_not_busy limit
  end.

Module CmdBusy.

(** cmd_busy_sequence.py:31-34 (LI_T0_400 .. EBREAK) *)
Definition LI_T0_400 : Z := 0x19000293.
Definition ADDI_T0_M1 : Z := 0xFFF28293.
Definition BNEZ_T0_BACK : Z := 0xFE029EE3.
Definition EBREAK : Z := 0x00100073.

(** cmd_busy_sequence.py:38-38 (CMD_POSTEXEC_ONLY) *)
Definition CMD_POSTEXEC_ONLY : Z := Z.lor (Z.shiftl 2 20) (Z.shiftl 1 18).

(** cmd_busy_sequence.py:40-44 (ABSTRACTCS_BUSY .. ABSTRACTAUTO) *)
Definition CMDERR_NONE : Z := 0.
Definition CMDERR_BUSY : Z := 1.
Definition ABSTRACTAUTO : Z := 0x18.

(** cmd_busy_sequence.py:51-55 (DMC_HASEL .. DMC_CLRRESETHALTREQ) *)
Definition DMC_HASEL : Z := 26.
Definition DMC_SETKEEPALIVE : Z := 5.
Definition DMC_CLRKEEPALIVE : Z := 4.
Definition DMC_SETRESETHALTREQ : Z := 3.
Definition DMC_CLRRESETHALTREQ : Z := 2.

(** cmd_busy_sequence.py:61-65 (X5_REGNO, UNMAPPED_DMI_ADDR) *)
Definition X5_REGNO : Z := 0x1005.
Definition UNMAPPED_DMI_ADDR : Z := 0x2F.

(** cmd_busy_sequence.py:76-89 (_wait_not_busy) *)
Definition _wait_not_busy : M bool := until_not_busy 200.

(** cmd_busy_sequence.py:92-95 (_clear_cmderr) *)
Definition _clear_cmderr : M unit :=
  _wait_not_busy;;;
  wr DMI.ABSTRACTCS (Z.shiftl 0x7 8).

(** cmd_busy_sequence.py:104-111 (_arm_long_command) *)
Definition _arm_long_command : M unit :=
  write_progbuf 0 LI_T0_400;;;
  write_progbuf 1 ADDI_T0_M1;;;
  write_progbuf 2 BNEZ_T0_BACK;;;
  write_progbuf 3 EBREAK;;;
  _clear_cmderr;;;
  wr DMI.COMMAND CMD_POSTEXEC_ONLY.

(** One access raced against a fresh command: what went wrong, if anything.
    cmd_busy_sequence.py:125-130 (_race, the loop body) *)
Definition race_one (access : string * M unit) : M (list string) :=
  let (name, c) := access in
  _arm_long_command;;;
  c;;;
  do acs <- rd DMI.ABSTRACTCS;;
  Ret (if negb (cmderr_of acs =? CMDERR_BUSY)
       then [name +:+ ": cmderr=" +:+ pretty (cmderr_of acs) +:+ " busy=" +:+ py_bool (busy_of acs)]
       else []).

(** cmd_busy_sequence.py:113-132 (_race) *)
Definition _race (accesses : list (string * M unit)) : M string :=
  do bad <- for_each race_one accesses;;
  _clear_cmderr;;;
  Ret (String.concat "; " (concat bad)).

(** A read whose value is dropped. *)
Definition peek (addr : Z) : M unit := rd addr;;; Ret tt.

(** The verdict of a race. *)
Definition raced (text bad : string) : M StepResult.t :=
  let ok := String.eqb bad EmptyString in
  report ok (text +:+ (if ok then "OK -- cmderr=busy every time"
                       else "guard did not fire -- " +:+ bad)).

(** cmd_busy_sequence.py:135-146 (tc_ac_020) *)
Definition tc_ac_020 : M StepResult.t :=
  do bad <- _race [("data0 write", wr DMI.DATA0 0x11111111); ("data0 read", peek DMI.DATA0);
                   ("progbuf0 write", wr DMI.PROGBUF0 0x22222222);
                   ("progbuf0 read", peek DMI.PROGBUF0)];;
  raced "TC-AC-020: data0/progbuf0 write and read each raced a busy command  " bad.

(** cmd_busy_sequence.py:150-167 (tc_ac_021) *)
Definition tc_ac_021 : M StepResult.t :=
  do bad <- _race [("command write", wr DMI.COMMAND CMD_POSTEXEC_ONLY);
                   ("abstractauto write", wr ABSTRACTAUTO 0);
                   ("abstractcs write", wr DMI.ABSTRACTCS 0;;; wr DMI.ABSTRACTCS 0)];;
  rd ABSTRACTAUTO;;;
  raced "TC-AC-021: command/abstractauto/abstractcs writes each raced a busy command  " bad.

Section usable.
Context {T : Type} `{DebugTransport T} `{Clock}.
Local Open Scope act_scope.

(** cmd_busy_sequence.py:184-214 (tc_ac_022, once the command has retired) *)
Definition round_trip : act T Z StepResult.t :=
  cmd (wr ABSTRACTAUTO 0);;;
  cmd (fill_progbuf (py_range 4) EBREAK);;;
  cmd _clear_cmderr;;;
  do pre_acs <- cmd (rd DMI.ABSTRACTCS);;
  do pre_auto <- cmd (rd ABSTRACTAUTO);;
  do pre_dms <- cmd (rd DMI.DMSTATUS);;
  do val <- catch (do v <- cmd (write_gpr X5_REGNO 0xABCD;;; read_gpr X5_REGNO)%prog;; act_ret (inl v))
    (on_Exception (fun e =>
       do post <- cmd (rd DMI.ABSTRACTCS);;
       act_ret (inr (StepResult.mk false
         ("TC-AC-022: GPR round-trip raised " +:+ str_exn e +:+ "; before: abstractcs=" +:+
          py_hex 8 pre_acs +:+ " (cmderr=" +:+ pretty (cmderr_of pre_acs) +:+ ", busy=" +:+
          py_bool (busy_of pre_acs) +:+ ") abstractauto=" +:+ py_hex 8 pre_auto +:+ " dmstatus=" +:+
          py_hex 8 pre_dms +:+ "; after: abstractcs=" +:+ py_hex 8 post) None))));;
  match val with
  | inr r => act_ret r
  | inl val =>
      do acs <- cmd (rd DMI.ABSTRACTCS);;
      let err := cmderr_of acs in
      let ok := (val =? 0xABCD) && (err =? CMDERR_NONE) in
      act_ret (StepResult.mk ok
        ("TC-AC-022: after clearing cmderr, GPR round-trip = " +:+ py_hex 4 val +:+
         " (expect 0xabcd), cmderr=" +:+ pretty err +:+ "  " +:+
         (if ok then "OK -- DM usable" else "DM left unusable")) None)
  end.

(** cmd_busy_sequence.py:174-215 (tc_ac_022) *)
Definition tc_ac_022 : act T Z StepResult.t :=
  do settled <- cmd _wait_not_busy;;
  if negb settled
  then act_ret (StepResult.mk false "TC-AC-022: abstractcs.busy never cleared" None)
  else round_trip.

End usable.

(** cmd_busy_sequence.py:221-232 (tc_ac_023) *)
Definition tc_ac_023 : M StepResult.t :=
  do before_s <- rd DMI.DMSTATUS;;
  do before_h <- rd DMI.HARTINFO;;
  wr DMI.DMSTATUS 0xFFFFFFFF;;;
  wr DMI.HARTINFO 0xFFFFFFFF;;;
  do after_s <- rd DMI.DMSTATUS;;
  do after_h <- rd DMI.HARTINFO;;
  let ok := (after_s =? before_s) && (after_h =? before_h) in
  report ok
    ("TC-AC-023: dmstatus " +:+ py_hex 8 before_s +:+ "->" +:+ py_hex 8 after_s +:+ ", hartinfo " +:+
     py_hex 8 before_h +:+ "->" +:+ py_hex 8 after_h +:+ " after writing all-ones  " +:+
     (if ok then "OK -- ignored" else "R/O register was modified")).

(** cmd_busy_sequence.py:238-251 (tc_ac_024) *)
Definition tc_ac_024 : M StepResult.t :=
  wr ABSTRACTAUTO 0x00000000;;;
  do zero <- rd ABSTRACTAUTO;;
  wr ABSTRACTAUTO 0x00000001;;;
  do one <- rd ABSTRACTAUTO;;
  wr ABSTRACTAUTO 0x00000000;;;
  _clear_cmderr;;;
  let ok := zero =? 0 in
  report ok
    ("TC-AC-024: abstractauto 0 -> " +:+ py_hex 8 zero +:+ ", 1 -> " +:+ py_hex 8 one +:+
     " (0 if unimplemented, which is legal)  " +:+ ok_or ok "nonzero after writing 0").

(** cmd_busy_sequence.py:257-276 (tc_ac_025) *)
Definition tc_ac_025 : M StepResult.t :=
  do base <- rd DMI.DMCONTROL;;
  let set bit := wr DMI.DMCONTROL (Z.lor base (Z.shiftl 1 bit)) in
  set DMC_SETKEEPALIVE;;;
  do with_set <- rd DMI.DMCONTROL;;
  set DMC_CLRKEEPALIVE;;;
  do with_clr <- rd DMI.DMCONTROL;;
  set DMC_HASEL;;;
  set DMC_SETRESETHALTREQ;;;
  set DMC_CLRRESETHALTREQ;;;
  wr DMI.DMCONTROL base;;;
  do ok <- is_halted;;
  report ok
    ("TC-AC-025: dmcontrol after setkeepalive=" +:+ py_hex 8 with_set +:+ ", after clrkeepalive=" +:+
     py_hex 8 with_clr +:+ "; hart still halted=" +:+ py_bool ok +:+ "  " +:+
     ok_or ok "keepalive disturbed run control").

(** One probe in one direction: [write] is 1 or 0.
    cmd_busy_sequence.py:295-302 (tc_ac_026, the loop body) *)
Definition probe_regno (p : Z * Z) : M (Z * Z * string) :=
  let (regno, write) := p in
  _clear_cmderr;;;
  wr DMI.DATA0 0x5A5A5A5A;;;
  wr DMI.COMMAND (Z.lor (Z.lor (Z.lor (Z.shiftl 2 20) (Z.shiftl 1 17)) (Z.shiftl write 16)) regno);;;
  _wait_not_busy;;;
  do acs <- rd DMI.ABSTRACTCS;;
  Ret (regno, cmderr_of acs, if truthy write then "wr" else "rd").

(** cmd_busy_sequence.py:285-311 (tc_ac_026) *)
Definition tc_ac_026 : M StepResult.t :=
  do seen <- for_each probe_regno
    (flat_map (fun regno => [(regno, 1); (regno, 0)]) [0xC001; 0x100A; 0x1020]);;
  _clear_cmderr;;;
  read_gpr X5_REGNO;;;
  let usable := true in
  report usable
    ("TC-AC-026: " +:+ String.concat "; " (map (fun '(r, e, d) =>
       d +:+ " regno=" +:+ py_hex 4 r +:+ " -> cmderr=" +:+ pretty e) seen) +:+
     "; DM usable after=" +:+ py_bool usable +:+ "  " +:+ ok_or usable "DM left unusable").

(** cmd_busy_sequence.py:318-329 (tc_ac_027) *)
Definition tc_ac_027 : M StepResult.t :=
  resume DEFAULT_TIMEOUT;;;
  do was_running <- is_running;;
  resume DEFAULT_TIMEOUT;;;
  do still_running <- is_running;;
  halt DEFAULT_TIMEOUT;;;
  report (was_running && still_running)
    ("TC-AC-027: resume while already running -- running before=" +:+ py_bool was_running +:+
     ", after=" +:+ py_bool still_running +:+ "  " +:+
     (if still_running then "OK -- no-op" else "run control disturbed")).

(** cmd_busy_sequence.py:336-346 (tc_ac_028) *)
Definition tc_ac_028 : M StepResult.t :=
  do command <- rd DMI.COMMAND;;
  wr UNMAPPED_DMI_ADDR 0xFFFFFFFF;;;
  do halted <- is_halted;;
  let ok := (command =? 0) && halted in
  report ok
    ("TC-AC-028: command=" +:+ py_hex 8 command +:+ " (expect 0); write to " +:+
     py_hex 2 UNMAPPED_DMI_ADDR +:+ " ignored, hart still halted=" +:+ py_bool halted +:+ "  " +:+
     ok_or ok "unexpected value or side effect").

(** cmd_busy_sequence.py:98-349 (build_cmd_busy_sequence) *)
Definition build {T} `{DebugTransport T} `{Clock} (mode : string)
    : result (DebugSession.t (W T)) :=
  try session <- DebugSession.init mode false;;
  let add name fn session := DebugSession.add_step name fn session in
  let session := add "Activate Debug Module" (none_step activate) session in
  let session := add "Halt hart" (none_step (halt DEFAULT_TIMEOUT)) session in
  let session := add "TC-AC-020: data0/progbuf access while busy" (result_step tc_ac_020) session in
  let session := add "TC-AC-021: command/abstractauto/abstractcs access while busy"
    (result_step tc_ac_021) session in
  let session := add "TC-AC-022: DM usable after a busy collision" (act_step tc_ac_022) session in
  let session := add "TC-AC-023: writes to R/O registers ignored" (result_step tc_ac_023) session in
  let session := add "TC-AC-024: abstractauto round-trip" (result_step tc_ac_024) session in
  let session := add "TC-AC-025: keepalive set/clear" (result_step tc_ac_025) session in
  let session := add "TC-AC-026: abstract-command regno corners" (result_step tc_ac_026) session in
  let session := add "TC-AC-027: resume while already running" (result_step tc_ac_027) session in
  let session := add "TC-AC-028: command reads 0, unmapped write ignored"
    (result_step tc_ac_028) session in
  Ok session.

End CmdBusy.

Module CmdOutcome.
Import CmdBusy.

(** cmd_outcome_sequence.py:45-50 (JR_T1 .. ILLEGAL) *)
Definition JR_T1 : Z := 0x00030067.
Definition ILLEGAL : Z := 0x00000000.

(** cmd_outcome_sequence.py:55-57 (LOOP_ADDR, SBDATA1) *)
Definition LOOP_ADDR : Z := 0x80180000.
Definition SBDATA1 : Z := 0x3D.

(** cmd_outcome_sequence.py:60-64 (T0_REGNO .. OTHER_REGNO) *)
Definition T0_REGNO : Z := 0x1005.
Definition T1_REGNO : Z := 0x1006.
Definition T2_REGNO : Z := 0x1007.
Definition OTHER_REGNO : Z := 0xC001.

(** cmd_outcome_sequence.py:67-70 (CMDTYPE_LSB .. AARSIZE_RESERVED) *)
Definition CMDTYPE_LSB : Z := 24.
Definition POSTEXEC : Z := Z.shiftl 1 18.
Definition TRANSFER : Z := Z.shiftl 1 17.
Definition AARSIZE32 : Z := Z.shiftl 2 20.
Definition AARSIZE64 : Z := Z.shiftl 3 20.
Definition AARSIZE_RESERVED : Z := Z.shiftl 5 20.

(** cmd_outcome_sequence.py:72-75 (CMD_POSTEXEC_ONLY .. CMD_XFER_READ_X5_POST) *)
Definition CMD_POSTEXEC_ONLY : Z := Z.lor AARSIZE32 POSTEXEC.
Definition CMD_NEITHER : Z := AARSIZE32.
Definition CMD_XFER_READ_X5 : Z := Z.lor (Z.lor AARSIZE32 TRANSFER) X5_REGNO.
Definition CMD_XFER_READ_X5_POST : Z := Z.lor CMD_XFER_READ_X5 POSTEXEC.

(** cmd_outcome_sequence.py:78-78 (CMDERR_NONE .. CMDERR_HALTRESUME) *)
Definition CMDERR_NOTSUP : Z := 2.
Definition CMDERR_EXC : Z := 3.
Definition CMDERR_HALTRESUME : Z := 4.

(** cmd_outcome_sequence.py:93-97 (wait_not_busy) *)
Definition wait_not_busy : M bool := until_not_busy 400.

(** cmd_outcome_sequence.py:99-101 (clear_cmderr) *)
Definition clear_cmderr : M unit :=
  wait_not_busy;;;
  wr DMI.ABSTRACTCS (Z.shiftl 0x7 8).

(** cmd_outcome_sequence.py:103-108 (run) *)
Definition run (cmd : Z) : M Z :=
  clear_cmderr;;;
  wr DMI.COMMAND cmd;;;
  wait_not_busy;;;
  do acs <- rd DMI.ABSTRACTCS;;
  Ret (cmderr_of acs).

(** cmd_outcome_sequence.py:110-123 (race) *)
Definition race (cmd : Z) (during : list (M unit)) : M (Z * bool) :=
  clear_cmderr;;;
  wr DMI.COMMAND CMD_POSTEXEC_ONLY;;;
  for_each id during;;;
  wr DMI.COMMAND cmd;;;
  do acs <- rd DMI.ABSTRACTCS;;
  let still_busy := busy_of acs in
  wait_not_busy;;;
  do acs <- rd DMI.ABSTRACTCS;;
  Ret (cmderr_of acs, still_busy).

(** cmd_outcome_sequence.py:127-128 (point_t1_at_loop) *)
Definition point_t1_at_loop : M unit := write_reg64 T1_REGNO LOOP_ADDR.

(** [saved[key]]. *)
Definition saved (key : string) : prog (Z * Dict) Z :=
  do d <- vars;; of_result (dict_lookup key d).

(** cmd_outcome_sequence.py:130-144 (while_running) *)
Definition while_running (cmd : Z) : prog (Z * Dict) Z :=
  lib clear_cmderr;;;
  do t0 <- saved "t0";;
  lib (write_reg64 T0_REGNO t0);;;
  do t1 <- saved "t1";;
  lib (write_reg64 T1_REGNO t1);;;
  lib (resume DEFAULT_TIMEOUT);;;
  do err <- lib (run cmd);;
  lib (halt DEFAULT_TIMEOUT);;;
  lib clear_cmderr;;;
  lib point_t1_at_loop;;;
  lib (wr DMI.DATA0 0);;;
  Ret err.

(** cmd_outcome_sequence.py:146-151 (sba_write64) *)
Definition sba_write64 (addr value : Z) : M unit :=
  wr DMI.SBCS (Z.shiftl 3 17);;;
  wr DMI.SBADDRESS0 addr;;;
  wr SBDATA1 (Z.shiftr value 32);;;
  wr DMI.SBDATA0 (Z.land value 0xFFFFFFFF);;;
  _wait_sbus DEFAULT_TIMEOUT.

(** cmd_outcome_sequence.py:153-157 (sba_read64) *)
Definition sba_read64 (addr : Z) : M Z :=
  wr DMI.SBCS (Z.lor (Z.shiftl 1 20) (Z.shiftl 3 17));;;
  wr DMI.SBADDRESS0 addr;;;
  _wait_sbus DEFAULT_TIMEOUT;;;
  do hi <- rd SBDATA1;;
  do lo <- rd DMI.SBDATA0;;
  Ret (Z.lor (Z.shiftl hi 32) lo).

(** What each probed command gave and the codes it may give: [got] and [want], by key. *)
Definition outcome : Type := string * Z * list Z.

(** [str] of a dict from strings to numbers. *)
Definition py_dict (d : list (string * Z)) : string :=
  "{" +:+ String.concat ", " (map (fun '(k, v) => "'" +:+ k +:+ "': " +:+ pretty v) d) +:+ "}".

(** cmd_outcome_sequence.py:159-166 (verdict) *)
Definition verdict {S} (tc : string) (got : list outcome) (extra : string) : prog S StepResult.t :=
  let bad := map fst (List.filter (fun '(_, v, want) => negb (List.existsb (Z.eqb v) want)) got) in
  let ok := match bad with [] => true | _ => false end in
  report ok
    (tc +:+ ": " +:+
     String.concat ", " (map (fun '(k, v, _) => k +:+ " cmderr=" +:+ pretty v) got) +:+
     (if String.eqb extra EmptyString then EmptyString else "; " +:+ extra) +:+
     (if ok then "  OK" else "  unexpected: " +:+ py_dict bad)).

(** cmd_outcome_sequence.py:172-186 (setup) *)
Definition setup : prog (Z * Dict) StepResult.t :=
  let save key regno :=
    do v <- lib (read_reg64 regno);;
    do d <- vars;;
    set_vars (dict_set key v d) in
  save "t0" T0_REGNO;;;
  save "t1" T1_REGNO;;;
  let words := [Z.lor (Z.shiftl ADDI_T0_M1 32) LI_T0_400; Z.lor (Z.shiftl EBREAK 32) BNEZ_T0_BACK] in
  lib (for_each (fun '(i, w) => sba_write64 (LOOP_ADDR + 8 * i) w) (zip (py_range 2) words));;;
  do back <- lib (for_each (fun i => sba_read64 (LOOP_ADDR + 8 * i)) (py_range 2));;
  lib point_t1_at_loop;;;
  let ok := bool_decide (back = words) in
  report ok
    ("Delay loop at " +:+ py_hex 8 LOOP_ADDR +:+ " over SBA: " +:+
     String.concat " " (map (py_hex 16) back) +:+ (if ok then "  OK" else "  read-back differs")).

(** The buffer's first word a jump to the loop, then an illegal word: the busy race,
    the exception and the running hart. *)
Definition busy_exc_hr (during : list (M unit)) : prog (Z * Dict) (Z * bool * Z * Z) :=
  lib (write_progbuf 0 JR_T1);;;
  do r <- lib (race CMD_POSTEXEC_ONLY during);;
  lib (write_progbuf 0 ILLEGAL);;;
  do exc_err <- lib (run CMD_POSTEXEC_ONLY);;
  do hr_err <- while_running CMD_POSTEXEC_ONLY;;
  Ret (r, exc_err, hr_err).

(** cmd_outcome_sequence.py:193-208 (tc_pb_010) *)
Definition tc_pb_010 : prog (Z * Dict) StepResult.t :=
  do r <- busy_exc_hr [peek DMI.DMSTATUS; wr DMI.DMCONTROL 1; peek DMI.SBCS];;
  let '(busy_err, in_window, exc_err, hr_err) := r in
  verdict "TC-PB-010 (progbuf0 only)"
    [("busy", busy_err, [CMDERR_BUSY]); ("exception", exc_err, [CMDERR_EXC]);
     ("halt_resume", hr_err, [CMDERR_HALTRESUME])]
    ("dmstatus/dmcontrol/sbcs accessed while busy=" +:+ py_bool in_window).

(** cmd_outcome_sequence.py:213-222 (tc_pb_011) *)
Definition tc_pb_011 : prog (Z * Dict) StepResult.t :=
  lib (fill_progbuf [1; 2; 3] EBREAK);;;
  lib (write_progbuf 0 ILLEGAL);;;
  do exc_err <- lib (run CMD_POSTEXEC_ONLY);;
  do hr_err <- while_running CMD_POSTEXEC_ONLY;;
  verdict "TC-PB-011 (progbuf0-3)"
    [("exception", exc_err, [CMDERR_EXC]); ("halt_resume", hr_err, [CMDERR_HALTRESUME])] EmptyString.

(** cmd_outcome_sequence.py:226-239 (tc_pb_012) *)
Definition tc_pb_012 : prog (Z * Dict) StepResult.t :=
  lib (fill_progbuf [4; 5; 6; 7] EBREAK);;;
  do r <- busy_exc_hr [];;
  let '(busy_err, in_window, exc_err, hr_err) := r in
  verdict "TC-PB-012 (progbuf0-7)"
    [("busy", busy_err, [CMDERR_BUSY]); ("exception", exc_err, [CMDERR_EXC]);
     ("halt_resume", hr_err, [CMDERR_HALTRESUME])]
    ("race landed while busy=" +:+ py_bool in_window).

(** cmd_outcome_sequence.py:247-253 (tc_ac_030) *)
Definition tc_ac_030 : M StepResult.t :=
  write_progbuf 0 JR_T1;;;
  do got <- for_each (fun '(name, cmdtype) =>
      do r <- race (Z.shiftl cmdtype CMDTYPE_LSB) [];;
      Ret (name, fst r, [CMDERR_BUSY]))
    [("quick_access", 1); ("access_memory", 2); ("reserved", 3)];;
  verdict "TC-AC-030 busy by cmdtype" got EmptyString.

(** cmd_outcome_sequence.py:264-270 (tc_ac_031) *)
Definition tc_ac_031 : M StepResult.t :=
  write_progbuf 0 EBREAK;;;
  do err <- run (Z.lor AARSIZE_RESERVED POSTEXEC);;
  verdict "TC-AC-031 postexec-only, aarsize=5" [("postexec_only", err, [CMDERR_NONE])]
    (if err =? CMDERR_NOTSUP
     then "cmderr=2 here is the aarsize check ignoring transfer=0 (pulp-platform/riscv-dbg#32)"
     else EmptyString).

(** cmd_outcome_sequence.py:276-289 (tc_ac_032) *)
Definition tc_ac_032 : prog (Z * Dict) StepResult.t :=
  lib (write_progbuf 0 JR_T1);;;
  do r <- lib (race CMD_XFER_READ_X5_POST []);;
  do notsup <- lib (run (Z.lor (Z.lor (Z.lor AARSIZE_RESERVED TRANSFER) POSTEXEC) X5_REGNO));;
  lib (write_progbuf 0 ILLEGAL);;;
  do exc <- lib (run CMD_XFER_READ_X5_POST);;
  lib (wr DMI.DATA0 0);;;
  do hr <- while_running CMD_XFER_READ_X5_POST;;
  lib (write_progbuf 0 EBREAK);;;
  verdict "TC-AC-032 transfer+postexec"
    [("busy", fst r, [CMDERR_BUSY]); ("not_supported", notsup, [CMDERR_NOTSUP]);
     ("exception", exc, [CMDERR_EXC]); ("halt_resume", hr, [CMDERR_HALTRESUME])] EmptyString.

(** cmd_outcome_sequence.py:304-314 (tc_ac_033) *)
Definition tc_ac_033 : prog (Z * Dict) StepResult.t :=
  do none <- lib (run CMD_NEITHER);;
  lib (write_progbuf 0 JR_T1);;;
  do r <- lib (race CMD_NEITHER []);;
  lib (write_progbuf 0 EBREAK);;;
  do hr <- while_running CMD_NEITHER;;
  verdict "TC-AC-033 neither"
    [("halted", none, [CMDERR_NONE]); ("busy", fst r, [CMDERR_BUSY]);
     ("running", hr, [CMDERR_NONE; CMDERR_HALTRESUME])] EmptyString.

(** cmd_outcome_sequence.py:320-324 (tc_ac_034) *)
Definition tc_ac_034 : M StepResult.t :=
  do err <- run (Z.lor (Z.lor AARSIZE_RESERVED TRANSFER) X5_REGNO);;
  wr DMI.DATA0 0;;;
  verdict "TC-AC-034 aarsize=5 on x5" [("not_supported", err, [CMDERR_NOTSUP])] EmptyString.

(** cmd_outcome_sequence.py:330-334 (tc_ac_035) *)
Definition tc_ac_035 : M StepResult.t :=
  do err <- run (Z.lor (Z.lor AARSIZE64 TRANSFER) OTHER_REGNO);;
  wr DMI.DATA0 0;;;
  verdict ("TC-AC-035 64-bit read of regno " +:+ py_hex 4 OTHER_REGNO)
    [("other_regno", err, [CMDERR_NOTSUP; CMDERR_EXC])] EmptyString.

(** cmd_outcome_sequence.py:338-354 (restore) *)
Definition restore : prog (Z * Dict) StepResult.t :=
  lib clear_cmderr;;;
  lib (fill_progbuf (py_range 8) EBREAK);;;
  do t0 <- saved "t0";;
  lib (write_reg64 T0_REGNO t0);;;
  do t1 <- saved "t1";;
  lib (write_reg64 T1_REGNO t1);;;
  do t2 <- lib (read_reg64 T2_REGNO);;
  lib (write_gpr T2_REGNO 0xABCD);;;
  do val <- lib (read_gpr T2_REGNO);;
  lib (write_reg64 T2_REGNO t2);;;
  do acs <- lib (rd DMI.ABSTRACTCS);;
  let err := cmderr_of acs in
  let ok := (val =? 0xABCD) && (err =? CMDERR_NONE) in
  report ok
    ("DM usable afterwards: GPR round-trip " +:+ py_hex 1 val +:+ " (expect 0xabcd), cmderr=" +:+
     pretty err +:+ "  " +:+ ok_or ok "DM left unusable").

(** cmd_outcome_sequence.py:89-357 (build_cmd_outcome_sequence) *)
Definition build {T} `{DebugTransport T} `{Clock} (mode : string)
    : result (DebugSession.t (world T (Z * Dict))) :=
  try session <- DebugSession.init mode false;;
  let add name fn session := DebugSession.add_step name fn session in
  let session := add "Activate Debug Module" (none_step (lib activate)) session in
  let session := add "Halt hart" (none_step (lib (halt DEFAULT_TIMEOUT))) session in
  let session := add "Load the delay loop into RAM, t1 -> loop" (result_step setup) session in
  let session := add "TC-PB-010: one-word Program Buffer outcomes" (result_step tc_pb_010) session in
  let session := add "TC-PB-011: four-word Program Buffer outcomes" (result_step tc_pb_011) session in
  let session := add "TC-PB-012: full Program Buffer outcomes" (result_step tc_pb_012) session in
  let session := add "TC-AC-030: busy for Quick Access, Access Memory, reserved"
    (result_step (lib tc_ac_030)) session in
  let session := add "TC-AC-031: postexec-only command with a reserved aarsize"
    (result_step (lib tc_ac_031)) session in
  let session := add "TC-AC-032: transfer+postexec failures" (result_step tc_ac_032) session in
  let session := add "TC-AC-033: no-op command (neither transfer nor postexec)"
    (result_step tc_ac_033) session in
  let session := add "TC-AC-034: reserved aarsize on a GPR" (result_step (lib tc_ac_034)) session in
  let session := add "TC-AC-035: 64-bit access outside GPR/FPR/CSR"
    (result_step (lib tc_ac_035)) session in
  let session := add "DM usable afterwards; registers restored" (result_step restore) session in
  Ok session.

End CmdOutcome.
