(* ===== verification/DtmSequences.v ===== *)
(** The sequences that use the transport beyond the DMI:
    [sequences/dmi_error_sequence.py] (the DTM and the TAP) and
    [run_elf_sequence.py] (the simulated time). *)

From S2P Require Import Prelude Registers Predictor Transport RiscvDm Session Sequences Closures.
From S2P Require Import AccessSequences DutConfig Text UvmTransport.
Import RISCVDebug.

Local Open Scope string_scope.
Local Open Scope list_scope.
Local Open Scope Z_scope.

Module DmiError.

(** dmi_error_sequence.py:36-41 (DTMCS_DMIHARDRESET .. DTMCS_VERSION_MASK) *)
Definition DTMCS_DMIHARDRESET : Z := Z.shiftl 1 17.
Definition DTMCS_DMIRESET : Z := Z.shiftl 1 16.
Definition DTMCS_IDLE_LSB : Z := 12.
Definition DTMCS_DMISTAT_LSB : Z := 10.
Definition DTMCS_ABITS_LSB : Z := 4.
Definition DTMCS_VERSION_MASK : Z := 0xF.

(** dmi_error_sequence.py:45-45 (UNIMPLEMENTED_DMI_ADDR) *)
Definition UNIMPLEMENTED_DMI_ADDR : Z := 0x2F.

(** dmi_error_sequence.py:48-52 (_decode) *)
Definition _decode (dtmcs : Z) : string :=
  "version=" +:+ pretty (Z.land dtmcs DTMCS_VERSION_MASK) +:+
  " abits=" +:+ pretty (slice_of dtmcs DTMCS_ABITS_LSB 0x3F) +:+
  " dmistat=" +:+ pretty (slice_of dtmcs DTMCS_DMISTAT_LSB 0x3) +:+
  " idle=" +:+ pretty (slice_of dtmcs DTMCS_IDLE_LSB 0x7).

Section steps.
Context {T : Type} `{DebugTransport T} `{JtagTransport T} `{Clock}.
Local Open Scope act_scope.

Definition A := act T Z.

Definition the_dtmcs (wdata : Z) : A Z :=
  call "dtmcs" (option_map (fun f => f wdata) dtmcs).
Definition the_dmi_scan (op addr data : Z) : A Z :=
  call "dmi_scan" (option_map (fun f => f op addr data) dmi_scan).
Definition the_jtag_scan (ir dr_len data : Z) (pause : bool) : A Z :=
  call "jtag_scan" (option_map (fun f => f ir dr_len data pause) jtag_scan).
Definition the_tms_walk (tms : list Z) : A unit :=
  call "tms_walk" (option_map (fun f => f tms) tms_walk).

Definition has {X} (m : option X) : bool := match m with Some _ => true | None => false end.

(** dmi_error_sequence.py:59-59 (has_dtmcs) *)
Definition has_dtmcs : bool := has dtmcs.

(** dmi_error_sequence.py:100-100 (has_scan) *)
Definition has_scan : bool := has_dtmcs && has dmi_scan.

Definition told (ok : bool) (msg : string) : A StepResult.t := act_ret (StepResult.mk ok msg None).

(** [if not has: return StepResult(ok=True, msg=na)]. *)
Definition given (has : bool) (na : string) (c : A StepResult.t) : A StepResult.t :=
  if has then c else told true na.

(** [dm.t.read(DMI.DMSTATUS) != 0]. *)
Definition dmi_usable : A bool := do s <- cmd (rd DMI.DMSTATUS);; act_ret (negb (s =? 0)).

(** dmi_error_sequence.py:64-72 (tc_dtm_010) *)
Definition tc_dtm_010 : A StepResult.t :=
  given has_dtmcs "TC-DTM-010: N/A -- transport has no dtmcs access"
  (do v <- the_dtmcs 0;;
   let ok := (Z.land v DTMCS_VERSION_MASK =? 1) && (7 <=? slice_of v DTMCS_ABITS_LSB 0x3F) in
   told ok ("TC-DTM-010: dtmcs=" +:+ py_hex 8 v +:+ " (" +:+ _decode v +:+ ")  " +:+
            ok_or ok "unexpected version/abits")).

(** dmi_error_sequence.py:109-110 (_dmistat) *)
Definition _dmistat : A Z := do v <- the_dtmcs 0;; act_ret (slice_of v DTMCS_DMISTAT_LSB 0x3).

(** dmi_error_sequence.py:76-97 (tc_dtm_011) *)
Definition tc_dtm_011 : A StepResult.t :=
  given has_dtmcs "TC-DTM-011: N/A -- no dtmcs access"
  (cmd (for_each (fun _ => rd DMI.DMSTATUS;;; rd DMI.ABSTRACTCS)%prog (py_range 12));;;
   do stat_before <- _dmistat;;
   the_dtmcs DTMCS_DMIRESET;;;
   do stat_after <- _dmistat;;
   do usable <- dmi_usable;;
   let ok := (stat_after =? 0) && usable in
   told ok ("TC-DTM-011: dmistat before=" +:+ pretty stat_before +:+ ", after dmireset=" +:+
            pretty stat_after +:+ ", DMI usable=" +:+ py_bool usable +:+ "  " +:+
            ok_or ok "dmireset did not restore the DTM")).

(** dmi_error_sequence.py:102-107 (_provoke_busy) *)
Definition _provoke_busy : A (Z * Z * Z) :=
  cmd (rd DMI.DMSTATUS);;;
  do first <- the_dmi_scan DMI_READ DMI.DMSTATUS 0;;
  do second <- the_dmi_scan DMI_NOP 0 0;;
  do third <- the_dmi_scan DMI_NOP 0 0;;
  act_ret (first, second, third).

(** dmi_error_sequence.py:119-136 (tc_dtm_012) *)
Definition tc_dtm_012 : A StepResult.t :=
  given has_scan "TC-DTM-012: N/A -- no raw DMI scan"
  (do scans <- _provoke_busy;;
   let '(first, second, third) := scans in
   do before <- _dmistat;;
   the_dtmcs DTMCS_DMIHARDRESET;;;
   do after <- _dmistat;;
   the_dtmcs DTMCS_DMIRESET;;;
   do dmcontrol <- cmd (rd DMI.DMCONTROL);;
   let dm_kept := Z.land dmcontrol 1 =? 1 in
   let ok := (before =? 3) && (after =? 0) && dm_kept in
   told ok ("TC-DTM-012: scans " +:+ pretty first +:+ "/" +:+ pretty second +:+ "/" +:+
            pretty third +:+ ", dmistat=" +:+ pretty before +:+ " before dmihardreset, " +:+
            pretty after +:+ " after (expect 0); dmactive kept=" +:+ py_bool dm_kept +:+ "  " +:+
            (if ok then "OK"
             else if truthy after then "dmihardreset did not clear the DTM -- RTL-009"
             else "busy not provoked, or DM state lost"))).

(** dmi_error_sequence.py:143-152 (tc_dtm_002) *)
Definition tc_dtm_002 (idcode : Z) : A StepResult.t :=
  given (has jtag_scan) "TC-DTM-002: N/A -- transport has no raw JTAG scan"
  (do plain <- the_jtag_scan IR_IDCODE 32 0 false;;
   do paused <- the_jtag_scan IR_IDCODE 32 0xFFFFFFFF true;;
   let ok := (plain =? idcode) && (paused =? idcode) && truthy (Z.land plain 1) in
   told ok ("TC-DTM-002: IDCODE " +:+ py_hex 8 plain +:+ ", through Pause " +:+ py_hex 8 paused +:+
            " (expect " +:+ py_hex 8 idcode +:+ ", bit 0 set)  " +:+ ok_or ok "IDCODE wrong")).

(** dmi_error_sequence.py:159-170 (tc_dtm_017) *)
Definition tc_dtm_017 : A StepResult.t :=
  given (has jtag_scan) "TC-DTM-017: N/A -- transport has no raw JTAG scan"
  (let pattern := 0xB4 in
   let expect := Z.land (Z.shiftl pattern 1) 0xFF in
   do v0 <- the_jtag_scan IR_BYPASS0 8 pattern true;;
   do v1 <- the_jtag_scan IR_BYPASS1 8 pattern false;;
   let ok := (v0 =? expect) && (v1 =? expect) in
   told ok ("TC-DTM-017: IR " +:+ py_hex 2 IR_BYPASS0 +:+ " -> " +:+ py_hex 2 v0 +:+ ", IR " +:+
            py_hex 2 IR_BYPASS1 +:+ " -> " +:+ py_hex 2 v1 +:+ " (expect " +:+ py_hex 2 expect +:+
            ")  " +:+ ok_or ok "BYPASS is not a 1-bit delay")).

(** dmi_error_sequence.py:179-187 (TAP_WALK) *)
Definition TAP_WALK : list Z :=
  [1; 0; 1; 0; 1; 0; 1; 1] ++ [1] ++ [1; 0; 1; 0; 1; 0] ++ [0; 0; 0; 0; 1] ++ [0; 1; 1] ++ [1] ++
  [0; 0; 1; 1] ++ [0].

(** dmi_error_sequence.py:190-205 (tc_dtm_019) *)
Definition tc_dtm_019 : A StepResult.t :=
  given (has tms_walk) "TC-DTM-019: N/A -- transport has no TMS walk"
  (the_jtag_scan IR_BYPASS1 1 0 false;;;
   the_tms_walk TAP_WALK;;;
   do after <- the_jtag_scan IR_BYPASS1 8 0xB4 false;;
   do usable <- dmi_usable;;
   let ok := (after =? 0x68) && usable in
   told ok ("TC-DTM-019: " +:+ pretty (Z.of_nat (length TAP_WALK)) +:+
            "-clock TMS walk through every TAP arc; BYPASS afterwards -> " +:+ py_hex 2 after +:+
            " (expect 0x68), DMI usable=" +:+ py_bool usable +:+ "  " +:+
            ok_or ok "TAP not where the walk should have left it")).

(** dmi_error_sequence.py:211-221 (tc_dtm_018) *)
Definition tc_dtm_018 : A StepResult.t :=
  given has_dtmcs "TC-DTM-018: N/A -- no dtmcs access"
  (do before <- the_dtmcs 0;;
   the_dtmcs (Z.land 0xFFFFFFFF (Z.lnot (Z.lor DTMCS_DMIHARDRESET DTMCS_DMIRESET)));;;
   do after <- the_dtmcs 0;;
   let ok := after =? before in
   told ok ("TC-DTM-018: dtmcs " +:+ py_hex 8 before +:+ " -> " +:+ py_hex 8 after +:+
            " after shifting all-ones into its non-control bits  " +:+ ok_or ok "dtmcs changed")).

(** dmi_error_sequence.py:227-234 (tc_dtm_013) *)
Definition tc_dtm_013 : A StepResult.t :=
  do v <- cmd (rd UNIMPLEMENTED_DMI_ADDR);;
  do still_ok <- dmi_usable;;
  told still_ok ("TC-DTM-013: read of unimplemented addr " +:+ py_hex 2 UNIMPLEMENTED_DMI_ADDR +:+
    " = " +:+ py_hex 8 v +:+ ", DMI still usable=" +:+ py_bool still_ok +:+ "  " +:+
    ok_or still_ok "DMI wedged").

(** dmi_error_sequence.py:242-267 (tc_dtm_015) *)
Definition tc_dtm_015 : A StepResult.t :=
  given (has_dtmcs && has dmi_scan) "TC-DTM-015: N/A -- transport has no raw DMI scan"
  (do scans <- _provoke_busy;;
   let '(first, busy, sticky) := scans in
   do on_read <- the_dmi_scan DMI_READ DMI.DMSTATUS 0;;
   do on_write <- the_dmi_scan DMI_WRITE UNIMPLEMENTED_DMI_ADDR 0;;
   do stat <- _dmistat;;
   the_dtmcs DTMCS_DMIRESET;;;
   do after <- _dmistat;;
   do usable <- dmi_usable;;
   let ok := (first =? 0) && (busy =? 3) && (sticky =? 3) && (on_read =? 3) && (on_write =? 3) &&
             (stat =? 3) && (after =? 0) && usable in
   told ok ("TC-DTM-015: dmistat per scan " +:+
            String.concat "/" (map pretty [first; busy; sticky; on_read; on_write]) +:+
            " (expect 0/3/3/3/3 -- nop, nop, read, write), dtmcs.dmistat=" +:+ pretty stat +:+
            " (expect 3), after dmireset=" +:+ pretty after +:+ ", DMI usable=" +:+ py_bool usable +:+
            "  " +:+ ok_or ok "busy not provoked, not sticky, or not cleared")).

(** dmi_error_sequence.py:274-283 (tc_dtm_014) *)
Definition tc_dtm_014 : A StepResult.t :=
  call "reset" (Some t_reset);;;
  do v <- (if has_dtmcs then the_dtmcs 0 else act_ret 0);;
  do dmcontrol <- cmd (rd DMI.DMCONTROL);;
  let ok := Z.land dmcontrol 1 =? 1 in
  told ok ("TC-DTM-014: after TAP reset dtmcs=" +:+ py_hex 8 v +:+ ", dmcontrol=" +:+
           py_hex 8 dmcontrol +:+ "  " +:+
           (if ok then "OK -- DM survived a transport reset" else "dmactive lost")).

(** dmi_error_sequence.py:55-286 (build_dmi_error_sequence) *)
Definition build (mode : string) (idcode : Z) : result (DebugSession.t (W T)) :=
  try session <- DebugSession.init mode false;;
  let add name fn session := DebugSession.add_step name fn session in
  let session := add "Activate Debug Module" (none_step activate) session in
  let session := add "TC-DTM-010: dtmcs discovery" (act_step tc_dtm_010) session in
  let session := add "TC-DTM-011: sticky error cleared by dmireset" (act_step tc_dtm_011) session in
  let session := add "TC-DTM-012: dmihardreset clears a pending error" (act_step tc_dtm_012) session in
  let session := add "TC-DTM-002: IDCODE, plain and through Pause" (act_step (tc_dtm_002 idcode)) session in
  let session := add "TC-DTM-017: BYPASS through IR 0x00 and 0x1f" (act_step tc_dtm_017) session in
  let session := add "TC-DTM-019: every TAP transition" (act_step tc_dtm_019) session in
  let session := add "TC-DTM-018: dtmcs ignores writes to R/O and reserved bits"
    (act_step tc_dtm_018) session in
  let session := add "TC-DTM-013: unimplemented DMI address" (act_step tc_dtm_013) session in
  let session := add "TC-DTM-015: provoked busy is sticky until dmireset" (act_step tc_dtm_015) session in
  let session := add "TC-DTM-014: TAP reset, DM survives" (act_step tc_dtm_014) session in
  Ok session.

End steps.

End DmiError.

Module RunElf.

(** run_elf_sequence.py:25-26 (TOHOST_PASS, TOHOST_FAIL) *)
Definition TOHOST_PASS : Z := 1.
Definition TOHOST_FAIL : Z := 3.

(** The dict [info].
    run_elf_sequence.py:42-42 (info) *)
Record info := mk_info {
  tohost : option Z;
  name : option string;
  tohost_value : option Z
}.

#[export] Instance info_settable : Settable info := fun i => mk_info (tohost i) (name i) (tohost_value i).

Definition info0 : info := mk_info None None None.

(** [info[key]]. *)
Definition got {A} (key : string) (f : info -> option A) : prog (Z * info) A :=
  bind vars (fun i => of_result (match f i with Some a => Ok a | None => Raise (KeyError key) end)).

Section elf.
(** [nm elf] and [addr2line -f -e elf addr], whose standard output is missing when
    the tool is, or fails. *)
Context (nm : string -> result string) (addr2line : string -> Z -> option string).
Local Open Scope prog_scope.

(** run_elf_sequence.py:44-49 (setup) *)
Definition setup (elf : string) : prog (Z * info) StepResult.t :=
  if String.eqb elf EmptyString then report false "no elf given (params.elf)"
  else
    do addr <- of_result (symbol_addr nm elf "tohost");;
    do i <- vars;;
    set_vars (i <| tohost := Some addr |>);;;
    do i <- vars;;
    set_vars (i <| name := Some (basename elf) |>);;;
    report true (basename elf +:+ ": tohost=" +:+ py_hex 1 addr).

(** run_elf_sequence.py:167-174 (_where) *)
Definition _where (elf : string) (addr : Z) : string :=
  match addr2line elf addr with
  | Some stdout =>
      match split stdout with
      | f :: _ => if String.eqb f "??" then EmptyString else " (" +:+ f +:+ ")"
      | [] => EmptyString
      end
  | None => EmptyString
  end.

(** run_elf_sequence.py:75-83 (report) *)
Definition report_stop (elf : string) : prog (Z * info) StepResult.t :=
  lib (halt DEFAULT_TIMEOUT);;;
  do dpc <- lib (read_reg64 HartControl.DPC);;
  do mcause <- lib (read_reg64 HartControl.MCAUSE);;
  do mepc <- lib (read_reg64 HartControl.MEPC);;
  do name <- got "name" name;;
  report true
    (name +:+ ": halted at dpc=" +:+ py_hex 1 dpc +:+ _where elf dpc +:+ "; last trap mcause=" +:+
     py_hex 1 mcause +:+ " mepc=" +:+ py_hex 1 mepc +:+ _where elf mepc).

(** run_elf_sequence.py:99-103 (_FAIL_TYPE .. _SBDATA1) *)
Definition _FAIL_TYPE : Z := 0.
Definition _FAIL_ACTUAL : Z := 272.
Definition _FAIL_EXPECTED : Z := 280.
Definition _FAIL_RET_SLOTS : list Z := [104; 40].
Definition _X5_REGNO : Z := 0x1005.
Definition _SBDATA1 : Z := 0x3D.

(** [str(_FAIL_TYPES.get(kind, kind))].
    run_elf_sequence.py:102-102 (_FAIL_TYPES) *)
Definition fail_type (kind : Z) : string :=
  match kind with 0 => "integer" | 1 => "fp" | 2 => "fflags" | 3 => "trap handler" | _ => pretty kind end.

(** run_elf_sequence.py:106-110 (_read64) *)
Definition _read64 (addr : Z) : M Z :=
  do low <- read_mem32 addr;;
  do high <- rd _SBDATA1;;
  Ret (Z.lor (Z.shiftl high 32) low).

(** The bytes of a word up to the first zero, and whether there was one.
    run_elf_sequence.py:117-121 (_read_str, one word) *)
Fixpoint word_bytes (n : nat) (word : Z) : list Z * bool :=
  match n with
  | O => ([], false)
  | S n =>
      let b := Z.land word 0xFF in
      if b =? 0 then ([], true)
      else let (bytes, ended) := word_bytes n (Z.shiftr word 8) in (b :: bytes, ended)
  end.

(** The bytes as characters: invalid UTF-8 is not replaced. *)
Definition decode (bytes : list Z) : string :=
  String.string_of_list_ascii (map (fun b => Ascii.ascii_of_nat (Z.to_nat b)) bytes).

(** Each round without a zero adds eight bytes, so the limit of 96 is twelve rounds.
    run_elf_sequence.py:113-122 (_read_str) *)
Fixpoint _read_str (rounds : nat) (addr : Z) (out : list Z) : M string :=
  match rounds with
  | O => Ret (decode out +:+ "...")
  | S rounds =>
      do word <- _read64 (addr + Z.of_nat (length out));;
      let (bytes, ended) := word_bytes 8 word in
      if ended : bool then Ret (decode (out ++ bytes)) else _read_str rounds addr (out ++ bytes)
  end.

(** The check a return address points to, and its description.
    run_elf_sequence.py:154-159 (_act_failure_record, the loop) *)
Fixpoint locate (lo hi : Z) (candidates : list Z) : M (option (Z * string)) :=
  let inside a := (lo <=? a) && (a <? hi) in
  match candidates with
  | [] => Ret None
  | ret :: candidates =>
      if inside ret then
        do ptr <- _read64 ret;;
        if inside ptr then
          do text_at <- _read64 (ret + 8);;
          do text <- _read_str 12 text_at [];;
          Ret (Some (ptr, text))
        else locate lo hi candidates
      else locate lo hi candidates
  end.

(** [except RuntimeError]: a [TransportError] or a [DebugError] is one too. *)
Definition is_RuntimeError (e : exn) : bool :=
  match e with RuntimeError _ | TransportError _ | DebugError _ => true | _ => false end.

(** run_elf_sequence.py:138-164 (_act_failure_record) *)
Definition _act_failure_record (elf : string) : M string :=
  match symbol_addr nm elf "begin_failure_scratch" with
  | Raise e => if is_RuntimeError e then Ret ("cannot decode (" +:+ str_exn e +:+ ")") else Throw e
  | Ok base =>
      do kind <- _read64 (base + _FAIL_TYPE);;
      do actual <- _read64 (base + _FAIL_ACTUAL);;
      do expected <- _read64 (base + _FAIL_EXPECTED);;
      do lo <- of_result (symbol_addr nm elf "rvtest_entry_point");;
      do hi <- of_result (symbol_addr nm elf "_end");;
      do x5 <- read_reg64 _X5_REGNO;;
      do slots <- for_each (fun o => _read64 (base + o)) _FAIL_RET_SLOTS;;
      do found <- locate lo hi (x5 :: slots);;
      Ret match found with
          | None => fail_type kind +:+ " check failed: actual=" +:+ py_hex 1 actual +:+
                    " expected=" +:+ py_hex 1 expected +:+ " (failing check not located)"
          | Some (check, text) =>
              fail_type kind +:+ " check at " +:+ py_hex 1 check +:+ _where elf check +:+
              " failed: actual=" +:+ py_hex 1 actual +:+ " expected=" +:+ py_hex 1 expected +:+
              " ('" +:+ text +:+ "')"
          end
  end.

(** run_elf_sequence.py:125-135 (_failure_record) *)
Definition _failure_record (elf : string) : M string :=
  match symbol_addr nm elf "native_fail" with
  | Raise e => if is_RuntimeError e then _act_failure_record elf else Throw e
  | Ok base =>
      do check <- _read64 base;;
      do actual <- _read64 (base + 8);;
      do expected <- _read64 (base + 16);;
      Ret ("check " +:+ py_hex 1 check +:+ " failed: actual=" +:+ py_hex 1 actual +:+ " expected=" +:+
           py_hex 1 expected +:+ " (check ids are in the program source)")
  end.

(** run_elf_sequence.py:86-89 (explain_failure) *)
Definition explain_failure (elf : string) : prog (Z * info) StepResult.t :=
  do i <- vars;;
  if negb (bool_decide (tohost_value i = Some TOHOST_FAIL))
  then report true "no failure record to decode"
  else
    do name <- got "name" name;;
    do record <- lib (_failure_record elf);;
    report true (name +:+ ": " +:+ record).

Section waits.
Context {T : Type} `{DebugTransport T} `{JtagTransport T} `{Clock}.
Local Open Scope act_scope.

(** The simulated time, in nanoseconds. *)
Definition sim_clock : act T (Z * info) Z := call "sim_time_s" sim_time.

Definition verdict_given (value : Z) : bool := (value =? TOHOST_PASS) || (value =? TOHOST_FAIL).

(** Nothing bounds the rounds but the simulated time: [fuel] does here.
    run_elf_sequence.py:59-65 (wait_verdict, the loop) *)
Fixpoint poll_tohost (fuel : nat) (start budget polls : Z) : act T (Z * info) (Z * Z) :=
  match fuel with
  | O => fun w => (w, Raise OutOfFuel)
  | S fuel =>
      do addr <- cmd (got "tohost" tohost);;
      do value <- cmd (lib (read_mem32 addr));;
      let polls := polls + 1 in
      if verdict_given value then act_ret (value, polls)
      else
        do now <- sim_clock;;
        if budget <? now - start then act_ret (value, polls)
        else poll_tohost fuel start budget polls
  end.

(** [f"{elapsed * 1e3:.1f}"] of a time in nanoseconds, rounded half up. *)
Definition ms_text (ns : Z) : string :=
  let tenths := (ns + 50000) / 100000 in pretty (tenths / 10) +:+ "." +:+ pretty (tenths mod 10).

(** run_elf_sequence.py:54-72 (wait_verdict) *)
Definition wait_verdict (fuel : nat) (budget : Z) : act T (Z * info) StepResult.t :=
  do start <- sim_clock;;
  do r <- poll_tohost fuel start budget 0;;
  let '(value, polls) := r in
  do now <- sim_clock;;
  let elapsed := now - start in
  do i <- cmd vars;;
  cmd (set_vars (i <| tohost_value := Some value |>));;;
  let verdict := match value with 1 => "PASS" | 3 => "FAIL" | _ => "no verdict" end in
  do name <- cmd (got "name" name);;
  act_ret (StepResult.mk (value =? TOHOST_PASS)
    (name +:+ ": tohost=" +:+ pretty value +:+ " (" +:+ verdict +:+ ") after " +:+ ms_text elapsed +:+
     " ms simulated, " +:+ pretty polls +:+ " SBA polls") None).

(** run_elf_sequence.py:35-92 (build_run_elf_sequence) *)
Definition build (fuel : nat) (mode elf : string) (budget : Z)
    : result (DebugSession.t (world T (Z * info))) :=
  try session <- DebugSession.init mode false;;
  let add name fn session := DebugSession.add_step name fn session in
  let session := add "Resolve tohost" (result_step (setup elf)) session in
  let session := add "Activate Debug Module" (none_step (lib activate)) session in
  let session := add "Wait for the program's verdict (tohost)"
    (act_step (wait_verdict fuel budget)) session in
  let session := add "Halt and report where the program stopped" (result_step (report_stop elf)) session in
  let session := add "Decode the program's failure record" (result_step (explain_failure elf)) session in
  Ok session.

End waits.

End elf.

End RunElf.
