(* ===== verification/DmCorners.v ===== *)
(** The Debug Module's corners: [sequences/dm_corners_sequence.py]. *)

From S2P Require Import Prelude Registers Predictor Transport RiscvDm Session Sequences Closures.
From S2P Require Import AccessSequences.
Import RISCVDebug.

Local Open Scope string_scope.
Local Open Scope list_scope.
Local Open Scope Z_scope.
Local Open Scope prog_scope.

Module DmCorners.

(** dm_corners_sequence.py:41-48 (SBADDRESS1 .. SB_ERROR_LSB) *)
Definition SBADDRESS1 : Z := 0x3A.
Definition SBDATA1 : Z := 0x3D.
Definition SB_BUSYERROR : Z := 22.
Definition SB_BUSY : Z := 21.
Definition SB_READONADDR : Z := 20.
Definition SB_ACCESS_LSB : Z := 17.
Definition SB_ERROR_LSB : Z := 12.

(** dm_corners_sequence.py:51-53 (DM_WHERETO, DM_FLAGS, DM_UNDECODED) *)
Definition DM_WHERETO : Z := 0x300.
Definition DM_FLAGS : Z := 0x400.
Definition DM_UNDECODED : Z := 0x000.

(** dm_corners_sequence.py:57-60 (STALL_ADDR .. DMC_DMACTIVE) *)
Definition STALL_ADDR : Z := 0x80001000.
Definition DMC_RESUMEREQ : Z := 30.
Definition DMC_DMACTIVE : Z := 0.

(** dm_corners_sequence.py:71-71 (SCRATCH_ADDR) *)
Definition SCRATCH_ADDR : Z := 0x8FFFE000.

Definition words_at (base n : Z) : list Z := map (fun i => base + 8 * i) (py_range n).

(** dm_corners_sequence.py:81-84 (ROM_WORDS .. DATA_WORDS) *)
Definition ROM_WORDS : list Z := words_at 0x800 19.
Definition ABSTRACT_WORDS : list Z := words_at 0x338 5.
Definition PROGBUF_WORDS : list Z := words_at 0x360 4.
Definition DATA_WORDS : list Z := [0x380].

(** dm_corners_sequence.py:88-96 (DEBUG_ROM) *)
Definition DEBUG_ROM : list Z :=
  [0x07c0006f00c0006f; 0x0ff0000f04c0006f; 0x7b3510737b241073;
   0x00c5551300000517; 0xf140247300c51513; 0x00a4043310852023;
   0x0014741340044403; 0xf140247302041c63; 0x4004440300a40433;
   0xfa041ce300247413; 0x00000517fd5ff06f; 0x00c5151300c55513;
   0x7b30257310052623; 0x001000737b202473; 0x7b30257310052223;
   0xa85ff06f7b202473; 0x10852423f1402473; 0x7b2024737b302573;
   0x000000007b200073].

(** dm_corners_sequence.py:100-110 (WHERETO_RESUME .. ONES) *)
Definition WHERETO_RESUME : Z := 0x5040006f.
Definition DM_HALTED : Z := 0x100.
Definition DM_RESUMING : Z := 0x108.
Definition ABSTRACTAUTO : Z := 0x18.
Definition HALTSUM1 : Z := 0x13.
Definition HALTSUM2 : Z := 0x34.
Definition HALTSUM3 : Z := 0x35.
Definition EBREAK : Z := 0x00100073.
Definition X5_REGNO : Z := 0x1005.
Definition ONES : Z := 0xFFFFFFFF.

(** dm_corners_sequence.py:113-113 (SBCS_ZERO0) *)
Definition SBCS_ZERO0 : Z := 0x1F800000.

(** dm_corners_sequence.py:116-118 (_sbcs_read_on_addr) *)
Definition _sbcs_read_on_addr (sbaccess : Z) : Z :=
  Z.lor (Z.shiftl 1 SB_READONADDR) (Z.shiftl sbaccess SB_ACCESS_LSB).

Definition write_sbcs (v : Z) : M unit := wr DMI.SBCS v.

(** The upper and lower halves of a 64-bit value. *)
Definition pair64 (hi lo : Z) : Z := Z.lor (Z.shiftl hi 32) lo.

(** The list [problems] is empty. *)
Definition none (problems : list string) : bool := match problems with [] => true | _ => false end.

Definition ok_or_all (problems : list string) : string :=
  if none problems then "OK" else String.concat "; " problems.

Section flags.
Context {T : Type} `{DebugTransport T} `{Clock}.
Local Open Scope act_scope.

(** [try: c; finally: f]. *)
Definition finally {A} (c : act T Z A) (f : act T Z unit) : act T Z A := fun w =>
  match c w with
  | (w, r) => match f w with
              | (w, Ok _) => (w, r)
              | (w, Raise e) => (w, Raise e)
              end
  end.

(** dm_corners_sequence.py:141-145 (tc_dmc_001, one poll) *)
Definition poll_flag (_ : Z) (acc : list Z * list string) : act T Z (bool * (list Z * list string)) :=
  let '(status, errors) := acc in
  catch (do v <- cmd (rd DMI.DMSTATUS);; act_ret (false, (status ++ [v], errors)))
    (on_Exception (fun e => act_ret (false, (status, errors ++ [str_exn e])))).

(** dm_corners_sequence.py:130-159 (tc_dmc_001) *)
Definition tc_dmc_001 : act T Z StepResult.t :=
  cmd (select_hart 1);;;
  do r <- finally (act_loop poll_flag (py_range 3) ([], [])) (cmd (select_hart 0));;
  let '(status, errors) := r in
  do still_halted <- cmd is_halted;;
  let nonexist := match status with [] => false | _ => forallb allnonexistent status end in
  let ok := none errors && nonexist && still_halted in
  act_ret (StepResult.mk ok
    ("TC-DMC-001: hartsel=1 -> allnonexistent=" +:+ py_bool nonexist +:+
     match errors with e :: _ => ", dmstatus unreadable: " +:+ e | [] => EmptyString end +:+
     "; back on hart 0 it is still halted=" +:+ py_bool still_halted +:+ "  " +:+
     (if ok then "OK"
      else if none errors then "hart 0 released, or hart 1 reported present"
      else "dmstatus reads X for a nonexistent hart -- RTL-008")) None).

(** dm_corners_sequence.py:262-270 (tc_dmc_008, the loop body) *)
Definition read_haltsum (hart0_halted : Z) (r : string * Z) (acc : list (string * string) * bool)
    : act T Z (bool * (list (string * string) * bool)) :=
  let (name, addr) := r in
  let '(seen, ok) := acc in
  catch (do v <- cmd (rd addr);;
         act_ret (false, (seen ++ [(name, py_hex 8 v)], ok && ((v =? 0) || (v =? hart0_halted)))))
    (on_Exception (fun e =>
       act_ret (false, (seen ++ [(name, "unknown (" +:+ str_exn e +:+ ")")], false)))).

(** dm_corners_sequence.py:259-277 (tc_dmc_008) *)
Definition tc_dmc_008 : act T Z StepResult.t :=
  do summ <- cmd (rd DMI.HALTSUM0);;
  let hart0_halted := Z.land summ 1 in
  do r <- act_loop (read_haltsum hart0_halted)
    [("haltsum1", HALTSUM1); ("haltsum2", HALTSUM2); ("haltsum3", HALTSUM3)] ([], true);;
  let '(seen, ok) := r in
  act_ret (StepResult.mk ok
    ("TC-DMC-008: hart 0 halted=" +:+ pretty hart0_halted +:+ "; " +:+
     String.concat "; " (map (fun '(k, v) => k +:+ "=" +:+ v) seen) +:+
     (if ok then "  OK"
      else "  expected 0 or " +:+ pretty hart0_halted +:+ " (bit 0 = hart 0's group) -- RTL-007")) None).

End flags.

(** dm_corners_sequence.py:162-190 (tc_dmc_002) *)
Definition tc_dmc_002 (dm_base : Z) : M StepResult.t :=
  write_mem32 DM_UNDECODED 0;;;
  do flags_mine <- read_mem32 (dm_base + DM_FLAGS);;
  do flags_other <- read_mem32 (dm_base + DM_FLAGS + 8);;
  do idle_whereto <- read_mem32 DM_WHERETO;;
  resume DEFAULT_TIMEOUT;;;
  wr DMI.DMCONTROL (Z.lor (Z.shiftl 1 DMC_RESUMEREQ) (Z.shiftl 1 DMC_DMACTIVE));;;
  do resume_whereto <- read_mem32 DM_WHERETO;;
  wr DMI.DMCONTROL (Z.shiftl 1 DMC_DMACTIVE);;;
  halt DEFAULT_TIMEOUT;;;
  let ok := (flags_mine =? 0) && (flags_other =? 0) && (resume_whereto =? WHERETO_RESUME) in
  report ok
    ("TC-DMC-002: flags(hart0)=" +:+ py_hex 8 flags_mine +:+ " flags(+8)=" +:+ py_hex 8 flags_other +:+
     " (expect 0), whereto idle=" +:+ py_hex 8 idle_whereto +:+ ", whereto with resumereq=" +:+
     py_hex 8 resume_whereto +:+ "  " +:+
     ok_or ok ("a flag was raised with nothing pending, or whereto is not jal ResumeAddress (" +:+
               py_hex 8 WHERETO_RESUME +:+ ")")).

(** dm_corners_sequence.py:193-196 (_sba_read64) *)
Definition _sba_read64 (addr : Z) : M Z :=
  wr DMI.SBADDRESS0 addr;;;
  _wait_sbus DEFAULT_TIMEOUT;;;
  do hi <- rd SBDATA1;;
  do lo <- rd DMI.SBDATA0;;
  Ret (pair64 hi lo).

(** dm_corners_sequence.py:198-204 (_abstract) *)
Definition _abstract (control : Z) : M Z :=
  wr DMI.COMMAND control;;;
  _poll_until (fun v => Ok (negb (truthy (slice_of v 12 1)))) DMI.ABSTRACTCS "abstractcs.busy=0"
    DEFAULT_TIMEOUT;;;
  do acs <- rd DMI.ABSTRACTCS;;
  wr DMI.ABSTRACTCS (Z.shiftl 0x7 8);;;
  Ret (slice_of acs 8 0x7).

(** dm_corners_sequence.py:212-231 (tc_dmc_005) *)
Definition tc_dmc_005 : M StepResult.t :=
  wr DMI.ABSTRACTCS ONES;;;
  do acs <- rd DMI.ABSTRACTCS;;
  let relaxed := slice_of acs 11 1 in
  wr DMI.ABSTRACTCS 0;;;
  wr ABSTRACTAUTO ONES;;;
  do auto <- rd ABSTRACTAUTO;;
  wr ABSTRACTAUTO 0;;;
  let problems := if auto =? 0x00FF0003 then []
                  else ["abstractauto=" +:+ py_hex 8 auto +:+ ", expected 0x00ff0003"] in
  do cmd_err <- _abstract (Z.lor (Z.lor (Z.lor (Z.shiftl 1 23) (Z.shiftl 2 20)) (Z.shiftl 1 19))
                                 (Z.shiftl 1 13));;
  report (none problems)
    ("TC-DMC-005: relaxedpriv reads " +:+ pretty relaxed +:+ " after writing 1; abstractauto all-ones -> " +:+
     py_hex 8 auto +:+ "; odd command -> cmderr=" +:+ pretty cmd_err +:+ "  " +:+ ok_or_all problems).

(** dm_corners_sequence.py:238-248 (tc_dmc_007) *)
Definition tc_dmc_007 : M StepResult.t :=
  write_sbcs ONES;;;
  do sbcs <- rd DMI.SBCS;;
  write_sbcs (_sbcs_read_on_addr 2);;;
  let reserved := Z.shiftr (Z.land sbcs SBCS_ZERO0) 23 in
  let ok := reserved =? 0 in
  report ok
    ("TC-DMC-007: sbcs after writing all-ones = " +:+ py_hex 8 sbcs +:+ ", reserved [28:23] = " +:+
     py_hex 2 reserved +:+ " (expect 0)  " +:+ ok_or ok "reserved bits hold the written value -- RTL-006").

(** The 64-bit SBA round trip of one pattern: what was read, and the problems.
    dm_corners_sequence.py:305-314 (tc_dmc_006, the first loop) *)
Definition sba_pattern (scratch_addr pattern : Z) : M (Z * list string) :=
  write_sbcs (Z.shiftl 3 SB_ACCESS_LSB);;;
  wr DMI.SBADDRESS0 scratch_addr;;;
  wr SBDATA1 pattern;;;
  wr DMI.SBDATA0 pattern;;;
  _wait_sbus DEFAULT_TIMEOUT;;;
  write_sbcs (_sbcs_read_on_addr 3);;;
  do back <- _sba_read64 scratch_addr;;
  Ret (back, if back =? pair64 pattern pattern then []
             else ["SBA 64-bit " +:+ py_hex 8 pattern +:+ hex_digits 8 pattern EmptyString +:+
                   " read back " +:+ py_hex 16 back]).

(** A word read over the bus against what it should hold. *)
Definition check_word (addr want : Z) (text : Z -> string) : M (list string) :=
  do got <- _sba_read64 addr;;
  Ret (if got =? want then [] else [text got]).

(** dm_corners_sequence.py:322-328 (tc_dmc_006, the Program Buffer loop) *)
Definition progbuf_fill (dm_base fill : Z) : M (list string) :=
  for_each (fun i => write_progbuf i fill) (py_range 8);;;
  do bad <- for_each (fun w =>
    let addr := dm_base + w in
    check_word addr (pair64 fill fill) (fun got => "progbuf word " +:+ py_hex 3 addr +:+ "=" +:+
                                                   py_hex 16 got)) PROGBUF_WORDS;;
  Ret (concat bad).

(** dm_corners_sequence.py:331-334 (tc_dmc_006, the ROM loop) *)
Definition rom_check (dm_base : Z) : M (list string) :=
  do bad <- for_each (fun '(w, want) =>
    let addr := dm_base + w in
    check_word addr want (fun got => "ROM " +:+ py_hex 3 addr +:+ "=" +:+ py_hex 16 got +:+
                                     ", expected " +:+ py_hex 16 want)) (zip ROM_WORDS DEBUG_ROM);;
  Ret (concat bad).

(** dm_corners_sequence.py:343-351 (tc_dmc_006, the register loop) *)
Definition gpr_pattern (pattern : Z) : M (Z * list string) :=
  wr DMI.DATA0 pattern;;;
  wr DMI.DATA1 pattern;;;
  do werr <- _abstract (Z.lor (Z.lor (Z.lor (Z.shiftl 3 20) (Z.shiftl 1 17)) (Z.shiftl 1 16)) X5_REGNO);;
  do rerr <- _abstract (Z.lor (Z.lor (Z.shiftl 3 20) (Z.shiftl 1 17)) X5_REGNO);;
  do hi <- rd DMI.DATA1;;
  do lo <- rd DMI.DATA0;;
  let v := pair64 hi lo in
  Ret (v, if truthy werr || truthy rerr || negb (v =? pair64 pattern pattern)
          then ["x5 64-bit " +:+ py_hex 8 pattern +:+ hex_digits 8 pattern EmptyString +:+ ": cmderr " +:+
                pretty werr +:+ "/" +:+ pretty rerr +:+ ", read " +:+ py_hex 16 v]
          else []).

(** dm_corners_sequence.py:317-340 (tc_dmc_006, the dm_mem regions) *)
Definition regions (dm_base : Z) : M (list string) :=
  _sba_read64 (dm_base + DM_FLAGS + 3);;;
  do bad1 <- for_each (progbuf_fill dm_base) [ONES; 0];;
  for_each (fun i => write_progbuf i EBREAK) (py_range 8);;;
  do bad2 <- rom_check dm_base;;
  for_each (fun w => _sba_read64 (dm_base + w)) ABSTRACT_WORDS;;;
  do hi <- rd DMI.DATA1;;
  do lo <- rd DMI.DATA0;;
  let data_now := pair64 hi lo in
  do bad3 <- for_each (fun w => check_word w data_now (fun got =>
    "data word " +:+ py_hex 16 got +:+ ", data1:data0 " +:+ py_hex 16 data_now)) DATA_WORDS;;
  Ret (concat bad1 ++ bad2 ++ concat bad3).

(** dm_corners_sequence.py:285-359 (tc_dmc_006) *)
Definition tc_dmc_006 (scratch_addr dm_base : Z) : M StepResult.t :=
  do sbcs <- rd DMI.SBCS;;
  if negb (truthy (slice_of sbcs 3 1)) then
    report true
      ("TC-DMC-006: N/A -- sbcs advertises no 64-bit access, so there are no sbdata1/sbaddress1 " +:+
       "halves to exercise")
  else
    write_sbcs (Z.shiftl 3 SB_ACCESS_LSB);;;
    wr SBADDRESS1 ONES;;;
    wr SBADDRESS1 0;;;
    wr DMI.SBADDRESS0 scratch_addr;;;
    do s1 <- sba_pattern scratch_addr ONES;;
    do s0 <- sba_pattern scratch_addr 0;;
    do bad <- regions dm_base;;
    do g1 <- gpr_pattern ONES;;
    do g0 <- gpr_pattern 0;;
    let problems := snd s1 ++ snd s0 ++ bad ++ snd g1 ++ snd g0 in
    report (none problems)
      ("TC-DMC-006: SBA 64-bit round-trips " +:+ py_hex 16 (fst s1) +:+ "/" +:+ py_hex 16 (fst s0) +:+
       "; x5 64-bit round-trips " +:+ py_hex 16 (fst g1) +:+ "/" +:+ py_hex 16 (fst g0) +:+ "; read " +:+
       pretty (Z.of_nat (length (ROM_WORDS ++ ABSTRACT_WORDS ++ PROGBUF_WORDS ++ DATA_WORDS))) +:+
       " dm_mem words  " +:+ ok_or_all problems).

(** dm_corners_sequence.py:368-382 (tc_dmc_009) *)
Definition tc_dmc_009 : M StepResult.t :=
  wr SBDATA1 0;;;
  write_mem32 DM_HALTED 1;;;
  write_mem32 DM_RESUMING 1;;;
  wr DMI.DMCONTROL (Z.lor (Z.shiftl 1 16) 1);;;
  wr DMI.DMCONTROL (Z.lor (Z.lor (Z.shiftl 1 DMC_RESUMEREQ) (Z.shiftl 1 16)) 1);;;
  wr DMI.DMCONTROL (Z.lor (Z.shiftl 1 16) 1);;;
  select_hart 0;;;
  do halted <- is_halted;;
  report halted
    ("TC-DMC-009: hart-1 halted/resuming slots driven over SBA; hart 0 still halted=" +:+
     py_bool halted +:+ "  " +:+ ok_or halted "hart 0 disturbed by another hart's state").

(** dm_corners_sequence.py:396-398 (WALK_REGNOS) *)
Definition WALK_REGNOS : list Z :=
  map (Z.shiftl 1) (py_range 12) ++ [0xFFF] ++
  map (fun k => Z.lor 0x1000 (Z.shiftl 1 k)) (py_range 5) ++ [0x101F] ++
  map (fun k => Z.lor 0x1020 (Z.shiftl 1 k)) (py_range 5) ++ [0x103F].

(** [errors[(size, regno)] = (rerr, werr)].
    dm_corners_sequence.py:402-411 (tc_dmc_010, the loop body) *)
Definition walk_regno (p : Z * Z) : M (Z * Z * (Z * option Z)) :=
  let (size, regno) := p in
  let base := Z.lor (Z.lor (Z.shiftl size 20) (Z.shiftl 1 17)) regno in
  do rerr <- _abstract base;;
  do werr <- (if size =? 3 then do e <- _abstract (Z.lor base (Z.shiftl 1 16));; Ret (Some e)
              else Ret None);;
  Ret (size, regno, (rerr, werr)).

(** The last conjunct reads dmstatus only when the others hold.
    dm_corners_sequence.py:400-426 (tc_dmc_010) *)
Definition tc_dmc_010 : M StepResult.t :=
  do errors <- for_each walk_regno (flat_map (fun s => map (pair s) WALK_REGNOS) [2; 3]);;
  do odd_size <- _abstract (Z.lor (Z.lor (Z.shiftl 4 20) (Z.shiftl 1 17)) 0x1005);;
  write_progbuf 0 EBREAK;;;
  do postexec <- _abstract (Z.lor (Z.lor (Z.lor (Z.shiftl 3 20) (Z.shiftl 1 18)) (Z.shiftl 1 17)) 0x1005);;
  let gpr_ok := forallb (fun '(s, r, e) =>
    if (0x1000 <? r) && (r <=? 0x101F)
    then bool_decide (e = (0, if s =? 3 then Some 0 else None)) else true) errors in
  do ok <- (if gpr_ok && (odd_size =? 2) && (postexec =? 0) then is_halted else Ret false);;
  let failed := length (List.filter (fun '(_, _, e) => truthy (fst e)) errors) in
  report ok
    ("TC-DMC-010: " +:+ pretty (2 * Z.of_nat (length WALK_REGNOS)) +:+
     " regno/size reads (+ write-backs); " +:+ pretty (Z.of_nat failed) +:+
     " answered cmderr (nonexistent CSR/FPR -- expected); every GPR round-tripped=" +:+
     py_bool gpr_ok +:+ "; aarsize=4 -> cmderr=" +:+ pretty odd_size +:+
     " (expect 2); transfer+postexec -> cmderr=" +:+ pretty postexec +:+ " (expect 0)  " +:+
     ok_or ok "unexpected command result").

(** dm_corners_sequence.py:436-455 (tc_dmc_003) *)
Definition tc_dmc_003 : M StepResult.t :=
  resume DEFAULT_TIMEOUT;;;
  write_sbcs (_sbcs_read_on_addr 2);;;
  ndmreset true;;;
  wr DMI.SBADDRESS0 STALL_ADDR;;;
  do busy <- rd DMI.SBCS;;
  write_sbcs (_sbcs_read_on_addr 2);;;
  rd SBDATA1;;;
  wr SBADDRESS1 0;;;
  wr SBDATA1 0;;;
  do after <- rd DMI.SBCS;;
  let was_busy := truthy (slice_of busy SB_BUSY 1) in
  let flagged := truthy (slice_of after SB_BUSYERROR 1) in
  let ok := was_busy && flagged in
  report ok
    ("TC-DMC-003: under ndmreset sbcs=" +:+ py_hex 8 busy +:+ " (sbbusy=" +:+ pretty (to_int was_busy) +:+
     "), after four accesses sbcs=" +:+ py_hex 8 after +:+ " (sbbusyerror=" +:+
     pretty (to_int flagged) +:+ ")  " +:+ ok_or ok "transfer did not stall, or busy access not flagged").

(** dm_corners_sequence.py:470-502 (tc_dmc_004) *)
Definition tc_dmc_004 : M StepResult.t :=
  ndmreset false;;;
  ackhavereset;;;
  do sbcs <- rd DMI.SBCS;;
  let busy_now := truthy (slice_of sbcs SB_BUSY 1) in
  rd DMI.ABSTRACTCS;;;
  write_sbcs (Z.lor (Z.lor (Z.shiftl 1 SB_BUSYERROR) (Z.shiftl 0x7 SB_ERROR_LSB)) (_sbcs_read_on_addr 2));;;
  do after <- rd DMI.SBCS;;
  let busyerr := truthy (slice_of after SB_BUSYERROR 1) in
  let consistent := Bool.eqb busyerr busy_now in
  deactivate;;;
  rd DMI.ABSTRACTCS;;;
  rd DMI.SBCS;;;
  activate;;;
  do reset <- rd DMI.SBCS;;
  let reset_err := slice_of reset SB_BUSYERROR 1 in
  halt DEFAULT_TIMEOUT;;;
  do ok <- (if consistent && negb (truthy reset_err) then is_halted else Ret false);;
  do halts <- is_halted;;
  report ok
    ("TC-DMC-004: after release sbbusy=" +:+ pretty (to_int busy_now) +:+ " (" +:+
     (if busy_now then "transfer lost with the crossbar reset" else "transfer completed") +:+
     "); W1C of sbbusyerror " +:+ (if busyerr then "refused" else "applied") +:+ " (sbcs=" +:+
     py_hex 8 after +:+ "); after dmactive cycle sbbusyerror=" +:+ pretty reset_err +:+
     "; hart halts=" +:+ py_bool halts +:+ "  " +:+
     ok_or ok "sbcs inconsistent, not reset by dmactive, or run control lost").

(** dm_corners_sequence.py:121-517 (build_dm_corners_sequence) *)
Definition build {T} `{DebugTransport T} `{Clock} (mode : string) (scratch_addr dm_base : Z)
    : result (DebugSession.t (W T)) :=
  try session <- DebugSession.init mode false;;
  let add name fn session := DebugSession.add_step name fn session in
  let session := add "Activate Debug Module" (none_step activate) session in
  let session := add "Halt hart" (none_step (halt DEFAULT_TIMEOUT)) session in
  let session := add "TC-DMC-002: SBA into the Debug Module's own memory"
    (result_step (tc_dmc_002 dm_base)) session in
  let session := add "TC-DMC-005: every writable register bit, both ways"
    (result_step tc_dmc_005) session in
  let session := add "TC-DMC-007: sbcs reserved bits read 0" (result_step tc_dmc_007) session in
  let session := add "TC-DMC-008: haltsum1-3 defined on a single-hart DM" (act_step tc_dmc_008) session in
  let session := add "TC-DMC-006: 64-bit bus and data-path halves"
    (result_step (tc_dmc_006 scratch_addr dm_base)) session in
  let session := add "TC-DMC-010: abstract-command program walk" (result_step tc_dmc_010) session in
  let session := add "TC-DMC-003: DMI access while sbbusy" (result_step tc_dmc_003) session in
  let session := add "TC-DMC-004: DM consistent after ndmreset release" (result_step tc_dmc_004) session in
  let session := add "TC-DMC-001: flag poll with a nonexistent hart selected"
    (act_step tc_dmc_001) session in
  let session := add "TC-DMC-009: another hart's state slots" (result_step tc_dmc_009) session in
  Ok session.

End DmCorners.
