(* ===== verification/Programs.v ===== *)
(** What the programs over a transport never do, whatever the device answers:
    a rule per construct, and the library's commands as hints.

    [uses W Pr] ([Transport]) bounds the writes a program can make; [emits] is the
    same of an [act], in terms of the history.  [ends] and [act_ends] say that a
    program, or an [act], never runs out of the fuel the model gives its loops, on
    a transport that is not itself out of fuel. *)

From S2P Require Import Prelude Registers Predictor Transport RiscvDm Session Sequences Closures.
From S2P Require Import DutConfig UvmTransport.
Import RISCVDebug.

Local Open Scope string_scope.
Local Open Scope list_scope.
Local Open Scope Z_scope.

(** ** Writes *)

Create HintDb uses discriminated.

Lemma uses_bind {S A B} W Pr (c : prog S A) (f : A -> prog S B) :
  uses W Pr c -> (forall a, uses W Pr (f a)) -> uses W Pr (bind c f).
Proof.
  intros Hc Hf. induction c; cbn in *; intuition eauto.
Qed.

Lemma uses_lib {V A} W Pr (c : M A) : uses W Pr c -> uses W Pr (lib (V := V) c).
Proof.
  intros Hc. induction c; cbn in *; intuition eauto.
Qed.

Lemma uses_for_each {S X A} W Pr (f : X -> prog S A) l :
  (forall x, uses W Pr (f x)) -> uses W Pr (for_each f l).
Proof.
  intros Hf. induction l as [|x l IH]; cbn [for_each]; [done|].
  apply uses_bind; [apply Hf|]. intros y. apply uses_bind; [done|]. intros ys. done.
Qed.

Lemma uses_any_of W Pr n (c : M bool) : uses W Pr c -> uses W Pr (any_of n c).
Proof.
  intros Hc. induction n as [|n IH]; cbn [any_of]; [done|].
  apply uses_bind; [done|]. by intros [|].
Qed.

Lemma uses_poll_loop W Pr fuel predicate register msg timeout deadline :
  uses W Pr (poll_loop fuel predicate register msg timeout deadline).
Proof.
  revert deadline. induction fuel as [|fuel IH]; intros deadline; cbn [poll_loop uses bind rd]; [done|].
  intros v. destruct (predicate v) as [[|]|e]; cbn; [done| |done].
  intros now. by destruct (deadline <? now); cbn.
Qed.

Lemma uses_poll_until W Pr predicate register msg timeout :
  uses W Pr (_poll_until predicate register msg timeout).
Proof. intros now. apply uses_poll_loop. Qed.

Lemma uses_poll_before {S} W Pr fuel done register deadline :
  uses W Pr (poll_before (V := S) fuel done register deadline).
Proof.
  induction fuel as [|fuel IH]; cbn [poll_before]; [done|].
  cbn [uses]. intros now. destruct (now <? deadline); [|done].
  cbn. intros v. by destruct (done v).
Qed.

#[export] Hint Resolve uses_poll_until uses_poll_before : uses.

(** The function at the head of a term. *)
Ltac head_of t := lazymatch t with ?f _ => head_of f | _ => t end.

(** Bound the writes of a program construct by construct, unfolding the commands
    it calls; what is left are the writes to check. *)
Ltac uses_step :=
  lazymatch goal with
  | |- uses _ _ (bind _ _) => apply uses_bind; [|intros ?]
  | |- uses _ _ (lib _) => apply uses_lib
  | |- uses _ _ (for_each _ _) => apply uses_for_each; intros ?
  | |- uses _ _ (any_of _ _) => apply uses_any_of
  | |- uses _ _ (rd _) => intros ?; exact I
  | |- uses _ _ (Ret _) => exact I
  | |- uses _ _ (Throw _) => exact I
  | |- uses _ _ (wr _ _) => split; [|exact I]
  | |- uses _ _ get => intros ?; exact I
  | |- uses _ _ (put _) => exact I
  | |- uses _ _ vars => intros ?; exact I
  | |- uses _ _ (set_vars _) => intros ?; exact I
  | |- uses _ _ (report _ _) => exact I
  | |- uses _ _ monotonic => intros ?; exact I
  | |- uses _ _ (Sleep _ _) => cbn [uses]
  | |- uses _ _ (Now _) => intros ?
  | |- uses _ _ (match ?x with _ => _ end) => destruct x
  | |- uses _ _ (let '(_, _) := ?x in _) => destruct x
  | |- uses _ _ ?c => let h := head_of c in unfold h; cbv beta
  end.
Ltac uses := repeat first [solve [auto with uses] | uses_step].

(** A command that writes, as the history shows it. *)
Definition allowed (W : Z -> Z -> Prop) (op : dmi_op) : Prop :=
  match op with (name, addr, Some v, _) => W addr v | _ => True end.

(** The history a function on the world leaves extends the one it found by
    allowed operations. *)
Definition emits {T S A} (W : Z -> Z -> Prop) (c : world T S -> world T S * A) : Prop :=
  forall w, exists l, history (fst (c w)) = history w ++ l /\ Forall (allowed W) l.

Section emits.
Context {T S : Type} `{DebugTransport T} `{Clock} (W : Z -> Z -> Prop).

Lemma emits_none {A} (c : world T S -> world T S * A) :
  (forall w, history (fst (c w)) = history w) -> emits W c.
Proof. intros Hc w. exists []. by rewrite Hc, app_nil_r. Qed.

Lemma run_emits {A} Pr (c : prog S A) : uses W Pr c -> emits W (T := T) (run c).
Proof.
  intros Hc w. revert w. induction c as [a|e|addr k IH|addr v k IH|k IH|s k IH|k IH|k IH|d k IH];
    intros w; cbn [run uses] in *; try (exists []; by rewrite app_nil_r).
  - destruct (t_read addr (dev w)) as [t [v|e]]; [|exists []; by rewrite app_nil_r].
    destruct (IH v (Hc v) (w <| dev := t |> <| history := history w ++ [("read", addr, None, Some v)] |>))
      as (l & Hl & Hall). exists (("read", addr, None, Some v) :: l). cbn in Hl |- *.
    by rewrite Hl, <-app_assoc; split; [|constructor].
  - destruct Hc as [Hw Hc].
    destruct (t_write addr v (dev w)) as [t [u|e]]; [|exists []; by rewrite app_nil_r].
    destruct (IH Hc (w <| dev := t |> <| history := history w ++ [("write", addr, Some v, None)] |>))
      as (l & Hl & Hall). exists (("write", addr, Some v, None) :: l). cbn in Hl |- *.
    by rewrite Hl, <-app_assoc; split; [|constructor].
  - by apply IH.
  - destruct (IH Hc (w <| self := s |>)) as (l & Hl). by exists l.
  - apply IH. apply Hc.
  - by apply IH.
  - destruct (IH Hc (w <| clock := sleep_until (clock w) d |>)) as (l & Hl). by exists l.
Qed.

Lemma emits_ret {A} (a : A) : emits W (act_ret (T := T) (S := S) a).
Proof. by apply emits_none. Qed.

Lemma emits_bind {A B} (c : act T S A) (f : A -> act T S B) :
  emits W c -> (forall a, emits W (f a)) -> emits W (act_bind c f).
Proof.
  intros Hc Hf w. unfold act_bind. destruct (Hc w) as (l & Hl & Hall).
  destruct (c w) as [w1 [a|e]]; cbn in Hl |- *; [|by exists l].
  destruct (Hf a w1) as (l' & Hl' & Hall'). exists (l ++ l').
  rewrite Hl', Hl, <-app_assoc. by split; [|apply Forall_app].
Qed.

Lemma emits_catch {A} (c : act T S A) h :
  emits W c -> (forall e k, h e = Some k -> emits W k) -> emits W (catch c h).
Proof.
  intros Hc Hh w. unfold catch. destruct (Hc w) as (l & Hl & Hall).
  destruct (c w) as [w1 [a|e]]; cbn in Hl |- *; [by exists l|].
  destruct (h e) as [k|] eqn:He; cbn; [|by exists l].
  destruct (Hh e k He w1) as (l' & Hl' & Hall'). exists (l ++ l').
  rewrite Hl', Hl, <-app_assoc. by split; [|apply Forall_app].
Qed.

Lemma emits_on_Exception {A} (c : act T S A) h :
  emits W c -> (forall e, emits W (h e)) -> emits W (catch c (on_Exception h)).
Proof.
  intros Hc Hh. apply emits_catch; [done|]. intros e k. unfold on_Exception.
  destruct (is_Exception e); [|done]. intros [= <-]. apply Hh.
Qed.

Lemma emits_quiet {A} (c : act T S A) d : emits W c -> emits W (quiet c d).
Proof. intros Hc. apply emits_on_Exception; [done|]. intros e. apply emits_ret. Qed.

Lemma emits_loop {X A} (f : X -> A -> act T S (bool * A)) l a :
  (forall x a, emits W (f x a)) -> emits W (act_loop f l a).
Proof.
  intros Hf. revert a. induction l as [|x l IH]; intros a; cbn [act_loop]; [apply emits_ret|].
  apply emits_bind; [apply Hf|]. intros [[|] a']; [apply emits_ret|apply IH].
Qed.

Lemma emits_call {A} name (m : option (T -> T * result A)) : emits W (call (S := S) name m).
Proof. apply emits_none. intros w. destruct m as [m|]; [|done]. cbn. by destruct (m (dev w)). Qed.

Lemma emits_raise {A} (e : exn) : emits W (fun w : world T S => (w, @Raise A e)).
Proof. by apply emits_none. Qed.

(** A session's step. *)
Lemma emits_map {A B} (c : world T S -> world T S * A) (f : A -> B) :
  emits W c -> emits W (fun w => let (w, r) := c w in (w, f r)).
Proof. intros Hc w. destruct (Hc w) as (l & Hl & Hall). destruct (c w) as [w1 r]. by exists l. Qed.

Lemma emits_none_step Pr (c : prog S unit) : uses W Pr c -> emits W (none_step (T := T) c).
Proof. intros Hc. unfold none_step. apply emits_map. by eapply run_emits. Qed.

Lemma emits_result_step Pr (c : prog S StepResult.t) : uses W Pr c -> emits W (result_step (T := T) c).
Proof. intros Hc. unfold result_step. apply emits_map. by eapply run_emits. Qed.

Lemma emits_act_step (c : act T S StepResult.t) : emits W c -> emits W (act_step c).
Proof. intros Hc. unfold act_step. by apply emits_map. Qed.

End emits.

(** ** Termination *)

(** No transport raises what only the model of a loop does. *)
Class Total (T : Type) `{DebugTransport T} := {
  total_read addr t : snd (t_read addr t) <> Raise OutOfFuel;
  total_write addr v t : snd (t_write addr v t) <> Raise OutOfFuel;
  total_reset t : snd (t_reset t) <> Raise OutOfFuel
}.

(** The same of the other accesses a transport may have. *)
Class TotalJtag (T : Type) `{JtagTransport T} := {
  total_dtmcs f wdata t : dtmcs = Some f -> snd (f wdata t) <> Raise OutOfFuel;
  total_dmi_scan f op addr data t : dmi_scan = Some f -> snd (f op addr data t) <> Raise OutOfFuel;
  total_jtag_scan f ir len data pause t :
    jtag_scan = Some f -> snd (f ir len data pause t) <> Raise OutOfFuel;
  total_tms_walk f tms t : tms_walk = Some f -> snd (f tms t) <> Raise OutOfFuel;
  total_sim_time f t : sim_time = Some f -> snd (f t) <> Raise OutOfFuel
}.

Create HintDb ends discriminated.

Section ends.
Context {T : Type} `{Total T} `{Clock}.

(** On every world, the program returns, or raises something else than being out
    of fuel. *)
Definition ends {S A} (c : prog S A) : Prop :=
  forall w : world T S, snd (run c w) <> Raise OutOfFuel.

Definition act_ends {S A} (c : act T S A) : Prop := forall w, snd (c w) <> Raise OutOfFuel.

Lemma ends_ret {S A} (a : A) : ends (S := S) (Ret a).
Proof. done. Qed.

Lemma ends_throw {S A} e : e <> OutOfFuel -> ends (S := S) (A := A) (Throw e).
Proof. intros He w [= ->]. done. Qed.

Lemma ends_Rd {S A} addr (k : Z -> prog S A) : (forall v, ends (k v)) -> ends (Rd addr k).
Proof.
  intros Hk w. cbn. pose proof (total_read addr (dev w)) as Hr.
  destruct (t_read addr (dev w)) as [t [v|e]]; [apply Hk|]. cbn in *. congruence.
Qed.

Lemma ends_Wr {S A} addr v (k : prog S A) : ends k -> ends (Wr addr v k).
Proof.
  intros Hk w. cbn. pose proof (total_write addr v (dev w)) as Hr.
  destruct (t_write addr v (dev w)) as [t [u|e]]; [apply Hk|]. cbn in *. congruence.
Qed.

Lemma ends_Get {S A} (k : S -> prog S A) : (forall s, ends (k s)) -> ends (Get k).
Proof. intros Hk w. apply Hk. Qed.

Lemma ends_Put {S A} s (k : prog S A) : ends k -> ends (Put s k).
Proof. intros Hk w. apply Hk. Qed.

Lemma ends_Predictor {S A} (k : option DMPredictor.t -> prog S A) :
  (forall p, ends (k p)) -> ends (Predictor k).
Proof. intros Hk w. apply Hk. Qed.

Lemma ends_Now {S A} (k : Z -> prog S A) : (forall n, ends (k n)) -> ends (Now k).
Proof. intros Hk w. apply Hk. Qed.

Lemma ends_Sleep {S A} d (k : prog S A) : ends k -> ends (Sleep d k).
Proof. intros Hk w. apply Hk. Qed.

Lemma ends_bind {S A B} (c : prog S A) (f : A -> prog S B) :
  ends c -> (forall a, ends (f a)) -> ends (bind c f).
Proof.
  intros Hc Hf w. rewrite run_bind. pose proof (Hc w) as Hw.
  destruct (run c w) as [w1 [a|e]]; [apply Hf|]. cbn in *. congruence.
Qed.

Lemma ends_lib {V A} (c : M A) : ends c -> ends (lib (V := V) c).
Proof.
  intros Hc [d [s v] t h]. rewrite run_lib. pose proof (Hc (mk_world d s t h)) as Hw.
  by destruct (run c _).
Qed.

Lemma ends_for_each {S X A} (f : X -> prog S A) l : (forall x, ends (f x)) -> ends (for_each f l).
Proof.
  intros Hf. induction l as [|x l IH]; cbn [for_each]; [apply ends_ret|].
  apply ends_bind; [done|]. intros y. apply ends_bind; [done|]. intros ys. apply ends_ret.
Qed.

Lemma ends_any_of n (c : M bool) : ends c -> ends (any_of n c).
Proof.
  intros Hc. induction n as [|n IH]; cbn [any_of]; [apply ends_ret|].
  apply ends_bind; [done|]. intros [|]; [apply ends_ret|done].
Qed.

(** The fuel of a polling loop: each round sleeps at least the poll interval before
    the deadline. *)
Lemma enough_fuel timeout : 0 <= timeout -> timeout < 1000 * (Z.of_nat (poll_fuel timeout) - 1).
Proof.
  intros Ht. unfold poll_fuel, POLL_INTERVAL. pose proof (Z.div_pos timeout 1000).
  rewrite !Nat2Z.inj_succ, Z2Nat.id by lia. pose proof (Z.mul_succ_div_gt timeout 1000). lia.
Qed.

Lemma poll_before_ends {S} fuel done register deadline (w : world T S) :
  deadline - clock w < 1000 * (Z.of_nat fuel - 1) -> (1 <= fuel)%nat ->
  snd (run (poll_before fuel done register deadline) w) <> Raise OutOfFuel.
Proof.
  revert w. induction fuel as [|fuel IH]; intros w Hd Hf; [lia|]. cbn [poll_before run].
  destruct (Z.ltb_spec (clock w) deadline); [|done]. cbn [bind rd run].
  pose proof (total_read register (dev w)) as Hr.
  destruct (t_read register (dev w)) as [t [v|e]]; cbn [run snd]; [|cbn in Hr; congruence].
  destruct (done v); cbn [run]; [discriminate|].
  destruct fuel as [|fuel]; [lia|]. apply IH; [|lia]. cbn.
  pose proof (sleep_law (clock w) POLL_INTERVAL). unfold POLL_INTERVAL in *. lia.
Qed.

(** [deadline = time.monotonic() + timeout] and the loop. *)
Lemma ends_deadline {A} timeout done register (k : option Z -> M A) :
  0 <= timeout -> (forall r, ends (k r)) ->
  ends (bind monotonic (fun now =>
    bind (poll_before (poll_fuel timeout) done register (now + timeout)) k)).
Proof.
  intros Ht Hk w. cbn [bind monotonic run]. rewrite run_bind.
  assert (snd (run (poll_before (poll_fuel timeout) done register (clock w + timeout)) w)
          <> Raise OutOfFuel) as Hw.
  { apply poll_before_ends; [|unfold poll_fuel; lia]. pose proof (enough_fuel timeout Ht). lia. }
  destruct (run _ w) as [w1 [a|e]]; [apply Hk|]. cbn in *. congruence.
Qed.

Lemma poll_loop_ends_at fuel predicate register msg timeout deadline (w : world T Z) :
  (forall v, predicate v <> Raise OutOfFuel) ->
  deadline - clock w < 1000 * (Z.of_nat fuel - 1) -> (1 <= fuel)%nat ->
  snd (run (poll_loop fuel predicate register msg timeout deadline) w) <> Raise OutOfFuel.
Proof.
  intros Hp. revert w. induction fuel as [|fuel IH]; intros w Hd Hf; [lia|].
  cbn [poll_loop bind rd run]. pose proof (total_read register (dev w)) as Hr.
  destruct (t_read register (dev w)) as [t [v|e]]; cbn [run snd]; [|cbn in Hr; congruence].
  pose proof (Hp v) as Hv. destruct (predicate v) as [[|]|e]; cbn; [done| |congruence].
  destruct (Z.ltb_spec deadline (clock w)); [done|]. cbn [run].
  destruct fuel as [|fuel]; [lia|]. apply IH; [|lia]. cbn.
  pose proof (sleep_law (clock w) POLL_INTERVAL). unfold POLL_INTERVAL in *. lia.
Qed.

Lemma ends_poll_until predicate register msg timeout :
  (forall v, predicate v <> Raise OutOfFuel) -> 0 <= timeout ->
  ends (_poll_until predicate register msg timeout).
Proof.
  intros Hp Ht w. cbn [_poll_until run]. apply poll_loop_ends_at; [done| |unfold poll_fuel; lia].
  pose proof (enough_fuel timeout Ht). lia.
Qed.

(** ** Acts *)

Lemma act_ends_cmd {S A} (c : prog S A) : ends c -> act_ends (cmd c).
Proof. done. Qed.

Lemma act_ends_ret {S A} (a : A) : act_ends (act_ret (S := S) a).
Proof. done. Qed.

Lemma act_ends_raise {S A} e : e <> OutOfFuel -> act_ends (fun w : world T S => (w, @Raise A e)).
Proof. intros He w. cbn. congruence. Qed.

Lemma act_ends_bind {S A B} (c : act T S A) (f : A -> act T S B) :
  act_ends c -> (forall a, act_ends (f a)) -> act_ends (act_bind c f).
Proof.
  intros Hc Hf w. unfold act_bind. pose proof (Hc w) as Hw.
  destruct (c w) as [w1 [a|e]]; [apply Hf|]. cbn in *. congruence.
Qed.

Lemma act_ends_catch {S A} (c : act T S A) h :
  act_ends c -> (forall e k, h e = Some k -> act_ends k) -> act_ends (catch c h).
Proof.
  intros Hc Hh w. unfold catch. pose proof (Hc w) as Hw.
  destruct (c w) as [w1 [a|e]]; [done|]. destruct (h e) as [k|] eqn:He; [by eapply Hh|]. done.
Qed.

Lemma act_ends_on_Exception {S A} (c : act T S A) h :
  act_ends c -> (forall e, act_ends (h e)) -> act_ends (catch c (on_Exception h)).
Proof.
  intros Hc Hh. apply act_ends_catch; [done|]. intros e k. unfold on_Exception.
  destruct (is_Exception e); [|done]. intros [= <-]. apply Hh.
Qed.

Lemma act_ends_quiet {S A} (c : act T S A) d : act_ends c -> act_ends (quiet c d).
Proof. intros Hc. apply act_ends_on_Exception; [done|]. intros e. apply act_ends_ret. Qed.

Lemma act_ends_loop {S X A} (f : X -> A -> act T S (bool * A)) l a :
  (forall x a, x ∈ l -> act_ends (f x a)) -> act_ends (act_loop f l a).
Proof.
  revert a. induction l as [|x l IH]; intros a Hf; cbn [act_loop]; [apply act_ends_ret|].
  apply act_ends_bind; [apply Hf; by left|]. intros [[|] a']; [apply act_ends_ret|].
  apply IH. intros y b Hy. apply Hf. by right.
Qed.

Lemma act_ends_call {S A} name (m : option (T -> T * result A)) :
  (forall f t, m = Some f -> snd (f t) <> Raise OutOfFuel) -> act_ends (call (S := S) name m).
Proof.
  intros Hm w. unfold call. destruct m as [f|]; [|done]. pose proof (Hm f (dev w) eq_refl) as Hf.
  by destruct (f (dev w)).
Qed.

(** ** Steps and sessions *)

Definition step_ends {X} (fn : DebugSession.step X) : Prop :=
  forall w, snd (fn w) <> Raised OutOfFuel.

Lemma none_step_ends {S} (c : prog S unit) : ends c -> step_ends (none_step c).
Proof.
  intros Hc w. unfold none_step. pose proof (Hc w) as Hw.
  destruct (run c w) as [w1 [a|e]]; [done|]. cbn in *. congruence.
Qed.

Lemma result_step_ends {S} (c : prog S StepResult.t) : ends c -> step_ends (result_step c).
Proof.
  intros Hc w. unfold result_step. pose proof (Hc w) as Hw.
  destruct (run c w) as [w1 [a|e]]; [done|]. cbn in *. congruence.
Qed.

Lemma act_step_ends {S} (c : act T S StepResult.t) : act_ends c -> step_ends (act_step c).
Proof.
  intros Hc w. unfold act_step. pose proof (Hc w) as Hw.
  destruct (c w) as [w1 [a|e]]; [done|]. cbn in *. congruence.
Qed.

(** Every step of a session that could be built ends. *)
Definition session_ends {X} (session : result (DebugSession.t X)) : Prop :=
  match session with
  | Ok session => Forall (fun '(_, fn) => step_ends fn) (DebugSession._steps session)
  | Raise _ => True
  end.

Definition steps_end {X} (session : DebugSession.t X) : Prop :=
  Forall (fun '(_, fn) => step_ends fn) (DebugSession._steps session).

Lemma session_ends_build {X} mode stop (k : DebugSession.t X -> result (DebugSession.t X)) :
  (forall session, steps_end session -> session_ends (k session)) ->
  session_ends (rbind (DebugSession.init mode stop) k).
Proof.
  intros Hk. unfold DebugSession.init. case_bool_decide; [|exact I]. apply Hk. by constructor.
Qed.

Lemma steps_end_add {X} name (fn : DebugSession.step X) session :
  step_ends fn -> steps_end session -> steps_end (DebugSession.add_step name fn session).
Proof. intros Hf Hs. apply Forall_app. by split; [|constructor]. Qed.

Lemma steps_end_fold {X A} (f : DebugSession.t X -> A -> DebugSession.t X) l session :
  (forall session x, steps_end session -> steps_end (f session x)) ->
  steps_end session -> steps_end (fold_left f l session).
Proof. intros Hf. revert session. induction l; cbn; auto. Qed.

(** What is computed outside of the transport. *)
Definition computed {A} (r : result A) : Prop := r <> Raise OutOfFuel.

Lemma computed_rbind {A B} (r : result A) (k : A -> result B) :
  computed r -> (forall a, computed (k a)) -> computed (rbind r k).
Proof. intros Hr Hk. destruct r; cbn; [apply Hk|]. intros [= ->]. done. Qed.

Lemma computed_fold {A X} (f : X -> A -> result X) l s :
  (forall s a, computed (f s a)) -> computed (fold_ok f s l).
Proof.
  intros Hf. revert s. induction l as [|a l IH]; intros s; cbn [fold_ok]; [done|].
  by apply computed_rbind.
Qed.

Lemma computed_rmap {A B} (f : A -> B) (r : result A) : computed r -> computed (rmap f r).
Proof. intros Hr. destruct r; cbn; [discriminate|]. intros [= ->]. done. Qed.

Lemma computed_encode r vs : computed (Register.encode r vs).
Proof.
  apply computed_fold. intros s [n v]. apply computed_rbind; [|done].
  unfold Register.field. by case_match.
Qed.

Lemma computed_expect p addr : computed (DMPredictor.expect p addr).
Proof.
  unfold DMPredictor.expect, DMPredictor.predict, DMPredictor._expect_dmcontrol,
    DMPredictor._expect_dmstatus, DMPredictor.expect_abstractauto, Prelude.py_shl.
  repeat lazymatch goal with
    | |- computed (Register.encode _ _) => apply computed_encode
    | |- computed (rmap _ _) => apply computed_rmap
    | |- computed (rbind _ _) => apply computed_rbind; [|intros ?]
    | |- computed (if ?b then _ else _) => destruct b
    | _ => discriminate
    end.
Qed.

(** A result raised in a program. *)
Lemma ends_of_result {S A} (r : result A) :
  computed r -> ends (S := S) (match r with Ok a => Ret a | Raise e => Throw e end).
Proof. intros Hr. destruct r; [apply ends_ret|]. apply ends_throw. unfold computed in Hr. congruence. Qed.

End ends.

(** A program that uses no loop of its own ends when its commands do. *)
Ltac ends_step :=
  lazymatch goal with
  | |- ends (bind _ _) => apply ends_bind; [|intros ?]
  | |- ends (lib _) => apply ends_lib
  | |- ends (for_each _ _) => apply ends_for_each; intros ?
  | |- ends (any_of _ _) => apply ends_any_of
  | |- ends (Ret _) => apply ends_ret
  | |- ends (Throw _) => apply ends_throw; discriminate
  | |- ends (Rd _ _) => apply ends_Rd; intros ?
  | |- ends (Wr _ _ _) => apply ends_Wr
  | |- ends (Get _) => apply ends_Get; intros ?
  | |- ends (Put _ _) => apply ends_Put
  | |- ends (Predictor _) => apply ends_Predictor; intros ?
  | |- ends (Now _) => apply ends_Now; intros ?
  | |- ends (Sleep _ _) => apply ends_Sleep
  | |- ends (_poll_until _ _ _ _) => apply ends_poll_until; [intros ?|done]
  | |- ends (match ?x with _ => _ end) => destruct x
  | |- act_ends (act_bind _ _) => apply act_ends_bind; [|intros ?]
  | |- act_ends (act_ret _) => apply act_ends_ret
  | |- act_ends (cmd _) => apply act_ends_cmd
  | |- act_ends (quiet _ _) => apply act_ends_quiet
  | |- act_ends (catch _ (on_Exception _)) => apply act_ends_on_Exception; [|intros ?]
  | |- act_ends (act_loop _ _ _) => apply act_ends_loop; intros ? ? _
  | |- act_ends (fun w => (w, Raise _)) => apply act_ends_raise; discriminate
  | |- act_ends (match ?x with _ => _ end) => destruct x
  | |- ends ?c => let h := head_of c in unfold h; cbv beta
  | |- act_ends ?c => let h := head_of c in unfold h; cbv beta
  end.
Ltac ends := repeat first [solve [auto with ends] | ends_step].

(** ** The command library *)

Section library.
Context {T : Type} `{Total T} `{Clock}.

Lemma ends_wait_abstractcs timeout : 0 <= timeout -> ends (T := T) (_wait_abstractcs timeout).
Proof.
  intros Ht. apply ends_poll_until; [|done]. intros v. unfold check_abstractcs. by case_match.
Qed.

Lemma ends_wait_sbus timeout : 0 <= timeout -> ends (T := T) (_wait_sbus timeout).
Proof. intros Ht. apply ends_poll_until; [|done]. intros v. unfold check_sbcs. by case_match. Qed.

Lemma ends_wr_dmcontrol f : ends (T := T) (wr_dmcontrol f).
Proof. ends. Qed.

Lemma ends_activate : ends (T := T) activate.
Proof. ends. Qed.

Lemma ends_deactivate : ends (T := T) deactivate.
Proof. ends. Qed.

Lemma ends_select_hart h : ends (T := T) (select_hart h).
Proof. ends. Qed.

Lemma ends_halt timeout : 0 <= timeout -> ends (T := T) (halt timeout).
Proof.
  intros Ht. unfold halt. apply ends_bind; [ends|]. intros _.
  apply ends_bind; [by apply ends_poll_until|]. intros _. ends.
Qed.

Lemma ends_resume timeout : 0 <= timeout -> ends (T := T) (resume timeout).
Proof.
  intros Ht. unfold resume. apply ends_bind; [ends|]. intros _.
  apply ends_bind; [by apply ends_poll_until|]. intros _. ends.
Qed.

Lemma ends_write_dmcontrol a h f : ends (T := T) (write_dmcontrol a h f).
Proof. ends. Qed.

End library.

(** A timeout of the source is a positive constant. *)
#[export] Hint Extern 1 (0 <= _) => (vm_compute; discriminate) : ends.
#[export] Hint Resolve ends_wait_abstractcs ends_wait_sbus ends_wr_dmcontrol ends_activate
  ends_deactivate ends_select_hart ends_halt ends_resume ends_write_dmcontrol : ends.
