(* ===== verification/UvmSound.v ===== *)
(** What the simulator transport promises its clients, over any bridge and over a
    faithful one ([UvmTransport]). *)

From S2P Require Import Prelude Registers Predictor Transport RiscvDm Session Sequences Closures.
From S2P Require Import DutConfig Text UvmTransport Programs RiscvDmSound.

Local Open Scope string_scope.
Local Open Scope list_scope.
Local Open Scope Z_scope.

(** ** Over any bridge *)

Section uvm.
Context {P : Type} `{Bridge P}.

Definition read_payload (addr : Z) : list (string * json) := [("op", JStr "read"); ("addr", JNum addr)].

(** No transaction runs out of fuel. *)
Lemma transact_computed payload (t : UVMTransport P) : computed (snd (_transact payload t)).
Proof.
  unfold _transact. destruct (uvm_connected t); cbn; [|discriminate].
  destruct (b_exchange _ _) as [p [|e|r]]; cbn; [discriminate..|].
  repeat case_match; discriminate.
Qed.

Lemma just_computed payload (t : UVMTransport P) : computed (snd (just payload t)).
Proof.
  unfold just. pose proof (transact_computed payload t) as Ht.
  destruct (_transact payload t) as [t' [r|e]]; cbn; [discriminate|]. unfold computed in *. cbn in Ht.
  congruence.
Qed.

Lemma asking_computed payload f (t : UVMTransport P) : computed (snd (asking payload f t)).
Proof.
  unfold asking. pose proof (transact_computed payload t) as Ht.
  destruct (_transact payload t) as [t' r]. cbn in Ht |- *.
  apply computed_rbind; [done|]. intros resp. apply computed_rbind; [|discriminate].
  unfold data_of, not_a_number. repeat case_match; discriminate.
Qed.

Lemma read_computed addr (t : UVMTransport P) : computed (snd (uvm_read addr t)).
Proof.
  unfold uvm_read. pose proof (transact_computed (read_payload addr) t) as Ht.
  fold (read_payload addr). destruct (_transact (read_payload addr) t) as [t' [r|e]]; cbn in Ht |- *;
    [|congruence].
  unfold not_a_number. repeat case_match; discriminate.
Qed.

#[export] Instance uvm_total (pr : UVMTransport P -> option DMPredictor.t) :
  @Total (UVMTransport P) (uvm_transport pr).
Proof.
  split; cbn [t_read t_write t_reset uvm_transport]; intros.
  - apply read_computed.
  - apply just_computed.
  - apply just_computed.
Qed.

#[export] Instance uvm_total_jtag : TotalJtag (UVMTransport P).
Proof.
  split; cbn; intros f.
  - intros wdata t [= <-]. apply asking_computed.
  - intros op addr data t [= <-]. apply asking_computed.
  - intros ir len data pause t [= <-]. unfold uvm_jtag_scan. case_match; [discriminate|].
    apply asking_computed.
  - intros tms t [= <-]. unfold uvm_tms_walk. case_match; [discriminate|]. apply just_computed.
  - intros t [= <-]. apply asking_computed.
Qed.

(** A read believes one reply: the one that answers the message it just sent, says
    it succeeded, holds a number and no unknown bits. *)
Definition believed (id v : Z) (reply : Reply) : Prop :=
  exists resp, reply = Answer resp /\
    (exists i, resp !! "id" = Some i /\ number i = Some id) /\
    resp !! "status" = Some (JStr "ok") /\
    (exists d, resp !! "data" = Some d /\ number d = Some v) /\
    py_bool_of (default (JNum 0) (resp !! "xmask")) = false.

Lemma read_sends addr (t : UVMTransport P) :
  uvm_connected t = true ->
  fst (uvm_read addr t) =
  t <| _id_counter := _id_counter t + 1 |>
    <| peer := fst (b_exchange (read_message (_id_counter t + 1) addr) (peer t)) |>.
Proof.
  intros Hc. pose proof (transact_sends (read_payload addr) t Hc) as Hs.
  unfold uvm_read. fold (read_payload addr).
  by destruct (_transact (read_payload addr) t) as [t' [r|e]].
Qed.


(** ** The lines of a log *)

(** A log never raises, and a connected one only sends log messages. *)
Lemma emit_log_disconnected text verbosity (t : UVMTransport P) :
  uvm_connected t = false -> emit_log text verbosity t = t.
Proof. intros Hc. unfold emit_log. by rewrite Hc. Qed.

Lemma emit_chunks_connected verbosity chunks (t : UVMTransport P) :
  uvm_connected (emit_chunks verbosity chunks t) = uvm_connected t.
Proof.
  revert t. induction chunks as [|c l IH]; intros t; cbn [emit_chunks]; [done|].
  destruct (uvm_connected t) eqn:Hc.
  - pose proof (transact_sends [("op", JStr "log"); ("text", JStr c); ("data", JNum verbosity)] t Hc)
      as Hs. destruct (_transact _ t) as [t' [r|e]]; cbn in Hs; subst t'; [|done]. rewrite IH. done.
  - unfold _transact. by rewrite Hc.
Qed.

(** ** The session's result *)

(** Disconnecting tells the simulator how many steps failed, closes the socket and
    leaves the transport disconnected; a second time it does nothing. *)
Lemma disconnect_reports n (t : UVMTransport P) :
  uvm_connected t = true ->
  let t' := fst (uvm_disconnect (set_session_result n t)) in
  uvm_connected t' = false /\
  peer t' = b_close (fst (b_exchange [("id", JNum (_id_counter t + 1)); ("op", JStr "shutdown");
                                      ("data", JNum n)] (peer t))) /\
  uvm_disconnect t' = (t', Ok tt).
Proof.
  intros Hc. unfold uvm_disconnect, set_session_result, _send_shutdown, _next_id.
  cbn. rewrite Hc. cbn. by destruct (b_exchange _ _).
Qed.

End uvm.

(** ** Over a faithful bridge *)

(** Over a bridge whose simulator behaves as the golden model, the connected
    transport refines the model: a program that does not look at the transport's
    [predictor] and whose reads the model predicts does over the socket what the
    prediction on the model alone says — same result, same final state of the client,
    and the simulator ends where the model does, still connected and answering. *)
Lemma uvm_refines_model {P} `{FaithfulBridge P} `{Clock} {S A}
    (pr : UVMTransport P -> option DMPredictor.t) (c : prog S A)
    (w : world (UVMTransport P) S) (m : DMPredictor.t) s now r :
  predictor_free c -> uvm_connected (dev w) = true -> up (peer (dev w)) ->
  predicted c (sim (peer (dev w))) (self w) (clock w) = Some (m, s, now, r) ->
  let (w', r') := run (H := uvm_transport pr) c w in
  uvm_connected (dev w') = true /\ up (peer (dev w')) /\ sim (peer (dev w')) = m /\
  self w' = s /\ clock w' = now /\ r' = r.
Proof.
  intros Hc Hcon Hup Hp.
  pose proof (run_answered (H0 := uvm_model_answered pr) c w m s now r (or_introl Hc)
                (conj Hcon Hup) Hp) as Hr.
  destruct (run (H := uvm_transport pr) c w) as [w' r'].
  by destruct Hr as ([Hc' Hu] & ? & ? & ? & ?).
Qed.

(** A simulator that is the model itself, with a clock: it shows that a faithful
    bridge can be. *)
Module ModelBridge.

Record t := mk { dm : DMPredictor.t; ns : Z }.

(** A member of a message. *)
Definition member (key : string) (msg : list (string * json)) : option json :=
  option_map snd (List.find (fun '(k, _) => String.eqb k key) msg).
Definition num (key : string) (msg : list (string * json)) : Z :=
  match member key msg with Some (JNum n) => n | _ => 0 end.

Definition ok (id : Z) (data : list (string * json)) : Reply :=
  Answer (list_to_map ([("id", JNum id); ("status", JStr "ok")] ++ data)).

Definition exchange (msg : list (string * json)) (p : t) : t * Reply :=
  let id := num "id" msg in
  match member "op" msg with
  | Some (JStr op) =>
      if String.eqb op "read" then
        (mk (dm p) (ns p + 1),
         ok id [("data", JNum (match DMPredictor.expect (dm p) (num "addr" msg) with
                               | Ok v => v | Raise _ => 0 end))])
      else if String.eqb op "write" then
        (mk (DMPredictor.on_write (num "addr" msg) (num "data" msg) (dm p)) (ns p + 1), ok id [])
      else if String.eqb op "sim_time" then (p, ok id [("data", JNum (ns p))])
      else (p, ok id [("data", JNum 0)])
  | _ => (p, Broken "no op")
  end.

#[global] Instance bridge : Bridge t := {|
  b_open := fun p => (p, None);
  b_exchange := exchange;
  b_close := fun p => p
|}.

#[global] Instance faithful : FaithfulBridge t.
Proof.
  refine {| sim := dm; up := fun _ => True |}; try done.
  - intros id addr v p _ He. exists (list_to_map ([("id", JNum id); ("status", JStr "ok")] ++
      [("data", JNum v)])). cbn. unfold exchange. cbn. rewrite He. by split_and!.
  - intros id addr v p _. eexists. split; [done|]. by split.
Defined.

End ModelBridge.

(** The halt of the library over the socket. *)
Section witness.

#[local] Existing Instance exact_clock.

Definition socket_world (p : DMPredictor.t) : world (UVMTransport ModelBridge.t) Z :=
  mk_world (mk_uvm (ModelBridge.mk p 0) true 0 None) 0 0 [].

Lemma uvm_refines_model_witness :
  match predicted (RISCVDebug.halt RISCVDebug.DEFAULT_TIMEOUT) (DMPredictor.init Kwargs.default) 0 0 with
  | Some (m, s, now, r) =>
      r = Ok tt /\
      let (w', r') := run (H := uvm_transport (fun _ => None))
                        (RISCVDebug.halt RISCVDebug.DEFAULT_TIMEOUT)
                        (socket_world (DMPredictor.init Kwargs.default)) in
      uvm_connected (dev w') = true /\ up (peer (dev w')) /\ sim (peer (dev w')) = m /\
      self w' = s /\ clock w' = now /\ r' = r
  | None => False
  end.
Proof.
  destruct (predicted _ _ _ _) as [[[[m s] now] r]|] eqn:E; [|vm_compute in E; discriminate].
  split; [vm_compute in E; congruence|].
  apply (uvm_refines_model (fun _ => None)
           _ (socket_world (DMPredictor.init Kwargs.default)) m s now r);
    [unfold predictor_free; uses; exact I|reflexivity|exact I|exact E].
Defined.

End witness.
