(* ===== verification/StepSound.v ===== *)
(** What the single-step sequences never do ([StepSequences]). *)

From S2P Require Import Prelude Registers Predictor Transport RiscvDm Session Sequences Closures.
From S2P Require Import AccessSequences DutConfig Text UvmTransport StepSequences Programs RiscvDmSound.
Import RISCVDebug.

Local Open Scope string_scope.
Local Open Scope list_scope.
Local Open Scope Z_scope.

(** A write that asks no hart to halt. *)
Definition no_haltreq (addr v : Z) : Prop := addr = DMI.DMCONTROL -> Z.testbit v 31 = false.

(** Every step but the one that halts the hart, on every world, only makes such
    writes. *)
Definition halts_once {T S} (session : DebugSession.t (world T S)) : Prop :=
  Forall (fun '(name, fn) => name <> "Halt hart" -> emits no_haltreq fn) (DebugSession._steps session).

Lemma halts_once_add {T S} name (fn : DebugSession.step (world T S)) session :
  (name <> "Halt hart" -> emits no_haltreq fn) -> halts_once session ->
  halts_once (DebugSession.add_step name fn session).
Proof. intros Hf Hs. apply Forall_app. by split; [|constructor]. Qed.

Section library.

Lemma no_haltreq_dmcontrol a : DmcontrolArgs.haltreq a = false -> no_haltreq DMI.DMCONTROL (dmcontrol a).
Proof. intros Ha _. by rewrite dmcontrol_haltreq_bit. Qed.

Lemma no_haltreq_elsewhere addr v : addr <> DMI.DMCONTROL -> no_haltreq addr v.
Proof. intros Hne Ha. done. Qed.

Lemma uses_register Pr r : uses no_haltreq Pr (read_gpr r).
Proof. uses; by apply no_haltreq_elsewhere. Qed.

Lemma uses_write_register Pr r v : uses no_haltreq Pr (write_gpr r v).
Proof. uses; by apply no_haltreq_elsewhere. Qed.

Lemma uses_register64 Pr r : uses no_haltreq Pr (read_reg64 r).
Proof. uses; by apply no_haltreq_elsewhere. Qed.

Lemma uses_write_register64 Pr r v : uses no_haltreq Pr (write_reg64 r v).
Proof. uses; by apply no_haltreq_elsewhere. Qed.

Lemma uses_resume_no_wait Pr : uses no_haltreq Pr resume_no_wait.
Proof. uses; by apply no_haltreq_dmcontrol. Qed.

Lemma uses_activate Pr : uses no_haltreq Pr activate.
Proof. uses; by apply no_haltreq_dmcontrol. Qed.

Lemma uses_advance Pr target l : uses no_haltreq Pr (StepStall.advance target l).
Proof.
  induction l as [|i l IH]; cbn [StepStall.advance]; [done|]. uses; first [done | by apply no_haltreq_elsewhere | by apply no_haltreq_dmcontrol].
Qed.

Lemma uses_sample Pr n l : uses no_haltreq Pr (StepStall.sample n l).
Proof. revert l. induction n as [|n IH]; intros l; cbn [StepStall.sample]; uses. Qed.

End library.

#[local] Hint Resolve uses_register uses_write_register uses_register64 uses_write_register64
  uses_resume_no_wait uses_activate uses_advance uses_sample : uses.

(** The writes left are to other registers. *)
Ltac quiet_uses :=
  uses; first [by apply no_haltreq_elsewhere | by apply no_haltreq_dmcontrol | exact I].
Ltac emits_step :=
  lazymatch goal with
  | |- emits _ (none_step _) => apply (emits_none_step _ True); quiet_uses
  | |- emits _ (result_step _) => apply (emits_result_step _ True); quiet_uses
  | |- emits _ (act_step _) => apply emits_act_step
  | |- emits _ (cmd _) => apply (run_emits _ True); quiet_uses
  | |- emits _ (act_bind _ _) => apply emits_bind; [|intros ?]
  | |- emits _ (act_ret _) => apply emits_ret
  | |- emits _ (quiet _ _) => apply emits_quiet
  | |- emits _ (catch _ (on_Exception _)) => apply emits_on_Exception; [|intros ?]
  | |- emits _ (act_loop _ _ _) => apply emits_loop; intros ? ?
  | |- emits _ (fun w => (w, Raise _)) => apply emits_raise
  | |- emits _ (match ?x with _ => _ end) => destruct x
  | |- emits _ ?c => let h := head_of c in unfold h; cbv beta
  end.
Ltac halts_once_step :=
  lazymatch goal with
  | |- halts_once (DebugSession.add_step _ _ _) => apply halts_once_add; [intros ?|]
  | |- halts_once _ => assumption
  end.

Section sequences.
Context {T : Type} `{DebugTransport T} `{Clock}.

(** The same of a session that is built, which it is in the modes there are. *)
Definition built_halts_once {S} (session : result (DebugSession.t (world T S))) : Prop :=
  match session with Ok session => halts_once session | Raise _ => True end.

Lemma built_halts_once_init {S} mode stop
    (k : DebugSession.t (world T S) -> result (DebugSession.t (world T S))) :
  (forall session, halts_once session -> built_halts_once (k session)) ->
  built_halts_once (rbind (DebugSession.init mode stop) k).
Proof.
  intros Hk. unfold DebugSession.init. case_bool_decide; [|exact I]. apply Hk. by constructor.
Qed.

Ltac builds :=
  lazymatch goal with |- built_halts_once ?b => let h := head_of b in unfold h end;
  apply built_halts_once_init; intros session Hs; cbv zeta beta;
  lazymatch goal with |- built_halts_once (Ok ?s) => change (halts_once s) end;
  repeat halts_once_step;
  try match goal with H : ?n <> ?n |- _ => by destruct H end; repeat emits_step.

(** C7: The single-step sequences re-enter Debug Mode by the step alone: apart from
    the one step that halts the hart, no step of the single-step, step-classes or
    step-stall sequence ever writes dmcontrol with haltreq set, whatever the device
    answers and whatever state the step finds. *)
Theorem stepping_never_halts mode elf symbol steps (nm : string -> result string) :
  built_halts_once (SingleStep.build (T := T) mode) /\
  built_halts_once (StepClasses.build (T := T) mode elf steps) /\
  built_halts_once (StepStall.build (T := T) nm mode elf symbol).
Proof. split_and!; builds. Qed.

End sequences.
