(* ===== verification/Tap.v ===== *)
(** The JTAG side of the simulator: the TAP controller and the clocks the driver
    makes of a transaction ([sv/model/types.sv], [sv/agents/jtag/jtag_txn.sv] and
    [jtag_driver.sv]), against what the Python side asks for. *)

From stdpp Require Import finite.
From S2P Require Import Prelude UvmTransport DtmSequences.

Local Open Scope list_scope.
Local Open Scope Z_scope.

(** ** The TAP controller *)

(** types.sv:9-26 (tap_state_e) *)
Inductive tap_state :=
  | TAP_TEST_LOGIC_RESET | TAP_RUN_TEST_IDLE
  | TAP_SELECT_DR_SCAN | TAP_CAPTURE_DR | TAP_SHIFT_DR | TAP_EXIT1_DR | TAP_PAUSE_DR | TAP_EXIT2_DR
  | TAP_UPDATE_DR
  | TAP_SELECT_IR_SCAN | TAP_CAPTURE_IR | TAP_SHIFT_IR | TAP_EXIT1_IR | TAP_PAUSE_IR | TAP_EXIT2_IR
  | TAP_UPDATE_IR.

#[export] Instance tap_state_eq_dec : EqDecision tap_state.
Proof. solve_decision. Defined.

(** types.sv:31-51 (tap_next_state) *)
Definition tap_next_state (curr : tap_state) (tms : bool) : tap_state :=
  match curr with
  | TAP_TEST_LOGIC_RESET => if tms then TAP_TEST_LOGIC_RESET else TAP_RUN_TEST_IDLE
  | TAP_RUN_TEST_IDLE => if tms then TAP_SELECT_DR_SCAN else TAP_RUN_TEST_IDLE
  | TAP_SELECT_DR_SCAN => if tms then TAP_SELECT_IR_SCAN else TAP_CAPTURE_DR
  | TAP_CAPTURE_DR => if tms then TAP_EXIT1_DR else TAP_SHIFT_DR
  | TAP_SHIFT_DR => if tms then TAP_EXIT1_DR else TAP_SHIFT_DR
  | TAP_EXIT1_DR => if tms then TAP_UPDATE_DR else TAP_PAUSE_DR
  | TAP_PAUSE_DR => if tms then TAP_EXIT2_DR else TAP_PAUSE_DR
  | TAP_EXIT2_DR => if tms then TAP_UPDATE_DR else TAP_SHIFT_DR
  | TAP_UPDATE_DR => if tms then TAP_SELECT_DR_SCAN else TAP_RUN_TEST_IDLE
  | TAP_SELECT_IR_SCAN => if tms then TAP_TEST_LOGIC_RESET else TAP_CAPTURE_IR
  | TAP_CAPTURE_IR => if tms then TAP_EXIT1_IR else TAP_SHIFT_IR
  | TAP_SHIFT_IR => if tms then TAP_EXIT1_IR else TAP_SHIFT_IR
  | TAP_EXIT1_IR => if tms then TAP_UPDATE_IR else TAP_PAUSE_IR
  | TAP_PAUSE_IR => if tms then TAP_EXIT2_IR else TAP_PAUSE_IR
  | TAP_EXIT2_IR => if tms then TAP_UPDATE_IR else TAP_SHIFT_IR
  | TAP_UPDATE_IR => if tms then TAP_SELECT_DR_SCAN else TAP_RUN_TEST_IDLE
  end.

(** ** The driver *)

(** A clock: the TMS and TDI it is given. *)
Definition clock_t : Type := bool * bool.

(** The state after some clocks, and the arcs taken on the way. *)
Definition tap_run (s : tap_state) (l : list clock_t) : tap_state :=
  fold_left (fun s c => tap_next_state s (fst c)) l s.
Fixpoint arcs (s : tap_state) (l : list clock_t) : list (tap_state * bool) :=
  match l with [] => [] | c :: l => (s, fst c) :: arcs (tap_next_state s (fst c)) l end.

(** The bits given on TDI while the TAP is in a state. *)
Fixpoint shifted (at_ : tap_state) (s : tap_state) (l : list clock_t) : list bool :=
  match l with
  | [] => []
  | c :: l => (if decide (s = at_) then [snd c] else []) ++ shifted at_ (tap_next_state s (fst c)) l
  end.

(** [v[i]] for [i] from [i] on. *)
Fixpoint bits_from (v i : Z) (n : nat) : list bool :=
  match n with O => [] | S n => Z.testbit v i :: bits_from v (i + 1) n end.

(** The shift of a value: TMS rises with the last bit.
    jtag_driver.sv:144-147 (drive_ir, the loop) *)
Fixpoint shift_clocks (bits : list bool) : list clock_t :=
  match bits with
  | [] => []
  | [b] => [(true, b)]
  | b :: bits => (false, b) :: shift_clocks bits
  end.

(** jtag_driver.sv:126-130 (drive_pause) *)
Definition drive_pause : list clock_t := [(false, false); (false, false); (true, false)].

(** jtag_driver.sv:136-151 (drive_ir) *)
Definition drive_ir (ir_val : Z) (ir_len : nat) (pause : bool) : list clock_t :=
  [(true, false); (true, false); (false, false); (false, false)] ++
  shift_clocks (bits_from ir_val 0 ir_len) ++
  (if pause then drive_pause else []) ++
  [(true, false); (false, false)].

(** What comes out on TDO is the device's.
    jtag_driver.sv:158-182 (drive_dr) *)
Definition drive_dr (dr_data_in : Z) (dr_len : nat) (pause : bool) : list clock_t :=
  [(true, false); (false, false); (false, false)] ++
  shift_clocks (bits_from dr_data_in 0 dr_len) ++
  (if pause then drive_pause else []) ++
  [(true, false); (false, false)].

(** jtag_driver.sv:104-107 (drive_tap_reset) *)
Definition drive_tap_reset : list clock_t := repeat (true, false) 5 ++ [(false, false)].

(** The clocks, and whether the driver flags where they ended.
    jtag_driver.sv:114-120 (drive_tms_walk) *)
Definition drive_tms_walk (dr_len : nat) (dr_data_in : Z) : list clock_t :=
  map (fun b => (b, true)) (bits_from dr_data_in 0 dr_len).
Definition walk_flagged (s : tap_state) (dr_len : nat) (dr_data_in : Z) : bool :=
  bool_decide (tap_run s (drive_tms_walk dr_len dr_data_in) <> TAP_RUN_TEST_IDLE).

(** ** The DMI register *)

(** jtag_txn.sv:60-64 (pack_dmi, dr_data_in) *)
Definition pack_dmi (addr wdata op : Z) : Z :=
  Z.lor (Z.lor (Z.shiftl (Z.land addr 0x7F) 34) (Z.shiftl (Z.land wdata 0xFFFFFFFF) 2))
        (Z.land op 0x3).
Definition DMI_LEN : nat := 41.

(** The status and the data.
    jtag_txn.sv:67-70 (unpack_dmi) *)
Definition unpack_dmi (dr_data_out : Z) : Z * Z :=
  (Z.land dr_data_out 0x3, Z.land (Z.shiftr dr_data_out 2) 0xFFFFFFFF).

(** ** The driver leaves the TAP where it found it *)

Lemma tap_run_app s l1 l2 : tap_run s (l1 ++ l2) = tap_run (tap_run s l1) l2.
Proof. apply fold_left_app. Qed.

Lemma shifted_app at_ s l1 l2 :
  shifted at_ s (l1 ++ l2) = shifted at_ s l1 ++ shifted at_ (tap_run s l1) l2.
Proof.
  revert s. induction l1 as [|c l1 IH]; intros s; [done|]. cbn. by rewrite IH, app_assoc.
Qed.

(** A shift state keeps the TAP until TMS rises, with the last bit. *)
Lemma shift_clocks_run sh ex bits :
  tap_next_state sh false = sh -> tap_next_state sh true = ex -> sh <> ex -> bits <> [] ->
  tap_run sh (shift_clocks bits) = ex /\ shifted sh sh (shift_clocks bits) = bits.
Proof.
  intros Hs He Hne. induction bits as [|b [|b' bits] IH]; intros Hb; [done|..].
  - cbn. rewrite He, decide_True by done. done.
  - destruct IH as [IHr IHs]; [done|].
    change (shift_clocks (b :: b' :: bits)) with ((false, b) :: shift_clocks (b' :: bits)).
    cbn [tap_run fold_left shifted fst snd]. rewrite Hs, decide_True by done.
    split; [exact IHr|]. cbn [app]. by rewrite IHs.
Qed.

(** It is in no other state meanwhile. *)
Lemma stays_in_shift sh ex other bits :
  tap_next_state sh false = sh -> tap_next_state sh true = ex -> sh <> other -> ex <> other ->
  shifted other sh (shift_clocks bits) = [].
Proof.
  intros Hs He Hne Hx. induction bits as [|b [|b' bits] IH]; [done|..].
  - cbn. by rewrite decide_False.
  - change (shift_clocks (b :: b' :: bits)) with ((false, b) :: shift_clocks (b' :: bits)).
    cbn [shifted fst snd]. by rewrite Hs, decide_False.
Qed.

Lemma bits_from_length v i n : length (bits_from v i n) = n.
Proof. revert i. induction n; cbn; auto. Qed.

Lemma bits_from_nil v i n : (1 <= n)%nat -> bits_from v i n <> [].
Proof. destruct n; cbn; [lia|done]. Qed.

(** C39: The driver's scans leave the TAP in Run-Test/Idle, where they expect to find
    it, and shift exactly what they are given: an instruction scan puts the bits of its
    value, least significant first and nothing else, through Shift-IR and nothing
    through Shift-DR, a data scan the same through Shift-DR, by way of Pause or not;
    and five clocks with TMS up reach Test-Logic-Reset from every state. *)
Theorem scans_shift_their_value v (n : nat) pause :
  (1 <= n)%nat ->
  (tap_run TAP_RUN_TEST_IDLE (drive_ir v n pause) = TAP_RUN_TEST_IDLE /\
   shifted TAP_SHIFT_IR TAP_RUN_TEST_IDLE (drive_ir v n pause) = bits_from v 0 n /\
   shifted TAP_SHIFT_DR TAP_RUN_TEST_IDLE (drive_ir v n pause) = []) /\
  (tap_run TAP_RUN_TEST_IDLE (drive_dr v n pause) = TAP_RUN_TEST_IDLE /\
   shifted TAP_SHIFT_DR TAP_RUN_TEST_IDLE (drive_dr v n pause) = bits_from v 0 n /\
   shifted TAP_SHIFT_IR TAP_RUN_TEST_IDLE (drive_dr v n pause) = []) /\
  (forall s, tap_run s (repeat (true, false) 5) = TAP_TEST_LOGIC_RESET /\
             tap_run s drive_tap_reset = TAP_RUN_TEST_IDLE).
Proof.
  intros Hn. pose proof (bits_from_nil v 0 n Hn) as Hb.
  destruct (shift_clocks_run TAP_SHIFT_IR TAP_EXIT1_IR (bits_from v 0 n)) as [Hir Hsir]; try done.
  destruct (shift_clocks_run TAP_SHIFT_DR TAP_EXIT1_DR (bits_from v 0 n)) as [Hdr Hsdr]; try done.
  pose proof (stays_in_shift TAP_SHIFT_IR TAP_EXIT1_IR TAP_SHIFT_DR (bits_from v 0 n)) as Hnir.
  pose proof (stays_in_shift TAP_SHIFT_DR TAP_EXIT1_DR TAP_SHIFT_IR (bits_from v 0 n)) as Hndr.
  unfold drive_ir, drive_dr. rewrite !tap_run_app, !shifted_app.
  change (tap_run TAP_RUN_TEST_IDLE [(true, false); (true, false); (false, false); (false, false)])
    with TAP_SHIFT_IR.
  change (tap_run TAP_RUN_TEST_IDLE [(true, false); (false, false); (false, false)]) with TAP_SHIFT_DR.
  rewrite Hir, Hdr, Hsir, Hsdr, Hnir, Hndr by done.
  split_and!; try (by destruct pause); try (by destruct pause; cbn; rewrite ?app_nil_r).
  by intros [].
Qed.

Lemma scans_shift_their_value_witness :
  (1 <= 5)%nat /\
  shifted TAP_SHIFT_IR TAP_RUN_TEST_IDLE (drive_ir 0x11 5 true) = [true; false; false; false; true].
Proof.
  assert (1 <= 5)%nat as Hn by lia. split; [exact Hn|].
  exact (proj1 (proj2 (proj1 (scans_shift_their_value 0x11 5 true Hn)))).
Defined.

(** ** The walk *)

Lemma tms_bits_shift i l : 0 <= i -> tms_bits i l = 2 ^ i * tms_bits 0 l.
Proof.
  revert i. induction l as [|b l IH]; intros i Hi; cbn [tms_bits]; [lia|].
  rewrite (IH (i + 1)), (IH (0 + 1)), !Z.shiftl_mul_pow2, !Z.pow_add_r by lia. lia.
Qed.

Lemma bits_from_double b x i n :
  0 <= b <= 1 -> 0 <= i -> bits_from (b + 2 * x) (i + 1) n = bits_from x i n.
Proof.
  intros Hb. revert i. induction n as [|n IH]; intros i Hi; cbn [bits_from]; [done|].
  assert ((b + 2 * x) / 2 = x) as Hx by (symmetry; apply Z.div_unique with b; lia).
  rewrite (IH (i + 1)) by lia. f_equal. by rewrite Z.add_1_r, <-Z.div2_bits, Hx by lia.
Qed.

(** What [tms_walk] packs, the driver takes apart again. *)
Lemma tms_bits_bits l :
  Forall (fun b => 0 <= b <= 1) l -> bits_from (tms_bits 0 l) 0 (length l) = map (Z.eqb 1) l.
Proof.
  induction 1 as [|b l Hb Hl IH]; [done|]. cbn [length bits_from map tms_bits].
  rewrite (tms_bits_shift (0 + 1)), Z.shiftl_0_r by lia. change (2 ^ (0 + 1)) with 2.
  rewrite bits_from_double by lia. rewrite IH. f_equal.
  rewrite Z.bit0_odd, Z.odd_add_mul_2. assert (b = 0 \/ b = 1) as [-> | ->] by lia; done.
Qed.

(** C9: The walk of TC-DTM-019 is one message the transport accepts: its bits reach
    the TAP as written, start and end in Run-Test/Idle so that the driver does not
    flag it, and leave five ones in the instruction register, which is BYPASS.  It
    takes every arc that scans and resets do not: together they take every arc of the
    controller but the one that waits in Run-Test/Idle. *)
Theorem tap_walk_takes_the_rest :
  let n := length DmiError.TAP_WALK in
  let bits := tms_bits 0 DmiError.TAP_WALK in
  let walk := drive_tms_walk n bits in
  (1 <= n <= 32)%nat /\
  map fst walk = map (Z.eqb 1) DmiError.TAP_WALK /\
  walk_flagged TAP_RUN_TEST_IDLE n bits = false /\
  shifted TAP_SHIFT_IR TAP_RUN_TEST_IDLE walk = bits_from IR_BYPASS1 0 5 /\
  forall s tms, (s, tms) <> (TAP_RUN_TEST_IDLE, false) <->
    (s, tms) ∈ arcs TAP_RUN_TEST_IDLE walk ++
      arcs TAP_RUN_TEST_IDLE (drive_ir IR_BYPASS1 5 false) ++
      arcs TAP_RUN_TEST_IDLE (drive_ir IR_BYPASS1 5 true) ++
      arcs TAP_RUN_TEST_IDLE (drive_dr 0 8 true) ++ arcs TAP_RUN_TEST_IDLE drive_tap_reset.
Proof.
  cbv zeta. split; [cbn; lia|]. split_and!; [reflexivity..|].
  intros s tms. destruct s, tms; refine (bool_decide_unpack _ _); vm_compute; exact I.
Qed.

(** ** The DMI scan *)

Lemma testbit_masked v n i : 0 <= n -> Z.testbit (Z.land v (Z.ones n)) i = Z.testbit v i && (i <? n).
Proof.
  intros Hn. rewrite Z.land_spec. destruct (Z.ltb_spec i 0) as [Hi|Hi].
  - by rewrite !Z.testbit_neg_r by lia.
  - by rewrite testbit_ones by lia.
Qed.

Lemma testbit_pack_dmi addr wdata op i :
  0 <= i ->
  Z.testbit (pack_dmi addr wdata op) i =
  (Z.testbit addr (i - 34) && (i <? 41)) || (Z.testbit wdata (i - 2) && (i <? 34)) ||
  (Z.testbit op i && (i <? 2)).
Proof.
  intros Hi. unfold pack_dmi.
  change 0x7F with (Z.ones 7). change 0xFFFFFFFF with (Z.ones 32). change 0x3 with (Z.ones 2).
  rewrite !Z.lor_spec, !Z.shiftl_spec, !testbit_masked by lia.
  replace (i - 34 <? 7) with (i <? 41) by (apply eq_true_iff_eq; rewrite !Z.ltb_lt; lia).
  by replace (i - 2 <? 32) with (i <? 34) by (apply eq_true_iff_eq; rewrite !Z.ltb_lt; lia).
Qed.

(** The 41 bits of a DMI scan hold their three fields at the widths of the
    protocol, whatever the client asked for: reading the shift register back gives the
    operation and the data, the address sits above them, nothing spills out, and the
    driver shifts just these bits. *)
Theorem dmi_scan_roundtrip addr wdata op :
  unpack_dmi (pack_dmi addr wdata op) = (op mod 4, wdata mod 2 ^ 32) /\
  Z.shiftr (pack_dmi addr wdata op) 34 = addr mod 128 /\
  0 <= pack_dmi addr wdata op < 2 ^ Z.of_nat DMI_LEN /\
  shifted TAP_SHIFT_DR TAP_RUN_TEST_IDLE (drive_dr (pack_dmi addr wdata op) DMI_LEN false) =
    bits_from (pack_dmi addr wdata op) 0 DMI_LEN.
Proof.
  split; [unfold unpack_dmi; f_equal|split; [|split]].
  - change 0x3 with (Z.ones 2). change 4 with (2 ^ 2). rewrite <-Z.land_ones by lia.
    apply Z.bits_inj'. intros i Hi. rewrite !testbit_masked, testbit_pack_dmi by lia.
    destruct (Z.ltb_spec i 2); [|by rewrite !andb_false_r].
    by rewrite !(Z.testbit_neg_r _ (i - _)), !andb_true_r by lia.
  - change 0xFFFFFFFF with (Z.ones 32). rewrite <-Z.land_ones by lia.
    apply Z.bits_inj'. intros i Hi.
    rewrite !testbit_masked, Z.shiftr_spec, testbit_pack_dmi by lia.
    destruct (Z.ltb_spec i 32); [|by rewrite !andb_false_r].
    rewrite (Z.testbit_neg_r _ (i + 2 - 34)) by lia.
    replace (i + 2 <? 34) with true by (symmetry; apply Z.ltb_lt; lia).
    replace (i + 2 <? 2) with false by (symmetry; apply Z.ltb_ge; lia).
    rewrite !andb_true_r, andb_false_r, orb_false_r. cbn. f_equal. lia.
  - change 128 with (2 ^ 7). rewrite <-Z.land_ones by lia.
    apply Z.bits_inj'. intros i Hi.
    rewrite !testbit_masked, Z.shiftr_spec, testbit_pack_dmi by lia.
    replace (i + 34 <? 34) with false by (symmetry; apply Z.ltb_ge; lia).
    replace (i + 34 <? 2) with false by (symmetry; apply Z.ltb_ge; lia).
    rewrite !andb_false_r, !orb_false_r. f_equal; [f_equal; lia|].
    apply eq_true_iff_eq. rewrite !Z.ltb_lt. lia.
  - apply bits_bounded; [lia|]. intros i Hi. change (Z.of_nat DMI_LEN) with 41 in Hi.
    rewrite testbit_pack_dmi by lia.
    replace (i <? 41) with false by (symmetry; apply Z.ltb_ge; lia).
    replace (i <? 34) with false by (symmetry; apply Z.ltb_ge; lia).
    replace (i <? 2) with false by (symmetry; apply Z.ltb_ge; lia).
    by rewrite !andb_false_r.
  - reflexivity.
Qed.
