(* ===== verification/OpenOcd.v ===== *)
(** The OpenOCD transport: [api/openocd_transport.py].

    The TCL server is an abstract peer.  Text is ASCII, so decoding does not
    change it, and a letter or a digit is an ASCII one. *)

From Stdlib Require Import Ascii.
From S2P Require Import Prelude Registers Predictor Transport RiscvDm Session Sequences Closures DutConfig Text.

Local Open Scope string_scope.
Local Open Scope list_scope.
Local Open Scope Z_scope.

(** ** The server *)

(** What a [recv] gives: some bytes, none when the connection is closed, or an
    [OSError], of which a timeout is one. *)
Inductive Received :=
  | Data (bytes : list ascii)
  | TimedOut
  | SockError (error : string).

Class TclServer (P : Type) := {
  (** [socket.create_connection]: an error's text when it fails. *)
  s_connect : P -> P * option string;
  s_sendall : list ascii -> P -> P * option string;
  s_recv : P -> P * Received;
  s_close : P -> P
}.

(** ** Integers in a response *)

(** openocd_transport.py:36-36 (_EOF_MARKER) *)
Definition _EOF_MARKER : ascii := ascii_of_nat 26.

Definition is_digit (c : ascii) : bool :=
  let n := nat_of_ascii c in ((48 <=? n) && (n <=? 57))%nat.
Definition is_hex (c : ascii) : bool :=
  match Int.digit_value c with Some d => d <? 16 | None => false end.
(** [\w] *)
Definition is_word (c : ascii) : bool :=
  match Int.digit_value c with Some _ => true | None => Ascii.eqb c "_"%char end.

(** The longest prefix of such characters. *)
Fixpoint span (f : ascii -> bool) (l : list ascii) : list ascii :=
  match l with c :: l => if f c then c :: span f l else [] | [] => [] end.

(** [re.search(r"0x([0-9a-fA-F]+)", s)]: the group of the leftmost match.
    openocd_transport.py:166-166 (_parse_int, the first search) *)
Fixpoint search_hex (l : list ascii) : option (list ascii) :=
  match l with
  | [] => None
  | c :: l' =>
      match l with
      | "0"%char :: "x"%char :: d :: _ =>
          if is_hex d then Some (span is_hex (drop 2 l)) else search_hex l'
      | _ => search_hex l'
      end
  end.

(** The maximal runs of word characters. *)
Fixpoint tokens (l word : list ascii) : list (list ascii) :=
  match l with
  | [] => match word with [] => [] | _ => [rev word] end
  | c :: l =>
      if is_word c then tokens l (c :: word)
      else match word with [] => tokens l [] | _ => rev word :: tokens l [] end
  end.

(** [re.search(r"\b(\d+)\b", s)]: a digit is a word character, so the group is a
    whole run.
    openocd_transport.py:170-170 (_parse_int, the second search) *)
Definition search_decimal (l : list ascii) : option (list ascii) := List.find (forallb is_digit) (tokens l []).

Definition digit_step (base n : Z) (c : ascii) : Z := n * base + default 0 (Int.digit_value c).

(** [int(group, base)]: the group holds digits of the base.
    openocd_transport.py:168-168 (_parse_int, the conversion) *)
Definition int_of_digits (base : Z) (l : list ascii) : Z := fold_left (digit_step base) l 0.

(** openocd_transport.py:161-175 (_parse_int) *)
Definition _parse_int (s : list ascii) (context : string) : result Z :=
  let s := Int.strip s in
  match search_hex s with
  | Some digits => Ok (int_of_digits 16 digits)
  | None =>
      match search_decimal s with
      | Some digits => Ok (int_of_digits 10 digits)
      | None => Raise (TransportError
          ("OpenOCDTransport: cannot parse int from " +:+ py_repr (JStr (String.string_of_list_ascii s)) +:+
           " (context: " +:+ context +:+ ")"))
      end
  end.

(** ** The transport *)

Section transport.
Context {P : Type} `{TclServer P}.

(** openocd_transport.py:49-59 (OpenOCDTransport attributes) *)
Record OpenOCDTransport := mk_ocd { server : P; ocd_connected : bool }.

#[export] Instance ocd_settable : Settable OpenOCDTransport := fun t =>
  mk_ocd (server t) (ocd_connected t).

(** openocd_transport.py:49-59 (__init__) *)
Definition ocd_init (p : P) : OpenOCDTransport := mk_ocd p false.

(** The attempts; [last] is the error of the previous one.
    openocd_transport.py:66-79 (connect, the loop) *)
Fixpoint attempts (n : nat) (last : string) (t : OpenOCDTransport) : OpenOCDTransport * result unit :=
  match n with
  | O => (t, Raise (TransportError ("OpenOCDTransport: cannot connect — " +:+ last)))
  | S n =>
      match s_connect (server t) with
      | (p, None) => (t <| server := p |> <| ocd_connected := true |>, Ok tt)
      | (p, Some e) => attempts n e (t <| server := p |>)
      end
  end.

(** openocd_transport.py:63-79 (connect) *)
Definition ocd_connect (t : OpenOCDTransport) : OpenOCDTransport * result unit :=
  if ocd_connected t then (t, Ok tt) else attempts 30 EmptyString t.

(** openocd_transport.py:81-89 (disconnect) *)
Definition ocd_disconnect (t : OpenOCDTransport) : OpenOCDTransport * result unit :=
  if negb (ocd_connected t) then (t, Ok tt)
  else (t <| server := s_close (server t) |> <| ocd_connected := false |>, Ok tt).

(** The bytes up to the first marker, if there is one.
    openocd_transport.py:143-145 (_recv_until_eof, the split) *)
Fixpoint before_marker (l : list ascii) : option (list ascii) :=
  match l with
  | [] => None
  | c :: l => if Ascii.eqb c _EOF_MARKER then Some [] else option_map (cons c) (before_marker l)
  end.

(** Nothing bounds the chunks a response comes in: [fuel] does here.
    openocd_transport.py:136-146 (_recv_until_eof) *)
Fixpoint _recv_until_eof (fuel : nat) (buf : list ascii) (p : P) : P * result (list ascii) :=
  match fuel with
  | O => (p, Raise OutOfFuel)
  | S fuel =>
      match s_recv p with
      | (p, SockError e) => (p, Raise (TransportError ("OpenOCDTransport: " +:+ e)))
      | (p, TimedOut) => (p, Raise (TransportError "OpenOCDTransport: timed out"))
      | (p, Data []) => (p, Raise (TransportError "OpenOCDTransport: connection closed"))
      | (p, Data chunk) =>
          match before_marker (buf ++ chunk) with
          | Some l => (p, Ok (Int.strip l))
          | None => _recv_until_eof fuel (buf ++ chunk) p
          end
      end
  end.

(** Never called.  The timeouts it sets are the socket's.
    openocd_transport.py:148-159 (_drain_banner) *)
Fixpoint _drain_banner (fuel : nat) (p : P) : P * result unit :=
  match fuel with
  | O => (p, Raise OutOfFuel)
  | S fuel =>
      match s_recv p with
      | (p, SockError e) => (p, Raise (OSError e))
      | (p, TimedOut) => (p, Ok tt)
      | (p, Data data) =>
          match data, before_marker data with
          | _ :: _, None => _drain_banner fuel p
          | _, _ => (p, Ok tt)
          end
      end
  end.

Context (fuel : nat).

Definition chars (s : string) : list ascii := String.list_ascii_of_string s.

(** openocd_transport.py:120-134 (_send_tcl) *)
Definition _send_tcl (cmd : string) (t : OpenOCDTransport) : OpenOCDTransport * result (list ascii) :=
  if negb (ocd_connected t) then (t, Raise (TransportError "OpenOCDTransport: not connected"))
  else
    match s_sendall (chars cmd ++ [_EOF_MARKER]) (server t) with
    | (p, Some e) => (t <| server := p |>, Raise (TransportError ("OpenOCDTransport: " +:+ e)))
    | (p, None) =>
        let (p, r) := _recv_until_eof fuel [] p in
        (t <| server := p |>, r)
    end.

(** The commands. *)
Definition read_command (addr : Z) : string := "riscv dmi_read " +:+ hex addr.
Definition write_command (addr data : Z) : string :=
  "riscv dmi_write " +:+ hex addr +:+ " " +:+ py_hex_alt 10 data.

(** openocd_transport.py:93-102 (read) *)
Definition ocd_read (addr : Z) (t : OpenOCDTransport) : OpenOCDTransport * result Z :=
  let (t, r) := _send_tcl (read_command addr) t in
  (t, try resp <- r;; _parse_int resp ("read addr=" +:+ py_hex 2 addr)).

(** openocd_transport.py:104-111 (write) *)
Definition ocd_write (addr data : Z) (t : OpenOCDTransport) : OpenOCDTransport * result unit :=
  let (t, r) := _send_tcl (write_command addr data) t in (t, rmap (fun _ => tt) r).

(** openocd_transport.py:113-116 (reset) *)
Definition ocd_reset (t : OpenOCDTransport) : OpenOCDTransport * result unit :=
  let (t, r) := _send_tcl "reset halt" t in (t, rmap (fun _ => tt) r).

End transport.
Arguments OpenOCDTransport : clear implicits.

(** The transport has no golden model of its own, as the simulator's. *)
Definition ocd_transport {P} `{TclServer P} (fuel : nat)
    (predictor : OpenOCDTransport P -> option DMPredictor.t) : DebugTransport (OpenOCDTransport P) := {|
  t_connect := ocd_connect;
  t_disconnect := ocd_disconnect;
  t_read := ocd_read fuel;
  t_write := ocd_write fuel;
  t_reset := ocd_reset fuel;
  t_connected := ocd_connected;
  t_predictor := predictor
|}.
