(* ===== verification/OpenOcdSound.v ===== *)
(** The OpenOCD transport against what it promises ([OpenOcd]). *)

From Stdlib Require Import Ascii.
From S2P Require Import Prelude Registers Predictor Transport RiscvDm Session Sequences Closures.
From S2P Require Import DutConfig Text OpenOcd Programs RiscvDmSound Reachable ReadBack.
From S2P Require Import UvmTransport UvmSound.

Local Open Scope string_scope.
Local Open Scope list_scope.
Local Open Scope Z_scope.

(** ** Numbers in a response *)

Definition hex_char (d : Z) : ascii :=
  default (ascii_of_nat 63) (String.get (Z.to_nat d) "0123456789abcdef").

Lemma small_cases (P : Z -> Prop) (n : nat) :
  Forall P (seqZ 0 (Z.of_nat n)) -> forall d, 0 <= d < Z.of_nat n -> P d.
Proof.
  intros Hp d Hd. rewrite Forall_forall in Hp. apply Hp. apply elem_of_seqZ. lia.
Qed.

Lemma hex_char_value d :
  0 <= d < 16 -> Int.digit_value (hex_char d) = Some d /\ is_hex (hex_char d) = true /\
  Int.space (hex_char d) = false.
Proof.
  revert d. apply (small_cases _ 16). vm_compute. repeat constructor.
Qed.

Lemma chars_app (a b : string) : chars (a +:+ b) = chars a ++ chars b.
Proof.
  induction a as [|c a IH]; [done|].
  change (chars (String c a +:+ b)) with (c :: chars (a +:+ b)). by rewrite IH.
Qed.

Lemma hex_digits_step n v acc :
  hex_digits (S n) v acc = hex_digits n (v / 16) (String (hex_char (v mod 16)) acc).
Proof. reflexivity. Qed.

Lemma hex_digits_hex n v acc :
  forallb is_hex (chars acc) = true -> forallb is_hex (chars (hex_digits n v acc)) = true.
Proof.
  revert v acc. induction n as [|n IH]; intros v acc Ha; [done|].
  rewrite hex_digits_step. apply IH.   apply andb_true_intro. split; [|done]. apply hex_char_value. apply Z.mod_pos_bound. lia.
Qed.

Lemma hex_digits_value n v acc m :
  0 <= v ->
  fold_left (digit_step 16) (chars (hex_digits n v acc)) m =
  fold_left (digit_step 16) (chars acc) (m * 16 ^ Z.of_nat n + v mod 16 ^ Z.of_nat n).
Proof.
  revert v acc. induction n as [|n IH]; intros v acc Hv.
  - cbn. by rewrite Z.mod_1_r, Z.mul_1_r, Z.add_0_r.
  - rewrite hex_digits_step, IH by (apply Z.div_pos; lia). cbn [chars String.list_ascii_of_string fold_left].
    pose proof (Z.mod_pos_bound v 16) as Hd. destruct (hex_char_value (v mod 16)) as [Hd' _]; [lia|].
    f_equal. unfold digit_step. rewrite Hd'. cbn [default]. unfold id.
    rewrite Nat2Z.inj_succ, Z.pow_succ_r by lia.
    rewrite (Z.rem_mul_r v 16 (16 ^ Z.of_nat n)) by (try apply Z.pow_pos_nonneg; lia). lia.
Qed.

Lemma hex_digits_length n v : chars (hex_digits (S n) v EmptyString) <> [].
Proof.
  assert (forall n v acc, chars acc <> [] -> chars (hex_digits n v acc) <> []) as Hn.
  { clear. induction n as [|n IH]; intros v acc Ha; [done|]. rewrite hex_digits_step. by apply IH. }
  rewrite hex_digits_step. by apply Hn.
Qed.

(** The digits of [hex] and [py_hex] are enough. *)
Lemma enough_digits v n :
  0 <= v -> (S (Z.to_nat (Z.log2 v / 4)) <= n)%nat -> v < 16 ^ Z.of_nat n.
Proof.
  intros Hv Hn. destruct (Z.eq_dec v 0) as [->|Hne]; [apply Z.pow_pos_nonneg; lia|].
  change 16 with (2 ^ 4). rewrite <-Z.pow_mul_r by lia.
  apply Z.log2_lt_pow2; [lia|]. pose proof (Z.log2_nonneg v).
  pose proof (Z.mul_succ_div_gt (Z.log2 v) 4). pose proof (Z.div_pos (Z.log2 v) 4). lia.
Qed.

(** The text of a number that is not negative, in hexadecimal. *)
Definition hex_text (l : list ascii) (v : Z) : Prop :=
  exists n, l = "0"%char :: "x"%char :: chars (hex_digits (S n) v EmptyString) /\ v < 16 ^ Z.of_nat (S n).

Lemma py_hex_text w v : 0 <= v -> hex_text (chars (py_hex w v)) v.
Proof.
  intros Hv. unfold py_hex. rewrite (proj2 (Z.ltb_ge v 0)), Z.abs_eq by lia.
  destruct (Nat.max w (S (Z.to_nat (Z.log2 v / 4)))) as [|n] eqn:Hn; [lia|].
  exists n. split; [done|]. apply enough_digits; lia.
Qed.

Lemma hex_alt_text w v : 0 <= v -> hex_text (chars (py_hex_alt w v)) v.
Proof.
  intros Hv. unfold py_hex_alt. rewrite (proj2 (Z.ltb_ge v 0)), Z.abs_eq by lia.
  destruct (Nat.max (w - 2) (S (Z.to_nat (Z.log2 v / 4)))) as [|n] eqn:Hn; [lia|].
  exists n. split; [done|]. apply enough_digits; lia.
Qed.

Lemma span_all f l : forallb f l = true -> span f l = l.
Proof.
  induction l as [|c l IH]; [done|]. cbn. intros [Hc Hl]%andb_prop. by rewrite Hc, IH.
Qed.

Lemma span_stop f l c r : forallb f l = true -> f c = false -> span f (l ++ c :: r) = l.
Proof.
  intros Hl Hc. induction l as [|d l IH]; cbn in *; [by rewrite Hc|].
  apply andb_prop in Hl as [Hd Hl]. by rewrite Hd, IH.
Qed.

(** A hexadecimal digit is no white space. *)
Lemma hex_not_space c : is_hex c = true -> Int.space c = false.
Proof. destruct c as [[] [] [] [] [] [] [] []]; vm_compute; congruence. Qed.

Lemma lstrip_id c l : Int.space c = false -> Int.lstrip (c :: l) = c :: l.
Proof. intros Hc. cbn. by rewrite Hc. Qed.

(** Text that starts and ends with something else than white space. *)
Lemma strip_id l :
  (exists c r, l = c :: r /\ Int.space c = false) -> (exists r c, l = r ++ [c] /\ Int.space c = false) ->
  Int.strip l = l.
Proof.
  intros (c & r & -> & Hc) (r' & c' & Heq & Hc'). unfold Int.strip. rewrite lstrip_id by done.
  rewrite Heq, rev_app_distr. cbn [rev app]. rewrite lstrip_id by done. cbn [rev].
  by rewrite rev_involutive.
Qed.

Lemma last_of {A} (l : list A) : l <> [] -> exists r c, l = r ++ [c].
Proof. intros Hl. destruct (exists_last Hl) as (r & c & ->). eauto. Qed.

Lemma forallb_last {A} (f : A -> bool) r c : forallb f (r ++ [c]) = true -> f c = true.
Proof. rewrite forallb_app. cbn. intros [_ Hc]%andb_prop. by rewrite andb_true_r in Hc. Qed.

(** What a hexadecimal text is made of. *)
Lemma hex_text_digits l v :
  hex_text l v -> exists d ds, l = "0"%char :: "x"%char :: d :: ds /\ forallb is_hex (d :: ds) = true.
Proof.
  intros (n & -> & _).
  pose proof (hex_digits_hex (S n) v EmptyString eq_refl) as Hh.
  destruct (chars (hex_digits (S n) v EmptyString)) as [|d ds] eqn:Hd; [|eauto].
  pose proof (hex_digits_length n v) as Hl. rewrite Hd in Hl. done.
Qed.

Lemma hex_text_strip l v : hex_text l v -> Int.strip l = l.
Proof.
  intros (d & ds & -> & Hh)%hex_text_digits. apply strip_id.
  - by exists "0"%char, ("x"%char :: d :: ds).
  - destruct (last_of (d :: ds)) as (r & c & Hl); [done|]. rewrite Hl in Hh |- *.
    exists ("0"%char :: "x"%char :: r), c. split; [done|].
    apply hex_not_space. by eapply forallb_last.
Qed.

Lemma hex_text_value l v : 0 <= v -> hex_text l v -> int_of_digits 16 (drop 2 l) = v.
Proof.
  intros Hv (n & -> & Hn). unfold int_of_digits.
  change (fold_left (digit_step 16) (chars (hex_digits (S n) v EmptyString)) 0 = v). rewrite hex_digits_value by done.
  cbn [chars String.list_ascii_of_string fold_left]. rewrite Z.mod_small by lia. lia.
Qed.

(** A response that is a hexadecimal number is read as that number. *)
Lemma parse_hex_text l v context : 0 <= v -> hex_text l v -> _parse_int l context = Ok v.
Proof.
  intros Hv Hl. unfold _parse_int. rewrite (hex_text_strip l v) by done.
  destruct (hex_text_digits l v Hl) as (d & ds & -> & Hh). cbn [search_hex].
  pose proof (andb_prop _ _ Hh) as [Hd _]. rewrite Hd. cbn [skipn]. rewrite (span_all is_hex) by done.
  f_equal. by apply (hex_text_value ("0"%char :: "x"%char :: d :: ds)).
Qed.

(** ** Decimal responses *)

Lemma dec_char_value d :
  0 <= d < 10 ->
  Int.digit_value (pretty_N_char (Z.to_N d)) = Some d /\ is_digit (pretty_N_char (Z.to_N d)) = true.
Proof. revert d. apply (small_cases _ 10). vm_compute. repeat constructor. Qed.

Lemma pretty_go_digits x s :
  forallb is_digit (chars s) = true ->
  forallb is_digit (chars (pretty_N_go x s)) = true /\
  fold_left (digit_step 10) (chars (pretty_N_go x s)) 0 =
  fold_left (digit_step 10) (chars s) (Z.of_N x).
Proof.
  revert s. induction (N.lt_wf_0 x) as [x _ IH]; intros s Hs.
  destruct (decide (0 < x)%N) as [Hx|Hx].
  - rewrite pretty_N_go_step by done.
    pose proof (N.mod_lt x 10 ltac:(lia)) as Hm. remember (x mod 10)%N as d eqn:Hdig.
    destruct (dec_char_value (Z.of_N d)) as [Hv Hd]; [clear - Hm; lia|]. rewrite N2Z.id in Hv, Hd.
    destruct (IH (x / 10)%N) with (s := String (pretty_N_char d) s) as [IHd IHv].
    + apply N.div_lt; lia.
    + apply andb_true_intro. by split.
    + split; [done|]. rewrite IHv. cbn [chars String.list_ascii_of_string fold_left].
      f_equal. unfold digit_step. rewrite Hv. cbn [default]. unfold id.
      pose proof (N.div_mod x 10 ltac:(lia)) as Hx'. rewrite <-Hdig in Hx'. clear - Hx'. lia.
  - assert (x = 0%N) as -> by lia. by rewrite pretty_N_go_0.
Qed.

Lemma pretty_digits v :
  0 <= v ->
  forallb is_digit (chars (pretty v)) = true /\ int_of_digits 10 (chars (pretty v)) = v /\
  chars (pretty v) <> [].
Proof.
  intros Hv. destruct v as [|p|p]; [done| |lia].
  change (pretty (Z.pos p)) with (pretty (N.pos p)). unfold pretty, pretty_N.
  rewrite decide_False by done.
  destruct (pretty_go_digits (N.pos p) "" eq_refl) as [Hd Hs]. split; [done|]. split; [exact Hs|].
  intros Hn. rewrite Hn in Hs. cbn in Hs. lia.
Qed.

Lemma digit_classes c :
  is_digit c = true -> is_word c = true /\ Int.space c = false /\ Ascii.eqb c "x"%char = false.
Proof. destruct c as [[] [] [] [] [] [] [] []]; vm_compute; intuition congruence. Qed.

Lemma search_hex_digits l : forallb is_digit l = true -> search_hex l = None.
Proof.
  induction l as [|c l IH]; [done|]. intros [Hc Hl]%andb_prop. cbn [search_hex]. rewrite IH by done.
  destruct l as [|d l]; [by repeat case_match|]. cbn in Hl. apply andb_prop in Hl as [Hd _].
  destruct (digit_classes d Hd) as (_ & _ & Hx).
  repeat case_match; try done; simplify_eq.
Qed.

Lemma tokens_word l w : forallb is_word l = true -> w ++ l <> [] -> tokens l w = [rev w ++ l].
Proof.
  revert w. induction l as [|c l IH]; intros w Hl Hne; cbn [tokens].
  - rewrite app_nil_r in *. by destruct w.
  - apply andb_prop in Hl as [Hc Hl]. rewrite Hc, IH; [|done|done]. cbn [rev]. by rewrite <-app_assoc.
Qed.

(** A response that is a decimal number is read as that number. *)
Lemma parse_decimal v context : 0 <= v -> _parse_int (chars (pretty v)) context = Ok v.
Proof.
  intros Hv. destruct (pretty_digits v Hv) as (Hd & Hval & Hne).
  assert (Int.strip (chars (pretty v)) = chars (pretty v)) as Hs.
  { apply strip_id.
    - destruct (chars (pretty v)) as [|c l]; [done|]. exists c, l. split; [done|].
      apply andb_prop in Hd as [Hc _]. by apply digit_classes.
    - destruct (last_of _ Hne) as (r & c & Hl). rewrite Hl in Hd |- *. exists r, c. split; [done|].
      apply digit_classes. by eapply forallb_last. }
  unfold _parse_int. rewrite Hs, search_hex_digits by done. unfold search_decimal.
  rewrite tokens_word by (try done; apply forallb_forall; intros c Hc; rewrite forallb_forall in Hd;
    apply digit_classes; auto).
  cbn [rev app List.find]. by rewrite Hd, Hval.
Qed.

(** What the server prints is what the client reads: a response that is a number,
    in hexadecimal with any padding or in decimal, is parsed to that number. *)
Theorem parse_int_roundtrip v w context :
  0 <= v ->
  _parse_int (chars (py_hex w v)) context = Ok v /\
  _parse_int (chars (py_hex_alt w v)) context = Ok v /\
  _parse_int (chars (pretty v)) context = Ok v.
Proof.
  intros Hv. split_and!.
  - apply parse_hex_text; [done|]. by apply py_hex_text.
  - apply parse_hex_text; [done|]. by apply hex_alt_text.
  - by apply parse_decimal.
Qed.

Lemma parse_int_roundtrip_witness :
  0 <= 0x382 /\ _parse_int (chars "0x00000382") "read" = Ok 0x382 /\
  _parse_int (chars "898") "read" = Ok 0x382.
Proof.
  assert (0 <= 0x382) as Hv by discriminate. split; [exact Hv|].
  destruct (parse_int_roundtrip 0x382 8 "read" Hv) as (Hh & _ & Hd). exact (conj Hh Hd).
Defined.

(** ** Framing *)

Lemma before_marker_none l : _EOF_MARKER ∉ l -> before_marker l = None.
Proof.
  induction l as [|c l IH]; [done|]. intros [Hc Hl]%not_elem_of_cons. cbn.
  destruct (Ascii.eqb_spec c _EOF_MARKER); [congruence|]. by rewrite IH.
Qed.

Lemma before_marker_some l r : _EOF_MARKER ∉ l -> before_marker (l ++ _EOF_MARKER :: r) = Some l.
Proof.
  induction l as [|c l IH]; [by cbn; rewrite Ascii.eqb_refl|]. intros [Hc Hl]%not_elem_of_cons. cbn.
  destruct (Ascii.eqb_spec c _EOF_MARKER); [congruence|]. by rewrite IH.
Qed.

Section server.
Context {P : Type} `{TclServer P}.

(** The server sends these chunks, one to each [recv]. *)
Inductive delivers : list (list ascii) -> P -> P -> Prop :=
  | delivers_nil p : delivers [] p p
  | delivers_cons c cs p p' p'' :
      s_recv p = (p', Data c) -> c <> [] -> delivers cs p' p'' -> delivers (c :: cs) p p''.

(** The response the client sees does not depend on how the network cuts it: if the
    server sends some text, the end marker and perhaps more, in any number of chunks of
    any size of which the last completes the marker, reading until the marker returns
    that text, stripped, in as many rounds as there are chunks, and takes nothing more
    off the connection. *)
Theorem response_framing chunks c l rest (p p' : P) fuel buf :
  delivers (chunks ++ [c]) p p' -> buf ++ concat chunks ++ c = l ++ _EOF_MARKER :: rest ->
  _EOF_MARKER ∉ l -> _EOF_MARKER ∉ buf ++ concat chunks -> (length chunks < fuel)%nat ->
  _recv_until_eof fuel buf p = (p', Ok (Int.strip l)).
Proof.
  revert fuel buf p. induction chunks as [|d ds IH]; intros fuel buf p Hd Heq Hl Hb Hf;
    (destruct fuel as [|fuel]; [cbn in Hf; lia|]); inversion Hd as [|? ? ? p1 ? Hr Hne Hrest]; subst;
    cbn [_recv_until_eof]; rewrite Hr.
  - inversion Hrest; subst. destruct c as [|a c']; [done|]. cbn in Heq. rewrite Heq.
    by rewrite before_marker_some.
  - destruct d as [|a d']; [done|]. cbn [concat] in Heq, Hb.
    rewrite before_marker_none
      by (intros Hin; apply Hb; rewrite app_assoc; by apply elem_of_app; left).
    rewrite <-!app_assoc in Heq. apply IH; [done| |done| |cbn in Hf; lia]; by rewrite <-?app_assoc.
Qed.

(** A connection closed before the marker, or one that fails, is an error. *)
Lemma closed_response chunks (p p1 p2 : P) fuel buf :
  delivers chunks p p1 -> s_recv p1 = (p2, Data []) -> _EOF_MARKER ∉ buf ++ concat chunks ->
  (length chunks < fuel)%nat ->
  _recv_until_eof fuel buf p = (p2, Raise (TransportError "OpenOCDTransport: connection closed")).
Proof.
  intros Hd. revert fuel buf. induction Hd as [p|c cs p p' p'' Hr Hne Hd IH];
    intros fuel buf Hc Hb Hf; (destruct fuel as [|fuel]; [cbn in Hf; lia|]); cbn [_recv_until_eof].
  - by rewrite Hc.
  - rewrite Hr. destruct c as [|a c']; [done|]. cbn [concat] in Hb.
    rewrite before_marker_none
      by (intros Hin; apply Hb; rewrite app_assoc; by apply elem_of_app; left).
    apply IH; [done| |cbn in Hf; lia]. by rewrite <-app_assoc.
Qed.

End server.

(** ** Over a faithful server *)

Section answers.
Context {P : Type} `{TclServer P} (fuel : nat).

(** The server takes a command and sends a response: some text and the marker, in
    fewer chunks than the fuel. *)
Definition answers (cmd : string) (p p' : P) (l : list ascii) : Prop :=
  exists p1 chunks c rest, s_sendall (chars cmd ++ [_EOF_MARKER]) p = (p1, None) /\
    delivers (chunks ++ [c]) p1 p' /\ (concat chunks ++ c) = (l ++ _EOF_MARKER :: rest) /\
    (_EOF_MARKER ∉ l) /\ (_EOF_MARKER ∉ concat chunks) /\ (length chunks < fuel)%nat.

Lemma send_answers cmd (t : OpenOCDTransport P) p' l :
  ocd_connected t = true -> answers cmd (server t) p' l ->
  _send_tcl fuel cmd t = (t <| server := p' |>, Ok (Int.strip l)).
Proof.
  intros Hc (p1 & chunks & c & rest & Hs & Hd & Heq & Hl & Hb & Hf).
  unfold _send_tcl. rewrite Hc. cbn [negb]. rewrite Hs.
  by rewrite (response_framing chunks c l rest p1 p' fuel []).
Qed.

End answers.

(** The server of a target that behaves as the model says: it answers every command,
    a read with the word the model predicts, in hexadecimal. *)
Class FaithfulTcl (P : Type) (fuel : nat) `{TclServer P} := {
  target : P -> DMPredictor.t;
  serving : P -> Prop;
  answer_read addr p :
    serving p -> exists p' l, answers fuel (read_command addr) p p' l /\ serving p' /\
      target p' = target p /\ forall v, DMPredictor.expect (target p) addr = Ok v -> 0 <= v -> hex_text l v;
  answer_write addr v p :
    serving p -> exists p' l, answers fuel (write_command addr v) p p' l /\ serving p' /\
      target p' = DMPredictor.on_write addr v (target p)
}.

Lemma expect_not_negative p addr v :
  wf p -> sizes_ok p -> DMPredictor.expect p addr = Ok v -> 0 <= v.
Proof.
  intros Hw Hs. unfold DMPredictor.expect. destruct (negb _); [done|].
  destruct (predict_total p addr Hw Hs) as (w & -> & Hb). intros [= <-]. lia.
Qed.

(** The transport over a faithful server promises what [ModelAnswered] says. *)
Definition ocd_model_answered {P fuel} `{FaithfulTcl P fuel}
    (pr : OpenOCDTransport P -> option DMPredictor.t) :
  @ModelAnswered (OpenOCDTransport P) (ocd_transport fuel pr).
Proof.
  refine {| model := fun t : OpenOCDTransport P => target (server t) : DMPredictor.t;
            live := fun t : OpenOCDTransport P => ocd_connected t = true /\ serving (server t) /\
              wf (target (server t)) /\ sizes_ok (target (server t)) |};
    cbn [t_read t_write ocd_transport]; unfold ocd_read, ocd_write.
  - intros addr t (Hc & Hu & Hw & Hs). destruct (answer_read addr _ Hu) as (p' & l & Ha & Hu' & Ht & _).
    rewrite (send_answers fuel _ t p' l) by done. cbn. by rewrite Ht.
  - intros addr v t (Hc & Hu & Hw & Hs). destruct (answer_write addr v _ Hu) as (p' & l & Ha & Hu' & Ht).
    rewrite (send_answers fuel _ t p' l) by done. cbn. rewrite Ht. split_and!; try done.
    + by apply wf_on_write.
    + unfold sizes_ok. by rewrite cfg_on_write.
  - intros addr t (Hc & Hu & Hw & Hs). destruct (answer_read addr _ Hu) as (p' & l & Ha & Hu' & Ht & _).
    by rewrite (send_answers fuel _ t p' l).
  - intros addr t v (Hc & Hu & Hw & Hs) He.
    destruct (answer_read addr _ Hu) as (p' & l & Ha & Hu' & Ht & Hl).
    rewrite (send_answers fuel _ t p' l) by done. cbn.
    pose proof (expect_not_negative _ _ _ Hw Hs He) as Hv.
    rewrite (hex_text_strip l v) by auto. apply parse_hex_text; auto.
  - intros addr v t (Hc & Hu & Hw & Hs). destruct (answer_write addr v _ Hu) as (p' & l & Ha & Hu' & Ht).
    by rewrite (send_answers fuel _ t p' l).
  - intros addr v t (Hc & Hu & Hw & Hs). destruct (answer_write addr v _ Hu) as (p' & l & Ha & Hu' & Ht).
    by rewrite (send_answers fuel _ t p' l).
Defined.

(** C6: The client is unaware of the swap.  Over a simulator socket and over an OpenOCD
    server whose targets both behave as the golden model does from the same state, a
    program that does not look at the transport's [predictor] and whose reads the model
    predicts has the same result, leaves the client in the same state at the same time,
    and leaves both targets where the model ends. *)
Theorem transports_agree {P Q fuel} `{FaithfulBridge P} `{FaithfulTcl Q fuel} `{Clock} {S A}
    (pr : UVMTransport P -> option DMPredictor.t) (pr' : OpenOCDTransport Q -> option DMPredictor.t)
    (c : prog S A) (w : world (UVMTransport P) S) (w' : world (OpenOCDTransport Q) S)
    (m : DMPredictor.t) s now r :
  predictor_free c ->
  uvm_connected (dev w) = true -> up (peer (dev w)) ->
  ocd_connected (dev w') = true -> serving (server (dev w')) ->
  target (server (dev w')) = sim (peer (dev w)) -> self w' = self w -> clock w' = clock w ->
  wf (sim (peer (dev w))) -> sizes_ok (sim (peer (dev w))) ->
  predicted c (sim (peer (dev w))) (self w) (clock w) = Some (m, s, now, r) ->
  let (w1, r1) := run (H := uvm_transport pr) c w in
  let (w2, r2) := run (H := ocd_transport fuel pr') c w' in
  r1 = r /\ r2 = r /\ self w1 = s /\ self w2 = s /\ clock w1 = now /\ clock w2 = now /\
  sim (peer (dev w1)) = m /\ target (server (dev w2)) = m.
Proof.
  intros Hc Hcon Hup Hcon' Hserv Ht Hself Hclock Hwf Hsz Hp.
  pose proof (run_answered (H0 := uvm_model_answered pr) c w m s now r (or_introl Hc)
                (conj Hcon Hup) Hp) as Hr.
  rewrite <-Hself, <-Hclock, <-Ht in Hp. rewrite <-Ht in Hwf, Hsz.
  pose proof (run_answered (H0 := ocd_model_answered pr') c w' m s now r (or_introl Hc)
                (conj Hcon' (conj Hserv (conj Hwf Hsz))) Hp) as Hr'.
  destruct (run (H := uvm_transport pr) c w) as [w1 r1].
  destruct (run (H := ocd_transport fuel pr') c w') as [w2 r2].
  destruct Hr as (_ & ? & ? & ? & ?), Hr' as (_ & ? & ? & ? & ?). done.
Qed.

(** A server that is the model itself, answering in chunks: what it still has to send
    is in its state. *)
Module ModelServer.

Record t := mk { dm : DMPredictor.t; pending : list (list ascii) }.

(** A hexadecimal number with its sign. *)
Definition number (l : list ascii) : Z :=
  match l with
  | "-"%char :: l => - int_of_digits 16 (drop 2 l)
  | _ => int_of_digits 16 (drop 2 l)
  end.

Fixpoint after (prefix l : list ascii) : option (list ascii) :=
  match prefix, l with
  | [], l => Some l
  | a :: prefix, b :: l => if Ascii.eqb a b then after prefix l else None
  | _ :: _, [] => None
  end.

(** A word of the command line. *)
Definition argument (c : ascii) : bool := is_hex c || Ascii.eqb c "x"%char || Ascii.eqb c "-"%char.

Definition word_of (p : DMPredictor.t) (addr : Z) : string :=
  match DMPredictor.expect p addr with Ok v => py_hex 1 (Z.max 0 v) | Raise _ => "0x0" end.

Definition sendall (l : list ascii) (p : t) : t * option string :=
  match after (chars "riscv dmi_read ") l, after (chars "riscv dmi_write ") l with
  | Some args, _ => (mk (dm p) [chars (word_of (dm p) (number (span argument args))); [_EOF_MARKER]], None)
  | None, Some args =>
      let addr := span argument args in
      let data := span argument (drop (S (length addr)) args) in
      (mk (DMPredictor.on_write (number addr) (number data) (dm p)) [[_EOF_MARKER]], None)
  | None, None => (mk (dm p) [[_EOF_MARKER]], None)
  end.

Definition recv (p : t) : t * Received :=
  match pending p with
  | c :: cs => (mk (dm p) cs, Data c)
  | [] => (p, TimedOut)
  end.

#[global] Instance server : TclServer t := {|
  s_connect := fun p => (p, None);
  s_sendall := sendall;
  s_recv := recv;
  s_close := fun p => p
|}.

(** The arguments of a command can be read back, the negative ones too. *)
Lemma hex_alt_digits w v :
  exists l, chars (py_hex_alt w v) = (if v <? 0 then ["-"%char] else []) ++ l /\ hex_text l (Z.abs v).
Proof.
  unfold py_hex_alt. destruct (Z.ltb_spec v 0) as [Hv|Hv].
  - exists (chars ("0x" +:+ hex_digits (Nat.max (w - 3) (S (Z.to_nat (Z.log2 (Z.abs v) / 4)))) (- v) EmptyString)).
    split; [done|]. rewrite Z.abs_neq by lia.
    destruct (Nat.max (w - 3) (S (Z.to_nat (Z.log2 (- v) / 4)))) as [|n] eqn:Hn; [lia|].
    exists n. split; [done|]. apply enough_digits; lia.
  - eexists. split; [done|]. rewrite Z.abs_eq by lia.
    pose proof (hex_alt_text w v Hv) as Ht. unfold py_hex_alt in Ht.
    by rewrite (proj2 (Z.ltb_ge v 0)), Z.abs_eq in Ht by lia.
Qed.

Lemma number_hex_alt w v : number (chars (py_hex_alt w v)) = v.
Proof.
  destruct (hex_alt_digits w v) as (l & -> & Hl).
  pose proof (hex_text_value l (Z.abs v) (Z.abs_nonneg v) Hl) as Hv.
  destruct (Z.ltb_spec v 0).
  - cbn [app number]. rewrite Hv. lia.
  - cbn [app]. destruct Hl as (n & -> & _). cbn [number]. rewrite Hv. lia.
Qed.

Lemma argument_hex_alt w v : forallb argument (chars (py_hex_alt w v)) = true.
Proof.
  destruct (hex_alt_digits w v) as (l & -> & Hl). rewrite forallb_app.
  destruct (hex_text_digits _ _ Hl) as (d & ds & -> & Hh).
  apply andb_true_intro. split; [by destruct (v <? 0)|].
  change (forallb argument (d :: ds) = true).
  rewrite forallb_forall in Hh |- *. intros c Hc. unfold argument. by rewrite (Hh c Hc).
Qed.

Lemma after_app prefix l : after prefix (prefix ++ l) = Some l.
Proof. induction prefix as [|c prefix IH]; cbn; [done|]. by rewrite Ascii.eqb_refl. Qed.

Lemma drop_past {A} (l : list A) c r : drop (S (length l)) (l ++ c :: r) = r.
Proof. induction l as [|a l IH]; [done|]. exact IH. Qed.

Lemma hex_text_no_marker l v : hex_text l v -> _EOF_MARKER ∉ l.
Proof.
  intros (d & ds & -> & Hh)%hex_text_digits. rewrite !not_elem_of_cons.
  split; [done|]. split; [done|]. apply not_elem_of_cons.
  intros Hin%list_elem_of_In. rewrite forallb_forall in Hh. by apply Hh in Hin.
Qed.

#[global] Instance faithful : FaithfulTcl t 2.
Proof.
  refine {| target := dm; serving := fun _ => True |}.
  - intros addr p _. exists (mk (dm p) []), (chars (word_of (dm p) addr)). unfold answers.
    assert (hex_text (chars (word_of (dm p) addr))
              (match DMPredictor.expect (dm p) addr with Ok v => Z.max 0 v | Raise _ => 0 end)) as Hw.
    { unfold word_of. destruct (DMPredictor.expect (dm p) addr); [apply py_hex_text; lia|by exists 0%nat]. }
    split_and!; [|done..|].
    + exists (mk (dm p) [chars (word_of (dm p) addr); [_EOF_MARKER]]),
        [chars (word_of (dm p) addr)], [_EOF_MARKER], [].
      pose proof (hex_text_no_marker _ _ Hw) as Hno. split_and!.
      * cbn [s_sendall server]. unfold sendall, read_command, hex.
        rewrite chars_app, <-app_assoc, after_app.
        rewrite span_stop by (done || apply argument_hex_alt). by rewrite number_hex_alt.
      * econstructor; [done|by destruct (hex_text_digits _ _ Hw) as (d & ds & -> & _)|].
        econstructor; [done|done|]. constructor.
      * cbn [concat]. by rewrite app_nil_r.
      * done.
      * cbn [concat]. by rewrite app_nil_r.
      * cbn. lia.
    + intros v He Hv. rewrite He in Hw. by rewrite Z.max_r in Hw by lia.
  - intros addr v p _. exists (mk (DMPredictor.on_write addr v (dm p)) []), []. unfold answers.
    split_and!; [|done..].
    exists (mk (DMPredictor.on_write addr v (dm p)) [[_EOF_MARKER]]), [], [_EOF_MARKER], [].
    split_and!; try done; [| |set_solver|set_solver|cbn; lia].
    + cbn [s_sendall server]. unfold sendall, write_command, hex.
      rewrite !chars_app, <-!app_assoc.
      change (after (chars "riscv dmi_read ") (chars "riscv dmi_write " ++ ?l)) with (@None (list ascii)).
      rewrite after_app. change (chars " ") with [" "%char]. cbn [app].
      rewrite span_stop by (done || apply argument_hex_alt). rewrite number_hex_alt.
      rewrite drop_past, span_stop by (done || apply argument_hex_alt). by rewrite number_hex_alt.
    + econstructor; [done|done|]. constructor.
Defined.

End ModelServer.

(** ** Witnesses *)

Lemma response_framing_witness :
  let p := ModelServer.mk (DMPredictor.init Kwargs.default)
             [chars "  0x0"; chars "0382"; _EOF_MARKER :: chars "late"; chars "more"] in
  delivers ([chars "  0x0"; chars "0382"] ++ [_EOF_MARKER :: chars "late"]) p
    (ModelServer.mk (DMPredictor.init Kwargs.default) [chars "more"]) /\
  _recv_until_eof 3 [] p =
    (ModelServer.mk (DMPredictor.init Kwargs.default) [chars "more"], Ok (chars "0x00382")).
Proof.
  intros p.
  assert (delivers ([chars "  0x0"; chars "0382"] ++ [_EOF_MARKER :: chars "late"]) p
            (ModelServer.mk (DMPredictor.init Kwargs.default) [chars "more"])) as Hd
    by (repeat (econstructor; [reflexivity|discriminate|]); constructor).
  split; [exact Hd|].
  refine (response_framing [chars "  0x0"; chars "0382"] (_EOF_MARKER :: chars "late")
            (chars "  0x00382") (chars "late") p _ 3 [] Hd eq_refl _ _ _);
    [refine (bool_decide_unpack _ _); vm_compute; exact I..|cbn; lia].
Defined.

Section witness.
#[local] Existing Instance exact_clock.

Definition ocd_world (p : DMPredictor.t) : world (OpenOCDTransport ModelServer.t) Z :=
  mk_world (mk_ocd (ModelServer.mk p []) true) 0 0 [].

Lemma transports_agree_witness :
  let p := DMPredictor.init Kwargs.default in
  let c := RISCVDebug.halt RISCVDebug.DEFAULT_TIMEOUT in
  match predicted c p 0 0 with
  | Some (m, s, now, r) =>
      r = Ok tt /\
      let (w1, r1) := run (H := uvm_transport (fun _ => None)) c (socket_world p) in
      let (w2, r2) := run (H := ocd_transport 2 (fun _ => None)) c (ocd_world p) in
      r1 = r /\ r2 = r /\ self w1 = s /\ self w2 = s /\ clock w1 = now /\ clock w2 = now /\
      sim (peer (dev w1)) = m /\ target (server (dev w2)) = m
  | None => False
  end.
Proof.
  cbv zeta. destruct (predicted _ _ _ _) as [[[[m s] now] r]|] eqn:E; [|vm_compute in E; discriminate].
  split; [vm_compute in E; congruence|].
  apply (transports_agree (fun _ => None) (fun _ => None) _
           (socket_world (DMPredictor.init Kwargs.default)) (ocd_world (DMPredictor.init Kwargs.default))
           m s now r);
    [unfold predictor_free; uses; exact I|reflexivity|exact I|reflexivity|exact I|reflexivity..| | |exact E].
  - apply wf_init.
  - split; vm_compute; discriminate.
Defined.

End witness.
