(* ===== verification/Terminates.v ===== *)
(** Every step of every test sequence ends, whatever the device answers. *)

From S2P Require Import Prelude Registers Predictor Transport RiscvDm Session Sequences Closures.
From S2P Require Import ResetValues ResetCtrl AccessSequences SbaSequence HartArray DutConfig Text.
From S2P Require Import UvmTransport StepSequences DebugEntry TriggerSequence CommandSequences.
From S2P Require Import DtmSequences DmCorners Programs RiscvDmSound ResetCtrlSound UvmSound.
Import RISCVDebug.

Local Open Scope string_scope.
Local Open Scope list_scope.
Local Open Scope Z_scope.

Section commands.
Context {T : Type} `{Total T} `{Clock}.

Lemma ends_resume_no_wait : ends (T := T) resume_no_wait.
Proof. ends. Qed.
Lemma ends_ndmreset b : ends (T := T) (ndmreset b).
Proof. ends. Qed.
Lemma ends_hartreset b : ends (T := T) (hartreset b).
Proof. ends. Qed.
Lemma ends_ackhavereset : ends (T := T) ackhavereset.
Proof. ends. Qed.
Lemma ends_set_reset_haltreq : ends (T := T) set_reset_haltreq.
Proof. ends. Qed.
Lemma ends_clr_reset_haltreq : ends (T := T) clr_reset_haltreq.
Proof. ends. Qed.
Lemma ends_read_gpr r : ends (T := T) (read_gpr r).
Proof. ends. Qed.
Lemma ends_write_gpr r v : ends (T := T) (write_gpr r v).
Proof. ends. Qed.
Lemma ends_read_reg64 r : ends (T := T) (read_reg64 r).
Proof. ends. Qed.
Lemma ends_write_reg64 r v : ends (T := T) (write_reg64 r v).
Proof. ends. Qed.
Lemma ends_read_mem32 a : ends (T := T) (read_mem32 a).
Proof. ends. Qed.
Lemma ends_write_mem32 a v : ends (T := T) (write_mem32 a v).
Proof. ends. Qed.
Lemma ends_execute_progbuf : ends (T := T) execute_progbuf.
Proof. ends. Qed.

End commands.

#[export] Hint Resolve ends_resume_no_wait ends_ndmreset ends_hartreset ends_ackhavereset
  ends_set_reset_haltreq ends_clr_reset_haltreq ends_read_gpr ends_write_gpr ends_read_reg64
  ends_write_reg64 ends_read_mem32 ends_write_mem32 ends_execute_progbuf : ends.

Lemma ends_predicted_dmstatus {T : Type} `{Total T} `{Clock} p :
  ends (T := T) (RunControlSequence.predicted_dmstatus p).
Proof. apply ends_of_result, computed_expect. Qed.

#[export] Hint Resolve ends_predicted_dmstatus : ends.

(** ** What is computed outside of the transport *)

Lemma computed_dict_lookup k d : computed (dict_lookup k d).
Proof. unfold dict_lookup. destruct (List.find _ d) as [[? ?]|]; discriminate. Qed.

Lemma computed_prv_name v : computed (prv_name v).
Proof. unfold prv_name. repeat case_match; discriminate. Qed.

Lemma computed_of_string s base : computed (Int.of_string s base).
Proof. unfold Int.of_string. repeat case_match; discriminate. Qed.

Lemma computed_of_json_base v base : computed (Int.of_json_base v base).
Proof. destruct v; cbn; [..|apply computed_of_string]; discriminate. Qed.

Lemma computed_symbol (nm : string -> result string) elf symbol e :
  computed (nm elf) -> e <> OutOfFuel ->
  computed (try stdout <- nm elf;;
            match symbol_in stdout symbol with Some addr => addr | None => Raise e end).
Proof.
  intros Hn He. apply computed_rbind; [done|]. intros out.
  unfold symbol_in. destruct (List.find _ _) as [line|]; [|congruence].
  destruct (split line); [congruence|]. apply computed_of_string.
Qed.

Lemma computed_symbol_addr nm elf symbol :
  (forall elf, computed (nm elf)) -> computed (symbol_addr nm elf symbol).
Proof. intros Hn. by apply computed_symbol. Qed.

Lemma computed_stall_symbol_addr nm elf symbol :
  (forall elf, computed (nm elf)) -> computed (StepStall._symbol_addr nm elf symbol).
Proof. intros Hn. by apply computed_symbol. Qed.

#[export] Hint Resolve computed_dict_lookup computed_prv_name computed_symbol_addr
  computed_stall_symbol_addr computed_of_string computed_of_json_base : ends.
#[export] Hint Extern 2 (ends (of_result _)) => (apply ends_of_result) : ends.
#[export] Hint Extern 2 (ends (lift _)) => (apply ends_of_result) : ends.

Lemma computed_dict_lit l :
  Forall (fun kv => computed (snd kv)) l -> computed (dict_lit l).
Proof.
  unfold dict_lit. generalize (∅ : gmap string json). intros d Hl. revert d.
  induction Hl as [|[k r] l Hr Hl IH]; intros d; cbn [fold_ok]; [discriminate|].
  apply computed_rbind; [by apply computed_rmap|apply IH].
Qed.

(** A computation construct by construct. *)
Ltac computed :=
  repeat lazymatch goal with
    | |- computed (rbind _ _) => apply computed_rbind; [|intros ?]
    | |- computed (rmap _ _) => apply computed_rmap
    | |- computed (dict_lit _) => apply computed_dict_lit
    | |- Forall _ [] => apply List.Forall_nil
    | |- Forall _ (_ :: _) => apply List.Forall_cons; cbn [snd]
    | |- computed (match ?x with _ => _ end) => destruct x
    | |- computed (Ok _) => discriminate
    | |- computed (Raise _) => discriminate
    | |- computed ?c => let h := head_of c in unfold h
    end.

(** ** The loops of the sequences *)

Section loops.
Context {T : Type} `{Total T} `{Clock}.

Lemma ends_poll_halted (k : bool -> M StepResult.t) :
  (forall b, ends (T := T) (k b)) ->
  ends (T := T) (bind monotonic (fun now => bind is_halted (fun halted =>
    bind (ResetCtrl.poll_halted (poll_fuel ResetCtrl.POLL_TIMEOUT) (now + ResetCtrl.POLL_TIMEOUT)
            halted) k))).
Proof.
  intros Hk w. cbn [bind monotonic is_halted rd run].
  pose proof (total_read DMI.DMSTATUS (dev w)) as Hr.
  destruct (t_read DMI.DMSTATUS (dev w)) as [t [v|e]]; cbn [run snd]; [|cbn in Hr; congruence].
  set (w1 := w <| dev := t |> <| history := _ |>). rewrite run_bind.
  pose proof (poll_halted_fuel (allhalted v) w1 (fun a => total_read a)) as Hp.
  change (clock w) with (clock w1).
  destruct (run _ w1) as [w2 [a|e]]; [apply Hk|]. cbn in *. congruence.
Qed.

Lemma ends_haltreq_during_reset : ends (T := T) ResetCtrl.tc_rst_001_haltreq_during_reset.
Proof.
  unfold ResetCtrl.tc_rst_001_haltreq_during_reset. cbv zeta.
  do 4 (apply ends_bind; [ends|intros ?]). apply ends_poll_halted. intros b. ends.
Qed.

Lemma ends_read_each address l :
  (forall i, computed (address i)) -> ends (T := T) (ResetValues.read_each address l).
Proof. intros Ha. induction l as [|i l IH]; cbn [ResetValues.read_each]; ends. Qed.

Lemma ends_nonzero_of l : ends (T := T) (ResetValues.nonzero_of l).
Proof. induction l as [|[a n] l IH]; cbn [ResetValues.nonzero_of]; ends. Qed.

Lemma ends_advertised l : ends (T := T) (Sba.advertised l).
Proof. induction l as [|[w b] l IH]; cbn [Sba.advertised]; ends. Qed.

Lemma ends_until_not_busy n : ends (T := T) (until_not_busy n).
Proof. induction n as [|n IH]; cbn [until_not_busy]; ends. Qed.

#[local] Hint Resolve ends_until_not_busy : ends.

Lemma ends_sample n l : ends (T := T) (StepStall.sample n l).
Proof. revert l. induction n as [|n IH]; intros l; cbn [StepStall.sample]; ends. Qed.

Lemma ends_read_str n addr out : ends (T := T) (RunElf._read_str n addr out).
Proof. revert out. induction n as [|n IH]; intros out; cbn [RunElf._read_str]; ends. Qed.

Lemma ends_got {A : Type} (key : string) (f : RunElf.info -> option A) : ends (T := T) (RunElf.got key f).
Proof.
  unfold RunElf.got. apply ends_bind; [ends|]. intros i. apply ends_of_result.
  destruct (f i); discriminate.
Qed.

Lemma ends_locate lo hi l : ends (T := T) (RunElf.locate lo hi l).
Proof. induction l as [|i l IH]; cbn [RunElf.locate]; ends. Qed.

Lemma ends_wait_halted timeout : 0 <= timeout -> ends (T := T) (StepClasses._wait_halted timeout).
Proof. intros Ht. apply ends_deadline; [done|]. intros [v|]; ends. Qed.

Lemma ends_wait_halted_stall timeout : 0 <= timeout -> ends (T := T) (StepStall._wait_halted timeout).
Proof. intros Ht. apply ends_deadline; [done|]. intros [v|]; ends. Qed.

Lemma ends_wait_halted_irq timeout : 0 <= timeout -> ends (T := T) (PrivIrq._wait_halted timeout).
Proof. intros Ht. apply ends_deadline; [done|]. intros [v|]; ends. Qed.

Lemma ends_wait_halted_step timeout : 0 <= timeout -> ends (T := T) (SingleStep._wait_halted timeout).
Proof. intros Ht. apply ends_deadline; [done|]. intros [v|]; ends. Qed.

Lemma ends_wait_not_busy : ends (T := T) Cmderr.wait_not_busy.
Proof. by apply ends_deadline; [|intros v; ends]. Qed.

(** The accesses raced against a command are programs of their own. *)
Lemma ends_for_each_in {S X A} (f : X -> prog S A) l :
  Forall (fun x => ends (T := T) (f x)) l -> ends (T := T) (for_each f l).
Proof.
  induction 1 as [|x l Hx Hl IH]; cbn [for_each]; [apply ends_ret|].
  apply ends_bind; [done|]. intros y. apply ends_bind; [done|]. intros ys. apply ends_ret.
Qed.

Lemma ends_race_accesses accesses :
  Forall (fun a => ends (T := T) (snd a)) accesses -> ends (T := T) (CmdBusy._race accesses).
Proof.
  intros Ha. unfold CmdBusy._race. apply ends_bind; [|intros ?; ends].
  apply ends_for_each_in. eapply Forall_impl; [exact Ha|]. intros [n c] Hc; cbn in Hc. ends.
Qed.

Lemma ends_race command during :
  Forall (ends (T := T)) during -> ends (T := T) (CmdOutcome.race command during).
Proof.
  intros Hd. unfold CmdOutcome.race.
  do 2 (apply ends_bind; [ends|intros ?]). apply ends_bind; [by apply ends_for_each_in|intros ?]. ends.
Qed.

End loops.

#[export] Hint Extern 1 (Forall _ _) =>
  (repeat first [apply List.Forall_nil | apply List.Forall_cons; [cbn [snd]; ends|]]) : ends.
#[export] Hint Resolve ends_read_each ends_nonzero_of ends_advertised ends_until_not_busy ends_sample
  ends_read_str ends_locate ends_wait_halted ends_wait_halted_stall ends_wait_halted_irq
  ends_wait_halted_step ends_wait_not_busy ends_race_accesses ends_race
  ends_haltreq_during_reset ends_got : ends.

(** ** Steps that are not one command *)

Section steps.
Context {T : Type} `{Total T} `{Clock}.

Lemma act_ends_on_DebugError {S A} (c : act T S A) h :
  act_ends c -> (forall e, act_ends (h e)) -> act_ends (catch c (DebugEntry.on_DebugError h)).
Proof.
  intros Hc Hh. apply act_ends_catch; [done|]. intros e k He.
  destruct e; try discriminate. injection He as <-. apply Hh.
Qed.

Lemma act_ends_finally {A} (c : act T Z A) f :
  act_ends c -> act_ends f -> act_ends (DmCorners.finally c f).
Proof.
  intros Hc Hf w. unfold DmCorners.finally. pose proof (Hc w) as Hw.
  destruct (c w) as [w1 r]. pose proof (Hf w1) as Hw1.
  destruct (f w1) as [w2 [u|e]]; cbn in *; congruence.
Qed.

Lemma gated_ends (c : option bool -> M StepResult.t) :
  (forall gate, ends (T := T) (c gate)) -> step_ends (HaltOnReset.gated (T := T) c).
Proof.
  intros Hc [w gate]. pose proof (result_step_ends (c gate) (Hc gate) w) as Hw.
  unfold HaltOnReset.gated. by destruct (result_step (c gate) w).
Qed.

Lemma ungated_ends (c : M unit) :
  ends (T := T) c -> step_ends (HaltOnReset.ungated_none (T := T) c).
Proof.
  intros Hc [w gate]. pose proof (none_step_ends c Hc w) as Hw.
  unfold HaltOnReset.ungated_none. by destruct (none_step c w).
Qed.

Lemma tc_hor_001_ends : step_ends (HaltOnReset.tc_hor_001 (T := T)).
Proof.
  intros [w gate]. assert (ends (T := T) read_dmstatus) as Hr by ends. pose proof (Hr w) as Hw.
  unfold HaltOnReset.tc_hor_001. destruct (run read_dmstatus w) as [w1 [v|e]]; cbn in *; congruence.
Qed.

Lemma tc_rst_005_ends : step_ends (ResetCtrl.tc_rst_005 (T := T)).
Proof.
  intros w. unfold ResetCtrl.tc_rst_005.
  pose proof (ends_ndmreset (T := T) true w) as Hn. destruct (run (ndmreset true) w) as [w1 [u|e]];
    [|cbn in *; congruence].
  pose proof (ends_read_gpr (T := T) 0x1000 w1) as Hr.
  destruct (run (read_gpr 0x1000) w1) as [w2 r]. cbn [snd] in Hr.
  destruct (ResetCtrl.survival r) as [b|e] eqn:Hs.
  - apply result_step_ends. ends.
  - destruct r as [v|[]]; cbn in Hs |- *; congruence.
Qed.

End steps.

#[export] Hint Extern 1 (act_ends (DmCorners.finally _ _)) => (apply act_ends_finally; ends) : ends.
#[export] Hint Extern 1 (act_ends (catch _ (DebugEntry.on_DebugError _))) =>
  (apply act_ends_on_DebugError; [ends|intros ?; ends]) : ends.

(** Every step of a session that the builder makes. *)
Ltac sequence_step :=
  lazymatch goal with
  | |- session_ends (Ok ?s) => change (steps_end s)
  | |- steps_end (DebugSession.add_step _ _ _) => apply steps_end_add
  | |- steps_end (fold_left _ _ _) => apply steps_end_fold; [intros ? ? ?; cbv beta|]
  | |- steps_end (match ?x with _ => _ end) => destruct x
  | |- step_ends (none_step _) => apply none_step_ends; ends
  | |- step_ends (result_step _) => apply result_step_ends; ends
  | |- step_ends (act_step _) => apply act_step_ends; ends
  | |- step_ends (HaltOnReset.gated _) => apply gated_ends; intros ?; ends
  | |- step_ends (HaltOnReset.ungated_none _) => apply ungated_ends; ends
  | |- step_ends HaltOnReset.tc_hor_001 => apply tc_hor_001_ends
  | |- step_ends ResetCtrl.tc_rst_005 => apply tc_rst_005_ends
  | |- steps_end ?s => first [assumption | let h := head_of s in unfold h; cbv zeta beta]
  end.
Ltac sequence_ends :=
  lazymatch goal with |- session_ends ?s => let h := head_of s in unfold h end;
  apply session_ends_build; intros session Hs; cbv zeta beta; repeat sequence_step.

Section sequences.
Context {T : Type} `{Total T} `{Clock}.

Lemma dm_activation_ends mode : session_ends (DmActivation.build (T := T) mode).
Proof. sequence_ends. Qed.

Lemma hart_selection_ends mode : session_ends (HartSelection.build (T := T) mode).
Proof. sequence_ends. Qed.

Lemma halt_sequence_ends mode a r : session_ends (HaltSequence.build (T := T) mode a r).
Proof. sequence_ends. Qed.

Lemma run_control_ends mode h : session_ends (RunControlSequence.build (T := T) mode h).
Proof. sequence_ends. Qed.

Lemma halt_on_reset_ends mode n : session_ends (HaltOnReset.build (T := T) mode n).
Proof. sequence_ends. Qed.

Lemma reset_ctrl_ends mode h : session_ends (ResetCtrl.build (T := T) mode h).
Proof. sequence_ends. Qed.

Lemma read_dmstatus_ends mode : session_ends (ReadDmstatus.build (T := T) mode).
Proof. sequence_ends. Qed.

Lemma mem_scan_ends base n expected mode : session_ends (MemScan.build (T := T) base n expected mode).
Proof. sequence_ends. Qed.

Lemma discovery_ends mode : session_ends (Discovery.build (T := T) mode).
Proof. sequence_ends. Qed.

Lemma report_halt_status_ends mode h : session_ends (ReportHaltStatus.build (T := T) mode h).
Proof. sequence_ends. Qed.

Lemma gpr_write_ends mode r v : session_ends (GprWrite.build (T := T) mode r v).
Proof. sequence_ends. Qed.

Lemma csr_access_ends mode p0 p1 : session_ends (CsrAccess.build (T := T) mode p0 p1).
Proof. sequence_ends. Qed.

Lemma program_buffer_ends mode b : session_ends (ProgramBuffer.build (T := T) mode b).
Proof. sequence_ends. Qed.

Lemma sw_breakpoint_ends mode : session_ends (SwBreakpoint.build (T := T) mode).
Proof. sequence_ends. Qed.

Lemma external_trigger_ends mode : session_ends (ExternalTrigger.build (T := T) mode).
Proof. sequence_ends. Qed.

Lemma sba_ends mode a v : session_ends (Sba.build (T := T) mode a v).
Proof. sequence_ends. Qed.

Lemma hart_array_ends mode n : session_ends (HartArray.build (T := T) mode n).
Proof. sequence_ends. Qed.

Lemma single_step_ends mode : session_ends (SingleStep.build (T := T) mode).
Proof. sequence_ends. Qed.

Lemma step_classes_ends mode elf n : session_ends (StepClasses.build (T := T) mode elf n).
Proof. sequence_ends. Qed.

Lemma trigger_ends mode : session_ends (Trigger.build (T := T) mode).
Proof. sequence_ends. Qed.

Lemma cmderr_ends mode : session_ends (Cmderr.build (T := T) mode).
Proof. sequence_ends. Qed.

Lemma cmd_busy_ends mode : session_ends (CmdBusy.build (T := T) mode).
Proof. sequence_ends. Qed.

Lemma cmd_outcome_ends mode : session_ends (CmdOutcome.build (T := T) mode).
Proof. sequence_ends. Qed.

Lemma dm_corners_ends mode s b : session_ends (DmCorners.build (T := T) mode s b).
Proof. sequence_ends. Qed.

End sequences.

(** ** The sequences that read an ELF's symbols *)

Section symbols.
Context {T : Type} `{Total T} `{Clock} (nm : string -> result string).
Hypothesis nm_computed : forall elf, computed (nm elf).

Lemma ends_resolve_entry elf l : ends (T := T) (DebugEntry.resolve nm elf l).
Proof. induction l as [|x l IH]; cbn [DebugEntry.resolve]; ends. Qed.

Lemma ends_resolve_matrix elf l : ends (T := T) (StepMatrix.resolve nm elf l).
Proof. induction l as [|x l IH]; cbn [StepMatrix.resolve]; ends. Qed.

Lemma ends_advance target l : ends (T := T) (StepStall.advance target l).
Proof. induction l as [|x l IH]; cbn [StepStall.advance]; ends. Qed.

Lemma ends_step_at label prv n w : ends (T := T) (StepMatrix.step_at label prv n w).
Proof. ends. Qed.

Lemma ends_walk label prv l w : ends (T := T) (StepMatrix.walk label prv l w).
Proof.
  revert w. induction l as [|x l IH]; intros w; cbn [StepMatrix.walk]; [ends|].
  apply ends_bind; [apply ends_step_at|]. intros [e|w']; [ends|apply IH].
Qed.

#[local] Hint Resolve ends_resolve_entry ends_resolve_matrix ends_advance ends_walk : ends.

Lemma step_stall_ends mode elf symbol : session_ends (StepStall.build (T := T) nm mode elf symbol).
Proof. sequence_ends. Qed.

Lemma debug_entry_ends mode elf : session_ends (DebugEntry.build (T := T) nm mode elf).
Proof. sequence_ends. Qed.

Lemma step_matrix_ends mode elf : session_ends (StepMatrix.build (T := T) nm mode elf).
Proof. sequence_ends. Qed.

End symbols.

(** ** The sequences on more than the DMI *)

Section jtag.
Context {T : Type} `{Total T} `{TotalJtag T} `{Clock}.

Lemma act_ends_tms_walk tms : act_ends (PrivIrq.the_tms_walk (T := T) tms).
Proof.
  apply act_ends_call. intros f t. destruct tms_walk as [g|] eqn:Hg; [|discriminate].
  intros [= <-]. by apply total_tms_walk.
Qed.

(** A round takes 32 ticks off. *)
Lemma act_ends_dwell fuel ticks :
  0 <= ticks <= 32 * Z.of_nat fuel -> act_ends (PrivIrq.dwell (T := T) fuel ticks).
Proof.
  revert ticks. induction fuel as [|fuel IH]; intros ticks Ht; cbn [PrivIrq.dwell].
  - destruct (Z.eqb_spec ticks 0); [apply act_ends_ret|lia].
  - destruct (ticks =? 0); [apply act_ends_ret|]. cbv zeta.
    apply act_ends_bind; [apply act_ends_tms_walk|]. intros _. apply IH. lia.
Qed.

Lemma act_ends_sweep i : act_ends (PrivIrq.dwell (T := T) 4 (1 + (i * 13) mod 97)).
Proof. apply act_ends_dwell. pose proof (Z.mod_pos_bound (i * 13) 97). lia. Qed.

#[local] Hint Resolve act_ends_sweep : ends.

Lemma priv_irq_ends mode n : session_ends (PrivIrq.build (T := T) mode n).
Proof. sequence_ends. Qed.

Lemma act_ends_dtmcs wdata : act_ends (DmiError.the_dtmcs (T := T) wdata).
Proof.
  apply act_ends_call. intros f t. destruct dtmcs as [g|] eqn:Hg; [|discriminate].
  intros [= <-]. by apply total_dtmcs.
Qed.

Lemma act_ends_dmi_scan op addr data : act_ends (DmiError.the_dmi_scan (T := T) op addr data).
Proof.
  apply act_ends_call. intros f t. destruct dmi_scan as [g|] eqn:Hg; [|discriminate].
  intros [= <-]. by apply total_dmi_scan.
Qed.

Lemma act_ends_jtag_scan ir len data pause :
  act_ends (DmiError.the_jtag_scan (T := T) ir len data pause).
Proof.
  apply act_ends_call. intros f t. destruct jtag_scan as [g|] eqn:Hg; [|discriminate].
  intros [= <-]. by apply total_jtag_scan.
Qed.

Lemma act_ends_walk tms : act_ends (DmiError.the_tms_walk (T := T) tms).
Proof.
  apply act_ends_call. intros f t. destruct tms_walk as [g|] eqn:Hg; [|discriminate].
  intros [= <-]. by apply total_tms_walk.
Qed.

Lemma act_ends_reset : act_ends (call (T := T) (S := Z) "reset" (Some t_reset)).
Proof. apply act_ends_call. intros f t [= <-]. apply total_reset. Qed.

#[local] Hint Resolve act_ends_dtmcs act_ends_dmi_scan act_ends_jtag_scan act_ends_walk
  act_ends_reset : ends.

Lemma dmi_error_ends mode idcode : session_ends (DmiError.build (T := T) mode idcode).
Proof. sequence_ends. Qed.

End jtag.

Section reset_values.
Context {T : Type} `{Total T} `{Clock}.
Context (dtmcs : option (W T -> W T * result Z)) (load : string -> result DutConfig.t).
Hypothesis dtmcs_ends : forall read w, dtmcs = Some read -> snd (read w) <> Raise OutOfFuel.

Lemma computed_hartinfo cfg : computed (ResetValues.hartinfo_expected cfg).
Proof. computed. Qed.
Lemma computed_abstractcs cfg : computed (ResetValues.abstractcs_expected cfg).
Proof. computed. Qed.
Lemma computed_sbcs cfg : computed (ResetValues.sbcs_expected cfg).
Proof. computed. Qed.
Lemma computed_count cfg key : computed (try v <- raw_get cfg key;; as_index v).
Proof. computed. Qed.
Lemma computed_raw_get cfg key : computed (raw_get cfg key).
Proof. computed. Qed.
Lemma computed_raw_flag cfg key : computed (raw_flag cfg key).
Proof. computed. Qed.
Lemma computed_data_address i : computed (data_address i).
Proof. computed. Qed.
Lemma computed_progbuf_address i : computed (progbuf_address i).
Proof. computed. Qed.

#[local] Hint Resolve computed_hartinfo computed_abstractcs computed_sbcs computed_count
  computed_raw_get computed_raw_flag computed_data_address computed_progbuf_address : ends.

Lemma rst_043_ends : step_ends (ResetValues.rst_043 dtmcs).
Proof.
  intros w. unfold ResetValues.rst_043. destruct dtmcs as [read|]; [|apply result_step_ends; ends].
  pose proof (dtmcs_ends read w eq_refl) as Hr. destruct (read w) as [w1 [v|e]].
  - apply result_step_ends. ends.
  - cbn in *. congruence.
Qed.

Lemma reset_values_ends mode dut : session_ends (ResetValues.build dtmcs load mode dut).
Proof.
  apply session_ends_build. intros session Hs. destruct (load dut) as [config|e]; [|exact I].
  cbn [rbind]. cbv zeta. repeat sequence_step; first [apply rst_043_ends | done].
Qed.

End reset_values.

(** ** Waiting on the simulated time *)

(** A transport whose simulated time a read takes at least a tick of, and nothing
    turns back. *)
Class Simulated (T : Type) `{DebugTransport T} `{JtagTransport T} := {
  sim : T -> Z;
  sim_read addr t v : snd (t_read addr t) = Ok v -> sim t + 1 <= sim (fst (t_read addr t));
  sim_write addr v t u : snd (t_write addr v t) = Ok u -> sim t <= sim (fst (t_write addr v t));
  sim_time_law f t v :
    sim_time = Some f -> snd (f t) = Ok v -> v = sim t /\ sim t <= sim (fst (f t))
}.

Section simulated.
Context {T : Type} `{Simulated T} `{!Total T} `{!TotalJtag T} `{Clock}.

Lemma run_sim {S A} (c : prog S A) (w : world T S) a :
  snd (run c w) = Ok a -> sim (dev w) <= sim (dev (fst (run c w))).
Proof.
  revert w. induction c as [b|e|addr k IH|addr v k IH|k IH|s k IH|k IH|k IH|d k IH];
    intros w Hr; cbn [run] in *; try done; try lia; try by apply IH in Hr.
  - pose proof (sim_read addr (dev w)) as Hv. destruct (t_read addr (dev w)) as [t [v|e]]; [|done].
    apply IH in Hr. specialize (Hv v eq_refl). cbn in *. lia.
  - pose proof (sim_write addr v (dev w)) as Hv.
    destruct (t_write addr v (dev w)) as [t [u|e]]; [|done].
    apply IH in Hr. specialize (Hv u eq_refl). cbn in *. lia.
Qed.

Lemma run_then_rd_sim {S} (c : prog S unit) addr (w : world T S) v :
  snd (run (bind c (fun _ => Rd addr Ret)) w) = Ok v ->
  sim (dev w) + 1 <= sim (dev (fst (run (bind c (fun _ => Rd addr Ret)) w))).
Proof.
  rewrite run_bind. pose proof (run_sim c w) as Hc.
  destruct (run c w) as [w1 [u|e]]; [|done]. specialize (Hc u eq_refl). cbn in Hc |- *.
  pose proof (sim_read addr (dev w1)) as Hv. destruct (t_read addr (dev w1)) as [t [x|e]]; [|done].
  specialize (Hv x eq_refl). cbn in *. lia.
Qed.

(** Reading memory reads sbdata0 last, at least. *)
Lemma read_mem32_sim addr (w : world T (Z * RunElf.info)) v :
  snd (run (lib (read_mem32 addr)) w) = Ok v ->
  sim (dev w) + 1 <= sim (dev (fst (run (lib (read_mem32 addr)) w))).
Proof.
  destruct w as [d [s i] t h]. rewrite run_lib.
  set (c := (wr DMI.SBCS (Z.lor (Z.shiftl 1 20) (Z.shiftl 2 17));;; wr DMI.SBADDRESS0 addr;;;
             _wait_sbus DEFAULT_TIMEOUT)%prog : M unit).
  change (read_mem32 addr) with (bind c (fun _ => Rd DMI.SBDATA0 Ret)).
  pose proof (run_then_rd_sim c DMI.SBDATA0 (mk_world d s t h) v) as Hw.
  by destruct (run (bind c _) (mk_world d s t h)).
Qed.

Lemma sim_clock_ok (w : world T (Z * RunElf.info)) v :
  snd (RunElf.sim_clock w) = Ok v ->
  v = sim (dev w) /\ sim (dev w) <= sim (dev (fst (RunElf.sim_clock w))).
Proof.
  unfold RunElf.sim_clock, call. destruct sim_time as [f|] eqn:Hf; [|done].
  pose proof (sim_time_law f (dev w) v Hf) as Hv. destruct (f (dev w)) as [t r]. exact Hv.
Qed.

Lemma act_ends_sim_clock : act_ends RunElf.sim_clock.
Proof. apply act_ends_call. intros f t. apply total_sim_time. Qed.

(** Each round reads the memory before the budget is looked at: a budget of [n]
    ticks is over after [n + 1] rounds. *)
Lemma poll_tohost_ends fuel start budget polls (w : world T (Z * RunElf.info)) :
  start + budget - sim (dev w) < Z.of_nat fuel -> (1 <= fuel)%nat ->
  snd (RunElf.poll_tohost fuel start budget polls w) <> Raise OutOfFuel.
Proof.
  revert polls w. induction fuel as [|fuel IH]; intros polls w Hd Hf; [lia|].
  cbn [RunElf.poll_tohost]. unfold act_bind at 1, cmd at 1. cbn [RunElf.got bind vars run].
  destruct (RunElf.tohost (snd (self w))) as [addr|]; [|done]. cbn [of_result run].
  unfold act_bind at 1, cmd.
  pose proof (read_mem32_sim addr w) as Hm. pose proof (ends_lib _ (ends_read_mem32 addr) w) as He.
  destruct (run (lib (read_mem32 addr)) w) as [w1 [v|e]]; [|cbn in *; congruence].
  specialize (Hm v eq_refl). cbn [fst] in Hm. cbv zeta.
  destruct (RunElf.verdict_given v); [done|]. unfold act_bind at 1.
  pose proof (sim_clock_ok w1) as Hs. pose proof (act_ends_sim_clock w1) as Hc.
  destruct (RunElf.sim_clock w1) as [w2 [now|e]]; [|cbn in *; congruence].
  destruct (Hs now eq_refl) as [-> Hle]. cbn [fst] in Hle.
  destruct (Z.ltb_spec budget (sim (dev w1) - start)); [done|].
  destruct fuel as [|fuel]; [lia|]. apply IH; lia.
Qed.

Lemma wait_verdict_ends fuel budget :
  budget < Z.of_nat fuel -> (1 <= fuel)%nat -> act_ends (RunElf.wait_verdict (T := T) fuel budget).
Proof.
  intros Hb Hf w. unfold RunElf.wait_verdict. unfold act_bind at 1.
  pose proof (sim_clock_ok w) as Hs. pose proof (act_ends_sim_clock w) as Hc.
  destruct (RunElf.sim_clock w) as [w1 [start|e]]; [|cbn in *; congruence].
  destruct (Hs start eq_refl) as [-> Hle]. cbn [fst] in Hle. unfold act_bind at 1.
  pose proof (poll_tohost_ends fuel (sim (dev w)) budget 0 w1) as Hp.
  destruct (RunElf.poll_tohost _ _ _ _ w1) as [w2 [[v polls]|e]];
    [|cbn in *; intros [= ->]; by apply Hp; [lia..|]].
  set (rest := act_bind RunElf.sim_clock _). revert w2 Hp. intros w2 _. revert w2.
  change (act_ends rest). unfold rest. apply act_ends_bind; [apply act_ends_sim_clock|]. intros now. ends.
Qed.

Context (nm : string -> result string) (addr2line : string -> Z -> option string).
Hypothesis nm_computed : forall elf, computed (nm elf).

Lemma ends_act_failure_record elf : ends (T := T) (RunElf._act_failure_record nm addr2line elf).
Proof.
  unfold RunElf._act_failure_record.
  pose proof (computed_symbol_addr nm elf "begin_failure_scratch" nm_computed) as Hs.
  destruct (symbol_addr nm elf "begin_failure_scratch") as [base|e]; [ends|].
  destruct (RunElf.is_RuntimeError e); [ends|]. apply ends_throw. unfold computed in Hs. congruence.
Qed.

Lemma ends_failure_record elf : ends (T := T) (RunElf._failure_record nm addr2line elf).
Proof.
  unfold RunElf._failure_record.
  pose proof (computed_symbol_addr nm elf "native_fail" nm_computed) as Hs.
  destruct (symbol_addr nm elf "native_fail") as [base|e]; [ends|].
  destruct (RunElf.is_RuntimeError e); [apply ends_act_failure_record|].
  apply ends_throw. unfold computed in Hs. congruence.
Qed.

#[local] Hint Resolve ends_failure_record wait_verdict_ends : ends.

(** The program-run sequence has a loop that only the simulated time bounds.  On a
    transport where a read takes at least a tick of it, every step ends, whatever the
    device answers: a budget of [n] ticks is used up within [n + 1] polls. *)
Theorem run_elf_ends fuel mode elf budget :
  budget < Z.of_nat fuel -> (1 <= fuel)%nat ->
  session_ends (RunElf.build (T := T) nm addr2line fuel mode elf budget).
Proof. intros Hb Hf. sequence_ends. Qed.

End simulated.

(** ** Every sequence *)


(** ** Witnesses *)

Section witnesses.
Let pr : UVMTransport ModelBridge.t -> option DMPredictor.t := fun _ => None.
#[local] Existing Instance exact_clock.
#[local] Instance socket : DebugTransport (UVMTransport ModelBridge.t) := uvm_transport pr.

(** Over the socket, the model's clock is the simulated time. *)
#[local] Instance bridge_simulated : Simulated (UVMTransport ModelBridge.t).
Proof.
  refine {| sim := fun t : UVMTransport ModelBridge.t => ModelBridge.ns (peer t) |}.
  - intros addr t v Hv. cbn [t_read socket uvm_transport] in *.
    destruct (uvm_connected t) eqn:Hc; [by rewrite read_sends|].
    unfold uvm_read, _transact in Hv. by rewrite Hc in Hv.
  - intros addr v t u. cbn [t_write socket uvm_transport]. unfold uvm_write, just.
    pose proof (transact_sends [("op", JStr "write"); ("addr", JNum addr); ("data", JNum v)] t) as Hs.
    destruct (uvm_connected t) eqn:Hc; [|unfold _transact; by rewrite Hc].
    specialize (Hs eq_refl). destruct (_transact _ t) as [t' r]. cbn in Hs |- *. subst t'. cbn. lia.
  - intros f t v [= <-]. unfold sim_time_s, asking.
    destruct (uvm_connected t) eqn:Hc; [|unfold _transact; by rewrite Hc].
    pose proof (transact_sends [("op", JStr "sim_time")] t Hc) as Hs.
    set (resp := list_to_map [("id", JNum (_id_counter t + 1)); ("status", JStr "ok");
                              ("data", JNum (ModelBridge.ns (peer t)))] : Raw).
    pose proof (transact_acknowledged [("op", JStr "sim_time")] t resp Hc eq_refl
                  (conj eq_refl eq_refl)) as Ha.
    destruct (_transact _ t) as [t' r]. cbn in Hs, Ha. subst t' r. cbn [snd rbind].
    replace (data_of resp) with (Ok (ModelBridge.ns (peer t))) by done.
    cbn. intros [= <-]. split; [done|lia].
Defined.


Lemma run_elf_ends_witness :
  session_ends (RunElf.build (T := UVMTransport ModelBridge.t) (fun _ => Ok sample_nm)
                  (fun _ _ => None) 2001 "batch" "a.elf" 2000).
Proof. apply run_elf_ends; [discriminate|lia|lia]. Defined.

End witnesses.
