(* ===== verification/Shell.v ===== *)
(** The interactive shell: [api/interactive_shell.py], with what it uses of
    Python's [cmd] and [shlex].

    A command is a program over the transport whose variables are the lines
    printed so far.  The lines typed are a list; [None] stands for an interrupt at
    the prompt, and after the last line comes the end of the file. *)

From Stdlib Require Import Ascii.
From S2P Require Import Prelude Registers Predictor Transport RiscvDm Session Sequences Closures.
From S2P Require Import DutConfig Text.

Local Open Scope string_scope.
Local Open Scope list_scope.
Local Open Scope Z_scope.
Local Open Scope prog_scope.

(** ** Python's [shlex.split] *)

Module Shlex.

Definition whitespace (c : ascii) : bool :=
  existsb (Ascii.eqb c) [" "%char; ascii_of_nat 9; ascii_of_nat 13; ascii_of_nat 10].
Definition quote (c : ascii) : bool := Ascii.eqb c "'" || Ascii.eqb c (ascii_of_nat 34).
Definition escape (c : ascii) : bool := Ascii.eqb c "\".

(** Between words, in a word, in a quotation; after an escape in one of the last two. *)
Inductive state :=
  | Between
  | Word
  | Quoted (q : ascii)
  | Escaped (q : option ascii).

(** [word] holds the characters of the current word, the last one first, and
    [quoted] says that it has had a quotation, so that it counts when empty. *)
Fixpoint split_from (l : list ascii) (st : state) (word : list ascii) (quoted : bool)
    : result (list string) :=
  let done := String.string_of_list_ascii (rev word) in
  let emit (rest : result (list string)) :=
    match word, quoted with [], false => rest | _, _ => rmap (cons done) rest end in
  match l with
  | [] =>
      match st with
      | Between | Word => emit (Ok [])
      | Quoted _ => Raise (ValueError "No closing quotation")
      | Escaped _ => Raise (ValueError "No escaped character")
      end
  | c :: l =>
      match st with
      | Between =>
          if whitespace c then split_from l Between [] false
          else if escape c then split_from l (Escaped None) [] false
          else if quote c then split_from l (Quoted c) [] false
          else split_from l Word [c] false
      | Word =>
          if whitespace c then emit (split_from l Between [] false)
          else if quote c then split_from l (Quoted c) word quoted
          else if escape c then split_from l (Escaped None) word quoted
          else split_from l Word (c :: word) quoted
      | Quoted q =>
          if Ascii.eqb c q then split_from l Word word true
          else if escape c && Ascii.eqb q (ascii_of_nat 34)
          then split_from l (Escaped (Some q)) word true
          else split_from l (Quoted q) (c :: word) true
      | Escaped None => split_from l Word (c :: word) quoted
      | Escaped (Some q) =>
          split_from l (Quoted q)
            (c :: if escape c || Ascii.eqb c q then word else "\"%char :: word) quoted
      end
  end.

Definition split (s : string) : result (list string) :=
  split_from (String.list_ascii_of_string s) Between [] false.

End Shlex.

(** ** Arguments *)

Definition strip (s : string) : string := rstrip (lstrip s).

(** api/interactive_shell.py:27-35 (_ABI_NAMES) *)
Definition _ABI_NAMES : list (string * Z) :=
  [("zero", 0); ("ra", 1); ("sp", 2); ("gp", 3); ("tp", 4);
   ("t0", 5); ("t1", 6); ("t2", 7);
   ("s0", 8); ("fp", 8); ("s1", 9);
   ("a0", 10); ("a1", 11); ("a2", 12); ("a3", 13); ("a4", 14); ("a5", 15); ("a6", 16); ("a7", 17);
   ("s2", 18); ("s3", 19); ("s4", 20); ("s5", 21); ("s6", 22); ("s7", 23);
   ("s8", 24); ("s9", 25); ("s10", 26); ("s11", 27);
   ("t3", 28); ("t4", 29); ("t5", 30); ("t6", 31)].

(** api/interactive_shell.py:38-40 (_parse_int) *)
Definition _parse_int (s : string) : result Z :=
  let s := strip s in
  if String.prefix "0x" (lower s) then Int.of_string s 16 else Int.of_string s 10.

(** [s.isdigit()] of an ASCII string. *)
Definition isdigit (s : string) : bool :=
  let l := String.list_ascii_of_string s in
  negb (Nat.eqb (length l) 0) &&
  forallb (fun c => let n := nat_of_ascii c in Nat.leb 48 n && Nat.leb n 57) l.

(** api/interactive_shell.py:43-51 (_parse_gpr) *)
Definition _parse_gpr (s : string) : result Z :=
  let s := lower (strip s) in
  let number := match s with
                | String "x" rest => if isdigit rest then Some rest else None
                | _ => None
                end in
  match number with
  | Some rest => rmap (Z.lor 0x1000) (Int.of_string rest 10)
  | None =>
      match List.find (fun '(name, _) => String.eqb name s) _ABI_NAMES with
      | Some (_, n) => Ok (Z.lor 0x1000 n)
      | None => _parse_int s
      end
  end.

Module RiscvDebugShell.

(** A command: it may use the transport and the tracked hartsel, and print. *)
Definition command (A : Type) : Type := prog (Z * list string) A.

Definition print (line : string) : command unit := do out <- vars;; set_vars (out ++ [line]).

(** api/interactive_shell.py:55-58 (intro) *)
Definition intro : list string :=
  ["pydebug interactive shell -- type `help` for commands, `quit` to end.";
   "Every command below is a real, immediate operation against the live target."].

(** *** Activation and run control *)

(** api/interactive_shell.py:79-82 (do_activate) *)
Definition do_activate (arg : string) : command unit :=
  lib RISCVDebug.activate;;; print "DM activated".

(** api/interactive_shell.py:84-87 (do_deactivate) *)
Definition do_deactivate (arg : string) : command unit :=
  lib RISCVDebug.deactivate;;; print "DM deactivated".

(** api/interactive_shell.py:91-94 (do_halt) *)
Definition do_halt (arg : string) : command unit :=
  lib (RISCVDebug.halt RISCVDebug.DEFAULT_TIMEOUT);;;
  do pc <- lib RISCVDebug.get_pc;;
  print ("halted, PC = " +:+ py_hex 8 pc).

(** api/interactive_shell.py:96-99 (do_resume) *)
Definition do_resume (arg : string) : command unit :=
  lib (RISCVDebug.resume RISCVDebug.DEFAULT_TIMEOUT);;; print "running".

(** api/interactive_shell.py:101-110 (do_step) *)
Definition do_step (arg : string) : command unit :=
  lib (RISCVDebug.set_step true);;;
  lib RISCVDebug.resume_no_wait;;;
  lib (RISCVDebug._poll_until (fun s => Ok (allhalted s)) 0x11 "allhalted (post-step)" 2000000);;;
  lib (RISCVDebug.set_step false);;;
  do cause <- lib RISCVDebug.get_dcsr_cause;;
  do pc <- lib RISCVDebug.get_pc;;
  print ("stepped, PC = " +:+ py_hex 8 pc +:+ "  dcsr.cause=" +:+ pretty cause).

(** api/interactive_shell.py:112-115 (do_select_hart) *)
Definition do_select_hart (arg : string) : command unit :=
  do n <- of_result (_parse_int arg);;
  lib (RISCVDebug.select_hart n);;;
  do n <- of_result (_parse_int arg);;
  print ("hartsel = " +:+ pretty n).

(** api/interactive_shell.py:117-121 (do_ndmreset) *)
Definition do_ndmreset (arg : string) : command unit :=
  let assert_reset := negb (String.eqb (strip arg) "deassert") in
  lib (RISCVDebug.ndmreset assert_reset);;;
  print ("ndmreset " +:+ if assert_reset then "asserted" else "deasserted").

(** api/interactive_shell.py:123-127 (do_hartreset) *)
Definition do_hartreset (arg : string) : command unit :=
  let assert_reset := negb (String.eqb (strip arg) "deassert") in
  lib (RISCVDebug.hartreset assert_reset);;;
  print ("hartreset " +:+ if assert_reset then "asserted" else "deasserted").

(** *** Registers and memory *)

(** api/interactive_shell.py:131-135 (do_read_gpr) *)
Definition do_read_gpr (arg : string) : command unit :=
  do regno <- of_result (_parse_gpr arg);;
  do val <- lib (RISCVDebug.read_gpr regno);;
  print (strip arg +:+ " = " +:+ py_hex 8 val).

(** api/interactive_shell.py:137-146 (do_write_gpr) *)
Definition do_write_gpr (arg : string) : command unit :=
  do parts <- of_result (Shlex.split arg);;
  match parts with
  | [reg; value] =>
      do regno <- of_result (_parse_gpr reg);;
      do val <- of_result (_parse_int value);;
      lib (RISCVDebug.write_gpr regno val);;;
      print (reg +:+ " <- " +:+ py_hex 8 val)
  | _ => print "usage: write_gpr <reg> <value>"
  end.

(** api/interactive_shell.py:148-150 (do_pc) *)
Definition do_pc (arg : string) : command unit :=
  do pc <- lib RISCVDebug.get_pc;;
  print ("PC = " +:+ py_hex 8 pc).

(** api/interactive_shell.py:154-164 (do_read_mem) *)
Definition do_read_mem (arg : string) : command unit :=
  do parts <- of_result (Shlex.split arg);;
  match parts with
  | [] => print "usage: read_mem <addr> [count]"
  | first :: rest =>
      do addr <- of_result (_parse_int first);;
      do count <- match rest with [] => Ret 1 | n :: _ => of_result (_parse_int n) end;;
      for_each (fun i =>
        let a := addr + 4 * i in
        do word <- lib (RISCVDebug.read_mem32 a);;
        print (py_hex 8 a +:+ ": " +:+ py_hex 8 word)) (py_range count);;;
      Ret tt
  end.

(** api/interactive_shell.py:166-174 (do_write_mem) *)
Definition do_write_mem (arg : string) : command unit :=
  do parts <- of_result (Shlex.split arg);;
  match parts with
  | [first; second] =>
      do addr <- of_result (_parse_int first);;
      do val <- of_result (_parse_int second);;
      lib (RISCVDebug.write_mem32 addr val);;;
      print (py_hex 8 addr +:+ " <- " +:+ py_hex 8 val)
  | _ => print "usage: write_mem <addr> <value>"
  end.

(** *** Raw DMI accesses and status *)

(** api/interactive_shell.py:178-181 (do_read_dmi) *)
Definition do_read_dmi (arg : string) : command unit :=
  do addr <- of_result (_parse_int arg);;
  do val <- rd addr;;
  print ("DMI[" +:+ py_hex 2 addr +:+ "] = " +:+ py_hex 8 val).

(** api/interactive_shell.py:183-191 (do_write_dmi) *)
Definition do_write_dmi (arg : string) : command unit :=
  do parts <- of_result (Shlex.split arg);;
  match parts with
  | [first; second] =>
      do addr <- of_result (_parse_int first);;
      do val <- of_result (_parse_int second);;
      wr addr val;;;
      print ("DMI[" +:+ py_hex 2 addr +:+ "] <- " +:+ py_hex 8 val)
  | _ => print "usage: write_dmi <addr> <value>"
  end.

(** api/interactive_shell.py:195-206 (do_status) *)
Definition do_status (arg : string) : command unit :=
  do s <- lib RISCVDebug.read_dmstatus;;
  print ("dmstatus = " +:+ py_hex 8 s);;;
  print ("  version           = " +:+ pretty (version s));;;
  print ("  allhalted         = " +:+ py_bool (allhalted s));;;
  print ("  allrunning        = " +:+ py_bool (allrunning s));;;
  print ("  allresumeack      = " +:+ py_bool (allresumeack s));;;
  print ("  allhavereset      = " +:+ py_bool (allhavereset s));;;
  print ("  anyunavail        = " +:+ py_bool (anyunavail s));;;
  print ("  hasresethaltreq   = " +:+ py_bool (hasresethaltreq s));;;
  print ("  ndmresetpending   = " +:+ py_bool (ndmresetpending s)).

(** api/interactive_shell.py:208-210 (do_dmcontrol) *)
Definition do_dmcontrol (arg : string) : command unit :=
  do v <- lib RISCVDebug.read_dmcontrol;;
  print ("dmcontrol = " +:+ py_hex 8 v).

(** *** The table of commands *)

(** What a command returns: [None], or [True], which ends the shell. *)
Inductive method :=
  | Returns_none (f : string -> command unit)
  | Returns_true.

(** The commands of the class with their documentation strings; [do_exit] and
    [do_EOF] are [do_quit].
    api/interactive_shell.py:214-219 (do_quit, do_exit, do_EOF) *)
Definition methods : list (string * (string * method)) :=
  [("activate", ("activate -- write dmcontrol.dmactive=1, verify DM version", Returns_none do_activate));
   ("deactivate", ("deactivate -- write dmcontrol.dmactive=0 (resets the DM)", Returns_none do_deactivate));
   ("halt", ("halt -- request halt, poll dmstatus.allhalted", Returns_none do_halt));
   ("resume", ("resume -- request resume, poll dmstatus.allrunning", Returns_none do_resume));
   ("step", ("step -- single-step one instruction (dcsr.step), then report the new PC", Returns_none do_step));
   ("select_hart", ("select_hart <n> -- select hart n for every subsequent dmcontrol write",
                    Returns_none do_select_hart));
   ("ndmreset", ("ndmreset [assert|deassert] -- platform reset (default: assert)", Returns_none do_ndmreset));
   ("hartreset", ("hartreset [assert|deassert] -- hart-only reset (default: assert)", Returns_none do_hartreset));
   ("read_gpr", ("read_gpr <x5|t0|a0|regno> -- read a GPR/CSR via abstract command", Returns_none do_read_gpr));
   ("write_gpr", ("write_gpr <x5|t0|a0|regno> <value> -- write a GPR/CSR via abstract command",
                  Returns_none do_write_gpr));
   ("pc", ("pc -- read the current PC (dpc CSR via abstract command)", Returns_none do_pc));
   ("read_mem", ("read_mem <addr> [count] -- read count (default 1) 32-bit words starting at addr",
                 Returns_none do_read_mem));
   ("write_mem", ("write_mem <addr> <value> -- write one 32-bit word via System Bus Access",
                  Returns_none do_write_mem));
   ("read_dmi", ("read_dmi <addr> -- raw DMI register read (bypasses RISCVDebug helpers)",
                 Returns_none do_read_dmi));
   ("write_dmi", ("write_dmi <addr> <value> -- raw DMI register write", Returns_none do_write_dmi));
   ("status", ("status -- decoded dmstatus snapshot", Returns_none do_status));
   ("dmcontrol", ("dmcontrol -- raw dmcontrol read-back", Returns_none do_dmcontrol))] ++
  map (fun name => (name, ("quit -- disconnect (sends the transport shutdown, ends the sim) and exit",
                           Returns_true))) ["quit"; "exit"; "EOF"].

Definition find_method (name : string) : option (string * method) :=
  match List.find (fun '(n, _) => String.eqb n name) methods with
  | Some (_, m) => Some m
  | None => None
  end.

(** ** [cmd.Cmd] *)

Section cmd.

(** What [help] prints by itself, and of itself. *)
Context (topics : list string) (help_doc : string).

(** [Cmd.do_help]; the class defines no [help_*] method. *)
Definition do_help (arg : string) : command unit :=
  if String.eqb arg EmptyString then for_each print topics;;; Ret tt
  else if String.eqb arg "help" then print help_doc
  else match find_method arg with
       | Some (doc, _) => print doc
       | None => print ("*** No help on " +:+ arg)
       end.

(** [Cmd.default]. *)
Definition default (line : string) : command unit := print ("*** Unknown syntax: " +:+ line).

(** [Cmd.identchars]. *)
Definition identchar (c : ascii) : bool :=
  let n := nat_of_ascii c in
  (Nat.leb 48 n && Nat.leb n 57) || (Nat.leb 65 n && Nat.leb n 90) || Nat.eqb n 95 ||
  (Nat.leb 97 n && Nat.leb n 122).

Fixpoint span_ident (s : string) : string * string :=
  match s with
  | String c s' =>
      if identchar c then let (a, b) := span_ident s' in (String c a, b) else (EmptyString, s)
  | EmptyString => (EmptyString, EmptyString)
  end.

(** [Cmd.parseline]: the command, if any, its argument and the line; the class has
    no [do_shell]. *)
Definition parseline (line : string) : option (string * string) * string :=
  let line := strip line in
  let parse line := let (cmd, arg) := span_ident line in (Some (cmd, strip arg), line) in
  match line with
  | EmptyString => (None, line)
  | String "?" rest => parse ("help " +:+ rest)
  | String "!" _ => (None, line)
  | _ => parse line
  end.

(** [Cmd.onecmd], and the overridden [emptyline].
    api/interactive_shell.py:221-222 (emptyline) *)
Definition Cmd_onecmd (line : string) : command bool :=
  let (parsed, line) := parseline line in
  if String.eqb line EmptyString then Ret false
  else match parsed with
       | None => default line;;; Ret false
       | Some (cmd, arg) =>
           if String.eqb cmd EmptyString then default line;;; Ret false
           else if String.eqb cmd "help" then do_help arg;;; Ret false
           else match find_method cmd with
                | None => default line;;; Ret false
                | Some (_, Returns_true) => Ret true
                | Some (_, Returns_none f) => f arg;;; Ret false
                end
       end.

Section shell.
Context {T : Type} `{DebugTransport T} `{Clock}.

(** What [onecmd] handles, and the line it prints.
    api/interactive_shell.py:70-75 (onecmd, the handlers) *)
Definition handled (e : exn) : option string :=
  match e with
  | DebugError _ | TransportError _ => Some ("error: " +:+ str_exn e)
  | ValueError _ => Some ("bad argument: " +:+ str_exn e)
  | _ => None
  end.

(** api/interactive_shell.py:67-75 (onecmd) *)
Definition onecmd (line : string) : act T (Z * list string) bool :=
  catch (cmd (Cmd_onecmd line))
        (fun e => match handled e with
                  | Some message => Some (act_bind (cmd (print message)) (fun _ => act_ret false))
                  | None => None
                  end).

(** [Cmd.cmdloop]: the introduction, then a line at a time until one ends the shell.
    After the last line the prompt finds the end of the file, which is the line
    [EOF]. *)
Fixpoint loop (lines : list (option string)) : act T (Z * list string) unit :=
  match lines with
  | [] => act_bind (onecmd "EOF") (fun _ => act_ret tt)
  | None :: _ => fun w => (w, Raise (KeyboardInterrupt EmptyString))
  | Some line :: lines =>
      act_bind (onecmd line) (fun stop => if stop : bool then act_ret tt else loop lines)
  end.

Definition cmdloop (lines : list (option string)) : act T (Z * list string) unit :=
  act_bind (cmd (for_each print intro)) (fun _ => loop lines).

End shell.
End cmd.
End RiscvDebugShell.
