(* ===== verification/ShellSound.v ===== *)
(** What the interactive shell promises whoever types at it ([Shell]). *)

From S2P Require Import Prelude Registers Predictor Transport RiscvDm Session Sequences Closures.
From S2P Require Import Buffers DutConfig Text UvmTransport Programs RiscvDmSound UvmSound Shell.
Import RiscvDebugShell.

Local Open Scope string_scope.
Local Open Scope list_scope.
Local Open Scope Z_scope.

(** ** Which line ends the shell *)

(** The command of a line. *)
Definition command_word (line : string) : option string :=
  match fst (parseline line) with
  | Some (name, _) => if String.eqb (snd (parseline line)) EmptyString then None else Some name
  | None => None
  end.

Lemma find_true name doc :
  find_method name = Some (doc, Returns_true) -> name ∈ ["quit"; "exit"; "EOF"].
Proof.
  unfold find_method. destruct (List.find _ methods) as [[n m]|] eqn:Hf; [|done].
  intros [= ->]. apply List.find_some in Hf as [Hin Hn]. apply String.eqb_eq in Hn as ->.
  cbn in Hin. repeat (destruct Hin as [Hin|Hin]; [injection Hin; intros; try discriminate; subst; set_solver|]).
  done.
Qed.

Lemma find_quit name :
  name ∈ ["quit"; "exit"; "EOF"] -> exists doc, find_method name = Some (doc, Returns_true).
Proof.
  rewrite !elem_of_cons, elem_of_nil. intros [->|[->|[->|[]]]]; by eexists.
Qed.

Section shell.
Context {T : Type} `{DebugTransport T} `{Clock} (topics : list string) (help_doc : string).

(** A program that returns nothing, run for its effects. *)
Lemma run_false {S} (c : prog S unit) (w : world T S) w' :
  run (bind c (fun _ => Ret false)) w <> (w', Ok true).
Proof. rewrite run_bind. by destruct (run c w) as [? [?|?]]. Qed.

Lemma onecmd_true line (w : world T (Z * list string)) :
  snd (run (Cmd_onecmd topics help_doc line) w) = Ok true <->
  exists name, command_word line = Some name /\ name ∈ ["quit"; "exit"; "EOF"].
Proof.
  assert (forall (c : command unit), snd (run (bind c (fun _ => Ret false)) w) <> Ok true) as Hf.
  { intros c Hc. destruct (run _ w) as [w' r] eqn:Hr. cbn in Hc. subst r. by eapply run_false. }
  unfold Cmd_onecmd, command_word.
  destruct (parseline line) as [[[name arg]|] line'] eqn:Hp; cbn [fst snd];
    (destruct (String.eqb line' EmptyString) eqn:He; [cbn; split; [done|by intros (? & [=] & _)]|]).
  2: { split; [intros Ht; by apply Hf in Ht|by intros (? & [=] & _)]. }
  assert (name ∈ ["quit"; "exit"; "EOF"] -> name <> EmptyString /\ name <> "help") as Hq.
  { rewrite !elem_of_cons, elem_of_nil. by intros [->|[->|[->|[]]]]. }
  destruct (String.eqb_spec name EmptyString);
    [split; [intros Ht; by apply Hf in Ht|intros (? & [= <-] & Hn); by destruct (Hq Hn)]|].
  destruct (String.eqb_spec name "help");
    [split; [intros Ht; by apply Hf in Ht|intros (? & [= <-] & Hn); by destruct (Hq Hn)]|].
  split.
  - destruct (find_method name) as [[doc [f|]]|] eqn:Hm; try (intros Ht; by apply Hf in Ht).
    intros _. exists name. by split; [|eapply find_true].
  - intros (? & [= <-] & Hn). by destruct (find_quit _ Hn) as [doc ->].
Qed.

(** Only [quit], [exit] and [EOF] end the shell: whatever the transport does, a
    line typed at the prompt makes it stop exactly when its command is one of them. *)
Theorem line_ends_shell line (w : world T (Z * list string)) :
  snd (onecmd topics help_doc line w) = Ok true <->
  exists name, command_word line = Some name /\ name ∈ ["quit"; "exit"; "EOF"].
Proof.
  rewrite <-(onecmd_true line w). unfold onecmd, catch, cmd.
  destruct (run (Cmd_onecmd topics help_doc line) w) as [w' [b|e]]; [reflexivity|].
  destruct (handled e); [|reflexivity]. by split; intros [=].
Qed.

End shell.

(** ** A bad command does not end the shell *)

(** Every exception the program raises by itself is allowed by [E]. *)
Fixpoint throws {S A} (E : exn -> Prop) (c : prog S A) : Prop :=
  match c with
  | Ret _ => True
  | Throw e => E e
  | Rd _ k => forall v, throws E (k v)
  | Wr _ _ k | Put _ k | Sleep _ k => throws E k
  | Get k => forall s, throws E (k s)
  | Now k => forall n, throws E (k n)
  | Predictor k => forall p, throws E (k p)
  end.

Section throws.
Context (E : exn -> Prop).

Lemma throws_bind {S A B} (c : prog S A) (f : A -> prog S B) :
  throws E c -> (forall a, throws E (f a)) -> throws E (bind c f).
Proof. intros Hc Hf. induction c; cbn in *; eauto. Qed.

Lemma throws_lib {V A} (c : RISCVDebug.M A) : throws E c -> throws E (lib (V := V) c).
Proof. intros Hc. induction c; cbn in *; eauto. Qed.

Lemma throws_for_each {S X A} (f : X -> prog S A) l :
  (forall x, throws E (f x)) -> throws E (for_each f l).
Proof.
  intros Hf. induction l as [|x l IH]; cbn [for_each]; [done|].
  apply throws_bind; [apply Hf|]. intros y. by apply throws_bind.
Qed.

Lemma throws_of_result {S A} (r : result A) :
  (forall e, r = Raise e -> E e) -> throws (S := S) E (of_result r).
Proof. intros Hr. destruct r; cbn; auto. Qed.

Lemma throws_poll_until predicate register msg timeout :
  E OutOfFuel -> (forall m, E (DebugError m)) -> (forall v e, predicate v = Raise e -> E e) ->
  throws E (RISCVDebug._poll_until predicate register msg timeout).
Proof.
  intros Ho Hd Hp now. generalize (RISCVDebug.poll_fuel timeout). intros fuel. revert now.
  enough (forall deadline,
    throws E (RISCVDebug.poll_loop fuel predicate register msg timeout deadline)) by auto.
  induction fuel as [|fuel IH]; intros deadline; cbn [RISCVDebug.poll_loop]; [done|].
  cbn. intros v. destruct (predicate v) as [[|]|e] eqn:He; [done| |by apply (Hp v)].
  cbn. intros now. by destruct (deadline <? now); cbn.
Qed.

End throws.

(** A transport whose accesses raise nothing but [TransportError], as the interface
    says. *)
Class Polite (T : Type) `{DebugTransport T} := {
  polite_read addr t e : snd (t_read addr t) = Raise e -> exists m, e = TransportError m;
  polite_write addr v t e : snd (t_write addr v t) = Raise e -> exists m, e = TransportError m;
  polite_reset t e : snd (t_reset t) = Raise e -> exists m, e = TransportError m
}.

Lemma run_throws {T} `{Polite T} `{Clock} {S A} E (c : prog S A) (w : world T S) e :
  throws E c -> snd (run c w) = Raise e -> E e \/ exists m, e = TransportError m.
Proof.
  revert w. induction c as [a|e'|addr k IH|addr v k IH|k IH|s' k IH|k IH|k IH|n k IH];
    intros w Hc; cbn [run throws] in *; eauto.
  - done.
  - intros [= <-]. by left.
  - destruct (t_read addr (dev w)) as [t [v|e']] eqn:Hr; [by eapply IH|].
    intros [= ->]. right. eapply (polite_read addr (dev w)). by rewrite Hr.
  - destruct (t_write addr v (dev w)) as [t [u|e']] eqn:Hr; [by eapply IH|].
    intros [= ->]. right. eapply (polite_write addr v (dev w)). by rewrite Hr.
Qed.

(** What a command may raise by itself: what the shell handles, and the fuel of the
    polling loops, which [ends] rules out. *)
Definition usual (e : exn) : Prop := e = OutOfFuel \/ handled e <> None.

Lemma usual_value m : usual (ValueError m).
Proof. by right. Qed.
Lemma usual_debug m : usual (DebugError m).
Proof. by right. Qed.

Lemma digits_value s base e : Int.of_string s base = Raise e -> exists m, e = ValueError m.
Proof.
  unfold Int.of_string.
  repeat match goal with |- context [match ?x with _ => _ end] => destruct x end;
    intros [=]; subst; eauto.
Qed.

Lemma parse_int_value s e : _parse_int s = Raise e -> exists m, e = ValueError m.
Proof. unfold _parse_int. destruct (String.prefix _ _); apply digits_value. Qed.

Lemma parse_gpr_value s e : _parse_gpr s = Raise e -> exists m, e = ValueError m.
Proof.
  unfold _parse_gpr.
  destruct (match lower (strip s) with String _ _ => _ | _ => _ end) as [rest|].
  - destruct (Int.of_string rest 10) as [n|x] eqn:Hn; cbn; [done|].
    intros [= ->]. by eapply digits_value.
  - destruct (List.find _ _) as [[? ?]|]; [done|apply parse_int_value].
Qed.

Lemma split_value s e : Shlex.split s = Raise e -> exists m, e = ValueError m.
Proof.
  unfold Shlex.split. generalize Shlex.Between ([] : list Ascii.ascii) false.
  induction (String.list_ascii_of_string s) as [|c l IH]; intros st word quoted; cbn [Shlex.split_from].
  - destruct st, word, quoted; cbn; intros [=]; subst; eauto.
  - assert (forall st w q d, rmap (cons d) (Shlex.split_from l st w q) = Raise e ->
              exists m, e = ValueError m) as Hm.
    { intros st' w q d. destruct (Shlex.split_from l st' w q) as [x|x] eqn:Hx; cbn; [done|].
      intros [= ->]. by eapply IH. }
    destruct st as [| |q|[q|]];
      repeat match goal with
        | |- context [if ?b then _ else _] => destruct b
        | |- context [match ?w with [] => _ | _ => _ end] => destruct w
        end; eauto.
Qed.

Lemma usual_of_value e : (exists m, e = ValueError m) -> usual e.
Proof. intros [m ->]. apply usual_value. Qed.

(** Parse, library command, print: every construct of a command. *)
Ltac throws_step :=
  lazymatch goal with
  | |- throws _ (bind _ _) => apply throws_bind; [|intros ?]
  | |- throws _ (lib _) => apply throws_lib
  | |- throws _ (for_each _ _) => apply throws_for_each; intros ?
  | |- throws _ (of_result (_parse_int _)) =>
      apply throws_of_result; intros ? ?%parse_int_value; by apply usual_of_value
  | |- throws _ (of_result (_parse_gpr _)) =>
      apply throws_of_result; intros ? ?%parse_gpr_value; by apply usual_of_value
  | |- throws _ (of_result (Shlex.split _)) =>
      apply throws_of_result; intros ? ?%split_value; by apply usual_of_value
  | |- throws _ (RISCVDebug._poll_until _ _ _ _) =>
      apply throws_poll_until; [by left|apply usual_debug|]
  | |- throws _ (Ret _) => exact I
  | |- throws _ (Throw _) => apply usual_debug
  | |- throws _ (rd _) => intros ?; exact I
  | |- throws _ (wr _ _) => exact I
  | |- throws _ get => intros ?; exact I
  | |- throws _ (put _) => exact I
  | |- throws _ vars => intros ?; exact I
  | |- throws _ (set_vars _) => intros ?; exact I
  | |- throws _ (match ?x with _ => _ end) => destruct x
  | |- throws _ ?c => let h := head_of c in unfold h; cbv beta
  end.

Lemma check_abstractcs_usual v e : RISCVDebug.check_abstractcs v = Raise e -> usual e.
Proof. unfold RISCVDebug.check_abstractcs. destruct (truthy _); intros [= <-]. apply usual_debug. Qed.

Lemma check_sbcs_usual v e : RISCVDebug.check_sbcs v = Raise e -> usual e.
Proof. unfold RISCVDebug.check_sbcs. destruct (truthy _); intros [= <-]. apply usual_debug. Qed.

Ltac throws := repeat first [solve [eauto using check_abstractcs_usual, check_sbcs_usual] | throws_step].

Lemma methods_throw name doc f arg : find_method name = Some (doc, Returns_none f) -> throws usual (f arg).
Proof.
  unfold find_method. destruct (List.find _ methods) as [[n m]|] eqn:Hf; [|done].
  intros [= ->]. apply List.find_some in Hf as [Hin _]. cbn in Hin.
  repeat (destruct Hin as [Hin|Hin]; [injection Hin; intros; try discriminate; subst; clear Hin; throws|]);
    try done.
Qed.

Lemma onecmd_throws topics help_doc line : throws usual (Cmd_onecmd topics help_doc line).
Proof.
  unfold Cmd_onecmd. destruct (parseline line) as [[[name arg]|] line']; [|throws].
  destruct (String.eqb line' EmptyString); [done|]. destruct (String.eqb name EmptyString); [throws|].
  destruct (String.eqb name "help"); [throws|].
  destruct (find_method name) as [[doc [f|]]|] eqn:Hm; [|done|throws].
  apply throws_bind; [by eapply methods_throw|done].
Qed.

Lemma computed_value {A} (r : result A) :
  (forall e, r = Raise e -> exists m, e = ValueError m) -> computed r.
Proof. intros Hr He. by apply Hr in He as [m [=]]. Qed.

Section survives.
Context {T : Type} `{Polite T} `{Clock} (topics : list string) (help_doc : string).

#[local] Instance polite_total : Total T.
Proof.
  split.
  - intros addr t Hr. by apply polite_read in Hr as [m [=]].
  - intros addr v t Hr. by apply polite_write in Hr as [m [=]].
  - intros t Hr. by apply polite_reset in Hr as [m [=]].
Qed.

#[local] Hint Resolve polite_total : ends.

Lemma ends_of_value {S A} (r : result A) :
  (forall e, r = Raise e -> exists m, e = ValueError m) -> ends (T := T) (S := S) (of_result r).
Proof. intros Hr. apply ends_of_result. by apply computed_value. Qed.

#[local] Hint Extern 1 (ends (of_result _)) =>
  (apply ends_of_value; first [apply parse_int_value | apply parse_gpr_value | apply split_value]) : ends.

Lemma methods_end name doc f arg : find_method name = Some (doc, Returns_none f) -> ends (T := T) (f arg).
Proof.
  unfold find_method. destruct (List.find _ methods) as [[n m]|] eqn:Hf; [|done].
  intros [= ->]. apply List.find_some in Hf as [Hin _]. cbn in Hin.
  repeat (destruct Hin as [Hin|Hin]; [injection Hin; intros; try discriminate; subst; clear Hin; ends|]);
    try done.
Qed.

Lemma onecmd_ends line : ends (T := T) (Cmd_onecmd topics help_doc line).
Proof.
  unfold Cmd_onecmd. destruct (parseline line) as [[[name arg]|] line']; [|ends].
  destruct (String.eqb line' EmptyString); [apply ends_ret|].
  destruct (String.eqb name EmptyString); [ends|]. destruct (String.eqb name "help"); [ends|].
  destruct (find_method name) as [[doc [f|]]|] eqn:Hm; [|ends|ends].
  apply ends_bind; [by eapply methods_end|]. intros _. apply ends_ret.
Qed.

Lemma onecmd_returns line (w : world T (Z * list string)) :
  exists w' stop, onecmd topics help_doc line w = (w', Ok stop).
Proof.
  unfold onecmd, catch, cmd. pose proof (onecmd_ends line w) as He.
  pose proof (run_throws usual (Cmd_onecmd topics help_doc line) w) as Ht.
  destruct (run (Cmd_onecmd topics help_doc line) w) as [w' [stop|e]]; [eauto|].
  cbn in He, Ht. specialize (Ht e (onecmd_throws _ _ _) eq_refl).
  assert (handled e <> None) as Hh.
  { destruct Ht as [[->|Hh]|[m ->]]; [done|done|discriminate]. }
  destruct (handled e) as [m|]; [|done]. cbn. eauto.
Qed.

(** C26: A bad command never kills the shell: on a transport whose accesses raise
    nothing but [TransportError], whatever lines are typed (unknown commands,
    malformed numbers, open quotations, accesses that time out or fail) and whatever
    the device answers, the shell reads on until a line ends it or the input does,
    and returns. *)
Theorem shell_survives (lines : list string) (w : world T (Z * list string)) :
  snd (cmdloop topics help_doc (map Some lines) w) = Ok tt.
Proof.
  assert (forall lines w, snd (loop topics help_doc (map Some lines) w) = Ok tt) as Hl.
  { clear lines w. intros lines. induction lines as [|line lines IH]; intros w; cbn [map loop]; unfold act_bind.
    - destruct (onecmd_returns "EOF" w) as (w' & stop & ->). done.
    - destruct (onecmd_returns line w) as (w' & [|] & ->); [done|apply IH]. }
  unfold cmdloop, act_bind, cmd.
  destruct (run (for_each print intro) w) as [w' [l|e]] eqn:Hr; [apply Hl|].
  cbn in Hr. done.
Qed.

End survives.

(** ** The simulator's socket *)

(** A bridge whose replies hold a number under [data]. *)
Class NumericBridge (P : Type) `{Bridge P} := {
  numeric_reply msg p p' resp v :
    b_exchange msg p = (p', Answer resp) -> resp !! "data" = Some v -> exists n, number v = Some n
}.

Section uvm.
Context {P : Type} `{NumericBridge P}.

Lemma transact_raises payload (t : UVMTransport P) e :
  snd (_transact payload t) = Raise e -> exists m, e = TransportError m.
Proof.
  unfold _transact. destruct (uvm_connected t); cbn; [|intros [= <-]; eauto].
  destruct (b_exchange _ _) as [p [|err|resp]]; cbn; try (intros [= <-]; eauto).
  repeat match goal with
    | |- context [match ?x with _ => _ end] => destruct x
    end; cbn; intros [=]; subst; eauto.
Qed.

Lemma transact_numeric payload (t t' : UVMTransport P) resp v :
  _transact payload t = (t', Ok resp) -> resp !! "data" = Some v -> exists n, number v = Some n.
Proof.
  unfold _transact. destruct (uvm_connected t); cbn; [|done].
  destruct (b_exchange _ _) as [p [|err|r]] eqn:Hx; cbn; [done..|].
  intros Hr Hd. eapply numeric_reply; [exact Hx|]. revert Hr.
  repeat match goal with
    | |- context [match ?x with _ => _ end] => destruct x
    end; cbn; intros [=]; subst; done.
Qed.

(** The simulator transport keeps the interface's promise about what it raises. *)
Lemma uvm_polite pr : @Polite (UVMTransport P) (uvm_transport pr).
Proof.
  assert (forall payload (t : UVMTransport P) e,
            snd (just payload t) = Raise e -> exists m, e = TransportError m) as Hj.
  { intros payload t e. unfold just. pose proof (transact_raises payload t) as Ht.
    destruct (_transact payload t) as [t' [r|x]]; cbn in *; [done|].
    intros [= <-]. eauto. }
  split; cbn.
  - intros addr t e. unfold uvm_read.
    pose proof (transact_raises [("op", JStr "read"); ("addr", JNum addr)] t) as Ht.
    pose proof (transact_numeric [("op", JStr "read"); ("addr", JNum addr)] t) as Hn.
    destruct (_transact _ t) as [t' [r|x]]; cbn in *; [|intros [= <-]; eauto].
    specialize (Hn t' r). destruct (r !! "data") as [v|]; [|intros [= <-]; eauto].
    destruct (Hn v eq_refl eq_refl) as [n ->]. destruct (py_bool_of _); intros [= <-]; eauto.
  - intros addr v. apply Hj.
  - apply Hj.
Qed.

End uvm.

Section witness.

#[local] Existing Instance exact_clock.

#[local] Instance model_numeric : NumericBridge ModelBridge.t.
Proof.
  split. intros msg p p' resp v. cbn. unfold ModelBridge.exchange, ModelBridge.ok.
  destruct (ModelBridge.member "op" msg) as [[| | |op]|]; try done.
  repeat match goal with
    | |- context [if ?b then _ else _] => destruct b
    end; intros [= <- <-]; cbn; intros [= <-]; cbn; eauto.
Defined.

Definition sample_lines : list string :=
  ["activate"; "halt"; "write_gpr t0 0x1234"; "read_gpr x5"; "read_gpr x5y"; "fly"; "read_mem 'a"; "quit"].

(** A session over the socket, mistakes included. *)
Lemma shell_survives_witness :
  let w := mk_world (T := UVMTransport ModelBridge.t)
             (mk_uvm (ModelBridge.mk (p_demo) 0) true 0 None) (0, []) 0 [] in
  let run := cmdloop (H := uvm_transport (fun _ => None)) [] EmptyString (map Some sample_lines) w in
  snd run = Ok tt /\ drop 2 (snd (self (fst run))) =
    ["DM activated"; "halted, PC = 0x00000000"; "t0 <- 0x00001234"; "x5 = 0x00001234";
     "bad argument: invalid literal for int() with base 10: 'x5y'"; "*** Unknown syntax: fly";
     "bad argument: No closing quotation"].
Proof.
  split; [|vm_compute; reflexivity].
  pose (pr := fun _ : UVMTransport ModelBridge.t => @None DMPredictor.t).
  apply (shell_survives (T := UVMTransport ModelBridge.t) (H := uvm_transport pr)
           (H0 := uvm_polite pr)).
Defined.

End witness.
