(* ===== verification/Cli.v ===== *)
(** The command line: [cli.py], without the parsing of the arguments.

    A configuration is the object a JSON file holds, in the order of its keys; its
    values are scalars or objects of scalars, and a number is an integer.  The
    scenario's module is loaded dynamically and the transports' sockets and OpenOCD's
    process are outside the package: [import], [make] and [Host] stand for them. *)

From S2P Require Import Prelude Registers Predictor Transport RiscvDm Session Sequences Closures.
From S2P Require Import DutConfig Text Shell.

Local Open Scope string_scope.
Local Open Scope list_scope.
Local Open Scope Z_scope.

(** ** Dictionaries in the order of insertion *)

Section assoc.
Context {A : Type}.

(** [d.get(k)]. *)
Definition assoc_get (k : string) (d : list (string * A)) : option A :=
  option_map snd (List.find (fun '(k', _) => String.eqb k k') d).

(** [d[k] = v]: a key keeps its place. *)
Fixpoint assoc_set (k : string) (v : A) (d : list (string * A)) : list (string * A) :=
  match d with
  | [] => [(k, v)]
  | (k', v') :: d => if String.eqb k k' then (k, v) :: d else (k', v') :: assoc_set k v d
  end.

(** [d.setdefault(k, v)]. *)
Definition setdefault (k : string) (v : A) (d : list (string * A)) : list (string * A) :=
  match assoc_get k d with Some _ => d | None => assoc_set k v d end.

(** [d[k]]. *)
Definition assoc_lookup (k : string) (d : list (string * A)) : result A :=
  match assoc_get k d with Some v => Ok v | None => Raise (KeyError k) end.

Lemma assoc_get_set k k' v d :
  assoc_get k (assoc_set k' v d) = if String.eqb k k' then Some v else assoc_get k d.
Proof.
  unfold assoc_get. induction d as [|[k2 v2] d IH]; cbn.
  - by destruct (String.eqb k k').
  - destruct (String.eqb_spec k' k2) as [->|Hn]; cbn.
    + by destruct (String.eqb k k2).
    + destruct (String.eqb_spec k k2) as [->|Hk]; cbn; [|done].
      destruct (String.eqb_spec k2 k'); [congruence|done].
Qed.

Lemma assoc_get_default k k' v d :
  assoc_get k (setdefault k' v d) =
  match assoc_get k d with Some x => Some x | None => if String.eqb k k' then Some v else None end.
Proof.
  unfold setdefault. destruct (assoc_get k' d) as [x|] eqn:Hx.
  - destruct (assoc_get k d) eqn:Hk; [done|]. destruct (String.eqb_spec k k'); [congruence|done].
  - rewrite assoc_get_set. destruct (String.eqb_spec k k') as [->|]; [by rewrite Hx|].
    by destruct (assoc_get k d).
Qed.

End assoc.

(** ** Configurations *)

Inductive value :=
  | Scalar (v : json)
  | Object (o : list (string * json)).

Definition Config : Type := list (string * value).

Definition text (s : string) : value := Scalar (JStr s).

(** An attribute of a dictionary, asked of something else. *)
Definition as_object (attribute : string) (v : value) : result (list (string * json)) :=
  match v with
  | Object o => Ok o
  | Scalar v => Raise (AttributeError ("'" +:+ type_name v +:+ "' object has no attribute '" +:+
                                       attribute +:+ "'"))
  end.

(** [cfg.get(key, {})]. *)
Definition section_of (key : string) (cfg : Config) : value := default (Object []) (assoc_get key cfg).

(** cli.py:182-195 (load_config) *)
Definition load_config (read_json : string -> result Config) (config_path : string) : result Config :=
  try cfg <- read_json config_path;;
  Ok (setdefault "openocd" (Object [])
       (setdefault "uvm" (Object [])
         (setdefault "params" (Object [])
           (setdefault "mode" (text "batch")
             (setdefault "transport" (text "uvm")
               (setdefault "scenario" (text "halt") cfg)))))).

(** What the parser returns of [pydebug run]; an option left out is [None]. *)
Record Args := mk_args {
  config : option string;
  scenario : option string;
  transport : option string;
  mode_arg : option string;
  openocd_config : option string
}.

(** [if x:] of an option. *)
Definition given (x : option string) : option string :=
  match x with Some EmptyString => None | _ => x end.

Definition override (key : string) (x : option string) (cfg : Config) : Config :=
  match given x with Some s => assoc_set key (text s) cfg | None => cfg end.

(** cli.py:413-420 (cmd_run, the defaults) *)
Definition default_config : Config :=
  [("scenario", text "halt"); ("transport", text "uvm"); ("mode", text "batch");
   ("params", Object []); ("uvm", Object []); ("openocd", Object [])].

(** cli.py:408-430 (cmd_run, the configuration) *)
Definition resolve_config (read_json : string -> result Config) (args : Args) : result Config :=
  try cfg <- match given (config args) with
             | Some path => load_config read_json path
             | None => Ok default_config
             end;;
  let cfg := override "mode" (mode_arg args)
               (override "transport" (transport args) (override "scenario" (scenario args) cfg)) in
  match given (openocd_config args) with
  | None => Ok cfg
  | Some path =>
      try v <- assoc_lookup "openocd" cfg;;
      match v with
      | Object o => Ok (assoc_set "openocd" (Object (assoc_set "config" (JStr path) o)) cfg)
      | Scalar v => Raise (TypeError ("'" +:+ type_name v +:+
                                      "' object does not support item assignment"))
      end
  end.

(** cli.py:54-179 (SCENARIO_REGISTRY) *)
Definition SCENARIO_REGISTRY : list (string * (string * string)) :=
  [("halt", ("pydebug.sequences.halt_sequence", "build_halt_sequence"));
   ("step_stall", ("pydebug.sequences.step_stall_sequence", "build_step_stall_sequence"));
   ("step_classes", ("pydebug.sequences.step_classes_sequence", "build_step_classes_sequence"));
   ("cmderr", ("pydebug.sequences.cmderr_sequence", "build_cmderr_sequence"));
   ("debug_entry", ("pydebug.sequences.debug_entry_sequence", "build_debug_entry_sequence"));
   ("dmi_error", ("pydebug.sequences.dmi_error_sequence", "build_dmi_error_sequence"));
   ("step_matrix", ("pydebug.sequences.step_matrix_sequence", "build_step_matrix_sequence"));
   ("run_elf", ("pydebug.sequences.run_elf_sequence", "build_run_elf_sequence"));
   ("dm_corners", ("pydebug.sequences.dm_corners_sequence", "build_dm_corners_sequence"));
   ("cmd_busy", ("pydebug.sequences.cmd_busy_sequence", "build_cmd_busy_sequence"));
   ("cmd_outcome", ("pydebug.sequences.cmd_outcome_sequence", "build_cmd_outcome_sequence"));
   ("priv_irq", ("pydebug.sequences.priv_irq_sequence", "build_priv_irq_sequence"));
   ("read_dmstatus", ("pydebug.sequences.read_dmstatus_sequence", "build_read_dmstatus_sequence"));
   ("mem_scan", ("pydebug.sequences.mem_scan_sequence", "build_mem_scan_sequence"));
   ("run_control", ("pydebug.sequences.run_control_sequence", "build_run_control_sequence"));
   ("reset_ctrl", ("pydebug.sequences.reset_ctrl_sequence", "build_reset_ctrl_sequence"));
   ("halt_on_reset", ("pydebug.sequences.halt_on_reset_sequence", "build_halt_on_reset_sequence"));
   ("dm_activation", ("pydebug.sequences.dm_activation_sequence", "build_dm_activation_sequence"));
   ("hart_selection", ("pydebug.sequences.hart_selection_sequence", "build_hart_selection_sequence"));
   ("gpr_write", ("pydebug.sequences.gpr_write_sequence", "build_gpr_write_sequence"));
   ("csr_access", ("pydebug.sequences.csr_access_sequence", "build_csr_access_sequence"));
   ("program_buffer", ("pydebug.sequences.program_buffer_sequence", "build_program_buffer_sequence"));
   ("single_step", ("pydebug.sequences.single_step_sequence", "build_single_step_sequence"));
   ("sw_breakpoint_progbuf", ("pydebug.sequences.sw_breakpoint_progbuf_sequence", "build_sw_breakpoint_progbuf_sequence"));
   ("external_trigger", ("pydebug.sequences.external_trigger_sequence", "build_external_trigger_sequence"));
   ("sba", ("pydebug.sequences.sba_sequence", "build_sba_sequence"));
   ("report_halt_status", ("pydebug.sequences.report_halt_status_sequence", "build_report_halt_status_sequence"));
   ("discovery", ("pydebug.sequences.discovery_sequence", "build_discovery_sequence"));
   ("trigger", ("pydebug.sequences.trigger_sequence", "build_trigger_sequence"));
   ("hart_array", ("pydebug.sequences.hart_array_sequence", "build_hart_array_sequence"));
   ("reset_values", ("pydebug.sequences.reset_values_sequence", "build_reset_values_sequence"))].

(** [f"{v!r}"] of a configuration's value; the members of an object are left out. *)
Definition repr_value (v : value) : string :=
  match v with Scalar v => py_repr v | Object _ => "{...}" end.

(** The registered entry; the module and its builder are then loaded by name.
    cli.py:218-229 (load_scenario_builder) *)
Definition load_scenario_builder (scenario_name : value) : result (string * string) :=
  let unknown :=
    Raise (ValueError ("Unknown scenario: " +:+ repr_value scenario_name +:+ ". Available: " +:+
                       py_list (map (fun '(name, _) => "'" +:+ name +:+ "'") SCENARIO_REGISTRY))) in
  match scenario_name with
  | Scalar (JStr name) =>
      match assoc_get name SCENARIO_REGISTRY with Some entry => Ok entry | None => unknown end
  | Scalar _ => unknown
  | Object _ => Raise (TypeError "unhashable type: 'dict'")
  end.

(** cli.py:236-239 (convert_params, one parameter) *)
Definition convert_param (v : json) : result json :=
  match v with
  | JStr s => if String.prefix "0x" s then rmap JNum (Int.of_string s 16) else Ok v
  | _ => Ok v
  end.

(** cli.py:232-240 (convert_params) *)
Fixpoint convert_params (params : list (string * json)) : result (list (string * json)) :=
  match params with
  | [] => Ok []
  | (k, v) :: params =>
      try v <- convert_param v;;
      try params <- convert_params params;;
      Ok ((k, v) :: params)
  end.

(** ** Transports *)

(** What the constructors are given. *)
Inductive TransportSpec :=
  | UVM (socket_path timeout : json)
  | OpenOCD (host port : json).

(** [v == s]. *)
Definition is_text (s : string) (v : value) : bool :=
  match v with Scalar (JStr s') => String.eqb s s' | _ => false end.

(** cli.py:198-215 (create_transport) *)
Definition create_transport (cfg : Config) : result TransportSpec :=
  try name <- assoc_lookup "transport" cfg;;
  if is_text "uvm" name then
    try uvm_cfg <- as_object "get" (section_of "uvm" cfg);;
    Ok (UVM (default (JStr "/tmp/uvm_bridge.sock") (assoc_get "socket_path" uvm_cfg))
            (default (JNum 10) (assoc_get "timeout" uvm_cfg)))
  else if is_text "openocd" name then
    try ocd_cfg <- as_object "get" (section_of "openocd" cfg);;
    Ok (OpenOCD (default (JStr "127.0.0.1") (assoc_get "host" ocd_cfg))
                (default (JNum 6666) (assoc_get "port" ocd_cfg)))
  else Raise (ValueError ("Unknown transport: " +:+ repr_value name)).

(** The machine the client runs on, over time: which paths exist, what OpenOCD's
    output has said so far, its exit status once it has ended, and whether starting it
    and waiting for it after [terminate] succeed. *)
Class Host := {
  path_exists : string -> Z -> bool;
  examined : Z -> bool;
  exam_failed : Z -> bool;
  exited : Z -> option Z;
  proc_start : result unit;
  proc_wait : result unit
}.

(** How a command of the package ends: with a value, by [sys.exit], or with an
    exception nothing caught. *)
Inductive outcome (A : Type) :=
  | Done (a : A)
  | Exit (code : Z)
  | Uncaught (e : exn).
Arguments Done {A} a.
Arguments Exit {A} code.
Arguments Uncaught {A} e.

(** The clock, and whether OpenOCD has been told to terminate. *)
Record Proc := mk_proc { now : Z; terminated : bool }.

#[export] Instance proc_settable : Settable Proc := fun p => mk_proc (now p) (terminated p).

Definition terminate (p : Proc) : Proc := p <| terminated := true |>.

(** The intervals of the waiting loops. *)
Definition WAIT_INTERVAL : Z := 250000.
Definition RETRY_INTERVAL : Z := 500000.

(** Each round sleeps the interval, at least, before the deadline. *)
Definition wait_fuel (interval wait : Z) : nat := S (S (Z.to_nat (wait / interval))).

(** [startup_wait] in microseconds. *)
Definition startup_wait (seconds : Z) (o : list (string * json)) : result Z :=
  match default (JNum seconds) (assoc_get "startup_wait" o) with
  | JNum n => Ok (n * 1000000)
  | JBool b => Ok (to_int b * 1000000)
  | v => Raise (TypeError ("unsupported operand type(s) for +: 'float' and '" +:+ type_name v +:+ "'"))
  end.

Section host.
Context `{Host} `{Clock}.

(** cli.py:344-357 (connect_transport, waiting for the examination) *)
Fixpoint wait_examined (fuel : nat) (deadline : Z) (p : Proc) : Proc * outcome unit :=
  match fuel with
  | O => (p, Uncaught OutOfFuel)
  | S fuel =>
      if examined (now p) then (p, Done tt)
      else if exam_failed (now p) then (terminate p, Exit 1)
      else match exited (now p) with
           | Some _ => (p, Exit 1)
           | None =>
               if deadline <=? now p then (terminate p, Exit 1)
               else wait_examined fuel deadline (p <| now := sleep_until (now p) WAIT_INTERVAL |>)
           end
  end.

(** cli.py:368-375 (connect_transport, waiting for the socket) *)
Fixpoint wait_socket (fuel : nat) (path : string) (deadline : Z) (p : Proc) : Proc * outcome unit :=
  match fuel with
  | O => (p, Uncaught OutOfFuel)
  | S fuel =>
      if path_exists path (now p) then (p, Done tt)
      else if deadline <=? now p then (p, Exit 1)
      else wait_socket fuel path deadline (p <| now := sleep_until (now p) WAIT_INTERVAL |>)
  end.

Section transports.
Context {T : Type} `{DebugTransport T}.

(** cli.py:386-399 (connect_transport, retrying) *)
Fixpoint retry_connect (fuel : nat) (deadline : Z) (t : T) (p : Proc) : T * Proc * outcome unit :=
  match fuel with
  | O => (t, p, Uncaught OutOfFuel)
  | S fuel =>
      if now p <? deadline then
        match t_connect t with
        | (t, Ok _) => (t, p, Done tt)
        | (t, Raise e) =>
            if is_Exception e then
              match exited (now p) with
              | Some _ => (t, p, Exit 1)
              | None => retry_connect fuel deadline t
                          (p <| now := sleep_until (now p) RETRY_INTERVAL |>)
              end
            else (t, p, Uncaught e)
        end
      else (t, terminate p, Exit 1)
  end.

(** What may raise, before the rest; and a wait that may end the command, before the
    rest. *)
Definition guarded {A B} (p : Proc) (r : result A) (k : A -> Proc * outcome B) : Proc * outcome B :=
  match r with Ok a => k a | Raise e => (p, Uncaught e) end.

Definition after {A B} (first : Proc * outcome A) (k : A -> Proc -> Proc * outcome B)
    : Proc * outcome B :=
  match first with
  | (p, Done a) => k a p
  | (p, Exit code) => (p, Exit code)
  | (p, Uncaught e) => (p, Uncaught e)
  end.

(** The path OpenOCD is started with is not looked at.
    cli.py:304-359 (connect_transport, starting OpenOCD) *)
Definition start_openocd (cfg : Config) (p : Proc) : Proc * outcome unit :=
  guarded p (as_object "get" (section_of "openocd" cfg)) (fun ocd_cfg =>
  guarded p proc_start (fun _ =>
  guarded p (startup_wait 60 ocd_cfg) (fun ocd_wait =>
  wait_examined (wait_fuel WAIT_INTERVAL ocd_wait) (now p + ocd_wait) p))).

(** cli.py:362-376 (connect_transport, finding the simulator) *)
Definition find_simulator (cfg : Config) (p : Proc) : Proc * outcome unit :=
  guarded p (as_object "get" (section_of "uvm" cfg)) (fun uvm_cfg =>
  guarded p (startup_wait 60 uvm_cfg) (fun uvm_wait =>
  guarded p (match default (JStr "/tmp/uvm_bridge.sock") (assoc_get "socket_path" uvm_cfg) with
             | JStr path => Ok path
             | v => Raise (TypeError ("stat: path should be string, not " +:+ type_name v))
             end) (fun path =>
  wait_socket (wait_fuel WAIT_INTERVAL uvm_wait) path (now p + uvm_wait) p))).

(** cli.py:380-399 (connect_transport, connecting to OpenOCD) *)
Definition reach_openocd (cfg : Config) (t : T) (p : Proc) : Proc * outcome T :=
  guarded p (as_object "get" (section_of "openocd" cfg)) (fun ocd_cfg =>
  guarded p (startup_wait 30 ocd_cfg) (fun ocd_wait =>
  let '(t, p, r) := retry_connect (wait_fuel RETRY_INTERVAL ocd_wait) (now p + ocd_wait) t p in
  after (p, r) (fun _ p => (p, Done t)))).

(** The transport, and whether OpenOCD was started.
    cli.py:296-401 (connect_transport) *)
Definition connect_transport (make : TransportSpec -> T) (cfg : Config) (p : Proc)
    : Proc * outcome (T * bool) :=
  guarded p (assoc_lookup "transport" cfg) (fun name =>
  let openocd := is_text "openocd" name in
  after (if openocd then start_openocd cfg p else (p, Done tt)) (fun _ p =>
  after (if is_text "uvm" name then find_simulator cfg p else (p, Done tt)) (fun _ p =>
  guarded p (create_transport cfg) (fun spec =>
  after (if openocd then reach_openocd cfg (make spec) p else (p, Done (make spec)))
    (fun t p => (p, Done (t, openocd))))))).

(** [with transport: body]: [none] is what the body would have left had it not
    started; [__exit__] does not swallow what the body raises.
    transport.py:67-72 (__enter__, __exit__) *)
Definition with_transport {X A} (none : X) (body : T -> T * X * outcome A) (t : T)
    : T * X * outcome A :=
  match t_connect t with
  | (t, Raise e) => (t, none, Uncaught e)
  | (t, Ok _) =>
      let '(t, x, r) := body t in
      match t_disconnect t with
      | (t, Ok _) => (t, x, r)
      | (t, Raise e) => (t, x, Uncaught e)
      end
  end.

(** [finally: if openocd_proc: ...]. *)
Definition finally_stop {A} (openocd_proc : bool) (p : Proc) (r : outcome A) : Proc * outcome A :=
  if openocd_proc then
    (terminate p, match proc_wait with Ok _ => r | Raise e => Uncaught e end)
  else (p, r).

(** ** The commands *)

(** A session that a builder returned, and the variables its steps share, among them
    the hartsel that the command library tracks. *)
Inductive Built :=
  | built {V : Type} (start : V) (session : DebugSession.t (world T V)).

(** What a run leaves: the output, and how many steps failed and whether all passed,
    if the session ran to its end. *)
Record Ran := mk_ran {
  printed : Output;
  counted : option (nat * bool)
}.

(** [set_result] is [set_session_result] of a transport that is a [UVMTransport],
    whose output also goes to the simulator.
    cli.py:444-454 (cmd_run, in the with) *)
Definition run_session (set_result : option (Z -> T -> T)) (builder : result Built) (start : Z)
    (o : Output) (ins : list (option string)) (t : T) : T * Ran * outcome unit :=
  let o := match set_result with Some _ => set_output_sink true o | None => o end in
  match builder with
  | Raise e => (t, mk_ran o None, Uncaught e)
  | Ok (built s0 session) =>
      let '(session, e, r) :=
        DebugSession.run session (DebugSession.mk_env (mk_world t s0 start []) o ins) in
      let t := dev (DebugSession.world e) in
      let o := DebugSession.output e in
      match r with
      | Raise x => (t, mk_ran o None, Uncaught x)
      | Ok _ =>
          let n := DebugSession.failed_count session in
          let passed := DebugSession.all_passed session in
          let t := match set_result with Some f => f (Z.of_nat n) t | None => t end in
          (t, mk_ran o (Some (n, passed)), Exit (if passed then 0 else 1))
      end
  end.

(** What a run does before it touches a transport.
    cli.py:408-439 (cmd_run, before connecting) *)
Definition prepare (read_json : string -> result Config) (args : Args)
    : result (Config * (string * string) * list (string * json)) :=
  try cfg <- resolve_config read_json args;;
  try name <- assoc_lookup "scenario" cfg;;
  try entry <- load_scenario_builder name;;
  try given <- as_object "items" (section_of "params" cfg);;
  try params <- convert_params given;;
  Ok (cfg, entry, params).

(** [import module builder mode params] is the builder's answer.
    cli.py:406-459 (cmd_run) *)
Definition cmd_run (read_json : string -> result Config)
    (import : string -> string -> value -> list (string * json) -> result Built)
    (make : TransportSpec -> T) (set_result : TransportSpec -> option (Z -> T -> T))
    (args : Args) (o : Output) (ins : list (option string)) (p : Proc)
    : Proc * option (T * Ran) * outcome unit :=
  match prepare read_json args with
  | Raise e => (p, None, Uncaught e)
  | Ok (cfg, (module, builder), params) =>
      match connect_transport make cfg p with
      | (p, Exit code) => (p, None, Exit code)
      | (p, Uncaught e) => (p, None, Uncaught e)
      | (p, Done (t, openocd_proc)) =>
          let set := match create_transport cfg with Ok spec => set_result spec | Raise _ => None end in
          let session := try m <- assoc_lookup "mode" cfg;; import module builder m params in
          let '(t, ran, r) :=
            with_transport (mk_ran o None) (run_session set session (now p) o ins) t in
          let (p, r) := finally_stop openocd_proc p r in
          (p, Some (t, ran), r)
      end
  end.

(** What the parser returns of [pydebug interactive]. *)
Record ShellArgs := mk_shell_args {
  sh_transport : option string;
  sh_socket_path : option string;
  sh_openocd_config : option string;
  sh_openocd_host : option string;
  sh_openocd_port : option Z
}.

(** cli.py:468-478 (cmd_interactive, the configuration) *)
Definition interactive_config (args : ShellArgs) : Config :=
  let set k (x : option json) o := match x with Some v => assoc_set k v o | None => o end in
  let str x := option_map JStr (given x) in
  [("transport", text (default "uvm" (given (sh_transport args))));
   ("uvm", Object (match given (sh_socket_path args) with
                   | Some path => [("socket_path", JStr path)]
                   | None => []
                   end));
   ("openocd", Object
     (set "port" (match sh_openocd_port args with
                  | Some n => if truthy n then Some (JNum n) else None
                  | None => None
                  end)
       (set "host" (str (sh_openocd_host args)) (set "config" (str (sh_openocd_config args)) []))))].

(** cli.py:464-491 (cmd_interactive) *)
Definition cmd_interactive (topics : list string) (help_doc : string) (make : TransportSpec -> T)
    (args : ShellArgs) (lines : list (option string)) (p : Proc)
    : Proc * list string * outcome unit :=
  match connect_transport make (interactive_config args) p with
  | (p, Exit code) => (p, [], Exit code)
  | (p, Uncaught e) => (p, [], Uncaught e)
  | (p, Done (t, openocd_proc)) =>
      let '(_, out, r) :=
        with_transport [] (fun t =>
          let (w, r) := RiscvDebugShell.cmdloop topics help_doc lines
                          (mk_world t (RISCVDebug._hartsel0, []) (now p) []) in
          (dev w, snd (self w), match r with Ok _ => Done tt | Raise e => Uncaught e end)) t in
      let (p, r) := finally_stop openocd_proc p r in
      (p, out, r)
  end.

End transports.
End host.
