(* ===== verification/CliSound.v ===== *)
(** What the command line promises the scripts that run it ([Cli]). *)

From S2P Require Import Prelude Registers Predictor Transport RiscvDm Session Sequences Closures.
From S2P Require Import Buffers DutConfig Text UvmTransport Programs RiscvDmSound UvmSound.
From S2P Require Import Shell Cli.

Local Open Scope string_scope.
Local Open Scope list_scope.
Local Open Scope Z_scope.

(** ** The registry *)

(** No two scenarios share a name, and none shares its builder. *)
Lemma registry_names : NoDup (map fst SCENARIO_REGISTRY) /\ NoDup (map snd SCENARIO_REGISTRY).
Proof. split; apply (bool_decide_unpack _); vm_compute; exact I. Qed.

(** A name loads exactly when it is registered; any other is a [ValueError]. *)
Lemma load_registered name :
  match load_scenario_builder (text name) with
  | Ok entry => (name, entry) ∈ SCENARIO_REGISTRY
  | Raise e => (name ∉ map fst SCENARIO_REGISTRY) /\ exists m, e = ValueError m
  end.
Proof.
  unfold load_scenario_builder, text, assoc_get.
  destruct (List.find _ SCENARIO_REGISTRY) as [[k entry]|] eqn:Hf; cbn [option_map].
  - apply List.find_some in Hf as [Hin Hk]. apply String.eqb_eq in Hk as ->.
    by apply list_elem_of_In.
  - split; [|eauto]. intros Hin. apply list_elem_of_fmap in Hin as ([k entry] & -> & Hin).
    apply list_elem_of_In in Hin. eapply List.find_none in Hf; [|done]. cbn in Hf.
    by rewrite String.eqb_refl in Hf.
Qed.

(** ** Configurations *)

(** Defaults never replace what the file says, and every key that the run looks up
    without a default is there. *)
Lemma load_config_keys read_json path cfg key :
  load_config read_json path = Ok cfg ->
  exists file, read_json path = Ok file /\
    (forall v, assoc_get key file = Some v -> assoc_get key cfg = Some v) /\
    (key ∈ ["scenario"; "transport"; "mode"; "params"; "uvm"; "openocd"] ->
     is_Some (assoc_get key cfg)).
Proof.
  unfold load_config. destruct (read_json path) as [file|e]; cbn [rbind]; [|done].
  intros [= <-]. exists file. split; [done|].
  rewrite !assoc_get_default. split; [by intros v ->|].
  rewrite !elem_of_cons, elem_of_nil.
  destruct (assoc_get key file); [eauto|].
  by intros [->|[->|[->|[->|[->|[->|[]]]]]]]; cbn; eauto.
Qed.

(** ** The waits end *)

Section waits.
Context `{Host} `{Clock}.

(** Enough rounds for an interval that each of them sleeps. *)
Lemma wait_fuel_enough interval wait :
  0 < interval -> wait < interval * (Z.of_nat (wait_fuel interval wait) - 1).
Proof.
  intros Hi. unfold wait_fuel. rewrite !Nat2Z.inj_succ.
  pose proof (Z.mul_succ_div_gt wait interval Hi).
  assert (wait / interval <= Z.of_nat (Z.to_nat (wait / interval))) by lia. nia.
Qed.

Lemma wait_examined_ends fuel deadline p :
  deadline - now p < WAIT_INTERVAL * (Z.of_nat fuel - 1) -> (1 <= fuel)%nat ->
  snd (wait_examined fuel deadline p) <> Uncaught OutOfFuel.
Proof.
  revert p. induction fuel as [|fuel IH]; intros p Hd Hf; [lia|]. cbn [wait_examined].
  destruct (examined (now p)); [done|]. destruct (exam_failed (now p)); [done|].
  destruct (exited (now p)); [done|]. destruct (Z.leb_spec deadline (now p)); [done|].
  pose proof (sleep_law (now p) WAIT_INTERVAL). unfold WAIT_INTERVAL in *.
  apply IH; cbn; [lia|]. destruct fuel; lia.
Qed.

Lemma wait_socket_ends fuel path deadline p :
  deadline - now p < WAIT_INTERVAL * (Z.of_nat fuel - 1) -> (1 <= fuel)%nat ->
  snd (wait_socket fuel path deadline p) <> Uncaught OutOfFuel.
Proof.
  revert p. induction fuel as [|fuel IH]; intros p Hd Hf; [lia|]. cbn [wait_socket].
  destruct (path_exists path (now p)); [done|]. destruct (Z.leb_spec deadline (now p)); [done|].
  pose proof (sleep_law (now p) WAIT_INTERVAL). unfold WAIT_INTERVAL in *.
  apply IH; cbn; [lia|]. destruct fuel; lia.
Qed.

Section connecting.
Context {T : Type} `{DebugTransport T}
  (connects : forall t : T, snd (t_connect t) <> Raise OutOfFuel).

Lemma retry_connect_ends fuel deadline (t : T) p :
  deadline - now p < RETRY_INTERVAL * (Z.of_nat fuel - 1) -> (1 <= fuel)%nat ->
  snd (retry_connect fuel deadline t p) <> Uncaught OutOfFuel.
Proof.
  revert t p. induction fuel as [|fuel IH]; intros t p Hd Hf; [lia|]. cbn [retry_connect].
  destruct (Z.ltb_spec (now p) deadline); [|done]. pose proof (connects t) as Hc.
  destruct (t_connect t) as [t' [u|e]]; [done|]. cbn in Hc.
  destruct (is_Exception e); [|cbn; congruence]. destruct (exited (now p)); [done|].
  pose proof (sleep_law (now p) RETRY_INTERVAL). unfold RETRY_INTERVAL in *.
  apply IH; cbn; [lia|]. destruct fuel; lia.
Qed.

Lemma startup_wait_computed s o : computed (startup_wait s o).
Proof. unfold startup_wait. by destruct (default _ _). Qed.

Lemma assoc_lookup_computed {A} k (d : list (string * A)) : computed (assoc_lookup k d).
Proof. unfold assoc_lookup. by destruct (assoc_get k d). Qed.

Lemma as_object_computed a v : computed (as_object a v).
Proof. by destruct v. Qed.

Lemma create_transport_computed cfg : computed (create_transport cfg).
Proof.
  unfold create_transport. apply computed_rbind; [apply assoc_lookup_computed|]. intros name.
  destruct (is_text "uvm" name); [|destruct (is_text "openocd" name); [|done]];
    (apply computed_rbind; [apply as_object_computed|done]).
Qed.

(** A part of connecting that does not run out of fuel. *)
Definition arrives {A} (r : Proc * outcome A) : Prop := snd r <> Uncaught OutOfFuel.

Lemma arrives_guarded {A B} p (r : result A) (k : A -> Proc * outcome B) :
  computed r -> (forall a, arrives (k a)) -> arrives (guarded p r k).
Proof. intros Hr Hk. destruct r; [apply Hk|]. unfold computed, arrives in *. cbn. congruence. Qed.

Lemma arrives_after {A B} (r : Proc * outcome A) (k : A -> Proc -> Proc * outcome B) :
  arrives r -> (forall a p, arrives (k a p)) -> arrives (after r k).
Proof. intros Hr Hk. destruct r as [p [a|c|e]]; [apply Hk|done|]. unfold arrives in *. cbn in *. congruence. Qed.

#[local] Hint Resolve arrives_guarded arrives_after startup_wait_computed assoc_lookup_computed
  as_object_computed create_transport_computed : core.

Context (starts : computed proc_start).

Lemma start_openocd_ends cfg p : arrives (start_openocd cfg p).
Proof.
  apply arrives_guarded; [done|]. intros o. apply arrives_guarded; [done|]. intros _.
  apply arrives_guarded; [done|]. intros wait. apply wait_examined_ends; [|unfold wait_fuel; lia].
  pose proof (wait_fuel_enough WAIT_INTERVAL wait eq_refl). lia.
Qed.

Lemma find_simulator_ends cfg p : arrives (find_simulator cfg p).
Proof.
  apply arrives_guarded; [done|]. intros o. apply arrives_guarded; [done|]. intros wait.
  apply arrives_guarded; [by destruct (default _ _)|]. intros path.
  apply wait_socket_ends; [|unfold wait_fuel; lia].
  pose proof (wait_fuel_enough WAIT_INTERVAL wait eq_refl). lia.
Qed.

Lemma reach_openocd_ends cfg t p : arrives (reach_openocd cfg t p).
Proof.
  apply arrives_guarded; [done|]. intros o. apply arrives_guarded; [done|]. intros wait.
  pose proof (retry_connect_ends (wait_fuel RETRY_INTERVAL wait) (now p + wait) t p) as Hr.
  pose proof (wait_fuel_enough RETRY_INTERVAL wait eq_refl).
  destruct (retry_connect _ _ t p) as [[t' p'] r]. apply arrives_after; [|done].
  apply Hr; [lia|unfold wait_fuel; lia].
Qed.

(** Bringing a transport up ends, whatever the configuration says and however the
    machine and OpenOCD behave: every wait is over by its deadline. *)
Theorem connect_transport_ends make cfg p : arrives (connect_transport (T := T) make cfg p).
Proof.
  unfold connect_transport. apply arrives_guarded; [done|]. intros name. apply arrives_after.
  { destruct (is_text "openocd" name); [apply start_openocd_ends|done]. }
  intros _ p'. apply arrives_after.
  { destruct (is_text "uvm" name); [apply find_simulator_ends|done]. }
  intros _ p''. apply arrives_guarded; [done|]. intros spec. apply arrives_after; [|done].
  destruct (is_text "openocd" name); [apply reach_openocd_ends|done].
Qed.

End connecting.
End waits.

(** ** The exit status *)

Lemma all_passed_failed {W} (s : DebugSession.t W) :
  DebugSession.all_passed s = true <-> DebugSession.failed_count s = 0%nat.
Proof.
  unfold DebugSession.all_passed, DebugSession.failed_count.
  induction (DebugSession._results s) as [|r l IH]; cbn; [done|].
  destruct (StepResult.ok r); cbn; [done|]. split; [done|lia].
Qed.

Section verdict.
Context `{Host} `{Clock} {T : Type} `{DebugTransport T}.

(** How a run's session stood, against what the command says. *)
Definition tells (ran : Ran) (r : outcome unit) : Prop :=
  (r = Exit 0 -> counted ran = Some (0%nat, true)) /\
  (counted ran = Some (0%nat, true) -> r = Exit 0 \/ exists e, r = Uncaught e) /\
  (forall n passed, counted ran = Some (n, passed) -> passed = true <-> n = 0%nat).

Lemma tells_uncaught ran r e : tells ran r -> tells ran (Uncaught e).
Proof. intros (_ & _ & Ht). split_and!; [done|eauto|done]. Qed.

Lemma run_session_tells set builder start o ins (t : T) :
  let '(_, ran, r) := run_session set builder start o ins t in tells ran r.
Proof.
  unfold run_session. destruct builder as [[V s0 session]|e]; [|by split_and!].
  destruct (DebugSession.run _ _) as [[s env] [l|x]]; cbn; [|by split_and!].
  pose proof (all_passed_failed s) as Hp.
  assert (forall n passed, Some (DebugSession.failed_count s, DebugSession.all_passed s) = Some (n, passed) ->
            passed = true <-> n = 0%nat) as Hn by (by intros n passed [= <- <-]).
  destruct (DebugSession.all_passed s); cbn; split_and!; cbn; try done; [|by left].
  intros _. by rewrite (proj1 Hp eq_refl).
Qed.

Lemma with_transport_tells none set builder start o ins (t : T) :
  counted none = None ->
  let '(_, ran, r) := with_transport none (run_session set builder start o ins) t in tells ran r.
Proof.
  intros Hn. unfold with_transport. destruct (t_connect t) as [t1 [u|e]].
  - pose proof (run_session_tells set builder start o ins t1) as Ht.
    destruct (run_session _ _ _ _ _ _) as [[t2 ran] r]. destruct (t_disconnect t2) as [t3 [u'|e]]; [done|].
    by eapply tells_uncaught.
  - unfold tells. rewrite Hn. by split_and!.
Qed.

Lemma wait_examined_exit fuel deadline p : snd (wait_examined fuel deadline p) <> Exit 0.
Proof.
  revert p. induction fuel as [|fuel IH]; intros p; cbn [wait_examined]; [done|].
  by repeat case_match.
Qed.

Lemma wait_socket_exit fuel path deadline p : snd (wait_socket fuel path deadline p) <> Exit 0.
Proof.
  revert p. induction fuel as [|fuel IH]; intros p; cbn [wait_socket]; [done|].
  by repeat case_match.
Qed.

Lemma retry_connect_exit fuel deadline (t : T) p : snd (retry_connect fuel deadline t p) <> Exit 0.
Proof.
  revert t p. induction fuel as [|fuel IH]; intros t p; cbn [retry_connect]; [done|].
  repeat case_match; done || apply IH.
Qed.

(** Giving up on a transport is never reported as success. *)
Lemma connect_transport_exit (make : TransportSpec -> T) cfg p :
  snd (connect_transport make cfg p) <> Exit 0.
Proof.
  assert (forall A B p (r : result A) (k : A -> Proc * outcome B),
    (forall a, snd (k a) <> Exit 0) -> snd (guarded p r k) <> Exit 0) as Hg.
  { intros A B q [a|e] k Hk; [apply Hk|done]. }
  assert (forall A B (r : Proc * outcome A) (k : A -> Proc -> Proc * outcome B),
    snd r <> Exit 0 -> (forall a p, snd (k a p) <> Exit 0) -> snd (after r k) <> Exit 0) as Ha.
  { intros A B [q [a|c|e]] k Hr Hk; [apply Hk| |done]. cbn in *. congruence. }
  apply Hg. intros name. apply Ha.
  { destruct (is_text "openocd" name); [|done]. repeat (apply Hg; intros ?). apply wait_examined_exit. }
  intros _ p1. apply Ha.
  { destruct (is_text "uvm" name); [|done]. repeat (apply Hg; intros ?). apply wait_socket_exit. }
  intros _ p2. apply Hg. intros spec. apply Ha; [|done].
  destruct (is_text "openocd" name); [|done]. apply Hg. intros o. apply Hg. intros wait.
  pose proof (retry_connect_exit (wait_fuel RETRY_INTERVAL wait) (now p2 + wait) (make spec) p2) as Hr.
  destruct (retry_connect _ _ _ p2) as [[t' p'] r]. by apply Ha.
Qed.


End verdict.

(** ** The verdict the simulator is told *)

Section uvm.
Context `{Clock} {P : Type} `{Bridge P} (pr : UVMTransport P -> option DMPredictor.t).

#[local] Instance socket : DebugTransport (UVMTransport P) := uvm_transport pr.

(** The failures the client reports at shutdown: those the session counted, or, when
    it did not run to its end, what was set before. *)
Definition reported (ran : Ran) (t : UVMTransport P) : Z :=
  match counted ran with
  | Some (n, _) => Z.of_nat n
  | None => default 0 (_failed_steps t)
  end.

Lemma run_session_sets builder start o ins (t : UVMTransport P) :
  let '(t1, ran, _) := run_session (Some set_session_result) builder start o ins t in
  default 0 (_failed_steps t1) = reported ran t1.
Proof.
  unfold run_session, reported. destruct builder as [[V s0 session]|e]; [|done].
  by destruct (DebugSession.run _ _) as [[s env] [l|x]].
Qed.


End uvm.

Section witness.
#[local] Existing Instance exact_clock.

Let pr : UVMTransport ModelBridge.t -> option DMPredictor.t := fun _ => None.
#[local] Instance model_socket : DebugTransport (UVMTransport ModelBridge.t) := uvm_transport pr.

(** A session of the run-control sequence, and its builder's answer. *)
Definition sample_build : result (Built (T := UVMTransport ModelBridge.t)) :=
  try session <- RunControlSequence.build "batch" 0;; Ok (built RISCVDebug._hartsel0 session).

Definition sample_transport : UVMTransport ModelBridge.t := uvm_init (ModelBridge.mk p_demo 0).

Definition sample_output : Output := mk_output false EmptyString [] EmptyString.


End witness.
