(* ===== verification/CrossCheck.v ===== *)
(** The cross-check of the two reference models: [mk/model_crosscheck.py], which
    replays the inputs that the SystemVerilog model recorded through [DMPredictor]
    and compares the predictions read by read, and the lines that model records
    ([sv/model/dm_ref_model.sv]).

    Reading a file, and which files exist, are parameters; paths are not
    normalised. *)

From stdpp Require Import sorting.
From S2P Require Import Prelude Registers Predictor Session DutConfig Text.

Local Open Scope string_scope.
Local Open Scope list_scope.
Local Open Scope Z_scope.

(** ** Text *)

(** [f"{v:0<w>x}"]. *)
Definition hex_field (w : nat) (v : Z) : string :=
  let digits := S (Z.to_nat (Z.log2 (Z.abs v) / 4)) in
  if v <? 0 then "-" +:+ hex_digits (Nat.max (w - 1) digits) (- v) EmptyString
  else hex_digits (Nat.max w digits) v EmptyString.

(** ** What the SystemVerilog model records *)

(** Its inputs, and the reads the checker examines, with the value the RTL returned
    and what the model claims: whether, of which bits, and what. *)
Inductive record :=
  | Busy (b : bool)
  | Write (addr value : Z)
  | Sync (dmstatus : Z)
  | SbRead
  | Accepted (addr : Z)
  | Read (after_sync : bool) (addr rtl : Z) (has : bool) (mask pred : Z).

(** sv/model/dm_ref_model.sv:165-169 (trace_read) *)
Definition trace_read (after_sync : bool) (addr actual : Z) (has : bool) (mask pred : Z) : string :=
  (if after_sync then "V" else "R") +:+ " " +:+ hex_field 2 addr +:+ " " +:+ hex_field 8 actual +:+
  " " +:+ pretty (to_int has) +:+ " " +:+ hex_field 8 mask +:+ " " +:+ hex_field 8 pred.

(** The lines of [set_observed_cmdbusy], [on_write], [sync_observed_hart_signals],
    [observe_sbdata0_read], [observe_read] and [trace_read].
    sv/model/dm_ref_model.sv:328-331 (set_observed_cmdbusy) *)
Definition trace_line (r : record) : string :=
  match r with
  | Busy b => "B " +:+ pretty (to_int b)
  | Write addr value => "W " +:+ hex_field 2 addr +:+ " " +:+ hex_field 8 value
  | Sync dmstatus => "S " +:+ hex_field 8 dmstatus
  | SbRead => "O"
  | Accepted addr => "A " +:+ hex_field 2 addr
  | Read after_sync addr rtl has mask pred => trace_read after_sync addr rtl has mask pred
  end.

(** sv/model/dm_ref_model.sv:161-163 (trace_note) *)
Definition trace_note (text : string) : string := "C " +:+ text.

(** What [$fdisplay] leaves in the file. *)
Fixpoint trace_text (lines : list string) : string :=
  match lines with
  | [] => EmptyString
  | line :: lines => line +:+ newline +:+ trace_text lines
  end.

(** ** The replay *)

Module Tally.

(** mk/model_crosscheck.py:55-61 (Tally) *)
Record t := mk { reads : Z; claimed : Z; agree : Z; sv_vs_rtl : Z; py_vs_rtl : Z }.

#[global] Instance settable : Settable t := fun x =>
  mk (reads x) (claimed x) (agree x) (sv_vs_rtl x) (py_vs_rtl x).

Definition zero : t := mk 0 0 0 0 0.

Definition plus (a b : t) : t :=
  mk (reads a + reads b) (claimed a + claimed b) (agree a + agree b)
     (sv_vs_rtl a + sv_vs_rtl b) (py_vs_rtl a + py_vs_rtl b).

End Tally.

(** The address of a read and its kind, [R] or [V]. *)
Definition key : Type := Z * string.

Definition key_eqb (a b : key) : bool := (fst a =? fst b) && String.eqb (snd a) (snd b).

(** [d[k] = f(d[k])] of a [defaultdict(Tally)], whose keys stay in the order of their
    first use. *)
Fixpoint tally (k : key) (f : Tally.t -> Tally.t) (d : list (key * Tally.t)) : list (key * Tally.t) :=
  match d with
  | [] => [(k, f Tally.zero)]
  | (k', x) :: d => if key_eqb k k' then (k', f x) :: d else (k', x) :: tally k f d
  end.

Module Result.

(** mk/model_crosscheck.py:64-69 (Result) *)
Record t := mk {
  trace : string;
  tallies : list (key * Tally.t);
  divergences : list (Z * key * string);
  inputs : Z
}.

#[global] Instance settable : Settable t := fun r =>
  mk (trace r) (tallies r) (divergences r) (inputs r).

Definition init (trace : string) : t := mk trace [] [] 0.

End Result.

(** [args[i]]. *)
Definition arg (args : list string) (i : nat) : result string :=
  match args !! i with Some s => Ok s | None => Raise (IndexError "list index out of range") end.

(** [int(args[i], 16)]. *)
Definition hex_arg (args : list string) (i : nat) : result Z :=
  try s <- arg args i;; Int.of_string s 16.

(** [args[i] == "1"]. *)
Definition flag_arg (args : list string) (i : nat) : result bool :=
  rmap (String.eqb "1") (arg args i).

(** How a read is counted, and what is wrong with it.
    mk/model_crosscheck.py:113-129 (replay, one read) *)
Definition compare_read (m : DMPredictor.t) (addr rtl : Z) (sv_has : bool) (sv_mask sv_pred : Z)
    : result ((Tally.t -> Tally.t) * option string) :=
  let py_has := DMPredictor.has_model m addr in
  let py_mask := DMPredictor.predict_mask addr in
  try py_pred <- DMPredictor.predict m addr;;
  let sv := Z.land sv_pred sv_mask in
  let py := Z.land py_pred py_mask in
  let scored (agreed : bool) (x : Tally.t) :=
    Tally.mk (Tally.reads x + 1) (Tally.claimed x + 1) (Tally.agree x + to_int agreed)
      (Tally.sv_vs_rtl x + to_int (negb (sv =? Z.land rtl sv_mask)))
      (Tally.py_vs_rtl x + to_int (negb (py =? Z.land rtl py_mask))) in
  Ok (if negb (Bool.eqb sv_has py_has) then
        ((fun x => x <| Tally.reads := Tally.reads x + 1 |>),
         Some ("has_model sv=" +:+ pretty (to_int sv_has) +:+ " py=" +:+ pretty (to_int py_has)))
      else if negb sv_has then ((fun x => x <| Tally.reads := Tally.reads x + 1 |>), None)
      else if negb (sv_mask =? py_mask) then
        (scored false, Some ("mask sv=" +:+ hex_field 8 sv_mask +:+ " py=" +:+ hex_field 8 py_mask))
      else if negb (sv =? py) then
        (scored false, Some ("prediction sv=" +:+ hex_field 8 sv +:+ " py=" +:+ hex_field 8 py +:+
           " (bits " +:+ hex_field 8 (Z.land (Z.lxor sv_pred py_pred) sv_mask) +:+ ")"))
      else (scored true, None)).

Section replay.

(** [find_config note trace] is the declaration the file named in a note holds. *)
Context (find_config : string -> string -> result DutConfig.t).

(** The model and the result so far, after a line.
    mk/model_crosscheck.py:90-133 (replay, one line) *)
Definition replay_line (st : DMPredictor.t * Result.t) (numbered : Z * string)
    : result (DMPredictor.t * Result.t) :=
  let (m, res) := st in
  let (lineno, line) := numbered in
  let count (r : Result.t) := r <| Result.inputs := Result.inputs r + 1 |> in
  match split line with
  | [] => Ok (m, res)
  | kind :: args =>
      if String.eqb kind "C" then
        try c <- find_config (String.concat " " args) (Result.trace res);;
        try declared <- DutConfig.declared_config 1 c;;
        Ok (DMPredictor.set_config declared m, res)
      else if String.eqb kind "B" then
        try b <- flag_arg args 0;;
        Ok (DMPredictor.set_observed_cmdbusy b m, count res)
      else if String.eqb kind "W" then
        try addr <- hex_arg args 0;;
        try value <- hex_arg args 1;;
        Ok (DMPredictor.on_write addr value m, count res)
      else if String.eqb kind "S" then
        try w <- hex_arg args 0;;
        Ok (DMPredictor.sync_observed_hart_signals w m, count res)
      else if String.eqb kind "O" then Ok (DMPredictor.observe_sbdata0_read m, count res)
      else if String.eqb kind "A" then
        try addr <- hex_arg args 0;;
        Ok (DMPredictor.observe_read addr m, count res)
      else if String.eqb kind "R" || String.eqb kind "V" then
        try addr <- hex_arg args 0;;
        try rtl <- hex_arg args 1;;
        try sv_has <- flag_arg args 2;;
        try sv_mask <- hex_arg args 3;;
        try sv_pred <- hex_arg args 4;;
        try verdict <- compare_read m addr rtl sv_has sv_mask sv_pred;;
        let (counted, why) := verdict in
        let res := res <| Result.tallies := tally (addr, kind) counted (Result.tallies res) |> in
        Ok (m, match why with
               | Some why =>
                   res <| Result.divergences := Result.divergences res ++ [(lineno, (addr, kind), why)] |>
               | None => res
               end)
      else Raise (ValueError (Result.trace res +:+ ":" +:+ pretty lineno +:+
                              ": unknown record '" +:+ line +:+ "'"))
  end.

(** [enumerate(l, n)]. *)
Definition enumerate {A} (n : Z) (l : list A) : list (Z * A) :=
  zip (seqZ n (Z.of_nat (length l))) l.

(** mk/model_crosscheck.py:86-134 (replay) *)
Definition replay (trace text : string) : result Result.t :=
  rmap snd (fold_ok replay_line (DMPredictor.init Kwargs.default, Result.init trace)
                    (enumerate 1 (splitlines text))).

End replay.

(** ** Finding a declaration *)

Section files.
Context (is_file : string -> bool) (cwd root : string).

(** [Path.is_absolute], and [base / raw]. *)
Definition is_absolute (p : string) : bool := String.prefix "/" p.
Definition join_path (base raw : string) : string :=
  if is_absolute raw then raw else base +:+ "/" +:+ raw.

(** mk/model_crosscheck.py:72-83 (_config_path) *)
Definition _config_path (parent note trace : string) : result string :=
  let candidates := map (fun base => join_path base note)
                        [cwd; root +:+ "/cva6_sim"; root +:+ "/ibex_sim"; parent] in
  match List.find is_file candidates with
  | Some cand => Ok cand
  | None =>
      let by_name := root +:+ "/src/pydebug/dut_configs/" +:+ basename note in
      if is_file by_name then Ok by_name
      else Raise (FileNotFoundError (trace +:+ ": DUT config '" +:+ note +:+ "' not found"))
  end.

End files.

(** ** The report *)

(** mk/model_crosscheck.py:47-52 (NAMES) *)
Definition NAMES : list (Z * string) :=
  [(0x04, "data0"); (0x10, "dmcontrol"); (0x11, "dmstatus"); (0x12, "hartinfo");
   (0x14, "hawindowsel"); (0x16, "abstractcs"); (0x17, "command");
   (0x18, "abstractauto"); (0x1D, "nextdm"); (0x38, "sbcs"); (0x3C, "sbdata0");
   (0x40, "haltsum0")].

(** mk/model_crosscheck.py:137-143 (_name) *)
Definition _name (k : key) : string :=
  let (addr, kind) := k in
  let name := match List.find (fun '(a, _) => a =? addr) NAMES with
              | Some (_, name) => name
              | None => py_hex 2 addr
              end in
  if addr =? 0x11 then
    name +:+ (if String.eqb kind "V" then " (after hart-signal sync: the checker's verdict)"
              else " (before hart-signal sync: run-control logic)")
  else name.

(** The order of the keys. *)
Definition key_le (a b : key * Tally.t) : Prop :=
  fst (fst a) < fst (fst b) \/
  (fst (fst a) = fst (fst b) /\ String.leb (snd (fst a)) (snd (fst b)) = true).

#[local] Instance key_le_dec : RelDecision key_le.
Proof. intros a b. unfold key_le. apply _. Defined.

(** The totals over all traces.
    mk/model_crosscheck.py:147-151 (render, the totals) *)
Definition totals (results : list Result.t) : list (key * Tally.t) :=
  fold_left (fun total r =>
    fold_left (fun total '(k, x) => tally k (fun y => Tally.plus y x) total) (Result.tallies r) total)
    results [].

Definition sum_of (l : list Z) : Z := foldr Z.add 0 l.

(** The reads of a kind. *)
Definition reads_of (kind : string) (d : list (key * Tally.t)) : Z :=
  sum_of (map (fun '(k, x) => Tally.reads x) (List.filter (fun '(k, _) => String.eqb (snd k) kind) d)).

(** mk/model_crosscheck.py:152-152 (render, diverged) *)
Definition diverged (results : list Result.t) : Z :=
  sum_of (map (fun r => Z.of_nat (length (Result.divergences r))) results).

Definition row (cells : list string) : string := "| " +:+ String.concat " | " cells +:+ " |".
Definition code (s : string) : string := "`" +:+ s +:+ "`".

(** The lines of the report.
    mk/model_crosscheck.py:153-176 (render, the lines) *)
Definition render_lines (results : list Result.t) : list string :=
  let total := totals results in
  let n := diverged results in
  ["# Reference-model cross-check: dm_ref_model.sv vs DMPredictor"; EmptyString;
   pretty (Z.of_nat (length results)) +:+ " trace(s), " +:+
   pretty (sum_of (map Result.inputs results)) +:+ " model inputs replayed, " +:+
   pretty (reads_of "R" total) +:+ " reads compared (plus " +:+ pretty (reads_of "V" total) +:+
   " dmstatus reads after the hart-signal sync). **" +:+
   (if truthy n then pretty n +:+ " divergence(s)." else "The models agree on every read.") +:+ "**";
   EmptyString;
   "| Register | Reads | Both claim | Same prediction | SV ≠ RTL | Python ≠ RTL |";
   "|---|---:|---:|---:|---:|---:|"] ++
  map (fun '(k, x) =>
         row [code (_name k); pretty (Tally.reads x); pretty (Tally.claimed x); pretty (Tally.agree x);
              pretty (Tally.sv_vs_rtl x); pretty (Tally.py_vs_rtl x)])
      (merge_sort key_le total) ++
  [EmptyString; "| Trace | Inputs | Reads | Divergences |"; "|---|---:|---:|---:|"] ++
  map (fun r => row [code (basename (Result.trace r)); pretty (Result.inputs r);
                     pretty (reads_of "R" (Result.tallies r));
                     pretty (Z.of_nat (length (Result.divergences r)))]) results ++
  (if truthy n then
     [EmptyString; "## Divergences"; EmptyString] ++
     flat_map (fun r =>
       map (fun '(lineno, k, why) =>
              "- " +:+ code (basename (Result.trace r) +:+ ":" +:+ pretty lineno) +:+ " " +:+
              code (_name k) +:+ ": " +:+ why) (take 50 (Result.divergences r))) results
   else []).

(** mk/model_crosscheck.py:146-177 (render) *)
Definition render (results : list Result.t) : string :=
  String.concat newline (render_lines results) +:+ newline.

(** The text printed, and the exit status.
    mk/model_crosscheck.py:180-191 (main) *)
Definition main (find_config : string -> string -> result DutConfig.t)
    (traces : list (string * string)) : result (string * Z) :=
  try results <- fold_ok (fun rs '(trace, text) =>
                   rmap (fun r => rs ++ [r]) (replay find_config trace text)) [] traces;;
  Ok (render results,
      to_int (existsb (fun r => negb (Nat.eqb (length (Result.divergences r)) 0)) results)).
