(* ===== verification/CrossCheckSound.v ===== *)
(** The cross-check of the two reference models tells exactly whether they agree
    ([CrossCheck]). *)

From Stdlib Require Import Ascii.
From S2P Require Import Prelude Registers Predictor Session DutConfig Text OpenOcd OpenOcdSound.
From S2P Require Import Reachable ReadBack Buffers CrossCheck.

Local Open Scope string_scope.
Local Open Scope list_scope.
Local Open Scope Z_scope.

(** ** Words and lines *)

(** A character of a word, which is no white space and so ends no line. *)
Definition plain (c : ascii) : bool := negb (Int.space c).

Definition plain_word (s : string) : Prop := chars s <> [] /\ forallb plain (chars s) = true.

(** A character that ends no line. *)
Definition in_line (c : ascii) : bool := negb (Ascii.eqb c carriage_return) && negb (line_break c).

Lemma plain_in_line c : plain c = true -> in_line c = true.
Proof. destruct c as [[] [] [] [] [] [] [] []]; vm_compute; congruence. Qed.

Lemma of_chars s : String.string_of_list_ascii (chars s) = s.
Proof. apply String.string_of_list_ascii_of_string. Qed.

Lemma words_word l w r :
  forallb plain l = true -> w ++ l <> [] ->
  words_from (l ++ r) w = words_from r (rev l ++ w).
Proof.
  revert w. induction l as [|c l IH]; intros w Hl Hw; [done|]. cbn in Hl |- *.
  apply andb_prop in Hl as [Hc Hl]. unfold plain in Hc. apply negb_true_iff in Hc. rewrite Hc.
  rewrite IH, <-app_assoc by done || (by destruct w). done.
Qed.

Lemma words_flush l r :
  l <> [] ->
  words_from [] (rev l) = [l] /\ words_from (" "%char :: r) (rev l) = l :: words_from r [].
Proof.
  intros Hn. cbn [words_from]. change (Int.space " ") with true. cbn iota.
  destruct (rev l) as [|c l'] eqn:Hr; [|by rewrite <-Hr, rev_involutive].
  by apply (f_equal (@rev _)) in Hr; rewrite rev_involutive in Hr.
Qed.

Lemma split_word s : plain_word s -> split s = [s].
Proof.
  intros [Hn Hp]. unfold split. fold (chars s). rewrite <-(app_nil_r (chars s)).
  rewrite words_word, !app_nil_r by done. rewrite (proj1 (words_flush _ [] Hn)). cbn.
  by rewrite of_chars.
Qed.

Lemma split_space s t : plain_word s -> split (s +:+ " " +:+ t) = s :: split t.
Proof.
  intros [Hn Hp]. unfold split. fold (chars (s +:+ " " +:+ t)) (chars t). rewrite !chars_app.
  rewrite words_word, app_nil_r by done. change (chars " ") with [" "%char]. cbn [app].
  rewrite (proj2 (words_flush _ _ Hn)). cbn [map]. by rewrite of_chars.
Qed.

Lemma splitlines_line s r line :
  forallb in_line s = true ->
  splitlines_from (s ++ line_feed :: r) line = (rev line ++ s) :: splitlines_from r [].
Proof.
  revert line. induction s as [|c s IH]; intros line Hs; cbn [app splitlines_from].
  - change (Ascii.eqb line_feed carriage_return) with false. change (line_break line_feed) with true.
    cbn iota. by rewrite app_nil_r.
  - cbn in Hs. apply andb_prop in Hs as [Hc Hs]. unfold in_line in Hc.
    apply andb_prop in Hc as [->%negb_true_iff ->%negb_true_iff].
    rewrite IH by done. cbn. by rewrite <-app_assoc.
Qed.

(** The lines of a text written line by line are the lines written. *)
Lemma splitlines_text lines :
  Forall (fun s => forallb in_line (chars s) = true) lines -> splitlines (trace_text lines) = lines.
Proof.
  unfold splitlines. induction 1 as [|s lines Hs Hl IH]; [done|]. cbn [trace_text].
  fold (chars (s +:+ newline +:+ trace_text lines)). rewrite !chars_app.
  change (chars newline) with [line_feed]. cbn [app]. rewrite splitlines_line by done.
  cbn [map rev app]. rewrite of_chars. by f_equal.
Qed.

(** ** Numbers *)

Lemma hex_field_digits w v :
  0 <= v -> exists n, hex_field w v = hex_digits (S n) v EmptyString /\ v < 16 ^ Z.of_nat (S n).
Proof.
  intros Hv. unfold hex_field. rewrite (proj2 (Z.ltb_ge v 0)), Z.abs_eq by lia.
  destruct (Nat.max w (S (Z.to_nat (Z.log2 v / 4)))) as [|n] eqn:Hn; [lia|].
  exists n. split; [done|]. apply enough_digits; lia.
Qed.

Lemma hex_plain l : forallb is_hex l = true -> forallb plain l = true.
Proof.
  rewrite !forallb_forall. intros Hl c Hc. unfold plain. by rewrite hex_not_space; [|apply Hl].
Qed.

Lemma hex_field_word w v : 0 <= v -> plain_word (hex_field w v).
Proof.
  intros Hv. destruct (hex_field_digits w v Hv) as (n & -> & _).
  split; [apply hex_digits_length|]. by apply hex_plain, hex_digits_hex.
Qed.

Lemma hex_digit c :
  is_hex c = true -> exists d, Int.digit_value c = Some d /\ 0 <= d < 16 /\ Ascii.eqb c "_" = false.
Proof.
  destruct c as [[] [] [] [] [] [] [] []]; vm_compute; intros; try discriminate;
    (eexists; split; [reflexivity|]; split; [split; [discriminate|reflexivity]|reflexivity]).
Qed.

Lemma digits_hex l acc prev :
  forallb is_hex l = true -> prev = true \/ l <> [] ->
  Int.digits 16 l acc prev = Some (fold_left (digit_step 16) l acc).
Proof.
  revert acc prev. induction l as [|c l IH]; intros acc prev Hl Hp; cbn [Int.digits fold_left].
  - by destruct Hp as [->|].
  - cbn in Hl. apply andb_prop in Hl as [Hc Hl]. destruct (hex_digit c Hc) as (d & Hd & Hb & Hu).
    rewrite Hu, Hd. destruct (Z.ltb_spec d 16); [|lia]. rewrite IH by auto. f_equal.
    unfold digit_step. by rewrite Hd.
Qed.

(** The characters that [int] treats on their own. *)
Definition special (c : ascii) : bool :=
  existsb (Ascii.eqb c) ["-"; "+"; "x"; "X"; "o"; "O"]%char.

Lemma hex_not_special c : is_hex c = true -> special c = false.
Proof. destruct c as [[] [] [] [] [] [] [] []]; vm_compute; congruence. Qed.

Lemma unsigned_hex l :
  l <> [] -> forallb is_hex l = true -> Int.unsigned 16 l = Some (fold_left (digit_step 16) l 0).
Proof.
  intros Hn Hl. rewrite <-(digits_hex l 0 false) by auto.
  destruct l as [|c [|c' l]]; [done| |]; cbn in Hl.
  - destruct c as [[] [] [] [] [] [] [] []]; reflexivity.
  - apply andb_prop in Hl as [_ [Hc' _]%andb_prop]. apply hex_not_special in Hc'.
    unfold special in Hc'. cbn [existsb] in Hc'. rewrite !orb_false_iff in Hc'.
    destruct Hc' as (_ & _ & Hx & HX & Ho & HO & _).
    unfold Int.unsigned. rewrite Hx, HX, Ho, HO. change (16 =? 0) with false.
    rewrite !andb_false_r. cbn [orb andb].
    destruct c as [[] [] [] [] [] [] [] []]; reflexivity.
Qed.

Lemma of_string_unsigned s :
  chars s <> [] -> forallb is_hex (chars s) = true ->
  Int.of_string s 16 = match Int.unsigned 16 (chars s) with
                       | Some n => Ok n
                       | None => Raise (ValueError ("invalid literal for int() with base 16: '" +:+ s +:+ "'"))
                       end.
Proof.
  intros Hn Hl. unfold Int.of_string. fold (chars s). rewrite strip_id; cycle 1.
  - destruct (chars s) as [|c r]; [done|]. cbn in Hl. apply andb_prop in Hl as [Hc _].
    exists c, r. split; [done|]. by apply hex_not_space.
  - destruct (last_of (chars s) Hn) as (r & c & Hr). exists r, c. split; [done|].
    apply hex_not_space. rewrite Hr in Hl. by eapply forallb_last.
  - destruct (chars s) as [|c r]; [done|]. cbn in Hl. apply andb_prop in Hl as [Hc _].
    destruct c as [[] [] [] [] [] [] [] []]; (discriminate Hc || reflexivity).
Qed.

(** A number printed in hexadecimal is read back. *)
Lemma hex_field_roundtrip w v : 0 <= v -> Int.of_string (hex_field w v) 16 = Ok v.
Proof.
  intros Hv. destruct (hex_field_word w v Hv) as [Hn _].
  destruct (hex_field_digits w v Hv) as (n & Hf & Hb).
  assert (forallb is_hex (chars (hex_field w v)) = true) as Hh.
  { rewrite Hf. by apply hex_digits_hex. }
  rewrite of_string_unsigned, unsigned_hex by done. rewrite Hf, hex_digits_value by done.
  cbn [chars String.list_ascii_of_string fold_left]. rewrite Z.mod_small by lia. done.
Qed.

(** ** The records *)

(** The numbers of a record are words of the hardware, so not negative. *)
Definition unsigned_record (r : record) : Prop :=
  match r with
  | Busy _ | SbRead => True
  | Write addr value => 0 <= addr /\ 0 <= value
  | Sync w => 0 <= w
  | Accepted addr => 0 <= addr
  | Read _ addr rtl _ mask pred => 0 <= addr /\ 0 <= rtl /\ 0 <= mask /\ 0 <= pred
  end.

(** What a record does to the model it is replayed through. *)
Definition apply (r : record) (m : DMPredictor.t) : DMPredictor.t :=
  match r with
  | Busy b => DMPredictor.set_observed_cmdbusy b m
  | Write addr value => DMPredictor.on_write addr value m
  | Sync w => DMPredictor.sync_observed_hart_signals w m
  | SbRead => DMPredictor.observe_sbdata0_read m
  | Accepted addr => DMPredictor.observe_read addr m
  | Read _ _ _ _ _ _ => m
  end.

(** The two models agree on a read: on whether they claim it and, if so, on which
    bits and what these are. *)
Definition agrees (m : DMPredictor.t) (r : record) : bool :=
  match r with
  | Read _ addr _ has mask pred =>
      Bool.eqb has (DMPredictor.has_model m addr) &&
      (negb has ||
       (mask =? DMPredictor.predict_mask addr) &&
       match DMPredictor.predict m addr with
       | Ok py => Z.land pred mask =? Z.land py mask
       | Raise _ => false
       end)
  | _ => true
  end.

Fixpoint all_agree (m : DMPredictor.t) (rs : list record) : bool :=
  match rs with [] => true | r :: rs => agrees m r && all_agree (apply r m) rs end.

Definition is_input (r : record) : Z := match r with Read _ _ _ _ _ _ => 0 | _ => 1 end.

(** What the model itself would record of a read. *)
Definition self_read (m : DMPredictor.t) (after_sync : bool) (addr rtl : Z) : record :=
  Read after_sync addr rtl (DMPredictor.has_model m addr) (DMPredictor.predict_mask addr)
       (match DMPredictor.predict m addr with Ok v => v | Raise _ => 0 end).

Lemma pretty_flag b : plain_word (pretty (to_int b)) /\ String.eqb "1" (pretty (to_int b)) = b.
Proof. destruct b; by vm_compute. Qed.

Lemma literal_word s : forallb plain (chars s) && negb (Nat.eqb (length (chars s)) 0) = true -> plain_word s.
Proof. intros [Hp Hn]%andb_prop. split; [|done]. by destruct (chars s). Qed.

#[local] Hint Resolve hex_field_word split_word : core.
#[local] Hint Extern 1 (plain_word (pretty (to_int _))) => apply pretty_flag : core.
#[local] Hint Extern 2 (plain_word _) => (apply literal_word; reflexivity) : core.

(** The words of a line. *)
Lemma split_trace_line r :
  unsigned_record r ->
  split (trace_line r) =
  match r with
  | Busy b => ["B"; pretty (to_int b)]
  | Write addr value => ["W"; hex_field 2 addr; hex_field 8 value]
  | Sync w => ["S"; hex_field 8 w]
  | SbRead => ["O"]
  | Accepted addr => ["A"; hex_field 2 addr]
  | Read after_sync addr rtl has mask pred =>
      [if after_sync then "V" else "R"; hex_field 2 addr; hex_field 8 rtl; pretty (to_int has);
       hex_field 8 mask; hex_field 8 pred]
  end.
Proof.
  assert (forall a t, String.append (String a " ") t = String a EmptyString +:+ " " +:+ t) as Hc by done.
  destruct r as [b|addr value|w| |addr|k addr rtl has mask pred]; cbn [trace_line unsigned_record];
    intros Hr; unfold trace_read; rewrite ?Hc;
    repeat match goal with H : _ /\ _ |- _ => destruct H end;
    rewrite ?split_space, ?split_word by auto; try done.
  destruct k; by rewrite !split_space, split_word by auto.
Qed.

Lemma predict_ok p addr : sizes_ok p -> exists w, DMPredictor.predict p addr = Ok w.
Proof.
  intros Hsz. unfold DMPredictor.predict, DMPredictor._expect_dmcontrol.
  destruct (encode_total DMCONTROL (DMPredictor.dmcontrol_values p)) as (wc & -> & _);
    [done|by apply NoDup_dec_true|done|].
  destruct (expect_dmstatus_spec p) as (ws & -> & _).
  destruct (expect_abstractauto_ok p Hsz) as (wa & -> & _). cbn [rmap].
  repeat match goal with |- exists w, (if ?b then _ else _) = _ => destruct b end; eauto.
Qed.

Lemma cfg_apply r m : DMPredictor.cfg (apply r m) = DMPredictor.cfg m.
Proof.
  destruct r; cbn [apply]; try done.
  - apply cfg_on_write.
  - unfold DMPredictor.sync_observed_hart_signals. by case_match.
  - unfold DMPredictor.observe_sbdata0_read, DMPredictor._sbdata0_read_effects.
    case_match; by rewrite ?cfg_sba_autoincrement, ?cfg_sba_arm_read.
  - unfold DMPredictor.observe_read, DMPredictor._sbdata0_read_effects.
    repeat case_match; by rewrite ?cfg_execute_command, ?cfg_sba_autoincrement, ?cfg_sba_arm_read.
Qed.

Lemma sizes_apply r m : sizes_ok m -> sizes_ok (apply r m).
Proof. unfold sizes_ok. by rewrite cfg_apply. Qed.

Lemma hex_arg_field args i w v :
  args !! i = Some (hex_field w v) -> 0 <= v -> hex_arg args i = Ok v.
Proof. intros Ha Hv. unfold hex_arg, arg. rewrite Ha. by apply hex_field_roundtrip. Qed.

Lemma flag_arg_pretty args i b : args !! i = Some (pretty (to_int b)) -> flag_arg args i = Ok b.
Proof. intros Ha. unfold flag_arg, arg. rewrite Ha. cbn [rmap]. by rewrite (proj2 (pretty_flag b)). Qed.

(** The words of a line, as the replay reads them. *)
Ltac read_args :=
  cbn -[flag_arg hex_arg pretty hex_field compare_read agrees];
  repeat (erewrite hex_arg_field by (reflexivity || lia); cbn [rbind]);
  repeat (erewrite flag_arg_pretty by reflexivity; cbn [rbind]);
  repeat (erewrite hex_arg_field by (reflexivity || lia); cbn [rbind]).

Section replay.
Context (find_config : string -> string -> result DutConfig.t).

(** One record, replayed: the model takes it, and a divergence is noted exactly when
    the models do not agree. *)
Lemma replay_record m res k r :
  unsigned_record r -> sizes_ok m ->
  exists res', replay_line find_config (m, res) (k, trace_line r) = Ok (apply r m, res') /\
    Result.trace res' = Result.trace res /\
    Result.inputs res' = Result.inputs res + is_input r /\
    if agrees m r then Result.divergences res' = Result.divergences res
    else exists d, Result.divergences res' = Result.divergences res ++ [d].
Proof.
  intros Hr Hs. unfold replay_line. rewrite split_trace_line by done.
  destruct r as [b|addr value|w| |addr|k' addr rtl has mask pred]; cbn [unsigned_record] in Hr.
  1-5: read_args; eexists; by split_and!.
  destruct Hr as (? & ? & ? & ?). destruct (predict_ok m addr Hs) as [py Hpy].
  destruct k'; read_args; unfold compare_read, agrees; rewrite Hpy; cbn;
    destruct (Bool.eqb has (DMPredictor.has_model m addr)); cbn;
    try (eexists; split_and!; [done|done|cbn; lia|by eexists]);
    destruct has; cbn; try (eexists; split_and!; [done|done|cbn; lia|done]);
    (destruct (Z.eqb_spec mask (DMPredictor.predict_mask addr)) as [->|]; cbn;
      [|eexists; split_and!; [done|done|cbn; lia|by eexists]]);
    destruct (Z.land pred _ =? Z.land py _); cbn; eexists; (split_and!; [done|done|cbn; lia|]);
    done || by eexists.
Qed.

Lemma enumerate_cons {A} k (x : A) l : enumerate k (x :: l) = (k, x) :: enumerate (Z.succ k) l.
Proof.
  unfold enumerate. cbn [length]. rewrite Nat2Z.inj_succ, seqZ_cons by lia. by rewrite Z.pred_succ.
Qed.

Lemma replay_records rs m res k :
  Forall unsigned_record rs -> sizes_ok m ->
  exists m' res', fold_ok (replay_line find_config) (m, res) (enumerate k (map trace_line rs)) = Ok (m', res') /\
    Result.trace res' = Result.trace res /\
    Result.inputs res' = Result.inputs res + sum_of (map is_input rs) /\
    (Result.divergences res' = [] <-> Result.divergences res = [] /\ all_agree m rs = true).
Proof.
  intros Hr. revert m res k. induction Hr as [|r rs Hr Hrs IH]; intros m res k Hs.
  - exists m, res. cbn. split_and!; [done|done|lia|]. by split; [|intros [? _]].
  - cbn [map]. rewrite enumerate_cons. cbn [fold_ok]. destruct (replay_record m res k r Hr Hs) as (r1 & -> & Ht & Hi & Hd). cbn [rbind].
    destruct (IH (apply r m) r1 (Z.succ k) (sizes_apply r m Hs)) as (m' & r2 & -> & Ht' & Hi' & Hd').
    exists m', r2. cbn [sum_of map foldr all_agree]. unfold sum_of in *.
    split_and!; [done|congruence|rewrite Hi', Hi; cbn; lia|]. rewrite Hd'.
    destruct (agrees m r); cbn [andb]; [by rewrite Hd|]. destruct Hd as [d ->].
    split; [|by intros []]. intros [Hd _]. by destruct (Result.divergences res).
Qed.

Lemma plain_word_in_line s : plain_word s -> forallb in_line (chars s) = true.
Proof.
  intros [_ Hs]. rewrite forallb_forall in Hs |- *. intros c Hc. by apply plain_in_line, Hs.
Qed.

Lemma trace_line_in_line r : unsigned_record r -> forallb in_line (chars (trace_line r)) = true.
Proof.
  pose proof plain_word_in_line.
  assert (forall b, forallb in_line (chars (pretty (to_int b))) = true) as Hb by (by intros []).
  assert (forall w v, 0 <= v -> forallb in_line (chars (hex_field w v)) = true) as Hh by auto.
  intros Hr. destruct r as [b|addr value|w| |addr|k addr rtl has mask pred]; cbn [unsigned_record trace_line] in *;
    unfold trace_read; rewrite ?chars_app, ?forallb_app, ?Hb, ?Hh by lia; try done.
  by destruct k.
Qed.

(** C24: The cross-check finds a divergence exactly when the two reference models
    disagree.  For every trace the SystemVerilog model can write (a note naming a
    readable declaration, then any records of its inputs and of the examined reads),
    the replay parses the text, never raises, counts every input, and reports no
    divergence if and only if at each read, in the state the recorded inputs lead the
    Python model to, both models claim it or neither does, and what they claim are the
    same bits with the same values. *)
Theorem crosscheck_exact trace note rs c d :
  plain_word note -> Forall unsigned_record rs ->
  find_config note trace = Ok c -> DutConfig.declared_config 1 c = Ok d ->
  0 <= DeclaredConfig.progbufsize d -> 0 <= DeclaredConfig.datacount d ->
  exists res,
    replay find_config trace (trace_text (trace_note note :: map trace_line rs)) = Ok res /\
    Result.inputs res = sum_of (map is_input rs) /\
    (Result.divergences res = [] <->
     all_agree (DMPredictor.set_config d (DMPredictor.init Kwargs.default)) rs = true).
Proof.
  intros Hn Hrs Hc Hd Hpb Hdc. unfold replay. rewrite splitlines_text; cycle 1.
  { constructor.
    - unfold trace_note. rewrite chars_app, forallb_app, (plain_word_in_line note) by done. done.
    - apply Forall_map. eapply Forall_impl; [exact Hrs|]. apply trace_line_in_line. }
  rewrite enumerate_cons. cbn [fold_ok]. unfold replay_line at 1.
  change (trace_note note) with ("C" +:+ " " +:+ note).
  rewrite split_space, split_word by auto. cbn [String.eqb Ascii.eqb Bool.eqb].
  cbn [String.concat]. change (Result.trace (Result.init trace)) with trace. rewrite Hc. cbn [rbind].
  rewrite Hd. cbn [rbind].
  destruct (replay_records rs (DMPredictor.set_config d (DMPredictor.init Kwargs.default))
              (Result.init trace) (Z.succ 1) Hrs) as (m' & res & -> & _ & Hi & Hv); [by split|].
  exists res. cbn [rmap snd]. split_and!; [done|by rewrite Hi|]. rewrite Hv. cbn. tauto.
Qed.

End replay.

(** The models agree on what the Python model itself would have recorded. *)
Lemma self_read_agrees m after_sync addr rtl :
  sizes_ok m -> agrees m (self_read m after_sync addr rtl) = true.
Proof.
  intros Hs. destruct (predict_ok m addr Hs) as [w Hw]. unfold agrees, self_read. rewrite Hw, eqb_reflx.
  rewrite !Z.eqb_refl. by destruct (DMPredictor.has_model m addr).
Qed.

(** The exit status of the script on one trace. *)
Lemma main_status find_config trace text res :
  replay find_config trace text = Ok res ->
  exists report status, main find_config [(trace, text)] = Ok (report, status) /\
    (status = 0 <-> Result.divergences res = []) /\ (status = 0 \/ status = 1).
Proof.
  intros Hr. unfold main. cbn [fold_ok]. rewrite Hr. cbn [rmap rbind app existsb]. do 2 eexists.
  split; [done|]. rewrite orb_false_r. destruct (Result.divergences res); cbn; split; auto; split; done.
Qed.

Section witness.

Let find_config (_ _ : string) : result DutConfig.t := load_dut_config "d" (shipped "d") "cva6".

(** The DM is activated and its hart halted; the first dmstatus agrees, the second one
    has lost a bit. *)
Definition sample_records : list record :=
  [Write 0x10 1; Write 0x10 0x80000001; Read false 0x11 0x00000382 true 0xFFFFFFFF 0x008C0383;
   Read true 0x11 0x00000382 true 0xFFFFFFFF 0x008C0382].

Lemma crosscheck_exact_witness :
  exists res,
    replay find_config "a.model_trace"
      (trace_text (trace_note "../src/pydebug/dut_configs/cva6.json" :: map trace_line sample_records)) = Ok res /\
    Result.inputs res = 2 /\ Result.divergences res <> [].
Proof.
  destruct (find_config "" "") as [c|e] eqn:Hc; [|vm_compute in Hc; discriminate].
  destruct (DutConfig.declared_config 1 c) as [d|e] eqn:Hd;
    [|vm_compute in Hc; injection Hc as <-; vm_compute in Hd; discriminate].
  assert (d = match rbind (find_config "" "") (DutConfig.declared_config 1) with
              | Ok d => d | Raise _ => DeclaredConfig.default end) as Hdd by (by rewrite Hc; cbn; rewrite Hd).
  destruct (crosscheck_exact find_config "a.model_trace" "../src/pydebug/dut_configs/cva6.json"
              sample_records c d) as (res & Hr & Hi & Hv).
  - apply literal_word. reflexivity.
  - repeat constructor; lia.
  - exact Hc.
  - exact Hd.
  - rewrite Hdd. vm_compute. discriminate.
  - rewrite Hdd. vm_compute. discriminate.
  - exists res. split; [exact Hr|]. split; [exact Hi|]. intros Hn. apply Hv in Hn. revert Hn.
    rewrite Hdd. vm_compute. discriminate.
Defined.

(** The report names the read and the bits. *)
Example sample_divergence :
  rmap Result.divergences (replay find_config "a.model_trace"
    (trace_text (trace_note "../src/pydebug/dut_configs/cva6.json" :: map trace_line sample_records)))
  = Ok [(5, (0x11, "V"), "prediction sv=008c0382 py=008c0383 (bits 00000001)")].
Proof. vm_compute. reflexivity. Qed.

End witness.
