(* ===== verification/AbstractCmd.v ===== *)
(** Which bits of the Debug Module's generated programs can vary:
    [mk/dm_abstract_cmd_bits.py], a transcription of the ROM that [dm_mem] builds for
    an abstract command, enumerated over the commands. *)

From S2P Require Import Prelude.

Local Open Scope list_scope.
Local Open Scope Z_scope.

(** ** Instructions *)

Definition cat (l : list Z) : Z := foldl Z.lor 0 l.

(** mk/dm_abstract_cmd_bits.py:20-20 (load) *)
Definition load (sz d b o : Z) : Z :=
  cat [Z.shiftl o 20; Z.shiftl b 15; Z.shiftl sz 12; Z.shiftl d 7; 0x03].
(** mk/dm_abstract_cmd_bits.py:21-21 (store) *)
Definition store (sz s b o : Z) : Z :=
  cat [Z.shiftl (Z.shiftr o 5) 25; Z.shiftl s 20; Z.shiftl b 15; Z.shiftl sz 12;
       Z.shiftl (Z.land o 0x1f) 7; 0x23].
(** mk/dm_abstract_cmd_bits.py:22-22 (fload) *)
Definition fload (sz d b o : Z) : Z :=
  cat [Z.shiftl o 20; Z.shiftl b 15; Z.shiftl sz 12; Z.shiftl d 7; 0x07].
(** mk/dm_abstract_cmd_bits.py:23-23 (fstore) *)
Definition fstore (sz s b o : Z) : Z :=
  cat [Z.shiftl (Z.shiftr o 5) 25; Z.shiftl s 20; Z.shiftl b 15; Z.shiftl sz 12;
       Z.shiftl (Z.land o 0x1f) 7; 0x27].
(** mk/dm_abstract_cmd_bits.py:24-24 (csrw) *)
Definition csrw (c r : Z) : Z := cat [Z.shiftl c 20; Z.shiftl r 15; Z.shiftl 1 12; 0x73].
(** mk/dm_abstract_cmd_bits.py:25-25 (csrr) *)
Definition csrr (c d : Z) : Z := cat [Z.shiftl c 20; Z.shiftl 2 12; Z.shiftl d 7; 0x73].
(** mk/dm_abstract_cmd_bits.py:26-26 (auipc) *)
Definition auipc (rd imm : Z) : Z := cat [Z.shiftl rd 7; 0x17].
(** mk/dm_abstract_cmd_bits.py:27-27 (srli) *)
Definition srli (rd rs sh : Z) : Z :=
  cat [Z.shiftl sh 20; Z.shiftl rs 15; Z.shiftl 5 12; Z.shiftl rd 7; 0x13].
(** mk/dm_abstract_cmd_bits.py:28-28 (slli) *)
Definition slli (rd rs sh : Z) : Z :=
  cat [Z.shiftl sh 20; Z.shiftl rs 15; Z.shiftl 1 12; Z.shiftl rd 7; 0x13].

(** mk/dm_abstract_cmd_bits.py:29-30 (EBREAK, NOP, ILLEGAL, DS0, DS1, LB, DA) *)
Definition EBREAK : Z := 0x00100073.
Definition NOP : Z := 0x13.
Definition ILLEGAL : Z := 0.
Definition DS0 : Z := 0x7b2.
Definition DS1 : Z := 0x7b3.
Definition LB : Z := 10.
Definition DA : Z := 0x380.

(** mk/dm_abstract_cmd_bits.py:31-31 (w) *)
Definition w (lo hi : Z) : Z := Z.lor (Z.shiftl hi 32) lo.

(** ** The program of a command *)

(** A command: the fields of its word. *)
Record Cmd := mk_cmd {
  cmdtype : Z;
  size : Z;
  transfer : Z;
  write : Z;
  postexec : Z;
  postinc : Z;
  regno : Z
}.

(** mk/dm_abstract_cmd_bits.py:54-56 (gen, lo, hi, setlo, sethi) *)
Definition slot (s : list Z) (i : nat) : Z := default 0 (s !! i).
Definition lo (s : list Z) (i : nat) : Z := Z.land (slot s i) 0xffffffff.
Definition hi (s : list Z) (i : nat) : Z := Z.shiftr (slot s i) 32.
Definition setlo (i : nat) (v : Z) (s : list Z) : list Z := <[i := Z.lor (Z.shiftl (hi s i) 32) v]> s.
Definition sethi (i : nat) (v : Z) (s : list Z) : list Z := <[i := Z.lor (Z.shiftl v 32) (lo s i)]> s.

(** mk/dm_abstract_cmd_bits.py:50-52 (gen, the frame) *)
Definition frame : list Z :=
  [w ILLEGAL (auipc 10 0); w (srli 10 10 12) (slli 10 10 12); w NOP NOP; w NOP NOP;
   w (csrr DS1 10) EBREAK; 0; 0; 0].

(** The program, and whether the command is unsupported.
    mk/dm_abstract_cmd_bits.py:58-69 (gen, a transfer to a register) *)
Definition gen_write (c : Cmd) (s : list Z) : list Z * bool :=
  let r12 := Z.land (Z.shiftr (regno c) 12) 1 in
  let r5 := Z.land (Z.shiftr (regno c) 5) 1 in
  let r4 := Z.land (regno c) 0x1f in
  let s := setlo 0 (csrw DS1 10) s in
  if truthy (Z.shiftr (regno c) 14) then (setlo 0 EBREAK s, true)
  else if truthy r12 && negb (truthy r5) && (r4 =? 10) then
    let s := sethi 2 (load (size c) 8 LB DA) (setlo 2 (csrw DS0 8) s) in
    (sethi 3 (csrr DS0 8) (setlo 3 (csrw DS1 8) s), false)
  else if truthy r12 then
    (setlo 2 ((if truthy r5 then fload else load) (size c) r4 LB DA) s, false)
  else
    let s := sethi 2 (load (size c) 8 LB DA) (setlo 2 (csrw DS0 8) s) in
    (sethi 3 (csrr DS0 8) (setlo 3 (csrw (Z.land (regno c) 0xfff) 8) s), false).

(** mk/dm_abstract_cmd_bits.py:70-80 (gen, a transfer from a register) *)
Definition gen_read (c : Cmd) (s : list Z) : list Z * bool :=
  let r12 := Z.land (Z.shiftr (regno c) 12) 1 in
  let r5 := Z.land (Z.shiftr (regno c) 5) 1 in
  let r4 := Z.land (regno c) 0x1f in
  let s := setlo 0 (csrw DS1 LB) s in
  if truthy (Z.shiftr (regno c) 14) then (setlo 0 EBREAK s, true)
  else if truthy r12 && negb (truthy r5) && (r4 =? 10) then
    let s := sethi 2 (csrr DS1 8) (setlo 2 (csrw DS0 8) s) in
    (sethi 3 (csrr DS0 8) (setlo 3 (store (size c) 8 LB DA) s), false)
  else if truthy r12 then
    (setlo 2 ((if truthy r5 then fstore else store) (size c) r4 LB DA) s, false)
  else
    let s := sethi 2 (csrr (Z.land (regno c) 0xfff) 8) (setlo 2 (csrw DS0 8) s) in
    (sethi 3 (csrr DS0 8) (setlo 3 (store (size c) 8 LB DA) s), false).

(** mk/dm_abstract_cmd_bits.py:49-86 (gen) *)
Definition gen (c : Cmd) : list Z :=
  if cmdtype c =? 0 then
    let (s, uns) :=
      if (size c <? 4) && truthy (transfer c) && truthy (write c) then gen_write c frame
      else if (size c <? 4) && truthy (transfer c) && negb (truthy (write c)) then gen_read c frame
      else if (4 <=? size c) || truthy (postinc c) then (setlo 0 EBREAK frame, true)
      else (frame, false) in
    if truthy (postexec c) && negb uns then sethi 4 NOP s else s
  else setlo 0 EBREAK frame.

(** ** The commands enumerated *)

(** mk/dm_abstract_cmd_bits.py:33-40 (programs, regnos) *)
Definition regnos : list Z :=
  flat_map (fun top => flat_map (fun b12 => flat_map (fun b5 => flat_map (fun low5 =>
    map (fun mid => cat [Z.shiftl top 14; Z.shiftl b12 12; Z.shiftl b5 5; low5;
                         Z.land (Z.land mid (Z.lnot 0x20)) 0xfc0])
        [0; 0x7c0; 0x1c0; 0x440])
    (py_range 32)) [0; 1]) [0; 1]) [0; 1; 2; 3] ++
  map (Z.shiftl 1) (py_range 16) ++ [0xfff; 0].

(** mk/dm_abstract_cmd_bits.py:41-48 (programs, the shapes) *)
Definition commands : list Cmd :=
  flat_map (fun ty => flat_map (fun sz => flat_map (fun tr => flat_map (fun wr => flat_map (fun pe =>
    flat_map (fun pi => map (mk_cmd ty sz tr wr pe pi) regnos) [0; 1]) [0; 1]) [0; 1]) [0; 1])
    (py_range 8)) [0; 1].

(** mk/dm_abstract_cmd_bits.py:32-48 (programs) *)
Definition programs : list (list Z) := map gen commands.

(** The bits set in every program's slot, and those clear in every one.
    mk/dm_abstract_cmd_bits.py:95-98 (constant_bits, ones and zeros) *)
Definition ones_of (i : nat) : Z := foldl (fun ones p => Z.land ones (slot p i)) (-1) programs.
Definition zeros_of (i : nat) : Z :=
  foldl (fun zeros p => Z.land zeros (Z.lnot (slot p i))) (-1) programs.

(** mk/dm_abstract_cmd_bits.py:87-100 (constant_bits) *)
Definition constant_bits (i : nat) : list Z :=
  let ones := ones_of i in
  let zeros := zeros_of i in
  List.filter (fun b => Z.testbit ones b || Z.testbit zeros b) (py_range 64).

(** ** Bits *)

Lemma shiftl_bit a n m : 0 <= n -> Z.testbit (Z.shiftl a n) m = Z.testbit a (m - n).
Proof.
  intros Hn. destruct (Z.le_gt_cases 0 m) as [Hm|Hm]; [by apply Z.shiftl_spec|].
  by rewrite !Z.testbit_neg_r by lia.
Qed.

Lemma land_fold_bit (f : list Z -> Z) l acc b :
  0 <= b ->
  Z.testbit (foldl (fun a p => Z.land a (f p)) acc l) b =
  Z.testbit acc b && forallb (fun p => Z.testbit (f p) b) l.
Proof.
  intros Hb. revert acc. induction l as [|p l IH]; intros acc; cbn; [by rewrite andb_true_r|].
  by rewrite IH, Z.land_spec, andb_assoc.
Qed.

(** A bit is listed exactly when no two of the programs enumerated differ on it. *)
Lemma constant_bits_spec i b :
  b ∈ constant_bits i <->
  0 <= b < 64 /\
  (Forall (fun p => Z.testbit (slot p i) b = true) programs \/
   Forall (fun p => Z.testbit (slot p i) b = false) programs).
Proof.
  unfold constant_bits. rewrite list_elem_of_In, filter_In, <-list_elem_of_In.
  unfold py_range. rewrite elem_of_seqZ.
  assert (0 <= b -> Z.testbit (ones_of i) b || Z.testbit (zeros_of i) b = true <->
    Forall (fun p => Z.testbit (slot p i) b = true) programs \/
    Forall (fun p => Z.testbit (slot p i) b = false) programs) as He.
  { intros Hb. unfold ones_of, zeros_of.
    rewrite (land_fold_bit (fun p => slot p i)), (land_fold_bit (fun p => Z.lnot (slot p i))) by done.
    rewrite Z.bits_m1 by done. cbn [andb]. rewrite orb_true_iff, !forallb_forall, !List.Forall_forall.
    setoid_rewrite Z.lnot_spec; [|done]. by setoid_rewrite negb_true_iff. }
  split; intros [Hb Hc]; (split; [lia|]); apply He; (lia || done).
Qed.

(** ** The classes of register numbers *)

Definition r14 (r : Z) : bool := truthy (Z.shiftr r 14).
Definition r12 (r : Z) : bool := truthy (Z.land (Z.shiftr r 12) 1).

(** The words of a command: type, size, flags and a 16-bit register number. *)
Definition valid (c : Cmd) : Prop :=
  cmdtype c ∈ [0; 1] /\ size c ∈ py_range 8 /\ transfer c ∈ [0; 1] /\ write c ∈ [0; 1] /\
  postexec c ∈ [0; 1] /\ postinc c ∈ [0; 1] /\ 0 <= regno c < 2 ^ 16.

Definition with_regno (r : Z) (c : Cmd) : Cmd :=
  mk_cmd (cmdtype c) (size c) (transfer c) (write c) (postexec c) (postinc c) r.

Lemma in_commands c r : valid c -> r ∈ regnos -> with_regno r c ∈ commands.
Proof.
  intros (Ht & Hs & Htr & Hw & Hp & Hi & _) Hr.
  apply list_elem_of_In in Ht, Hs, Htr, Hw, Hp, Hi, Hr. apply list_elem_of_In. unfold commands, with_regno.
  apply in_flat_map. exists (cmdtype c). split; [done|].
  apply in_flat_map. exists (size c). split; [done|].
  apply in_flat_map. exists (transfer c). split; [done|].
  apply in_flat_map. exists (write c). split; [done|].
  apply in_flat_map. exists (postexec c). split; [done|].
  apply in_flat_map. exists (postinc c). split; [done|]. by apply in_map.
Qed.

(** Register numbers that the enumeration holds, checked by running it. *)
Definition listed (l : list Z) : bool := forallb (fun r => existsb (Z.eqb r) regnos) l.

Lemma listed_spec l : listed l = true -> forall r, r ∈ l -> r ∈ regnos.
Proof.
  intros Hl r Hr. unfold listed in Hl. rewrite forallb_forall in Hl.
  apply list_elem_of_In, Hl, existsb_exists in Hr as (r' & Hr' & ->%Z.eqb_eq). by apply list_elem_of_In.
Qed.

Definition gprs : list Z :=
  flat_map (fun b5 => map (fun low5 => cat [Z.shiftl 1 12; Z.shiftl b5 5; low5]) (py_range 32)) [0; 1].
Definition csrs : list Z := 0 :: map (Z.shiftl 1) (py_range 12).

Lemma samples_listed : listed (Z.shiftl 1 14 :: gprs ++ csrs) = true.
Proof. vm_compute. reflexivity. Qed.

(** A register number is 0 or a power of two, as a CSR's sample, chosen to agree with
    [x] on bit [k]. *)
Definition csr_sample (x k : Z) : Z := if Z.testbit x k then Z.shiftl 1 k else 0.

Lemma csr_sample_bit x k : 0 <= x < 2 ^ 12 -> Z.testbit (csr_sample x k) k = Z.testbit x k.
Proof.
  intros Hx. unfold csr_sample. destruct (Z.testbit x k) eqn:Hb; [|by rewrite Z.testbit_0_l].
  destruct (Z.le_gt_cases 0 k) as [Hk|Hk]; [|by rewrite Z.testbit_neg_r in Hb by lia].
  rewrite Z.shiftl_1_l. by apply Z.pow2_bits_true.
Qed.

Lemma csr_sample_listed x k : 0 <= x < 2 ^ 12 -> csr_sample x k ∈ csrs.
Proof.
  intros Hx. unfold csr_sample, csrs. destruct (Z.testbit x k) eqn:Hb; [|by left].
  assert (0 <= k < 12) as Hk.
  { destruct (Z.le_gt_cases 0 k) as [Hk|Hk]; [|by rewrite Z.testbit_neg_r in Hb by lia].
    split; [done|]. destruct (Z.lt_ge_cases k 12) as [|Hge]; [done|].
    destruct (Z.eq_dec x 0) as [->|]; [by rewrite Z.testbit_0_l in Hb|].
    rewrite Z.bits_above_log2 in Hb; [done|lia|]. apply Z.lt_le_trans with 12; [|done].
    apply Z.log2_lt_pow2; lia. }
  right. apply list_elem_of_fmap. exists k. split; [done|]. by apply elem_of_seqZ.
Qed.

(** What the generator sees of a CSR's sample. *)
Lemma csrs_plain r : r ∈ csrs -> r14 r = false /\ r12 r = false /\ Z.land r 0xfff = r.
Proof.
  intros Hr. assert (forallb (fun r => negb (r14 r) && negb (r12 r) && (Z.land r 0xfff =? r)) csrs = true)
    as Hc by (vm_compute; reflexivity).
  rewrite forallb_forall in Hc. apply list_elem_of_In, Hc in Hr.
  apply andb_prop in Hr as [[H1%negb_true_iff H2%negb_true_iff]%andb_prop H3%Z.eqb_eq]. done.
Qed.

(** The register field that the generator tells registers apart by. *)
Definition gpr_sample (r : Z) : Z :=
  cat [Z.shiftl 1 12; Z.shiftl (Z.land (Z.shiftr r 5) 1) 5; Z.land r 0x1f].

Lemma gprs_plain b5 low5 :
  b5 ∈ [0; 1] -> low5 ∈ py_range 32 ->
  let r := cat [Z.shiftl 1 12; Z.shiftl b5 5; low5] in
  r ∈ gprs /\ r14 r = false /\ r12 r = true /\ Z.land (Z.shiftr r 5) 1 = b5 /\ Z.land r 0x1f = low5.
Proof.
  intros H5 Hl r. split.
  { apply list_elem_of_In. unfold gprs. apply in_flat_map. exists b5.
    split; [by apply list_elem_of_In|]. apply in_map_iff. exists low5. by rewrite <-list_elem_of_In. }
  assert (forallb (fun b5 => forallb (fun low5 =>
    let r := cat [Z.shiftl 1 12; Z.shiftl b5 5; low5] in
    negb (r14 r) && r12 r && (Z.land (Z.shiftr r 5) 1 =? b5) && (Z.land r 0x1f =? low5)) (py_range 32))
    [0; 1] = true) as Hc by (vm_compute; reflexivity).
  rewrite forallb_forall in Hc. apply list_elem_of_In, Hc in H5. rewrite forallb_forall in H5.
  apply list_elem_of_In, H5 in Hl. fold r in Hl.
  apply andb_prop in Hl as [[[H1%negb_true_iff H2]%andb_prop H3%Z.eqb_eq]%andb_prop H4%Z.eqb_eq]. done.
Qed.

Lemma gpr_sample_plain r :
  gpr_sample r ∈ gprs /\ r14 (gpr_sample r) = false /\ r12 (gpr_sample r) = true /\
  Z.land (Z.shiftr (gpr_sample r) 5) 1 = Z.land (Z.shiftr r 5) 1 /\
  Z.land (gpr_sample r) 0x1f = Z.land r 0x1f.
Proof.
  apply gprs_plain.
  - change 1 with (Z.ones 1) at 1. rewrite Z.land_ones by done.
    pose proof (Z.mod_pos_bound (Z.shiftr r 5) (2 ^ 1)). rewrite !elem_of_cons. lia.
  - apply elem_of_seqZ. change 0x1f with (Z.ones 5). rewrite Z.land_ones by done.
    apply Z.mod_pos_bound. done.
Qed.

(** Two register numbers that the generator cannot tell apart. *)
Lemma gen_gpr c : r14 (regno c) = false -> r12 (regno c) = true -> gen (with_regno (gpr_sample (regno c)) c) = gen c.
Proof.
  destruct (gpr_sample_plain (regno c)) as (_ & H14 & H12 & H5 & H4).
  unfold r14, r12 in *. intros H14' H12'.
  unfold gen, gen_write, gen_read. cbn [with_regno regno cmdtype size transfer write postexec postinc].
  by rewrite H14, H12, H5, H4, H14', H12'.
Qed.

Lemma gen_high c : r14 (regno c) = true -> gen (with_regno (Z.shiftl 1 14) c) = gen c.
Proof.
  unfold r14. intros H14. unfold gen, gen_write, gen_read.
  cbn [with_regno regno cmdtype size transfer write postexec postinc]. by rewrite H14.
Qed.

Lemma length_setlo i v s : length (setlo i v s) = length s.
Proof. apply length_insert. Qed.

Lemma length_sethi i v s : length (sethi i v s) = length s.
Proof. apply length_insert. Qed.

Lemma slot_insert i j v s :
  (i < length s)%nat -> slot (<[i := v]> s) j = if Nat.eqb i j then v else slot s j.
Proof.
  intros Hi. unfold slot. destruct (Nat.eqb_spec i j) as [->|Hn].
  - by rewrite list_lookup_insert_eq.
  - by rewrite list_lookup_insert_ne.
Qed.

Lemma slot_setlo i j v s :
  (i < length s)%nat ->
  slot (setlo i v s) j = if Nat.eqb i j then Z.lor (Z.shiftl (hi s i) 32) v else slot s j.
Proof. apply slot_insert. Qed.

Lemma slot_sethi i j v s :
  (i < length s)%nat ->
  slot (sethi i v s) j = if Nat.eqb i j then Z.lor (Z.shiftl v 32) (lo s i) else slot s j.
Proof. apply slot_insert. Qed.

(** In a CSR's program the number is bits 31 to 20 of one half word: the low half of a
    slot when the command writes, the high half of one when it reads. *)
Definition csr_bit (c : Cmd) (b : Z) : Z := if truthy (write c) then b - 20 else b - 32 - 20.

Lemma gen_csr c i b :
  0 <= b -> r14 (regno c) = false -> r12 (regno c) = false ->
  Z.testbit (slot (gen (with_regno (csr_sample (Z.land (regno c) 0xfff) (csr_bit c b)) c)) i) b =
  Z.testbit (slot (gen c) i) b.
Proof.
  intros Hb H14 H12. set (x := Z.land (regno c) 0xfff).
  assert (0 <= x < 2 ^ 12) as Hx.
  { unfold x. change 0xfff with (Z.ones 12). rewrite Z.land_ones by done. by apply Z.mod_pos_bound. }
  set (x' := csr_sample x (csr_bit c b)).
  assert (Z.testbit x' (csr_bit c b) = Z.testbit x (csr_bit c b)) as Hbit by (by apply csr_sample_bit).
  destruct (csrs_plain x' (csr_sample_listed x _ Hx)) as (H14' & H12' & Hmask).
  clearbody x'. unfold r14, r12 in *. unfold gen, gen_write, gen_read, csr_bit in *.
  cbn [with_regno regno cmdtype size transfer write postexec postinc].
  rewrite H14, H12, H14', H12', Hmask. fold x. clearbody x. cbn [andb].
  destruct (cmdtype c =? 0); [|done].
  destruct (size c <? 4), (truthy (transfer c)), (truthy (write c)); cbn [andb negb];
    try (by destruct (_ || _));
    destruct (truthy (postexec c)); cbn [andb negb];
    destruct i as [|[|[|[|i]]]]; try reflexivity.
  all: repeat (rewrite ?slot_sethi, ?slot_setlo by (rewrite ?length_sethi, ?length_setlo; cbn; lia);
               cbn [Nat.eqb]; unfold lo).
  all: unfold csrw, csrr, cat; cbn [foldl];
    repeat (rewrite ?Z.lor_spec, ?Z.land_spec; rewrite ?shiftl_bit by done); by rewrite Hbit.
Qed.

(** ** The enumeration is enough *)

Lemma sample_agrees c i b :
  valid c -> 0 <= b -> exists c', c' ∈ commands /\ Z.testbit (slot (gen c') i) b = Z.testbit (slot (gen c) i) b.
Proof.
  intros Hv Hb. pose proof (listed_spec _ samples_listed) as Hl.
  destruct (r14 (regno c)) eqn:H14; [|destruct (r12 (regno c)) eqn:H12].
  - exists (with_regno (Z.shiftl 1 14) c). split; [|by rewrite gen_high].
    apply in_commands; [done|]. apply Hl. by left.
  - exists (with_regno (gpr_sample (regno c)) c). split; [|by rewrite gen_gpr].
    apply in_commands; [done|]. apply Hl. right. apply elem_of_app. left. apply gpr_sample_plain.
  - eexists. split; [|by apply gen_csr]. apply in_commands; [done|]. apply Hl. right.
    apply elem_of_app. right. apply csr_sample_listed. change 0xfff with (Z.ones 12).
    rewrite Z.land_ones by done. by apply Z.mod_pos_bound.
Qed.

(** C30: A bit the script calls constant is constant: if it is the same in the programs
    of all the commands enumerated, a few thousand register numbers for each shape,
    then no command whatsoever of that generator, with any of the 65536 register
    numbers, changes it.  Excluding it from toggle coverage hides no reachable code. *)
Theorem constant_bits_sound i b c1 c2 :
  b ∈ constant_bits i -> valid c1 -> valid c2 ->
  Z.testbit (slot (gen c1) i) b = Z.testbit (slot (gen c2) i) b.
Proof.
  intros ([Hb _] & Hc)%constant_bits_spec H1 H2.
  destruct (sample_agrees c1 i b H1 Hb) as (d1 & Hd1 & <-).
  destruct (sample_agrees c2 i b H2 Hb) as (d2 & Hd2 & <-).
  unfold programs in Hc. rewrite !Forall_map, !List.Forall_forall in Hc.
  apply list_elem_of_In in Hd1, Hd2. destruct Hc as [Hc|Hc]; by rewrite (Hc d1 Hd1), (Hc d2 Hd2).
Qed.

(** The generator never reaches the slots past the program buffer's jump. *)
Lemma gen_tail c : slot (gen c) 5 = 0.
Proof. unfold gen, gen_write, gen_read. repeat case_match; simplify_eq; reflexivity. Qed.

Lemma constant_bits_sound_witness :
  let c1 := mk_cmd 0 2 1 1 1 0 0x301 in
  let c2 := mk_cmd 0 3 1 0 0 1 0x7b1 in
  31 ∈ constant_bits 5 /\ Z.testbit (slot (gen c1) 5) 31 = Z.testbit (slot (gen c2) 5) 31.
Proof.
  assert (31 ∈ constant_bits 5) as Hb.
  { apply constant_bits_spec. split; [lia|]. right. apply Forall_map, Forall_true.
    intros c. by rewrite gen_tail, Z.testbit_0_l. }
  split; [exact Hb|]. apply constant_bits_sound; [exact Hb| |];
    (split_and!; [apply (bool_decide_unpack _); vm_compute; exact I..|done|done]).
Defined.

(** Two programs that differ: the register number shows in a CSR's read. *)
Example programs_differ :
  Z.testbit (slot (gen (mk_cmd 0 2 1 0 0 0 0x301)) 2) 52 = true /\
  Z.testbit (slot (gen (mk_cmd 0 2 1 0 0 0 0x300)) 2) 52 = false.
Proof. by vm_compute. Qed.
