(* ===== verification/Regex.v ===== *)
(** Python's [re] as far as the package's scripts use it, on ASCII text: patterns, their
    syntax, and a backtracking matcher that tries the alternatives in Python's order, so
    that the groups of a match are those Python returns.

    [matches] is the reference: which text a pattern can match where.  [run_sound] and
    [run_complete] say that the matcher finds a match exactly when there is one. *)

From Stdlib Require Import Ascii.
From S2P Require Import Prelude DutConfig Text.

Local Open Scope string_scope.
Local Open Scope list_scope.

(** ** Patterns *)

Inductive regex :=
  | Empty
  | Chr (f : ascii -> bool)
  | Seq (a b : regex)
  | Alt (a b : regex)
  | Star (greedy : bool) (a : regex)
  | Group (n : nat) (a : regex)
  | Ahead (a : regex)
  | Assert (f : list ascii -> list ascii -> bool).

(** A place in the text: the characters before it, the nearest first, and after it. *)
Definition pos : Type := list ascii * list ascii.

(** The groups matched so far. *)
Definition groups : Type := list (nat * list ascii).

Definition start (l : list ascii) : pos := ([], l).

(** The text between two places. *)
Definition between (s s' : pos) : list ascii := take (length (snd s) - length (snd s')) (snd s).

(** [a? or b]. *)
Definition or_else {A} (a b : option A) : option A := match a with Some x => Some x | None => b end.

Section matcher.
Context {A : Type}.

(** What is left to match, from a place and with the groups so far. *)
Definition cont : Type := pos -> groups -> option A.

(** Each round takes at least one character, so that the rest of the text is enough
    fuel. *)
Fixpoint star (body : pos -> groups -> cont -> option A) (greedy : bool) (fuel : nat)
    (s : pos) (g : groups) (k : cont) : option A :=
  let more :=
    match fuel with
    | O => None
    | S fuel =>
        body s g (fun s' g' =>
          if (length (snd s') <? length (snd s))%nat then star body greedy fuel s' g' k else None)
    end in
  if greedy then or_else more (k s g) else or_else (k s g) more.

Fixpoint run (r : regex) (s : pos) (g : groups) (k : cont) : option A :=
  match r with
  | Empty => k s g
  | Chr f =>
      match s with
      | (before, c :: after) => if f c then k (c :: before, after) g else None
      | (_, []) => None
      end
  | Seq a b => run a s g (fun s g => run b s g k)
  | Alt a b => or_else (run a s g k) (run b s g k)
  | Star greedy a => star (run a) greedy (length (snd s)) s g k
  | Group n a => run a s g (fun s' g' => k s' ((n, between s s') :: g'))
  | Ahead a => run a s g (fun _ g' => k s g')
  | Assert f => if f (fst s) (snd s) then k s g else None
  end.

End matcher.

(** ** What a pattern matches *)

Inductive matches : regex -> pos -> pos -> Prop :=
  | matches_Empty s : matches Empty s s
  | matches_Chr f b c a : f c = true -> matches (Chr f) (b, c :: a) (c :: b, a)
  | matches_Seq x y s s1 s2 : matches x s s1 -> matches y s1 s2 -> matches (Seq x y) s s2
  | matches_left x y s s1 : matches x s s1 -> matches (Alt x y) s s1
  | matches_right x y s s1 : matches y s s1 -> matches (Alt x y) s s1
  | matches_stop g x s : matches (Star g x) s s
  | matches_more g x s s1 s2 : matches x s s1 -> matches (Star g x) s1 s2 -> matches (Star g x) s s2
  | matches_Group n x s s1 : matches x s s1 -> matches (Group n x) s s1
  | matches_Ahead x s s1 : matches x s s1 -> matches (Ahead x) s s
  | matches_Assert f s : f (fst s) (snd s) = true -> matches (Assert f) s s.

(** A match moves forward over the text. *)
Lemma matches_forward r s s' :
  matches r s s' -> exists l, snd s = l ++ snd s' /\ fst s' = rev l ++ fst s.
Proof.
  induction 1 as [|f b c a|x y s s1 s2 _ [l1 [E1 F1]] _ [l2 [E2 F2]]| | | |g x s s1 s2 _ [l1 [E1 F1]] _ [l2 [E2 F2]]| | |];
    try (by exists []); try done.
  - by exists [c].
  - exists (l1 ++ l2). rewrite rev_app_distr, <-!app_assoc. split; congruence.
  - exists (l1 ++ l2). rewrite rev_app_distr, <-!app_assoc. split; congruence.
Qed.

(** A match that takes nothing stays where it is. *)
Lemma matches_still r s s' : matches r s s' -> (length (snd s) <= length (snd s'))%nat -> s' = s.
Proof.
  intros (l & E & F)%matches_forward Hl. rewrite E, length_app in Hl.
  assert (l = []) as -> by (destruct l; cbn in Hl; [done|lia]).
  destruct s, s'; cbn in *; congruence.
Qed.

Lemma matches_shorter r s s' : matches r s s' -> (length (snd s') <= length (snd s))%nat.
Proof. intros (l & E & _)%matches_forward. rewrite E, length_app. lia. Qed.

Section correct.
Context {A : Type}.

Lemma or_else_some (a b : option A) x : or_else a b = Some x -> a = Some x \/ b = Some x.
Proof. destruct a; cbn; auto. Qed.

Lemma star_sound (a : regex) greedy
    (IH : forall s g (k : cont (A := A)) x, run a s g k = Some x -> exists s' g', matches a s s' /\ k s' g' = Some x)
    fuel s g (k : cont (A := A)) x :
  star (run a) greedy fuel s g k = Some x -> exists s' g', matches (Star greedy a) s s' /\ k s' g' = Some x.
Proof.
  revert s g. induction fuel as [|fuel IHf]; intros s g Hs; cbn [star] in Hs.
  - destruct greedy; cbn in Hs; [|destruct (k s g) eqn:Hk; cbn in Hs; [injection Hs as <-|done]];
      exists s, g; (split; [constructor|done]).
  - assert (k s g = Some x \/ run a s g (fun s' g' =>
      if (length (snd s') <? length (snd s))%nat then star (run a) greedy fuel s' g' k else None) = Some x)
      as [Hk|Hm] by (destruct greedy; apply or_else_some in Hs; tauto).
    + exists s, g. split; [constructor|done].
    + apply IH in Hm as (s1 & g1 & H1 & Hm). destruct (length (snd s1) <? length (snd s))%nat; [|done].
      apply IHf in Hm as (s2 & g2 & H2 & Hk). exists s2, g2. split; [by eapply matches_more|done].
Qed.

(** What the matcher finds is a match, after which the rest matched. *)
Lemma run_sound r s g (k : cont (A := A)) x :
  run r s g k = Some x -> exists s' g', matches r s s' /\ k s' g' = Some x.
Proof.
  revert s g k x. induction r as [|f|a IHa b IHb|a IHa b IHb|gr a IHa|n a IHa|a IHa|f];
    intros s g k x Hr; cbn [run] in Hr.
  - exists s, g. split; [constructor|done].
  - destruct s as [before [|c after]]; [done|]. destruct (f c) eqn:Hf; [|done].
    exists (c :: before, after), g. split; [by constructor|done].
  - apply IHa in Hr as (s1 & g1 & H1 & Hr). apply IHb in Hr as (s2 & g2 & H2 & Hk).
    exists s2, g2. split; [by econstructor|done].
  - apply or_else_some in Hr as [Hr|Hr]; [apply IHa in Hr|apply IHb in Hr];
      destruct Hr as (s1 & g1 & H1 & Hk); exists s1, g1; (split; [by constructor|done]).
  - by apply star_sound in Hr.
  - apply IHa in Hr as (s1 & g1 & H1 & Hk). do 2 eexists. split; [by constructor|done].
  - apply IHa in Hr as (s1 & g1 & H1 & Hk). do 2 eexists. split; [by econstructor|done].
  - destruct (f (fst s) (snd s)) eqn:Hf; [|done]. exists s, g. split; [by constructor|done].
Qed.

Lemma or_else_is (a b : option A) : is_Some a \/ is_Some b -> is_Some (or_else a b).
Proof. destruct a; cbn; [eauto|]. by intros [[]|]. Qed.

(** The rest matches at [s'], whatever the groups. *)
Definition accepts (k : cont (A := A)) (s' : pos) : Prop := forall g, is_Some (k s' g).

Lemma star_complete (a : regex) greedy
    (IH : forall s s' g (k : cont (A := A)), matches a s s' -> accepts k s' -> is_Some (run a s g k)) s s' :
  matches (Star greedy a) s s' ->
  forall fuel g k, (length (snd s) <= fuel)%nat -> accepts k s' -> is_Some (star (run a) greedy fuel s g k).
Proof.
  intros Hm. remember (Star greedy a) as r eqn:Hr.
  induction Hm as [| | | | |gr x s|gr x s s1 s2 H1 _ H2 IH2| | |]; try done; injection Hr as -> ->.
  - intros fuel g k _ Hk. destruct fuel; cbn [star]; destruct greedy; apply or_else_is; auto.
  - intros fuel g k Hf Hk. destruct (Nat.lt_ge_cases (length (snd s1)) (length (snd s))) as [Hlt|Hge].
    + destruct fuel as [|fuel]; [lia|]. cbn [star].
      assert (is_Some (run a s g (fun s' g' =>
        if (length (snd s') <? length (snd s))%nat then star (run a) greedy fuel s' g' k else None))) as Hb.
      { apply (IH s s1); [done|]. intros g'. rewrite (proj2 (Nat.ltb_lt _ _) Hlt).
        apply IH2; [done|lia|done]. }
      destruct greedy; apply or_else_is; auto.
    + apply matches_still in H1 as ->; [|done]. by apply IH2.
Qed.

(** Where there is a match after which the rest matches, the matcher finds one. *)
Lemma run_complete r s s' g (k : cont (A := A)) :
  matches r s s' -> accepts k s' -> is_Some (run r s g k).
Proof.
  revert s s' g k. induction r as [|f|a IHa b IHb|a IHa b IHb|gr a IHa|n a IHa|a IHa|f];
    intros s s' g k Hm Hk; cbn [run].
  - inversion Hm; subst. apply Hk.
  - inversion Hm as [|f' before c after Hc| | | | | | | |]; subst. rewrite Hc. apply Hk.
  - inversion Hm; subst. eapply IHa; [done|]. intros g'. by eapply IHb.
  - inversion Hm; subst; apply or_else_is; [left; by eapply IHa|right; by eapply IHb].
  - by apply (star_complete a gr IHa s s').
  - inversion Hm; subst. eapply IHa; [done|]. intros g'. apply Hk.
  - inversion Hm; subst. eapply IHa; [done|]. intros g'. apply Hk.
  - inversion Hm as [| | | | | | | | |f' s0 Hf]; subst. rewrite Hf. apply Hk.
Qed.

End correct.

(** ** Searching *)

Definition chars (s : string) : list ascii := String.list_ascii_of_string s.
Definition of_list (l : list ascii) : string := String.string_of_list_ascii l.

(** A match object: where it starts and ends, and its groups. *)
Record Match := mk_match { m_start : pos; m_end : pos; m_groups : groups }.

Definition match_at (r : regex) (s : pos) : option Match :=
  run r s [] (fun s' g => Some (mk_match s s' g)).

(** [re.search], from a place on. *)
Fixpoint search_from (r : regex) (before after : list ascii) : option Match :=
  or_else (match_at r (before, after))
          (match after with [] => None | c :: after => search_from r (c :: before) after end).

Definition search (r : regex) (s : string) : option Match := search_from r [] (chars s).
Definition match_start (r : regex) (s : string) : option Match := match_at r (start (chars s)).
Definition fullmatch (r : regex) (s : string) : option Match :=
  run r (start (chars s)) [] (fun s' g =>
    match snd s' with [] => Some (mk_match (start (chars s)) s' g) | _ => None end).

(** [m.group(n)]; 0 is the whole match, a group that took part in no match is absent. *)
Definition group (n : nat) (m : Match) : option string :=
  match n with
  | O => Some (of_list (between (m_start m) (m_end m)))
  | _ => option_map (fun '(_, l) => of_list l) (List.find (fun '(k, _) => Nat.eqb k n) (m_groups m))
  end.

(** [re.finditer]: after a match the search goes on at its end, a character further if
    it was empty. *)
Fixpoint finditer_from (r : regex) (fuel : nat) (s : pos) : list Match :=
  match fuel with
  | O => []
  | S fuel =>
      match search_from r (fst s) (snd s) with
      | None => []
      | Some m =>
          m :: match m_end m with
               | (b, c :: a) =>
                   if (length (c :: a) <? length (snd (m_start m)))%nat
                   then finditer_from r fuel (b, c :: a)
                   else finditer_from r fuel (c :: b, a)
               | (_, []) => []
               end
      end
  end.

Definition finditer (r : regex) (s : string) : list Match :=
  finditer_from r (S (length (chars s))) (start (chars s)).

(** [re.split] with a pattern of one group: the text between the matches, and the group
    of each. *)
Definition split_on (r : regex) (s : string) : list string :=
  let step '(acc, from) m :=
    (acc ++ [of_list (between from (m_start m)); default EmptyString (group 1 m)], m_end m) in
  let '(acc, from) := fold_left step (finditer r s) ([], start (chars s)) in
  acc ++ [of_list (snd from)].

(** [re.sub(r, "", s)]. *)
Definition remove_all (r : regex) (s : string) : string :=
  let step '(acc, from) m := (acc +:+ of_list (between from (m_start m)), m_end m) in
  let '(acc, from) := fold_left step (finditer r s) (EmptyString, start (chars s)) in
  acc +:+ of_list (snd from).

(** A place in a text. *)
Definition place (l : list ascii) (s : pos) : Prop := rev (fst s) ++ snd s = l.

Lemma match_at_spec r s :
  match match_at r s with
  | Some m => m_start m = s /\ matches r s (m_end m)
  | None => forall s', ~ matches r s s'
  end.
Proof.
  unfold match_at. destruct (run r s [] _) as [m|] eqn:Hr.
  - apply run_sound in Hr as (s' & g & Hm & [= <-]). done.
  - intros s' Hm. destruct (run_complete r s s' [] (fun s' g => Some (mk_match s s' g)) Hm) as [m Hs].
    + intros g. by eexists.
    + congruence.
Qed.

Lemma search_from_spec r before after :
  match search_from r before after with
  | Some m =>
      exists skipped rest, after = skipped ++ rest /\ m_start m = (rev skipped ++ before, rest) /\
        matches r (m_start m) (m_end m) /\
        (forall l l' s', skipped = l ++ l' -> l' <> [] ->
           ~ matches r (rev l ++ before, l' ++ rest) s')
  | None => forall l l' s', after = l ++ l' -> ~ matches r (rev l ++ before, l') s'
  end.
Proof.
  revert before. induction after as [|c after IH]; intros before; cbn [search_from];
    (match goal with |- context [match_at r ?s] => pose proof (match_at_spec r s) as Ha end);
    destruct (match_at r _) as [m|]; cbn [or_else].
  1,3: destruct Ha as [Hs Hm]; eexists [], _; split_and!; [done|done|by rewrite Hs|];
    intros l l' s' El Hl; (symmetry in El; apply app_eq_nil in El as [_ ->]; done).
  - intros [|x l] l' s' El; [|done]. cbn in El. subst l'. apply Ha.
  - specialize (IH (c :: before)). destruct (search_from r (c :: before) after) as [m|].
    + destruct IH as (skipped & rest & -> & Hs & Hm & Hn). exists (c :: skipped), rest.
      split_and!; [done|by rewrite Hs; cbn; rewrite <-app_assoc|done|].
      intros [|x l] l' s' El Hl; cbn in El.
      * subst l'. apply Ha.
      * injection El as <- El. cbn. rewrite <-app_assoc. by apply Hn.
    + intros [|x l] l' s' El; cbn in El; [subst l'; apply Ha|]. injection El as <- El.
      cbn. rewrite <-app_assoc. by apply IH.
Qed.

(** [search] returns exactly Python's leftmost match: what it returns is a match of
    the pattern in the text, no earlier place of the text has one, and it returns nothing
    only when the pattern matches at no place at all.  So a rule of the scripts that does
    not fire could not have. *)
Theorem search_leftmost r text :
  match search r text with
  | Some m =>
      place (chars text) (m_start m) /\ matches r (m_start m) (m_end m) /\
      (forall s s', place (chars text) s -> (length (fst s) < length (fst (m_start m)))%nat ->
         ~ matches r s s')
  | None => forall s s', place (chars text) s -> ~ matches r s s'
  end.
Proof.
  unfold search, place. pose proof (search_from_spec r [] (chars text)) as Hs.
  destruct (search_from r [] (chars text)) as [m|].
  - destruct Hs as (skipped & rest & E & Hm & Hr & Hn). rewrite app_nil_r in Hm.
    rewrite E, Hm in *. cbn [fst snd] in *. rewrite rev_involutive. split_and!; [done|done|].
    intros [b a] s' Hp Hl. cbn [fst snd] in *. rewrite length_rev in Hl.
    specialize (Hn (rev b) (drop (length b) skipped) s'). rewrite rev_involutive, app_nil_r in Hn.
    assert (skipped = rev b ++ drop (length b) skipped) as Hk.
    { apply (f_equal (take (length b))) in Hp as Ht. rewrite take_app_length' in Ht by (by rewrite length_rev).
      rewrite take_app_le in Ht by lia. rewrite Ht at 1. by rewrite take_drop. }
    assert (a = drop (length b) skipped ++ rest) as ->.
    { rewrite Hk, <-app_assoc in Hp. by apply app_inv_head in Hp. }
    apply Hn; [done|]. intros H0. apply (f_equal length) in H0. rewrite length_drop in H0. cbn in H0. lia.
  - intros [b a] s' Hp. specialize (Hs (rev b) a s'). rewrite rev_involutive, app_nil_r in Hs.
    by apply Hs.
Qed.

(** ** The syntax of patterns *)

Definition code_in (c : ascii) (lo hi : nat) : bool :=
  let n := nat_of_ascii c in (lo <=? n)%nat && (n <=? hi)%nat.

Definition digit (c : ascii) : bool := code_in c 48 57.
Definition letter (c : ascii) : bool := code_in c 65 90 || code_in c 97 122.
Definition word_char (c : ascii) : bool := digit c || letter c || Ascii.eqb c "_".

(** [\d], [\w], [\s] and their complements; an escaped punctuation mark is itself. *)
Definition escape_class (c : ascii) : option (ascii -> bool) :=
  if Ascii.eqb c "d" then Some digit
  else if Ascii.eqb c "D" then Some (fun x => negb (digit x))
  else if Ascii.eqb c "w" then Some word_char
  else if Ascii.eqb c "W" then Some (fun x => negb (word_char x))
  else if Ascii.eqb c "s" then Some Int.space
  else if Ascii.eqb c "S" then Some (fun x => negb (Int.space x))
  else if Ascii.eqb c "n" then Some (Ascii.eqb line_feed)
  else if Ascii.eqb c "t" then Some (Ascii.eqb (ascii_of_nat 9))
  else if digit c || letter c then None
  else Some (Ascii.eqb c).

(** The members of a class, after its bracket; a bracket that comes first is a member. *)
Fixpoint bracket (l : list ascii) (first : bool) (acc : ascii -> bool)
    : option ((ascii -> bool) * list ascii) :=
  let add f x := acc x || f x in
  match l with
  | [] => None
  | c :: l' =>
      if Ascii.eqb c "]" && negb first then Some (acc, l')
      else if Ascii.eqb c "\" then
        match l' with
        | e :: l'' => match escape_class e with Some f => bracket l'' false (add f) | None => None end
        | [] => None
        end
      else
        match l' with
        | d :: e :: l'' =>
            if Ascii.eqb d "-" && negb (Ascii.eqb e "]")
            then bracket l'' false (add (fun x => code_in x (nat_of_ascii c) (nat_of_ascii e)))
            else bracket l' false (add (Ascii.eqb c))
        | _ => bracket l' false (add (Ascii.eqb c))
        end
  end.

(** [(r){n}], and [n] copies of which each may be the last. *)
Fixpoint copies (n : nat) (r : regex) : regex :=
  match n with O => Empty | S O => r | S n => Seq r (copies n r) end.
Fixpoint optional (greedy : bool) (n : nat) (r : regex) : regex :=
  match n with
  | O => Empty
  | S n => let more := Seq r (optional greedy n r) in
           if greedy then Alt more Empty else Alt Empty more
  end.

(** A decimal number, and what follows it. *)
Fixpoint number_from (l : list ascii) (acc : nat) (some : bool) : option nat * list ascii :=
  match l with
  | c :: l' =>
      if digit c then number_from l' (10 * acc + (nat_of_ascii c - 48)) true
      else (if some then Some acc else None, l)
  | [] => (if some then Some acc else None, [])
  end.

(** A question mark after a quantifier makes it lazy. *)
Definition lazy_mark (l : list ascii) : bool * list ascii :=
  match l with c :: l' => if Ascii.eqb c "?" then (false, l') else (true, l) | [] => (true, []) end.

(** The quantifier of an atom, if it has one. *)
Definition quantified (r : regex) (l : list ascii) : regex * list ascii :=
  match l with
  | [] => (r, [])
  | c :: l' =>
      let (greedy, rest) := lazy_mark l' in
      if Ascii.eqb c "*" then (Star greedy r, rest)
      else if Ascii.eqb c "+" then (Seq r (Star greedy r), rest)
      else if Ascii.eqb c "?" then (optional greedy 1 r, rest)
      else if Ascii.eqb c "{" then
        match number_from l' 0 false with
        | (Some n, d :: l'') =>
            if Ascii.eqb d "}" then (copies n r, l'')
            else if Ascii.eqb d "," then
              match number_from l'' 0 false with
              | (Some m, e :: l3) =>
                  if Ascii.eqb e "}" then
                    let (greedy, rest) := lazy_mark l3 in
                    (Seq (copies n r) (optional greedy (m - n) r), rest)
                  else (r, l)
              | (None, e :: l3) =>
                  if Ascii.eqb e "}" then
                    let (greedy, rest) := lazy_mark l3 in (Seq (copies n r) (Star greedy r), rest)
                  else (r, l)
              | _ => (r, l)
              end
            else (r, l)
        | _ => (r, l)
        end
      else (r, l)
  end.

(** What no text matches. *)
Definition Never : regex := Assert (fun _ _ => false).

Section syntax.
(** [re.M] and [re.S]. *)
Context (multiline dotall : bool).

Definition at_line_start (before _ : list ascii) : bool :=
  match before with [] => true | c :: _ => multiline && Ascii.eqb c line_feed end.

Definition at_line_end (_ after : list ascii) : bool :=
  match after with
  | [] => true
  | c :: l => Ascii.eqb c line_feed && (multiline || match l with [] => true | _ => false end)
  end.

Definition at_end (_ after : list ascii) : bool := match after with [] => true | _ => false end.

Definition at_word_edge (before after : list ascii) : bool :=
  let word l := match l with c :: _ => word_char c | [] => false end in
  xorb (word before) (word after).

(** What an escape stands for, outside of a class. *)
Definition escaped (c : ascii) : option regex :=
  if Ascii.eqb c "b" then Some (Assert at_word_edge)
  else if Ascii.eqb c "Z" then Some (Assert at_end)
  else option_map Chr (escape_class c).

(** What a group is: captured, plain, looked at, or, as an empty negative lookahead,
    what never matches. *)
Inductive opening := Capture | Plain | Look | Refuse.

(** The name of a group is skipped. *)
Fixpoint after_name (l : list ascii) : list ascii :=
  match l with c :: l => if Ascii.eqb c ">" then l else after_name l | [] => [] end.

Definition opened (l : list ascii) : option (opening * list ascii) :=
  match l with
  | "?"%char :: c :: l' =>
      if Ascii.eqb c ":" then Some (Plain, l')
      else if Ascii.eqb c "=" then Some (Look, l')
      else if Ascii.eqb c "!" then Some (Refuse, l')
      else if Ascii.eqb c "P" then Some (Capture, after_name l')
      else None
  | _ => Some (Capture, l)
  end.

(** Alternatives, sequences and atoms; [n] groups have been opened so far. *)
Fixpoint p_alt (fuel : nat) (l : list ascii) (n : nat) : option (regex * list ascii * nat) :=
  match fuel with
  | O => None
  | S fuel =>
      match p_seq fuel l n with
      | Some (a, c :: l, n) =>
          if Ascii.eqb c "|" then
            match p_alt fuel l n with Some (b, l, n) => Some (Alt a b, l, n) | None => None end
          else Some (a, c :: l, n)
      | other => other
      end
  end
with p_seq (fuel : nat) (l : list ascii) (n : nat) : option (regex * list ascii * nat) :=
  match fuel, l with
  | O, _ => None
  | _, [] => Some (Empty, [], n)
  | S fuel, c :: _ =>
      if Ascii.eqb c "|" || Ascii.eqb c ")" then Some (Empty, l, n)
      else match p_atom fuel l n with
           | Some (a, l, n) =>
               let (a, l) := quantified a l in
               match p_seq fuel l n with
               | Some (Empty, l, n) => Some (a, l, n)
               | Some (b, l, n) => Some (Seq a b, l, n)
               | None => None
               end
           | None => None
           end
  end
with p_atom (fuel : nat) (l : list ascii) (n : nat) : option (regex * list ascii * nat) :=
  match fuel, l with
  | O, _ | _, [] => None
  | S fuel, c :: l =>
      if Ascii.eqb c "(" then
        match opened l with
        | None => None
        | Some (kind, l) =>
            let number := S n in
            let inside := match kind with Capture => number | _ => n end in
            match p_alt fuel l inside with
            | Some (a, d :: l, n) =>
                if Ascii.eqb d ")" then
                  match kind, a with
                  | Capture, _ => Some (Group number a, l, n)
                  | Plain, _ => Some (a, l, n)
                  | Look, _ => Some (Ahead a, l, n)
                  | Refuse, Empty => Some (Never, l, n)
                  | Refuse, _ => None
                  end
                else None
            | _ => None
            end
        end
      else if Ascii.eqb c "[" then
        let (negated, l) := match l with
                            | d :: l' => if Ascii.eqb d "^" then (true, l') else (false, l)
                            | [] => (false, [])
                            end in
        match bracket l true (fun _ => false) with
        | Some (f, l) => Some (Chr (fun x => xorb negated (f x)), l, n)
        | None => None
        end
      else if Ascii.eqb c "\" then
        match l with
        | e :: l => match escaped e with Some r => Some (r, l, n) | None => None end
        | [] => None
        end
      else if Ascii.eqb c "^" then Some (Assert at_line_start, l, n)
      else if Ascii.eqb c "$" then Some (Assert at_line_end, l, n)
      else if Ascii.eqb c "." then Some (Chr (fun x => dotall || negb (Ascii.eqb x line_feed)), l, n)
      else if existsb (Ascii.eqb c) ["*"; "+"; "?"]%char then None
      else Some (Chr (Ascii.eqb c), l, n)
  end.

(** [re.compile]: nothing when the pattern is not one. *)
Definition compile (pattern : string) : option regex :=
  let l := chars pattern in
  match p_alt (3 * S (length l)) l 0 with
  | Some (r, [], _) => Some r
  | _ => None
  end.

End syntax.

(** A pattern of the scripts, which all compile; no text matches one that does not. *)
Definition re (pattern : string) : regex := default Never (compile false false pattern).
Definition re_m (pattern : string) : regex := default Never (compile true false pattern).
Definition re_s (pattern : string) : regex := default Never (compile false true pattern).

Definition found {A} (m : option A) : bool := match m with Some _ => true | None => false end.

(** What Python's [re] returns for some patterns of every construct. *)
Section samples.

Definition groups_of (n : nat) (m : option Match) : option (list (option string)) :=
  option_map (fun m => map (fun i => group i m) (seq 0 (S n))) m.

Example sample_verdict :
  groups_of 2 (search (re "Session complete\s*-\s*(\d+)/(\d+)\s*passed") "## Session complete - 9/12 passed")
  = Some [Some "Session complete - 9/12 passed"; Some "9"; Some "12"].
Proof. vm_compute. reflexivity. Qed.

Example sample_lazy :
  groups_of 2 (fullmatch (re "(.+?)(\[\d+\])?") "sbcs_q.sbversion[31]")
  = Some [Some "sbcs_q.sbversion[31]"; Some "sbcs_q.sbversion"; Some "[31]"].
Proof. vm_compute. reflexivity. Qed.

Example sample_alternatives :
  map (fun s => found (search (re "^(rst_ni|haltsum0\[([1-9]|[12]\d|3[01])\])$") s))
    ["rst_ni"; "haltsum0[0]"; "haltsum0[31]"; "haltsum0[32]"; "x_rst_ni"]
  = [true; false; true; false; false].
Proof. vm_compute. reflexivity. Qed.

Example sample_words :
  map (group 1) (finditer (re "\b((?:TC-)?[A-Z][A-Z0-9]{1,8}-\d{3}(?:-[A-Z0-9]{1,3})?)\b")
                          "| TC-RST-001 | HS-12, DHS-004-A1;")
  = [Some "TC-RST-001"; Some "DHS-004-A1"].
Proof. vm_compute. reflexivity. Qed.

Example sample_remove : remove_all (re "\[\d+\]$") "a[1].b[22]" = "a[1].b".
Proof. vm_compute. reflexivity. Qed.

End samples.
