(* ===== verification/Reports.v ===== *)
(** What the coverage scripts share: text formatting, the sections of a report, and
    sorting rows by the first rule that claims them.

    [classify_hits] and [classify_left] describe the sorting: a rule gets exactly the rows it is the first to
    claim, in the order of the report, and the rows that no rule claims are left. *)

From Stdlib Require Import Ascii.
From S2P Require Import Prelude DutConfig Text Regex.

Local Open Scope string_scope.
Local Open Scope list_scope.

(** ** Strings *)

(** [s.strip()]. *)
Definition strip (s : string) : string := of_list (Int.strip (chars s)).

(** [s.split(c)], for one character. *)
Fixpoint split_at_from (c : ascii) (l word : list ascii) : list (list ascii) :=
  match l with
  | [] => [rev word]
  | x :: l => if Ascii.eqb x c then rev word :: split_at_from c l [] else split_at_from c l (x :: word)
  end.

Definition split_at (c : ascii) (s : string) : list string := map of_list (split_at_from c (chars s) []).

Definition spaces (n : nat) : string := of_list (repeat " "%char n).

(** [f"{s:<n}"] and [f"{s:>n}"]. *)
Definition ljust (n : nat) (s : string) : string := s +:+ spaces (n - String.length s).
Definition rjust (n : nat) (s : string) : string := spaces (n - String.length s) +:+ s.

(** [s[:n]]. *)
Definition clip (n : nat) (s : string) : string := String.substring 0 n s.

(** [s.split(c)[-1]]. *)
Definition last_part (c : ascii) (s : string) : string := List.last (split_at c s) EmptyString.

Definition newline_text : string := of_list [line_feed].

(** The text of a file of these lines, each ended. *)
Definition lines_text (l : list string) : string := String.concat newline_text l +:+ newline_text.

Definition count_of {A} (l : list A) : string := pretty (Z.of_nat (length l)).

(** ** The sections of a report *)

(** The groups of a match as [re.findall] returns them. *)
Definition text_of_group (n : nat) (m : Match) : string := default EmptyString (group n m).

(** Consecutive pairs. *)
Fixpoint pairs {A} (l : list A) : list (A * A) :=
  match l with a :: b :: l => (a, b) :: pairs l | _ => [] end.

(** The instances of a report and the text of each.
    mk/dm_cov_exclude.py:570-572 (_sections) *)
Definition _sections (report : string) : list (string * string) :=
  pairs (tl (split_on (re_m "^== (\S+)$") report)).

(** The part of a section that a pattern finds, if it does. *)
Definition section_part (pattern body : string) : option string :=
  m ← search (re_s pattern) body; group 0 m.

(** ** The first rule that claims a row *)

Section classify.
Context {Rule Row : Type} (name : Rule -> string) (claims : Rule -> Row -> bool).

Definition first_claim (rules : list Rule) (row : Row) : option Rule :=
  List.find (fun r => claims r row) rules.

(** [d[k].append(x)]. *)
Fixpoint append_to (k : string) (x : Row) (d : list (string * list Row)) : list (string * list Row) :=
  match d with
  | [] => []
  | (k', l) :: d => if String.eqb k' k then (k', l ++ [x]) :: d else (k', l) :: append_to k x d
  end.

(** What the loops over the rows keep: the rows of each rule, and those of none. *)
Definition sorted : Type := list (string * list Row) * list Row.

Definition sort_row (rules : list Rule) (acc : sorted) (row : Row) : sorted :=
  let (matched, unmatched) := acc in
  match first_claim rules row with
  | Some r => (append_to (name r) row matched, unmatched)
  | None => (matched, unmatched ++ [row])
  end.

Definition classify (rules : list Rule) (rows : list Row) : sorted :=
  fold_left (sort_row rules) rows (map (fun r => (name r, [])) rules, []).

(** [matched[name]]. *)
Definition hits (r : Rule) (acc : sorted) : list Row := value_or [] (getitem (fst acc) (name r)).

(** [r] is the rule that claims the row. *)
Definition claimed_by (rules : list Rule) (r : Rule) (row : Row) : bool :=
  match first_claim rules row with Some r' => String.eqb (name r') (name r) | None => false end.

Definition unclaimed (rules : list Rule) (row : Row) : bool :=
  match first_claim rules row with Some _ => false | None => true end.

Lemma getitem_append k k' x d :
  getitem (append_to k x d) k' =
  if String.eqb k k' then rmap (fun l => l ++ [x]) (getitem d k') else getitem d k'.
Proof.
  induction d as [|[k0 l] d IH]; cbn; [by destruct (String.eqb k k')|].
  destruct (String.eqb_spec k0 k) as [->|Hk]; cbn.
  - destruct (String.eqb_spec k k') as [->|Hk']; [by rewrite String.eqb_refl|].
    by destruct (String.eqb_spec k' k) as [->|].
  - rewrite IH. destruct (String.eqb_spec k k') as [->|Hk']; [|done].
    destruct (String.eqb_spec k' k0) as [->|]; [done|done].
Qed.

Lemma getitem_names (rules : list Rule) r :
  In r rules -> getitem (map (fun r => (name r, [] : list Row)) rules) (name r) = Ok [].
Proof.
  induction rules as [|r' rules IH]; cbn; [done|]. intros [->|Hin].
  - by rewrite String.eqb_refl.
  - destruct (String.eqb (name r) (name r')); auto.
Qed.

Lemma classify_from (rules : list Rule) rows acc r l :
  getitem (fst acc) (name r) = Ok l ->
  getitem (fst (fold_left (sort_row rules) rows acc)) (name r) =
    Ok (l ++ List.filter (claimed_by rules r) rows) /\
  snd (fold_left (sort_row rules) rows acc) = snd acc ++ List.filter (unclaimed rules) rows.
Proof.
  revert acc l. induction rows as [|row rows IH]; intros [matched unmatched] l Hl; cbn [fold_left List.filter].
  - by rewrite !app_nil_r.
  - cbn [fst snd] in *. unfold sort_row at 2 4, claimed_by at 1, unclaimed at 1.
    destruct (first_claim rules row) as [r'|].
    + destruct (IH (append_to (name r') row matched, unmatched)
                   (if String.eqb (name r') (name r) then l ++ [row] else l)) as [H1 H2].
      { cbn [fst]. rewrite getitem_append, Hl. by destruct (String.eqb (name r') (name r)). }
      rewrite H1, H2. split; [|done]. destruct (String.eqb (name r') (name r)); [|done].
      by rewrite <-app_assoc.
    + destruct (IH (matched, unmatched ++ [row]) l Hl) as [H1 H2]. rewrite H1, H2. cbn [snd].
      by rewrite <-app_assoc.
Qed.

(** The rows of a rule are those it is the first to claim, and the rest are those that no
    rule claims. *)
Lemma classify_hits (rules : list Rule) rows r :
  In r rules -> hits r (classify rules rows) = List.filter (claimed_by rules r) rows.
Proof.
  intros Hr. unfold hits, classify.
  destruct (classify_from rules rows (map (fun r => (name r, [])) rules, []) r []) as [-> _];
    [by apply getitem_names|done].
Qed.

Lemma classify_left (rules : list Rule) rows :
  snd (classify rules rows) = List.filter (unclaimed rules) rows.
Proof.
  unfold classify. generalize (map (fun r => (name r, [] : list Row)) rules) as matched.
  assert (forall acc, snd (fold_left (sort_row rules) rows acc) = snd acc ++ List.filter (unclaimed rules) rows)
    as Hs.
  { induction rows as [|row rows IH]; intros [matched unmatched]; cbn [fold_left List.filter].
    - by rewrite app_nil_r.
    - rewrite IH. unfold unclaimed at 2, sort_row. destruct (first_claim rules row); [done|].
      cbn [snd]. by rewrite <-app_assoc. }
  intros matched. by rewrite Hs.
Qed.

(** Every row is one of a rule's, or one of those left. *)
Lemma classify_complete (rules : list Rule) rows row :
  In row rows ->
  (exists r, In r rules /\ claims r row = true /\ In row (hits r (classify rules rows))) \/
  ((forall r, In r rules -> claims r row = false) /\ In row (snd (classify rules rows))).
Proof.
  intros Hrow. destruct (first_claim rules row) as [r|] eqn:Hf; [left|right].
  - apply List.find_some in Hf as Hs. exists r. split_and!; try tauto.
    rewrite classify_hits by tauto. apply filter_In. split; [done|].
    unfold claimed_by. by rewrite Hf, String.eqb_refl.
  - split; [intros r Hr; by apply (List.find_none _ _ Hf)|].
    rewrite classify_left. apply filter_In. split; [done|]. unfold unclaimed. by rewrite Hf.
Qed.

End classify.

(** ** Where a pattern occurs *)

Definition occurs (r : regex) (text : string) : Prop :=
  exists s s', place (chars text) s /\ matches r s s'.

(** [re.search(pattern, text)] as a condition. *)
Definition hit (pattern text : string) : bool := found (search (re pattern) text).

Lemma search_occurs r text : found (search r text) = true <-> occurs r text.
Proof.
  unfold occurs, search. pose proof (search_from_spec r [] (chars text)) as Hs.
  destruct (search_from r [] (chars text)) as [m|]; cbn.
  - destruct Hs as (skipped & rest & E & Hm & Hr & _). split; [|done]. intros _.
    exists (m_start m), (m_end m). split; [|done]. unfold place. rewrite Hm. cbn.
    by rewrite app_nil_r, rev_involutive.
  - split; [done|]. intros ([b a] & s' & Hp & Hr). exfalso.
    apply (Hs (rev b) a s'); [by rewrite <-Hp|]. by rewrite rev_involutive, app_nil_r.
Qed.
