(* ===== verification/Floats.v ===== *)
(** Python's floating-point numbers as far as the scripts use them: quotients and decimal
    literals rounded to the nearest double, compared, and printed with a fixed number of
    digits.

    [of_ratio_nearest] says that a quotient is rounded to within half a unit of its 53 bits. *)

From Stdlib Require Import Ascii.
From S2P Require Import Prelude DutConfig Regex Reports.

Local Open Scope string_scope.
Local Open Scope list_scope.
Local Open Scope Z_scope.

(** A number [mantissa * 2 ^ exponent], not negative and in the range of normal doubles. *)
Module Double.

Record t := mk { mantissa : Z; exponent : Z }.

(** [a / b] rounded to an integer, a tie to the even one. *)
Definition round_half_even (a b : Z) : Z :=
  let q := a / b in
  let r := a mod b in
  if 2 * r <? b then q
  else if b <? 2 * r then q + 1
  else if Z.even q then q else q + 1.

(** [n / d * 2 ^ -e], as a quotient. *)
Definition scaled (n d e : Z) : Z * Z := (n * 2 ^ Z.max 0 (- e), d * 2 ^ Z.max 0 e).

(** The exponent for which the mantissa of [n / d] has 53 bits. *)
Definition exponent_of (n d : Z) : Z :=
  let e := Z.log2 n - Z.log2 d - 53 in
  let (a, b) := scaled n d e in
  if a <? 2 ^ 53 * b then e else e + 1.

(** The double nearest to [n / d]. *)
Definition of_ratio (n d : Z) : t :=
  if n =? 0 then mk 0 0
  else let e := exponent_of n d in
       let (a, b) := scaled n d e in mk (round_half_even a b) e.

(** [x < y]. *)
Definition ltb (x y : t) : bool :=
  let e := Z.min (exponent x) (exponent y) in
  mantissa x * 2 ^ (exponent x - e) <? mantissa y * 2 ^ (exponent y - e).

(** [max(x, y)]. *)
Definition max (x y : t) : t := if ltb x y then y else x.

(** [int(x / n)], for a positive integer. *)
Definition int_div (x : t) (n : Z) : Z :=
  let q := of_ratio (mantissa x * 2 ^ Z.max 0 (exponent x)) (n * 2 ^ Z.max 0 (- exponent x)) in
  mantissa q * 2 ^ Z.max 0 (exponent q) / 2 ^ Z.max 0 (- exponent q).

(** [f"{x:.2f}"]. *)
Definition fixed2 (x : t) : string :=
  let cents := round_half_even (mantissa x * 2 ^ Z.max 0 (exponent x) * 100)
                               (2 ^ Z.max 0 (- exponent x)) in
  pretty (cents / 100) +:+ "." +:+ pretty (cents / 10 mod 10) +:+ pretty (cents mod 10).

(** The digits of a text, and how many of them follow its point. *)
Fixpoint decimal (l : list ascii) (acc places : Z) (point some : bool) : option (Z * Z) :=
  match l with
  | [] => if some then Some (acc, places) else None
  | c :: l =>
      if Ascii.eqb c "." then if point then None else decimal l acc places true some
      else if Regex.digit c then
        decimal l (10 * acc + (Z.of_nat (nat_of_ascii c) - 48)) (if point then places + 1 else places)
                point true
      else None
  end.

(** [float(s)], for a text of digits and points. *)
Definition of_string (s : string) : result t :=
  match decimal (chars s) 0 0 false false with
  | Some (n, places) => Ok (of_ratio n (10 ^ places))
  | None => Raise (ValueError ("could not convert string to float: '" +:+ s +:+ "'"))
  end.

(** ** The rounding *)

Lemma round_near a b : 0 < b -> 2 * Z.abs (round_half_even a b * b - a) <= b.
Proof.
  intros Hb. pose proof (Z.div_mod a b ltac:(lia)) as Hd. pose proof (Z.mod_pos_bound a b Hb) as Hm.
  unfold round_half_even. cbv zeta. set (q := a / b) in *. set (r := a mod b) in *.
  destruct (Z.ltb_spec (2 * r) b); [lia|]. destruct (Z.ltb_spec b (2 * r)); [lia|].
  destruct (Z.even q); lia.
Qed.

Lemma scaled_pos n d e : 0 < n -> 0 < d -> 0 < fst (scaled n d e) /\ 0 < snd (scaled n d e).
Proof. intros. cbn. split; apply Z.mul_pos_pos; try done; apply Z.pow_pos_nonneg; lia. Qed.

Lemma scaled_step n d e : 0 < n -> 0 < d ->
  fst (scaled n d e) * snd (scaled n d (e + 1)) = 2 * fst (scaled n d (e + 1)) * snd (scaled n d e).
Proof.
  intros Hn Hd. cbn. destruct (Z.le_gt_cases 0 e) as [He|He].
  - assert (2 ^ Z.max 0 (e + 1) = 2 * 2 ^ Z.max 0 e) as ->.
    { rewrite <-Z.pow_succ_r by lia. f_equal. lia. }
    assert (Z.max 0 (- e) = Z.max 0 (- (e + 1))) as -> by lia. ring.
  - assert (2 ^ Z.max 0 (- e) = 2 * 2 ^ Z.max 0 (- (e + 1))) as ->.
    { rewrite <-Z.pow_succ_r by lia. f_equal. lia. }
    assert (Z.max 0 e = Z.max 0 (e + 1)) as -> by lia. ring.
Qed.

(** The first guess is right to a factor of two. *)
Lemma guess n d : 0 < n -> 0 < d ->
  let '(a, b) := scaled n d (Z.log2 n - Z.log2 d - 53) in 2 ^ 52 * b < a < 2 ^ 54 * b.
Proof.
  intros Hn Hd. pose proof (Z.log2_spec n Hn) as Ln. pose proof (Z.log2_spec d Hd) as Ld.
  pose proof (Z.log2_nonneg n) as Pn. pose proof (Z.log2_nonneg d) as Pd.
  set (x := Z.log2 n) in *. set (y := Z.log2 d) in *. cbn.
  set (p := Z.max 0 (- (x - y - 53))). set (q := Z.max 0 (x - y - 53)).
  assert (0 <= p /\ 0 <= q /\ p + x = q + y + 53) as (Hp & Hq & E) by lia.
  assert (2 ^ (p + x) = 2 ^ 53 * 2 ^ (q + y)) as Ep by (rewrite E, !Z.pow_add_r by lia; ring).
  rewrite !Z.pow_add_r in Ep by lia. rewrite !Z.pow_succ_r in * by lia.
  pose proof (Z.pow_pos_nonneg 2 p ltac:(lia) Hp). pose proof (Z.pow_pos_nonneg 2 q ltac:(lia) Hq).
  change (2 ^ 53) with (2 * 2 ^ 52) in Ep. change (2 ^ 54) with (4 * 2 ^ 52).
  pose proof (Z.pow_pos_nonneg 2 52 ltac:(lia) ltac:(lia)) as P52. set (u := 2 ^ 52) in *.
  set (P := 2 ^ p) in *. set (Q := 2 ^ q) in *. set (X := 2 ^ x) in *. set (Y := 2 ^ y) in *.
  split.
  - apply Z.lt_le_trans with (u * (2 * Y * Q)); [|].
    + apply Z.mul_lt_mono_pos_l; [lia|]. apply Z.mul_lt_mono_pos_r; lia.
    + replace (u * (2 * Y * Q)) with (2 * u * (Q * Y)) by ring. rewrite <-Ep, Z.mul_comm.
      apply Z.mul_le_mono_nonneg_r; lia.
  - apply Z.lt_le_trans with (2 * X * P); [apply Z.mul_lt_mono_pos_r; lia|].
    replace (2 * X * P) with (2 * (P * X)) by ring. rewrite Ep.
    replace (2 * (2 * u * (Q * Y))) with (4 * u * (Y * Q)) by ring.
    apply Z.mul_le_mono_nonneg_l; [lia|]. apply Z.mul_le_mono_nonneg_r; lia.
Qed.

(** The quotient at the exponent chosen has 53 bits before its point. *)
Lemma exponent_precise n d : 0 < n -> 0 < d ->
  let '(a, b) := scaled n d (exponent_of n d) in 2 ^ 52 * b <= a < 2 ^ 53 * b.
Proof.
  intros Hn Hd. unfold exponent_of. pose proof (guess n d Hn Hd) as G. cbv zeta.
  set (e := Z.log2 n - Z.log2 d - 53) in *. pose proof (scaled_step n d e Hn Hd) as S.
  pose proof (scaled_pos n d e Hn Hd) as [Pa Pb]. pose proof (scaled_pos n d (e + 1) Hn Hd) as [Pc Pd].
  destruct (scaled n d e) as [a b] eqn:E0. cbn [fst snd] in *.
  destruct (Z.ltb_spec a (2 ^ 53 * b)) as [Hlt|Hge].
  - rewrite E0. lia.
  - destruct (scaled n d (e + 1)) as [a' b'] eqn:E1. cbn [fst snd] in *.
    change (2 ^ 53) with (2 * 2 ^ 52) in *. change (2 ^ 54) with (4 * 2 ^ 52) in *.
    set (u := 2 ^ 52) in *. split; nia.
Qed.

(** The result is within half a unit of the quotient, and of 53 bits. *)
Lemma of_ratio_nearest n d : 0 < n -> 0 < d ->
  let x := of_ratio n d in
  let '(a, b) := scaled n d (exponent x) in
  2 * Z.abs (mantissa x * b - a) <= b /\ 2 ^ 52 <= mantissa x <= 2 ^ 53.
Proof.
  intros Hn Hd. unfold of_ratio. destruct (Z.eqb_spec n 0) as [->|_]; [done|].
  pose proof (exponent_precise n d Hn Hd) as P. cbv zeta.
  pose proof (scaled_pos n d (exponent_of n d) Hn Hd) as [_ Pb].
  destruct (scaled n d (exponent_of n d)) as [a b] eqn:E. cbn [mantissa exponent fst snd] in *. rewrite E.
  pose proof (round_near a b Pb) as R. split; [exact R|].
  set (m := round_half_even a b) in *. change (2 ^ 53) with (2 * 2 ^ 52) in *. set (u := 2 ^ 52) in *.
  split; nia.
Qed.

End Double.

(** What Python prints: a tie of the decimal literal is decided by the double nearest to it. *)
Example fixed_samples :
  map (fun '(n, d) => Double.fixed2 (Double.of_ratio n d))
      [(1, 3); (200, 3); (1, 8); (1005, 1000); (1015, 1000); (100, 1); (0, 7); (29, 7)]
  = ["0.33"; "66.67"; "0.12"; "1.00"; "1.01"; "100.00"; "0.00"; "4.14"].
Proof. vm_compute. reflexivity. Qed.
