(* ===== verification/CovRules.v ===== *)
(** The rules of [mk/dm_cov_exclude.py]: which items of the coverage report of the Debug
    Module cannot be reached on this DUT, and why. *)

From S2P Require Import Prelude.
From S2P Require AbstractCmd.

Local Open Scope string_scope.
Local Open Scope list_scope.
Local Open Scope Z_scope.

(** A rule for blocks: its name, what the source of the block must match, why it is
    excluded and what would make it reachable, and the filters on the instance, the kind
    of block, the enclosing case item and the enclosing arm. *)
Module Rule.
Record t := mk {
  name : string; pattern : string; why : string; when : string;
  inst : string; kind : string; case : string; not_arm : option string
}.
End Rule.

(** A rule for one row of the truth table of an expression. *)
Module ExprRule.
Record t := mk {
  name : string; source : string; terms : string; why : string; when : string; inst : string
}.
End ExprRule.

(** A rule for the bits of signals. *)
Module ToggleRule.
Record t := mk {
  name : string; pattern : string; why : string; when : string; inst : option string
}.
End ToggleRule.

(** An instance in scope for its boundary: what it is, and what of it is kept. *)
Module Boundary.
Record t := mk { inst : string; what : string; signals : string; sources : string }.
End Boundary.

(** A rule for the states and transitions of a state machine. *)
Module FsmRule.
Record t := mk { name : string; inst : string; item : string; why : string; when : string }.
End FsmRule.

(** The alternative of a slot's constant bits, if it has any.
    mk/dm_cov_exclude.py:401-403 (TOGGLE_RULES, the pattern of the constant bits) *)
Definition slot_pattern (slot : nat) (bits : list Z) : list string :=
  match bits with
  | [] => []
  | _ => [pretty (Z.of_nat slot) +:+ "\]\[(" +:+ String.concat "|" (map pretty bits) +:+ ")"]
  end.

(** The pattern of the bits that no generated program changes.
    mk/dm_cov_exclude.py:401-403 (TOGGLE_RULES, the pattern of the constant bits) *)
Definition abstract_cmd_pattern : string :=
  "^abstract_cmd\[(" +:+
  String.concat "|"
    (flat_map (fun slot => slot_pattern slot (AbstractCmd.constant_bits slot)) (seq 0 8)) +:+
  ")\]$".

(** The rules for blocks.
    mk/dm_cov_exclude.py:51-175 (RULES) *)
Definition RULES : list Rule.t :=
  [Rule.mk "dm-slave-single-beat-only"
     ("warp_address|upper_wrap_boundary|cons_addr|WRAP:|case \(ax_req_q\.burst\)|FIXED, " +:+
       "INCR|slave\.r_last|slave\.w_last|WRITE: begin|slave\.w_valid|req_addr_d = " +:+
       "addr_o|state_d = SEND_B")
     ("the DM's memory slave is only ever addressed by the hart's accesses to the 4 KiB DM " +:+
       "region, which are single-beat (AxLEN=0): the burst-address arithmetic, the WRAP arm, " +:+
       "and the multi-beat READ/WRITE paths cannot be entered. axi2mem is generic IP used in " +:+
       "one narrow way here")
     "a master that issues bursts to the DM region"
     "i_dm_axi2mem$" "" "" None;
   Rule.mk "dm-master-single-request-only"
     ("type_i (!|=)= ariane_pkg::SINGLE_REQ|BURST_SIZE|CRITICAL_WORD_FIRST|WAIT_LAST_W_READY" +:+
       "|WAIT_AW_READY_BURST|WAIT_R_VALID_MULTIPLE|cnt_[dq]|axi_resp_i\.r\.last|index = " +:+
       "|axi_req_o\.aw_valid = 1'b1|state_d = WAIT_LAST_W_READY|2'b(01|10|11): |default: ;")
     ("dm_top's bus master is wired with type_i = SINGLE_REQ and one 64-bit access at a time " +:+
       "(ariane_testharness.sv:352-360), so every burst and critical-word path of this " +:+
       "generic cache adapter is unreachable")
     "a DM that issues bursts"
     "i_dm_axi_master$" "" "" (Some "type_i == ariane_pkg::SINGLE_REQ");
   Rule.mk "dm-master-no-amo"
     "amo_[qi]|AMO_|ATOP_|amo_returns_data"
     ("dm_top's bus master is wired with amo_i = AMO_NONE (ariane_testharness.sv:353): the " +:+
       "adapter's atomic paths cannot be entered")
     "a DM that issues atomics"
     "i_dm_axi_master$" "" "" None;
   Rule.mk "dm-master-one-outstanding"
     "any_outstanding_aw|outstanding_aw_cnt_q|id_i == id_q"
     ("the DM's master waits for each access to complete before starting the next (dm_sba is " +:+
       "a one-at-a-time state machine) and drives id_i = '0, so there is never a second " +:+
       "outstanding write or a second ID")
     "a DM that pipelines system-bus accesses"
     "i_dm_axi_master$" "" "" None;
   Rule.mk "dm-master-bus-never-backpressures"
     "axi_resp_i\.(aw_ready|w_ready)|WAIT_AW_READY: begin|state_d = WAIT_AW_READY;"
     ("TESTBENCH LIMIT: the AXI crossbar accepts the DM master's AW and W in the cycle they " +:+
       "are offered in every run so far, so the adapter's wait-for-ready states are never " +:+
       "entered")
     "stimulus that congests the crossbar while an SBA access is in flight"
     "i_dm_axi_master$" "" "" None;
   Rule.mk "dm-slave-wrap-else-arms"
     "^end else begin$"
     "the remaining arms of the WRAP burst-address arithmetic excluded above"
     "a master that issues wrapping bursts to the DM region"
     "i_dm_axi2mem$" "" "WRAP" None;
   Rule.mk "dm-master-burst-else-arms"
     "^(end else begin|case \(\{)$"
     ("the burst arms of the adapter's write path: the else of `if (type_i == SINGLE_REQ)` " +:+
       "and the aw/w-ready case inside it (axi_adapter.sv:201, 213, 271, 296). type_i is tied " +:+
       "to SINGLE_REQ")
     "a DM that issues bursts"
     "i_dm_axi_master$" "" "WAIT_LAST_W_READY_AW_READY|2'b11|default: state_d = IDLE;" None;
   Rule.mk "dm-master-amo-response-arms"
     "axi_resp_i\.r_valid|RESP_EXOKAY|^end else begin$"
     ("the atomic arms of WAIT_B_VALID and the whole WAIT_AMO_R_VALID state " +:+
       "(axi_adapter.sv:349-372, 390): amo_i is tied to AMO_NONE, so no atomic ever returns " +:+
       "data or a store-conditional response")
     "a DM that issues atomics"
     "i_dm_axi_master$" "" "WAIT_B_VALID|WAIT_AMO_R_VALID" None;
   Rule.mk "rstgen-parameter-check"
     "NumRegs < 1"
     "an elaboration-time parameter check ($fatal); NumRegs is 4"
     "a build with NumRegs < 1, which would not elaborate"
     "i_rstgen" "" "" None;
   Rule.mk "readbyteenable-param"
     "if \(ReadByteEnable\) be = be_mask"
     ("ReadByteEnable is a compile-time parameter, so one arm is dead by parameterisation " +:+
       "rather than by stimulus")
     "a build with the opposite ReadByteEnable value"
     "" "" "" None;
   Rule.mk "datacount-param"
     "if \(dm::DataCount > 0\)"
     ("dm::DataCount is the constant 2, so the arm for a DM without data registers is dead " +:+
       "by parameterisation")
     "a build with DataCount = 0"
     "" "implicit else" "" None;
   Rule.mk "hart-never-unavailable"
     "stickyunavail_d\[i\]"
     ("ariane_testharness.sv ties dm_top's unavailable_i to '0, so no hart can report " +:+
       "unavailable and the sticky bit can never set")
     "an integration that drives unavailable_i"
     "" "" "" None;
   Rule.mk "dtm-parasitic-state"
     "if \(dmi_resp_valid\)"
     ("the default arm of dmi_jtag's state case only catches the three unencoded values of a " +:+
       "3-bit, five-state register, which no legal transition produces; it is entered only at " +:+
       "time 0 while state_q is X")
     "a state-register upset"
     "i_dmi_jtag$" "" "^default" None;
   Rule.mk "dtm-request-backpressure"
     "if \(dmi_req_ready\)"
     ("dmi_req_ready is cdc_2phase's source-side ready, low only between a handshake and its " +:+
       "acknowledge. ARGUED FROM THE RTL, not proven: the DTM re-enters Read/Write only after " +:+
       "the previous response has crossed back, and that response trails the acknowledge, so " +:+
       "ready is high there. This DTM has no dmihardreset (RTL-009) to abandon a transfer " +:+
       "early; resetting only the JTAG half of the CDC with TRST might, and is untested")
     "a DTM that issues a request before the previous acknowledge returns"
     "i_dmi_jtag$" "implicit else" "" None;
   Rule.mk "dtm-unencoded-error"
     "error_q == DMIBusy \|\| error_dmi_busy"
     ("error_q is only ever assigned DMINoError or DMIBusy, so the arm that needs it to hold " +:+
       "DMIReservedError or DMIOPFailed is unreachable")
     "a DTM that latches the other dmistat values"
     "i_dmi_jtag$" "implicit else" "" None].

(** The rules for rows of expressions.
    mk/dm_cov_exclude.py:181-219 (EXPR_RULES) *)
Definition EXPR_RULES : list ExprRule.t :=
  [ExprRule.mk "dm-master-single-request-only"
     "CRITICAL_WORD_FIRST|BURST_SIZE|WAIT_R_VALID_MULTIPLE|type_i != ariane_pkg::SINGLE_REQ"
     ".*"
     ("dm_top's bus master is wired with type_i = SINGLE_REQ: the burst and critical-word " +:+
       "arms of this generic cache adapter are unreachable")
     "a DM that issues bursts"
     "i_dm_axi_master$";
   ExprRule.mk "dm-master-no-amo-or-second-outstanding"
     "amo_[qi]|any_outstanding_aw|outstanding_aw_cnt_q|id_i == id_q"
     ".*"
     ("amo_i is tied to AMO_NONE and the DM issues one access at a time with id_i = '0, so " +:+
       "these terms never take the excluded value")
     "a DM that issues atomics or pipelines accesses"
     "i_dm_axi_master$";
   ExprRule.mk "dmi-resp-fifo-never-full"
     "dmi_req_ready_o && dmi_req_valid_i"
     "^0 - -$"
     ("ARGUED FROM THE RTL, not proven: dmi_req_ready_o is ~resp_queue_full on a depth-2 " +:+
       "FIFO, and the DTM holds one request at a time until its response is popped (it has no " +:+
       "dmihardreset to abandon one, RTL-009), so the FIFO never holds more than one entry")
     "a DTM that pipelines requests"
     "i_dm_csrs$";
   ExprRule.mk "dmi-request-always-ready"
     "valid_o && ready_i"
     "^- 0$"
     ("ARGUED FROM THE RTL, not proven: the CDC receivers' ready_i is the DM's " +:+
       "dmi_req_ready_o (a response FIFO that never fills) on the request side and dmi_jtag's " +:+
       "dmi_resp_ready (tied 1) on the response side")
     "a DTM that pipelines requests, or back-pressures responses"
     "i_cdc_(req|resp)\.i_dst$";
   ExprRule.mk "dtm-unencoded-error"
     "error_q == DMIBusy \|\| error_dmi_busy"
     "^0 0$"
     ("the all-false row needs error_q outside {DMINoError, DMIBusy}, which dmi_jtag never " +:+
       "assigns")
     "a DTM that latches the other dmistat values"
     "i_dmi_jtag$"].

(** The rules for signal bits.
    mk/dm_cov_exclude.py:227-415 (TOGGLE_RULES) *)
Definition TOGGLE_RULES : list ToggleRule.t :=
  [ToggleRule.mk "waiver-single-power-on-reset"
     "^(rst_ni|dmi_rst_ni|dmi_rst_no|src_rst_ni|dst_rst_ni)$"
     ("TESTBENCH LIMIT: power-on reset is applied once, at time 0, so its release is the " +:+
       "only edge a run has (dmi_rst_no is rst_ni passed through; the CDC halves take it or " +:+
       "TRST as their reset)")
     "a transport op that re-applies power-on reset"
     None;
   ToggleRule.mk "waiver-trst-once"
     "^(trst_ni|jtag_TRSTn)$"
     ("TESTBENCH LIMIT: the JTAG agent asserts TRST once, at time 0, and has no op to pulse " +:+
       "it")
     "a transport op that pulses TRST"
     None;
   ToggleRule.mk "tied-off-inputs"
     ("^(testmode_i|test_mode_i|clk_sel_i|unavailable_i|unavailable_aligned\[\d+\]" +:+
       "|unavailable_effective|stickyunavail_[dq]|dmstatus\.(allunavail|anyunavail))$")
     ("ariane_testharness.sv drives testmode_i (and the TAP's DFT clock-mux select) from " +:+
       "test_en, assigned 1'b0 at :121, and ties dm_top's unavailable_i to '0 at :295; the " +:+
       "rest are functions of unavailable_i")
     "an integration that drives them"
     None;
   ToggleRule.mk "dmi-response-constants"
     ("^(dmi_resp_o|dmi_resp_i|dmi_resp|jtag_dmi_resp_o|core_dmi_resp_i|data_[io]" +:+
       "|async_data(_[io])?|data_(src|dst)_q|(src|dst)_data_[io])\.resp\[\d\]$" +:+
       "|^debug_resp\.resp\[\d\]$|^(dmi_resp_ready|jtag_dmi_ready_i)$")
     "dm_csrs drives resp = DTM_SUCCESS and dmi_jtag drives resp_ready = 1, both constants"
     "a DM that reports DMI-level failures"
     None;
   ToggleRule.mk "dmi-request-always-ready"
     ("^(dmi_req_ready_o|dmi_req_ready_i|resp_queue_full|core_dmi_ready_i)$|^(dst_ready_i" +:+
       "|ready_i|debug_req_ready)$")
     ("ARGUED FROM THE RTL, not proven: the response FIFO never fills and the CDC is ready " +:+
       "whenever the DTM asks -- see the dmi-resp-fifo-never-full and " +:+
       "dtm-request-backpressure code rules")
     "a DTM that pipelines requests"
     None;
   ToggleRule.mk "dm-master-axi-attributes-at-the-boundary"
     ("^dm_axi_m_req\.(aw|ar)\.(user|len|atop|id|cache|qos|region|prot|lock|burst|size)" +:+
       "|^dm_axi_m_req\.w\.user|^dm_axi_m_resp\.[br]\.(user|id|resp)")
     ("the same constants as inside the adapter, seen on the DM master's AXI bus at the " +:+
       "testharness: no USER, single 64-bit INCR beats, id '0, no atomics, and no slave ever " +:+
       "answers the DM with an error")
     "a DM that varies its AXI attributes, or a slave that errors"
     (Some "^tb_top_soc\.dut$");
   ToggleRule.mk "testbench-debug-always-enabled"
     "^debug_enable$"
     ("TESTBENCH LIMIT: +debug_disable is never passed, so the testharness's debug-disable " +:+
       "knob holds at 1")
     "a run with +debug_disable, which would keep debug_req_core low"
     (Some "^tb_top_soc\.dut$");
   ToggleRule.mk "dm-bridge-tied-axi-fields"
     ("^(user_[io]|axi_(req_o|resp_i)\.(aw|ar|w|b|r)\.user)(\[\d+\])?$|^axi_req_o\.(aw" +:+
       "|ar)\.(cache|prot|qos|region|lock|burst|len|size)(\[\d+\])?$" +:+
       "|^axi_req_o\.aw\.atop(\[\d+\])?$|^(id_[idoq]|size_[idq])(\[\d+\])?$|^axi_(req_o\.(aw" +:+
       "|ar)|resp_i\.(b|r))\.id(\[\d+\])?$")
     ("the DM's bus master drives these as constants: AXI USER is unused, the access is " +:+
       "always a single 64-bit INCR with id '0, and cache/prot/qos/region/lock/atop are tied " +:+
       "off (ariane_testharness.sv:343-367)")
     "a DM that varies its AXI attributes"
     (Some "i_dm_axi(2mem|_master)$");
   ToggleRule.mk "dm-bridge-no-bus-error"
     "^axi_resp_i\.[br]\.resp(\[\d+\])?$"
     ("nothing in this SoC returns an AXI error to the DM's master: the DM has no bus-error " +:+
       "input either (see sba-no-bus-error)")
     "a slave that answers the DM with SLVERR or DECERR"
     (Some "i_dm_axi_master$");
   ToggleRule.mk "dm-bridge-single-beat"
     ("^(cnt_[dq]|index|wrap_boundary|upper_wrap_boundary|cons_addr|any_outstanding_aw" +:+
       "|outstanding_aw_cnt_[dq])(\[\d+\])?$|^ax_req_[dq]\.(len|size|id)(\[\d+\])?$")
     ("single-beat accesses only: the beat counters, burst-address arithmetic and AxLEN stay " +:+
       "at 0, AxSIZE is fixed, and one access is outstanding at a time")
     "bursts, or pipelined accesses, to or from the DM"
     (Some "i_dm_axi(2mem|_master)$");
   ToggleRule.mk "dm-region-address-bits"
     "^(aligned_address|cons_addr|req_addr_[dq]|ax_req_[dq]\.addr)\[\d+\]$"
     ("the DM's memory slave answers one 4 KiB region at address 0, so every address bit " +:+
       "above the region never sets")
     "a DM mapped at a higher address, or a larger region"
     (Some "i_dm_axi2mem$");
   ToggleRule.mk "single-hart"
     ("^haltsum0\[([1-9]|[12]\d|3[01])\]$|^(havereset_[dq]_aligned|resumeack_aligned" +:+
       "|halted_aligned|resumereq_aligned|haltreq_aligned|resumereq_wdata_aligned" +:+
       "|halted_q_aligned|resuming_q_aligned)\[1\]$")
     ("NrHarts = 1: haltsum0 has one hart bit, and these per-hart vectors are the hart " +:+
       "inputs zero-extended to 2**HartSelLen = 2 entries, so the second entry is constant 0")
     "a multi-hart build"
     None;
   ToggleRule.mk "flag-word-constants"
     "^rdata\[([2-7]\]\[\d|[01]\]\[[2-7]|1\]\[[01])\]$"
     ("dm_mem builds the flag word as rdata[hartsel & 7] = {6'b0, resume, go}: the pad bits " +:+
       "are constant, a one-bit hartsel never addresses slots 2-7, and hart 1's go/resume " +:+
       "need slot-1 halted/resume state that is constant 0")
     "a multi-hart build"
     (Some "i_dm_mem$");
   ToggleRule.mk "dmstatus-constants"
     ("^dmstatus\.(zero[01]\[\d+\]|impebreak|authbusy|hasresethaltreq|devtreevalid" +:+
       "|version\[\d+\])$")
     ("fixed by dm_csrs: version 3 (1.0), no authentication, impebreak 0 with an 8-word " +:+
       "Program Buffer, no devicetree, no halt-on-reset (RTL-004)")
     "a DM configured with those features"
     None;
   ToggleRule.mk "dmcontrol-forced-zero"
     ("^dmcontrol_q\.(hartreset|ackhavereset|ackunavail|hasel|setresethaltreq" +:+
       "|clrresethaltreq)$")
     ("dm_csrs forces these to 0 in dmcontrol_d every cycle: no per-hart reset, no hart " +:+
       "array, no halt-on-reset, and the W1 bits act on the write rather than being stored")
     "a DM that implements hartreset, hasel or halt-on-reset"
     None;
   ToggleRule.mk "abstractcs-constants"
     "^abstractcs\.(zero[023]|progbufsize|datacount)\[\d+\]$"
     "fixed by parameters: progbufsize 8, datacount 2, reserved fields 0"
     "a build with other ProgBufSize/DataCount"
     None;
   ToggleRule.mk "abstractauto-warl"
     ("^abstractauto_[dq]\.(zero0\[\d+\]|autoexecprogbuf\[(2[4-9]|3[01])\]" +:+
       "|autoexecdata\[([2-9]|1[01])\])$")
     ("WARL: only 8 autoexecprogbuf and 2 autoexecdata bits exist; TC-DMC-005 writes " +:+
       "all-ones and reads back 0x00ff0003")
     "a build with a larger Program Buffer or more data registers"
     None;
   ToggleRule.mk "sbcs-constants"
     "^sbcs_q\.(sbversion\[\d+\]|sbasize\[\d+\]|sbaccess(128|32|16|8))$"
     ("fixed by dm_csrs for a 64-bit bus: sbversion 1, sbasize 64, and only sbaccess64 " +:+
       "supported")
     "a build with another BusWidth"
     None;
   ToggleRule.mk "dmcs2-not-implemented"
     "^dmcs2_[dq]\."
     ("halt and resume groups are not implemented, so dm_csrs ignores dmcs2 writes and holds " +:+
       "every field at 0")
     "a DM with halt/resume groups or external triggers"
     None;
   ToggleRule.mk "shutdown-counter-range"
     "^dmactive_shutdown_counter\[3\]$"
     "the counter is loaded with 5 and only counts down, so bit 3 never sets"
     "a longer dmactive shutdown window"
     None;
   ToggleRule.mk "debug-rom-is-constant"
     "^mem\[\d+\]\[\d+\]$"
     ("debug_rom.sv's mem is a continuous assignment of constants; the words it serves are " +:+
       "checked by TC-DMC-006 and their varying bits covered on rdata_o")
     "a writable ROM"
     (Some "i_debug_rom$");
   ToggleRule.mk "abstract-command-constant-bits"
     abstract_cmd_pattern
     ("constant in every program dm_mem.sv can generate for this build, by enumeration over " +:+
       "all command shapes, aarsize values and regno classes (mk/dm_abstract_cmd_bits.py): " +:+
       "slots 5-7 are '0, slot 1 is two fixed shifts, and the rest are fixed " +:+
       "opcode/funct/register fields")
     "a DM that generates different abstract-command programs"
     (Some "i_dm_mem$");
   ToggleRule.mk "debug-rom-constant-bits"
     "^(rom_rdata|rdata_o)\[(0|1|7|41)\]$"
     ("these bits hold the same value in all 19 debug ROM words, and TC-DMC-006 reads and " +:+
       "checks every word")
     "a different debug ROM"
     (Some "(i_dm_mem|i_debug_rom)$")].

(** The instances that are in the report for their boundary only.
    mk/dm_cov_exclude.py:424-445 (BOUNDARY) *)
Definition BOUNDARY : list Boundary.t :=
  [Boundary.mk "^tb_top_soc\.dut$"
     ("ariane_testharness: only the DM's own connections -- the JTAG pins, the DMI " +:+
       "request/response glue, ndmreset and its debug_req gating, and the DM bus signals -- " +:+
       "are in the debug subsystem. The rest of the SoC harness (peripherals, memory, the AXI " +:+
       "crossbar, RVFI/trace) is not.")
     ("^jtag_(TCK|TMS|TDI|TRSTn|TDO_data|TDO_driven)$|^(debug_req_valid|debug_req_ready" +:+
       "|debug_resp_valid|debug_resp_ready)$|^(jtag_req_valid|jtag_resp_ready" +:+
       "|jtag_resp_valid)$|^(jtag_dmi_req|jtag_dmi_resp|debug_req|debug_resp)(\.|\[|$)" +:+
       "|^(ndmreset|ndmreset_n|debug_req_core|debug_req_core_ungtd|debug_enable)$" +:+
       "|^dmi_del_cnt_[dq]|^dm_(slave|master)_|^dm_axi_m_(req|resp)")
     "dmi_del_cnt|debug_req_core|ndmreset";
   Boundary.mk "^tb_top_soc\.dut\.i_ariane$"
     ("the hart's debug boundary is its debug_req_i port; CVA6's internal debug logic " +:+
       "(dcsr/dpc/dscratch, Debug Mode entry and exit, step, dret) is the processor's own " +:+
       "coverage, not the debug subsystem's")
     "^debug_req_i$"
     "(?!)"].

(** The rules for states and transitions.
    mk/dm_cov_exclude.py:505-525 (FSM_RULES) *)
Definition FSM_RULES : list FsmRule.t :=
  [FsmRule.mk "dm-slave-single-beat-only"
     "i_dm_axi2mem$"
     "\bWRITE\b"
     ("the WRITE state is the multi-beat write path; the hart's accesses to the DM region " +:+
       "are single-beat, so a write goes IDLE/WAIT_WVALID -> SEND_B")
     "a master that issues burst writes to the DM region";
   FsmRule.mk "dm-master-single-request-only"
     "i_dm_axi_master$"
     "WAIT_LAST_W_READY_AW_READY|WAIT_AW_READY_BURST|WAIT_R_VALID_MULTIPLE"
     ("burst states of this generic cache adapter; the DM's master is wired type_i = " +:+
       "SINGLE_REQ")
     "a DM that issues bursts";
   FsmRule.mk "dm-master-no-amo"
     "i_dm_axi_master$"
     "WAIT_AMO_R_VALID"
     "the atomic path; amo_i is tied to AMO_NONE"
     "a DM that issues atomics";
   FsmRule.mk "dm-master-bus-never-backpressures"
     "i_dm_axi_master$"
     "WAIT_AW_READY\b"
     ("TESTBENCH LIMIT: the crossbar has accepted the DM master's AW in the cycle it was " +:+
       "offered in every run so far")
     "stimulus that congests the crossbar during an SBA access"].
