(* ===== verification/CovExclude.v ===== *)
(** [mk/dm_cov_exclude.py]: the exclusions of the code coverage of the Debug Module.  The
    script reads a coverage report, and writes an exclusion for each uncovered item that a
    rule claims, and for what lies outside of the boundary of the debug subsystem; the rest
    is printed as holes.

    [exclusions_justified] says that nothing is lost and nothing is excluded without
    cause. *)

From Stdlib Require Import Ascii.
From S2P Require Import Prelude DutConfig Text Regex Reports CovRules.

Local Open Scope string_scope.
Local Open Scope list_scope.
Local Open Scope Z_scope.

(** ** Reading the report *)

(** An uncovered block: its instance, index and source, what kind of block it is, the
    enclosing case item, and the arm it sits in. *)
Module Block.
Record t := mk {
  inst : string; idx : string; source : string; kind : string; case_item : string; arm : string
}.
End Block.

(** An uncovered row of an expression. *)
Module Expr.
Record t := mk { inst : string; row : string; source : string; terms : string }.
End Expr.

(** A state or transition never visited. *)
Module Fsm.
Record t := mk { inst : string; fsm : string; kind : string; what : string }.
End Fsm.

Definition block_section (body : string) : option string :=
  section_part "Block Detail Report.*?(?=Expression Detail|Toggle Detail|\Z)" body.
Definition expr_section (body : string) : option string :=
  section_part "Expression Detail Report.*?(?=Toggle Detail|\Z)" body.
Definition toggle_section (body : string) : option string :=
  section_part "Toggle Detail Report.*?(?=Fsm Detail|\Z)" body.
Definition block_rows : regex := re_m "^(\d+)\s+(\d+)\s+(\d+)\s+(\S.*?)\s{2,}(\d+)\s+(.*)$".
Definition toggle_rows : regex := re_m "^(\d)\s+(\d)\s+(\d)\s+(\S+)\s*$".
Definition expr_header : regex := re "index: (\S+) grade: .* source: (.*)$".

(** One row of a block report; the enclosing case item and arm are those seen last.
    mk/dm_cov_exclude.py:615-620 (parse, one row) *)
Definition parse_row (name : string) (st : list Block.t * string * string) (m : Match)
    : list Block.t * string * string :=
  let '(out, case_item, arm) := st in
  let src := strip (text_of_group 6 m) in
  let kind := text_of_group 4 m in
  let case_item := if String.eqb kind "a case item of" then src else case_item in
  let out := if String.eqb (text_of_group 1 m) "0"
             then out ++ [Block.mk name (text_of_group 2 m) src kind case_item arm] else out in
  (out, case_item,
   if String.eqb kind "true part of" || String.eqb kind "false part of" then src else arm).

(** mk/dm_cov_exclude.py:603-620 (parse) *)
Definition parse (report : string) : list Block.t :=
  flat_map (fun '(name, body) =>
    match block_section body with
    | None => []
    | Some sec => fst (fst (fold_left (parse_row name) (finditer block_rows sec)
                                      ([], EmptyString, EmptyString)))
    end) (_sections report).

(** mk/dm_cov_exclude.py:630-638 (parse_exprs, one line) *)
Definition parse_expr_line (name : string) (st : list Expr.t * string) (line : string)
    : list Expr.t * string :=
  let (out, source) := st in
  match match_start expr_header line with
  | Some m => (out, strip (text_of_group 2 m))
  | None =>
      let cols := map strip (split_at "|" line) in
      let row := List.hd EmptyString cols in
      if (Nat.eqb (length cols) 3 || Nat.eqb (length cols) 4) &&
         found (fullmatch (re "\d+\.\d+\.\d+") row) && String.eqb (nth 1 cols EmptyString) "0"
      then (out ++ [Expr.mk name row source
                            (String.concat " " (split (List.last cols EmptyString)))], source)
      else (out, source)
  end.

(** mk/dm_cov_exclude.py:623-638 (parse_exprs) *)
Definition parse_exprs (report : string) : list Expr.t :=
  flat_map (fun '(name, body) =>
    match expr_section body with
    | None => []
    | Some sec => fst (fold_left (parse_expr_line name) (splitlines sec) ([], EmptyString))
    end) (_sections report).

(** mk/dm_cov_exclude.py:558-567 (parse_toggles) *)
Definition parse_toggles (report : string) : list (string * string) :=
  flat_map (fun '(name, body) =>
    match toggle_section body with
    | None => []
    | Some sec =>
        flat_map (fun m => if String.eqb (text_of_group 1 m) "0" then [(name, text_of_group 4 m)] else [])
                 (finditer toggle_rows sec)
    end) (_sections report).

(** Which table of the report of a state machine a line is in. *)
Inductive Mode := States | Transitions.

(** mk/dm_cov_exclude.py:585-600 (parse_fsm, one line) *)
Definition parse_fsm_line (name fsm : string) (st : list Fsm.t * option Mode * string) (line : string)
    : list Fsm.t * option Mode * string :=
  let '(out, mode, prev) := st in
  if String.prefix "State Coverage" line then (out, Some States, prev)
  else if String.prefix "Transition Coverage" line then (out, Some Transitions, prev)
  else if String.prefix "Reset States" line || String.prefix "Arc Coverage" line then (out, None, prev)
  else match mode with
  | Some States =>
      match fullmatch (re "(\w+)\s+([01]+)\s+(\d+)\s*") line with
      | Some m => (if String.eqb (text_of_group 3 m) "0"
                   then out ++ [Fsm.mk name fsm "state" (text_of_group 1 m)] else out, mode, prev)
      | None => (out, mode, prev)
      end
  | Some Transitions =>
      match fullmatch (re "(\w+)?\s+(\w+)\s+(\d+)\s*") line with
      | Some m =>
          if String.eqb (text_of_group 2 m) "N-State" then (out, mode, prev)
          else
            let prev := default prev (group 1 m) in
            (if String.eqb (text_of_group 3 m) "0"
             then out ++ [Fsm.mk name fsm "transition" (prev +:+ " -> " +:+ text_of_group 2 m)]
             else out, mode, prev)
      | None => (out, mode, prev)
      end
  | None => (out, mode, prev)
  end.

(** mk/dm_cov_exclude.py:575-600 (parse_fsm) *)
Definition parse_fsm (report : string) : list Fsm.t :=
  flat_map (fun '(name, body) =>
    match section_part "Fsm Detail Report.*" body with
    | None => []
    | Some sec =>
        let fsm := match search (re_m "^State register: (\S+)") sec with
                   | Some m => text_of_group 1 m
                   | None => "state_q"
                   end in
        fst (fst (fold_left (parse_fsm_line name fsm) (splitlines sec) ([], None, EmptyString)))
    end) (_sections report).

(** ** Claiming an item *)

(** mk/dm_cov_exclude.py:655-662 (_rule_matches) *)
Definition _rule_matches (r : Rule.t) (b : Block.t) : bool :=
  hit (Rule.pattern r) (Block.source b) && hit (Rule.inst r) (Block.inst b) &&
  hit (Rule.kind r) (Block.kind b) && hit (Rule.case r) (Block.case_item b) &&
  negb (match Rule.not_arm r with Some p => hit p (Block.arm b) | None => false end).

(** mk/dm_cov_exclude.py:710-710 (main, the rule of a row) *)
Definition expr_claims (r : ExprRule.t) (e : Expr.t) : bool :=
  hit (ExprRule.inst r) (Expr.inst e) && hit (ExprRule.source r) (Expr.source e) &&
  hit (ExprRule.terms r) (Expr.terms e).

(** mk/dm_cov_exclude.py:736-736 (main, the rule of a bit) *)
Definition toggle_claims (r : ToggleRule.t) (b : string * string) : bool :=
  hit (ToggleRule.pattern r) (snd b) &&
  match ToggleRule.inst r with Some p => hit p (fst b) | None => true end.

(** mk/dm_cov_exclude.py:537-537 (emit_fsm, the rule of an item) *)
Definition fsm_claims (r : FsmRule.t) (f : Fsm.t) : bool :=
  hit (FsmRule.inst r) (Fsm.inst f) && hit (FsmRule.item r) (Fsm.what f).

(** The loops of [main] and [emit_fsm] over the rows and their rules.
    mk/dm_cov_exclude.py:676-684 (main, the blocks) *)
Definition sort_blocks (report : string) : sorted := classify Rule.name _rule_matches RULES (parse report).
(** mk/dm_cov_exclude.py:706-714 (main, the rows of expressions) *)
Definition sort_exprs (report : string) : sorted :=
  classify ExprRule.name expr_claims EXPR_RULES (parse_exprs report).
(** mk/dm_cov_exclude.py:731-740 (main, the bits) *)
Definition sort_toggles (report : string) : sorted :=
  classify ToggleRule.name toggle_claims TOGGLE_RULES (parse_toggles report).
(** mk/dm_cov_exclude.py:533-541 (emit_fsm, the items) *)
Definition sort_fsm (report : string) : sorted :=
  classify FsmRule.name fsm_claims FSM_RULES (parse_fsm report).

(** ** The exclusions *)

Definition quote : string := of_list [ascii_of_nat 34].

(** mk/dm_cov_exclude.py:641-652 (_imc_toggle_name) *)
Definition _imc_toggle_name (sig : string) : string :=
  match fullmatch (re "(.+?)(\[\d+\])?") sig with
  | Some m =>
      let base := text_of_group 1 m in
      let idx := text_of_group 2 m in
      if existsb (Ascii.eqb ".") (chars base) then quote +:+ base +:+ quote +:+ idx else sig
  | None => sig
  end.

(** [exclude -inst {inst} arg -comment {comment}]. *)
Definition exclude_line (inst arg comment : string) : string :=
  "exclude -inst {" +:+ inst +:+ "} " +:+ arg +:+ " -comment {" +:+ comment +:+ "}".

Definition rule_line : string := "# " +:+ of_list (repeat "="%char 74).

(** What is written for a rule: its reasons, and a line for each of its items.
    mk/dm_cov_exclude.py:694-704 (main, the lines of a rule) *)
Definition rule_block {A} (unit stale name why when : string) (l : list A) (line : A -> string)
    : list string :=
  ["# ---- " +:+ name +:+ " (" +:+ count_of l +:+ " " +:+ unit +:+ ") ----";
   "#   why       : " +:+ why; "#   reachable : " +:+ when] ++
  (match l with [] => ["#   NO LONGER MATCHES -- " +:+ stale] | _ => [] end) ++
  map line l ++ [EmptyString].

Definition stale_rule : string := "delete this rule.".

(** mk/dm_cov_exclude.py:686-704 (main, the exclusions of blocks) *)
Definition block_lines (s : sorted) : list string :=
  [rule_line; "# Debug Module code-coverage exclusions -- GENERATED, do not hand-edit.";
   "#   python3 mk/dm_cov_exclude.py <dm_code.rpt> --out <this file>"; "#";
   "# Each exclusion states why the code is unreachable ON THIS DUT and what";
   "# would make it reachable again. Nothing is excluded for being hard."; rule_line; EmptyString] ++
  flat_map (fun r =>
    rule_block "block(s)" ("the code is covered or gone; " +:+ stale_rule)
      (Rule.name r) (Rule.why r) (Rule.when r) (hits Rule.name r s)
      (fun b => exclude_line (Block.inst b) ("-block " +:+ Block.idx b)
                             (Rule.name r +:+ ": " +:+ Rule.why r))) RULES.

(** mk/dm_cov_exclude.py:715-728 (main, the exclusions of rows) *)
Definition expr_lines (s : sorted) : list string :=
  [EmptyString; rule_line; "# Expression exclusions -- one row of one expression's truth table.";
   rule_line; EmptyString] ++
  flat_map (fun r =>
    rule_block "row(s)" stale_rule (ExprRule.name r) (ExprRule.why r) (ExprRule.when r)
      (hits ExprRule.name r s)
      (fun e => exclude_line (Expr.inst e) ("-expression " +:+ Expr.row e)
                             (ExprRule.name r +:+ ": " +:+ ExprRule.why r))) EXPR_RULES.

(** mk/dm_cov_exclude.py:741-756 (main, the exclusions of bits) *)
Definition toggle_lines (s : sorted) : list string :=
  [EmptyString; rule_line; "# Toggle exclusions -- stated per signal or field, because a field a";
   "# parameter fixes is one fact about the DUT, not one per bit."; rule_line; EmptyString] ++
  flat_map (fun r =>
    rule_block "bit(s)" stale_rule (ToggleRule.name r) (ToggleRule.why r) (ToggleRule.when r)
      (hits ToggleRule.name r s)
      (fun '(inst, sig) => exclude_line inst ("-toggle {" +:+ _imc_toggle_name sig +:+ "}")
                                        (ToggleRule.name r +:+ ": " +:+ ToggleRule.why r))) TOGGLE_RULES.

(** [s.replace(" -> ", ".")]. *)
Definition dotted : string -> string :=
  fun s => String.concat "." (let r := re "( -> )" in
    let step '(acc, from) m := (acc ++ [of_list (between from (m_start m))], m_end m) in
    let '(acc, from) := fold_left step (finditer r s) ([], start (chars s)) in
    acc ++ [of_list (snd from)]).

(** mk/dm_cov_exclude.py:551-553 (emit_fsm, an exclusion) *)
Definition fsm_arg (f : Fsm.t) : string :=
  if String.eqb (Fsm.kind f) "state" then "-state " +:+ Fsm.fsm f +:+ "." +:+ Fsm.what f
  else "-transition " +:+ Fsm.fsm f +:+ "." +:+ dotted (Fsm.what f).

(** mk/dm_cov_exclude.py:528-555 (emit_fsm) *)
Definition fsm_lines (s : sorted) : list string :=
  [EmptyString; rule_line; "# FSM exclusions -- unreachable states and transitions."; rule_line;
   EmptyString] ++
  flat_map (fun r =>
    rule_block "item(s)" stale_rule (FsmRule.name r) (FsmRule.why r) (FsmRule.when r)
      (hits FsmRule.name r s)
      (fun f => exclude_line (Fsm.inst f) (fsm_arg f) (FsmRule.name r +:+ ": " +:+ FsmRule.why r)))
    FSM_RULES.

(** The number of exclusions of a table. *)
Definition total_of {R Row} (name : R -> string) (rules : list R) (s : sorted (Row := Row)) : Z :=
  foldr Z.add 0 (map (fun r => Z.of_nat (length (hits name r s))) rules).

(** ** The boundary *)

(** An item of a boundary instance: its kind, its name for [imc], and what it is. *)
Module Item.
Record t := mk { inst : string; kind : string; ident : string; name : string }.
End Item.

(** [re.sub(r"\[\d+\]$", "", sig)]. *)
Definition base_of (sig : string) : string := remove_all (re "\[\d+\]$") sig.

(** mk/dm_cov_exclude.py:448-472 (parse_all) *)
Definition parse_all (report : string) : list Item.t :=
  flat_map (fun '(name, body) =>
    if negb (existsb (fun b => hit (Boundary.inst b) name) BOUNDARY) then []
    else
      match block_section body with
      | Some sec => map (fun m => Item.mk name "block" (text_of_group 2 m) (strip (text_of_group 6 m)))
                        (finditer block_rows sec)
      | None => []
      end ++
      match expr_section body with
      | Some sec =>
          flat_map (fun line =>
            match match_start expr_header line with
            | Some m => [Item.mk name "expression" (text_of_group 1 m) (strip (text_of_group 2 m))]
            | None => []
            end) (splitlines sec)
      | None => []
      end ++
      match toggle_section body with
      | Some sec => map (fun m => Item.mk name "toggle" (base_of (text_of_group 4 m)) (text_of_group 4 m))
                        (finditer toggle_rows sec)
      | None => []
      end) (_sections report).

Definition scope_key : Type := string * string * string.

Definition key_eqb (a b : scope_key) : bool :=
  let '(a1, a2, a3) := a in
  let '(b1, b2, b3) := b in String.eqb a1 b1 && String.eqb a2 b2 && String.eqb a3 b3.

Definition seen_in (k : scope_key) (seen : list scope_key) : bool := existsb (key_eqb k) seen.

(** What [emit_boundary] keeps: its lines, its count, and what it excluded. *)
Definition scoping : Type := list string * Z * list scope_key.

(** How an exclusion names an item.
    mk/dm_cov_exclude.py:494-495 (emit_boundary, the item) *)
Definition item_arg (kind ident : string) : string :=
  if String.eqb kind "toggle" then "-toggle {" +:+ _imc_toggle_name ident +:+ "}"
  else "-" +:+ kind +:+ " " +:+ ident.

(** An item under one of the boundaries.
    mk/dm_cov_exclude.py:486-497 (emit_boundary, one boundary) *)
Definition scope_item (i : Item.t) (st : scoping) (b : Boundary.t) : scoping :=
  let '(out, total, seen) := st in
  let key := (Item.inst i, Item.kind i, Item.ident i) in
  let toggle := String.eqb (Item.kind i) "toggle" in
  if negb (hit (Boundary.inst b) (Item.inst i)) then st
  else if hit (if toggle then Boundary.signals b else Boundary.sources b) (Item.name i) ||
          seen_in key seen then st
  else
    (out ++ [exclude_line (Item.inst i) (item_arg (Item.kind i) (Item.ident i))
                          ("boundary-scope: " +:+ Boundary.what b)],
     total + 1, key :: seen).

(** mk/dm_cov_exclude.py:475-499 (emit_boundary) *)
Definition emit_boundary (report : string) : scoping :=
  let '(out, total, seen) :=
    fold_left (fun st i => fold_left (scope_item i) BOUNDARY st) (parse_all report)
      ([EmptyString; rule_line;
        "# Boundary scoping -- NOT unreachability. These instances are in the";
        "# report only for their connection to the DM; everything else in them";
        "# belongs to the processor or the rest of the SoC and is excluded by";
        "# name so the subsystem total neither counts nor claims it."; rule_line; EmptyString], 0, []) in
  (out ++ [EmptyString], total, seen).

(** ** The holes *)

(** The counts of the names, in the order of their first occurrence. *)
Fixpoint count_in (k : string) (d : list (string * Z)) : list (string * Z) :=
  match d with
  | [] => [(k, 1)]
  | (k', n) :: d => if String.eqb k' k then (k', n + 1) :: d else (k', n) :: count_in k d
  end.

Fixpoint place_count (x : string * Z) (l : list (string * Z)) : list (string * Z) :=
  match l with
  | [] => [x]
  | y :: l' => if snd y <? snd x then x :: l else y :: place_count x l'
  end.

(** [Counter(names).most_common(n)]. *)
Definition most_common (n : nat) (names : list string) : list (string * Z) :=
  take n (fold_left (fun l x => place_count x l)
                    (fold_left (fun d k => count_in k d) names []) []).

Definition leaf (inst : string) : string := last_part "." inst.

(** What is printed of the holes.  [s], [e], [t] and [f] are the sorted blocks, rows, bits
    and items of state machines, and [seen] what the boundary excluded.
    mk/dm_cov_exclude.py:780-781 (main, the holes in scope) *)
Definition block_holes (s : sorted) (seen : list scope_key) : list Block.t :=
  List.filter (fun b => negb (seen_in (Block.inst b, "block", Block.idx b) seen)) (snd s).
Definition toggle_holes (t : sorted) (seen : list scope_key) : list (string * string) :=
  List.filter (fun '(i, b) => negb (seen_in (i, "toggle", b) seen))
              (map (fun '(i, sig) => (i, base_of sig)) (snd t)).

(** [f"\n{len(l)} {what}"], unless there are none, and a line for each. *)
Definition holes_text {A} (l : list A) (what : string) (lines : list string) : list string :=
  match l with
  | [] => []
  | _ => [newline_text +:+ count_of l +:+ " " +:+ what] ++ lines
  end.

(** mk/dm_cov_exclude.py:770-793 (main, the holes) *)
Definition holes_printed (s : sorted) (e : sorted) (t : sorted) (f : sorted)
    (seen : list scope_key) : list string :=
  holes_text (snd e) "uncovered expression row(s) NOT excluded -- real holes:"
    (map (fun e => "  " +:+ ljust 12 (leaf (Expr.inst e)) +:+ " " +:+ ljust 8 (Expr.row e) +:+ " [" +:+
                   Expr.terms e +:+ "]  " +:+ clip 56 (Expr.source e)) (snd e)) ++
  holes_text (snd f) "unvisited FSM state(s)/transition(s) -- real holes:"
    (map (fun f => "  " +:+ ljust 16 (leaf (Fsm.inst f)) +:+ " " +:+ ljust 10 (Fsm.kind f) +:+ " " +:+
                   Fsm.what f) (snd f)) ++
  (let bits := toggle_holes t seen in
   holes_text bits "untoggled bit(s) NOT excluded -- real toggle holes, top signal groups:"
     (map (fun '(base, n) => "  " +:+ ljust 34 base +:+ " " +:+ rjust 5 (pretty (n : Z)) +:+ " bits")
          (most_common 12 (map snd bits)))) ++
  (let blocks := block_holes s seen in
   holes_text blocks
     "uncovered block(s) NOT excluded -- these are real coverage holes, not unreachable code:"
     (map (fun b => "  " +:+ ljust 12 (leaf (Block.inst b)) +:+ " block " +:+ ljust 4 (Block.idx b) +:+
                    " " +:+ clip 64 (Block.source b)) (take 40 blocks))).

(** ** The run *)

(** What a script leaves: the file it wrote, if it did, what it printed, what it printed on
    the standard error, and its exit status. *)
Record Outcome := mk_outcome {
  written : option string; printed : list string; errors : string; status : Z
}.

(** The rules of a table that claim something. *)
Definition rules_used {R Row} (name : R -> string) (rules : list R) (s : sorted (Row := Row)) : Z :=
  Z.of_nat (length (List.filter (fun r => match hits name r s with [] => false | _ => true end) rules)).

(** mk/dm_cov_exclude.py:665-794 (main) *)
Definition main (report_name out_name report : string) : Outcome :=
  match parse report with
  | [] => mk_outcome None []
            (report_name +:+ ": no uncovered blocks found -- wrong file, or nothing to exclude" +:+
             newline_text) 1
  | _ =>
      let s := sort_blocks report in
      let e := sort_exprs report in
      let t := sort_toggles report in
      let f := sort_fsm report in
      let '(boundary, bcount, seen) := emit_boundary report in
      let out := block_lines s ++ expr_lines e ++
                 (match parse_toggles report with [] => [] | _ => toggle_lines t end) ++
                 fsm_lines f ++ boundary in
      let total := total_of Rule.name RULES s + total_of ExprRule.name EXPR_RULES e +
                   total_of ToggleRule.name TOGGLE_RULES t + total_of FsmRule.name FSM_RULES f + bcount in
      mk_outcome (Some (lines_text out))
        (("wrote " +:+ out_name +:+ ": " +:+ pretty total +:+ " exclusion(s) across " +:+
          pretty (rules_used Rule.name RULES s + rules_used ExprRule.name EXPR_RULES e) +:+ " rule(s)")
         :: holes_printed s e t f seen) EmptyString 0
  end.
