(* ===== verification/CovExcludeSound.v ===== *)
(** What [mk/dm_cov_exclude.py] excludes, and what it reports as holes. *)

From S2P Require Import Prelude DutConfig Text Regex Reports CovRules CovExclude.

Local Open Scope string_scope.
Local Open Scope list_scope.
Local Open Scope Z_scope.

(** ** Rules that apply *)

(** [hit] says whether a pattern occurs in a text. *)
Definition shows (pattern text : string) : Prop := occurs (re pattern) text.

Lemma hit_shows p text : hit p text = true <-> shows p text.
Proof. apply search_occurs. Qed.

(** What it means that a rule applies to a block: each of its patterns occurs where it
    should, and the one it must not sit under does not. *)
Definition applies (r : Rule.t) (b : Block.t) : Prop :=
  shows (Rule.pattern r) (Block.source b) /\ shows (Rule.inst r) (Block.inst b) /\
  shows (Rule.kind r) (Block.kind b) /\ shows (Rule.case r) (Block.case_item b) /\
  (forall p, Rule.not_arm r = Some p -> ~ shows p (Block.arm b)).

Lemma matches_applies r b : _rule_matches r b = true <-> applies r b.
Proof.
  unfold _rule_matches, applies. rewrite !andb_true_iff, !hit_shows, negb_true_iff.
  assert (match Rule.not_arm r with Some p => hit p (Block.arm b) | None => false end = false <->
          (forall p, Rule.not_arm r = Some p -> ~ shows p (Block.arm b))) as ->; [|tauto].
  destruct (Rule.not_arm r) as [p|]; [|by split].
  rewrite <-not_true_iff_false, hit_shows. split; [by intros H ? [= <-]|intros H; by apply H].
Qed.

Lemma rule_names_distinct : NoDup (map Rule.name RULES).
Proof. apply (bool_decide_unpack _). by vm_compute. Qed.

(** Rules of one name are one rule. *)
Lemma rule_of_name r r' : In r RULES -> In r' RULES -> Rule.name r = Rule.name r' -> r = r'.
Proof.
  intros Hr Hr' E. pose proof rule_names_distinct as Hd. revert Hr Hr' Hd. generalize RULES.
  intros l. induction l as [|x l IH]; cbn; [done|]. intros [->|Hr] [->|Hr'] [Hn Hd]%NoDup_cons; auto.
  - exfalso. apply Hn. rewrite E. apply list_elem_of_In, in_map, Hr'.
  - exfalso. apply Hn. rewrite <-E. apply list_elem_of_In, in_map, Hr.
Qed.

(** [r] is the first rule that applies. *)
Definition first_applying (r : Rule.t) (b : Block.t) : Prop :=
  exists before after, RULES = before ++ r :: after /\ applies r b /\
    Forall (fun r' => ~ applies r' b) before.

Lemma find_first {A} (f : A -> bool) l x :
  List.find f l = Some x ->
  exists before after, l = before ++ x :: after /\ f x = true /\ Forall (fun y => f y = false) before.
Proof.
  induction l as [|y l IH]; cbn; [done|]. destruct (f y) eqn:Hy.
  - intros [= ->]. exists [], l. by split_and!.
  - intros (before & after & -> & Hx & Hb)%IH. exists (y :: before), after. split_and!; [done|done|by constructor].
Qed.

Lemma first_claim_applying r b :
  first_claim _rule_matches RULES b = Some r -> In r RULES /\ first_applying r b.
Proof.
  intros (before & after & El & Hr & Hb)%find_first. split.
  - rewrite El. apply in_app_iff. right. by left.
  - exists before, after. split_and!; [done|by apply matches_applies|].
    eapply Forall_impl; [exact Hb|]. intros r' Hr' Ha%matches_applies. congruence.
Qed.

(** ** The lines written *)

Definition block_line (r : Rule.t) (b : Block.t) : string :=
  exclude_line (Block.inst b) ("-block " +:+ Block.idx b) (Rule.name r +:+ ": " +:+ Rule.why r).

Lemma block_line_written r b s :
  In r RULES -> In b (hits Rule.name r s) -> In (block_line r b) (block_lines s).
Proof.
  intros Hr Hb. unfold block_lines. apply in_app_iff. right. apply in_flat_map. exists r. split; [done|].
  unfold rule_block. apply in_app_iff. right. apply in_app_iff. right. apply in_app_iff. left.
  apply in_map_iff. by exists b.
Qed.

(** What the boundary has excluded has its line. *)
Definition scoped_lines (st : scoping) : Prop :=
  forall inst kind ident, seen_in (inst, kind, ident) (snd st) = true ->
    exists what, In (exclude_line inst (item_arg kind ident) ("boundary-scope: " +:+ what)) (fst (fst st)).

Lemma scope_item_scoped i st b : scoped_lines st -> scoped_lines (scope_item i st b).
Proof.
  destruct st as [[out total] seen]. intros H. unfold scope_item.
  destruct (negb _); [done|]. destruct (_ || _); [done|]. intros inst kind ident.
  cbn [fst snd seen_in existsb key_eqb]. rewrite orb_true_iff, !andb_true_iff, !String.eqb_eq.
  intros [[[-> ->] ->]|Hs].
  - exists (Boundary.what b). apply in_app_iff. right. by left.
  - apply H in Hs as [what Hw]. exists what. apply in_app_iff. by left.
Qed.

Lemma fold_scoped {A} (f : scoping -> A -> scoping) (l : list A) st :
  (forall st x, scoped_lines st -> scoped_lines (f st x)) -> scoped_lines st ->
  scoped_lines (fold_left f l st).
Proof. intros Hf. revert st. induction l as [|x l IH]; intros st H; cbn; auto. Qed.

Lemma boundary_scoped report : scoped_lines (emit_boundary report).
Proof.
  unfold emit_boundary.
  match goal with |- context [fold_left ?f ?l ?st] =>
    assert (scoped_lines (fold_left f l st)) as H end.
  { apply fold_scoped; [|by intros ???]. intros st i H. apply fold_scoped; [|done].
    intros st' b. apply scope_item_scoped. }
  destruct (fold_left _ _ _) as [[out total] seen]. intros inst kind ident Hs.
  apply H in Hs as [what Hw]. exists what. apply in_app_iff. by left.
Qed.

(** The file excludes a block as out of the boundary. *)
Definition scoped_out (lines : list string) (b : Block.t) : Prop :=
  exists what, In (exclude_line (Block.inst b) ("-block " +:+ Block.idx b) ("boundary-scope: " +:+ what)) lines.


(** A report of two instances: the DM's bus master, and the SoC around the DM. *)
Definition sample_report : string := lines_text
  ["== tb_top_soc.dut.i_dm_top.i_dm_axi_master";
   "Block Detail Report";
   "12 1 10 code block  20 always_comb begin";
   "3 2 15 a case item of  20 WAIT_B_VALID: begin";
   "0 3 16 true part of  20 if (type_i == ariane_pkg::SINGLE_REQ) begin";
   "0 4 17 a case item of  20 2'b11: state_d = WAIT_B_VALID;";
   "0 5 18 true part of  20 if (amo_q == ariane_pkg::AMO_NONE) begin";
   "Expression Detail";
   "== tb_top_soc.dut";
   "Block Detail Report";
   "0 1 30 code block  31 clk_sys = 1'b0;";
   "0 2 32 code block  33 ndmreset_n = 1'b0;";
   "Expression Detail Report";
   "index: 1.1 grade: 50% source: a && b";
   "1.1.1 | 0 | 0 1";
   "Toggle Detail"].

Definition sample_block : Block.t :=
  Block.mk "tb_top_soc.dut.i_dm_top.i_dm_axi_master" "5" "if (amo_q == ariane_pkg::AMO_NONE) begin"
    "true part of" "2'b11: state_d = WAIT_B_VALID;" "if (type_i == ariane_pkg::SINGLE_REQ) begin".


(** The rules sort the blocks of the sample: one under a rule's [not_arm] is left, its
    neighbour is excluded. *)
Example sample_sorted :
  map (fun b => option_map Rule.name (first_claim _rule_matches RULES b)) (parse sample_report)
  = [Some "dm-master-single-request-only"; None; Some "dm-master-no-amo"; None; None].
Proof. vm_compute. reflexivity. Qed.

(** ** The boundary and the holes *)

(** A block the boundary excluded is not reported as a hole. *)
Example scoped_block_no_hole :
  let '(_, _, seen) := emit_boundary sample_report in
  map Block.idx (block_holes (sort_blocks sample_report) seen) = ["4"; "2"].
Proof. vm_compute. reflexivity. Qed.

(** A row of an expression that the boundary excluded still is: the file excludes
    expression 1.1 of the SoC, and row 1.1.1 of it is printed among the real holes. *)
Theorem scoped_row_still_a_hole :
  let '(lines, _, seen) := emit_boundary sample_report in
  seen_in ("tb_top_soc.dut", "expression", "1.1") seen = true /\
  map (fun e => (Expr.inst e, Expr.row e)) (snd (sort_exprs sample_report)) = [("tb_top_soc.dut", "1.1.1")].
Proof. vm_compute. by split. Qed.
