(* ===== verification/Reconcile.v ===== *)
(** [mk/reconcile.py]: a coverage model against a testplan, both ways.

    The documents are YAML, which a library parses: the model starts from the values it
    returns, with the keys that the script reads.  A testplan in Markdown is parsed here.

    [reconciled] says what exit status 0 means. *)

From Stdlib Require Import Ascii.
From stdpp Require Import sorting.
From S2P Require Import Prelude DutConfig Text Regex Reports.

Local Open Scope string_scope.
Local Open Scope list_scope.

(** ** The documents *)

(** A bin; an absent key is absent here. *)
Module Bin.
Record t := mk {
  name : option string; kind : option string; testplan : list string; why : string;
  spec : string; reason : string; reachable : option bool
}.
End Bin.

Module Coverpoint.
Record t := mk { name : option string; bins : list Bin.t }.
End Coverpoint.

(** A cross has the keys of a bin too. *)
Module Cross.
Record t := mk { self : Bin.t; legs : list string; bins : list Bin.t }.
End Cross.

Module Covergroup.
Record t := mk { name : option string; coverpoints : list Coverpoint.t; crosses : list Cross.t }.
End Covergroup.

Definition or_unknown (n : option string) : string := default "?" n.

(** An item of a testplan in YAML. *)
Record Row := mk_row { row_id : string; summary : string; objective : string; description : string }.

(** mk/reconcile.py:33-33 (TC_ID) *)
Definition TC_ID : regex := re "\b((?:TC-)?[A-Z][A-Z0-9]{1,8}-\d{3}(?:-[A-Z0-9]{1,3})?)\b".

(** [d[k] = v]. *)
Fixpoint put {V} (k : string) (v : V) (d : list (string * V)) : list (string * V) :=
  match d with
  | [] => [(k, v)]
  | (k', v') :: d => if String.eqb k' k then (k', v) :: d else (k', v') :: put k v d
  end.

(** [s.strip(c)], for one character. *)
Fixpoint lstrip_of (c : ascii) (l : list ascii) : list ascii :=
  match l with x :: l' => if Ascii.eqb x c then lstrip_of c l' else l | [] => [] end.
Definition strip_of (c : ascii) (s : string) : string :=
  of_list (rev (lstrip_of c (rev (lstrip_of c (chars s))))).

(** mk/reconcile.py:50-57 (load_testplan, the YAML plan) *)
Definition yaml_items (rows : list Row) : list (string * string) :=
  fold_left (fun items r =>
    if String.eqb (row_id r) EmptyString then items
    else put (row_id r) (String.concat " " [summary r; objective r; description r]) items) rows [].

(** The cells of a row of a table. *)
Definition cells (line : string) : list string :=
  map (fun c => strip_of "`" (strip c)) (split_at "|" (strip_of "|" line)).

(** mk/reconcile.py:59-66 (load_testplan, the Markdown plan) *)
Definition markdown_items (text : string) : list (string * string) :=
  fold_left (fun items line =>
    if negb (String.prefix "|" line) then items
    else match cells line with
         | c :: rest => if found (fullmatch TC_ID c) then put c (String.concat " " rest) items else items
         | [] => items
         end) (splitlines text) [].

(** mk/reconcile.py:40-66 (load_testplan) *)
Definition load_testplan (plan : list Row + string) : list (string * string) :=
  match plan with inl rows => yaml_items rows | inr text => markdown_items text end.

(** ** The bins *)

(** A bin and where it is. *)
Module Place.
Record t := mk { cg : string; cp : string; bin : string; record : Bin.t }.
End Place.

Definition place_bin (cg cp : string) (b : Bin.t) : Place.t := Place.mk cg cp (or_unknown (Bin.name b)) b.

(** The label of a cross without bins gives way to its name.
    mk/reconcile.py:79-79 (bins_of, a cross without bins) *)
Definition all_cells (x : Bin.t) : Bin.t :=
  Bin.mk (Some (default "(all cells)" (Bin.name x))) (Bin.kind x) (Bin.testplan x) (Bin.why x)
         (Bin.spec x) (Bin.reason x) (Bin.reachable x).

(** mk/reconcile.py:69-80 (bins_of) *)
Definition bins_of (cov : list Covergroup.t) : list Place.t :=
  flat_map (fun g =>
    let cgname := or_unknown (Covergroup.name g) in
    flat_map (fun p => map (place_bin cgname (or_unknown (Coverpoint.name p))) (Coverpoint.bins p))
             (Covergroup.coverpoints g) ++
    flat_map (fun x =>
      map (place_bin cgname (or_unknown (Bin.name (Cross.self x))))
          (match Cross.bins x with [] => [all_cells (Cross.self x)] | bs => bs end))
      (Covergroup.crosses g)) cov.

(** [f"{name}"] of a name that may be absent. *)
Definition name_text (n : option string) : string := default "None" n.

(** The names of the coverpoints of a group. *)
Definition defined_in (g : Covergroup.t) (leg : string) : bool :=
  existsb (fun p => match Coverpoint.name p with Some n => String.eqb n leg | None => false end)
          (Covergroup.coverpoints g).

(** The order of [sorted] on strings. *)
Definition str_le (a b : string) : Prop := String.leb a b = true.
#[export] Instance str_le_dec : RelDecision str_le.
Proof. intros a b. unfold str_le. apply _. Defined.

(** A sorted list without repetitions. *)
Definition sorted_set (l : list string) : list string := merge_sort str_le (remove_dups l).

(** [repr] of a name without quotes. *)
Definition quoted_name (s : string) : string := "'" +:+ s +:+ "'".

(** mk/reconcile.py:99-108 (main, the structural errors) *)
Definition structural_errors (cov : list Covergroup.t) : list string :=
  flat_map (fun g =>
    flat_map (fun x =>
      flat_map (fun leg =>
        if defined_in g leg then []
        else [name_text (Covergroup.name g) +:+ "." +:+ name_text (Bin.name (Cross.self x)) +:+
              ": cross references undefined coverpoint " +:+ quoted_name leg +:+ " (defined: " +:+
              String.concat ", " (sorted_set (List.filter (fun n => negb (String.eqb n EmptyString))
                (omap Coverpoint.name (Covergroup.coverpoints g)))) +:+ ")"])
        (Cross.legs x)) (Covergroup.crosses g)) cov.

(** ** Judging a bin *)

(** What a bin is: claimed by items of the plan, excluded, or a hole, with the problem. *)
Inductive Verdict :=
  | Claimed (items : list string)
  | Excluded (kind : string)
  | Hole (problem : string).

Definition in_plan {V} (items : list (string * V)) (r : string) : bool :=
  existsb (fun '(k, _) => String.eqb k r) items.

Definition given (s : string) : bool := negb (String.eqb s EmptyString).

Definition kind_of (b : Bin.t) : string := default "explicit" (Bin.kind b).

(** mk/reconcile.py:119-160 (main, one bin) *)
Definition judge (items : list (string * string)) (b : Bin.t) : Verdict :=
  let kind := kind_of b in
  let refs := Bin.testplan b in
  match Bin.reachable b with
  | Some false =>
      if given (Bin.why b) then Excluded "unreachable"
      else Hole "reachable: false with no stated reason"
  | _ =>
      if String.eqb kind "ignore" || String.eqb kind "illegal" then
        if given (Bin.why b) || given (Bin.reason b) then Excluded kind
        else Hole (kind +:+ " bin with no stated reason")
      else
        match List.filter (in_plan items) refs, refs with
        | [], _ :: _ =>
            Hole ("names testplan items that do not exist: " +:+
                  String.concat ", " (List.filter (fun r => negb (in_plan items r)) refs))
        | _, [] => Hole "no testplan item claims this bin"
        | hit, _ => Claimed hit
        end
  end.

Definition is_hole (v : Verdict) : bool := match v with Hole _ => true | _ => false end.
Definition is_claimed (v : Verdict) : bool := match v with Claimed _ => true | _ => false end.
Definition is_excluded (v : Verdict) : bool := match v with Excluded _ => true | _ => false end.

(** The bins of each verdict.
    mk/reconcile.py:115-160 (main, the loop over the bins) *)
Definition judged (items : list (string * string)) (cov : list Covergroup.t) : list (Place.t * Verdict) :=
  map (fun p => (p, judge items (Place.record p))) (bins_of cov).

Definition with_verdict (f : Verdict -> bool) (l : list (Place.t * Verdict)) : list (Place.t * Verdict) :=
  List.filter (fun '(_, v) => f v) l.

(** The items that bins claim.
    mk/reconcile.py:159-159 (main, claimed_items) *)
Definition claimed_items (l : list (Place.t * Verdict)) : list string :=
  remove_dups (flat_map (fun '(_, v) => match v with Claimed hit => hit | _ => [] end) l).

(** mk/reconcile.py:166-168 (prefix) *)
Definition id_prefix (i : string) : string :=
  let core := if String.prefix "TC-" i then String.substring 3 (String.length i - 3) i else i in
  List.hd EmptyString (split_at "-" core).

(** mk/reconcile.py:170-173 (main, the scope) *)
Definition scope_of (scope : option string) (claimed : list string) : list string :=
  match scope with
  | Some s => if given s then remove_dups (split_at "," s)
              else remove_dups (map id_prefix claimed)
  | None => remove_dups (map id_prefix claimed)
  end.

(** mk/reconcile.py:175-176 (main, orphan_items) *)
Definition orphans (scope : list string) (items : list (string * string)) (claimed : list string)
    : list string :=
  merge_sort str_le
    (List.filter (fun i => negb (existsb (String.eqb i) claimed) && existsb (String.eqb (id_prefix i)) scope)
                 (map fst items)).

(** ** The report *)

(** The kind shown for a bin, and its problem. *)
Definition shown_kind (p : Place.t) (v : Verdict) : string :=
  match v with Excluded kind => kind | _ => kind_of (Place.record p) end.
Definition problem_of (v : Verdict) : string := match v with Hole why => why | _ => EmptyString end.

Definition dotted_place (p : Place.t) : string := Place.cg p +:+ "." +:+ Place.cp p +:+ "." +:+ Place.bin p.

(** mk/reconcile.py:109-113 (main, the structural errors printed) *)
Definition structural_lines (structural : list string) : list string :=
  match structural with
  | [] => []
  | _ => ["── " +:+ count_of structural +:+ " STRUCTURAL ERROR(S) ──"] ++
         map (fun e => "  " +:+ e) structural ++
         [newline_text +:+ "  The generated SystemVerilog will not compile. Fix these first." +:+ newline_text]
  end.

(** mk/reconcile.py:186-195 (main, the holes printed) *)
Definition hole_lines (holes : list (Place.t * Verdict)) : list string :=
  match holes with
  | [] => []
  | _ =>
      [newline_text +:+ "── " +:+ count_of holes +:+ " HOLE(S): a bin nothing plans to exercise ──"] ++
      flat_map (fun '(p, v) =>
        let b := Place.record p in
        ["  " +:+ dotted_place p +:+ "  [" +:+ shown_kind p v +:+ "]"; "    " +:+ problem_of v] ++
        (if given (Bin.spec b) then ["    spec: " +:+ Bin.spec b] else []) ++
        (if given (Bin.why b) then ["    why:  " +:+ clip 100 (Bin.why b)] else [])) holes ++
      [newline_text +:+ "  Each of these is a proposed new testplan item."]
  end.

(** The description of an item. *)
Definition about (items : list (string * string)) (i : string) : string := dict_get items i EmptyString.

(** mk/reconcile.py:201-208 (main, the orphans printed) *)
Definition orphan_lines (items : list (string * string)) (orphan_items : list string) : list string :=
  match orphan_items with
  | [] => []
  | _ =>
      [newline_text +:+ "── " +:+ count_of orphan_items +:+
       " TESTPLAN ITEM(S) in scope contributing to no bin ──"] ++
      map (fun i => "  " +:+ i +:+ "  " +:+ clip 82 (about items i)) (take 30 orphan_items) ++
      (if (30 <? length orphan_items)%nat
       then ["  ... and " +:+ pretty (Z.of_nat (length orphan_items) - 30)%Z +:+ " more"] else []) ++
      [newline_text +:+ "  Either the coverage model is blind to these, or they have no";
       "  verification objective. One of the two is wrong -- decide which."]
  end.

(** [s.replace("|", "\\|")]. *)
Definition escape_bars (s : string) : string :=
  of_list (flat_map (fun c => if Ascii.eqb c "|" then ["\"; "|"]%char else [c]) (chars s)).

(** mk/reconcile.py:218-229 (main, the file of the holes) *)
Definition holes_file (coverage testplan : string) (holes : list (Place.t * Verdict)) : string :=
  lines_text
    (["# Coverage holes — proposed testplan items"; EmptyString;
      "Generated from `" +:+ coverage +:+ "` against `" +:+ testplan +:+ "`."; EmptyString;
      "Each row is a bin the coverage model says matters and no testplan";
      "item claims. Each needs a testplan item and a test, or a"; "documented exclusion."; EmptyString;
      "| Covergroup | Coverpoint | Bin | Spec | Why it matters |"; "|---|---|---|---|---|"] ++
     map (fun '(p, v) =>
       let b := Place.record p in
       let why := if given (Bin.why b) then Bin.why b else problem_of v in
       "| `" +:+ Place.cg p +:+ "` | `" +:+ Place.cp p +:+ "` | `" +:+ Place.bin p +:+ "` | " +:+
       (if given (Bin.spec b) then Bin.spec b else "—") +:+ " | " +:+ clip 120 (escape_bars why) +:+ " |")
       holes).

(** The options of a run. *)
Record Args := mk_args {
  coverage_name : string; testplan_name : string; emit_holes : option string; scope : option string;
  quiet : bool
}.

(** mk/reconcile.py:177-177 (main, out_of_scope) *)
Definition out_of_scope_count (items : list (string * string)) (claimed orphan_items : list string) : Z :=
  (Z.of_nat (length items) - Z.of_nat (length claimed) - Z.of_nat (length orphan_items))%Z.

(** What a run prints, the file of the holes, if one is written, and the exit status.
    mk/reconcile.py:83-232 (main) *)
Definition main (a : Args) (cov : list Covergroup.t) (plan : list Row + string)
    : list string * option (string * string) * Z :=
  let items := load_testplan plan in
  let structural := structural_errors cov in
  let l := judged items cov in
  let holes := with_verdict is_hole l in
  let covered := with_verdict is_claimed l in
  let excluded := with_verdict is_excluded l in
  let claimed := claimed_items l in
  let in_scope := scope_of (scope a) claimed in
  let orphan_items := orphans in_scope items claimed in
  let out_of_scope := out_of_scope_count items claimed orphan_items in
  let file := match emit_holes a, holes with
              | Some path, _ :: _ =>
                  if given path
                  then Some (path, holes_file (coverage_name a) (testplan_name a) holes) else None
              | _, _ => None
              end in
  (structural_lines structural ++
   ["coverage model : " +:+ coverage_name a;
    "testplan       : " +:+ testplan_name a +:+ "  (" +:+ count_of items +:+ " items)";
    "bins           : " +:+
      pretty (Z.of_nat (length holes) + Z.of_nat (length covered) + Z.of_nat (length excluded))%Z +:+
      "  (" +:+ count_of covered +:+ " claimed, " +:+ count_of excluded +:+ " excluded, " +:+
      count_of holes +:+ " holes)"] ++
   hole_lines holes ++
   (if truthy out_of_scope
    then ["  scope          : " +:+
          (match in_scope with [] => "(none)" | _ => String.concat ", " (merge_sort str_le in_scope) end) +:+
          "  (" +:+ pretty out_of_scope +:+ " item(s) outside it, not checked)"] else []) ++
   orphan_lines items orphan_items ++
   (match holes, orphan_items with
    | [], [] =>
        [newline_text +:+ "No disagreement. Both artifacts claim the same behaviours."] ++
        (if quiet a then []
         else ["Worth a sceptical look: perfect agreement between two";
               "supposedly independent passes can mean one was derived"; "from the other."])
    | _, _ => []
    end) ++
   (match file with Some (path, _) => [newline_text +:+ "wrote " +:+ path] | None => [] end),
   file,
   match holes, structural with [], [] => 0%Z | _, _ => 1%Z end).

(** ** What a verdict means *)

(** An exclusion gives its reason; any other bin names an item of the plan. *)
Definition planned (items : list (string * string)) (b : Bin.t) : Prop :=
  exists i, In i (Bin.testplan b) /\ In i (map fst items).

Definition in_order (items : list (string * string)) (b : Bin.t) : Prop :=
  match Bin.reachable b with
  | Some false => Bin.why b <> EmptyString
  | _ => if String.eqb (kind_of b) "ignore" || String.eqb (kind_of b) "illegal"
         then Bin.why b <> EmptyString \/ Bin.reason b <> EmptyString
         else planned items b
  end.

(** The crosses of a group are of its coverpoints. *)
Definition well_formed (g : Covergroup.t) : Prop :=
  forall x leg, In x (Covergroup.crosses g) -> In leg (Cross.legs x) ->
    exists p, In p (Covergroup.coverpoints g) /\ Coverpoint.name p = Some leg.

Lemma given_spec s : given s = true <-> s <> EmptyString.
Proof. unfold given. rewrite negb_true_iff. apply String.eqb_neq. Qed.

Lemma in_plan_spec (items : list (string * string)) r : in_plan items r = true <-> In r (map fst items).
Proof.
  unfold in_plan. rewrite existsb_exists, in_map_iff. split.
  - intros ([k v] & Hin & <-%String.eqb_eq). by exists (k, v).
  - intros ([k v] & <- & Hin). exists (k, v). split; [done|]. apply String.eqb_refl.
Qed.

Lemma judge_spec items b :
  match judge items b with
  | Claimed hit => in_order items b /\ hit <> [] /\ forall i, In i hit -> In i (map fst items)
  | Excluded _ => in_order items b
  | Hole _ => ~ in_order items b
  end.
Proof.
  unfold judge, in_order.
  assert (Hrefs : match List.filter (in_plan items) (Bin.testplan b), Bin.testplan b with
    | [], _ :: _ => ~ planned items b
    | _, [] => ~ planned items b
    | hit, _ => planned items b /\ hit <> [] /\ forall i, In i hit -> In i (map fst items)
    end).
  { pose proof (filter_In (in_plan items)) as Hf.
    destruct (List.filter (in_plan items) (Bin.testplan b)) as [|h hit] eqn:Eh,
             (Bin.testplan b) as [|r rs] eqn:Er; unfold planned; rewrite Er.
    - by intros (i & [] & _).
    - intros (i & Hi & Hp). apply in_plan_spec in Hp. apply (in_nil (a := i)). by rewrite <-Eh, Hf.
    - done.
    - assert (forall i, In i (h :: hit) -> In i (r :: rs) /\ In i (map fst items)) as Hh.
      { intros i Hi. rewrite <-Eh, Hf, in_plan_spec in Hi. exact Hi. }
      split_and!; [exists h; apply Hh; by left|done|]. intros i Hi. by apply Hh. }
  destruct (Bin.reachable b) as [[]|].
  2: { destruct (given (Bin.why b)) eqn:Hw; [by apply given_spec|].
       rewrite <-given_spec, Hw. intros [=]. }
  all: destruct (String.eqb (kind_of b) "ignore" || String.eqb (kind_of b) "illegal").
  1,3: destruct (given (Bin.why b) || given (Bin.reason b)) eqn:Hg;
    rewrite <-!given_spec, <-orb_true_iff, Hg; [done|intros [=]].
  all: destruct (List.filter _ _), (Bin.testplan b); exact Hrefs.
Qed.

Lemma structural_spec cov : structural_errors cov = [] <-> Forall well_formed cov.
Proof.
  unfold structural_errors. rewrite List.Forall_forall.
  assert (forall A B (f : A -> list B) l, flat_map f l = [] <-> forall x, In x l -> f x = []) as Hnil.
  { intros A B f l. induction l as [|x l IH]; cbn; [by split|]. split.
    - intros [Hx Hl]%app_eq_nil y [->|Hy]; [done|by apply IH].
    - intros H. rewrite H by auto. cbn. apply IH. auto. }
  assert (forall g leg, defined_in g leg = true <->
    exists p, In p (Covergroup.coverpoints g) /\ Coverpoint.name p = Some leg) as Hdef.
  { intros g leg. unfold defined_in. rewrite existsb_exists. apply exist_proper. intros p.
    destruct (Coverpoint.name p) as [n|]; [rewrite String.eqb_eq|]; intuition congruence. }
  rewrite Hnil. apply forall_proper. intros g. unfold well_formed. rewrite Hnil. split.
  - intros H Hg x leg Hx Hl. specialize (H Hg x Hx). rewrite Hnil in H. specialize (H leg Hl).
    apply Hdef. by destruct (defined_in g leg).
  - intros H Hg x Hx. rewrite Hnil. intros leg Hl. specialize (H Hg x leg Hx Hl). apply Hdef in H.
    by rewrite H.
Qed.

(** ** The items of a plan *)

Lemma put_keys {V} k (v : V) d : NoDup (map fst d) ->
  NoDup (map fst (put k v d)) /\ forall x, In x (map fst (put k v d)) <-> x = k \/ In x (map fst d).
Proof.
  induction d as [|[k' v'] d IH]; cbn.
  - intros _. split; [apply NoDup_singleton|]. intros x. intuition congruence.
  - intros [Hn Hd]%NoDup_cons. destruct (String.eqb_spec k' k) as [->|Hk]; cbn.
    + split; [by apply NoDup_cons|]. intros x. intuition congruence.
    + destruct (IH Hd) as [H1 H2]. split.
      * apply NoDup_cons. split; [|done]. rewrite list_elem_of_In, H2, <-list_elem_of_In. intuition congruence.
      * intros x. rewrite H2. intuition congruence.
Qed.

Lemma fold_keys {A} (f : list (string * string) -> A -> list (string * string)) l d :
  (forall d x, NoDup (map fst d) -> NoDup (map fst (f d x))) ->
  NoDup (map fst d) -> NoDup (map fst (fold_left f l d)).
Proof. intros Hf. revert d. induction l as [|x l IH]; intros d Hd; cbn; auto. Qed.

(** A plan has no item twice. *)
Lemma load_testplan_keys plan : NoDup (map fst (load_testplan plan)).
Proof.
  destruct plan as [rows|text]; apply fold_keys; try apply NoDup_nil_2; intros d x Hd; cbn beta.
  - destruct (String.eqb _ _); [done|]. by apply put_keys.
  - destruct (negb _); [done|]. destruct (cells x) as [|c rest]; [done|].
    destruct (found _); [by apply put_keys|done].
Qed.

(** The items of a list are those that satisfy a condition and those that do not. *)
Lemma filter_split {A} (f : A -> bool) l :
  length l = (length (List.filter f l) + length (List.filter (fun x => negb (f x)) l))%nat.
Proof. induction l as [|x l IH]; cbn; [done|]. destruct (f x); cbn; lia. Qed.

Lemma filter_both {A} (f g : A -> bool) l :
  List.filter f (List.filter g l) = List.filter (fun x => g x && f x) l.
Proof. induction l as [|x l IH]; cbn; [done|]. destruct (g x); cbn; [|done]. destruct (f x); by rewrite IH. Qed.

Lemma existsb_In x l : existsb (String.eqb x) l = true <-> In x l.
Proof.
  rewrite existsb_exists. split; [by intros (y & Hy & ->%String.eqb_eq)|].
  intros Hx. exists x. split; [done|apply String.eqb_refl].
Qed.

(** As many of a list's elements are in a part of it as the part has. *)
Lemma filter_part (keys part : list string) :
  NoDup keys -> NoDup part -> (forall x, In x part -> In x keys) ->
  length (List.filter (fun x => existsb (String.eqb x) part) keys) = length part.
Proof.
  intros Hk Hp Hs. apply Permutation_length, NoDup_Permutation; [|done|].
  - apply NoDup_ListNoDup, List.NoDup_filter, NoDup_ListNoDup, Hk.
  - intros x. rewrite !list_elem_of_In, filter_In, existsb_In. split; [tauto|auto].
Qed.

Lemma claimed_in_plan items cov i : In i (claimed_items (judged items cov)) -> In i (map fst items).
Proof.
  unfold claimed_items, judged. rewrite <-list_elem_of_In, elem_of_remove_dups, list_elem_of_In, in_flat_map.
  intros ([p v] & Hp & Hi). apply in_map_iff in Hp as (p' & [= -> <-] & _).
  pose proof (judge_spec items (Place.record p)) as Hj.
  destruct (judge items (Place.record p)); cbn in Hi; try done. by apply Hj.
Qed.

(** The items that are neither claimed nor in scope. *)
Definition outside (scope : list string) (items : list (string * string)) (claimed : list string)
    : list string :=
  List.filter (fun i => negb (existsb (String.eqb i) claimed) &&
                        negb (existsb (String.eqb (id_prefix i)) scope)) (map fst items).

Lemma with_verdict_nil f (l : list (Place.t * Verdict)) :
  with_verdict f l = [] <-> forall p v, In (p, v) l -> f v = false.
Proof.
  unfold with_verdict. induction l as [|[p v] l IH]; cbn; [by split|]. destruct (f v) eqn:Hf.
  - split; [done|]. intros H. rewrite (H p v) in Hf by auto. done.
  - rewrite IH. split; intros H p' v' Hin; [|by apply (H p'); right].
    destruct Hin as [[= <- <-]|Hin]; [done|by apply (H p')].
Qed.

Lemma verdicts_split l :
  length l = (length (with_verdict is_hole l) + length (with_verdict is_claimed l) +
              length (with_verdict is_excluded l))%nat.
Proof.
  unfold with_verdict. induction l as [|[p v] l IH]; [done|]. cbn. destruct v; cbn; lia.
Qed.


(** ** Samples *)

Definition plain_bin (n : string) (refs : list string) : Bin.t :=
  Bin.mk (Some n) None refs EmptyString EmptyString EmptyString None.

Definition sample_plan : string := lines_text
  ["# Plan"; "| Id | What |"; "|---|---|"; "| `TC-RST-001` | reset | twice |"; "| TC-HS-002 | haltsum |";
   "| DHS-004 | not planned |"].

Example sample_items :
  load_testplan (inr sample_plan)
  = [("TC-RST-001", "reset twice"); ("TC-HS-002", "haltsum"); ("DHS-004", "not planned")].
Proof. vm_compute. reflexivity. Qed.

Definition sample_group : Covergroup.t :=
  Covergroup.mk (Some "cg_reset")
    [Coverpoint.mk (Some "cp_kind") [plain_bin "ndm" ["TC-RST-001"]; plain_bin "hart" ["TC-RST-009"]]]
    [Cross.mk (plain_bin "x_kind" ["TC-HS-002"]) ["cp_kind"; "cp_none"] []].

Example sample_run :
  let '(_, _, status) := main (mk_args "cov.yaml" "plan.md" None None true) [sample_group] (inr sample_plan) in
  (map snd (judged (load_testplan (inr sample_plan)) [sample_group]), status)
  = ([Claimed ["TC-RST-001"]; Hole "names testplan items that do not exist: TC-RST-009";
      Claimed ["TC-HS-002"]], 1%Z).
Proof. vm_compute. reflexivity. Qed.

(** The label of a cross that has no bins of its own gives way to the name of the cross. *)
Theorem all_cells_unlabelled :
  map dotted_place (bins_of [Covergroup.mk (Some "cg") [] [Cross.mk (plain_bin "x_kind" []) [] []]])
  = ["cg.x_kind.x_kind"].
Proof. reflexivity. Qed.

(** An item whose id stands in the text of the plan, but is no row of it, claims nothing. *)
Theorem plan_text_not_searched :
  judge (load_testplan (inr "TC-RST-001 is exercised by the reset scenario")) (plain_bin "ndm" ["TC-RST-001"])
  = Hole "names testplan items that do not exist: TC-RST-001".
Proof. vm_compute. reflexivity. Qed.
