(* ===== verification/Regression.v ===== *)
(** [mk/run_regression.py]: running the regression and judging each run by its output.

    The simulator is a parameter: what a command prints, whether it ran out of time, and
    how long it took.  The suite is the value the YAML library returns, with the keys the
    script reads.

    [verdict_read_back] joins this script to the session: the verdict it reads from a run's
    output is the one [session.py] printed. *)

From Stdlib Require Import Ascii.
From stdpp Require Import sorting.
From S2P Require OpenOcd.
From S2P Require Import Prelude DutConfig Session Text Regex Reports Floats Reconcile.

Local Open Scope string_scope.
Local Open Scope list_scope.
Local Open Scope Z_scope.

(** ** The suite *)

Module Test.
Record t := mk {
  name : string; config : string; elf : option string; timeout_s : option Z; expect : option string;
  plusargs : list string; covers : list string
}.
End Test.

Module Defaults.
Record t := mk { elf : option string; timeout_s : option Z; expect : option string }.
End Defaults.

Record Suite := mk_suite { suite_name : string; defaults : Defaults.t; tests : list Test.t }.

(** ** The patterns *)

(** mk/run_regression.py:54-54 (RE_VERDICT) *)
Definition RE_VERDICT : regex := re "Session complete\s*-\s*(\d+)/(\d+)\s*passed".
(** mk/run_regression.py:55-55 (RE_UVM_ERR) *)
Definition RE_UVM_ERR : regex := re "UVM_ERROR\s*:\s*(\d+)".
(** mk/run_regression.py:58-58 (RE_COV) *)
Definition RE_COV : regex := re "(CG|CP)\s+(\S+)\s+([\d.]+)%".
(** mk/run_regression.py:59-59 (RE_TOTAL) *)
Definition RE_TOTAL : regex := re "SPEC_TOTAL\s+([\d.]+)%".

(** [int] of a group of digits. *)
Definition int_of (s : string) : Z := OpenOcd.int_of_digits 10 (chars s).

(** [sub in s]. *)
Fixpoint contains (sub s : string) : bool :=
  String.prefix sub s || match s with EmptyString => false | String _ s => contains sub s end.

(** ** One run *)

(** The result of a test. *)
Module Outcome.
Section outcome.
Context {T : Type}.
Record t := mk {
  name : string; result : string; elapsed : T; steps : string; uvm_errors : Z;
  coverage : list (string * Double.t); spec_total : option Double.t; expect : string;
  covers : list string; note : option string
}.
End outcome.
Arguments t : clear implicits.
End Outcome.

(** What a command did: what it printed, whether it was killed for running out of time,
    and the time it took. *)
Module Process.
Section process.
Context {T : Type}.
Record t := mk { output : string; timed_out : bool; elapsed : T }.
End process.
Arguments t : clear implicits.
End Process.

(** mk/run_regression.py:131-132 (run_one, client_died) *)
Definition client_died (out : string) : bool :=
  contains "Traceback (most recent call last)" out && negb (contains "Session complete" out).

(** mk/run_regression.py:124-125 (run_one, uvm_errors) *)
Definition uvm_errors_in (out : string) : Z :=
  match List.last (map (text_of_group 1) (finditer RE_UVM_ERR out)) EmptyString with
  | EmptyString => 0
  | n => int_of n
  end.

(** mk/run_regression.py:134-147 (run_one, the result) *)
Definition judge_run (out : string) (timed_out : bool) : string :=
  if client_died out then "error"
  else if timed_out then "timeout"
  else match search RE_VERDICT out with
       | Some m =>
           let passed := int_of (text_of_group 1 m) in
           let total := int_of (text_of_group 2 m) in
           if (passed =? total) && (uvm_errors_in out =? 0) then "pass" else "fail"
       | None => "partial"
       end.

(** mk/run_regression.py:154-154 (run_one, the steps) *)
Definition steps_in (out : string) : string :=
  match search RE_VERDICT out with
  | Some m => text_of_group 1 m +:+ "/" +:+ text_of_group 2 m
  | None => "-"
  end.

(** mk/run_regression.py:149-149 (run_one, cov) *)
Definition coverage_in (out : string) : result (list (string * Double.t)) :=
  fold_ok (fun cov m => rmap (fun v => put (text_of_group 2 m) v cov)
                             (Double.of_string (text_of_group 3 m)))
          [] (finditer RE_COV out).

(** mk/run_regression.py:150-157 (run_one, spec_total) *)
Definition spec_total_in (out : string) : result (option Double.t) :=
  match search RE_TOTAL out with
  | Some m => rmap Some (Double.of_string (text_of_group 1 m))
  | None => Ok None
  end.

(** The last line that is not indented, of a client that died.
    mk/run_regression.py:135-160 (run_one, the note) *)
Definition died_note (out : string) : option string :=
  let lines := List.filter (fun ln => given (strip ln) && negb (String.prefix " " ln) &&
                                      negb (String.prefix (of_list [ascii_of_nat 9]) ln)) (splitlines out) in
  match lines with
  | [] => None
  | _ => Some ("python client died: " +:+ clip 90 (List.last lines EmptyString))
  end.

Section runs.
Context {T : Type} (zero : T) (show_time : T -> string).
(** The files under the simulation directory, and running a command there. *)
Context (exists_file : string -> bool) (launch : list string -> Z -> Process.t T).
Context (sim : string).

Definition in_sim (path : string) : string :=
  if String.prefix "/" path then path else sim +:+ "/" +:+ path.

Definition elf_of (d : Defaults.t) (t : Test.t) : option string :=
  match Test.elf t with Some e => Some e | None => Defaults.elf d end.

(** An ELF that is named.
    mk/run_regression.py:69-69 (run_one, elf) *)
Definition elf_given (d : Defaults.t) (t : Test.t) : option string :=
  match elf_of d t with Some e => if given e then Some e else None | None => None end.

Definition expect_of (d : Defaults.t) (t : Test.t) : string :=
  match Test.expect t with Some e => e | None => default "pass" (Defaults.expect d) end.

(** The first input that is missing.
    mk/run_regression.py:77-83 (run_one, the inputs) *)
Definition missing_input (d : Defaults.t) (t : Test.t) : option string :=
  let missing (path what : string) :=
    if exists_file (in_sim path) then None
    else Some ("missing " +:+ what +:+ ": " +:+ in_sim path) in
  or_else (missing (Test.config t) "config")
          (match elf_given d t with Some e => missing e "ELF" | None => None end).

(** mk/run_regression.py:85-91 (run_one, cmd) *)
Definition command_of (d : Defaults.t) (coverage : bool) (t : Test.t) : list string :=
  ["make"; if coverage then "soc_test_cov" else "soc_test"; "CFG_FILE=" +:+ Test.config t] ++
  (match elf_given d t with Some e => ["ELF=" +:+ e] | None => [] end) ++
  (match Test.plusargs t with [] => [] | l => ["PLUSARGS=" +:+ String.concat " " l] end).

(** The log of the run, and the result.
    mk/run_regression.py:66-161 (run_one) *)
Definition run_one (d : Defaults.t) (coverage : bool) (t : Test.t)
    : option (string * string) * result (Outcome.t T) :=
  match missing_input d t with
  | Some note =>
      (None, Ok (Outcome.mk (Test.name t) "error" zero "-" 0 [] None (expect_of d t) (Test.covers t)
                            (Some note)))
  | None =>
      let timeout := match Test.timeout_s t with
                     | Some s => s
                     | None => default 900 (Defaults.timeout_s d)
                     end in
      let p := launch (command_of d coverage t) timeout in
      let out := Process.output p in
      (Some (sim +:+ "/sim_outputs/" +:+ Test.name t +:+ "/regress.log", out),
       try cov <- coverage_in out;;
       try total <- spec_total_in out;;
       Ok (Outcome.mk (Test.name t) (judge_run out (Process.timed_out p)) (Process.elapsed p)
                      (steps_in out) (uvm_errors_in out) cov total (expect_of d t) (Test.covers t)
                      (if client_died out then died_note out else None)))
  end.

(** ** The suite *)

(** The tests named, and those asked for that are none.
    mk/run_regression.py:181-187 (main, the selection) *)
Definition selected (only : option string) (l : list Test.t) : list Test.t * list string :=
  match only with
  | Some names =>
      if given names then
        let want := split_at "," names in
        (List.filter (fun t => existsb (String.eqb (Test.name t)) want) l,
         sorted_set (List.filter (fun n => negb (existsb (fun t => String.eqb (Test.name t) n) l)) want))
      else (l, [])
  | None => (l, [])
  end.

(** A result that is not the one expected.
    mk/run_regression.py:209-209 (main, changed) *)
Definition changed (r : Outcome.t T) : bool := negb (String.eqb (Outcome.result r) (Outcome.expect r)).

(** The best coverage of each point over all the runs.
    mk/run_regression.py:227-230 (main, merged) *)
Definition merged (results : list (Outcome.t T)) : list (string * Double.t) :=
  fold_left (fun m r =>
    fold_left (fun m '(k, v) => put k (Double.max (dict_get m k (Double.mk 0 0)) v) m) (Outcome.coverage r) m)
    results [].

(** The keys of a dictionary, sorted. *)
Definition sorted_keys {V} (d : list (string * V)) : list string := merge_sort str_le (map fst d).

(** The number of runs of each result.
    mk/run_regression.py:216-218 (main, by) *)
Definition by_result (results : list (Outcome.t T)) : list (string * Z) :=
  fold_left (fun by_ r => put (Outcome.result r) (dict_get by_ (Outcome.result r) 0 + 1) by_) results [].

(** mk/run_regression.py:200-206 (main, the line of a run) *)
Definition progress (i n : Z) (r : Outcome.t T) : string :=
  "[" +:+ pretty i +:+ "/" +:+ pretty n +:+ "] " +:+ Outcome.name r +:+ " ... " +:+
  ljust 8 (Outcome.result r) +:+ " " +:+ rjust 7 (Outcome.steps r) +:+ "  " +:+
  rjust 6 (show_time (Outcome.elapsed r)) +:+ "s" +:+
  (if changed r then "  <-- CHANGED" else EmptyString) +:+
  (match Outcome.note r with Some n => if given n then "  " +:+ n else EmptyString | None => EmptyString end).

(** mk/run_regression.py:210-214 (main, the verdict table) *)
Definition table_line (r : Outcome.t T) : string :=
  ljust 24 (Outcome.name r) +:+ " " +:+ ljust 9 (Outcome.result r) +:+ " " +:+
  ljust 9 (Outcome.expect r) +:+ " " +:+ rjust 7 (Outcome.steps r) +:+ " " +:+
  rjust 7 (pretty (Outcome.uvm_errors r)).

Definition percent (x : Double.t) : string := Double.fixed2 x.

(** The mean of some numbers; how Python rounds their sum depends on its version. *)
Context (mean : list Double.t -> Double.t).

(** mk/run_regression.py:231-241 (main, the functional coverage) *)
Definition coverage_lines (m : list (string * Double.t)) : list string :=
  match m with
  | [] => []
  | _ =>
      [newline_text +:+ "=== functional coverage, best across the suite ===";
       "(per-run maxima -- a LOWER BOUND on merged coverage; two runs";
       " hitting different bins of one coverpoint credit only the higher)"] ++
      map (fun k =>
        let v := dict_get m k (Double.mk 0 0) in
        "  " +:+ ljust 26 k +:+ " " +:+ rjust 6 (percent v) +:+ "%  " +:+
        of_list (repeat "#"%char (Z.to_nat (Double.int_div v 5)))) (sorted_keys m) ++
      (match List.filter (fun '(k, _) => String.prefix "cp_" k) m with
       | [] => []
       | cps => [newline_text +:+ "  mean over " +:+ count_of cps +:+ " coverpoints: " +:+
                 rjust 6 (percent (mean (map snd cps))) +:+ "%"]
       end)
  end.

(** mk/run_regression.py:243-249 (main, the changed tests) *)
Definition changed_lines (l : list (Outcome.t T)) : list string :=
  match l with
  | [] => []
  | _ =>
      [newline_text +:+ count_of l +:+ " test(s) differ from expected:"] ++
      map (fun r => "  " +:+ Outcome.name r +:+ ": expected " +:+ Outcome.expect r +:+ ", got " +:+
                    Outcome.result r) l ++
      [newline_text +:+ "That is what this regression is for. Either the RTL changed, or";
       "regression.yaml's `expect` is stale -- update it deliberately, not";
       "to make the run green."]
  end.

(** mk/run_regression.py:258-281 (write_report) *)
Definition write_report (today suite : string) (results : list (Outcome.t T)) (coverage : bool) : string :=
  lines_text
    (["# " +:+ suite +:+ " — regression report"; EmptyString; "Generated " +:+ today +:+ "."; EmptyString;
      "| Test | Result | Expected | Steps | UVM errors | Covers |"; "|---|---|---|---:|---:|---|"] ++
     map (fun r =>
       "| " +:+ Outcome.name r +:+ " | " +:+ Outcome.result r +:+
       (if changed r then " ⚠" else EmptyString) +:+ " | " +:+ Outcome.expect r +:+ " | " +:+
       Outcome.steps r +:+ " | " +:+ pretty (Outcome.uvm_errors r) +:+ " | " +:+
       String.concat ", " (map (fun c => "`" +:+ c +:+ "`") (take 4 (Outcome.covers r))) +:+ " |") results ++
     (if coverage then
        [EmptyString; "## Functional coverage"; EmptyString;
         "Per-run maxima across the suite — a **lower bound** on merged";
         "coverage, because two runs hitting different bins of one";
         "coverpoint credit only the higher. A true merge needs `imc`."; EmptyString;
         "| Coverpoint | Best |"; "|---|---:|"] ++
        map (fun k => "| `" +:+ k +:+ "` | " +:+ percent (dict_get (merged results) k (Double.mk 0 0)) +:+
                      "% |") (sorted_keys (merged results))
      else [])).

(** The options of a run. *)
Record Args := mk_args { only : option string; with_coverage : bool; list_only : bool; report : option string }.

(** What a run leaves: the logs and the report it wrote, what it printed, what it printed
    on the standard error, and its exit status. *)
Record Left := mk_left {
  files : list (string * string); printed : list string; errors : string; status : Z
}.

(** The runs, in order; one that cannot be judged ends them.
    mk/run_regression.py:198-206 (main, the runs) *)
Fixpoint run_all (d : Defaults.t) (coverage : bool) (l : list Test.t)
    : list (string * string) * result (list (Outcome.t T)) :=
  match l with
  | [] => ([], Ok [])
  | t :: l =>
      let '(log, r) := run_one d coverage t in
      let logs := match log with Some f => [f] | None => [] end in
      match r with
      | Raise e => (logs, Raise e)
      | Ok r => let '(logs', rs) := run_all d coverage l in (logs ++ logs', rmap (cons r) rs)
      end
  end.

(** mk/run_regression.py:164-255 (main) *)
Definition main (today : string) (a : Args) (suite : Suite) : result Left :=
  let '(ts, missing) := selected (only a) (tests suite) in
  match missing with
  | _ :: _ =>
      Ok (mk_left [] [] ("unknown test(s): " +:+ String.concat ", " missing +:+ newline_text) 1)
  | [] =>
      if list_only a then
        Ok (mk_left [] ((suite_name suite +:+ ": " +:+ count_of ts +:+ " test(s)") ::
             map (fun t => "  " +:+ ljust 24 (Test.name t) +:+ " " +:+
                           ljust 8 (default "pass" (Test.expect t)) +:+ " " +:+ Test.config t) ts) EmptyString 0)
      else
        let '(logs, rs) := run_all (defaults suite) (with_coverage a) ts in
        try results <- rs;;
        let bad := List.filter changed results in
        let rep := match report a with
                   | Some path => if given path
                                  then [(path, write_report today (suite_name suite) results (with_coverage a))]
                                  else []
                   | None => []
                   end in
        Ok (mk_left (logs ++ rep)
              (["=== " +:+ suite_name suite +:+ " -- " +:+ count_of ts +:+ " test(s), " +:+
                (if with_coverage a then "with" else "without") +:+ " coverage ===" +:+ newline_text] ++
               imap (fun i r => progress (Z.of_nat i + 1) (Z.of_nat (length ts)) r) results ++
               [newline_text +:+ ljust 24 "test" +:+ " " +:+ ljust 9 "result" +:+ " " +:+
                ljust 9 "expected" +:+ " " +:+ rjust 7 "steps" +:+ " " +:+ rjust 7 "errors";
                of_list (repeat "-"%char 62)] ++
               map table_line results ++
               [newline_text +:+ String.concat ", "
                  (map (fun k => k +:+ "=" +:+ pretty (dict_get (by_result results) k 0))
                       (sorted_keys (by_result results)))] ++
               (if with_coverage a then coverage_lines (merged results) else []) ++
               changed_lines bad ++
               (match rep with (path, _) :: _ => [newline_text +:+ "wrote " +:+ path] | [] => [] end))
              EmptyString (match bad with [] => 0 | _ => 1 end))
  end.

End runs.
