(* ===== verification/RegressionSound.v ===== *)
(** What [mk/run_regression.py] makes of a run, and what its exit status means. *)

From Stdlib Require Import Ascii.
From S2P Require OpenOcd OpenOcdSound.
From S2P Require Import Prelude DutConfig Session Text Regex Reports Floats Reconcile Regression.

Local Open Scope string_scope.
Local Open Scope list_scope.
Local Open Scope Z_scope.

(** ** Running a pattern over known text *)

(** A literal text, then the rest of a pattern. *)
Definition literal (w : list ascii) (r : regex) : regex :=
  fold_right (fun c r => Seq (Chr (Ascii.eqb c)) r) r w.

Section known.
Context {A : Type}.
Implicit Type (k : cont (A := A)).

Lemma run_literal w r before rest g k :
  run (literal w r) (before, w ++ rest) g k = run r (rev w ++ before, rest) g k.
Proof.
  revert before. induction w as [|c w IH]; intros before; [done|].
  change (literal (c :: w) r) with (Seq (Chr (Ascii.eqb c)) (literal w r)). cbn [run app].
  rewrite Ascii.eqb_refl, IH. cbn [rev]. by rewrite <-app_assoc.
Qed.

(** A text that does not start with the literal is no match. *)
Fixpoint starts_with (w l : list ascii) : bool :=
  match w, l with
  | [], _ => true
  | c :: w, d :: l => Ascii.eqb c d && starts_with w l
  | _ :: _, [] => false
  end.

Lemma run_literal_none w r before l g k :
  starts_with w l = false -> run (literal w r) (before, l) g k = None.
Proof.
  revert before l. induction w as [|c w IH]; intros before l Hs; [done|].
  change (literal (c :: w) r) with (Seq (Chr (Ascii.eqb c)) (literal w r)). cbn [run].
  destruct l as [|d l]; [done|]. cbn [starts_with] in Hs.
  destruct (Ascii.eqb c d); [|done]. by apply IH.
Qed.

(** What the next character is not. *)
Definition stops (f : ascii -> bool) (rest : list ascii) : Prop :=
  match rest with c :: _ => f c = false | [] => True end.

(** A greedy run of a class takes all there is, if the rest then matches. *)
Lemma star_class f ds rest fuel before g k x :
  forallb f ds = true -> stops f rest -> (length ds <= fuel)%nat ->
  k (rev ds ++ before, rest) g = Some x ->
  star (run (Chr f)) true fuel (before, ds ++ rest) g k = Some x.
Proof.
  intros Hd Hr. revert fuel before. induction ds as [|d ds IH]; intros fuel before Hf Hk.
  - destruct fuel; cbn [star app rev] in *; [exact Hk|].
    destruct rest as [|c rest]; cbn [run or_else]; [exact Hk|]. cbn [stops] in Hr. by rewrite Hr.
  - cbn [forallb] in Hd. apply andb_prop in Hd as [H1 H2]. destruct fuel as [|fuel]; [cbn in Hf; lia|].
    cbn [star app run]. rewrite H1. cbn [snd length]. rewrite (proj2 (Nat.ltb_lt _ _)) by lia.
    rewrite IH; [done|done|cbn in Hf; lia|]. cbn [rev] in Hk. by rewrite <-app_assoc in Hk.
Qed.

(** [f+], the same. *)
Lemma plus_class f d ds rest before g k x :
  forallb f (d :: ds) = true -> stops f rest -> k (rev (d :: ds) ++ before, rest) g = Some x ->
  run (Seq (Chr f) (Star true (Chr f))) (before, (d :: ds) ++ rest) g k = Some x.
Proof.
  intros Hd Hr Hk. pose proof Hd as Hd'. cbn [forallb] in Hd'. apply andb_prop in Hd' as [H1 H2].
  cbn [run app]. rewrite H1. apply star_class; try done.
  - cbn [snd]. rewrite length_app. lia.
  - cbn [rev] in Hk. by rewrite <-app_assoc in Hk.
Qed.

End known.

(** ** The verdict *)

Definition digits_pattern : regex := Seq (Chr Regex.digit) (Star true (Chr Regex.digit)).

Lemma verdict_pattern :
  RE_VERDICT =
  literal (chars "Session complete")
    (Seq (Star true (Chr Int.space)) (Seq (Chr (Ascii.eqb "-")) (Seq (Star true (Chr Int.space))
      (Seq (Group 1 digits_pattern) (Seq (Chr (Ascii.eqb "/"))
        (Seq (Group 2 digits_pattern) (Seq (Star true (Chr Int.space)) (literal (chars "passe") (Chr (Ascii.eqb "d")))))))))).
Proof. reflexivity. Qed.

Definition verdict_line (p t : list ascii) : list ascii :=
  chars "Session complete - " ++ p ++ chars "/" ++ t ++ chars " passed".

Lemma between_prefix b b' (l rest : list ascii) : between (b, l ++ rest) (b', rest) = l.
Proof. unfold between. cbn [snd]. rewrite length_app. by rewrite Nat.add_sub, take_app_length. Qed.

(** At the verdict, the pattern matches, and its groups are the two numbers. *)
Lemma verdict_match before p t rest :
  forallb Regex.digit p = true -> forallb Regex.digit t = true -> p <> [] -> t <> [] ->
  exists s', match_at RE_VERDICT (before, verdict_line p t ++ rest) =
             Some (mk_match (before, verdict_line p t ++ rest) s' [(2%nat, t); (1%nat, p)]).
Proof.
  intros Hp Ht Hpn Htn. destruct p as [|p0 p]; [done|]. destruct t as [|t0 t]; [done|].
  unfold match_at. rewrite verdict_pattern.
  set (k := fun s' g => Some (mk_match (before, verdict_line (p0 :: p) (t0 :: t) ++ rest) s' g)).
  assert (verdict_line (p0 :: p) (t0 :: t) ++ rest =
          chars "Session complete" ++ [" "%char] ++ "-"%char :: [" "%char] ++ (p0 :: p) ++ "/"%char ::
          (t0 :: t) ++ [" "%char] ++ chars "passe" ++ "d"%char :: rest) as E.
  { unfold verdict_line. cbn. rewrite <-app_assoc. cbn. rewrite <-app_assoc. reflexivity. }
  eexists. rewrite E at 1. rewrite run_literal. cbn [run]. apply star_class; [done|done|cbn; lia|].
  cbn [run]. rewrite Ascii.eqb_refl. apply star_class; [done| |cbn; lia|].
  { cbn. apply andb_prop in Hp as [H0 _]. clear - H0. destruct p0 as [[] [] [] [] [] [] [] []]; done. }
  refine (plus_class _ p0 p _ _ _ _ _ Hp _ _); [done|]. cbv beta. cbn [run]. rewrite Ascii.eqb_refl.
  refine (plus_class _ t0 t _ _ _ _ _ Ht _ _); [done|]. cbv beta.
  rewrite !between_prefix. apply star_class; [done|done|cbn; lia|].
  rewrite run_literal. cbn [run]. rewrite Ascii.eqb_refl. unfold k. reflexivity.
Qed.

(** Before the verdict the text says nothing of a session complete. *)
Definition unmarked (pre rest : list ascii) : Prop :=
  forall l l', pre = l ++ l' -> l' <> [] -> starts_with (chars "Session complete") (l' ++ rest) = false.

Lemma search_skips pre rest before :
  unmarked pre rest ->
  search_from RE_VERDICT before (pre ++ rest) = search_from RE_VERDICT (rev pre ++ before) rest.
Proof.
  revert before. induction pre as [|c pre IH]; intros before Hu; [done|].
  cbn [app search_from]. unfold match_at at 1. rewrite verdict_pattern at 1.
  rewrite run_literal_none by (by apply (Hu [] (c :: pre))). cbn [or_else].
  rewrite IH by (intros l l' -> Hl; by apply (Hu (c :: l) l')). cbn [rev]. by rewrite <-app_assoc.
Qed.

Lemma search_verdict pre p t rest :
  forallb Regex.digit p = true -> forallb Regex.digit t = true -> p <> [] -> t <> [] ->
  unmarked pre (verdict_line p t ++ rest) ->
  exists s s', search RE_VERDICT (of_list (pre ++ verdict_line p t ++ rest)) =
               Some (mk_match s s' [(2%nat, t); (1%nat, p)]).
Proof.
  intros Hp Ht Hpn Htn Hu. unfold search, chars, of_list.
  rewrite String.list_ascii_of_string_of_list_ascii, search_skips by done.
  destruct (verdict_match (rev pre ++ []) p t rest) as [s' Hm]; [done..|].
  destruct (verdict_line p t ++ rest); cbn [search_from]; rewrite Hm; cbn [or_else]; eauto.
Qed.

(** ** The session's summary *)

Lemma text_app (a b : string) : chars (a +:+ b) = chars a ++ chars b.
Proof. apply OpenOcdSound.chars_app. Qed.

Lemma text_of_chars s : of_list (chars s) = s.
Proof. apply String.string_of_list_ascii_of_string. Qed.

Lemma prefix_starts w s : String.prefix w s = starts_with (chars w) (chars s).
Proof.
  revert s. induction w as [|c w IH]; intros [|d s]; try done. cbn.
  destruct (Ascii.ascii_dec c d) as [->|Hn]; [by rewrite Ascii.eqb_refl, IH|].
  by rewrite (proj2 (Ascii.eqb_neq _ _)).
Qed.

Lemma contains_spec w s :
  contains w s = true <-> exists l l', chars s = l ++ l' /\ starts_with (chars w) l' = true.
Proof.
  induction s as [|c s IH]; cbn [contains]; rewrite orb_true_iff, prefix_starts.
  - split; [intros [H|H]; [by exists [], []|done]|].
    intros (l & l' & E & H). symmetry in E. apply app_eq_nil in E as [-> ->]. by left.
  - rewrite IH. split.
    + intros [H|(l & l' & E & H)]; [by exists [], (chars (String c s))|]. exists (c :: l), l'. split; [|done].
      exact (f_equal (cons c) E).
    + change (chars (String c s)) with (c :: chars s) in *.
      intros ([|d l] & l' & E & H); cbn in E; [left; by subst l'|right]. injection E as <- E. by exists l, l'.
Qed.

Lemma starts_app w a b : starts_with w a = true -> starts_with w (a ++ b) = true.
Proof.
  revert a. induction w as [|c w IH]; intros [|d a]; try done. cbn. intros [-> H]%andb_prop. by apply IH.
Qed.

(** A word that starts before a character it does not have ends before it. *)
Lemma starts_before w a c b :
  forallb (fun x => negb (Ascii.eqb x c)) w = true -> starts_with w (a ++ c :: b) = true ->
  starts_with w a = true.
Proof.
  revert a. induction w as [|x w IH]; intros a; [done|]. cbn [forallb]. intros [Hx Hw]%andb_prop.
  destruct a as [|y a]; cbn [app starts_with]; intros [H1 H2]%andb_prop.
  - by rewrite H1 in Hx.
  - rewrite H1. by apply IH.
Qed.

(** What is printed around the verdict. *)
Definition summary_head : list ascii := chars (newline +:+ DebugSession.doubles +:+ newline +:+ "  ").

Section summary.
Context {W : Type}.

Definition passed_of (s : DebugSession.t W) : list StepResult.t :=
  List.filter StepResult.ok (DebugSession._results s).

Definition summary_tail (s : DebugSession.t W) : string :=
  let total := Z.of_nat (length (DebugSession._results s)) in
  let failed := total - Z.of_nat (length (passed_of s)) in
  (if truthy failed then "  (" +:+ pretty failed +:+ " failed)" else EmptyString) +:+ newline +:+
  DebugSession.doubles +:+ newline +:+ newline.

Definition verdict_of (s : DebugSession.t W) : list ascii :=
  verdict_line (chars (pretty (Z.of_nat (length (passed_of s)))))
               (chars (pretty (Z.of_nat (length (DebugSession._results s))))).

(** The text printed: what came before, and the summary. *)
Lemma summary_printed (s : DebugSession.t W) (e : DebugSession.env W) :
  to_sink (DebugSession.output e) = false ->
  chars (stdout (DebugSession.output (DebugSession._print_summary s e))) =
  chars (stdout (DebugSession.output e)) ++ summary_head ++ verdict_of s ++ chars (summary_tail s).
Proof.
  intros Hs. unfold DebugSession._print_summary, summary_tail, summary_head, verdict_of, verdict_line.
  fold (passed_of s). cbv zeta.
  generalize DebugSession.doubles as bar. intros bar.
  generalize (Z.of_nat (length (passed_of s))) as p. generalize (Z.of_nat (length (DebugSession._results s))) as n.
  intros n p. generalize (if truthy (n - p) then "  (" +:+ pretty (n - p) +:+ " failed)" else EmptyString) as f.
  intros f. destruct e as [w [ts pend sk std] ins]. cbn in Hs |- *. subst ts. cbn.
  change String.list_ascii_of_string with chars. rewrite !text_app. cbn.
  repeat (rewrite <-app_assoc; cbn). reflexivity.
Qed.

(** The lines around the verdict say nothing of it, and neither does a log that does not. *)
Lemma unmarked_summary log l :
  contains "Session complete" log = false -> unmarked (chars log ++ summary_head) l.
Proof.
  intros Hc a b E Hb. apply not_true_iff_false. intros Hs.
  assert (forall h, In h summary_head -> Ascii.eqb "S" h = false) as Hh.
  { assert (forallb (fun h => negb (Ascii.eqb "S" h)) summary_head = true) as Ha by (by vm_compute).
    intros h Hin. rewrite forallb_forall in Ha. by apply negb_true_iff, Ha. }
  assert (forall c, (exists d, summary_head = d ++ c) -> c <> [] ->
    starts_with (chars "Session complete") (c ++ l) = false) as Hhead.
  { intros [|x c] [d Ed] Hne; [done|].
    change (Ascii.eqb "S" x && starts_with (chars "ession complete") (c ++ l) = false). rewrite Hh; [done|]. rewrite Ed. apply in_app_iff. right. by left. }
  apply app_eq_app in E as [c [[E1 E2]|[E1 E2]]].
  - destruct c as [|x c]; [rewrite app_nil_l in E2; subst b|].
    { rewrite Hhead in Hs; [done|by exists []|done]. }
    subst b. change summary_head with (ascii_of_nat 10 :: tl summary_head) in Hs. rewrite <-app_assoc in Hs.
    apply starts_before in Hs; [|done].
    assert (contains "Session complete" log = true) as Hc'; [|congruence].
    apply contains_spec. by exists a, (x :: c).
  - rewrite Hhead in Hs; [done|by exists c|done].
Qed.

Lemma digit_same c : OpenOcd.is_digit c = Regex.digit c.
Proof. destruct c as [[] [] [] [] [] [] [] []]; reflexivity. Qed.

Lemma number_digits n :
  forallb Regex.digit (chars (pretty (Z.of_nat n))) = true /\ chars (pretty (Z.of_nat n)) <> [] /\
  int_of (pretty (Z.of_nat n)) = Z.of_nat n.
Proof.
  destruct (OpenOcdSound.pretty_digits (Z.of_nat n) ltac:(lia)) as (Hd & Hv & Hn).
  split_and!; [|done|done]. rewrite forallb_forall in *. intros c Hc. rewrite <-digit_same. by apply Hd.
Qed.

Lemma all_passed_count (s : DebugSession.t W) :
  (length (passed_of s) =? length (DebugSession._results s))%nat = DebugSession.all_passed s.
Proof.
  unfold passed_of, DebugSession.all_passed. induction (DebugSession._results s) as [|r rs IH]; [done|].
  cbn [List.filter forallb length]. destruct (StepResult.ok r); cbn [length andb]; [exact IH|].
  apply Nat.eqb_neq. pose proof (List.filter_length_le StepResult.ok rs). cbn. lia.
Qed.


End summary.

