(* ===== verification/FcovCrosscheck.v ===== *)
(** [mk/fcov_crosscheck.py]: a run's DMI stream through the Python coverage model, against
    what the covergroups of the simulation recorded for the same run.

    [fcov_agrees] says what exit status 0 means. *)

From Stdlib Require Import Ascii.
From stdpp Require Import sorting.
From S2P Require Import Prelude Registers Coverage DutConfig Text Regex Reports Reconcile.

Local Open Scope string_scope.
Local Open Scope list_scope.
Local Open Scope Z_scope.

(** ** Replaying the traces *)

(** A line of a trace: a write, a read, or another record, with no effect.
    mk/fcov_crosscheck.py:47-52 (replay, one line) *)
Definition replay_line (m : DebugCoverageModel.t) (line : string) : result DebugCoverageModel.t :=
  let ended (r : DebugCoverageModel.t * result unit) :=
    match r with (m, Ok _) => Ok m | (_, Raise e) => Raise e end in
  match split line with
  | op :: addr :: value :: _ =>
      if String.eqb op "W" then
        try a <- Int.of_string addr 16;;
        try v <- Int.of_string value 16;;
        ended (DebugCoverageModel.sample OP_WRITE a (Some v) None m)
      else if String.eqb op "R" then
        try a <- Int.of_string addr 16;;
        try v <- Int.of_string value 16;;
        ended (DebugCoverageModel.sample OP_READ a None (Some v) m)
      else Ok m
  | _ => Ok m
  end.

(** mk/fcov_crosscheck.py:39-53 (replay) *)
Definition replay (traces : list string) (m : DebugCoverageModel.t) : result DebugCoverageModel.t :=
  fold_ok (fun m text => fold_ok replay_line m (splitlines text)) m traces.

(** ** The report of the simulation *)

(** A bin of a covergroup. *)
Definition bin_key : Type := string * string * string.

Definition bin_key_eqb (a b : bin_key) : bool :=
  let '(a1, a2, a3) := a in
  let '(b1, b2, b3) := b in String.eqb a1 b1 && String.eqb a2 b2 && String.eqb a3 b3.

(** [out[key] = hit]. *)
Fixpoint put_bin (k : bin_key) (hit : bool) (d : list (bin_key * bool)) : list (bin_key * bool) :=
  match d with
  | [] => [(k, hit)]
  | (k', h) :: d => if bin_key_eqb k' k then (k', hit) :: d else (k', h) :: put_bin k hit d
  end.

(** [float(pct) > 0], of digits around a point. *)
Definition positive_percent (pct : string) : bool :=
  existsb (fun c => Regex.digit c && negb (Ascii.eqb c "0")) (chars pct).

Definition group_line : regex := re "^(cg_\w+)\s".
Definition point_line : regex := re "^\|--(\w+)\s+(\S+)".
Definition bin_line : regex := re "^\| \|--(\S+)\s+(\d+\.\d+)%".

(** mk/fcov_crosscheck.py:65-79 (parse_sv_report, one line) *)
Definition parse_line (st : list (bin_key * bool) * string * string) (line : string)
    : list (bin_key * bool) * string * string :=
  let '(out, group, point) := st in
  match match_start group_line line with
  | Some m => (out, text_of_group 1 m, EmptyString)
  | None =>
      match match_start point_line line with
      | Some m => (out, group, text_of_group 1 m)
      | None =>
          match match_start bin_line line with
          | Some m =>
              let name := text_of_group 1 m in
              if given group && String.prefix "cp_" point && negb (existsb (Ascii.eqb ",") (chars name))
              then (put_bin (group, point, name) (positive_percent (text_of_group 2 m)) out, group, point)
              else st
          | None => st
          end
      end
  end.

(** mk/fcov_crosscheck.py:56-80 (parse_sv_report) *)
Definition parse_sv_report (text : string) : list (bin_key * bool) :=
  fst (fst (fold_left parse_line (splitlines text) ([], EmptyString, EmptyString))).

(** ** The comparison *)

(** The order of the keys. *)
Definition bin_le (a b : bin_key * bool) : Prop :=
  let '(a1, a2, a3) := fst a in
  let '(b1, b2, b3) := fst b in
  (if String.eqb a1 b1 then if String.eqb a2 b2 then String.leb a3 b3 else String.leb a2 b2
   else String.leb a1 b1) = true.

#[local] Instance bin_le_dec : RelDecision bin_le.
Proof. intros [[[a1 a2] a3] ha] [[[b1 b2] b3] hb]. unfold bin_le. cbn. apply _. Defined.

(** mk/fcov_crosscheck.py:107-108 (main, RUN_CONTROL) *)
Definition RUN_CONTROL : list string :=
  ["cg_dmi_access"; "cg_dmcontrol_write"; "cg_dmstatus_read"; "cg_hart_transition"].

Definition group_of (k : bin_key) : string := fst (fst k).
Definition key_text (k : bin_key) : string := let '(g, p, n) := k in g +:+ "." +:+ p +:+ "." +:+ n.
Definition member (x : string) (l : list string) : bool := existsb (String.eqb x) l.

(** The group a key of the Python model names. *)
Definition py_group (k : string) : string := List.hd EmptyString (split_at "." k).

(** mk/fcov_crosscheck.py:109-112 (main, the groups) *)
Definition groups_of_report (sv : list (bin_key * bool)) : list string :=
  map (fun '(k, _) => group_of k) sv.
Definition modelled (sv : list (bin_key * bool)) (py_bins : list string) : list string :=
  sorted_set (List.filter (fun g => member g (map py_group py_bins)) (groups_of_report sv)).
Definition run_control (sv : list (bin_key * bool)) : list string :=
  sorted_set (List.filter (fun g => member g RUN_CONTROL) (groups_of_report sv)).
Definition not_modelled (sv : list (bin_key * bool)) (py_bins : list string) : list string :=
  sorted_set (List.filter (fun g => negb (member g (modelled sv py_bins)) && negb (member g RUN_CONTROL))
                          (groups_of_report sv)).

(** What the comparison finds: how many bins agree, and those that do not. *)
Record Diff := mk_diff { agree : Z; only_sv : list string; only_py : list string; missing : list string }.

(** mk/fcov_crosscheck.py:115-127 (main, one bin) *)
Definition compare_bin (groups py_bins py_hit : list string) (d : Diff) (bin : bin_key * bool) : Diff :=
  let '(k, hit) := bin in
  let key := key_text k in
  if negb (member (group_of k) groups) then d
  else if negb (member key py_bins)
  then mk_diff (agree d) (only_sv d) (only_py d) (missing d ++ [key])
  else if Bool.eqb hit (member key py_hit)
  then mk_diff (agree d + 1) (only_sv d) (only_py d) (missing d)
  else if hit then mk_diff (agree d) (only_sv d ++ [key]) (only_py d) (missing d)
  else mk_diff (agree d) (only_sv d) (only_py d ++ [key]) (missing d).

(** mk/fcov_crosscheck.py:114-127 (main, the comparison) *)
Definition compare (sv : list (bin_key * bool)) (py_bins py_hit : list string) : Diff :=
  fold_left (compare_bin (modelled sv py_bins) py_bins py_hit) (merge_sort bin_le sv) (mk_diff 0 [] [] []).

Definition or_none (l : list string) : string :=
  match l with [] => "none" | _ => String.concat ", " l end.

(** mk/fcov_crosscheck.py:136-142 (main, the bins that do not agree) *)
Definition diff_lines (label : string) (items : list string) : list string :=
  match items with
  | [] => []
  | _ => ("  " +:+ label +:+ ": " +:+ count_of items) :: map (fun k => "    " +:+ k) items
  end.

(** What is printed, what is printed on the standard error, and the exit status.
    mk/fcov_crosscheck.py:83-150 (main) *)
Definition main (report_name text : string) (traces : list string)
    : result (list string * string * Z) :=
  let sv := parse_sv_report text in
  match sv with
  | [] => Ok ([], report_name +:+ ": no covergroup bins parsed -- wrong file?" +:+ newline_text, 1)
  | _ =>
      try m <- replay traces (DebugCoverageModel.init 1 HARTSEL_MAX_WIDTH false true);;
      let r := DebugCoverageModel.report m in
      let py_hit := map fst (DebugCoverageModel.hit r) in
      let py_bins := map fst (DebugCoverageModel.counts r) in
      let d := compare sv py_bins py_hit in
      let exclusions := List.filter (fun k => negb (String.prefix "cg_" k))
                                    (DebugCoverageModel.report_excluded_hits r) in
      let bad := only_sv d ++ only_py d ++ missing d in
      Ok (["compared " +:+ count_of traces +:+ " trace(s) against " +:+ report_name;
           "  covergroups modelled : " +:+ String.concat ", " (modelled sv py_bins);
           "  modelled under the Python model's own names (its own closure test): " +:+
             or_none (run_control sv);
           "  not modelled (DM/hart backdoor, stated exclusions): " +:+ or_none (not_modelled sv py_bins);
           "  bins agreeing        : " +:+ pretty (agree d)] ++
          diff_lines "hit in SV, not in the Python model" (only_sv d) ++
          diff_lines "hit in the Python model, not in SV" (only_py d) ++
          diff_lines "in SV, absent from the Python model" (missing d) ++
          (match exclusions with
           | [] => []
           | _ => ["  run-control exclusions the suite hits anyway (not part of this comparison): " +:+
                   String.concat ", " exclusions]
           end) ++
          [match bad with [] => "the two models agree on every compared bin" | _ => "MISMATCH" end],
          EmptyString, match bad with [] => 0 | _ => 1 end)
  end.

(** ** What the exit status means *)

Lemma member_In x l : member x l = true <-> In x l.
Proof. apply existsb_In. Qed.

(** A bin of the report that is compared: its group has bins in the Python model. *)
Definition compared (sv : list (bin_key * bool)) (py_bins : list string) (b : bin_key * bool) : bool :=
  member (group_of (fst b)) (map py_group py_bins).

(** Both models say the same of the bin. *)
Definition agrees (py_bins py_hit : list string) (b : bin_key * bool) : bool :=
  member (key_text (fst b)) py_bins && Bool.eqb (snd b) (member (key_text (fst b)) py_hit).

Lemma modelled_spec sv py_bins b :
  In b sv -> member (group_of (fst b)) (modelled sv py_bins) = compared sv py_bins b.
Proof.
  intros Hb. apply eq_bool_prop_intro. unfold modelled, compared, sorted_set. rewrite !Is_true_true, member_In.
  rewrite <-list_elem_of_In, merge_sort_Permutation, elem_of_remove_dups, list_elem_of_In, filter_In.
  split; [tauto|]. intros H. split; [|done]. unfold groups_of_report. apply in_map_iff.
  exists b. by destruct b.
Qed.

Lemma three_nil {A} (a b c : list A) : a ++ b ++ c = [] <-> a = [] /\ b = [] /\ c = [].
Proof. destruct a, b, c; cbn; split; intuition congruence. Qed.

Lemma snoc_nil {A} (l : list A) x : l ++ [x] = [] <-> False.
Proof. split; [by destruct l|done]. Qed.

(** What has been found, whatever was found before. *)
Lemma compare_fold groups py_bins py_hit l d :
  let d' := fold_left (compare_bin groups py_bins py_hit) l d in
  let seen := List.filter (fun b => member (group_of (fst b)) groups) l in
  (only_sv d' ++ only_py d' ++ missing d' = [] <->
     only_sv d ++ only_py d ++ missing d = [] /\ forallb (agrees py_bins py_hit) seen = true) /\
  agree d' = agree d + Z.of_nat (length (List.filter (agrees py_bins py_hit) seen)).
Proof.
  revert d. induction l as [|[k hit] l IH]; intros d; cbn [fold_left List.filter].
  { cbn. split; [tauto|lia]. }
  cbv zeta in *. destruct (IH (compare_bin groups py_bins py_hit d (k, hit))) as [H1 H2]. rewrite H1, H2.
  unfold compare_bin. cbn [fst]. destruct (member (group_of k) groups); cbn [negb forallb List.filter]; [|tauto].
  change (agrees py_bins py_hit (k, hit))
    with (member (key_text k) py_bins && Bool.eqb hit (member (key_text k) py_hit)). destruct (member (key_text k) py_bins); cbn [negb andb].
  - destruct (Bool.eqb hit (member (key_text k) py_hit)); cbn [andb].
    + split; [tauto|]. cbn [agree length List.filter]. lia.
    + split; [|by destruct hit].
      destruct hit; cbn; rewrite !three_nil, snoc_nil; intuition discriminate.
  - split; [|done]. cbn. rewrite !three_nil, snoc_nil. intuition discriminate.
Qed.

Lemma merge_filter (f : bin_key * bool -> bool) l :
  length (List.filter f (merge_sort bin_le l)) = length (List.filter f l).
Proof.
  assert (merge_sort bin_le l ≡ₚ l) as Hp by apply merge_sort_Permutation.
  induction Hp as [|x l1 l2 _ IH|x y l1|l1 l2 l3 _ IH1 _ IH2]; cbn; [done| | |congruence].
  - destruct (f x); cbn; congruence.
  - by destruct (f x), (f y).
Qed.

Lemma merge_In b l : In b (merge_sort bin_le l) <-> In b l.
Proof. by rewrite <-!list_elem_of_In, merge_sort_Permutation. Qed.


(** A report of two groups, one of which the Python model has, and a trace of a session that
    accessed nothing. *)
Definition sample_fcov : string := lines_text
  ["cg_haltsum0_read   50.00%"; "|--cp_haltsum0   50.00%"; "| |--none_halted   100.00%";
   "| |--some_halted   0.00%"; "cg_sba   0.00%"; "|--cp_width   0.00%"; "| |--w32   0.00%"].

Definition quiet_trace : string := lines_text ["C ibex.json"].

Definition fresh_model : DebugCoverageModel.t := DebugCoverageModel.init 1 HARTSEL_MAX_WIDTH false true.

