(* ===== verification/CovSummary.v ===== *)
(** [mk/dm_cov_summary.py]: one table from the coverage counts of the instances.

    [totals_are_sums] says that the last line is the sum of the ones above it. *)

From Stdlib Require Import Ascii.
From S2P Require Import Prelude Text Regex Reports Floats Regression.

Local Open Scope string_scope.
Local Open Scope list_scope.
Local Open Scope Z_scope.

(** A metric: its name, and the patterns of its counts and of its exclusions. *)
Record Metric := mk_metric { metric_name : string; covered_pattern : string; excluded_pattern : string }.

(** mk/dm_cov_summary.py:28-39 (METRICS) *)
Definition METRICS : list Metric :=
  [mk_metric "block" "Number of covered blocks:\s*(\d+) of (\d+)" "Number of excluded blocks:\s*(\d+)";
   mk_metric "expression" "Number of covered expressions:\s*(\d+) of (\d+)"
     "Number of excluded expressions:\s*(\d+)";
   mk_metric "toggle" "Number of covered signal bits:\s*(\d+) of (\d+)"
     "Number of excluded signal bits:\s*(\d+)";
   mk_metric "fsm state" "Number of covered states:\s*(\d+) of (\d+)"
     "Number of excluded states:\s*(\d+)";
   mk_metric "fsm transition" "Number of covered transitions:\s*(\d+) of (\d+)"
     "Number of excluded transitions:\s*(\d+)"].

(** Covered, of how many, and excluded. *)
Record Counts := mk_counts { hit_count : Z; of_count : Z; excl_count : Z }.

Definition plus (a b : Counts) : Counts :=
  mk_counts (hit_count a + hit_count b) (of_count a + of_count b) (excl_count a + excl_count b).

Definition no_counts : Counts := mk_counts 0 0 0.

(** mk/dm_cov_summary.py:56-58 (cell) *)
Definition cell (c : Counts) : string :=
  let pct := if truthy (of_count c)
             then rjust 6 (Double.fixed2 (Double.of_ratio (100 * hit_count c) (of_count c))) +:+ "%"
             else "   n/a" in
  pct +:+ " (" +:+ pretty (hit_count c) +:+ "/" +:+ pretty (of_count c) +:+
  (if truthy (excl_count c) then ", " +:+ pretty (excl_count c) +:+ " excl)" else ")").

(** What a section says of a metric, if it does.
    mk/dm_cov_summary.py:64-68 (main, the counts of a metric) *)
Definition counts_in (body : string) (m : Metric) : option Counts :=
  option_map (fun f =>
    mk_counts (int_of (text_of_group 1 f)) (int_of (text_of_group 2 f))
              (match search (re (excluded_pattern m)) body with
               | Some x => int_of (text_of_group 1 x)
               | None => 0
               end)) (search (re (covered_pattern m)) body).

(** The totals, one for each metric; a section that says nothing of it adds nothing.
    mk/dm_cov_summary.py:69-70 (main, the totals) *)
Definition add_counts (body : string) (totals : list (Metric * Counts)) : list (Metric * Counts) :=
  map (fun '(m, t) => (m, match counts_in body m with Some c => plus t c | None => t end)) totals.

(** [name.split(".", 2)[-1]]. *)
Definition short_name (name : string) : string :=
  match split_at "." name with
  | _ :: b :: c => match c with [] => b | _ => String.concat "." c end
  | [a] => a
  | [] => EmptyString
  end.

Definition dash : string := "—".

(** [f"{dash:>27}"]: the dash is one character wide. *)
Definition wide_dash : string := spaces 26 +:+ dash.

Definition shown (c : option Counts) : string :=
  match c with Some c => rjust 27 (cell c) | None => wide_dash end.

(** mk/dm_cov_summary.py:60-76 (main, the rows) *)
Definition rows (sections : list (string * string)) : list (string * list (option Counts)) :=
  map (fun '(name, body) => (short_name name, map (counts_in body) METRICS)) sections.
Definition totals (sections : list (string * string)) : list (Metric * Counts) :=
  fold_left (fun t '(_, body) => add_counts body t) sections (map (fun m => (m, no_counts)) METRICS).

(** What is printed, what is printed on the standard error, and the exit status.
    mk/dm_cov_summary.py:42-92 (main) *)
Definition main (title report_name : string) (report : option string) : list string * string * Z :=
  match report with
  | None => ([], "no such report: " +:+ report_name +:+ newline_text, 1)
  | Some report =>
      match _sections report with
      | [] => ([], report_name +:+ ": no '== <instance>' markers -- was this written by dm_cov.sh?" +:+
                   newline_text, 1)
      | sections =>
          let table := rows sections in
          let w := (foldr Nat.max 0%nat (map (fun r => String.length (fst r)) table) + 2)%nat in
          let hdr := ljust w "instance" +:+ String.concat EmptyString (map (fun m => rjust 27 (metric_name m)) METRICS) in
          let bar := of_list (repeat "-"%char (String.length hdr)) in
          ([newline_text +:+ "=== " +:+ title +:+ " ==="; hdr; bar] ++
           map (fun '(name, cells) => ljust w name +:+ String.concat EmptyString (map shown cells)) table ++
           [bar;
            ljust w "DEBUG SUBSYSTEM TOTAL" +:+
              String.concat EmptyString (map (fun '(_, t) =>
                if truthy (of_count t) then shown (Some t) else wide_dash) (totals sections));
            newline_text +:+ "Toggle is listed separately on purpose: it is dominated by wide buses";
            "whose upper bits a single-hart, 32-bit-DMI configuration never drives."], EmptyString, 0)
      end
  end.

(** The sum of the counts given. *)
Definition sum_counts (l : list (option Counts)) : Counts := foldl (fun t c => match c with Some c => plus t c | None => t end) no_counts l.

(** The column of a metric in the table. *)
Definition column (m : Metric) (sections : list (string * string)) : list (option Counts) :=
  map (fun '(_, body) => counts_in body m) sections.

(** The total of a metric is the sum of its column, over the instances that have it. *)
Theorem totals_are_sums sections :
  totals sections = map (fun m => (m, sum_counts (column m sections))) METRICS.
Proof.
  assert (forall ms, fold_left (fun t '(_, body) => add_counts body t) sections ms =
    map (fun '(m, t) => (m, foldl (fun t c => match c with Some c => plus t c | None => t end) t
                               (column m sections))) ms) as Hf.
  { induction sections as [|[name body] l IH]; intros ms; cbn [fold_left column map foldl].
    - rewrite <-(map_id ms) at 1. apply map_ext. by intros [].
    - rewrite IH. unfold add_counts. rewrite map_map. apply map_ext. by intros [m t]. }
  unfold totals. rewrite Hf, map_map. done.
Qed.

Example sample_summary :
  map snd (rows (_sections (lines_text ["== tb.dut.i_dm"; "Number of covered blocks: 29 of 30";
    "Number of excluded blocks: 4"; "== tb.dut.i_dm.i_csrs"; "Number of covered blocks: 1 of 3"])))
  = [[Some (mk_counts 29 30 4); None; None; None; None]; [Some (mk_counts 1 3 0); None; None; None; None]] /\
  cell (mk_counts 29 30 4) = " 96.67% (29/30, 4 excl)".
Proof. vm_compute. by split. Qed.
